(* ===== verification/_CoqProject ===== *)
-Q . S2P
Prelude.v
PyValue.v
Json.v
JsonFacts.v
MapSyntax.v
AffineFold.v
AffineFoldFacts.v
FoldMachine.v
FoldMachineFacts.v
FoldWire.v
FoldWireFacts.v
FoldLines.v
FoldLinesFacts.v
Project.v
Evidence.v
FoldSession.v
FoldDag.v
Numeric.v
NumericFacts.v
FoldDagFacts.v
DagRun.v
FoldChain.v
ChainRun.v
Grid.v
GridFacts.v
GridRun.v
GridWords.v
Array.v
ArrayPass.v
ArrayFacts.v
ArrayRun.v
Flow.v
FlowRun.v
FlowPlan.v
Fusion.v
FusionFacts.v
FusionBlock.v
FusionRun.v
FusionCost.v
Workspace.v
WorkspaceFacts.v
WorkspaceRun.v
StaticRegion.v
StaticRegionFacts.v
StaticRegionExact.v
Sha256.v
Sha256Facts.v
DeviceProgram.v
DeviceScheduleFacts.v
DeviceProgramFacts.v
DeviceRun.v
StaticRegionOracle.v
CommandGraph.v
CommandGraphFacts.v
CommandShell.v
CommandShellFacts.v
CommandCompile.v
CommandRun.v
CommandExec.v
CommandExecFacts.v
CommandExecRun.v
Tiling.v
TilingFacts.v
TilingRun.v
Completion.v
CompletionFacts.v
CompletionLog.v
CompletionRun.v
