(* ===== verification/Prelude.v ===== *)
(** * Raveil: a verification development

    Raveil compiles small bounded computations (affine folds, grids, array
    programs, stencils) to a fold accelerator and a graph device, runs them
    through a guest operating system, an emulator and RTL simulators, and keeps
    saved evidence that a host re-checks. It also has a confined workspace and a
    shell-like command language whose programs are executed twice and compared.
    This development models the part of it that decides and computes: admission
    checks, compilers, reference interpreters, protocol models, verifiers of
    evidence, and the workspace with its two executors. Source paths below are
    relative to [src/]; names are those of the source where the language allows.

    ** Conventions

    - [res] is a result or an exception ([Prelude]). A Python exception is a
      constructor of [exn]; [ValueError] covers the project's subclasses of it.
      [fail] and [raise_if] are the guards, in the order of the source.
    - JSON documents are [pyval] ([PyValue]): an integer, a boolean, a string, a
      float (by its spelling), a list, or a dict in insertion order. The checks
      [type(x) is int], [isinstance] and subscription are functions on it, so an
      ill-typed document takes the path it takes in the code.
    - Machine words are [Z] with the masks written out. Records are Coq records;
      dicts with string keys that are used as maps are [gmap]s.
    - Loops are folds over lists ([foldM], [traverse]); loops that are not
      structural take fuel and answer [OutOfFuel] without it. That fuel is enough
      is a theorem in every case: [json_loads] has one more than twice the length
      of its text ([JsonFacts]), the lexer one more than its text
      ([CommandShellFacts]), the scheduler loops as many rounds as there are
      nodes ([StaticRegionFacts], [DeviceScheduleFacts], [CommandExecRun]), the
      loop that joins passes as many as there are passes ([FusionCost]), fresh
      names as many attempts as there are names in use ([NumericFacts]), the
      untiled evaluation of a kernel one more than it has nodes ([TilingFacts]).
    - What the operating system or a tool does is a parameter: the record [os] of
      [Workspace], [tool_host] of [CommandShell], and [spawn], [rewrite],
      [render] and [pick] of [CommandExec], and [timestamp] and the calls'
      [ca_now], [ca_write] and [ca_sync] of [Completion]. Theorems that rely on their
      documented behaviour say so in a hypothesis and have a witness with a
      concrete instance.

    ** Files

    Shared: [Prelude]; [PyValue], [Json], [JsonFacts] (values, the strict reader
    and writer of [raveil/fold_evidence.py] and [raveil/project.py]); [Sha256],
    [Sha256Facts] (digests and canonical documents); [MapSyntax] (the map language of all
    frontends); [Project] (record names).

    The fold accelerator. [AffineFold], [AffineFoldFacts]
    ([raveil/affine_fold.py]: admission, lowering, the 65-word configuration, the
    reference). [FoldMachine], [FoldMachineFacts] ([contracts/src/affine_fold.c]:
    the guest's validator and evaluator). [Numeric], [NumericFacts]
    ([raveil/mf01_numeric.py]: signed operations as unsigned ones). [FoldWire],
    [FoldWireFacts], [FoldLines], [FoldLinesFacts] ([raveil/sonatine_fold.py],
    [raveil/fold_bridge.py]: frames, console lines, injected faults).

    Coupled runs. [Evidence] (what saved evidence holds), [FoldSession]
    ([raveil/fold_session.py]), [FoldDag], [FoldDagFacts], [DagRun]
    ([raveil/fold_dag.py]: slots and lifetimes of results), [FoldChain],
    [ChainRun] ([raveil/fold_chain.py]: two banks with versions).

    Whole-grid programs. [Grid], [GridFacts], [GridRun], [GridWords]
    ([raveil/grid_kernel.py], [raveil/grid_assembly.py], [raveil/mf01_grid.py]:
    tiles, halos, packing, assembly). [Array], [ArrayPass], [ArrayFacts],
    [ArrayRun] ([raveil/array_program.py], [raveil/project_array.py]: programs of
    stages as elementwise passes with planned releases), [Fusion],
    [FusionFacts], [FusionBlock], [FusionRun], [FusionCost]
    ([raveil/array_fusion.py]: the second version of such plans, with whole
    stages and blocks of passes as single sources). [Flow], [FlowRun], [FlowPlan]
    ([raveil/mf01_flow.py], [raveil/project_mf01_flow.py],
    [raveil/mf01_grid_plan.py], [raveil/mf01_flow_plan.py]: flows of grids, the
    tile search, the plan that selects a tile for every stage). A grid source
    compiles to DAG sessions of affine folds, a pass of an array plan and a stage
    of a flow are grid sources, so the theorems of one layer are used by the next.

    The graph device. [StaticRegion], [StaticRegionFacts], [StaticRegionExact]
    ([raveil/static_region.py]: the one admitted stencil descriptor).
    [DeviceProgram], [DeviceScheduleFacts], [DeviceProgramFacts], [DeviceRun]
    ([raveil/graph_device_dag.py]: schedule, registers, instruction words, the
    software fallback, the oracle). [StaticRegionOracle] relates the two. [Tiling],
    [TilingFacts], [TilingRun] ([raveil/project_tiling.py], the kernel half of
    [raveil/grid_kernel.py], [compile_graph] and [input_bytes] of
    [raveil/project_graph.py]): a kernel over a whole grid, tile by tile on the
    device.

    The native shell. [Workspace], [WorkspaceFacts], [WorkspaceRun]
    ([raveil/workspace.py]: virtual paths over one directory). [CommandGraph],
    [CommandGraphFacts], [CommandShell], [CommandShellFacts], [CommandCompile],
    [CommandRun] ([raveil/command_graph.py]: documents, lexer, operands of the
    tools, compiler). [CommandExec], [CommandExecFacts], [CommandExecRun] (the
    direct and the graph executor, comparison, publication).

    The completion journal. [Completion], [CompletionFacts], [CompletionLog],
    [CompletionRun] ([raveil/completion_telemetry.py] and the guest's printing in
    [sonatine/src/completion_telemetry.c], [console.c]): the console log, the
    records, the hash-chained file.

    In a component of several files the first holds the definitions, the files
    named after it the lemmas, and the file ending in [Run] its main theorems.

    ** What the theorems show

    - Compilers preserve meaning. The guest's evaluation of a compiled region is
      the host's reference ([FoldMachineFacts]); signed lowering keeps values
      ([NumericFacts]); a grid source, cut in tiles, packed, run as sessions and
      assembled, is its reference at every coordinate ([GridRun]); an array plan,
      with its releases, runs to the reference of the program ([ArrayRun]), and so
      does a fused one, at no more sessions ([FusionRun], [FusionCost]); a
      flow runs to its reference and the tile search returns the least admitted
      tile ([FlowRun]); the flow with the planned tiles means the same at no more
      sessions ([FlowPlan]); a kernel run tile by tile on the device is assembled
      to its untiled evaluation ([TilingRun]); the device's fallback computes the descriptor
      ([DeviceRun]); the two oracles of the five-point stencil agree
      ([StaticRegionOracle]).
    - Admission means what it should. Host and guest accept the same
      configurations ([FoldMachineFacts]); the static validator accepts the one
      compiled descriptor up to the order of its collections
      ([StaticRegionExact]); the device's scheduler finds an order exactly when
      there is one ([DeviceScheduleFacts]); a compiled command program validates
      and is admitted ([CommandRun]).
    - Protocols keep their state apart. Live results never share a slot, a
      session computes the composition of its jobs, and its receipt reports it
      ([DagRun]); a chain never reads a stale bank, and a pipeline in which
      no job is rolled back reaches its end ([ChainRun]).
    - Round trips: JSON ([JsonFacts]), request frames ([FoldWireFacts]), console
      lines ([FoldLinesFacts]), texts in the workspace ([WorkspaceRun]), command
      documents ([CommandRun]).
    - The workspace: resolved paths stay below the root and off symbolic links,
      no call changes or removes an entry that was there, and a publication is all or
      nothing up to targets that the system does not let it write or take back
      ([WorkspaceRun]).
    - The executors end whatever their commands do, respect dependencies, agree when
      independent commands commute, and publish only agreed outputs
      ([CommandExecRun]).
    - Where the code misses what it means to do, a theorem states what it does
      instead: [full_device_leaves_partial], [hidden_entry_invalid],
      [device_window_gap], [cut_write_blocks], and the empty arguments and versions
      in [compiled_roundtrip].

    ** Bounds of the models

    Text is a string of code points below 256, except file contents and
    [read_text]/[write_text], which have all code points; a line of the completion
    journal is ASCII, as [ingest] writes it. Floats are refused
    where they would be computed with. Dicts of the model may repeat a key only
    where the text read has not been checked for duplicates; the readers refuse
    such text. Integers of JSON text have any number of digits, where CPython stops
    at 4300. Closing the completion journal is taken to succeed; in the workspace
    every call that touches a file may fail. Argument types that Python checks at run time and that the model's
    types already guarantee are not checked again.

    ** Not modelled

    Live runs: processes, clocks, directories of captures, and the RTL and
    emulators behind them, which are not Python. Their compilers, planners and
    the verifiers of what they leave are modelled. Reading and writing the files
    of a project around a flow, a plan or a tiling. The descriptors and
    receipts of the other device modules ([raveil/graph_device_*.py]) and the bus
    and board adapters, which compare digests of files a simulator wrote. Cost
    models, power and policy comparison, which compute with floats. Records of
    projects, campaigns and experiments, whose checks restate fixed values. The
    metadata graph, its browser, the command line and completion, which present
    the parts above. *)

From Stdlib Require Export Lia ZArith.
From stdpp Require Export sorting pretty strings list_numbers gmap numbers option tactics base list.

#[export] Set Default Goal Selector "!".

Declare Scope py_scope.
Delimit Scope py_scope with py.

(** ** Python exceptions and the result of a Python call *)

(** The exception classes the modelled code raises or catches. [ValueError]
    carries the message text, which the tile planner uses as a dictionary key.
    [OutOfFuel] is no Python exception: a loop modelled with fuel gives it when
    the fuel is too small, and each such loop has a theorem that it never does. *)
Inductive exn :=
  | ValueError (message : string)
  | TypeError
  | KeyError
  | IndexError
  | AttributeError
  | AssertionError
  | StopIteration
  | OSError (message : string)
  | OutOfFuel.

#[export] Instance exn_eq_dec : EqDecision exn.
Proof. solve_decision. Defined.

Inductive res (A : Type) :=
  | Ok (a : A)
  | Err (e : exn).
Arguments Ok {A} a.
Arguments Err {A} e.

#[export] Instance res_eq_dec `{EqDecision A} : EqDecision (res A).
Proof. solve_decision. Defined.

Definition bind {A B} (m : res A) (k : A -> res B) : res B :=
  match m with Ok a => k a | Err e => Err e end.

Notation "'let*' x ':=' m 'in' k" := (bind m (fun x => k))
  (at level 10, x name, m at level 100, k at level 200) : py_scope.
Notation "'let*' ' x ':=' m 'in' k" := (bind m (fun x => k))
  (at level 10, x strict pattern, m at level 100, k at level 200) : py_scope.
Notation "'raise_if' b 'with' s 'in' k" := (if b then Err (ValueError s) else k)
  (at level 10, b at level 100, s at level 100, k at level 200) : py_scope.
Open Scope py_scope.
Open Scope Z_scope.

Definition fail {A} (message : string) : res A := Err (ValueError message).

Definition from_option_err {A} (e : exn) (o : option A) : res A :=
  match o with Some a => Ok a | None => Err e end.

Definition is_Some_b {A} (o : option A) : bool := match o with Some _ => true | None => false end.

Definition is_ok {A} (r : res A) : bool := match r with Ok _ => true | Err _ => false end.

(** [for x in l: s = f(s, x)], where the body may raise. *)
Fixpoint foldM {S A} (f : S -> A -> res S) (s : S) (l : list A) : res S :=
  match l with
  | [] => Ok s
  | x :: l => let* s := f s x in foldM f s l
  end.

(** A list comprehension whose element expression may raise. *)
Fixpoint traverse {A B} (f : A -> res B) (l : list A) : res (list B) :=
  match l with
  | [] => Ok []
  | x :: l => let* y := f x in let* ys := traverse f l in Ok (y :: ys)
  end.

(** ** Automation for results *)

(** Case analysis on every step of a computation known to return. *)
Ltac res_step :=
  match goal with
  | H : Ok _ = Ok _ |- _ => injection H as H; subst
  | H : Err _ = Err _ |- _ => injection H as H; subst
  | H : Ok _ = Err _ |- _ => discriminate H
  | H : Err _ = Ok _ |- _ => discriminate H
  | H : fail _ = Ok _ |- _ => discriminate H
  | H : from_option_err _ ?o = Ok _ |- _ =>
      let E := fresh "E" in destruct o eqn:E; cbn [from_option_err] in H
  | H : bind ?m _ = Ok _ |- _ =>
      let E := fresh "E" in destruct m eqn:E; cbn [bind] in H; [|discriminate H]
  | H : (if ?b then Err _ else _) = Ok _ |- _ =>
      let E := fresh "E" in destruct b eqn:E; [discriminate H|]
  | H : (if ?b then _ else Err _) = Ok _ |- _ =>
      let E := fresh "E" in destruct b eqn:E; [|discriminate H]
  | H : (match ?x with _ => _ end) = Ok _ |- _ =>
      let E := fresh "E" in destruct x eqn:E; try discriminate H
  end.
Ltac res_inv := repeat (res_step; cbn beta iota in *).

Lemma Ok_inj {A} (a b : A) : Ok a = Ok b -> a = b.
Proof. by intros [= ->]. Qed.

(** The same on one hypothesis, and without computing the values compared. *)
Ltac res_peel H :=
  repeat match type of H with
  | bind ?m _ = Ok _ => let E := fresh "E" in destruct m eqn:E; cbn [bind] in H; [|discriminate H]
  | (let '(_, _) := ?p in _) = Ok _ => destruct p
  | (if ?b then Err _ else _) = Ok _ => let E := fresh "E" in destruct b eqn:E; [discriminate H|]
  end.

(** Reading a conjunction of boolean tests as propositions. *)
Ltac bool_prop :=
  repeat match goal with
  | H : negb _ = true |- _ => apply negb_true_iff in H
  | H : negb _ = false |- _ => apply negb_false_iff in H
  | H : _ && _ = true |- _ => apply andb_true_iff in H; destruct H
  | H : _ || _ = false |- _ => apply orb_false_iff in H; destruct H
  | H : bool_decide _ = true |- _ => apply bool_decide_eq_true in H
  | H : bool_decide _ = false |- _ => apply bool_decide_eq_false in H
  | H : (_ =? _) = true |- _ => apply Z.eqb_eq in H
  | H : (_ =? _) = false |- _ => apply Z.eqb_neq in H
  | H : (_ <=? _) = true |- _ => apply Z.leb_le in H
  | H : (_ <=? _) = false |- _ => apply Z.leb_gt in H
  | H : (_ <? _) = true |- _ => apply Z.ltb_lt in H
  | H : (_ <? _) = false |- _ => apply Z.ltb_ge in H
  end.

(** Linear arithmetic with division and remainder by constants. *)
Ltac dlia := Z.to_euclidean_division_equations; lia.

(** ** Lemmas about results and bounded loops *)

Lemma foldM_app {S A} (f : S -> A -> res S) s l1 l2 :
  foldM f s (l1 ++ l2) = let* s := foldM f s l1 in foldM f s l2.
Proof.
  revert s; induction l1 as [|x l1 IH]; intros s; [done|]. cbn.
  by destruct (f s x); cbn.
Qed.

Lemma foldM_inv {S A} (P : S -> Prop) (f : S -> A -> res S) s l s' :
  P s -> (forall s x s', x ∈ l -> P s -> f s x = Ok s' -> P s') ->
  foldM f s l = Ok s' -> P s'.
Proof.
  revert s; induction l as [|x l IH]; intros s Hs Hstep H; cbn in H; res_inv; [done|].
  eapply IH; [eapply Hstep, E; [constructor|done]| |done].
  intros; eapply Hstep; [by right|done|done].
Qed.

Lemma foldM_map {S A B} (g : A -> B) (f : S -> B -> res S) s l :
  foldM f s (map g l) = foldM (fun s x => f s (g x)) s l.
Proof. revert s. induction l as [|x l IH]; intros s; [done|]. cbn. by destruct (f s (g x)); cbn. Qed.

Lemma foldM_ext {S A} (f g : S -> A -> res S) s l : (forall s x, f s x = g s x) -> foldM f s l = foldM g s l.
Proof. intros H. revert s. induction l as [|x l IH]; intros s; [done|]. cbn. rewrite H. destruct (g s x); [apply IH|done]. Qed.

Lemma bind_Ok_r {A} (r : res A) : (let* x := r in Ok x) = r.
Proof. by destruct r. Qed.
Lemma foldM_ext_in {S A} (f g : S -> A -> res S) s l : (forall s x, x ∈ l -> f s x = g s x) -> foldM f s l = foldM g s l.
Proof.
  revert s. induction l as [|x l IH]; intros s H; [done|]. cbn. rewrite H by left. destruct (g s x); [|done]. cbn.
  apply IH. intros; apply H; by right.
Qed.

(** A loop whose body returns and keeps an invariant returns. *)
Lemma foldM_total {S A} (P : S -> Prop) (f : S -> A -> res S) s l :
  P s -> (forall s x, x ∈ l -> P s -> exists s', f s x = Ok s' /\ P s') -> exists s', foldM f s l = Ok s' /\ P s'.
Proof.
  revert s. induction l as [|x l IH]; intros s Hs Hstep; [by exists s|]. cbn.
  destruct (Hstep s x) as (s1 & -> & H1); [left|done|]. cbn. apply IH; [done|]. intros; apply Hstep; [by right|done].
Qed.
Lemma traverse_Ok {A B} (f : A -> res B) l ys :
  traverse f l = Ok ys <-> Forall2 (fun x y => f x = Ok y) l ys.
Proof.
  revert ys; induction l as [|x l IH]; intros ys; cbn.
  - split; [intros [= <-]; constructor|]. by inversion 1.
  - split.
    + intros H. res_inv. constructor; [done|]. by apply IH.
    + inversion 1 as [|? y ? ys' Hy Hys]; subst. rewrite Hy; cbn.
      apply IH in Hys. by rewrite Hys.
Qed.

Lemma traverse_length {A B} (f : A -> res B) l ys :
  traverse f l = Ok ys -> length ys = length l.
Proof. intros H%traverse_Ok. by apply Forall2_length in H. Qed.

Lemma traverse_ext {A B} (f g : A -> res B) l :
  (forall x, x ∈ l -> f x = g x) -> traverse f l = traverse g l.
Proof.
  induction l as [|x l IH]; intros H; [done|]. cbn.
  rewrite H by constructor. destruct (g x); [|done]. cbn.
  rewrite IH; [done|]. intros; apply H; by right.
Qed.

Lemma traverse_pure {A B} (f : A -> res B) (g : A -> B) l :
  (forall x, x ∈ l -> f x = Ok (g x)) -> traverse f l = Ok (map g l).
Proof.
  induction l as [|x l IH]; intros H; [done|]. cbn.
  rewrite H by constructor. cbn. rewrite IH; [done|]. intros; apply H; by right.
Qed.

(** A call that returns or raises [ValueError], and nothing else. *)
Definition value_error_only {A} (r : res A) : Prop :=
  match r with Ok _ | Err (ValueError _) => True | Err _ => False end.

Create HintDb value_error.

Lemma veo_Ok {A} (a : A) : value_error_only (Ok a).
Proof. done. Qed.
Lemma veo_ValueError {A} m : value_error_only (@Err A (ValueError m)).
Proof. done. Qed.
Lemma veo_fail {A} m : value_error_only (@fail A m).
Proof. done. Qed.
Lemma veo_bind {A B} (m : res A) (k : A -> res B) :
  value_error_only m -> (forall a, m = Ok a -> value_error_only (k a)) -> value_error_only (bind m k).
Proof. destruct m as [a|[]]; cbn; auto. Qed.
Lemma veo_traverse {A B} (f : A -> res B) l :
  (forall x, x ∈ l -> value_error_only (f x)) -> value_error_only (traverse f l).
Proof.
  induction l as [|x l IH]; intros H; [done|]. cbn. apply veo_bind; [apply H; constructor|].
  intros y _. apply veo_bind; [|done]. apply IH. intros; apply H; by right.
Qed.
Lemma veo_foldM {S A} (P : S -> list A -> Prop) (f : S -> A -> res S) s l :
  P s l ->
  (forall s x l, P s (x :: l) -> value_error_only (f s x) /\ forall s', f s x = Ok s' -> P s' l) ->
  value_error_only (foldM f s l).
Proof.
  revert s. induction l as [|x l IH]; intros s HP Hstep; [done|]. cbn.
  destruct (Hstep _ _ _ HP) as [Hv Hs]. apply veo_bind; [done|]. auto.
Qed.
#[export] Hint Resolve veo_Ok veo_ValueError veo_fail veo_bind veo_traverse : value_error.

Lemma veo_lookup {A} e (o : option A) : is_Some o -> value_error_only (from_option_err e o).
Proof. by intros [x ->]. Qed.

(** Closes [value_error_only] goals of straight-line code by its branches. *)
Ltac veo :=
  repeat match goal with
  | |- value_error_only (bind _ _) => apply veo_bind; [|intros ? ?]
  | |- value_error_only (traverse _ _) => apply veo_traverse; intros ? ?
  | |- value_error_only (if ?b then _ else _) => destruct b eqn:?
  | |- value_error_only (match ?x with _ => _ end) => destruct x eqn:?
  | |- value_error_only (Ok _) => exact I
  | |- value_error_only (fail _) => exact I
  | |- value_error_only (Err (ValueError _)) => exact I
  end.

(** ** Python integers: ranges, words, bit fields *)

(** [range(lo, hi)] *)
Definition zrange (lo hi : Z) : list Z := seqZ lo (hi - lo).
(** [range(n)] *)
Definition zseq (n : Z) : list Z := seqZ 0 n.

Lemma elem_of_zseq n i : i ∈ zseq n <-> 0 <= i < n.
Proof. unfold zseq. rewrite elem_of_seqZ. lia. Qed.

Lemma elem_of_zrange lo hi i : i ∈ zrange lo hi <-> lo <= i < hi.
Proof. unfold zrange. rewrite elem_of_seqZ. lia. Qed.

Definition MASK : Z := Z.shiftl 1 32 - 1.
(** [w & MASK] *)
Definition u32 (w : Z) : Z := Z.land w MASK.
Definition is_word (w : Z) : Prop := 0 <= w <= MASK.

Lemma MASK_eq : MASK = 2 ^ 32 - 1.
Proof. reflexivity. Qed.

Lemma u32_mod w : u32 w = w mod 2 ^ 32.
Proof. unfold u32. rewrite MASK_eq.
  replace (2 ^ 32 - 1) with (Z.ones 32) by reflexivity. by rewrite Z.land_ones.
Qed.

Lemma u32_word w : is_word (u32 w).
Proof.
  unfold is_word. rewrite u32_mod, MASK_eq.
  pose proof (Z.mod_pos_bound w (2 ^ 32)). lia.
Qed.

Lemma u32_id w : is_word w -> u32 w = w.
Proof. unfold is_word. rewrite u32_mod, MASK_eq. intros. apply Z.mod_small. lia. Qed.

Lemma u32_idemp w : u32 (u32 w) = u32 w.
Proof. apply u32_id, u32_word. Qed.

(** Joining a bit field below a word whose low bits are clear is addition. *)
Lemma lor_field a b n :
  0 <= n -> 0 <= b < 2 ^ n -> Z.lor (Z.shiftl a n) b = a * 2 ^ n + b.
Proof.
  intros Hn Hb. rewrite Z.shiftl_mul_pow2 by done.
  rewrite <- Z.add_lor_land.
  assert (Hl : Z.land (a * 2 ^ n) b = 0).
  { apply Z.bits_inj'. intros i Hi. rewrite Z.land_spec, Z.bits_0.
    destruct (decide (i < n)).
    - by rewrite Z.mul_pow2_bits_low by lia.
    - assert (b = b mod 2 ^ n) as -> by (symmetry; by apply Z.mod_small).
      rewrite Z.mod_pow2_bits_high by lia. apply andb_false_r. }
  rewrite Hl. lia.
Qed.

(** Reading a field of [width] bits at bit [lo]. *)
Lemma field_read w lo width :
  0 <= lo -> 0 <= width ->
  Z.land (Z.shiftr w lo) (2 ^ width - 1) = (w / 2 ^ lo) mod 2 ^ width.
Proof.
  intros. replace (2 ^ width - 1) with (Z.ones width) by (rewrite Z.ones_equiv; lia).
  rewrite Z.land_ones by done. by rewrite Z.shiftr_div_pow2 by done.
Qed.

(** ** Indexing *)

(** [l[i]] of a list known to be long enough *)
Definition at_ {A} (d : A) (l : list A) (i : Z) : A := nth (Z.to_nat i) l d.

Definition set_at {A} (l : list A) (i : Z) (x : A) : list A := <[Z.to_nat i := x]> l.

(** [enumerate(l)] *)
Definition enumerate {A} (l : list A) : list (Z * A) := zip (zseq (Z.of_nat (length l))) l.

Lemma at_app_l {A} (d : A) l x i : 0 <= i < Z.of_nat (length l) -> at_ d (l ++ x) i = at_ d l i.
Proof. intros. unfold at_. apply app_nth1. lia. Qed.
Lemma at_app_last {A} (d : A) l x : at_ d (l ++ [x]) (Z.of_nat (length l)) = x.
Proof. unfold at_. rewrite app_nth2 by lia. replace (Z.to_nat _ - length l)%nat with 0%nat by lia. done. Qed.
Lemma at_snoc {A} (d : A) l n x : Z.of_nat (length l) = n -> at_ d (l ++ [x]) n = x.
Proof. intros <-. apply at_app_last. Qed.
Lemma length_set_at {A} (l : list A) i x : length (set_at l i x) = length l.
Proof. apply length_insert. Qed.
Lemma at_set_eq {A} (d : A) l i x : 0 <= i < Z.of_nat (length l) -> at_ d (set_at l i x) i = x.
Proof. intros. unfold at_, set_at. apply nth_lookup_Some. apply list_lookup_insert_eq. lia. Qed.
Lemma at_set_ne {A} (d : A) l i j x : 0 <= i -> 0 <= j -> i <> j -> at_ d (set_at l i x) j = at_ d l j.
Proof.
  intros. unfold at_, set_at. rewrite !nth_lookup, list_lookup_insert_ne; [done|lia].
Qed.
Lemma at_elem {A} (d : A) l i : 0 <= i < Z.of_nat (length l) -> at_ d l i ∈ l.
Proof.
  intros. unfold at_. destruct (lookup_lt_is_Some_2 l (Z.to_nat i)) as [x Hx]; [lia|].
  rewrite (nth_lookup_Some _ _ _ _ Hx). by eapply list_elem_of_lookup_2.
Qed.

Lemma elem_of_enumerate {A} (l : list A) i x :
  (i, x) ∈ enumerate l <-> 0 <= i /\ l !! Z.to_nat i = Some x.
Proof.
  unfold enumerate. rewrite list_elem_of_lookup. setoid_rewrite lookup_zip_with_Some. split.
  - intros (n & i' & x' & [= <- <-] & Hi & Hx). unfold zseq in Hi.
    apply lookup_seqZ in Hi as [-> Hi]. split; [lia|]. by rewrite Z.add_0_l, Nat2Z.id.
  - intros [Hi Hx]. exists (Z.to_nat i), i, x. split_and!; [done| |done].
    unfold zseq. apply lookup_seqZ. apply lookup_lt_Some in Hx. lia.
Qed.

Lemma enumerate_fst {A} (l : list A) : map fst (enumerate l) = zseq (Z.of_nat (length l)).
Proof. apply fst_zip. unfold zseq. rewrite length_seqZ. lia. Qed.

Lemma zseq_succ n : 0 <= n -> zseq (n + 1) = zseq n ++ [n].
Proof. intros. unfold zseq. rewrite seqZ_app by lia. done. Qed.


Lemma enumerate_at {A} (d : A) (l : list A) :
  enumerate l = map (fun i => (i, at_ d l i)) (zseq (Z.of_nat (length l))).
Proof.
  unfold enumerate. set (m := Z.of_nat (length l)).
  apply list_eq. intros k. unfold zseq. rewrite list_lookup_fmap.
  destruct (decide (k < length l)%nat) as [Hk|Hk].
  - destruct (lookup_lt_is_Some_2 l k Hk) as [x Hx].
    rewrite lookup_seqZ_lt by lia. cbn. apply lookup_zip_with_Some.
    exists (Z.of_nat k), x. rewrite lookup_seqZ_lt by lia. split_and!; [|done..].
    unfold at_. by rewrite Z.add_0_l, Nat2Z.id, (nth_lookup_Some _ _ _ _ Hx).
  - rewrite lookup_seqZ_ge by lia. apply lookup_zip_with_None. right. by apply lookup_ge_None_2; lia.
Qed.

(** An invariant of a loop over [enumerate(l)]. *)
Lemma foldM_enumerate_inv {S A} (P : Z -> S -> Prop) (f : S -> Z * A -> res S) (l : list A) s s' :
  P 0 s ->
  (forall i x s s', 0 <= i < Z.of_nat (length l) -> l !! Z.to_nat i = Some x -> P i s -> f s (i, x) = Ok s' -> P (i + 1) s') ->
  foldM f s (enumerate l) = Ok s' -> P (Z.of_nat (length l)) s'.
Proof.
  intros H0 Hstep. revert s'. induction l as [|x l IH] using rev_ind; intros s' H.
  - by injection H as <-.
  - unfold enumerate in H. rewrite length_app in H. cbn [length] in H.
    replace (Z.of_nat (length l + 1)) with (Z.of_nat (length l) + 1) in H by lia.
    rewrite zseq_succ in H by lia. rewrite zip_with_app in H by (unfold zseq; rewrite length_seqZ; lia).
    rewrite foldM_app in H. fold (enumerate l) in H. cbn [zip_with foldM] in H. res_inv.
    rewrite length_app. cbn [length]. replace (Z.of_nat (length l + 1)) with (Z.of_nat (length l) + 1) by lia.
    eapply (Hstep _ x); [rewrite length_app; cbn; lia| | |eassumption].
    + rewrite lookup_app_r by lia. by replace (Z.to_nat (Z.of_nat (length l)) - length l)%nat with 0%nat by lia.
    + apply IH; [|done]. intros i y t t' Hi Hy. apply Hstep; [rewrite length_app; lia|by apply lookup_app_l_Some].
Qed.

Lemma enumerate_snoc {A} (l : list A) x : enumerate (l ++ [x]) = enumerate l ++ [(Z.of_nat (length l), x)].
Proof.
  unfold enumerate. rewrite length_app. cbn [length].
  replace (Z.of_nat (length l + 1)) with (Z.of_nat (length l) + 1) by lia.
  rewrite zseq_succ by lia. rewrite zip_with_app by (unfold zseq; rewrite length_seqZ; lia). done.
Qed.
