(* ===== verification/PyValue.v ===== *)
(** * Python values read from JSON documents

    The frontends check untyped values field by field. [pyval] is the type of
    these values; the checks the code makes ([type(x) is int], [isinstance],
    key-set comparison, subscription) are functions on it. A [dict] keeps its
    insertion order, which the compilers observe (view numbering). Floats carry
    their spelling only: no modelled code computes with one.

    The file also models [raveil/fold_evidence.py] [same], the type-sensitive
    structural comparison the evidence readers use. *)

From S2P Require Import Prelude.

#[warnings="-register-all"]
Inductive pyval :=
  | VNone
  | VBool (b : bool)
  | VInt (z : Z)
  | VFloat (spelling : string)
  | VStr (s : string)
  | VList (l : list pyval)
  | VDict (d : list (string * pyval)).

Abbreviation dict := (list (string * pyval)).

Section pyval_ind.
Variable P : pyval -> Prop.
Hypothesis HNone : P VNone.
Hypothesis HBool : forall b, P (VBool b).
Hypothesis HInt : forall z, P (VInt z).
Hypothesis HFloat : forall s, P (VFloat s).
Hypothesis HStr : forall s, P (VStr s).
Hypothesis HList : forall l, Forall P l -> P (VList l).
Hypothesis HDict : forall d, Forall (fun kv => P kv.2) d -> P (VDict d).

Fixpoint pyval_rect' (v : pyval) : P v :=
  match v with
  | VNone => HNone
  | VBool b => HBool b
  | VInt z => HInt z
  | VFloat s => HFloat s
  | VStr s => HStr s
  | VList l => HList l ((fix go l : Forall P l :=
      match l with
      | [] => Forall_nil_2 P
      | v :: l => Forall_cons_2 P v l (pyval_rect' v) (go l)
      end) l)
  | VDict d => HDict d ((fix go d : Forall (fun kv => P kv.2) d :=
      match d with
      | [] => Forall_nil_2 _
      | kv :: d => Forall_cons_2 _ kv d (pyval_rect' kv.2) (go d)
      end) d)
  end.
End pyval_ind.

Fixpoint pyval_eqb (a b : pyval) : bool :=
  match a, b with
  | VNone, VNone => true
  | VBool x, VBool y => Bool.eqb x y
  | VInt x, VInt y => x =? y
  | VFloat x, VFloat y => String.eqb x y
  | VStr x, VStr y => String.eqb x y
  | VList l, VList m =>
      (fix go l m := match l, m with
        | [], [] => true
        | x :: l, y :: m => pyval_eqb x y && go l m
        | _, _ => false
        end) l m
  | VDict d, VDict e =>
      (fix go d e := match d, e with
        | [], [] => true
        | (k, x) :: d, (k', y) :: e => String.eqb k k' && pyval_eqb x y && go d e
        | _, _ => false
        end) d e
  | _, _ => false
  end.

Lemma pyval_eqb_spec a b : pyval_eqb a b = true <-> a = b.
Proof.
  revert b; induction a using pyval_rect'; intros []; cbn;
    try (split; congruence).
  - rewrite Bool.eqb_true_iff. split; congruence.
  - rewrite Z.eqb_eq. split; congruence.
  - rewrite String.eqb_eq. split; congruence.
  - rewrite String.eqb_eq. split; congruence.
  - rename l0 into m. revert m. induction H as [|x l Hx Hl IH]; intros [|y m];
      try (split; congruence).
    rewrite andb_true_iff, Hx, IH. split; [|by intros [= -> ->]].
    intros [-> [= ->]]. done.
  - rename d0 into e. revert e. induction H as [|[k x] d Hx Hd IH]; intros [|[k' y] e];
      try (split; congruence).
    cbn in Hx. rewrite !andb_true_iff, Hx, IH, String.eqb_eq.
    split; [|by intros [= -> -> ->]]. by intros [[-> ->] [= ->]].
Qed.

#[export] Instance pyval_eq_dec : EqDecision pyval.
Proof.
  intros a b. destruct (pyval_eqb a b) eqn:E.
  - left. by apply pyval_eqb_spec.
  - right. intros H%pyval_eqb_spec. congruence.
Defined.

(** ** Dictionaries *)

Definition keys (d : dict) : list string := map fst d.

(** [d.get(k)], [None] when the key is missing. *)
Fixpoint dget (k : string) (d : dict) : option pyval :=
  match d with
  | [] => None
  | (k', v) :: d => if String.eqb k k' then Some v else dget k d
  end.

(** [d[k]] on a dictionary *)
Definition dsub (d : dict) (k : string) : res pyval := from_option_err KeyError (dget k d).

(** [set(d) == {k1, ..., kn}] *)
Definition keys_are (d : dict) (ks : list string) : bool :=
  forallb (fun k => bool_decide (k ∈ ks)) (keys d) &&
  forallb (fun k => bool_decide (k ∈ keys d)) ks.

Definition is_str (v : pyval) (s : string) : bool :=
  match v with VStr t => String.eqb t s | _ => false end.

(** [isinstance(x, Sequence)] and its items: of the values a JSON reader
    builds, lists and strings are sequences. *)
Definition seq_items (v : pyval) : option (list pyval) :=
  match v with
  | VList l => Some l
  | VStr s => Some (map (fun c => VStr (String c EmptyString)) (String.list_ascii_of_string s))
  | _ => None
  end.

(** An integer operand of [range], arithmetic or indexing; anything else the
    modelled values can hold raises [TypeError] there. *)
Definition as_int (v : pyval) : res Z :=
  match v with VInt z => Ok z | _ => Err TypeError end.

(** [l[i]] with Python's negative indices *)
Definition py_index {A} (l : list A) (i : Z) : res A :=
  let n := Z.of_nat (length l) in
  if bool_decide (0 <= i < n) then from_option_err IndexError (l !! Z.to_nat i)
  else if bool_decide (- n <= i < 0) then from_option_err IndexError (l !! Z.to_nat (n + i))
  else Err IndexError.

(** ** [repr], as error messages show values *)

Definition hex_digit (n : Z) : Ascii.ascii :=
  Ascii.ascii_of_nat (Z.to_nat (if n <? 10 then 48 + n else 87 + n)).

Definition code (c : Ascii.ascii) : Z := Z.of_nat (Ascii.nat_of_ascii c).

(** One character of a string literal; code points are below 256 here. *)
Definition repr_char (quote c : Ascii.ascii) : string :=
  let n := code c in
  if bool_decide (c = quote) || (n =? 92) then String (Ascii.ascii_of_nat 92) (String c "")
  else if n =? 10 then "\n" else if n =? 13 then "\r" else if n =? 9 then "\t"
  else if (n <? 32) || ((127 <=? n) && (n <=? 160)) || (n =? 173)
  then "\x" +:+ String (hex_digit (n / 16)) (String (hex_digit (n mod 16)) "")
  else String c "".

Definition repr_str (s : string) : string :=
  let cs := String.list_ascii_of_string s in
  let single := Ascii.ascii_of_nat 39 in
  let double := Ascii.ascii_of_nat 34 in
  let quote := if bool_decide (single ∈ cs) && negb (bool_decide (double ∈ cs))
               then double else single in
  String quote (String.concat "" (map (repr_char quote) cs) +:+ String quote "").

Fixpoint repr (v : pyval) : string :=
  match v with
  | VNone => "None"
  | VBool b => if b then "True" else "False"
  | VInt z => pretty z
  | VFloat s => s
  | VStr s => repr_str s
  | VList l => "[" +:+ String.concat ", " (map repr l) +:+ "]"
  | VDict d => "{" +:+ String.concat ", "
                 (map (fun kv => repr_str kv.1 +:+ ": " +:+ repr kv.2) d) +:+ "}"
  end.

(** A list of integers. *)
Definition words_val (l : list Z) : pyval := VList (map VInt l).

(** ** [fold_evidence.same] *)

Definition same_type (a b : pyval) : bool :=
  match a, b with
  | VNone, VNone | VBool _, VBool _ | VInt _, VInt _ | VFloat _, VFloat _
  | VStr _, VStr _ | VList _, VList _ | VDict _, VDict _ => true
  | _, _ => false
  end.

(** Compare JSON trees without Python's bool/int/float coercion. *)
Fixpoint same (actual expected : pyval) {struct expected} : bool :=
  if negb (same_type actual expected) then false else
  match actual, expected with
  | VDict a, VDict e =>
      keys_are a (keys e) &&
      (fix go e := match e with
        | [] => true
        | (k, v) :: e =>
            match dget k a with Some x => same x v | None => false end && go e
        end) e
  | VList a, VList e =>
      (fix go a e {struct e} := match a, e with
        | [], [] => true
        | x :: a, y :: e => same x y && go a e
        | _, _ => false
        end) a e
  | VStr a, VStr e => String.eqb a e
  | VInt a, VInt e => a =? e
  | VBool a, VBool e => Bool.eqb a e
  | VNone, VNone => true
  | _, _ => false
  end.

(** *** Lemmas on dictionaries *)

Lemma keys_are_spec d ks :
  keys_are d ks = true <-> (forall k, k ∈ keys d <-> k ∈ ks).
Proof.
  unfold keys_are. rewrite andb_true_iff, !forallb_forall. split.
  - intros [H1 H2] k. split; intros Hk.
    + specialize (H1 k). rewrite bool_decide_eq_true in H1.
      by apply H1, list_elem_of_In.
    + specialize (H2 k). rewrite bool_decide_eq_true in H2.
      by apply H2, list_elem_of_In.
  - intros H. split; intros k Hk%list_elem_of_In; apply bool_decide_eq_true, H, Hk.
Qed.

Lemma dget_is_Some k d : is_Some (dget k d) <-> k ∈ keys d.
Proof.
  induction d as [|[k' v] d IH]; cbn.
  - split; [by intros [? [=]]|by intros ?%elem_of_nil].
  - rewrite elem_of_cons. destruct (String.eqb_spec k k') as [->|Hne].
    + split; [by left|by eexists].
    + rewrite IH. naive_solver.
Qed.

Lemma dget_None k d : dget k d = None <-> k ∉ keys d.
Proof. rewrite <- dget_is_Some, eq_None_not_Some. done. Qed.

Lemma dget_elem k d v : dget k d = Some v -> (k, v) ∈ d.
Proof.
  induction d as [|[k' v'] d IH]; cbn; [done|].
  destruct (String.eqb_spec k k') as [->|]; [intros [= ->]; constructor|].
  intros; right; auto.
Qed.

Lemma elem_dget k d v : NoDup (keys d) -> (k, v) ∈ d -> dget k d = Some v.
Proof.
  induction d as [|[k' v'] d IH]; cbn; intros Hnd Hin; [by apply elem_of_nil in Hin|].
  apply NoDup_cons in Hnd as [Hni Hnd]. apply elem_of_cons in Hin as [[= -> ->]|Hin].
  - by rewrite String.eqb_refl.
  - destruct (String.eqb_spec k k') as [->|]; [|auto].
    destruct Hni. apply list_elem_of_In, in_map_iff.
    exists (k', v). by split; [|apply list_elem_of_In].
Qed.

Lemma py_index_Forall {A} (P : A -> Prop) l i x : Forall P l -> py_index l i = Ok x -> P x.
Proof. intros H. rewrite Forall_lookup in H. unfold py_index. intros Hx. res_inv; eauto. Qed.

Lemma py_index_nonneg {A} (l : list A) i x :
  0 <= i -> l !! Z.to_nat i = Some x -> py_index l i = Ok x.
Proof.
  intros Hi Hl. unfold py_index. rewrite bool_decide_true, Hl; [done|].
  apply lookup_lt_Some in Hl. lia.
Qed.
