(* ===== verification/Json.v ===== *)
(** * JSON text: [json.dumps] and [json.loads] as the project calls them

    [raveil/project.py] [encoded] writes JSON with sorted keys and an indent of
    two; [raveil/fold_evidence.py] [loads] and [raveil/project_composition.py]
    [_json] read it, rejecting duplicate fields, and [fold_evidence.loads] also
    rejects every number that is not an integer. Text is a string of code points
    below 256; a [\u] escape of a larger code point is outside the model and is
    refused. [JsonFacts] proves the round trip. *)

From S2P Require Import Prelude PyValue.
From Stdlib Require Import Ascii.

Definition chr (n : Z) : ascii := ascii_of_nat (Z.to_nat n).
Definition str1 (n : Z) : string := String (chr n) "".

(** ** Writing *)

Definition quote : string := str1 34.
Definition backslash : Z := 92.

(** [ensure_ascii] escaping of one character. *)
Definition json_char (c : ascii) : string :=
  let n := code c in
  if n =? 34 then String (chr 92) (str1 34)
  else if n =? 92 then String (chr 92) (str1 92)
  else if n =? 10 then String (chr 92) (str1 110)
  else if n =? 13 then String (chr 92) (str1 114)
  else if n =? 9 then String (chr 92) (str1 116)
  else if n =? 8 then String (chr 92) (str1 98)
  else if n =? 12 then String (chr 92) (str1 102)
  else if (n <? 32) || (126 <? n) then
    String (chr 92) (String (chr 117) (String (chr 48) (String (chr 48)
      (String (hex_digit (n / 16)) (String (hex_digit (n mod 16)) "")))))
  else String c "".

Fixpoint json_chars (s : string) : string :=
  match s with "" => "" | String c s => json_char c +:+ json_chars s end.

Definition json_str (s : string) : string := quote +:+ json_chars s +:+ quote.

Fixpoint spaces (n : nat) : string := match n with O => "" | S n => String (chr 32) (spaces n) end.
(** The newline and indentation before an item. *)
Definition newline (ind : nat) : string := String (chr 10) (spaces ind).

(** [sort_keys]: the members in key order, by a stable insertion sort. *)
Fixpoint insert_key {A} (x : string * A) (l : list (string * A)) : list (string * A) :=
  match l with
  | [] => [x]
  | y :: r => if String.leb x.1 y.1 then x :: l else y :: insert_key x r
  end.
Definition sort_keys {A} (d : list (string * A)) : list (string * A) := foldr insert_key [] d.

(** [json.dumps(value, sort_keys=True, indent=2)] at an indentation. *)
Fixpoint dumps (ind : nat) (v : pyval) : string :=
  match v with
  | VNone => "null"
  | VBool b => if b then "true" else "false"
  | VInt z => pretty z
  | VFloat s => s
  | VStr s => json_str s
  | VList [] => "[]"
  | VList l =>
      "[" +:+ newline (S (S ind)) +:+
      String.concat ("," +:+ newline (S (S ind))) (map (dumps (S (S ind))) l) +:+
      newline ind +:+ "]"
  | VDict [] => "{}"
  | VDict d =>
      "{" +:+ newline (S (S ind)) +:+
      String.concat ("," +:+ newline (S (S ind)))
        (map (fun kt => json_str kt.1 +:+ ": " +:+ kt.2)
           (sort_keys (map (fun kv => (kv.1, dumps (S (S ind)) kv.2)) d))) +:+
      newline ind +:+ "}"
  end.

(** [allow_nan=False]: the spellings of the values it refuses. *)
Fixpoint has_nan (v : pyval) : bool :=
  match v with
  | VFloat s => String.eqb s "nan" || String.eqb s "inf" || String.eqb s "-inf"
  | VList l => existsb has_nan l
  | VDict d => existsb (fun kv => has_nan kv.2) d
  | _ => false
  end.

(** [project.encoded] *)
Definition encoded (value : pyval) : res string :=
  raise_if has_nan value with "Out of range float values are not JSON compliant" in
  Ok (dumps 0 value +:+ str1 10).

(** The value with its members in key order, as [encoded] writes it. *)
Fixpoint canon (v : pyval) : pyval :=
  match v with
  | VList l => VList (map canon l)
  | VDict d => VDict (sort_keys (map (fun kv => (kv.1, canon kv.2)) d))
  | _ => v
  end.

(** Values without floats whose dictionaries have distinct keys. *)
Fixpoint json_ok (v : pyval) : bool :=
  match v with
  | VFloat _ => false
  | VList l => forallb json_ok l
  | VDict d => bool_decide (NoDup (keys d)) && forallb (fun kv => json_ok kv.2) d
  | _ => true
  end.

(** ** Reading *)

Definition is_ws (c : ascii) : bool :=
  let n := code c in (n =? 32) || (n =? 9) || (n =? 10) || (n =? 13).
Definition is_digit (c : ascii) : bool := let n := code c in (48 <=? n) && (n <=? 57).
Definition digit_val (c : ascii) : Z := code c - 48.

Fixpoint skip_ws (s : string) : string :=
  match s with
  | String c r => if is_ws c then skip_ws r else s
  | "" => ""
  end.

(** The rest of [s] after [p]. *)
Fixpoint strip_prefix (p s : string) : option string :=
  match p, s with
  | "", _ => Some s
  | String c p, String c' s => if Ascii.eqb c c' then strip_prefix p s else None
  | _, _ => None
  end.

Definition hex_val (c : ascii) : option Z :=
  let n := code c in
  if (48 <=? n) && (n <=? 57) then Some (n - 48)
  else if (97 <=? n) && (n <=? 102) then Some (n - 87)
  else if (65 <=? n) && (n <=? 70) then Some (n - 55)
  else None.

Definition hex4 (a b c d : ascii) : option Z :=
  match hex_val a, hex_val b, hex_val c, hex_val d with
  | Some a, Some b, Some c, Some d => Some (((a * 16 + b) * 16 + c) * 16 + d)
  | _, _, _, _ => None
  end.

(** The one-letter escapes. *)
Definition escaped (c : ascii) : option ascii :=
  let n := code c in
  if (n =? 34) || (n =? 92) || (n =? 47) then Some c
  else if n =? 98 then Some (chr 8) else if n =? 102 then Some (chr 12)
  else if n =? 110 then Some (chr 10) else if n =? 114 then Some (chr 13)
  else if n =? 116 then Some (chr 9) else None.

(** The characters of a string up to its closing quote. *)
Fixpoint parse_chars (s : string) : option (string * string) :=
  match s with
  | "" => None
  | String c r =>
      if code c =? 34 then Some ("", r)
      else if code c =? 92 then
        match r with
        | String e r1 =>
            if code e =? 117 then
              match r1 with
              | String h1 (String h2 (String h3 (String h4 r2))) =>
                  match hex4 h1 h2 h3 h4 with
                  | Some n =>
                      if n <? 256 then
                        match parse_chars r2 with
                        | Some (t, rest) => Some (String (chr n) t, rest)
                        | None => None
                        end
                      else None
                  | None => None
                  end
              | _ => None
              end
            else
              match escaped e, parse_chars r1 with
              | Some c, Some (t, rest) => Some (String c t, rest)
              | _, _ => None
              end
        | "" => None
        end
      else if code c <? 32 then None
      else match parse_chars r with
           | Some (t, rest) => Some (String c t, rest)
           | None => None
           end
  end.

(** The digits at the head of [s], with their value. *)
Fixpoint span_digits (acc : Z) (s : string) : Z * string * string :=
  match s with
  | String c r =>
      if is_digit c then
        let '(n, ds, rest) := span_digits (10 * acc + digit_val c) r in (n, String c ds, rest)
      else (acc, "", s)
  | "" => (acc, "", "")
  end.

(** [(\.[0-9]+)?([eE][-+]?[0-9]+)?]: the token's fraction and exponent. *)
Definition parse_frac (s : string) : string * string :=
  match s with
  | String c r =>
      if code c =? 46 then
        let '(_, ds, rest) := span_digits 0 r in
        if String.eqb ds "" then ("", s) else (String c ds, rest)
      else ("", s)
  | "" => ("", s)
  end.
Definition parse_exp (s : string) : string * string :=
  match s with
  | String c r =>
      if (code c =? 101) || (code c =? 69) then
        let '(sign, r1) := match r with
          | String d r1 => if (code d =? 43) || (code d =? 45) then (String d "", r1) else ("", r)
          | "" => ("", r) end in
        let '(_, ds, rest) := span_digits 0 r1 in
        if String.eqb ds "" then ("", s) else (String c (sign +:+ ds), rest)
      else ("", s)
  | "" => ("", s)
  end.

(** A number token; [strict] is [parse_float=_noninteger]. *)
Definition parse_number (strict : bool) (s : string) : res (pyval * string) :=
  let '(neg, s1) := match s with
    | String c r => if code c =? 45 then (true, r) else (false, s) | "" => (false, s) end in
  match s1 with
  | String c r =>
      if is_digit c then
        let '(n, ds, rest) := if code c =? 48 then (0, String c "", r) else span_digits 0 s1 in
        let '(frac, rest1) := parse_frac rest in
        let '(exp, rest2) := parse_exp rest1 in
        if String.eqb frac "" && String.eqb exp "" then
          Ok (VInt (if neg then - n else n), rest)
        else
          let token := (if neg then "-" else "") +:+ ds +:+ frac +:+ exp in
          if strict then fail ("noninteger number in MF01 evidence: " +:+ token)
          else Ok (VFloat token, rest2)
      else fail "Expecting value"
  | "" => fail "Expecting value"
  end.

(** [_object]: the pairs as a dictionary, duplicates refused. *)
Fixpoint object_pairs (message : string) (acc pairs : dict) : res dict :=
  match pairs with
  | [] => Ok acc
  | (k, v) :: pairs =>
      raise_if bool_decide (k ∈ keys acc) with message +:+ k in
      object_pairs message (acc ++ [(k, v)]) pairs
  end.

(** A reader's hooks. *)
Record hooks := Hooks { hk_strict : bool; hk_duplicate : string }.

Definition constant (h : hooks) (token spelling rest : string) : res (pyval * string) :=
  if hk_strict h then fail ("noninteger number in MF01 evidence: " +:+ token)
  else Ok (VFloat spelling, rest).

Definition parse_atom (h : hooks) (s : string) : res (pyval * string) :=
  match strip_prefix "null" s with Some r => Ok (VNone, r) | None =>
  match strip_prefix "true" s with Some r => Ok (VBool true, r) | None =>
  match strip_prefix "false" s with Some r => Ok (VBool false, r) | None =>
  match strip_prefix "NaN" s with Some r => constant h "NaN" "nan" r | None =>
  match strip_prefix "Infinity" s with Some r => constant h "Infinity" "inf" r | None =>
  match strip_prefix "-Infinity" s with Some r => constant h "-Infinity" "-inf" r | None =>
  parse_number (hk_strict h) s
  end end end end end end.

(** The value at the head of [s]; [members] and [items] read the rest of a
    non-empty object or array. *)
Fixpoint parse_value (h : hooks) (fuel : nat) (s : string) : res (pyval * string) :=
  match fuel with
  | O => Err OutOfFuel
  | S fuel =>
      match s with
      | "" => fail "Expecting value"
      | String c r =>
          if code c =? 34 then
            match parse_chars r with
            | Some (t, rest) => Ok (VStr t, rest)
            | None => fail "Unterminated string"
            end
          else if code c =? 123 then
            match skip_ws r with
            | String c1 r1 =>
                if code c1 =? 125 then Ok (VDict [], r1)
                else
                  let* ' (pairs, rest) := parse_members h fuel (String c1 r1) in
                  let* d := object_pairs (hk_duplicate h) [] pairs in
                  Ok (VDict d, rest)
            | "" => fail "Expecting property name enclosed in double quotes"
            end
          else if code c =? 91 then
            match skip_ws r with
            | String c1 r1 =>
                if code c1 =? 93 then Ok (VList [], r1)
                else let* ' (l, rest) := parse_items h fuel (String c1 r1) in Ok (VList l, rest)
            | "" => fail "Expecting value"
            end
          else parse_atom h s
      end
  end
with parse_members (h : hooks) (fuel : nat) (s : string) : res (dict * string) :=
  match fuel with
  | O => Err OutOfFuel
  | S fuel =>
      match s with
      | String c r =>
          raise_if negb (code c =? 34) with "Expecting property name enclosed in double quotes" in
          match parse_chars r with
          | None => fail "Unterminated string"
          | Some (k, r1) =>
              match skip_ws r1 with
              | String c2 r2 =>
                  raise_if negb (code c2 =? 58) with "Expecting ':' delimiter" in
                  let* ' (v, r3) := parse_value h fuel (skip_ws r2) in
                  match skip_ws r3 with
                  | String c4 r4 =>
                      if code c4 =? 44 then
                        let* ' (pairs, rest) := parse_members h fuel (skip_ws r4) in
                        Ok ((k, v) :: pairs, rest)
                      else if code c4 =? 125 then Ok ([(k, v)], r4)
                      else fail "Expecting ',' delimiter"
                  | "" => fail "Expecting ',' delimiter"
                  end
              | "" => fail "Expecting ':' delimiter"
              end
          end
      | "" => fail "Expecting property name enclosed in double quotes"
      end
  end
with parse_items (h : hooks) (fuel : nat) (s : string) : res (list pyval * string) :=
  match fuel with
  | O => Err OutOfFuel
  | S fuel =>
      let* ' (v, r1) := parse_value h fuel s in
      match skip_ws r1 with
      | String c2 r2 =>
          if code c2 =? 44 then
            let* ' (l, rest) := parse_items h fuel (skip_ws r2) in Ok (v :: l, rest)
          else if code c2 =? 93 then Ok ([v], r2)
          else fail "Expecting ',' delimiter"
      | "" => fail "Expecting ',' delimiter"
      end
  end.

(** [json.loads] with a reader's hooks; the length of the text bounds the nesting. *)
Definition json_loads (h : hooks) (s : string) : res pyval :=
  let* ' (v, rest) := parse_value h (S (2 * String.length s)) (skip_ws s) in
  if String.eqb (skip_ws rest) "" then Ok v else fail "Extra data".

(** [fold_evidence.loads] *)
Definition loads : string -> res pyval := json_loads (Hooks true "duplicate evidence field: ").

(** [project_composition._json] *)
Definition composition_json (payload : string) : res pyval :=
  let* value := json_loads (Hooks false "duplicate JSON field: ") payload in
  match value with VDict _ => Ok value | _ => fail "expected composition object" end.

Definition json_example : pyval :=
  VDict [("b", VList [VInt (-12); VInt 0; VStr "x y"]); ("a", VDict [("k", VNone); ("", VBool true)]);
         ("e", VList []); ("f", VDict [])].

Example json_example_text :
  (let* t := encoded json_example in loads t) =
  Ok (VDict [("a", VDict [("", VBool true); ("k", VNone)]);
             ("b", VList [VInt (-12); VInt 0; VStr "x y"]); ("e", VList []); ("f", VDict [])]).
Proof. vm_compute. reflexivity. Qed.
