(* ===== verification/JsonFacts.v ===== *)
(** * Reading back what [encoded] writes

    [json_roundtrip]: the readers return the written value with its members in
    key order, for every value without floats whose dictionaries have distinct
    keys. The fuel [json_loads] gives, one more than twice the length of the text,
    is enough. *)

From S2P Require Import Prelude PyValue Json.
From Stdlib Require Import Ascii.

(** ** Strings *)

Lemma append_cons x a b : String x a +:+ b = String x (a +:+ b).
Proof. reflexivity. Qed.

Lemma append_assoc a b c : a +:+ (b +:+ c) = (a +:+ b) +:+ c.
Proof. induction a as [|x a IH]; [done|]. by rewrite !append_cons, IH. Qed.

Lemma append_nil_r a : a +:+ "" = a.
Proof. induction a as [|x a IH]; [done|]. by rewrite append_cons, IH. Qed.

Lemma length_append a b : String.length (a +:+ b) = (String.length a + String.length b)%nat.
Proof. induction a as [|x a IH]; [done|]. rewrite append_cons. cbn. by rewrite IH. Qed.

Lemma substring_all s : String.substring 0 (String.length s) s = s.
Proof. induction s as [|c s IH]; [done|]. cbn. by rewrite IH. Qed.
Lemma string_concat_cons s l : String.concat "" (s :: l) = s +:+ String.concat "" l.
Proof. destruct l as [|s' l]; [symmetry; apply append_nil_r|done]. Qed.

(** All characters, for statements that only depend on the code. *)
Lemma ascii_all (P : ascii -> Prop) :
  Forall P (map ascii_of_nat (seq 0 256)) -> forall c, P c.
Proof.
  intros H c. rewrite Forall_forall in H. apply H.
  rewrite <- (ascii_nat_embedding c). apply list_elem_of_In, in_map, in_seq.
  pose proof (nat_ascii_bounded c). lia.
Qed.

Lemma parse_chars_step c s :
  parse_chars (json_char c +:+ s) =
    match parse_chars s with Some (t, rest) => Some (String c t, rest) | None => None end.
Proof.
  revert s. pattern c. revert c. apply ascii_all. cbn -[parse_chars json_char].
  repeat constructor; intros s; reflexivity.
Qed.

Lemma parse_json_str s rest : parse_chars (json_chars s +:+ quote +:+ rest) = Some (s, rest).
Proof.
  induction s as [|c s IH]; [done|]. cbn [json_chars]. rewrite <- append_assoc, parse_chars_step.
  by rewrite IH.
Qed.

(** ** Numbers *)

Definition no_digit (s : string) : Prop :=
  match s with String c _ => is_digit c = false | "" => True end.
(** What may follow a number without extending it. *)
Definition no_number (s : string) : Prop :=
  match s with
  | String c _ => is_digit c = false /\ code c <> 46 /\ code c <> 101 /\ code c <> 69
  | "" => True
  end.

Lemma no_number_digit s : no_number s -> no_digit s.
Proof. destruct s; [done|]. by intros []. Qed.

Lemma digit_char_spec n : (n < 10)%N ->
  is_digit (pretty_N_char n) = true /\ digit_val (pretty_N_char n) = Z.of_N n /\
  (code (pretty_N_char n) = 48 <-> n = 0%N).
Proof.
  intros Hn.
  assert (Hall : Forall (fun n => is_digit (pretty_N_char n) = true /\ digit_val (pretty_N_char n) = Z.of_N n /\
    (code (pretty_N_char n) = 48 <-> n = 0%N)) (map N.of_nat (seq 0 10))).
  { repeat (constructor; [split_and!; [reflexivity|reflexivity|split; (done || discriminate)]|]). constructor. }
  rewrite Forall_forall in Hall. apply Hall. apply list_elem_of_fmap. exists (N.to_nat n).
  rewrite N2Nat.id, elem_of_seq. lia.
Qed.

Lemma pretty_go_app q t : pretty_N_go q t = pretty_N_go q "" +:+ t.
Proof.
  revert t. induction (N.lt_wf_0 q) as [q _ IH]; intros t.
  destruct (decide (q = 0)%N) as [->|Hq]; [by rewrite !pretty_N_go_0|].
  assert (Hlt : (q `div` 10 < q)%N) by (apply N.div_lt; lia).
  rewrite !(pretty_N_go_step q) by lia.
  rewrite (IH _ Hlt (String _ t)), (IH _ Hlt (String _ "")). by rewrite <- append_assoc.
Qed.

(** The digits of [n] before [s]: reading them adds [n] in front. *)
Lemma span_pretty_go n s acc :
  exists k, span_digits acc (pretty_N_go n s) =
    (let '(m, ds, rest) := span_digits (acc * 10 ^ k + Z.of_N n) s in
     (m, pretty_N_go n "" +:+ ds, rest)) /\ 0 <= k.
Proof.
  revert s acc. induction (N.lt_wf_0 n) as [n _ IH]; intros s acc.
  destruct (decide (n = 0)%N) as [->|Hn].
  { exists 0. rewrite !pretty_N_go_0. rewrite Z.mul_1_r, Z.add_0_r.
    split; [|done]. by destruct (span_digits acc s) as [[? ?] ?]. }
  rewrite !(pretty_N_go_step n) by lia.
  destruct (IH (n `div` 10)%N) with (s := String (pretty_N_char (n `mod` 10)) s) (acc := acc) as (k & -> & Hk).
  { apply N.div_lt; lia. }
  destruct (digit_char_spec (n `mod` 10)) as (Hd & Hv & _); [by apply N.mod_lt|].
  exists (k + 1). split; [|lia]. cbn [span_digits]. rewrite Hd, Hv.
  replace (10 * (acc * 10 ^ k + Z.of_N (n `div` 10)) + Z.of_N (n `mod` 10))
    with (acc * 10 ^ (k + 1) + Z.of_N n).
  2: { rewrite Z.pow_add_r by lia. rewrite N2Z.inj_div, N2Z.inj_mod.
       pose proof (Z.div_mod (Z.of_N n) 10). lia. }
  destruct (span_digits _ s) as [[m ds] rest]. do 2 f_equal.
  rewrite (pretty_go_app _ (String _ "")), <- append_assoc.
  reflexivity.
Qed.

Lemma span_no_digit acc s : no_digit s -> span_digits acc s = (acc, "", s).
Proof. destruct s as [|c s]; [done|]. cbn. by intros ->. Qed.

(** The first digit of a positive number is not zero. *)
Lemma pretty_go_head n s :
  (0 < n)%N -> exists c r, pretty_N_go n s = String c r /\ is_digit c = true /\ code c <> 48.
Proof.
  revert s. induction (N.lt_wf_0 n) as [n _ IH]; intros s Hn. rewrite pretty_N_go_step by done.
  destruct (decide (n < 10)%N) as [H|H].
  - rewrite N.div_small, pretty_N_go_0, N.mod_small by done.
    destruct (digit_char_spec n) as (? & ? & Hz); [done|]. eexists _, _. split; [done|].
    split; [done|]. intros Hc%Hz. lia.
  - apply IH; [by apply N.div_lt|]. apply N.div_str_pos. lia.
Qed.

Lemma pretty_Z_pos p : pretty (Z.pos p) = pretty_N_go (N.pos p) "".
Proof. reflexivity. Qed.
Lemma pretty_Z_neg p : pretty (Z.neg p) = "-" +:+ pretty_N_go (N.pos p) "".
Proof. reflexivity. Qed.

Lemma parse_digits p rest :
  no_digit rest -> span_digits 0 (pretty_N_go (N.pos p) "" +:+ rest) =
    (Z.pos p, pretty_N_go (N.pos p) "", rest).
Proof.
  intros Hr. rewrite <- pretty_go_app. destruct (span_pretty_go (N.pos p) rest 0) as (k & -> & _).
  rewrite span_no_digit by done. by rewrite append_nil_r.
Qed.

Lemma parse_frac_none s : no_number s -> parse_frac s = ("", s).
Proof.
  destruct s as [|c s]; [done|]. intros (_ & H & _ & _). unfold parse_frac.
  by rewrite (proj2 (Z.eqb_neq _ _)).
Qed.
Lemma parse_exp_none s : no_number s -> parse_exp s = ("", s).
Proof.
  destruct s as [|c s]; [done|]. intros (_ & _ & H & H'). unfold parse_exp.
  by rewrite !(proj2 (Z.eqb_neq _ _)).
Qed.

Lemma parse_number_pretty strict z rest :
  no_number rest -> parse_number strict (pretty z +:+ rest) = Ok (VInt z, rest).
Proof.
  intros Hr. pose proof (no_number_digit _ Hr) as Hd. unfold parse_number.
  destruct z as [|p|p].
  - change (pretty 0 +:+ rest) with (String "0" rest). cbn -[parse_frac parse_exp].
    change (code "0" =? 45) with false. cbn beta iota. change (is_digit "0") with true.
    change (code "0" =? 48) with true. cbn beta iota. by rewrite parse_frac_none, parse_exp_none.
  - rewrite pretty_Z_pos.
    destruct (pretty_go_head (N.pos p) "") as (c & r & E & Hc & Hz); [done|].
    pose proof (parse_digits p rest Hd) as Hspan. rewrite E in Hspan |- *.
    rewrite append_cons in *. cbn [string_rect].
    assert ((code c =? 45) = false) as ->.
    { unfold is_digit in Hc. bool_prop. apply Z.eqb_neq. lia. }
    rewrite Hc, (proj2 (Z.eqb_neq _ _) Hz), Hspan, parse_frac_none, parse_exp_none by done. done.
  - rewrite pretty_Z_neg.
    destruct (pretty_go_head (N.pos p) "") as (c & r & E & Hc & Hz); [done|].
    pose proof (parse_digits p rest Hd) as Hspan. rewrite E in Hspan |- *.
    rewrite append_cons in *. change ("-" +:+ String c r) with (String "-" (String c r)).
    rewrite !append_cons. change (code "-" =? 45) with true. cbn beta iota.
    change ("" +:+ String c r) with (String c r). rewrite append_cons, Hc, (proj2 (Z.eqb_neq _ _) Hz), Hspan, parse_frac_none, parse_exp_none by done. done.
Qed.

(** ** White space and structure *)

Lemma skip_spaces n s : skip_ws (spaces n +:+ s) = skip_ws s.
Proof. induction n as [|n IH]; [done|]. exact IH. Qed.
Lemma skip_newline n s : skip_ws (newline n +:+ s) = skip_ws s.
Proof. unfold newline. rewrite append_cons. apply skip_spaces. Qed.

(** The first character of a written value. *)
Definition value_head (s : string) : Prop :=
  match s with String c _ => is_ws c = false /\ code c <> 93 /\ code c <> 125 | "" => False end.

Lemma value_head_app s t : value_head s -> value_head (s +:+ t).
Proof. by destruct s. Qed.
Lemma value_head_skip s : value_head s -> skip_ws s = s.
Proof. destruct s as [|c s]; [done|]. intros [H _]. cbn. by rewrite H. Qed.

Lemma pretty_head (z : Z) : exists c r, pretty z = String c r /\
  ((is_digit c = true /\ True) \/ (c = "-"%char /\ exists d r', r = String d r' /\ is_digit d = true)).
Proof.
  destruct z as [|p|p].
  - exists "0"%char, "". split; [done|]. by left.
  - destruct (pretty_go_head (N.pos p) "") as (c & r & E & Hc & _); [done|].
    exists c, r. rewrite pretty_Z_pos. auto.
  - destruct (pretty_go_head (N.pos p) "") as (c & r & E & Hc & _); [done|].
    exists "-"%char, (String c r). rewrite pretty_Z_neg, E. split; [done|]. right. eauto.
Qed.

Lemma digit_code c : is_digit c = true -> 48 <= code c <= 57.
Proof. unfold is_digit. intros H. bool_prop. lia. Qed.

Lemma json_ok_head ind v : json_ok v = true -> value_head (dumps ind v).
Proof.
  destruct v as [| [] |z| s |s|[|x l]|[|x d]]; try done; intros _.
  destruct (pretty_head z) as (c & r & E & [[Hc _]|[-> _]]); cbn [dumps]; rewrite E; [|done].
  apply digit_code in Hc. split; [|lia]. unfold is_ws.
  rewrite !(proj2 (Z.eqb_neq _ _)) by lia. done.
Qed.

Lemma eqb_code_ne c d : code c <> code d -> Ascii.eqb d c = false.
Proof. intros H. apply Ascii.eqb_neq. by intros ->. Qed.

Lemma parse_atom_pretty h z rest :
  no_number rest -> parse_atom h (pretty z +:+ rest) = Ok (VInt z, rest).
Proof.
  intros Hr. unfold parse_atom. rewrite parse_number_pretty by done.
  destruct (pretty_head z) as (c & r & -> & [[Hc _]|[-> (d & r' & -> & Hd)]]).
  - apply digit_code in Hc. rewrite append_cons. cbn [strip_prefix].
    rewrite !eqb_code_ne; [done|..]; intros E; rewrite E in Hc; vm_compute in Hc;
      destruct Hc as [H1 H2]; (by apply H1) || (by apply H2).
  - apply digit_code in Hd. rewrite !append_cons. cbn [strip_prefix].
    rewrite Ascii.eqb_refl, !(eqb_code_ne "-"%char) by (vm_compute; discriminate).
    rewrite eqb_code_ne; [done|]. intros E. rewrite E in Hd. vm_compute in Hd.
    destruct Hd as [H1 H2]; (by apply H1) || (by apply H2).
Qed.

Lemma parse_value_pretty h fuel z rest :
  no_number rest -> parse_value h (S fuel) (pretty z +:+ rest) = Ok (VInt z, rest).
Proof.
  intros Hr. pose proof (parse_atom_pretty h z rest Hr) as Hatom.
  destruct (pretty_head z) as (c & r & E & Hc). rewrite E in Hatom |- *.
  rewrite append_cons in *. cbn [parse_value].
  assert (Hcode : 48 <= code c <= 57 \/ code c = 45).
  { destruct Hc as [[Hc _]|[-> _]]; [left; by apply digit_code|by right]. }
  rewrite !(proj2 (Z.eqb_neq _ _)) by lia. exact Hatom.
Qed.

(** ** Sorting members *)

Lemma insert_key_map {A B} (f : A -> B) x l :
  insert_key (x.1, f x.2) (map (fun kv => (kv.1, f kv.2)) l) =
  map (fun kv => (kv.1, f kv.2)) (insert_key x l).
Proof. induction l as [|y l IH]; [done|]. cbn. rewrite IH. by destruct (String.leb _ _). Qed.

Lemma sort_keys_map {A B} (f : A -> B) l :
  sort_keys (map (fun kv => (kv.1, f kv.2)) l) = map (fun kv => (kv.1, f kv.2)) (sort_keys l).
Proof. induction l as [|x l IH]; [done|]. unfold sort_keys in *. cbn [map foldr]. rewrite IH. apply insert_key_map. Qed.

Lemma insert_key_perm {A} (x : string * A) l : insert_key x l ≡ₚ x :: l.
Proof.
  induction l as [|y l IH]; [done|]. cbn. destruct (String.leb _ _); [done|].
  rewrite IH. apply Permutation_swap.
Qed.
Lemma sort_keys_perm {A} (l : list (string * A)) : sort_keys l ≡ₚ l.
Proof. induction l as [|x l IH]; [done|]. unfold sort_keys in *. cbn [foldr]. by rewrite insert_key_perm, IH. Qed.

Lemma object_pairs_ok m acc d :
  NoDup (keys (acc ++ d)) -> object_pairs m acc d = Ok (acc ++ d).
Proof.
  revert acc. induction d as [|[k v] d IH]; intros acc Hnd; cbn; [by rewrite app_nil_r|].
  rewrite bool_decide_false.
  - rewrite IH, <- app_assoc; [done|]. by rewrite <- app_assoc.
  - unfold keys in *. rewrite map_app in Hnd. apply NoDup_app in Hnd as (_ & Hd & _).
    intros Hin. eapply Hd; [done|]. constructor.
Qed.

(** ** The round trip *)

#[local] Open Scope nat_scope.

Section reads.
Context (h : hooks).

(** The reader returns [v] from a text of it. *)
Definition reads_as (text : string) (v : pyval) : Prop :=
  forall fuel rest, no_number rest -> 2 * String.length (text +:+ rest) < fuel ->
  parse_value h fuel (text +:+ rest) = Ok (canon v, rest).

Definition blank (s : string) : Prop := forall t, skip_ws (s +:+ t) = skip_ws t.

Lemma no_number_comma s : no_number ("," +:+ s).
Proof. done. Qed.

Ltac lens := do 3 (rewrite ?length_append in *; cbn [String.length] in *); lia.

(** The layout of a list or a dictionary: the text of an item, and the blanks
    after a comma, after a colon and before the closing bracket. *)
Section layout.
Context (render : pyval -> string) (gap pad close : string).
Context (Hgap : blank gap) (Hpad : blank pad) (Hclose : blank close).
Context (Hend : forall b t, b = "]"%char \/ b = "}"%char -> no_number (close +:+ String b t)).
Context (Hhead : forall v, json_ok v = true -> value_head (render v)).

Lemma list_head l s : l <> [] -> Forall (fun v => json_ok v = true) l ->
  value_head (String.concat s (map render l)).
Proof.
  destruct l as [|v [|v' l]]; intros Hn H; [done|..]; apply Forall_cons in H as [Hv _].
  - exact (Hhead _ Hv).
  - apply value_head_app. exact (Hhead _ Hv).
Qed.

Lemma parse_items_ok l rest fuel :
  l <> [] -> Forall (fun v => reads_as (render v) v) l -> Forall (fun v => json_ok v = true) l ->
  let text := String.concat ("," +:+ gap) (map render l) +:+ (close +:+ ("]" +:+ rest)) in
  2 * String.length text + 1 < fuel ->
  parse_items h fuel text = Ok (map canon l, rest).
Proof.
  intros Hne Hr Hj. revert fuel. induction l as [|v l IH]; intros fuel text Hf; [done|].
  apply Forall_cons in Hr as [Hv Hr]. apply Forall_cons in Hj as [Hjv Hj].
  destruct fuel as [|fuel]; [lia|]. cbn [parse_items]. subst text.
  destruct l as [|v' l].
  - cbn [map String.concat] in *.
    rewrite Hv; [|apply Hend; by left|lens]. cbn [bind]. rewrite Hclose. reflexivity.
  - set (tail := String.concat ("," +:+ gap) (map render (v' :: l))) in *.
    change (String.concat ("," +:+ gap) (map render (v :: v' :: l)))
      with (render v +:+ (("," +:+ gap) +:+ tail)) in *.
    rewrite <- !append_assoc in *.
    rewrite Hv; [|apply no_number_comma|lens]. cbn [bind].
    rewrite append_cons. cbn [skip_ws]. change (is_ws ",") with false. cbn iota.
    change (code "," =? 44)%Z with true. cbn iota.
    change ("" +:+ ?x) with x. rewrite Hgap.
    rewrite value_head_skip by (by apply value_head_app, list_head).
    rewrite IH; [done|done|done|done|]. fold tail. lens.
Qed.

Definition member_text (kv : string * pyval) : string :=
  json_str kv.1 +:+ (":" +:+ pad) +:+ render kv.2.

Lemma member_head d s : d <> [] -> value_head (String.concat s (map member_text d)).
Proof. destruct d as [|kv [|kv' d]]; done. Qed.

Lemma parse_members_quote fuel s :
  parse_members h (S fuel) (quote +:+ s) =
    match parse_chars s with
    | None => fail "Unterminated string"
    | Some (k, r1) =>
        match skip_ws r1 with
        | String c2 r2 =>
            raise_if negb (code c2 =? 58)%Z with "Expecting ':' delimiter" in
            let* ' (v, r3) := parse_value h fuel (skip_ws r2) in
            match skip_ws r3 with
            | String c4 r4 =>
                if (code c4 =? 44)%Z then
                  let* ' (pairs, rest) := parse_members h fuel (skip_ws r4) in
                  Ok ((k, v) :: pairs, rest)
                else if (code c4 =? 125)%Z then Ok ([(k, v)], r4)
                else fail "Expecting ',' delimiter"
            | "" => fail "Expecting ',' delimiter"
            end
        | "" => fail "Expecting ':' delimiter"
        end
    end.
Proof. reflexivity. Qed.

(** One member, up to the text after it. *)
Lemma parse_member fuel k v more :
  reads_as (render v) v -> json_ok v = true -> 2 * String.length (member_text (k, v) +:+ more) < S fuel -> no_number more ->
  parse_members h (S fuel) (member_text (k, v) +:+ more) =
    match skip_ws more with
    | String c4 r4 =>
        if (code c4 =? 44)%Z then
          let* ' (pairs, rest) := parse_members h fuel (skip_ws r4) in
          Ok ((k, canon v) :: pairs, rest)
        else if (code c4 =? 125)%Z then Ok ([(k, canon v)], r4)
        else fail "Expecting ',' delimiter"
    | "" => fail "Expecting ',' delimiter"
    end.
Proof.
  intros Hv Hjv Hlen Hmore. unfold member_text, json_str in *. cbn [fst snd] in *.
  rewrite <- !append_assoc in *. rewrite parse_members_quote, parse_json_str.
  rewrite append_cons. cbn [skip_ws].
  change (is_ws ":") with false. cbn iota. change (negb (code ":" =? 58)%Z) with false. cbn iota.
  change ("" +:+ ?x) with x. rewrite Hpad.
  rewrite value_head_skip by (by apply value_head_app, Hhead).
  rewrite Hv; [reflexivity|done|]. lens.
Qed.

Lemma parse_members_ok d rest fuel :
  d <> [] -> Forall (fun kv => reads_as (render kv.2) kv.2) d -> Forall (fun kv => json_ok kv.2 = true) d ->
  let text := String.concat ("," +:+ gap) (map member_text d) +:+ (close +:+ ("}" +:+ rest)) in
  2 * String.length text + 1 < fuel ->
  parse_members h fuel text = Ok (map (fun kv => (kv.1, canon kv.2)) d, rest).
Proof.
  intros Hne Hr Hj. revert fuel. induction d as [|[k v] d IH]; intros fuel text Hf; [done|].
  apply Forall_cons in Hr as [Hv Hr]. apply Forall_cons in Hj as [Hjv Hj].
  destruct fuel as [|fuel]; [lia|]. subst text. cbn [fst snd] in Hv, Hjv.
  destruct d as [|kv' d].
  - cbn [map String.concat] in *. rewrite parse_member; [|done|done|lens|apply Hend; by right].
    rewrite Hclose. reflexivity.
  - set (tail := String.concat ("," +:+ gap) (map member_text (kv' :: d))) in *.
    change (String.concat ("," +:+ gap) (map member_text ((k, v) :: kv' :: d)))
      with (member_text (k, v) +:+ (("," +:+ gap) +:+ tail)) in *.
    rewrite <- !append_assoc in *. rewrite parse_member; [|done|done|lens|apply no_number_comma].
    rewrite append_cons. cbn [skip_ws]. change (is_ws ",") with false. cbn iota.
    change (code "," =? 44)%Z with true. cbn iota.
    change ("" +:+ ?x) with x. rewrite Hgap.
    rewrite value_head_skip by (by apply value_head_app, member_head).
    rewrite IH; [done|done|done|done|]. fold tail. lens.
Qed.

Lemma parse_value_open_list fuel s :
  value_head s ->
  parse_value h (S fuel) ("[" +:+ (gap +:+ s)) = let* ' (l, rest) := parse_items h fuel s in Ok (VList l, rest).
Proof.
  intros Hs. rewrite append_cons. cbn [parse_value]. change ("" +:+ ?x) with x.
  change (code "[" =? 34)%Z with false. change (code "[" =? 123)%Z with false.
  change (code "[" =? 91)%Z with true. cbn iota. rewrite Hgap, value_head_skip by done.
  destruct s as [|c s]; [done|]. destruct Hs as (_ & H93 & _). by rewrite (proj2 (Z.eqb_neq _ _) H93).
Qed.

Lemma parse_value_open_dict fuel s :
  value_head s ->
  parse_value h (S fuel) ("{" +:+ (gap +:+ s)) =
    let* ' (pairs, rest) := parse_members h fuel s in
    let* d := object_pairs (hk_duplicate h) [] pairs in Ok (VDict d, rest).
Proof.
  intros Hs. rewrite append_cons. cbn [parse_value]. change ("" +:+ ?x) with x.
  change (code "{" =? 34)%Z with false. change (code "{" =? 123)%Z with true. cbn iota.
  rewrite Hgap, value_head_skip by done.
  destruct s as [|c s]; [done|]. destruct Hs as (_ & _ & H125). by rewrite (proj2 (Z.eqb_neq _ _) H125).
Qed.

Lemma reads_list l :
  l <> [] -> Forall (fun v => reads_as (render v) v) l -> Forall (fun v => json_ok v = true) l ->
  reads_as ("[" +:+ gap +:+ String.concat ("," +:+ gap) (map render l) +:+ close +:+ "]") (VList l).
Proof.
  intros Hn Hr Hj fuel rest Hrest Hf. rewrite <- !append_assoc in *.
  destruct fuel as [|fuel]; [lia|].
  rewrite parse_value_open_list by (by apply value_head_app, list_head).
  rewrite parse_items_ok by (done || lens).
  reflexivity.
Qed.

Lemma reads_dict d :
  d <> [] -> NoDup (keys d) -> Forall (fun kv => reads_as (render kv.2) kv.2) d -> Forall (fun kv => json_ok kv.2 = true) d ->
  reads_as ("{" +:+ gap +:+ String.concat ("," +:+ gap) (map member_text (sort_keys d)) +:+ close +:+ "}") (VDict d).
Proof.
  intros Hn Hnd Hr Hj fuel rest Hrest Hf. pose proof (sort_keys_perm d) as Hp.
  assert (Hn' : sort_keys d <> []).
  { intros E. rewrite E in Hp. by apply Permutation_nil in Hp. }
  rewrite <- !append_assoc in *. destruct fuel as [|fuel]; [lia|].
  rewrite parse_value_open_dict by (by apply value_head_app, member_head).
  rewrite parse_members_ok.
  - cbn [bind]. rewrite object_pairs_ok; cbn [app].
    + cbn [bind canon]. by rewrite sort_keys_map.
    + unfold keys. rewrite map_map. cbn [fst].
      assert (map (fun x : string * pyval => x.1) (sort_keys d) ≡ₚ keys d) as ->; [|done].
      by apply Permutation_map.
  - done.
  - by rewrite Hp.
  - by rewrite Hp.
  - lens.
Qed.

(** The members as the writer has them: rendered, then sorted. *)
Lemma members_rendered d :
  map (fun kt : string * string => json_str kt.1 +:+ (":" +:+ pad) +:+ kt.2) (sort_keys (map (fun kv => (kv.1, render kv.2)) d)) = map member_text (sort_keys d).
Proof. by rewrite sort_keys_map, map_map. Qed.
End layout.

(** A string, whatever is around it. *)
Lemma reads_str s : reads_as (json_str s) (VStr s).
Proof.
  intros [|fuel] rest Hr Hf; [lia|]. unfold json_str. rewrite <- !append_assoc.
  unfold quote at 1. unfold str1. rewrite append_cons. cbn [parse_value].
  change (code (chr 34) =? 34)%Z with true. cbn iota. change ("" +:+ ?x) with x.
  by rewrite parse_json_str.
Qed.

(** A writer that lays its values out in this way writes texts that are read back. *)
Lemma reads_writer (render : pyval -> string) v :
  render VNone = "null"%string -> (forall b : bool, render (VBool b) = if b then "true" else "false")%string ->
  (forall z, render (VInt z) = pretty z) -> (forall s, render (VStr s) = json_str s) ->
  (forall l, v = VList l -> forallb json_ok l = true -> reads_as (render (VList l)) (VList l)) ->
  (forall d, v = VDict d -> NoDup (keys d) -> forallb (fun kv => json_ok kv.2) d = true -> reads_as (render (VDict d)) (VDict d)) ->
  json_ok v = true -> reads_as (render v) v.
Proof.
  intros H0 Hb Hz Hs Hl Hd Hok. destruct v as [|b|z|s|s|l|d]; [| | |done| | |].
  - intros [|fuel] rest Hr Hf; [lia|]. rewrite H0. reflexivity.
  - intros [|fuel] rest Hr Hf; [lia|]. rewrite Hb. by destruct b.
  - intros [|fuel] rest Hr Hf; [lia|]. rewrite Hz. by apply parse_value_pretty.
  - rewrite Hs. apply reads_str.
  - by apply Hl.
  - cbn [json_ok] in Hok. apply andb_true_iff in Hok as [Hnd Hok]. apply bool_decide_eq_true in Hnd. by apply Hd.
Qed.
End reads.

(** ** The indented writer *)

Lemma blank_newline n : blank (newline n).
Proof. intros t. apply skip_newline. Qed.
Lemma blank_space : blank " ".
Proof. done. Qed.
Lemma newline_end n b t : b = "]"%char \/ b = "}"%char -> no_number (newline n +:+ String b t).
Proof. done. Qed.

(** The reader takes back every value the writer writes. *)
Lemma reads_written h v ind : json_ok v = true -> reads_as h (dumps ind v) v.
Proof.
  revert ind. induction v as [|b|z|s|s|l IH|d IH] using pyval_rect'; intros ind Hok; apply (reads_writer h (dumps ind)); try done.
  - intros ? [= <-] Hj. rewrite forallb_forall in Hj. assert (Hj' : Forall (fun v => json_ok v = true) l) by (apply Forall_forall; intros x Hx; by apply Hj, list_elem_of_In).
    destruct l as [|v l]; [intros [|fuel] rest Hr Hf; [lia|]; reflexivity|].
    apply (reads_list h (dumps (S (S ind))) (newline (S (S ind))) (newline ind)); [apply blank_newline|apply blank_newline|apply newline_end|apply json_ok_head|done| |done].
    rewrite Forall_forall in IH, Hj' |- *. intros x Hx. apply IH; auto.
  - intros ? [= <-] Hnd Hj. rewrite forallb_forall in Hj. assert (Hj' : Forall (fun kv => json_ok kv.2 = true) d) by (apply Forall_forall; intros x Hx; by apply Hj, list_elem_of_In).
    destruct d as [|kv d]; [intros [|fuel] rest Hr Hf; [lia|]; reflexivity|].
    assert (dumps ind (VDict (kv :: d)) = "{" +:+ newline (S (S ind)) +:+
      String.concat ("," +:+ newline (S (S ind))) (map (member_text (dumps (S (S ind))) " ") (sort_keys (kv :: d))) +:+ newline ind +:+ "}")%string as ->
      by (rewrite <- members_rendered; reflexivity).
    apply reads_dict; [apply blank_newline|apply blank_space|apply blank_newline|apply newline_end|apply json_ok_head|done|done| |done].
    rewrite Forall_forall in IH, Hj' |- *. intros x Hx. apply IH; auto.
Qed.

Lemma json_ok_no_nan v : json_ok v = true -> has_nan v = false.
Proof.
  induction v as [|b|z|s|s|l IH|d IH] using pyval_rect'; cbn; intros Hok; try done.
  - rewrite Forall_forall in IH. apply not_true_iff_false. intros (x & Hx & Hn)%existsb_exists.
    rewrite forallb_forall in Hok. apply list_elem_of_In in Hx as Hx'.
    rewrite IH in Hn by auto. done.
  - apply andb_true_iff in Hok as [_ Hok]. rewrite Forall_forall in IH.
    apply not_true_iff_false. intros (x & Hx & Hn)%existsb_exists.
    rewrite forallb_forall in Hok. apply list_elem_of_In in Hx as Hx'.
    rewrite IH in Hn by auto. done.
Qed.

Lemma json_loads_written h v :
  json_ok v = true -> (let* t := encoded v in json_loads h t) = Ok (canon v).
Proof.
  intros Hok. unfold encoded. rewrite json_ok_no_nan by done. cbn [bind]. unfold json_loads.
  rewrite value_head_skip by (by apply value_head_app, json_ok_head).
  rewrite (reads_written h v 0 Hok); [|done|lia]. reflexivity.
Qed.

(** C40. Both readers return the written value with its members in key order. *)
Theorem json_roundtrip v :
  json_ok v = true -> (let* t := encoded v in loads t) = Ok (canon v).
Proof. apply json_loads_written. Qed.

Lemma json_roundtrip_witness :
  json_ok json_example = true /\ (let* t := encoded json_example in loads t) = Ok (canon json_example).
Proof. split; [reflexivity|]. apply (json_roundtrip json_example). vm_compute. reflexivity. Defined.

(** ** Termination *)

Lemma skip_ws_length s : String.length (skip_ws s) <= String.length s.
Proof. induction s as [|c s IH]; [done|]. cbn. destruct (is_ws c); cbn; lia. Qed.

Lemma strip_prefix_length p s r :
  strip_prefix p s = Some r -> String.length s = String.length p + String.length r.
Proof.
  revert s. induction p as [|c p IH]; intros [|c' s] H; cbn in H; try done; [by injection H as <-..|].
  destruct (Ascii.eqb c c'); [|done]. cbn. by rewrite (IH s).
Qed.

Lemma parse_chars_length n s t r :
  String.length s <= n -> parse_chars s = Some (t, r) -> String.length r < String.length s.
Proof.
  revert s t r. induction n as [|n IH]; intros [|c s] t r Hn H; cbn in Hn; try lia; try done.
  cbn in H. repeat case_match; simplify_eq; cbn in *; try lia;
    match goal with H : parse_chars ?x = Some (_, ?y) |- _ =>
      pose proof (IH x _ y ltac:(cbn in *; lia) H) end; cbn in *; lia.
Qed.

Lemma span_digits_length acc s n ds r :
  span_digits acc s = (n, ds, r) -> String.length s = String.length ds + String.length r.
Proof.
  revert acc ds. induction s as [|c s IH]; intros acc ds H; cbn in H; [by injection H as <- <- <-|].
  destruct (is_digit c); [|by injection H as <- <- <-].
  destruct (span_digits _ s) as [[m ds'] r'] eqn:E. injection H as <- <- <-.
  cbn. by rewrite (IH _ _ E).
Qed.

Lemma parse_frac_length s t r : parse_frac s = (t, r) -> String.length r <= String.length s.
Proof.
  unfold parse_frac. destruct s as [|c s]; [by intros [= <- <-]|].
  destruct (code c =? 46)%Z; [|by intros [= <- <-]].
  destruct (span_digits 0 s) as [[m ds] r'] eqn:E. apply span_digits_length in E.
  destruct (String.eqb ds ""); intros [= <- <-]; cbn; lia.
Qed.

Lemma parse_exp_length s t r : parse_exp s = (t, r) -> String.length r <= String.length s.
Proof.
  unfold parse_exp. destruct s as [|c s]; [by intros [= <- <-]|].
  destruct (_ || _); [|by intros [= <- <-]].
  destruct (match s with String d r1 => _ | "" => _ end) as [sign r1] eqn:Es.
  assert (String.length r1 <= String.length s).
  { destruct s; [by injection Es as <- <-|]. destruct (_ || _); injection Es as <- <-; cbn; lia. }
  destruct (span_digits 0 r1) as [[m ds] r'] eqn:E. apply span_digits_length in E.
  destruct (String.eqb ds ""); intros [= <- <-]; cbn; lia.
Qed.

(** A reader step that returns or raises [ValueError], and consumes text. *)
Definition consumes {A} (s : string) (r : res (A * string)) : Prop :=
  value_error_only r /\ forall a t, r = Ok (a, t) -> String.length t < String.length s.

Lemma consumes_fail {A} s m : @consumes A s (fail m).
Proof. split; [done|]. intros a t H. discriminate H. Qed.

Lemma consumes_Ok {A} s (a : A) t : String.length t < String.length s -> consumes s (Ok (a, t)).
Proof. intros H. split; [done|]. by intros ? ? [= <- <-]. Qed.

Lemma consumes_bind {A B} s s' (m : res (A * string)) (k : A * string -> res (B * string)) :
  consumes s' m -> (forall a t, String.length t < String.length s' -> consumes s (k (a, t))) ->
  consumes s (bind m k).
Proof.
  intros [Hv Hl] Hk. destruct m as [[a t]|e]; cbn.
  - apply Hk. by eapply Hl.
  - split; [done|]. intros b t H. discriminate H.
Qed.

Lemma parse_number_consumes strict s : consumes s (parse_number strict s).
Proof.
  unfold parse_number.
  destruct (match s with String c r => _ | "" => _ end) as [neg s1] eqn:Es.
  assert (Hs1 : String.length s1 <= String.length s).
  { destruct s; [by injection Es as <- <-|]. destruct (_ =? _)%Z; injection Es as <- <-; cbn; lia. }
  destruct s1 as [|c r]; [apply consumes_fail|].
  destruct (is_digit c) eqn:Hd; [|apply consumes_fail].
  destruct (if (code c =? 48)%Z then _ else _) as [[n ds] rest] eqn:Er.
  assert (Hrest : String.length rest < String.length s).
  { cbn in Hs1. destruct (code c =? 48)%Z; [injection Er as <- <- <-; lia|].
    apply span_digits_length in Er as Hl.
    cbn in Er. rewrite Hd in Er. destruct (span_digits _ r) as [[? ?] ?].
    injection Er as <- <- <-. cbn in Hl. lia. }
  destruct (parse_frac rest) as [frac r1] eqn:Ef. apply parse_frac_length in Ef.
  destruct (parse_exp r1) as [ex r2] eqn:Ee. apply parse_exp_length in Ee.
  destruct (_ && _); [apply consumes_Ok; lia|].
  destruct strict; [apply consumes_fail|apply consumes_Ok; lia].
Qed.

Lemma parse_atom_consumes h s : consumes s (parse_atom h s).
Proof.
  unfold parse_atom, constant.
  repeat match goal with |- context [strip_prefix ?p s] =>
    let E := fresh "E" in destruct (strip_prefix p s) eqn:E;
    [apply strip_prefix_length in E; cbn in E;
     try (destruct (hk_strict h); [apply consumes_fail|]); apply consumes_Ok; lia|] end.
  apply parse_number_consumes.
Qed.

Lemma consumes_weaken {A} s s' (r : res (A * string)) :
  consumes s r -> String.length s <= String.length s' -> consumes s' r.
Proof. intros [Hv Hl] Hs. split; [done|]. intros a t H. apply Hl in H. lia. Qed.

Lemma object_pairs_veo m acc d : value_error_only (object_pairs m acc d).
Proof.
  revert acc. induction d as [|[k v] d IH]; intros acc; cbn; [done|]. by destruct (bool_decide _).
Qed.

Lemma parse_consumes h fuel :
  (forall s, 2 * String.length s < fuel -> consumes s (parse_value h fuel s)) /\
  (forall s, 2 * String.length s + 1 < fuel -> consumes s (parse_members h fuel s)) /\
  (forall s, 2 * String.length s + 1 < fuel -> consumes s (parse_items h fuel s)).
Proof.
  induction fuel as [|fuel (IHv & IHm & IHi)]; [split_and!; intros; lia|].
  split_and!; intros s Hf; cbn [parse_value parse_members parse_items].
  - destruct s as [|c r]; [apply consumes_fail|]. cbn in Hf.
    pose proof (skip_ws_length r) as Hskip.
    destruct (code c =? 34)%Z.
    { destruct (parse_chars r) as [[t rest]|] eqn:E; [|apply consumes_fail].
      apply (parse_chars_length (String.length r)) in E; [|done]. apply consumes_Ok. cbn. lia. }
    destruct (code c =? 123)%Z.
    { destruct (skip_ws r) as [|c1 r1] eqn:Es; [apply consumes_fail|]. cbn in Hskip.
      destruct (code c1 =? 125)%Z; [apply consumes_Ok; cbn; lia|].
      apply (consumes_bind _ (String c1 r1)); [apply IHm; cbn; lia|].
      intros pairs rest Hr. cbn in Hr. pose proof (object_pairs_veo (hk_duplicate h) [] pairs) as Hv.
      destruct (object_pairs _ _ _) as [d|e]; cbn; [apply consumes_Ok; cbn; lia|].
      split; [done|]. intros a t H. discriminate H. }
    destruct (code c =? 91)%Z; [|apply parse_atom_consumes].
    destruct (skip_ws r) as [|c1 r1] eqn:Es; [apply consumes_fail|]. cbn in Hskip.
    destruct (code c1 =? 93)%Z; [apply consumes_Ok; cbn; lia|].
    apply (consumes_bind _ (String c1 r1)); [apply IHi; cbn; lia|].
    intros l rest Hr. cbn in Hr. apply consumes_Ok. cbn. lia.
  - destruct s as [|c r]; [apply consumes_fail|]. cbn in Hf.
    destruct (negb _); [apply consumes_fail|].
    destruct (parse_chars r) as [[k r1]|] eqn:E; [|apply consumes_fail].
    apply (parse_chars_length (String.length r)) in E; [|done].
    pose proof (skip_ws_length r1). destruct (skip_ws r1) as [|c2 r2]; [apply consumes_fail|].
    destruct (negb _); [apply consumes_fail|]. cbn in *. pose proof (skip_ws_length r2).
    apply (consumes_bind _ (skip_ws r2)); [apply IHv; lia|]. intros v r3 Hr3.
    pose proof (skip_ws_length r3). destruct (skip_ws r3) as [|c4 r4]; [apply consumes_fail|]. cbn in *.
    pose proof (skip_ws_length r4). destruct (code c4 =? 44)%Z.
    { apply (consumes_bind _ (skip_ws r4)); [apply IHm; lia|]. intros pairs rest Hr.
      apply consumes_Ok. cbn. lia. }
    destruct (code c4 =? 125)%Z; [apply consumes_Ok; cbn; lia|apply consumes_fail].
  - apply (consumes_bind _ s); [apply IHv; lia|]. intros v r1 Hr1.
    pose proof (skip_ws_length r1). destruct (skip_ws r1) as [|c2 r2]; [apply consumes_fail|]. cbn in *.
    pose proof (skip_ws_length r2). destruct (code c2 =? 44)%Z.
    { apply (consumes_bind _ (skip_ws r2)); [apply IHi; lia|]. intros l rest Hr.
      apply consumes_Ok. cbn. lia. }
    destruct (code c2 =? 93)%Z; [apply consumes_Ok; lia|apply consumes_fail].
Qed.

Lemma json_loads_veo h s : value_error_only (json_loads h s).
Proof.
  unfold json_loads. pose proof (skip_ws_length s).
  destruct (proj1 (parse_consumes h (S (2 * String.length s))) (skip_ws s)) as [Hv _]; [lia|].
  destruct (parse_value _ _ _) as [[v rest]|e]; cbn; [|done]. by destruct (String.eqb _ _).
Qed.

(** Reading any text ends, with a value or [ValueError]: the fuel never runs out. *)
Theorem loads_value_error_only s :
  value_error_only (loads s) /\ value_error_only (composition_json s).
Proof.
  split; [apply json_loads_veo|]. unfold composition_json. veo. apply json_loads_veo.
Qed.
