(* ===== verification/MapSyntax.v ===== *)
(** * The map language shared by the frontends

    Affine regions, grid kernels, post maps and array programs describe a
    per-element computation with the same JSON nodes ([id], [op] and [view],
    [args] or [imm]); this file has the typed form of a node after its fields
    were checked, the arithmetic of the operations, and the interpreter loop the
    three [reference] functions share in [raveil/affine_fold.py],
    [raveil/mf01_grid.py] and [raveil/array_program.py]. *)

From S2P Require Import Prelude PyValue.

Inductive op := Add | Mul | Max | MaxI32 | ReluI32.
Inductive immop := AddImm | GeImm.

#[export] Instance op_eq_dec : EqDecision op.
Proof. solve_decision. Defined.
#[export] Instance immop_eq_dec : EqDecision immop.
Proof. solve_decision. Defined.

Inductive node :=
  | NLoad (id view : string)
  | NOp (id : string) (o : op) (args : list string)
  | NImm (id : string) (o : immop) (arg : string) (imm : Z).

#[export] Instance node_eq_dec : EqDecision node.
Proof. solve_decision. Defined.

Definition node_id (n : node) : string :=
  match n with NLoad i _ | NOp i _ _ | NImm i _ _ _ => i end.

(** [node.get("args", [])] *)
Definition node_args (n : node) : list string :=
  match n with NLoad _ _ => [] | NOp _ _ args => args | NImm _ _ a _ => [a] end.

Definition op_name (o : op) : string :=
  match o with Add => "add" | Mul => "mul" | Max => "max"
             | MaxI32 => "max_i32" | ReluI32 => "relu_i32" end.
Definition immop_name (o : immop) : string :=
  match o with AddImm => "add_imm" | GeImm => "ge_imm" end.

Definition op_arity (o : op) : nat := match o with ReluI32 => 1 | _ => 2 end.
Definition is_signed (o : op) : bool := match o with MaxI32 | ReluI32 => true | _ => false end.

(** A node of the unsigned machine. *)
Definition unsigned_node (n : node) : Prop :=
  match n with NOp _ o _ => is_signed o = false | _ => True end.

(** The JSON object of a node, as the compilers build it. *)
Definition node_val (n : node) : pyval :=
  match n with
  | NLoad i v => VDict [("id", VStr i); ("op", VStr "load"); ("view", VStr v)]
  | NOp i o args =>
      VDict [("id", VStr i); ("op", VStr (op_name o)); ("args", VList (map VStr args))]
  | NImm i o a imm =>
      VDict [("id", VStr i); ("op", VStr (immop_name o)); ("args", VList [VStr a]); ("imm", VInt imm)]
  end.

(** ** Arithmetic *)

(** [x if x < (1<<31) else x-(1<<32)] *)
Definition signed32 (x : Z) : Z := if x <? 2 ^ 31 then x else x - 2 ^ 32.

(** The value of an operation before masking. *)
Definition alu (o : op) (args : list Z) : res Z :=
  match o, args with
  | Add, [a; b] => Ok (a + b)
  | Mul, [a; b] => Ok (a * b)
  | Max, [a; b] => Ok (Z.max a b)
  | MaxI32, [a; b] => Ok (Z.max (signed32 a) (signed32 b))
  | ReluI32, [a] => Ok (Z.max 0 (signed32 a))
  | _, _ => Err IndexError
  end.

Definition alu_imm (o : immop) (a imm : Z) : Z :=
  match o with AddImm => a + imm | GeImm => if imm <=? a then 1 else 0 end.

(** ** The SSA interpreter *)

Abbreviation env := (gmap string Z).

(** [values[x]] *)
Definition env_get (e : env) (x : string) : res Z := from_option_err KeyError (e !! x).

Section eval.
(** The value a view reads at the current coordinates. *)
Variable load : string -> res Z.

Definition eval_word (e : env) (n : node) : res Z :=
  match n with
  | NLoad _ view => load view
  | NOp _ o args => let* a := traverse (env_get e) args in alu o a
  | NImm _ o arg imm => let* a := env_get e arg in Ok (alu_imm o a imm)
  end.

(** One iteration of [for node in nodes]: [values[id] = word & MASK]. *)
Definition eval_node (e : env) (n : node) : res env :=
  let* word := eval_word e n in Ok (<[node_id n := u32 word]> e).

Definition eval_nodes (nodes : list node) (result : string) : res Z :=
  let* e := foldM eval_node ∅ nodes in env_get e result.
End eval.

(** ** Well-scoped node lists *)

(** [nodes] are in dependency order with fresh identifiers over the names
    [seen], have the right arity, and load only from [views]. *)
Fixpoint well_scoped (views : string -> Prop) (seen : list string) (nodes : list node) : Prop :=
  match nodes with
  | [] => True
  | n :: rest =>
      (node_id n ∉ seen) /\ (forall a, a ∈ node_args n -> a ∈ seen) /\
      match n with
      | NLoad _ v => views v
      | NOp _ o args => length args = op_arity o
      | NImm _ _ _ imm => 0 <= imm < 2 ^ 22
      end /\ well_scoped views (seen ++ [node_id n]) rest
  end.

Definition words_env (e : env) : Prop := map_Forall (fun _ v => is_word v) e.

Lemma words_env_insert e i w : words_env e -> words_env (<[i := u32 w]> e).
Proof. intros He. apply map_Forall_insert_2; [apply u32_word|done]. Qed.

Lemma env_get_Ok e x v : env_get e x = Ok v <-> e !! x = Some v.
Proof. unfold env_get. destruct (e !! x); cbn; split; congruence. Qed.

Lemma alu_total o args : length args = op_arity o -> exists w, alu o args = Ok w.
Proof. destruct o, args as [|? [|? [|]]]; cbn; intros; try discriminate; eauto. Qed.

Lemma traverse_env_get e args :
  (forall a, a ∈ args -> is_Some (e !! a)) ->
  exists vs, traverse (env_get e) args = Ok vs /\ length vs = length args.
Proof.
  induction args as [|a args IH]; intros H; [by exists []|]. cbn.
  destruct (H a) as [v Hv]; [by constructor|].
  apply env_get_Ok in Hv as ->. cbn.
  destruct IH as (vs & -> & <-); [intros; apply H; by right|]. by exists (v :: vs).
Qed.

(** A well-scoped node list evaluates without error, to words. *)
Lemma foldM_eval_total (views : string -> Prop) load seen nodes e :
  (forall v, views v -> exists w, load v = Ok w) ->
  well_scoped views seen nodes ->
  (forall x, x ∈ seen -> is_Some (e !! x)) -> words_env e ->
  exists e', foldM (eval_node load) e nodes = Ok e' /\ words_env e' /\
    forall x, x ∈ seen ++ map node_id nodes -> is_Some (e' !! x).
Proof.
  intros Hload. revert seen e.
  induction nodes as [|n nodes IH]; intros seen e Hws Hseen He.
  { exists e. rewrite app_nil_r. auto. }
  destruct Hws as (_ & Hargs & Hn & Hws). cbn [foldM map].
  assert (exists w, eval_word load e n = Ok w) as [w Hw].
  { destruct n as [i v|i o args|i o a imm]; cbn in *.
    - by apply Hload.
    - destruct (traverse_env_get e args) as (vs & -> & Hl); [auto|].
      cbn. apply alu_total. congruence.
    - destruct (Hseen a) as [x Hx]; [apply Hargs; set_solver|].
      apply env_get_Ok in Hx as ->. cbn. eauto. }
  assert (eval_node load e n = Ok (<[node_id n := u32 w]> e)) as ->.
  { unfold eval_node. by rewrite Hw. }
  cbn [bind].
  destruct (IH (seen ++ [node_id n]) (<[node_id n := u32 w]> e)) as (e' & -> & He' & Hin);
    [done| |by apply words_env_insert|].
  - intros x [Hx| ->%list_elem_of_singleton]%elem_of_app; [|by rewrite lookup_insert_eq].
    destruct (decide (x = node_id n)) as [->|]; [by rewrite lookup_insert_eq|].
    rewrite lookup_insert_ne by done. auto.
  - exists e'. split; [done|]. split; [done|]. intros x. rewrite cons_middle, app_assoc. apply Hin.
Qed.

Lemma eval_nodes_total (views : string -> Prop) load nodes result :
  (forall v, views v -> exists w, load v = Ok w) ->
  well_scoped views [] nodes -> result ∈ map node_id nodes ->
  exists w, eval_nodes load nodes result = Ok w /\ is_word w.
Proof.
  intros Hload Hws Hr.
  destruct (foldM_eval_total views load [] nodes ∅) as (e & He & Hw & Hin);
    [done|done|by intros ? ?%elem_of_nil|apply map_Forall_empty|].
  unfold eval_nodes. rewrite He. cbn.
  destruct (Hin result) as [w Hw']; [done|].
  exists w. split; [by apply env_get_Ok|]. by eapply Hw.
Qed.

(** Evaluation depends on the loads only through the loaded views. *)
Lemma foldM_eval_ext (views : string -> Prop) load load' seen nodes e :
  (forall v, views v -> load v = load' v) ->
  well_scoped views seen nodes ->
  foldM (eval_node load) e nodes = foldM (eval_node load') e nodes.
Proof.
  intros Hext. revert seen e. induction nodes as [|n nodes IH]; intros seen e Hws; [done|].
  destruct Hws as (_ & _ & Hn & Hws). cbn [foldM].
  assert (eval_node load e n = eval_node load' e n) as ->.
  { unfold eval_node. destruct n; cbn; [by rewrite Hext|done|done]. }
  destruct (eval_node load' e n); cbn; [|done]. eapply IH, Hws.
Qed.

Lemma eval_nodes_ext (views : string -> Prop) load load' nodes result :
  (forall v, views v -> load v = load' v) -> well_scoped views [] nodes ->
  eval_nodes load nodes result = eval_nodes load' nodes result.
Proof.
  intros Hext Hws. unfold eval_nodes. by erewrite foldM_eval_ext.
Qed.
