(* ===== verification/AffineFold.v ===== *)
(** * Affine map/fold regions ([raveil/affine_fold.py])

    Admission of a region description, lowering of its SSA nodes to the
    65-word configuration with eight value registers, validation of a
    configuration, and the reference interpreter of the description.
    [FoldMachine] gives the guest's interpreter of the words and proves that
    the two agree. *)

From S2P Require Import Prelude PyValue MapSyntax.

Definition MAGIC : Z := 0x4D463031.

(** [_int]: an integer (a [bool] is not one) within bounds. *)
Definition _int (x : pyval) (low high : Z) : res Z :=
  let error := fail ("expected integer in [" +:+ pretty low +:+ ", " +:+ pretty high
                     +:+ "], got " +:+ repr x) in
  match x with
  | VInt z => if bool_decide (low <= z <= high) then Ok z else error
  | _ => error
  end.

(** The numbers of [OPS]. *)
Definition OP_LOAD : Z := 1.
Definition OP_YIELD : Z := 3.
Definition op_code (o : op) : res Z :=
  match o with Add => Ok 2 | Max => Ok 4 | Mul => Ok 5 | _ => Err KeyError end.
Definition immop_code (o : immop) : Z := match o with AddImm => 6 | GeImm => 7 end.

(** ** Validation of a configuration *)

(** [(w >> shift) & 7] *)
Definition reg_field (w shift : Z) : Z := Z.land (Z.shiftr w shift) 7.

(** [c[i]] of a configuration of 65 words *)
Definition cfg (c : list Z) (i : Z) : Z := nth (Z.to_nat i) c 0.

(** One iteration of [for v in range(8)]. *)
Definition validate_view (c : list Z) (v : Z) : res unit :=
  let word k := cfg c (9 + 5 * v + k) in
  let rows := cfg c 1 in let cols := cfg c 2 in let extent := cfg c 3 in
  if cfg c 7 <=? v then
    (raise_if existsb (fun k => negb (word k =? 0)) [0; 1; 2; 3; 4]
     with "nonzero unused view" in Ok tt)
  else
    let* b := _int (VInt (word 0)) 0 1 in
    let* base := _int (VInt (word 1)) 0 323 in
    let* si := _int (VInt (word 2)) 0 323 in
    let* sj := _int (VInt (word 3)) 0 323 in
    let* sk := _int (VInt (word 4)) 0 323 in
    let last := base + si * (rows - 1) + sj * (cols - 1) + sk * (extent - 1) in
    raise_if (if b =? 0 then cfg c 5 else cfg c 6) <=? last
    with "affine view exceeds input extent" in Ok tt.

(** One iteration of [for pc, w in enumerate(c[49:])]; [defined] is the set
    of registers written so far. *)
Definition validate_instr (nv ni : Z) (defined : list Z) (pw : Z * Z) : res (list Z) :=
  let '(pc, w) := pw in
  if ni <=? pc then
    (raise_if negb (w =? 0) with "nonzero unused instruction" in Ok defined)
  else
    let op := Z.shiftr w 28 in
    let d := reg_field w 25 in let a := reg_field w 22 in let b := reg_field w 19 in
    if pc =? ni - 1 then
      (raise_if negb (op =? 3) || negb (d =? 0) ||
                negb (Z.land w (Z.shiftl 1 22 - 1) =? 0) || negb (bool_decide (a ∈ defined))
       with "final instruction must yield a defined value" in Ok defined)
    else if op =? 1 then
      (raise_if (nv <=? a) || negb (Z.land w (Z.shiftl 1 22 - 1) =? 0)
       with "invalid load" in Ok (d :: defined))
    else if (op =? 2) || (op =? 4) || (op =? 5) then
      (raise_if negb (bool_decide (a ∈ defined)) || negb (bool_decide (b ∈ defined)) ||
                negb (Z.land w (Z.shiftl 1 19 - 1) =? 0)
       with "invalid binary operation" in Ok (d :: defined))
    else if (op =? 6) || (op =? 7) then
      (raise_if negb (bool_decide (a ∈ defined)) with "undefined operand" in Ok (d :: defined))
    else fail "unsupported instruction".

Definition validate_words (c : list Z) : res (list Z) :=
  raise_if negb (cfg c 0 =? MAGIC) with "unsupported affine-fold ABI" in
  let* _ := traverse (fun i => _int (VInt (cfg c i)) 1 16) [1; 2] in
  let* _ := _int (VInt (cfg c 3)) 1 64 in
  let* _ := _int (VInt (cfg c 4)) 0 1 in
  let* _ := traverse (fun i => _int (VInt (cfg c i)) 0 324) [5; 6] in
  let* _ := _int (VInt (cfg c 7)) 1 8 in
  let* _ := _int (VInt (cfg c 8)) 2 16 in
  let* _ := traverse (validate_view c) (zseq 8) in
  let* _ := foldM (validate_instr (cfg c 7) (cfg c 8)) [] (enumerate (drop 49 c)) in
  Ok c.

Definition validate_config (c : pyval) : res (list Z) :=
  match c with
  | VList l =>
      raise_if negb (length l =? 65)%nat with "configuration must contain exactly 65 words" in
      let* words := traverse (fun w => _int w 0 MASK) l in
      validate_words words
  | _ => fail "configuration must contain exactly 65 words"
  end.

(** ** Admission of a region description *)

Inductive fold := FSum | FMax.
#[export] Instance fold_eq_dec : EqDecision fold.
Proof. solve_decision. Defined.

(** A region whose structure was checked. The numbers of [shape], [extent],
    [lengths] and the views stay unchecked here: [validate_config] checks the
    words they become. *)
Record region := Region {
  rg_shape : list pyval;
  rg_extent : pyval;
  rg_fold : fold;
  rg_lengths : list pyval;
  rg_views : dict;
  rg_nodes : list node;
  rg_result : string;
}.

(** [op] of a region node: an entry of [OPS] other than [yield]. *)
Inductive rop := RLoad | ROp (o : op) | RImm (o : immop).
Definition region_op (s : string) : option rop :=
  if String.eqb s "load" then Some RLoad
  else if String.eqb s "add" then Some (ROp Add)
  else if String.eqb s "max" then Some (ROp Max)
  else if String.eqb s "mul" then Some (ROp Mul)
  else if String.eqb s "add_imm" then Some (RImm AddImm)
  else if String.eqb s "ge_imm" then Some (RImm GeImm)
  else None.

Definition node_fields (o : string) : list string :=
  if String.eqb o "load" then ["id"; "op"; "view"]
  else if String.eqb o "add_imm" || String.eqb o "ge_imm" then ["id"; "op"; "args"; "imm"]
  else ["id"; "op"; "args"].

Definition uses_of (u : gmap string Z) (x : string) : Z := default 0 (u !! x).
Definition count_use (u : gmap string Z) (x : string) : gmap string Z :=
  <[x := uses_of u x + 1]> u.

(** The [for arg in args] check: each argument names an earlier node. *)
Definition admit_arg (seen : list string) (arg : pyval) : res string :=
  match arg with
  | VStr a => raise_if negb (bool_decide (a ∈ seen))
              with "nodes must be in dependency order" in Ok a
  | _ => fail "nodes must be in dependency order"
  end.

Definition admit_node (views : dict) (seen : list string) (value : pyval) : res node :=
  match value with
  | VDict n =>
      match dget "op" n with
      | Some (VStr opname) =>
          raise_if negb (keys_are n (node_fields opname)) with "invalid node" in
          match region_op opname with
          | None => fail "invalid node"
          | Some o =>
              let* name := dsub n "id" in
              match name with
              | VStr id =>
                  raise_if String.eqb id "" || bool_decide (id ∈ seen)
                  with "duplicate or invalid SSA identifier" in
                  match default (VList []) (dget "args" n) with
                  | VList args =>
                      raise_if negb (length args =? match o with RLoad => 0 | ROp _ => 2 | RImm _ => 1 end)%nat
                      with "incorrect arity" in
                      let* args := traverse (admit_arg seen) args in
                      match o with
                      | RLoad =>
                          match dget "view" n with
                          | Some (VStr view) =>
                              raise_if negb (bool_decide (view ∈ keys views))
                              with "unknown view" in Ok (NLoad id view)
                          | _ => fail "unknown view"
                          end
                      | ROp o => Ok (NOp id o args)
                      | RImm o =>
                          let* imm := dsub n "imm" in
                          let* imm := _int imm 0 (Z.shiftl 1 22 - 1) in
                          let* arg := from_option_err IndexError (args !! 0%nat) in
                          Ok (NImm id o arg imm)
                      end
                  | _ => fail "incorrect arity"
                  end
              | _ => fail "duplicate or invalid SSA identifier"
              end
          end
      | _ => fail "invalid operation"
      end
  | _ => fail "invalid node"
  end.

(** The checked nodes in order and the names seen. *)
Definition admit_nodes (views : dict) (nodes : list pyval) : res (list node) :=
  let* st := foldM (fun (st : list node) value =>
      let* n := admit_node views (map node_id st) value in Ok (st ++ [n])) [] nodes in
  Ok st.

Definition region_fields : list string :=
  ["schema"; "shape"; "extent"; "fold"; "lengths"; "views"; "nodes"; "result"].

(** The checks of [compile_region] that precede lowering, in their order. *)
Definition admit_region (d : pyval) : res region :=
  match d with
  | VDict d =>
      raise_if negb (keys_are d region_fields) with "unexpected or missing region field" in
      let* schema := dsub d "schema" in
      raise_if negb (is_str schema "raveil.affine-fold.v1") with "unsupported schema" in
      let* shape := dsub d "shape" in
      let* lengths := dsub d "lengths" in
      match seq_items shape, seq_items lengths with
      | Some shape, Some lengths =>
          raise_if negb (length shape =? 2)%nat || negb (length lengths =? 2)%nat
          with "two dimensions and two input lengths required" in
          let* fold := dsub d "fold" in
          raise_if negb (is_str fold "sum" || is_str fold "max") with "fold must be sum or max" in
          let* views := dsub d "views" in
          match views with
          | VDict views =>
              raise_if negb (bool_decide (1 <= Z.of_nat (length views) <= 8))
              with "one to eight views required" in
              let* nodes := dsub d "nodes" in
              match nodes with
              | VList nodes =>
                  raise_if negb (bool_decide (1 <= Z.of_nat (length nodes) <= 15))
                  with "one to fifteen map nodes required" in
                  let* nodes := admit_nodes views nodes in
                  let* result := dsub d "result" in
                  match result with
                  | VStr result =>
                      raise_if negb (bool_decide (result ∈ map node_id nodes))
                      with "unknown result" in
                      let* extent := dsub d "extent" in
                      Ok {| rg_shape := shape; rg_extent := extent;
                            rg_fold := if is_str fold "sum" then FSum else FMax;
                            rg_lengths := lengths; rg_views := views;
                            rg_nodes := nodes; rg_result := result |}
                  | _ => fail "unknown result"
                  end
              | _ => fail "one to fifteen map nodes required"
              end
          | _ => fail "one to eight views required"
          end
      | _, _ => fail "two dimensions and two input lengths required"
      end
  | _ => fail "unexpected or missing region field"
  end.

(** ** Lowering *)

(** The allocator's variables: [live], [free], [uses] and [words]. *)
Record alloc := Alloc {
  al_live : gmap string Z;
  al_free : list Z;
  al_uses : gmap string Z;
  al_words : list Z;
}.

(** The use counts the admission loop collects, the result counted once more. *)
Definition count_uses (nodes : list node) (result : string) : gmap string Z :=
  count_use (foldl (fun u n => foldl count_use u (node_args n)) ∅ nodes) result.

(** [uses[arg] -= 1], releasing the register of a value used for the last time. *)
Definition release (st : alloc) (arg : string) : res alloc :=
  let* u := from_option_err KeyError (al_uses st !! arg) in
  let uses := <[arg := u - 1]> (al_uses st) in
  if u - 1 =? 0 then
    let* r := from_option_err KeyError (al_live st !! arg) in
    Ok (Alloc (delete arg (al_live st)) (al_free st ++ [r]) uses (al_words st))
  else Ok (Alloc (al_live st) (al_free st) uses (al_words st)).

Fixpoint index_of (s : string) (l : list string) : option Z :=
  match l with
  | [] => None
  | x :: l => if String.eqb x s then Some 0 else Z.succ <$> index_of s l
  end.

Definition sort (l : list Z) : list Z := merge_sort Z.le l.

Definition encode_node (view_names : list string) (n : node) (dst : Z) (regs : list Z) : res Z :=
  match n with
  | NLoad _ view =>
      let* v := from_option_err (ValueError "not in list") (index_of view view_names) in
      Ok (Z.lor (Z.lor (Z.shiftl OP_LOAD 28) (Z.shiftl dst 25)) (Z.shiftl v 22))
  | NOp _ o _ =>
      let* k := op_code o in
      let* a := py_index regs 0 in
      let* b := py_index regs 1 in
      Ok (Z.lor (Z.lor (Z.lor (Z.shiftl k 28) (Z.shiftl dst 25)) (Z.shiftl a 22)) (Z.shiftl b 19))
  | NImm _ o _ imm =>
      let* a := py_index regs 0 in
      Ok (Z.lor (Z.lor (Z.lor (Z.shiftl (immop_code o) 28) (Z.shiftl dst 25)) (Z.shiftl a 22)) imm)
  end.

(** One iteration of the lowering loop. *)
Definition lower_node (view_names : list string) (st : alloc) (n : node) : res alloc :=
  let* regs := traverse (fun a => from_option_err KeyError (al_live st !! a)) (node_args n) in
  let* st := foldM release st (node_args n) in
  match sort (al_free st) with
  | [] => fail "map needs more than eight live registers"
  | dst :: free =>
      let* w := encode_node view_names n dst regs in
      let live := <[node_id n := dst]> (al_live st) in
      let words := al_words st ++ [w] in
      if uses_of (al_uses st) (node_id n) =? 0 then
        Ok (Alloc (delete (node_id n) live) (free ++ [dst]) (al_uses st) words)
      else Ok (Alloc live free (al_uses st) words)
  end.

(** The instruction words of a map, the final [yield] included. *)
Definition lower_nodes (view_names : list string) (nodes : list node) (result : string) : res (list Z) :=
  let* st := foldM (lower_node view_names)
               (Alloc ∅ (zseq 8) (count_uses nodes result) []) nodes in
  let* r := from_option_err KeyError (al_live st !! result) in
  Ok (al_words st ++ [Z.lor (Z.shiftl OP_YIELD 28) (Z.shiftl r 22)]).

Definition fold_code (f : fold) : Z := match f with FSum => 0 | FMax => 1 end.

(** The configuration before validation. *)
Definition lower_region (r : region) : res pyval :=
  let* words := lower_nodes (keys (rg_views r)) (rg_nodes r) (rg_result r) in
  let* views := traverse (fun kv => match kv.2 with
      | VList l => raise_if negb (length l =? 5)%nat
                   with "view is [buffer, offset, i stride, j stride, k stride]" in Ok l
      | _ => fail "view is [buffer, offset, i stride, j stride, k stride]"
      end) (rg_views r) in
  Ok (VList (VInt MAGIC :: rg_shape r ++ [rg_extent r; VInt (fold_code (rg_fold r))] ++
        rg_lengths r ++
        [VInt (Z.of_nat (length (rg_views r))); VInt (Z.of_nat (length words))] ++
        concat views ++ replicate (40 - 5 * length (rg_views r)) (VInt 0) ++
        map VInt words ++ replicate (16 - length words) (VInt 0))).

Definition compile_region (d : pyval) : res (list Z) :=
  let* r := admit_region d in
  let* c := lower_region r in
  validate_config c.

(** ** The reference interpreter *)

(** [inputs[b][base + si*i + sj*j + sk*k]] for [b, base, si, sj, sk = views[name]] *)
Definition load_view (views : dict) (inputs : list (list Z)) (i j k : Z) (name : string) : res Z :=
  let* view := dsub views name in
  match view with
  | VList [b; base; si; sj; sk] =>
      let* b := as_int b in let* base := as_int base in
      let* si := as_int si in let* sj := as_int sj in let* sk := as_int sk in
      let* data := py_index inputs b in
      py_index data (base + si * i + sj * j + sk * k)
  | _ => fail "not enough values to unpack"
  end.

Definition fold_step (f : fold) (acc v : Z) : Z :=
  match f with FSum => u32 (acc + v) | FMax => Z.max acc v end.

Definition read_inputs (inputs : pyval) (lengths : list pyval) : res (list (list Z)) :=
  match inputs with
  | VList l =>
      raise_if negb (length l =? 2)%nat
      with "exactly two input arrays required (unused may be empty)" in
      traverse (fun '(data, n) =>
        match seq_items data with
        | Some items =>
            raise_if negb (pyval_eqb (VInt (Z.of_nat (length items))) n)
            with "input length mismatch" in
            traverse (fun w => _int w 0 MASK) items
        | None => fail "input length mismatch"
        end) (zip l lengths)
  | _ => fail "exactly two input arrays required (unused may be empty)"
  end.

(** SSA interpreter: independent of registers and instruction encoding. *)
Definition reference (d inputs : pyval) : res (list Z) :=
  let* _ := compile_region d in
  let* r := admit_region d in
  let* inputs := read_inputs inputs (rg_lengths r) in
  let* rows := let* x := py_index (rg_shape r) 0 in as_int x in
  let* cols := let* x := py_index (rg_shape r) 1 in as_int x in
  let* extent := as_int (rg_extent r) in
  let* out := traverse (fun i => traverse (fun j =>
      foldM (fun acc k =>
        let* v := eval_nodes (load_view (rg_views r) inputs i j k) (rg_nodes r) (rg_result r) in
        Ok (fold_step (rg_fold r) acc v)) 0 (zseq extent)) (zseq cols)) (zseq rows) in
  Ok (concat out).

(** ** Concrete runs *)

Definition region_example : pyval :=
  VDict [("schema", VStr "raveil.affine-fold.v1"); ("shape", VList [VInt 2; VInt 2]);
         ("extent", VInt 2); ("fold", VStr "sum"); ("lengths", VList [VInt 4; VInt 4]);
         ("views", VDict [("a", VList [VInt 0; VInt 0; VInt 2; VInt 0; VInt 1]);
                          ("b", VList [VInt 1; VInt 0; VInt 0; VInt 1; VInt 2])]);
         ("nodes", VList [node_val (NLoad "x" "a"); node_val (NLoad "y" "b");
                          node_val (NOp "p" Mul ["x"; "y"])]);
         ("result", VStr "p")].
Definition inputs_example : pyval :=
  VList [VList [VInt 1; VInt 2; VInt 3; VInt 4]; VList [VInt 5; VInt 6; VInt 7; VInt 8]].

Example region_example_compiles : is_ok (compile_region region_example) = true.
Proof. vm_compute. reflexivity. Qed.
Example region_example_matmul : reference region_example inputs_example = Ok [19; 22; 43; 50].
Proof. vm_compute. reflexivity. Qed.
