(* ===== verification/AffineFoldFacts.v ===== *)
(** * Admitted regions in typed form

    A region that compiles has a typed form: numbers where the description has
    unchecked values. This file gives the typed form, its configuration, and
    the bounds that admission establishes. *)

From S2P Require Import Prelude PyValue MapSyntax AffineFold.

Record view := View { v_buf : Z; v_base : Z; v_i : Z; v_j : Z; v_k : Z }.

Definition view_words (v : view) : list Z := [v_buf v; v_base v; v_i v; v_j v; v_k v].
Definition view_val (v : view) : pyval := VList (map VInt (view_words v)).

Record tregion := TRegion {
  t_rows : Z; t_cols : Z; t_extent : Z; t_fold : fold; t_la : Z; t_lb : Z;
  t_views : list (string * view); t_nodes : list node; t_result : string;
}.

Definition untyped (t : tregion) : region :=
  {| rg_shape := map VInt [t_rows t; t_cols t]; rg_extent := VInt (t_extent t);
     rg_fold := t_fold t; rg_lengths := map VInt [t_la t; t_lb t];
     rg_views := map (fun kv => (kv.1, view_val kv.2)) (t_views t);
     rg_nodes := t_nodes t; rg_result := t_result t |}.

(** The configuration words of a typed region with instruction words [ws]. *)
Definition tconfig (t : tregion) (ws : list Z) : list Z :=
  [MAGIC; t_rows t; t_cols t; t_extent t; fold_code (t_fold t); t_la t; t_lb t;
   Z.of_nat (length (t_views t)); Z.of_nat (length ws)] ++
  concat (map (fun kv => view_words kv.2) (t_views t)) ++
  replicate (40 - 5 * length (t_views t)) 0 ++ ws ++ replicate (16 - length ws) 0.

Definition t_length (t : tregion) (b : Z) : Z := if b =? 0 then t_la t else t_lb t.

(** The bounds of an admitted view. *)
Definition view_ok (t : tregion) (v : view) : Prop :=
  0 <= v_buf v <= 1 /\ 0 <= v_base v <= 323 /\ 0 <= v_i v <= 323 /\
  0 <= v_j v <= 323 /\ 0 <= v_k v <= 323 /\
  v_base v + v_i v * (t_rows t - 1) + v_j v * (t_cols t - 1) + v_k v * (t_extent t - 1)
    < t_length t (v_buf v).

Record tregion_ok (t : tregion) : Prop := {
  ok_rows : 1 <= t_rows t <= 16;
  ok_cols : 1 <= t_cols t <= 16;
  ok_extent : 1 <= t_extent t <= 64;
  ok_la : 0 <= t_la t <= 324;
  ok_lb : 0 <= t_lb t <= 324;
  ok_nviews : 1 <= Z.of_nat (length (t_views t)) <= 8;
  ok_views : Forall (fun kv => view_ok t kv.2) (t_views t);
  ok_nodes : well_scoped (fun v => v ∈ map fst (t_views t)) [] (t_nodes t);
  ok_nnodes : 1 <= Z.of_nat (length (t_nodes t)) <= 15;
  ok_result : t_result t ∈ map node_id (t_nodes t);
}.

#[local] Arguments Nat.mul : simpl never.

(** ** What the checks return *)

Lemma _int_Ok x low high z : _int x low high = Ok z <-> x = VInt z /\ low <= z <= high.
Proof.
  unfold _int. destruct x; try (split; [discriminate|by intros [[=] _]]).
  case_bool_decide; split; try discriminate.
  - by intros [= ->].
  - by intros [[= ->] _].
  - by intros [[= ->] ?].
Qed.

Lemma traverse_int_Ok l low high ws :
  traverse (fun x => _int x low high) l = Ok ws <->
  l = map VInt ws /\ Forall (fun w => low <= w <= high) ws.
Proof.
  rewrite traverse_Ok. split.
  - induction 1 as [|x w l ws Hx _ [-> IH]]; [done|].
    apply _int_Ok in Hx as [-> Hw]. split; [done|by constructor].
  - intros [-> H]. induction H as [|w ws Hw _ IH]; constructor; [|done].
    by apply _int_Ok.
Qed.

Lemma admit_arg_Ok seen v a : admit_arg seen v = Ok a <-> v = VStr a /\ a ∈ seen.
Proof.
  unfold admit_arg. split.
  - intros H. res_inv. by bool_prop.
  - intros [-> H]. by rewrite bool_decide_true.
Qed.

Lemma traverse_admit_arg seen l args :
  traverse (admit_arg seen) l = Ok args -> forall a, a ∈ args -> a ∈ seen.
Proof.
  rewrite traverse_Ok. induction 1 as [|v b l args Hv _ IH]; intros a Ha; [by apply elem_of_nil in Ha|].
  apply elem_of_cons in Ha as [->|Ha]; [by apply admit_arg_Ok in Hv as [_ ?]|auto].
Qed.

(** A node the admission loop accepts. *)
Definition admitted_node (views : string -> Prop) (seen : list string) (n : node) : Prop :=
  (node_id n ∉ seen) /\ (forall a, a ∈ node_args n -> a ∈ seen) /\
  match n with
  | NLoad _ v => views v
  | NOp _ o args => length args = op_arity o
  | NImm _ _ _ imm => 0 <= imm < 2 ^ 22
  end.

Lemma admit_node_Ok views seen v n :
  admit_node views seen v = Ok n ->
  admitted_node (fun x => x ∈ keys views) seen n /\
  (forall i o args, n = NOp i o args -> is_signed o = false).
Proof.
  unfold admit_node. intros H. repeat (res_step; cbn beta iota in *).
  all: bool_prop; unfold admitted_node; cbn [node_id node_args].
  all: match goal with H : traverse _ _ = Ok _ |- _ =>
         pose proof (traverse_length _ _ _ H); pose proof (traverse_admit_arg _ _ _ H) end.
  all: match goal with H : (_ =? _)%nat = true |- _ => apply Nat.eqb_eq in H end.
  - split; [|done]. split_and!; [done|by intros ? ?%elem_of_nil|done].
  - match goal with H : region_op _ = _ |- _ => unfold region_op in H end.
    repeat case_match; simplify_eq.
    all: split; [split_and!; auto; cbn; congruence|by intros ??? [= <- <- <-]].
  - match goal with H : _int _ _ _ = Ok _ |- _ => apply _int_Ok in H as [-> ?] end.
    split; [|done]. change (Z.shiftl 1 22 - 1) with (2 ^ 22 - 1) in *.
    split_and!; [done| |lia..].
    intros x ->%list_elem_of_singleton. eauto using list_elem_of_lookup_2.
Qed.

Lemma admit_nodes_Ok views l ns :
  admit_nodes views l = Ok ns ->
  length ns = length l /\ well_scoped (fun x => x ∈ keys views) [] ns /\ Forall unsigned_node ns.
Proof.
  unfold admit_nodes. intros H. res_inv. rename ns into st'.
  enough (Hgen : forall st, foldM (fun (st : list node) value =>
      let* n := admit_node views (map node_id st) value in Ok (st ++ [n])) st l = Ok st' ->
    exists ns, st' = st ++ ns /\ length ns = length l /\
      well_scoped (fun x => x ∈ keys views) (map node_id st) ns /\ Forall unsigned_node ns).
  { destruct (Hgen _ E) as (ns & -> & ? & ? & ?). done. }
  clear E. induction l as [|v l IH]; intros st H; cbn in H; res_inv.
  { exists []. by rewrite app_nil_r. }
  destruct (IH _ H) as (ns & -> & Hlen & Hws & Hun).
  apply admit_node_Ok in E0 as ((? & ? & ?) & Hs).
  exists (a0 :: ns). rewrite <- app_assoc. cbn [length]. split_and!; [done|lia| |].
  - rewrite map_app in Hws. by cbn; split_and!.
  - constructor; [|done]. destruct a0; [done| |done]. by eapply Hs.
Qed.

Lemma admit_region_Ok d r :
  admit_region d = Ok r ->
  length (rg_shape r) = 2%nat /\ length (rg_lengths r) = 2%nat /\
  1 <= Z.of_nat (length (rg_views r)) <= 8 /\
  1 <= Z.of_nat (length (rg_nodes r)) <= 15 /\
  well_scoped (fun x => x ∈ keys (rg_views r)) [] (rg_nodes r) /\
  Forall unsigned_node (rg_nodes r) /\ rg_result r ∈ map node_id (rg_nodes r).
Proof.
  unfold admit_region. intros H. repeat (res_step; cbn beta iota in *).
  bool_prop. cbn [rg_shape rg_lengths rg_views rg_nodes rg_result].
  repeat match goal with H : (_ =? _)%nat = true |- _ => apply Nat.eqb_eq in H end.
  match goal with H : admit_nodes _ _ = Ok _ |- _ => apply admit_nodes_Ok in H as (Hlen & ? & ?) end.
  rewrite Hlen. split_and!; (done || lia).
Qed.

Ltac list_len2 l H :=
  destruct l as [|? [|? [|? l]]]; cbn in H; try discriminate H; clear H.

Lemma lower_region_Ok r v :
  lower_region r = Ok v ->
  exists ws views, lower_nodes (keys (rg_views r)) (rg_nodes r) (rg_result r) = Ok ws /\
    map snd (rg_views r) = map VList views /\ Forall (fun l => length l = 5%nat) views /\
    v = VList (VInt MAGIC :: rg_shape r ++ [rg_extent r; VInt (fold_code (rg_fold r))] ++
        rg_lengths r ++
        [VInt (Z.of_nat (length (rg_views r))); VInt (Z.of_nat (length ws))] ++
        concat views ++ replicate (40 - 5 * length (rg_views r)) (VInt 0) ++
        map VInt ws ++ replicate (16 - length ws) (VInt 0)).
Proof.
  unfold lower_region. intros H. res_inv. exists a, a0. split; [done|].
  apply traverse_Ok in E0.
  assert (map snd (rg_views r) = map VList a0 /\ Forall (fun l => length l = 5%nat) a0) as [? ?]; [|done].
  clear -E0. induction E0 as [|[k v] l vs ls Hv _ [IH1 IH2]]; [done|].
  cbn in Hv. res_inv. bool_prop.
  match goal with H : (_ =? _)%nat = true |- _ => apply Nat.eqb_eq in H end. split; [cbn; by f_equal|by constructor].
Qed.

(** ** The typed form of a compiled region *)

Lemma map_VInt_inj ws1 ws2 : map VInt ws1 = map VInt ws2 -> ws2 = ws1.
Proof.
  revert ws2. induction ws1 as [|w ws1 IH]; intros [|w2 ws2]; try done.
  intros [= -> H]. f_equal. by apply IH.
Qed.

(** Splitting a list of integers along the layout of a configuration. *)
Lemma map_VInt_app l1 l2 ws :
  l1 ++ l2 = map VInt ws -> exists w1 w2, ws = w1 ++ w2 /\ l1 = map VInt w1 /\ l2 = map VInt w2.
Proof.
  revert ws. induction l1 as [|x l1 IH]; intros ws H; [by exists [], ws|].
  destruct ws as [|w ws]; [done|]. injection H as -> H.
  destruct (IH _ H) as (w1 & w2 & -> & -> & ->). by exists (w :: w1), w2.
Qed.

Lemma views_typed (vs : dict) views ws :
  map snd vs = map VList views -> Forall (fun l => length l = 5%nat) views ->
  concat views = map VInt ws ->
  exists tv : list (string * view), vs = map (fun kv => (kv.1, view_val kv.2)) tv /\
    ws = concat (map (fun kv => view_words kv.2) tv).
Proof.
  revert views ws. induction vs as [|[k v] vs IH]; intros views ws Hs H5 Hws.
  { destruct views; [|done]. destruct ws; [|done]. by exists []. }
  destruct views as [|l views]; [done|]. injection Hs as -> Hs.
  apply Forall_cons in H5 as [Hl H5]. cbn in Hws.
  apply map_VInt_app in Hws as (w1 & w2 & -> & -> & Hw2).
  destruct (IH _ _ Hs H5 Hw2) as (tv & -> & ->).
  rewrite length_map in Hl.
  destruct w1 as [|b [|base [|i [|j [|kk [|]]]]]]; try discriminate Hl.
  by exists ((k, View b base i j kk) :: tv).
Qed.

Lemma validate_words_id c c' : validate_words c = Ok c' -> c' = c.
Proof. unfold validate_words. intros H. by res_inv. Qed.

Lemma validate_config_Ok v c :
  validate_config v = Ok c ->
  v = VList (map VInt c) /\ length c = 65%nat /\ Forall is_word c /\ validate_words c = Ok c.
Proof.
  unfold validate_config. intros H. res_inv. bool_prop.
  match goal with H : (_ =? _)%nat = true |- _ => apply Nat.eqb_eq in H end.
  match goal with H : traverse _ _ = Ok _ |- _ => apply traverse_int_Ok in H as [-> ?] end.
  pose proof (validate_words_id _ _ H) as ->. rewrite length_map in *. done.
Qed.

Lemma compile_region_typed d c :
  compile_region d = Ok c ->
  exists t ws, admit_region d = Ok (untyped t) /\
    lower_nodes (map fst (t_views t)) (t_nodes t) (t_result t) = Ok ws /\
    c = tconfig t ws /\ Forall is_word c /\ validate_words c = Ok c.
Proof.
  unfold compile_region. intros H. res_inv. rename a into r.
  pose proof (admit_region_Ok _ _ E) as (Hsh & Hln & _).
  apply lower_region_Ok in E0 as (ws & views & Hws & Hv & H5 & ->).
  apply validate_config_Ok in H as (Hall & _ & Hwords & Hval).
  apply (f_equal (fun v => match v with VList l => l | _ => [] end)) in Hall.
  destruct r as [shape extent fold lengths vs nodes result].
  cbn [rg_shape rg_extent rg_fold rg_lengths rg_views rg_nodes rg_result] in *.
  list_len2 shape Hsh. list_len2 lengths Hln.
  destruct c as [|c0 [|c1 [|c2 [|c3 [|c4 [|c5 [|c6 [|c7 [|c8 c]]]]]]]]]; try discriminate Hall.
  injection Hall as <- -> -> -> <- -> -> <- <- Hall.
  apply map_VInt_app in Hall as (w1 & w2 & -> & Hw1 & Hw2).
  destruct (views_typed _ _ _ Hv H5 Hw1) as (tv & -> & ->).
  exists (TRegion c1 c2 c3 fold c5 c6 tv nodes result), ws.
  unfold untyped, tconfig; cbn. rewrite length_map in *.
  unfold keys in Hws. rewrite map_map in Hws. split_and!; try done.
  do 9 f_equal. f_equal.
  replace (replicate (40 - 5 * length tv) (VInt 0) ++ map VInt ws ++ replicate (16 - length ws) (VInt 0))
    with (map VInt (replicate (40 - 5 * length tv) 0 ++ ws ++ replicate (16 - length ws) 0)) in Hw2
    by (rewrite !map_app; by rewrite <- !fmap_replicate).
  by apply map_VInt_inj.
Qed.

(** ** Reading the words of a configuration *)

Lemma nth_concat5 {A} (f : A -> list Z) l rest (n k : nat) x :
  (forall y, length (f y) = 5%nat) -> l !! n = Some x -> (k < 5)%nat ->
  nth (5 * n + k) (concat (map f l) ++ rest) 0 = nth k (f x) 0.
Proof.
  intros Hf. revert n. induction l as [|y l IH]; intros n Hn Hk; [done|].
  cbn [map concat]. rewrite <- app_assoc. destruct n as [|n].
  - injection Hn as ->. replace (5 * 0 + k)%nat with k by lia.
    rewrite app_nth1; [done|]. rewrite Hf. lia.
  - rewrite app_nth2; [|rewrite Hf; lia]. rewrite Hf.
    replace (5 * S n + k - 5)%nat with (5 * n + k)%nat by lia. by apply IH.
Qed.

Lemma cfg_view t ws n kv k :
  t_views t !! n = Some kv -> 0 <= k < 5 ->
  cfg (tconfig t ws) (9 + 5 * Z.of_nat n + k) = nth (Z.to_nat k) (view_words kv.2) 0.
Proof.
  intros Hn Hk. unfold cfg, tconfig.
  replace (Z.to_nat (9 + 5 * Z.of_nat n + k)) with (9 + (5 * n + Z.to_nat k))%nat by lia.
  rewrite app_nth2 by (cbn; lia). cbn [length].
  replace (9 + (5 * n + Z.to_nat k) - 9)%nat with (5 * n + Z.to_nat k)%nat by lia.
  rewrite (nth_concat5 (fun kv : string * view => view_words kv.2) _ _ _ _ kv); [done| |done|lia].
  by intros [? []].
Qed.

Lemma length_view_words l : length (concat (map (fun kv : string * view => view_words kv.2) l)) = (5 * length l)%nat.
Proof. induction l as [|kv l IH]; [done|]. cbn [map concat]. rewrite length_app, IH. cbn. lia. Qed.

Lemma tconfig_instrs t ws :
  (length (t_views t) <= 8)%nat ->
  drop 49 (tconfig t ws) = ws ++ replicate (16 - length ws) 0.
Proof.
  intros Hv. unfold tconfig. rewrite drop_app_ge by (cbn; lia).
  rewrite drop_app_ge by (rewrite length_view_words; cbn; lia).
  rewrite drop_app_ge by (rewrite length_view_words, length_replicate; cbn; lia).
  rewrite length_view_words, length_replicate. cbn [length].
  by replace (49 - 9 - 5 * length (t_views t) - (40 - 5 * length (t_views t)))%nat with 0%nat by lia.
Qed.

Lemma traverse_pair {A B} (f : A -> res B) x y ws :
  traverse f [x; y] = Ok ws -> exists a b, f x = Ok a /\ f y = Ok b.
Proof. cbn. intros H. res_inv. eauto. Qed.

Lemma traverse_at {A B} (f : A -> res B) l ys x :
  traverse f l = Ok ys -> x ∈ l -> exists y, f x = Ok y.
Proof.
  rewrite traverse_Ok. induction 1 as [|x' y l ys Hx _ IH]; intros Hin; [by apply elem_of_nil in Hin|].
  apply elem_of_cons in Hin as [->|Hin]; eauto.
Qed.

Lemma _int_VInt_Ok z low high z' : _int (VInt z) low high = Ok z' -> z' = z /\ low <= z <= high.
Proof. intros H. by apply _int_Ok in H as [[= ->] ?]. Qed.

Lemma fold_code_inj f g : fold_code f = fold_code g -> f = g.
Proof. by destruct f, g. Qed.

(** The bounds that [validate_config] establishes. *)
Lemma validate_words_ok t ws :
  validate_words (tconfig t ws) = Ok (tconfig t ws) ->
  1 <= t_rows t <= 16 /\ 1 <= t_cols t <= 16 /\ 1 <= t_extent t <= 64 /\
  0 <= t_la t <= 324 /\ 0 <= t_lb t <= 324 /\
  1 <= Z.of_nat (length (t_views t)) <= 8 /\ 2 <= Z.of_nat (length ws) <= 16 /\
  Forall (fun kv => view_ok t kv.2) (t_views t) /\
  exists defined, foldM (validate_instr (Z.of_nat (length (t_views t))) (Z.of_nat (length ws))) []
    (enumerate (drop 49 (tconfig t ws))) = Ok defined.
Proof.
  intros H. unfold validate_words in H. res_inv.
  repeat match goal with H : traverse _ [_; _] = Ok _ |- _ =>
    apply traverse_pair in H as (? & ? & ? & ?) end.
  repeat match goal with H : _int (VInt _) _ _ = Ok _ |- _ =>
    apply _int_VInt_Ok in H as [-> ?] end.
  match goal with H : traverse (validate_view _) _ = Ok _ |- _ => rename H into Hviews end.
  match goal with H : foldM _ _ _ = Ok _ |- _ => rename H into Hinstr end.
  change (cfg (tconfig t ws) 1) with (t_rows t) in *.
  change (cfg (tconfig t ws) 2) with (t_cols t) in *.
  change (cfg (tconfig t ws) 3) with (t_extent t) in *.
  change (cfg (tconfig t ws) 5) with (t_la t) in *.
  change (cfg (tconfig t ws) 6) with (t_lb t) in *.
  change (cfg (tconfig t ws) 7) with (Z.of_nat (length (t_views t))) in *.
  change (cfg (tconfig t ws) 8) with (Z.of_nat (length ws)) in *.
  split_and!; try lia; [|by eauto].
  apply Forall_lookup. intros n kv Hn.
  assert (Hlt : (n < length (t_views t))%nat) by (by apply lookup_lt_Some in Hn).
  destruct (traverse_at _ _ _ (Z.of_nat n) Hviews) as [u Hu].
  { apply elem_of_zseq. lia. }
  unfold validate_view in Hu.
  change (cfg (tconfig t ws) 7) with (Z.of_nat (length (t_views t))) in Hu.
  replace (Z.of_nat (length (t_views t)) <=? Z.of_nat n) with false in Hu by lia.
  change (cfg (tconfig t ws) 1) with (t_rows t) in *.
  change (cfg (tconfig t ws) 2) with (t_cols t) in *.
  change (cfg (tconfig t ws) 3) with (t_extent t) in *.
  change (cfg (tconfig t ws) 5) with (t_la t) in *.
  change (cfg (tconfig t ws) 6) with (t_lb t) in *.
  rewrite !(cfg_view t ws n kv) in Hu by (done || lia).
  change (Z.to_nat 0) with 0%nat in Hu. change (Z.to_nat 1) with 1%nat in Hu.
  change (Z.to_nat 2) with 2%nat in Hu. change (Z.to_nat 3) with 3%nat in Hu.
  change (Z.to_nat 4) with 4%nat in Hu.
  destruct kv as [k [vb base vi vj vk]]. cbn in Hu. res_inv.
  repeat match goal with H : _int (VInt _) _ _ = Ok _ |- _ =>
    apply _int_VInt_Ok in H as [-> ?] end.
  bool_prop. unfold view_ok, t_length; cbn. split_and!; lia.
Qed.

(** A compiled region has a typed form within bounds. *)
Lemma compile_region_ok d c :
  compile_region d = Ok c ->
  exists t ws, admit_region d = Ok (untyped t) /\ tregion_ok t /\
    lower_nodes (map fst (t_views t)) (t_nodes t) (t_result t) = Ok ws /\
    c = tconfig t ws /\ Forall is_word c /\ validate_words c = Ok c /\
    Forall unsigned_node (t_nodes t) /\ (length ws <= 16)%nat.
Proof.
  intros H. destruct (compile_region_typed _ _ H) as (t & ws & Ha & Hl & -> & Hw & Hv).
  exists t, ws. pose proof (validate_words_ok _ _ Hv) as (? & ? & ? & ? & ? & ? & ? & ? & _).
  apply admit_region_Ok in Ha as Hr. unfold untyped in Hr; cbn in Hr.
  destruct Hr as (_ & _ & _ & ? & Hws & ? & ?).
  split_and!; try done; try lia.
  split; try done; try lia.
  unfold keys in Hws. rewrite map_map in Hws. done.
Qed.

(** ** Positions of names *)

Lemma index_of_range s l k : index_of s l = Some k -> 0 <= k < Z.of_nat (length l) /\ s ∈ l.
Proof.
  revert k. induction l as [|x l IH]; intros k H; cbn in H; [done|].
  destruct (String.eqb_spec x s) as [->|].
  - injection H as <-. cbn [length]. split; [lia|left].
  - destruct (index_of s l) as [m|]; cbn in H; [|done]. injection H as <-.
    destruct (IH m eq_refl). cbn [length]. split; [lia|by right].
Qed.

Lemma index_of_app s l l' k : index_of s l = Some k -> index_of s (l ++ l') = Some k.
Proof.
  revert k. induction l as [|x l IH]; intros k H; cbn in H |- *; [done|].
  destruct (String.eqb x s); [done|]. destruct (index_of s l) as [m|]; [|done]. by rewrite (IH m eq_refl).
Qed.
