(* ===== verification/FoldMachine.v ===== *)
(** * The guest's interpreter of configurations ([contracts/src/affine_fold.c])

    [raveil_fold_validate] and [raveil_fold_evaluate] as the kernel runs them:
    unsigned machine words that wrap, a bit mask of defined registers, eight
    value registers. [FoldMachineFacts] compares them with the host. *)

From S2P Require Import Prelude PyValue MapSyntax AffineFold AffineFoldFacts.

(** [uint64_t] arithmetic *)
Definition u64 (w : Z) : Z := w mod 2 ^ 64.

(** ** [raveil_fold_validate] *)

Definition c_validate_view (c : list Z) (v : Z) : bool :=
  let p j := cfg c (9 + 5 * v + j) in
  if cfg c 7 <=? v then forallb (fun j => p j =? 0) [0; 1; 2; 3; 4]
  else
    negb ((1 <? p 0) || (323 <? p 1) || (323 <? p 2) || (323 <? p 3) || (323 <? p 4)) &&
    let last := u64 (p 1 + u64 (p 2 * u32 (cfg c 1 - 1)) + u64 (p 3 * u32 (cfg c 2 - 1)) +
                     u64 (p 4 * u32 (cfg c 3 - 1))) in
    negb (cfg c (5 + p 0) <=? last).

(** [defined&(1u<<r)] *)
Definition c_defined (mask r : Z) : bool := negb (Z.land mask (Z.shiftl 1 r) =? 0).

(** One iteration over [pc]; [None] is [return false]. *)
Definition c_validate_instr (c : list Z) (mask : Z) (pc : Z) : option Z :=
  let w := cfg c (49 + pc) in
  let op := Z.shiftr w 28 in
  let d := reg_field w 25 in let a := reg_field w 22 in let b := reg_field w 19 in
  let set := Some (Z.lor mask (Z.shiftl 1 d)) in
  if cfg c 8 <=? pc then (if w =? 0 then Some mask else None)
  else if pc =? cfg c 8 - 1 then
    if negb (op =? 3) || negb (d =? 0) || negb (Z.land w 0x3fffff =? 0) || negb (c_defined mask a)
    then None else Some mask
  else if op =? 1 then
    if (cfg c 7 <=? a) || negb (Z.land w 0x3fffff =? 0) then None else set
  else if (op =? 2) || (op =? 4) || (op =? 5) then
    if negb (c_defined mask a) || negb (c_defined mask b) || negb (Z.land w 0x7ffff =? 0)
    then None else set
  else if (op =? 6) || (op =? 7) then
    if negb (c_defined mask a) then None else set
  else None.

Fixpoint foldO {S A} (f : S -> A -> option S) (s : S) (l : list A) : option S :=
  match l with
  | [] => Some s
  | x :: l => match f s x with Some s => foldO f s l | None => None end
  end.

Definition raveil_fold_validate (c : list Z) : bool :=
  negb (negb (cfg c 0 =? 0x4d463031) || (cfg c 1 <? 1) || (16 <? cfg c 1) ||
        (cfg c 2 <? 1) || (16 <? cfg c 2) || (cfg c 3 <? 1) || (64 <? cfg c 3) ||
        (1 <? cfg c 4) || (324 <? cfg c 5) || (324 <? cfg c 6) ||
        (cfg c 7 <? 1) || (8 <? cfg c 7) || (cfg c 8 <? 2) || (16 <? cfg c 8)) &&
  forallb (c_validate_view c) (zseq 8) &&
  match foldO (c_validate_instr c) 0 (zseq 16) with Some _ => true | None => false end.

(** ** [raveil_fold_evaluate] *)

(** [struct raveil_fold_request]: the input words are the two buffers at
    offsets 0 and 324. *)
Record request := Request { rq_id : Z; rq_config : list Z; rq_inputs : list Z }.

(** [values[a]] of the eight registers *)
Definition reg (values : list Z) (a : Z) : Z := nth (Z.to_nat a) values 0.
Definition set_reg (values : list Z) (d w : Z) : list Z := <[Z.to_nat d := w]> values.

(** One instruction at coordinates [(i, j, k)], on the registers and the
    accumulator. [None] is the [default] case, or a read outside [inputs]. *)
Definition exec_instr (r : request) (i j k : Z) (st : list Z * Z) (w : Z) : option (list Z * Z) :=
  let '(values, acc) := st in
  let c := rq_config r in
  let op := Z.shiftr w 28 in
  let d := reg_field w 25 in let a := reg_field w 22 in let b := reg_field w 19 in
  let imm := Z.land w 0x3fffff in
  if op =? 1 then
    let v n := cfg c (9 + 5 * a + n) in
    let address := u32 (u32 (v 1 + u32 (v 2 * i)) + u32 (v 3 * j) + u32 (v 4 * k)) in
    match rq_inputs r !! Z.to_nat (u32 (u32 (324 * v 0) + address)) with
    | Some x => Some (set_reg values d x, acc)
    | None => None
    end
  else if op =? 2 then Some (set_reg values d (u32 (reg values a + reg values b)), acc)
  else if op =? 3 then
    Some (values, if cfg c 4 =? 0 then u32 (acc + reg values a)
                  else if reg values a <? acc then acc else reg values a)
  else if op =? 4 then
    Some (set_reg values d (if reg values b <? reg values a then reg values a else reg values b), acc)
  else if op =? 5 then Some (set_reg values d (u32 (u64 (reg values a * reg values b))), acc)
  else if op =? 6 then Some (set_reg values d (u32 (reg values a + imm)), acc)
  else if op =? 7 then Some (set_reg values d (if imm <=? reg values a then 1 else 0), acc)
  else None.

(** The instruction words [c[49..49+c[8])]. *)
Definition program (c : list Z) : list Z := map (fun pc => cfg c (49 + pc)) (zseq (cfg c 8)).

(** The body of the [k] loop, then the loop. *)
Definition eval_iteration (r : request) (i j acc k : Z) : option Z :=
  match foldO (exec_instr r i j k) (replicate 8 0, acc) (program (rq_config r)) with
  | Some (_, acc) => Some acc
  | None => None
  end.

Definition eval_cell (r : request) (i j : Z) : option Z :=
  foldO (fun acc k => eval_iteration r i j acc k) 0 (zseq (cfg (rq_config r) 3)).

Fixpoint mapO {A B} (f : A -> option B) (l : list A) : option (list B) :=
  match l with
  | [] => Some []
  | x :: l => match f x, mapO f l with Some y, Some ys => Some (y :: ys) | _, _ => None end
  end.

(** The first [rows * cols] words of [output]; [None] is [return false]. *)
Definition raveil_fold_evaluate (r : request) : option (list Z) :=
  let c := rq_config r in
  if negb (raveil_fold_validate c) then None
  else
    match mapO (fun i => mapO (fun j => eval_cell r i j) (zseq (cfg c 2))) (zseq (cfg c 1)) with
    | Some rows => Some (concat rows)
    | None => None
    end.

(** The request the wire format carries for a configuration and two buffers. *)
Definition make_request (id : Z) (c : list Z) (a b : list Z) : request :=
  Request id c (a ++ replicate (324 - length a) 0 ++ b ++ replicate (324 - length b) 0).

Example evaluate_example :
  match compile_region region_example with
  | Ok c => raveil_fold_evaluate (make_request 1 c [1; 2; 3; 4] [5; 6; 7; 8])
  | Err _ => None
  end = Some [19; 22; 43; 50].
Proof. vm_compute. reflexivity. Qed.
