(* ===== verification/FoldMachineFacts.v ===== *)
(** * The host and the guest agree on configurations

    [guest_admission]: the guest's validator accepts exactly what the host's
    does. [compile_correct]: a compiled region evaluates on the guest to the
    words of the reference interpreter, which is total on inputs of the
    declared lengths. *)

From S2P Require Import Prelude PyValue MapSyntax AffineFold AffineFoldFacts FoldMachine.

(** ** Instruction words *)

(** The layout of an instruction: opcode, destination, first source, and 22
    bits for the second source or the immediate. *)
Definition pack (op d a rest : Z) : Z := op * 2 ^ 28 + d * 2 ^ 25 + a * 2 ^ 22 + rest.

Section pack.
Context (op d a rest : Z).
Hypothesis (Hop : 0 <= op < 16) (Hd : 0 <= d < 8) (Ha : 0 <= a < 8) (Hr : 0 <= rest < 2 ^ 22).

Lemma pack_op : Z.shiftr (pack op d a rest) 28 = op.
Proof. rewrite Z.shiftr_div_pow2 by done. unfold pack. dlia. Qed.

Lemma pack_d : reg_field (pack op d a rest) 25 = d.
Proof. unfold reg_field. rewrite (field_read _ 25 3) by done. unfold pack. dlia. Qed.

Lemma pack_a : reg_field (pack op d a rest) 22 = a.
Proof. unfold reg_field. rewrite (field_read _ 22 3) by done. unfold pack. dlia. Qed.

Lemma pack_b : reg_field (pack op d a rest) 19 = rest / 2 ^ 19.
Proof. unfold reg_field. rewrite (field_read _ 19 3) by done. unfold pack. dlia. Qed.

Lemma pack_rest : Z.land (pack op d a rest) 0x3fffff = rest.
Proof.
  change 0x3fffff with (Z.ones 22). rewrite Z.land_ones by done. unfold pack. dlia.
Qed.

Lemma pack_lor : Z.lor (Z.lor (Z.lor (Z.shiftl op 28) (Z.shiftl d 25)) (Z.shiftl a 22)) rest
  = pack op d a rest.
Proof.
  rewrite (Z.shiftl_mul_pow2 d), (Z.shiftl_mul_pow2 a) by done.
  rewrite (lor_field op (d * 2 ^ 25) 28) by lia.
  replace (op * 2 ^ 28 + d * 2 ^ 25) with (Z.shiftl (op * 8 + d) 25)
    by (rewrite Z.shiftl_mul_pow2; lia).
  rewrite (lor_field (op * 8 + d) (a * 2 ^ 22) 25) by lia.
  replace ((op * 8 + d) * 2 ^ 25 + a * 2 ^ 22) with (Z.shiftl (op * 64 + d * 8 + a) 22)
    by (rewrite Z.shiftl_mul_pow2; lia).
  rewrite (lor_field (op * 64 + d * 8 + a) rest 22) by lia. unfold pack. lia.
Qed.
End pack.

(** The opcode of a node and the bits below its destination. *)
Definition node_word (view_names : list string) (n : node) (dst : Z) (regs : list Z) (w : Z) : Prop :=
  match n with
  | NLoad _ view => exists v, index_of view view_names = Some v /\ w = pack 1 dst v 0
  | NOp _ o _ => exists k a b l, op_code o = Ok k /\ regs = a :: b :: l /\
                   w = pack k dst a (b * 2 ^ 19)
  | NImm _ o _ imm => exists a l, regs = a :: l /\ w = pack (immop_code o) dst a imm
  end.

Lemma py_index_0 (l : list Z) x : py_index l 0 = Ok x -> exists l', l = x :: l'.
Proof.
  unfold py_index. destruct l as [|y l].
  - cbn. discriminate.
  - rewrite bool_decide_true by (cbn; lia). cbn. intros [= ->]. eauto.
Qed.

Lemma py_index_1 (l : list Z) x : py_index l 1 = Ok x -> exists y l', l = y :: x :: l'.
Proof.
  unfold py_index. destruct l as [|y [|z l]]; [by cbn|by cbn|].
  rewrite bool_decide_true by (cbn; lia). cbn. intros [= ->]. eauto.
Qed.

Lemma encode_node_word names n dst regs w :
  0 <= dst < 8 -> Forall (fun r => 0 <= r < 8) regs ->
  (length names <= 8)%nat ->
  match n with NImm _ _ _ imm => 0 <= imm < 2 ^ 22 | _ => True end ->
  encode_node names n dst regs = Ok w -> node_word names n dst regs w.
Proof.
  intros Hd Hregs Hn Himm H. destruct n as [i v|i o args|i o arg imm]; cbn in *; res_inv.
  - rename a into vi. exists vi. split; [done|].
    assert (0 <= vi < Z.of_nat (length names)).
    { clear -E0. revert vi E0. induction names as [|x names IH]; intros vi H; cbn in H; [done|].
      destruct (String.eqb x v); [injection H as <-; cbn; lia|].
      destruct (index_of v names) as [m|]; cbn in H; [|done]. injection H as <-.
      specialize (IH m eq_refl). cbn [length]. lia. }
    rewrite <- (pack_lor 1 dst vi 0) by lia. by rewrite Z.lor_0_r.
  - apply py_index_0 in E0 as [l ->]. apply py_index_1 in E1 as (y & l' & [= -> ->]).
    apply Forall_cons in Hregs as [? [? ?]%Forall_cons].
    exists a, y, a1, l'. split_and!; [done|done|].
    rewrite <- (pack_lor a dst y (a1 * 2 ^ 19)); [by rewrite (Z.shiftl_mul_pow2 a1)| |lia..].
    destruct o; cbn in E; try discriminate; injection E as <-; lia.
  - apply py_index_0 in E as [l ->]. apply Forall_cons in Hregs as [? ?].
    exists a, l. split; [done|].
    rewrite <- (pack_lor (immop_code o) dst a imm); [done| |lia..]. destruct o; cbn; lia.
Qed.

(** ** The allocator *)

(** Live values sit in distinct registers, none of them free. *)
Record alloc_ok (st : alloc) : Prop := {
  live_range : forall x r, al_live st !! x = Some r -> 0 <= r < 8;
  live_busy : forall x r, al_live st !! x = Some r -> r ∉ al_free st;
  live_inj : forall x y r, al_live st !! x = Some r -> al_live st !! y = Some r -> x = y;
  free_nodup : NoDup (al_free st);
  free_range : Forall (fun r => 0 <= r < 8) (al_free st);
}.

Lemma alloc_ok_release_to live free uses words x r :
  alloc_ok (Alloc live free uses words) -> live !! x = Some r ->
  forall uses', alloc_ok (Alloc (delete x live) (free ++ [r]) uses' words).
Proof.
  intros [Hr Hb Hi Hn Hf] Hx uses'. cbn in *. split; cbn.
  - intros y s Hy. apply lookup_delete_Some in Hy as [_ Hy]. eauto.
  - intros y s Hy. apply lookup_delete_Some in Hy as [Hne Hy].
    rewrite elem_of_app, list_elem_of_singleton. intros [?| ->]; [by eapply Hb|].
    by apply Hne, (Hi _ _ r).
  - intros y z s Hy Hz. apply lookup_delete_Some in Hy as [_ Hy].
    apply lookup_delete_Some in Hz as [_ Hz]. eauto.
  - apply NoDup_app. split_and!; [done| |apply NoDup_singleton].
    intros s Hs ->%list_elem_of_singleton. by eapply Hb.
  - apply Forall_app. split; [done|]. constructor; [eauto|done].
Qed.

Lemma alloc_ok_uses live free uses uses' words words' :
  alloc_ok (Alloc live free uses words) -> alloc_ok (Alloc live free uses' words').
Proof. intros [? ? ? ? ?]. by split. Qed.

Lemma release_ok st x st' :
  alloc_ok st -> release st x = Ok st' ->
  alloc_ok st' /\ al_live st' ⊆ al_live st /\ al_words st' = al_words st.
Proof.
  intros Hok H. destruct st as [live free uses words]. unfold release in H; cbn in H.
  res_inv; cbn in *.
  - split_and!; [by eapply alloc_ok_release_to|apply delete_subseteq|done].
  - split_and!; [by eapply alloc_ok_uses|done|done].
Qed.

Lemma releases_ok args st st' :
  alloc_ok st -> foldM release st args = Ok st' ->
  alloc_ok st' /\ al_live st' ⊆ al_live st /\ al_words st' = al_words st.
Proof.
  revert st. induction args as [|x args IH]; intros st Hok H; cbn in H; res_inv; [done|].
  apply release_ok in E as (Hok' & Hl & Hw); [|done].
  destruct (IH _ Hok' H) as (? & ? & ?). split_and!; [done|by etrans|congruence].
Qed.

Lemma sort_perm l : sort l ≡ₚ l.
Proof. apply merge_sort_Permutation. Qed.

(** Taking the lowest free register for a new value. *)
Lemma alloc_ok_take live free uses words x dst free' :
  alloc_ok (Alloc live free uses words) -> sort free = dst :: free' ->
  0 <= dst < 8 /\ (dst ∉ free') /\ (forall y, live !! y ≠ Some dst) /\
  forall words', alloc_ok (Alloc (<[x := dst]> live) free' uses words').
Proof.
  intros [Hr Hb Hi Hn Hf] Hs. cbn in *.
  pose proof (sort_perm free) as Hp. rewrite Hs in Hp.
  rewrite <- Hp in Hn. apply NoDup_cons in Hn as [Hni Hn].
  assert (Hdf : dst ∈ free) by (rewrite <- Hp; constructor).
  rewrite <- Hp in Hf. apply Forall_cons in Hf as [Hd Hf].
  assert (Hnl : forall y, live !! y ≠ Some dst) by (intros y Hy; by eapply Hb).
  split_and!; try done; try lia.
  intros words'. split; cbn; [| | |done|done].
  - intros y r [[<- <-]|[_ ?]]%lookup_insert_Some; eauto.
  - intros y r [[<- <-]|[_ Hy]]%lookup_insert_Some; [done|].
    intros Hin. eapply Hb; [done|]. rewrite <- Hp. by right.
  - intros y z r [[<- <-]|[? Hy]]%lookup_insert_Some [[<- ?]|[? Hz]]%lookup_insert_Some; try done.
    + by destruct (Hnl z).
    + subst. by destruct (Hnl y).
    + eauto.
Qed.

(** ** Simulation of the map program *)

(** The registers hold the values of the live names. *)
Definition agree (live : gmap string Z) (e : env) (values : list Z) : Prop :=
  length values = 8%nat /\
  forall x r, live !! x = Some r -> exists v, e !! x = Some v /\ is_word v /\ reg values r = v.

Lemma agree_sub live live' e values : live' ⊆ live -> agree live e values -> agree live' e values.
Proof.
  intros Hsub [Hl H]. split; [done|]. intros x r Hx. apply H. by eapply lookup_weaken.
Qed.

Lemma reg_set_eq values d w : length values = 8%nat -> 0 <= d < 8 -> reg (set_reg values d w) d = w.
Proof.
  intros Hl Hd. unfold reg, set_reg. apply nth_lookup_Some.
  apply list_lookup_insert_eq. lia.
Qed.

Lemma reg_set_ne values d r w : 0 <= d -> 0 <= r -> r <> d -> reg (set_reg values d w) r = reg values r.
Proof.
  intros ? ? Hne. unfold reg, set_reg. rewrite !nth_lookup.
  rewrite list_lookup_insert_ne; [done|]. lia.
Qed.

Lemma agree_set live e values x dst w :
  agree live e values -> 0 <= dst < 8 -> (forall y, live !! y ≠ Some dst) ->
  (forall y r, live !! y = Some r -> 0 <= r < 8) -> is_word w ->
  agree (<[x := dst]> live) (<[x := w]> e) (set_reg values dst w).
Proof.
  intros [Hl H] Hd Hnl Hr Hw. split; [unfold set_reg; by rewrite length_insert|].
  intros y r [[<- <-]|[Hne Hy]]%lookup_insert_Some.
  - exists w. rewrite lookup_insert_eq. split_and!; [done|done|by apply reg_set_eq].
  - destruct (H _ _ Hy) as (v & ? & ? & ?). exists v. rewrite lookup_insert_ne by done.
    split_and!; [done|done|]. rewrite reg_set_ne; [done|lia| |].
    + apply Hr in Hy. lia.
    + intros ->. by destruct (Hnl y).
Qed.

Lemma agree_args live e values args regs :
  agree live e values ->
  traverse (fun a => from_option_err KeyError (live !! a)) args = Ok regs ->
  traverse (env_get e) args = Ok (map (reg values) regs) /\
  Forall (fun r => is_word (reg values r)) regs.
Proof.
  intros [_ H]. rewrite !traverse_Ok. induction 1 as [|a r args regs Ha _ IH]; [by split|].
  destruct (live !! a) as [r'|] eqn:E; [|done]. injection Ha as ->.
  destruct (H _ _ E) as (v & Hv & Hw & Hreg). destruct IH. split; [|constructor; congruence].
  constructor; [|done]. apply env_get_Ok. congruence.
Qed.

Lemma exec_op rq i j k values acc o code dst a b w :
  op_code o = Ok code -> 0 <= dst < 8 -> 0 <= a < 8 -> 0 <= b < 8 ->
  is_word (reg values a) -> is_word (reg values b) ->
  alu o [reg values a; reg values b] = Ok w ->
  exec_instr rq i j k (values, acc) (pack code dst a (b * 2 ^ 19)) =
    Some (set_reg values dst (u32 w), acc).
Proof.
  intros Hc Hd Ha Hb Hwa Hwb Hw. unfold exec_instr.
  assert (0 <= code < 16) by (destruct o; cbn in Hc; try discriminate; injection Hc as <-; lia).
  rewrite pack_op, pack_d, pack_a, pack_b by lia.
  rewrite Z.div_mul by done.
  destruct o; cbn in Hc; try discriminate; injection Hc as <-; injection Hw as <-; cbn.
  - done.
  - do 3 f_equal. rewrite !u32_mod. unfold u64. unfold is_word in *. rewrite MASK_eq in *.
    rewrite (Z.mod_small (_ * _) (2 ^ 64)); [done|].
    change (2 ^ 64) with (2 ^ 32 * 2 ^ 32). nia.
  - rewrite u32_id; [|unfold is_word in *; lia].
    do 3 f_equal. destruct (Z.ltb_spec (reg values b) (reg values a)); lia.
Qed.

Lemma exec_imm rq i j k values acc o dst a imm :
  0 <= dst < 8 -> 0 <= a < 8 -> 0 <= imm < 2 ^ 22 ->
  exec_instr rq i j k (values, acc) (pack (immop_code o) dst a imm) =
    Some (set_reg values dst (u32 (alu_imm o (reg values a) imm)), acc).
Proof.
  intros Hd Ha Hi. unfold exec_instr.
  assert (0 <= immop_code o < 16) by (destruct o; cbn; lia).
  rewrite pack_op, pack_d, pack_a, pack_rest by lia.
  destruct o; cbn; [done|]. by destruct (imm <=? reg values a).
Qed.

Lemma exec_yield rq i j k values acc a :
  0 <= a < 8 ->
  exec_instr rq i j k (values, acc) (Z.lor (Z.shiftl OP_YIELD 28) (Z.shiftl a 22)) =
    Some (values, if cfg (rq_config rq) 4 =? 0 then u32 (acc + reg values a)
                  else Z.max acc (reg values a)).
Proof.
  intros Ha.
  assert (Z.lor (Z.shiftl OP_YIELD 28) (Z.shiftl a 22) = pack 3 0 a 0) as ->.
  { rewrite <- (pack_lor 3 0 a 0) by lia. by rewrite Z.lor_0_r, Z.shiftl_0_l, Z.lor_0_r. }
  unfold exec_instr. rewrite pack_op, pack_a by lia. cbn.
  do 2 f_equal. case_match; [done|]. destruct (Z.ltb_spec (reg values a) acc); lia.
Qed.

Lemma foldO_app {S A} (f : S -> A -> option S) s l1 l2 :
  foldO f s (l1 ++ l2) = match foldO f s l1 with Some s => foldO f s l2 | None => None end.
Proof.
  revert s; induction l1 as [|x l1 IH]; intros s; [done|]. cbn. by destruct (f s x).
Qed.

Section simulation.
Context (rq : request) (i j k : Z) (names : list string) (load : string -> res Z).
Hypothesis names_short : (length names <= 8)%nat.
(** A load instruction fetches the word the view denotes. *)
Hypothesis exec_load : forall name v x dst values acc,
  index_of name names = Some v -> load name = Ok x -> 0 <= dst < 8 ->
  is_word x /\ exec_instr rq i j k (values, acc) (pack 1 dst v 0) = Some (set_reg values dst x, acc).

Lemma exec_node st st' n e e' values acc :
  alloc_ok st -> lower_node names st n = Ok st' ->
  match n with NImm _ _ _ imm => 0 <= imm < 2 ^ 22 | _ => True end ->
  agree (al_live st) e values -> eval_node load e n = Ok e' ->
  exists w values', al_words st' = al_words st ++ [w] /\ alloc_ok st' /\
    exec_instr rq i j k (values, acc) w = Some (values', acc) /\ agree (al_live st') e' values'.
Proof.
  intros Hok Hlow Himm Hag Hev. unfold lower_node in Hlow.
  destruct (traverse _ (node_args n)) as [regs|] eqn:Hregs; cbn [bind] in Hlow; [|done].
  destruct (foldM release st (node_args n)) as [st1|] eqn:Hrel; cbn [bind] in Hlow; [|done].
  destruct (releases_ok _ _ _ Hok Hrel) as (Hok1 & Hsub & Hwords).
  destruct (sort (al_free st1)) as [|dst free] eqn:Hsort; [done|].
  destruct (encode_node _ _ _ _) as [w|] eqn:Henc; cbn [bind] in Hlow; [|done].
  destruct st1 as [live1 free1 uses1 words1].
  cbn [al_live al_free al_uses al_words] in *. subst words1.
  destruct (alloc_ok_take _ _ _ _ (node_id n) _ _ Hok1 Hsort) as (Hd & Hnf & Hnl & Htake).
  destruct (agree_args _ _ _ _ _ Hag Hregs) as [Hvals Hwv].
  assert (Hrange : Forall (fun r => 0 <= r < 8) regs).
  { apply traverse_Ok in Hregs. clear -Hregs Hok. induction Hregs as [|x r l rs Hx]; [done|].
    constructor; [|done]. destruct (al_live st !! x) eqn:E; [|done].
    injection Hx as ->. by eapply live_range. }
  apply encode_node_word in Henc; [|done..].
  unfold eval_node in Hev.
  destruct (eval_word load e n) as [v|] eqn:E; cbn [bind] in Hev; [|done]. injection Hev as <-.
  assert (Hstep : exec_instr rq i j k (values, acc) w = Some (set_reg values dst (u32 v), acc)).
  { destruct n as [id view|id o args|id o arg imm]; cbn in Henc, Himm, E, Hvals.
    - destruct Henc as (vi & Hvi & ->). destruct (exec_load view vi v dst values acc) as [Hx He]; try done.
      by rewrite u32_id.
    - destruct Henc as (code & a & b & l & Hcode & -> & ->). rewrite Hvals in E. cbn in E.
      assert (l = []) as -> by (destruct o, l; done). cbn in E.
      rewrite !Forall_cons in Hrange, Hwv. destruct_and!. by eapply exec_op.
    - destruct Henc as (a & l & -> & ->). rewrite !Forall_cons in Hrange. cbn in Hvals.
      destruct (env_get e arg) as [x|]; cbn in Hvals, E; [|done].
      injection Hvals as -> _. cbn in E. injection E as <-. destruct_and!. by apply exec_imm. }
  exists w, (set_reg values dst (u32 v)).
  assert (Hag' : agree (<[node_id n := dst]> live1) (<[node_id n := u32 v]> e) (set_reg values dst (u32 v))).
  { apply agree_set; [by eapply agree_sub|done|done| |apply u32_word].
    intros y r Hy. by eapply (live_range _ Hok1). }
  destruct (uses_of _ _ =? 0) in Hlow; injection Hlow as <-; cbn; split_and!; try done.
  - apply (alloc_ok_release_to (<[node_id n := dst]> live1) free uses1 (al_words st ++ [w])); [apply Htake|by rewrite lookup_insert_eq].
  - eapply agree_sub; [apply delete_subseteq|done].
Qed.

Lemma exec_nodes nodes st st' views seen e e' values acc :
  alloc_ok st -> foldM (lower_node names) st nodes = Ok st' ->
  well_scoped views seen nodes ->
  agree (al_live st) e values -> foldM (eval_node load) e nodes = Ok e' ->
  exists ws values', al_words st' = al_words st ++ ws /\ alloc_ok st' /\
    foldO (exec_instr rq i j k) (values, acc) ws = Some (values', acc) /\
    agree (al_live st') e' values'.
Proof.
  revert st seen e values. induction nodes as [|n nodes IH]; intros st seen e values Hok Hl Hws Hag He.
  { cbn in *. injection Hl as <-. injection He as <-. exists [], values. by rewrite app_nil_r. }
  cbn in Hl, He. res_inv. destruct Hws as (_ & _ & Hn & Hws).
  destruct (exec_node st a0 n e a values acc) as (w & values1 & Hw & Hok1 & Hx & Hag1); try done.
  { by destruct n. }
  destruct (IH a0 _ a values1 Hok1 Hl Hws Hag1 He) as (ws & values2 & Hws2 & Hok2 & Hx2 & Hag2).
  exists (w :: ws), values2. split_and!; [|done| |done].
  - by rewrite Hws2, Hw, <- app_assoc.
  - cbn [foldO]. by rewrite Hx.
Qed.

(** Running the words of a lowered map folds its value into the accumulator. *)
Lemma exec_program nodes result ws views v acc f :
  lower_nodes names nodes result = Ok ws -> well_scoped views [] nodes ->
  eval_nodes load nodes result = Ok v -> cfg (rq_config rq) 4 = fold_code f ->
  exists values, foldO (exec_instr rq i j k) (replicate 8 0, acc) ws = Some (values, fold_step f acc v).
Proof.
  unfold lower_nodes, eval_nodes. intros Hl Hws Hv Hf. res_inv.
  assert (Hok : alloc_ok (Alloc ∅ (zseq 8) (count_uses nodes result) [])).
  { split; cbn [al_live al_free].
    - by intros x r Hx%lookup_empty_Some.
    - by intros x r Hx%lookup_empty_Some.
    - by intros x y r Hx%lookup_empty_Some.
    - apply NoDup_seqZ.
    - apply Forall_forall. intros r. by rewrite elem_of_zseq. }
  destruct (exec_nodes _ _ _ _ _ ∅ a (replicate 8 0) acc Hok E0 Hws) as
    (ws & values & Hw & Hok' & Hx & [Hlen Hag]); [|done|].
  { split; [done|]. by intros x r Hx; cbn in Hx; apply lookup_empty_Some in Hx. }
  cbn in Hw. rewrite Hw. destruct (Hag _ _ E2) as (v' & Hv' & Hwv & Hreg).
  apply env_get_Ok in Hv. assert (v' = v) as -> by congruence.
  exists values. clear -Hx Hok' E2 Hreg Hf.
  rewrite foldO_app, Hx. cbn [foldO]. rewrite exec_yield by (by eapply live_range).
  rewrite Hreg, Hf. by destruct f.
Qed.
End simulation.

(** ** Admission on both sides *)

Lemma traverse_is_ok {A B} (f : A -> res B) l :
  is_ok (traverse f l) = forallb (fun x => is_ok (f x)) l.
Proof.
  induction l as [|x l IH]; [done|]. cbn. destruct (f x); [|done]. cbn.
  rewrite <- IH. by destruct (traverse f l).
Qed.

(** A scalar check as a conjunct. *)
Lemma is_ok_int {A} z low high (k : Z -> res A) :
  is_ok (let* x := _int (VInt z) low high in k x) = (low <=? z) && (z <=? high) && is_ok (k z).
Proof.
  unfold _int. case_bool_decide as H; cbn.
  - by rewrite !(proj2 (Z.leb_le _ _)) by lia.
  - destruct (Z.leb_spec low z), (Z.leb_spec z high); cbn; (done || lia).
Qed.

Lemma is_ok_int' z low high : is_ok (_int (VInt z) low high) = (low <=? z) && (z <=? high).
Proof.
  unfold _int. case_bool_decide as H; cbn.
  - by rewrite !(proj2 (Z.leb_le _ _)) by lia.
  - destruct (Z.leb_spec low z), (Z.leb_spec z high); cbn; (done || lia).
Qed.

Lemma is_ok_bind {A B} (m : res A) (k : res B) : is_ok (let* _ := m in k) = is_ok m && is_ok k.
Proof. by destruct m. Qed.

Lemma is_ok_raise (b : bool) s {A} (k : res A) :
  is_ok (raise_if b with s in k) = negb b && is_ok k.
Proof. by destruct b. Qed.

Lemma c_defined_testbit mask r : 0 <= r -> c_defined mask r = Z.testbit mask r.
Proof.
  intros Hr. unfold c_defined.
  destruct (Z.testbit mask r) eqn:E.
  - apply negb_true_iff, Z.eqb_neq. intros H0.
    assert (Z.testbit (Z.land mask (Z.shiftl 1 r)) r = false) as H by (by rewrite H0, Z.bits_0).
    rewrite Z.land_spec, E, Z.shiftl_spec, Z.sub_diag in H by done. done.
  - apply negb_false_iff, Z.eqb_eq, Z.bits_inj'. intros i Hi.
    rewrite Z.land_spec, Z.bits_0, Z.shiftl_1_l, Z.pow2_bits_eqb by done.
    destruct (Z.eqb_spec r i) as [->|]; [by rewrite E|by rewrite andb_false_r].
Qed.

Lemma reg_field_range w shift : 0 <= reg_field w shift < 8.
Proof.
  unfold reg_field. change 7 with (Z.ones 3). rewrite Z.land_ones by done.
  apply Z.mod_pos_bound. done.
Qed.

Lemma validate_view_agree c v :
  length c = 65%nat -> Forall is_word c -> 0 <= v < 8 ->
  1 <= cfg c 1 <= 16 -> 1 <= cfg c 2 <= 16 -> 1 <= cfg c 3 <= 64 ->
  c_validate_view c v = is_ok (validate_view c v).
Proof.
  intros Hl Hw Hv Hrows Hcols Hext. unfold c_validate_view, validate_view.
  assert (Hword : forall k, 0 <= k < 5 -> 0 <= cfg c (9 + 5 * v + k)).
  { intros k Hk. unfold cfg.
    destruct (lookup_lt_is_Some_2 c (Z.to_nat (9 + 5 * v + k))) as [w Hw']; [lia|].
    erewrite nth_lookup_Some by done. rewrite Forall_lookup in Hw.
    by apply Hw in Hw' as [? ?]. }
  destruct (cfg c 7 <=? v).
  { rewrite is_ok_raise, andb_true_r. cbn. by repeat destruct (_ =? 0). }
  rewrite !is_ok_int, is_ok_raise, andb_true_r.
  pose proof (Hword 0). pose proof (Hword 1). pose proof (Hword 2). pose proof (Hword 3).
  pose proof (Hword 4).
  set (p0 := cfg c (9 + 5 * v + 0)) in *. set (p1 := cfg c (9 + 5 * v + 1)) in *.
  set (p2 := cfg c (9 + 5 * v + 2)) in *. set (p3 := cfg c (9 + 5 * v + 3)) in *.
  set (p4 := cfg c (9 + 5 * v + 4)) in *.
  destruct (Z.ltb_spec 1 p0); [replace (p0 <=? 1) with false by lia; by rewrite !andb_false_r|].
  destruct (Z.ltb_spec 323 p1); [replace (p1 <=? 323) with false by lia; by rewrite !andb_false_r|].
  destruct (Z.ltb_spec 323 p2); [replace (p2 <=? 323) with false by lia; by rewrite !andb_false_r|].
  destruct (Z.ltb_spec 323 p3); [replace (p3 <=? 323) with false by lia; by rewrite !andb_false_r|].
  destruct (Z.ltb_spec 323 p4); [replace (p4 <=? 323) with false by lia; by rewrite !andb_false_r|].
  rewrite (proj2 (Z.leb_le 0 p0)), (proj2 (Z.leb_le p0 1)), (proj2 (Z.leb_le 0 p1)),
    (proj2 (Z.leb_le p1 323)), (proj2 (Z.leb_le 0 p2)), (proj2 (Z.leb_le p2 323)),
    (proj2 (Z.leb_le 0 p3)), (proj2 (Z.leb_le p3 323)), (proj2 (Z.leb_le 0 p4)),
    (proj2 (Z.leb_le p4 323)) by lia.
  cbn [andb orb negb].
  rewrite !u32_id by (unfold is_word; rewrite MASK_eq; lia).
  unfold u64. rewrite !(Z.mod_small (_ * _)) by nia. rewrite Z.mod_small by nia.
  assert (cfg c (5 + p0) = if p0 =? 0 then cfg c 5 else cfg c 6) as ->.
  { destruct (Z.eqb_spec p0 0) as [->|]; [done|]. by replace p0 with 1 by lia. }
  done.
Qed.

(** The register set of the host as the bit mask of the guest. *)
Definition mask_of (defined : list Z) (mask : Z) : Prop :=
  forall r, 0 <= r < 8 -> Z.testbit mask r = bool_decide (r ∈ defined).

Lemma mask_of_set defined mask d :
  0 <= d < 8 -> mask_of defined mask -> mask_of (d :: defined) (Z.lor mask (Z.shiftl 1 d)).
Proof.
  intros Hd H r Hr. rewrite Z.lor_spec, H, Z.shiftl_1_l, Z.pow2_bits_eqb by lia.
  apply eq_bool_prop_intro. rewrite orb_True, !bool_decide_spec, elem_of_cons, Is_true_true, Z.eqb_eq.
  split; intros [?|?]; auto.
Qed.

Lemma validate_instr_agree c defined mask pc :
  mask_of defined mask ->
  match validate_instr (cfg c 7) (cfg c 8) defined (pc, cfg c (49 + pc)) with
  | Ok defined' => exists mask', c_validate_instr c mask pc = Some mask' /\ mask_of defined' mask'
  | Err _ => c_validate_instr c mask pc = None
  end.
Proof.
  intros Hm. unfold validate_instr, c_validate_instr.
  pose proof (reg_field_range (cfg c (49 + pc)) 25) as Hd.
  pose proof (reg_field_range (cfg c (49 + pc)) 22) as Ha.
  pose proof (reg_field_range (cfg c (49 + pc)) 19) as Hb.
  rewrite !c_defined_testbit, !Hm by lia.
  change (Z.shiftl 1 22 - 1) with 0x3fffff. change (Z.shiftl 1 19 - 1) with 0x7ffff.
  pose proof (mask_of_set defined mask _ Hd Hm) as Hs.
  repeat match goal with |- context [if ?b then _ else _] =>
    lazymatch b with
    | context [if _ then _ else _] => fail
    | negb ?b => destruct b; cbn [negb]
    | _ => destruct b
    end end; cbn; eauto.
Qed.

Lemma validate_instrs_agree c defined mask pcs :
  mask_of defined mask ->
  is_ok (foldM (validate_instr (cfg c 7) (cfg c 8)) defined (map (fun pc => (pc, cfg c (49 + pc))) pcs)) =
  match foldO (c_validate_instr c) mask pcs with Some _ => true | None => false end.
Proof.
  revert defined mask. induction pcs as [|pc pcs IH]; intros defined mask Hm; [done|].
  cbn [map foldM foldO]. pose proof (validate_instr_agree c defined mask pc Hm) as H.
  destruct (validate_instr _ _ _ _) as [defined'|]; cbn [bind].
  - destruct H as (mask' & -> & Hm'). by apply IH.
  - by rewrite H.
Qed.

Lemma enumerate_config c :
  length c = 65%nat -> enumerate (drop 49 c) = map (fun pc => (pc, cfg c (49 + pc))) (zseq 16).
Proof.
  intros H. do 65 (destruct c as [|? c]; [discriminate H|]). destruct c; [|discriminate H]. reflexivity.
Qed.

Lemma scalar_bound c i : length c = 65%nat -> Forall is_word c -> 0 <= i < 65 -> is_word (cfg c i).
Proof.
  intros Hl Hw Hi. unfold cfg.
  destruct (lookup_lt_is_Some_2 c (Z.to_nat i)) as [w Hw']; [lia|].
  erewrite nth_lookup_Some by done. rewrite Forall_lookup in Hw. by eapply Hw.
Qed.

Lemma forallb_ext {A} (f g : A -> bool) l :
  (forall x, x ∈ l -> f x = g x) -> forallb f l = forallb g l.
Proof.
  induction l as [|x l IH]; intros H; [done|]. cbn. rewrite H by constructor.
  f_equal. apply IH. intros; apply H. by right.
Qed.

(** The guest's validator decides what the host's does. *)
Lemma validate_agree c :
  length c = 65%nat -> Forall is_word c -> raveil_fold_validate c = is_ok (validate_words c).
Proof.
  intros Hl Hw. unfold raveil_fold_validate, validate_words.
  rewrite is_ok_raise, negb_involutive.
  rewrite !is_ok_bind, !traverse_is_ok, !is_ok_int', enumerate_config by done.
  cbn [forallb is_ok].
  pose proof (scalar_bound c 4 Hl Hw). pose proof (scalar_bound c 5 Hl Hw).
  pose proof (scalar_bound c 6 Hl Hw). unfold is_word in *.
  rewrite !is_ok_int'.
  change 0x4d463031 with MAGIC. destruct (Z.eqb_spec (cfg c 0) MAGIC); [|done].
  destruct (decide ((1 <= cfg c 1 <= 16) /\ (1 <= cfg c 2 <= 16) /\ (1 <= cfg c 3 <= 64))) as [Hb|Hb].
  - rewrite (validate_instrs_agree c [] 0).
    2: { intros r Hr. rewrite Z.bits_0. symmetry. apply bool_decide_eq_false, not_elem_of_nil. }
    rewrite (forallb_ext (fun x => is_ok (validate_view c x)) (c_validate_view c)).
    2: { intros v Hv%elem_of_zseq. symmetry. destruct_and! Hb. by apply validate_view_agree. }
    rewrite !andb_true_r, !andb_assoc. f_equal. f_equal. lia.
  - apply eq_true_iff_eq. split; intros Hx; exfalso; bool_prop; lia.
Qed.

(** C36. The guest accepts a configuration exactly when the host's
    [validate_config] returns it. *)
Theorem guest_admission v :
  is_ok (validate_config v) = true <->
  exists c, v = VList (map VInt c) /\ length c = 65%nat /\ Forall is_word c /\
    raveil_fold_validate c = true.
Proof.
  split.
  - destruct (validate_config v) as [c|] eqn:E; [intros _|done].
    apply validate_config_Ok in E as (-> & Hl & Hw & Hv).
    exists c. rewrite validate_agree, Hv by done. done.
  - intros (c & -> & Hl & Hw & Hv). rewrite validate_agree in Hv by done.
    unfold validate_config. rewrite length_map, Hl. cbn [Nat.eqb negb].
    assert (traverse (fun w => _int w 0 MASK) (map VInt c) = Ok c) as ->; [|done].
    by apply traverse_int_Ok.
Qed.

(** ** Compiled regions *)

Lemma index_of_view name (tv : list (string * view)) v :
  index_of name (map fst tv) = Some v ->
  exists n kv, v = Z.of_nat n /\ tv !! n = Some kv /\
    dget name (map (fun kv => (kv.1, view_val kv.2)) tv) = Some (view_val kv.2).
Proof.
  revert v. induction tv as [|[k w] tv IH]; intros v H; cbn in *; [done|].
  destruct (String.eqb_spec k name) as [->|Hne].
  - injection H as <-. exists 0%nat, (name, w). by rewrite String.eqb_refl.
  - destruct (index_of name (map fst tv)) as [m|]; [|done]. injection H as <-.
    destruct (IH m eq_refl) as (n & kv & -> & Hn & Hd). exists (S n), kv.
    split_and!; [lia|done|]. destruct (String.eqb_spec name k) as [->|]; [done|done].
Qed.

Lemma view_in_index name (tv : list (string * view)) :
  name ∈ map fst tv -> exists v, index_of name (map fst tv) = Some v.
Proof.
  induction tv as [|[k w] tv IH]; cbn; [by intros ?%elem_of_nil|].
  intros [->|H]%elem_of_cons; [by rewrite String.eqb_refl; eauto|].
  destruct (IH H) as [v ->]. destruct (String.eqb k name); cbn; eauto.
Qed.

Lemma length_tconfig t ws :
  (length (t_views t) <= 8)%nat -> (length ws <= 16)%nat -> length (tconfig t ws) = 65%nat.
Proof.
  intros. unfold tconfig.
  rewrite !length_app, length_view_words, !length_replicate. cbn [length]. lia.
Qed.

Lemma program_tconfig t ws :
  (length (t_views t) <= 8)%nat -> program (tconfig t ws) = ws.
Proof.
  intros Hv. unfold program. change (cfg (tconfig t ws) 8) with (Z.of_nat (length ws)).
  unfold cfg. apply list_eq. intros n. rewrite list_lookup_fmap. unfold zseq, seqZ.
  rewrite list_lookup_fmap. destruct (decide (n < length ws)%nat) as [Hn|Hn].
  - rewrite lookup_seq_lt by lia. cbn [fmap option_fmap option_map].
    destruct (lookup_lt_is_Some_2 ws n Hn) as [w Hw]. rewrite Hw. f_equal.
    apply nth_lookup_Some. replace (Z.to_nat (49 + (Z.of_nat (0 + n) + 0))) with (49 + n)%nat by lia.
    rewrite <- lookup_drop, tconfig_instrs by done. by rewrite lookup_app_l by lia.
  - rewrite lookup_seq_ge by lia. symmetry. apply lookup_ge_None. lia.
Qed.

(** A loop that returns on both sides, step by step. *)
Lemma foldM_foldO {S A} (P : S -> Prop) (f : S -> A -> res S) (g : S -> A -> option S) s l :
  P s ->
  (forall x s, x ∈ l -> P s -> exists s', f s x = Ok s' /\ g s x = Some s' /\ P s') ->
  exists s', foldM f s l = Ok s' /\ foldO g s l = Some s' /\ P s'.
Proof.
  revert s. induction l as [|x l IH]; intros s Hs Hstep; [by exists s|]. cbn.
  destruct (Hstep x s) as (s1 & -> & -> & Hs1); [constructor|done|]. cbn.
  apply IH; [done|]. intros; apply Hstep; [by right|done].
Qed.

Lemma traverse_mapO {A B} (P : B -> Prop) (f : A -> res B) (g : A -> option B) l :
  (forall x, x ∈ l -> exists y, f x = Ok y /\ g x = Some y /\ P y) ->
  exists ys, traverse f l = Ok ys /\ mapO g l = Some ys /\ Forall P ys /\ length ys = length l.
Proof.
  induction l as [|x l IH]; intros H; [by exists []|]. cbn.
  destruct (H x) as (y & -> & -> & Hy); [constructor|]. cbn.
  destruct IH as (ys & -> & -> & Hys & Hl); [intros; apply H; by right|].
  exists (y :: ys). cbn. split_and!; [done..|by constructor|lia].
Qed.

Section compiled.
Context (t : tregion) (ws : list Z) (id : Z) (a b : list Z).
Implicit Types (buf : Z).
Hypothesis (Ht : tregion_ok t) (Hws : (length ws <= 16)%nat).
Hypothesis (Ha : Z.of_nat (length a) = t_la t) (Hb : Z.of_nat (length b) = t_lb t).
Hypothesis (Haw : Forall is_word a) (Hbw : Forall is_word b).

Definition tview_dict : dict := map (fun kv => (kv.1, view_val kv.2)) (t_views t).
Let rq := make_request id (tconfig t ws) a b.

(** Where the request keeps the words of the two buffers. *)
Lemma request_word buf n x :
  0 <= buf <= 1 -> (if buf =? 0 then a else b) !! n = Some x ->
  rq_inputs rq !! Z.to_nat (324 * buf + Z.of_nat n) = Some x.
Proof.
  destruct Ht. intros Hbuf Hx. cbn [rq_inputs rq make_request].
  assert (n < length (if Z.eqb buf 0 then a else b))%nat as Hlt by (by apply lookup_lt_Some in Hx).
  destruct (Z.eqb_spec buf 0) as [->|].
  - replace (Z.to_nat (324 * 0 + Z.of_nat n)) with n by lia. by rewrite lookup_app_l by lia.
  - replace buf with 1 by lia. rewrite lookup_app_r by lia.
    rewrite lookup_app_r by (rewrite length_replicate; lia).
    rewrite length_replicate, lookup_app_l by lia.
    replace (Z.to_nat (324 * 1 + Z.of_nat n) - length a - (324 - length a))%nat with n by lia.
    done.
Qed.

Lemma load_view_word i j k name v kv :
  0 <= i < t_rows t -> 0 <= j < t_cols t -> 0 <= k < t_extent t ->
  index_of name (map fst (t_views t)) = Some v -> t_views t !! Z.to_nat v = Some kv ->
  dget name tview_dict = Some (view_val kv.2) ->
  exists n x, load_view tview_dict [a; b] i j k name = Ok x /\ is_word x /\
    (if v_buf kv.2 =? 0 then a else b) !! n = Some x /\ 0 <= v_buf kv.2 <= 1 /\
    Z.of_nat n = v_base kv.2 + v_i kv.2 * i + v_j kv.2 * j + v_k kv.2 * k /\
    Z.of_nat n < 324 /\ 0 <= v_base kv.2 /\ 0 <= v_i kv.2 /\ 0 <= v_j kv.2 /\ 0 <= v_k kv.2.
Proof.
  pose proof (AffineFoldFacts.ok_views _ Ht) as ok_views. pose proof (ok_la _ Ht). pose proof (ok_lb _ Ht).
  intros Hi Hj Hk _ Hkv Hd.
  rewrite Forall_lookup in ok_views. pose proof (ok_views _ _ Hkv) as (? & ? & ? & ? & ? & Hlast).
  destruct kv as [key [buf base si sj sk]]. cbn in *.
  assert (Hlt : base + si * i + sj * j + sk * k < t_length t buf) by nia.
  assert (0 <= base + si * i + sj * j + sk * k) by nia.
  set (n := Z.to_nat (base + si * i + sj * j + sk * k)).
  assert (Z.of_nat (length (if buf =? 0 then a else b)) = t_length t buf) as Hlen.
  { unfold t_length. by destruct (buf =? 0). }
  destruct (lookup_lt_is_Some_2 (if buf =? 0 then a else b) n) as [x Hx]; [lia|].
  exists n, x. unfold load_view, dsub. rewrite Hd. cbn.
  assert (py_index [a; b] buf = Ok (if buf =? 0 then a else b)) as ->.
  { assert (buf = 0 \/ buf = 1) as [-> | ->] by lia; reflexivity. }
  cbn. rewrite (py_index_nonneg _ _ x) by (done || lia).
  unfold t_length in *. split_and!; try done; try lia.
  - destruct (buf =? 0); [by eapply (Forall_lookup_1 is_word a)|by eapply (Forall_lookup_1 is_word b)].
  - destruct (buf =? 0); lia.
Qed.

Lemma exec_load_view i j k name v x dst values acc :
  0 <= i < t_rows t -> 0 <= j < t_cols t -> 0 <= k < t_extent t ->
  index_of name (map fst (t_views t)) = Some v ->
  load_view tview_dict [a; b] i j k name = Ok x -> 0 <= dst < 8 ->
  is_word x /\ exec_instr rq i j k (values, acc) (pack 1 dst v 0) = Some (set_reg values dst x, acc).
Proof.
  intros Hi Hj Hk Hv Hx Hd.
  destruct (index_of_view _ _ _ Hv) as (m & kv & -> & Hkv & Hget).
  assert (Hm : (m < length (t_views t))%nat) by (by apply lookup_lt_Some in Hkv).
  pose proof (ok_nviews _ Ht).
  destruct (load_view_word i j k name (Z.of_nat m) kv) as
    (n & x' & Hx' & Hw & Hn & Hbuf & Haddr & Hlt & ?); [done..|by rewrite Nat2Z.id|done|].
  assert (x' = x) as -> by congruence. split; [done|].
  unfold exec_instr. rewrite pack_op, pack_d, pack_a by lia. cbn [Z.eqb Pos.eqb].
  cbn [rq_config rq make_request].
  rewrite !(cfg_view t ws m kv) by (done || lia). unfold view_words.
  change (Z.to_nat 0) with 0%nat. change (Z.to_nat 1) with 1%nat.
  change (Z.to_nat 2) with 2%nat. change (Z.to_nat 3) with 3%nat.
  change (Z.to_nat 4) with 4%nat. cbn [nth].
  destruct_and?.
  assert (0 <= v_i kv.2 * i) by nia. assert (0 <= v_j kv.2 * j) by nia.
  assert (0 <= v_k kv.2 * k) by nia.
  rewrite !(u32_id (_ * _)) by (unfold is_word; rewrite MASK_eq; lia).
  rewrite (u32_id (v_base _ + _)) by (unfold is_word; rewrite MASK_eq; lia).
  rewrite <- Haddr, (u32_id (Z.of_nat n)) by (unfold is_word; rewrite MASK_eq; lia).
  rewrite u32_id by (unfold is_word; rewrite MASK_eq; lia).
  change (rq_inputs (make_request id (tconfig t ws) a b)) with (rq_inputs rq).
  by rewrite (request_word (v_buf kv.2) n x).
Qed.

Hypothesis Hlower : lower_nodes (map fst (t_views t)) (t_nodes t) (t_result t) = Ok ws.

Definition reference_cell (i j : Z) : res Z :=
  foldM (fun acc k =>
    let* v := eval_nodes (load_view tview_dict [a; b] i j k) (t_nodes t) (t_result t) in
    Ok (fold_step (t_fold t) acc v)) 0 (zseq (t_extent t)).

Lemma cell_agree i j :
  0 <= i < t_rows t -> 0 <= j < t_cols t ->
  exists acc, reference_cell i j = Ok acc /\ eval_cell rq i j = Some acc /\ is_word acc.
Proof.
  intros Hi Hj. unfold reference_cell, eval_cell.
  change (cfg (rq_config rq) 3) with (t_extent t).
  apply foldM_foldO; [split; [done|by rewrite MASK_eq]|].
  intros k acc Hk%elem_of_zseq Hacc.
  destruct (eval_nodes_total (fun v => v ∈ map fst (t_views t))
    (load_view tview_dict [a; b] i j k) (t_nodes t) (t_result t)) as (v & Hv & Hvw).
  { intros name Hname. destruct (view_in_index _ _ Hname) as [v Hv].
    destruct (index_of_view _ _ _ Hv) as (m & kv & -> & Hkv & Hget).
    destruct (load_view_word i j k name (Z.of_nat m) kv) as (n & x & Hx & _);
      [done..|by rewrite Nat2Z.id|done|eauto]. }
  { by destruct Ht. }
  { by destruct Ht. }
  exists (fold_step (t_fold t) acc v). rewrite Hv. split; [done|]. split.
  - unfold eval_iteration. change (rq_config rq) with (tconfig t ws).
    rewrite program_tconfig by (pose proof (ok_nviews _ Ht); lia).
    destruct (exec_program rq i j k (map fst (t_views t)) (load_view tview_dict [a; b] i j k))
      with (nodes := t_nodes t) (result := t_result t) (ws := ws)
           (views := fun v => v ∈ map fst (t_views t)) (v := v) (acc := acc) (f := t_fold t)
      as [values ->]; try done.
    + rewrite length_map. pose proof (ok_nviews _ Ht). lia.
    + intros. by apply exec_load_view with (name := name).
    + apply (ok_nodes _ Ht).
  - destruct (t_fold t); cbn; [apply u32_word|]. unfold is_word in *. lia.
Qed.

Lemma evaluate_agree :
  raveil_fold_validate (tconfig t ws) = true ->
  exists rows, traverse (fun i => traverse (reference_cell i) (zseq (t_cols t))) (zseq (t_rows t)) = Ok rows /\
    raveil_fold_evaluate rq = Some (concat rows) /\ Forall is_word (concat rows) /\
    Z.of_nat (length (concat rows)) = t_rows t * t_cols t.
Proof.
  intros Hval. unfold raveil_fold_evaluate. change (rq_config rq) with (tconfig t ws).
  rewrite Hval. cbn [negb].
  change (cfg (tconfig t ws) 1) with (t_rows t). change (cfg (tconfig t ws) 2) with (t_cols t).
  pose proof (ok_rows _ Ht). pose proof (ok_cols _ Ht).
  destruct (traverse_mapO
    (fun row => Forall is_word row /\ Z.of_nat (length row) = t_cols t)
    (fun i => traverse (reference_cell i) (zseq (t_cols t)))
    (fun i => mapO (fun j => eval_cell rq i j) (zseq (t_cols t))) (zseq (t_rows t)))
    as (rows & Hrows & -> & Hrs & Hlen).
  { intros i Hi%elem_of_zseq.
    destruct (traverse_mapO is_word (reference_cell i) (fun j => eval_cell rq i j) (zseq (t_cols t)))
      as (row & Hr & Ho & Hw & Hl).
    { intros j Hj%elem_of_zseq. by apply cell_agree. }
    exists row. split_and!; try done. rewrite Hl. unfold zseq. rewrite length_seqZ. lia. }
  exists rows. split_and!; [done|done| |].
  - clear -Hrs. induction Hrs as [|row rows [Hw _] _ IH]; [done|]. by apply Forall_app.
  - unfold zseq in Hlen. rewrite length_seqZ in Hlen.
    replace (t_rows t) with (Z.of_nat (length rows)) by lia.
    clear -Hrs. induction Hrs as [|row rows [_ Hw] _ IH]; [done|].
    cbn [concat length]. rewrite length_app. lia.
Qed.
End compiled.

Lemma read_inputs_words a b la lb :
  Z.of_nat (length a) = la -> Z.of_nat (length b) = lb ->
  Forall is_word a -> Forall is_word b ->
  read_inputs (VList [words_val a; words_val b]) [VInt la; VInt lb] = Ok [a; b].
Proof.
  intros <- <- Ha Hb. unfold read_inputs. cbn. rewrite !length_map, !Z.eqb_refl. cbn.
  assert (forall l, Forall is_word l -> traverse (fun w => _int w 0 MASK) (map VInt l) = Ok l) as Hl.
  { intros l Hl. by apply traverse_int_Ok. }
  by rewrite !Hl.
Qed.

Lemma tview_lookup t : rg_views (untyped t) = tview_dict t.
Proof. reflexivity. Qed.

(** The host's reference interpreter and the guest give the same words. *)
Lemma reference_evaluate d c a b id :
  compile_region d = Ok c ->
  Z.of_nat (length a) = cfg c 5 -> Z.of_nat (length b) = cfg c 6 ->
  Forall is_word a -> Forall is_word b ->
  exists out, reference d (VList [words_val a; words_val b]) = Ok out /\
    raveil_fold_evaluate (make_request id c a b) = Some out /\ Forall is_word out /\
    Z.of_nat (length out) = cfg c 1 * cfg c 2.
Proof.
  intros Hc Ha Hb Haw Hbw.
  destruct (compile_region_ok _ _ Hc) as (t & ws & Hadm & Ht & Hlow & -> & Hw & Hval & _ & Hws).
  change (cfg (tconfig t ws) 5) with (t_la t) in Ha. change (cfg (tconfig t ws) 6) with (t_lb t) in Hb.
  change (cfg (tconfig t ws) 1) with (t_rows t). change (cfg (tconfig t ws) 2) with (t_cols t).
  destruct (evaluate_agree t ws id a b Ht Hws Ha Hb Haw Hbw Hlow) as (rows & Hrows & Hev & Hout & Hlen).
  { pose proof (ok_nviews _ Ht). rewrite validate_agree, Hval; [done|apply length_tconfig; lia|done]. }
  exists (concat rows). split_and!; [|done..].
  unfold reference. rewrite Hc. cbn [bind]. rewrite Hadm. cbn [bind].
  change (rg_lengths (untyped t)) with [VInt (t_la t); VInt (t_lb t)].
  rewrite read_inputs_words by done. cbn [bind].
  change (py_index (rg_shape (untyped t)) 0) with (Ok (VInt (t_rows t))).
  change (py_index (rg_shape (untyped t)) 1) with (Ok (VInt (t_cols t))).
  cbn [bind as_int rg_extent untyped].
  fold (reference_cell t a b). rewrite tview_lookup.
  change (traverse _ (zseq (t_rows t))) with
    (traverse (fun i => traverse (reference_cell t a b i) (zseq (t_cols t))) (zseq (t_rows t))).
  by rewrite Hrows.
Qed.

(** C29. A region that compiles has a value on every pair of inputs of the declared
    lengths, and the guest computes it: evaluating the configuration gives the
    words of the reference interpreter, one per output cell. *)
Theorem compile_correct d c a b id :
  compile_region d = Ok c ->
  Z.of_nat (length a) = cfg c 5 -> Z.of_nat (length b) = cfg c 6 ->
  Forall is_word a -> Forall is_word b ->
  exists out, reference d (VList [words_val a; words_val b]) = Ok out /\
    raveil_fold_evaluate (make_request id c a b) = Some out /\ Forall is_word out /\
    Z.of_nat (length out) = cfg c 1 * cfg c 2.
Proof. apply reference_evaluate. Qed.

Lemma compile_correct_witness :
  exists c out, compile_region region_example = Ok c /\
    reference region_example (VList [words_val [1; 2; 3; 4]; words_val [5; 6; 7; 8]]) = Ok out /\
    raveil_fold_evaluate (make_request 1 c [1; 2; 3; 4] [5; 6; 7; 8]) = Some out.
Proof.
  destruct (compile_region region_example) as [c|] eqn:E; [|vm_compute in E; discriminate E].
  exists c. destruct (compile_correct region_example c [1; 2; 3; 4] [5; 6; 7; 8] 1 E) as (out & H1 & H2 & _).
  - vm_compute in E. injection E as <-. reflexivity.
  - vm_compute in E. injection E as <-. reflexivity.
  - repeat constructor; vm_compute; discriminate.
  - repeat constructor; vm_compute; discriminate.
  - exists out. auto.
Defined.
