(* ===== verification/FoldWire.v ===== *)
(** * Request and response frames

    The host packs a configuration and its buffers into a request frame
    ([raveil/sonatine_fold.py] [encode], [raveil/fold_bridge.py]
    [request_bytes]); the guest unpacks it ([contracts/src/affine_fold.c]
    [raveil_fold_decode]). The device's answer travels back as a response frame
    ([response_bytes], [raveil_fold_response_decode]), which the tests corrupt on
    purpose ([injected_response]). Frames are lists of byte values. *)

From S2P Require Import Prelude PyValue AffineFold FoldMachine Json.

(** ** Bytes, words and checksums *)

(** [struct.pack("<I", w)] and [struct.pack("<Q", w)] *)
Definition le32 (w : Z) : list Z :=
  [w mod 256; (w / 256) mod 256; (w / 65536) mod 256; (w / 16777216) mod 256].
Definition le64 (w : Z) : list Z := le32 (w mod 2 ^ 32) ++ le32 (w / 2 ^ 32).
(** [struct.pack(f"<{n}I", *words)] *)
Definition pack_words (ws : list Z) : list Z := concat (map le32 ws).

Fixpoint iterate {A} (n : nat) (f : A -> A) (x : A) : A :=
  match n with O => x | S n => iterate n f (f x) end.

(** [zlib.crc32], and the guest's [crc]. *)
Definition crc_bit (v : Z) : Z :=
  Z.lxor (Z.shiftr v 1) (if Z.testbit v 0 then 0xedb88320 else 0).
Definition crc_byte (v b : Z) : Z := iterate 8 crc_bit (Z.lxor v b).
Definition crc32 (bytes : list Z) : Z := Z.lxor (foldl crc_byte MASK bytes) MASK.

Definition byte_at (p : list Z) (i : Z) : Z := nth (Z.to_nat i) p 0.
(** [word(p + i)] *)
Definition word (p : list Z) (i : Z) : Z :=
  Z.lor (Z.lor (Z.lor (byte_at p i) (Z.shiftl (byte_at p (i + 1)) 8))
               (Z.shiftl (byte_at p (i + 2)) 16)) (Z.shiftl (byte_at p (i + 3)) 24).
Definition word64 (p : list Z) (i : Z) : Z := Z.lor (word p i) (Z.shiftl (word p (i + 4)) 32).

(** ** Requests *)

Definition REQUEST_MAGIC : Z := 0x51464631.
Definition BRIDGE_MAGIC : Z := 0x51464632.
Definition REQUEST_END : Z := 0x46454e44.

(** An input buffer of the declared length. *)
Definition encode_input (values : pyval) (length_ : Z) : res (list Z) :=
  match values with
  | VList l =>
      raise_if negb (Z.of_nat (length l) =? length_) with "input extent mismatch" in
      traverse (fun v => match v with
        | VInt w => if bool_decide (0 <= w <= MASK) then Ok w else fail "uint32 input required"
        | _ => fail "uint32 input required" end) l
  | _ => fail "input extent mismatch"
  end.

(** The frame before the checksum. *)
Definition request_body (config a b : list Z) (request_id : Z) : list Z :=
  let words := config ++ a ++ b in
  pack_words [REQUEST_MAGIC; 1; 40 + Z.of_nat (length words) * 4; Z.of_nat (length a);
              Z.of_nat (length b); 0] ++ le64 request_id ++ pack_words words.

(** [sonatine_fold.encode] *)
Definition encode (config : list Z) (inputs : pyval) (request_id : pyval) : res (list Z) :=
  let* _ := validate_config (words_val config) in
  match request_id with
  | VInt id =>
      raise_if negb (bool_decide (0 < id < Z.shiftl 1 64))
      with "nonzero uint64 request identity required" in
      match inputs with
      | VList [a; b] =>
          let* a := encode_input a (cfg config 5) in
          let* b := encode_input b (cfg config 6) in
          let body := request_body config a b id in
          Ok (body ++ pack_words [crc32 body; REQUEST_END])
      | _ => fail "two input arrays required"
      end
  | _ => fail "nonzero uint64 request identity required"
  end.

(** [struct.pack_into("<I", body, i, w)] *)
Definition pack_into (body : list Z) (i : nat) (w : Z) : list Z :=
  take i body ++ le32 w ++ drop (i + 4) body.

Definition request_bytes (config : list Z) (inputs : pyval) (request_id : pyval) : res (list Z) :=
  let* body := encode config inputs request_id in
  let body := pack_into body 0 BRIDGE_MAGIC in
  let body := pack_into body (length body - 8) (crc32 (take (length body - 8) body)) in
  Ok body.

(** [raveil_fold_decode] *)
Definition raveil_fold_decode (bytes : list Z) : option request :=
  let size := Z.of_nat (length bytes) in
  if (size <? 300) || (2892 <? size) ||
     (negb (word bytes 0 =? REQUEST_MAGIC) && negb (word bytes 0 =? BRIDGE_MAGIC)) ||
     negb (word bytes 4 =? 1) || negb (word bytes 8 =? size) ||
     (324 <? word bytes 12) || (324 <? word bytes 16) || negb (word bytes 20 =? 0) ||
     negb (size =? 300 + 4 * (word bytes 12 + word bytes 16)) ||
     negb (word bytes (size - 4) =? REQUEST_END) ||
     negb (word bytes (size - 8) =? crc32 (take (Z.to_nat (size - 8)) bytes))
  then None
  else
    let id := word64 bytes 24 in
    if id =? 0 then None
    else
      let c := map (fun i => word bytes (32 + 4 * i)) (zseq 65) in
      if negb (raveil_fold_validate c) || negb (cfg c 5 =? word bytes 12) ||
         negb (cfg c 6 =? word bytes 16)
      then None
      else
        let a := map (fun i => word bytes (292 + 4 * i)) (zseq (cfg c 5)) in
        let b := map (fun i => word bytes (292 + 4 * (cfg c 5 + i))) (zseq (cfg c 6)) in
        Some (make_request id c a b).

(** ** Responses *)

(** What a dispatch line binds a job to. *)
Record binding := Binding {
  bd_request_id : Z; bd_epoch : Z; bd_sequence : Z; bd_cookie : string; bd_count : Z;
}.

(** [bytes.fromhex] on digit pairs *)
Fixpoint fromhex (s : string) : option (list Z) :=
  match s with
  | "" => Some []
  | String a (String b r) =>
      match hex_val a, hex_val b, fromhex r with
      | Some x, Some y, Some l => Some (16 * x + y :: l)
      | _, _, _ => None
      end
  | _ => None
  end.

(** [bytes.hex()] *)
Fixpoint tohex (l : list Z) : string :=
  match l with
  | [] => ""
  | b :: l => String (hex_digit (b / 16)) (String (hex_digit (b mod 16)) (tohex l))
  end.

Definition RESPONSE_MAGIC : Z := 0x46525231.

Definition response_body (bd : binding) (cookie output : list Z) (status : Z) : list Z :=
  pack_words [RESPONSE_MAGIC; 1] ++ le64 (bd_request_id bd) ++ le64 (bd_epoch bd) ++
  le64 (bd_sequence bd) ++ cookie ++ pack_words [bd_count bd; status] ++ pack_words output.

Definition response_bytes (bd : binding) (output : list Z) (status : Z) : res (list Z) :=
  raise_if negb (Z.of_nat (length output) =? bd_count bd) with "response extent mismatch" in
  let* cookie := from_option_err (ValueError "non-hexadecimal number found in fromhex()")
                   (fromhex (bd_cookie bd)) in
  let body := response_body bd cookie output status in
  Ok (body ++ pack_words [crc32 body]).

(** [output[-1] ^= 1] *)
Definition flip_last (l : list Z) : res (list Z) :=
  let* x := py_index l (-1) in Ok (take (length l - 1) l ++ [Z.lxor x 1]).

(** [injected_response]: the frame and the characters sent. *)
Definition injected_response (bd : binding) (output : list Z) (injection : string)
    : res (list Z * string) :=
  let* output := if String.eqb injection "wrong-word" then flip_last output else Ok output in
  let bd := if String.eqb injection "stale-id"
            then Binding (Z.lxor (bd_request_id bd) 1) (bd_epoch bd) (bd_sequence bd)
                   (bd_cookie bd) (bd_count bd)
            else bd in
  let status := if String.eqb injection "fault" || String.eqb injection "rtl-fault" then 1 else 0 in
  let* reply := response_bytes bd output status in
  let* reply := if String.eqb injection "bad-crc" then flip_last reply else Ok reply in
  let wire := tohex reply in
  let wire := if String.eqb injection "invalid-char" then "!" else wire in
  let wire := if String.eqb injection "no-response" then "" else wire in
  let wire := if String.eqb injection "truncated"
              then String.substring 0 (String.length wire - 1) wire else wire in
  Ok (reply, wire).

(** [raveil_fold_response_decode]; the cookie is sixteen bytes. *)
Definition raveil_fold_response_decode (p : list Z) (id epoch sequence : Z) (cookie : list Z)
    (count : Z) : option (list Z) :=
  let n := Z.of_nat (length p) in
  if (count <? 1) || (256 <? count) || negb (n =? 60 + 4 * count) ||
     negb (word p 0 =? RESPONSE_MAGIC) || negb (word p 4 =? 1) || negb (word p 48 =? count) ||
     negb (word p 52 =? 0) ||
     negb (word p (n - 4) =? crc32 (take (Z.to_nat (n - 4)) p))
  then None
  else if negb (word64 p 8 =? id) || negb (word64 p 16 =? epoch) || negb (word64 p 24 =? sequence)
  then None
  else if negb (forallb (fun i => byte_at p (32 + i) =? byte_at cookie i) (zseq 16)) then None
  else Some (map (fun i => word p (56 + 4 * i)) (zseq count)).

Example crc32_check : crc32 [49; 50; 51; 52; 53; 54; 55; 56; 57] = 0xcbf43926.
Proof. vm_compute. reflexivity. Qed.

(** [fold_bridge.INJECTIONS] and [BROKEN_FRAME] *)
Definition BRIDGE_INJECTIONS : list string :=
  ["none"; "wrong-word"; "stale-id"; "bad-crc"; "fault"; "rtl-fault"; "invalid-char"; "no-response";
   "truncated"].
Definition BROKEN_FRAME : list string := ["invalid-char"; "no-response"; "truncated"].
