(* ===== verification/FoldWireFacts.v ===== *)
(** * Frames are read back as they were packed

    [request_decode]: the guest decodes every request the host packs to the
    packed configuration and buffers. [injected_response_verdict]: the guest's
    decoder returns the device's words for an honest response and nothing for a
    corrupted one; a flipped output word is the one injection it cannot see. *)

From S2P Require Import Prelude PyValue Json AffineFold AffineFoldFacts FoldMachine FoldMachineFacts FoldWire.

(** ** Words in byte strings *)

Definition is_byte (b : Z) : Prop := 0 <= b < 256.

Lemma length_le32 w : length (le32 w) = 4%nat.
Proof. reflexivity. Qed.

Lemma length_pack_words ws : length (pack_words ws) = (4 * length ws)%nat.
Proof. unfold pack_words. induction ws as [|w ws IH]; [done|]. cbn [map concat]. rewrite length_app, IH. cbn. lia. Qed.

Lemma pack_words_app a b : pack_words (a ++ b) = pack_words a ++ pack_words b.
Proof. unfold pack_words. by rewrite map_app, concat_app. Qed.

Lemma le64_words v : le64 v = pack_words [v mod 2 ^ 32; v / 2 ^ 32].
Proof. unfold pack_words, le64. cbn [map concat]. by rewrite app_nil_r. Qed.

Lemma le32_bytes w : Forall is_byte (le32 w).
Proof. unfold le32, is_byte. repeat constructor; apply Z.mod_pos_bound; lia. Qed.

Lemma pack_words_bytes ws : Forall is_byte (pack_words ws).
Proof.
  unfold pack_words. induction ws as [|w ws IH]; [constructor|]. cbn [map concat].
  apply Forall_app. split; [apply le32_bytes|done].
Qed.

Lemma byte_at_app_l p q i : 0 <= i < Z.of_nat (length p) -> byte_at (p ++ q) i = byte_at p i.
Proof. intros H. unfold byte_at. apply app_nth1. lia. Qed.

Lemma byte_at_app_r p q i : 0 <= i -> byte_at (p ++ q) (Z.of_nat (length p) + i) = byte_at q i.
Proof.
  intros H. unfold byte_at. rewrite app_nth2 by lia. f_equal. lia.
Qed.

Lemma word_app_l p q i : 0 <= i -> i + 4 <= Z.of_nat (length p) -> word (p ++ q) i = word p i.
Proof. intros. unfold word. by rewrite !byte_at_app_l by lia. Qed.

Lemma word_app_r p q i : 0 <= i -> word (p ++ q) (Z.of_nat (length p) + i) = word q i.
Proof.
  intros. unfold word. rewrite <- !Z.add_assoc. by rewrite !byte_at_app_r by lia.
Qed.

Lemma word_bytes b0 b1 b2 b3 l :
  is_byte b0 -> is_byte b1 -> is_byte b2 -> is_byte b3 ->
  word (b0 :: b1 :: b2 :: b3 :: l) 0 = b0 + 256 * b1 + 65536 * b2 + 16777216 * b3.
Proof.
  unfold is_byte. intros.
  change (word (b0 :: b1 :: b2 :: b3 :: l) 0) with
    (Z.lor (Z.lor (Z.lor b0 (Z.shiftl b1 8)) (Z.shiftl b2 16)) (Z.shiftl b3 24)).
  rewrite (Z.lor_comm b0), (lor_field b1 b0 8) by lia.
  rewrite (Z.lor_comm (_ + _)), (lor_field b2 _ 16) by lia.
  rewrite (Z.lor_comm (_ + _)), (lor_field b3 _ 24) by lia. lia.
Qed.

Lemma word_le32 w l : is_word w -> word (le32 w ++ l) 0 = w.
Proof.
  unfold is_word. rewrite MASK_eq. intros Hw. unfold le32. cbn [app].
  rewrite word_bytes by (unfold is_byte; apply Z.mod_pos_bound; lia).
  change (2 ^ 32) with 4294967296 in Hw. dlia.
Qed.

Lemma word_pack ws l i w :
  Forall is_word ws -> ws !! i = Some w -> word (pack_words ws ++ l) (4 * Z.of_nat i) = w.
Proof.
  unfold pack_words. revert i. induction ws as [|v ws IH]; intros i Hws Hi; [done|].
  apply Forall_cons in Hws as [Hv Hws]. cbn [map concat]. rewrite <- app_assoc.
  destruct i as [|i].
  - injection Hi as ->. by apply word_le32.
  - replace (4 * Z.of_nat (S i)) with (Z.of_nat (length (le32 v)) + 4 * Z.of_nat i)
      by (rewrite length_le32; lia).
    rewrite word_app_r by lia. by apply IH.
Qed.

(** Reading a run of packed words. *)
Lemma words_pack p ws l n :
  Forall is_word ws -> n = Z.of_nat (length ws) ->
  map (fun i => word (p ++ pack_words ws ++ l) (Z.of_nat (length p) + 4 * i)) (zseq n) = ws.
Proof.
  intros Hws ->. apply list_eq. intros i. rewrite list_lookup_fmap. unfold zseq, seqZ.
  rewrite list_lookup_fmap. destruct (decide (i < length ws)%nat) as [Hi|Hi].
  - rewrite lookup_seq_lt by lia. cbn [fmap option_fmap option_map].
    destruct (lookup_lt_is_Some_2 ws i Hi) as [w Hw]. rewrite Hw. f_equal.
    rewrite word_app_r by lia.
    replace (4 * (Z.of_nat (0 + i) + 0)) with (4 * Z.of_nat i) by lia. by apply word_pack.
  - rewrite lookup_seq_ge by lia. symmetry. apply lookup_ge_None. lia.
Qed.

Lemma word64_le64 p v l :
  0 <= v < 2 ^ 64 -> word64 (p ++ le64 v ++ l) (Z.of_nat (length p)) = v.
Proof.
  intros Hv. unfold word64. rewrite le64_words.
  assert (Hws : Forall is_word [v mod 2 ^ 32; v / 2 ^ 32]).
  { change (2 ^ 64) with (2 ^ 32 * 2 ^ 32) in Hv. unfold is_word. rewrite MASK_eq.
    pose proof (Z.mod_pos_bound v (2 ^ 32)). pose proof (Z.div_mod v (2 ^ 32)).
    apply Forall_cons; split; [lia|]. apply Forall_singleton. nia. }
  rewrite <- (Z.add_0_r (Z.of_nat (length p))) at 1. rewrite !word_app_r by lia.
  change 0 with (4 * Z.of_nat 0). change 4 with (4 * Z.of_nat 1) at 2.
  erewrite !word_pack by done. rewrite Z.lor_comm, lor_field by
    (pose proof (Z.mod_pos_bound v (2 ^ 32)); lia).
  pose proof (Z.div_mod v (2 ^ 32)). lia.
Qed.

(** ** The checksum is a word *)

Lemma lxor_range a b n : 0 <= n -> 0 <= a < 2 ^ n -> 0 <= b < 2 ^ n -> 0 <= Z.lxor a b < 2 ^ n.
Proof.
  intros Hn Ha Hb. assert (0 <= Z.lxor a b) by (apply Z.lxor_nonneg; lia). split; [done|].
  destruct (decide (Z.lxor a b = 0)) as [->|Hne]; [lia|].
  apply Z.log2_lt_pow2; [lia|]. pose proof (Z.log2_lxor a b).
  assert (Hlt : forall x, 0 <= x < 2 ^ n -> Z.log2 x < n \/ n = 0).
  { intros x Hx. destruct (decide (n = 0)); [by right|]. left.
    destruct (decide (x = 0)) as [->|]; [cbn; lia|]. apply Z.log2_lt_pow2; lia. }
  destruct (Hlt a Ha) as [?| ->], (Hlt b Hb) as [?|?]; try lia.
  all: try subst n; change (2 ^ 0) with 1 in *; assert (a = 0) by lia; assert (b = 0) by lia; subst; done.
Qed.

Lemma crc_bit_word v : is_word v -> is_word (crc_bit v).
Proof.
  unfold is_word, crc_bit. rewrite MASK_eq. intros Hv.
  enough (0 <= Z.lxor (Z.shiftr v 1) (if Z.testbit v 0 then 0xedb88320 else 0) < 2 ^ 32) by lia.
  apply lxor_range; [done| |by destruct (Z.testbit v 0)].
  rewrite Z.shiftr_div_pow2 by done. change (2 ^ 1) with 2. dlia.
Qed.

Lemma iterate_inv {A} (P : A -> Prop) n f x : (forall y, P y -> P (f y)) -> P x -> P (iterate n f x).
Proof. intros Hf. revert x. induction n as [|n IH]; intros x Hx; [done|]. cbn. auto. Qed.

Lemma crc32_word bytes : Forall is_byte bytes -> is_word (crc32 bytes).
Proof.
  intros Hb. unfold crc32.
  assert (Hf : forall v, is_word v -> is_word (foldl crc_byte v bytes)).
  { induction Hb as [|b bytes Hb _ IH]; intros v Hv; [done|]. cbn [foldl]. apply IH.
    unfold crc_byte. apply iterate_inv; [apply crc_bit_word|].
    unfold is_word in *. unfold is_byte in Hb. rewrite MASK_eq in *.
    enough (0 <= Z.lxor v b < 2 ^ 32) by lia. apply lxor_range; lia. }
  assert (Hm : is_word (foldl crc_byte MASK bytes)).
  { apply Hf. unfold is_word. rewrite MASK_eq. lia. }
  unfold is_word in *. rewrite MASK_eq in *.
  enough (0 <= Z.lxor (foldl crc_byte (2 ^ 32 - 1) bytes) (2 ^ 32 - 1) < 2 ^ 32) by lia.
  apply lxor_range; lia.
Qed.

(** ** Requests *)

Lemma encode_input_Ok v n l :
  encode_input v n = Ok l -> v = words_val l /\ Z.of_nat (length l) = n /\ Forall is_word l.
Proof.
  unfold encode_input. intros H. res_inv. bool_prop.
  apply traverse_Ok in H as Hf. apply traverse_length in H as Hl.
  assert (l0 = map VInt l /\ Forall is_word l) as [-> ?].
  { clear -Hf. induction Hf as [|x w xs ws Hx _ [-> IH]]; [done|]. res_inv. bool_prop.
    split; [done|by constructor]. }
  rewrite length_map in *. done.
Qed.

Lemma encode_Ok c inputs rid bytes :
  encode c inputs rid = Ok bytes ->
  exists id a b, rid = VInt id /\ inputs = VList [words_val a; words_val b] /\ 0 < id < 2 ^ 64 /\
    length c = 65%nat /\ Forall is_word c /\ raveil_fold_validate c = true /\
    Z.of_nat (length a) = cfg c 5 /\ Z.of_nat (length b) = cfg c 6 /\
    Forall is_word a /\ Forall is_word b /\
    bytes = request_body c a b id ++ pack_words [crc32 (request_body c a b id); REQUEST_END].
Proof.
  unfold encode. intros H. res_inv. bool_prop.
  repeat match goal with H : encode_input _ _ = Ok _ |- _ =>
    apply encode_input_Ok in H as (-> & ? & ?) end.
  match goal with H : validate_config _ = Ok _ |- _ =>
    apply validate_config_Ok in H as (Hc & Hl & Hw & Hv) end.
  injection Hc as Hc. apply map_VInt_inj in Hc as ->.
  change (Z.shiftl 1 64) with (2 ^ 64) in *.
  eexists _, _, _. split_and!; try done; try lia. rewrite validate_agree, Hv by done. done.
Qed.

(** The words of a request up to the checksum, for either magic number. *)
Definition request_words (magic : Z) (c a b : list Z) (id : Z) : list Z :=
  [magic; 1; 40 + Z.of_nat (length (c ++ a ++ b)) * 4; Z.of_nat (length a); Z.of_nat (length b); 0;
   id mod 2 ^ 32; id / 2 ^ 32] ++ c ++ a ++ b.

Lemma request_body_words c a b id :
  request_body c a b id = pack_words (request_words REQUEST_MAGIC c a b id).
Proof. unfold request_body, request_words. rewrite le64_words, <- !pack_words_app. done. Qed.

Section request.
Context (magic : Z) (c a b : list Z) (id : Z).
Hypothesis Hmagic : magic = REQUEST_MAGIC \/ magic = BRIDGE_MAGIC.
Hypothesis (Hid : 0 < id < 2 ^ 64) (Hc : length c = 65%nat) (Hcw : Forall is_word c).
Hypothesis Hval : raveil_fold_validate c = true.
Hypothesis (Ha : Z.of_nat (length a) = cfg c 5) (Hb : Z.of_nat (length b) = cfg c 6).
Hypothesis (Haw : Forall is_word a) (Hbw : Forall is_word b).

Let header := [magic; 1; 40 + Z.of_nat (length (c ++ a ++ b)) * 4; Z.of_nat (length a);
  Z.of_nat (length b); 0; id mod 2 ^ 32; id / 2 ^ 32].
Let body := pack_words (request_words magic c a b id).
Let bytes := body ++ pack_words [crc32 body; REQUEST_END].

Lemma lengths_bound : 0 <= cfg c 5 <= 324 /\ 0 <= cfg c 6 <= 324.
Proof.
  unfold raveil_fold_validate in Hval. bool_prop.
  pose proof (scalar_bound c 5 Hc Hcw). pose proof (scalar_bound c 6 Hc Hcw). unfold is_word in *. lia.
Qed.

Lemma request_words_ok : Forall is_word (request_words magic c a b id).
Proof.
  pose proof lengths_bound. unfold request_words.
  apply Forall_app. split; [|by rewrite !Forall_app].
  rewrite !length_app. unfold is_word. rewrite MASK_eq.
  pose proof (Z.mod_pos_bound id (2 ^ 32)). pose proof (Z.div_mod id (2 ^ 32)).
  rewrite !Forall_cons. split_and!; try lia; try nia; [..|constructor].
  all: destruct Hmagic as [-> | ->]; vm_compute; done.
Qed.

Lemma length_request : Z.of_nat (length bytes) = 300 + 4 * (cfg c 5 + cfg c 6).
Proof.
  subst bytes body. rewrite length_app, !length_pack_words. unfold request_words.
  rewrite !length_app. cbn [length]. lia.
Qed.

Lemma wire_request_word i w :
  request_words magic c a b id !! i = Some w -> word bytes (4 * Z.of_nat i) = w.
Proof. intros H. apply word_pack; [apply request_words_ok|done]. Qed.

Lemma request_run pre ws post n off :
  request_words magic c a b id = pre ++ ws ++ post -> n = Z.of_nat (length ws) ->
  off = 4 * Z.of_nat (length pre) ->
  map (fun i => word bytes (off + 4 * i)) (zseq n) = ws.
Proof.
  intros Hs -> ->. subst bytes body. rewrite Hs, !pack_words_app, <- !app_assoc.
  replace (4 * Z.of_nat (length pre)) with (Z.of_nat (length (pack_words pre)))
    by (rewrite length_pack_words; lia).
  apply words_pack; [|done].
  pose proof request_words_ok as Hw. rewrite Hs in Hw. rewrite !Forall_app in Hw. apply Hw.
Qed.

(** The guest decodes the frame to the packed request. *)
Lemma decode_request : raveil_fold_decode bytes = Some (make_request id c a b).
Proof.
  pose proof lengths_bound as Hbound. pose proof length_request as Hlen.
  assert (Hbody : Z.of_nat (length bytes) - 8 = Z.of_nat (length body)).
  { subst bytes. rewrite length_app, length_pack_words. cbn [length]. lia. }
  assert (Htail : forall i w, [crc32 body; REQUEST_END] !! i = Some w ->
    word bytes (Z.of_nat (length body) + 4 * Z.of_nat i) = w).
  { intros i w Hi. subst bytes. rewrite word_app_r by lia.
    rewrite <- (app_nil_r (pack_words [_; _])). apply word_pack; [|done].
    apply Forall_cons. split; [apply crc32_word, pack_words_bytes|].
    apply Forall_singleton. vm_compute. done. }
  assert (Hhd : length header = 8%nat) by reflexivity.
  assert (Hcfg : map (fun i => word bytes (32 + 4 * i)) (zseq 65) = c).
  { apply (request_run header c (a ++ b)); [reflexivity|lia|by rewrite Hhd]. }
  assert (Hbufa : map (fun i => word bytes (292 + 4 * i)) (zseq (cfg c 5)) = a).
  { apply (request_run (header ++ c) a b); [|done|by rewrite length_app, Hhd, Hc].
    unfold request_words. by rewrite <- app_assoc. }
  assert (Hbufb : map (fun i => word bytes (292 + 4 * (cfg c 5 + i))) (zseq (cfg c 6)) = b).
  { erewrite map_ext; [apply (request_run (header ++ c ++ a) b [] (cfg c 6) (292 + 4 * cfg c 5)); [|done|]|].
    - unfold request_words. by rewrite app_nil_r, <- !app_assoc.
    - rewrite !length_app, Hc, Hhd. lia.
    - intros i. cbn beta. f_equal. lia. }
  unfold raveil_fold_decode.
  assert (Hw : forall i w, request_words magic c a b id !! i = Some w ->
    forall k, k = 4 * Z.of_nat i -> word bytes k = w).
  { intros i w Hi k ->. by apply wire_request_word. }
  rewrite (Hw 0%nat magic), (Hw 1%nat 1), (Hw 2%nat (40 + Z.of_nat (length (c ++ a ++ b)) * 4)),
    (Hw 3%nat (Z.of_nat (length a))), (Hw 4%nat (Z.of_nat (length b))), (Hw 5%nat 0) by reflexivity.
  assert (Hsz : Z.of_nat (length bytes) - 4 = Z.of_nat (length body) + 4 * Z.of_nat 1) by lia.
  assert (Hcrc : word bytes (Z.of_nat (length body)) = crc32 body).
  { rewrite <- (Htail 0%nat (crc32 body) eq_refl). by rewrite Z.add_0_r. }
  rewrite Hsz, (Htail 1%nat REQUEST_END) by reflexivity. rewrite Hbody, Hcrc, Nat2Z.id.
  assert (Htake : take (length body) bytes = body) by apply take_app_length.
  assert (Hid64 : word64 bytes 24 = id).
  { subst bytes body. change (request_words magic c a b id) with
      (take 6 header ++ [id mod 2 ^ 32; id / 2 ^ 32] ++ c ++ a ++ b).
    rewrite !pack_words_app, <- le64_words, <- !app_assoc.
    change 24 with (Z.of_nat (length (pack_words (take 6 header)))). apply word64_le64. lia. }
  rewrite Htake, Hid64, Hcfg, Hbufa, Hbufb, Hval, Ha, Hb, !length_app, Hlen, Hc.
  rewrite !Z.eqb_refl, (proj2 (Z.eqb_neq id 0)) by lia.
  rewrite !(proj2 (Z.ltb_ge _ _)) by lia.
  assert (Hsize : (40 + Z.of_nat (65 + (length a + length b)) * 4 =? 300 + 4 * (cfg c 5 + cfg c 6)) = true).
  { apply Z.eqb_eq. rewrite !Nat2Z.inj_add, Ha, Hb. lia. }
  rewrite Hsize.
  destruct Hmagic as [-> | ->]; reflexivity.
Qed.
End request.

Lemma request_bytes_Ok c inputs rid bytes :
  request_bytes c inputs rid = Ok bytes ->
  exists id a b, rid = VInt id /\ inputs = VList [words_val a; words_val b] /\ 0 < id < 2 ^ 64 /\
    length c = 65%nat /\ Forall is_word c /\ raveil_fold_validate c = true /\
    Z.of_nat (length a) = cfg c 5 /\ Z.of_nat (length b) = cfg c 6 /\
    Forall is_word a /\ Forall is_word b /\
    bytes = pack_words (request_words BRIDGE_MAGIC c a b id) ++
      pack_words [crc32 (pack_words (request_words BRIDGE_MAGIC c a b id)); REQUEST_END].
Proof.
  unfold request_bytes. intros H. destruct (encode c inputs rid) as [frame|] eqn:E; [|discriminate H].
  cbn beta iota delta [bind] in H.
  match type of H with Ok ?x = _ => assert (Hx : x = bytes) by congruence; clear H; subst bytes end.
  apply encode_Ok in E as (id & la & lb & -> & -> & ? & ? & ? & ? & ? & ? & ? & ? & ->).
  exists id, la, lb. split_and!; try done; try lia. rewrite request_body_words.
  set (body := pack_words (request_words REQUEST_MAGIC c la lb id)).
  assert (Hinto : forall t, pack_into (body ++ t) 0 BRIDGE_MAGIC =
    pack_words (request_words BRIDGE_MAGIC c la lb id) ++ t) by reflexivity.
  rewrite Hinto.
  set (body' := pack_words (request_words BRIDGE_MAGIC c la lb id)).
  assert (Hl : forall x, (length (body' ++ pack_words [x; REQUEST_END]) - 8 = length body')%nat).
  { intros x. rewrite length_app, length_pack_words. cbn [length]. lia. }
  rewrite Hl, take_app_length. unfold pack_into. rewrite take_app_length, <- drop_drop, drop_app_length.
  reflexivity.
Qed.

(** The guest decodes every request the host sends, with or without the bridge
    framing, to the packed identity, configuration and buffers. *)
Theorem request_decode c a b id bytes :
  encode c (VList [words_val a; words_val b]) (VInt id) = Ok bytes \/
  request_bytes c (VList [words_val a; words_val b]) (VInt id) = Ok bytes ->
  raveil_fold_decode bytes = Some (make_request id c a b).
Proof.
  intros [H|H].
  - apply encode_Ok in H as (id' & a' & b' & [= <-] & Hin & ? & ? & ? & ? & ? & ? & ? & ? & ->).
    injection Hin as Ha Hb. apply map_VInt_inj in Ha as ->. apply map_VInt_inj in Hb as ->.
    rewrite request_body_words. apply decode_request; auto.
  - apply request_bytes_Ok in H as (id' & a' & b' & [= <-] & Hin & ? & ? & ? & ? & ? & ? & ? & ? & ->).
    injection Hin as Ha Hb. apply map_VInt_inj in Ha as ->. apply map_VInt_inj in Hb as ->.
    apply decode_request; auto.
Qed.

Definition config_example : list Z := match compile_region region_example with Ok c => c | Err _ => [] end.

Lemma request_decode_witness :
  exists bytes, request_bytes config_example (VList [words_val [1; 2; 3; 4]; words_val [5; 6; 7; 8]]) (VInt 9) = Ok bytes /\
    raveil_fold_decode bytes = Some (make_request 9 config_example [1; 2; 3; 4] [5; 6; 7; 8]).
Proof.
  destruct (request_bytes config_example (VList [words_val [1; 2; 3; 4]; words_val [5; 6; 7; 8]]) (VInt 9))
    as [bytes|] eqn:E; [|vm_compute in E; discriminate E].
  exists bytes. split; [reflexivity|]. exact (request_decode _ _ _ _ bytes (or_intror E)).
Defined.

(** ** Responses *)

(** The fields of a binding as a dispatch line gives them. *)
Record binding_ok (bd : binding) (cookie : list Z) : Prop := {
  bk_id : 0 <= bd_request_id bd < 2 ^ 64;
  bk_epoch : 0 <= bd_epoch bd < 2 ^ 64;
  bk_sequence : 0 <= bd_sequence bd < 2 ^ 64;
  bk_cookie : fromhex (bd_cookie bd) = Some cookie;
  bk_length : length cookie = 16%nat;
  bk_bytes : Forall is_byte cookie;
  bk_count : 1 <= bd_count bd <= 256;
}.

Section response.
Context (bd : binding) (cookie output : list Z) (status : Z).
Hypothesis (Hbd : binding_ok bd cookie) (Hs : is_word status).
Hypothesis (Hn : Z.of_nat (length output) = bd_count bd) (How : Forall is_word output).

Let body := response_body bd cookie output status.

Lemma response_bytes_eq : response_bytes bd output status = Ok (body ++ pack_words [crc32 body]).
Proof. unfold response_bytes. rewrite Hn, Z.eqb_refl. cbn [negb]. by rewrite (bk_cookie _ _ Hbd). Qed.

Lemma length_response_body : Z.of_nat (length body) = 56 + 4 * bd_count bd.
Proof.
  subst body. unfold response_body. rewrite !length_app, !length_pack_words, !le64_words, !length_pack_words.
  rewrite (bk_length _ _ Hbd). cbn [length]. lia.
Qed.

Lemma response_body_bytes : Forall is_byte body.
Proof.
  subst body. unfold response_body. rewrite !Forall_app, !le64_words.
  split_and!; try apply pack_words_bytes. by destruct Hbd.
Qed.

(** What the decoder reads in a frame with any checksum field. *)
Lemma response_fields t :
  let p := body ++ t in
  word p 0 = RESPONSE_MAGIC /\ word p 4 = 1 /\ word64 p 8 = bd_request_id bd /\
  word64 p 16 = bd_epoch bd /\ word64 p 24 = bd_sequence bd /\
  word p 48 = bd_count bd /\ word p 52 = status /\
  forallb (fun i => byte_at p (32 + i) =? byte_at cookie i) (zseq 16) = true /\
  map (fun i => word p (56 + 4 * i)) (zseq (bd_count bd)) = output.
Proof.
  destruct Hbd as [Hid Hep Hseq Hck Hlen Hbytes Hcount]. intros p. subst p body. unfold response_body.
  assert (Hc : is_word (bd_count bd)) by (unfold is_word; rewrite MASK_eq; lia).
  assert (Hm : Forall is_word [RESPONSE_MAGIC; 1]).
  { apply Forall_cons; split; [by vm_compute|]. apply Forall_singleton. by vm_compute. }
  rewrite <- !app_assoc.
  set (h0 := pack_words [RESPONSE_MAGIC; 1]). set (i0 := le64 (bd_request_id bd)).
  set (e0 := le64 (bd_epoch bd)). set (s0 := le64 (bd_sequence bd)).
  assert (Hl0 : length h0 = 8%nat) by done. assert (Hl1 : length i0 = 8%nat) by done.
  assert (Hl2 : length e0 = 8%nat) by done. assert (Hl3 : length s0 = 8%nat) by done.
  split_and!.
  - apply (word_pack [RESPONSE_MAGIC; 1] _ 0); done.
  - apply (word_pack [RESPONSE_MAGIC; 1] _ 1); done.
  - change 8 with (Z.of_nat (length h0)). apply word64_le64. lia.
  - rewrite app_assoc. change 16 with (Z.of_nat (length (h0 ++ i0))). apply word64_le64. lia.
  - rewrite (app_assoc h0), (app_assoc (h0 ++ i0)).
    change 24 with (Z.of_nat (length ((h0 ++ i0) ++ e0))). apply word64_le64. lia.
  - rewrite (app_assoc h0), (app_assoc (h0 ++ i0)), (app_assoc _ s0), (app_assoc _ cookie).
    replace 48 with (Z.of_nat (length ((((h0 ++ i0) ++ e0) ++ s0) ++ cookie)) + 4 * Z.of_nat 0)
      by (rewrite !length_app; lia).
    rewrite word_app_r by lia. apply word_pack; [|done]. apply Forall_cons. split; [done|by apply Forall_singleton].
  - rewrite (app_assoc h0), (app_assoc (h0 ++ i0)), (app_assoc _ s0), (app_assoc _ cookie).
    replace 52 with (Z.of_nat (length ((((h0 ++ i0) ++ e0) ++ s0) ++ cookie)) + 4 * Z.of_nat 1)
      by (rewrite !length_app; lia).
    rewrite word_app_r by lia. apply word_pack; [|done]. apply Forall_cons. split; [done|by apply Forall_singleton].
  - apply forallb_forall. intros i Hi%list_elem_of_In%elem_of_zseq.
    rewrite (app_assoc h0), (app_assoc (h0 ++ i0)), (app_assoc _ s0).
    replace (32 + i) with (Z.of_nat (length (((h0 ++ i0) ++ e0) ++ s0)) + i) by (rewrite !length_app; lia).
    rewrite byte_at_app_r, byte_at_app_l by lia. apply Z.eqb_refl.
  - rewrite (app_assoc h0), (app_assoc (h0 ++ i0)), (app_assoc _ s0), (app_assoc _ cookie),
      (app_assoc _ (pack_words [_; _])).
    match goal with |- context [word (?p ++ pack_words output ++ t) _] => set (pre := p) end.
    replace 56 with (Z.of_nat (length pre)).
    2: { subst pre. rewrite !length_app, Hlen, Hl0, Hl1, Hl2, Hl3, length_pack_words. cbn [length]. lia. }
    by apply words_pack.
Qed.

(** A frame with the checksum [crc] decodes to the output words exactly when the
    identity and the checksum are right and the status is zero. *)
Lemma response_decode id epoch sequence crc :
  is_word crc ->
  raveil_fold_response_decode (body ++ pack_words [crc]) id epoch sequence cookie (bd_count bd) =
    if (status =? 0) && (crc =? crc32 body) && (bd_request_id bd =? id) && (bd_epoch bd =? epoch) &&
       (bd_sequence bd =? sequence)
    then Some output else None.
Proof.
  intros Hcrc. destruct (response_fields (pack_words [crc])) as (H0 & H4 & H8 & H16 & H24 & H48 & H52 & Hck & Hout).
  pose proof length_response_body as Hl. pose proof (bk_count _ _ Hbd).
  unfold raveil_fold_response_decode.
  assert (Hlen : Z.of_nat (length (body ++ pack_words [crc])) = 60 + 4 * bd_count bd).
  { rewrite length_app, length_pack_words. cbn [length]. lia. }
  rewrite Hlen, H0, H4, H8, H16, H24, H48, H52, Hck, Hout, !Z.eqb_refl.
  replace (60 + 4 * bd_count bd - 4) with (Z.of_nat (length body) + 4 * Z.of_nat 0) by lia.
  rewrite word_app_r by lia. rewrite <- (app_nil_r (pack_words [crc])).
  erewrite word_pack; [|by apply Forall_singleton|done].
  replace (Z.to_nat (Z.of_nat (length body) + 4 * Z.of_nat 0)) with (length body) by lia.
  rewrite app_nil_r, take_app_length.
  rewrite (proj2 (Z.ltb_ge _ _)), (proj2 (Z.ltb_ge 256 _)) by lia.
  by repeat match goal with |- context [?x =? ?y] => destruct (x =? y) end.
Qed.
End response.

(** ** Injections *)

Lemma le32_of_bytes b0 b1 b2 b3 :
  is_byte b0 -> is_byte b1 -> is_byte b2 -> is_byte b3 ->
  [b0; b1; b2; b3] = le32 (b0 + 256 * b1 + 65536 * b2 + 16777216 * b3).
Proof. unfold is_byte. intros. unfold le32. repeat f_equal; dlia. Qed.

Lemma lxor_1_ne x : Z.lxor x 1 <> x.
Proof.
  intros H. assert (Z.testbit (Z.lxor x 1) 0 = Z.testbit x 0) as Hb by (by rewrite H).
  rewrite Z.lxor_spec in Hb. change (Z.testbit 1 0) with true in Hb. by destruct (Z.testbit x 0).
Qed.

Lemma lxor_1_word x : is_word x -> is_word (Z.lxor x 1).
Proof.
  unfold is_word. rewrite MASK_eq. intros Hx.
  assert (0 <= Z.lxor x 1 < 2 ^ 32) by (apply lxor_range; lia). lia.
Qed.

Lemma flip_last_app l x : flip_last (l ++ [x]) = Ok (l ++ [Z.lxor x 1]).
Proof.
  unfold flip_last, py_index. rewrite length_app. cbn [length].
  rewrite bool_decide_false by lia. rewrite bool_decide_true by lia.
  replace (Z.to_nat (Z.of_nat (length l + 1) + -1)) with (length l) by lia.
  rewrite list_lookup_middle by done. cbn.
  replace (length l + 1 - 1)%nat with (length l) by lia. by rewrite take_app_length.
Qed.

(** Flipping the last byte of a frame flips a bit of its checksum. *)
Lemma flip_checksum body crc :
  is_word crc -> exists crc', is_word crc' /\ crc' <> crc /\
    flip_last (body ++ le32 crc) = Ok (body ++ pack_words [crc']).
Proof.
  intros Hc. unfold le32.
  set (b0 := crc mod 256). set (b1 := (crc / 256) mod 256). set (b2 := (crc / 65536) mod 256).
  set (b3 := (crc / 16777216) mod 256).
  assert (H3 : 0 <= Z.lxor b3 1 < 256).
  { apply (lxor_range _ _ 8); [done| |done]. apply Z.mod_pos_bound. lia. }
  pose proof (lxor_1_ne b3) as Hne.
  assert (is_byte b0 /\ is_byte b1 /\ is_byte b2) as (Hb0 & Hb1 & Hb2).
  { unfold is_byte. split_and!; apply Z.mod_pos_bound; lia. }
  exists (b0 + 256 * b1 + 65536 * b2 + 16777216 * Z.lxor b3 1).
  assert (Hcrc : crc = b0 + 256 * b1 + 65536 * b2 + 16777216 * b3).
  { unfold b0, b1, b2, b3, is_word in *. rewrite MASK_eq in Hc. change (2 ^ 32) with 4294967296 in Hc. dlia. }
  split_and!.
  - unfold is_word, is_byte in *. rewrite MASK_eq. change (2 ^ 32) with 4294967296. lia.
  - lia.
  - change [b0; b1; b2; b3] with ([b0; b1; b2] ++ [b3]). rewrite app_assoc, flip_last_app, <- app_assoc.
    cbn [app]. unfold pack_words. cbn [map concat]. by rewrite app_nil_r, <- le32_of_bytes.
Qed.

Lemma hex_val_digit n : 0 <= n < 16 -> hex_val (hex_digit n) = Some n.
Proof.
  intros Hn.
  assert (H : forallb (fun n => bool_decide (hex_val (hex_digit n) = Some n)) (zseq 16) = true)
    by (vm_compute; reflexivity).
  rewrite forallb_forall in H. eapply bool_decide_eq_true, H. by apply list_elem_of_In, elem_of_zseq.
Qed.

Lemma fromhex_tohex l : Forall is_byte l -> fromhex (tohex l) = Some l.
Proof.
  induction 1 as [|b l Hb _ IH]; [done|]. cbn [tohex fromhex]. unfold is_byte in Hb.
  rewrite !hex_val_digit by dlia. rewrite IH. do 2 f_equal. dlia.
Qed.

Lemma fromhex_odd s : Nat.Odd (String.length s) -> fromhex s = None.
Proof.
  enough (H : forall n s, (String.length s <= n)%nat -> Nat.Odd (String.length s) -> fromhex s = None)
    by eauto.
  intros n. induction n as [|n IH]; intros [|x [|y r]] Hn [k Hk]; cbn in Hn, Hk; try lia; [done|].
  cbn [fromhex]. rewrite (IH r); [by repeat case_match|lia|]. exists (k - 1)%nat. lia.
Qed.

Lemma length_tohex l : String.length (tohex l) = (2 * length l)%nat.
Proof. induction l as [|b l IH]; [done|]. cbn [tohex String.length]. rewrite IH. cbn [length]. lia. Qed.

Lemma length_substring n s : (n <= String.length s)%nat -> String.length (String.substring 0 n s) = n.
Proof.
  revert n. induction s as [|c s IH]; intros [|n] H; cbn in *; try lia; try done. by rewrite IH by lia.
Qed.

(** The guest's reading of a reply: an honest reply gives the device's words,
    and of the corrupted replies only the flipped output word goes through to the
    comparison with the guest's own evaluation. The characters on the wire spell
    the reply exactly when the injection leaves the framing alone. *)
Definition verdict (injection : string) (output : list Z) : option (list Z) :=
  if bool_decide (injection ∈ ["stale-id"; "bad-crc"; "fault"; "rtl-fault"]) then None
  else if String.eqb injection "wrong-word" then
    match flip_last output with Ok o => Some o | Err _ => None end
  else Some output.

Lemma stale_binding_ok bd cookie :
  binding_ok bd cookie ->
  binding_ok (Binding (Z.lxor (bd_request_id bd) 1) (bd_epoch bd) (bd_sequence bd) (bd_cookie bd) (bd_count bd)) cookie.
Proof. intros []. split; cbn; try done. by apply lxor_range. Qed.

Lemma word_small w : 0 <= w < 256 -> is_word w.
Proof. unfold is_word. rewrite MASK_eq. lia. Qed.

Ltac take_reply H :=
  cbn beta iota zeta delta [bind] in H;
  match type of H with Ok (?x, _) = Ok (?reply, _) =>
    let Hr := fresh in assert (Hr : x = reply) by congruence; clear H; subst reply end.

(** The frame an injection sends: its identity, words, status and checksum. *)
Lemma injected_frame bd cookie output injection reply wire :
  binding_ok bd cookie -> Z.of_nat (length output) = bd_count bd -> Forall is_word output ->
  injection ∈ BRIDGE_INJECTIONS -> injected_response bd output injection = Ok (reply, wire) ->
  raveil_fold_response_decode reply (bd_request_id bd) (bd_epoch bd) (bd_sequence bd) cookie (bd_count bd) =
    verdict injection output /\ Forall is_byte reply.
Proof.
  intros Hbd Hn Ho Hin H. pose proof (stale_binding_ok _ _ Hbd) as Hbd'.
  assert (H0 : is_word 0) by (by apply word_small). assert (H1 : is_word 1) by (by apply word_small).
  assert (Hbytes : forall bd output status crc, binding_ok bd cookie ->
    Forall is_byte (response_body bd cookie output status ++ pack_words [crc])).
  { intros. apply Forall_app. split; [by apply response_body_bytes|apply pack_words_bytes]. }
  assert (Hcrc : forall bd output status, binding_ok bd cookie ->
    is_word (crc32 (response_body bd cookie output status))).
  { intros. by apply crc32_word, response_body_bytes. }
  unfold BRIDGE_INJECTIONS in Hin. rewrite !elem_of_cons, elem_of_nil in Hin.
  unfold injected_response in H.
  destruct Hin as [->|[->|[->|[->|[->|[->|[->|[->|[->|[]]]]]]]]]]; cbn [String.eqb Ascii.eqb Bool.eqb orb bind] in H.
  2: { destruct output as [|x l _] using rev_ind; [cbn in Hn; pose proof (bk_count _ _ Hbd); lia|].
       rewrite flip_last_app in H. cbn [bind] in H.
       apply Forall_app in Ho as [Hl Hx]. rewrite Forall_singleton in Hx.
       assert (Ho' : Forall is_word (l ++ [Z.lxor x 1])).
       { apply Forall_app. split; [done|]. apply Forall_singleton. by apply lxor_1_word. }
       rewrite length_app in Hn. cbn [length] in Hn.
       assert (Hn' : Z.of_nat (length (l ++ [Z.lxor x 1])) = bd_count bd) by (rewrite length_app; cbn [length]; lia).
       rewrite (response_bytes_eq _ cookie) in H by done.
       take_reply H. split; [|by apply Hbytes].
       rewrite response_decode by auto.
       rewrite !Z.eqb_refl. unfold verdict. rewrite flip_last_app. reflexivity. }
  3: { rewrite (response_bytes_eq _ cookie) in H by done. cbn [bind] in H.
       unfold pack_words in H. cbn [map concat] in H. rewrite app_nil_r in H.
       destruct (flip_checksum (response_body bd cookie output 0) (crc32 (response_body bd cookie output 0)))
         as (crc' & Hc' & Hne & Hflip); [by apply Hcrc|].
       rewrite Hflip in H. cbn [bind] in H. take_reply H. split; [|by apply Hbytes].
       rewrite response_decode by auto. rewrite (proj2 (Z.eqb_neq _ _) Hne), andb_false_r. reflexivity. }
  all: rewrite (response_bytes_eq _ cookie) in H by done; cbn [bind] in H; take_reply H.
  all: split; [|by apply Hbytes].
  2: { rewrite (response_decode _ _ _ _ Hbd' H0 Hn Ho _ _ _ _ (Hcrc _ _ _ Hbd')). cbn [bd_request_id].
       rewrite (proj2 (Z.eqb_neq _ _) (lxor_1_ne _)), !andb_false_r. reflexivity. }
  all: rewrite response_decode by auto; rewrite ?Z.eqb_refl; reflexivity.
Qed.

(** The characters an injection puts on the wire. *)
Lemma injected_wire bd output injection reply wire :
  injected_response bd output injection = Ok (reply, wire) ->
  wire = if String.eqb injection "truncated"
         then String.substring 0 (String.length (tohex reply) - 1) (tohex reply)
         else if String.eqb injection "no-response" then ""
         else if String.eqb injection "invalid-char" then "!" else tohex reply.
Proof.
  unfold injected_response. intros H.
  destruct (if String.eqb injection "wrong-word" then _ else _) as [o|]; [|discriminate H].
  cbn beta iota zeta delta [bind] in H.
  destruct (response_bytes _ _ _) as [r|]; [|discriminate H]. cbn beta iota zeta delta [bind] in H.
  destruct (if String.eqb injection "bad-crc" then _ else _) as [r'|]; [|discriminate H].
  cbn beta iota zeta delta [bind] in H. injection H as <- <-.
  destruct (String.eqb_spec injection "truncated") as [->|]; [done|].
  by destruct (String.eqb injection "no-response").
Qed.


Lemma injected_reply_nonempty bd output injection reply wire :
  injected_response bd output injection = Ok (reply, wire) -> reply <> [].
Proof.
  unfold injected_response. intros H.
  destruct (if String.eqb injection "wrong-word" then _ else _) as [o|]; [|discriminate H].
  cbn beta iota zeta delta [bind] in H.
  destruct (response_bytes _ _ _) as [r|] eqn:Er; [|discriminate H].
  cbn beta iota zeta delta [bind] in H.
  assert (Hr : (44 <= length r)%nat).
  { unfold response_bytes in Er. destruct (negb _); [discriminate Er|].
    destruct (fromhex _) as [cookie|]; [|discriminate Er].
    cbn beta iota zeta delta [bind from_option_err] in Er.
    match type of Er with Ok ?x = _ => assert (Hx : x = r) by congruence; rewrite <- Hx end.
    unfold response_body. rewrite !length_app, !length_pack_words.
    rewrite !le64_words, !length_pack_words. cbn [length]. lia. }
  destruct (if String.eqb injection "bad-crc" then _ else _) as [r'|] eqn:Ef; [|discriminate H].
  cbn beta iota zeta delta [bind] in H. injection H as <- _.
  destruct (String.eqb injection "bad-crc"); [|injection Ef as <-; intros ->; cbn in Hr; lia].
  unfold flip_last in Ef. res_inv. intros Hnil%(f_equal length). rewrite length_app in Hnil. cbn in Hnil. lia.
Qed.

(** C39. The guest's reading of a reply under each injection: an honest reply gives
    the device's words, a stale identity, a broken checksum or a fault status
    gives none, and a flipped output word is left to the comparison with the
    guest's own evaluation. The wire spells the reply exactly when the injection
    keeps the framing. *)
Theorem injected_response_verdict bd cookie output injection reply wire :
  binding_ok bd cookie -> Z.of_nat (length output) = bd_count bd -> Forall is_word output ->
  injection ∈ BRIDGE_INJECTIONS -> injected_response bd output injection = Ok (reply, wire) ->
  raveil_fold_response_decode reply (bd_request_id bd) (bd_epoch bd) (bd_sequence bd) cookie (bd_count bd) =
    verdict injection output /\
  (fromhex wire = Some reply <-> injection ∉ BROKEN_FRAME).
Proof.
  intros Hbd Hn Ho Hin H. destruct (injected_frame _ _ _ _ _ _ Hbd Hn Ho Hin H) as [Hv Hb].
  split; [done|]. pose proof (injected_reply_nonempty _ _ _ _ _ H) as Hne.
  apply injected_wire in H as ->. pose proof (length_tohex reply) as Hl.
  unfold BROKEN_FRAME. rewrite !not_elem_of_cons.
  destruct (String.eqb_spec injection "truncated") as [->|Ht].
  { rewrite fromhex_odd; [by split; [|intros (_ & _ & ? & _)]|].
    destruct reply as [|b reply]; [done|]. rewrite length_substring by lia.
    exists (length reply). rewrite Hl. cbn [length]. lia. }
  destruct (String.eqb_spec injection "no-response") as [->|Hr].
  { split; [by intros [= <-]|by intros (_ & ? & _)]. }
  destruct (String.eqb_spec injection "invalid-char") as [->|Hc].
  { split; [done|by intros (? & _)]. }
  rewrite fromhex_tohex by done. split; [|done]. intros _. split_and!; try done. apply not_elem_of_nil.
Qed.

Definition binding_example : binding :=
  Binding 9 5 1 "000102030405060708090a0b0c0d0e0f" 4.

Lemma injected_response_verdict_witness :
  exists reply wire,
    injected_response binding_example [19; 22; 43; 50] "bad-crc" = Ok (reply, wire) /\
    raveil_fold_response_decode reply 9 5 1 [0; 1; 2; 3; 4; 5; 6; 7; 8; 9; 10; 11; 12; 13; 14; 15] 4 = None.
Proof.
  destruct (injected_response binding_example [19; 22; 43; 50] "bad-crc") as [[reply wire]|] eqn:E;
    [|vm_compute in E; discriminate E].
  exists reply, wire. split; [reflexivity|].
  refine (proj1 (injected_response_verdict binding_example [0; 1; 2; 3; 4; 5; 6; 7; 8; 9; 10; 11; 12; 13; 14; 15]
    [19; 22; 43; 50] "bad-crc" reply wire _ eq_refl _ _ E)).
  - split; vm_compute; try done. repeat constructor; done.
  - repeat constructor; vm_compute; discriminate.
  - apply (bool_decide_eq_true_1 ("bad-crc"%string ∈ BRIDGE_INJECTIONS)). vm_compute. reflexivity.
Defined.
