(* ===== verification/FoldLines.v ===== *)
(** * Lines on the serial console

    The guest prints a dispatch line for every job it issues
    ([sonatine/src/fold_bridge.c]) and a result line at the end
    ([sonatine/src/fold_backend.c]); the host reads them back
    ([raveil/fold_bridge.py] [dispatch] and [validate_transcript],
    [raveil/sonatine_fold.py] [parse]). Text is a string of code points below
    256. *)

From S2P Require Import Prelude PyValue Json AffineFold FoldMachine FoldWire.
From Stdlib Require Import Ascii.

(** ** Numbers in lines *)

(** [hex(v, digits)] of the guest: exactly [digits] digits. *)
Fixpoint hex_digits (digits : nat) (v : Z) (rest : string) : string :=
  match digits with
  | O => rest
  | S n => hex_digits n (v / 16) (String (hex_digit (v mod 16)) rest)
  end.
Definition hex_fixed (digits : nat) (v : Z) : string := hex_digits digits v "".

(** [f"{v:0nx}"] of a value that is not negative *)
Definition format_hex (width : nat) (v : Z) : string :=
  hex_fixed (Nat.max width (Z.to_nat (Z.log2 v / 4 + 1))) v.

(** [[0-9a-f]] *)
Definition is_hex (c : ascii) : bool :=
  let n := code c in ((48 <=? n) && (n <=? 57)) || ((97 <=? n) && (n <=? 102)).

(** [[0-9a-f]{n}] *)
Fixpoint take_hex (n : nat) (s : string) : option (string * string) :=
  match n, s with
  | O, _ => Some ("", s)
  | S n, String c r =>
      if is_hex c then
        match take_hex n r with Some (h, rest) => Some (String c h, rest) | None => None end
      else None
  | _, _ => None
  end.

(** [[0-9a-f]+], as far as it goes *)
Fixpoint span_hex (s : string) : string * string :=
  match s with
  | String c r => if is_hex c then let '(h, rest) := span_hex r in (String c h, rest) else ("", s)
  | "" => ("", "")
  end.

(** [int(s, 16)] *)
Fixpoint hex_value (acc : Z) (s : string) : Z :=
  match s with
  | String c r => hex_value (16 * acc + default 0 (hex_val c)) r
  | "" => acc
  end.

(** [int(digits)] of a non-empty run *)
Definition take_dec (s : string) : option (Z * string) :=
  let '(n, ds, rest) := span_digits 0 s in
  if String.eqb ds "" then None else Some (n, rest).

Notation "'opt*' x ':=' m 'in' k" := (match m with Some x => k | None => None end)
  (at level 10, x pattern, m at level 100, k at level 200).

(** ** Dispatch lines *)

(** What the regular expression of [dispatch] captures. *)
Definition dispatch_groups (line : string) : option (string * string * string * string * Z * string) :=
  opt* r := strip_prefix "RAVEIL-FOLD-DISPATCH-V1 request=" line in
  opt* (rid, r) := take_hex 16 r in
  opt* r := strip_prefix " epoch=" r in
  opt* (epoch, r) := take_hex 16 r in
  opt* r := strip_prefix " sequence=" r in
  opt* (sequence, r) := take_hex 16 r in
  opt* r := strip_prefix " cookie=" r in
  opt* (cookie, r) := take_hex 32 r in
  opt* r := strip_prefix " count=" r in
  opt* (n, r) := take_dec r in
  opt* r := strip_prefix " envelope=" r in
  let '(envelope, rest) := span_hex r in
  if String.eqb envelope "" || negb (String.eqb rest "") then None
  else Some (rid, epoch, sequence, cookie, n, envelope).

(** [fold_bridge.dispatch] *)
Definition dispatch (line : string) (request : list Z) (request_id count expected_epoch expected_sequence : Z)
    : res binding :=
  match dispatch_groups line with
  | None => fail "malformed dispatch"
  | Some (rid, epoch, sequence, cookie, n, envelope) =>
      raise_if negb (hex_value 0 rid =? request_id) || negb (hex_value 0 epoch =? expected_epoch) ||
               negb (hex_value 0 sequence =? expected_sequence) || (hex_value 0 cookie =? 0) ||
               negb (n =? count)
      with "dispatch does not match admitted boot request" in
      match fromhex envelope with
      | None => fail "non-hexadecimal number found in fromhex()"
      | Some bytes =>
          raise_if negb (bool_decide (bytes = request))
          with "dispatch does not match admitted boot request" in
          Ok (Binding request_id (hex_value 0 epoch) (hex_value 0 sequence) cookie count)
      end
  end.

(** The line [fold_bridge_exchange_checked] prints. *)
Definition dispatch_line (request_id epoch sequence : Z) (cookie : list Z) (count : Z) (envelope : list Z) : string :=
  "RAVEIL-FOLD-DISPATCH-V1 request=" +:+ hex_fixed 16 request_id +:+ " epoch=" +:+ hex_fixed 16 epoch +:+
  " sequence=" +:+ hex_fixed 16 sequence +:+ " cookie=" +:+ tohex cookie +:+ " count=" +:+ pretty count +:+
  " envelope=" +:+ tohex envelope.

(** ** Result lines *)

(** [str.splitlines] *)
Definition is_break (c : ascii) : bool :=
  let n := code c in
  ((10 <=? n) && (n <=? 13)) || ((28 <=? n) && (n <=? 30)) || (n =? 133).
Fixpoint splitlines_go (cur : string) (s : string) : list string :=
  match s with
  | "" => if String.eqb cur "" then [] else [cur]
  | String c r =>
      if is_break c then
        cur :: match r with
               | String d r' => if (code c =? 13) && (code d =? 10) then splitlines_go "" r'
                                else splitlines_go "" r
               | "" => []
               end
      else splitlines_go (cur +:+ String c "") r
  end.
Definition splitlines (s : string) : list string := splitlines_go "" s.

Record result_groups := ResultGroups {
  rg_rid : string; rg_status : Z; rg_approved : Z; rg_epoch : Z; rg_seq : Z; rg_cookie : string;
  rg_chunks : Z; rg_version : Z; rg_count : Z; rg_values : string;
}.

(** One character out of a set, as a digit. *)
Definition take_one (set : list Z) (s : string) : option (Z * string) :=
  match s with
  | String c r => if bool_decide (digit_val c ∈ set) then Some (digit_val c, r) else None
  | "" => None
  end.

(** What the regular expression of [parse] captures. *)
Definition parse_groups (line : string) : option result_groups :=
  opt* r := strip_prefix "RAVEIL-FOLD-RESULT-V1 request=" line in
  opt* (rid, r) := take_hex 16 r in
  opt* r := strip_prefix " status=" r in
  opt* (status, r) := take_one [1; 2; 4; 3] r in
  opt* r := strip_prefix " approved=" r in
  opt* (approved, r) := take_one [0; 1] r in
  opt* r := strip_prefix " epoch=" r in
  opt* (epoch, r) := take_dec r in
  opt* r := strip_prefix " sequence=" r in
  opt* (seq, r) := take_dec r in
  opt* r := strip_prefix " cookie=" r in
  opt* (cookie, r) := take_hex 32 r in
  opt* r := strip_prefix " chunks=" r in
  opt* (chunks, r) := take_one [0; 1; 2] r in
  opt* r := strip_prefix " version=" r in
  opt* (version, r) := take_one [0; 2] r in
  opt* r := strip_prefix " count=" r in
  opt* (n, r) := take_dec r in
  opt* r := strip_prefix " output=" r in
  let '(values, rest) := span_hex r in
  let groups v := Some (ResultGroups rid status approved epoch seq cookie chunks version n v) in
  if String.eqb r "-" then groups "-"
  else if String.eqb values "" || negb (String.eqb rest "") then None
  else groups values.

Record fold_result := FoldResult {
  fr_status : Z; fr_approved : bool; fr_epoch : Z; fr_sequence : Z; fr_cookie : string;
  fr_chunks : Z; fr_version : Z; fr_output : list Z;
}.

(** [[int(values[i:i+8], 16) for i in range(0, len(values), 8)]] *)
Fixpoint hex_words (fuel : nat) (s : string) : list Z :=
  match fuel with
  | O => []
  | S fuel =>
      if String.eqb s "" then []
      else hex_value 0 (String.substring 0 8 s) ::
           hex_words fuel (String.substring 8 (String.length s - 8) s)
  end.

(** [sonatine_fold.parse] *)
Definition parse (stdout : string) (request_id count : Z) : res fold_result :=
  match List.filter (String.prefix "RAVEIL-FOLD-RESULT") (splitlines stdout) with
  | [line] =>
      match parse_groups line with
      | None => fail "malformed fold result"
      | Some g =>
          raise_if negb (hex_value 0 (rg_rid g) =? request_id) with "stale fold result" in
          let success := (rg_status g =? 1) && (rg_approved g =? 1) in
          let result output :=
            FoldResult (rg_status g) success (rg_epoch g) (rg_seq g) (rg_cookie g) (rg_chunks g)
              (rg_version g) output in
          if success then
            (raise_if negb (rg_epoch g =? request_id) || negb (rg_seq g =? 1) ||
                     (hex_value 0 (rg_cookie g) =? 0) ||
                     negb (rg_chunks g =? (count + 127) / 128) || negb (rg_version g =? 2) ||
                     negb (rg_count g =? count) || negb (bool_decide (1 <= count <= 256)) ||
                     negb (Z.of_nat (String.length (rg_values g)) =? 8 * count) ||
                     String.eqb (rg_values g) "-"
            with "inconsistent committed fold result" in
            Ok (result (hex_words (String.length (rg_values g)) (rg_values g))))
          else
            (raise_if negb (rg_approved g =? 0) || (rg_status g =? 1) || negb (rg_chunks g =? 0) ||
                     negb (rg_version g =? 0) || negb (rg_count g =? 0) || negb (String.eqb (rg_values g) "-")
            with "failure exposes output or claims approval" in
            Ok (result []))
      end
  | _ => fail "missing or duplicate fold result"
  end.

(** ** Transcripts *)

Fixpoint repeat_char (n : nat) (c : ascii) : string :=
  match n with O => "" | S n => String c (repeat_char n c) end.
Definition credits_text (n : Z) : string := repeat_char (Z.to_nat n) (chr 62).

(** [[i for i, line in enumerate(lines) if line.startswith(p)]] *)
Definition starting (p : string) (lines : list string) : list Z :=
  map fst (List.filter (fun il => String.prefix p il.2) (enumerate lines)).

Definition withheld (injection : string) : Z :=
  if String.eqb injection "no-response" || String.eqb injection "truncated" then 1 else 0.

(** [fold_bridge.validate_transcript]; [wire] by its length. *)
Definition validate_transcript (stdout : string) (request : list Z) (rid count : Z) (wire_length : Z)
    (injection : string) : res (binding * fold_result) :=
  let lines := splitlines stdout in
  match starting "RAVEIL-FOLD-DISPATCH" lines with
  | [index] =>
      let tail := drop (Z.to_nat index) lines in
      let boot := foldl Z.add 0 (map (fun l => Z.of_nat (String.length l)) (take (Z.to_nat index) lines)) in
      match tail with
      | [t0; t1; t2; t3] =>
          raise_if 16384 <? boot with "invalid UART phase order or boot bound" in
          let* binding := dispatch t0 request rid count rid 1 in
          raise_if negb (String.eqb t1 (credits_text (wire_length + withheld injection)))
          with "UART credit mismatch" in
          let success := String.eqb injection "none" in
          let state := "RAVEIL-FOLD-BRIDGE-STATE-V1 stable=1 objects=" +:+ pretty ((count + 127) / 128) +:+
            " version=" +:+ pretty (if success then 2 else 1) +:+ " inflight=0 shadows=0 completions=0" in
          raise_if negb (String.eqb t2 state) || negb (String.prefix "RAVEIL-FOLD-RESULT-V1 " t3)
          with "publication state or UART phase mismatch" in
          let* result := parse stdout rid count in
          raise_if negb (fr_epoch result =? bd_epoch binding) || negb (fr_sequence result =? bd_sequence binding) ||
                   negb (String.eqb (fr_cookie result) (bd_cookie binding))
          with "completion does not match dispatch binding" in
          Ok (binding, result)
      | _ => fail "invalid UART phase order or boot bound"
      end
  | _ => fail "missing/duplicate dispatch"
  end.

(** The line the guest's [result] label prints. *)
Definition result_line (id status : Z) (approved : bool) (epoch seq : Z) (cookie : list Z)
    (chunks count : Z) (published : list Z) : string :=
  "RAVEIL-FOLD-RESULT-V1 request=" +:+ hex_fixed 16 id +:+ " status=" +:+ pretty status +:+
  " approved=" +:+ (if approved then "1" else "0") +:+ " epoch=" +:+ pretty epoch +:+
  " sequence=" +:+ pretty seq +:+ " cookie=" +:+ tohex cookie +:+
  " chunks=" +:+ pretty (if approved then chunks else 0) +:+
  " version=" +:+ pretty (if approved then 2 else 0) +:+
  " count=" +:+ pretty (if approved then count else 0) +:+
  " output=" +:+ (if approved then String.concat "" (map (hex_fixed 8) published) else "-").

Example transcript_example :
  (let line := result_line 9 1 true 9 1 [1; 2; 3; 4; 5; 6; 7; 8; 9; 10; 11; 12; 13; 14; 15; 16] 1 2 [19; 2 ^ 32 - 1] in
   let* r := parse ("boot" +:+ str1 10 +:+ line +:+ str1 10) 9 2 in Ok (fr_output r)) = Ok [19; 2 ^ 32 - 1].
Proof. vm_compute. reflexivity. Qed.
