(* ===== verification/FoldLinesFacts.v ===== *)
(** * The host reads the lines the guest prints

    [dispatch_agree] and [parse_agree]: the regular expressions accept the
    guest's lines with the values printed. [parse_sound]: an approved result
    carries exactly the expected number of words, and no other result carries
    any. *)

From S2P Require Import Prelude PyValue Json JsonFacts AffineFold FoldMachine FoldWire FoldWireFacts FoldLines.
From Stdlib Require Import Ascii.

Lemma strip_prefix_app p s : strip_prefix p (p +:+ s) = Some s.
Proof. induction p as [|c p IH]; [done|]. rewrite append_cons. cbn [strip_prefix]. by rewrite Ascii.eqb_refl. Qed.

(** ** Hexadecimal digits *)

Definition all_hex (s : string) : bool := forallb is_hex (String.list_ascii_of_string s).

Lemma is_hex_digit n : 0 <= n < 16 -> is_hex (hex_digit n) = true.
Proof.
  intros Hn. assert (H : forallb (fun n => is_hex (hex_digit n)) (zseq 16) = true) by (vm_compute; reflexivity).
  rewrite forallb_forall in H. by apply H, list_elem_of_In, elem_of_zseq.
Qed.

Lemma hex_digits_app n v s : hex_digits n v s = hex_fixed n v +:+ s.
Proof.
  unfold hex_fixed. revert v s. induction n as [|n IH]; intros v s; [done|]. cbn [hex_digits].
  rewrite IH, (IH _ (String _ "")). by rewrite <- append_assoc.
Qed.

Lemma hex_fixed_S n v : hex_fixed (S n) v = hex_fixed n (v / 16) +:+ String (hex_digit (v mod 16)) "".
Proof. unfold hex_fixed at 1. cbn [hex_digits]. apply hex_digits_app. Qed.

Lemma length_hex_fixed n v : String.length (hex_fixed n v) = n.
Proof.
  revert v. induction n as [|n IH]; intros v; [done|]. rewrite hex_fixed_S, length_append, IH. cbn. lia.
Qed.

Lemma all_hex_app a b : all_hex (a +:+ b) = all_hex a && all_hex b.
Proof.
  unfold all_hex. induction a as [|c a IH]; [done|]. rewrite append_cons. cbn. rewrite IH. apply andb_assoc.
Qed.

Lemma all_hex_fixed n v : all_hex (hex_fixed n v) = true.
Proof.
  revert v. induction n as [|n IH]; intros v; [done|]. rewrite hex_fixed_S, all_hex_app, IH.
  cbn. rewrite is_hex_digit; [done|]. apply Z.mod_pos_bound. lia.
Qed.

Lemma all_hex_tohex l : Forall is_byte l -> all_hex (tohex l) = true.
Proof.
  induction 1 as [|b l Hb _ IH]; [done|]. unfold is_byte in Hb. unfold all_hex in *. cbn.
  rewrite !is_hex_digit by dlia. exact IH.
Qed.

Lemma take_hex_app s rest : all_hex s = true -> take_hex (String.length s) (s +:+ rest) = Some (s, rest).
Proof.
  unfold all_hex. induction s as [|c s IH]; cbn; [done|]. intros [Hc Hs]%andb_true_iff.
  rewrite append_cons, Hc, IH; done.
Qed.

Lemma take_hex_fixed n v rest : take_hex n (hex_fixed n v +:+ rest) = Some (hex_fixed n v, rest).
Proof. rewrite <- (length_hex_fixed n v) at 1. apply take_hex_app, all_hex_fixed. Qed.

Lemma take_hex_tohex l rest n :
  Forall is_byte l -> n = (2 * length l)%nat -> take_hex n (tohex l +:+ rest) = Some (tohex l, rest).
Proof. intros Hl ->. rewrite <- length_tohex. by apply take_hex_app, all_hex_tohex. Qed.

Lemma span_hex_all s : all_hex s = true -> span_hex s = (s, "").
Proof.
  unfold all_hex. induction s as [|c s IH]; cbn; [done|]. intros [Hc Hs]%andb_true_iff.
  rewrite Hc, IH; done.
Qed.

Lemma hex_value_app acc s t : hex_value acc (s +:+ t) = hex_value (hex_value acc s) t.
Proof. revert acc. induction s as [|c s IH]; intros acc; [done|]. rewrite append_cons. cbn. apply IH. Qed.

Lemma hex_value_fixed acc n v : hex_value acc (hex_fixed n v) = acc * 16 ^ Z.of_nat n + v mod 16 ^ Z.of_nat n.
Proof.
  revert acc v. induction n as [|n IH]; intros acc v.
  { cbn. rewrite Z.mod_1_r. lia. }
  rewrite hex_fixed_S, hex_value_app, IH. cbn [hex_value].
  rewrite hex_val_digit by (apply Z.mod_pos_bound; lia). cbn [default].
  rewrite Nat2Z.inj_succ, Z.pow_succ_r by lia.
  rewrite (Z.rem_mul_r v 16 (16 ^ Z.of_nat n)) by lia. cbn. lia.
Qed.

Lemma hex_value_fixed_id n v : 0 <= v < 16 ^ Z.of_nat n -> hex_value 0 (hex_fixed n v) = v.
Proof. intros Hv. rewrite hex_value_fixed, Z.mod_small by done. lia. Qed.

Lemma hex_value_tohex_pos l acc :
  Forall is_byte l -> 0 <= acc -> (0 < acc \/ Exists (fun b => b <> 0) l) -> 0 < hex_value acc (tohex l).
Proof.
  intros Hl. revert acc. induction Hl as [|b l Hb _ IH]; intros acc Ha Hp.
  { cbn. destruct Hp as [?|He]; [done|]. by apply Exists_nil in He. }
  unfold is_byte in Hb. cbn [tohex hex_value]. rewrite !hex_val_digit by dlia. change (default 0 (Some ?x)) with x.
  pose proof (Z.mod_pos_bound b 16). pose proof (Z.div_mod b 16).
  assert (0 <= b / 16) by (apply Z.div_pos; lia).
  apply IH; [lia|]. destruct Hp as [?|He]; [left; lia|].
  apply Exists_cons in He as [?|?]; [left; lia|by right].
Qed.

Lemma take_dec_pretty n rest : 0 <= n -> no_digit rest -> take_dec (pretty n +:+ rest) = Some (n, rest).
Proof.
  intros Hn Hr. unfold take_dec. destruct n as [|p|p]; [|rewrite pretty_Z_pos, parse_digits by done|lia].
  - change (pretty 0 +:+ rest) with (String "0" rest). cbn [span_digits].
    change (is_digit "0") with true. cbn iota. rewrite span_no_digit by done. reflexivity.
  - destruct (pretty_go_head (N.pos p) "") as (c & r & -> & _ & _); [done|]. reflexivity.
Qed.

(** ** Dispatch lines *)

(** The cookie of a submission: sixteen bytes, not all zero. *)
Definition cookie_ok (cookie : list Z) : Prop :=
  length cookie = 16%nat /\ Forall is_byte cookie /\ Exists (fun b => b <> 0) cookie.

Definition is_u64 (v : Z) : Prop := 0 <= v < 2 ^ 64.

Lemma dispatch_groups_line id epoch seq cookie count envelope :
  cookie_ok cookie -> 0 <= count -> Forall is_byte envelope -> envelope <> [] ->
  dispatch_groups (dispatch_line id epoch seq cookie count envelope) =
    Some (hex_fixed 16 id, hex_fixed 16 epoch, hex_fixed 16 seq, tohex cookie, count, tohex envelope).
Proof.
  intros (Hlen & Hck & _) Hc He Hne. unfold dispatch_groups, dispatch_line.
  repeat (rewrite strip_prefix_app; cbn beta iota). rewrite take_hex_fixed. cbn beta iota.
  rewrite strip_prefix_app. cbn beta iota. rewrite take_hex_fixed. cbn beta iota.
  rewrite strip_prefix_app. cbn beta iota. rewrite take_hex_fixed. cbn beta iota.
  rewrite strip_prefix_app. cbn beta iota. rewrite take_hex_tohex by (done || lia). cbn beta iota.
  rewrite strip_prefix_app. cbn beta iota. rewrite take_dec_pretty by done. cbn beta iota.
  rewrite strip_prefix_app. cbn beta iota. rewrite span_hex_all by (by apply all_hex_tohex).
  destruct envelope as [|b envelope]; [done|]. reflexivity.
Qed.

(** The host accepts the dispatch line the guest prints for a job, with the
    binding it prints. *)
Theorem dispatch_agree id epoch seq cookie count envelope :
  is_u64 id -> is_u64 epoch -> is_u64 seq -> cookie_ok cookie -> 0 <= count ->
  Forall is_byte envelope -> envelope <> [] ->
  dispatch (dispatch_line id epoch seq cookie count envelope) envelope id count epoch seq =
    Ok (Binding id epoch seq (tohex cookie) count).
Proof.
  intros Hid Hep Hseq Hck Hc He Hne. unfold dispatch. rewrite dispatch_groups_line by done.
  unfold is_u64 in *. change (2 ^ 64) with (16 ^ Z.of_nat 16) in *.
  rewrite !hex_value_fixed_id, !Z.eqb_refl by done.
  destruct Hck as (_ & Hb & Hx). pose proof (hex_value_tohex_pos cookie 0 Hb) as Hpos.
  rewrite (proj2 (Z.eqb_neq (hex_value 0 (tohex cookie)) 0)) by (specialize (Hpos ltac:(lia) (or_intror Hx)); lia).
  cbn [negb orb]. rewrite fromhex_tohex, bool_decide_true by done. reflexivity.
Qed.

Definition cookie_example : list Z := [1; 2; 3; 4; 5; 6; 7; 8; 9; 10; 11; 12; 13; 14; 15; 16].

Lemma dispatch_agree_witness :
  dispatch (dispatch_line 9 7 2 cookie_example 4 [1; 2; 255]) [1; 2; 255] 9 4 7 2 =
    Ok (Binding 9 7 2 (tohex cookie_example) 4).
Proof.
  apply (dispatch_agree 9 7 2 cookie_example 4 [1; 2; 255]).
  - split; vm_compute; [discriminate|reflexivity].
  - split; vm_compute; [discriminate|reflexivity].
  - split; vm_compute; [discriminate|reflexivity].
  - split_and!; [reflexivity|repeat constructor; vm_compute; discriminate|by left].
  - done.
  - repeat constructor; vm_compute; discriminate.
  - discriminate.
Defined.

(** ** Result lines *)

(** An approved result has the declared words and identity; any other has no words. *)
Definition result_sound (r : fold_result) (request_id count : Z) : Prop :=
  if fr_approved r then
    fr_status r = 1 /\ fr_epoch r = request_id /\ fr_sequence r = 1 /\ fr_version r = 2 /\
    fr_chunks r = (count + 127) / 128 /\ hex_value 0 (fr_cookie r) <> 0 /\
    1 <= count <= 256 /\ Z.of_nat (length (fr_output r)) = count
  else fr_output r = [] /\ fr_status r <> 1 /\ fr_version r = 0.

Lemma length_hex_words fuel s n :
  String.length s = (8 * n)%nat -> (n <= fuel)%nat -> length (hex_words fuel s) = n.
Proof.
  revert s n. induction fuel as [|fuel IH]; intros s n Hs Hf; [cbn; lia|]. cbn [hex_words].
  destruct n as [|n].
  { by destruct s. }
  destruct (String.eqb_spec s "") as [->|_]; [cbn in Hs; lia|]. cbn [length]. f_equal.
  apply IH; [|lia].
  assert (Hsub : forall k m s, (k + m <= String.length s)%nat -> String.length (String.substring k m s) = m).
  { induction k as [|k IHk]; intros m t Ht.
    - apply length_substring. lia.
    - destruct t as [|c t]; cbn in Ht; [lia|]. cbn. apply IHk. lia. }
  rewrite Hsub; lia.
Qed.

(** What an accepted console text says: an approved result belongs to the
    request, has committed status and identity, and the declared number of
    words, at most 256; any other result exposes no output. *)
Theorem parse_sound stdout request_id count r :
  parse stdout request_id count = Ok r -> result_sound r request_id count.
Proof.
  unfold parse. intros H. destruct (List.filter _ _) as [|line [|]]; try discriminate H.
  destruct (parse_groups line) as [g|]; [|discriminate H].
  destruct (negb _); [discriminate H|]. unfold result_sound.
  destruct ((rg_status g =? 1) && (rg_approved g =? 1)) eqn:Es.
  - destruct (_ || _) eqn:E in H; [discriminate H|]. injection H as <-. cbn. bool_prop.
    split_and!; try done; try lia.
    rewrite (length_hex_words _ _ (Z.to_nat count)); lia.
  - destruct (_ || _) eqn:E in H; [discriminate H|]. injection H as <-. cbn. bool_prop. done.
Qed.

Lemma hex_words_fixed ws fuel :
  Forall is_word ws -> (length ws < fuel)%nat ->
  hex_words fuel (String.concat "" (map (hex_fixed 8) ws)) = ws.
Proof.
  assert (Hcat : forall l, String.concat "" (map (hex_fixed 8) l) = foldr (fun w s => hex_fixed 8 w +:+ s) "" l).
  { induction l as [|w [|w' l] IH]; [done|exact (eq_sym (append_nil_r _))|].
    change (String.concat "" (map (hex_fixed 8) (w :: w' :: l)))
      with (hex_fixed 8 w +:+ ("" +:+ String.concat "" (map (hex_fixed 8) (w' :: l)))).
    rewrite IH. reflexivity. }
  rewrite Hcat. intros Hws. revert fuel. induction Hws as [|w ws Hw _ IH]; intros fuel Hf.
  { by destruct fuel. }
  destruct fuel as [|fuel]; [cbn in Hf; lia|]. cbn [foldr hex_words].
  assert (Hsub : forall s t, String.substring 0 (String.length s) (s +:+ t) = s).
  { induction s as [|c s IHs]; intros t; [by destruct t|]. rewrite append_cons. cbn. by rewrite IHs. }
  assert (Hall : forall t, String.substring 0 (String.length t) t = t).
  { intros t. rewrite <- (append_nil_r t) at 2. apply Hsub. }
  assert (Hsuf : forall s t, String.substring (String.length s) (String.length t) (s +:+ t) = t).
  { induction s as [|c s IHs]; intros t; [apply Hall|]. rewrite append_cons. cbn. apply IHs. }
  pose proof (length_hex_fixed 8 w) as H8.
  destruct (String.eqb_spec (hex_fixed 8 w +:+ foldr (fun w s => hex_fixed 8 w +:+ s) "" ws) "") as [E|_].
  { apply (f_equal String.length) in E. rewrite length_append, H8 in E. cbn in E. lia. }
  rewrite <- H8 at 1. rewrite Hsub. rewrite length_append, H8.
  replace (8 + String.length (foldr (fun w s => hex_fixed 8 w +:+ s) "" ws) - 8)%nat
    with (String.length (foldr (fun w s => hex_fixed 8 w +:+ s) "" ws)) by lia.
  rewrite <- H8 at 2. rewrite Hsuf, IH by (cbn in Hf; lia). f_equal.
  apply hex_value_fixed_id. unfold is_word in Hw. rewrite MASK_eq in Hw.
  change (16 ^ Z.of_nat 8) with (2 ^ 32). lia.
Qed.

Lemma concat_hex ws :
  all_hex (String.concat "" (map (hex_fixed 8) ws)) = true /\
  String.length (String.concat "" (map (hex_fixed 8) ws)) = (8 * length ws)%nat.
Proof.
  induction ws as [|w [|w' ws] IH]; [done| |].
  - cbn [map String.concat]. rewrite all_hex_fixed, length_hex_fixed. done.
  - change (String.concat "" (map (hex_fixed 8) (w :: w' :: ws)))
      with (hex_fixed 8 w +:+ ("" +:+ String.concat "" (map (hex_fixed 8) (w' :: ws)))).
    destruct IH as [IH1 IH2]. rewrite !all_hex_app, !length_append, all_hex_fixed, length_hex_fixed, IH1, IH2.
    split; [done|]. cbn [length String.length]. lia.
Qed.

Lemma take_one_digit set d rest :
  d ∈ set -> 0 <= d < 10 -> take_one set (pretty d +:+ rest) = Some (d, rest).
Proof.
  intros Hin Hd. assert (H : forallb (fun d => bool_decide (digit_val (match pretty d with String c _ => c | "" => "0" end) = d) &&
    bool_decide (String.length (pretty d) = 1%nat)) (zseq 10) = true) by (vm_compute; reflexivity).
  rewrite forallb_forall in H. specialize (H d). rewrite andb_true_iff, !bool_decide_eq_true in H.
  destruct H as [Hv Hl]; [by apply list_elem_of_In, elem_of_zseq|].
  destruct (pretty d) as [|c [|]]; try discriminate Hl. cbn [take_one]. rewrite append_cons. cbn.
  by rewrite Hv, bool_decide_true.
Qed.

(** The host parses the result line the guest prints for a committed job to the
    published words, and for a failed one to none. *)
Lemma parse_groups_line id status approved epoch seq cookie chunks count published :
  cookie_ok cookie -> status ∈ [1; 2; 4; 3] -> 0 <= epoch -> 0 <= seq ->
  0 <= chunks <= 2 -> 0 <= count -> published <> [] ->
  parse_groups (result_line id status approved epoch seq cookie chunks count published) =
    Some (ResultGroups (hex_fixed 16 id) status (if approved then 1 else 0) epoch seq (tohex cookie)
            (if approved then chunks else 0) (if approved then 2 else 0) (if approved then count else 0)
            (if approved then String.concat "" (map (hex_fixed 8) published) else "-")).
Proof.
  intros (Hlen & Hck & _) Hst He Hs Hch Hc Hp. unfold parse_groups, result_line.
  assert (Hst' : 0 <= status < 10) by (rewrite !elem_of_cons, elem_of_nil in Hst; lia).
  rewrite strip_prefix_app. cbn beta iota. rewrite take_hex_fixed. cbn beta iota.
  rewrite strip_prefix_app. cbn beta iota. rewrite take_one_digit by done. cbn beta iota.
  rewrite strip_prefix_app. cbn beta iota.
  replace (if approved then "1" else "0")%string with (pretty (if approved then 1 else 0) : string)
    by (by destruct approved).
  rewrite take_one_digit by (destruct approved; (lia || (rewrite !elem_of_cons; auto))). cbn beta iota.
  rewrite strip_prefix_app. cbn beta iota. rewrite take_dec_pretty by done. cbn beta iota.
  rewrite strip_prefix_app. cbn beta iota. rewrite take_dec_pretty by done. cbn beta iota.
  rewrite strip_prefix_app. cbn beta iota. rewrite take_hex_tohex by (done || lia). cbn beta iota.
  rewrite strip_prefix_app. cbn beta iota.
  rewrite take_one_digit by (destruct approved; try lia; rewrite !elem_of_cons; lia). cbn beta iota.
  rewrite strip_prefix_app. cbn beta iota.
  rewrite take_one_digit by (destruct approved; try lia; rewrite !elem_of_cons; lia). cbn beta iota.
  rewrite strip_prefix_app. cbn beta iota. rewrite take_dec_pretty by (done || by destruct approved). cbn beta iota.
  rewrite strip_prefix_app. cbn beta iota.
  destruct approved; [|reflexivity]. destruct (concat_hex published) as [Hhex Hl].
  rewrite span_hex_all by done.
  destruct (String.eqb_spec (String.concat "" (map (hex_fixed 8) published)) "-") as [E|_].
  { rewrite E in Hhex. discriminate Hhex. }
  destruct (String.eqb_spec (String.concat "" (map (hex_fixed 8) published)) "") as [E|_]; [|reflexivity].
  rewrite E in Hl. destruct published; [done|]. cbn in Hl. lia.
Qed.

(** ** Splitting into lines *)

Definition no_break (s : string) : bool := forallb (fun c => negb (is_break c)) (String.list_ascii_of_string s).

Lemma no_break_app a b : no_break (a +:+ b) = no_break a && no_break b.
Proof.
  unfold no_break. induction a as [|c a IH]; [done|]. rewrite append_cons. cbn. rewrite IH. apply andb_assoc.
Qed.

Lemma hex_no_break c : is_hex c = true -> is_break c = false.
Proof. unfold is_hex, is_break. lia. Qed.

Lemma all_hex_no_break s : all_hex s = true -> no_break s = true.
Proof.
  unfold all_hex, no_break. induction s as [|c s IH]; cbn; [done|]. intros [Hc Hs]%andb_true_iff.
  by rewrite hex_no_break, IH.
Qed.

Lemma pretty_go_hex n s : all_hex s = true -> all_hex (pretty_N_go n s) = true.
Proof.
  revert s. induction (N.lt_wf_0 n) as [n _ IH]; intros s Hs.
  destruct (decide (n = 0)%N) as [->|Hn]; [done|]. rewrite pretty_N_go_step by lia.
  apply IH; [apply N.div_lt; lia|]. unfold all_hex in *. cbn. rewrite Hs, andb_true_r.
  destruct (digit_char_spec (n `mod` 10)) as (Hd & _); [by apply N.mod_lt|].
  unfold is_digit, is_hex in *. lia.
Qed.

Lemma pretty_hex n : 0 <= n -> all_hex (pretty n) = true.
Proof.
  intros Hn. destruct n as [|p|p]; [done| |lia]. rewrite pretty_Z_pos. by apply pretty_go_hex.
Qed.

(** A console text of complete lines. *)
Definition unlines (lines : list string) : string := foldr (fun l s => l +:+ str1 10 +:+ s) "" lines.

Lemma splitlines_unlines lines :
  Forall (fun l => no_break l = true) lines -> splitlines (unlines lines) = lines.
Proof.
  assert (Hgo : forall l cur rest, no_break l = true ->
    splitlines_go cur (l +:+ str1 10 +:+ rest) = (cur +:+ l) :: splitlines_go "" rest).
  { induction l as [|c l IH]; intros cur rest Hl.
    - change ("" +:+ str1 10 +:+ rest) with (String (chr 10) rest). cbn [splitlines_go].
      change (is_break (chr 10)) with true. cbn iota. rewrite append_nil_r. f_equal.
      destruct rest as [|d r]; [done|]. change (code (chr 10) =? 13) with false. reflexivity.
    - unfold no_break in Hl. cbn in Hl. apply andb_true_iff in Hl as [Hc Hl]. apply negb_true_iff in Hc.
      rewrite append_cons. cbn [splitlines_go]. rewrite Hc, IH by done. by rewrite <- append_assoc. }
  unfold splitlines. induction 1 as [|l lines Hl _ IH]; [done|]. cbn [unlines foldr].
  rewrite Hgo by done. f_equal. exact IH.
Qed.

Lemma result_line_no_break id status approved epoch seq cookie chunks count published :
  Forall is_byte cookie -> 0 <= status -> 0 <= epoch -> 0 <= seq -> 0 <= chunks -> 0 <= count ->
  no_break (result_line id status approved epoch seq cookie chunks count published) = true.
Proof.
  intros Hck Hst He Hs Hch Hc. unfold result_line. rewrite !no_break_app.
  rewrite !(all_hex_no_break (hex_fixed _ _)), !(all_hex_no_break (tohex _)) by
    (apply all_hex_fixed || by apply all_hex_tohex).
  rewrite !(all_hex_no_break (pretty _)) by (apply pretty_hex; destruct approved; lia).
  destruct approved; [|reflexivity]. rewrite (all_hex_no_break (String.concat _ _)); [reflexivity|].
  apply concat_hex.
Qed.

(** The result a guest's line stands for. *)
Definition result_of (status : Z) (approved : bool) (epoch seq : Z) (cookie : list Z) (chunks : Z)
    (published : list Z) : fold_result :=
  FoldResult status approved epoch seq (tohex cookie) (if approved then chunks else 0)
    (if approved then 2 else 0) (if approved then published else []).

Definition quiet (lines : list string) : Prop :=
  Forall (fun l => no_break l = true /\ String.prefix "RAVEIL-FOLD-RESULT" l = false) lines.

Lemma quiet_no_break lines : quiet lines -> Forall (fun l => no_break l = true) lines.
Proof. induction 1 as [|l lines [H _] _ IH]; constructor; done. Qed.

Lemma filter_quiet lines : quiet lines -> List.filter (String.prefix "RAVEIL-FOLD-RESULT") lines = [].
Proof. induction 1 as [|l lines [_ H] _ IH]; [done|]. cbn [List.filter]. by rewrite H. Qed.

(** The host parses the result line the guest prints: a committed job gives the
    published words, a failed one none. *)
Theorem parse_agree before after id status (approved : bool) epoch seq cookie count published :
  quiet before -> quiet after -> is_u64 id -> cookie_ok cookie -> 1 <= count <= 256 ->
  Z.of_nat (length published) = count -> Forall is_word published -> 0 <= epoch -> 0 <= seq ->
  status ∈ [1; 2; 4; 3] ->
  (if approved then status = 1 /\ epoch = id /\ seq = 1 else status <> 1) ->
  parse (unlines (before ++ result_line id status approved epoch seq cookie ((count + 127) / 128) count published :: after))
    id count = Ok (result_of status approved epoch seq cookie ((count + 127) / 128) published).
Proof.
  intros Hb Ha Hid Hck Hc Hp Hpw He Hs Hst Happ.
  assert (Hst' : 0 <= status) by (rewrite !elem_of_cons, elem_of_nil in Hst; lia).
  assert (Hch : 0 <= (count + 127) / 128 <= 2) by dlia.
  unfold parse. rewrite splitlines_unlines.
  2: { apply Forall_app. split; [by apply quiet_no_break|]. apply Forall_cons.
       split; [apply result_line_no_break; try lia; by destruct Hck as (_ & ? & _)|].
       by apply quiet_no_break. }
  assert (Hfilter : List.filter (String.prefix "RAVEIL-FOLD-RESULT")
    (before ++ result_line id status approved epoch seq cookie ((count + 127) / 128) count published :: after) =
    [result_line id status approved epoch seq cookie ((count + 127) / 128) count published]).
  { rewrite List.filter_app, (filter_quiet before Hb). cbn [List.filter app].
    rewrite (filter_quiet after Ha). reflexivity. }
  rewrite Hfilter, parse_groups_line; try done; try lia; [|intros ->; cbn in Hp; lia].
  cbn [rg_rid rg_status rg_approved rg_epoch rg_seq rg_cookie rg_chunks rg_version rg_count rg_values].
  unfold is_u64 in Hid. change (2 ^ 64) with (16 ^ Z.of_nat 16) in Hid.
  rewrite hex_value_fixed_id, Z.eqb_refl by done. cbn [negb].
  destruct Hck as (_ & Hbytes & Hx). pose proof (hex_value_tohex_pos cookie 0 Hbytes) as Hpos.
  destruct approved.
  - destruct Happ as (-> & -> & ->). cbn [Z.eqb Pos.eqb andb]. rewrite !Z.eqb_refl.
    rewrite (proj2 (Z.eqb_neq (hex_value 0 (tohex cookie)) 0)) by (specialize (Hpos ltac:(lia) (or_intror Hx)); lia).
    rewrite bool_decide_true by done. destruct (concat_hex published) as [Hhex Hl].
    rewrite (proj2 (Z.eqb_eq _ _)) by lia.
    destruct (String.eqb_spec (String.concat "" (map (hex_fixed 8) published)) "-") as [E|_].
    { rewrite E in Hhex. discriminate Hhex. }
    cbn [negb orb]. rewrite hex_words_fixed by (done || lia). reflexivity.
  - rewrite (proj2 (Z.eqb_neq status 1)) by done. reflexivity.
Qed.

Lemma parse_agree_witness :
  parse (unlines (["boot"] ++ result_line 9 1 true 9 1 cookie_example 1 2 [19; 7] :: [])) 9 2 =
    Ok (result_of 1 true 9 1 cookie_example 1 [19; 7]).
Proof.
  apply (parse_agree ["boot"] [] 9 1 true 9 1 cookie_example 2 [19; 7]).
  - repeat constructor.
  - constructor.
  - split; vm_compute; [discriminate|reflexivity].
  - split_and!; [reflexivity|repeat constructor; vm_compute; discriminate|by left].
  - lia.
  - reflexivity.
  - repeat constructor; vm_compute; discriminate.
  - lia.
  - lia.
  - constructor.
  - done.
Defined.

Lemma parse_sound_witness :
  exists r, parse (unlines [result_line 9 1 true 9 1 cookie_example 1 2 [19; 7]]) 9 2 = Ok r /\ result_sound r 9 2.
Proof.
  destruct (parse (unlines [result_line 9 1 true 9 1 cookie_example 1 2 [19; 7]]) 9 2) as [r|] eqn:E;
    [|vm_compute in E; discriminate E].
  exists r. split; [reflexivity|]. exact (parse_sound _ _ _ r E).
Defined.
