(* ===== verification/Project.v ===== *)
(** * Names of project records ([raveil/project.py])

    The labels that projects, sessions and flows use to refer to their parts. *)

From S2P Require Import Prelude PyValue.
From Stdlib Require Import Ascii.

(** [[a-zA-Z0-9]] *)
Definition is_alnum (c : ascii) : bool :=
  let n := code c in
  ((97 <=? n) && (n <=? 122)) || ((65 <=? n) && (n <=? 90)) || ((48 <=? n) && (n <=? 57)).
(** [[a-zA-Z0-9_-]] *)
Definition is_name_char (c : ascii) : bool := is_alnum c || (code c =? 95) || (code c =? 45).

(** [NAME.fullmatch(value)] *)
Definition name_match (s : string) : bool :=
  match s with
  | "" => false
  | String c r =>
      is_alnum c && forallb is_name_char (String.list_ascii_of_string r) &&
      (String.length r <=? 79)%nat
  end.

(** [project.name] *)
Definition name (value : pyval) : res string :=
  match value with
  | VStr s =>
      if name_match s then Ok s
      else fail "name must contain only letters, digits, '-' or '_' (1..80 characters)"
  | _ => fail "name must contain only letters, digits, '-' or '_' (1..80 characters)"
  end.

Lemma name_Ok v s : name v = Ok s -> v = VStr s.
Proof. unfold name. intros H. by res_inv. Qed.
