(* ===== verification/Evidence.v ===== *)
(** * Saved evidence of coupled runs

    What the session, chain and DAG verifiers share: the files of an evidence
    bundle, the record of an RTL run and the check that it computed the job
    ([raveil/fold_session.py] [rtl_values]), the emulator's command line
    ([raveil/sonatine_fold.py] [command_for]), and the console transcript after
    the boot text. Reading the files is not modelled: a [bundle] holds what they
    contain. *)

From S2P Require Import Prelude PyValue AffineFold FoldMachine FoldWire FoldLines.

(** ** Comparison of decoded documents *)

(** [==] on decoded JSON without floats: booleans are the integers 0 and 1, and
    the order of a dictionary's keys is immaterial. *)
Fixpoint py_eqb (a b : pyval) {struct b} : bool :=
  let number v := match v with VInt z => Some z | VBool b => Some (if b then 1 else 0) | _ => None end in
  match number a, number b with
  | Some x, Some y => x =? y
  | _, _ =>
      match a, b with
      | VNone, VNone => true
      | VFloat x, VFloat y => String.eqb x y
      | VStr x, VStr y => String.eqb x y
      | VList x, VList y =>
          (fix go x y {struct y} := match x, y with
            | [], [] => true
            | a :: x, b :: y => py_eqb a b && go x y
            | _, _ => false
            end) x y
      | VDict x, VDict y =>
          keys_are x (keys y) &&
          (fix go y := match y with
            | [] => true
            | (k, b) :: y => match dget k x with Some a => py_eqb a b | None => false end && go y
            end) y
      | _, _ => false
      end
  end.

(** ** POSIX paths *)

(** [PurePosixPath(s)]: the root and the names. *)
Record path := Path { pt_root : string; pt_parts : list string }.

Fixpoint split_slash (cur s : string) : list string :=
  match s with
  | "" => [cur]
  | String c r => if code c =? 47 then cur :: split_slash "" r else split_slash (cur +:+ String c "") r
  end.
Definition path_of (s : string) : path :=
  let root := if String.prefix "//" s && negb (String.prefix "///" s) then "//"
              else if String.prefix "/" s then "/" else "" in
  Path root (List.filter (fun p => negb (String.eqb p "") && negb (String.eqb p ".")) (split_slash "" s)).
Definition path_text (p : path) : string :=
  let s := pt_root p +:+ String.concat "/" (pt_parts p) in if String.eqb s "" then "." else s.
Definition path_absolute (p : path) : bool := negb (String.eqb (pt_root p) "").
Definition path_parent (p : path) : path := Path (pt_root p) (take (length (pt_parts p) - 1) (pt_parts p)).
Definition path_child (p : path) (name : string) : path := Path (pt_root p) (pt_parts p ++ [name]).

(** [command_for] *)
Definition command_for (executable : string) (directory : path) : list string :=
  [executable; "-machine"; "virt"; "-cpu"; "rv64"; "-m"; "128M"; "-smp"; "1";
   "-bios"; "none"; "-nographic"; "-kernel"; path_text (path_child directory "kernel.elf");
   "-device"; "loader,file=" +:+ path_text (path_child directory "request.bin") +:+
     ",addr=0x87ff0000,force-raw=on"].

(** ** Records of RTL runs *)

(** What [project_fold.load] and the record's directory hold; [rr_fault] is the
    outcome of [fold_bridge.verify_rtl_fault] on it. *)
Record rtl_record := RtlRecord {
  rr_plan : pyval; rr_region : pyval; rr_inputs : pyval;
  rr_status : pyval; rr_output : pyval; rr_fault : res unit;
}.

(** [rtl_values]: the words the reply carries. *)
Definition rtl_values (record : rtl_record) (region inputs : pyval) (injection : string) (identity : pyval)
    : res (list Z) :=
  match rr_plan record with
  | VDict plan =>
      let* build := dsub plan "build_sha256" in
      raise_if negb (py_eqb build identity) with "session RTL build changed" in
      let* opts := dsub plan "options" in
      let fault := if String.eqb injection "rtl-fault" then 1 else 0 in
      raise_if negb (same opts (VDict [("seed", VInt 213); ("cancel_after", VInt 0); ("fault_at", VInt fault)]))
      with "session RTL execution options changed" in
      raise_if negb (same (rr_region record) region) || negb (same (rr_inputs record) inputs)
      with "session RTL computation changed" in
      let* expected := reference region inputs in
      if String.eqb injection "rtl-fault" then
        raise_if negb (is_str (rr_status record) "incomplete") || negb (pyval_eqb (rr_output record) VNone)
        with "RTL fault did not occur" in
        let* _ := rr_fault record in
        Ok (replicate (length expected) 0)
      else
        raise_if negb (is_str (rr_status record) "succeeded") || negb (same (rr_output record) (words_val expected))
        with "session RTL did not complete correctly" in
        Ok expected
  | _ => Err TypeError
  end.

(** ** Bundles *)

Record bundle := Bundle {
  bu_digest : string -> string;          (* sha256 of a file, by name *)
  bu_session : pyval; bu_plan : pyval; bu_command : pyval;
  bu_request : list Z; bu_stdout : string;
  bu_job_request : Z -> list Z; bu_job_response : Z -> list Z; bu_job_wire : Z -> string;
  bu_job_dispatch : Z -> pyval;
  bu_rtl : string -> res rtl_record;     (* [project_fold.load], by record name *)
}.

Definition BASE_FILES : list string :=
  ["session.json"; "plan.json"; "request.bin"; "kernel.elf"; "command.json";
   "qemu-version.txt"; "stdout.log"; "stderr.log"].
Definition JOB_FILES : list string := ["request.bin"; "dispatch.json"; "response.bin"; "wire.txt"].

(** [f"{i:02d}"] *)
Definition two_digits (i : Z) : string := (if i <? 10 then "0" else "") +:+ pretty i.

(** [files_for] *)
Definition files_for (processed : Z) : list string :=
  BASE_FILES ++ concat (map (fun i => map (fun name => "jobs/" +:+ two_digits i +:+ "/" +:+ name) JOB_FILES)
    (zseq processed)).

(** A receipt of a verifier's schema and class: its jobs. *)
Definition check_receipt (b : bundle) (fields : list string) (schema cls : string) (receipt : pyval)
    : res (dict * Z * list pyval) :=
  match receipt with
  | VDict d =>
      raise_if negb (keys_are d fields) with "invalid session receipt" in
      let* s := dsub d "schema" in
      let* c := dsub d "evidence_class" in
      let* processed := dsub d "processed" in
      let* jobs := dsub d "jobs" in
      let* files := dsub d "files" in
      match processed, jobs, files with
      | VInt n, VList rows, VDict files =>
          raise_if negb (is_str s schema) || negb (is_str c cls) || negb (bool_decide (1 <= n <= 8)) ||
                   negb (Z.of_nat (length rows) =? n) || negb (keys_are files (files_for n))
          with "invalid session receipt" in
          raise_if negb (forallb (fun kv : string * pyval => is_str kv.2 (bu_digest b kv.1)) files)
          with "changed session evidence" in
          Ok (d, n, rows)
      | _, _, _ => fail "invalid session receipt"
      end
  | _ => fail "invalid session receipt"
  end.

(** A run plan's fields. *)
Record run_plan := RunPlan { rp_epoch : pyval; rp_ids : pyval; rp_injections : pyval; rp_build : pyval }.
Definition check_plan (schema : string) (plan : pyval) : res run_plan :=
  match plan with
  | VDict d =>
      raise_if negb (keys_are d ["schema"; "epoch"; "request_ids"; "injections"; "build_sha256"])
      with "invalid session plan" in
      let* s := dsub d "schema" in
      raise_if negb (is_str s schema) with "invalid session plan" in
      let* epoch := dsub d "epoch" in let* ids := dsub d "request_ids" in
      let* injections := dsub d "injections" in let* build := dsub d "build_sha256" in
      Ok (RunPlan epoch ids injections build)
  | _ => fail "invalid session plan"
  end.

(** The saved command line. *)
Definition check_command (command : pyval) : res unit :=
  let error {A} : res A := fail "changed session QEMU command" in
  match command with
  | VList l =>
      match traverse (fun v => match v with VStr s => Ok s | _ => error end) l with
      | Ok c =>
          if (length c =? 16)%nat && path_absolute (path_of (at_ "" c 0)) && path_absolute (path_of (at_ "" c 13)) &&
             bool_decide (c = command_for (at_ "" c 0) (path_parent (path_of (at_ "" c 13))))
          then Ok tt else error
      | Err e => Err e
      end
  | _ => error
  end.

(** The transcript from its only start line. *)
Definition started (prefix stdout : string) : res (list string) :=
  let lines := splitlines stdout in
  match starting prefix lines with
  | [s] =>
      raise_if 16384 <? foldr Z.add 0 (map (fun l => Z.of_nat (String.length l)) (take (Z.to_nat s) lines))
      with "invalid session start" in
      Ok (drop (Z.to_nat s) lines)
  | _ => fail "invalid session start"
  end.

(** [lines[i]] with Python's negative index; [lines[1+4*i:5+4*i]] *)
Definition step_lines (lines : list string) (i : Z) : list string := take 4 (drop (Z.to_nat (1 + 4 * i)) lines).

(** A job's row: its fields, in the order the verifiers check them. *)
Definition check_row (row : pyval) (i : Z) (job_name : string) (rtl_ids : list string) : res (dict * string) :=
  match row with
  | VDict d =>
      raise_if negb (keys_are d ["index"; "name"; "rtl_id"; "binding"; "result"]) with "invalid session job record" in
      let* index := dsub d "index" in
      let* rname := dsub d "name" in
      let* rtl := dsub d "rtl_id" in
      match rtl with
      | VStr id =>
          raise_if negb (same index (VInt i)) || negb (is_str rname job_name) || bool_decide (id ∈ rtl_ids)
          with "invalid session job record" in
          Ok (d, id)
      | _ => fail "invalid session job record"
      end
  | _ => fail "invalid session job record"
  end.

Definition binding_val (bd : binding) : pyval :=
  VDict [("request_id", VInt (bd_request_id bd)); ("epoch", VInt (bd_epoch bd));
         ("sequence", VInt (bd_sequence bd)); ("cookie", VStr (bd_cookie bd)); ("count", VInt (bd_count bd))].

Example path_parent_text : path_text (path_parent (path_of "/a//b/./kernel.elf")) = "/a/b".
Proof. reflexivity. Qed.
Example files_for_2 : length (files_for 2) = 16%nat.
Proof. reflexivity. Qed.
