(* ===== verification/FoldSession.v ===== *)
(** * Sessions of independent fold jobs ([raveil/fold_session.py])

    A session declares one to eight jobs that run in one guest boot. The host
    checks every guest line of a job against its own model of the persistent
    object ([check_step]) and re-derives the whole run from saved evidence
    ([verify_steps], the loop of [_verify]). *)

From S2P Require Import Prelude PyValue AffineFold FoldMachine FoldWire FoldLines Evidence Project.

(** A declared job. *)
Record job := Job { jb_name : string; jb_region : pyval; jb_inputs : pyval }.

Definition SESSION_MAGIC : Z := 0x51534631.
Definition SESSION_END : Z := 0x53454e44.
Definition INJECTIONS : list string := BRIDGE_INJECTIONS ++ ["replay-previous"].

(** One iteration of [for job in session["jobs"]]. *)
Definition validate_job (jobs : list job) (value : pyval) : res (list job) :=
  match value with
  | VDict j =>
      raise_if negb (keys_are j ["name"; "region"; "inputs"]) with "invalid session job" in
      let* jname := dsub j "name" in
      let* jname := name jname in
      raise_if bool_decide (jname ∈ map jb_name jobs) with "duplicate session name" in
      let* region := dsub j "region" in
      let* _ := compile_region region in
      let* inputs := dsub j "inputs" in
      let* _ := reference region inputs in
      Ok (jobs ++ [Job jname region inputs])
  | _ => fail "invalid session job"
  end.

(** [validate]; the jobs it admits. *)
Definition validate_session (session : pyval) : res (list job) :=
  match session with
  | VDict d =>
      raise_if negb (keys_are d ["schema"; "jobs"]) with "invalid session schema" in
      let* schema := dsub d "schema" in
      raise_if negb (is_str schema "raveil.fold-session.v1") with "invalid session schema" in
      let* jobs := dsub d "jobs" in
      match jobs with
      | VList l =>
          raise_if negb (bool_decide (1 <= Z.of_nat (length l) <= 8)) with "session requires1..8 jobs" in
          foldM validate_job [] l
      | _ => fail "session requires1..8 jobs"
      end
  | _ => fail "invalid session schema"
  end.

(** The identity checks of [encode]. *)
Definition check_ids (what : string) (jobs : nat) (epoch : pyval) (request_ids : pyval) : res (Z * list Z) :=
  match epoch with
  | VInt epoch =>
      raise_if negb (bool_decide (0 < epoch < Z.shiftl 1 64)) with what in
      match request_ids with
      | VList l =>
          raise_if negb (length l =? jobs)%nat with "distinct nonzero request identities required" in
          let* ids := traverse (fun i => match i with
                        | VInt i => raise_if negb (bool_decide (0 < i < Z.shiftl 1 64))
                                    with "distinct nonzero request identities required" in Ok i
                        | _ => fail "distinct nonzero request identities required"
                        end) l in
          raise_if negb (bool_decide (NoDup ids)) with "distinct nonzero request identities required" in
          Ok (epoch, ids)
      | _ => fail "distinct nonzero request identities required"
      end
  | _ => fail what
  end.

(** [encode]: the session frame and the requests in it. *)
Definition encode_session (session epoch request_ids : pyval) : res (list Z * list (list Z)) :=
  let* jobs := validate_session session in
  let* ' (epoch, ids) := check_ids "nonzero session epoch required" (length jobs) epoch request_ids in
  let* requests := traverse (fun jr : job * Z =>
      let* config := compile_region (jb_region jr.1) in
      request_bytes config (jb_inputs jr.1) (VInt jr.2)) (zip jobs ids) in
  let size := 32 + foldr Z.add 0 (map (fun r => Z.of_nat (length r)) requests) in
  let body := pack_words [SESSION_MAGIC; 1; size; Z.of_nat (length requests)] ++ le64 epoch ++ concat requests in
  Ok (body ++ pack_words [crc32 body; SESSION_END], requests).

(** [shape[0] * shape[1]] of a job's region *)
Definition region_cells (region : pyval) : res Z :=
  match region with
  | VDict d =>
      let* shape := dsub d "shape" in
      match seq_items shape with
      | Some l =>
          let* a := py_index l 0 in let* a := as_int a in
          let* b := py_index l 1 in let* b := as_int b in Ok (a * b)
      | None => Err TypeError
      end
  | _ => Err TypeError
  end.

(** One iteration of [for i, injection in enumerate(injections)]. *)
Definition check_replay (regions : list pyval) (injections : list string) (ii : Z * string) : res unit :=
  let '(i, injection) := ii in
  if String.eqb injection "replay-previous" then
    raise_if (i =? 0) || negb (String.eqb (at_ "" injections (i - 1)) "none")
    with "replay needs a preceding successful response" in
    let* a := region_cells (at_ VNone regions (i - 1)) in
    let* b := region_cells (at_ VNone regions i) in
    raise_if negb (a =? b) with "replayed frame must have the current bounded size" in Ok tt
  else Ok tt.

(** [options]; the regions of the session's jobs. *)
Definition options (regions : list pyval) (injections : pyval) : res (list string) :=
  let injections := match injections with
                    | VNone => VList (replicate (length regions) (VStr "none")) | v => v end in
  match injections with
  | VList l =>
      raise_if negb (length l =? length regions)%nat with "one known injection per job required" in
      let* injections := traverse (fun i => match i with
          | VStr i => raise_if negb (bool_decide (i ∈ INJECTIONS)) with "one known injection per job required" in Ok i
          | _ => fail "one known injection per job required" end) l in
      let* _ := traverse (check_replay regions injections) (enumerate injections) in
      Ok injections
  | _ => fail "one known injection per job required"
  end.

(** [reply]: the frame sent and its characters. *)
Definition reply (bd : binding) (values : list Z) (injection : string) (previous : option (list Z))
    : res (list Z * string) :=
  if String.eqb injection "replay-previous" then
    match previous with
    | None => fail "no previous response"
    | Some previous => Ok (previous, tohex previous)
    end
  else injected_response bd values injection.

Definition is_broken (injection : string) : bool := bool_decide (injection ∈ BROKEN_FRAME).
Definition bit (b : bool) : string := if b then "1" else "0".
Definition words_text (ws : list Z) : string := String.concat "" (map (format_hex 8) ws).

(** [expected + [0] * (n - len(expected))] *)
Definition padded (n : nat) (expected : list Z) : list Z := expected ++ replicate (n - length expected) 0.

(** What a checked step reports. *)
Record session_result := SessionResult {
  ss_approved : bool; ss_status : Z; ss_version : Z; ss_output : list Z;
}.

Definition session_state_line (index : Z) (injection : string) (version : Z) (content : list Z) : string :=
  "RAVEIL-FOLD-SESSION-STATE-V1 index=" +:+ pretty index +:+ " stable=1 framed=" +:+
  bit (negb (is_broken injection)) +:+ " version=" +:+ pretty version +:+ " ledger=" +:+ pretty (index + 1) +:+
  " submissions=0 inflight=0 shadows=0 completions=0 content=" +:+ words_text content.

Definition session_result_line (index rid epoch : Z) (cookie : string) (success : bool) (version : Z)
    (expected : list Z) : string :=
  "RAVEIL-FOLD-SESSION-RESULT-V1 index=" +:+ pretty index +:+ " request=" +:+ format_hex 16 rid +:+
  " epoch=" +:+ format_hex 16 epoch +:+ " sequence=" +:+ pretty (index + 1) +:+ " cookie=" +:+ cookie +:+
  " status=" +:+ pretty (if success then 1 else 4 : Z) +:+ " approved=" +:+ bit success +:+
  " version=" +:+ pretty version +:+ " count=" +:+
  pretty (if success then Z.of_nat (length expected) else 0) +:+ " output=" +:+
  (if success then words_text expected else "-").

(** [check_step]: the binding, the result and the object's new content. *)
Definition check_session_step (lines : list string) (index : Z) (request : list Z) (rid epoch : Z)
    (expected : list Z) (wire : string) (injection : string) (version : Z) (previous : list Z)
    : res (binding * session_result * list Z) :=
  match lines with
  | [l0; l1; l2; l3] =>
      let* bd := dispatch l0 request rid (Z.of_nat (length expected)) epoch (index + 1) in
      raise_if negb (String.eqb l1 (credits_text (Z.of_nat (String.length wire) + withheld injection)))
      with "session credit mismatch" in
      let success := String.eqb injection "none" in
      let version := if success then version + 1 else version in
      let content := if success then padded 256 expected else previous in
      raise_if negb (String.eqb l2 (session_state_line index injection version content))
      with "session state, padding or rollback mismatch" in
      raise_if negb (String.eqb l3 (session_result_line index rid epoch (bd_cookie bd) success version expected))
      with "session result or completion binding mismatch" in
      Ok (bd, SessionResult success (if success then 1 else 4) version (if success then expected else []), content)
  | _ => fail "invalid session step phases"
  end.

Definition session_result_val (r : session_result) : pyval :=
  VDict [("approved", VBool (ss_approved r)); ("status", VInt (ss_status r)); ("version", VInt (ss_version r));
         ("output", words_val (ss_output r))].

(** ** Verifying a saved session *)

(** The variables of the loop in [_verify]. *)
Record session_check := SessionCheck {
  sc_previous : list Z; sc_version : Z; sc_reply : option (list Z); sc_rtl_ids : list string; sc_halted : Z;
}.

Section verify.
Context (b : bundle) (jobs : list job) (injections : list string) (epoch : Z) (ids : list Z)
  (requests : list (list Z)) (build : pyval) (lines : list string) (processed : Z).

(** One iteration of [for i, row in enumerate(receipt["jobs"])]. *)
Definition verify_session_step (st : session_check) (ir : Z * pyval) : res session_check :=
  let '(i, row) := ir in
  let job := at_ (Job "" VNone VNone) jobs i in
  let injection := at_ "" injections i in
  let* ' (row, rtl_id) := check_row row i (jb_name job) (sc_rtl_ids st) in
  let* rtl := bu_rtl b rtl_id in
  let* values := rtl_values rtl (jb_region job) (jb_inputs job) injection build in
  let* expected := reference (jb_region job) (jb_inputs job) in
  let request := at_ [] requests i in
  let* bd := dispatch (at_ "" (step_lines lines i) 0) request (at_ 0 ids i) (Z.of_nat (length expected)) epoch (i + 1) in
  let* ' (response, wire) := reply bd values injection (sc_reply st) in
  raise_if negb (bool_decide (response = bu_job_response b i)) || negb (String.eqb wire (bu_job_wire b i)) ||
           negb (bool_decide (request = bu_job_request b i)) || negb (same (binding_val bd) (bu_job_dispatch b i))
  with "changed session wire/binding" in
  let* ' (checked, result, previous) :=
    check_session_step (step_lines lines i) i request (at_ 0 ids i) epoch expected wire injection
      (sc_version st) (sc_previous st) in
  let* row_binding := dsub row "binding" in
  let* row_result := dsub row "result" in
  raise_if negb (same (binding_val checked) row_binding) || negb (same (session_result_val result) row_result)
  with "session result changed" in
  raise_if is_broken injection && negb (i + 1 =? processed) with "job ran after framing loss" in
  Ok (SessionCheck previous (ss_version result) (Some response) (rtl_id :: sc_rtl_ids st)
        (if is_broken injection then 1 else sc_halted st)).

Definition verify_session_steps (rows : list pyval) : res session_check :=
  foldM verify_session_step (SessionCheck (replicate 256 0) 1 None [] 0) (enumerate rows).
End verify.

Definition session_end_line (epoch processed total halted version : Z) : string :=
  "RAVEIL-FOLD-SESSION-END-V1 epoch=" +:+ format_hex 16 epoch +:+ " processed=" +:+ pretty processed +:+
  " total=" +:+ pretty total +:+ " halted=" +:+ pretty halted +:+ " version=" +:+ pretty version.

Definition session_start_line (epoch jobs : Z) : string :=
  "RAVEIL-FOLD-SESSION-START-V1 epoch=" +:+ format_hex 16 epoch +:+ " jobs=" +:+ pretty jobs +:+ " version=1".

(** [_verify] of a session receipt. *)
Definition verify_session (b : bundle) (receipt : pyval) : res pyval :=
  let* ' (d, processed, rows) := check_receipt b
    ["schema"; "evidence_class"; "epoch"; "processed"; "planned"; "halted"; "version"; "jobs"; "files"]
    "raveil.fold-session-run.v1" "host-mediated-QEMU-RTL-session-functional" receipt in
  let* jobs := validate_session (bu_session b) in
  let n := Z.of_nat (length jobs) in
  raise_if n <? processed with "processed count exceeds declared jobs" in
  let* plan := check_plan "raveil.fold-session-plan.v1" (bu_plan b) in
  let* injections := options (map jb_region jobs) (rp_injections plan) in
  let* ' (envelope, requests) := encode_session (bu_session b) (rp_epoch plan) (rp_ids plan) in
  let* ' (epoch, ids) := check_ids "nonzero session epoch required" (length jobs) (rp_epoch plan) (rp_ids plan) in
  let* r_epoch := dsub d "epoch" in let* r_planned := dsub d "planned" in
  raise_if negb (bool_decide (envelope = bu_request b)) ||
           negb (same (VList [r_epoch; r_planned]) (VList [VInt epoch; VInt n]))
  with "session request mismatch" in
  let* _ := check_command (bu_command b) in
  let* lines := started "RAVEIL-FOLD-SESSION-START" (bu_stdout b) in
  raise_if negb (String.eqb (at_ "" lines 0) (session_start_line epoch n)) ||
           negb (Z.of_nat (length lines) =? 2 + 4 * processed)
  with "session phase count mismatch" in
  let* st := verify_session_steps b jobs injections epoch ids requests (rp_build plan) lines processed rows in
  raise_if (sc_halted st =? 0) && negb (processed =? n) with "session ended early" in
  let* halted := dsub d "halted" in let* version := dsub d "version" in
  raise_if negb (same (VList [halted; version]) (VList [VInt (sc_halted st); VInt (sc_version st)])) ||
           negb (String.eqb (at_ "" lines (1 + 4 * processed))
                   (session_end_line epoch processed n (sc_halted st) (sc_version st)))
  with "session end mismatch" in
  Ok receipt.
