(* ===== verification/FoldDag.v ===== *)
(** * Bounded DAGs of fold jobs ([raveil/fold_dag.py])

    [compile_plan] admits a session of at most eight jobs whose inputs are
    literal buffers or ranges of earlier results, computes the last use of every
    result, and assigns results to eight object slots. [State] is the host's
    independent model of the guest's slots: versions, contents and the snapshot
    each producer left. The text of the protocol lines is modelled as well. *)

From S2P Require Import Prelude PyValue Json AffineFold FoldMachine FoldWire FoldLines Evidence Project FoldSession.

(** ** Admission and slot assignment *)

Record dag_plan := DagPlan {
  dp_sources : list (list Z);
  dp_chunks : list Z;
  dp_last_use : list Z;
  dp_slots : list (list Z);
  dp_output : Z;
  dp_offsets : list (list Z);
  dp_lengths : list (list Z);
}.

(** A job as the loop admitted it. *)
Record dag_job := DagJob { dj_name : string; dj_region : pyval; dj_inputs : list pyval }.

(** The variables of the admission loop. *)
Record dag_loop := DagLoop {
  dl_jobs : list dag_job;
  dl_names : gmap string Z;
  dl_sources : list (list Z);
  dl_chunks : list Z;
  dl_counts : list Z;
  dl_last : list Z;
  dl_offsets : list (list Z);
  dl_lengths : list (list Z);
}.

(** The source of a literal operand. *)
Definition LITERAL : Z := 0xffffffff.

(** The source, start and admission buffer of an operand, and [last]. *)
Definition link_operand (ranged : bool) (names : gmap string Z) (counts : list Z) (index : Z)
    (last : list Z) (operand : pyval) (length_ : Z) : res (Z * pyval * Z * list Z) :=
  match operand with
  | VDict d =>
      let error := fail "link must name an earlier producer with a valid range" in
      if negb (keys_are d ["from"]) && negb (keys_are d ["from"; "offset"; "length"]) ||
         (negb ranged && negb (keys_are d ["from"]))
      then error
      else
        match dget "from" d with
        | Some (VStr from) =>
            match names !! from with
            | None => error
            | Some source =>
                let count := at_ 0 counts source in
                let start := default (VInt 0) (dget "offset" d) in
                let extent := default (VInt count) (dget "length" d) in
                match start, extent with
                | VInt start, VInt extent =>
                    raise_if (start <? 0) || (extent <? 1) || (count <? start) ||
                             (count - start <? extent) || negb (length_ =? extent)
                    with "linked range must fit producer and equal consumer extent" in
                    Ok (source, words_val (replicate (Z.to_nat length_) 0), start, set_at last source index)
                | _, _ => fail "linked range must fit producer and equal consumer extent"
                end
            end
        | _ => error
        end
  | _ => Ok (LITERAL, operand, 0, last)
  end.

Definition chunks_of (count : Z) : Z := (count + 127) / 128.

(** One iteration of [for index, job in enumerate(session["jobs"])]. *)
Definition admit_job (ranged : bool) (st : dag_loop) (value : pyval) : res dag_loop :=
  match value with
  | VDict job =>
      raise_if negb (keys_are job ["name"; "region"; "inputs"]) with "invalid DAG job" in
      let index := Z.of_nat (length (dl_jobs st)) in
      let* jname := dsub job "name" in
      let* jname := name jname in
      raise_if bool_decide (is_Some (dl_names st !! jname)) with "duplicate name" in
      let* region := dsub job "region" in
      let* config := compile_region region in
      let* inputs := dsub job "inputs" in
      match inputs with
      | VList [x; y] =>
          let* ' (sx, lx, ox, last) :=
            link_operand ranged (dl_names st) (dl_counts st) index (dl_last st) x (cfg config 5) in
          let* ' (sy, ly, oy, last) :=
            link_operand ranged (dl_names st) (dl_counts st) index last y (cfg config 6) in
          let* _ := reference region (VList [lx; ly]) in
          let count := cfg config 1 * cfg config 2 in
          Ok {| dl_jobs := dl_jobs st ++ [DagJob jname region [x; y]];
                dl_names := <[jname := index]> (dl_names st);
                dl_sources := dl_sources st ++ [[sx; sy]];
                dl_chunks := dl_chunks st ++ [chunks_of count];
                dl_counts := dl_counts st ++ [count];
                dl_last := last ++ [index];
                dl_offsets := dl_offsets st ++ [[ox; oy]];
                dl_lengths := dl_lengths st ++ [[cfg config 5; cfg config 6]] |}
      | _ => fail "two inputs required"
      end
  | _ => fail "invalid DAG job"
  end.

(** The chunks a linked operand reads: [range(o//128, (o+l-1)//128 + 1)]. *)
Definition read_chunks (offset length_ : Z) : list Z :=
  zrange (offset / 128) ((offset + length_ - 1) / 128 + 1).

(** The set of (source, chunk) pairs a job reads. *)
Definition job_reads (sources offsets lengths : list Z) : list (Z * Z) :=
  remove_dups (concat (map (fun b =>
    let source := at_ 0 sources b in
    if source =? LITERAL then []
    else map (fun chunk => (source, chunk)) (read_chunks (at_ 0 offsets b) (at_ 0 lengths b)))
    (zseq (Z.of_nat (length sources))))).

(** One iteration of the slot loop: [owners] and [slots]. *)
Definition assign_slots (last chunks : list Z) (sources offsets lengths : list (list Z))
    (st : list (option Z) * list (list Z)) (i : Z) : res (list (option Z) * list (list Z)) :=
  let '(owners, slots) := st in
  let reads := Z.of_nat (length (job_reads (at_ [] sources i) (at_ [] offsets i) (at_ [] lengths i))) in
  raise_if 4 <? reads + at_ 0 chunks i with "job exceeds four object references" in
  let free := map fst (List.filter (fun so => match so.2 with
                | None => true | Some owner => at_ 0 last owner <? i end) (enumerate owners)) in
  raise_if Z.of_nat (length free) <? at_ 0 chunks i with "live results exhaust eight object slots" in
  let selected := take (Z.to_nat (at_ 0 chunks i)) free in
  Ok (foldl (fun owners slot => set_at owners slot (Some i)) owners selected, slots ++ [selected]).

Definition dag_schema (schema : pyval) : option bool :=
  if is_str schema "raveil.fold-dag.v1" then Some false
  else if is_str schema "raveil.fold-dag.v2" then Some true
  else None.

(** A session's admitted jobs and plan. *)
Definition compile_session (session : pyval) : res (list dag_job * dag_plan) :=
  match session with
  | VDict d =>
      raise_if negb (keys_are d ["schema"; "jobs"; "output"]) with "invalid DAG schema" in
      let* schema := dsub d "schema" in
      match dag_schema schema with
      | None => fail "invalid DAG schema"
      | Some ranged =>
          let* jobs := dsub d "jobs" in
          match jobs with
          | VList jobs =>
              raise_if negb (bool_decide (1 <= Z.of_nat (length jobs) <= 8)) with "DAG requires1..8 jobs" in
              let* st := foldM (admit_job ranged) (DagLoop [] ∅ [] [] [] [] [] []) jobs in
              let* output := dsub d "output" in
              match output with
              | VStr o =>
                  match dl_names st !! o with
                  | None => fail "named output required"
                  | Some output =>
                      let last := set_at (dl_last st) output (Z.of_nat (length (dl_chunks st))) in
                      let* ' (_, slots) :=
                        foldM (assign_slots last (dl_chunks st) (dl_sources st) (dl_offsets st) (dl_lengths st))
                          (replicate 8 None, []) (zseq (Z.of_nat (length (dl_sources st)))) in
                      Ok (dl_jobs st,
                          DagPlan (dl_sources st) (dl_chunks st) last slots output (dl_offsets st) (dl_lengths st))
                  end
              | _ => fail "named output required"
              end
          | _ => fail "DAG requires1..8 jobs"
          end
      end
  | _ => fail "invalid DAG schema"
  end.

Definition compile_plan (session : pyval) : res dag_plan :=
  let* ' (_, plan) := compile_session session in Ok plan.

(** [fold_dag.validate] *)
Definition validate_dag (session : pyval) : res pyval :=
  let* _ := compile_plan session in Ok session.

(** [read_slots]: the slots a job reads, as a set. *)
Definition read_slots (plan : dag_plan) (index : Z) : list Z :=
  remove_dups (map (fun sc => at_ 0 (at_ [] (dp_slots plan) sc.1) sc.2)
    (job_reads (at_ [] (dp_sources plan) index) (at_ [] (dp_offsets plan) index)
       (at_ [] (dp_lengths plan) index))).

(** [sum(1 << s for s in slots)] *)
Definition slot_mask (slots : list Z) : Z := foldl (fun m s => m + Z.shiftl 1 s) 0 slots.

(** ** The host's model of the guest's objects *)

Record dag_state := DagState {
  ds_versions : list Z;
  ds_banks : list (list Z);
  ds_producers : gmap Z (list Z * list Z);
}.

(** [State.__init__] *)
Definition initial_state : dag_state := DagState (replicate 8 1) (replicate 8 (replicate 128 0)) ∅.

Section state.
Context (jobs : list dag_job) (plan : dag_plan).

Definition slot_versions (versions : list Z) (index : Z) : list Z :=
  map (fun s => at_ 0 versions s) (at_ [] (dp_slots plan) index).

(** [available] *)
Definition available (st : dag_state) (index : Z) : bool :=
  match ds_producers st !! index with
  | Some (versions, _) => bool_decide (versions = slot_versions (ds_versions st) index)
  | None => false
  end.

(** [bad_source]: the first linked producer that is not available. *)
Definition bad_source (st : dag_state) (index : Z) : option Z :=
  head (List.filter (fun p => negb (p =? LITERAL) && negb (available st p)) (at_ [] (dp_sources plan) index)).

Definition producer_output (st : dag_state) (index : Z) : list Z :=
  match ds_producers st !! index with Some (_, output) => output | None => [] end.

(** The buffer of operand [b]: a range of a producer's words or the literal. *)
Definition resolve_operand (output_of : Z -> list Z) (index b : Z) (operand : pyval) : pyval :=
  let source := at_ 0 (at_ [] (dp_sources plan) index) b in
  if source =? LITERAL then operand
  else
    let start := at_ 0 (at_ [] (dp_offsets plan) index) b in
    let length_ := at_ 0 (at_ [] (dp_lengths plan) index) b in
    words_val (take (Z.to_nat length_) (drop (Z.to_nat start) (output_of source))).

Definition resolve_inputs (output_of : Z -> list Z) (index : Z) (job : dag_job) : list pyval :=
  map (fun bo => resolve_operand output_of index bo.1 bo.2) (enumerate (dj_inputs job)).

(** [resolve]: the job with its buffers, and the masks of the slots it reads
    and writes; [None] when a producer is unavailable. *)
Definition resolve (st : dag_state) (index : Z) (job : dag_job) : option (dag_job * Z * Z) :=
  match bad_source st index with
  | Some _ => None
  | None =>
      Some (DagJob (dj_name job) (dj_region job) (resolve_inputs (producer_output st) index job),
            slot_mask (read_slots plan index), slot_mask (at_ [] (dp_slots plan) index))
  end.

(** The body of [for j, slot in enumerate(slots)]. *)
Definition write_slot (padded : list Z) (st : list Z * list (list Z)) (js : Z * Z) : list Z * list (list Z) :=
  let '(versions, banks) := st in
  let '(j, slot) := js in
  (set_at versions slot (at_ 0 versions slot + 1),
   set_at banks slot (take 128 (drop (Z.to_nat (128 * j)) padded))).

(** [commit] *)
Definition commit (st : dag_state) (index destination : Z) (expected : list Z) (success : bool) : res dag_state :=
  let slots := at_ [] (dp_slots plan) index in
  raise_if negb (destination =? slot_mask slots) with "destination allocation mismatch" in
  if success then
    let padded := expected ++ replicate (128 * length slots - length expected) 0 in
    let '(versions, banks) := foldl (write_slot padded) (ds_versions st, ds_banks st) (enumerate slots) in
    Ok (DagState versions banks
          (<[index := (slot_versions versions index, expected)]> (ds_producers st)))
  else Ok st.

(** [final]: the designated output and its objects. *)
Record dag_final := DagFinal {
  df_index : Z; df_name : string; df_available : bool; df_output : list Z; df_objects : list (Z * Z * Z);
}.
Definition final (st : dag_state) : dag_final :=
  let index := dp_output plan in
  let ok := available st index in
  DagFinal index (dj_name (at_ (DagJob "" VNone []) jobs index)) ok (if ok then producer_output st index else [])
    (if ok then map (fun s => (s + 1, 1, at_ 0 (ds_versions st) s)) (at_ [] (dp_slots plan) index) else []).

(** ** Protocol lines *)

(** [str(int)] *)
Definition version_text (st : dag_state) : string := String.concat "," (map pretty (ds_versions st)).

Definition final_line (st : dag_state) : string :=
  let f := final st in
  "RAVEIL-FOLD-DAG-OUTPUT-V1 index=" +:+ pretty (df_index f) +:+ " available=" +:+
  (if df_available f then "1" else "0") +:+ " count=" +:+ pretty (Z.of_nat (length (df_output f))) +:+
  " output=" +:+ (if df_available f then words_text (df_output f) else "-").

Definition block_line (st : dag_state) (index : Z) : string :=
  "RAVEIL-FOLD-DAG-BLOCK-V1 index=" +:+ pretty index +:+ " source=" +:+
  match bad_source st index with Some p => pretty p | None => "None" end +:+ " reason=unavailable".

Definition start_line (epoch : Z) : string :=
  "RAVEIL-FOLD-DAG-START-V1 epoch=" +:+ format_hex 16 epoch +:+ " jobs=" +:+
  pretty (Z.of_nat (length jobs)) +:+ " output=" +:+ pretty (dp_output plan) +:+ " versions=1,1,1,1,1,1,1,1".

(** The result entry of a checked step. *)
Record step_result := StepResult {
  sr_approved : bool; sr_status : Z; sr_writes : Z; sr_reads : Z; sr_output : list Z;
}.

Definition dag_state_line (st : dag_state) (index : Z) (injection : string) (source destination : Z) : string :=
  "RAVEIL-FOLD-DAG-STATE-V1 index=" +:+ pretty index +:+ " stable=1 framed=" +:+
  bit (negb (is_broken injection)) +:+ " writes=" +:+ pretty destination +:+ " reads=" +:+
  pretty source +:+ " versions=" +:+ version_text st +:+ " ledger=" +:+ pretty (index + 1) +:+
  " submissions=0 inflight=0 shadows=0 completions=0 content=" +:+ words_text (concat (ds_banks st)).

Definition dag_result_line (index rid epoch : Z) (cookie : string) (success : bool) (expected : list Z) : string :=
  "RAVEIL-FOLD-DAG-RESULT-V1 index=" +:+ pretty index +:+ " request=" +:+
  format_hex 16 rid +:+ " epoch=" +:+ format_hex 16 epoch +:+ " sequence=" +:+ pretty (index + 1) +:+
  " cookie=" +:+ cookie +:+ " status=" +:+ pretty (if success then 1 else 4 : Z) +:+ " approved=" +:+
  bit success +:+ " count=" +:+ pretty (if success then Z.of_nat (length expected) else 0) +:+ " output=" +:+
  (if success then words_text expected else "-").

(** [check_step] *)
Definition check_step (lines : list string) (index : Z) (request : list Z) (rid epoch : Z)
    (expected : list Z) (wire injection : string) (st : dag_state) (source destination : Z)
    : res (binding * step_result * dag_state) :=
  match lines with
  | [l0; l1; l2; l3] =>
      let* binding := dispatch l0 request rid (Z.of_nat (length expected)) epoch (index + 1) in
      raise_if negb (String.eqb l1 (credits_text (Z.of_nat (String.length wire) + withheld injection)))
      with "DAG credit mismatch" in
      let success := String.eqb injection "none" in
      let* st := commit st index destination expected success in
      raise_if negb (String.eqb l2 (dag_state_line st index injection source destination))
      with "DAG objects, versions, padding or rollback mismatch" in
      raise_if negb (String.eqb l3 (dag_result_line index rid epoch (bd_cookie binding) success expected))
      with "DAG result binding mismatch" in
      Ok (binding, StepResult success (if success then 1 else 4) destination source (if success then expected else []), st)
  | _ => fail "invalid DAG phases"
  end.

(** A job's operand range, as the previews of version 2 sessions show it. *)
Definition preview_range (i b : Z) : pyval :=
  let source := at_ 0 (at_ [] (dp_sources plan) i) b in
  if source =? LITERAL then VNone
  else VDict [("producer", VStr (dj_name (at_ (DagJob "" VNone []) jobs source)));
              ("offset", VInt (at_ 0 (at_ [] (dp_offsets plan) i) b));
              ("length", VInt (at_ 0 (at_ [] (dp_lengths plan) i) b))].

(** One row of [preview]. *)
Definition preview_row (ranged : bool) (ij : Z * dag_job) : res pyval :=
  let '(i, job) := ij in
  let readslots := sort (read_slots plan i) in
  let* words := region_cells (dj_region job) in
  Ok (VDict ([("index", VInt i); ("name", VStr (dj_name job));
              ("read_objects", words_val (map (fun s => s + 1) readslots));
              ("write_objects", words_val (map (fun s => s + 1) (at_ [] (dp_slots plan) i)));
              ("references", VInt (Z.of_nat (length readslots) + at_ 0 (dp_chunks plan) i));
              ("output_words", VInt words); ("last_use", VInt (at_ 0 (dp_last_use plan) i));
              ("pinned_output", VBool (i =? dp_output plan))] ++
             if ranged
             then [("ranges", VList (map (preview_range i) (zseq (Z.of_nat (length (at_ [] (dp_sources plan) i))))))]
             else [])).
End state.

(** The session frame: [encode]. *)
Definition DAG_MAGIC : Z := 0x51444631.
Definition DAG_END : Z := 0x44454e44.

Definition is_ranged (session : pyval) : bool :=
  match session with
  | VDict d => match dget "schema" d with Some s => is_str s "raveil.fold-dag.v2" | None => false end
  | _ => false
  end.

(** [preview] *)
Definition preview (session : pyval) : res pyval :=
  let* ' (jobs, plan) := compile_session session in
  let* rows := traverse (preview_row jobs plan (is_ranged session)) (enumerate jobs) in
  Ok (VDict [("evidence_class", VStr "static-admission");
             ("output", VStr (dj_name (at_ (DagJob "" VNone []) jobs (dp_output plan)))); ("jobs", VList rows)]).

(** A job's metadata and request in the frame. *)
Definition encode_job (plan : dag_plan) (version : Z) (irj : Z * (dag_job * Z)) : res (list Z * list Z) :=
  let '(i, (job, rid)) := irj in
  let* config := compile_region (dj_region job) in
  let sources := at_ [] (dp_sources plan) i in
  let offsets := at_ [] (dp_offsets plan) i in
  let lengths := at_ [] (dp_lengths plan) i in
  let inputs := map (fun b => if at_ 0 sources b =? LITERAL then at_ VNone (dj_inputs job) b
                              else words_val (replicate (Z.to_nat (cfg config (5 + b))) 0)) [0; 1] in
  let* child := request_bytes config (VList inputs) (VInt rid) in
  let metadata :=
    if version =? 2 then
      pack_words (concat (map (fun b => [at_ 0 sources b; at_ 0 offsets b; at_ 0 lengths b])
        (zseq (Z.of_nat (length sources)))))
    else pack_words sources in
  Ok (metadata, child).

(** [encode]: the frame and the requests in it. *)
Definition encode_dag (session epoch request_ids : pyval) : res (list Z * list (list Z)) :=
  let* ' (jobs, plan) := compile_session session in
  let* ' (epoch, ids) := check_ids "nonzero epoch required" (length jobs) epoch request_ids in
  let version := if is_ranged session then 2 else 1 in
  let* parts := traverse (encode_job plan version) (enumerate (zip jobs ids)) in
  let payload := concat (map (fun mc => mc.1 ++ mc.2) parts) in
  let children := map snd parts in
  let body := pack_words [DAG_MAGIC; version; 40 + Z.of_nat (length payload); Z.of_nat (length children)] ++
    le64 epoch ++ pack_words [dp_output plan; 0] ++ payload in
  Ok (body ++ pack_words [crc32 body; DAG_END], children).

(** ** Verifying a saved run *)

Definition step_result_val (r : step_result) : pyval :=
  VDict [("approved", VBool (sr_approved r)); ("status", VInt (sr_status r)); ("writes", VInt (sr_writes r));
         ("reads", VInt (sr_reads r)); ("output", words_val (sr_output r))].

Definition final_val (f : dag_final) : pyval :=
  VDict [("index", VInt (df_index f)); ("name", VStr (df_name f)); ("available", VBool (df_available f));
         ("output", words_val (df_output f));
         ("objects", VList (map (fun o : Z * Z * Z => VDict [("object_id", VInt o.1.1); ("generation", VInt o.1.2);
                                                 ("version", VInt o.2)]) (df_objects f)))].

Definition dag_end_line (st : dag_state) (epoch processed total halted : Z) : string :=
  "RAVEIL-FOLD-DAG-END-V1 epoch=" +:+ format_hex 16 epoch +:+ " processed=" +:+ pretty processed +:+
  " total=" +:+ pretty total +:+ " halted=" +:+ pretty halted +:+ " versions=" +:+ version_text st.

(** The variables of the loop in [_verify]. *)
Record dag_check := DagCheck {
  dc_state : dag_state; dc_reply : option (list Z); dc_rtl_ids : list string; dc_halted : Z;
}.

Section verify.
Context (b : bundle) (jobs : list dag_job) (plan : dag_plan) (injections : list string) (epoch : Z) (ids : list Z)
  (build : pyval) (lines : list string) (processed : Z).

(** One iteration of [for i, row in enumerate(receipt["jobs"])]. *)
Definition verify_dag_step (st : dag_check) (ir : Z * pyval) : res dag_check :=
  let '(i, row) := ir in
  let state := dc_state st in
  match resolve plan state i (at_ (DagJob "" VNone []) jobs i) with
  | None => fail "job ran with unavailable producer"
  | Some (job, source, destination) =>
      let inputs := VList (dj_inputs job) in
      let* config := compile_region (dj_region job) in
      let* request := request_bytes config inputs (VInt (at_ 0 ids i)) in
      let injection := at_ "" injections i in
      let* ' (row, rtl_id) := check_row row i (dj_name job) (dc_rtl_ids st) in
      let* rtl := bu_rtl b rtl_id in
      let* values := rtl_values rtl (dj_region job) inputs injection build in
      let* expected := reference (dj_region job) inputs in
      let step := step_lines lines i in
      let* bd := dispatch (at_ "" step 0) request (at_ 0 ids i) (Z.of_nat (length expected)) epoch (i + 1) in
      let* ' (response, wire) := reply bd values injection (dc_reply st) in
      raise_if negb (bool_decide (response = bu_job_response b i)) || negb (String.eqb wire (bu_job_wire b i)) ||
               negb (bool_decide (request = bu_job_request b i)) || negb (same (binding_val bd) (bu_job_dispatch b i))
      with "changed session wire/binding" in
      let* ' (checked, result, state) :=
        check_step plan step i request (at_ 0 ids i) epoch expected wire injection state source destination in
      let* row_binding := dsub row "binding" in
      let* row_result := dsub row "result" in
      raise_if negb (same (binding_val checked) row_binding) || negb (same (step_result_val result) row_result)
      with "session result changed" in
      raise_if is_broken injection && negb (i + 1 =? processed) with "job ran after framing loss" in
      Ok (DagCheck state (Some response) (rtl_id :: dc_rtl_ids st) (if is_broken injection then 1 else dc_halted st))
  end.

(** The lines after the last job. *)
Definition verify_dag_end (d : dict) (st : dag_check) : res unit :=
  let state := dc_state st in
  let n := Z.of_nat (length jobs) in
  let last i := at_ "" lines (Z.of_nat (length lines) - i) in
  let* halted :=
    if (dc_halted st =? 0) && negb (processed =? n) then
      raise_if is_Some_b (resolve plan state processed (at_ (DagJob "" VNone []) jobs processed)) ||
               negb (String.eqb (last 3) (block_line plan state processed))
      with "chain ended without unavailable dependency" in Ok 3
    else Ok (dc_halted st) in
  let* output := dsub d "output" in
  raise_if negb (same output (final_val (final jobs plan state))) ||
           negb (String.eqb (last 2) (final_line jobs plan state))
  with "designated output changed" in
  let* r_halted := dsub d "halted" in let* r_versions := dsub d "versions" in
  raise_if negb (same (VList [r_halted; r_versions]) (VList [VInt halted; words_val (ds_versions state)])) ||
           negb (String.eqb (last 1) (dag_end_line state epoch processed n halted))
  with "session end mismatch" in Ok tt.
End verify.

(** [_verify] of a DAG receipt. *)
Definition verify_dag (b : bundle) (receipt : pyval) : res pyval :=
  let* ' (d, processed, rows) := check_receipt b
    ["schema"; "evidence_class"; "epoch"; "processed"; "planned"; "halted"; "versions"; "output"; "jobs"; "files"]
    "raveil.fold-dag-run.v1" "host-mediated-QEMU-RTL-dag-functional" receipt in
  let* ' (jobs, plan) := compile_session (bu_session b) in
  let n := Z.of_nat (length jobs) in
  raise_if n <? processed with "processed count exceeds declared jobs" in
  let* rp := check_plan "raveil.fold-dag-plan.v1" (bu_plan b) in
  let* injections := options (map dj_region jobs) (rp_injections rp) in
  let* ' (envelope, _) := encode_dag (bu_session b) (rp_epoch rp) (rp_ids rp) in
  let* ' (epoch, ids) := check_ids "nonzero epoch required" (length jobs) (rp_epoch rp) (rp_ids rp) in
  let* r_epoch := dsub d "epoch" in let* r_planned := dsub d "planned" in
  raise_if negb (bool_decide (envelope = bu_request b)) ||
           negb (same (VList [r_epoch; r_planned]) (VList [VInt epoch; VInt n]))
  with "session request mismatch" in
  let* _ := check_command (bu_command b) in
  let* lines := started "RAVEIL-FOLD-DAG-START" (bu_stdout b) in
  let* halted := dsub d "halted" in
  raise_if negb (String.eqb (at_ "" lines 0) (start_line jobs plan epoch)) ||
           negb (Z.of_nat (length lines) =? 3 + 4 * processed + (if py_eqb halted (VInt 3) then 1 else 0))
  with "session phase count mismatch" in
  let* st := foldM (verify_dag_step b jobs plan injections epoch ids (rp_build rp) lines processed)
               (DagCheck initial_state None [] 0) (enumerate rows) in
  let* _ := verify_dag_end jobs plan epoch lines processed d st in
  Ok receipt.

(** ** A concrete session *)

(** The matrix product [a * b], then a part of it twice. *)
Definition dag_example : pyval :=
  VDict [("schema", VStr "raveil.fold-dag.v2");
         ("jobs", VList [
           VDict [("name", VStr "first"); ("region", region_example); ("inputs", inputs_example)];
           VDict [("name", VStr "second"); ("region", region_example);
                  ("inputs", VList [VDict [("from", VStr "first")]; words_val [1; 0; 0; 1]])];
           VDict [("name", VStr "third"); ("region", region_example);
                  ("inputs", VList [VDict [("from", VStr "second"); ("offset", VInt 0); ("length", VInt 4)];
                                    VDict [("from", VStr "first")]])]]);
         ("output", VStr "third")].

Example dag_example_plan :
  (let* p := compile_plan dag_example in Ok (dp_slots p, dp_last_use p)) = Ok ([[0]; [1]; [2]], [2; 2; 3]).
Proof. vm_compute. reflexivity. Qed.
Example dag_example_frame :
  (let* f := encode_dag dag_example (VInt 7) (words_val [1; 2; 3]) in Ok (length f.1)) = Ok (40 + 3 * (24 + 332))%nat.
Proof. vm_compute. reflexivity. Qed.

(** A run of a session with given faults, as the tools write it: the console
    lines, the rows of the receipt and the files of each job. *)
Record saved_run := SavedRun {
  sr_state : dag_state; sr_lines : list string; sr_rows : list pyval;
  sr_requests : list (list Z); sr_responses : list (list Z); sr_wires : list string; sr_dispatches : list pyval;
}.
Definition example_cookie : list Z := [9; 8; 7; 6; 5; 4; 3; 2; 1; 1; 2; 3; 4; 5; 6; 7].

Definition save_job (jobs : list dag_job) (plan : dag_plan) (epoch : Z) (injections : list string) (ids : list Z)
    (run : saved_run) (i : Z) : res saved_run :=
  match resolve plan (sr_state run) i (at_ (DagJob "" VNone []) jobs i) with
  | None => fail "blocked"
  | Some (job, source, destination) =>
      let injection := at_ "" injections i in
      let rid := at_ 0 ids i in
      let* config := compile_region (dj_region job) in
      let* request := request_bytes config (VList (dj_inputs job)) (VInt rid) in
      let* expected := reference (dj_region job) (VList (dj_inputs job)) in
      let count := Z.of_nat (length expected) in
      let bd := Binding rid epoch (i + 1) (tohex example_cookie) count in
      let* ' (response, wire) := injected_response bd expected injection in
      let success := String.eqb injection "none" in
      let* st := commit plan (sr_state run) i destination expected success in
      let result := StepResult success (if success then 1 else 4) destination source (if success then expected else []) in
      Ok (SavedRun st
            (sr_lines run ++ [dispatch_line rid epoch (i + 1) example_cookie count request;
               credits_text (Z.of_nat (String.length wire) + withheld injection);
               dag_state_line st i injection source destination;
               dag_result_line i rid epoch (tohex example_cookie) success expected])
            (sr_rows run ++ [VDict [("index", VInt i); ("name", VStr (dj_name job)); ("rtl_id", VStr (two_digits i));
               ("binding", binding_val bd); ("result", step_result_val result)]])
            (sr_requests run ++ [request]) (sr_responses run ++ [response]) (sr_wires run ++ [wire])
            (sr_dispatches run ++ [binding_val bd]))
  end.

Definition example_rtl (job : dag_job) (inputs output : pyval) : rtl_record :=
  RtlRecord (VDict [("build_sha256", VStr "b"); ("options", VDict [("seed", VInt 213); ("cancel_after", VInt 0); ("fault_at", VInt 0)])])
    (dj_region job) inputs (VStr "succeeded") output (Ok tt).

(** Two jobs, the second of which answers with a wrong word and is rolled back. *)
Definition dag_example_2 : pyval :=
  VDict [("schema", VStr "raveil.fold-dag.v1");
         ("jobs", VList [
           VDict [("name", VStr "first"); ("region", region_example); ("inputs", inputs_example)];
           VDict [("name", VStr "second"); ("region", region_example);
                  ("inputs", VList [VDict [("from", VStr "first")]; words_val [1; 0; 0; 1]])]]);
         ("output", VStr "first")].
Definition example_injections : list string := ["none"; "wrong-word"].

(** The compiled session, its frame and the run, evaluated once. *)
Definition example_parts : list dag_job * dag_plan * list Z * saved_run := Eval vm_compute in
  match (let* ' (jobs, plan) := compile_session dag_example_2 in
         let* ' (frame, _) := encode_dag dag_example_2 (VInt 7) (words_val [1; 2]) in
         let* run := foldM (save_job jobs plan 7 example_injections [1; 2])
           (SavedRun initial_state [start_line jobs plan 7] [] [] [] [] []) [0; 1] in
         Ok (jobs, plan, frame, run)) with
  | Ok parts => parts
  | Err _ => ([], DagPlan [] [] [] [] 0 [] [], [], SavedRun initial_state [] [] [] [] [] [])
  end.
Definition example_receipt : pyval := Eval vm_compute in
  let '(jobs, plan, _, run) := example_parts in
  let st := sr_state run in
  VDict [("schema", VStr "raveil.fold-dag-run.v1");
    ("evidence_class", VStr "host-mediated-QEMU-RTL-dag-functional"); ("epoch", VInt 7); ("processed", VInt 2);
    ("planned", VInt 2); ("halted", VInt 0); ("versions", words_val (ds_versions st));
    ("output", final_val (final jobs plan st)); ("jobs", VList (sr_rows run));
    ("files", VDict (map (fun f => (f, VStr f)) (files_for 2)))].
Definition example_stdout : string := Eval vm_compute in
  let '(jobs, plan, _, run) := example_parts in
  String.concat (String (Ascii.ascii_of_nat 10) "")
    ("boot" :: sr_lines run ++ [final_line jobs plan (sr_state run); dag_end_line (sr_state run) 7 2 2 0]).

Definition example_evidence : bundle * pyval :=
  let '(jobs, plan, frame, run) := example_parts in
  let plan_doc := VDict [("schema", VStr "raveil.fold-dag-plan.v1"); ("epoch", VInt 7); ("request_ids", words_val [1; 2]);
    ("injections", VList (map VStr example_injections)); ("build_sha256", VStr "b")] in
  (Bundle id dag_example_2 plan_doc (VList (map VStr (command_for "/bin/qemu" (path_of "/run")))) frame example_stdout
        (at_ [] (sr_requests run)) (at_ [] (sr_responses run)) (at_ "" (sr_wires run)) (at_ VNone (sr_dispatches run))
        (fun name =>
           let i := if String.eqb name "00" then 0 else 1 in
           let job := at_ (DagJob "" VNone []) jobs i in
           let inputs := if i =? 0 then inputs_example else VList [words_val [19; 22; 43; 50]; words_val [1; 0; 0; 1]] in
           let* out := reference (dj_region job) inputs in
           Ok (example_rtl job inputs (words_val out))), example_receipt).

Example example_evidence_accepted : verify_dag example_evidence.1 example_evidence.2 = Ok example_evidence.2.
Proof. vm_compute. reflexivity. Qed.
