(* ===== verification/Numeric.v ===== *)
(** * Signed operations in unsigned instructions ([raveil/mf01_numeric.py])

    [lower] rewrites [max_i32] and [relu_i32] into the unsigned operations of
    the machine by moving operands to a biased order, under fresh names. The
    rewritten map has the value of the source map, whether or not the biased
    operands are shared. *)

From S2P Require Import Prelude PyValue MapSyntax.

(** ** Admission of source nodes *)

(** The operations of a source node; [SIGNED_OPS] are two of them. *)
Inductive sop := SLoad | SOp (o : op) | SImm (o : immop).
Definition source_op (s : string) : option sop :=
  if String.eqb s "load" then Some SLoad
  else if String.eqb s "add" then Some (SOp Add)
  else if String.eqb s "mul" then Some (SOp Mul)
  else if String.eqb s "max" then Some (SOp Max)
  else if String.eqb s "add_imm" then Some (SImm AddImm)
  else if String.eqb s "ge_imm" then Some (SImm GeImm)
  else if String.eqb s "max_i32" then Some (SOp MaxI32)
  else if String.eqb s "relu_i32" then Some (SOp ReluI32)
  else None.

Definition source_fields (o : sop) : list string :=
  match o with
  | SLoad => ["id"; "op"; "view"]
  | SImm _ => ["id"; "op"; "args"; "imm"]
  | SOp _ => ["id"; "op"; "args"]
  end.

(** [SIGNED_OPS.get(op, 1 if 'imm' in node else 2)], 0 for a load *)
Definition source_arity (o : sop) : nat :=
  match o with SLoad => 0 | SOp o => op_arity o | SImm _ => 1 end.

Definition source_arg (seen : list string) (arg : pyval) : res string :=
  match arg with
  | VStr a => raise_if negb (bool_decide (a ∈ seen))
              with "source nodes must be in dependency order" in Ok a
  | _ => fail "source nodes must be in dependency order"
  end.

(** One iteration of the checking loop, with the names seen before. *)
Definition check_node (seen : list string) (value : pyval) : res node :=
  match value with
  | VDict n =>
      match dget "op" n with
      | Some (VStr opname) =>
          match source_op opname with
          | None => fail "invalid source operation"
          | Some o =>
              match keys_are n (source_fields o), dget "id" n with
              | true, Some (VStr name) =>
                  raise_if String.eqb name "" || bool_decide (name ∈ seen)
                  with "invalid source node fields or identifier" in
                  match default (VList []) (dget "args" n) with
                  | VList args =>
                      raise_if negb (length args =? source_arity o)%nat
                      with "incorrect source arity" in
                      let* args := traverse (source_arg seen) args in
                      match o with
                      | SLoad =>
                          match dget "view" n with
                          | Some (VStr view) =>
                              raise_if String.eqb view "" with "invalid source view" in
                              Ok (NLoad name view)
                          | _ => fail "invalid source view"
                          end
                      | SOp o => Ok (NOp name o args)
                      | SImm o =>
                          match dget "imm" n with
                          | Some (VInt imm) =>
                              raise_if negb (bool_decide (0 <= imm < Z.shiftl 1 22))
                              with "source immediate must fit unsigned22 bits" in
                              let* arg := from_option_err IndexError (args !! 0%nat) in
                              Ok (NImm name o arg imm)
                          | _ => fail "source immediate must fit unsigned22 bits"
                          end
                      end
                  | _ => fail "incorrect source arity"
                  end
              | _, _ => fail "invalid source node fields or identifier"
              end
          end
      | _ => fail "invalid source operation"
      end
  | _ => fail "invalid source node"
  end.

Definition check_nodes (nodes : list pyval) : res (list node) :=
  foldM (fun st value => let* n := check_node (map node_id st) value in Ok (st ++ [n])) [] nodes.

(** ** Emission *)

(** The variables of the rewriting loop: [reserved], [emitted], [serial],
    [sign] and [biased]. *)
Record lstate := LState {
  ls_reserved : list string;
  ls_emitted : list node;
  ls_serial : Z;
  ls_sign : option string;
  ls_biased : gmap string string;
}.

Definition numeric_name (serial : Z) : string := "__mf01_numeric_" +:+ pretty serial.

(** The [while True] loop of [emit]: the next unreserved name and serial. *)
Fixpoint fresh (fuel : nat) (reserved : list string) (serial : Z) : option (string * Z) :=
  match fuel with
  | O => None
  | S fuel =>
      let name := numeric_name serial in
      if bool_decide (name ∈ reserved) then fresh fuel reserved (serial + 1)
      else Some (name, serial + 1)
  end.

Definition push (st : lstate) (n : node) : lstate :=
  LState (ls_reserved st) (ls_emitted st ++ [n]) (ls_serial st) (ls_sign st) (ls_biased st).

(** [emit(op, args, imm=...)] with a fresh name; [mk] builds the node. *)
Definition emit (st : lstate) (mk : string -> node) : res (lstate * string) :=
  let* ' (name, serial) :=
    from_option_err OutOfFuel (fresh (S (length (ls_reserved st))) (ls_reserved st) (ls_serial st)) in
  Ok (push (LState (name :: ls_reserved st) (ls_emitted st) serial (ls_sign st) (ls_biased st)) (mk name),
      name).

Definition set_biased (share : bool) (st : lstate) (name value : string) : lstate :=
  if share then
    LState (ls_reserved st) (ls_emitted st) (ls_serial st) (ls_sign st) (<[name := value]> (ls_biased st))
  else st.

(** [translated(name)] *)
Definition translated (share : bool) (sign : string) (st : lstate) (name : string)
    : res (lstate * string) :=
  match (if share then ls_biased st !! name else None) with
  | Some value => Ok (st, value)
  | None =>
      let* ' (st, value) := emit st (fun n => NOp n Add [name; sign]) in
      Ok (set_biased share st name value, value)
  end.

(** The bias [2^31], built once from any available value. *)
Definition ensure_sign (st : lstate) (a : string) : res (lstate * string) :=
  match ls_sign st with
  | Some sign => Ok (st, sign)
  | None =>
      let* ' (st, one) := emit st (fun n => NImm n GeImm a 0) in
      let* ' (st, hi) := emit st (fun n => NImm n AddImm one 32767) in
      let* ' (st, lo) := emit st (fun n => NImm n AddImm one 65535) in
      let* ' (st, sign) := emit st (fun n => NOp n Mul [hi; lo]) in
      Ok (LState (ls_reserved st) (ls_emitted st) (ls_serial st) (Some sign) (ls_biased st), sign)
  end.

(** One iteration of the rewriting loop. *)
Definition lower_numeric_node (share : bool) (st : lstate) (n : node) : res lstate :=
  match n with
  | NOp id o args =>
      if is_signed o then
        let* a := from_option_err IndexError (args !! 0%nat) in
        let* ' (st, sign) := ensure_sign st a in
        let* ' (st, lhs) := translated share sign st a in
        let* ' (st, rhs) :=
          match o with
          | ReluI32 => Ok (st, sign)
          | _ => let* b := from_option_err IndexError (args !! 1%nat) in translated share sign st b
          end in
        let* ' (st, selected) := emit st (fun n => NOp n Max [lhs; rhs]) in
        Ok (set_biased share (push st (NOp id Add [selected; sign])) id selected)
      else Ok (push st n)
  | _ => Ok (push st n)
  end.

Definition lower (nodes result : pyval) (share_transforms : bool) : res (list node) :=
  match nodes with
  | VList nodes =>
      raise_if negb (bool_decide (1 <= Z.of_nat (length nodes) <= 15))
      with "one to fifteen source map nodes required" in
      let* nodes := check_nodes nodes in
      match result with
      | VStr result =>
          raise_if negb (bool_decide (result ∈ map node_id nodes)) with "unknown source result" in
          let* st := foldM (lower_numeric_node share_transforms)
                       (LState (map node_id nodes) [] 0 None ∅) nodes in
          Ok (ls_emitted st)
      | _ => fail "unknown source result"
      end
  | _ => fail "one to fifteen source map nodes required"
  end.

(** The source nodes [lower] admits, as the caller's oracle reads them. *)
Definition source_nodes (nodes : pyval) : res (list node) :=
  match nodes with VList nodes => check_nodes nodes | _ => fail "" end.

Definition relu_example : list node :=
  [NLoad "x" "in"; NLoad "y" "in"; NOp "m" MaxI32 ["x"; "y"]; NOp "r" ReluI32 ["m"];
   NOp "__mf01_numeric_0" Add ["r"; "r"]].

Example lower_example :
  (let* out := lower (VList (map node_val relu_example)) (VStr "r") true in
   Ok (map node_id out)) =
  Ok ["x"; "y"; "__mf01_numeric_1"; "__mf01_numeric_2"; "__mf01_numeric_3"; "__mf01_numeric_4";
      "__mf01_numeric_5"; "__mf01_numeric_6"; "__mf01_numeric_7"; "m"; "__mf01_numeric_8"; "r";
      "__mf01_numeric_0"].
Proof. vm_compute. reflexivity. Qed.
