(* ===== verification/NumericFacts.v ===== *)
(** * Correctness of signed lowering

    Fresh names always exist ([fresh_total]), so [lower] fails only by the
    checks it writes; the rewritten map is unsigned and has the value of the
    source map. *)

From S2P Require Import Prelude PyValue MapSyntax Numeric.

(** ** Fresh names *)

#[local] Instance numeric_name_inj : Inj (=) (=) numeric_name.
Proof. unfold numeric_name. intros x y H. by apply (inj (String.append _)), (inj pretty) in H. Qed.

Lemma fresh_None fuel reserved serial :
  fresh fuel reserved serial = None ->
  map numeric_name (seqZ serial (Z.of_nat fuel)) ⊆ reserved.
Proof.
  revert serial. induction fuel as [|fuel IH]; intros serial H; [by intros x ?%elem_of_nil|].
  cbn [fresh] in H. case_bool_decide as Hin; [|done].
  rewrite seqZ_cons by lia. replace (Z.pred (Z.of_nat (S fuel))) with (Z.of_nat fuel) by lia.
  cbn [map]. intros x [->|Hx]%elem_of_cons; [done|]. by apply (IH (serial + 1)); [|rewrite Z.add_1_r].
Qed.

(** One serial more than there are reserved names is enough. *)
Lemma fresh_total reserved serial :
  exists name serial', fresh (S (length reserved)) reserved serial = Some (name, serial') /\
    name ∉ reserved.
Proof.
  assert (Hspec : forall fuel serial name serial',
    fresh fuel reserved serial = Some (name, serial') -> name ∉ reserved).
  { induction fuel as [|fuel IH]; intros s n s' H; [done|]. cbn [fresh] in H.
    case_bool_decide; [by eapply IH|]. by injection H as <- <-. }
  destruct (fresh _ reserved serial) as [[name serial']|] eqn:E.
  { exists name, serial'. split; [done|]. by eapply Hspec. }
  exfalso. apply fresh_None in E.
  assert (Hnd : NoDup (map numeric_name (seqZ serial (Z.of_nat (S (length reserved)))))).
  { apply NoDup_fmap; [apply _|apply NoDup_seqZ]. }
  pose proof (submseteq_length _ _ (NoDup_submseteq _ _ Hnd E)) as Hlen.
  rewrite length_map, length_seqZ in Hlen. lia.
Qed.

Lemma emit_total st mk : exists st' name, emit st mk = Ok (st', name).
Proof.
  unfold emit. destruct (fresh_total (ls_reserved st) (ls_serial st)) as (name & serial & -> & _).
  cbn. eauto.
Qed.

(** ** The biased order *)

Lemma bias_max a b :
  is_word a -> is_word b ->
  u32 (u32 (Z.max (u32 (a + 2 ^ 31)) (u32 (b + 2 ^ 31))) + 2 ^ 31) = u32 (Z.max (signed32 a) (signed32 b)).
Proof.
  unfold is_word. rewrite MASK_eq. intros Ha Hb. rewrite !u32_mod. unfold signed32.
  change (2 ^ 31) with 2147483648 in *. change (2 ^ 32) with 4294967296 in *.
  repeat case_match; bool_prop; dlia.
Qed.

Lemma bias_involutive v : is_word v -> u32 (u32 (v + 2 ^ 31) + 2 ^ 31) = v.
Proof.
  unfold is_word. rewrite MASK_eq, !u32_mod. intros Hv.
  change (2 ^ 31) with 2147483648 in *. change (2 ^ 32) with 4294967296 in *. dlia.
Qed.

Lemma bias_of_selected s v : is_word s -> v = u32 (s + 2 ^ 31) -> s = u32 (v + 2 ^ 31).
Proof. intros Hs ->. by rewrite bias_involutive. Qed.

(** ** Simulation *)

Section simulation.
Context (load : string -> res Z) (share : bool) (ids : list string).

(** The source environment [e] after the nodes [seen], the environment [e']
    of the emitted nodes, and the rewriter's state. *)
Record inv (seen : list string) (e e' : env) (st : lstate) : Prop := {
  inv_run : foldM (eval_node load) ∅ (ls_emitted st) = Ok e';
  inv_sub : e ⊆ e';
  inv_seen : forall x, is_Some (e !! x) -> x ∈ seen;
  inv_words : words_env e';
  inv_dom : forall x, is_Some (e' !! x) -> x ∈ ls_reserved st;
  inv_ids : ids ⊆ ls_reserved st;
  inv_later : forall x, x ∈ ids -> x ∉ seen -> e' !! x = None;
  inv_sign : forall s, ls_sign st = Some s -> e' !! s = Some (2 ^ 31);
  inv_biased : forall x b, ls_biased st !! x = Some b ->
    exists v, e !! x = Some v /\ e' !! b = Some (u32 (v + 2 ^ 31));
}.

Lemma inv_value seen e e' st x v : inv seen e e' st -> e !! x = Some v -> e' !! x = Some v /\ is_word v.
Proof.
  intros Hi Hx. pose proof (lookup_weaken _ _ _ _ Hx (inv_sub _ _ _ _ Hi)) as Hx'.
  split; [done|]. by eapply (inv_words _ _ _ _ Hi).
Qed.

Lemma run_push st e' n w :
  foldM (eval_node load) ∅ (ls_emitted st) = Ok e' -> eval_word load e' n = Ok w ->
  foldM (eval_node load) ∅ (ls_emitted (push st n)) = Ok (<[node_id n := u32 w]> e').
Proof. intros He Hw. cbn. rewrite foldM_app, He. cbn. unfold eval_node. by rewrite Hw. Qed.

(** Emitting a node under a fresh name extends the environment. *)
Lemma emit_ok seen e e' st mk w :
  inv seen e e' st -> (forall n, node_id (mk n) = n) -> (forall n, eval_word load e' (mk n) = Ok w) ->
  exists st' name, emit st mk = Ok (st', name) /\ inv seen e (<[name := u32 w]> e') st' /\
    e' ⊆ <[name := u32 w]> e' /\ ls_sign st' = ls_sign st /\ ls_biased st' = ls_biased st.
Proof.
  intros Hi Hid Hw. unfold emit.
  destruct (fresh_total (ls_reserved st) (ls_serial st)) as (name & serial & -> & Hfresh). cbn.
  assert (Hnone : e' !! name = None).
  { apply eq_None_not_Some. intros H. by apply Hfresh, (inv_dom _ _ _ _ Hi). }
  eexists _, _. split; [done|]. split; [|split; [by apply insert_subseteq|done]].
  pose proof (insert_subseteq e' name (u32 w) Hnone) as Hsub.
  destruct Hi as [Hrun He Hseen Hwords Hdom Hids Hlater Hsign Hb]. split; cbn.
  - rewrite foldM_app, Hrun. cbn. unfold eval_node. by rewrite Hw, Hid.
  - by etrans.
  - done.
  - by apply words_env_insert.
  - intros x Hx. destruct (decide (x = name)) as [->|Hne]; [constructor|].
    rewrite lookup_insert_ne in Hx by done. right. auto.
  - intros x Hx. right. auto.
  - intros x Hx Hns. rewrite lookup_insert_ne; [auto|]. intros ->. by apply Hfresh, Hids.
  - intros s Hs. eapply lookup_weaken; eauto.
  - intros x b Hx. destruct (Hb _ _ Hx) as (v & ? & ?). exists v. split; [done|].
    eapply lookup_weaken; eauto.
Qed.

Lemma ensure_sign_ok seen e e' st a v :
  inv seen e e' st -> e !! a = Some v ->
  exists st' s e'', ensure_sign st a = Ok (st', s) /\ inv seen e e'' st' /\ e' ⊆ e'' /\
    e'' !! s = Some (2 ^ 31).
Proof.
  intros Hi Ha. unfold ensure_sign. destruct (ls_sign st) as [s|] eqn:Es.
  { exists st, s, e'. split_and!; try done. by apply (inv_sign _ _ _ _ Hi). }
  destruct (inv_value _ _ _ _ _ _ Hi Ha) as [Ha' Hv]. destruct Hv as [Hv _].
  destruct (emit_ok _ _ _ _ (fun n => NImm n GeImm a 0) 1 Hi) as (st1 & one & -> & Hi1 & Hs1 & _); [done| |].
  { intros n. cbn. unfold env_get. rewrite Ha'. cbn. by rewrite (proj2 (Z.leb_le 0 v)). }
  cbn [bind].
  edestruct (emit_ok _ _ _ _ (fun n => NImm n AddImm one 32767) 32768 Hi1) as (st2 & hi & -> & Hi2 & Hs2 & _); [done| |].
  { intros n. cbn. unfold env_get. by rewrite lookup_insert_eq. }
  cbn [bind].
  edestruct (emit_ok _ _ _ _ (fun n => NImm n AddImm one 65535) 65536 Hi2) as (st3 & lo & -> & Hi3 & Hs3 & _); [done| |].
  { intros n. cbn. unfold env_get.
    by rewrite (lookup_weaken _ _ one 1 (lookup_insert_eq _ _ _) Hs2). }
  cbn [bind].
  edestruct (emit_ok _ _ _ _ (fun n => NOp n Mul [hi; lo]) (2 ^ 31) Hi3) as (st4 & s & -> & Hi4 & Hs4 & _ & Hb4); [done| |].
  { intros n. cbn. unfold env_get.
    rewrite (lookup_weaken _ _ hi 32768 (lookup_insert_eq _ _ _) Hs3). cbn.
    by rewrite lookup_insert_eq. }
  cbn [bind]. eexists _, _, _. split; [done|]. split; [|split; [|by rewrite lookup_insert_eq]].
  - destruct Hi4. split; cbn in *; try done. intros ? [= <-]. by rewrite lookup_insert_eq.
  - by do 3 (etrans; [eassumption|]).
Qed.

Lemma set_biased_ok seen e e' st x v b :
  inv seen e e' st -> e !! x = Some v -> e' !! b = Some (u32 (v + 2 ^ 31)) ->
  inv seen e e' (set_biased share st x b).
Proof.
  intros Hi Hx Hb. unfold set_biased. destruct share; [|done].
  destruct Hi as [? ? ? ? ? ? ? ? Hbias]. split; cbn; try done.
  intros y c [[<- <-]|[_ Hy]]%lookup_insert_Some; eauto.
Qed.

Lemma translated_ok seen e e' st s x v :
  inv seen e e' st -> e !! x = Some v -> e' !! s = Some (2 ^ 31) ->
  exists st' b e'', translated share s st x = Ok (st', b) /\ inv seen e e'' st' /\ e' ⊆ e'' /\
    e'' !! b = Some (u32 (v + 2 ^ 31)).
Proof.
  intros Hi Hx Hs. unfold translated.
  destruct (if share then ls_biased st !! x else None) as [b|] eqn:Eb.
  { exists st, b, e'. split_and!; try done. destruct share; [|done].
    destruct (inv_biased _ _ _ _ Hi _ _ Eb) as (v' & ? & ?). congruence. }
  destruct (inv_value _ _ _ _ _ _ Hi Hx) as [Hx' _].
  destruct (emit_ok _ _ _ _ (fun n => NOp n Add [x; s]) (v + 2 ^ 31) Hi)
    as (st1 & b & -> & Hi1 & Hs1 & _); [done| |].
  { intros n. cbn. unfold env_get. rewrite Hx'. cbn. by rewrite Hs. }
  cbn [bind]. eexists _, _, _. split; [done|]. split_and!; [|done|by rewrite lookup_insert_eq].
  eapply set_biased_ok; [done|done|by rewrite lookup_insert_eq].
Qed.

Lemma push_ok seen e e' st n w w' :
  inv seen e e' st -> node_id n ∈ ids -> node_id n ∉ seen ->
  eval_word load e' n = Ok w' -> u32 w' = u32 w ->
  inv (seen ++ [node_id n]) (<[node_id n := u32 w]> e) (<[node_id n := u32 w]> e') (push st n).
Proof.
  intros Hi Hin Hns Hw' Heq. pose proof (inv_later _ _ _ _ Hi _ Hin Hns) as Hnone.
  assert (Hne : forall x v, e' !! x = Some v -> x <> node_id n) by (intros x v ? ->; congruence).
  destruct Hi as [Hrun He Hseen Hwords Hdom Hids Hlater Hsign Hb]. split; cbn.
  - rewrite <- Heq. rewrite foldM_app, Hrun. cbn. unfold eval_node. by rewrite Hw'.
  - by apply insert_mono.
  - intros x Hx. apply elem_of_app. destruct (decide (x = node_id n)) as [->|Hx'].
    + right. constructor.
    + left. apply Hseen. by rewrite lookup_insert_ne in Hx.
  - by apply words_env_insert.
  - intros x Hx. destruct (decide (x = node_id n)) as [->|Hx']; [by apply Hids|].
    apply Hdom. by rewrite lookup_insert_ne in Hx.
  - done.
  - intros x Hx Hxs. rewrite elem_of_app, list_elem_of_singleton in Hxs.
    rewrite lookup_insert_ne by naive_solver. naive_solver.
  - intros s Hs. rewrite lookup_insert_ne; [auto|]. apply not_eq_sym, (Hne _ _ (Hsign _ Hs)).
  - intros x b Hx. destruct (Hb _ _ Hx) as (v & Hv & Hbv). exists v.
    rewrite !lookup_insert_ne; [done| |].
    + apply not_eq_sym, (Hne _ _ Hbv).
    + apply not_eq_sym, (Hne _ v). by eapply lookup_weaken.
Qed.

Lemma args_sub e e' args ws :
  e ⊆ e' -> traverse (env_get e) args = Ok ws -> traverse (env_get e') args = Ok ws.
Proof.
  rewrite !traverse_Ok. intros Hs H. induction H as [|x w l l' Hx _ IH]; constructor; [|done].
  apply env_get_Ok in Hx. apply env_get_Ok. by eapply lookup_weaken.
Qed.

Lemma eval_word_sub e e' n w :
  e ⊆ e' -> eval_word load e n = Ok w -> eval_word load e' n = Ok w.
Proof.
  intros Hs. destruct n as [i v|i o args|i o a imm]; cbn; [done| |]; intros H; res_inv.
  - by rewrite (args_sub _ _ _ _ Hs E).
  - apply env_get_Ok in E. assert (env_get e' a = Ok a0) as ->; [|done].
    apply env_get_Ok. by eapply lookup_weaken.
Qed.

Lemma relu_ok seen e e1 e' st id x :
  inv seen e e' st -> id ∈ ids -> id ∉ seen -> eval_node load e (NOp id ReluI32 [x]) = Ok e1 ->
  exists st' e1', lower_numeric_node share st (NOp id ReluI32 [x]) = Ok st' /\
    inv (seen ++ [id]) e1 e1' st'.
Proof.
  unfold eval_node. cbn. intros Hi Hin Hns H. unfold env_get in H.
  destruct (e !! x) as [v|] eqn:Ev; cbn in H; [|done]. injection H as <-.
  destruct (inv_value _ _ _ _ _ _ Hi Ev) as [_ Hv].
  destruct (ensure_sign_ok _ _ _ _ _ _ Hi Ev) as (st1 & s & e2 & -> & Hi1 & H1 & Hs). cbn [bind].
  destruct (translated_ok _ _ _ _ s _ _ Hi1 Ev Hs) as (st2 & l & e3 & -> & Hi2 & H2 & Hl). cbn [bind].
  pose proof (lookup_weaken _ _ _ _ Hs H2) as Hs3.
  set (sel := Z.max (u32 (v + 2 ^ 31)) (u32 (0 + 2 ^ 31))).
  destruct (emit_ok _ _ _ _ (fun n => NOp n Max [l; s]) sel Hi2) as (st3 & m & -> & Hi3 & H3 & _); [done| |].
  { intros n. cbn. unfold env_get. by rewrite Hl, Hs3. }
  cbn [bind]. eexists _, _. split; [done|].
  assert (Hw : is_word 0) by (split; [done|by rewrite MASK_eq]).
  assert (Heq : u32 (u32 sel + 2 ^ 31) = u32 (Z.max 0 (signed32 v))).
  { unfold sel. rewrite bias_max by done. rewrite Z.max_comm. done. }
  assert (Hm : m <> id).
  { intros ->. pose proof (inv_later _ _ _ _ Hi3 _ Hin Hns) as Hn. by rewrite lookup_insert_eq in Hn. }
  eapply set_biased_ok.
  - eapply (push_ok _ _ _ _ (NOp id Add [m; s]) _ _ Hi3 Hin Hns); [|exact Heq].
    cbn. unfold env_get. rewrite lookup_insert_eq. cbn. by rewrite (lookup_weaken _ _ _ _ Hs3 H3).
  - by rewrite lookup_insert_eq.
  - rewrite lookup_insert_ne, lookup_insert_eq by done. f_equal.
    apply bias_of_selected; [apply u32_word|done].
Qed.

Lemma max_i32_ok seen e e1 e' st id x y :
  inv seen e e' st -> id ∈ ids -> id ∉ seen -> eval_node load e (NOp id MaxI32 [x; y]) = Ok e1 ->
  exists st' e1', lower_numeric_node share st (NOp id MaxI32 [x; y]) = Ok st' /\
    inv (seen ++ [id]) e1 e1' st'.
Proof.
  unfold eval_node. cbn. intros Hi Hin Hns H. unfold env_get in H.
  destruct (e !! x) as [v|] eqn:Ev; cbn in H; [|done].
  destruct (e !! y) as [u|] eqn:Eu; cbn in H; [|done]. injection H as <-.
  destruct (inv_value _ _ _ _ _ _ Hi Ev) as [_ Hv]. destruct (inv_value _ _ _ _ _ _ Hi Eu) as [_ Hu].
  destruct (ensure_sign_ok _ _ _ _ _ _ Hi Ev) as (st1 & s & e2 & -> & Hi1 & H1 & Hs). cbn [bind].
  destruct (translated_ok _ _ _ _ s _ _ Hi1 Ev Hs) as (st2 & l & e3 & -> & Hi2 & H2 & Hl). cbn [bind].
  pose proof (lookup_weaken _ _ _ _ Hs H2) as Hs3.
  destruct (translated_ok _ _ _ _ s _ _ Hi2 Eu Hs3) as (st3 & r & e4 & -> & Hi3 & H3 & Hr). cbn [bind].
  pose proof (lookup_weaken _ _ _ _ Hs3 H3) as Hs4. pose proof (lookup_weaken _ _ _ _ Hl H3) as Hl4.
  set (sel := Z.max (u32 (v + 2 ^ 31)) (u32 (u + 2 ^ 31))).
  destruct (emit_ok _ _ _ _ (fun n => NOp n Max [l; r]) sel Hi3) as (st4 & m & -> & Hi4 & H4 & _); [done| |].
  { intros n. cbn. unfold env_get. by rewrite Hl4, Hr. }
  cbn [bind]. eexists _, _. split; [done|].
  assert (Heq : u32 (u32 sel + 2 ^ 31) = u32 (Z.max (signed32 v) (signed32 u))).
  { unfold sel. by rewrite bias_max. }
  assert (Hm : m <> id).
  { intros ->. pose proof (inv_later _ _ _ _ Hi4 _ Hin Hns) as Hn. by rewrite lookup_insert_eq in Hn. }
  eapply set_biased_ok.
  - eapply (push_ok _ _ _ _ (NOp id Add [m; s]) _ _ Hi4 Hin Hns); [|exact Heq].
    cbn. unfold env_get. rewrite lookup_insert_eq. cbn. by rewrite (lookup_weaken _ _ _ _ Hs4 H4).
  - by rewrite lookup_insert_eq.
  - rewrite lookup_insert_ne, lookup_insert_eq by done. f_equal.
    apply bias_of_selected; [apply u32_word|done].
Qed.

Lemma lower_numeric_node_ok seen e e1 e' st n :
  inv seen e e' st -> node_id n ∈ ids -> node_id n ∉ seen -> eval_node load e n = Ok e1 ->
  exists st' e1', lower_numeric_node share st n = Ok st' /\ inv (seen ++ [node_id n]) e1 e1' st'.
Proof.
  intros Hi Hin Hns H.
  assert ((exists i o args, n = NOp i o args /\ is_signed o = true) \/
    lower_numeric_node share st n = Ok (push st n)) as [(i & o & args & -> & Ho)|Hu].
  { destruct n as [|i o args|]; [by right| |by right]. cbn.
    destruct (is_signed o) eqn:Ho; [left; eauto|by right]. }
  { destruct (eval_word load e (NOp i o args)) as [w|] eqn:E; [|by unfold eval_node in H; rewrite E in H].
    cbn in E. destruct (traverse (env_get e) args) as [vs|] eqn:Ea; [|done]. cbn in E.
    apply traverse_length in Ea.
    destruct o; try discriminate Ho; cbn in E.
    - destruct vs as [|? [|? [|]]], args as [|x [|y [|]]]; try discriminate. by eapply max_i32_ok.
    - destruct vs as [|? [|]], args as [|x [|]]; try discriminate. by eapply relu_ok. }
  unfold eval_node in H. destruct (eval_word load e n) as [w|] eqn:E; cbn in H; [|done].
  injection H as <-. exists (push st n), (<[node_id n := u32 w]> e'). split; [done|].
  eapply push_ok; try done. eapply eval_word_sub; [by eapply inv_sub|done].
Qed.

Lemma lower_numeric_nodes_ok nodes seen e e1 e' st :
  inv seen e e' st -> (forall n, n ∈ nodes -> node_id n ∈ ids) ->
  well_scoped (fun _ => True) seen nodes ->
  foldM (eval_node load) e nodes = Ok e1 ->
  exists st' e1', foldM (lower_numeric_node share) st nodes = Ok st' /\
    inv (seen ++ map node_id nodes) e1 e1' st'.
Proof.
  revert seen e e' st. induction nodes as [|n nodes IH]; intros seen e e' st Hi Hids Hws H; cbn in H.
  { injection H as <-. exists st, e'. by rewrite app_nil_r. }
  res_inv. destruct Hws as (Hns & _ & _ & Hws).
  destruct (lower_numeric_node_ok _ _ _ _ _ _ Hi (Hids n (list_elem_of_here _ _)) Hns E)
    as (st1 & e2 & Hst & Hi1).
  cbn [foldM map]. rewrite Hst. cbn [bind]. rewrite cons_middle, app_assoc.
  eapply IH; [done| |done|done]. intros; apply Hids; by right.
Qed.
End simulation.

(** ** What [lower] admits and emits *)

Lemma source_arg_Ok seen l args :
  traverse (source_arg seen) l = Ok args -> forall a, a ∈ args -> a ∈ seen.
Proof.
  rewrite traverse_Ok. induction 1 as [|v b l args Hv _ IH]; intros a Ha; [by apply elem_of_nil in Ha|].
  apply elem_of_cons in Ha as [->|Ha]; [|auto]. unfold source_arg in Hv. res_inv. by bool_prop.
Qed.

Lemma check_node_Ok seen v n :
  check_node seen v = Ok n ->
  (node_id n ∉ seen) /\ (forall a, a ∈ node_args n -> a ∈ seen) /\
  match n with
  | NLoad _ _ => True
  | NOp _ o args => length args = op_arity o
  | NImm _ _ _ imm => 0 <= imm < 2 ^ 22
  end.
Proof.
  unfold check_node. intros H. repeat (res_step; cbn beta iota in * ).
  all: bool_prop; cbn [node_id node_args].
  all: match goal with H : traverse _ _ = Ok _ |- _ =>
         pose proof (traverse_length _ _ _ H); pose proof (source_arg_Ok _ _ _ H) end.
  all: match goal with H : (_ =? _)%nat = true |- _ => apply Nat.eqb_eq in H end.
  - split_and!; [done|by intros ? ?%elem_of_nil|done].
  - split_and!; [done|done|]. cbn in *. congruence.
  - split; [done|]. split; [|done].
    intros x ->%list_elem_of_singleton. eauto using list_elem_of_lookup_2.
Qed.

Lemma check_nodes_Ok l ns :
  check_nodes l = Ok ns -> length ns = length l /\ well_scoped (fun _ => True) [] ns.
Proof.
  unfold check_nodes. intros E.
  enough (Hgen : forall st, foldM (fun (st : list node) value =>
      let* n := check_node (map node_id st) value in Ok (st ++ [n])) st l = Ok ns ->
    exists new, ns = st ++ new /\ length new = length l /\
      well_scoped (fun _ => True) (map node_id st) new).
  { destruct (Hgen _ E) as (new & -> & ? & ?). done. }
  clear E. induction l as [|v l IH]; intros st H; cbn in H; res_inv.
  { exists []. by rewrite app_nil_r. }
  destruct (IH _ H) as (new & -> & Hlen & Hws). apply check_node_Ok in E0 as (? & ? & ?).
  exists (a0 :: new). rewrite <- app_assoc. cbn [length]. split_and!; [done|lia|].
  rewrite map_app in Hws. by cbn; split_and!.
Qed.

Lemma push_unsigned st n :
  Forall unsigned_node (ls_emitted st) -> unsigned_node n -> Forall unsigned_node (ls_emitted (push st n)).
Proof. intros. apply Forall_app. auto. Qed.

Lemma emit_unsigned st mk st' x :
  Forall unsigned_node (ls_emitted st) -> (forall n, unsigned_node (mk n)) ->
  emit st mk = Ok (st', x) -> Forall unsigned_node (ls_emitted st').
Proof. unfold emit. intros Hu Hmk H. res_inv. by apply push_unsigned. Qed.

Lemma translated_unsigned share s st x st' b :
  Forall unsigned_node (ls_emitted st) -> translated share s st x = Ok (st', b) ->
  Forall unsigned_node (ls_emitted st').
Proof.
  unfold translated. intros Hu H. res_inv; [done|]. unfold set_biased.
  match goal with H : emit _ _ = Ok _ |- _ => apply emit_unsigned in H; [|done..] end.
  by destruct share.
Qed.

Lemma ensure_sign_unsigned st a st' s :
  Forall unsigned_node (ls_emitted st) -> ensure_sign st a = Ok (st', s) ->
  Forall unsigned_node (ls_emitted st').
Proof.
  unfold ensure_sign. intros Hu H. res_inv; [done|]. cbn.
  repeat match goal with H : emit _ _ = Ok _ |- _ => apply emit_unsigned in H; [|done..] end. done.
Qed.

Lemma lower_numeric_node_unsigned share st n st' :
  Forall unsigned_node (ls_emitted st) -> lower_numeric_node share st n = Ok st' ->
  Forall unsigned_node (ls_emitted st').
Proof.
  unfold lower_numeric_node. intros Hu H. destruct n as [i v|i o args|i o a imm].
  - injection H as <-. by apply push_unsigned.
  - destruct (is_signed o) eqn:Ho; [|injection H as <-; by apply push_unsigned].
    res_inv.
    all: match goal with H : ensure_sign _ _ = Ok _ |- _ => apply ensure_sign_unsigned in H; [|done] end.
    all: repeat match goal with H : translated _ _ _ _ = Ok _ |- _ => apply translated_unsigned in H; [|done] end.
    all: match goal with H : emit _ _ = Ok _ |- _ => apply emit_unsigned in H; [|done..] end.
    all: unfold set_biased; destruct share; apply push_unsigned; done.
  - injection H as <-. by apply push_unsigned.
Qed.

Lemma lower_inv nodes result share out :
  lower nodes result share = Ok out ->
  exists l src r st, nodes = VList l /\ result = VStr r /\ check_nodes l = Ok src /\
    (1 <= length src <= 15)%nat /\ well_scoped (fun _ => True) [] src /\ r ∈ map node_id src /\
    foldM (lower_numeric_node share) (LState (map node_id src) [] 0 None ∅) src = Ok st /\
    out = ls_emitted st.
Proof.
  unfold lower. intros H. res_inv. bool_prop.
  match goal with H : check_nodes _ = Ok _ |- _ => pose proof (check_nodes_Ok _ _ H) as [? ?] end.
  eexists _, _, _, _. split_and!; try done; lia.
Qed.

Lemma inv_start load ids : inv load ids [] ∅ ∅ (LState ids [] 0 None ∅).
Proof.
  split; cbn; try done.
  - by intros x [? ?%lookup_empty_Some].
  - by intros x [? ?%lookup_empty_Some].
Qed.

(** What the rewritten map computes, whichever way transforms are shared. *)
Lemma lower_value load nodes result share out :
  (forall v, exists w, load v = Ok w) -> lower nodes result share = Ok out ->
  exists src r w, source_nodes nodes = Ok src /\ result = VStr r /\
    eval_nodes load src r = Ok w /\ eval_nodes load out r = Ok w.
Proof.
  intros Hload H. destruct (lower_inv _ _ _ _ H) as (l & src & r & st & -> & -> & Hsrc & _ & Hws & Hr & Hst & ->).
  destruct (eval_nodes_total (fun _ => True) load src r) as (w & Hw & _); [auto|done|done|].
  exists src, r, w. split_and!; try done.
  unfold eval_nodes in *. res_inv.
  destruct (lower_numeric_nodes_ok load share (map node_id src) src [] ∅ a ∅ (LState (map node_id src) [] 0 None ∅))
    as (st' & e' & Hst' & Hi); [apply inv_start| |done|done|].
  { intros n Hn. by apply list_elem_of_In, in_map, list_elem_of_In. }
  assert (st' = st) as -> by congruence.
  rewrite (inv_run _ _ _ _ _ _ Hi). cbn. apply env_get_Ok. apply env_get_Ok in Hw.
  eapply lookup_weaken; [done|by eapply inv_sub].
Qed.

(** C37. Signed lowering keeps the value of a map on every input, with or without
    shared transforms. *)
Theorem lower_preserves load nodes result share out :
  (forall v, exists w, load v = Ok w) -> lower nodes result share = Ok out ->
  exists src r w, source_nodes nodes = Ok src /\ result = VStr r /\
    eval_nodes load src r = Ok w /\ eval_nodes load out r = Ok w.
Proof. apply lower_value. Qed.

Lemma lower_preserves_witness :
  exists out src r w,
    lower (VList (map node_val relu_example)) (VStr "r") true = Ok out /\
    source_nodes (VList (map node_val relu_example)) = Ok src /\ VStr "r" = VStr r /\
    eval_nodes (fun v => Ok (2 ^ 31 + 5)) src r = Ok w /\
    eval_nodes (fun v => Ok (2 ^ 31 + 5)) out r = Ok w.
Proof.
  destruct (lower (VList (map node_val relu_example)) (VStr "r") true) as [out|] eqn:E;
    [|vm_compute in E; discriminate E].
  exists out. destruct (lower_preserves (fun v => Ok (2 ^ 31 + 5)) _ _ true out (fun _ => ex_intro _ _ eq_refl) E)
    as (src & r & w & H). exists src, r, w. split; [reflexivity|exact H].
Defined.

(** C38. The rewritten map uses only operations of the unsigned machine. *)
Theorem lower_unsigned nodes result share out :
  lower nodes result share = Ok out -> Forall unsigned_node out.
Proof.
  intros H. destruct (lower_inv _ _ _ _ H) as (l & src & r & st & _ & _ & _ & _ & _ & _ & Hst & ->).
  refine (foldM_inv (fun st => Forall unsigned_node (ls_emitted st)) _ _ _ _ _ _ Hst); [constructor|].
  intros s n s' _. apply lower_numeric_node_unsigned.
Qed.

Lemma lower_unsigned_witness :
  exists out, lower (VList (map node_val relu_example)) (VStr "r") true = Ok out /\ Forall unsigned_node out.
Proof.
  destruct (lower (VList (map node_val relu_example)) (VStr "r") true) as [out|] eqn:E;
    [|vm_compute in E; discriminate E].
  exists out. split; [reflexivity|]. exact (lower_unsigned _ _ true out E).
Defined.

(** ** Errors *)

Lemma check_node_veo seen v : value_error_only (check_node seen v).
Proof.
  unfold check_node. veo; try (unfold source_arg; veo). bool_prop.
  match goal with H : traverse _ _ = Ok _ |- _ => apply traverse_length in H as Hl end.
  match goal with H : (_ =? _)%nat = true |- _ => apply Nat.eqb_eq in H; rewrite H in Hl end.
  apply veo_lookup, lookup_lt_is_Some_2. cbn in Hl. lia.
Qed.

Lemma lower_numeric_node_total share st n :
  match n with NOp _ o args => length args = op_arity o | _ => True end ->
  exists st', lower_numeric_node share st n = Ok st'.
Proof.
  assert (Htr : forall s st x, exists st' b, translated share s st x = Ok (st', b)).
  { intros s st0 x. unfold translated. case_match; [eauto|].
    match goal with |- context [emit ?st ?mk] => destruct (emit_total st mk) as (? & ? & ->) end.
    cbn. eauto. }
  assert (Hsg : forall st x, exists st' b, ensure_sign st x = Ok (st', b)).
  { intros st0 x. unfold ensure_sign. case_match; [eauto|].
    do 4 (match goal with |- context [emit ?st ?mk] => destruct (emit_total st mk) as (? & ? & ->) end; cbn).
    eauto. }
  intros Hn. destruct n as [|i o args|]; cbn; [eauto| |eauto].
  destruct (is_signed o) eqn:Ho; [|eauto].
  destruct args as [|a args]; [by destruct o|]. cbn.
  destruct (Hsg st a) as (st1 & s & ->). cbn. destruct (Htr s st1 a) as (st2 & b & ->). cbn.
  destruct o; try discriminate Ho.
  - destruct args as [|b' [|]]; try discriminate Hn. cbn.
    destruct (Htr s st2 b') as (st3 & c & ->). cbn.
    match goal with |- context [emit ?st ?mk] => destruct (emit_total st mk) as (? & ? & ->) end. cbn. eauto.
  - cbn. match goal with |- context [emit ?st ?mk] => destruct (emit_total st mk) as (? & ? & ->) end. cbn. eauto.
Qed.

(** [lower] returns, or raises [ValueError]: its name search always ends and no
    subscript fails. *)
Theorem lower_value_error_only nodes result share : value_error_only (lower nodes result share).
Proof.
  unfold lower. destruct nodes as [| | | | |l|]; try exact I. veo.
  - unfold check_nodes. apply (veo_foldM (fun _ _ => True)); [done|].
    intros s x l' _. split; [|done]. apply veo_bind; [apply check_node_veo|done].
  - match goal with H : check_nodes _ = Ok ?src |- _ => apply check_nodes_Ok in H as [_ Hws] end.
    apply (veo_foldM (fun _ l => exists seen, well_scoped (fun _ => True) seen l)); [by eexists|].
    intros st n l' [seen (_ & _ & Hn & Hws')].
    destruct (lower_numeric_node_total share st n) as [st' Hst'].
    { by destruct n. }
    rewrite Hst'. split; [done|]. intros. by eexists.
Qed.
