(* ===== verification/FoldDagFacts.v ===== *)
(** * Live results keep their slots

    [compile_session] admits a session only when every link names an earlier
    job and a range of its output ([links_ok]) and assigns slots so that two
    results live at the same time share none ([slots_ok]). [DagRun] uses both
    to prove that a session computes the composition of its jobs. *)

From S2P Require Import Prelude PyValue AffineFold AffineFoldFacts FoldMachine FoldMachineFacts FoldWire FoldLines.
From S2P Require Import Project FoldDag.

(** ** The slot loop *)

Section slots.
Context (last chunks : list Z) (sources offsets lengths : list (list Z)).

Definition reads_of (i : Z) : list (Z * Z) :=
  job_reads (at_ [] sources i) (at_ [] offsets i) (at_ [] lengths i).

(** The slots given to the first [n] jobs. *)
Record slots_ok (slots : list (list Z)) (n : Z) : Prop := {
  so_length : Z.of_nat (length slots) = n;
  so_chunks : forall k, 0 <= k < n -> Z.of_nat (length (at_ [] slots k)) = Z.max 0 (at_ 0 chunks k);
  so_nodup : forall k, 0 <= k < n -> NoDup (at_ [] slots k);
  so_range : forall k s, 0 <= k < n -> s ∈ at_ [] slots k -> 0 <= s < 8;
  so_disjoint : forall j k, 0 <= j < k -> k < n -> k <= at_ 0 last j -> at_ [] slots j ## at_ [] slots k;
  so_four : forall k, 0 <= k < n -> Z.of_nat (length (reads_of k)) + at_ 0 chunks k <= 4;
}.

(** A slot of a result that is still live belongs to it. *)
Definition owned (owners : list (option Z)) (slots : list (list Z)) (n : Z) : Prop :=
  length owners = 8%nat /\
  forall k s, 0 <= k < n -> n <= at_ 0 last k -> s ∈ at_ [] slots k -> at_ None owners s = Some k.

Lemma foldl_set_at {A} (d x : A) l sel s :
  (forall i, i ∈ sel -> 0 <= i < Z.of_nat (length l)) -> 0 <= s ->
  at_ d (foldl (fun l i => set_at l i x) l sel) s = (if bool_decide (s ∈ sel) then x else at_ d l s) /\
  length (foldl (fun l i => set_at l i x) l sel) = length l.
Proof.
  intros Hr Hs. revert l Hr. induction sel as [|i sel IH]; intros l Hr; [by cbn|]. cbn [foldl].
  destruct (IH (set_at l i x)) as [-> ->].
  { rewrite length_set_at. intros; apply Hr. by right. }
  rewrite length_set_at. split; [|done].
  assert (Hi : 0 <= i < Z.of_nat (length l)) by (apply Hr; left).
  destruct (decide (s ∈ sel)) as [Hin|Hin].
  - rewrite !bool_decide_true; [done| |done]. by right.
  - rewrite (bool_decide_false (s ∈ sel)) by done. destruct (decide (s = i)) as [->|Hne].
    + rewrite at_set_eq, bool_decide_true by (lia || constructor). done.
    + rewrite at_set_ne, bool_decide_false by (lia || (rewrite elem_of_cons; tauto)). done.
Qed.

(** The indices of the entries of [l] that pass a test. *)
Lemma filter_enumerate {A} (d : A) (f : A -> bool) (l : list A) i :
  i ∈ map fst (List.filter (fun x => f x.2) (enumerate l)) <->
  0 <= i < Z.of_nat (length l) /\ f (at_ d l i) = true.
Proof.
  rewrite list_elem_of_fmap. setoid_rewrite list_elem_of_In. setoid_rewrite filter_In.
  setoid_rewrite <- list_elem_of_In. split.
  - intros ([i' x] & -> & Hin & Hf). apply elem_of_enumerate in Hin as [Hi Hx]. cbn in *.
    apply lookup_lt_Some in Hx as Hlt. unfold at_. rewrite (nth_lookup_Some _ _ _ _ Hx). split; [lia|done].
  - intros [Hi Hf]. destruct (lookup_lt_is_Some_2 l (Z.to_nat i)) as [x Hx]; [lia|].
    exists (i, x). unfold at_ in Hf. rewrite (nth_lookup_Some _ _ _ _ Hx) in Hf.
    split; [done|]. split; [|done]. apply elem_of_enumerate. by split; [lia|].
Qed.

Lemma NoDup_filter_enumerate {A} (f : Z * A -> bool) (l : list A) :
  NoDup (map fst (List.filter f (enumerate l))).
Proof.
  assert (NoDup (map fst (enumerate l))) as H.
  { rewrite enumerate_fst. apply NoDup_seqZ. }
  revert H. generalize (enumerate l) as el. induction el as [|[i x] el IH]; cbn; [done|].
  intros [Hi Hel]%NoDup_cons. destruct (f (i, x)); cbn; [|auto].
  apply NoDup_cons. split; [|auto]. contradict Hi.
  apply list_elem_of_fmap in Hi as (y & -> & Hy). apply list_elem_of_fmap. exists y. split; [done|].
  apply list_elem_of_In, filter_In in Hy as [Hy _]. by apply list_elem_of_In.
Qed.

Lemma assign_slots_ok n owners slots owners' slots' :
  0 <= n -> slots_ok slots n -> owned owners slots n ->
  assign_slots last chunks sources offsets lengths (owners, slots) n = Ok (owners', slots') ->
  slots_ok slots' (n + 1) /\ owned owners' slots' (n + 1).
Proof.
  intros Hn Hso How H. unfold assign_slots in H. res_inv. bool_prop.
  destruct Hso as [Hlen Hch Hnd Hrg Hdj H4]. destruct How as [Howl Hown]. fold (reads_of n) in *.
  set (test := fun so : Z * option Z => match so.2 with None => true | Some owner => at_ 0 last owner <? n end) in *.
  set (free := map fst (List.filter test (enumerate owners))) in *.
  set (sel := take (Z.to_nat (at_ 0 chunks n)) free) in *.
  assert (Hfree : forall s, s ∈ sel -> 0 <= s < 8 /\
      match at_ None owners s with None => True | Some o => at_ 0 last o < n end).
  { intros s Hs. apply elem_of_take in Hs as (j & Hj & _). apply list_elem_of_lookup_2 in Hj.
    apply (filter_enumerate None (fun so => match so with None => true | Some o => at_ 0 last o <? n end)) in Hj as [? Ht].
    split; [lia|]. destruct (at_ None owners s); [by apply Z.ltb_lt|done]. }
  assert (Hsel : Z.of_nat (length sel) = Z.max 0 (at_ 0 chunks n)).
  { unfold sel. rewrite length_take. unfold free in *. lia. }
  assert (Hold : forall k, 0 <= k < n -> at_ [] (slots ++ [sel]) k = at_ [] slots k) by (intros; apply at_app_l; lia).
  assert (Hnew : at_ [] (slots ++ [sel]) n = sel) by (rewrite <- Hlen; apply at_app_last).
  assert (Hlive : forall k, 0 <= k < n -> n <= at_ 0 last k -> at_ [] slots k ## sel).
  { intros k Hk Hl s Hs Hs'. destruct (Hfree s Hs') as [_ Hf]. rewrite (Hown k s) in Hf by done. lia. }
  split.
  - split.
    + rewrite length_app. cbn. lia.
    + intros k Hk. destruct (decide (k = n)) as [->|]; [by rewrite Hnew|]. rewrite Hold by lia. apply Hch. lia.
    + intros k Hk. destruct (decide (k = n)) as [->|]; [|rewrite Hold by lia; apply Hnd; lia].
      rewrite Hnew. apply (sublist_NoDup _ free); [apply NoDup_filter_enumerate|apply sublist_take].
    + intros k s Hk. destruct (decide (k = n)) as [->|]; [|rewrite Hold by lia; apply Hrg; lia].
      rewrite Hnew. intros Hs. by apply Hfree.
    + intros j k Hj Hk Hl. rewrite (Hold j) by lia. destruct (decide (k = n)) as [->|].
      * rewrite Hnew. apply Hlive; lia.
      * rewrite Hold by lia. apply Hdj; lia.
    + intros k Hk. destruct (decide (k = n)) as [->|]; [lia|]. apply H4. lia.
  - assert (Hset : forall s, 0 <= s ->
      at_ None (foldl (fun o s => set_at o s (Some n)) owners sel) s =
        (if bool_decide (s ∈ sel) then Some n else at_ None owners s) /\
      length (foldl (fun o s => set_at o s (Some n)) owners sel) = length owners).
    { intros s Hs. apply foldl_set_at; [|done]. intros i Hi. rewrite Howl. by apply Hfree. }
    split; [destruct (Hset 0) as [_ ->]; done|].
    intros k s Hk Hl Hs. destruct (decide (k = n)) as [->|].
    + rewrite Hnew in Hs. destruct (Hset s) as [-> _]; [by apply Hfree|]. by rewrite bool_decide_true.
    + rewrite Hold in Hs by lia. destruct (Hset s) as [-> _]; [apply (Hrg k s); [lia|done]|].
      rewrite bool_decide_false; [apply Hown; [lia|lia|done]|].
      intros Hs'. exact (Hlive k ltac:(lia) ltac:(lia) s Hs Hs').
Qed.

Lemma assign_all_ok n owners slots :
  0 <= n ->
  foldM (assign_slots last chunks sources offsets lengths) (replicate 8 None, []) (zseq n) = Ok (owners, slots) ->
  slots_ok slots n.
Proof.
  intros Hn H. enough (slots_ok slots n /\ owned owners slots n) by tauto. revert owners slots H.
  pattern n. apply natlike_ind; [| |done]; clear n Hn.
  - intros owners slots [= <- <-]. split; split; try done; try (intros; lia).
  - intros n Hn IH owners slots H. rewrite <- Z.add_1_r in *. rewrite zseq_succ, foldM_app in H by done.
    cbn [foldM] in H. res_inv.
    destruct a as [o s]. destruct (IH _ _ eq_refl) as [Hs Ho].
    by eapply assign_slots_ok.
Qed.
End slots.

(** ** Operands and the reference interpreter *)

(** A value the reference interpreter reads as the words [ws], [n] of them. *)
Definition operand_words (n : Z) (v : pyval) (ws : list Z) : Prop :=
  seq_items v = Some (map VInt ws) /\ Z.of_nat (length ws) = n /\ Forall is_word ws.

Lemma operand_words_val n ws : Z.of_nat (length ws) = n -> Forall is_word ws -> operand_words n (words_val ws) ws.
Proof. done. Qed.

Lemma read_inputs_operands x y a b la lb :
  operand_words la x a -> operand_words lb y b -> read_inputs (VList [x; y]) [VInt la; VInt lb] = Ok [a; b].
Proof.
  intros (Hx & <- & Ha) (Hy & <- & Hb). unfold read_inputs. cbn. rewrite Hx, Hy, !length_map. cbn.
  rewrite !Z.eqb_refl. cbn.
  assert (forall l, Forall is_word l -> traverse (fun w => _int w 0 MASK) (map VInt l) = Ok l) as Hl.
  { intros l Hl. by apply traverse_int_Ok. }
  by rewrite !Hl.
Qed.

Lemma read_inputs_Ok x y la lb ins :
  read_inputs (VList [x; y]) [VInt la; VInt lb] = Ok ins ->
  exists a b, operand_words la x a /\ operand_words lb y b.
Proof.
  unfold read_inputs. cbn [length Nat.eqb negb]. intros H. cbn [zip zip_with] in H.
  apply traverse_Ok in H. inversion H as [|? a ? t Ha Ht]; subst. inversion Ht as [|? b ? t' Hb _]; subst.
  assert (Hop : forall v n ws, match seq_items v with
      | Some items => raise_if negb (pyval_eqb (VInt (Z.of_nat (length items))) (VInt n)) with "input length mismatch" in
                      traverse (fun w => _int w 0 MASK) items
      | None => fail "input length mismatch" end = Ok ws -> operand_words n v ws).
  { intros v n ws Hv. unfold operand_words. destruct (seq_items v) as [items|]; [|done]. res_inv. bool_prop.
    apply traverse_int_Ok in Hv as [-> Hw]. cbn in E. rewrite length_map in E. bool_prop. done. }
  exists a, b. by split; apply Hop.
Qed.

(** A region's value on operands that hold words. *)
Lemma reference_operands d c x y a b :
  compile_region d = Ok c -> operand_words (cfg c 5) x a -> operand_words (cfg c 6) y b ->
  exists out, reference d (VList [x; y]) = Ok out /\ reference d (VList [words_val a; words_val b]) = Ok out /\
    Forall is_word out /\ Z.of_nat (length out) = cfg c 1 * cfg c 2.
Proof.
  intros Hc Hx Hy.
  destruct (reference_evaluate d c a b 0 Hc) as (out & Hr & _ & Hw & Hl); [apply Hx|apply Hy|apply Hx|apply Hy|].
  exists out. split_and!; [|done..]. rewrite <- Hr. unfold reference.
  destruct (compile_region_ok _ _ Hc) as (t & ws & Hadm & _ & _ & -> & _).
  rewrite Hc. cbn [bind]. rewrite Hadm. cbn [bind].
  change (rg_lengths (untyped t)) with [VInt (t_la t); VInt (t_lb t)].
  rewrite (read_inputs_operands x y a b) by done.
  by rewrite (read_inputs_operands (words_val a) (words_val b) a b) by (apply operand_words_val; apply Hx || apply Hy).
Qed.

(** What a successful [reference] says about its operands. *)
Lemma reference_reads d x y out :
  reference d (VList [x; y]) = Ok out ->
  exists c a b, compile_region d = Ok c /\ operand_words (cfg c 5) x a /\ operand_words (cfg c 6) y b.
Proof.
  unfold reference. intros H.
  destruct (compile_region d) as [c|] eqn:Hc; [|discriminate H]. cbn [bind] in H.
  destruct (compile_region_ok _ _ Hc) as (t & ws & Hadm & _ & _ & -> & _).
  rewrite Hadm in H. cbn [bind] in H.
  change (rg_lengths (untyped t)) with [VInt (t_la t); VInt (t_lb t)] in H.
  destruct (read_inputs _ _) as [ins|] eqn:E in H; [|discriminate H].
  apply read_inputs_Ok in E as (a & b & Ha & Hb). by exists (tconfig t ws), a, b.
Qed.

Lemma cells_range d c : compile_region d = Ok c -> 1 <= cfg c 1 * cfg c 2 <= 256.
Proof.
  intros Hc. destruct (compile_region_ok _ _ Hc) as (t & ws & _ & Ht & _ & -> & _).
  change (cfg (tconfig t ws) 1) with (t_rows t). change (cfg (tconfig t ws) 2) with (t_cols t).
  destruct Ht. nia.
Qed.

(** ** The admission loop *)

Definition no_job : dag_job := DagJob "" VNone [].

(** An operand of job [i]: literal words, or a range of an earlier result that
    stays live until job [i]. *)
Definition operand_ok (counts last : list Z) (i source offset length_ : Z) (operand : pyval) : Prop :=
  (source = LITERAL /\ exists ws, operand_words length_ operand ws) \/
  (0 <= source < i /\ i <= at_ 0 last source /\
   0 <= offset /\ 1 <= length_ /\ offset + length_ <= at_ 0 counts source).

Definition job_ok (counts last : list Z) (i : Z) (job : dag_job) (count : Z)
    (sources offsets lengths : list Z) : Prop :=
  exists config x y sx sy ox oy,
    dj_inputs job = [x; y] /\ compile_region (dj_region job) = Ok config /\
    count = cfg config 1 * cfg config 2 /\ sources = [sx; sy] /\ offsets = [ox; oy] /\
    lengths = [cfg config 5; cfg config 6] /\
    operand_ok counts last i sx ox (cfg config 5) x /\ operand_ok counts last i sy oy (cfg config 6) y.

(** The lists of a session's first [n] jobs. *)
Record links_ok (jobs : list dag_job) (counts last chunks : list Z) (sources offsets lengths : list (list Z))
    (n : Z) : Prop := {
  lo_jobs : Z.of_nat (length jobs) = n;
  lo_counts : Z.of_nat (length counts) = n;
  lo_last : Z.of_nat (length last) = n;
  lo_chunks : chunks = map chunks_of counts;
  lo_sources : Z.of_nat (length sources) = n;
  lo_offsets : Z.of_nat (length offsets) = n;
  lo_lengths : Z.of_nat (length lengths) = n;
  lo_job : forall i, 0 <= i < n ->
    job_ok counts last i (at_ no_job jobs i) (at_ 0 counts i) (at_ [] sources i) (at_ [] offsets i) (at_ [] lengths i);
}.

Definition last_ok (last : list Z) (n : Z) : Prop :=
  Z.of_nat (length last) = n /\ forall k, 0 <= k < n -> k <= at_ 0 last k <= n.

Lemma operand_ok_mono counts counts' last last' i s o l v :
  (forall k, 0 <= k < i -> at_ 0 counts' k = at_ 0 counts k) ->
  (forall k, 0 <= k < i -> at_ 0 last k <= at_ 0 last' k) ->
  operand_ok counts last i s o l v -> operand_ok counts' last' i s o l v.
Proof.
  intros Hc Hl [?|(? & ? & ? & ? & ?)]; [by left|]. right. rewrite Hc by done.
  pose proof (Hl s). split_and!; (done || lia).
Qed.

Lemma job_ok_mono counts counts' last last' i job count ss os ls :
  (forall k, 0 <= k < i -> at_ 0 counts' k = at_ 0 counts k) ->
  (forall k, 0 <= k < i -> at_ 0 last k <= at_ 0 last' k) ->
  job_ok counts last i job count ss os ls -> job_ok counts' last' i job count ss os ls.
Proof.
  intros Hc Hl (config & x & y & sx & sy & ox & oy & ? & ? & ? & ? & ? & ? & ? & ?).
  exists config, x, y, sx, sy, ox, oy. split_and!; try done; eapply operand_ok_mono; done.
Qed.

(** One more job at the end of the lists. *)
Lemma links_ok_snoc jobs counts last last' chunks sources offsets lengths n job count ss os ls :
  links_ok jobs counts last chunks sources offsets lengths n -> 0 <= n ->
  Z.of_nat (length last') = n -> (forall k, 0 <= k < n -> at_ 0 last k <= at_ 0 last' k) ->
  job_ok counts last' n job count ss os ls ->
  links_ok (jobs ++ [job]) (counts ++ [count]) (last' ++ [n]) (chunks ++ [chunks_of count])
    (sources ++ [ss]) (offsets ++ [os]) (lengths ++ [ls]) (n + 1).
Proof.
  intros [Hj Hc Hl -> Hs Ho Hn Hjob] Hn0 Hl' Hmono Hnew.
  split; rewrite ?length_app, ?map_app; try (cbn [length map]; (lia || done)).
  intros i Hi. destruct (decide (i = n)) as [->|Hne].
  - rewrite !at_snoc by lia. eapply job_ok_mono; [| |exact Hnew].
    + intros. apply at_app_l. lia.
    + intros. rewrite at_app_l by lia. done.
  - rewrite !at_app_l by lia. eapply job_ok_mono; [| |apply Hjob; lia].
    + intros. apply at_app_l. lia.
    + intros. rewrite at_app_l by lia. apply Hmono. lia.
Qed.

Definition names_ok (names : gmap string Z) (n : Z) : Prop := forall s k, names !! s = Some k -> 0 <= k < n.

Lemma last_ok_set last n s :
  last_ok last n -> 0 <= s < n ->
  last_ok (set_at last s n) n /\ at_ 0 (set_at last s n) s = n /\
  forall k, 0 <= k < n -> at_ 0 last k <= at_ 0 (set_at last s n) k.
Proof.
  intros [Hl Hk] Hs. rewrite at_set_eq by lia.
  assert (Hat : forall k, 0 <= k < n -> at_ 0 (set_at last s n) k = if decide (k = s) then n else at_ 0 last k).
  { intros k ?. destruct (decide (k = s)) as [->|]; [apply at_set_eq; lia|apply at_set_ne; lia]. }
  split_and!; [split; [by rewrite length_set_at|]|done|]; intros k Hkn; rewrite Hat by lia;
    specialize (Hk k Hkn); destruct (decide (k = s)); lia.
Qed.

Lemma link_operand_ok ranged names counts n last operand l s v o last' :
  names_ok names n -> last_ok last n ->
  link_operand ranged names counts n last operand l = Ok (s, v, o, last') ->
  last_ok last' n /\ (forall k, 0 <= k < n -> at_ 0 last k <= at_ 0 last' k) /\
  forall ws, operand_words l v ws -> operand_ok counts last' n s o l operand.
Proof.
  intros Hnames Hlast H. unfold link_operand in H. destruct operand as [| | | | | |d].
  7: {
    res_inv. bool_prop. apply Hnames in E2.
    destruct (last_ok_set last n s Hlast E2) as (Hl & Hs & Hmono).
    split_and!; [done|done|]. intros ws _. right. rewrite Hs. split_and!; try done; lia. }
  all: injection H as <- <- <- <-; split_and!; [done|done|intros ws Hw; left; eauto].
Qed.

(** The variables of the loop after [n] jobs. *)
Record loop_ok (st : dag_loop) (n : Z) : Prop := {
  lp_links : links_ok (dl_jobs st) (dl_counts st) (dl_last st) (dl_chunks st) (dl_sources st)
               (dl_offsets st) (dl_lengths st) n;
  lp_names : names_ok (dl_names st) n;
  lp_last : last_ok (dl_last st) n;
}.

Lemma last_ok_snoc last n : 0 <= n -> last_ok last n -> last_ok (last ++ [n]) (n + 1).
Proof.
  intros Hn [Hl H]. split; [rewrite length_app; cbn; lia|]. intros k Hk.
  destruct (decide (k = n)) as [->|]; [rewrite at_snoc; lia|]. rewrite at_app_l by lia.
  specialize (H k). lia.
Qed.

Lemma admit_job_ok ranged st n v st' :
  loop_ok st n -> 0 <= n -> admit_job ranged st v = Ok st' -> loop_ok st' (n + 1).
Proof.
  intros Hst Hn H. unfold admit_job in H. destruct v as [| | | | | |job]; try discriminate H.
  rewrite (lo_jobs _ _ _ _ _ _ _ _ (lp_links _ _ Hst)) in H. res_inv.
  destruct Hst as [Hlinks Hnames Hlast].
  match goal with H : reference _ _ = Ok _ |- _ =>
    apply reference_reads in H as (c & wa & wb & Hc & Ha & Hb) end.
  assert (c = a2) as -> by congruence.
  match goal with H : link_operand _ _ _ _ (dl_last st) _ _ = Ok _ |- _ =>
    apply link_operand_ok in H as (Hl1 & Hm1 & Hx); [|done|done] end.
  match goal with H : link_operand _ _ _ _ l2 _ _ = Ok _ |- _ =>
    apply link_operand_ok in H as (Hl2 & Hm2 & Hy); [|done|done] end.
  split; cbn.
  - eapply links_ok_snoc; [exact Hlinks|done|apply Hl2| |].
    + intros k Hk. etrans; [apply Hm1|apply Hm2]; done.
    + do 7 eexists. split_and!; try done.
      * eapply operand_ok_mono; [done|exact Hm2|]. by eapply Hx.
      * by eapply Hy.
  - intros s k [[<- <-]|[_ Hk]]%lookup_insert_Some; [lia|]. apply Hnames in Hk. lia.
  - by apply last_ok_snoc.
Qed.

Lemma admit_jobs_ok ranged jobs st n st' :
  loop_ok st n -> 0 <= n -> foldM (admit_job ranged) st jobs = Ok st' ->
  loop_ok st' (n + Z.of_nat (length jobs)).
Proof.
  revert st n. induction jobs as [|v jobs IH]; intros st n Hst Hn H; cbn [foldM] in H.
  - injection H as <-. cbn. by rewrite Z.add_0_r.
  - res_inv. replace (n + Z.of_nat (length (v :: jobs))) with (n + 1 + Z.of_nat (length jobs)) by (cbn; lia).
    eapply IH; [by eapply admit_job_ok|lia|done].
Qed.

Lemma loop_ok_0 : loop_ok (DagLoop [] ∅ [] [] [] [] [] []) 0.
Proof.
  split; [split| |split]; try done; try (intros; lia).
Qed.

(** ** What [compile_session] establishes *)

Record plan_ok (jobs : list dag_job) (counts : list Z) (plan : dag_plan) (n : Z) : Prop := {
  po_jobs : 1 <= n <= 8;
  po_links : links_ok jobs counts (dp_last_use plan) (dp_chunks plan) (dp_sources plan) (dp_offsets plan)
               (dp_lengths plan) n;
  po_slots : slots_ok (dp_last_use plan) (dp_chunks plan) (dp_sources plan) (dp_offsets plan) (dp_lengths plan)
               (dp_slots plan) n;
  po_output : 0 <= dp_output plan < n /\ at_ 0 (dp_last_use plan) (dp_output plan) = n;
}.

Lemma links_ok_last jobs counts last chunks sources offsets lengths n s :
  links_ok jobs counts last chunks sources offsets lengths n -> last_ok last n -> 0 <= s < n ->
  links_ok jobs counts (set_at last s n) chunks sources offsets lengths n.
Proof.
  intros [] Hlast Hs. destruct (last_ok_set last n s Hlast Hs) as ([? _] & _ & Hmono). split; try done.
  intros i Hi. eapply job_ok_mono; [done| |by apply lo_job0]. intros k Hk. apply Hmono. lia.
Qed.

Lemma compile_session_ok session jobs plan :
  compile_session session = Ok (jobs, plan) ->
  exists counts, plan_ok jobs counts plan (Z.of_nat (length jobs)).
Proof.
  intros H. unfold compile_session in H. res_inv. bool_prop.
  match goal with H : foldM (admit_job _) _ ?l = Ok ?st |- _ =>
    apply (admit_jobs_ok _ _ _ 0) in H as [Hlinks Hnames Hlast]; [|apply loop_ok_0|done] end.
  rewrite Z.add_0_l in *.
  match goal with H : dl_names _ !! _ = Some ?z |- _ => apply Hnames in H; rename z into output end.
  match goal with st : dag_loop |- _ => rename st into st' end.
  cbn [fst snd]. rewrite (lo_jobs _ _ _ _ _ _ _ _ Hlinks). set (n := Z.of_nat (length l)) in *.
  assert (Z.of_nat (length (dl_chunks st')) = n) as Hch.
  { rewrite (lo_chunks _ _ _ _ _ _ _ _ Hlinks), length_map. apply Hlinks. }
  rewrite Hch in *. rewrite (lo_sources _ _ _ _ _ _ _ _ Hlinks) in *.
  exists (dl_counts st'). destruct (last_ok_set _ n output Hlast) as (_ & Hout & _); [done|].
  split; cbn; [lia|by apply links_ok_last| |done].
  match goal with H : foldM (assign_slots _ _ _ _ _) _ _ = Ok _ |- _ => by apply assign_all_ok in H; [|lia] end.
Qed.
