(* ===== verification/DagRun.v ===== *)
(** * A session computes the composition of its jobs

    [composition] is the value of a session without slots, versions or
    transcripts: each job's region applied to ranges of earlier results. The
    host's [State] tracks it whatever jobs fail, a run in which every job
    succeeds reaches it, and an accepted receipt reports it. *)

From S2P Require Import Prelude PyValue AffineFold AffineFoldFacts FoldMachine FoldMachineFacts FoldWire FoldLines.
From S2P Require Import Evidence Project FoldSession FoldDag FoldDagFacts.

Definition job_value (plan : dag_plan) (outs : list (list Z)) (i : Z) (job : dag_job) : res (list Z) :=
  reference (dj_region job) (VList (resolve_inputs plan (at_ [] outs) i job)).

(** The outputs of all jobs, by job. *)
Definition composition (jobs : list dag_job) (plan : dag_plan) : res (list (list Z)) :=
  foldM (fun outs ij => let* out := job_value plan outs ij.1 ij.2 in Ok (outs ++ [out])) [] (enumerate jobs).

(** ** Slots written by one commit *)

Lemma write_slots_spec text l versions banks :
  NoDup (map snd l) -> (forall s, s ∈ map snd l -> 0 <= s < 8) ->
  length versions = 8%nat -> length banks = 8%nat ->
  exists versions' banks', foldl (write_slot text) (versions, banks) l = (versions', banks') /\
    length versions' = 8%nat /\ length banks' = 8%nat /\
    (forall s, 0 <= s -> s ∉ map snd l -> at_ 0 versions' s = at_ 0 versions s /\ at_ [] banks' s = at_ [] banks s) /\
    (forall j s, (j, s) ∈ l -> at_ 0 versions' s = at_ 0 versions s + 1 /\
       at_ [] banks' s = take 128 (drop (Z.to_nat (128 * j)) text)).
Proof.
  revert versions banks. induction l as [|[j s] l IH]; intros versions banks Hnd Hr Hv Hb.
  { exists versions, banks. split_and!; try done. by intros ?? ?%elem_of_nil. }
  cbn [map snd] in *. apply NoDup_cons in Hnd as [Hs Hnd].
  assert (0 <= s < 8) as Hs8 by (apply Hr; left).
  cbn [foldl write_slot].
  destruct (IH (set_at versions s (at_ 0 versions s + 1))
              (set_at banks s (take 128 (drop (Z.to_nat (128 * j)) text)))) as (v' & b' & -> & Hlv & Hlb & Hout & Hin).
  { done. } { intros; apply Hr; by right. } { by rewrite length_set_at. } { by rewrite length_set_at. }
  exists v', b'. split_and!; try done.
  - intros t Ht0 Ht. rewrite not_elem_of_cons in Ht. destruct Ht as [Hne Ht].
    destruct (Hout t Ht0 Ht) as [-> ->]. rewrite !at_set_ne by (lia || done). done.
  - intros j' t [[= -> ->]|Ht]%elem_of_cons.
    + destruct (Hout s) as [-> ->]; [lia|done|]. rewrite !at_set_eq by lia. done.
    + destruct (Hin j' t Ht) as [-> ->]. split; [|done]. rewrite at_set_ne; [done|lia| |].
      * apply (Hr t). right. apply list_elem_of_fmap. by exists (j', t).
      * intros ->. apply Hs. apply list_elem_of_fmap. by exists (j', t).
Qed.

(** A buffer is its pieces of 128 words. *)
Lemma concat_pieces {A} (p : list A) m :
  length p = (128 * m)%nat ->
  concat (map (fun j => take 128 (drop (Z.to_nat (128 * j)) p)) (zseq (Z.of_nat m))) = p.
Proof.
  revert p. induction m as [|m IH]; intros p Hp.
  { destruct p; [done|discriminate Hp]. }
  replace (Z.of_nat (S m)) with (1 + Z.of_nat m) by lia. unfold zseq. rewrite seqZ_app by lia.
  change (seqZ 0 1) with [0]. rewrite map_app, concat_app. cbn [map concat]. rewrite app_nil_r.
  change (Z.to_nat (128 * 0)) with 0%nat. rewrite drop_0.
  etrans; [|apply (take_drop 128)]. f_equal.
  etrans; [|apply (IH (drop 128 p)); rewrite length_drop; lia].
  f_equal. unfold zseq. replace (seqZ (0 + 1) (Z.of_nat m)) with (map (Z.add 1) (seqZ 0 (Z.of_nat m)))
    by apply (fmap_add_seqZ 1 0). rewrite map_map.
  apply map_ext_in. intros j Hj%list_elem_of_In%elem_of_seqZ. rewrite drop_drop. do 2 f_equal. lia.
Qed.

(** ** The composition exists *)

Section session.
Context (jobs : list dag_job) (counts : list Z) (plan : dag_plan) (n : Z) (Hplan : plan_ok jobs counts plan n).

Let Hlinks := po_links _ _ _ _ Hplan.
Let Hslots := po_slots _ _ _ _ Hplan.

(** Results of the first [m] jobs, of the right extent. *)
Definition results (output_of : Z -> list Z) (m : Z) : Prop :=
  forall k, 0 <= k < m -> Z.of_nat (length (output_of k)) = at_ 0 counts k /\ Forall is_word (output_of k).

Lemma operand_ok_words output_of i b v :
  0 <= i < n -> results output_of i ->
  operand_ok counts (dp_last_use plan) i (at_ 0 (at_ [] (dp_sources plan) i) b)
    (at_ 0 (at_ [] (dp_offsets plan) i) b) (at_ 0 (at_ [] (dp_lengths plan) i) b) v ->
  exists ws, operand_words (at_ 0 (at_ [] (dp_lengths plan) i) b) (resolve_operand plan output_of i b v) ws.
Proof.
  intros Hi Hres Hop. unfold resolve_operand. set (l := at_ 0 (at_ [] (dp_lengths plan) i) b) in *.
  set (o := at_ 0 (at_ [] (dp_offsets plan) i) b) in *. set (s := at_ 0 (at_ [] (dp_sources plan) i) b) in *.
  destruct Hop as [[-> [ws Hw]]|(Hs & _ & Ho & Hl & Hfit)]; [by exists ws|].
  rewrite (proj2 (Z.eqb_neq s LITERAL)).
  2:{ destruct (po_jobs _ _ _ _ Hplan). unfold LITERAL. lia. }
  destruct (Hres s Hs) as [Hlen Hw].
  exists (take (Z.to_nat l) (drop (Z.to_nat o) (output_of s))). apply operand_words_val.
  - rewrite length_take, length_drop. lia.
  - by apply Forall_take, Forall_drop.
Qed.

(** A job has a value on results of the right extents. *)
Lemma job_value_total output_of i :
  0 <= i < n -> results output_of i ->
  exists out, reference (dj_region (at_ no_job jobs i)) (VList (resolve_inputs plan output_of i (at_ no_job jobs i))) = Ok out /\
    Z.of_nat (length out) = at_ 0 counts i /\ Forall is_word out.
Proof.
  intros Hi Hres. destruct (lo_job _ _ _ _ _ _ _ _ Hlinks i Hi)
    as (config & x & y & sx & sy & ox & oy & Hin & Hc & Hcount & Hs & Ho & Hl & Hx & Hy).
  unfold resolve_inputs. rewrite Hin. change (enumerate [x; y]) with [(0, x); (1, y)]. cbn [map fst snd].
  destruct (operand_ok_words output_of i 0 x Hi Hres) as [a Ha]; [by rewrite Hs, Ho, Hl|].
  destruct (operand_ok_words output_of i 1 y Hi Hres) as [b Hb]; [by rewrite Hs, Ho, Hl|].
  rewrite Hl in Ha, Hb. destruct (reference_operands _ _ _ _ _ _ Hc Ha Hb) as (out & Hr & _ & Hw & Hlen).
  exists out. rewrite Hcount. done.
Qed.

(** Resolution looks at earlier results only. *)
Lemma resolve_inputs_ext f g i :
  0 <= i < n -> (forall k, 0 <= k < i -> f k = g k) ->
  resolve_inputs plan f i (at_ no_job jobs i) = resolve_inputs plan g i (at_ no_job jobs i).
Proof.
  intros Hi Hfg. destruct (lo_job _ _ _ _ _ _ _ _ Hlinks i Hi)
    as (config & x & y & sx & sy & ox & oy & Hin & Hc & Hcount & Hs & Ho & Hl & Hx & Hy).
  unfold resolve_inputs. rewrite Hin. change (enumerate [x; y]) with [(0, x); (1, y)]. cbn [map fst snd].
  assert (Hop : forall b v s o l, at_ 0 (at_ [] (dp_sources plan) i) b = s ->
      operand_ok counts (dp_last_use plan) i s o l v ->
      resolve_operand plan f i b v = resolve_operand plan g i b v).
  { intros b v s o l Hsb Hok. unfold resolve_operand. rewrite Hsb.
    destruct Hok as [[-> _]|[Hk _]]; [done|]. by rewrite Hfg. }
  by rewrite (Hop 0 x sx ox (cfg config 5)), (Hop 1 y sy oy (cfg config 6)) by (by rewrite ?Hs).
Qed.

Lemma composition_total :
  exists outs, composition jobs plan = Ok outs /\ Z.of_nat (length outs) = n /\ results (at_ [] outs) n /\
    forall i, 0 <= i < n -> job_value plan outs i (at_ no_job jobs i) = Ok (at_ [] outs i).
Proof.
  enough (Hm : forall m, 0 <= m -> m <= n -> exists outs,
    foldM (fun outs ij => let* out := job_value plan outs ij.1 ij.2 in Ok (outs ++ [out])) []
      (map (fun i => (i, at_ no_job jobs i)) (zseq m)) = Ok outs /\
    Z.of_nat (length outs) = m /\ results (at_ [] outs) m /\
    forall i, 0 <= i < m -> job_value plan outs i (at_ no_job jobs i) = Ok (at_ [] outs i)).
  { destruct (Hm n) as (outs & Hf & ?); [destruct (po_jobs _ _ _ _ Hplan); lia|lia|].
    exists outs. split; [|done]. unfold composition. rewrite <- Hf. f_equal.
    rewrite <- (lo_jobs _ _ _ _ _ _ _ _ Hlinks). apply enumerate_at. }
  intros m Hm. pattern m. apply natlike_ind; [| |done]; clear m Hm.
  - intros _. exists []. split_and!; try done; intros k ?; lia.
  - intros m Hm IH Hn. rewrite <- Z.add_1_r in *. destruct IH as (outs & Hf & Hlen & Hres & Hval); [lia|].
    destruct (job_value_total (at_ [] outs) m) as (out & Ho & Hol & Hw); [lia|done|].
    assert (Hext : forall i, 0 <= i < m + 1 ->
      job_value plan (outs ++ [out]) i (at_ no_job jobs i) = job_value plan outs i (at_ no_job jobs i)).
    { intros i Hi. unfold job_value. do 2 f_equal. apply resolve_inputs_ext; [lia|]. intros. apply at_app_l. lia. }
    exists (outs ++ [out]). rewrite zseq_succ, map_app, foldM_app, Hf by done. cbn [bind map foldM fst snd].
    unfold job_value at 1. rewrite Ho. cbn [bind]. split_and!; [done|rewrite length_app; cbn; lia| |].
    + intros k Hk. destruct (decide (k = m)) as [->|]; [by rewrite at_snoc|]. rewrite at_app_l by lia. apply Hres; lia.
    + intros k Hk. rewrite Hext by done. destruct (decide (k = m)) as [->|]; [by rewrite at_snoc|].
      rewrite at_app_l by lia. apply Hval. lia.
Qed.

(** ** The host's model of the slots *)

Section tracking.
Context (outs : list (list Z)) (Hres : results (at_ [] outs) n)
  (Hval : forall i, 0 <= i < n -> job_value plan outs i (at_ no_job jobs i) = Ok (at_ [] outs i)).

(** The words in the slots of result [k]. *)
Definition stored (banks : list (list Z)) (k : Z) : list Z :=
  concat (map (at_ [] banks) (at_ [] (dp_slots plan) k)).

(** What is recorded of an earlier job is its composition value, and while a
    result is live its versions are current and its slots hold it, zero padded. *)
Record tracks (st : dag_state) (i : Z) : Prop := {
  tr_versions : length (ds_versions st) = 8%nat;
  tr_banks : length (ds_banks st) = 8%nat;
  tr_output : forall k vs out, ds_producers st !! k = Some (vs, out) -> 0 <= k < i /\ out = at_ [] outs k;
  tr_live : forall k vs out, ds_producers st !! k = Some (vs, out) -> i <= at_ 0 (dp_last_use plan) k ->
    vs = slot_versions plan (ds_versions st) k /\
    stored (ds_banks st) k = padded (128 * length (at_ [] (dp_slots plan) k)) out;
}.

Lemma tracks_initial : tracks initial_state 0.
Proof. split; try done; intros k vs out Hk; cbn in Hk; by rewrite lookup_empty in Hk. Qed.

Lemma tracks_skip st i : tracks st i -> tracks st (i + 1).
Proof.
  intros [? ? Hout Hlive]. split; try done.
  - intros k vs out Hk. destruct (Hout _ _ _ Hk). split; [lia|done].
  - intros k vs out Hk Hl. apply (Hlive k vs out Hk). lia.
Qed.

(** The value of a resolved job is its composition value. *)
Lemma resolve_value st i job source destination :
  0 <= i < n -> tracks st i -> resolve plan st i (at_ no_job jobs i) = Some (job, source, destination) ->
  reference (dj_region job) (VList (dj_inputs job)) = Ok (at_ [] outs i) /\
  dj_name job = dj_name (at_ no_job jobs i) /\ destination = slot_mask (at_ [] (dp_slots plan) i).
Proof.
  intros Hi Htr H. unfold resolve in H. destruct (bad_source plan st i) eqn:Hbad; [done|].
  injection H as <- _ <-. cbn [dj_region dj_inputs dj_name]. split; [|done].
  rewrite <- Hval by done. unfold job_value. do 2 f_equal. unfold resolve_inputs.
  destruct (lo_job _ _ _ _ _ _ _ _ Hlinks i Hi)
    as (config & x & y & sx & sy & ox & oy & Hin & _ & _ & Hs & _ & _ & Hx & Hy).
  assert (Hav : forall s, s ∈ [sx; sy] -> s = LITERAL \/ available plan st s = true).
  { intros s Hs'. unfold bad_source in Hbad. rewrite Hs in Hbad. apply head_None in Hbad.
    destruct (decide (s = LITERAL)) as [|Hne]; [by left|]. right. apply not_false_is_true. intros Hf.
    assert (Hin' : s ∈ List.filter (fun p => negb (p =? LITERAL) && negb (available plan st p)) [sx; sy]).
    { apply list_elem_of_In, filter_In. split; [by apply list_elem_of_In|].
      rewrite Hf. by rewrite (proj2 (Z.eqb_neq _ _) Hne). }
    rewrite Hbad in Hin'. by apply elem_of_nil in Hin'. }
  assert (Hop : forall b v s, at_ 0 (at_ [] (dp_sources plan) i) b = s -> s ∈ [sx; sy] ->
      resolve_operand plan (producer_output st) i b v = resolve_operand plan (at_ [] outs) i b v).
  { intros b v s Hsb Hin'. unfold resolve_operand. rewrite Hsb.
    destruct (Hav s Hin') as [->|Hs1]; [done|]. destruct (s =? LITERAL); [done|].
    unfold available in Hs1. unfold producer_output.
    destruct (ds_producers st !! s) as [[vs out]|] eqn:Hp; [|done].
    by destruct (tr_output _ _ Htr _ _ _ Hp) as [_ ->]. }
  rewrite Hin. change (enumerate [x; y]) with [(0, x); (1, y)]. cbn [map fst snd].
  rewrite (Hop 0 x sx), (Hop 1 y sy); [done|by rewrite Hs| |by rewrite Hs|].
  - right; left.
  - left.
Qed.

Lemma chunk_bound i : 0 <= i < n ->
  (length (at_ [] outs i) <= 128 * length (at_ [] (dp_slots plan) i))%nat.
Proof.
  intros Hi. destruct (Hres i Hi) as [Hl _].
  pose proof (so_chunks _ _ _ _ _ _ _ Hslots i Hi) as Hc.
  rewrite (lo_chunks _ _ _ _ _ _ _ _ Hlinks) in Hc.
  assert (Hat : at_ 0 (map chunks_of counts) i = chunks_of (at_ 0 counts i)).
  { unfold at_. rewrite <- (map_nth chunks_of). apply nth_indep. rewrite length_map.
    pose proof (lo_counts _ _ _ _ _ _ _ _ Hlinks). lia. }
  rewrite Hat in Hc. unfold chunks_of in Hc.
  assert (at_ 0 counts i <= 128 * ((at_ 0 counts i + 127) / 128)) by dlia. lia.
Qed.

Lemma commit_tracks st i success st' :
  0 <= i < n -> tracks st i ->
  commit plan st i (slot_mask (at_ [] (dp_slots plan) i)) (at_ [] outs i) success = Ok st' ->
  tracks st' (i + 1) /\ (success = true -> is_Some (ds_producers st' !! i)) /\
  (forall k, k <> i -> ds_producers st' !! k = ds_producers st !! k).
Proof.
  intros Hi Htr H. unfold commit in H. rewrite Z.eqb_refl in H. cbn [negb] in H.
  destruct success; [|by injection H as <-; split; [apply tracks_skip|]].
  set (slots := at_ [] (dp_slots plan) i) in *. set (text := _ ++ _) in H.
  destruct Htr as [Hv Hb Hout Hlive].
  assert (Hsnd : map snd (enumerate slots) = slots).
  { unfold enumerate. apply snd_zip. unfold zseq. rewrite length_seqZ. lia. }
  destruct (write_slots_spec text (enumerate slots) (ds_versions st) (ds_banks st))
    as (v' & b' & Hfold & Hv' & Hb' & Hne & Hin); [| |done|done|].
  { rewrite Hsnd. by apply (so_nodup _ _ _ _ _ _ _ Hslots). }
  { rewrite Hsnd. intros s. by apply (so_range _ _ _ _ _ _ _ Hslots). }
  rewrite Hfold in H. injection H as <-. cbn [ds_producers]. rewrite Hsnd in Hne.
  split; [|split; [intros _; rewrite lookup_insert_eq; by eexists|intros k Hk; by rewrite lookup_insert_ne by done]].
  split; cbn [ds_versions ds_banks ds_producers]; [done|done| |].
  - intros k vs out [[<- [= <- <-]]|[_ Hk]]%lookup_insert_Some; [split; [lia|done]|].
    destruct (Hout _ _ _ Hk). split; [lia|done].
  - intros k vs out [[<- [= <- <-]]|[Hki Hk]]%lookup_insert_Some Hl.
    + split; [done|]. unfold stored. fold slots. etrans; [|apply (concat_pieces _ (length slots))].
      2:{ unfold padded. rewrite length_app, length_replicate. pose proof (chunk_bound i Hi). fold slots in H. lia. }
      f_equal. rewrite <- Hsnd at 1. rewrite <- (enumerate_fst slots), !map_map.
      apply map_ext_in. intros [j s] Hjs%list_elem_of_In. cbn [fst snd]. by apply (Hin j s).
    + destruct (Hout _ _ _ Hk) as [Hkr ->]. destruct (Hlive k vs _ Hk) as [-> Hst]; [lia|].
      assert (Hdj : forall s, s ∈ at_ [] (dp_slots plan) k -> at_ 0 v' s = at_ 0 (ds_versions st) s /\ at_ [] b' s = at_ [] (ds_banks st) s).
      { intros s Hs. apply Hne; [by apply (so_range _ _ _ _ _ _ _ Hslots k s); [lia|]|].
        intros Hs'. refine (so_disjoint _ _ _ _ _ _ _ Hslots k i _ _ _ s Hs Hs'); lia. }
      rewrite <- Hst. unfold slot_versions, stored. split; [|f_equal];
        apply map_ext_in; intros s Hs%list_elem_of_In; destruct (Hdj s Hs); congruence.
Qed.

(** A live committed result is available. *)
Lemma tracks_available st i k :
  tracks st i -> is_Some (ds_producers st !! k) -> i <= at_ 0 (dp_last_use plan) k -> available plan st k = true.
Proof.
  intros Htr [[vs out] Hk] Hl. unfold available. rewrite Hk.
  destruct (tr_live _ _ Htr _ _ _ Hk Hl) as [-> _]. by apply bool_decide_true.
Qed.

Lemma final_output st i :
  tracks st i -> df_available (final jobs plan st) = true ->
  df_output (final jobs plan st) = at_ [] outs (dp_output plan).
Proof.
  intros Htr. unfold final. cbn [df_available df_output]. intros Hav. rewrite Hav.
  unfold available in Hav. unfold producer_output.
  destruct (ds_producers st !! dp_output plan) as [[vs out]|] eqn:Hp; [|done].
  by destruct (tr_output _ _ Htr _ _ _ Hp) as [_ ->].
Qed.
End tracking.
End session.

(** ** Sessions *)

(** Every job runs and is approved. *)
Definition run_job (jobs : list dag_job) (plan : dag_plan) (st : dag_state) (i : Z) : res dag_state :=
  match resolve plan st i (at_ no_job jobs i) with
  | None => fail "job ran with unavailable producer"
  | Some (job, _, destination) =>
      let* expected := reference (dj_region job) (VList (dj_inputs job)) in
      commit plan st i destination expected true
  end.

Lemma run_jobs_ok jobs counts plan n outs :
  plan_ok jobs counts plan n -> results counts (at_ [] outs) n ->
  (forall i, 0 <= i < n -> job_value plan outs i (at_ no_job jobs i) = Ok (at_ [] outs i)) ->
  forall m, 0 <= m -> m <= n -> exists st, foldM (run_job jobs plan) initial_state (zseq m) = Ok st /\
    tracks plan outs st m /\ forall k, 0 <= k < m -> is_Some (ds_producers st !! k).
Proof.
  intros Hplan Hres Hval m Hm. pattern m. apply natlike_ind; [| |done]; clear m Hm.
  - intros _. exists initial_state. split_and!; [done|apply tracks_initial|intros; lia].
  - intros m Hm IH Hn. rewrite <- Z.add_1_r in *. destruct IH as (st & Hf & Htr & Hall); [lia|].
    rewrite zseq_succ, foldM_app, Hf by done. cbn [bind foldM].
    assert (Hbad : bad_source plan st m = None).
    { unfold bad_source. apply head_None. destruct (lo_job _ _ _ _ _ _ _ _ (po_links _ _ _ _ Hplan) m)
        as (config & x & y & sx & sy & ox & oy & _ & _ & _ & Hs & _ & _ & Hx & Hy); [lia|].
      rewrite Hs. assert (Hav : forall s o l v, operand_ok counts (dp_last_use plan) m s o l v ->
        negb (s =? LITERAL) && negb (available plan st s) = false).
      { intros s o l v [[-> _]|(Hk & Hl & _)]; [done|].
        rewrite (tracks_available plan outs st m s) by (done || apply Hall; lia). apply andb_false_r. }
      cbn [List.filter]. by rewrite (Hav _ _ _ _ Hx), (Hav _ _ _ _ Hy). }
    unfold run_job at 1. destruct (resolve plan st m (at_ no_job jobs m)) as [[[job s] d]|] eqn:Hr.
    2:{ unfold resolve in Hr. by rewrite Hbad in Hr. }
    destruct (resolve_value jobs counts plan n Hplan outs Hval st m _ _ _ ltac:(lia) Htr Hr) as (-> & _ & ->).
    cbn [bind]. destruct (commit _ _ _ _ _ _) as [st'|] eqn:Hc.
    + destruct (commit_tracks jobs counts plan n Hplan outs Hres st m true st' ltac:(lia) Htr Hc) as (Htr' & Hi & Hk).
      exists st'. split_and!; [done|done|]. intros k Hkm. destruct (decide (k = m)) as [->|]; [by apply Hi|].
      rewrite Hk by done. apply Hall. lia.
    + exfalso. unfold commit in Hc. rewrite Z.eqb_refl in Hc. cbn [negb] in Hc.
      by destruct (foldl _ _ _).
Qed.

(** C26. Slot safety. An admitted session has one to eight jobs; every job writes
    distinct object slots out of eight and references at most four objects; a
    linked producer is an earlier job, and from its run to the consumer's run no
    job, the consumer included, is given one of its slots; the designated
    output keeps its slots to the end. *)
Theorem dag_slots_safe session jobs plan :
  compile_session session = Ok (jobs, plan) ->
  let n := Z.of_nat (length jobs) in
  let slots := at_ [] (dp_slots plan) in
  1 <= n <= 8 /\
  (forall i, 0 <= i < n -> NoDup (slots i) /\ (forall s, s ∈ slots i -> 0 <= s < 8) /\
     Z.of_nat (length (reads_of (dp_sources plan) (dp_offsets plan) (dp_lengths plan) i)) +
     Z.of_nat (length (slots i)) <= 4) /\
  (forall i source, 0 <= i < n -> source ∈ at_ [] (dp_sources plan) i -> source <> LITERAL ->
     0 <= source < i /\ forall j, source < j <= i -> slots source ## slots j) /\
  (0 <= dp_output plan < n /\ forall j, dp_output plan < j < n -> slots (dp_output plan) ## slots j).
Proof.
  intros H. destruct (compile_session_ok _ _ _ H) as [counts Hplan]. cbn zeta.
  set (n := Z.of_nat (length jobs)) in *. destruct Hplan as [Hn Hlinks Hslots Hout].
  split; [done|]. split_and!.
  - intros i Hi. split_and!; [by eapply so_nodup|intros s; by eapply so_range|].
    pose proof (so_four _ _ _ _ _ _ _ Hslots i Hi). pose proof (so_chunks _ _ _ _ _ _ _ Hslots i Hi).
    destruct (lo_job _ _ _ _ _ _ _ _ Hlinks i Hi) as (c & _ & _ & _ & _ & _ & _ & _ & Hc & Hcount & _).
    pose proof (cells_range _ _ Hc). rewrite (lo_chunks _ _ _ _ _ _ _ _ Hlinks) in *.
    assert (Hat : at_ 0 (map chunks_of counts) i = chunks_of (at_ 0 counts i)).
    { unfold at_. rewrite <- (map_nth chunks_of). apply nth_indep. rewrite length_map.
      pose proof (lo_counts _ _ _ _ _ _ _ _ Hlinks). lia. }
    rewrite Hat in *. unfold chunks_of in *. assert (0 <= (at_ 0 counts i + 127) / 128) by dlia. lia.
  - intros i source Hi Hs Hne.
    destruct (lo_job _ _ _ _ _ _ _ _ Hlinks i Hi) as (c & x & y & sx & sy & ox & oy & _ & _ & _ & Hsrc & _ & _ & Hx & Hy).
    rewrite Hsrc in Hs. assert (0 <= source < i /\ i <= at_ 0 (dp_last_use plan) source) as [Hr Hl].
    { apply elem_of_cons in Hs as [->|Hs%list_elem_of_singleton]; [|subst source].
      - by destruct Hx as [[? _]|(? & ? & _)].
      - by destruct Hy as [[? _]|(? & ? & _)]. }
    split; [done|]. intros j Hj. eapply so_disjoint; [exact Hslots|lia|lia|lia].
  - apply Hout.
  - apply Hout.
  - intros j Hj. destruct Hout as [? Hl]. eapply so_disjoint; [exact Hslots|lia|lia|lia].
Qed.

(** C27. An admitted session whose jobs all succeed computes the composition of
    its jobs: every step resolves its inputs although slots are reused, the
    designated output is available at the end with the composition's value, and
    its slots hold that value zero padded. *)
Theorem dag_run_composition session jobs plan :
  compile_session session = Ok (jobs, plan) ->
  exists outs st, composition jobs plan = Ok outs /\
    foldM (run_job jobs plan) initial_state (zseq (Z.of_nat (length jobs))) = Ok st /\
    let out := at_ [] outs (dp_output plan) in
    df_available (final jobs plan st) = true /\ df_output (final jobs plan st) = out /\
    stored plan (ds_banks st) (dp_output plan) = padded (128 * length (at_ [] (dp_slots plan) (dp_output plan))) out.
Proof.
  intros H. destruct (compile_session_ok _ _ _ H) as [counts Hplan].
  set (n := Z.of_nat (length jobs)) in *.
  destruct (composition_total jobs counts plan n Hplan) as (outs & Hcomp & Hlen & Hres & Hval).
  destruct (run_jobs_ok jobs counts plan n outs Hplan Hres Hval n) as (st & Hf & Htr & Hall);
    [pose proof (po_jobs _ _ _ _ Hplan); lia|lia|].
  exists outs, st. split; [done|]. split; [done|]. cbn zeta.
  destruct (po_output _ _ _ _ Hplan) as [Ho Hlast].
  assert (Hav : df_available (final jobs plan st) = true).
  { unfold final. cbn [df_available]. apply (tracks_available plan outs st n); [done|by apply Hall|lia]. }
  split_and!; [done|by eapply final_output|].
  destruct (Hall _ Ho) as [[vs out] Hp].
  destruct (tr_output _ _ _ _ Htr _ _ _ Hp) as [_ <-]. eapply (tr_live _ _ _ _ Htr); [exact Hp|lia].
Qed.

(** ** Receipts *)

Lemma check_step_commit plan lines i request rid epoch expected wire injection st source destination bd result st' :
  check_step plan lines i request rid epoch expected wire injection st source destination = Ok (bd, result, st') ->
  commit plan st i destination expected (String.eqb injection "none") = Ok st'.
Proof.
  unfold check_step. intros H. destruct lines as [|l0 [|l1 [|l2 [|l3 []]]]]; try discriminate H.
  cbn zeta in H. destruct (dispatch _ _ _ _ _ _); [|discriminate H]. cbn [bind] in H.
  destruct (negb (String.eqb l1 _)); [discriminate H|].
  destruct (commit _ _ _ _ _ _) as [s|]; cbn [bind] in H; [|discriminate H].
  destruct (negb (String.eqb l2 _)); [discriminate H|].
  destruct (negb (String.eqb l3 _)); [discriminate H|].
  by injection H as _ _ ->.
Qed.

Lemma verify_dag_step_tracks b jobs counts plan n outs injections epoch ids build lines processed i row st st' :
  plan_ok jobs counts plan n -> results counts (at_ [] outs) n ->
  (forall i, 0 <= i < n -> job_value plan outs i (at_ no_job jobs i) = Ok (at_ [] outs i)) ->
  0 <= i < n -> tracks plan outs (dc_state st) i ->
  verify_dag_step b jobs plan injections epoch ids build lines processed st (i, row) = Ok st' ->
  tracks plan outs (dc_state st') (i + 1).
Proof.
  intros Hplan Hres Hval Hi Htr H. unfold verify_dag_step in H. fold no_job in H.
  destruct (resolve plan (dc_state st) i (at_ no_job jobs i)) as [[[job s] d]|] eqn:Hr; [|discriminate H].
  destruct (resolve_value jobs counts plan n Hplan outs Hval (dc_state st) i _ _ _ Hi Htr Hr) as (Href & _ & ->).
  rewrite Href in H. cbn [bind] in H.
  res_peel H.
  injection H as <-. cbn [dc_state].
  match goal with H : check_step _ _ _ _ _ _ _ _ _ _ _ _ = Ok _ |- _ => apply check_step_commit in H;
    by destruct (commit_tracks jobs counts plan n Hplan outs Hres _ _ _ _ Hi Htr H) end.
Qed.

Lemma check_receipt_Ok b fields schema cls receipt d n rows :
  check_receipt b fields schema cls receipt = Ok (d, n, rows) ->
  receipt = VDict d /\ dget "jobs" d = Some (VList rows) /\ Z.of_nat (length rows) = n.
Proof.
  unfold check_receipt. intros H. destruct receipt as [| | | | | |d']; try discriminate H.
  unfold dsub in H. res_inv. bool_prop. done.
Qed.

(** C28. The output a verified receipt reports is right. When the verifier accepts
    a saved run, the session was admitted, and the receipt's output is the
    host's final record in which the designated result, if it is reported
    available, is the composition's value of that job, whatever jobs were
    injected with faults and rolled back. *)
Theorem dag_receipt_output b receipt :
  verify_dag b receipt = Ok receipt ->
  exists jobs plan outs d output f,
    compile_session (bu_session b) = Ok (jobs, plan) /\ composition jobs plan = Ok outs /\
    receipt = VDict d /\ dget "output" d = Some output /\ same output (final_val f) = true /\
    df_index f = dp_output plan /\
    df_output f = if df_available f then at_ [] outs (dp_output plan) else [].
Proof.
  intros H. unfold verify_dag in H.
  res_peel H.
  match goal with H : check_receipt _ _ _ _ _ = Ok _ |- _ => apply check_receipt_Ok in H as (-> & _ & Hrows) end.
  match goal with H : compile_session _ = Ok (?j, ?p) |- _ => rename j into jobs; rename p into plan; rename H into Hc end.
  destruct (compile_session_ok _ _ _ Hc) as [counts Hplan]. set (n := Z.of_nat (length jobs)) in *.
  destruct (composition_total jobs counts plan n Hplan) as (outs & Hcomp & Hlen & Hres & Hval).
  match goal with H : verify_dag_end _ _ _ _ _ ?d ?s = Ok _ |- _ => rename d into d'; rename s into st; rename H into Hend end.
  match goal with H : foldM _ _ (enumerate _) = Ok _ |- _ => rename H into Hf end.
  eapply (foldM_enumerate_inv (fun i s => tracks plan outs (dc_state s) i)) in Hf.
  2:{ apply tracks_initial. }
  2:{ intros i x s s' Hi _ Htr Hs. bool_prop. eapply verify_dag_step_tracks; [exact Hplan|done|done| |exact Htr|exact Hs]. lia. }
  unfold verify_dag_end in Hend. fold no_job in Hend.
  destruct (if (dc_halted st =? 0) && _ then _ else _) as [hh|] in Hend; [|discriminate Hend]. cbn [bind] in Hend.
  destruct (dsub d' "output") as [output|] eqn:Ho; [|discriminate Hend]. cbn [bind] in Hend.
  unfold dsub in Ho. destruct (dget "output" d') as [o|] eqn:Hget; [|discriminate Ho]. injection Ho as ->.
  destruct (negb (same output _) || _) eqn:Hsame in Hend; [discriminate Hend|]. bool_prop.
  exists jobs, plan, outs, d', output, (final jobs plan (dc_state st)). split_and!; try done.
  destruct (df_available (final jobs plan (dc_state st))) eqn:Hav.
  - by eapply final_output.
  - unfold final in *. cbn [df_available df_output] in *. by rewrite Hav.
Qed.

(** ** Concrete runs *)

Lemma dag_slots_safe_witness :
  exists jobs plan, compile_session dag_example = Ok (jobs, plan) /\
    (forall j, 0 < j <= 2 -> at_ [] (dp_slots plan) 0 ## at_ [] (dp_slots plan) j).
Proof.
  destruct (compile_session dag_example) as [[jobs plan]|] eqn:E; [|vm_compute in E; discriminate E].
  exists jobs, plan. split; [reflexivity|].
  destruct (dag_slots_safe _ _ _ E) as (_ & _ & H & _).
  vm_compute in E. injection E as <- <-.
  apply (H 2 0); [split; [done|reflexivity]|right; left|done].
Defined.

Lemma dag_run_composition_witness :
  exists jobs plan outs st, compile_session dag_example = Ok (jobs, plan) /\ composition jobs plan = Ok outs /\
    foldM (run_job jobs plan) initial_state (zseq (Z.of_nat (length jobs))) = Ok st /\
    df_output (final jobs plan st) = at_ [] outs (dp_output plan).
Proof.
  destruct (compile_session dag_example) as [[jobs plan]|] eqn:E; [|vm_compute in E; discriminate E].
  destruct (dag_run_composition _ _ _ E) as (outs & st & Hc & Hf & _ & Ho & _).
  exists jobs, plan, outs, st. split; [reflexivity|]. split; [exact Hc|]. split; [exact Hf|exact Ho].
Defined.

Lemma dag_receipt_output_witness :
  verify_dag example_evidence.1 example_evidence.2 = Ok example_evidence.2 /\
    exists jobs plan outs, compile_session (bu_session example_evidence.1) = Ok (jobs, plan) /\ composition jobs plan = Ok outs.
Proof.
  split; [exact example_evidence_accepted|].
  destruct (dag_receipt_output example_evidence.1 example_evidence.2 example_evidence_accepted) as (jobs & plan & outs & _ & _ & _ & Hc & Ho & _).
  exists jobs, plan, outs. split; assumption.
Defined.
