(* ===== verification/FoldChain.v ===== *)
(** * Chains of fold jobs through two banks ([raveil/fold_chain.py])

    A chain is at most eight jobs whose inputs are literal buffers or the whole
    output of one earlier job. The guest keeps two result banks; [chain_state] is
    the host's independent model of them: every commit overwrites a bank and
    raises its version, and a job can only read a producer whose bank still has
    the version it left. Admission, framing, the checks of every guest line and
    the verification of saved evidence. *)

From S2P Require Import Prelude PyValue Json AffineFold FoldMachine FoldWire FoldLines Evidence Project FoldSession.
From S2P Require Import FoldDag.

Definition CHAIN_MAGIC : Z := 0x51434631.
Definition CHAIN_END : Z := 0x43454e44.

(** A declared job: its name, region and operands. *)
Record chain_job := ChainJob { cj_name : string; cj_region : pyval; cj_inputs : list pyval }.
Definition no_chain_job : chain_job := ChainJob "" VNone [].

(** ** Admission *)

(** The producer so far and the admission buffer of an operand. *)
Definition chain_operand (jobs : list chain_job) (producer : option Z) (operand : pyval) (length_ : Z)
    : res (option Z * pyval) :=
  match operand with
  | VDict d =>
      let error := fail "link must name an earlier producer" in
      if negb (keys_are d ["from"]) then error
      else
        match dget "from" d with
        | Some (VStr from) =>
            match index_of from (map cj_name jobs) with
            | None => error
            | Some source =>
                raise_if match producer with Some p => negb (source =? p) | None => false end
                with "at most one distinct producer per job" in
                let* cells := region_cells (cj_region (at_ no_chain_job jobs source)) in
                raise_if negb (length_ =? cells) with "linked extent must equal producer logical output" in
                Ok (Some source, words_val (replicate (Z.to_nat length_) 0))
            end
        | _ => error
        end
  | _ => Ok (producer, operand)
  end.

(** One iteration of [for index, job in enumerate(session["jobs"])]. *)
Definition validate_chain_job (jobs : list chain_job) (value : pyval) : res (list chain_job) :=
  match value with
  | VDict job =>
      raise_if negb (keys_are job ["name"; "region"; "inputs"]) with "invalid chain job" in
      let* jname := dsub job "name" in
      let* jname := name jname in
      raise_if bool_decide (jname ∈ map cj_name jobs) with "duplicate chain name" in
      let* region := dsub job "region" in
      let* config := compile_region region in
      let* inputs := dsub job "inputs" in
      match inputs with
      | VList [x; y] =>
          let* ' (producer, lx) := chain_operand jobs None x (cfg config 5) in
          let* ' (_, ly) := chain_operand jobs producer y (cfg config 6) in
          let* _ := reference region (VList [lx; ly]) in
          Ok (jobs ++ [ChainJob jname region [x; y]])
      | _ => fail "two inputs required"
      end
  | _ => fail "invalid chain job"
  end.

(** [validate]; the jobs it admits. *)
Definition validate_chain (session : pyval) : res (list chain_job) :=
  match session with
  | VDict d =>
      raise_if negb (keys_are d ["schema"; "jobs"]) with "invalid chain schema" in
      let* schema := dsub d "schema" in
      raise_if negb (is_str schema "raveil.fold-chain.v1") with "invalid chain schema" in
      let* jobs := dsub d "jobs" in
      match jobs with
      | VList l =>
          raise_if negb (bool_decide (1 <= Z.of_nat (length l) <= 8)) with "chain requires1..8 jobs" in
          foldM validate_chain_job [] l
      | _ => fail "chain requires1..8 jobs"
      end
  | _ => fail "invalid chain schema"
  end.

(** ** Links and the session frame *)

(** [names[operand["from"]]] *)
Definition link_source (jobs : list chain_job) (operand : pyval) : res Z :=
  match operand with
  | VDict d =>
      let* from := dsub d "from" in
      match from with
      | VStr from => from_option_err KeyError (index_of from (map cj_name jobs))
      | _ => Err KeyError
      end
  | _ => Err TypeError
  end.

Definition is_link (operand : pyval) : bool := match operand with VDict _ => true | _ => false end.

(** [links]: the producer and the mask of the linked operands. *)
Definition links (jobs : list chain_job) (index : Z) : res (Z * Z) :=
  foldM (fun (sm : Z * Z) (bo : Z * pyval) =>
    if is_link bo.2 then let* source := link_source jobs bo.2 in Ok (source, Z.lor sm.2 (Z.shiftl 1 bo.1))
    else Ok sm) (LITERAL, 0) (enumerate (cj_inputs (at_ no_chain_job jobs index))).

(** One job of [encode]: its metadata and request. *)
Definition encode_chain_job (jobs : list chain_job) (irj : Z * (chain_job * Z)) : res (list Z * list Z) :=
  let '(i, (job, rid)) := irj in
  let* config := compile_region (cj_region job) in
  let* ' (source, mask) := links jobs i in
  let inputs := map (fun b => if Z.testbit mask b then words_val (replicate (Z.to_nat (cfg config (5 + b))) 0)
                              else at_ VNone (cj_inputs job) b) [0; 1] in
  let* child := request_bytes config (VList inputs) (VInt rid) in
  Ok (pack_words [source; mask], child).

(** [encode]: the frame and the requests in it. *)
Definition encode_chain (session epoch request_ids : pyval) : res (list Z * list (list Z)) :=
  let* jobs := validate_chain session in
  let* ' (epoch, ids) := check_ids "nonzero epoch required" (length jobs) epoch request_ids in
  let* parts := traverse (encode_chain_job jobs) (enumerate (zip jobs ids)) in
  let payload := concat (map (fun mc => mc.1 ++ mc.2) parts) in
  let children := map snd parts in
  let body := pack_words [CHAIN_MAGIC; 1; 32 + Z.of_nat (length payload); Z.of_nat (length children)] ++ le64 epoch ++ payload in
  Ok (body ++ pack_words [crc32 body; CHAIN_END], children).

(** ** The host's model of the two banks *)

(** [cs_producers]: the bank, its version and the output a job left. *)
Record chain_state := ChainState {
  cs_versions : list Z;
  cs_banks : list (list Z);
  cs_producers : gmap Z (Z * Z * list Z);
  cs_active : Z;
}.

(** [State.__init__] *)
Definition chain_initial : chain_state := ChainState [1; 1] [replicate 256 0; replicate 256 0] ∅ 1.

(** The bank of a job's producer, [None] when the producer is unavailable. *)
Definition producer_bank (st : chain_state) (source : Z) : option Z :=
  match cs_producers st !! source with
  | Some (bank, version, _) => if at_ 0 (cs_versions st) bank =? version then Some bank else None
  | None => None
  end.

(** [resolve]: the job with its buffers, the bank it reads and the bank it writes. *)
Definition chain_resolve (jobs : list chain_job) (st : chain_state) (index : Z) : res (option (chain_job * Z * Z)) :=
  let job := at_ no_chain_job jobs index in
  let* ' (source, mask) := links jobs index in
  match (if mask =? 0 then Some LITERAL else producer_bank st source) with
  | None => Ok None
  | Some source_bank =>
      let* inputs := traverse (fun operand =>
        if is_link operand then
          let* p := from_option_err KeyError (cs_producers st !! source) in Ok (words_val p.2)
        else Ok operand) (cj_inputs job) in
      Ok (Some (ChainJob (cj_name job) (cj_region job) inputs, source_bank,
                Z.lxor (if mask =? 0 then cs_active st else source_bank) 1))
  end.

(** [commit] *)
Definition chain_commit (st : chain_state) (index destination : Z) (expected : list Z) (success : bool) : chain_state :=
  if success then
    let versions := set_at (cs_versions st) destination (at_ 0 (cs_versions st) destination + 1) in
    ChainState versions (set_at (cs_banks st) destination (padded 256 expected))
      (<[index := (destination, at_ 0 versions destination, expected)]> (cs_producers st)) destination
  else st.

(** ** Protocol lines *)

Definition chain_version_text (st : chain_state) : string := String.concat "," (map pretty (cs_versions st)).

Definition chain_block_line (jobs : list chain_job) (index : Z) : res string :=
  let* ' (source, _) := links jobs index in
  Ok ("RAVEIL-FOLD-CHAIN-BLOCK-V1 index=" +:+ pretty index +:+ " source=" +:+ pretty source +:+ " reason=unavailable").

Definition chain_state_line (st : chain_state) (index : Z) (injection : string) (source destination : Z) : string :=
  "RAVEIL-FOLD-CHAIN-STATE-V1 index=" +:+ pretty index +:+ " stable=1 framed=" +:+ bit (negb (is_broken injection)) +:+
  " destination=" +:+ pretty destination +:+ " source=" +:+ pretty source +:+ " versions=" +:+ chain_version_text st +:+
  " ledger=" +:+ pretty (index + 1) +:+ " submissions=0 inflight=0 shadows=0 completions=0 content=" +:+
  words_text (concat (cs_banks st)).

Definition chain_result_line (index rid epoch : Z) (cookie : string) (success : bool) (version : Z) (expected : list Z) : string :=
  "RAVEIL-FOLD-CHAIN-RESULT-V1 index=" +:+ pretty index +:+ " request=" +:+ format_hex 16 rid +:+ " epoch=" +:+
  format_hex 16 epoch +:+ " sequence=" +:+ pretty (index + 1) +:+ " cookie=" +:+ cookie +:+ " status=" +:+
  pretty (if success then 1 else 4 : Z) +:+ " approved=" +:+ bit success +:+ " version=" +:+ pretty version +:+
  " count=" +:+ pretty (if success then Z.of_nat (length expected) else 0) +:+ " output=" +:+
  (if success then words_text expected else "-").

(** What a checked step reports. *)
Record chain_result := ChainResult {
  cr_approved : bool; cr_status : Z; cr_destination : Z; cr_source : Z; cr_version : Z; cr_output : list Z;
}.

(** [check_step] *)
Definition check_chain_step (lines : list string) (index : Z) (request : list Z) (rid epoch : Z) (expected : list Z)
    (wire injection : string) (st : chain_state) (source destination : Z) : res (binding * chain_result * chain_state) :=
  match lines with
  | [l0; l1; l2; l3] =>
      let* bd := dispatch l0 request rid (Z.of_nat (length expected)) epoch (index + 1) in
      raise_if negb (String.eqb l1 (credits_text (Z.of_nat (String.length wire) + withheld injection)))
      with "chain credit mismatch" in
      let success := String.eqb injection "none" in
      let st := chain_commit st index destination expected success in
      let version := at_ 0 (cs_versions st) destination in
      raise_if negb (String.eqb l2 (chain_state_line st index injection source destination))
      with "chain bank, version, padding or rollback mismatch" in
      raise_if negb (String.eqb l3 (chain_result_line index rid epoch (bd_cookie bd) success version expected))
      with "chain result binding mismatch" in
      Ok (bd, ChainResult success (if success then 1 else 4) destination source version (if success then expected else []), st)
  | _ => fail "invalid chain phases"
  end.

Definition chain_result_val (r : chain_result) : pyval :=
  VDict [("approved", VBool (cr_approved r)); ("status", VInt (cr_status r)); ("destination", VInt (cr_destination r));
         ("source", VInt (cr_source r)); ("version", VInt (cr_version r)); ("output", words_val (cr_output r))].

(** ** Verifying a saved run *)

(** The variables of the loop in [_verify]. *)
Record chain_check := ChainCheck {
  cc_state : chain_state; cc_reply : option (list Z); cc_rtl_ids : list string; cc_halted : Z;
}.

Definition chain_end_line (st : chain_state) (epoch processed total halted : Z) : string :=
  "RAVEIL-FOLD-CHAIN-END-V1 epoch=" +:+ format_hex 16 epoch +:+ " processed=" +:+ pretty processed +:+
  " total=" +:+ pretty total +:+ " halted=" +:+ pretty halted +:+ " versions=" +:+ chain_version_text st.

Definition chain_start_line (epoch jobs : Z) : string :=
  "RAVEIL-FOLD-CHAIN-START-V1 epoch=" +:+ format_hex 16 epoch +:+ " jobs=" +:+ pretty jobs +:+ " versions=1,1".

Section verify.
Context (b : bundle) (jobs : list chain_job) (injections : list string) (epoch : Z) (ids : list Z)
  (build : pyval) (lines : list string) (processed : Z).

(** One iteration of [for i, row in enumerate(receipt["jobs"])]. *)
Definition verify_chain_step (st : chain_check) (ir : Z * pyval) : res chain_check :=
  let '(i, row) := ir in
  let state := cc_state st in
  let* resolved := chain_resolve jobs state i in
  match resolved with
  | None => fail "job ran with unavailable producer"
  | Some (job, source, destination) =>
      let inputs := VList (cj_inputs job) in
      let* config := compile_region (cj_region job) in
      let* request := request_bytes config inputs (VInt (at_ 0 ids i)) in
      let injection := at_ "" injections i in
      let* ' (row, rtl_id) := check_row row i (cj_name job) (cc_rtl_ids st) in
      let* rtl := bu_rtl b rtl_id in
      let* values := rtl_values rtl (cj_region job) inputs injection build in
      let* expected := reference (cj_region job) inputs in
      let step := step_lines lines i in
      let* bd := dispatch (at_ "" step 0) request (at_ 0 ids i) (Z.of_nat (length expected)) epoch (i + 1) in
      let* ' (response, wire) := reply bd values injection (cc_reply st) in
      raise_if negb (bool_decide (response = bu_job_response b i)) || negb (String.eqb wire (bu_job_wire b i)) ||
               negb (bool_decide (request = bu_job_request b i)) || negb (same (binding_val bd) (bu_job_dispatch b i))
      with "changed session wire/binding" in
      let* ' (checked, result, state) :=
        check_chain_step step i request (at_ 0 ids i) epoch expected wire injection state source destination in
      let* row_binding := dsub row "binding" in
      let* row_result := dsub row "result" in
      raise_if negb (same (binding_val checked) row_binding) || negb (same (chain_result_val result) row_result)
      with "session result changed" in
      raise_if is_broken injection && negb (i + 1 =? processed) with "job ran after framing loss" in
      Ok (ChainCheck state (Some response) (rtl_id :: cc_rtl_ids st) (if is_broken injection then 1 else cc_halted st))
  end.

(** The lines after the last job. *)
Definition verify_chain_end (d : dict) (st : chain_check) : res unit :=
  let state := cc_state st in
  let n := Z.of_nat (length jobs) in
  let last i := at_ "" lines (Z.of_nat (length lines) - i) in
  let* halted :=
    if (cc_halted st =? 0) && negb (processed =? n) then
      let* resolved := chain_resolve jobs state processed in
      raise_if is_Some_b resolved with "chain ended without unavailable dependency" in
      let* line := chain_block_line jobs processed in
      raise_if negb (String.eqb (last 2) line) with "chain ended without unavailable dependency" in Ok 3
    else Ok (cc_halted st) in
  let* r_halted := dsub d "halted" in let* r_versions := dsub d "versions" in
  raise_if negb (same (VList [r_halted; r_versions]) (VList [VInt halted; words_val (cs_versions state)])) ||
           negb (String.eqb (last 1) (chain_end_line state epoch processed n halted))
  with "session end mismatch" in Ok tt.
End verify.

(** [_verify] of a chain receipt. *)
Definition verify_chain (b : bundle) (receipt : pyval) : res pyval :=
  let* ' (d, processed, rows) := check_receipt b
    ["schema"; "evidence_class"; "epoch"; "processed"; "planned"; "halted"; "versions"; "jobs"; "files"]
    "raveil.fold-chain-run.v1" "host-mediated-QEMU-RTL-chain-functional" receipt in
  let* jobs := validate_chain (bu_session b) in
  let n := Z.of_nat (length jobs) in
  raise_if n <? processed with "processed count exceeds declared jobs" in
  let* rp := check_plan "raveil.fold-chain-plan.v1" (bu_plan b) in
  let* injections := options (map cj_region jobs) (rp_injections rp) in
  let* ' (envelope, _) := encode_chain (bu_session b) (rp_epoch rp) (rp_ids rp) in
  let* ' (epoch, ids) := check_ids "nonzero epoch required" (length jobs) (rp_epoch rp) (rp_ids rp) in
  let* r_epoch := dsub d "epoch" in let* r_planned := dsub d "planned" in
  raise_if negb (bool_decide (envelope = bu_request b)) ||
           negb (same (VList [r_epoch; r_planned]) (VList [VInt epoch; VInt n]))
  with "session request mismatch" in
  let* _ := check_command (bu_command b) in
  let* lines := started "RAVEIL-FOLD-CHAIN-START" (bu_stdout b) in
  let* halted := dsub d "halted" in
  raise_if negb (String.eqb (at_ "" lines 0) (chain_start_line epoch n)) ||
           negb (Z.of_nat (length lines) =? 2 + 4 * processed + (if py_eqb halted (VInt 3) then 1 else 0))
  with "session phase count mismatch" in
  let* st := foldM (verify_chain_step b jobs injections epoch ids (rp_build rp) lines processed)
               (ChainCheck chain_initial None [] 0) (enumerate rows) in
  let* _ := verify_chain_end jobs epoch lines processed d st in
  Ok receipt.

(** ** A concrete chain *)

(** [a * b], its product with the identity twice, and a job that reads the
    first result when both banks hold later ones. *)
Definition chain_example : pyval :=
  let link name := VDict [("from", VStr name)] in
  let job name x := VDict [("name", VStr name); ("region", region_example); ("inputs", VList [x; words_val [1; 0; 0; 1]])] in
  VDict [("schema", VStr "raveil.fold-chain.v1");
         ("jobs", VList [
           VDict [("name", VStr "first"); ("region", region_example); ("inputs", inputs_example)];
           job "second" (link "first"); job "third" (link "second"); job "late" (link "first")])].

Example chain_example_frame :
  (let* f := encode_chain chain_example (VInt 7) (words_val [1; 2; 3; 4]) in Ok (length f.1)) = Ok (32 + 4 * (8 + 332))%nat.
Proof. vm_compute. reflexivity. Qed.

(** Each job reads the one before. *)
Definition pipeline_example : pyval :=
  let link name := VDict [("from", VStr name)] in
  let job name x := VDict [("name", VStr name); ("region", region_example); ("inputs", VList [x; words_val [1; 0; 0; 1]])] in
  VDict [("schema", VStr "raveil.fold-chain.v1");
         ("jobs", VList [VDict [("name", VStr "first"); ("region", region_example); ("inputs", inputs_example)];
           job "second" (link "first"); job "third" (link "second")])].

(** A run of the chain in which the second job answers with a wrong word, as the
    tools write it: after the rollback the third job is blocked. *)
Record chain_saved := ChainSaved {
  cv_state : chain_state; cv_lines : list string; cv_rows : list pyval;
  cv_requests : list (list Z); cv_responses : list (list Z); cv_wires : list string; cv_dispatches : list pyval;
}.

Definition chain_save_job (jobs : list chain_job) (epoch : Z) (injections : list string) (ids : list Z)
    (run : chain_saved) (i : Z) : res chain_saved :=
  let* resolved := chain_resolve jobs (cv_state run) i in
  match resolved with
  | None => fail "blocked"
  | Some (job, source, destination) =>
      let injection := at_ "" injections i in
      let rid := at_ 0 ids i in
      let* config := compile_region (cj_region job) in
      let* request := request_bytes config (VList (cj_inputs job)) (VInt rid) in
      let* expected := reference (cj_region job) (VList (cj_inputs job)) in
      let count := Z.of_nat (length expected) in
      let bd := Binding rid epoch (i + 1) (tohex example_cookie) count in
      let* ' (response, wire) := injected_response bd expected injection in
      let success := String.eqb injection "none" in
      let st := chain_commit (cv_state run) i destination expected success in
      let version := at_ 0 (cs_versions st) destination in
      let result := ChainResult success (if success then 1 else 4) destination source version (if success then expected else []) in
      Ok (ChainSaved st
            (cv_lines run ++ [dispatch_line rid epoch (i + 1) example_cookie count request;
               credits_text (Z.of_nat (String.length wire) + withheld injection);
               chain_state_line st i injection source destination;
               chain_result_line i rid epoch (tohex example_cookie) success version expected])
            (cv_rows run ++ [VDict [("index", VInt i); ("name", VStr (cj_name job)); ("rtl_id", VStr (two_digits i));
               ("binding", binding_val bd); ("result", chain_result_val result)]])
            (cv_requests run ++ [request]) (cv_responses run ++ [response]) (cv_wires run ++ [wire])
            (cv_dispatches run ++ [binding_val bd]))
  end.

Definition chain_evidence : res (bundle * pyval) :=
  let injections := ["none"; "wrong-word"; "none"] in
  let* jobs := validate_chain pipeline_example in
  let* ' (frame, _) := encode_chain pipeline_example (VInt 7) (words_val [1; 2; 3]) in
  let* run := foldM (chain_save_job jobs 7 injections [1; 2; 3])
    (ChainSaved chain_initial [chain_start_line 7 3] [] [] [] [] []) [0; 1] in
  let st := cv_state run in
  let* blocked := chain_block_line jobs 2 in
  let lines := cv_lines run ++ [blocked; chain_end_line st 7 2 3 3] in
  let receipt := VDict [("schema", VStr "raveil.fold-chain-run.v1");
    ("evidence_class", VStr "host-mediated-QEMU-RTL-chain-functional"); ("epoch", VInt 7); ("processed", VInt 2);
    ("planned", VInt 3); ("halted", VInt 3); ("versions", words_val (cs_versions st)); ("jobs", VList (cv_rows run));
    ("files", VDict (map (fun f => (f, VStr f)) (files_for 2)))] in
  let plan_doc := VDict [("schema", VStr "raveil.fold-chain-plan.v1"); ("epoch", VInt 7); ("request_ids", words_val [1; 2; 3]);
    ("injections", VList (map VStr injections)); ("build_sha256", VStr "b")] in
  Ok (Bundle id pipeline_example plan_doc (VList (map VStr (command_for "/bin/qemu" (path_of "/run")))) frame
        (String.concat (String (Ascii.ascii_of_nat 10) "") ("boot" :: lines))
        (at_ [] (cv_requests run)) (at_ [] (cv_responses run)) (at_ "" (cv_wires run)) (at_ VNone (cv_dispatches run))
        (fun name =>
           let i := if String.eqb name "00" then 0 else 1 in
           let inputs := if i =? 0 then inputs_example else VList [words_val [19; 22; 43; 50]; words_val [1; 0; 0; 1]] in
           let* out := reference region_example inputs in
           Ok (example_rtl (DagJob "" region_example []) inputs (words_val out))), receipt).

Example chain_evidence_accepted :
  (let* ' (b, receipt) := chain_evidence in let* r := verify_chain b receipt in Ok (bool_decide (r = receipt))) = Ok true.
Proof. vm_compute. reflexivity. Qed.
