(* ===== verification/ChainRun.v ===== *)
(** * A chain never reads a stale result

    [chain_composition] is the value of a chain without banks or versions. The
    runs of a chain are the paths of [chain_step], in which a job that resolves
    runs and is committed or rolled back. In every reachable state a job that
    resolves is given exactly the composition's inputs, and what a verified
    receipt reports of an approved job is its composition value. *)

From S2P Require Import Prelude PyValue AffineFold AffineFoldFacts FoldMachine FoldMachineFacts FoldWire FoldLines.
From S2P Require Import Evidence Project FoldSession FoldDag FoldDagFacts DagRun FoldChain.

Definition chain_size (jobs : list chain_job) : Z := Z.of_nat (length jobs).

(** The words of a job's output. *)
Definition cells (jobs : list chain_job) (i : Z) : Z :=
  match compile_region (cj_region (at_ no_chain_job jobs i)) with Ok c => cfg c 1 * cfg c 2 | Err _ => 0 end.

(** The operands of a job, with its producer's output in place of links. *)
Definition chain_inputs (jobs : list chain_job) (output_of : Z -> list Z) (i : Z) : list pyval :=
  let source := match links jobs i with Ok (s, _) => s | Err _ => LITERAL end in
  map (fun o => if is_link o then words_val (output_of source) else o) (cj_inputs (at_ no_chain_job jobs i)).

Definition chain_value (jobs : list chain_job) (outs : list (list Z)) (i : Z) : res (list Z) :=
  reference (cj_region (at_ no_chain_job jobs i)) (VList (chain_inputs jobs (at_ [] outs) i)).

(** The outputs of all jobs, by job. *)
Definition chain_composition (jobs : list chain_job) : res (list (list Z)) :=
  foldM (fun outs i => let* out := chain_value jobs outs i in Ok (outs ++ [out])) [] (zseq (chain_size jobs)).

(** ** What admission establishes *)

Lemma region_cells_compile d c : compile_region d = Ok c -> region_cells d = Ok (cfg c 1 * cfg c 2).
Proof.
  intros Hc. destruct (compile_region_ok _ _ Hc) as (t & ws & Ha & _ & _ & -> & _).
  change (cfg (tconfig t ws) 1) with (t_rows t). change (cfg (tconfig t ws) 2) with (t_cols t).
  unfold admit_region in Ha. destruct d as [| | | | | |d]; try discriminate Ha. unfold region_cells.
  destruct (negb (keys_are d region_fields)); [discriminate Ha|].
  destruct (dsub d "schema") as [schema|]; [|discriminate Ha]. cbn [bind] in Ha.
  destruct (negb (is_str schema _)); [discriminate Ha|].
  destruct (dsub d "shape") as [shape|]; [|discriminate Ha]. cbn [bind] in Ha |- *.
  destruct (dsub d "lengths") as [lengths|]; [|discriminate Ha]. cbn [bind] in Ha.
  destruct (seq_items shape) as [sh|]; [|discriminate Ha]. destruct (seq_items lengths) as [le|]; [|discriminate Ha].
  assert (Hsh : sh = map VInt [t_rows t; t_cols t]).
  { clear Hc. by res_inv. }
  by rewrite Hsh.
Qed.

(** An operand of job [i]: a link to the whole output of [source], or words. *)
Definition operand_link (jobs : list chain_job) (i l source : Z) (v : pyval) : Prop :=
  if is_link v then link_source jobs v = Ok source /\ 0 <= source < i /\ l = cells jobs source
  else exists ws, operand_words l v ws.

Definition chain_job_ok (jobs : list chain_job) (i : Z) : Prop :=
  exists x y config source, cj_inputs (at_ no_chain_job jobs i) = [x; y] /\
    compile_region (cj_region (at_ no_chain_job jobs i)) = Ok config /\
    operand_link jobs i (cfg config 5) source x /\ operand_link jobs i (cfg config 6) source y.

Definition chain_ok (jobs : list chain_job) : Prop := forall i, 0 <= i < chain_size jobs -> chain_job_ok jobs i.

Lemma link_source_Ok jobs v s :
  link_source jobs v = Ok s -> exists d f, v = VDict d /\ dget "from" d = Some (VStr f) /\ index_of f (map cj_name jobs) = Some s.
Proof.
  unfold link_source, dsub. intros H. destruct v as [| | | | | |d]; try discriminate H.
  destruct (dget "from" d) as [o|] eqn:E; [|discriminate H]. cbn [bind from_option_err] in H.
  destruct o as [| | | |f| |]; try discriminate H.
  destruct (index_of f (map cj_name jobs)) as [k|] eqn:Ek; [|discriminate H]. injection H as <-. by exists d, f.
Qed.

Lemma link_source_app jobs jobs' v s : link_source jobs v = Ok s -> link_source (jobs ++ jobs') v = Ok s.
Proof.
  intros (d & f & -> & Hd & Hk)%link_source_Ok. unfold link_source, dsub. rewrite Hd. cbn [bind from_option_err].
  by rewrite map_app, (index_of_app _ _ _ _ Hk).
Qed.

Lemma operand_link_app jobs jobs' i l s v :
  i <= chain_size jobs -> operand_link jobs i l s v -> operand_link (jobs ++ jobs') i l s v.
Proof.
  unfold operand_link, cells, chain_size. intros Hi. destruct (is_link v); [|done]. intros (Hl & Hs & ->).
  split; [by apply link_source_app|]. split; [done|]. rewrite at_app_l by lia. done.
Qed.

Lemma chain_operand_ok jobs p v l p' lv :
  chain_ok jobs -> chain_operand jobs p v l = Ok (p', lv) ->
  if is_link v then exists s, p' = Some s /\ (p = None \/ p = Some s) /\ link_source jobs v = Ok s /\
                              0 <= s < chain_size jobs /\ l = cells jobs s
  else p' = p /\ lv = v.
Proof.
  intros Hok H. unfold chain_operand in H.
  destruct v as [| | | | | |d]; cbn [is_link]; try (by injection H as <- <-).
  destruct (negb (keys_are d ["from"])); [discriminate H|].
  destruct (dget "from" d) as [o|] eqn:Hd; [|discriminate H]. destruct o as [| | | |f| |]; try discriminate H.
  destruct (index_of f (map cj_name jobs)) as [s|] eqn:Hs; [|discriminate H].
  pose proof (index_of_range _ _ _ Hs) as [Hr _]. rewrite length_map in Hr. fold (chain_size jobs) in Hr.
  destruct (Hok s Hr) as (x & y & c & src & _ & Hc & _).
  destruct (match p with Some _ => _ | None => _ end) eqn:Hp in H; [discriminate H|].
  rewrite (region_cells_compile _ _ Hc) in H. cbn [bind] in H.
  destruct (negb (l =? _)) eqn:Hl in H; [discriminate H|]. injection H as <- <-. bool_prop.
  exists s. split_and!; try done; try lia.
  - destruct p as [q|]; [|by left]. bool_prop. right. by f_equal.
  - unfold link_source, dsub. rewrite Hd. cbn. by rewrite Hs.
  - unfold cells. by rewrite Hc.
Qed.

Lemma chain_job_ok_app jobs jobs' i : 0 <= i < chain_size jobs -> chain_job_ok jobs i -> chain_job_ok (jobs ++ jobs') i.
Proof.
  intros Hi (x & y & c & s & Hin & Hc & Hx & Hy). exists x, y, c, s. rewrite at_app_l by (unfold chain_size in Hi; lia).
  split_and!; [done|done|apply operand_link_app; [lia|done]..].
Qed.

(** The links of one more job, once its operands are admitted. *)
Lemma admitted_operands jobs x y lx ly config p q region out :
  chain_ok jobs -> compile_region region = Ok config ->
  chain_operand jobs None x (cfg config 5) = Ok (p, lx) -> chain_operand jobs p y (cfg config 6) = Ok (q, ly) ->
  reference region (VList [lx; ly]) = Ok out ->
  exists source, operand_link jobs (chain_size jobs) (cfg config 5) source x /\
                 operand_link jobs (chain_size jobs) (cfg config 6) source y.
Proof.
  intros Hok Hc Hx Hy Hr. apply reference_reads in Hr as (c & a & b & Hc' & Ha & Hb).
  rewrite Hc in Hc'. injection Hc' as <-.
  apply (chain_operand_ok _ _ _ _ _ _ Hok) in Hx. apply (chain_operand_ok _ _ _ _ _ _ Hok) in Hy. unfold operand_link.
  destruct (is_link x) eqn:Ex, (is_link y) eqn:Ey.
  - destruct Hx as (s & -> & _ & ? & ? & ?). destruct Hy as (s' & _ & [|[= ->]] & ? & ? & ?); [done|]. by exists s'.
  - destruct Hx as (s & -> & _ & ? & ? & ?). destruct Hy as [_ ->]. exists s. split; [done|]. by exists b.
  - destruct Hx as [-> ->]. destruct Hy as (s & _ & _ & ? & ? & ?). exists s. split; [by exists a|done].
  - destruct Hx as [_ ->], Hy as [_ ->]. exists 0. split; [by exists a|by exists b].
Qed.

Lemma validate_chain_job_ok jobs v jobs' :
  chain_ok jobs -> validate_chain_job jobs v = Ok jobs' -> chain_ok jobs' /\ chain_size jobs' = chain_size jobs + 1.
Proof.
  intros Hok H. unfold validate_chain_job in H. destruct v as [| | | | | |job]; try discriminate H.
  destruct (negb (keys_are job _)); [discriminate H|].
  destruct (dsub job "name") as [n|]; [|discriminate H]. cbn [bind] in H. destruct (name n) as [jn|]; [|discriminate H]. cbn [bind] in H.
  destruct (bool_decide _); [discriminate H|].
  destruct (dsub job "region") as [r|]; [|discriminate H]. cbn [bind] in H. destruct (compile_region r) as [c|] eqn:Hc; [|discriminate H].
  cbn [bind] in H. destruct (dsub job "inputs") as [ins|]; [|discriminate H]. cbn [bind] in H.
  destruct ins as [| | | | |[|x [|y []]]|]; try discriminate H.
  destruct (chain_operand jobs None x _) as [[p lx]|] eqn:Hx; [|discriminate H]. cbn [bind] in H.
  destruct (chain_operand jobs p y _) as [[q ly]|] eqn:Hy; [|discriminate H]. cbn [bind] in H.
  destruct (reference r _) as [out|] eqn:Hr; [|discriminate H]. injection H as <-.
  destruct (admitted_operands _ _ _ _ _ _ _ _ _ _ Hok Hc Hx Hy Hr) as (s & Hlx & Hly).
  assert (Hsize : chain_size (jobs ++ [ChainJob jn r [x; y]]) = chain_size jobs + 1).
  { unfold chain_size. rewrite length_app. cbn. lia. }
  split; [|done]. intros i Hi. rewrite Hsize in Hi. destruct (decide (i = chain_size jobs)) as [->|Hne].
  - exists x, y, c, s. rewrite at_snoc by done. split_and!; [done|done|apply operand_link_app; [lia|done]..].
  - apply chain_job_ok_app; [lia|]. apply Hok. lia.
Qed.

Lemma validate_chain_ok session jobs : validate_chain session = Ok jobs -> 1 <= chain_size jobs <= 8 /\ chain_ok jobs.
Proof.
  intros H. unfold validate_chain in H. destruct session as [| | | | | |d]; try discriminate H.
  destruct (negb (keys_are d _)); [discriminate H|]. destruct (dsub d "schema") as [s|]; [|discriminate H]. cbn [bind] in H.
  destruct (negb (is_str s _)); [discriminate H|]. destruct (dsub d "jobs") as [js|]; [|discriminate H]. cbn [bind] in H.
  destruct js as [| | | | |l|]; try discriminate H. destruct (negb _) eqn:Hl; [discriminate H|]. bool_prop.
  assert (Hgen : forall l acc out, chain_ok acc -> foldM validate_chain_job acc l = Ok out ->
    chain_ok out /\ chain_size out = chain_size acc + Z.of_nat (length l)).
  { clear. induction l as [|v l IH]; intros acc out Hacc H; cbn [foldM length] in H.
    - injection H as <-. split; [done|]. cbn. lia.
    - destruct (validate_chain_job acc v) as [acc'|] eqn:E; [|discriminate H]. cbn [bind] in H.
      apply validate_chain_job_ok in E as [Hacc' Hs]; [|done]. destruct (IH _ _ Hacc' H) as [? ->]. split; [done|]. cbn. lia. }
  apply Hgen in H as [? ->]; [unfold chain_size; cbn [length]; split; [lia|done]|]. intros i Hi. unfold chain_size in Hi. cbn in Hi. lia.
Qed.

(** ** Links and values *)

Section chain.
Context (jobs : list chain_job) (Hok : chain_ok jobs).

(** The links of an admitted job. *)
Lemma chain_links_ok i x y l1 l2 source :
  cj_inputs (at_ no_chain_job jobs i) = [x; y] -> operand_link jobs i l1 source x -> operand_link jobs i l2 source y ->
  links jobs i = Ok (if is_link x || is_link y then source else LITERAL,
                     (if is_link x then 1 else 0) + (if is_link y then 2 else 0)).
Proof.
  intros Hin Hx Hy. unfold links. rewrite Hin. change (enumerate [x; y]) with [(0, x); (1, y)]. unfold operand_link in *.
  cbn [foldM fst snd]. destruct (is_link x) eqn:Ex, (is_link y) eqn:Ey; cbn [bind orb fst snd].
  - destruct Hx as (-> & _ & _), Hy as (-> & _ & _). reflexivity.
  - destruct Hx as (-> & _ & _). reflexivity.
  - destruct Hy as (-> & _ & _). reflexivity.
  - reflexivity.
Qed.

(** Outputs of the first [m] jobs, of the right extent. *)
Definition chain_results (output_of : Z -> list Z) (m : Z) : Prop :=
  forall k, 0 <= k < m -> Z.of_nat (length (output_of k)) = cells jobs k /\ Forall is_word (output_of k).

Lemma chain_operand_words output_of i l source v :
  i <= chain_size jobs -> chain_results output_of i -> operand_link jobs i l source v ->
  exists ws, operand_words l (if is_link v then words_val (output_of source) else v) ws.
Proof.
  intros Hi Hres Hv. unfold operand_link in Hv. destruct (is_link v); [|done]. destruct Hv as (_ & Hs & ->).
  destruct (Hres source Hs) as [Hl Hw]. exists (output_of source). by apply operand_words_val.
Qed.

Lemma chain_inputs_eq output_of i x y l1 l2 source :
  cj_inputs (at_ no_chain_job jobs i) = [x; y] -> operand_link jobs i l1 source x -> operand_link jobs i l2 source y ->
  chain_inputs jobs output_of i = [if is_link x then words_val (output_of source) else x;
                                   if is_link y then words_val (output_of source) else y].
Proof.
  intros Hin Hx Hy. unfold chain_inputs. rewrite (chain_links_ok i x y l1 l2 source) by done. rewrite Hin. cbn [map].
  by destruct (is_link x), (is_link y).
Qed.

Lemma chain_inputs_ext f g i :
  0 <= i < chain_size jobs -> (forall k, 0 <= k < i -> f k = g k) -> chain_inputs jobs f i = chain_inputs jobs g i.
Proof.
  intros Hi Hfg. destruct (Hok i Hi) as (x & y & c & s & Hin & _ & Hx & Hy).
  rewrite !(chain_inputs_eq _ i x y _ _ s Hin Hx Hy). unfold operand_link in *.
  destruct (is_link x); [rewrite (Hfg s) by apply Hx; done|]. destruct (is_link y); [|done]. by rewrite (Hfg s) by apply Hy.
Qed.

Lemma chain_value_total output_of i :
  0 <= i < chain_size jobs -> chain_results output_of i ->
  exists out, reference (cj_region (at_ no_chain_job jobs i)) (VList (chain_inputs jobs output_of i)) = Ok out /\
    Z.of_nat (length out) = cells jobs i /\ Forall is_word out.
Proof.
  intros Hi Hres. destruct (Hok i Hi) as (x & y & c & s & Hin & Hc & Hx & Hy).
  rewrite (chain_inputs_eq _ i x y _ _ s Hin Hx Hy).
  destruct (chain_operand_words output_of i (cfg c 5) s x) as [a Ha]; [lia|done|done|].
  destruct (chain_operand_words output_of i (cfg c 6) s y) as [b Hb]; [lia|done|done|].
  destruct (reference_operands _ _ _ _ _ _ Hc Ha Hb) as (out & Hr & _ & Hw & Hlen).
  exists out. unfold cells. by rewrite Hc.
Qed.

Lemma chain_composition_total :
  exists outs, chain_composition jobs = Ok outs /\ Z.of_nat (length outs) = chain_size jobs /\
    chain_results (at_ [] outs) (chain_size jobs) /\
    forall i, 0 <= i < chain_size jobs -> chain_value jobs outs i = Ok (at_ [] outs i).
Proof.
  enough (Hm : forall m, 0 <= m -> m <= chain_size jobs -> exists outs,
    foldM (fun outs i => let* out := chain_value jobs outs i in Ok (outs ++ [out])) [] (zseq m) = Ok outs /\
    Z.of_nat (length outs) = m /\ chain_results (at_ [] outs) m /\
    forall i, 0 <= i < m -> chain_value jobs outs i = Ok (at_ [] outs i)).
  { apply Hm; unfold chain_size; lia. }
  intros m Hm. pattern m. apply natlike_ind; [| |done]; clear m Hm.
  - intros _. exists []. split_and!; try done; intros k ?; lia.
  - intros m Hm IH Hn. rewrite <- Z.add_1_r in *. destruct IH as (outs & Hf & Hlen & Hres & Hval); [lia|].
    destruct (chain_value_total (at_ [] outs) m) as (out & Ho & Hol & Hw); [lia|done|].
    assert (Hext : forall i, 0 <= i < m + 1 -> chain_value jobs (outs ++ [out]) i = chain_value jobs outs i).
    { intros i Hi. unfold chain_value. do 2 f_equal. apply chain_inputs_ext; [lia|]. intros. apply at_app_l. lia. }
    exists (outs ++ [out]). rewrite zseq_succ, foldM_app, Hf by done. cbn [bind foldM].
    unfold chain_value at 1. rewrite Ho. cbn [bind]. split_and!; [done|rewrite length_app; cbn; lia| |].
    + intros k Hk. destruct (decide (k = m)) as [->|]; [by rewrite at_snoc|]. rewrite at_app_l by lia. apply Hres; lia.
    + intros k Hk. rewrite Hext by done. destruct (decide (k = m)) as [->|]; [by rewrite at_snoc|].
      rewrite at_app_l by lia. apply Hval. lia.
Qed.

(** ** The host's model of the banks *)

Section tracking.
Context (outs : list (list Z)) (Hres : chain_results (at_ [] outs) (chain_size jobs))
  (Hval : forall i, 0 <= i < chain_size jobs -> chain_value jobs outs i = Ok (at_ [] outs i)).

Definition is_bank (b : Z) : Prop := b = 0 \/ b = 1.

(** What is recorded of an earlier job is its composition value, and while its
    bank has the version it left the bank holds it, zero padded. *)
Record banks_ok (st : chain_state) (i : Z) : Prop := {
  bk_versions : length (cs_versions st) = 2%nat;
  bk_banks : length (cs_banks st) = 2%nat;
  bk_active : is_bank (cs_active st);
  bk_output : forall k bank version out, cs_producers st !! k = Some (bank, version, out) ->
    0 <= k < i /\ is_bank bank /\ out = at_ [] outs k /\ version <= at_ 0 (cs_versions st) bank;
  bk_current : forall k bank version out, cs_producers st !! k = Some (bank, version, out) ->
    version = at_ 0 (cs_versions st) bank -> at_ [] (cs_banks st) bank = padded 256 out;
}.

Lemma banks_initial : banks_ok chain_initial 0.
Proof. split; [done|done|by right|..]; intros k bank version out Hk; cbn in Hk; by rewrite lookup_empty in Hk. Qed.

Lemma lxor_bank b : is_bank b -> is_bank (Z.lxor b 1) /\ Z.lxor b 1 <> b.
Proof. intros [-> | ->]; split; (by left) || (by right) || done. Qed.

Lemma producer_bank_Some st i source bank :
  banks_ok st i -> producer_bank st source = Some bank ->
  is_bank bank /\ at_ [] (cs_banks st) bank = padded 256 (at_ [] outs source) /\
  exists version, cs_producers st !! source = Some (bank, version, at_ [] outs source).
Proof.
  intros Hb H. unfold producer_bank in H. destruct (cs_producers st !! source) as [[[b v] out]|] eqn:Hp; [|discriminate H].
  destruct (at_ 0 (cs_versions st) b =? v) eqn:Hv; [|discriminate H]. injection H as <-. bool_prop.
  destruct (bk_output _ _ Hb _ _ _ _ Hp) as (_ & ? & Ho & _).
  rewrite <- Ho. split_and!; [done|by eapply (bk_current _ _ Hb)|by exists v].
Qed.

Lemma chain_resolve_ok st i :
  0 <= i < chain_size jobs -> banks_ok st i ->
  exists r, chain_resolve jobs st i = Ok r /\
    match r with
    | None => exists source mask, links jobs i = Ok (source, mask) /\ mask <> 0 /\ producer_bank st source = None
    | Some (job, source, destination) =>
        cj_name job = cj_name (at_ no_chain_job jobs i) /\
        reference (cj_region job) (VList (cj_inputs job)) = Ok (at_ [] outs i) /\
        is_bank destination /\ source <> destination /\
        forall k mask, links jobs i = Ok (k, mask) -> mask <> 0 ->
          is_bank source /\ at_ [] (cs_banks st) source = padded 256 (at_ [] outs k)
    end.
Proof.
  intros Hi Hb. destruct (Hok i Hi) as (x & y & c & s & Hin & Hc & Hx & Hy).
  pose proof (chain_inputs_eq (at_ [] outs) i x y _ _ s Hin Hx Hy) as Hci.
  pose proof (chain_links_ok i x y _ _ s Hin Hx Hy) as Hl. specialize (Hval i Hi). unfold chain_value in Hval. rewrite Hci in Hval.
  unfold chain_resolve. rewrite Hl. cbn [bind]. rewrite Hin.
  destruct (is_link x || is_link y) eqn:Exy.
  - assert (Hm : ((if is_link x then 1 else 0) + (if is_link y then 2 else 0) =? 0) = false)
      by (apply Z.eqb_neq; destruct (is_link x), (is_link y); done). rewrite Hm.
    destruct (producer_bank st s) as [bank|] eqn:Hp.
    + destruct (producer_bank_Some _ _ _ _ Hb Hp) as (Hbank & Hw & version & Hpr). cbn [traverse]. rewrite Hpr. cbn [from_option_err bind].
      destruct (lxor_bank bank Hbank) as [Hd Hne].
      exists (Some (ChainJob (cj_name (at_ no_chain_job jobs i)) (cj_region (at_ no_chain_job jobs i))
        [if is_link x then words_val (at_ [] outs s) else x; if is_link y then words_val (at_ [] outs s) else y],
        bank, Z.lxor bank 1)). split.
      { by destruct (is_link x), (is_link y). }
      split_and!; [done|exact Hval|done|congruence|].
      * intros k mask [= <- <-] _. done.
    + exists None. split; [done|]. exists s. eexists. split_and!; [reflexivity| |done].
      by apply Z.eqb_neq.
  - apply orb_false_iff in Exy as [Ex Ey]. rewrite Ex, Ey in *. cbn [Z.add Z.eqb traverse bind]. rewrite Ex, Ey. cbn [bind].
    destruct (lxor_bank (cs_active st) (bk_active _ _ Hb)) as [Hd Hne]. eexists. split; [reflexivity|].
    cbn [cj_name cj_region cj_inputs]. split_and!; [done|exact Hval|done| |].
    + intros Heq. destruct Hd as [Hd|Hd]; discriminate (eq_trans Heq Hd).
    + intros k mask [= <- <-] Hk. done.
Qed.

Lemma commit_banks st i destination success :
  0 <= i < chain_size jobs -> banks_ok st i -> is_bank destination ->
  let st' := chain_commit st i destination (at_ [] outs i) success in
  banks_ok st' (i + 1) /\ (success = true -> producer_bank st' i = Some destination).
Proof.
  intros Hi Hb Hd. cbn zeta. destruct success; cbn [chain_commit].
  2:{ split; [|done]. destruct Hb as [Hv Hk Ha Ho Hc]. split; try done. intros k b v o Hp. destruct (Ho _ _ _ _ Hp). split; [lia|done]. }
  destruct Hb as [Hv Hk Ha Ho Hc]. assert (Hdr : 0 <= destination < 2) by (destruct Hd as [-> | ->]; lia). split.
  2:{ intros _. unfold producer_bank. cbn [cs_producers cs_versions]. by rewrite lookup_insert_eq, Z.eqb_refl. }
  split; cbn [cs_versions cs_banks cs_active cs_producers]; rewrite ?length_set_at; try done.
  - intros k b v o [[<- [= <- <- <-]]|[Hne Hp]]%lookup_insert_Some; [split_and!; [lia..|done|done|lia]|].
    destruct (Ho _ _ _ _ Hp) as (? & Hbk & ? & ?). split_and!; [lia..|done|done|].
    destruct (decide (b = destination)) as [->|]; [rewrite at_set_eq by lia; lia|].
    rewrite at_set_ne; [done|lia|destruct Hbk as [-> | ->]; lia|done].
  - intros k b v o [[<- [= <- <- <-]]|[Hne Hp]]%lookup_insert_Some Hver; [by rewrite at_set_eq by lia|].
    destruct (Ho _ _ _ _ Hp) as (? & Hbk & ? & ?).
    destruct (decide (b = destination)) as [->|]; [rewrite at_set_eq in Hver by lia; lia|].
    assert (0 <= b) by (destruct Hbk as [-> | ->]; lia).
    rewrite at_set_ne in Hver by (lia || done). rewrite at_set_ne by (lia || done). by eapply Hc.
Qed.
End tracking.
End chain.

(** ** Runs *)

(** A job that resolves runs; its result is committed or rolled back. *)
Inductive chain_step (jobs : list chain_job) : chain_state * Z -> chain_state * Z -> Prop :=
  | chain_runs st i job source destination expected success :
      0 <= i < chain_size jobs ->
      chain_resolve jobs st i = Ok (Some (job, source, destination)) ->
      reference (cj_region job) (VList (cj_inputs job)) = Ok expected ->
      chain_step jobs (st, i) (chain_commit st i destination expected success, i + 1).

Definition chain_reachable (jobs : list chain_job) (st : chain_state) (i : Z) : Prop :=
  rtc (chain_step jobs) (chain_initial, 0) (st, i).

Lemma chain_reachable_ok jobs outs st i :
  chain_ok jobs -> chain_results jobs (at_ [] outs) (chain_size jobs) ->
  (forall i, 0 <= i < chain_size jobs -> chain_value jobs outs i = Ok (at_ [] outs i)) ->
  chain_reachable jobs st i -> banks_ok outs st i.
Proof.
  intros Hok Hres Hval H. unfold chain_reachable in H.
  enough (Hgen : forall p q, rtc (chain_step jobs) p q -> banks_ok outs p.1 p.2 -> banks_ok outs q.1 q.2).
  { apply (Hgen _ _ H). apply banks_initial. }
  clear st i H. induction 1 as [p|p q r Hs _ IH]; [done|]. intros Hp. apply IH. clear IH r.
  destruct Hs as [st i job source destination expected success Hi Hr He]. cbn [fst snd] in *.
  destruct (chain_resolve_ok jobs Hok outs Hval st i Hi Hp) as (r & Hr' & Hspec).
  rewrite Hr in Hr'. injection Hr' as <-. destruct Hspec as (_ & He' & Hd & _).
  rewrite He in He'. injection He' as ->. by apply (commit_banks jobs outs st i destination success Hi Hp Hd).
Qed.

(** C34. No stale data. The outputs of an admitted chain exist, and in every state
    a run can reach, whatever jobs were rolled back, the next job either is
    blocked, because a link's producer never committed or its bank was
    overwritten, or is given inputs whose value is its composition value, reads
    a bank that holds its producer's output and writes the other bank. *)
Theorem chain_no_stale session jobs :
  validate_chain session = Ok jobs ->
  exists outs, chain_composition jobs = Ok outs /\
    forall st i, chain_reachable jobs st i -> 0 <= i < chain_size jobs ->
    exists r, chain_resolve jobs st i = Ok r /\
      match r with
      | None => exists source mask, links jobs i = Ok (source, mask) /\ mask <> 0 /\ producer_bank st source = None
      | Some (job, source, destination) =>
          reference (cj_region job) (VList (cj_inputs job)) = Ok (at_ [] outs i) /\
          is_bank destination /\ source <> destination /\
          forall k mask, links jobs i = Ok (k, mask) -> mask <> 0 ->
            is_bank source /\ at_ [] (cs_banks st) source = padded 256 (at_ [] outs k)
      end.
Proof.
  intros H. destruct (validate_chain_ok _ _ H) as [_ Hok].
  destruct (chain_composition_total jobs Hok) as (outs & Hc & _ & Hres & Hval).
  exists outs. split; [done|]. intros st i Hr Hi.
  pose proof (chain_reachable_ok jobs outs st i Hok Hres Hval Hr) as Hb.
  destruct (chain_resolve_ok jobs Hok outs Hval st i Hi Hb) as (r & Hrs & Hspec).
  exists r. split; [done|]. destruct r as [[[job s] d]|]; [|done]. by destruct Hspec as (_ & ? & ? & ? & ?).
Qed.

(** C35. Progress of pipelines. When every link of an admitted chain is to the job
    just before, a run in which no job is rolled back reaches the end of the
    chain, and the last job's bank then holds its composition value. *)
Theorem chain_pipeline session jobs :
  validate_chain session = Ok jobs ->
  (forall i source mask, 0 <= i < chain_size jobs -> links jobs i = Ok (source, mask) -> mask <> 0 -> source = i - 1) ->
  exists outs st bank, chain_composition jobs = Ok outs /\ chain_reachable jobs st (chain_size jobs) /\
    producer_bank st (chain_size jobs - 1) = Some bank /\
    at_ [] (cs_banks st) bank = padded 256 (at_ [] outs (chain_size jobs - 1)).
Proof.
  intros H Hlink. destruct (validate_chain_ok _ _ H) as [Hn Hok].
  destruct (chain_composition_total jobs Hok) as (outs & Hc & _ & Hres & Hval).
  assert (Hrun : forall m, 0 <= m -> m <= chain_size jobs ->
    exists st, chain_reachable jobs st m /\ (1 <= m -> exists bank, producer_bank st (m - 1) = Some bank)).
  { intros m Hm. pattern m. apply natlike_ind; [| |done]; clear m Hm.
    - intros _. exists chain_initial. split; [constructor|lia].
    - intros m Hm IH Hle. rewrite <- Z.add_1_r in *. destruct IH as (st & Hr & Hp); [lia|].
      pose proof (chain_reachable_ok jobs outs st m Hok Hres Hval Hr) as Hb.
      destruct (chain_resolve_ok jobs Hok outs Hval st m ltac:(lia) Hb) as ([[[job s] d]|] & Hrs & Hspec).
      + destruct Hspec as (_ & He & Hd & _). exists (chain_commit st m d (at_ [] outs m) true). split.
        { eapply rtc_r; [exact Hr|]. by eapply (chain_runs jobs st m job s d _ true); [lia| |]. }
        intros _. exists d. replace (m + 1 - 1) with m by lia.
        by apply (commit_banks jobs outs st m d true ltac:(lia) Hb Hd).
      + destruct Hspec as (source & mask & Hl & Hne & Hnone). rewrite (Hlink m _ _ ltac:(lia) Hl Hne) in Hnone.
        destruct (Hok m ltac:(lia)) as (x & y & c & s & Hin & _ & Hx & Hy).
        rewrite (chain_links_ok jobs m x y _ _ s Hin Hx Hy) in Hl. injection Hl as <- <-.
        assert (1 <= m); [|destruct Hp as [bank Hp]; [done|]; rewrite Hp in Hnone; discriminate Hnone].
        unfold operand_link in *. destruct (is_link x), (is_link y); try done; lia. }
  destruct (Hrun (chain_size jobs)) as (st & Hr & [bank Hb]); [lia|lia|lia|].
  exists outs, st, bank. split_and!; try done.
  pose proof (chain_reachable_ok jobs outs st _ Hok Hres Hval Hr) as Hbk.
  by destruct (producer_bank_Some _ _ _ _ _ Hbk Hb) as (_ & ? & _).
Qed.

(** ** Receipts *)

Lemma check_chain_step_Ok lines i request rid epoch expected wire injection st source destination bd result st' :
  check_chain_step lines i request rid epoch expected wire injection st source destination = Ok (bd, result, st') ->
  let success := String.eqb injection "none" in
  st' = chain_commit st i destination expected success /\ cr_approved result = success /\
  cr_output result = if success then expected else [].
Proof.
  unfold check_chain_step. intros H. destruct lines as [|l0 [|l1 [|l2 [|l3 []]]]]; try discriminate H.
  destruct (dispatch _ _ _ _ _ _); [|discriminate H]. cbn [bind] in H. cbn zeta in H.
  destruct (negb (String.eqb l1 _)); [discriminate H|]. destruct (negb (String.eqb l2 _)); [discriminate H|].
  destruct (negb (String.eqb l3 _)); [discriminate H|]. by injection H as _ <- <-.
Qed.

(** A row of the receipt reports the composition's value of its job. *)
Definition row_reports (outs : list (list Z)) (injections : list string) (i : Z) (row : pyval) : Prop :=
  exists d reported r, row = VDict d /\ dget "result" d = Some reported /\
    same (chain_result_val r) reported = true /\
    cr_approved r = String.eqb (at_ "" injections i) "none" /\
    cr_output r = if cr_approved r then at_ [] outs i else [].

Lemma check_row_Ok row i job_name ids d id : check_row row i job_name ids = Ok (d, id) -> row = VDict d.
Proof. unfold check_row. intros H. destruct row as [| | | | | |r]; try discriminate H. by res_inv. Qed.

Lemma verify_chain_step_ok b jobs outs injections epoch ids build lines processed i row st st' :
  chain_ok jobs -> chain_results jobs (at_ [] outs) (chain_size jobs) ->
  (forall i, 0 <= i < chain_size jobs -> chain_value jobs outs i = Ok (at_ [] outs i)) ->
  0 <= i < chain_size jobs -> banks_ok outs (cc_state st) i ->
  verify_chain_step b jobs injections epoch ids build lines processed st (i, row) = Ok st' ->
  banks_ok outs (cc_state st') (i + 1) /\ row_reports outs injections i row.
Proof.
  intros Hok Hres Hval Hi Hb H. unfold verify_chain_step in H.
  destruct (chain_resolve_ok jobs Hok outs Hval (cc_state st) i Hi Hb) as (r & Hr & Hspec).
  rewrite Hr in H. cbn [bind] in H. destruct r as [[[job s] d]|]; [|discriminate H].
  destruct Hspec as (_ & Href & Hd & _). rewrite Href in H. cbn [bind] in H.
  res_peel H.
  apply Ok_inj in H as <-. cbn [cc_state].
  match goal with H : check_chain_step _ _ _ _ _ _ _ _ _ _ _ = Ok _ |- _ => apply check_chain_step_Ok in H as (-> & Ha & Ho) end.
  split; [by apply (commit_banks jobs outs (cc_state st) i d _ Hi Hb Hd)|].
  match goal with H : check_row _ _ _ _ = Ok _ |- _ => apply check_row_Ok in H as -> end.
  unfold dsub in *. match goal with H : from_option_err _ (dget "result" ?r) = Ok ?v |- _ =>
    destruct (dget "result" r) as [o|] eqn:Hg; [|discriminate H]; apply Ok_inj in H as -> end.
  bool_prop. do 3 eexists. split_and!; [reflexivity|exact Hg|eassumption|exact Ha|]. by rewrite Ho, Ha.
Qed.

(** Verified receipts report only composition values. When the verifier
    accepts a saved chain run, every job's row is approved exactly when no fault
    was injected, and its reported output is the job's composition value, or
    nothing when it was not approved. *)
Theorem chain_receipt_outputs b receipt :
  verify_chain b receipt = Ok receipt ->
  exists jobs outs injections d rows,
    validate_chain (bu_session b) = Ok jobs /\ chain_composition jobs = Ok outs /\
    receipt = VDict d /\ dget "jobs" d = Some (VList rows) /\
    forall i row, rows !! i = Some row -> row_reports outs injections (Z.of_nat i) row.
Proof.
  intros H. unfold verify_chain in H.
  res_peel H.
  match goal with H : check_receipt _ _ _ _ _ = Ok _ |- _ => apply check_receipt_Ok in H as (-> & Hjobs & Hrows) end.
  match goal with H : validate_chain _ = Ok ?j |- _ => rename j into jobs; rename H into Hc end.
  destruct (validate_chain_ok _ _ Hc) as [_ Hok].
  destruct (chain_composition_total jobs Hok) as (outs & Hcomp & _ & Hres & Hval).
  match goal with H : options _ _ = Ok ?i |- _ => rename i into injections end.
  match goal with H : foldM _ _ (enumerate ?r) = Ok _ |- _ => rename H into Hf; rename r into rows end.
  exists jobs, outs, injections. do 2 eexists. split_and!; [done|done|reflexivity|exact Hjobs|].
  eapply (foldM_enumerate_inv (fun i s => banks_ok outs (cc_state s) i /\
    forall j row, Z.of_nat j < i -> rows !! j = Some row -> row_reports outs injections (Z.of_nat j) row)) in Hf.
  - intros j row Hj. apply Hf; [|done]. apply lookup_lt_Some in Hj. lia.
  - split; [apply banks_initial|]. intros; lia.
  - intros i x s s' Hi Hx [Hb Hall] Hs. bool_prop.
    apply (verify_chain_step_ok _ _ outs) in Hs as [Hb' Hrow]; [|done..|unfold chain_size; lia|done].
    split; [done|]. intros j row Hj Hr. destruct (decide (Z.of_nat j = i)) as [<-|]; [|apply Hall; [lia|done]].
    rewrite Nat2Z.id in Hx. rewrite Hx in Hr. injection Hr as <-. done.
Qed.

(** ** Concrete runs *)

Lemma chain_no_stale_witness :
  exists jobs outs, validate_chain chain_example = Ok jobs /\ chain_composition jobs = Ok outs /\
    exists r, chain_resolve jobs chain_initial 0 = Ok r.
Proof.
  destruct (validate_chain chain_example) as [jobs|] eqn:E; [|vm_compute in E; discriminate E].
  destruct (chain_no_stale _ _ E) as (outs & Hc & Hall). exists jobs, outs. split; [reflexivity|]. split; [exact Hc|].
  destruct (Hall chain_initial 0) as (r & Hr & _); [apply rtc_refl| |exists r; exact Hr].
  vm_compute in E. injection E as <-. split; [discriminate|reflexivity].
Defined.

Lemma chain_pipeline_witness :
  exists jobs outs st bank, validate_chain pipeline_example = Ok jobs /\ chain_composition jobs = Ok outs /\
    chain_reachable jobs st (chain_size jobs) /\ at_ [] (cs_banks st) bank = padded 256 (at_ [] outs (chain_size jobs - 1)).
Proof.
  destruct (validate_chain pipeline_example) as [jobs|] eqn:E; [|vm_compute in E; discriminate E].
  destruct (chain_pipeline _ _ E) as (outs & st & bank & Hc & Hr & _ & Hb).
  - vm_compute in E. injection E as <-. intros i source mask Hi Hl Hm.
    assert (i = 0 \/ i = 1 \/ i = 2) as [-> | [-> | ->]] by (unfold chain_size in Hi; cbn in Hi; lia);
      vm_compute in Hl; injection Hl as <- <-; done.
  - exists jobs, outs, st, bank. split; [reflexivity|]. split; [exact Hc|]. split; [exact Hr|exact Hb].
Defined.

Lemma chain_receipt_outputs_witness :
  exists b receipt, verify_chain b receipt = Ok receipt /\
    exists jobs outs, validate_chain (bu_session b) = Ok jobs /\ chain_composition jobs = Ok outs.
Proof.
  pose proof chain_evidence_accepted as Ha. destruct chain_evidence as [[b receipt]|]; [|discriminate Ha].
  exists b, receipt. assert (H : verify_chain b receipt = Ok receipt).
  { cbn [bind] in Ha. destruct (verify_chain b receipt) as [r|]; [|discriminate Ha]. cbn [bind] in Ha.
    injection Ha as Ha. apply bool_decide_eq_true in Ha. by rewrite Ha. }
  split; [exact H|]. destruct (chain_receipt_outputs b receipt H) as (jobs & outs & _ & _ & _ & Hc & Ho & _).
  exists jobs, outs. split; [exact Hc|exact Ho].
Defined.
