(* ===== verification/Grid.v ===== *)
(** * Grids, tiles and the neighbourhood compiler

    [raveil/grid_kernel.py] (grids, boundary modes, the tile layout),
    [raveil/grid_assembly.py] (checked assembly of tile results) and
    [raveil/mf01_grid.py]: a grid source describes a fold over affine views of
    one or two grids; [compile] cuts its output into tiles, packs for every tile
    the rectangles of words its views touch, and builds a DAG session of one or
    two affine-fold regions; [reference] evaluates the source at every output
    coordinate. Documents are decoded JSON values; [source] gives a source with
    its types, the map nodes still unchecked. *)

From S2P Require Import Prelude PyValue Json MapSyntax AffineFold Numeric FoldMachine Evidence Project FoldSession FoldDag.

(** ** Grids ([grid_kernel.py]) *)

Inductive boundary := BZero | BClamp | BWrap.
#[export] Instance boundary_eq_dec : EqDecision boundary.
Proof. solve_decision. Defined.

(** [boundary] *)
Definition boundary_of (value : pyval) : res boundary :=
  if is_str value "zero" then Ok BZero else if is_str value "clamp" then Ok BClamp
  else if is_str value "wrap" then Ok BWrap else fail "boundary must be zero, clamp or wrap".

Record grid := Grid { gr_rows : Z; gr_columns : Z; gr_words : list Z }.
#[export] Instance grid_eq_dec : EqDecision grid.
Proof. solve_decision. Defined.

Definition GRID_INPUT : string := "raveil.grid-input/v2".
Definition MAX_DIMENSION : Z := 64.

(** [type(v) is int and low <= v <= high] *)
Definition int_in (low high : Z) (v : pyval) : option Z :=
  match v with VInt z => if bool_decide (low <= z <= high) then Some z else None | _ => None end.

(** [read_input] *)
Definition read_input (raw : string) : res grid :=
  raise_if 131072 <? Z.of_nat (String.length raw) with "grid input exceeds 128 KiB" in
  let* value := composition_json raw in
  match value with
  | VDict d =>
      raise_if negb (keys_are d ["schema"; "rows"; "columns"; "words"]) ||
               negb (is_str (default VNone (dget "schema" d)) GRID_INPUT)
      with "expected exact grid-input/v2 schema" in
      let* rows := dsub d "rows" in let* columns := dsub d "columns" in let* words := dsub d "words" in
      match int_in 1 MAX_DIMENSION rows, int_in 1 MAX_DIMENSION columns with
      | Some rows, Some columns =>
          let error {A} : res A := fail "grid requires rows*columns uint32 words" in
          match words with
          | VList l =>
              if negb (Z.of_nat (length l) =? rows * columns) then error
              else match mapM (int_in 0 0xffffffff) l with
                   | Some words => Ok (Grid rows columns words)
                   | None => error
                   end
          | _ => error
          end
      | _, _ => fail "grid dimensions must be integers in 1..64"
      end
  | _ => fail "expected composition object"
  end.

(** A tile of a grid: [layout] *)
Record grid_tile := GridTile { tl_slot : Z; tl_row : Z; tl_column : Z; tl_rows : Z; tl_columns : Z }.

(** [range(0, n, step)] *)
Definition zstep (n step : Z) : list Z := map (fun i => i * step) (zseq ((n + step - 1) / step)).

Definition layout (rows columns : Z) : list grid_tile :=
  map (fun srk : Z * (Z * Z) => let '(slot, (r, c)) := srk in GridTile slot r c (Z.min 16 (rows - r)) (Z.min 16 (columns - c)))
    (enumerate (concat (map (fun r => map (fun c => (r, c)) (zstep columns 16)) (zstep rows 16)))).

(** [sample] *)
Definition sample (g : grid) (row col : Z) (mode : boundary) : res Z :=
  let rows := gr_rows g in
  let columns := gr_columns g in
  let inside := bool_decide (0 <= row < rows) && bool_decide (0 <= col < columns) in
  match mode with
  | BZero => if inside then py_index (gr_words g) (row * columns + col) else Ok 0
  | BClamp => py_index (gr_words g) (Z.min (rows - 1) (Z.max 0 row) * columns + Z.min (columns - 1) (Z.max 0 col))
  | BWrap => py_index (gr_words g) ((row mod rows) * columns + col mod columns)
  end.

(** [halo]: the 18 x 18 neighbourhood of a tile. *)
Definition halo (g : grid) (row column : Z) (mode : boundary) : res (list Z) :=
  let* rows := traverse (fun r => traverse (fun c => sample g r c mode) (zrange (column - 1) (column + 17)))
                 (zrange (row - 1) (row + 17)) in
  Ok (concat rows).

(** ** Assembly ([grid_assembly.py]) *)

Record tile_output := TileOutput { to_name : string; to_shape : Z * Z; to_words : list Z }.
Record tile_place := TilePlace { tp_name : string; tp_row : Z; tp_column : Z; tp_rows : Z; tp_columns : Z }.

(** One word of a tile: it must be in bounds and not written before. *)
Definition place_word (columns : Z) (t : tile_place) (words : list Z) (values : list (option Z)) (rc : Z * Z)
    : res (list (option Z)) :=
  let '(r, c) := rc in
  let index := (tp_row t + r) * columns + tp_column t + c in
  raise_if negb (bool_decide (0 <= index < Z.of_nat (length values))) || is_Some_b (at_ None values index)
  with "tile overlap/bounds" in
  let* w := py_index words (r * tp_columns t + c) in
  Ok (set_at values index (Some w)).

Definition coordinates (rows columns : Z) : list (Z * Z) :=
  concat (map (fun r => map (fun c => (r, c)) (zseq columns)) (zseq rows)).

(** One iteration of [for output, tile in zip(outputs, layout)]. *)
Definition place_tile (rows columns : Z) (values : list (option Z)) (ot : tile_output * tile_place) : res (list (option Z)) :=
  let '(o, t) := ot in
  raise_if (tp_row t <? 0) || (tp_column t <? 0) || (tp_rows t <? 1) || (tp_columns t <? 1) ||
           (rows <? tp_row t + tp_rows t) || (columns <? tp_column t + tp_columns t)
  with "tile rectangle out of bounds" in
  raise_if negb (String.eqb (to_name o) (tp_name t)) || negb (bool_decide (to_shape o = (tp_rows t, tp_columns t)))
  with "tile identity differs" in
  raise_if negb (Z.of_nat (length (to_words o)) =? tp_rows t * tp_columns t) with "tile length differs" in
  foldM (place_word columns t (to_words o)) values (coordinates (tp_rows t) (tp_columns t)).

(** [assemble] *)
Definition assemble (outputs : list tile_output) (tiles : list tile_place) (rows columns : Z) : res (list Z) :=
  raise_if negb (bool_decide (1 <= rows <= 64)) || negb (bool_decide (1 <= columns <= 64))
  with "invalid output dimensions" in
  raise_if negb (length outputs =? length tiles)%nat with "missing output tiles" in
  let* values := foldM (place_tile rows columns) (replicate (Z.to_nat (rows * columns)) None) (zip outputs tiles) in
  from_option_err (ValueError "tile gap") (mapM id values).

(** ** Grid sources ([mf01_grid.py]) *)

(** The coordinates of a view at cell [(row, col)] and fold index [k] are
    [offset + row * row_step + col * column_step + k * step]. *)
Record gview := GView { gv_input : Z; gv_offset : Z * Z; gv_step : Z * Z; gv_row : Z * Z; gv_column : Z * Z }.

(** A source after [source]; the map's nodes and result are checked later. *)
Record gsource := GSource {
  gs_version : Z; gs_grids : list grid; gs_shape : Z * Z; gs_tile : Z * Z; gs_boundary : boundary;
  gs_extent : Z; gs_fold : fold; gs_views : list (string * gview); gs_nodes : pyval; gs_result : pyval;
  gs_post : option (pyval * pyval);
}.

Definition grid_schemas : list string :=
  ["raveil.mf01-grid/v1"; "raveil.mf01-grid/v2"; "raveil.mf01-grid/v3"; "raveil.mf01-grid/v4"; "raveil.mf01-grid/v5"].

(** [integer] *)
Definition integer (value : pyval) (low high : Z) : res Z :=
  from_option_err (ValueError ("expected integer " +:+ pretty low +:+ ".." +:+ pretty high)) (int_in low high value).

(** A list of two integers of a range. *)
Definition integer_pair (message : string) (value : pyval) (low high : Z) : res (Z * Z) :=
  match value with
  | VList [a; b] => let* a := integer a low high in let* b := integer b low high in Ok (a, b)
  | _ => fail message
  end.

Definition grid_view (v2 : bool) (inputs : Z) (kv : string * pyval) : res (string * gview) :=
  let '(vname, v) := kv in
  match v with
  | VDict d =>
      raise_if String.eqb vname "" ||
               negb (keys_are d (if v2 then ["input"; "offset"; "step"; "row"; "column"] else ["input"; "offset"; "step"]))
      with "invalid grid view" in
      let pair key low := let* p := dsub d key in integer_pair "view needs two coordinates" p low 63 in
      let* input := dsub d "input" in
      let* input := integer input 0 (inputs - 1) in
      let* offset := pair "offset" (-63) in
      let* step := pair "step" 0 in
      let* row := if v2 then pair "row" 0 else Ok (1, 0) in
      let* column := if v2 then pair "column" 0 else Ok (0, 1) in
      Ok (vname, GView input offset step row column)
  | _ => fail "invalid grid view"
  end.

(** The kernel's extent, fold and views. *)
Definition grid_kernel (v2 : bool) (inputs : Z) (kernel : pyval)
    : res (Z * fold * list (string * gview) * pyval * pyval) :=
  match kernel with
  | VDict k =>
      raise_if negb (keys_are k ["extent"; "fold"; "views"; "nodes"; "result"]) with "invalid grid kernel" in
      let* extent := dsub k "extent" in
      let* extent := integer extent 1 64 in
      let* f := dsub k "fold" in
      raise_if negb (is_str f "sum" || is_str f "max") with "invalid fold" in
      let* views := dsub k "views" in
      match views with
      | VDict views =>
          raise_if negb (bool_decide (1 <= Z.of_nat (length views) <= 8)) with "one to eight named views required" in
          let* views := traverse (grid_view v2 inputs) views in
          let* nodes := dsub k "nodes" in
          let* result := dsub k "result" in
          Ok (extent, if is_str f "sum" then FSum else FMax, views, nodes, result)
      | _ => fail "one to eight named views required"
      end
  | _ => fail "invalid grid kernel"
  end.

Definition ceil_div (a b : Z) : Z := (a + b - 1) / b.

(** The post map's nodes and result. *)
Definition grid_post (value : pyval) : res (pyval * pyval) :=
  match value with
  | VDict p =>
      raise_if negb (keys_are p ["nodes"; "result"]) with "invalid post map" in
      let* nodes := dsub p "nodes" in let* result := dsub p "result" in Ok (nodes, result)
  | _ => fail "invalid post map"
  end.

Definition source_schema (d : dict) : option Z :=
  match dget "schema" d with Some (VStr s) => Z.succ <$> index_of s grid_schemas | _ => None end.

(** [source] *)
Definition source (value : pyval) : res gsource :=
  match value with
  | VDict d =>
      match source_schema d with
      | None => fail "invalid MF01 grid source"
      | Some version =>
          let v2 := negb (version =? 1) in
          let v3 := (version =? 3) || (bool_decide (4 <= version) && is_Some_b (dget "post" d)) in
          raise_if negb (keys_are d (["schema"; "inputs"; "tile"; "boundary"; "kernel"] ++
                     (if v2 then ["shape"] else []) ++ (if v3 then ["post"] else [])))
          with "invalid MF01 grid source fields" in
          let* post := if v3 then let* p := dsub d "post" in let* p := grid_post p in Ok (Some p) else Ok None in
          let* inputs := dsub d "inputs" in
          match inputs with
          | VList inputs =>
              raise_if negb (bool_decide (1 <= Z.of_nat (length inputs) <= 2)) with "one or two grids required" in
              let* grids := traverse (fun g => let* raw := encoded g in read_input raw) inputs in
              let first := at_ (Grid 0 0 []) grids 0 in
              raise_if negb v2 && existsb (fun g => negb (gr_rows g =? gr_rows first) || negb (gr_columns g =? gr_columns first)) grids
              with "grid dimensions must agree" in
              let* shape := if v2 then dsub d "shape" else Ok (VList [VInt (gr_rows first); VInt (gr_columns first)]) in
              let* shape := integer_pair "two output dimensions required" shape 1 64 in
              let* tile := dsub d "tile" in
              let* tile := integer_pair "two tile dimensions required" tile 1 16 in
              raise_if 16 <? ceil_div shape.1 tile.1 * ceil_div shape.2 tile.2
              with "grid needs more than sixteen independent tiles" in
              let* mode := dsub d "boundary" in
              let* mode := boundary_of mode in
              let* kernel := dsub d "kernel" in
              let* ' (extent, f, views, nodes, result) := grid_kernel v2 (Z.of_nat (length grids)) kernel in
              Ok (GSource version grids shape tile mode extent f views nodes result post)
          | _ => fail "one or two grids required"
          end
      end
  | _ => fail "invalid MF01 grid source"
  end.

(** ** Tiles *)

Definition along (row column k : Z) (origin rs cs ks : Z) : Z := origin + row * rs + column * cs + k * ks.

(** The coordinates a view reads at cell [(row, column)] and fold index [k]. *)
Definition view_at (v : gview) (row column k : Z) : Z * Z :=
  (along row column k (gv_offset v).1 (gv_row v).1 (gv_column v).1 (gv_step v).1,
   along row column k (gv_offset v).2 (gv_row v).2 (gv_column v).2 (gv_step v).2).

Definition list_min (l : list Z) : Z := match l with [] => 0 | x :: l => foldl Z.min x l end.
Definition list_max (l : list Z) : Z := match l with [] => 0 | x :: l => foldl Z.max x l end.

Section tile.
Context (s : gsource) (row column height width : Z).

(** [origins[name]] *)
Definition origin (v : gview) : Z * Z := view_at v row column 0.
(** The last coordinates of a view in the tile. *)
Definition extreme (v : gview) : Z * Z :=
  (along (height - 1) (width - 1) (gs_extent s - 1) (origin v).1 (gv_row v).1 (gv_column v).1 (gv_step v).1,
   along (height - 1) (width - 1) (gs_extent s - 1) (origin v).2 (gv_row v).2 (gv_column v).2 (gv_step v).2).

Definition views_of (index : Z) : list gview :=
  List.filter (fun v => gv_input v =? index) (map snd (gs_views s)).

(** The rectangle of words an input contributes, first cell and extents. *)
Definition rectangle (index : Z) : option (Z * Z * Z * Z) :=
  match views_of index with
  | [] => None
  | vs =>
      let low axis := list_min (map (fun v => axis (origin v)) vs) in
      let high axis := list_max (map (fun v => axis (extreme v)) vs) in
      Some (low fst, low snd, high fst - low fst + 1, high snd - low snd + 1)
  end.

(** [buffers[index]] *)
Definition pack_input (index : Z) : res (list Z) :=
  match rectangle index with
  | None => Ok []
  | Some (rmin, cmin, h, w) =>
      raise_if 324 <? h * w with "tile input rectangle exceeds324 words" in
      traverse (fun rc : Z * Z => sample (at_ (Grid 0 0 []) (gs_grids s) index) (rmin + rc.1) (cmin + rc.2) (gs_boundary s))
        (coordinates h w)
  end.

(** A region's view of the packed rectangle. *)
Definition region_view (v : gview) : res (list Z) :=
  match rectangle (gv_input v) with
  | None => Err TypeError
  | Some (rmin, cmin, _, stride) =>
      Ok [gv_input v; ((origin v).1 - rmin) * stride + (origin v).2 - cmin;
          (if 1 <? height then (gv_row v).1 * stride + (gv_row v).2 else 0);
          (if 1 <? width then (gv_column v).1 * stride + (gv_column v).2 else 0);
          (if 1 <? gs_extent s then (gv_step v).1 * stride + (gv_step v).2 else 0)]
  end.

Definition fold_name (f : fold) : string := match f with FSum => "sum" | FMax => "max" end.

Definition region_doc (extent : Z) (f : fold) (lengths : list Z) (views : list (string * list Z)) (nodes result : pyval) : pyval :=
  VDict [("schema", VStr "raveil.affine-fold.v1"); ("shape", words_val [height; width]); ("extent", VInt extent);
         ("fold", VStr (fold_name f)); ("lengths", words_val lengths);
         ("views", VDict (map (fun kv : string * list Z => (kv.1, words_val kv.2)) views)); ("nodes", nodes); ("result", result)].

(** [except (TypeError,KeyError,IndexError,AttributeError)] *)
Definition malformed {A} (message : string) (r : res A) : res A :=
  match r with
  | Err (TypeError | KeyError | IndexError | AttributeError) => fail message
  | r => r
  end.

Definition job_doc (jname : string) (region : pyval) (inputs : list pyval) : pyval :=
  VDict [("name", VStr jname); ("region", region); ("inputs", VList inputs)].

(** The session of a tile: its map, and the post map of the map's result. *)
Definition tile_dag (nodes : pyval) (post : option (pyval * pyval)) : res pyval :=
  let* b0 := pack_input 0 in
  let* b1 := pack_input 1 in
  let* views := traverse (fun kv : string * gview => let* v := region_view kv.2 in Ok (kv.1, v)) (gs_views s) in
  let lengths := [Z.of_nat (length b0); Z.of_nat (length b1)] in
  let region := region_doc (gs_extent s) (gs_fold s) lengths views nodes (gs_result s) in
  let* _ := malformed "malformed MF01 map program" (compile_region region) in
  let buffers := [words_val b0; words_val b1] in
  let* jobs :=
    match post with
    | None => Ok [job_doc "result" region buffers]
    | Some (post_nodes, post_result) =>
        let post := region_doc 1 FSum [height * width; 0]
          [("reduced", [0; 0; (if 1 <? height then width else 0); (if 1 <? width then 1 else 0); 0])] post_nodes post_result in
        let* _ := malformed "malformed post map" (compile_region post) in
        Ok [job_doc "reduce" region buffers; job_doc "result" post [VDict [("from", VStr "reduce")]; VList []]]
    end in
  let dag := VDict [("schema", VStr "raveil.fold-dag.v1"); ("jobs", VList jobs); ("output", VStr "result")] in
  validate_dag dag.
End tile.

(** ** The compiler *)

(** The nodes of a map as a region has them. *)
Definition map_nodes (version : Z) (nodes result : pyval) : res pyval :=
  if 4 <=? version then
    let* l := lower nodes result (version =? 5) in Ok (VList (map node_val l))
  else Ok nodes.

Definition tile_origins (rows columns tr tc : Z) : list (Z * Z) :=
  concat (map (fun r => map (fun c => (r, c)) (zstep columns tc)) (zstep rows tr)).

Definition tile_name (index : Z) : string := "tile-" +:+ two_digits index.

Record compiled_grid := CompiledGrid { cg_items : list (string * pyval); cg_layout : list tile_place; cg_rows : Z; cg_columns : Z }.

(** One tile of the double loop. *)
Definition compile_tile (s : gsource) (nodes : pyval) (post : option (pyval * pyval)) (irc : Z * (Z * Z))
    : res ((string * pyval) * tile_place) :=
  let '(index, (row, column)) := irc in
  let height := Z.min (gs_tile s).1 ((gs_shape s).1 - row) in
  let width := Z.min (gs_tile s).2 ((gs_shape s).2 - column) in
  let* dag := tile_dag s row column height width nodes post in
  Ok ((tile_name index, dag), TilePlace (tile_name index) row column height width).

(** [compile] of a source with its types. *)
Definition compile_source (s : gsource) : res compiled_grid :=
  let '(rows, columns) := gs_shape s in
  let* nodes := map_nodes (gs_version s) (gs_nodes s) (gs_result s) in
  let* post := match gs_post s with
               | None => Ok None
               | Some (n, r) => let* n := map_nodes (gs_version s) n r in Ok (Some (n, r))
               end in
  let* tiles := traverse (compile_tile s nodes post) (enumerate (tile_origins rows columns (gs_tile s).1 (gs_tile s).2)) in
  Ok (CompiledGrid (map fst tiles) (map snd tiles) rows columns).

(** [compile] *)
Definition compile_grid (value : pyval) : res compiled_grid := let* s := source value in compile_source s.

(** ** The oracle *)

(** A map's nodes with their types, in the way its admission reads them. *)
Definition typed_nodes (version : Z) (views : list string) (nodes : pyval) : res (list node) :=
  if 4 <=? version then source_nodes nodes
  else match nodes with
       | VList l => admit_nodes (map (fun v => (v, VNone)) views) l
       | _ => fail "one to fifteen map nodes required"
       end.

(** The oracle's own boundary resolution. *)
Definition oracle_sample (g : grid) (r c : Z) (mode : boundary) : res Z :=
  let rows := gr_rows g in
  let columns := gr_columns g in
  if bool_decide (mode = BZero) && negb (bool_decide (0 <= r < rows) && bool_decide (0 <= c < columns)) then Ok 0
  else
    let '(r, c) := match mode with
                   | BZero => (r, c)
                   | BClamp => (Z.max 0 (Z.min r (rows - 1)), Z.max 0 (Z.min c (columns - 1)))
                   | BWrap => (r mod rows, c mod columns)
                   end in
    py_index (gr_words g) (r * columns + c).

(** The word a view of the source reads. *)
Definition grid_load (s : gsource) (row column k : Z) (vname : string) : res Z :=
  let* v := from_option_err KeyError (snd <$> List.find (fun kv => String.eqb kv.1 vname) (gs_views s)) in
  let* g := py_index (gs_grids s) (gv_input v) in
  oracle_sample g (view_at v row column k).1 (view_at v row column k).2 (gs_boundary s).

Definition result_name (result : pyval) : res string := match result with VStr r => Ok r | _ => Err KeyError end.

(** One output cell. *)
Definition grid_cell (s : gsource) (nodes : list node) (result : string) (post : option (list node * string)) (rc : Z * Z) : res Z :=
  let* acc := foldM (fun acc k =>
      let* v := eval_nodes (grid_load s rc.1 rc.2 k) nodes result in Ok (fold_step (gs_fold s) acc v)) 0 (zseq (gs_extent s)) in
  match post with
  | None => Ok acc
  | Some (nodes, result) => eval_nodes (fun _ => Ok acc) nodes result
  end.

Definition reference_source (s : gsource) : res (list Z) :=
  let* nodes := typed_nodes (gs_version s) (map fst (gs_views s)) (gs_nodes s) in
  let* result := result_name (gs_result s) in
  let* post := match gs_post s with
               | None => Ok None
               | Some (n, r) =>
                   let* n := typed_nodes (gs_version s) ["reduced"] n in let* r := result_name r in Ok (Some (n, r))
               end in
  traverse (grid_cell s nodes result post) (coordinates (gs_shape s).1 (gs_shape s).2).

(** [reference] *)
Definition grid_reference (value : pyval) : res (list Z) :=
  let* s := source value in
  let* _ := compile_source s in
  reference_source s.

(** ** A concrete source: a signed sum of neighbours on a 3 x 3 grid, in 2 x 2 tiles *)

Definition view_doc (input : Z) (offset step row column : Z * Z) : pyval :=
  let pair (p : Z * Z) := words_val [p.1; p.2] in
  VDict [("input", VInt input); ("offset", pair offset); ("step", pair step); ("row", pair row); ("column", pair column)].
Definition grid_doc (rows columns : Z) (words : list Z) : pyval :=
  VDict [("schema", VStr GRID_INPUT); ("rows", VInt rows); ("columns", VInt columns); ("words", words_val words)].

Definition grid_example : pyval :=
  VDict [("schema", VStr "raveil.mf01-grid/v5");
    ("inputs", VList [grid_doc 3 3 [1; 2; 3; 4; 5; 6; 7; 8; 0xffffffff]]);
    ("shape", words_val [3; 3]); ("tile", words_val [2; 2]); ("boundary", VStr "clamp");
    ("kernel", VDict [("extent", VInt 2); ("fold", VStr "sum");
       ("views", VDict [("here", view_doc 0 (0, 0) (0, 1) (1, 0) (0, 1)); ("up", view_doc 0 (-1, 0) (0, 0) (1, 0) (0, 1))]);
       ("nodes", VList [node_val (NLoad "x" "here"); node_val (NLoad "y" "up"); node_val (NOp "m" MaxI32 ["x"; "y"])]);
       ("result", VStr "m")]);
    ("post", VDict [("nodes", VList [node_val (NLoad "r" "reduced"); node_val (NOp "s" ReluI32 ["r"])]); ("result", VStr "s")])].

Example grid_example_reference : grid_reference grid_example = Ok [3; 5; 6; 9; 11; 12; 15; 13; 12].
Proof. vm_compute. reflexivity. Qed.
Example grid_example_tiles :
  (let* c := compile_grid grid_example in Ok (map fst (cg_items c), map (fun t => (tp_row t, tp_column t, tp_rows t, tp_columns t)) (cg_layout c))) =
  Ok (["tile-00"; "tile-01"; "tile-02"; "tile-03"], [(0, 0, 2, 2); (0, 2, 2, 1); (2, 0, 1, 2); (2, 2, 1, 1)]).
Proof. vm_compute. reflexivity. Qed.
