(* ===== verification/GridFacts.v ===== *)
(** * Facts about grids and tiles

    The coordinates of a grid, sampling in every boundary mode, and assembly:
    tiles that cut a grid are put together to the grid, with no gap and no
    overlap. *)

From S2P Require Import Prelude PyValue Json AffineFold FoldMachine Grid.

(** ** Coordinates *)

Lemma elem_of_concat_map {A B} (f : A -> list B) l y : y ∈ concat (map f l) <-> exists x, x ∈ l /\ y ∈ f x.
Proof.
  rewrite list_elem_of_In, in_concat. split.
  - intros (ys & (x & <- & Hx)%in_map_iff & Hy). exists x. by rewrite !list_elem_of_In.
  - intros (x & Hx & Hy). exists (f x). split; [apply in_map|]; by apply list_elem_of_In.
Qed.

(** Concatenation of duplicate free pieces whose elements name their piece. *)
Lemma NoDup_concat_map {A B} (f : A -> list B) l :
  NoDup l -> (forall x, x ∈ l -> NoDup (f x)) ->
  (forall x y z, x ∈ l -> y ∈ l -> z ∈ f x -> z ∈ f y -> x = y) -> NoDup (concat (map f l)).
Proof.
  induction l as [|x l IH]; intros Hl Hf Hd; cbn; [constructor|]. apply NoDup_cons in Hl as [Hx Hl].
  apply NoDup_app. split_and!.
  - apply Hf. left.
  - intros z Hz (y & Hy & Hzy)%elem_of_concat_map. assert (x = y) as -> by (apply (Hd x y z); [left|by right|done|done]). done.
  - apply IH; [done|intros; apply Hf; by right|]. intros x' y z Hx' Hy. apply Hd; by right.
Qed.

Lemma elem_of_coordinates rows columns r c : (r, c) ∈ coordinates rows columns <-> 0 <= r < rows /\ 0 <= c < columns.
Proof.
  unfold coordinates. rewrite elem_of_concat_map. split.
  - intros (x & Hx & (y & [= -> ->] & Hy)%list_elem_of_fmap). by apply elem_of_zseq in Hx, Hy.
  - intros [Hr Hc]. exists r. split; [by apply elem_of_zseq|]. apply list_elem_of_fmap. exists c.
    split; [done|]. by apply elem_of_zseq.
Qed.

Lemma NoDup_zseq n : NoDup (zseq n).
Proof. apply NoDup_seqZ. Qed.

Lemma NoDup_coordinates rows columns : NoDup (coordinates rows columns).
Proof.
  apply NoDup_concat_map.
  - apply NoDup_zseq.
  - intros r _. apply NoDup_fmap_2; [|apply NoDup_zseq]. by intros ? ? [= ->].
  - intros x y z _ _ (? & -> & _)%list_elem_of_fmap (? & [= <-] & _)%list_elem_of_fmap. done.
Qed.

Lemma length_zseq n : length (zseq n) = Z.to_nat n.
Proof. unfold zseq. by rewrite length_seqZ. Qed.

Lemma length_coordinates rows columns : length (coordinates rows columns) = (Z.to_nat rows * Z.to_nat columns)%nat.
Proof.
  unfold coordinates. rewrite <- (length_zseq rows). induction (zseq rows) as [|x l IH]; [done|].
  cbn [map concat length]. rewrite length_app, IH, length_map, length_zseq. lia.
Qed.

Lemma lookup_zseq n i : (i < Z.to_nat n)%nat -> zseq n !! i = Some (Z.of_nat i).
Proof. intros. unfold zseq. rewrite lookup_seqZ_lt by lia. f_equal; lia. Qed.

Lemma lookup_concat_map {A B} (f : A -> list B) (w : nat) l i j x :
  (forall x, length (f x) = w) -> l !! i = Some x -> (j < w)%nat -> concat (map f l) !! (i * w + j)%nat = f x !! j.
Proof.
  intros Hw. revert i. induction l as [|y l IH]; intros i Hi Hj; [done|]. cbn [map concat]. destruct i as [|i].
  - injection Hi as <-. rewrite lookup_app_l; [done|]. rewrite Hw. lia.
  - rewrite lookup_app_r by (rewrite Hw; lia). rewrite Hw. rewrite <- (IH i Hi Hj). f_equal. lia.
Qed.

(** Row-major order. *)
Lemma lookup_coordinates rows columns r c :
  0 <= r < rows -> 0 <= c < columns -> coordinates rows columns !! Z.to_nat (r * columns + c) = Some (r, c).
Proof.
  intros Hr Hc. replace (Z.to_nat (r * columns + c)) with (Z.to_nat r * Z.to_nat columns + Z.to_nat c)%nat by nia.
  unfold coordinates. erewrite lookup_concat_map; [|intros; by rewrite length_map, length_zseq|apply lookup_zseq; lia|lia].
  rewrite list_lookup_fmap, lookup_zseq by lia. cbn. do 2 f_equal; lia.
Qed.

Lemma traverse_app {A B} (f : A -> res B) l1 l2 :
  traverse f (l1 ++ l2) = let* a := traverse f l1 in let* b := traverse f l2 in Ok (a ++ b).
Proof.
  induction l1 as [|x l1 IH]; cbn; [by destruct (traverse f l2)|]. destruct (f x); [|done]. cbn. rewrite IH.
  destruct (traverse f l1); [|done]. cbn. by destruct (traverse f l2).
Qed.

Lemma traverse_map {A B C} (g : A -> B) (f : B -> res C) l : traverse f (map g l) = traverse (fun x => f (g x)) l.
Proof. induction l as [|x l IH]; [done|]. cbn. destruct (f (g x)); [|done]. cbn. by rewrite IH. Qed.

(** Nested comprehensions visit the coordinates in order. *)
Lemma traverse_coordinates {B} (f : Z -> Z -> res B) rows columns :
  (let* out := traverse (fun r => traverse (fun c => f r c) (zseq columns)) (zseq rows) in Ok (concat out)) =
  traverse (fun rc => f rc.1 rc.2) (coordinates rows columns).
Proof.
  unfold coordinates. induction (zseq rows) as [|r l IH]; [done|]. cbn [traverse map concat].
  rewrite traverse_app, traverse_map. cbn [fst snd]. destruct (traverse (fun c => f r c) (zseq columns)) as [a|]; [|done]. cbn [bind].
  rewrite <- IH. destruct (traverse (fun r => traverse _ _) l) as [b|]; done.
Qed.

(** ** Samples *)

Record grid_ok (g : grid) : Prop := {
  go_rows : 1 <= gr_rows g <= 64;
  go_columns : 1 <= gr_columns g <= 64;
  go_length : Z.of_nat (length (gr_words g)) = gr_rows g * gr_columns g;
  go_words : Forall is_word (gr_words g);
}.

Lemma mapM_int_in l ws : mapM (int_in 0 0xffffffff) l = Some ws -> Forall is_word ws /\ length ws = length l.
Proof.
  intros H. apply mapM_Some in H. split; [|symmetry; by eapply Forall2_length].
  induction H as [|v w l ws Hv _ IH]; constructor; [|done].
  unfold int_in in Hv. destruct v; try discriminate Hv. case_bool_decide as Hz; [|discriminate Hv]. injection Hv as <-. done.
Qed.

Lemma read_input_ok raw g : read_input raw = Ok g -> grid_ok g.
Proof.
  unfold read_input. intros H. destruct (131072 <? _); [discriminate H|].
  destruct (composition_json raw) as [v|]; [|discriminate H]. cbn [bind] in H. destruct v as [| | | | | |d]; try discriminate H.
  destruct (negb _ || _); [discriminate H|].
  destruct (dsub d "rows") as [rows|]; [|discriminate H]. cbn [bind] in H.
  destruct (dsub d "columns") as [cols|]; [|discriminate H]. cbn [bind] in H.
  destruct (dsub d "words") as [words|]; [|discriminate H]. cbn [bind] in H.
  destruct (int_in 1 MAX_DIMENSION rows) as [r|] eqn:Hr; [|discriminate H].
  destruct (int_in 1 MAX_DIMENSION cols) as [c|] eqn:Hc; [|discriminate H].
  destruct words as [| | | | |l|]; try discriminate H. destruct (negb _) eqn:Hl in H; [discriminate H|]. bool_prop.
  destruct (mapM _ l) as [ws|] eqn:Hw; [|discriminate H]. injection H as <-.
  apply mapM_int_in in Hw as [Hw Hlen]. unfold int_in, MAX_DIMENSION in *.
  destruct rows; try discriminate Hr. case_bool_decide; [|discriminate Hr]. injection Hr as <-.
  destruct cols; try discriminate Hc. case_bool_decide; [|discriminate Hc]. injection Hc as <-.
  split; cbn; [done|done|lia|done].
Qed.

Lemma py_index_word_ok l i : Forall is_word l -> 0 <= i < Z.of_nat (length l) -> exists w, py_index l i = Ok w /\ is_word w.
Proof.
  intros Hl Hi. unfold py_index. rewrite bool_decide_true by done.
  destruct (lookup_lt_is_Some_2 l (Z.to_nat i)) as [w Hw]; [lia|]. rewrite Hw. exists w. split; [done|].
  rewrite Forall_lookup in Hl. eauto.
Qed.

(** Every coordinate has a word in every mode, and the oracle reads the same one. *)
Lemma sample_ok g r c mode : grid_ok g -> exists w, sample g r c mode = Ok w /\ oracle_sample g r c mode = Ok w /\ is_word w.
Proof.
  intros [Hr Hc Hl Hw]. unfold sample, oracle_sample. destruct mode.
  - rewrite (bool_decide_true (BZero = BZero)) by done. cbn [andb].
    destruct (bool_decide (0 <= r < gr_rows g)) eqn:Er, (bool_decide (0 <= c < gr_columns g)) eqn:Ec; cbn [andb negb];
      try (exists 0; split_and!; done || (unfold is_word; rewrite MASK_eq; lia)).
    bool_prop. destruct (py_index_word_ok (gr_words g) (r * gr_columns g + c) Hw) as (w & -> & ?); [rewrite Hl; nia|]. by exists w.
  - rewrite (bool_decide_false (BClamp = BZero)) by done. cbn [andb].
    replace (Z.max 0 (Z.min r (gr_rows g - 1))) with (Z.min (gr_rows g - 1) (Z.max 0 r)) by lia.
    replace (Z.max 0 (Z.min c (gr_columns g - 1))) with (Z.min (gr_columns g - 1) (Z.max 0 c)) by lia.
    destruct (py_index_word_ok (gr_words g) (Z.min (gr_rows g - 1) (Z.max 0 r) * gr_columns g + Z.min (gr_columns g - 1) (Z.max 0 c)) Hw)
      as (w & -> & ?); [rewrite Hl; nia|]. by exists w.
  - rewrite (bool_decide_false (BWrap = BZero)) by done. cbn [andb].
    pose proof (Z.mod_pos_bound r (gr_rows g)). pose proof (Z.mod_pos_bound c (gr_columns g)).
    destruct (py_index_word_ok (gr_words g) (r mod gr_rows g * gr_columns g + c mod gr_columns g) Hw) as (w & -> & ?); [rewrite Hl; nia|].
    by exists w.
Qed.

(** ** Tiles *)

Lemma elem_of_zstep n step x : 1 <= step -> x ∈ zstep n step <-> 0 <= x < n /\ x mod step = 0.
Proof.
  intros Hs. unfold zstep. rewrite list_elem_of_fmap. setoid_rewrite elem_of_zseq. split.
  - intros (i & -> & Hi). rewrite Z.mod_mul by lia. split; [|done].
    assert (i <= (n - 1) / step) by (replace (n + step - 1) with (n - 1 + 1 * step) in Hi by lia; rewrite Z.div_add in Hi by lia; lia).
    assert (step * ((n - 1) / step) <= n - 1) by (apply Z.mul_div_le; lia). nia.
  - intros [Hx Hm]. exists (x / step). pose proof (Z_div_mod_eq_full x step). split; [lia|].
    split; [apply Z.div_pos; lia|]. replace (n + step - 1) with (n - 1 + 1 * step) by lia. rewrite Z.div_add by lia.
    assert (x / step <= (n - 1) / step) by (apply Z.div_le_mono; lia). lia.
Qed.

Lemma NoDup_zstep n step : 1 <= step -> NoDup (zstep n step).
Proof. intros. apply NoDup_fmap_2; [|apply NoDup_zseq]. intros x y Hxy. nia. Qed.

(** The tiles of a grid by their origins. *)
Definition place_at (rows columns tr tc : Z) (name : string) (rc : Z * Z) : tile_place :=
  TilePlace name rc.1 rc.2 (Z.min tr (rows - rc.1)) (Z.min tc (columns - rc.2)).
Definition tile_cells (t : tile_place) : list (Z * Z) :=
  map (fun rc => (tp_row t + rc.1, tp_column t + rc.2)) (coordinates (tp_rows t) (tp_columns t)).

Lemma elem_of_tile_origins rows columns tr tc r c :
  1 <= tr -> 1 <= tc -> (r, c) ∈ tile_origins rows columns tr tc <->
  (0 <= r < rows /\ r mod tr = 0) /\ (0 <= c < columns /\ c mod tc = 0).
Proof.
  intros Hr Hc. unfold tile_origins. rewrite elem_of_concat_map, <- !elem_of_zstep by done. split.
  - intros (x & Hx & (y & [= -> ->] & Hy)%list_elem_of_fmap). done.
  - intros [? ?]. exists r. split; [done|]. apply list_elem_of_fmap. by exists c.
Qed.

Lemma NoDup_tile_origins rows columns tr tc : 1 <= tr -> 1 <= tc -> NoDup (tile_origins rows columns tr tc).
Proof.
  intros Hr Hc. apply NoDup_concat_map.
  - by apply NoDup_zstep.
  - intros r _. apply NoDup_fmap_2; [|by apply NoDup_zstep]. by intros ? ? [= ->].
  - by intros x y z _ _ (? & -> & _)%list_elem_of_fmap (? & [= <-] & _)%list_elem_of_fmap.
Qed.

Lemma elem_of_tile_cells t R C :
  (R, C) ∈ tile_cells t <-> tp_row t <= R < tp_row t + tp_rows t /\ tp_column t <= C < tp_column t + tp_columns t.
Proof.
  unfold tile_cells. rewrite list_elem_of_fmap. split.
  - intros ([r c] & [= -> ->] & [? ?]%elem_of_coordinates). cbn. lia.
  - intros [? ?]. exists (R - tp_row t, C - tp_column t). cbn. split; [f_equal; lia|]. apply elem_of_coordinates. lia.
Qed.

Section tiling.
Context (rows columns tr tc : Z) (Hrows : 1 <= rows) (Hcolumns : 1 <= columns) (Htr : 1 <= tr) (Htc : 1 <= tc).
Abbreviation cells_at rc := (tile_cells (place_at rows columns tr tc "" rc)).

(** Every cell of the grid is in exactly one tile. *)
Lemma tiles_disjoint : NoDup (concat (map (fun rc => cells_at rc) (tile_origins rows columns tr tc))).
Proof.
  apply NoDup_concat_map.
  - by apply NoDup_tile_origins.
  - intros [r c] _. unfold tile_cells. apply NoDup_fmap_2; [|apply NoDup_coordinates].
    intros [a b] [a' b'] [= ? ?]. f_equal; lia.
  - intros [r c] [r' c'] [R C] [[Hr Hrm] [Hc Hcm]]%elem_of_tile_origins [[Hr' Hrm'] [Hc' Hcm']]%elem_of_tile_origins
      [H1 H2]%elem_of_tile_cells [H3 H4]%elem_of_tile_cells; try done. cbn [place_at tp_row tp_column tp_rows tp_columns fst snd] in *.
    pose proof (Z_div_mod_eq_full r tr). pose proof (Z_div_mod_eq_full r' tr).
    pose proof (Z_div_mod_eq_full c tc). pose proof (Z_div_mod_eq_full c' tc).
    assert (r / tr = r' / tr) by nia. assert (c / tc = c' / tc) by nia. f_equal; nia.
Qed.

Lemma tiles_cover R C :
  (R, C) ∈ concat (map (fun rc => cells_at rc) (tile_origins rows columns tr tc)) <-> 0 <= R < rows /\ 0 <= C < columns.
Proof.
  rewrite elem_of_concat_map. split.
  - intros ([r c] & [[Hr Hrm] [Hc Hcm]]%elem_of_tile_origins & [H1 H2]%elem_of_tile_cells); [|done|done].
    cbn [place_at tp_row tp_column tp_rows tp_columns fst snd] in *. lia.
  - intros [HR HC]. exists (tr * (R / tr), tc * (C / tc)).
    pose proof (Z_div_mod_eq_full R tr). pose proof (Z_div_mod_eq_full C tc).
    pose proof (Z.mod_pos_bound R tr). pose proof (Z.mod_pos_bound C tc).
    assert (0 <= R / tr) by (apply Z.div_pos; lia). assert (0 <= C / tc) by (apply Z.div_pos; lia). split.
    + apply elem_of_tile_origins; [done..|]. rewrite (Z.mul_comm tr), (Z.mul_comm tc), !Z.mod_mul by lia. split; (split; [nia|done]).
    + apply elem_of_tile_cells. cbn [place_at tp_row tp_column tp_rows tp_columns fst snd]. lia.
Qed.
End tiling.

(** ** Assembly *)

Section assembly.
Context (rows columns : Z) (Hrows : 1 <= rows <= 64) (Hcolumns : 1 <= columns <= 64) (f : Z * Z -> Z).

Definition index_of_cell (rc : Z * Z) : Z := rc.1 * columns + rc.2.
Definition in_grid (rc : Z * Z) : Prop := 0 <= rc.1 < rows /\ 0 <= rc.2 < columns.
Definition write_cell (values : list (option Z)) (rc : Z * Z) : list (option Z) := set_at values (index_of_cell rc) (Some (f rc)).

Lemma index_of_cell_inj a b : in_grid a -> in_grid b -> index_of_cell a = index_of_cell b -> a = b.
Proof. unfold in_grid, index_of_cell. destruct a as [r c], b as [r' c']; cbn. intros.
  assert (r = r') as -> by (destruct (Z.lt_trichotomy r r') as [|[|]]; [nia|done|nia]). f_equal. lia. Qed.

Lemma index_of_cell_bound a : in_grid a -> 0 <= index_of_cell a < rows * columns.
Proof. unfold in_grid, index_of_cell. destruct a; cbn. intros. nia. Qed.

Lemma length_writes l values : length (foldl write_cell values l) = length values.
Proof. revert values. induction l as [|x l IH]; intros values; [done|]. cbn. rewrite IH. apply length_set_at. Qed.

Lemma writes_other l values a :
  in_grid a -> Forall in_grid l -> a ∉ l -> at_ None (foldl write_cell values l) (index_of_cell a) = at_ None values (index_of_cell a).
Proof.
  intros Ha. revert values. induction l as [|x l IH]; intros values Hl Hn; [done|]. cbn [foldl].
  apply Forall_cons in Hl as [Hx Hl]. rewrite not_elem_of_cons in Hn. destruct Hn as [Hne Hn].
  rewrite IH by done. unfold write_cell. apply at_set_ne; [by apply index_of_cell_bound..|].
  intros Heq. apply Hne. symmetry. by apply index_of_cell_inj.
Qed.

Lemma writes_in l values a :
  Z.of_nat (length values) = rows * columns -> Forall in_grid l -> a ∈ l ->
  at_ None (foldl write_cell values l) (index_of_cell a) = Some (f a).
Proof.
  intros Hlen Hl Ha. revert values Hlen. induction l as [|x l IH] using rev_ind; intros values Hlen; [by apply elem_of_nil in Ha|].
  rewrite foldl_app. cbn [foldl]. apply Forall_app in Hl as [Hl [Hx _]%Forall_cons].
  assert (Hg : in_grid a).
  { apply elem_of_app in Ha as [Ha|Ha%list_elem_of_singleton]; [|by subst]. rewrite Forall_forall in Hl. by apply Hl. }
  destruct (decide (a = x)) as [->|Hne].
  - unfold write_cell. apply at_set_eq. rewrite length_writes, Hlen. by apply index_of_cell_bound.
  - unfold write_cell. rewrite at_set_ne; [|by apply index_of_cell_bound..|].
    + apply IH; [done| |done]. apply elem_of_app in Ha as [Ha|Ha%list_elem_of_singleton]; done.
    + intros Heq. apply Hne. symmetry. by apply index_of_cell_inj.
Qed.

(** The output of a tile holds the grid's words. *)
Definition tile_holds (o : tile_output) (t : tile_place) : Prop :=
  to_name o = tp_name t /\ to_shape o = (tp_rows t, tp_columns t) /\
  to_words o = map (fun rc => f (tp_row t + rc.1, tp_column t + rc.2)) (coordinates (tp_rows t) (tp_columns t)).

Definition place_ok (t : tile_place) : Prop :=
  0 <= tp_row t /\ 0 <= tp_column t /\ 1 <= tp_rows t /\ 1 <= tp_columns t /\
  tp_row t + tp_rows t <= rows /\ tp_column t + tp_columns t <= columns.

Lemma place_ok_cells t : place_ok t -> Forall in_grid (tile_cells t).
Proof.
  intros (? & ? & ? & ? & ? & ?). apply Forall_forall. intros [R C] [? ?]%elem_of_tile_cells. unfold in_grid. cbn. lia.
Qed.

(** A loop whose steps write the cells of a region that were not written before. *)
Lemma write_loop {A} (cells : A -> list (Z * Z)) (step : list (option Z) -> A -> res (list (option Z))) l values :
  (forall values x, x ∈ l -> Z.of_nat (length values) = rows * columns ->
     (forall a, a ∈ cells x -> at_ None values (index_of_cell a) = None) -> step values x = Ok (foldl write_cell values (cells x))) ->
  Forall in_grid (concat (map cells l)) -> NoDup (concat (map cells l)) -> Z.of_nat (length values) = rows * columns ->
  (forall a, a ∈ concat (map cells l) -> at_ None values (index_of_cell a) = None) ->
  foldM step values l = Ok (foldl write_cell values (concat (map cells l))).
Proof.
  intros Hstep. revert values. induction l as [|x l IH]; intros values Hg Hnd Hlen Hnone; [done|]. cbn [map concat foldM] in *.
  apply Forall_app in Hg as [Hx Hg]. apply NoDup_app in Hnd as (_ & Hdis & Hnd).
  rewrite Hstep; [|left|done|intros a Ha; apply Hnone, elem_of_app; by left]. cbn [bind]. rewrite foldl_app. apply IH.
  - intros values' y Hy. apply Hstep. by right.
  - done.
  - done.
  - by rewrite length_writes.
  - intros a Ha. pose proof Hg as Hga. rewrite Forall_forall in Hga. rewrite writes_other; [apply Hnone, elem_of_app; by right|by apply Hga|done|].
    intros Hin. by apply (Hdis a).
Qed.

Lemma tile_cells_shift t (l : list (Z * Z)) :
  concat (map (fun rc => [(tp_row t + rc.1, tp_column t + rc.2)]) l) = map (fun rc => (tp_row t + rc.1, tp_column t + rc.2)) l.
Proof. induction l as [|rc l IH]; [done|]. cbn. by rewrite IH. Qed.

(** The same for the words of a tile, one at a time. *)
Lemma write_tile t (step : list (option Z) -> Z * Z -> res (list (option Z))) values :
  place_ok t ->
  (forall values r c, 0 <= r < tp_rows t -> 0 <= c < tp_columns t ->
     0 <= (tp_row t + r) * columns + tp_column t + c < Z.of_nat (length values) ->
     at_ None values ((tp_row t + r) * columns + tp_column t + c) = None ->
     step values (r, c) = Ok (set_at values ((tp_row t + r) * columns + tp_column t + c) (Some (f (tp_row t + r, tp_column t + c))))) ->
  Z.of_nat (length values) = rows * columns -> (forall a, a ∈ tile_cells t -> at_ None values (index_of_cell a) = None) ->
  foldM step values (coordinates (tp_rows t) (tp_columns t)) = Ok (foldl write_cell values (tile_cells t)).
Proof.
  intros Hok Hstep Hlen Hnone. pose proof (place_ok_cells t Hok) as Hg. unfold tile_cells in *. rewrite <- tile_cells_shift in *. apply write_loop; try done.
  - intros values' [r c] [Hr Hc]%elem_of_coordinates Hl Hn. cbn [foldl fst snd]. unfold write_cell, index_of_cell. cbn [fst snd].
    assert (Hb : in_grid (tp_row t + r, tp_column t + c)) by (destruct Hok as (? & ? & _ & _ & ? & ?); unfold in_grid; cbn; lia).
    apply index_of_cell_bound in Hb. specialize (Hn (tp_row t + r, tp_column t + c) ltac:(left)). unfold index_of_cell in Hn, Hb. cbn [fst snd] in Hn, Hb.
    rewrite Z.add_assoc in *. rewrite Hstep; [done|done|done|lia|done].
  - rewrite tile_cells_shift. apply NoDup_fmap_2; [|apply NoDup_coordinates]. intros [r c] [r' c'] [= H1 H2]. f_equal; lia.
Qed.

Lemma place_words o t values :
  place_ok t -> tile_holds o t -> Z.of_nat (length values) = rows * columns ->
  (forall a, a ∈ tile_cells t -> at_ None values (index_of_cell a) = None) ->
  foldM (place_word columns t (to_words o)) values (coordinates (tp_rows t) (tp_columns t)) = Ok (foldl write_cell values (tile_cells t)).
Proof.
  intros Hok (_ & _ & Hw) Hlen Hnone. apply write_tile; try done. intros values' r c Hr Hc Hb Hn. unfold place_word. cbn zeta.
  rewrite Hn, bool_decide_true by lia. cbn [negb orb is_Some_b].
  assert (Hp : py_index (to_words o) (r * tp_columns t + c) = Ok (f (tp_row t + r, tp_column t + c))); [|by rewrite Hp].
  rewrite Hw. unfold py_index. rewrite bool_decide_true by (rewrite length_map, length_coordinates; nia).
  by rewrite list_lookup_fmap, lookup_coordinates.
Qed.

Lemma tiles_in_grid tiles : Forall place_ok tiles -> Forall in_grid (concat (map tile_cells tiles)).
Proof.
  intros Hok. apply Forall_forall. intros a (t & Ht & Ha)%elem_of_concat_map. rewrite Forall_forall in Hok.
  pose proof (place_ok_cells t (Hok t Ht)) as Hall. rewrite Forall_forall in Hall. by apply Hall.
Qed.

(** A loop over tiles with what each of them is given. *)
Lemma write_tiles {A} (outputs : list A) (holds : A -> tile_place -> Prop) (step : list (option Z) -> A * tile_place -> res (list (option Z))) tiles :
  (forall values o t, holds o t -> place_ok t -> Z.of_nat (length values) = rows * columns ->
     (forall a, a ∈ tile_cells t -> at_ None values (index_of_cell a) = None) -> step values (o, t) = Ok (foldl write_cell values (tile_cells t))) ->
  Forall2 holds outputs tiles -> Forall place_ok tiles -> NoDup (concat (map tile_cells tiles)) ->
  foldM step (replicate (Z.to_nat (rows * columns)) None) (zip outputs tiles) =
    Ok (foldl write_cell (replicate (Z.to_nat (rows * columns)) None) (concat (map tile_cells tiles))).
Proof.
  intros Hstep Hh Hok Hnd.
  assert (concat (map tile_cells tiles) = concat (map (fun ot : A * tile_place => tile_cells ot.2) (zip outputs tiles))) as Heq.
  { rewrite <- (map_map snd tile_cells). do 2 f_equal. symmetry. apply snd_zip. rewrite (Forall2_length _ _ _ Hh). done. }
  pose proof (tiles_in_grid tiles Hok) as Hg. rewrite Heq in *. apply write_loop; try done.
  - intros values [o t] Hin Hl Hn. apply list_elem_of_lookup in Hin as [i Hi]. apply lookup_zip_with_Some in Hi as (o' & t' & [= <- <-] & Ho & Ht).
    apply Hstep; [by eapply (Forall2_lookup_lr _ _ _ _ _ _ Hh)|by eapply Forall_lookup_1|done|done].
  - rewrite length_replicate. nia.
  - intros a _. unfold at_. rewrite nth_lookup. by destruct (replicate _ _ !! _) eqn:E; [apply lookup_replicate in E as [-> _]|].
Qed.

Lemma place_tile_ok values o t :
  tile_holds o t -> place_ok t -> Z.of_nat (length values) = rows * columns ->
  (forall a, a ∈ tile_cells t -> at_ None values (index_of_cell a) = None) -> place_tile rows columns values (o, t) = Ok (foldl write_cell values (tile_cells t)).
Proof.
  intros Ho Ht Hlen Hnone. pose proof Ho as (Hname & Hs & Hw). pose proof Ht as (? & ? & ? & ? & ? & ?). unfold place_tile.
  rewrite (proj2 (Z.ltb_ge (tp_row t) 0)), (proj2 (Z.ltb_ge (tp_column t) 0)), (proj2 (Z.ltb_ge (tp_rows t) 1)),
    (proj2 (Z.ltb_ge (tp_columns t) 1)), (proj2 (Z.ltb_ge rows _)), (proj2 (Z.ltb_ge columns _)) by lia.
  rewrite Hname, Hs, String.eqb_refl, bool_decide_true by done. cbn [negb orb].
  assert (Hl : Z.of_nat (length (to_words o)) = tp_rows t * tp_columns t) by (rewrite Hw, length_map, length_coordinates; nia).
  rewrite Hl, Z.eqb_refl. cbn [negb]. by apply place_words.
Qed.

(** Writes that cover the grid leave its words. *)
Lemma writes_cover cells :
  Forall in_grid cells -> (forall a, in_grid a -> a ∈ cells) ->
  foldl write_cell (replicate (Z.to_nat (rows * columns)) None) cells = map Some (map f (coordinates rows columns)).
Proof.
  intros Hcells Hcover. set (values := foldl _ _ _).
  assert (Hlen : length values = (Z.to_nat rows * Z.to_nat columns)%nat) by (subst values; rewrite length_writes, length_replicate; nia).
  apply list_eq. intros k. destruct (decide (k < Z.to_nat rows * Z.to_nat columns)%nat) as [Hk|Hk].
  2:{ rewrite !lookup_ge_None_2; [done|rewrite !length_map, length_coordinates; lia|lia]. }
  set (a := (Z.of_nat k / columns, Z.of_nat k mod columns)).
  pose proof (Z_div_mod_eq_full (Z.of_nat k) columns). pose proof (Z.mod_pos_bound (Z.of_nat k) columns).
  assert (Ha : in_grid a).
  { subst a. unfold in_grid. cbn. split; [|lia]. split; [apply Z.div_pos; lia|]. apply Z.div_lt_upper_bound; nia. }
  assert (Hki : k = Z.to_nat (index_of_cell a)) by (subst a; unfold index_of_cell; cbn; lia).
  pose proof (writes_in cells (replicate (Z.to_nat (rows * columns)) None) a
    ltac:(rewrite length_replicate; nia) Hcells (Hcover a Ha)) as Hat. fold values in Hat. unfold at_ in Hat.
  rewrite <- Hki, nth_lookup in Hat. destruct (lookup_lt_is_Some_2 values k) as [x Hx]; [lia|]. rewrite Hx in Hat |- *. cbn in Hat.
  subst x. destruct Ha as [Ha1 Ha2]. rewrite Hki. unfold index_of_cell. rewrite !list_lookup_fmap, lookup_coordinates by done.
  by destruct a.
Qed.

(** Tiles that hold the grid's words and cover it without overlap are assembled to it. *)
Lemma assemble_ok outputs tiles :
  Forall2 tile_holds outputs tiles -> Forall place_ok tiles ->
  NoDup (concat (map tile_cells tiles)) ->
  (forall a, in_grid a -> a ∈ concat (map tile_cells tiles)) ->
  assemble outputs tiles rows columns = Ok (map f (coordinates rows columns)).
Proof.
  intros Hh Hok Hnd Hcover. unfold assemble. rewrite !bool_decide_true by lia. cbn [negb orb].
  rewrite (Forall2_length _ _ _ Hh), Nat.eqb_refl. cbn [negb].
  rewrite (write_tiles outputs tile_holds) by (done || apply place_tile_ok).
  cbn [bind]. rewrite writes_cover; [|by apply tiles_in_grid|done]. unfold from_option_err. assert (Hm : mapM id (map Some (map f (coordinates rows columns))) = Some (map f (coordinates rows columns))).
  { apply mapM_Some. rewrite Forall2_fmap_l. apply Forall_Forall2_diag. by apply Forall_forall. }
  by rewrite Hm.
Qed.
End assembly.
