(* ===== verification/GridRun.v ===== *)
(** * Tiled execution of a grid source is its reference

    The packed rectangle of a tile holds every word the views of the tile read,
    at the place the region's view computes; lowering keeps the map's value; the
    tile's session therefore computes the reference's words of the tile, and
    assembly puts them together to the reference output. *)

From S2P Require Import Prelude PyValue Json MapSyntax AffineFold AffineFoldFacts FoldMachine FoldMachineFacts.
From S2P Require Import Numeric NumericFacts Evidence Project FoldSession FoldDag FoldDagFacts DagRun Grid GridFacts.

(** ** What admission establishes *)

Definition steps_ok (p : Z * Z) : Prop := 0 <= p.1 <= 63 /\ 0 <= p.2 <= 63.

Record gview_ok (inputs : Z) (v : gview) : Prop := {
  vo_input : 0 <= gv_input v < inputs;
  vo_step : steps_ok (gv_step v);
  vo_row : steps_ok (gv_row v);
  vo_column : steps_ok (gv_column v);
}.

Record source_ok (s : gsource) : Prop := {
  so_count : 1 <= Z.of_nat (length (gs_grids s)) <= 2;
  so_grids : Forall grid_ok (gs_grids s);
  so_shape : 1 <= (gs_shape s).1 <= 64 /\ 1 <= (gs_shape s).2 <= 64;
  so_tile : 1 <= (gs_tile s).1 <= 16 /\ 1 <= (gs_tile s).2 <= 16;
  so_extent : 1 <= gs_extent s <= 64;
  so_views : Forall (fun kv => gview_ok (Z.of_nat (length (gs_grids s))) kv.2) (gs_views s);
}.

Lemma integer_Ok v low high z : integer v low high = Ok z -> low <= z <= high.
Proof.
  unfold integer, int_in. intros H. destruct v; try discriminate H. case_bool_decide; [|discriminate H]. by injection H as <-.
Qed.

Lemma integer_pair_Ok message v low high p : integer_pair message v low high = Ok p -> low <= p.1 <= high /\ low <= p.2 <= high.
Proof.
  unfold integer_pair. intros H. destruct v as [| | | | |[|a [|b []]]|]; try discriminate H. res_peel H.
  apply Ok_inj in H as <-. split; by eapply integer_Ok.
Qed.

Lemma grid_view_ok v2 inputs kv kv' : grid_view v2 inputs kv = Ok kv' -> gview_ok inputs kv'.2 /\ kv'.1 = kv.1.
Proof.
  unfold grid_view. intros H. destruct kv as [n v]. destruct v as [| | | | | |d]; try discriminate H.
  destruct (String.eqb n "" || _); [discriminate H|]. cbn zeta in H. res_peel H. apply Ok_inj in H as <-. split; [|done].
  repeat match goal with
  | H : integer _ _ _ = Ok _ |- _ => apply integer_Ok in H
  | H : bind (dsub d _) _ = Ok _ |- _ => res_peel H; apply integer_pair_Ok in H
  end.
  destruct v2; res_peel E3; res_peel E4.
  - apply integer_pair_Ok in E3, E4. split; cbn; [lia|done..].
  - apply Ok_inj in E3 as <-, E4 as <-. split; cbn; [lia|done|done|done].
Qed.

Lemma traverse_Forall {A B} (P : B -> Prop) (f : A -> res B) l ys :
  (forall x y, f x = Ok y -> P y) -> traverse f l = Ok ys -> Forall P ys.
Proof. intros Hf H%traverse_Ok. induction H; constructor; eauto. Qed.

Lemma grid_kernel_ok v2 inputs kernel extent f views nodes result :
  grid_kernel v2 inputs kernel = Ok (extent, f, views, nodes, result) ->
  1 <= extent <= 64 /\ Forall (fun kv => gview_ok inputs kv.2) views.
Proof.
  unfold grid_kernel. intros H. destruct kernel as [| | | | | |k]; try discriminate H.
  destruct (negb (keys_are k _)); [discriminate H|]. res_peel H.
  match type of H with (match ?v with _ => _ end) = Ok _ => destruct v as [| | | | | |vs] end; try discriminate H.
  res_peel H. apply Ok_inj in H. injection H as <- <- <- <- <-. split; [by eapply integer_Ok|].
  match goal with H : traverse _ vs = Ok _ |- _ => eapply traverse_Forall; [|exact H] end.
  intros x y Hx. by apply grid_view_ok in Hx as [? _].
Qed.

Lemma source_Ok value s : source value = Ok s -> source_ok s.
Proof.
  unfold source. intros H. destruct value as [| | | | | |d]; try discriminate H.
  destruct (source_schema d) as [version|]; [|discriminate H]. cbn zeta in H.
  destruct (negb (keys_are d _)); [discriminate H|]. res_peel H.
  match type of H with (match ?v with _ => _ end) = Ok _ => destruct v as [| | | | |inputs|] end; try discriminate H.
  res_peel H.
  match goal with H : grid_kernel _ _ _ = Ok _ |- _ => apply grid_kernel_ok in H as [Hext Hviews] end.
  match goal with H : traverse _ inputs = Ok _ |- _ => rename H into Hg end.
  apply Ok_inj in H as <-. bool_prop. split; cbn [gs_grids gs_shape gs_tile gs_extent gs_views].
  - rewrite (traverse_length _ _ _ Hg). lia.
  - eapply traverse_Forall; [|exact Hg]. intros x g Hx. cbn beta in Hx. res_peel Hx. by eapply read_input_ok.
  - match goal with H : integer_pair "two output dimensions required" _ _ _ = Ok _ |- _ => exact (integer_pair_Ok _ _ _ _ _ H) end.
  - match goal with H : integer_pair "two tile dimensions required" _ _ _ = Ok _ |- _ => exact (integer_pair_Ok _ _ _ _ _ H) end.
  - done.
  - done.
Qed.

(** ** The packed rectangle of a tile *)

Lemma foldl_min_le l x : foldl Z.min x l <= x /\ forall y, y ∈ l -> foldl Z.min x l <= y.
Proof.
  revert x. induction l as [|z l IH]; intros x; cbn [foldl]; [split; [lia|by intros ? ?%elem_of_nil]|].
  destruct (IH (Z.min x z)) as [H1 H2]. split; [lia|]. intros y [->|Hy]%elem_of_cons; [lia|auto].
Qed.
Lemma foldl_max_ge l x : x <= foldl Z.max x l /\ forall y, y ∈ l -> y <= foldl Z.max x l.
Proof.
  revert x. induction l as [|z l IH]; intros x; cbn [foldl]; [split; [lia|by intros ? ?%elem_of_nil]|].
  destruct (IH (Z.max x z)) as [H1 H2]. split; [lia|]. intros y [->|Hy]%elem_of_cons; [lia|auto].
Qed.
Lemma list_min_le l x : x ∈ l -> list_min l <= x.
Proof. destruct l as [|y l]; [by intros ?%elem_of_nil|]. destruct (foldl_min_le l y) as [H1 H2]. intros [->|H]%elem_of_cons; [exact H1|exact (H2 _ H)]. Qed.
Lemma list_max_ge l x : x ∈ l -> x <= list_max l.
Proof. destruct l as [|y l]; [by intros ?%elem_of_nil|]. destruct (foldl_max_ge l y) as [H1 H2]. intros [->|H]%elem_of_cons; [exact H1|exact (H2 _ H)]. Qed.

Section tile.
Context (s : gsource) (Hs : source_ok s) (row column height width : Z) (Hh : 1 <= height) (Hw : 1 <= width).

(** A view of the tile stays in its input's rectangle. *)
Lemma rectangle_covers v i j k rmin cmin h w :
  v ∈ map snd (gs_views s) -> rectangle s row column height width (gv_input v) = Some (rmin, cmin, h, w) ->
  0 <= i < height -> 0 <= j < width -> 0 <= k < gs_extent s ->
  let '(r, c) := view_at v (row + i) (column + j) k in rmin <= r < rmin + h /\ cmin <= c < cmin + w.
Proof.
  intros Hv Hr Hi Hj Hk. unfold rectangle in Hr.
  assert (Hin : v ∈ views_of s (gv_input v)).
  { unfold views_of. apply list_elem_of_In, filter_In. split; [by apply list_elem_of_In|apply Z.eqb_refl]. }
  assert (Hr' : Some (list_min (map (fun v => (origin row column v).1) (views_of s (gv_input v))),
      list_min (map (fun v => (origin row column v).2) (views_of s (gv_input v))),
      list_max (map (fun v => (extreme s row column height width v).1) (views_of s (gv_input v))) -
        list_min (map (fun v => (origin row column v).1) (views_of s (gv_input v))) + 1,
      list_max (map (fun v => (extreme s row column height width v).2) (views_of s (gv_input v))) -
        list_min (map (fun v => (origin row column v).2) (views_of s (gv_input v))) + 1) = Some (rmin, cmin, h, w)).
  { rewrite <- Hr. destruct (views_of s (gv_input v)); [by apply elem_of_nil in Hin|done]. }
  injection Hr' as <- <- <- <-. clear Hr.
  assert (Hvok : gview_ok (Z.of_nat (length (gs_grids s))) v).
  { apply list_elem_of_fmap in Hv as ([n v'] & -> & Hv). pose proof (so_views _ Hs) as Hall. rewrite Forall_forall in Hall. exact (Hall _ Hv). }
  destruct Hvok as [_ [Hs1 Hs2] [Hr1 Hr2] [Hc1 Hc2]].
  pose proof (list_min_le (map (fun v => (origin row column v).1) (views_of s (gv_input v))) (origin row column v).1) as Hm1.
  pose proof (list_min_le (map (fun v => (origin row column v).2) (views_of s (gv_input v))) (origin row column v).2) as Hm2.
  pose proof (list_max_ge (map (fun v => (extreme s row column height width v).1) (views_of s (gv_input v))) (extreme s row column height width v).1) as HM1.
  pose proof (list_max_ge (map (fun v => (extreme s row column height width v).2) (views_of s (gv_input v))) (extreme s row column height width v).2) as HM2.
  specialize (Hm1 ltac:(apply list_elem_of_fmap; eauto)). specialize (Hm2 ltac:(apply list_elem_of_fmap; eauto)).
  specialize (HM1 ltac:(apply list_elem_of_fmap; eauto)). specialize (HM2 ltac:(apply list_elem_of_fmap; eauto)).
  set (m1 := list_min _) in *. set (m2 := list_min _) in *. set (M1 := list_max _) in *. set (M2 := list_max _) in *.
  clearbody m1 m2 M1 M2. unfold extreme, origin, view_at, along in *. cbn [fst snd] in *. split; nia.
Qed.

Lemma lookup_traverse {A B} (f : A -> res B) l ys i x : traverse f l = Ok ys -> l !! i = Some x -> exists y, ys !! i = Some y /\ f x = Ok y.
Proof.
  intros H%traverse_Ok Hi. destruct (Forall2_lookup_l _ _ _ _ _ H Hi) as (y & ? & ?). by exists y.
Qed.

(** A packed buffer holds the rectangle's samples in row-major order. *)
Lemma pack_input_ok index b rmin cmin h w :
  pack_input s row column height width index = Ok b -> rectangle s row column height width index = Some (rmin, cmin, h, w) ->
  grid_ok (at_ (Grid 0 0 []) (gs_grids s) index) ->
  Z.of_nat (length b) = Z.of_nat (Z.to_nat h * Z.to_nat w) /\ Forall is_word b /\
  forall r c, 0 <= r < h -> 0 <= c < w -> exists x, py_index b (r * w + c) = Ok x /\
    sample (at_ (Grid 0 0 []) (gs_grids s) index) (rmin + r) (cmin + c) (gs_boundary s) = Ok x.
Proof.
  intros Hb Hr Hg. unfold pack_input in Hb. rewrite Hr in Hb. destruct (324 <? h * w); [discriminate Hb|].
  pose proof (traverse_length _ _ _ Hb) as Hlen. rewrite length_coordinates in Hlen. split; [lia|]. split.
  - eapply traverse_Forall; [|exact Hb]. intros [r c] x Hx. destruct (sample_ok _ (rmin + r) (cmin + c) (gs_boundary s) Hg) as (y & Hy & _ & Hyw).
    cbn [fst snd] in Hx. rewrite Hy in Hx. by apply Ok_inj in Hx as <-.
  - intros r c Hrr Hcc. destruct (lookup_traverse _ _ _ _ _ Hb (lookup_coordinates h w r c Hrr Hcc)) as (x & Hx & Hsx).
    exists x. split; [|exact Hsx]. unfold py_index. rewrite bool_decide_true by nia. by rewrite Hx.
Qed.
End tile.

(** ** The region of a tile *)

Definition views_doc (views : list (string * list Z)) : dict := map (fun kv => (kv.1, words_val kv.2)) views.

Lemma admit_region_doc height width extent f lengths views nodes result r :
  admit_region (region_doc height width extent f lengths views nodes result) = Ok r ->
  exists l ns name, nodes = VList l /\ result = VStr name /\ admit_nodes (views_doc views) l = Ok ns /\
    r = Region [VInt height; VInt width] (VInt extent) f (map VInt lengths) (views_doc views) ns name.
Proof.
  unfold admit_region, region_doc. intros H. cbn iota in H.
  destruct (negb (keys_are _ region_fields)); [discriminate H|]. unfold dsub in H. cbn [dget String.eqb Ascii.eqb Bool.eqb from_option_err bind is_str negb seq_items words_val] in H.
  destruct (negb (length (map VInt [height; width]) =? 2)%nat || _) in H; [discriminate H|].
  destruct (negb (String.eqb (fold_name f) "sum" || _)) in H; [discriminate H|].
  destruct (negb (bool_decide _)) in H; [discriminate H|].
  destruct nodes as [| | | | |l|]; try discriminate H. destruct (negb (bool_decide _)) in H; [discriminate H|].
  destruct (admit_nodes _ l) as [ns|] eqn:Hns; [|discriminate H]. cbn [bind] in H.
  destruct result as [| | | |name| |]; try discriminate H. destruct (negb (bool_decide _)) in H; [discriminate H|].
  apply Ok_inj in H as <-. exists l, ns, name. split_and!; [done|done|exact Hns|]. by destruct f.
Qed.

(** The value of a cell of a region. *)
Definition region_cell (views : dict) (inputs : list (list Z)) (extent : Z) (f : fold) (ns : list node) (name : string) (rc : Z * Z) : res Z :=
  foldM (fun acc k => let* v := eval_nodes (load_view views inputs rc.1 rc.2 k) ns name in Ok (fold_step f acc v)) 0 (zseq extent).

Lemma region_doc_reference height width extent f lengths views nodes result c b0 b1 :
  compile_region (region_doc height width extent f lengths views nodes result) = Ok c ->
  lengths = [Z.of_nat (length b0); Z.of_nat (length b1)] -> Forall is_word b0 -> Forall is_word b1 ->
  exists l ns name, nodes = VList l /\ result = VStr name /\ admit_nodes (views_doc views) l = Ok ns /\
    cfg c 1 = height /\ cfg c 2 = width /\ cfg c 5 = Z.of_nat (length b0) /\ cfg c 6 = Z.of_nat (length b1) /\
    well_scoped (fun v => v ∈ map fst views) [] ns /\ name ∈ map node_id ns /\
    reference (region_doc height width extent f lengths views nodes result) (VList [words_val b0; words_val b1]) =
      traverse (region_cell (views_doc views) [b0; b1] extent f ns name) (coordinates height width).
Proof.
  intros Hc -> Hb0 Hb1. destruct (compile_region_ok _ _ Hc) as (t & ws & Ha & Ht & _ & -> & _).
  pose proof (admit_region_doc _ _ _ _ _ _ _ _ _ Ha) as (l & ns & name & -> & -> & Hns & Hr).
  exists l, ns, name. split; [done|]. split; [done|]. split; [done|].
  pose proof (admit_region_Ok _ _ Ha) as (_ & _ & _ & _ & Hws & _ & Hin). rewrite Hr in Hws, Hin. cbn [rg_views rg_nodes rg_result] in Hws, Hin.
  assert (Hshape : map VInt [t_rows t; t_cols t] = [VInt height; VInt width]) by exact (f_equal rg_shape Hr).
  assert (Hlen : map VInt [t_la t; t_lb t] = map VInt [Z.of_nat (length b0); Z.of_nat (length b1)]) by exact (f_equal rg_lengths Hr).
  cbn [map] in Hshape, Hlen. injection Hshape as Hsh1 Hsh2. injection Hlen as Hl1 Hl2.
  split; [exact Hsh1|]. split; [exact Hsh2|]. split; [exact Hl1|]. split; [exact Hl2|]. split.
  { unfold views_doc, keys in Hws. rewrite map_map in Hws. exact Hws. }
  split; [done|]. unfold reference. rewrite Hc. cbn [bind]. rewrite Ha. cbn [bind]. rewrite Hr.
  cbn [rg_shape rg_extent rg_fold rg_lengths rg_views rg_nodes rg_result map].
  rewrite (read_inputs_operands _ _ b0 b1) by (by apply operand_words_val). cbn [bind].
  change (py_index [VInt height; VInt width] 0) with (Ok (VInt height)). change (py_index [VInt height; VInt width] 1) with (Ok (VInt width)).
  cbn [bind as_int]. apply (traverse_coordinates (fun i j => region_cell (views_doc views) [b0; b1] extent f ns name (i, j))).
Qed.

(** ** The nodes of a map *)

Lemma admit_nodes_keys views views' l : keys views = keys views' -> admit_nodes views l = admit_nodes views' l.
Proof.
  intros Hk. unfold admit_nodes. f_equal. apply foldM_ext. intros st v. f_equal. unfold admit_node. by rewrite Hk.
Qed.

Lemma traverse_admit_names seen args args' : traverse (admit_arg seen) (map VStr args) = Ok args' -> args' = args.
Proof.
  revert args'. induction args as [|a args IH]; intros args' H; cbn in H; [by injection H as <-|].
  res_inv. by rewrite (IH _ eq_refl).
Qed.

(** A node that was written out is read back. *)
Lemma admit_node_val views seen n n' : admit_node views seen (node_val n) = Ok n' -> n' = n.
Proof.
  intros H. destruct n as [i v|i o args|i o a imm]; unfold admit_node, node_val in H.
  - cbn in H. res_inv. done.
  - destruct o; cbn in H; res_inv; match goal with H : traverse _ _ = Ok _ |- _ => by apply traverse_admit_names in H as -> end.
  - unfold _int in H. destruct o; cbn in H; res_inv; by match goal with H : [_] !! 0%nat = Some _ |- _ => injection H as -> end.
Qed.

Lemma admit_nodes_val views out ns : admit_nodes views (map node_val out) = Ok ns -> ns = out.
Proof.
  unfold admit_nodes. intros H. res_inv.
  enough (Hgen : forall out st st', foldM (fun (st : list node) value =>
      let* n := admit_node views (map node_id st) value in Ok (st ++ [n])) st (map node_val out) = Ok st' -> st' = st ++ out).
  { by apply Hgen in E. }
  clear. induction out as [|n out IH]; intros st st' H; cbn [map foldM] in H; [injection H as <-; by rewrite app_nil_r|].
  destruct (admit_node _ _ _) as [n'|] eqn:Hn; [|discriminate H]. cbn [bind] in H. apply admit_node_val in Hn as ->.
  apply IH in H as ->. by rewrite <- app_assoc.
Qed.

(** Evaluation depends on the loads only through the views the nodes name. *)
Lemma eval_nodes_ext_in load load' nodes result :
  (forall i v, NLoad i v ∈ nodes -> load v = load' v) -> eval_nodes load nodes result = eval_nodes load' nodes result.
Proof.
  intros H. unfold eval_nodes. f_equal. generalize (∅ : env). induction nodes as [|n nodes IH]; intros e; [done|]. cbn [foldM].
  assert (eval_node load e n = eval_node load' e n) as ->.
  { unfold eval_node. destruct n as [i v| |]; cbn; [|done|done]. rewrite (H i v); [done|left]. }
  destruct (eval_node load' e n); [|done]. cbn. apply IH. intros i v Hi. apply (H i v). by right.
Qed.

Lemma well_scoped_load (views : string -> Prop) seen nodes i v : well_scoped views seen nodes -> NLoad i v ∈ nodes -> views v.
Proof.
  revert seen. induction nodes as [|n nodes IH]; intros seen Hws Hin; [by apply elem_of_nil in Hin|].
  destruct Hws as (_ & _ & Hn & Hws). apply elem_of_cons in Hin as [<-|Hin]; [exact Hn|by eapply IH].
Qed.

(** The rewriting keeps the loads of the source. *)
Lemma emit_emitted st mk st' name : emit st mk = Ok (st', name) -> exists l, ls_emitted st' = ls_emitted st ++ l.
Proof. unfold emit. intros H. destruct (fresh _ _ _) as [[n s]|]; [|discriminate H]. injection H as <- <-. by exists [mk n]. Qed.

Lemma translated_emitted share sign st x st' name : translated share sign st x = Ok (st', name) -> exists l, ls_emitted st' = ls_emitted st ++ l.
Proof.
  unfold translated. intros H. destruct (if share then _ else _); [injection H as <- <-; exists []; by rewrite app_nil_r|].
  destruct (emit _ _) as [[st1 v]|] eqn:E; [|discriminate H]. injection H as <- <-. apply emit_emitted in E as [l E].
  exists l. by destruct share.
Qed.

Lemma ensure_sign_emitted st a st' name : ensure_sign st a = Ok (st', name) -> exists l, ls_emitted st' = ls_emitted st ++ l.
Proof.
  unfold ensure_sign. intros H. destruct (ls_sign st); [injection H as <- <-; exists []; by rewrite app_nil_r|].
  res_peel H. injection H as <- <-. cbn.
  repeat match goal with H : emit _ _ = Ok _ |- _ => apply emit_emitted in H as [? H] end.
  eexists. repeat match goal with H : ls_emitted _ = _ |- _ => rewrite H; clear H end. by rewrite <- !app_assoc.
Qed.

Lemma lower_node_loads share st n st' :
  lower_numeric_node share st n = Ok st' ->
  (exists l, ls_emitted st' = ls_emitted st ++ l) /\ forall i v, n = NLoad i v -> n ∈ ls_emitted st'.
Proof.
  intros H. unfold lower_numeric_node in H. destruct n as [i v|i o args|i o a imm].
  - injection H as <-. cbn. split; [by eexists|]. intros ? ? _. apply elem_of_app. right. left.
  - split; [|done]. destruct (is_signed o); [|injection H as <-; cbn; by eexists].
    destruct (args !! 0%nat) as [a|]; [|discriminate H]. cbn [from_option_err bind] in H.
    destruct (ensure_sign st a) as [[st1 sign]|] eqn:E1; [|discriminate H]. cbn [bind] in H. apply ensure_sign_emitted in E1 as [l1 E1].
    destruct (translated share sign st1 a) as [[st2 lhs]|] eqn:E2; [|discriminate H]. cbn [bind] in H. apply translated_emitted in E2 as [l2 E2].
    assert (Hr : exists st3 rhs l3, (match o with ReluI32 => Ok (st2, sign) | _ => let* b := from_option_err IndexError (args !! 1%nat) in translated share sign st2 b end)
      = Ok (st3, rhs) /\ ls_emitted st3 = ls_emitted st2 ++ l3).
    { destruct (match o with ReluI32 => _ | _ => _ end) as [[st3 rhs]|] eqn:E3; [|discriminate H]. exists st3, rhs.
      destruct o; try (res_peel E3; apply translated_emitted in E3 as [l3 E3]; by exists l3).
      injection E3 as <- <-. exists []. by rewrite app_nil_r. }
    destruct Hr as (st3 & rhs & l3 & E3 & Hl3). rewrite E3 in H. cbn [bind] in H.
    destruct (emit st3 _) as [[st4 sel]|] eqn:E4; [|discriminate H]. cbn [bind] in H. apply emit_emitted in E4 as [l4 E4].
    apply Ok_inj in H as <-. exists (l1 ++ l2 ++ l3 ++ l4 ++ [NOp i Add [sel; sign]]).
    assert (ls_emitted (set_biased share (push st4 (NOp i Add [sel; sign])) i sel) = ls_emitted st4 ++ [NOp i Add [sel; sign]]) as -> by (by destruct share).
    rewrite E4, Hl3, E2, E1, <- !app_assoc. done.
  - injection H as <-. cbn. split; [by eexists|done].
Qed.

Lemma lower_nodes_loads share nodes st st' :
  foldM (lower_numeric_node share) st nodes = Ok st' ->
  (exists l, ls_emitted st' = ls_emitted st ++ l) /\ forall i v, NLoad i v ∈ nodes -> NLoad i v ∈ ls_emitted st'.
Proof.
  revert st. induction nodes as [|n nodes IH]; intros st H; cbn [foldM] in H.
  - injection H as <-. split; [exists []; by rewrite app_nil_r|]. by intros i v ?%elem_of_nil.
  - destruct (lower_numeric_node share st n) as [st1|] eqn:E; [|discriminate H]. cbn [bind] in H.
    apply lower_node_loads in E as [[l1 Hl1] Hn]. apply IH in H as [[l Hl] Hin]. split.
    + exists (l1 ++ l). by rewrite Hl, Hl1, <- app_assoc.
    + intros i v [Heq|Hiv]%elem_of_cons; [|by apply Hin]. rewrite Hl. apply elem_of_app. left. rewrite Heq. by eapply Hn.
Qed.

Lemma lower_keeps_loads nodes result share out src i v :
  lower nodes result share = Ok out -> source_nodes nodes = Ok src -> NLoad i v ∈ src -> NLoad i v ∈ out.
Proof.
  intros H Hsrc Hi. destruct (lower_inv _ _ _ _ H) as (l & src' & r & st & -> & -> & Hsrc' & _ & _ & _ & Hst & ->).
  cbn in Hsrc. assert (src' = src) as -> by congruence. destruct (lower_nodes_loads _ _ _ _ Hst) as [_ Hl]. by apply Hl.
Qed.

(** Lowering and admission keep the value of a map on the views it declares. *)
Lemma map_nodes_value version nodes l (views : dict) ns name load :
  map_nodes version nodes (VStr name) = Ok (VList l) -> admit_nodes views l = Ok ns ->
  (forall v, v ∈ keys views -> exists w, load v = Ok w) ->
  exists src, typed_nodes version (keys views) nodes = Ok src /\ eval_nodes load src name = eval_nodes load ns name.
Proof.
  intros Hm Hns Hload. pose proof (admit_nodes_Ok _ _ _ Hns) as (_ & Hws & _). unfold map_nodes, typed_nodes in *.
  destruct (4 <=? version).
  - destruct (lower nodes (VStr name) (version =? 5)) as [out|] eqn:Hl; [|discriminate Hm]. cbn [bind] in Hm.
    injection Hm as Hm. subst l. apply admit_nodes_val in Hns as ->.
    set (load' := fun v => match load v with Ok w => Ok w | Err _ => Ok 0 end).
    destruct (lower_value load' nodes (VStr name) (version =? 5) out) as (src & r & w & Hsrc & [= <-] & He1 & He2); [|exact Hl|].
    { intros v. unfold load'. destruct (load v); eauto. }
    exists src. split; [exact Hsrc|].
    assert (Hext : forall i v, NLoad i v ∈ out -> load v = load' v).
    { intros i v Hi. apply (well_scoped_load _ _ _ _ _ Hws) in Hi. unfold load'. by destruct (Hload v Hi) as [x ->]. }
    rewrite (eval_nodes_ext_in load load' src), (eval_nodes_ext_in load load' out), He1, He2; [done|exact Hext|].
    intros i v Hi. apply (Hext i). by eapply lower_keeps_loads.
  - injection Hm as ->. exists ns. split; [|done]. rewrite <- Hns. apply admit_nodes_keys. unfold keys. rewrite map_map. cbn. by rewrite map_id.
Qed.

(** ** The cells of a tile *)

Lemma find_view views n (v : gview) :
  snd <$> List.find (fun kv : string * gview => String.eqb kv.1 n) views = Some v -> (n, v) ∈ views /\ v ∈ map snd views.
Proof.
  intros H. destruct (List.find _ views) as [[n' v']|] eqn:E; [|discriminate H]. injection H as ->.
  apply find_some in E as [Hin Heq%String.eqb_eq]. cbn in Heq. subst n'. split; [by apply list_elem_of_In|].
  apply list_elem_of_In. apply in_map_iff. by exists (n, v).
Qed.

Lemma find_view_None views n : n ∈ map fst views -> is_Some (snd <$> List.find (fun kv : string * gview => String.eqb kv.1 n) views).
Proof.
  intros (kv & -> & Hkv)%list_elem_of_fmap. destruct (List.find _ views) as [kv'|] eqn:E; [by eexists|].
  apply (List.find_none _ _ E) in Hkv || (apply list_elem_of_In in Hkv; apply (List.find_none _ _ E) in Hkv).
  by rewrite String.eqb_refl in Hkv.
Qed.

(** A document's entry of a view. *)
Lemma dget_views_doc (f : gview -> res (list Z)) views out n v :
  traverse (fun kv : string * gview => let* x := f kv.2 in Ok (kv.1, x)) views = Ok out ->
  snd <$> List.find (fun kv : string * gview => String.eqb kv.1 n) views = Some v ->
  exists x, f v = Ok x /\ dget n (views_doc out) = Some (words_val x).
Proof.
  revert out. induction views as [|[m u] views IH]; intros out H Hf; cbn in H; [discriminate Hf|].
  destruct (f u) as [x|] eqn:Hx; [|discriminate H]. cbn [bind] in H.
  destruct (traverse _ views) as [ys|] eqn:Hys; [|discriminate H]. cbn [bind] in H. apply Ok_inj in H as <-.
  cbn [List.find fst] in Hf. cbn [views_doc map fst snd dget]. destruct (String.eqb_spec m n) as [->|Hne].
  - injection Hf as ->. exists x. rewrite ?String.eqb_refl. done.
  - destruct (IH ys eq_refl Hf) as (x' & ? & Hd). exists x'. split; [done|].
    rewrite ?(proj2 (String.eqb_neq n m)), ?(proj2 (String.eqb_neq m n)) by congruence. exact Hd.
Qed.

Section cell.
Context (s : gsource) (Hs : source_ok s) (row column height width : Z) (Hh : 1 <= height) (Hw : 1 <= width).

Lemma scale_if (n e i : Z) : 0 <= i < n -> (if 1 <? n then e else 0) * i = e * i.
Proof. intros Hi. destruct (Z.ltb_spec 1 n); [done|]. assert (i = 0) as -> by lia. lia. Qed.

Lemma views_of_in v : v ∈ map snd (gs_views s) -> rectangle s row column height width (gv_input v) <> None.
Proof.
  intros Hv. unfold rectangle.
  assert (v ∈ views_of s (gv_input v)) as Hin.
  { unfold views_of. apply list_elem_of_In, filter_In. split; [by apply list_elem_of_In|apply Z.eqb_refl]. }
  destruct (views_of s (gv_input v)); [by apply elem_of_nil in Hin|done].
Qed.

(** The packed words are the words the source's view names. *)
Lemma region_load b0 b1 vs n i j k :
  pack_input s row column height width 0 = Ok b0 -> pack_input s row column height width 1 = Ok b1 ->
  traverse (fun kv : string * gview => let* v := region_view s row column height width kv.2 in Ok (kv.1, v)) (gs_views s) = Ok vs ->
  n ∈ map fst (gs_views s) -> 0 <= i < height -> 0 <= j < width -> 0 <= k < gs_extent s ->
  exists w, load_view (views_doc vs) [b0; b1] i j k n = Ok w /\ grid_load s (row + i) (column + j) k n = Ok w.
Proof.
  intros Hb0 Hb1 Hvs Hn Hi Hj Hk. destruct (find_view_None _ _ Hn) as [v Hf].
  destruct (find_view _ _ _ Hf) as [_ Hv].
  destruct (dget_views_doc _ _ _ _ _ Hvs Hf) as (x & Hx & Hd).
  unfold region_view in Hx. destruct (rectangle s row column height width (gv_input v)) as [[[[rmin cmin] h] w]|] eqn:Hr; [|discriminate Hx].
  apply Ok_inj in Hx. subst x.
  pose proof (rectangle_covers s Hs row column height width v i j k rmin cmin h w Hv Hr Hi Hj Hk) as Hcov.
  assert (Hok : gview_ok (Z.of_nat (length (gs_grids s))) v).
  { apply list_elem_of_fmap in Hv as ([m v'] & -> & Hv). pose proof (so_views _ Hs) as Hall. rewrite Forall_forall in Hall. exact (Hall _ Hv). }
  pose proof (vo_input _ _ Hok) as Hin. pose proof (so_count _ Hs) as Hc.
  assert (Hg : exists g, py_index (gs_grids s) (gv_input v) = Ok g /\ at_ (Grid 0 0 []) (gs_grids s) (gv_input v) = g /\ grid_ok g).
  { unfold py_index. rewrite bool_decide_true by done.
    destruct (lookup_lt_is_Some_2 (gs_grids s) (Z.to_nat (gv_input v))) as [g Hg]; [lia|]. rewrite Hg. exists g. split; [done|].
    unfold at_. rewrite (nth_lookup_Some _ _ _ _ Hg). split; [done|]. pose proof (so_grids _ Hs) as Hall.
    rewrite Forall_lookup in Hall. eauto. }
  destruct Hg as (g & Hpg & Hag & Hgok).
  assert (Hb : exists b, py_index [b0; b1] (gv_input v) = Ok b /\ pack_input s row column height width (gv_input v) = Ok b).
  { assert (gv_input v = 0 \/ gv_input v = 1) as [->| ->] by lia; eauto. }
  destruct Hb as (b & Hpb & Hpack).
  destruct (pack_input_ok s row column height width _ _ _ _ _ _ Hpack Hr) as (_ & _ & Hcell); [by rewrite Hag|].
  rewrite Hag in Hcell. destruct (view_at v (row + i) (column + j) k) as [r c] eqn:Hva.
  destruct (Hcell (r - rmin) (c - cmin)) as (y & Hy & Hsy); [lia|lia|].
  exists y. split.
  - unfold load_view, dsub. rewrite Hd. cbn [from_option_err bind words_val map as_int]. rewrite Hpb. cbn [bind].
    rewrite <- Hy. f_equal. rewrite !(Z.mul_comm _ w), !scale_if by done.
    unfold view_at, along in Hva. injection Hva as <- <-. unfold origin, view_at, along. cbn [fst snd]. ring.
  - unfold grid_load. rewrite Hf. cbn [from_option_err bind]. rewrite Hpg. cbn [bind]. rewrite Hva. cbn [fst snd].
    replace (rmin + (r - rmin)) with r in Hsy by lia. replace (cmin + (c - cmin)) with c in Hsy by lia.
    destruct (sample_ok g r c (gs_boundary s) Hgok) as (z & Hz & Hoz & _). rewrite Hsy in Hz. apply Ok_inj in Hz as ->. exact Hoz.
Qed.

(** The words of a tile before the post map. *)
Lemma region_cells b0 b1 vs c nodes :
  pack_input s row column height width 0 = Ok b0 -> pack_input s row column height width 1 = Ok b1 ->
  traverse (fun kv : string * gview => let* v := region_view s row column height width kv.2 in Ok (kv.1, v)) (gs_views s) = Ok vs ->
  Forall is_word b0 -> Forall is_word b1 ->
  map_nodes (gs_version s) (gs_nodes s) (gs_result s) = Ok nodes ->
  let region := region_doc height width (gs_extent s) (gs_fold s) [Z.of_nat (length b0); Z.of_nat (length b1)] vs nodes (gs_result s) in
  compile_region region = Ok c ->
  exists src name, typed_nodes (gs_version s) (map fst (gs_views s)) (gs_nodes s) = Ok src /\ gs_result s = VStr name /\
    cfg c 1 = height /\ cfg c 2 = width /\
    reference region (VList [words_val b0; words_val b1]) =
      traverse (fun ij => grid_cell s src name None (row + ij.1, column + ij.2)) (coordinates height width).
Proof.
  intros Hb0 Hb1 Hvs Hw0 Hw1 Hm region Hc.
  destruct (region_doc_reference _ _ _ _ _ _ _ _ _ b0 b1 Hc eq_refl Hw0 Hw1)
    as (l & ns & name & -> & Hres & Hns & Hc1 & Hc2 & _ & _ & Hws & Hin & Href).
  rewrite Hres in Hm. assert (Hfst : map fst vs = map fst (gs_views s)).
  { apply traverse_Ok in Hvs. clear -Hvs. induction Hvs as [|[n v] y l l' Hy _ IH]; [done|]. cbn [map]. cbn in Hy.
    res_peel Hy. apply Ok_inj in Hy as <-. by f_equal. }
  assert (Hk : keys (views_doc vs) = map fst (gs_views s)) by (unfold keys, views_doc; rewrite map_map; exact Hfst).
  assert (Hload : forall i j k, 0 <= i < height -> 0 <= j < width -> 0 <= k < gs_extent s ->
    exists src, typed_nodes (gs_version s) (map fst (gs_views s)) (gs_nodes s) = Ok src /\
      eval_nodes (load_view (views_doc vs) [b0; b1] i j k) ns name = eval_nodes (grid_load s (row + i) (column + j) k) src name).
  { intros i j k Hi Hj Hk'. rewrite (eval_nodes_ext (fun v => v ∈ map fst vs) _ (grid_load s (row + i) (column + j) k)); [|intros v Hv|done].
    - destruct (map_nodes_value _ _ _ _ _ _ (grid_load s (row + i) (column + j) k) Hm Hns) as (src & Hsrc & He).
      + intros v Hv. rewrite Hk in Hv. destruct (region_load b0 b1 vs v i j k Hb0 Hb1 Hvs Hv Hi Hj Hk') as (w & _ & ?). by exists w.
      + exists src. by rewrite <- Hk, He.
    - rewrite Hfst in Hv. by destruct (region_load b0 b1 vs v i j k Hb0 Hb1 Hvs Hv Hi Hj Hk') as (w & -> & ->). }
  destruct (Hload 0 0 0) as (src & Hsrc & _); [lia|lia|pose proof (so_extent _ Hs); lia|].
  exists src, name. split; [exact Hsrc|]. split; [done|]. split; [done|]. split; [done|]. unfold region. rewrite Href.
  apply traverse_ext. intros [i j] [Hi Hj]%elem_of_coordinates. unfold region_cell, grid_cell. cbn [fst snd].
  rewrite (bind_Ok_r (foldM _ _ _)). apply foldM_ext_in. intros acc k Hk'%elem_of_zseq. destruct (Hload i j k Hi Hj Hk') as (src' & Hsrc' & ->).
  rewrite Hsrc in Hsrc'. by apply Ok_inj in Hsrc' as ->.
Qed.

(** The post map reads the word of its cell. *)
Lemma post_cells version words c nodes pnodes result :
  Z.of_nat (length words) = height * width -> Forall is_word words ->
  map_nodes version pnodes result = Ok nodes ->
  let post := region_doc height width 1 FSum [height * width; 0]
    [("reduced", [0; 0; (if 1 <? height then width else 0); (if 1 <? width then 1 else 0); 0])] nodes result in
  compile_region post = Ok c ->
  exists src name, typed_nodes version ["reduced"] pnodes = Ok src /\ result = VStr name /\
    reference post (VList [words_val words; words_val []]) =
      traverse (fun ij => let* w := py_index words (ij.1 * width + ij.2) in eval_nodes (fun _ => Ok w) src name) (coordinates height width).
Proof.
  intros Hlen Hww Hm post Hc.
  destruct (region_doc_reference _ _ _ _ _ _ _ _ _ words [] Hc) as (l & ns & name & -> & -> & Hns & _ & _ & _ & _ & Hws & Hin & Href);
    [by rewrite Hlen|done|constructor|].
  assert (Hcell : forall i j, 0 <= i < height -> 0 <= j < width -> exists w src, py_index words (i * width + j) = Ok w /\
    typed_nodes version ["reduced"] pnodes = Ok src /\
    region_cell (views_doc [("reduced", [0; 0; (if 1 <? height then width else 0); (if 1 <? width then 1 else 0); 0])]) [words; []] 1 FSum ns name (i, j) =
      eval_nodes (fun _ => Ok w) src name).
  { intros i j Hi Hj. destruct (py_index_word_ok words (i * width + j) Hww) as (w & Hw' & Hword); [nia|]. exists w.
    destruct (map_nodes_value _ _ _ _ _ _ (fun _ => Ok w) Hm Hns) as (src & Hsrc & He); [by exists w|]. exists src.
    split; [done|]. split; [exact Hsrc|]. rewrite He.
    destruct (eval_nodes_total (fun v => v ∈ ["reduced"]) (fun _ => Ok w) ns name) as (z & Hz & Hzw); [by exists w|exact Hws|done|].
    unfold region_cell. cbn [fst snd]. change (zseq 1) with [0]. cbn [foldM].
    rewrite (eval_nodes_ext (fun v => v ∈ ["reduced"]) _ (fun _ => Ok w)); [|intros v ->%list_elem_of_singleton|exact Hws].
    - rewrite Hz. cbn [bind fold_step]. f_equal. rewrite Z.add_0_l. by apply u32_id.
    - unfold load_view, dsub. cbn [views_doc map fst snd dget String.eqb Ascii.eqb Bool.eqb from_option_err bind words_val as_int].
      change (py_index [words; []] 0) with (Ok words). cbn [bind]. rewrite <- Hw'. f_equal.
      rewrite !(scale_if height), !(scale_if width) by done. lia. }
  destruct (Hcell 0 0) as (w & src & _ & Hsrc & _); [lia|lia|].
  exists src, name. split; [done|]. split; [done|]. unfold post. rewrite Href. apply traverse_ext.
  intros [i j] [Hi Hj]%elem_of_coordinates. destruct (Hcell i j Hi Hj) as (w' & src' & Hw' & Hsrc' & ->). cbn [fst snd].
  rewrite Hw'. cbn [bind]. rewrite Hsrc in Hsrc'. by apply Ok_inj in Hsrc' as ->.
Qed.
End cell.

(** ** The session of a tile *)

Definition tile_session (jobs : list pyval) : pyval :=
  VDict [("schema", VStr "raveil.fold-dag.v1"); ("jobs", VList jobs); ("output", VStr "result")].

Lemma admit_job_doc ranged st n region x y st' :
  admit_job ranged st (job_doc n region [x; y]) = Ok st' ->
  exists config sx lx ox last sy ly oy last', compile_region region = Ok config /\
    link_operand ranged (dl_names st) (dl_counts st) (Z.of_nat (length (dl_jobs st))) (dl_last st) x (cfg config 5) = Ok (sx, lx, ox, last) /\
    link_operand ranged (dl_names st) (dl_counts st) (Z.of_nat (length (dl_jobs st))) last y (cfg config 6) = Ok (sy, ly, oy, last') /\
    st' = {| dl_jobs := dl_jobs st ++ [DagJob n region [x; y]]; dl_names := <[n := Z.of_nat (length (dl_jobs st))]> (dl_names st);
             dl_sources := dl_sources st ++ [[sx; sy]]; dl_chunks := dl_chunks st ++ [chunks_of (cfg config 1 * cfg config 2)];
             dl_counts := dl_counts st ++ [cfg config 1 * cfg config 2]; dl_last := last' ++ [Z.of_nat (length (dl_jobs st))];
             dl_offsets := dl_offsets st ++ [[ox; oy]]; dl_lengths := dl_lengths st ++ [[cfg config 5; cfg config 6]] |}.
Proof.
  intros H. unfold admit_job, job_doc in H. destruct (negb (keys_are _ _)); [discriminate H|].
  unfold dsub in H. cbn [dget String.eqb Ascii.eqb Bool.eqb from_option_err bind] in H. cbn zeta in H.
  destruct (name (VStr n)) as [jn|] eqn:Hn; [|discriminate H]. cbn [bind] in H.
  assert (jn = n) as ->.
  { apply name_Ok in Hn. by injection Hn. }
  destruct (bool_decide _); [discriminate H|]. destruct (compile_region region) as [config|]; [|discriminate H]. cbn [bind] in H.
  destruct (link_operand _ _ _ _ _ x _) as [[[[sx lx] ox] last]|] eqn:Hx; [|discriminate H]. cbn [bind] in H.
  destruct (link_operand _ _ _ _ _ y _) as [[[[sy ly] oy] last']|] eqn:Hy; [|discriminate H]. cbn [bind] in H.
  destruct (reference _ _); [|discriminate H]. cbn [bind] in H. apply Ok_inj in H as <-.
  exists config, sx, lx, ox, last, sy, ly, oy, last'. split_and!; first [done|eassumption].
Qed.

Lemma tile_session_Ok l jobs plan :
  compile_session (tile_session l) = Ok (jobs, plan) ->
  exists st, foldM (admit_job false) (DagLoop [] ∅ [] [] [] [] [] []) l = Ok st /\ dl_names st !! "result" = Some (dp_output plan) /\
    jobs = dl_jobs st /\ dp_sources plan = dl_sources st /\ dp_offsets plan = dl_offsets st /\ dp_lengths plan = dl_lengths st.
Proof.
  intros H. unfold compile_session, tile_session in H. destruct (negb (keys_are _ _)); [discriminate H|].
  unfold dsub in H. cbn [dget String.eqb Ascii.eqb Bool.eqb from_option_err bind] in H.
  change (dag_schema (VStr "raveil.fold-dag.v1")) with (Some false) in H. cbn iota in H.
  destruct (negb (bool_decide _)); [discriminate H|].
  destruct (foldM (admit_job false) _ l) as [st|]; [|discriminate H]. cbn [bind] in H.
  destruct (dl_names st !! "result") as [output|] eqn:Ho; [|discriminate H]. cbn zeta in H.
  destruct (foldM _ _ _) as [[ow slots]|]; [|discriminate H]. cbn [bind] in H. apply Ok_inj in H. injection H as <- <-.
  exists st. done.
Qed.

(** A region whose buffers are literal. *)
Lemma session_one region x y jobs plan :
  compile_session (tile_session [job_doc "result" region [words_val x; words_val y]]) = Ok (jobs, plan) ->
  dp_output plan = 0 /\ Z.of_nat (length jobs) = 1 /\ dj_region (at_ no_job jobs 0) = region /\
  forall outs, job_value plan outs 0 (at_ no_job jobs 0) = reference region (VList [words_val x; words_val y]).
Proof.
  intros H. apply tile_session_Ok in H as (st & Hf & Ho & -> & Hs & _ & _). cbn [foldM] in Hf.
  destruct (admit_job _ _ _) as [st'|] eqn:Ha; [|discriminate Hf]. cbn [bind] in Hf. apply Ok_inj in Hf as ->.
  apply admit_job_doc in Ha as (config & sx & lx & ox & last & sy & ly & oy & last' & _ & Hx & Hy & ->).
  unfold words_val, link_operand in Hx, Hy. apply Ok_inj in Hx, Hy. injection Hx as <- <- <- <-. injection Hy as <- <- <- <-.
  cbn [dl_names dl_jobs] in Ho. rewrite lookup_insert_eq in Ho. injection Ho as Ho. split; [by rewrite <- Ho|]. split; [done|]. split; [done|].
  intros outs. unfold job_value, resolve_inputs, resolve_operand. rewrite Hs. done.
Qed.

(** A region whose buffers are literal, and a region that reads its result. *)
Lemma session_two region post x y jobs plan :
  compile_session (tile_session [job_doc "reduce" region [words_val x; words_val y];
    job_doc "result" post [VDict [("from", VStr "reduce")]; VList []]]) = Ok (jobs, plan) ->
  dp_output plan = 1 /\ Z.of_nat (length jobs) = 2 /\ dj_region (at_ no_job jobs 1) = post /\
  (exists c c', compile_region region = Ok c /\ compile_region post = Ok c' /\ cfg c' 5 = cfg c 1 * cfg c 2) /\
  (forall outs, job_value plan outs 0 (at_ no_job jobs 0) = reference region (VList [words_val x; words_val y])) /\
  forall outs c, compile_region region = Ok c -> Z.of_nat (length (at_ [] outs 0)) = cfg c 1 * cfg c 2 ->
    job_value plan outs 1 (at_ no_job jobs 1) = reference post (VList [words_val (at_ [] outs 0); words_val []]).
Proof.
  intros H. apply tile_session_Ok in H as (st & Hf & Ho & -> & Hs & Hof & Hl). cbn [foldM] in Hf.
  destruct (admit_job _ _ _) as [st1|] eqn:Ha; [|discriminate Hf]. cbn [bind] in Hf.
  destruct (admit_job _ st1 _) as [st2|] eqn:Hb; [|discriminate Hf]. cbn [bind] in Hf. apply Ok_inj in Hf as ->.
  apply admit_job_doc in Ha as (config & sx & lx & ox & last & sy & ly & oy & last' & Hc & Hx & Hy & ->).
  unfold words_val, link_operand in Hx, Hy. apply Ok_inj in Hx, Hy. injection Hx as <- <- <- <-. injection Hy as <- <- <- <-.
  apply admit_job_doc in Hb as (config' & sx & lx & ox & last & sy & ly & oy & last' & Hc' & Hx & Hy & ->).
  cbn [dl_jobs dl_names dl_counts dl_last dl_sources dl_offsets dl_lengths app length] in *.
  unfold link_operand in Hx, Hy. apply Ok_inj in Hy. injection Hy as <- <- <- <-.
  destruct (_ || _); [discriminate Hx|]. cbn [dget String.eqb Ascii.eqb Bool.eqb] in Hx. change (Z.of_nat 0) with 0 in *. change (Z.of_nat 1) with 1 in *.
  rewrite lookup_insert_eq in Hx. cbn [default from_option id] in Hx. change (at_ 0 [cfg config 1 * cfg config 2] 0) with (cfg config 1 * cfg config 2) in Hx.
  match type of Hx with (if ?b then _ else _) = _ => destruct b eqn:Hb; [discriminate Hx|] end.
  apply Ok_inj in Hx. injection Hx as <- <- <- <-. bool_prop. rename select (cfg config' 5 = _) into Hlen.
  rewrite lookup_insert_eq in Ho. injection Ho as Ho. split; [done|]. split; [done|]. split; [done|]. split; [by exists config, config'|]. split.
  - intros outs. unfold job_value, resolve_inputs, resolve_operand. rewrite Hs. done.
  - intros outs c [= <-]%(eq_trans (eq_sym Hc)) Hlo. unfold job_value, resolve_inputs, resolve_operand. rewrite Hs, Hof, Hl.
    change (reference post (VList [words_val (take (Z.to_nat (cfg config' 5)) (at_ [] outs 0)); words_val []]) =
      reference post (VList [words_val (at_ [] outs 0); words_val []])).
    by rewrite take_ge by lia.
Qed.

(** ** Running the sessions of a compiled grid *)

(** The region's shape as a record of a result carries it. *)
Definition region_shape (region : pyval) : res (Z * Z) :=
  match region with
  | VDict d =>
      let* shape := dsub d "shape" in
      match shape with VList [VInt h; VInt w] => Ok (h, w) | _ => fail "shape" end
  | _ => Err TypeError
  end.

(** A session's output when every job succeeds: what [dag_run_composition]
    proves a run leaves, with the fields [_output] gives it. *)
Definition run_item (item : string * pyval) : res tile_output :=
  let* ' (jobs, plan) := compile_session item.2 in
  let* outs := composition jobs plan in
  let* shape := region_shape (dj_region (at_ no_job jobs (dp_output plan))) in
  Ok (TileOutput item.1 shape (at_ [] outs (dp_output plan))).

(** A batch of sessions, then assembly. *)
Definition run_grid (c : compiled_grid) : res (list Z) :=
  let* outputs := traverse run_item (cg_items c) in
  assemble outputs (cg_layout c) (cg_rows c) (cg_columns c).

Lemma malformed_Ok {A} message (r : res A) x : malformed message r = Ok x -> r = Ok x.
Proof. destruct r as [|[]]; done. Qed.

Lemma compile_session_runs session jobs plan :
  compile_session session = Ok (jobs, plan) ->
  exists outs, composition jobs plan = Ok outs /\
    (forall i, 0 <= i < Z.of_nat (length jobs) -> job_value plan outs i (at_ no_job jobs i) = Ok (at_ [] outs i) /\ Forall is_word (at_ [] outs i)).
Proof.
  intros H. destruct (compile_session_ok _ _ _ H) as [counts Hp].
  destruct (composition_total jobs counts plan _ Hp) as (outs & Hc & _ & Hres & Hv). exists outs. split; [done|].
  intros i Hi. split; [by apply Hv|]. by destruct (Hres i Hi).
Qed.

Lemma validate_dag_Ok dag dag' : validate_dag dag = Ok dag' -> dag' = dag /\ exists jobs plan, compile_session dag = Ok (jobs, plan).
Proof.
  unfold validate_dag, compile_plan. intros H. destruct (compile_session dag) as [[jobs plan]|]; [|discriminate H]. apply Ok_inj in H. eauto.
Qed.

(** The post map of a source as its admission reads it. *)
Definition typed_post (s : gsource) : res (option (list node * string)) :=
  match gs_post s with
  | None => Ok None
  | Some (n, r) =>
      let* n := typed_nodes (gs_version s) ["reduced"] n in let* r := result_name r in Ok (Some (n, r))
  end.
Definition post_nodes (s : gsource) : res (option (pyval * pyval)) :=
  match gs_post s with
  | None => Ok None
  | Some (n, r) => let* n := map_nodes (gs_version s) n r in Ok (Some (n, r))
  end.

Lemma grid_cell_post s src result psrc pname rc :
  grid_cell s src result (Some (psrc, pname)) rc = let* w := grid_cell s src result None rc in eval_nodes (fun _ => Ok w) psrc pname.
Proof. unfold grid_cell. by destruct (foldM _ _ _). Qed.

Section tile_run.
Context (s : gsource) (Hs : source_ok s) (row column height width : Z) (Hh : 1 <= height) (Hw : 1 <= width).

Lemma pack_input_words index b : 0 <= index < 2 -> pack_input s row column height width index = Ok b -> Forall is_word b.
Proof.
  intros Hi Hb. destruct (rectangle s row column height width index) as [[[[rmin cmin] h] w]|] eqn:Hr.
  - destruct (decide (index < Z.of_nat (length (gs_grids s)))) as [Hlt|Hge].
    + eapply pack_input_ok; [done..|]. unfold at_. destruct (lookup_lt_is_Some_2 (gs_grids s) (Z.to_nat index)) as [g Hg]; [lia|].
      rewrite (nth_lookup_Some _ _ _ _ Hg). pose proof (so_grids _ Hs) as Hall. rewrite Forall_lookup in Hall. eauto.
    + exfalso. unfold rectangle in Hr. destruct (views_of s index) as [|v l] eqn:Hv; [discriminate Hr|].
      assert (Hin : In v (views_of s index)) by (rewrite Hv; left; done). unfold views_of in Hin. apply filter_In in Hin as [Hin Heq%Z.eqb_eq].
      apply in_map_iff in Hin as ([n v'] & Heq' & Hin). cbn in Heq'. subst v'. apply list_elem_of_In in Hin.
      pose proof (so_views _ Hs) as Hall. rewrite Forall_forall in Hall. pose proof (vo_input _ _ (Hall _ Hin)). cbn in *. lia.
  - unfold pack_input in Hb. rewrite Hr in Hb. apply Ok_inj in Hb as <-. constructor.
Qed.

Lemma tile_run name nodes post dag :
  tile_dag s row column height width nodes post = Ok dag ->
  map_nodes (gs_version s) (gs_nodes s) (gs_result s) = Ok nodes -> post_nodes s = Ok post ->
  exists src result post' words, typed_nodes (gs_version s) (map fst (gs_views s)) (gs_nodes s) = Ok src /\
    gs_result s = VStr result /\ typed_post s = Ok post' /\ run_item (name, dag) = Ok (TileOutput name (height, width) words) /\
    traverse (fun ij => grid_cell s src result post' (row + ij.1, column + ij.2)) (coordinates height width) = Ok words.
Proof.
  intros H Hm Hp. unfold tile_dag in H. cbn zeta in H.
  destruct (pack_input s row column height width 0) as [b0|] eqn:Hb0; [|discriminate H]. cbn [bind] in H.
  destruct (pack_input s row column height width 1) as [b1|] eqn:Hb1; [|discriminate H]. cbn [bind] in H.
  destruct (traverse _ (gs_views s)) as [vs|] eqn:Hvs; [|discriminate H]. cbn [bind] in H.
  assert (Hw0 : Forall is_word b0) by (by eapply (pack_input_words 0)). assert (Hw1 : Forall is_word b1) by (by eapply (pack_input_words 1)).
  destruct (malformed _ (compile_region _)) as [c|] eqn:Hc; [|discriminate H]. cbn [bind] in H. apply malformed_Ok in Hc.
  destruct (region_cells s Hs row column height width Hh Hw b0 b1 vs c nodes Hb0 Hb1 Hvs Hw0 Hw1 Hm Hc)
    as (src & result & Hsrc & Hres & Hc1 & Hc2 & Href).
  exists src, result. unfold post_nodes, typed_post in *. destruct (gs_post s) as [[pn pr]|].
  - destruct (map_nodes (gs_version s) pn pr) as [pn'|] eqn:Hpm; [|discriminate Hp]. cbn [bind] in Hp. apply Ok_inj in Hp as <-.
    destruct (malformed _ (compile_region _)) as [c'|] eqn:Hc' in H; [|discriminate H]. cbn [bind] in H. apply malformed_Ok in Hc'.
    apply validate_dag_Ok in H as (-> & jobs & plan & Hsess).
    destruct (session_two _ _ _ _ _ _ Hsess) as (Ho & Hlen & Hreg & _ & Hj0 & Hj1).
    destruct (compile_session_runs _ _ _ Hsess) as (outs & Hcomp & Hv).
    destruct (Hv 0) as [Hv0 Hword0]; [lia|]. destruct (Hv 1) as [Hv1 _]; [lia|]. rewrite Hj0 in Hv0.
    assert (Hlo : Z.of_nat (length (at_ [] outs 0)) = height * width).
    { rewrite Href in Hv0. apply traverse_length in Hv0. rewrite Hv0, length_coordinates. nia. }
    rewrite (Hj1 outs c Hc) in Hv1 by (rewrite Hc1, Hc2; done).
    destruct (post_cells height width Hh Hw _ _ _ _ _ _ Hlo Hword0 Hpm Hc') as (psrc & pname & Hpsrc & Hpr & Hpref).
    eexists (Some (psrc, pname)), (at_ [] outs 1). split_and!; [done..| | |].
    + by rewrite Hpsrc, Hpr.
    + unfold run_item. cbn [fst snd]. rewrite Hsess. cbn [bind]. rewrite Hcomp. cbn [bind]. rewrite Ho, Hreg. done.
    + rewrite Hpref in Hv1. rewrite <- Hv1. apply traverse_ext. intros [i j] [Hi Hj]%elem_of_coordinates. cbn [fst snd].
      rewrite Href in Hv0. destruct (lookup_traverse _ _ _ _ _ Hv0 (lookup_coordinates _ _ i j Hi Hj)) as (w & Hw' & Hcell).
      cbn [fst snd] in Hcell. rewrite grid_cell_post, Hcell. cbn [bind]. unfold py_index. rewrite bool_decide_true by nia. by rewrite Hw'.
  - apply Ok_inj in Hp as <-. cbn [bind] in H. apply validate_dag_Ok in H as (-> & jobs & plan & Hsess).
    destruct (session_one _ _ _ _ _ Hsess) as (Ho & Hlen & Hreg & Hj0).
    destruct (compile_session_runs _ _ _ Hsess) as (outs & Hcomp & Hv). destruct (Hv 0) as [Hv0 _]; [lia|]. rewrite Hj0 in Hv0.
    exists None, (at_ [] outs 0). split_and!; [done..| |].
    + unfold run_item. cbn [fst snd]. rewrite Hsess. cbn [bind]. rewrite Hcomp. cbn [bind]. rewrite Ho, Hreg. done.
    + by rewrite <- Hv0, Href.
Qed.
End tile_run.

(** ** The whole grid *)

Lemma traverse_enumerate {A B} (f : Z * A -> res B) l ys :
  traverse f (enumerate l) = Ok ys -> Forall2 (fun x y => exists i, f (i, x) = Ok y) l ys.
Proof.
  unfold enumerate. assert (Hl : length (zseq (Z.of_nat (length l))) = length l) by (rewrite length_zseq; lia).
  revert Hl ys. generalize (zseq (Z.of_nat (length l))) as ks. induction l as [|x l IH]; intros ks Hl ys H; destruct ks as [|i ks]; try discriminate Hl.
  - cbn in H. apply Ok_inj in H as <-. constructor.
  - cbn in H. destruct (f (i, x)) as [y|] eqn:Hf; [|discriminate H]. cbn [bind] in H. destruct (traverse f _) as [ys'|] eqn:Hys; [|discriminate H].
    apply Ok_inj in H as <-. constructor; [by exists i|]. eapply IH; [|exact Hys]. by injection Hl.
Qed.

Lemma tile_name_length tiles : length (map fst tiles) = length (map (@snd (string * pyval) tile_place) tiles).
Proof. by rewrite !length_map. Qed.

Lemma tile_origins_bounds rows columns tr tc rc :
  1 <= tr -> 1 <= tc -> rc ∈ tile_origins rows columns tr tc ->
  0 <= rc.1 /\ 0 <= rc.2 /\ 1 <= Z.min tr (rows - rc.1) /\ 1 <= Z.min tc (columns - rc.2).
Proof. destruct rc as [r c]. intros ? ? [[? _] [? _]]%elem_of_tile_origins; [cbn; lia|done|done]. Qed.

(** Every tile the compiler makes runs to the cells of the oracle. *)
Lemma compile_source_tiles s c :
  source_ok s -> compile_source s = Ok c ->
  cg_rows c = (gs_shape s).1 /\ cg_columns c = (gs_shape s).2 /\
  exists src result post, typed_nodes (gs_version s) (map fst (gs_views s)) (gs_nodes s) = Ok src /\
    gs_result s = VStr result /\ typed_post s = Ok post /\
    Forall2 (fun item (t : tile_place) => exists words, run_item item = Ok (TileOutput (tp_name t) (tp_rows t, tp_columns t) words) /\
        traverse (fun ij => grid_cell s src result post (tp_row t + ij.1, tp_column t + ij.2)) (coordinates (tp_rows t) (tp_columns t)) = Ok words)
      (cg_items c) (cg_layout c) /\
    Forall2 (fun rc t => exists n, t = place_at (gs_shape s).1 (gs_shape s).2 (gs_tile s).1 (gs_tile s).2 n rc)
      (tile_origins (gs_shape s).1 (gs_shape s).2 (gs_tile s).1 (gs_tile s).2) (cg_layout c).
Proof.
  intros Hs H. pose proof (so_shape _ Hs) as [Hr Hc]. pose proof (so_tile _ Hs) as [Htr Htc].
  unfold compile_source in H. destruct (gs_shape s) as [rows columns] eqn:Hshape. cbn [fst snd] in *.
  destruct (map_nodes _ (gs_nodes s) _) as [nodes|] eqn:Hm; [|discriminate H]. cbn [bind] in H.
  fold (post_nodes s) in H. destruct (post_nodes s) as [post|] eqn:Hp; [|discriminate H]. cbn [bind] in H.
  set (origins := tile_origins rows columns _ _) in *. destruct (traverse _ _) as [tiles|] eqn:Ht; [|discriminate H]. cbn [bind] in H.
  apply Ok_inj in H as <-. cbn [cg_rows cg_columns cg_items cg_layout]. split; [done|]. split; [done|].
  assert (Htile : forall i rc item t, rc ∈ origins -> compile_tile s nodes post (i, rc) = Ok (item, t) ->
    t = place_at rows columns (gs_tile s).1 (gs_tile s).2 (tile_name i) rc /\
    exists src result post' words, typed_nodes (gs_version s) (map fst (gs_views s)) (gs_nodes s) = Ok src /\
      gs_result s = VStr result /\ typed_post s = Ok post' /\ run_item item = Ok (TileOutput (tp_name t) (tp_rows t, tp_columns t) words) /\
      traverse (fun ij => grid_cell s src result post' (tp_row t + ij.1, tp_column t + ij.2)) (coordinates (tp_rows t) (tp_columns t)) = Ok words).
  { intros i [r c] item t Hin Hi. apply tile_origins_bounds in Hin as (_ & _ & ? & ?); [|lia..]. cbn [fst snd] in *.
    unfold compile_tile in Hi. rewrite Hshape in Hi. cbn [fst snd] in Hi. cbn zeta in Hi.
    destruct (tile_dag _ _ _ _ _ _ _) as [dag|] eqn:Hd; [|discriminate Hi]. cbn [bind] in Hi. apply Ok_inj in Hi. injection Hi as <- <-.
    split; [done|]. cbn [tp_row tp_column tp_rows tp_columns tp_name]. eapply (tile_run s Hs r c); [lia|lia|exact Hd|done|done]. }
  assert (Hne : exists rc l, origins = rc :: l).
  { subst origins. assert ((0, 0) ∈ tile_origins rows columns (gs_tile s).1 (gs_tile s).2) as Hin.
    { apply elem_of_tile_origins; [lia|lia|]. rewrite !Z.mod_0_l by lia. lia. }
    destruct (tile_origins _ _ _ _); [by apply elem_of_nil in Hin|eauto]. }
  assert (Hall : Forall2 (fun rc it => exists i, compile_tile s nodes post (i, rc) = Ok it) origins tiles).
  { by apply traverse_enumerate. }
  assert (Hsrc : exists src result post', typed_nodes (gs_version s) (map fst (gs_views s)) (gs_nodes s) = Ok src /\
      gs_result s = VStr result /\ typed_post s = Ok post').
  { destruct Hne as (rc & l & Hl). rewrite Hl in Hall. inversion Hall as [|? [item t] ? ? [i Hi] _]; subst.
    destruct (Htile i rc item t) as (_ & src & result & post' & words & ? & ? & ? & _); [rewrite Hl; left|done|]. by exists src, result, post'. }
  destruct Hsrc as (src & result & post' & Hsrc & Hres & Hpost). exists src, result, post'. split; [done|]. split; [done|]. split; [done|].
  clear Hne Ht. set (P := fun rc : Z * Z => rc ∈ origins) in *. assert (HP : Forall P origins) by (by apply Forall_forall).
  assert (Htile' : forall i rc item t, P rc -> compile_tile s nodes post (i, rc) = Ok (item, t) -> _) by exact Htile.
  clear Htile. clearbody P origins.
  split.
  - induction Hall as [|rc [item t] l l' [i Hi] Hl IH]; cbn [map]; constructor.
    + destruct (Htile' i rc item t) as (_ & src' & result' & post'' & words & H1 & H2 & H3 & Hrun & Hcells); [by inversion HP|done|].
      rewrite Hsrc in H1. apply Ok_inj in H1 as <-. rewrite Hres in H2. injection H2 as <-. rewrite Hpost in H3. apply Ok_inj in H3 as <-.
      by exists words.
    + apply IH. by inversion HP.
  - induction Hall as [|rc [item t] l l' [i Hi] Hl IH]; cbn [map]; constructor.
    + destruct (Htile' i rc item t) as (Ht & _); [by inversion HP|done|]. by eexists.
    + apply IH. by inversion HP.
Qed.

(** Tiles, sessions and assembly together give the reference. *)
Lemma grid_run_agree value c :
  compile_grid value = Ok c -> exists out, grid_reference value = Ok out /\ run_grid c = Ok out.
Proof.
  unfold compile_grid, grid_reference. intros H. destruct (source value) as [s|] eqn:Hsource; [|discriminate H]. cbn [bind] in H |- *. rewrite H. cbn [bind].
  pose proof (source_Ok _ _ Hsource) as Hs. pose proof (so_shape _ Hs) as [Hr Hc]. pose proof (so_tile _ Hs) as [Htr Htc].
  destruct (compile_source_tiles s c Hs H) as (Hrows & Hcols & src & result & post & Hsrc & Hres & Hpost & Hitems & Hplaces).
  destruct (gs_shape s) as [rows columns] eqn:Hshape. cbn [fst snd] in *. set (cell := grid_cell s src result post) in *.
  set (f := fun rc => match cell rc with Ok w => w | Err _ => 0 end).
  assert (Hcells : concat (map tile_cells (cg_layout c)) = concat (map (fun rc => tile_cells (place_at rows columns (gs_tile s).1 (gs_tile s).2 "" rc))
      (tile_origins rows columns (gs_tile s).1 (gs_tile s).2))).
  { f_equal. clear -Hplaces. induction Hplaces as [|rc t l l' [n ->] _ IH]; [done|]. cbn [map]. by f_equal. }
  assert (Hval : forall a, a ∈ concat (map tile_cells (cg_layout c)) -> cell a = Ok (f a)).
  { intros a (t & Ht & Ha)%elem_of_concat_map. apply list_elem_of_lookup in Ht as [k Hk].
    destruct (Forall2_lookup_r _ _ _ _ _ Hitems Hk) as (item & _ & words & _ & Htr').
    apply list_elem_of_fmap in Ha as (rc & -> & Hrc). apply list_elem_of_lookup in Hrc as [m Hm].
    destruct (lookup_traverse _ _ _ _ _ Htr' Hm) as (w & _ & Hw). unfold f. by rewrite Hw. }
  assert (Hcover : forall a, in_grid rows columns a -> a ∈ concat (map tile_cells (cg_layout c))).
  { intros [R C] Ha. rewrite Hcells. apply tiles_cover; [lia..|exact Ha]. }
  exists (map f (coordinates rows columns)). split.
  - unfold reference_source. rewrite Hsrc, Hres, Hshape. cbn [bind result_name fst snd]. fold (typed_post s). rewrite Hpost. cbn [bind].
    apply traverse_pure. intros a Ha. apply Hval, Hcover. destruct a as [R C]. by apply elem_of_coordinates in Ha.
  - assert (Hrun : exists outputs, traverse run_item (cg_items c) = Ok outputs /\ Forall2 (tile_holds f) outputs (cg_layout c)).
    { clear -Hitems Hval. induction Hitems as [|item t l l' (words & Hrun & Htr) _ IH]; [by exists []|].
      destruct IH as (outputs & Hout & Hholds); [intros a Ha; apply Hval; cbn [map concat]; apply elem_of_app; by right|].
      exists (TileOutput (tp_name t) (tp_rows t, tp_columns t) words :: outputs). cbn [traverse]. rewrite Hrun. cbn [bind]. rewrite Hout.
      split; [done|]. constructor; [|done]. split_and!; [done..|]. cbn [to_words].
      rewrite (traverse_pure _ (fun rc => f (tp_row t + rc.1, tp_column t + rc.2))) in Htr; [by apply Ok_inj in Htr|].
      intros rc Hrc. apply Hval. cbn [map concat]. apply elem_of_app. left. apply list_elem_of_fmap. by exists rc. }
    destruct Hrun as (outputs & Hout & Hholds). unfold run_grid. rewrite Hout. cbn [bind]. rewrite Hrows, Hcols.
    apply assemble_ok; [done|done|done| | |done].
    + clear -Hplaces Hr Hc Htr Htc. assert (Hb : forall rc, rc ∈ tile_origins rows columns (gs_tile s).1 (gs_tile s).2 -> 
        0 <= rc.1 /\ 0 <= rc.2 /\ 1 <= Z.min (gs_tile s).1 (rows - rc.1) /\ 1 <= Z.min (gs_tile s).2 (columns - rc.2)).
      { intros rc Hrc. apply tile_origins_bounds; [lia|lia|done]. }
      induction Hplaces as [|rc t l l' [n ->] _ IH]; constructor; [|apply IH; intros; apply Hb; by right].
      destruct (Hb rc) as (? & ? & ? & ?); [left|]. unfold place_ok, place_at. cbn. lia.
    + rewrite Hcells. apply tiles_disjoint; lia.
Qed.

(** ** The output of a grid is a grid *)

Lemma fold_step_word f acc v : is_word acc -> is_word v -> is_word (fold_step f acc v).
Proof. intros [? ?] [? ?]. destruct f; cbn; [apply u32_word|]. unfold is_word. lia. Qed.

Lemma eval_nodes_words load ns e e' : words_env e -> foldM (eval_node load) e ns = Ok e' -> words_env e'.
Proof.
  revert e. induction ns as [|n ns IH]; intros e He H; cbn [foldM] in H; [by apply Ok_inj in H as <-|].
  unfold eval_node at 1 in H. destruct (eval_word load e n) as [w|]; [|discriminate H]. cbn [bind] in H. eapply IH; [|exact H]. by apply words_env_insert.
Qed.

Lemma eval_nodes_is_word load ns r w : eval_nodes load ns r = Ok w -> is_word w.
Proof.
  unfold eval_nodes. intros H. destruct (foldM _ ∅ ns) as [e|] eqn:E; [|discriminate H]. cbn [bind] in H. apply env_get_Ok in H.
  eapply eval_nodes_words in E; [|apply map_Forall_empty]. by eapply E.
Qed.

Lemma grid_cell_word s src result post rc w : grid_cell s src result post rc = Ok w -> is_word w.
Proof.
  unfold grid_cell. intros H. destruct (foldM _ 0 _) as [acc|] eqn:E; [|discriminate H]. cbn [bind] in H.
  assert (Hacc : is_word acc).
  { assert (H0 : is_word 0) by (split; [done|change MASK with 4294967295; lia]). revert E H0. generalize 0 as a. generalize (zseq (gs_extent s)) as l. clear H. induction l as [|k l IH]; intros a E Ha; cbn [foldM] in E; [by apply Ok_inj in E as <-|].
    destruct (eval_nodes _ src result) as [v|] eqn:Hv; [|discriminate E]. cbn [bind] in E. eapply IH; [exact E|].
    apply fold_step_word; [done|by eapply eval_nodes_is_word]. }
  destruct post as [[n r]|]; [by eapply eval_nodes_is_word|]. by apply Ok_inj in H as <-.
Qed.

Lemma grid_output_ok value c out :
  compile_grid value = Ok c -> grid_reference value = Ok out -> grid_ok (Grid (cg_rows c) (cg_columns c) out).
Proof.
  unfold compile_grid, grid_reference. intros Hc H. destruct (source value) as [s|] eqn:Hs; [|discriminate H]. cbn [bind] in *. rewrite Hc in H. cbn [bind] in H.
  pose proof (source_Ok _ _ Hs) as Hok. destruct (compile_source_tiles _ _ Hok Hc) as (Hr & Hcol & _). pose proof (so_shape _ Hok) as [H1 H2].
  unfold reference_source in H. destruct (typed_nodes _ _ _) as [src|]; [|discriminate H]. cbn [bind] in H. destruct (result_name _) as [r|]; [|discriminate H]. cbn [bind] in H.
  destruct (match gs_post s with None => _ | Some _ => _ end) as [post|]; [|discriminate H]. cbn [bind] in H.
  split; cbn [gr_rows gr_columns gr_words]; try (by rewrite ?Hr, ?Hcol).
  - apply traverse_length in H. rewrite H, length_coordinates, Hr, Hcol. nia.
  - eapply traverse_Forall; [|exact H]. intros rc w. apply grid_cell_word.
Qed.

(** C3. A grid source that the compiler admits has a reference output: a grid of
    32-bit words of the declared dimensions. Running the sessions of its tiles and
    assembling their results gives it. *)
Theorem grid_run_correct value c :
  compile_grid value = Ok c -> exists out, grid_reference value = Ok out /\ run_grid c = Ok out /\ grid_ok (Grid (cg_rows c) (cg_columns c) out).
Proof.
  intros H. destruct (grid_run_agree _ _ H) as (out & Href & Hrun). exists out. split_and!; [done..|]. by eapply grid_output_ok.
Qed.

Lemma grid_run_correct_witness :
  exists c, compile_grid grid_example = Ok c /\ run_grid c = Ok [3; 5; 6; 9; 11; 12; 15; 13; 12].
Proof.
  destruct (compile_grid grid_example) as [c|] eqn:E; [|vm_compute in E; discriminate E].
  exists c. split; [reflexivity|]. destruct (grid_run_correct _ _ E) as (out & Hr & Ho & _).
  rewrite grid_example_reference in Hr. injection Hr as <-. exact Ho.
Defined.
