(* ===== verification/GridWords.v ===== *)
(** * Admission of a grid source does not look at its words

    Replacing the words of a source's grids by others of the same dimensions
    keeps it admissible, with the same layout. Planners that admit a program on
    zero words ([array_program.compile], [mf01_flow.compile]) rely on this. *)

From S2P Require Import Prelude PyValue Json JsonFacts MapSyntax AffineFold AffineFoldFacts FoldMachine FoldMachineFacts.
From S2P Require Import Numeric Project FoldSession FoldDag FoldDagFacts DagRun Grid GridFacts GridRun.

(** ** Sessions with other words *)

Definition like (x x' : pyval) : Prop :=
  (x = x' /\ exists d, x = VDict d) \/
  exists a a', x = words_val a /\ x' = words_val a' /\ length a = length a' /\ Forall is_word a'.

Record same_loop (st st' : dag_loop) : Prop := {
  sl_jobs : length (dl_jobs st) = length (dl_jobs st');
  sl_names : dl_names st = dl_names st';
  sl_sources : dl_sources st = dl_sources st';
  sl_chunks : dl_chunks st = dl_chunks st';
  sl_counts : dl_counts st = dl_counts st';
  sl_last : dl_last st = dl_last st';
  sl_offsets : dl_offsets st = dl_offsets st';
  sl_lengths : dl_lengths st = dl_lengths st';
}.

Lemma link_operand_like ranged names counts i last x x' n s v o last' :
  link_operand ranged names counts i last x n = Ok (s, v, o, last') -> like x x' ->
  exists v', link_operand ranged names counts i last x' n = Ok (s, v', o, last') /\
    forall a, operand_words n v a -> exists a', operand_words n v' a'.
Proof.
  intros H [[-> [d ->]]|(a & a' & -> & -> & Hl & Hw)].
  - exists v. split; [done|]. eauto.
  - cbn in H. apply Ok_inj in H. injection H as <- <- <- <-. exists (words_val a'). split; [done|].
    intros b (Hb1 & Hb2 & _). exists a'. apply operand_words_val; [|done].
    cbn in Hb1. injection Hb1 as Hb1. apply (f_equal length) in Hb1. rewrite !length_map in Hb1. lia.
Qed.

Lemma admit_job_like ranged st st2 st1 n region x y x' y' :
  admit_job ranged st (job_doc n region [x; y]) = Ok st1 -> same_loop st st2 -> like x x' -> like y y' ->
  exists st1', admit_job ranged st2 (job_doc n region [x'; y']) = Ok st1' /\ same_loop st1 st1'.
Proof.
  intros H Hst Hx Hy. destruct Hst as [H1 H2 H3 H4 H5 H6 H7 H8].
  unfold admit_job, job_doc in H |- *. unfold dsub in *. cbn [dget String.eqb Ascii.eqb Bool.eqb from_option_err bind] in *. cbn zeta in *.
  change (negb (keys_are [("name", VStr n); ("region", region); ("inputs", VList [x'; y'])] ["name"; "region"; "inputs"]))
    with (negb (keys_are [("name", VStr n); ("region", region); ("inputs", VList [x; y])] ["name"; "region"; "inputs"])).
  destruct (negb _); [discriminate H|].
  destruct (name (VStr n)) as [jn|]; [|discriminate H]. cbn [bind] in *. rewrite <- H2, <- H5, <- H6, <- H1.
  destruct (bool_decide _); [discriminate H|]. destruct (compile_region region) as [config|] eqn:Hc; [|discriminate H]. cbn [bind] in *.
  destruct (link_operand _ _ _ _ _ x _) as [[[[sx lx] ox] last]|] eqn:Ex; [|discriminate H]. cbn [bind] in H.
  destruct (link_operand _ _ _ _ _ y _) as [[[[sy ly] oy] last']|] eqn:Ey; [|discriminate H]. cbn [bind] in H.
  destruct (link_operand_like _ _ _ _ _ _ _ _ _ _ _ _ Ex Hx) as (lx' & -> & Hlx).
  destruct (link_operand_like _ _ _ _ _ _ _ _ _ _ _ _ Ey Hy) as (ly' & Hly' & Hly). cbn [bind]. rewrite Hly'. cbn [bind].
  destruct (reference _ _) as [out|] eqn:Hr; [|discriminate H]. cbn [bind] in H. apply Ok_inj in H as <-.
  apply reference_reads in Hr as (c & a & b & Hc' & Ha & Hb). rewrite Hc in Hc'. apply Ok_inj in Hc' as <-.
  destruct (Hlx _ Ha) as [a' Ha']. destruct (Hly _ Hb) as [b' Hb'].
  destruct (reference_operands _ _ _ _ _ _ Hc Ha' Hb') as (out' & -> & _). cbn [bind].
  eexists. split; [reflexivity|]. split; cbn; rewrite ?length_app; cbn; congruence.
Qed.

(** A job document and the same job with other words. *)
Definition like_job (v v' : pyval) : Prop :=
  exists n region x y x' y', v = job_doc n region [x; y] /\ v' = job_doc n region [x'; y'] /\ like x x' /\ like y y'.

Lemma admit_jobs_like l l' st st2 st1 :
  foldM (admit_job false) st l = Ok st1 -> same_loop st st2 -> Forall2 like_job l l' ->
  exists st1', foldM (admit_job false) st2 l' = Ok st1' /\ same_loop st1 st1'.
Proof.
  intros H Hst Hl. revert st st2 Hst H. induction Hl as [|v v' l l' (n & region & x & y & x' & y' & -> & -> & Hx & Hy) _ IH]; intros st st2 Hst H.
  - cbn in *. apply Ok_inj in H as <-. by exists st2.
  - cbn [foldM] in *. destruct (admit_job _ _ _) as [st3|] eqn:E; [|discriminate H]. cbn [bind] in H.
    destruct (admit_job_like _ _ _ _ _ _ _ _ _ _ E Hst Hx Hy) as (st3' & -> & Hst3). by eapply IH.
Qed.

Lemma compile_session_like l l' :
  is_ok (compile_session (tile_session l)) = true -> Forall2 like_job l l' -> is_ok (compile_session (tile_session l')) = true.
Proof.
  intros H Hl. destruct (compile_session (tile_session l)) as [[jobs plan]|] eqn:E; [|discriminate H]. clear H.
  unfold compile_session, tile_session in *. unfold dsub in *. cbn [dget String.eqb Ascii.eqb Bool.eqb from_option_err bind] in *.
  change (keys_are [("schema", VStr "raveil.fold-dag.v1"); ("jobs", VList l'); ("output", VStr "result")] ["schema"; "jobs"; "output"])
    with (keys_are [("schema", VStr "raveil.fold-dag.v1"); ("jobs", VList l); ("output", VStr "result")] ["schema"; "jobs"; "output"]).
  destruct (negb (keys_are _ _)); [discriminate E|]. change (dag_schema (VStr "raveil.fold-dag.v1")) with (Some false) in *. cbn iota in *.
  rewrite <- (Forall2_length _ _ _ Hl). destruct (negb (bool_decide _)); [discriminate E|].
  destruct (foldM (admit_job false) _ l) as [st|] eqn:Hf; [|discriminate E]. cbn [bind] in E.
  destruct (admit_jobs_like _ _ _ _ _ Hf (Build_same_loop (DagLoop [] ∅ [] [] [] [] [] []) (DagLoop [] ∅ [] [] [] [] [] []) eq_refl eq_refl eq_refl eq_refl eq_refl eq_refl eq_refl eq_refl) Hl)
    as (st' & -> & [H1 H2 H3 H4 H5 H6 H7 H8]). cbn [bind]. rewrite <- H2, <- H3, <- H4, <- H6, <- H7, <- H8.
  destruct (dl_names st !! "result"); [|discriminate E]. cbn zeta in *. by destruct (foldM (assign_slots _ _ _ _ _) _ _) as [[ow slots]|].
Qed.

(** ** Sources with other words *)

Definition same_dims (g g' : grid) : Prop := gr_rows g = gr_rows g' /\ gr_columns g = gr_columns g'.
Definition with_grids (s : gsource) (grids : list grid) : gsource :=
  GSource (gs_version s) grids (gs_shape s) (gs_tile s) (gs_boundary s) (gs_extent s) (gs_fold s) (gs_views s) (gs_nodes s) (gs_result s) (gs_post s).

Section words.
Context (s : gsource) (Hs : source_ok s) (grids : list grid) (Hgrids : Forall grid_ok grids)
  (Hdims : Forall2 same_dims (gs_grids s) grids).
Let s' := with_grids s grids.

Lemma with_grids_ok : source_ok s'.
Proof.
  destruct Hs. split; cbn; try done; rewrite <- (Forall2_length _ _ _ Hdims); done.
Qed.

Lemma views_inputs v : v ∈ map snd (gs_views s) -> 0 <= gv_input v < Z.of_nat (length (gs_grids s)).
Proof.
  intros (kv & -> & Hkv)%list_elem_of_fmap. pose proof (so_views _ Hs) as Hall. rewrite Forall_forall in Hall. apply (Hall _ Hkv).
Qed.

Lemma rectangle_input row column height width index r :
  rectangle s row column height width index = Some r -> 0 <= index < Z.of_nat (length (gs_grids s)).
Proof.
  unfold rectangle. intros H. destruct (views_of s index) as [|v l] eqn:Hv; [discriminate H|].
  assert (Hin : In v (views_of s index)) by (rewrite Hv; left; done). unfold views_of in Hin. apply filter_In in Hin as [Hin Heq%Z.eqb_eq].
  rewrite <- Heq. apply views_inputs. by apply list_elem_of_In.
Qed.

Lemma grid_at index : 0 <= index < Z.of_nat (length (gs_grids s)) ->
  grid_ok (at_ (Grid 0 0 []) (gs_grids s) index) /\ grid_ok (at_ (Grid 0 0 []) grids index).
Proof.
  intros Hi. pose proof (Forall2_length _ _ _ Hdims) as Hl. unfold at_.
  destruct (lookup_lt_is_Some_2 (gs_grids s) (Z.to_nat index)) as [g Hg]; [lia|].
  destruct (lookup_lt_is_Some_2 grids (Z.to_nat index)) as [g' Hg']; [lia|].
  rewrite (nth_lookup_Some _ _ _ _ Hg), (nth_lookup_Some _ _ _ _ Hg').
  pose proof (so_grids _ Hs) as Hall. rewrite Forall_lookup in Hall. rewrite Forall_lookup in Hgrids. eauto.
Qed.

Lemma pack_input_like row column height width index b :
  pack_input s row column height width index = Ok b ->
  exists b', pack_input s' row column height width index = Ok b' /\ length b' = length b /\ Forall is_word b'.
Proof.
  intros H. unfold pack_input in *. change (rectangle s' row column height width index) with (rectangle s row column height width index).
  destruct (rectangle s row column height width index) as [[[[rmin cmin] h] w]|] eqn:Hr.
  2:{ apply Ok_inj in H as <-. exists []. split_and!; [done|done|constructor]. }
  destruct (324 <? h * w); [discriminate H|]. apply rectangle_input in Hr. destruct (grid_at index Hr) as [_ Hg].
  assert (Ht : exists b', traverse (fun rc : Z * Z => sample (at_ (Grid 0 0 []) (gs_grids s') index) (rmin + rc.1) (cmin + rc.2) (gs_boundary s')) (coordinates h w) = Ok b' /\ Forall is_word b').
  { cbn [gs_grids gs_boundary s' with_grids]. clear H. induction (coordinates h w) as [|rc l (b' & IH & Hb')]; [by exists []|]. cbn [traverse].
    destruct (sample_ok _ (rmin + rc.1) (cmin + rc.2) (gs_boundary s) Hg) as (x & -> & _ & Hx). cbn [bind]. rewrite IH. cbn [bind].
    exists (x :: b'). split; [done|]. by constructor. }
  destruct Ht as (b' & Hb' & Hw). exists b'. split; [done|]. split; [|done].
  by rewrite (traverse_length _ _ _ H), (traverse_length _ _ _ Hb').
Qed.

Lemma tile_dag_words row column height width nodes post dag :
  tile_dag s row column height width nodes post = Ok dag -> is_ok (tile_dag s' row column height width nodes post) = true.
Proof.
  intros H. unfold tile_dag in *. cbn zeta in *.
  destruct (pack_input s row column height width 0) as [b0|] eqn:Hb0; [|discriminate H]. cbn [bind] in H.
  destruct (pack_input s row column height width 1) as [b1|] eqn:Hb1; [|discriminate H]. cbn [bind] in H.
  destruct (pack_input_like _ _ _ _ _ _ Hb0) as (b0' & -> & Hl0 & Hw0). destruct (pack_input_like _ _ _ _ _ _ Hb1) as (b1' & -> & Hl1 & Hw1). cbn [bind].
  cbn [gs_views s' with_grids]. change (region_view s' row column height width) with (region_view s row column height width).
  destruct (traverse _ (gs_views s)) as [vs|]; [|discriminate H]. cbn [bind] in *. cbn [gs_extent gs_fold gs_result s' with_grids]. rewrite Hl0, Hl1.
  set (region := region_doc height width (gs_extent s) (gs_fold s) [Z.of_nat (length b0); Z.of_nat (length b1)] vs nodes (gs_result s)) in *.
  destruct (malformed _ (compile_region region)); [|discriminate H]. cbn [bind] in *.
  assert (Hlike : forall a a', length a' = length a -> Forall is_word a' -> like (words_val a) (words_val a')).
  { intros u u' Hl Hw. right. by exists u, u'. }
  assert (Hrun : forall l l' x, validate_dag (tile_session l) = Ok x -> Forall2 like_job l l' -> is_ok (validate_dag (tile_session l')) = true).
  { intros l l' x Hx Hl. unfold validate_dag, compile_plan in *. pose proof (compile_session_like l l') as Hc.
    destruct (compile_session (tile_session l)) as [[jobs plan]|]; [|discriminate Hx].
    destruct (compile_session (tile_session l')) as [[jobs' plan']|]; [done|]. discriminate (Hc eq_refl Hl). }
  destruct post as [[pn pr]|].
  - destruct (malformed _ (compile_region _)) in *; [|discriminate H]. cbn [bind] in *. eapply Hrun; [exact H|].
    constructor; [|constructor; [|constructor]].
    + do 6 eexists. split_and!; [reflexivity|reflexivity|by apply Hlike..].
    + do 6 eexists. split_and!; [reflexivity|reflexivity|left; eauto|right]. exists [], []. done.
  - cbn [bind] in *. eapply Hrun; [exact H|]. constructor; [|constructor]. do 6 eexists. split_and!; [reflexivity|reflexivity|by apply Hlike..].
Qed.

Lemma compile_source_words c :
  compile_source s = Ok c ->
  exists c', compile_source s' = Ok c' /\ cg_rows c' = cg_rows c /\ cg_columns c' = cg_columns c /\ cg_layout c' = cg_layout c.
Proof.
  unfold compile_source. intros H. cbn [gs_shape gs_version gs_nodes gs_result gs_post gs_tile s' with_grids].
  destruct (gs_shape s) as [rows columns] eqn:Hshape.
  destruct (map_nodes _ (gs_nodes s) _) as [nodes|]; [|discriminate H]. cbn [bind] in *.
  destruct (match gs_post s with None => _ | Some _ => _ end) as [post|]; [|discriminate H]. cbn [bind] in *.
  destruct (traverse (compile_tile s nodes post) _) as [tiles|] eqn:Ht; [|discriminate H]. cbn [bind] in H. apply Ok_inj in H as <-.
  cbn [cg_rows cg_columns cg_layout]. revert tiles Ht. generalize (enumerate (tile_origins rows columns (gs_tile s).1 (gs_tile s).2)) as l.
  induction l as [|[i [r col]] l IH]; intros tiles Ht.
  - cbn in Ht. apply Ok_inj in Ht as <-. cbn. by eexists.
  - cbn [traverse] in Ht. destruct (compile_tile s nodes post (i, (r, col))) as [it|] eqn:Hc; [|discriminate Ht]. cbn [bind] in Ht.
    destruct (traverse _ l) as [its|] eqn:Hts; [|discriminate Ht]. apply Ok_inj in Ht as <-.
    destruct (IH its eq_refl) as (c' & Hc' & Hr & Hcol & Hlay).
    destruct (traverse (compile_tile s' nodes post) l) as [its'|] eqn:Hts'; [|discriminate Hc']. cbn [bind] in Hc'. apply Ok_inj in Hc' as <-.
    assert (Htile : exists it', compile_tile s' nodes post (i, (r, col)) = Ok it' /\ it'.2 = it.2).
    { unfold compile_tile in *. cbn [gs_tile gs_shape s' with_grids]. cbn zeta in *.
      destruct (tile_dag s _ _ _ _ _ _) as [dag|] eqn:Hd; [|discriminate Hc]. cbn [bind] in Hc. apply Ok_inj in Hc as <-.
      pose proof (tile_dag_words _ _ _ _ _ _ _ Hd) as Hok. destruct (tile_dag s' _ _ _ _ _ _); [|discriminate Hok]. cbn [bind]. by eexists. }
    destruct Htile as (it' & Hit & Heq). cbn [traverse]. rewrite Hit. cbn [bind]. rewrite Hts'. cbn [bind].
    eexists. split; [reflexivity|]. cbn [cg_rows cg_columns cg_layout map] in *. rewrite Heq. split_and!; congruence.
Qed.
End words.

(** ** Reading a grid document back *)

Lemma length_pretty_go n s (k : nat) : (n < 10 ^ N.of_nat k)%N -> (String.length (pretty_N_go n s) <= k + String.length s)%nat.
Proof.
  revert n s. induction k as [|k IH]; intros n s Hn.
  - assert (n = 0%N) as -> by (change (10 ^ N.of_nat 0)%N with 1%N in Hn; lia). rewrite pretty_N_go_0. done.
  - destruct (decide (n = 0)%N) as [->|Hne]; [rewrite pretty_N_go_0; lia|]. rewrite pretty_N_go_step by lia.
    etrans; [apply IH|cbn [String.length]; lia]. apply N.Div0.div_lt_upper_bound. rewrite Nat2N.inj_succ, N.pow_succ_r in Hn by lia. lia.
Qed.

Lemma length_pretty_word w : is_word w -> (String.length (pretty w) <= 10)%nat.
Proof.
  intros [H0 H1]. destruct w as [|p|p]; [cbn; lia| |lia]. rewrite pretty_Z_pos.
  pose proof (length_pretty_go (N.pos p) "" 10) as H. cbn [String.length] in H. rewrite Nat.add_0_r in H. apply H.
  change (10 ^ N.of_nat 10)%N with 10000000000%N. change MASK with 4294967295 in H1. lia.
Qed.

Lemma length_concat_le sep l (m : nat) :
  Forall (fun s => (String.length s <= m)%nat) l -> (String.length (String.concat sep l) <= (m + String.length sep) * length l)%nat.
Proof.
  induction 1 as [|s l Hs _ IH]; [cbn; lia|]. destruct l as [|s' l].
  - cbn. lia.
  - change (String.concat sep (s :: s' :: l)) with (s +:+ sep +:+ String.concat sep (s' :: l)). rewrite !length_append. cbn [length] in *. lia.
Qed.

Lemma length_words_text ind l : Forall is_word l -> (String.length (dumps ind (words_val l)) <= 15 * length l + ind * length l + 20 + 2 * ind)%nat.
Proof.
  intros Hl. unfold words_val. destruct l as [|w l]; [cbn; lia|]. set (l' := w :: l) in *.
  change (dumps ind (VList (map VInt l'))) with ("[" +:+ newline (S (S ind)) +:+ String.concat ("," +:+ newline (S (S ind))) (map (dumps (S (S ind))) (map VInt l')) +:+ newline ind +:+ "]").
  assert (Hn : forall n, String.length (newline n) = S n).
  { intros n. unfold newline. cbn. f_equal. induction n as [|n IH]; [done|]. cbn. by rewrite IH. }
  rewrite !length_append, !Hn. cbn [String.length].
  pose proof (length_concat_le ("," +:+ newline (S (S ind))) (map (dumps (S (S ind))) (map VInt l')) 10) as H.
  rewrite !length_append, !length_map, Hn in H. cbn [String.length] in H.
  assert (Forall (fun s => (String.length s <= 10)%nat) (map (dumps (S (S ind))) (map VInt l'))) as Hall.
  { rewrite map_map. apply Forall_map. eapply Forall_impl; [exact Hl|]. intros x Hx. cbn [dumps]. by apply length_pretty_word. }
  specialize (H Hall). nia.
Qed.

Lemma grid_doc_json rows columns words : json_ok (grid_doc rows columns words) = true.
Proof.
  unfold grid_doc. cbn [json_ok forallb]. rewrite bool_decide_true by (apply (bool_decide_unpack _); vm_compute; done).
  cbn [andb snd json_ok words_val]. rewrite andb_true_r. by induction words.
Qed.

Lemma length_newline n : String.length (newline n) = S n.
Proof. unfold newline. cbn. f_equal. induction n as [|n IH]; [done|]. cbn. by rewrite IH. Qed.

Lemma length_grid_doc rows columns words :
  1 <= rows <= 64 -> 1 <= columns <= 64 -> Forall is_word words ->
  (String.length (dumps 0 (grid_doc rows columns words)) <= 17 * length words + 200)%nat.
Proof.
  intros Hr Hc Hw. unfold grid_doc. change (dumps 0 (VDict ?d)) with ("{" +:+ newline 2 +:+
    String.concat ("," +:+ newline 2) (map (fun kt => json_str kt.1 +:+ ": " +:+ kt.2) (sort_keys (map (fun kv => (kv.1, dumps 2 kv.2)) d))) +:+ newline 0 +:+ "}").
  change (sort_keys (map (fun kv => (kv.1, dumps 2 kv.2)) [("schema", VStr GRID_INPUT); ("rows", VInt rows); ("columns", VInt columns); ("words", words_val words)]))
    with [("columns", pretty columns); ("rows", pretty rows); ("schema", json_str GRID_INPUT); ("words", dumps 2 (words_val words))].
  cbn [map fst snd]. change (String.concat ?sep [?a; ?b; ?c; ?d]) with (a +:+ sep +:+ b +:+ sep +:+ c +:+ sep +:+ d).
  rewrite !length_append, !length_newline.
  assert (is_word rows /\ is_word columns) as [Hwr Hwc] by (unfold is_word; change MASK with 4294967295; lia).
  pose proof (length_words_text 2 words Hw). pose proof (length_pretty_word rows Hwr). pose proof (length_pretty_word columns Hwc).
  change (String.length (json_str "columns")) with 9%nat. change (String.length (json_str "rows")) with 6%nat.
  change (String.length (json_str "schema")) with 8%nat. change (String.length (json_str "words")) with 7%nat.
  change (String.length (json_str GRID_INPUT)) with 22%nat. cbn [String.length]. lia.
Qed.

Lemma mapM_int_in_words l : Forall is_word l -> mapM (int_in 0 0xffffffff) (map VInt l) = Some l.
Proof.
  intros Hl. apply mapM_Some. rewrite Forall2_fmap_l. apply Forall_Forall2_diag. eapply Forall_impl; [exact Hl|].
  intros w [H0 H1]. cbn. rewrite bool_decide_true; [done|]. change MASK with 4294967295 in H1. lia.
Qed.

Lemma canon_grid_doc rows columns words :
  canon (grid_doc rows columns words) = VDict [("columns", VInt columns); ("rows", VInt rows); ("schema", VStr GRID_INPUT); ("words", words_val words)].
Proof.
  unfold grid_doc. cbn [canon map fst snd words_val]. change (sort_keys ?l) with (sort_keys l).
  assert (map canon (map VInt words) = map VInt words) as ->; [|done]. rewrite map_map. done.
Qed.

Lemma read_input_decoded raw rows columns words :
  Z.of_nat (String.length raw) <= 131072 ->
  composition_json raw = Ok (VDict [("columns", VInt columns); ("rows", VInt rows); ("schema", VStr GRID_INPUT); ("words", words_val words)]) ->
  1 <= rows <= 64 -> 1 <= columns <= 64 -> Z.of_nat (length words) = rows * columns -> Forall is_word words ->
  read_input raw = Ok (Grid rows columns words).
Proof.
  intros Hraw Hread Hr Hc Hl Hw. unfold read_input. rewrite (proj2 (Z.ltb_ge _ _)) by done. rewrite Hread. cbn [bind].
  change (negb (keys_are _ _)) with false. cbn [dget String.eqb Ascii.eqb Bool.eqb default orb negb is_str].
  change (is_str (default VNone (Some (VStr GRID_INPUT))) GRID_INPUT) with true. cbn [negb orb].
  unfold dsub. cbn [dget String.eqb Ascii.eqb Bool.eqb from_option_err bind int_in]. unfold MAX_DIMENSION.
  rewrite !bool_decide_true by lia. cbn [words_val]. rewrite length_map, Hl, Z.eqb_refl. cbn [negb]. by rewrite mapM_int_in_words.
Qed.

Lemma encoded_ok v : json_ok v = true -> encoded v = Ok (dumps 0 v +:+ str1 10).
Proof. intros H. unfold encoded. by rewrite json_ok_no_nan. Qed.

Lemma decoded_text h v text : json_ok v = true -> encoded v = Ok text -> json_loads h text = Ok (canon v).
Proof. intros H Ht. rewrite <- (json_loads_written h v H), Ht. done. Qed.

Lemma read_grid_doc g : grid_ok g -> (let* raw := encoded (grid_doc (gr_rows g) (gr_columns g) (gr_words g)) in read_input raw) = Ok g.
Proof.
  intros [Hr Hc Hl Hw]. destruct g as [rows columns words]. cbn [gr_rows gr_columns gr_words] in *.
  pose proof (grid_doc_json rows columns words) as Hok. pose proof (encoded_ok _ Hok) as Ht.
  pose proof (length_grid_doc rows columns words Hr Hc Hw) as Hlen.
  pose proof (decoded_text (Hooks false "duplicate JSON field: ") _ _ Hok Ht) as Hread. rewrite canon_grid_doc in Hread.
  assert (Hraw : Z.of_nat (String.length (dumps 0 (grid_doc rows columns words) +:+ str1 10)) <= 131072).
  { rewrite length_append. change (String.length (str1 10)) with 1%nat. nia. }
  rewrite Ht. clear Ht Hok Hlen. revert Hread Hraw. generalize (dumps 0 (grid_doc rows columns words) +:+ str1 10). intros text Hread Hraw.
  apply read_input_decoded; try done. unfold composition_json. by rewrite Hread.
Qed.

(** ** Documents with other grids *)

Definition read_grid (v : pyval) : res grid := let* raw := encoded v in read_input raw.

(** The dictionary with another list of inputs. *)
Definition inputs_replaced (d d' : dict) (ins ins' : list pyval) : Prop :=
  dget "inputs" d = Some (VList ins) /\ dget "inputs" d' = Some (VList ins') /\
  (forall k, k <> "inputs" -> dget k d' = dget k d) /\ forall l, keys_are d' l = keys_are d l.

Lemma first_dims l l' : Forall2 same_dims l l' ->
  gr_rows (at_ (Grid 0 0 []) l 0) = gr_rows (at_ (Grid 0 0 []) l' 0) /\ gr_columns (at_ (Grid 0 0 []) l 0) = gr_columns (at_ (Grid 0 0 []) l' 0).
Proof. by intros [|g g' ? ? Hd _]. Qed.

Lemma existsb_dims l l' : Forall2 same_dims l l' ->
  existsb (fun g => negb (gr_rows g =? gr_rows (at_ (Grid 0 0 []) l 0)) || negb (gr_columns g =? gr_columns (at_ (Grid 0 0 []) l 0))) l =
  existsb (fun g => negb (gr_rows g =? gr_rows (at_ (Grid 0 0 []) l' 0)) || negb (gr_columns g =? gr_columns (at_ (Grid 0 0 []) l' 0))) l'.
Proof.
  intros Hl. destruct (first_dims l l' Hl) as [<- <-]. generalize (at_ (Grid 0 0 []) l 0). intros first.
  induction Hl as [|g g' l l' [Hr Hc] _ IH]; [done|]. cbn [existsb]. by rewrite IH, Hr, Hc.
Qed.

Lemma source_replaced d d' ins ins' s :
  inputs_replaced d d' ins ins' ->
  Forall2 (fun v v' => forall g, read_grid v = Ok g -> exists g', read_grid v' = Ok g' /\ same_dims g g') ins ins' ->
  source (VDict d) = Ok s ->
  exists grids, traverse read_grid ins' = Ok grids /\ Forall2 same_dims (gs_grids s) grids /\ source (VDict d') = Ok (with_grids s grids).
Proof.
  intros (Hi & Hi' & Hk & Hkeys) Hins H. unfold source in *.
  assert (Hv : source_schema d' = source_schema d) by (unfold source_schema; by rewrite Hk).
  rewrite Hv. destruct (source_schema d) as [version|]; [|discriminate H]. cbn zeta in *. rewrite Hk, Hkeys by done.
  destruct (negb (keys_are d _)); [discriminate H|]. unfold dsub in *. rewrite Hi in H. rewrite Hi'. rewrite !Hk by done.
  destruct (if _ || _ then _ else Ok None) as [post|]; [|discriminate H]. cbn [bind from_option_err] in *.
  rewrite <- (Forall2_length _ _ _ Hins). destruct (negb (bool_decide _)); [discriminate H|].
  fold read_grid in *. destruct (traverse _ ins) as [grids|] eqn:Hg; [|discriminate H]. cbn [bind] in H.
  assert (Hg' : exists grids', traverse read_grid ins' = Ok grids' /\ Forall2 same_dims grids grids').
  { clear H Hi Hi'. revert grids Hg. induction Hins as [|v v' l l' Hv' _ IH]; intros grids Hg; cbn [traverse] in *.
    - apply Ok_inj in Hg as <-. by exists [].
    - change (let* raw := encoded v in read_input raw) with (read_grid v) in Hg.
      destruct (read_grid v) as [g|] eqn:E; [|discriminate Hg]. cbn [bind] in Hg. destruct (traverse _ l) as [gs|]; [|discriminate Hg].
      apply Ok_inj in Hg as <-. destruct (Hv' g eq_refl) as (g' & -> & Hd). cbn [bind]. destruct (IH gs eq_refl) as (gs' & -> & Hds). cbn [bind].
      exists (g' :: gs'). split; [done|]. by constructor. }
  destruct Hg' as (grids' & Hg' & Hd). rewrite Hg'. cbn [bind]. rewrite <- (existsb_dims grids grids' Hd).
  destruct (first_dims grids grids' Hd) as [<- <-]. exists grids'. split; [done|].
  destruct (negb (negb (version =? 1)) && _); [discriminate H|].
  destruct (if negb (version =? 1) then _ else _) as [shape|]; [|discriminate H]. cbn [bind] in *.
  destruct (integer_pair _ shape _ _) as [shape'|]; [|discriminate H]. cbn [bind] in *.
  destruct (from_option_err KeyError (dget "tile" d)) as [tile|]; [|discriminate H]. cbn [bind] in *.
  destruct (integer_pair _ tile _ _) as [tile'|]; [|discriminate H]. cbn [bind] in *.
  destruct (16 <? _); [discriminate H|].
  destruct (from_option_err KeyError (dget "boundary" d)) as [mode|]; [|discriminate H]. cbn [bind] in *.
  destruct (boundary_of mode) as [b|]; [|discriminate H]. cbn [bind] in *.
  destruct (from_option_err KeyError (dget "kernel" d)) as [kernel|]; [|discriminate H]. cbn [bind] in *.
  rewrite <- (Forall2_length _ _ _ Hd).
  destruct (grid_kernel _ _ kernel) as [[[[[extent f] views] nodes] result]|]; [|discriminate H]. cbn [bind] in *.
  apply Ok_inj in H as <-. done.
Qed.

(** A source keeps its admission and its dimensions when its grids are replaced. *)
Lemma compile_replaced d d' ins ins' c :
  inputs_replaced d d' ins ins' ->
  Forall2 (fun v v' => forall g, read_grid v = Ok g -> exists g', read_grid v' = Ok g' /\ same_dims g g') ins ins' ->
  compile_grid (VDict d) = Ok c ->
  exists c', compile_grid (VDict d') = Ok c' /\ cg_rows c' = cg_rows c /\ cg_columns c' = cg_columns c /\ cg_layout c' = cg_layout c.
Proof.
  intros Hr Hins H. unfold compile_grid in *. destruct (source (VDict d)) as [s|] eqn:Hs; [|discriminate H]. cbn [bind] in H.
  destruct (source_replaced _ _ _ _ _ Hr Hins Hs) as (grids & Hg & Hd & ->). cbn [bind].
  eapply compile_source_words; [by eapply source_Ok| |exact Hd|exact H].
  eapply traverse_Forall; [|exact Hg]. intros x g Hx. unfold read_grid in Hx. res_peel Hx. by eapply read_input_ok.
Qed.
