(* ===== verification/Array.v ===== *)
(** * Array programs ([raveil/array_program.py])

    An array program is a DAG of stages, each a fold over affine views of
    literal grids or earlier stages with a map and an optional post map.
    [structure] admits it and orders its stages; [compile] turns every map node
    at every fold index into one elementwise pass over whole planes, checks each
    pass by the grid compiler on zero words, and plans the release of planes;
    [bind], [commit] and [publish] run the plan; [reference] interprets the
    source directly. *)

From S2P Require Import Prelude PyValue Json MapSyntax AffineFold Project Grid GridRun.

Definition ARRAY_SCHEMA : string := "raveil.array-program/v1".
Definition ARRAY_SCHEMA_V2 : string := "raveil.array-program/v2".
Definition MAX_NODES : Z := 128.
Definition MAX_PASSES : Z := 128.
Definition MAX_SESSIONS : Z := 128.
Definition MAX_WORK : Z := 32768.
Definition MAX_PLANES : Z := 65536.

(** ** Admission *)

(** [_fields] *)
Definition fields (value : pyval) (ks : list string) (message : string) : res dict :=
  match value with
  | VDict d => raise_if negb (keys_are d ks) with message in Ok d
  | _ => fail message
  end.

(** [op], a load or an entry of [OPS]. *)
Inductive aop := ALoad | AOp (o : op) | AImm (o : immop).
Definition array_op (s : string) : option aop :=
  if String.eqb s "load" then Some ALoad
  else if String.eqb s "add" then Some (AOp Add) else if String.eqb s "mul" then Some (AOp Mul)
  else if String.eqb s "max" then Some (AOp Max) else if String.eqb s "max_i32" then Some (AOp MaxI32)
  else if String.eqb s "relu_i32" then Some (AOp ReluI32)
  else if String.eqb s "add_imm" then Some (AImm AddImm) else if String.eqb s "ge_imm" then Some (AImm GeImm)
  else None.
Definition array_fields (o : aop) : list string :=
  match o with ALoad => ["id"; "op"; "view"] | AOp _ => ["id"; "op"; "args"] | AImm _ => ["id"; "op"; "args"; "imm"] end.
Definition array_arity (o : aop) : nat := match o with ALoad => 0 | AOp o => op_arity o | AImm _ => 1 end.

Definition long_name (s : string) : bool := String.eqb s "" || (128 <? Z.of_nat (String.length s)).

(** A name among [names]. *)
Definition known_name (names : list string) (v : pyval) : option string :=
  match v with VStr s => if bool_decide (s ∈ names) then Some s else None | _ => None end.

(** One iteration of [for node in nodes]. *)
Definition array_node (views seen : list string) (value : pyval) : res node :=
  match value with
  | VDict n =>
      match dget "op" n with
      | Some (VStr o) =>
          match array_op o with
          | None => fail "unsupported array operation"
          | Some o =>
              raise_if negb (keys_are n (array_fields o)) with "invalid array node fields" in
              let* id := dsub n "id" in
              match id with
              | VStr id =>
                  raise_if long_name id || bool_decide (id ∈ seen) with "invalid or duplicate array node id" in
                  match o with
                  | ALoad =>
                      let* view := dsub n "view" in
                      match known_name views view with
                      | Some view => Ok (NLoad id view)
                      | None => fail "unknown array view"
                      end
                  | AOp _ | AImm _ =>
                      let* args := dsub n "args" in
                      let error {A} : res A := fail "array nodes require dependency-ordered SSA" in
                      match args with
                      | VList args =>
                          raise_if negb (length args =? array_arity o)%nat with "array nodes require dependency-ordered SSA" in
                          match mapM (known_name seen) args with
                          | None => error
                          | Some args =>
                              match o, args with
                              | AImm o, arg :: _ =>
                                  let* imm := dsub n "imm" in
                                  let* imm := integer imm 0 (Z.shiftl 1 22 - 1) in
                                  Ok (NImm id o arg imm)
                              | AOp o, _ => Ok (NOp id o args)
                              | _, _ => error
                              end
                          end
                      | _ => error
                      end
                  end
              | _ => fail "invalid or duplicate array node id"
              end
          end
      | _ => fail "invalid array node"
      end
  | _ => fail "invalid array node"
  end.

(** [_nodes]: the checked nodes and their result. *)
Definition array_nodes (nodes result : pyval) (views : list string) : res (list node * string) :=
  match nodes with
  | VList nodes =>
      raise_if negb (bool_decide (1 <= Z.of_nat (length nodes) <= MAX_NODES)) with "array map requires 1..128 nodes" in
      let* nodes := foldM (fun (st : list node) value =>
        let* n := array_node views (map node_id st) value in Ok (st ++ [n])) [] nodes in
      match known_name (map node_id nodes) result with
      | Some result => Ok (nodes, result)
      | None => fail "unknown array result"
      end
  | _ => fail "array map requires 1..128 nodes"
  end.

(** An input of a stage: the name of a stage or a literal grid. *)
Abbreviation array_input := (string + grid)%type.

Record array_stage := ArrayStage {
  ar_inputs : list array_input; ar_shape : Z * Z; ar_boundary : boundary; ar_extent : Z; ar_fold : fold;
  ar_views : list (string * gview); ar_nodes : list node; ar_result : string; ar_post : option (list node * string);
}.

(** One iteration of [for item in s['inputs']]. *)
Definition admit_input (item : pyval) : res array_input :=
  let literal := let* raw := encoded item in let* g := read_input raw in Ok (inr g) in
  match item with
  | VDict d =>
      if is_Some_b (dget "from" d) then
        let* d := fields item ["from"] "invalid array producer link" in
        let* from := dsub d "from" in
        match from with
        | VStr _ => let* from := name from in Ok (inl from)
        | _ => fail "array producer must be text"
        end
      else literal
  | _ => literal
  end.

(** One iteration of [for vname, view in k['views'].items()]. *)
Definition array_view (inputs : Z) (kv : string * pyval) : res (string * gview) :=
  raise_if long_name kv.1 with "invalid array view name" in
  let* view := fields kv.2 ["input"; "offset"; "row"; "column"; "step"] "invalid array view" in
  let pair key low := let* p := dsub view key in integer_pair "array view needs coordinate pair" p low 63 in
  let* input := dsub view "input" in
  let* input := integer input 0 (inputs - 1) in
  let* offset := pair "offset" (-63) in let* row := pair "row" 0 in let* column := pair "column" 0 in let* step := pair "step" 0 in
  Ok (kv.1, GView input offset step row column).

Definition array_fold (v : pyval) : res fold :=
  if is_str v "sum" then Ok FSum else if is_str v "max" then Ok FMax else fail "array fold requires sum or unsigned max".

(** The source of a stage. *)
Definition array_source (source : pyval) : res array_stage :=
  match source with
  | VDict s =>
      let post := is_Some_b (dget "post" s) in
      let* _ := fields source (["inputs"; "shape"; "boundary"; "kernel"] ++ if post then ["post"] else [])
                  "invalid array stage fields (tiles are automatic)" in
      let* inputs := dsub s "inputs" in
      match inputs with
      | VList inputs =>
          raise_if negb (bool_decide (1 <= Z.of_nat (length inputs) <= 8)) with "array stage requires 1..8 inputs" in
          let* shape := dsub s "shape" in
          let* shape := integer_pair "array output needs two dimensions" shape 1 64 in
          let* mode := dsub s "boundary" in
          let* mode := boundary_of mode in
          let* inputs := traverse admit_input inputs in
          let* kernel := dsub s "kernel" in
          let* k := fields kernel ["extent"; "fold"; "views"; "nodes"; "result"] "invalid array kernel" in
          let* extent := dsub k "extent" in
          let* extent := integer extent 1 64 in
          let* f := dsub k "fold" in
          let* f := array_fold f in
          let* views := dsub k "views" in
          match views with
          | VDict views =>
              raise_if negb (bool_decide (1 <= Z.of_nat (length views) <= 8)) with "array requires 1..8 views" in
              let* views := traverse (array_view (Z.of_nat (length inputs))) views in
              let* nodes := dsub k "nodes" in let* result := dsub k "result" in
              let* ' (nodes, result) := array_nodes nodes result (map fst views) in
              let* post :=
                if post then
                  let* p := dsub s "post" in
                  let* p := fields p ["nodes"; "result"] "invalid array post map" in
                  let* n := dsub p "nodes" in let* r := dsub p "result" in
                  let* p := array_nodes n r ["reduced"] in Ok (Some p)
                else Ok None in
              Ok (ArrayStage inputs shape mode extent f views nodes result post)
          | _ => fail "array requires 1..8 views"
          end
      | _ => fail "array stage requires 1..8 inputs"
      end
  | _ => fail "invalid array stage source"
  end.

Definition stage_nodes (s : array_stage) : Z :=
  Z.of_nat (length (ar_nodes s)) + match ar_post s with Some (n, _) => Z.of_nat (length n) | None => 0 end.
Definition links_of (inputs : list array_input) : list string := omap (fun i => match i with inl n => Some n | inr _ => None end) inputs.
(** [deps[name]] *)
Definition stage_deps (s : array_stage) : list string := links_of (ar_inputs s).
Definition stage_literals (s : array_stage) : Z :=
  foldr (fun i n => match i with inr g => Z.of_nat (length (gr_words g)) + n | inl _ => n end) 0 (ar_inputs s).

(** One iteration of [for stage in value['stages']]. *)
Definition array_stage_entry (stages : list (string * array_stage)) (value : pyval) : res (list (string * array_stage)) :=
  let* d := fields value ["name"; "source"] "invalid array stage" in
  let* n := dsub d "name" in
  match n with
  | VStr _ =>
      let* n := name n in
      raise_if bool_decide (n ∈ map fst stages) with "duplicate array stage" in
      let* source := dsub d "source" in
      let* s := array_source source in
      Ok (stages ++ [(n, s)])
  | _ => fail "array stage name must be text"
  end.

Definition sort_names (l : list string) : list string := map fst (sort_keys (map (fun n => (n, tt)) l)).

(** [while pending: ...]; a round removes a stage, so as many rounds as stages
    are enough. *)
Fixpoint stage_order (fuel : nat) (deps : string -> list string) (pending order : list string) : res (list string) :=
  match pending with
  | [] => Ok order
  | _ =>
      match fuel with
      | O => Err OutOfFuel
      | S fuel =>
          match sort_names (List.filter (fun n => forallb (fun d => negb (bool_decide (d ∈ pending))) (deps n)) pending) with
          | [] => fail "cyclic array stages"
          | n :: _ => stage_order fuel deps (List.filter (fun m => negb (String.eqb m n)) pending) (order ++ [n])
          end
      end
  end.

Definition find_stage (stages : list (string * array_stage)) (n : string) : option array_stage :=
  snd <$> List.find (fun ns => String.eqb ns.1 n) stages.
Definition deps_of (stages : list (string * array_stage)) (n : string) : list string :=
  match find_stage stages n with Some s => stage_deps s | None => [] end.

(** An admitted program: [stages], [order], [total], [literal_words] and the
    checked [value['outputs']]. *)
Record program := Program {
  pr_stages : list (string * array_stage); pr_order : list string; pr_total : Z; pr_literals : Z; pr_outputs : list string;
}.

(** [structure] *)
Definition structure (value : pyval) : res program :=
  let* d := fields value ["schema"; "stages"; "outputs"] "invalid array program fields" in
  let* schema := dsub d "schema" in let* stages := dsub d "stages" in let* outputs := dsub d "outputs" in
  let error {A} : res A := fail "array program requires 1..8 stages and outputs" in
  match stages, outputs with
  | VList stages, VList outputs =>
      raise_if negb (is_str schema ARRAY_SCHEMA || is_str schema ARRAY_SCHEMA_V2) ||
               negb (bool_decide (1 <= Z.of_nat (length stages) <= 8)) || negb (bool_decide (1 <= Z.of_nat (length outputs) <= 8))
      with "array program requires 1..8 stages and outputs" in
      let* stages := foldM array_stage_entry [] stages in
      let total := foldr Z.add 0 (map (fun ns => stage_nodes ns.2) stages) in
      raise_if MAX_NODES <? total with "array exceeds 128 total source nodes" in
      match mapM (known_name (map fst stages)) outputs with
      | None => fail "unknown array output"
      | Some outputs =>
          raise_if negb (bool_decide (NoDup outputs)) with "duplicate array output" in
          raise_if existsb (fun ns : string * array_stage => existsb (fun n => negb (bool_decide (n ∈ map fst stages))) (stage_deps ns.2)) stages
          with "unknown array producer" in
          let* order := stage_order (length stages) (deps_of stages) (map fst stages) [] in
          Ok (Program stages order total (foldr Z.add 0 (map (fun ns => stage_literals ns.2) stages)) outputs)
      end
  | _, _ => error
  end.

(** ** Passes *)

Inductive pass_op := PLoad | POp (o : op) | PImm (o : immop) (imm : Z).

(** A pass: [gather] has the stage, the view and the fold index of a load that
    gathers words of a stage's input. *)
Record array_step := ArrayStep {
  st_id : string; st_shape : Z * Z; st_op : pass_op; st_args : list string;
  st_gather : option (string * string * Z); st_release : list string;
}.

(** [emit]'s variables. *)
Record emitter := Emitter { em_steps : list array_step; em_sessions : Z; em_work : Z }.

(** [f'p{n:03d}'] *)
Definition pass_id (n : Z) : string :=
  "p" +:+ (if n <? 10 then "00" else if n <? 100 then "0" else "") +:+ pretty n.

Definition tiles16 (shape : Z * Z) : Z := ((shape.1 + 15) / 16) * ((shape.2 + 15) / 16).

(** [emit] *)
Definition emit (e : emitter) (shape : Z * Z) (o : pass_op) (args : list string) (gather : option (string * string * Z))
    : res (emitter * string) :=
  let sessions := em_sessions e + tiles16 shape in
  let work := em_work e + shape.1 * shape.2 in
  let count := Z.of_nat (length (em_steps e)) in
  raise_if (MAX_PASSES <=? count) || (MAX_SESSIONS <? sessions) || (MAX_WORK <? work)
  with "array exceeds pass/session/work budget" in
  Ok (Emitter (em_steps e ++ [ArrayStep (pass_id count) shape o args gather []]) sessions work, pass_id count).

Abbreviation names_map := (gmap string string).
Definition name_of (m : names_map) (n : string) : res string := from_option_err KeyError (m !! n).

Definition node_pass (n : node) : pass_op :=
  match n with NLoad _ _ => PLoad | NOp _ o _ => POp o | NImm _ o _ imm => PImm o imm end.

(** The producer of a stage's input. *)
Definition input_args (results : names_map) (i : array_input) : res (list string) :=
  match i with inl from => let* r := name_of results from in Ok [r] | inr _ => Ok [] end.

Definition stage_view (s : array_stage) (view : string) : res gview :=
  from_option_err KeyError (snd <$> List.find (fun kv => String.eqb kv.1 view) (ar_views s)).

(** Both versions of the compiler turn a stage into passes in the same way; they
    differ in [emit]. *)
Section passes.
Context {E : Type} (emit : E -> Z * Z -> pass_op -> list string -> option (string * string * Z) -> res (E * string)).

(** One node of the map at fold index [index]. *)
Definition emit_node (results : names_map) (sname : string) (s : array_stage) (index : Z) (st : E * names_map) (n : node)
    : res (E * names_map) :=
  let '(e, refs) := st in
  let* ' (e, ref) :=
    match n with
    | NLoad _ view =>
        let* v := stage_view s view in
        let* item := py_index (ar_inputs s) (gv_input v) in
        let* args := input_args results item in
        emit e (ar_shape s) PLoad args (Some (sname, view, index))
    | n => let* args := traverse (name_of refs) (node_args n) in emit e (ar_shape s) (node_pass n) args None
    end in
  Ok (e, <[node_id n := ref]> refs).

Definition fold_pass (f : fold) : pass_op := match f with FSum => POp Add | FMax => POp Max end.

(** One fold index: the map, then the accumulation. *)
Definition emit_index (results : names_map) (sname : string) (s : array_stage) (st : E * option string) (index : Z)
    : res (E * option string) :=
  let '(e, accumulator) := st in
  let* ' (e, refs) := foldM (emit_node results sname s index) (e, ∅) (ar_nodes s) in
  let* term := name_of refs (ar_result s) in
  match accumulator with
  | None => Ok (e, Some term)
  | Some a => let* ' (e, r) := emit e (ar_shape s) (fold_pass (ar_fold s)) [a; term] None in Ok (e, Some r)
  end.

(** One node of the post map. *)
Definition emit_post (shape : Z * Z) (accumulator : string) (st : E * names_map) (n : node) : res (E * names_map) :=
  let '(e, refs) := st in
  let* args := match n with NLoad _ _ => Ok [accumulator] | n => traverse (name_of refs) (node_args n) end in
  let* ' (e, ref) := emit e shape (node_pass n) args None in
  Ok (e, <[node_id n := ref]> refs).

(** The passes of a stage and the name of its last one. *)
Definition scalar_stage (results : names_map) (sname : string) (s : array_stage) (e : E) : res (E * string) :=
  let* ' (e, accumulator) := foldM (emit_index results sname s) (e, None) (zseq (ar_extent s)) in
  let* accumulator := from_option_err TypeError accumulator in
  match ar_post s with
  | None => Ok (e, accumulator)
  | Some (nodes, result) =>
      let* ' (e, refs) := foldM (emit_post (ar_shape s) accumulator) (e, ∅) nodes in
      let* r := name_of refs result in Ok (e, r)
  end.
End passes.

(** One iteration of [for name in order]. *)
Definition emit_stage (stages : list (string * array_stage)) (st : emitter * names_map) (sname : string) : res (emitter * names_map) :=
  let '(e, results) := st in
  let* s := from_option_err KeyError (find_stage stages sname) in
  let* ' (e, accumulator) := scalar_stage emit results sname s e in
  Ok (e, <[sname := accumulator]> results).

(** ** Binding *)

Abbreviation planes := (gmap string grid).
Definition plane_of (p : planes) (n : string) : res grid := from_option_err KeyError (p !! n).

Definition pass_node (o : pass_op) (args : list string) : list node :=
  match o with PLoad => [] | POp o => [NOp "out" o args] | PImm o imm => [NImm "out" o (at_ "" args 0) imm] end.

(** The grid source of a pass over its operands. *)
Definition bind_doc (shape : Z * Z) (o : pass_op) (operands : list grid) : pyval :=
  let ids := zseq (Z.of_nat (length operands)) in
  let args := map (fun i => "a" +:+ pretty i) ids in
  VDict [("schema", VStr "raveil.mf01-grid/v5");
    ("inputs", VList (map (fun g => grid_doc (gr_rows g) (gr_columns g) (gr_words g)) operands));
    ("shape", words_val [shape.1; shape.2]); ("tile", words_val [16; 16]); ("boundary", VStr "zero");
    ("kernel", VDict [("extent", VInt 1); ("fold", VStr "sum");
       ("views", VDict (map (fun i => ("v" +:+ pretty i, view_doc i (0, 0) (0, 0) (1, 0) (0, 1))) ids));
       ("nodes", VList (map node_val (map (fun i => NLoad ("a" +:+ pretty i) ("v" +:+ pretty i)) ids ++ pass_node o args)));
       ("result", VStr (match o with PLoad => "a0" | _ => "out" end))])].

(** The words a gathering load packs. *)
Definition gather_words (s : array_stage) (v : gview) (k : Z) (operand : grid) (shape : Z * Z) : res (list Z) :=
  traverse (fun rc : Z * Z => sample operand (view_at v rc.1 rc.2 k).1 (view_at v rc.1 rc.2 k).2 (ar_boundary s))
    (coordinates shape.1 shape.2).

(** The operands of a pass. *)
Definition operands_of (stages : list (string * array_stage)) (step : array_step) (p : planes) : res (list grid) :=
  match st_gather step with
  | Some (sname, view, k) =>
      let* s := from_option_err StopIteration (find_stage stages sname) in
      let* v := stage_view s view in
      let* item := py_index (ar_inputs s) (gv_input v) in
      let* operand := match item with
                      | inl _ => let* a := py_index (st_args step) 0 in plane_of p a
                      | inr g => Ok g
                      end in
      let* words := gather_words s v k operand (st_shape step) in
      Ok [Grid (st_shape step).1 (st_shape step).2 words]
  | None => traverse (plane_of p) (st_args step)
  end.

(** [bind] of a pass of a v1 plan. *)
Definition bind_pass (stages : list (string * array_stage)) (step : array_step) (p : planes) : res pyval :=
  let* operands := operands_of stages step p in
  Ok (bind_doc (st_shape step) (st_op step) operands).

(** ** Planning *)

(** [last], of the steps' names and arguments *)
Definition last_uses (steps : list (string * list string)) (outputs : list string) : gmap string Z :=
  let own := foldl (fun m ix => <[ix.2.1 := ix.1]> m) ∅ (enumerate steps) in
  let used := foldl (fun m ix => foldl (fun m ref => <[ref := ix.1]> m) m ix.2.2) own (enumerate steps) in
  foldl (fun m o => <[o := Z.of_nat (length steps)]> m) used outputs.

(** [sorted(n for n in sizes if last[n] == i)] *)
Definition releases (last : gmap string Z) (i : Z) (names : list string) : res (list string) :=
  let* dead := traverse (fun n => let* l := from_option_err KeyError (last !! n) in Ok (n, l =? i)) names in
  Ok (sort_names (map fst (List.filter snd dead))).

Record planner := Planner { pn_planes : planes; pn_sizes : list (string * Z); pn_peak : Z; pn_steps : list array_step }.

Definition with_release (s : array_step) (release : list string) : array_step :=
  ArrayStep (st_id s) (st_shape s) (st_op s) (st_args s) (st_gather s) release.

(** [for n in release: del planes[n]] *)
Definition drop_planes (p : planes) (release : list string) : res planes :=
  foldM (fun p n => let* _ := plane_of p n in Ok (delete n p)) p release.

Definition zeros (n : Z) : list Z := replicate (Z.to_nat n) 0.

(** One iteration of [for i, s in enumerate(steps)]. *)
Definition plan_step (stages : list (string * array_stage)) (literals : Z) (last : gmap string Z) (st : planner) (ix : Z * array_step)
    : res planner :=
  let '(i, s) := ix in
  let size := (st_shape s).1 * (st_shape s).2 in
  let packing := (match st_gather s with Some _ => 1 | None => Z.of_nat (length (st_args s)) end) * size in
  let peak := Z.max (pn_peak st) (literals + foldr Z.add 0 (map snd (pn_sizes st)) + packing + size) in
  raise_if MAX_PLANES <? peak with "array exceeds logical plane-word budget" in
  let* source := bind_pass stages s (pn_planes st) in
  let* _ := compile_grid source in
  let planes := <[st_id s := Grid (st_shape s).1 (st_shape s).2 (zeros size)]> (pn_planes st) in
  let sizes := pn_sizes st ++ [(st_id s, size)] in
  let* release := releases last i (map fst sizes) in
  let* planes := drop_planes planes release in
  Ok (Planner planes (List.filter (fun nz => negb (bool_decide (nz.1 ∈ release))) sizes) peak (pn_steps st ++ [with_release s release])).

(** The result of [compile]. *)
Record array_plan := ArrayPlan {
  ap_order : list string; ap_source_nodes : Z; ap_passes : list array_step; ap_outputs : list (string * string);
  ap_sessions : Z; ap_work_words : Z; ap_peak : Z;
}.

(** [compile] of an admitted v1 program. *)
Definition compile_program (p : program) : res array_plan :=
  let* ' (e, results) := foldM (emit_stage (pr_stages p)) (Emitter [] 0 0, ∅) (pr_order p) in
  let* outputs := traverse (fun n => let* r := name_of results n in Ok (n, r)) (pr_outputs p) in
  let last := last_uses (map (fun s => (st_id s, st_args s)) (em_steps e)) (map snd outputs) in
  let* st := foldM (plan_step (pr_stages p) (pr_literals p) last) (Planner ∅ [] (pr_literals p) []) (enumerate (em_steps e)) in
  Ok (ArrayPlan (pr_order p) (pr_total p) (pn_steps st) outputs (em_sessions e) (em_work e) (pn_peak st)).

(** [compile] of a v1 source. *)
Definition compile_array (value : pyval) : res array_plan := let* p := structure value in compile_program p.

(** [commit] *)
Definition commit_plane (p : planes) (step : array_step) (output : grid) : res planes :=
  drop_planes (<[st_id step := output]> p) (st_release step).

(** [publish] *)
Definition publish (plan : array_plan) (p : planes) : res (list (string * grid)) :=
  traverse (fun o : string * string => let* g := plane_of p o.2 in Ok (o.1, g)) (ap_outputs plan).

(** ** The reference interpreter *)

(** [sample] of [reference]: its closure resolves the boundary as
    [grid_kernel.sample] does. *)
Definition array_load (s : array_stage) (inputs : list grid) (row column k : Z) (view : string) : res Z :=
  let* v := stage_view s view in
  let* data := py_index inputs (gv_input v) in
  sample data (view_at v row column k).1 (view_at v row column k).2 (ar_boundary s).

(** One cell of a stage. *)
Definition array_cell (s : array_stage) (inputs : list grid) (rc : Z * Z) : res Z :=
  let* acc := foldM (fun acc k =>
      let* term := eval_nodes (array_load s inputs rc.1 rc.2 k) (ar_nodes s) (ar_result s) in
      Ok (fold_step (ar_fold s) acc term)) 0 (zseq (ar_extent s)) in
  match ar_post s with
  | None => Ok acc
  | Some (nodes, result) => eval_nodes (fun _ => Ok acc) nodes result
  end.

(** One iteration of [for name in order]. *)
Definition reference_stage (stages : list (string * array_stage)) (outputs : planes) (sname : string) : res planes :=
  let* s := from_option_err KeyError (find_stage stages sname) in
  let* inputs := traverse (fun i : array_input => match i with inl from => plane_of outputs from | inr g => Ok g end) (ar_inputs s) in
  let* words := traverse (array_cell s inputs) (coordinates (ar_shape s).1 (ar_shape s).2) in
  Ok (<[sname := Grid (ar_shape s).1 (ar_shape s).2 words]> outputs).

Definition reference_program (p : program) : res (list (string * grid)) :=
  let* outputs := foldM (reference_stage (pr_stages p)) ∅ (pr_order p) in
  traverse (fun n => let* g := plane_of outputs n in Ok (n, g)) (pr_outputs p).

(** [reference] *)
Definition array_reference (value : pyval) : res (list (string * grid)) := let* p := structure value in reference_program p.

(** ** Running a plan ([raveil/project_array.py] and [raveil/project_mf01_grid.py]) *)

(** A bound source: the compiled grid is run, assembled, and compared with its oracle. *)
Definition run_bound (source : pyval) : res grid :=
  let* compiled := compile_grid source in
  let* words := run_grid compiled in
  let* expected := grid_reference source in
  raise_if negb (bool_decide (words = expected)) with "full-grid oracle mismatch" in
  Ok (Grid (cg_rows compiled) (cg_columns compiled) words).

(** A pass. *)
Definition run_pass (stages : list (string * array_stage)) (p : planes) (step : array_step) : res planes :=
  let* source := bind_pass stages step p in
  let* output := run_bound source in
  commit_plane p step output.

(** All passes, then publication against the whole-array oracle. *)
Definition run_program (p : program) (plan : array_plan) : res (list (string * grid)) :=
  let* planes := foldM (run_pass (pr_stages p)) ∅ (ap_passes plan) in
  let* outputs := publish plan planes in
  let* expected := reference_program p in
  raise_if negb (bool_decide (outputs = expected)) with "whole-array oracle mismatch" in
  Ok outputs.

Definition run_array (value : pyval) : res (list (string * grid)) :=
  let* p := structure value in let* plan := compile_program p in run_program p plan.

(** ** A concrete program: a clamped neighbourhood sum, then a signed maximum with its input *)

Definition array_example : pyval :=
  VDict [("schema", VStr ARRAY_SCHEMA); ("outputs", VList [VStr "b"; VStr "a"]);
    ("stages", VList [
      VDict [("name", VStr "b"); ("source", VDict [
        ("inputs", VList [VDict [("from", VStr "a")]; grid_doc 2 2 [5; 0; 0xfffffffe; 7]]); ("shape", words_val [2; 2]); ("boundary", VStr "zero");
        ("kernel", VDict [("extent", VInt 1); ("fold", VStr "sum");
          ("views", VDict [("x", view_doc 0 (0, 0) (0, 0) (1, 0) (0, 1)); ("y", view_doc 1 (0, 1) (0, 0) (1, 0) (0, 1))]);
          ("nodes", VList (map node_val [NLoad "p" "x"; NLoad "q" "y"; NOp "m" MaxI32 ["p"; "q"]])); ("result", VStr "m")])])];
      VDict [("name", VStr "a"); ("source", VDict [
        ("inputs", VList [grid_doc 2 3 [1; 2; 3; 4; 5; 6]]); ("shape", words_val [2; 2]); ("boundary", VStr "clamp");
        ("kernel", VDict [("extent", VInt 2); ("fold", VStr "sum");
          ("views", VDict [("x", view_doc 0 (0, 0) (0, 1) (1, 0) (0, 1))]);
          ("nodes", VList (map node_val [NLoad "p" "x"; NImm "s" AddImm "p" 10])); ("result", VStr "s")]);
        ("post", VDict [("nodes", VList (map node_val [NLoad "r" "reduced"; NOp "z" ReluI32 ["r"]])); ("result", VStr "z")])])]])].

Example array_example_order : (let* p := structure array_example in Ok (pr_order p, pr_total p, pr_literals p)) = Ok (["a"; "b"], 7, 10).
Proof. vm_compute. reflexivity. Qed.
Example array_example_reference : array_reference array_example = Ok [("b", Grid 2 2 [23; 25; 29; 31]); ("a", Grid 2 2 [23; 25; 29; 31])].
Proof. vm_compute. reflexivity. Qed.
Example array_example_runs : (let* a := run_array array_example in let* b := array_reference array_example in Ok (bool_decide (a = b))) = Ok true.
Proof. vm_compute. reflexivity. Qed.
