(* ===== verification/ArrayPass.v ===== *)
(** * A pass of an array plan

    The grid source that [bind] builds for a pass is admitted with exactly its
    operands, and both its tiled run and its reference give the pass's operation
    on the words of the operands, cell by cell. *)

From S2P Require Import Prelude PyValue Json MapSyntax AffineFold AffineFoldFacts Numeric NumericFacts.
From S2P Require Import Grid GridFacts GridRun GridWords Array.

(** ** Nodes that were written out are read back *)

Lemma traverse_source_arg seen args args' : traverse (source_arg seen) (map VStr args) = Ok args' -> args' = args.
Proof.
  revert args'. induction args as [|a args IH]; intros args' H; [cbn in H; by apply Ok_inj in H as <-|].
  cbn [map traverse] in H. res_peel H. apply Ok_inj in H as <-. f_equal; [|by apply IH].
  unfold source_arg in *. res_inv. done.
Qed.

Lemma check_node_val seen n n' : check_node seen (node_val n) = Ok n' -> n' = n.
Proof.
  intros H. destruct n as [i v|i o args|i o a imm]; unfold check_node, node_val in H.
  - cbn in H. res_inv. done.
  - destruct o; cbn in H; res_inv; match goal with H : traverse _ _ = Ok _ |- _ => by apply traverse_source_arg in H as -> end.
  - destruct o; cbn in H; res_inv; by match goal with H : [_] !! 0%nat = Some _ |- _ => injection H as -> end.
Qed.

Lemma source_nodes_val ns src : source_nodes (VList (map node_val ns)) = Ok src -> src = ns.
Proof.
  unfold source_nodes, check_nodes. enough (Hgen : forall st st', foldM (fun (st : list node) value =>
      let* n := check_node (map node_id st) value in Ok (st ++ [n])) st (map node_val ns) = Ok st' -> st' = st ++ ns).
  { intros H. by apply Hgen in H. }
  induction ns as [|n ns IH]; intros st st' H; cbn [map foldM] in H; [injection H as <-; by rewrite app_nil_r|].
  destruct (check_node _ _) as [n'|] eqn:Hn; [|discriminate H]. cbn [bind] in H. apply check_node_val in Hn as ->.
  apply IH in H as ->. by rewrite <- app_assoc.
Qed.

(** ** The source of a pass *)

Definition pass_arity (o : pass_op) : nat := match o with POp o => op_arity o | _ => 1 end.

Definition id_view (i : Z) : gview := GView i (0, 0) (0, 0) (1, 0) (0, 1).
Definition pass_ids (n : nat) : list Z := zseq (Z.of_nat n).
Definition pass_map (o : pass_op) (n : nat) : list node :=
  map (fun i => NLoad ("a" +:+ pretty i) ("v" +:+ pretty i)) (pass_ids n) ++ pass_node o (map (fun i => "a" +:+ pretty i) (pass_ids n)).
Definition pass_result (o : pass_op) : string := match o with PLoad => "a0" | _ => "out" end.
Definition pass_source (shape : Z * Z) (o : pass_op) (operands : list grid) : gsource :=
  GSource 5 operands shape (16, 16) BZero 1 FSum (map (fun i => ("v" +:+ pretty i, id_view i)) (pass_ids (length operands)))
    (VList (map node_val (pass_map o (length operands)))) (VStr (pass_result o)) None.

Lemma traverse_read_grids operands :
  Forall grid_ok operands -> traverse read_grid (map (fun g => grid_doc (gr_rows g) (gr_columns g) (gr_words g)) operands) = Ok operands.
Proof.
  induction 1 as [|g l Hg _ IH]; [done|]. cbn [map traverse]. unfold read_grid at 1. rewrite (read_grid_doc g Hg). cbn [bind]. by rewrite IH.
Qed.

Lemma tiles_small r c : 1 <= r <= 64 -> 1 <= c <= 64 -> (16 <? ceil_div r 16 * ceil_div c 16) = false.
Proof.
  intros Hr Hc. apply Z.ltb_ge. unfold ceil_div.
  assert ((r + 16 - 1) / 16 < 5) by (apply Z.div_lt_upper_bound; lia). assert ((c + 16 - 1) / 16 < 5) by (apply Z.div_lt_upper_bound; lia).
  assert (0 <= (r + 16 - 1) / 16) by (apply Z.div_pos; lia).
  revert H H0 H1. generalize ((r + 16 - 1) / 16) ((c + 16 - 1) / 16). intros. nia.
Qed.

Lemma bind_doc_source shape o operands :
  Forall grid_ok operands -> (length operands = 1 \/ length operands = 2)%nat -> 1 <= shape.1 <= 64 -> 1 <= shape.2 <= 64 ->
  source (bind_doc shape o operands) = Ok (pass_source shape o operands).
Proof.
  intros Hg Hlen Hr Hc. unfold source, bind_doc. change (source_schema _) with (Some 5). cbn zeta. cbn iota.
  change (negb (keys_are _ _)) with false. cbn iota. unfold dsub. cbn [dget String.eqb Ascii.eqb Bool.eqb].
  change (negb (5 =? 1)) with true. change (if _ || _ then _ else _) with (@Ok (option (pyval * pyval)) None). cbn [from_option_err bind].
  rewrite length_map, bool_decide_true by lia. cbn [negb]. fold read_grid.
  change (traverse (fun g => let* raw := encoded g in read_input raw)) with (traverse read_grid).
  rewrite traverse_read_grids by done. cbn [bind negb andb]. unfold words_val. cbn [map integer_pair]. unfold integer, int_in.
  rewrite !bool_decide_true by lia. cbn [from_option_err bind fst snd]. rewrite tiles_small by done.
  change (boundary_of (VStr "zero")) with (@Ok boundary BZero). cbn [bind].
  unfold pass_source, pass_map, pass_result, pass_ids. destruct shape as [rows columns]. cbn [fst snd].
  generalize (VList (map node_val (map (fun i => NLoad ("a" +:+ pretty i) ("v" +:+ pretty i)) (zseq (Z.of_nat (length operands))) ++
    pass_node o (map (fun i => "a" +:+ pretty i) (zseq (Z.of_nat (length operands))))))).
  intros nodes. generalize (VStr (match o with PLoad => "a0" | _ => "out" end)). intros result.
  destruct Hlen as [-> | ->]; reflexivity.
Qed.

(** ** The value of a pass *)

(** The operation of a pass on the words of its operands at a cell. *)
Definition pass_word (o : pass_op) (args : list Z) : res Z :=
  match o with
  | PLoad => py_index args 0
  | POp o => let* w := alu o args in Ok (u32 w)
  | PImm o imm => let* a := py_index args 0 in Ok (u32 (alu_imm o a imm))
  end.
Definition cell_words (operands : list grid) (rc : Z * Z) : res (list Z) :=
  traverse (fun g => py_index (gr_words g) (rc.1 * gr_columns g + rc.2)) operands.
Definition pass_cells (shape : Z * Z) (o : pass_op) (operands : list grid) : res (list Z) :=
  traverse (fun rc => let* args := cell_words operands rc in pass_word o args) (coordinates shape.1 shape.2).

Definition dims (shape : Z * Z) (g : grid) : Prop := gr_rows g = shape.1 /\ gr_columns g = shape.2.

Lemma pass_load shape o operands i g rc k :
  operands !! Z.to_nat i = Some g -> 0 <= i < Z.of_nat (length operands) -> (length operands = 1 \/ length operands = 2)%nat -> grid_ok g -> dims shape g ->
  0 <= rc.1 < shape.1 -> 0 <= rc.2 < shape.2 ->
  grid_load (pass_source shape o operands) rc.1 rc.2 k ("v" +:+ pretty i) = py_index (gr_words g) (rc.1 * gr_columns g + rc.2).
Proof.
  intros Hi Hb Hlen Hg [Hd1 Hd2] Hr Hc. unfold grid_load. cbn [pass_source gs_views gs_grids gs_boundary].
  assert (Hf : snd <$> List.find (fun kv : string * gview => String.eqb kv.1 ("v" +:+ pretty i)) (map (fun i => ("v" +:+ pretty i, id_view i)) (pass_ids (length operands))) = Some (id_view i)).
  { unfold pass_ids. destruct Hlen as [Hl|Hl]; rewrite Hl in Hb |- *.
    - assert (i = 0) as -> by lia. reflexivity.
    - assert (i = 0 \/ i = 1) as [-> | ->] by lia; reflexivity. }
  rewrite Hf. cbn [from_option_err bind gv_input id_view]. unfold py_index at 1. rewrite bool_decide_true by done. rewrite Hi. cbn [bind from_option_err].
  unfold view_at, along, oracle_sample. cbn [id_view gv_offset gv_row gv_column gv_step fst snd].
  rewrite (bool_decide_true (BZero = BZero)) by done. rewrite !bool_decide_true by lia. cbn [andb negb]. f_equal. lia.
Qed.

Lemma env_get_eq (e : env) x v : env_get (<[x := v]> e) x = Ok v.
Proof. unfold env_get. by rewrite lookup_insert_eq. Qed.
Lemma env_get_ne (e : env) x y v : x <> y -> env_get (<[x := v]> e) y = env_get e y.
Proof. intros H. unfold env_get. by rewrite lookup_insert_ne. Qed.

Lemma eval_cons load e n ns :
  foldM (eval_node load) e (n :: ns) = let* w := eval_word load e n in foldM (eval_node load) (<[node_id n := u32 w]> e) ns.
Proof. cbn [foldM]. unfold eval_node at 1. by destruct (eval_word load e n). Qed.

Lemma pass_cell shape o operands rc :
  Forall grid_ok operands -> Forall (dims shape) operands -> length operands = pass_arity o -> 
  0 <= rc.1 < shape.1 -> 0 <= rc.2 < shape.2 ->
  grid_cell (pass_source shape o operands) (pass_map o (length operands)) (pass_result o) None rc =
  let* args := cell_words operands rc in pass_word o args.
Proof.
  intros Hg Hd Ho Hr Hc. unfold grid_cell. cbn [pass_source gs_extent gs_fold]. change (zseq 1) with [0]. cbn [foldM].
  assert (Hcell : forall g, g ∈ operands -> exists w, py_index (gr_words g) (rc.1 * gr_columns g + rc.2) = Ok w /\ is_word w).
  { intros g Hin. rewrite Forall_forall in Hg, Hd. destruct (Hg g Hin) as [_ _ Hl Hw]. destruct (Hd g Hin) as [H1 H2].
    apply py_index_word_ok; [done|]. rewrite Hl, H1, H2. nia. }
  destruct operands as [|g0 [|g1 [|]]]; try (destruct o as [|[]|]; discriminate Ho).
  - destruct (Hcell g0) as (w & Hw & Hword); [left|]. apply Forall_cons in Hg as [Hg0 _]. apply Forall_cons in Hd as [Hd0 _].
    pose proof (pass_load shape o [g0] 0 g0 rc 0 eq_refl ltac:(cbn; lia) ltac:(auto) Hg0 Hd0 Hr Hc) as Hl. change ("v" +:+ pretty 0) with "v0" in Hl.
    unfold cell_words. cbn [traverse]. rewrite Hw in Hl |- *. cbn [bind].
    assert (Hu : u32 (u32 w) = w) by (rewrite u32_idemp; by apply u32_id).
    destruct o as [|[]|o imm]; try discriminate Ho; cbn [pass_result pass_word].
    + change (pass_map PLoad (length [g0])) with [NLoad "a0" "v0"]. unfold eval_nodes. rewrite eval_cons. cbn [eval_word node_id]. rewrite Hl. cbn [bind foldM].
      rewrite env_get_eq. cbn [bind fold_step]. rewrite Z.add_0_l, Hu. done.
    + change (pass_map (POp ReluI32) (length [g0])) with [NLoad "a0" "v0"; NOp "out" ReluI32 ["a0"]]. unfold eval_nodes. rewrite !eval_cons.
      cbn [eval_word node_id]. rewrite Hl. cbn [bind]. rewrite eval_cons. cbn [eval_word node_id traverse]. rewrite env_get_eq. cbn [bind].
      rewrite u32_id by done. destruct (alu ReluI32 [w]) as [x|]; [|done]. cbn [bind foldM]. rewrite env_get_eq. cbn [bind fold_step]. by rewrite Z.add_0_l, u32_idemp.
    + change (pass_map (PImm o imm) (length [g0])) with [NLoad "a0" "v0"; NImm "out" o "a0" imm]. unfold eval_nodes. rewrite eval_cons.
      cbn [eval_word node_id]. rewrite Hl. cbn [bind]. rewrite eval_cons. cbn [eval_word node_id]. rewrite env_get_eq. cbn [bind foldM].
      rewrite (u32_id w) by done. rewrite env_get_eq. cbn [bind fold_step]. rewrite Z.add_0_l, u32_idemp. done.
  - destruct (Hcell g0) as (w & Hw & Hword); [left|]. destruct (Hcell g1) as (w' & Hw' & Hword'); [right; left|].
    apply Forall_cons in Hg as [Hg0 [Hg1 _]%Forall_cons]. apply Forall_cons in Hd as [Hd0 [Hd1 _]%Forall_cons].
    pose proof (pass_load shape o [g0; g1] 0 g0 rc 0 eq_refl ltac:(cbn; lia) ltac:(auto) Hg0 Hd0 Hr Hc) as Hl. change ("v" +:+ pretty 0) with "v0" in Hl.
    pose proof (pass_load shape o [g0; g1] 1 g1 rc 0 eq_refl ltac:(cbn; lia) ltac:(auto) Hg1 Hd1 Hr Hc) as Hl'. change ("v" +:+ pretty 1) with "v1" in Hl'.
    unfold cell_words. cbn [traverse]. rewrite Hw in Hl |- *. rewrite Hw' in Hl' |- *. cbn [bind].
    destruct o as [|o|]; try discriminate Ho. cbn [pass_result pass_word].
    change (pass_map (POp o) (length [g0; g1])) with [NLoad "a0" "v0"; NLoad "a1" "v1"; NOp "out" o ["a0"; "a1"]]. unfold eval_nodes. rewrite eval_cons.
    cbn [eval_word node_id]. rewrite Hl. cbn [bind]. rewrite eval_cons. cbn [eval_word node_id]. rewrite Hl'. cbn [bind]. rewrite eval_cons.
    cbn [eval_word node_id traverse]. rewrite env_get_ne, env_get_eq by done. cbn [bind]. rewrite env_get_eq. cbn [bind foldM].
    rewrite (u32_id w), (u32_id w') by done. destruct (alu o [w; w']) as [x|]; [|done]. cbn [bind]. rewrite env_get_eq. cbn [bind fold_step]. by rewrite Z.add_0_l, u32_idemp.
Qed.

Lemma bind_doc_run shape o operands c :
  Forall grid_ok operands -> Forall (dims shape) operands -> length operands = pass_arity o -> 1 <= shape.1 <= 64 -> 1 <= shape.2 <= 64 ->
  compile_grid (bind_doc shape o operands) = Ok c ->
  exists words, pass_cells shape o operands = Ok words /\ grid_reference (bind_doc shape o operands) = Ok words /\ run_grid c = Ok words /\
    cg_rows c = shape.1 /\ cg_columns c = shape.2.
Proof.
  intros Hg Hd Ho Hr Hc Hcomp. assert (Hlen : (length operands = 1 \/ length operands = 2)%nat).
  { rewrite Ho. destruct o as [|[]|]; cbn; auto. }
  pose proof (bind_doc_source shape o operands Hg Hlen Hr Hc) as Hsrc.
  destruct (grid_run_agree _ _ Hcomp) as (words & Href & Hrun). exists words.
  unfold compile_grid in Hcomp. rewrite Hsrc in Hcomp. cbn [bind] in Hcomp.
  destruct (compile_source_tiles _ c (source_Ok _ _ Hsrc) Hcomp) as (Hrows & Hcols & _). split_and!; try done.
  unfold grid_reference in Href. rewrite Hsrc in Href. cbn [bind] in Href. rewrite Hcomp in Href. cbn [bind] in Href.
  unfold reference_source in Href. cbn [pass_source gs_version gs_nodes gs_result gs_post gs_shape gs_views] in Href.
  destruct (typed_nodes _ _ _) as [src|] eqn:Ht; [|discriminate Href]. cbn [bind result_name] in Href.
  change (typed_nodes 5) with (fun (views : list string) => source_nodes) in Ht. apply source_nodes_val in Ht as ->.
  unfold pass_cells. rewrite <- Href. apply traverse_ext. intros [r k] [Hrr Hkk]%elem_of_coordinates. symmetry.
  by apply pass_cell.
Qed.

(** Admission of a pass does not look at the words of its operands. *)
Lemma bind_doc_words shape o operands operands' c :
  Forall grid_ok operands -> Forall grid_ok operands' -> Forall2 same_dims operands operands' ->
  compile_grid (bind_doc shape o operands) = Ok c -> exists c', compile_grid (bind_doc shape o operands') = Ok c'.
Proof.
  intros Hg Hg' Hd H. pose proof (Forall2_length _ _ _ Hd) as Hl.
  edestruct (compile_replaced (match bind_doc shape o operands with VDict d => d | _ => [] end) (match bind_doc shape o operands' with VDict d => d | _ => [] end)
    (map (fun g => grid_doc (gr_rows g) (gr_columns g) (gr_words g)) operands)
    (map (fun g => grid_doc (gr_rows g) (gr_columns g) (gr_words g)) operands') c) as (c' & Hc' & _); [| |exact H|].
  - split_and!; [done|unfold bind_doc; done|intros k Hk|intros l].
    + unfold bind_doc. rewrite <- Hl. cbn [dget]. destruct (String.eqb_spec k "schema"); [done|]. destruct (String.eqb_spec k "inputs"); [done|]. done.
    + unfold bind_doc. unfold keys_are. done.
  - rewrite Forall2_fmap_l, Forall2_fmap_r. clear -Hg Hg' Hd. induction Hd as [|g g' l l' Hd _ IH]; [constructor|].
    apply Forall_cons in Hg as [Hg Hgs]. apply Forall_cons in Hg' as [Hg' Hgs']. constructor; [|by apply IH].
    intros g0 H0. unfold read_grid in H0. rewrite read_grid_doc in H0 by done. apply Ok_inj in H0 as <-.
    exists g'. split; [|done]. unfold read_grid. by apply read_grid_doc.
  - exists c'. exact Hc'.
Qed.
