(* ===== verification/ArrayFacts.v ===== *)
(** * What admission of an array program establishes

    [structure_ok]: stages have distinct names and typed, well-scoped maps, and
    the order lists every stage after the stages it reads. The reference
    interpreter is total on admitted programs. *)

From S2P Require Import Prelude PyValue Json MapSyntax AffineFold AffineFoldFacts Project Numeric NumericFacts.
From S2P Require Import Grid GridFacts GridRun GridWords Array ArrayPass.

Definition input_ok (i : array_input) : Prop := match i with inl _ => True | inr g => grid_ok g end.

Record stage_ok (s : array_stage) : Prop := {
  sk_inputs : Forall input_ok (ar_inputs s);
  sk_shape : 1 <= (ar_shape s).1 <= 64 /\ 1 <= (ar_shape s).2 <= 64;
  sk_extent : 1 <= ar_extent s <= 64;
  sk_views : Forall (fun kv => gview_ok (Z.of_nat (length (ar_inputs s))) kv.2) (ar_views s);
  sk_nodes : well_scoped (fun v => v ∈ map fst (ar_views s)) [] (ar_nodes s);
  sk_result : ar_result s ∈ map node_id (ar_nodes s);
  sk_post : forall n r, ar_post s = Some (n, r) -> well_scoped (fun v => v ∈ ["reduced"]) [] n /\ r ∈ map node_id n;
}.

Lemma known_name_Some names v s : known_name names v = Some s -> v = VStr s /\ s ∈ names.
Proof. destruct v; cbn; try done. case_bool_decide; [|done]. by intros [= ->]. Qed.

Lemma mapM_known names l out : mapM (known_name names) l = Some out -> forall a, a ∈ out -> a ∈ names.
Proof.
  intros H%mapM_Some. induction H as [|v s l out Hv _ IH]; intros a Ha; [by apply elem_of_nil in Ha|].
  apply known_name_Some in Hv as [_ Hs]. apply elem_of_cons in Ha as [->|Ha]; auto.
Qed.

Lemma array_node_Ok views seen v n :
  array_node views seen v = Ok n ->
  (node_id n ∉ seen) /\ (forall a, a ∈ node_args n -> a ∈ seen) /\
  match n with NLoad _ v => v ∈ views | NOp _ o args => length args = op_arity o | NImm _ _ _ imm => 0 <= imm < 2 ^ 22 end.
Proof.
  intros H. unfold array_node in H. destruct v as [| | | | | |d]; try discriminate H.
  destruct (dget "op" d) as [[| | | |o| |]|]; try discriminate H. destruct (array_op o) as [o'|]; [|discriminate H].
  destruct (negb (keys_are d _)); [discriminate H|]. destruct (dsub d "id") as [[| | | |id| |]|]; try discriminate H. cbn [bind] in H.
  destruct (long_name id || bool_decide (id ∈ seen)) eqn:Hid; [discriminate H|]. bool_prop. destruct o' as [|o'|o'].
  - destruct (dsub d "view") as [view|]; [|discriminate H]. cbn [bind] in H. destruct (known_name views view) as [v|] eqn:Hv; [|discriminate H].
    apply known_name_Some in Hv as [_ Hv]. apply Ok_inj in H as <-. split_and!; [done|by intros ? ?%elem_of_nil|done].
  - destruct (dsub d "args") as [[| | | | |args|]|]; try discriminate H. cbn [bind] in H. destruct (negb (length args =? _)%nat) eqn:Hl; [discriminate H|].
    apply negb_false_iff, Nat.eqb_eq in Hl. destruct (mapM _ args) as [args'|] eqn:Ha; [|discriminate H]. apply Ok_inj in H as <-. split_and!; [done|by eapply mapM_known|].
    apply mapM_Some in Ha. apply Forall2_length in Ha. cbn in *. congruence.
  - destruct (dsub d "args") as [[| | | | |args|]|]; try discriminate H. cbn [bind] in H. destruct (negb (length args =? _)%nat) eqn:Hl; [discriminate H|].
    destruct (mapM _ args) as [[|arg args']|] eqn:Ha; try discriminate H. destruct (dsub d "imm") as [imm|]; [|discriminate H]. cbn [bind] in H.
    destruct (integer imm _ _) as [z|] eqn:Hz; [|discriminate H]. apply Ok_inj in H as <-. apply integer_Ok in Hz. change (Z.shiftl 1 22 - 1) with 4194303 in Hz.
    change (2 ^ 22) with 4194304. split_and!; [done| |lia..].
    intros x ->%list_elem_of_singleton. eapply mapM_known; [exact Ha|left].
Qed.

Lemma array_nodes_Ok nodes result views ns r :
  array_nodes nodes result views = Ok (ns, r) -> well_scoped (fun v => v ∈ views) [] ns /\ r ∈ map node_id ns.
Proof.
  intros H. unfold array_nodes in H. destruct nodes as [| | | | |l|]; try discriminate H. destruct (negb _); [discriminate H|].
  destruct (foldM _ [] l) as [ns'|] eqn:E; [|discriminate H]. cbn [bind] in H. destruct (known_name _ result) as [r'|] eqn:Hr; [|discriminate H].
  apply Ok_inj in H. injection H as <- <-. apply known_name_Some in Hr as [_ Hr]. split; [|done].
  enough (Hgen : forall l st ns, foldM (fun (st : list node) value =>
      let* n := array_node views (map node_id st) value in Ok (st ++ [n])) st l = Ok ns ->
    exists new, ns = st ++ new /\ well_scoped (fun v => v ∈ views) (map node_id st) new).
  { by destruct (Hgen _ _ _ E) as (new & -> & ?). }
  clear. induction l as [|v l IH]; intros st ns H; cbn [foldM] in H.
  - apply Ok_inj in H as <-. exists []. by rewrite app_nil_r.
  - destruct (array_node _ _ v) as [n|] eqn:Hn; [|discriminate H]. cbn [bind] in H. destruct (IH _ _ H) as (new & -> & Hws).
    apply array_node_Ok in Hn as (H1 & H2 & H3). exists (n :: new). rewrite <- app_assoc. split; [done|].
    rewrite map_app in Hws. by cbn; split_and!.
Qed.

Lemma admit_input_ok item i : admit_input item = Ok i -> input_ok i.
Proof.
  intros H. destruct i as [n|g]; [done|]. unfold admit_input in H. cbn zeta in H. cbn.
  assert (Hlit : (let* raw := encoded item in let* g := read_input raw in Ok (inr g)) = @Ok array_input (inr g) -> grid_ok g).
  { intros Hl. res_peel Hl. apply Ok_inj in Hl. injection Hl as ->. by eapply read_input_ok. }
  destruct item as [| | | | | |d]; try by apply Hlit. destruct (is_Some_b (dget "from" d)); [|by apply Hlit].
  res_peel H. destruct a0; try discriminate H. res_peel H. by apply Ok_inj in H.
Qed.

Lemma array_view_ok inputs kv kv' : array_view inputs kv = Ok kv' -> gview_ok inputs kv'.2 /\ kv'.1 = kv.1.
Proof.
  intros H. unfold array_view in H. destruct (long_name kv.1); [discriminate H|]. cbn zeta in H. res_peel H. apply Ok_inj in H as <-. split; [|done].
  repeat match goal with
  | H : integer _ _ _ = Ok _ |- _ => apply integer_Ok in H
  | H : bind (dsub _ _) _ = Ok _ |- _ => res_peel H; apply integer_pair_Ok in H
  end. split; cbn; [lia|done..].
Qed.

Lemma array_source_ok v s : array_source v = Ok s -> stage_ok s.
Proof.
  intros H. unfold array_source in H. destruct v as [| | | | | |d]; try discriminate H. cbn zeta in H.
  destruct (fields _ _ _) as [d0|]; [|discriminate H]. cbn [bind] in H. destruct (dsub d "inputs") as [[| | | | |inputs|]|]; try discriminate H. cbn [bind] in H.
  destruct (negb (bool_decide _)); [discriminate H|]. res_peel H.
  match type of H with (match ?v with _ => _ end) = Ok _ => destruct v as [| | | | | |vs] end; try discriminate H.
  destruct (negb (bool_decide _)); [discriminate H|]. res_peel H.
  apply Ok_inj in H as <-. destruct (array_nodes_Ok _ _ _ _ _ E14) as [Hws Hres]. split; cbn; try done.
  - eapply traverse_Forall; [|exact E3]. apply admit_input_ok.
  - by apply integer_pair_Ok in E0.
  - by apply integer_Ok in E7.
  - eapply traverse_Forall; [|exact E11]. intros x y Hxy. by apply array_view_ok in Hxy as [? _].
  - intros n r ->. destruct (is_Some_b (dget "post" d)); [|discriminate E15]. res_peel E15.
    apply Ok_inj in E15. injection E15 as ->. by eapply array_nodes_Ok.
Qed.

(** ** The order of the stages *)

(** Every name of [l] is a stage whose links are among the names before it. *)
Fixpoint ordered (stages : list (string * array_stage)) (seen l : list string) : Prop :=
  match l with
  | [] => True
  | n :: l => (n ∉ seen) /\ (exists s, find_stage stages n = Some s /\ forall d, d ∈ stage_deps s -> d ∈ seen) /\ ordered stages (seen ++ [n]) l
  end.

Lemma elem_of_insert_key {A} (x y : string * A) l : y ∈ insert_key x l <-> y = x \/ y ∈ l.
Proof.
  induction l as [|z l IH]; cbn.
  - rewrite list_elem_of_singleton, elem_of_nil. tauto.
  - destruct (String.leb x.1 z.1); rewrite !elem_of_cons; [tauto|]. rewrite IH. tauto.
Qed.
Lemma elem_of_sort_keys {A} (y : string * A) d : y ∈ sort_keys d <-> y ∈ d.
Proof.
  unfold sort_keys. induction d as [|x d IH]; [done|]. cbn [foldr]. by rewrite elem_of_insert_key, IH, elem_of_cons.
Qed.
Lemma elem_of_sort_names n l : n ∈ sort_names l <-> n ∈ l.
Proof.
  unfold sort_names. rewrite list_elem_of_fmap. setoid_rewrite elem_of_sort_keys. setoid_rewrite list_elem_of_fmap. split.
  - by intros ([m u] & -> & (k & [= -> _] & Hk)).
  - intros H. exists (n, tt). split; [done|]. by exists n.
Qed.

Lemma find_stage_Some stages n : n ∈ map fst stages -> exists s, find_stage stages n = Some s /\ (n, s) ∈ stages.
Proof.
  induction stages as [|[m s] l IH]; cbn; [by intros ?%elem_of_nil|]. unfold find_stage. cbn [List.find fst].
  destruct (String.eqb_spec m n) as [->|Hne].
  - intros _. exists s. split; [done|left].
  - intros [->|H]%elem_of_cons; [done|]. destruct (IH H) as (s' & Hs & Hin). exists s'. split; [exact Hs|by right].
Qed.

Section order.
Context (stages : list (string * array_stage)) (Hdeps : forall n s, (n, s) ∈ stages -> forall d, d ∈ stage_deps s -> d ∈ map fst stages).

Lemma stage_order_ok fuel pending order out :
  stage_order fuel (deps_of stages) pending order = Ok out -> NoDup pending ->
  (forall n, n ∈ map fst stages <-> n ∈ order \/ n ∈ pending) -> (forall n, n ∈ pending -> n ∉ order) ->
  exists l, out = order ++ l /\ ordered stages order l /\ forall n, n ∈ l <-> n ∈ pending.
Proof.
  revert pending order. induction fuel as [|fuel IH]; intros pending order H Hnd Hall Hdis.
  - destruct pending; [|discriminate H]. apply Ok_inj in H as <-. exists []. by rewrite app_nil_r.
  - destruct pending as [|p0 pending']; [apply Ok_inj in H as <-; exists []; by rewrite app_nil_r|]. set (pending := p0 :: pending') in *.
    change (match sort_names (List.filter (fun n => forallb (fun d => negb (bool_decide (d ∈ pending))) (deps_of stages n)) pending) with
      | [] => fail "cyclic array stages"
      | n :: _ => stage_order fuel (deps_of stages) (List.filter (fun m => negb (String.eqb m n)) pending) (order ++ [n]) end = Ok out) in H.
    destruct (sort_names _) as [|n rest] eqn:Hready; [discriminate H|].
    assert (Hn : n ∈ sort_names (List.filter (fun n => forallb (fun d => negb (bool_decide (d ∈ pending))) (deps_of stages n)) pending)) by (rewrite Hready; left).
    apply elem_of_sort_names, list_elem_of_In, filter_In in Hn as [Hn Hready']. apply list_elem_of_In in Hn.
    assert (Hfil : forall m, m ∈ List.filter (fun m => negb (String.eqb m n)) pending <-> m ∈ pending /\ m <> n).
    { intros m. rewrite !list_elem_of_In, filter_In, negb_true_iff, String.eqb_neq. tauto. }
    apply IH in H as (l & -> & Hord & Hl).
    + exists (n :: l). rewrite <- app_assoc. split; [done|]. split.
      * cbn. split; [by apply Hdis|]. split; [|done]. assert (Hst : n ∈ map fst stages) by (apply Hall; by right).
        destruct (find_stage_Some _ _ Hst) as (s & Hs & Hin). exists s. split; [done|]. intros d Hd.
        pose proof (Hdeps n s Hin d Hd) as Hds. apply Hall in Hds as [Hds|Hds]; [done|]. exfalso.
        unfold deps_of in Hready'. rewrite Hs in Hready'. rewrite forallb_forall in Hready'. apply list_elem_of_In in Hd.
        specialize (Hready' d Hd). rewrite bool_decide_true in Hready' by done. done.
      * intros m. rewrite elem_of_cons, Hl, Hfil. split; [by intros [->|[? _]]|]. intros Hm. destruct (decide (m = n)); [by left|by right].
    + apply NoDup_ListNoDup, List.NoDup_filter, NoDup_ListNoDup. done.
    + intros m. rewrite Hall, Hfil, elem_of_app, list_elem_of_singleton. split.
      * intros [?|?]; [by left; left|]. destruct (decide (m = n)); [left; by right|by right].
      * intros [[?| ->]|[? _]]; [by left|by right|by right].
    + intros m [Hm Hne]%Hfil. rewrite elem_of_app, list_elem_of_singleton. intros [?|?]; [by apply (Hdis m)|done].
Qed.

(** As many rounds as stages are enough. *)
Lemma stage_order_fuel fuel pending order : (length pending <= fuel)%nat -> stage_order fuel (deps_of stages) pending order <> Err OutOfFuel.
Proof.
  revert pending order. induction fuel as [|fuel IH]; intros pending order Hl.
  - destruct pending; [done|cbn in Hl; lia].
  - destruct pending as [|p0 pending']; [done|]. set (pending := p0 :: pending') in *.
    change (match sort_names (List.filter (fun n => forallb (fun d => negb (bool_decide (d ∈ pending))) (deps_of stages n)) pending) with
      | [] => fail "cyclic array stages"
      | n :: _ => stage_order fuel (deps_of stages) (List.filter (fun m => negb (String.eqb m n)) pending) (order ++ [n]) end <> Err OutOfFuel).
    destruct (sort_names _) as [|n rest] eqn:Hready; [done|]. apply IH.
    assert (Hn : n ∈ sort_names (List.filter (fun n => forallb (fun d => negb (bool_decide (d ∈ pending))) (deps_of stages n)) pending)) by (rewrite Hready; left).
    apply elem_of_sort_names, list_elem_of_In, filter_In in Hn as [Hn _].
    enough (Hlt : (length (List.filter (fun m => negb (String.eqb m n)) pending) < length pending)%nat) by lia.
    clear -Hn. induction pending as [|p l IH]; [done|]. cbn [List.filter]. destruct (String.eqb_spec p n) as [->|Hne]; cbn [negb length].
    + pose proof (filter_length_le (fun m => negb (String.eqb m n)) l). lia.
    + destruct Hn as [->|Hn]; [done|]. specialize (IH Hn). lia.
Qed.
End order.

(** ** Admitted programs *)

Record program_ok (p : program) : Prop := {
  pk_stages : forall n s, (n, s) ∈ pr_stages p -> stage_ok s;
  pk_names : NoDup (map fst (pr_stages p));
  pk_order : ordered (pr_stages p) [] (pr_order p);
  pk_all : forall n, n ∈ pr_order p <-> n ∈ map fst (pr_stages p);
  pk_outputs : forall n, n ∈ pr_outputs p -> n ∈ map fst (pr_stages p);
}.

Lemma stage_entries_ok l stages stages' :
  foldM array_stage_entry stages l = Ok stages' ->
  NoDup (map fst stages) -> (forall n s, (n, s) ∈ stages -> stage_ok s) ->
  NoDup (map fst stages') /\ (forall n s, (n, s) ∈ stages' -> stage_ok s) /\ length stages' = (length stages + length l)%nat.
Proof.
  revert stages. induction l as [|v l IH]; intros stages H Hnd Hok; cbn [foldM] in H.
  - apply Ok_inj in H as <-. split_and!; [done|done|cbn; lia].
  - destruct (array_stage_entry stages v) as [st|] eqn:E; [|discriminate H]. cbn [bind] in H. unfold array_stage_entry in E.
    res_peel E. match type of E with (match ?v with _ => _ end) = Ok _ => destruct v end; try discriminate E. res_peel E. apply Ok_inj in E as <-.
    match goal with H : array_source _ = Ok _ |- _ => apply array_source_ok in H as Hs end. bool_prop.
    apply IH in H as (H1 & H2 & H3).
    + split_and!; [done|done|]. rewrite H3, length_app. cbn. lia.
    + rewrite map_app. apply NoDup_app. split_and!; [done| |apply NoDup_singleton]. intros x Hx ->%list_elem_of_singleton. done.
    + intros n0 s0 [Hin|[= -> ->]%list_elem_of_singleton]%elem_of_app; [by eapply Hok|done].
Qed.

Lemma structure_ok value p : structure value = Ok p -> program_ok p.
Proof.
  intros H. unfold structure in H. destruct (fields value _ _) as [d|]; [|discriminate H]. cbn [bind] in H. res_peel H.
  match type of H with (match ?v with _ => _ end) = Ok _ => destruct v as [| | | | |sl|] end; try discriminate H.
  match type of H with (match ?v with _ => _ end) = Ok _ => destruct v as [| | | | |ol|] end; try discriminate H.
  destruct (_ || _); [discriminate H|]. destruct (foldM array_stage_entry [] sl) as [stages|] eqn:Hst; [|discriminate H]. cbn [bind] in H. cbn zeta in H.
  destruct (MAX_NODES <? _); [discriminate H|]. destruct (mapM _ ol) as [outs|] eqn:Ho; [|discriminate H].
  destruct (negb (bool_decide (NoDup outs))); [discriminate H|]. destruct (existsb _ stages) eqn:Hdeps; [discriminate H|].
  destruct (stage_order _ _ _ _) as [order|] eqn:Hord; [|discriminate H]. cbn [bind] in H. apply Ok_inj in H as <-.
  apply stage_entries_ok in Hst as (Hnd & Hok & _); [|constructor|by intros ? ? ?%elem_of_nil].
  assert (Hd : forall n s, (n, s) ∈ stages -> forall d, d ∈ stage_deps s -> d ∈ map fst stages).
  { intros n s Hin d' Hd'. destruct (decide (d' ∈ map fst stages)) as [|Hn]; [done|]. exfalso. apply not_true_iff_false in Hdeps. apply Hdeps.
    apply existsb_exists. exists (n, s). split; [by apply list_elem_of_In|]. apply existsb_exists. exists d'. split; [by apply list_elem_of_In|].
    by rewrite bool_decide_false. }
  destruct (stage_order_ok stages Hd _ _ _ _ Hord Hnd) as (l & -> & Hol & Hl).
  - intros n. split; [by right|]. intros [?%elem_of_nil|?]; done.
  - by intros n _ ?%elem_of_nil.
  - split; cbn; try done. intros n Hn. by eapply mapM_known.
Qed.

(** ** The reference interpreter is total *)

Lemma lookup_stage_view s n : n ∈ map fst (ar_views s) -> stage_ok s ->
  exists v, stage_view s n = Ok v /\ gview_ok (Z.of_nat (length (ar_inputs s))) v.
Proof.
  intros Hn Hs. destruct (find_view_None _ _ Hn) as [v Hv]. exists v. unfold stage_view. rewrite Hv. split; [done|].
  destruct (find_view _ _ _ Hv) as [Hin _]. pose proof (sk_views _ Hs) as Hall. rewrite Forall_forall in Hall. apply (Hall _ Hin).
Qed.

Lemma array_load_ok s inputs row column k view :
  stage_ok s -> Forall grid_ok inputs -> length inputs = length (ar_inputs s) -> view ∈ map fst (ar_views s) ->
  exists w, array_load s inputs row column k view = Ok w /\ is_word w.
Proof.
  intros Hs Hin Hl Hv. destruct (lookup_stage_view s view Hv Hs) as (v & Hv' & Hvok). unfold array_load. rewrite Hv'. cbn [bind].
  pose proof (vo_input _ _ Hvok). unfold py_index. rewrite bool_decide_true by lia.
  destruct (lookup_lt_is_Some_2 inputs (Z.to_nat (gv_input v))) as [g Hg]; [lia|]. rewrite Hg. cbn [bind from_option_err].
  rewrite Forall_lookup in Hin. destruct (sample_ok g (view_at v row column k).1 (view_at v row column k).2 (ar_boundary s) (Hin _ _ Hg)) as (w & Hw & _ & ?).
  by exists w.
Qed.

(** The value of the map at a fold index. *)
Definition array_term (s : array_stage) (inputs : list grid) (rc : Z * Z) (k : Z) : res Z :=
  eval_nodes (array_load s inputs rc.1 rc.2 k) (ar_nodes s) (ar_result s).

Lemma array_term_ok s inputs rc k :
  stage_ok s -> Forall grid_ok inputs -> length inputs = length (ar_inputs s) -> exists w, array_term s inputs rc k = Ok w /\ is_word w.
Proof.
  intros Hs Hin Hl. eapply (eval_nodes_total (fun v => v ∈ map fst (ar_views s))); [|apply (sk_nodes _ Hs)|apply (sk_result _ Hs)].
  intros v Hv. destruct (array_load_ok s inputs rc.1 rc.2 k v Hs Hin Hl Hv) as (w & ? & _). by exists w.
Qed.

Lemma array_cell_ok s inputs rc :
  stage_ok s -> Forall grid_ok inputs -> length inputs = length (ar_inputs s) -> exists w, array_cell s inputs rc = Ok w /\ is_word w.
Proof.
  intros Hs Hin Hl. unfold array_cell.
  destruct (foldM_total is_word (fun acc k => let* term := eval_nodes (array_load s inputs rc.1 rc.2 k) (ar_nodes s) (ar_result s) in
      Ok (fold_step (ar_fold s) acc term)) 0 (zseq (ar_extent s))) as (acc & -> & Hacc).
  - split; [done|]. change MASK with 4294967295. lia.
  - intros acc k _ Hacc. destruct (array_term_ok s inputs rc k Hs Hin Hl) as (w & Hw & Hword). unfold array_term in Hw. rewrite Hw. cbn [bind].
    eexists. split; [done|]. by apply fold_step_word.
  - cbn [bind]. destruct (ar_post s) as [[n r]|] eqn:Hp; [|by exists acc]. destruct (sk_post _ Hs _ _ Hp) as [Hws Hr].
    eapply eval_nodes_total; [|exact Hws|exact Hr]. intros v _. by exists acc.
Qed.

Lemma traverse_total {A B} (P : B -> Prop) (f : A -> res B) l :
  (forall x, x ∈ l -> exists y, f x = Ok y /\ P y) -> exists ys, traverse f l = Ok ys /\ Forall P ys.
Proof.
  induction l as [|x l IH]; intros H; [by exists []|]. destruct (H x) as (y & Hy & HP); [left|].
  destruct IH as (ys & Hys & HPs); [intros; apply H; by right|]. exists (y :: ys). cbn. rewrite Hy. cbn. rewrite Hys. split; [done|]. by constructor.
Qed.

Definition stage_inputs (outputs : planes) (s : array_stage) : res (list grid) :=
  traverse (fun i : array_input => match i with inl from => plane_of outputs from | inr g => Ok g end) (ar_inputs s).

Lemma stage_inputs_ok outputs s :
  stage_ok s -> (forall d, d ∈ stage_deps s -> exists g, outputs !! d = Some g /\ grid_ok g) ->
  exists inputs, stage_inputs outputs s = Ok inputs /\ Forall grid_ok inputs /\ length inputs = length (ar_inputs s).
Proof.
  intros Hs Hd. destruct (traverse_total grid_ok (fun i : array_input => match i with inl from => plane_of outputs from | inr g => Ok g end) (ar_inputs s))
    as (inputs & Hi & Hok).
  - intros [n|g] Hin.
    + destruct (Hd n) as (g & Hg & Hgok).
      { unfold stage_deps, links_of. apply list_elem_of_omap. by exists (inl n). }
      exists g. unfold plane_of. by rewrite Hg.
    + exists g. split; [done|]. pose proof (sk_inputs _ Hs) as Hall. rewrite Forall_forall in Hall. apply (Hall _ Hin).
  - exists inputs. split; [exact Hi|]. split; [done|]. by apply traverse_length in Hi.
Qed.

Lemma reference_stage_ok stages outputs n s :
  find_stage stages n = Some s -> stage_ok s -> (forall d, d ∈ stage_deps s -> exists g, outputs !! d = Some g /\ grid_ok g) ->
  exists inputs words, stage_inputs outputs s = Ok inputs /\ Forall grid_ok inputs /\ length inputs = length (ar_inputs s) /\
    traverse (array_cell s inputs) (coordinates (ar_shape s).1 (ar_shape s).2) = Ok words /\
    reference_stage stages outputs n = Ok (<[n := Grid (ar_shape s).1 (ar_shape s).2 words]> outputs) /\
    grid_ok (Grid (ar_shape s).1 (ar_shape s).2 words).
Proof.
  intros Hf Hs Hd. destruct (stage_inputs_ok outputs s Hs Hd) as (inputs & Hi & Hg & Hl).
  destruct (traverse_total is_word (array_cell s inputs) (coordinates (ar_shape s).1 (ar_shape s).2)) as (words & Hw & Hww).
  { intros rc _. by apply array_cell_ok. }
  exists inputs, words. split_and!; try done.
  - unfold reference_stage. rewrite Hf. cbn [from_option_err bind]. fold (stage_inputs outputs s). rewrite Hi. cbn [bind]. by rewrite Hw.
  - destruct (sk_shape _ Hs). split; cbn; try done. apply traverse_length in Hw. rewrite Hw, length_coordinates. nia.
Qed.
