(* ===== verification/ArrayRun.v ===== *)
(** * Running an array plan is its reference

    Every pass of a plan holds, cell by cell, the value of one map node at one
    fold index ([valued], [emit_stage_ok]); the planner's zero planes have the
    planes of the run as their support, so no pass misses an operand and no
    output is released; hence [run_array] returns the reference's outputs. *)

From S2P Require Import Prelude PyValue Json JsonFacts MapSyntax AffineFold AffineFoldFacts Project Numeric NumericFacts.
From S2P Require Import Grid GridFacts GridRun GridWords Array ArrayPass ArrayFacts.

(** ** Planes as functions of the cell *)

Definition cells (shape : Z * Z) : list (Z * Z) := coordinates shape.1 shape.2.
Definition plane (shape : Z * Z) (f : Z * Z -> Z) : grid := Grid shape.1 shape.2 (map f (cells shape)).
Definition word_on (shape : Z * Z) (f : Z * Z -> Z) : Prop := forall rc, rc ∈ cells shape -> is_word (f rc).
Definition shape_ok (shape : Z * Z) : Prop := 1 <= shape.1 <= 64 /\ 1 <= shape.2 <= 64.

Lemma plane_ok shape f : shape_ok shape -> word_on shape f -> grid_ok (plane shape f).
Proof.
  intros [Hr Hc] Hf. split; cbn; try done.
  - rewrite length_map. unfold cells. rewrite length_coordinates. nia.
  - apply Forall_map, Forall_forall. exact Hf.
Qed.

Lemma plane_word shape f rc : rc ∈ cells shape -> py_index (gr_words (plane shape f)) (rc.1 * gr_columns (plane shape f) + rc.2) = Ok (f rc).
Proof.
  destruct rc as [r c]. intros [Hr Hc]%elem_of_coordinates. cbn [plane gr_words gr_columns fst snd]. unfold py_index, cells.
  rewrite bool_decide_true by (rewrite length_map, length_coordinates; nia). by rewrite list_lookup_fmap, lookup_coordinates.
Qed.

Lemma plane_ext shape f g : (forall rc, rc ∈ cells shape -> f rc = g rc) -> plane shape f = plane shape g.
Proof. intros H. unfold plane. f_equal. apply map_ext_in. intros rc Hrc. apply H. by apply list_elem_of_In. Qed.

Lemma traverse_plane shape (h : Z * Z -> res Z) f :
  (forall rc, rc ∈ cells shape -> h rc = Ok (f rc)) -> traverse h (coordinates shape.1 shape.2) = Ok (gr_words (plane shape f)).
Proof. intros H. by apply traverse_pure. Qed.

(** A pass over planes. *)
Lemma pass_cells_planes shape o (fs : list (Z * Z -> Z)) g :
  (forall rc, rc ∈ cells shape -> pass_word o (map (fun f => f rc) fs) = Ok (g rc)) ->
  pass_cells shape o (map (plane shape) fs) = Ok (gr_words (plane shape g)).
Proof.
  intros H. apply traverse_plane. intros rc Hrc.
  assert (cell_words (map (plane shape) fs) rc = Ok (map (fun f => f rc) fs)) as ->; [|by apply H].
  unfold cell_words. rewrite traverse_map. apply traverse_pure. intros f _. by apply plane_word.
Qed.

(** ** Steps with their values *)

Lemma digits_pretty n : 0 <= n -> (span_digits 0 (pretty n)).1.1 = n.
Proof.
  intros Hn. destruct n as [|p|p]; [done| |lia]. rewrite pretty_Z_pos. replace (pretty_N_go (N.pos p) "") with (pretty_N_go (N.pos p) "" +:+ "") by apply append_nil_r.
  by rewrite parse_digits.
Qed.

Lemma digits_zero s : (span_digits 0 (String (Ascii.ascii_of_nat 48) s)).1.1 = (span_digits 0 s).1.1.
Proof. change (span_digits 0 (String (Ascii.ascii_of_nat 48) s)) with (let '(v, ds, rest) := span_digits 0 s in (v, String (Ascii.ascii_of_nat 48) ds, rest)). by destruct (span_digits 0 s) as [[? ?] ?]. Qed.

Lemma pass_id_inj i j : 0 <= i -> 0 <= j -> pass_id i = pass_id j -> i = j.
Proof.
  intros Hi Hj H. unfold pass_id in H. injection H as H. apply (f_equal (fun s => (span_digits 0 s).1.1)) in H.
  assert (Hpad : forall n, 0 <= n -> (span_digits 0 ((if n <? 10 then "00" else if n <? 100 then "0" else "") +:+ pretty n)).1.1 = n).
  { intros n Hn. etrans; [|by apply digits_pretty]. destruct (n <? 10); [|destruct (n <? 100)]; [etrans; apply digits_zero|apply digits_zero|done]. }
  rewrite <- (Hpad i Hi), <- (Hpad j Hj). exact H.
Qed.

(** The values of a list of steps, none released: every step is numbered by its
    place and has a value ([ok]) that depends on the values before it. *)
Section valued.
Context {S : Type} (id : S -> string) (ok : planes -> S -> grid -> Prop).

Inductive valued : list S -> planes -> Prop :=
  | valued_nil : valued [] ∅
  | valued_snoc steps V s g : valued steps V -> ok V s g -> id s = pass_id (Z.of_nat (length steps)) ->
      valued (steps ++ [s]) (<[id s := g]> V).

Lemma valued_dom steps V x : valued steps V -> is_Some (V !! x) -> exists i, 0 <= i < Z.of_nat (length steps) /\ x = pass_id i.
Proof.
  induction 1 as [|steps V s g Hv IH Hs Hid]; intros Hx; [by rewrite lookup_empty in Hx; destruct Hx|].
  rewrite length_app. cbn. destruct (decide (x = id s)) as [->|Hne].
  - exists (Z.of_nat (length steps)). split; [lia|done].
  - rewrite lookup_insert_ne in Hx by done. destruct (IH Hx) as (i & ? & ?). exists i. split; [lia|done].
Qed.

Lemma valued_fresh steps V : valued steps V -> V !! pass_id (Z.of_nat (length steps)) = None.
Proof.
  intros Hv. destruct (V !! _) eqn:E; [|done]. destruct (valued_dom _ _ (pass_id (Z.of_nat (length steps))) Hv) as (i & Hi & Heq); [by eexists|].
  apply pass_id_inj in Heq; lia.
Qed.

(** A step is added; the earlier values stay. *)
Lemma valued_add steps V s g : valued steps V -> ok V s g -> id s = pass_id (Z.of_nat (length steps)) ->
  valued (steps ++ [s]) (<[id s := g]> V) /\ V ⊆ <[id s := g]> V.
Proof. intros Hv Hs Hid. split; [by constructor|]. apply insert_subseteq. rewrite Hid. by apply valued_fresh. Qed.
End valued.

Section values.
Context (stages : list (string * array_stage)).

(** The step is a pass over well-formed planes of its shape and has value [g]. *)
Definition step_ok (V : planes) (s : array_step) (g : grid) : Prop :=
  exists operands, operands_of stages s V = Ok operands /\ Forall grid_ok operands /\ Forall (dims (st_shape s)) operands /\
    length operands = pass_arity (st_op s) /\ shape_ok (st_shape s) /\
    pass_cells (st_shape s) (st_op s) operands = Ok (gr_words g) /\ dims (st_shape s) g /\ grid_ok g.

(** ** The passes of a map *)

Section map.
Context (shape : Z * Z) (Hshape : shape_ok shape).

(** The passes of the names [seen] hold the values of the environments. *)
Definition refs_ok (V : planes) (refs : names_map) (E : Z * Z -> env) (seen : list string) : Prop :=
  forall x, x ∈ seen -> exists ref f, refs !! x = Some ref /\ V !! ref = Some (plane shape f) /\
    forall rc, rc ∈ cells shape -> E rc !! x = Some (f rc) /\ is_word (f rc).

Lemma refs_ok_mono V V' refs E seen : V ⊆ V' -> refs_ok V refs E seen -> refs_ok V' refs E seen.
Proof. intros Hs H x Hx. destruct (H x Hx) as (ref & f & ? & ? & ?). exists ref, f. split_and!; [done|by eapply lookup_weaken|done]. Qed.

Lemma refs_ok_insert V refs E seen id ref f :
  refs_ok V refs E seen -> id ∉ seen -> V !! ref = Some (plane shape f) -> word_on shape f ->
  refs_ok V (<[id := ref]> refs) (fun rc => <[id := f rc]> (E rc)) (seen ++ [id]).
Proof.
  intros H Hid Hv Hw x [Hx|Hx%list_elem_of_singleton]%elem_of_app.
  - destruct (H x Hx) as (r & g & ? & ? & Hg). assert (x <> id) by congruence. exists r, g. rewrite lookup_insert_ne by done. split_and!; [done|done|].
    intros rc Hrc. cbn beta. rewrite lookup_insert_ne by done. by apply Hg.
  - subst x. exists ref, f. rewrite lookup_insert_eq. split_and!; [done|done|]. intros rc Hrc. cbn beta. rewrite lookup_insert_eq. split; [done|by apply Hw].
Qed.

Lemma args_planes V refs E seen args argrefs :
  refs_ok V refs E seen -> (forall a, a ∈ args -> a ∈ seen) -> traverse (name_of refs) args = Ok argrefs ->
  exists fs, Forall2 (fun r f => V !! r = Some (plane shape f) /\ word_on shape f) argrefs fs /\ length fs = length args /\
    forall rc, rc ∈ cells shape -> traverse (env_get (E rc)) args = Ok (map (fun f => f rc) fs).
Proof.
  intros Hrefs. revert argrefs. induction args as [|a args IH]; intros argrefs Ha Ht; cbn [traverse] in Ht.
  - apply Ok_inj in Ht as <-. exists []. split_and!; [constructor|done|done].
  - destruct (Hrefs a) as (ref & f & Hr & Hv & Hf); [apply Ha; left|]. unfold name_of at 1 in Ht. rewrite Hr in Ht. cbn [from_option_err bind] in Ht.
    destruct (traverse (name_of refs) args) as [rest|] eqn:E0; [|discriminate Ht]. apply Ok_inj in Ht as <-.
    destruct (IH rest) as (fs & H1 & H2 & H3); [intros; apply Ha; by right|done|]. exists (f :: fs). split_and!.
    + constructor; [|done]. split; [done|]. intros rc Hrc. by apply Hf.
    + cbn. by rewrite H2.
    + intros rc Hrc. cbn [traverse map]. unfold env_get at 1. destruct (Hf rc Hrc) as [-> _]. cbn [from_option_err bind]. by rewrite H3.
Qed.

(** The value of a node as a function of the cell. *)
Definition node_value (load : Z * Z -> string -> res Z) (E : Z * Z -> env) (n : node) (rc : Z * Z) : Z :=
  match eval_word (load rc) (E rc) n with Ok w => u32 w | Err _ => 0 end.

Lemma node_value_word load E n : word_on shape (node_value load E n).
Proof. intros rc _. unfold node_value. destruct (eval_word _ _ _); [apply u32_word|]. split; [done|]. change MASK with 4294967295. lia. Qed.

Lemma node_value_eval load E n rc : (exists w, eval_word (load rc) (E rc) n = Ok w) -> eval_node (load rc) (E rc) n = Ok (<[node_id n := node_value load E n rc]> (E rc)).
Proof. intros [w Hw]. unfold eval_node, node_value. by rewrite Hw. Qed.

(** An arithmetic node and its pass. *)
Lemma op_pass V refs E seen n load argrefs :
  refs_ok V refs E seen -> (forall a, a ∈ node_args n -> a ∈ seen) ->
  match n with NLoad _ _ => False | NOp _ o args => length args = op_arity o | NImm _ _ _ _ => True end ->
  traverse (name_of refs) (node_args n) = Ok argrefs ->
  exists fs, Forall2 (fun r f => V !! r = Some (plane shape f) /\ word_on shape f) argrefs fs /\ length fs = pass_arity (node_pass n) /\
    forall rc, rc ∈ cells shape -> (exists w, eval_word (load rc) (E rc) n = Ok w) /\
      pass_word (node_pass n) (map (fun f => f rc) fs) = Ok (node_value load E n rc).
Proof.
  intros Hrefs Ha Hn Ht. destruct (args_planes _ _ _ _ _ _ Hrefs Ha Ht) as (fs & H1 & H2 & H3). exists fs. split; [done|].
  destruct n as [|id o args|id o a imm]; [done|..].
  - cbn [node_args] in H2. split; [cbn; congruence|]. intros rc Hrc. cbn [node_args] in H3. unfold node_value. cbn [eval_word node_pass pass_word]. rewrite H3 by done. cbn [bind].
    destruct (alu_total o (map (fun f => f rc) fs)) as [w Hw]; [rewrite length_map; cbn in H2; congruence|]. rewrite Hw. cbn [bind]. eauto.
  - destruct fs as [|f [|]]; try discriminate H2. split; [done|]. intros rc Hrc. specialize (H3 rc Hrc). cbn [node_args traverse map] in H3.
    unfold node_value. cbn [eval_word node_pass pass_word map]. destruct (env_get (E rc) a) as [w|]; [|discriminate H3]. cbn [bind] in *. apply Ok_inj in H3 as [= ->].
    split; [by eexists|]. done.
Qed.
End map.

Lemma step_args_planes V shape o refs fs g ref release :
  shape_ok shape -> length fs = pass_arity o ->
  Forall2 (fun r f => V !! r = Some (plane shape f) /\ word_on shape f) refs fs ->
  (forall rc, rc ∈ cells shape -> pass_word o (map (fun f => f rc) fs) = Ok (g rc)) -> word_on shape g ->
  step_ok V (ArrayStep ref shape o refs None release) (plane shape g).
Proof.
  intros Hsh Hl Hrefs Hg Hw. exists (map (plane shape) fs). cbn [st_shape st_op]. split_and!; try done.
  - unfold operands_of. cbn [st_gather st_args]. clear -Hrefs. induction Hrefs as [|r f refs fs [Hr _] _ IH]; [done|].
    cbn [traverse map]. unfold plane_of at 1. rewrite Hr. cbn [from_option_err bind]. by rewrite IH.
  - apply Forall_map. clear -Hrefs Hsh. induction Hrefs as [|r f refs fs [_ Hf] _ IH]; constructor; [by apply plane_ok|done].
  - apply Forall_map. by apply Forall_forall.
  - by rewrite length_map.
  - by apply pass_cells_planes.
  - by apply plane_ok.
Qed.

(** ** The passes of a stage

    What the stages need of an emitter: a step that has a value can be added, and
    the earlier values stay. *)

Class PassEmitter {Em : Type} (emit : Em -> Z * Z -> pass_op -> list string -> option (string * string * Z) -> res (Em * string)) := {
  holds : Em -> planes -> Prop;
  emit_holds e V shape o args gather g e' ref :
    holds e V -> emit e shape o args gather = Ok (e', ref) -> (gather = None \/ o = PLoad) -> step_ok V (ArrayStep ref shape o args gather []) g ->
    holds e' (<[ref := g]> V) /\ V ⊆ <[ref := g]> V;
}.

Section emission.
Context {Em : Type} (emit_pass : Em -> Z * Z -> pass_op -> list string -> option (string * string * Z) -> res (Em * string)) `{!PassEmitter emit_pass}.

Definition emits (e : Em) (V : planes) (e' : Em) (V' : planes) : Prop := holds e' V' /\ V ⊆ V'.

Section stage.
Context (sname : string) (s : array_stage) (Hfind : find_stage stages sname = Some s) (Hs : stage_ok s)
  (results : names_map) (inputs : list grid) (Hin : Forall grid_ok inputs).
Let shape := ar_shape s.

Definition linked (V : planes) : Prop :=
  Forall2 (fun (i : array_input) g => match i with inl from => exists r, results !! from = Some r /\ V !! r = Some g | inr g' => g = g' end)
    (ar_inputs s) inputs.

Lemma linked_mono V V' : V ⊆ V' -> linked V -> linked V'.
Proof.
  intros Hsub H. unfold linked in *. eapply Forall2_impl; [exact H|]. intros [n|g'] g; [|done]. intros (r & ? & ?). exists r. split; [done|]. by eapply lookup_weaken.
Qed.

Definition load_at (k : Z) (rc : Z * Z) (view : string) : res Z := array_load s inputs rc.1 rc.2 k view.
Definition load_value (k : Z) (view : string) (rc : Z * Z) : Z := match load_at k rc view with Ok w => w | Err _ => 0 end.

Lemma gather_step V view k v item args ref :
  linked V -> view ∈ map fst (ar_views s) -> stage_view s view = Ok v -> py_index (ar_inputs s) (gv_input v) = Ok item ->
  input_args results item = Ok args ->
  step_ok V (ArrayStep ref shape PLoad args (Some (sname, view, k)) []) (plane shape (load_value k view)) /\ word_on shape (load_value k view) /\
  forall rc, load_at k rc view = Ok (load_value k view rc).
Proof.
  intros Hl Hview Hv Hitem Hargs. pose proof (Forall2_length _ _ _ Hl) as Hlen.
  assert (Hload : forall rc, exists w, load_at k rc view = Ok w /\ is_word w) by (intros; by apply array_load_ok).
  assert (Hval : forall rc, load_at k rc view = Ok (load_value k view rc)).
  { intros rc. unfold load_value. by destruct (Hload rc) as (w & -> & _). }
  assert (Hword : word_on shape (load_value k view)).
  { intros rc _. unfold load_value. by destruct (Hload rc) as (w & -> & ?). }
  split_and!; [|done|done]. pose proof (sk_shape _ Hs) as Hsh. exists [plane shape (load_value k view)]. cbn [st_shape st_op]. split_and!; try done.
  - unfold operands_of. cbn [st_gather st_args st_shape]. rewrite Hfind. cbn [from_option_err bind]. rewrite Hv. cbn [bind]. rewrite Hitem. cbn [bind].
    assert (Hop : exists g, py_index inputs (gv_input v) = Ok g /\
      (match item with inl _ => let* a := py_index args 0 in plane_of V a | inr g => Ok g end) = Ok g).
    { unfold py_index in Hitem |- *. destruct (bool_decide (0 <= gv_input v < _)) eqn:Hb.
      - destruct (ar_inputs s !! Z.to_nat (gv_input v)) as [i|] eqn:Hi; [|discriminate Hitem]. apply Ok_inj in Hitem as ->.
        destruct (Forall2_lookup_l _ _ _ _ _ Hl Hi) as (g & Hg & Hrel). apply bool_decide_eq_true in Hb. rewrite bool_decide_true by lia. rewrite Hg. exists g. split; [done|].
        destruct item as [n|g']; [|by subst]. destruct Hrel as (r & Hr & Hvr). cbn in Hargs. unfold name_of in Hargs. rewrite Hr in Hargs. cbn in Hargs. apply Ok_inj in Hargs as <-.
        change (plane_of V r = Ok g). unfold plane_of. by rewrite Hvr.
      - exfalso. destruct (lookup_stage_view s view Hview Hs) as (v' & Hv' & Hok). rewrite Hv in Hv'. apply Ok_inj in Hv' as <-.
        apply bool_decide_eq_false in Hb. apply Hb. apply (vo_input _ _ Hok). }
    destruct Hop as (g & Hg & ->). cbn [bind]. unfold gather_words.
    assert (traverse (fun rc : Z * Z => sample g (view_at v rc.1 rc.2 k).1 (view_at v rc.1 rc.2 k).2 (ar_boundary s)) (coordinates shape.1 shape.2) =
      Ok (gr_words (plane shape (load_value k view)))) as Ht; [|unfold shape in Ht |- *; rewrite Ht; done].
    apply traverse_plane. intros rc _. rewrite <- Hval. unfold load_at, array_load. rewrite Hv. cbn [bind]. rewrite Hg. done.
  - constructor; [by apply plane_ok|constructor].
  - by constructor.
  - change [plane shape (load_value k view)] with (map (plane shape) [load_value k view]). apply pass_cells_planes. done.
  - by apply plane_ok.
Qed.

Lemma emit_node_ok e V refs E seen k n e' refs' :
  holds e V -> linked V -> refs_ok shape V refs E seen ->
  node_id n ∉ seen -> (forall a, a ∈ node_args n -> a ∈ seen) ->
  match n with NLoad _ v => v ∈ map fst (ar_views s) | NOp _ o args => length args = op_arity o | NImm _ _ _ _ => True end ->
  emit_node emit_pass results sname s k (e, refs) n = Ok (e', refs') ->
  exists V' E', emits e V e' V' /\ refs_ok shape V' refs' E' (seen ++ [node_id n]) /\
    forall rc, rc ∈ cells shape -> eval_node (load_at k rc) (E rc) n = Ok (E' rc).
Proof.
  intros Hv Hl Hrefs Hid Ha Hn H. pose proof (sk_shape _ Hs) as Hsh.
  assert (Hop : match n with NLoad _ _ => False | NOp _ o args => length args = op_arity o | NImm _ _ _ _ => True end ->
    (let* ' (e, ref) := let* args := traverse (name_of refs) (node_args n) in emit_pass e (ar_shape s) (node_pass n) args None in Ok (e, <[node_id n := ref]> refs)) = Ok (e', refs') ->
    exists V' E', emits e V e' V' /\ refs_ok shape V' refs' E' (seen ++ [node_id n]) /\
      forall rc, rc ∈ cells shape -> eval_node (load_at k rc) (E rc) n = Ok (E' rc)).
  { intros Hn' H'. destruct (traverse _ _) as [argrefs|] eqn:Hargs; [|discriminate H']. cbn [bind] in H'.
    destruct (emit_pass _ _ _ _ _) as [[e1 ref]|] eqn:He; [|discriminate H']. cbn [bind] in H'. apply Ok_inj in H'. injection H' as <- <-.
    destruct (op_pass shape V refs E seen n (load_at k) argrefs Hrefs Ha Hn' Hargs) as (fs & Hfs & Hlf & Hval).
    set (g := node_value (load_at k) E n). exists (<[ref := plane shape g]> V), (fun rc => <[node_id n := g rc]> (E rc)).
    assert (Hstep : emits e V e1 (<[ref := plane shape g]> V)).
    { eapply emit_holds; [done|exact He|auto|]. eapply step_args_planes; [done|exact Hlf|exact Hfs| |apply node_value_word]. intros rc Hrc. by apply Hval. }
    split; [done|]. destruct Hstep as [_ Hsub]. split.
    - eapply refs_ok_insert; [by eapply refs_ok_mono|done|by rewrite lookup_insert_eq|apply node_value_word].
    - intros rc Hrc. apply node_value_eval. by apply Hval. }
  destruct n as [id view|id o args|id o a imm]; [|by apply Hop|by apply Hop].
  cbn [emit_node] in H. destruct (stage_view s view) as [v|] eqn:Hsv; [|discriminate H]. cbn [bind] in H.
  destruct (py_index (ar_inputs s) _) as [item|] eqn:Hitem; [|discriminate H]. cbn [bind] in H.
  destruct (input_args results item) as [args|] eqn:Hargs; [|discriminate H]. cbn [bind] in H.
  destruct (emit_pass _ _ _ _ _) as [[e1 ref]|] eqn:He; [|discriminate H]. cbn [bind] in H. apply Ok_inj in H. injection H as <- <-.
  destruct (gather_step V view k v item args ref Hl Hn Hsv Hitem Hargs) as (Hstep & Hword & Hval).
  assert (Hem : emits e V e1 (<[ref := plane shape (load_value k view)]> V)) by (eapply emit_holds; [done|exact He|auto|exact Hstep]).
  exists (<[ref := plane shape (load_value k view)]> V), (fun rc => <[id := load_value k view rc]> (E rc)). split; [done|]. destruct Hem as [_ Hsub]. split.
  - eapply refs_ok_insert; [by eapply refs_ok_mono|done|by rewrite lookup_insert_eq|done].
  - intros rc Hrc. unfold eval_node. cbn [eval_word node_id]. rewrite Hval. cbn [bind]. rewrite u32_id by (by apply Hword). done.
Qed.

Lemma emits_trans e V e1 V1 e2 V2 : emits e V e1 V1 -> emits e1 V1 e2 V2 -> emits e V e2 V2.
Proof. intros [_ H1] [H2 H3]. split; [done|]. by etrans. Qed.

Lemma emit_nodes_ok nodes e V refs E seen k e' refs' :
  holds e V -> linked V -> refs_ok shape V refs E seen ->
  well_scoped (fun v => v ∈ map fst (ar_views s)) seen nodes ->
  foldM (emit_node emit_pass results sname s k) (e, refs) nodes = Ok (e', refs') ->
  exists V' E', emits e V e' V' /\ refs_ok shape V' refs' E' (seen ++ map node_id nodes) /\
    forall rc, rc ∈ cells shape -> foldM (eval_node (load_at k rc)) (E rc) nodes = Ok (E' rc).
Proof.
  revert e V refs E seen. induction nodes as [|n nodes IH]; intros e V refs E seen Hv Hl Hrefs Hws H.
  - cbn in H. apply Ok_inj in H. injection H as <- <-. exists V, E. rewrite app_nil_r. done.
  - destruct Hws as (Hid & Ha & Hn & Hws). cbn [foldM] in H. destruct (emit_node emit_pass results sname s k (e, refs) n) as [[e1 refs1]|] eqn:H1; [|discriminate H]. cbn [bind] in H.
    destruct (emit_node_ok _ _ _ _ _ _ _ _ _ Hv Hl Hrefs Hid Ha ltac:(destruct n; [exact Hn|exact Hn|exact I]) H1) as (V1 & E1 & Hem & Hrefs1 & Hev).
    destruct Hem as [Hv1 Hsub]. destruct (IH e1 V1 refs1 E1 (seen ++ [node_id n]) Hv1 ltac:(by eapply linked_mono) Hrefs1 Hws H) as (V' & E' & Hem' & Hrefs' & Hev').
    exists V', E'. split; [by eapply emits_trans|]. split; [by rewrite <- app_assoc in Hrefs'|]. intros rc Hrc. cbn [foldM]. rewrite Hev by done. cbn [bind]. by apply Hev'.
Qed.

(** The reference's accumulator at a cell. *)
Definition acc_fold (rc : Z * Z) (l : list Z) : res Z :=
  foldM (fun acc k => let* term := eval_nodes (load_at k rc) (ar_nodes s) (ar_result s) in Ok (fold_step (ar_fold s) acc term)) 0 l.

Definition acc_ok (V : planes) (acc : option string) (j : Z) : Prop :=
  match acc with
  | None => j = 0
  | Some a => exists A, V !! a = Some (plane shape A) /\ word_on shape A /\ forall rc, rc ∈ cells shape -> acc_fold rc (zseq j) = Ok (A rc)
  end.

Lemma fold_pass_word f a b : is_word a -> is_word b -> pass_word (fold_pass f) [a; b] = Ok (fold_step f a b).
Proof.
  intros Ha Hb. destruct f; cbn; [done|]. f_equal. apply u32_id. destruct Ha, Hb. unfold is_word. lia.
Qed.

Lemma emit_index_ok e V acc j e' acc' :
  holds e V -> linked V -> acc_ok V acc j -> 0 <= j ->
  emit_index emit_pass results sname s (e, acc) j = Ok (e', acc') -> exists V', emits e V e' V' /\ acc_ok V' acc' (j + 1) /\ is_Some acc'.
Proof.
  intros Hv Hl Hacc Hj H. pose proof (sk_shape _ Hs) as Hsh. unfold emit_index in H.
  destruct (foldM (emit_node emit_pass results sname s j) (e, ∅) (ar_nodes s)) as [[e1 refs]|] eqn:Hn; [|discriminate H]. cbn [bind] in H.
  destruct (emit_nodes_ok _ _ _ ∅ (fun _ => ∅) [] _ _ _ Hv Hl ltac:(by intros ? ?%elem_of_nil) (sk_nodes _ Hs) Hn) as (V1 & E1 & Hem1 & Hrefs & Hev).
  destruct (Hrefs (ar_result s) (sk_result _ Hs)) as (ref & T & Href & HT & HTv). unfold name_of in H. rewrite Href in H. cbn [from_option_err bind] in H.
  assert (Hterm : forall rc, rc ∈ cells shape -> eval_nodes (load_at j rc) (ar_nodes s) (ar_result s) = Ok (T rc)).
  { intros rc Hrc. unfold eval_nodes. rewrite Hev by done. cbn [bind]. unfold env_get. by destruct (HTv rc Hrc) as [-> _]. }
  assert (HTw : word_on shape T) by (intros rc Hrc; by apply HTv).
  assert (Hstep : forall rc A, rc ∈ cells shape -> acc_fold rc (zseq j) = Ok A -> acc_fold rc (zseq (j + 1)) = Ok (fold_step (ar_fold s) A (T rc))).
  { intros rc A Hrc HA. unfold acc_fold in *. rewrite zseq_succ, foldM_app, HA by done. cbn [bind foldM]. by rewrite Hterm. }
  destruct acc as [a|].
  - destruct Hacc as (A & HA & HAw & HAv). destruct (emit_pass e1 _ _ _ _) as [[e2 r]|] eqn:He; [|discriminate H]. cbn [bind] in H. apply Ok_inj in H. injection H as <- <-.
    set (g := fun rc => fold_step (ar_fold s) (A rc) (T rc)). destruct Hem1 as [Hv1 Hsub1].
    assert (Hgw : word_on shape g) by (intros rc Hrc; apply fold_step_word; [by apply HAw|by apply HTw]).
    assert (Hem2 : emits e1 V1 e2 (<[r := plane shape g]> V1)).
    { eapply emit_holds; [done|exact He|auto|]. apply (step_args_planes V1 shape (fold_pass (ar_fold s)) [a; ref] [A; T]); [done|by destruct (ar_fold s)| | |done].
      - constructor; [split; [by eapply lookup_weaken|done]|]. constructor; [done|constructor].
      - intros rc Hrc. cbn [map]. apply fold_pass_word; [by apply HAw|by apply HTw]. }
    exists (<[r := plane shape g]> V1). split; [eapply emits_trans; [by split|exact Hem2]|]. split; [|by eexists].
    exists g. rewrite lookup_insert_eq. split_and!; [done|done|]. intros rc Hrc. by apply Hstep, HAv.
  - apply Ok_inj in H. injection H as <- <-. cbn in Hacc. subst j. exists V1. split; [done|]. split; [|by eexists]. exists T. split_and!; [done|done|].
    intros rc Hrc. rewrite (Hstep rc 0 Hrc eq_refl). f_equal. pose proof (HTw rc Hrc) as [? ?]. destruct (ar_fold s); cbn; [|lia]. rewrite Z.add_0_l. by apply u32_id, HTw.
Qed.

Lemma emit_indices_ok n e V e' acc :
  holds e V -> linked V -> 0 <= n -> foldM (emit_index emit_pass results sname s) (e, None) (zseq n) = Ok (e', acc) ->
  exists V', emits e V e' V' /\ acc_ok V' acc n.
Proof.
  intros Hv Hl Hn. revert e' acc. pattern n. apply natlike_ind; [| |done]; clear n Hn.
  - intros e' acc H. cbn in H. apply Ok_inj in H. injection H as <- <-. by exists V.
  - intros n Hn IH e' acc H. rewrite <- Z.add_1_r in *. rewrite zseq_succ, foldM_app in H by done.
    destruct (foldM _ (e, None) (zseq n)) as [[e1 acc1]|] eqn:E1; [|discriminate H]. cbn [bind foldM] in H.
    destruct (IH e1 acc1 eq_refl) as (V1 & Hem1 & Hacc1). destruct (emit_index _ _ _ _ _ n) as [[e2 acc2]|] eqn:E2; [|discriminate H]. cbn [bind] in H.
    apply Ok_inj in H. injection H as <- <-. destruct Hem1 as [Hv1 Hsub1].
    destruct (emit_index_ok _ _ _ _ _ _ Hv1 ltac:(by eapply linked_mono) Hacc1 Hn E2) as (V2 & Hem2 & Hacc2 & _).
    exists V2. split; [|done]. eapply emits_trans; [by split|exact Hem2].
Qed.

(** ** The post map *)

Lemma emit_posts_ok nodes acc A e V refs E seen e' refs' :
  holds e V -> V !! acc = Some (plane shape A) -> word_on shape A -> refs_ok shape V refs E seen ->
  well_scoped (fun v => v ∈ ["reduced"]) seen nodes ->
  foldM (emit_post emit_pass shape acc) (e, refs) nodes = Ok (e', refs') ->
  exists V' E', emits e V e' V' /\ refs_ok shape V' refs' E' (seen ++ map node_id nodes) /\
    forall rc, rc ∈ cells shape -> foldM (eval_node (fun _ => Ok (A rc))) (E rc) nodes = Ok (E' rc).
Proof.
  pose proof (sk_shape _ Hs) as Hsh. revert e V refs E seen. induction nodes as [|n nodes IH]; intros e V refs E seen Hv HA HAw Hrefs Hws H.
  - cbn in H. apply Ok_inj in H. injection H as <- <-. exists V, E. rewrite app_nil_r. done.
  - destruct Hws as (Hid & Ha & Hn & Hws). cbn [foldM] in H. destruct (emit_post emit_pass shape acc (e, refs) n) as [[e1 refs1]|] eqn:H1; [|discriminate H]. cbn [bind] in H.
    unfold emit_post in H1. destruct (match n with NLoad _ _ => _ | _ => _ end) as [args|] eqn:Hargs; [|discriminate H1]. cbn [bind] in H1.
    destruct (emit_pass e shape (node_pass n) args None) as [[e2 ref]|] eqn:He; [|discriminate H1]. cbn [bind] in H1. apply Ok_inj in H1. injection H1 as <- <-.
    assert (Hfs : exists fs, Forall2 (fun r f => V !! r = Some (plane shape f) /\ word_on shape f) args fs /\ length fs = pass_arity (node_pass n) /\
      forall rc, rc ∈ cells shape -> (exists w, eval_word (fun _ => Ok (A rc)) (E rc) n = Ok w) /\
        pass_word (node_pass n) (map (fun f => f rc) fs) = Ok (node_value (fun rc _ => Ok (A rc)) E n rc)).
    { destruct n as [id view|id o l|id o a imm].
      - apply Ok_inj in Hargs as <-. exists [A]. split; [constructor; [done|constructor]|]. split; [done|]. intros rc Hrc. split; [by eexists|].
        unfold node_value. cbn. by rewrite u32_id by (by apply HAw).
      - eapply op_pass; [exact Hrefs|done|exact Hn|exact Hargs].
      - eapply op_pass; [exact Hrefs|done|done|exact Hargs]. }
    destruct Hfs as (fs & Hfs & Hlf & Hval). set (g := node_value (fun rc _ => Ok (A rc)) E n) in *.
    assert (Hem : emits e V e2 (<[ref := plane shape g]> V)).
    { eapply emit_holds; [done|exact He|auto|]. eapply step_args_planes; [done|exact Hlf|exact Hfs| |apply node_value_word]. intros rc Hrc. by apply Hval. }
    pose proof Hem as [Hv2 Hsub2].
    assert (Hrefs2 : refs_ok shape (<[ref := plane shape g]> V) (<[node_id n := ref]> refs) (fun rc => <[node_id n := g rc]> (E rc)) (seen ++ [node_id n])).
    { eapply refs_ok_insert; [by eapply refs_ok_mono|done|by rewrite lookup_insert_eq|apply node_value_word]. }
    destruct (IH _ _ _ _ _ Hv2 ltac:(by eapply lookup_weaken) HAw Hrefs2 Hws H) as (V' & E' & Hem' & Hrefs' & Hev').
    exists V', E'. split; [by eapply emits_trans|]. split; [by rewrite <- app_assoc in Hrefs'|]. intros rc Hrc. cbn [foldM].
    rewrite (node_value_eval (fun rc _ => Ok (A rc)) E n rc) by (by apply Hval). cbn [bind]. by apply Hev'.
Qed.

(** ** The stage *)

Lemma scalar_stage_ok e V e' ref :
  holds e V -> linked V -> scalar_stage emit_pass results sname s e = Ok (e', ref) ->
  exists V' words, emits e V e' V' /\ V' !! ref = Some (Grid shape.1 shape.2 words) /\
    traverse (array_cell s inputs) (coordinates shape.1 shape.2) = Ok words.
Proof.
  intros Hv Hl H. unfold scalar_stage in H.
  destruct (foldM (emit_index emit_pass results sname s) (e, None) (zseq (ar_extent s))) as [[e1 acc]|] eqn:E1; [|discriminate H]. cbn [bind] in H.
  pose proof (sk_extent _ Hs) as Hext. destruct (emit_indices_ok (ar_extent s) _ _ _ _ Hv Hl ltac:(lia) E1) as (V1 & Hem1 & Hacc).
  destruct acc as [acc|]; [|discriminate H]. cbn [from_option_err bind] in H. destruct Hacc as (A & HA & HAw & HAv).
  assert (Hcell : forall rc, rc ∈ cells shape -> array_cell s inputs rc =
    match ar_post s with None => Ok (A rc) | Some (nodes, result) => eval_nodes (fun _ => Ok (A rc)) nodes result end).
  { intros rc Hrc. unfold array_cell. change (foldM _ 0 (zseq (ar_extent s))) with (acc_fold rc (zseq (ar_extent s))). by rewrite HAv. }
  destruct (ar_post s) as [[nodes result]|] eqn:Hpost.
  - destruct (foldM (emit_post emit_pass _ acc) (e1, ∅) nodes) as [[e2 refs]|] eqn:E2; [|discriminate H]. cbn [bind] in H.
    destruct (sk_post _ Hs _ _ Hpost) as [Hws Hr]. destruct Hem1 as [Hv1 Hsub1].
    destruct (emit_posts_ok nodes acc A e1 V1 ∅ (fun _ => ∅) [] e2 refs Hv1 HA HAw ltac:(by intros ? ?%elem_of_nil) Hws E2) as (V2 & E & Hem2 & Hrefs & Hev).
    destruct (Hrefs result Hr) as (ref' & B & Href & HB & HBv). unfold name_of in H. rewrite Href in H. cbn [from_option_err bind] in H. apply Ok_inj in H. injection H as <- <-.
    exists V2, (map B (cells shape)). split; [eapply emits_trans; [by split|exact Hem2]|]. split; [exact HB|].
    apply traverse_pure. intros rc Hrc. rewrite Hcell by done. unfold eval_nodes. rewrite Hev by done. cbn [bind]. unfold env_get. by destruct (HBv rc Hrc) as [-> _].
  - apply Ok_inj in H. injection H as <- <-. exists V1, (map A (cells shape)). split; [done|]. split; [exact HA|].
    apply traverse_pure. intros rc Hrc. by apply Hcell.
Qed.
End stage.
End emission.

#[export, refine] Instance passes_emitter : PassEmitter emit := {
  holds e := valued st_id step_ok (em_steps e);
}.
Proof.
  intros e V shape o args gather g e' ref Hv He _ Hs. unfold emit in He. cbn zeta in He. destruct (_ || _); [discriminate He|]. apply Ok_inj in He. injection He as <- <-.
  by apply (valued_add st_id step_ok _ V (ArrayStep (pass_id (Z.of_nat (length (em_steps e)))) shape o args gather []) g).
Defined.

(** ** All stages *)

Context (Hstages : forall n s, (n, s) ∈ stages -> stage_ok s).

Lemma find_stage_in n s : find_stage stages n = Some s -> (n, s) ∈ stages.
Proof.
  unfold find_stage. intros H. destruct (List.find _ stages) as [[m s']|] eqn:E; [|discriminate H]. injection H as ->.
  apply find_some in E as [Hin Heq%String.eqb_eq]. cbn in Heq. subst m. by apply list_elem_of_In.
Qed.

Definition stage_results (V : planes) (results : names_map) (outputs : planes) (seen : list string) : Prop :=
  forall n, n ∈ seen -> exists r g, results !! n = Some r /\ V !! r = Some g /\ outputs !! n = Some g /\ grid_ok g.

Lemma stage_inputs_linked V results outputs seen s inputs :
  stage_results V results outputs seen -> (forall d, d ∈ stage_deps s -> d ∈ seen) -> stage_inputs outputs s = Ok inputs -> linked s results inputs V.
Proof.
  intros Hres Hd Hi. unfold stage_inputs in Hi. apply traverse_Ok in Hi. unfold linked.
  assert (Hall : forall n, inl n ∈ ar_inputs s -> n ∈ seen).
  { intros n Hn. apply Hd. unfold stage_deps, links_of. apply list_elem_of_omap. by exists (inl n). }
  revert Hall. induction Hi as [|i g l l' Hig _ IH]; intros Hall; constructor; [|apply IH; intros; apply Hall; by right].
  destruct i as [n|g']; [|by apply Ok_inj in Hig]. destruct (Hres n) as (r & g' & Hr & Hv & Ho & _); [apply Hall; left|].
  unfold plane_of in Hig. rewrite Ho in Hig. apply Ok_inj in Hig as <-. by exists r.
Qed.

Lemma stage_results_add V V' results outputs seen n ref g :
  stage_results V results outputs seen -> V ⊆ V' -> n ∉ seen -> V' !! ref = Some g -> grid_ok g ->
  stage_results V' (<[n := ref]> results) (<[n := g]> outputs) (seen ++ [n]).
Proof.
  intros Hres Hsub Hn Hr Hg m [Hm|Hm%list_elem_of_singleton]%elem_of_app.
  - destruct (Hres m Hm) as (r & g' & ? & ? & ? & ?). assert (m <> n) by congruence. exists r, g'. rewrite !lookup_insert_ne by done. split_and!; [done|by eapply lookup_weaken|done|done].
  - subst m. exists ref, g. by rewrite !lookup_insert_eq.
Qed.

(** One iteration of the loop over the stages: what the reference computes for it. *)
Lemma stage_step n s V results outputs seen :
  find_stage stages n = Some s -> stage_results V results outputs seen -> (forall d, d ∈ stage_deps s -> d ∈ seen) ->
  exists inputs words, stage_inputs outputs s = Ok inputs /\ Forall grid_ok inputs /\ linked s results inputs V /\
    traverse (array_cell s inputs) (coordinates (ar_shape s).1 (ar_shape s).2) = Ok words /\
    let g := Grid (ar_shape s).1 (ar_shape s).2 words in grid_ok g /\ reference_stage stages outputs n = Ok (<[n := g]> outputs).
Proof.
  intros Hf Hres Hd. pose proof (Hstages _ _ (find_stage_in _ _ Hf)) as Hs.
  destruct (reference_stage_ok stages outputs n s Hf Hs) as (inputs & words & Hi & Hig & _ & Hw & Hrs & Hgok).
  { intros d Hd'. destruct (Hres d (Hd d Hd')) as (r & g & _ & _ & ? & ?). by exists g. }
  exists inputs, words. split_and!; try done. by eapply stage_inputs_linked.
Qed.

Lemma emit_order_ok l e V results outputs seen e' results' :
  valued st_id step_ok (em_steps e) V -> stage_results V results outputs seen -> ordered stages seen l ->
  foldM (emit_stage stages) (e, results) l = Ok (e', results') ->
  exists V' outputs', foldM (reference_stage stages) outputs l = Ok outputs' /\ valued st_id step_ok (em_steps e') V' /\
    stage_results V' results' outputs' (seen ++ l).
Proof.
  revert e V results outputs seen. induction l as [|n l IH]; intros e V results outputs seen Hv Hres Hord H.
  - cbn in H. apply Ok_inj in H. injection H as <- <-. exists V, outputs. rewrite app_nil_r. done.
  - destruct Hord as (Hn & (s & Hf & Hd) & Hord). cbn [foldM] in H |- *.
    unfold emit_stage at 1 in H. rewrite Hf in H. cbn [from_option_err bind] in H.
    destruct (scalar_stage emit results n s e) as [[e1 ref]|] eqn:E1; [|discriminate H]. cbn [bind] in H.
    destruct (stage_step n s V results outputs seen Hf Hres Hd) as (inputs & words & Hi & Hig & Hl & Hw & Hgok & Hrs).
    destruct (scalar_stage_ok emit (PassEmitter0 := passes_emitter) n s Hf (Hstages _ _ (find_stage_in _ _ Hf)) results inputs Hig _ _ _ _ Hv Hl E1) as (V1 & words' & [Hv1 Hsub] & Href & Hw').
    rewrite Hw in Hw'. apply Ok_inj in Hw' as <-. rewrite Hrs. cbn [bind].
    destruct (IH _ V1 _ _ (seen ++ [n]) Hv1 (stage_results_add _ _ _ _ _ _ _ _ Hres Hsub Hn Href Hgok) Hord H) as (V' & outputs' & Ho & Hv' & Hres').
    exists V', outputs'. split_and!; [done|done|]. by rewrite <- app_assoc in Hres'.
Qed.

(** ** The run follows the plan *)

(** The planner's zero planes and the planes of the run. *)
Definition planes_agree (V P0 P : planes) : Prop :=
  forall x, (P0 !! x = None /\ P !! x = None) \/
    exists g0 g, P0 !! x = Some g0 /\ P !! x = Some g /\ V !! x = Some g /\ same_dims g0 g /\ grid_ok g0.

Lemma plane_agree V P0 P x g0 : planes_agree V P0 P -> plane_of P0 x = Ok g0 -> exists g, plane_of P x = Ok g /\ V !! x = Some g /\ same_dims g0 g /\ grid_ok g0.
Proof.
  intros H Hx. unfold plane_of in *. destruct (H x) as [[H0 _]|(g0' & g & H0 & -> & ? & ? & ?)]; rewrite H0 in Hx; [discriminate Hx|].
  apply Ok_inj in Hx as <-. by exists g.
Qed.

Lemma drop_agree V release P0 P P0' :
  planes_agree V P0 P -> drop_planes P0 release = Ok P0' -> exists P', drop_planes P release = Ok P' /\ planes_agree V P0' P'.
Proof.
  revert P0 P. induction release as [|n l IH]; intros P0 P Hag H; unfold drop_planes in *; cbn [foldM] in *.
  - apply Ok_inj in H as <-. by exists P.
  - destruct (plane_of P0 n) as [g0|] eqn:E; [|discriminate H]. cbn [bind] in H. destruct (plane_agree _ _ _ _ _ Hag E) as (g & -> & _). cbn [bind].
    eapply IH; [|exact H]. intros x. destruct (decide (x = n)) as [->|Hne]; [left; by rewrite !lookup_delete_eq|]. rewrite !lookup_delete_ne by done. apply Hag.
Qed.

Lemma drop_keeps release P P' x : drop_planes P release = Ok P' -> x ∉ release -> P' !! x = P !! x.
Proof.
  revert P. induction release as [|n l IH]; intros P H Hx; unfold drop_planes in *; cbn [foldM] in *; [by apply Ok_inj in H as <-|].
  destruct (plane_of P n); [|discriminate H]. cbn [bind] in H. rewrite not_elem_of_cons in Hx. destruct Hx. rewrite (IH _ H) by done. by rewrite lookup_delete_ne.
Qed.

Lemma gather_words_ok s v k operand shape words :
  gather_words s v k operand shape = Ok words -> grid_ok operand -> shape_ok shape -> grid_ok (Grid shape.1 shape.2 words).
Proof.
  intros H Hg [Hr Hc]. unfold gather_words in H. split; cbn; try done.
  - apply traverse_length in H. rewrite H, length_coordinates. nia.
  - eapply traverse_Forall; [|exact H]. intros rc w Hw. cbn beta in Hw. destruct (sample_ok operand (view_at v rc.1 rc.2 k).1 (view_at v rc.1 rc.2 k).2 (ar_boundary s) Hg) as (w' & Hw' & _ & ?).
    rewrite Hw in Hw'. by apply Ok_inj in Hw' as ->.
Qed.

(** A stage with other words in its literals. *)
Record stage_like (s0 s : array_stage) : Prop := {
  sl_inputs : Forall2 (fun i0 i : array_input => match i0, i with
                       | inl a, inl b => a = b
                       | inr g0, inr g => same_dims g0 g /\ grid_ok g0
                       | _, _ => False
                       end) (ar_inputs s0) (ar_inputs s);
  sl_views : ar_views s0 = ar_views s;
  sl_boundary : ar_boundary s0 = ar_boundary s;
}.
Definition stages_like (stages0 : list (string * array_stage)) : Prop :=
  forall n s, find_stage stages n = Some s -> exists s0, find_stage stages0 n = Some s0 /\ stage_like s0 s.

Lemma py_index_Forall2 {A B} (R : A -> B -> Prop) l l' i a : Forall2 R l l' -> py_index l i = Ok a -> exists b, py_index l' i = Ok b /\ R a b.
Proof.
  intros H Ha. unfold py_index in *. cbn zeta in *. rewrite <- (Forall2_length _ _ _ H).
  destruct (bool_decide (0 <= i < _)); [|destruct (bool_decide (- _ <= i < _)); [|discriminate Ha]].
  all: match type of Ha with from_option_err _ ?o = _ => destruct o as [x|] eqn:E; [|discriminate Ha] end; apply Ok_inj in Ha as ->.
  all: destruct (Forall2_lookup_l _ _ _ _ _ H E) as (y & -> & Hy); by exists y.
Qed.

Lemma plane_operands_agree V P0 P args ops0 ops :
  planes_agree V P0 P -> traverse (plane_of P0) args = Ok ops0 -> traverse (plane_of V) args = Ok ops ->
  traverse (plane_of P) args = Ok ops /\ Forall2 same_dims ops0 ops /\ Forall grid_ok ops0.
Proof.
  intros Hag. revert ops0 ops. induction args as [|a l IH]; intros ops0 ops H0 H; cbn [traverse] in *.
  - apply Ok_inj in H0 as <-. apply Ok_inj in H as <-. split_and!; [done|constructor|constructor].
  - destruct (plane_of P0 a) as [g0|] eqn:Ea; [|discriminate H0]. cbn [bind] in H0. destruct (plane_agree _ _ _ _ _ Hag Ea) as (g & -> & Hv & Hd & Hg0).
    unfold plane_of at 1 in H. rewrite Hv in H. cbn [from_option_err bind] in *. destruct (traverse (plane_of P0) l) as [o0|]; [|discriminate H0]. apply Ok_inj in H0 as <-.
    destruct (traverse (plane_of V) l) as [o|]; [|discriminate H]. apply Ok_inj in H as <-. destruct (IH o0 o eq_refl eq_refl) as (-> & ? & ?). split_and!; [done|by constructor|by constructor].
Qed.

(** The run binds the planes the values say, and the operands the planner has,
    on other literal words, differ in words only. *)
Lemma operands_like stages0 V P0 P s ops0 ops :
  stages_like stages0 -> planes_agree V P0 P -> shape_ok (st_shape s) -> operands_of stages0 s P0 = Ok ops0 -> operands_of stages s V = Ok ops ->
  operands_of stages s P = Ok ops /\ Forall2 same_dims ops0 ops /\ Forall grid_ok ops0.
Proof.
  intros Hlike Hag Hsh H0 H. unfold operands_of in *. destruct (st_gather s) as [[[sname view] k]|]; [|by eapply plane_operands_agree].
  destruct (find_stage stages sname) as [st|] eqn:Hf; [|discriminate H]. destruct (Hlike _ _ Hf) as (st0 & Hf0 & [Hins Hviews Hbound]). rewrite Hf0 in H0. cbn [from_option_err bind] in *.
  unfold stage_view in *. rewrite Hviews in H0. destruct (from_option_err KeyError _) as [v|]; [|discriminate H0]. cbn [bind] in *.
  destruct (py_index (ar_inputs st0) (gv_input v)) as [item0|] eqn:Hitem; [|discriminate H0]. cbn [bind] in *.
  destruct (py_index_Forall2 _ _ _ _ _ Hins Hitem) as (item & Hi & Hrel). rewrite Hi in H |- *. cbn [bind] in *.
  assert (Hop : exists g0 g, gather_words st0 v k g0 (st_shape s) = Ok (match ops0 with [g] => gr_words g | _ => [] end) /\ grid_ok g0 /\
    (match item with inl _ => let* a := py_index (st_args s) 0 in plane_of V a | inr g => Ok g end) = Ok g /\
    (match item with inl _ => let* a := py_index (st_args s) 0 in plane_of P a | inr g => Ok g end) = Ok g /\
    exists w0, ops0 = [Grid (st_shape s).1 (st_shape s).2 w0]).
  { destruct item0 as [n|g0], item as [n'|g]; try done.
    - destruct (py_index (st_args s) 0) as [a|]; [|discriminate H0]. cbn [bind] in *. destruct (plane_of P0 a) as [g0|] eqn:Ea; [|discriminate H0]. cbn [bind] in H0.
      destruct (plane_agree _ _ _ _ _ Hag Ea) as (g & Hg & Hv & Hd & Hg0). exists g0, g. destruct (gather_words st0 v k g0 (st_shape s)) as [w0|]; [|discriminate H0]. cbn [bind] in H0.
      apply Ok_inj in H0 as <-. split_and!; [done|done|unfold plane_of; by rewrite Hv|done|by exists w0].
    - cbn [bind] in *. destruct Hrel as [_ Hg0]. exists g0, g. destruct (gather_words st0 v k g0 (st_shape s)) as [w0|]; [|discriminate H0]. cbn [bind] in H0. apply Ok_inj in H0 as <-.
      split_and!; [done|done|done|done|by exists w0]. }
  destruct Hop as (g0 & g & Hw0 & Hg0 & Hv & Hp & w0 & ->). rewrite Hv in H. rewrite Hp. cbn [bind gr_words] in *. split; [done|].
  destruct (gather_words st v k g (st_shape s)) as [w|]; [|discriminate H]. cbn [bind] in H. apply Ok_inj in H as <-.
  split; [by repeat constructor|]. apply Forall_singleton. by eapply gather_words_ok.
Qed.

Lemma stages_like_refl : stages_like stages.
Proof.
  intros n s Hf. exists s. split; [done|]. split; [|done|done]. pose proof (sk_inputs _ (Hstages _ _ (find_stage_in _ _ Hf))) as Hall.
  apply Forall_Forall2_diag. eapply Forall_impl; [exact Hall|]. by intros [m|g] Hg.
Qed.

Lemma zero_plane_ok shape : shape_ok shape -> grid_ok (Grid shape.1 shape.2 (zeros (shape.1 * shape.2))).
Proof.
  intros [Hr Hc]. unfold zeros. split; cbn; try done; [rewrite length_replicate; nia|]. apply Forall_replicate. split; [done|]. change MASK with 4294967295. lia.
Qed.

Lemma planes_agree_insert V P0 P x g0 g :
  planes_agree V P0 P -> V !! x = None -> same_dims g0 g -> grid_ok g0 -> planes_agree (<[x := g]> V) (<[x := g0]> P0) (<[x := g]> P).
Proof.
  intros Hag Hx Hd Hg y. destruct (decide (y = x)) as [->|Hne]; [right; exists g0, g; by rewrite !lookup_insert_eq|].
  rewrite !lookup_insert_ne by done. apply Hag.
Qed.

(** One pass: admitted on zero words, it runs to its value. *)
Lemma bind_pass_run stages0 V P0 P s g source0 c0 :
  stages_like stages0 -> planes_agree V P0 P -> step_ok V s g -> bind_pass stages0 s P0 = Ok source0 -> compile_grid source0 = Ok c0 ->
  exists source, bind_pass stages s P = Ok source /\ run_bound source = Ok g.
Proof.
  intros Hlike Hag (ops & Hops & Hgok & Hdims & Har & Hsh & Hcells & Hdg & Hg) Hb Hc. unfold bind_pass in Hb.
  destruct (operands_of stages0 s P0) as [ops0|] eqn:E0; [|discriminate Hb]. cbn [bind] in Hb. apply Ok_inj in Hb as <-.
  destruct (operands_like _ _ _ _ _ _ _ Hlike Hag Hsh E0 Hops) as (Hp & Hsd & Hg0).
  destruct (bind_doc_words _ _ _ _ _ Hg0 Hgok Hsd Hc) as (c' & Hc'). destruct Hsh as [Hr Hcol].
  destruct (bind_doc_run _ _ _ _ Hgok Hdims Har Hr Hcol Hc') as (words & Hcw & Href & Hrun & Hrows & Hcols).
  exists (bind_doc (st_shape s) (st_op s) ops). unfold bind_pass. rewrite Hp. split; [done|]. unfold run_bound.
  rewrite Hc'. cbn [bind]. rewrite Hrun. cbn [bind]. rewrite Href. cbn [bind]. rewrite bool_decide_true by done. cbn [negb].
  rewrite Hcells in Hcw. apply Ok_inj in Hcw as <-. rewrite Hrows, Hcols. destruct g as [gr gc gw], Hdg as [Hd1 Hd2]. cbn in *. by rewrite <- Hd1, <- Hd2.
Qed.

Lemma run_pass_ok V P0 P s g source c :
  planes_agree V P0 P -> step_ok V s g -> bind_pass stages s P0 = Ok source -> compile_grid source = Ok c ->
  forall release, run_pass stages P (with_release s release) = drop_planes (<[st_id s := g]> P) release.
Proof.
  intros Hag Hs Hb Hc release. destruct (bind_pass_run _ _ _ _ _ _ _ _ stages_like_refl Hag Hs Hb Hc) as (source' & Hb' & Hrun).
  unfold run_pass. change (bind_pass stages (with_release s release) P) with (bind_pass stages s P). rewrite Hb'. cbn [bind]. by rewrite Hrun.
Qed.

Section planning.
Context (literals : Z) (last : gmap string Z) (outs : list string) (len : Z) (Hlast : forall o, o ∈ outs -> last !! o = Some len).

Lemma releases_live i names release o : releases last i names = Ok release -> i < len -> o ∈ outs -> o ∉ release.
Proof.
  intros H Hi Ho. unfold releases in H. destruct (traverse _ _) as [dead|] eqn:Hdead; [|discriminate H]. cbn [bind] in H. apply Ok_inj in H as <-.
  rewrite elem_of_sort_names. intros ([n b] & -> & Hnb)%list_elem_of_fmap. apply list_elem_of_In, filter_In in Hnb as [Hnb Hbt]. cbn in Hbt, Ho. subst b.
  apply list_elem_of_In in Hnb. apply list_elem_of_lookup in Hnb as [k Hk]. apply traverse_Ok in Hdead.
  destruct (Forall2_lookup_r _ _ _ _ _ Hdead Hk) as (n' & _ & Hn'). cbn beta in Hn'. destruct (last !! n') as [l|] eqn:El; [|discriminate Hn'].
  cbn [from_option_err bind] in Hn'. apply Ok_inj in Hn'. injection Hn' as -> Hl. rewrite (Hlast n Ho) in El. injection El as <-. apply Z.eqb_eq in Hl. lia.
Qed.

(** A plane is added and the planes not needed any more are dropped: the planner
    and the run still agree, and no output is dropped. *)
Lemma release_ok_step i names release V P0 P P0' x g0 g :
  releases last i names = Ok release -> i < len -> drop_planes (<[x := g0]> P0) release = Ok P0' ->
  planes_agree V P0 P -> V !! x = None -> same_dims g0 g -> grid_ok g0 ->
  (forall o, o ∈ outs -> is_Some (V !! o) -> is_Some (P !! o)) ->
  exists P', drop_planes (<[x := g]> P) release = Ok P' /\ planes_agree (<[x := g]> V) P0' P' /\
    forall o, o ∈ outs -> is_Some (<[x := g]> V !! o) -> is_Some (P' !! o).
Proof.
  intros Hr Hi Hdrop Hag Hfresh Hd Hg Hout.
  destruct (drop_agree _ _ _ _ _ (planes_agree_insert _ _ _ _ _ _ Hag Hfresh Hd Hg) Hdrop) as (P' & HP' & HagP). exists P'. split_and!; [done|done|].
  intros o Ho Hv. rewrite (drop_keeps _ _ _ o HP') by (by eapply releases_live).
  destruct (decide (o = x)) as [->|Hne]; [rewrite lookup_insert_eq; by eexists|]. rewrite lookup_insert_ne in * by done. by apply Hout.
Qed.

Lemma plan_step_ok i s pn pn' V P g :
  plan_step stages literals last pn (i, s) = Ok pn' -> i < len ->
  planes_agree V (pn_planes pn) P -> step_ok V s g -> V !! st_id s = None ->
  (forall o, o ∈ outs -> is_Some (V !! o) -> is_Some (P !! o)) ->
  exists release P', pn_steps pn' = pn_steps pn ++ [with_release s release] /\ run_pass stages P (with_release s release) = Ok P' /\
    planes_agree (<[st_id s := g]> V) (pn_planes pn') P' /\ forall o, o ∈ outs -> is_Some (<[st_id s := g]> V !! o) -> is_Some (P' !! o).
Proof.
  intros H Hi Hag Hs Hfresh Hout. unfold plan_step in H. cbn zeta in H. destruct (MAX_PLANES <? _); [discriminate H|].
  destruct (bind_pass stages s (pn_planes pn)) as [source|] eqn:Hb; [|discriminate H]. cbn [bind] in H.
  destruct (compile_grid source) as [c|] eqn:Hc; [|discriminate H]. cbn [bind] in H.
  destruct (releases last i _) as [release|] eqn:Hrel; [|discriminate H]. cbn [bind] in H.
  destruct (drop_planes _ release) as [P0'|] eqn:Hdrop; [|discriminate H]. cbn [bind] in H. apply Ok_inj in H as <-. cbn [pn_steps pn_planes].
  pose proof Hs as (ops & _ & _ & _ & _ & Hsh & _ & [Hd1 Hd2] & Hgok).
  destruct (release_ok_step _ _ _ _ _ _ _ _ _ g Hrel Hi Hdrop Hag Hfresh ltac:(by split) ltac:(by apply zero_plane_ok) Hout) as (P' & HP' & HagP & Hout').
  exists release, P'. split; [done|]. split; [by rewrite (run_pass_ok _ _ _ _ _ _ _ Hag Hs Hb Hc)|]. by split.
Qed.

Lemma plan_ok steps V pn :
  valued st_id step_ok steps V -> Z.of_nat (length steps) <= len ->
  foldM (plan_step stages literals last) (Planner ∅ [] literals []) (enumerate steps) = Ok pn ->
  exists P, foldM (run_pass stages) ∅ (pn_steps pn) = Ok P /\ planes_agree V (pn_planes pn) P /\
    forall o, o ∈ outs -> is_Some (V !! o) -> is_Some (P !! o).
Proof.
  intros Hv. revert pn. induction Hv as [|steps V s g Hv IH Hs Hid]; intros pn Hl H.
  - cbn in H. apply Ok_inj in H as <-. exists ∅. split_and!; [done| |done]. intros x. left. by rewrite !lookup_empty.
  - rewrite length_app in Hl. cbn in Hl. rewrite enumerate_snoc, foldM_app in H.
    destruct (foldM _ _ (enumerate steps)) as [pn1|] eqn:E1; [|discriminate H]. cbn [bind foldM] in H.
    destruct (plan_step _ _ _ pn1 _) as [pn2|] eqn:E2; [|discriminate H]. cbn [bind] in H. apply Ok_inj in H as ->.
    destruct (IH pn1 ltac:(lia) eq_refl) as (P & Hrun & Hag & Hout).
    destruct (plan_step_ok _ _ _ _ _ _ _ E2 ltac:(lia) Hag Hs ltac:(rewrite Hid; by eapply valued_fresh) Hout) as (release & P' & Hsteps & Hrp & Hag' & Hout').
    exists P'. split_and!; [|done|done]. rewrite Hsteps, foldM_app, Hrun. cbn [bind foldM]. by rewrite Hrp.
Qed.
End planning.
End values.

Lemma last_uses_output steps outs o : o ∈ outs -> last_uses steps outs !! o = Some (Z.of_nat (length steps)).
Proof.
  unfold last_uses. generalize (foldl (fun m ix => foldl (fun m ref => <[ref := ix.1]> m) m ix.2.2)
    (foldl (fun m ix => <[ix.2.1 := ix.1]> m) (∅ : gmap string Z) (enumerate steps)) (enumerate steps)). intros m Ho.
  assert (Hgen : forall l m, o ∉ l -> foldl (fun m o => <[o := Z.of_nat (length steps)]> m) m l !! o = (m : gmap string Z) !! o).
  { clear. induction l as [|x l IH]; intros m Hx; [done|]. cbn [foldl]. rewrite not_elem_of_cons in Hx. destruct Hx. rewrite IH by done. by rewrite lookup_insert_ne. }
  revert m. induction outs as [|x l IH]; intros m; [by apply elem_of_nil in Ho|]. cbn [foldl].
  destruct (decide (o ∈ l)) as [Hl|Hl]; [by apply IH|]. rewrite Hgen by done. apply elem_of_cons in Ho as [->|Ho]; [apply lookup_insert_eq|done].
Qed.

(** The planes of the outputs are there and are the reference's. *)
Lemma publish_ok V P0 P results outputs names outs :
  planes_agree V P0 P -> traverse (fun n => let* r := name_of results n in Ok (n, r)) names = Ok outs ->
  (forall n, n ∈ names -> exists r g, results !! n = Some r /\ V !! r = Some g /\ outputs !! n = Some g) ->
  (forall o, o ∈ outs -> is_Some (V !! o.2) -> is_Some (P !! o.2)) ->
  exists l, traverse (fun n => let* g := plane_of outputs n in Ok (n, g)) names = Ok l /\
    traverse (fun o : string * string => let* g := plane_of P o.2 in Ok (o.1, g)) outs = Ok l.
Proof.
  intros Hag Ho%traverse_Ok HG HF. induction Ho as [|n o l l' Hno _ IH]; [by exists []|].
  destruct (HG n) as (r & g & Hr & Hv & Hg); [left|]. destruct IH as (t & Ht1 & Ht2); [intros; apply HG; by right|intros; apply HF; [by right|done]|].
  cbn beta in Hno. unfold name_of in Hno. rewrite Hr in Hno. cbn in Hno. apply Ok_inj in Hno as <-.
  destruct (HF (n, r) ltac:(left) ltac:(by eexists)) as [g' Hp]. cbn in Hp. destruct (Hag r) as [[_ Hnone]|(g0 & g'' & _ & Hp' & Hv' & _)]; [congruence|].
  assert (g' = g) as -> by congruence. exists ((n, g) :: t). cbn [traverse]. unfold plane_of at 1 3. cbn [snd fst]. rewrite Hg, Hp. cbn [from_option_err bind].
  by rewrite Ht1, Ht2.
Qed.

(** C1. A program that compiles has a reference, and running its plan (every
    pass bound, tiled, run, assembled and compared with its oracle, planes
    released when the plan says) returns the reference's outputs; no comparison
    with an oracle fails and no released plane is used. *)
Theorem array_run_correct value plan :
  compile_array value = Ok plan -> exists outs, array_reference value = Ok outs /\ run_array value = Ok outs.
Proof.
  unfold compile_array, array_reference, run_array. intros H. destruct (structure value) as [p|] eqn:Hst; [|discriminate H]. cbn [bind] in *. rewrite H. cbn [bind].
  apply structure_ok in Hst as [Hstages Hnd Hord Hall Houts]. unfold compile_program in H.
  destruct (foldM _ _ (pr_order p)) as [[e results]|] eqn:He; [|discriminate H]. cbn [bind] in H.
  destruct (traverse _ (pr_outputs p)) as [outs|] eqn:Ho; [|discriminate H]. cbn [bind] in H. cbn zeta in H.
  destruct (foldM _ _ (enumerate (em_steps e))) as [pn|] eqn:Hpn; [|discriminate H]. cbn [bind] in H. apply Ok_inj in H as <-.
  destruct (emit_order_ok _ Hstages (pr_order p) (Emitter [] 0 0) ∅ ∅ ∅ [] e results) as (V & outputs & Href & Hv & Hres); [constructor|by intros ? ?%elem_of_nil|done|done|].
  destruct (plan_ok _ Hstages _ _ (map snd outs) (Z.of_nat (length (em_steps e))) ltac:(intros o Hin; rewrite last_uses_output by done; by rewrite length_map) _ _ _ Hv ltac:(lia) Hpn) as (P & Hrun & Hag & Hout).
  unfold run_program, reference_program. cbn [ap_passes]. rewrite Href, Hrun. cbn [bind].
  destruct (publish_ok V (pn_planes pn) P results outputs (pr_outputs p) outs Hag Ho) as (l & Hl1 & Hl2).
  { intros n Hn. destruct (Hres n) as (r & g & ? & ? & ? & _); [by apply Hall, Houts|]. by exists r, g. }
  { intros o Hin. apply Hout. apply list_elem_of_fmap. by exists o. }
  unfold publish. cbn [ap_outputs]. rewrite Hl1, Hl2. cbn [bind]. exists l. rewrite bool_decide_true by done. done.
Qed.

Lemma array_run_correct_witness :
  exists plan, compile_array array_example = Ok plan /\ run_array array_example = Ok [("b", Grid 2 2 [23; 25; 29; 31]); ("a", Grid 2 2 [23; 25; 29; 31])].
Proof.
  destruct (compile_array array_example) as [plan|] eqn:E; [|vm_compute in E; discriminate E].
  exists plan. split; [reflexivity|]. destruct (array_run_correct _ _ E) as (outs & Hr & Ho).
  rewrite array_example_reference in Hr. injection Hr as <-. exact Ho.
Defined.
