(* ===== verification/Flow.v ===== *)
(** * Whole-grid flows and tile plans

    [raveil/mf01_flow.py]: a flow is a DAG of grid sources linked by stage names;
    [compile] admits the stages in order on zero words, [reference] evaluates
    them, and a run feeds the committed grid of a stage to the stages that name
    it. [raveil/mf01_grid_plan.py] searches the 256 uniform tiles of a source. *)

From S2P Require Import Prelude PyValue Json AffineFold FoldDag Project Grid GridRun Array.

Definition FLOW_SCHEMA : string := "raveil.mf01-flow/v1".

(** ** Admission *)

(** [d[k] = v] on a dictionary that has [k], or a new last member. *)
Fixpoint dset (k : string) (v : pyval) (d : dict) : dict :=
  match d with
  | [] => [(k, v)]
  | (k', v') :: d => if String.eqb k k' then (k', v) :: d else (k', v') :: dset k v d
  end.

(** The dependency of one input. *)
Definition flow_dependency (item : pyval) : res (list string) :=
  match item with
  | VDict d =>
      match dget "from" d with
      | Some from =>
          match keys_are d ["from"], from with
          | true, VStr _ => let* n := name from in Ok [n]
          | _, _ => fail "invalid flow link"
          end
      | None => Ok []
      end
  | _ => Ok []
  end.

(** An admitted stage: its source and the names it reads. *)
Record flow_stage := FlowStage { fw_source : dict; fw_inputs : list pyval; fw_deps : list string }.

(** One iteration of [for stage in value['stages']]. *)
Definition flow_entry (stages : list (string * flow_stage)) (value : pyval) : res (list (string * flow_stage)) :=
  match value with
  | VDict d =>
      raise_if negb (keys_are d ["name"; "source"]) with "invalid flow stage" in
      let* n := dsub d "name" in
      match n with
      | VStr _ =>
          let* n := name n in
          let* source := dsub d "source" in
          raise_if bool_decide (n ∈ map fst stages) with "duplicate flow stage" in
          let error {A} : res A := fail "flow stage requires grid source inputs" in
          match source with
          | VDict s =>
              match dget "inputs" s with
              | Some (VList inputs) =>
                  raise_if negb (bool_decide (1 <= Z.of_nat (length inputs) <= 2)) with "flow stage requires grid source inputs" in
                  let* deps := traverse flow_dependency inputs in
                  Ok (stages ++ [(n, FlowStage s inputs (concat deps))])
              | _ => error
              end
          | _ => error
          end
      | _ => fail "invalid flow stage"
      end
  | _ => fail "invalid flow stage"
  end.

Definition find_flow (stages : list (string * flow_stage)) (n : string) : option flow_stage :=
  snd <$> List.find (fun ns => String.eqb ns.1 n) stages.
Definition flow_deps (stages : list (string * flow_stage)) (n : string) : list string :=
  match find_flow stages n with Some s => fw_deps s | None => [] end.

(** [while pending: ...]: the least ready name each round. *)
Fixpoint flow_order (fuel : nat) (deps : string -> list string) (pending order : list string) : res (list string) :=
  match pending with
  | [] => Ok order
  | _ =>
      match fuel with
      | O => Err OutOfFuel
      | S fuel =>
          match sort_names (List.filter (fun n => forallb (fun d => negb (bool_decide (d ∈ pending))) (deps n)) pending) with
          | [] => fail "cyclic flow dependencies"
          | n :: _ => flow_order fuel deps (List.filter (fun m => negb (String.eqb m n)) pending) (order ++ [n])
          end
      end
  end.

(** [structure]'s stages, order and the checked outputs. *)
Record flow := FlowProgram { fl_stages : list (string * flow_stage); fl_order : list string; fl_outputs : list string }.

(** [structure] *)
Definition flow_structure (value : pyval) : res flow :=
  let error {A} : res A := fail "flow requires1..8 named stages and outputs" in
  match value with
  | VDict d =>
      raise_if negb (keys_are d ["schema"; "stages"; "outputs"]) with "flow requires1..8 named stages and outputs" in
      let* schema := dsub d "schema" in let* stages := dsub d "stages" in let* outputs := dsub d "outputs" in
      match stages, outputs with
      | VList stages, VList outputs =>
          raise_if negb (is_str schema FLOW_SCHEMA) || negb (bool_decide (1 <= Z.of_nat (length stages) <= 8)) ||
                   negb (bool_decide (1 <= Z.of_nat (length outputs) <= 8))
          with "flow requires1..8 named stages and outputs" in
          let* stages := foldM flow_entry [] stages in
          match mapM (known_name (map fst stages)) outputs with
          | None => fail "unknown flow output"
          | Some outputs =>
              raise_if negb (bool_decide (NoDup outputs)) with "duplicate flow output" in
              raise_if existsb (fun ns : string * flow_stage => existsb (fun n => negb (bool_decide (n ∈ map fst stages))) (fw_deps ns.2)) stages
              with "unknown flow producer" in
              let* order := flow_order (length stages) (flow_deps stages) (map fst stages) [] in
              Ok (FlowProgram stages order outputs)
          end
      | _, _ => error
      end
  | _ => error
  end.

(** ** Materialization *)

(** One input: a link becomes the producer's grid. *)
Definition materialize_input (outputs : planes) (item : pyval) : res pyval :=
  match item with
  | VDict d =>
      if keys_are d ["from"] then
        let* from := dsub d "from" in
        match from with
        | VStr n => let* g := plane_of outputs n in Ok (grid_doc (gr_rows g) (gr_columns g) (gr_words g))
        | _ => Err KeyError
        end
      else Ok item
  | _ => Ok item
  end.

(** [materialize] *)
Definition materialize (s : flow_stage) (outputs : planes) : res pyval :=
  let* inputs := traverse (materialize_input outputs) (fw_inputs s) in
  Ok (VDict (dset "inputs" (VList inputs) (fw_source s))).

(** ** Planning *)

Record flow_row := FlowRow { fr_name : string; fr_deps : list string; fr_shape : Z * Z; fr_sessions : Z; fr_jobs : Z }.

(** The jobs of an item's session. *)
Definition dag_jobs (dag : pyval) : res (list pyval) :=
  match dag with
  | VDict d => let* jobs := dsub d "jobs" in match jobs with VList l => Ok l | _ => Err TypeError end
  | _ => Err TypeError
  end.
Definition count_jobs (items : list (string * pyval)) : res Z :=
  foldM (fun n (item : string * pyval) => let* jobs := dag_jobs item.2 in Ok (n + Z.of_nat (length jobs))) 0 items.

Record flow_planner := FlowPlanner { fp_planes : planes; fp_sessions : Z; fp_jobs : Z; fp_rows : list flow_row }.

(** One iteration of [for name in order]. *)
Definition plan_flow_stage (stages : list (string * flow_stage)) (st : flow_planner) (n : string) : res flow_planner :=
  let* s := from_option_err KeyError (find_flow stages n) in
  let* source := materialize s (fp_planes st) in
  let* lowered := compile_grid source in
  let shape := (cg_rows lowered, cg_columns lowered) in
  let count := Z.of_nat (length (cg_items lowered)) in
  let* jobs := count_jobs (cg_items lowered) in
  let sessions := fp_sessions st + count in
  let jobs_ := fp_jobs st + jobs in
  raise_if (16 <? sessions) || (128 <? jobs_) with "flow exceeds16 sessions or128 jobs" in
  Ok (FlowPlanner (<[n := Grid shape.1 shape.2 (zeros (shape.1 * shape.2))]> (fp_planes st)) sessions jobs_
        (fp_rows st ++ [FlowRow n (sort_names (remove_dups (fw_deps s))) shape count jobs])).

Record flow_plan := FlowPlan { fq_order : list string; fq_rows : list flow_row; fq_outputs : list string; fq_sessions : Z; fq_jobs : Z }.

Definition compile_flow_program (f : flow) : res flow_plan :=
  let* st := foldM (plan_flow_stage (fl_stages f)) (FlowPlanner ∅ 0 0 []) (fl_order f) in
  Ok (FlowPlan (fl_order f) (fp_rows st) (fl_outputs f) (fp_sessions st) (fp_jobs st)).

(** [compile] *)
Definition compile_flow (value : pyval) : res flow_plan := let* f := flow_structure value in compile_flow_program f.

(** ** The reference and a run *)

(** One iteration of [for stage in plan['stages']], the words of the stage from
    [words_of]: the grid oracle in [reference], the committed result in a run. *)
Definition flow_stage_output (words_of : pyval -> res (list Z)) (stages : list (string * flow_stage)) (outputs : planes) (row : flow_row) : res planes :=
  let* s := from_option_err KeyError (find_flow stages (fr_name row)) in
  let* source := materialize s outputs in
  let* words := words_of source in
  Ok (<[fr_name row := Grid (fr_shape row).1 (fr_shape row).2 words]> outputs).

Definition flow_outputs (words_of : pyval -> res (list Z)) (f : flow) (plan : flow_plan) : res (list (string * grid)) :=
  let* outputs := foldM (flow_stage_output words_of (fl_stages f)) ∅ (fq_rows plan) in
  traverse (fun n => let* g := plane_of outputs n in Ok (n, g)) (fq_outputs plan).

(** [reference] *)
Definition flow_reference (value : pyval) : res (list (string * grid)) :=
  let* f := flow_structure value in let* plan := compile_flow_program f in flow_outputs grid_reference f plan.

(** A stage of a run: compiled, run, assembled. *)
Definition run_source (source : pyval) : res (list Z) := let* c := compile_grid source in run_grid c.
Definition run_flow (value : pyval) : res (list (string * grid)) :=
  let* f := flow_structure value in let* plan := compile_flow_program f in flow_outputs run_source f plan.

(** ** Tile plans ([mf01_grid_plan.py]) *)

(** [sessions], [words], area, [rows], [columns]: Python compares them in order. *)
Definition tile_score : Type := list Z.
Fixpoint lex_lt (a b : list Z) : bool :=
  match a, b with
  | x :: a, y :: b => if x =? y then lex_lt a b else x <? y
  | _, _ => false
  end.

(** [item['dag']['jobs'][0]['region']['lengths']], summed. *)
Definition packed_words (item : string * pyval) : res Z :=
  let* jobs := dag_jobs item.2 in
  let* job := py_index jobs 0 in
  match job with
  | VDict j =>
      let* region := dsub j "region" in
      match region with
      | VDict r =>
          let* lengths := dsub r "lengths" in
          match lengths with
          | VList l => foldM (fun n v => let* z := as_int v in Ok (n + z)) 0 l
          | _ => Err TypeError
          end
      | _ => Err TypeError
      end
  | _ => Err TypeError
  end.

Record tile_search := TileSearch { ts_best : option (tile_score * (Z * Z)); ts_admitted : Z; ts_rejected : list (string * Z) }.

(** [rejections[reason] = rejections.get(reason, 0) + 1] *)
Fixpoint count_reason (reason : string) (l : list (string * Z)) : list (string * Z) :=
  match l with
  | [] => [(reason, 1)]
  | (r, n) :: l => if String.eqb r reason then (r, n + 1) :: l else (r, n) :: count_reason reason l
  end.

Definition with_tile (d : dict) (tile : Z * Z) : pyval := VDict (dset "tile" (words_val [tile.1; tile.2]) d).

Definition score_of (c : compiled_grid) (tile : Z * Z) : res tile_score :=
  let* words := foldM (fun n item => let* w := packed_words item in Ok (n + w)) 0 (cg_items c) in
  Ok [Z.of_nat (length (cg_layout c)); words; tile.1 * tile.2; tile.1; tile.2].

(** One candidate of the search. *)
Definition try_tile (d : dict) (st : tile_search) (tile : Z * Z) : res tile_search :=
  match compile_grid (with_tile d tile) with
  | Err (ValueError reason) => Ok (TileSearch (ts_best st) (ts_admitted st) (count_reason reason (ts_rejected st)))
  | Err e => Err e
  | Ok c =>
      let* score := score_of c tile in
      let best := match ts_best st with
                  | Some (s, t) => if lex_lt score s then Some (score, tile) else Some (s, t)
                  | None => Some (score, tile)
                  end in
      Ok (TileSearch best (ts_admitted st + 1) (ts_rejected st))
  end.

Definition candidates : list (Z * Z) := concat (map (fun r => map (fun c => (r, c)) (zrange 1 17)) (zrange 1 17)).

Record tile_plan := TilePlan { tq_requested : Z * Z; tq_admitted : Z; tq_score : tile_score; tq_tile : Z * Z; tq_rejected : list (string * Z) }.

(** [plan] *)
Definition plan_tiles (value : pyval) : res tile_plan :=
  match value with
  | VDict d =>
      let* requested := integer_pair "two requested tile dimensions required" (default VNone (dget "tile" d)) 1 16 in
      let* _ := source (with_tile d (16, 16)) in
      let* st := foldM (try_tile d) (TileSearch None 0 []) candidates in
      match ts_best st with
      | None => fail ("no admitted uniform tile among 256 candidates: " +:+ String.concat "; " (sort_names (map fst (ts_rejected st))))
      | Some (score, tile) => Ok (TilePlan requested (ts_admitted st) score tile (sort_keys (ts_rejected st)))
      end
  | _ => fail "grid source must be an object"
  end.

Definition flow_example : pyval :=
  let source input := VDict [("schema", VStr "raveil.mf01-grid/v2"); ("inputs", VList [input]); ("shape", words_val [2; 3]); ("tile", words_val [2; 2]);
    ("boundary", VStr "wrap"); ("kernel", VDict [("extent", VInt 2); ("fold", VStr "sum");
       ("views", VDict [("x", view_doc 0 (0, 0) (0, 1) (1, 0) (0, 1))]); ("nodes", VList [MapSyntax.node_val (MapSyntax.NLoad "p" "x")]); ("result", VStr "p")])] in
  VDict [("schema", VStr FLOW_SCHEMA); ("outputs", VList [VStr "second"]);
    ("stages", VList [VDict [("name", VStr "second"); ("source", source (VDict [("from", VStr "first")]))];
                      VDict [("name", VStr "first"); ("source", source (grid_doc 2 3 [1; 2; 3; 4; 5; 6]))]])].

Example flow_example_reference : flow_reference flow_example = Ok [("second", Grid 2 3 [8; 9; 7; 20; 21; 19])].
Proof. vm_compute. reflexivity. Qed.

(** Sixteen tiles cover 64 rows of 60 columns with two of the 256 partitions. *)
Definition tiles_example : pyval :=
  VDict [("schema", VStr "raveil.mf01-grid/v2"); ("inputs", VList [grid_doc 1 1 [7]]); ("shape", words_val [64; 60]); ("tile", words_val [2; 2]);
    ("boundary", VStr "clamp"); ("kernel", VDict [("extent", VInt 1); ("fold", VStr "sum");
       ("views", VDict [("x", view_doc 0 (0, 0) (0, 1) (1, 0) (0, 1))]); ("nodes", VList [MapSyntax.node_val (MapSyntax.NLoad "p" "x")]); ("result", VStr "p")])].
