(* ===== verification/FlowRun.v ===== *)
(** * Runs of flows, and the tile search

    A flow that is admitted on zero words runs stage by stage to its reference;
    the tile search returns the least of all admitted tiles. *)

From S2P Require Import Prelude PyValue Json MapSyntax AffineFold Project Grid GridFacts GridRun GridWords Array ArrayFacts ArrayRun Flow.

(** ** Materialized sources *)

Lemma dget_dset_eq k v d : dget k (dset k v d) = Some v.
Proof. induction d as [|[k' v'] d IH]; cbn; [by rewrite String.eqb_refl|]. destruct (String.eqb_spec k k') as [->|Hne]; cbn; [by rewrite String.eqb_refl|]. by rewrite (proj2 (String.eqb_neq k k')). Qed.
Lemma dget_dset_ne k k' v d : k' <> k -> dget k' (dset k v d) = dget k' d.
Proof.
  intros Hne. induction d as [|[k2 v2] d IH]; cbn.
  - by rewrite (proj2 (String.eqb_neq k' k)).
  - destruct (String.eqb_spec k k2) as [->|H2]; cbn; [by rewrite (proj2 (String.eqb_neq k' k2))|]. by rewrite IH.
Qed.
Lemma keys_dset k v d : is_Some (dget k d) -> keys (dset k v d) = keys d.
Proof.
  unfold keys. intros H. induction d as [|[k' v'] d IH]; cbn in *; [by destruct H|]. destruct (String.eqb_spec k k') as [->|Hne]; [done|]. cbn. by rewrite IH.
Qed.

(** Planes of the planner and of the run: the same names and dimensions. *)
Definition flow_agree (P0 P : planes) : Prop :=
  forall x, (P0 !! x = None /\ P !! x = None) \/ exists g0 g, P0 !! x = Some g0 /\ P !! x = Some g /\ same_dims g0 g /\ grid_ok g0 /\ grid_ok g.

Lemma materialize_input_agree P0 P item v0 :
  flow_agree P0 P -> materialize_input P0 item = Ok v0 ->
  exists v, materialize_input P item = Ok v /\ forall g, read_grid v0 = Ok g -> exists g', read_grid v = Ok g' /\ same_dims g g'.
Proof.
  intros Hag H. unfold materialize_input in *.
  assert (Hsame : forall v, exists v', Ok v = Ok v' /\ forall g, read_grid v = Ok g -> exists g', read_grid v' = Ok g' /\ same_dims g g').
  { intros v. exists v. split; [done|]. intros g Hg. exists g. split; [done|by split]. }
  destruct item as [| | | | | |d]; try (apply Ok_inj in H as <-; apply Hsame).
  destruct (keys_are d ["from"]); [|apply Ok_inj in H as <-; apply Hsame].
  destruct (dsub d "from") as [from|]; [|discriminate H]. cbn [bind] in *. destruct from as [| | | |n| |]; try discriminate H.
  unfold plane_of in *. destruct (Hag n) as [[H0 _]|(g0 & g & H0 & -> & Hd & Hg0 & Hg)]; rewrite H0 in H; [discriminate H|]. cbn [from_option_err bind] in *.
  apply Ok_inj in H as <-. eexists. split; [reflexivity|]. intros g1 Hg1. unfold read_grid in Hg1. rewrite (read_grid_doc g0 Hg0) in Hg1. apply Ok_inj in Hg1 as <-.
  exists g. split; [|done]. unfold read_grid. by apply read_grid_doc.
Qed.

Lemma materialize_agree P0 P s v0 c :
  flow_agree P0 P -> dget "inputs" (fw_source s) = Some (VList (fw_inputs s)) -> materialize s P0 = Ok v0 -> compile_grid v0 = Ok c ->
  exists v c', materialize s P = Ok v /\ compile_grid v = Ok c' /\ cg_rows c' = cg_rows c /\ cg_columns c' = cg_columns c.
Proof.
  intros Hag Hi H Hc. unfold materialize in *. destruct (traverse (materialize_input P0) _) as [ins|] eqn:E; [|discriminate H]. cbn [bind] in H. apply Ok_inj in H as <-.
  assert (Hex : exists ins', traverse (materialize_input P) (fw_inputs s) = Ok ins' /\
    Forall2 (fun v v' => forall g, read_grid v = Ok g -> exists g', read_grid v' = Ok g' /\ same_dims g g') ins ins').
  { apply traverse_Ok in E. clear -E Hag. induction E as [|item v0 l l' Hv _ IH]; [by exists []|].
    destruct IH as (ins' & Hi & Hf). destruct (materialize_input_agree _ _ _ _ Hag Hv) as (v & Hv' & Hr).
    exists (v :: ins'). cbn [traverse]. rewrite Hv'. cbn [bind]. rewrite Hi. split; [done|by constructor]. }
  destruct Hex as (ins' & Hins & Hf). exists (VDict (dset "inputs" (VList ins') (fw_source s))). rewrite Hins. cbn [bind].
  destruct (compile_replaced (dset "inputs" (VList ins) (fw_source s)) (dset "inputs" (VList ins') (fw_source s)) ins ins' c) as (c' & Hc' & ? & ? & _); [|done|done|by exists c'].
  split_and!.
  - apply dget_dset_eq.
  - apply dget_dset_eq.
  - intros k Hk. by rewrite !dget_dset_ne.
  - intros l. unfold keys_are. rewrite !keys_dset; [done|by eexists..].
Qed.

(** ** The run of a flow *)

(** The order lists every pending stage. *)
Lemma flow_order_all deps fuel pending order out :
  flow_order fuel deps pending order = Ok out -> forall n, n ∈ out <-> n ∈ order \/ n ∈ pending.
Proof.
  revert pending order. induction fuel as [|fuel IH]; intros pending order H n.
  - destruct pending; [|discriminate H]. apply Ok_inj in H as <-. rewrite elem_of_nil. tauto.
  - destruct pending as [|p0 pending']; [apply Ok_inj in H as <-; rewrite elem_of_nil; tauto|]. set (pending := p0 :: pending') in *.
    change (match sort_names (List.filter (fun n => forallb (fun d => negb (bool_decide (d ∈ pending))) (deps n)) pending) with
      | [] => fail "cyclic flow dependencies"
      | n :: _ => flow_order fuel deps (List.filter (fun m => negb (String.eqb m n)) pending) (order ++ [n]) end = Ok out) in H.
    destruct (sort_names _) as [|m rest] eqn:Hready; [discriminate H|].
    assert (Hm : m ∈ sort_names (List.filter (fun n => forallb (fun d => negb (bool_decide (d ∈ pending))) (deps n)) pending)) by (rewrite Hready; left).
    apply elem_of_sort_names, list_elem_of_In, filter_In in Hm as [Hm _]. apply list_elem_of_In in Hm.
    rewrite (IH _ _ H), elem_of_app, list_elem_of_singleton, (list_elem_of_In (List.filter _ _)), filter_In, negb_true_iff, String.eqb_neq, <- list_elem_of_In.
    destruct (decide (n = m)) as [->|]; tauto.
Qed.

Lemma flow_entries_inputs l stages stages' :
  foldM flow_entry stages l = Ok stages' -> (forall n s, (n, s) ∈ stages -> dget "inputs" (fw_source s) = Some (VList (fw_inputs s))) ->
  forall n s, (n, s) ∈ stages' -> dget "inputs" (fw_source s) = Some (VList (fw_inputs s)).
Proof.
  revert stages. induction l as [|v l IH]; intros stages H Hok; cbn [foldM] in H; [by apply Ok_inj in H as <-|].
  destruct (flow_entry stages v) as [st|] eqn:E; [|discriminate H]. cbn [bind] in H. eapply IH; [exact H|]. clear IH H.
  unfold flow_entry in E. destruct v as [| | | | | |d]; try discriminate E. destruct (negb (keys_are d _)); [discriminate E|].
  destruct (dsub d "name") as [[| | | |nm| |]|]; try discriminate E. cbn [bind] in E. destruct (name (VStr nm)) as [n0|]; [|discriminate E]. cbn [bind] in E.
  destruct (dsub d "source") as [source|]; [|discriminate E]. cbn [bind] in E. destruct (bool_decide _); [discriminate E|]. cbn zeta in E.
  destruct source as [| | | | | |s0]; try discriminate E. destruct (dget "inputs" s0) as [[| | | | |ins|]|] eqn:Hi; try discriminate E.
  destruct (negb (bool_decide _)); [discriminate E|]. destruct (traverse _ ins); [|discriminate E]. cbn [bind] in E. apply Ok_inj in E as <-.
  intros n s [Hin|[= -> ->]%list_elem_of_singleton]%elem_of_app; [by eapply Hok|exact Hi].
Qed.

(** What [flow_structure] checked. *)
Lemma flow_structure_Ok value f : flow_structure value = Ok f ->
  exists sl ol, foldM flow_entry [] sl = Ok (fl_stages f) /\ mapM (known_name (map fst (fl_stages f))) ol = Some (fl_outputs f) /\
    flow_order (length (fl_stages f)) (flow_deps (fl_stages f)) (map fst (fl_stages f)) [] = Ok (fl_order f).
Proof.
  intros H. unfold flow_structure in H. destruct value as [| | | | | |d]; try discriminate H. destruct (negb (keys_are d _)); [discriminate H|]. res_peel H.
  match type of H with (match ?v with _ => _ end) = Ok _ => destruct v as [| | | | |sl|] end; try discriminate H.
  match type of H with (match ?v with _ => _ end) = Ok _ => destruct v as [| | | | |ol|] end; try discriminate H.
  destruct (_ || _); [discriminate H|]. destruct (foldM flow_entry [] sl) as [stages|] eqn:Hst; [|discriminate H]. cbn [bind] in H.
  destruct (mapM _ ol) as [outs|] eqn:Ho; [|discriminate H]. destruct (negb (bool_decide (NoDup outs))); [discriminate H|]. destruct (existsb _ stages); [discriminate H|].
  destruct (flow_order _ _ _ _) as [order|] eqn:Eo; [|discriminate H]. cbn [bind] in H. apply Ok_inj in H as <-. by exists sl, ol.
Qed.

Lemma flow_structure_order value f n : flow_structure value = Ok f -> n ∈ fl_outputs f -> n ∈ fl_order f.
Proof.
  intros (sl & ol & _ & Ho & Hord)%flow_structure_Ok Hn. apply (flow_order_all _ _ _ _ _ Hord). right. by eapply mapM_known.
Qed.

Lemma flow_structure_inputs value f : flow_structure value = Ok f -> forall n s, find_flow (fl_stages f) n = Some s -> dget "inputs" (fw_source s) = Some (VList (fw_inputs s)).
Proof.
  intros (sl & ol & Hst & _)%flow_structure_Ok n s Hs.
  unfold find_flow in Hs. destruct (List.find _ _) as [[m s']|] eqn:E; [|discriminate Hs]. injection Hs as ->. apply find_some in E as [Hin _].
  eapply flow_entries_inputs; [exact Hst|by intros ? ? ?%elem_of_nil|]. by apply list_elem_of_In.
Qed.

Section run.
Context (stages : list (string * flow_stage))
  (Hinputs : forall n s, find_flow stages n = Some s -> dget "inputs" (fw_source s) = Some (VList (fw_inputs s))).

Lemma flow_stages_run order st st' P :
  foldM (plan_flow_stage stages) st order = Ok st' -> flow_agree (fp_planes st) P ->
  exists rows P', fp_rows st' = fp_rows st ++ rows /\ flow_agree (fp_planes st') P' /\
    foldM (flow_stage_output grid_reference stages) P rows = Ok P' /\ foldM (flow_stage_output run_source stages) P rows = Ok P' /\
    map fr_name rows = order /\ forall x, is_Some (P' !! x) <-> is_Some (P !! x) \/ x ∈ order.
Proof.
  revert st P. induction order as [|n order IH]; intros st P H Hag; cbn [foldM] in H.
  - apply Ok_inj in H as <-. exists [], P. rewrite app_nil_r. split_and!; try done. intros x. rewrite elem_of_nil. tauto.
  - destruct (plan_flow_stage stages st n) as [st1|] eqn:E; [|discriminate H]. cbn [bind] in H. unfold plan_flow_stage in E.
    destruct (find_flow stages n) as [s|] eqn:Hs; [|discriminate E]. cbn [from_option_err bind] in E.
    destruct (materialize s (fp_planes st)) as [v0|] eqn:Hm; [|discriminate E]. cbn [bind] in E. destruct (compile_grid v0) as [c|] eqn:Hc; [|discriminate E]. cbn [bind] in E. cbn zeta in E.
    destruct (count_jobs _) as [jobs|]; [|discriminate E]. cbn [bind] in E. destruct (_ || _); [discriminate E|]. apply Ok_inj in E as <-.
    destruct (materialize_agree _ _ _ _ _ Hag (Hinputs _ _ Hs) Hm Hc) as (v & c' & Hv & Hc' & Hr & Hcol).
    destruct (grid_run_agree _ _ Hc') as (out & Href & Hrun). pose proof (grid_output_ok _ _ _ Hc' Href) as Hok. rewrite Hr, Hcol in Hok.
    set (row := FlowRow n (sort_names (remove_dups (fw_deps s))) (cg_rows c, cg_columns c) (Z.of_nat (length (cg_items c))) jobs) in *.
    set (g := Grid (cg_rows c) (cg_columns c) out) in *.
    edestruct IH as (rows & P' & Hrows & Hag' & H1 & H2 & H3 & H4); [exact H| |].
    { cbn [fp_planes fst snd]. instantiate (1 := <[n := g]> P). intros x. destruct (decide (x = n)) as [->|Hne].
      - right. eexists _, g. rewrite !lookup_insert_eq. split_and!; [done|done|by split| |done]. apply (zero_plane_ok (cg_rows c, cg_columns c)). destruct Hok. by split.
      - rewrite !lookup_insert_ne by done. apply Hag. }
    assert (Hrow : forall words_of, words_of v = Ok out -> flow_stage_output words_of stages P row = Ok (<[n := g]> P)).
    { intros words_of Hw. unfold flow_stage_output. cbn [fr_name fr_shape row]. rewrite Hs. cbn [from_option_err bind]. rewrite Hv. cbn [bind]. by rewrite Hw. }
    exists (row :: rows), P'. cbn [fp_rows] in Hrows. rewrite <- app_assoc in Hrows. split_and!; [done|done|..].
    + cbn [foldM]. by rewrite (Hrow grid_reference Href).
    + cbn [foldM]. rewrite (Hrow run_source); [done|]. unfold run_source. by rewrite Hc'.
    + cbn. by rewrite H3.
    + intros x. rewrite H4, elem_of_cons, lookup_insert_is_Some'. split; [intros [[->|?]|?]; auto|]. intros [?|[->|?]]; auto.
Qed.
End run.

(** Admission on zero words carries over to the words of the reference and of a run. *)
Lemma flow_compiled_runs value plan :
  compile_flow value = Ok plan -> exists outs, flow_reference value = Ok outs /\ run_flow value = Ok outs.
Proof.
  unfold compile_flow, flow_reference, run_flow. intros H. destruct (flow_structure value) as [f|] eqn:Hf; [|discriminate H]. cbn [bind] in *. rewrite H. cbn [bind].
  pose proof (flow_structure_inputs _ _ Hf) as Hin. unfold compile_flow_program in H.
  destruct (foldM _ _ (fl_order f)) as [st|] eqn:E; [|discriminate H]. cbn [bind] in H. apply Ok_inj in H as <-.
  destruct (flow_stages_run _ Hin _ _ _ ∅ E) as (rows & P & Hrows & Hag & H1 & H2 & H3 & H4); [intros x; left; by rewrite !lookup_empty|].
  unfold flow_outputs. cbn [fq_rows fq_outputs]. cbn [fp_rows app] in Hrows. rewrite Hrows, H1, H2. cbn [bind].
  enough (Hpub : exists outs, traverse (fun n => let* g := plane_of P n in Ok (n, g)) (fl_outputs f) = Ok outs) by (destruct Hpub as [outs ->]; by exists outs).
  destruct (traverse_total (fun _ => True) (fun n => let* g := plane_of P n in Ok (n, g)) (fl_outputs f)) as (outs & Ho & _); [|by exists outs].
  intros n Hn. assert (Hp : is_Some (P !! n)). { apply H4. right. by eapply flow_structure_order. }
  destruct Hp as [g Hg]. unfold plane_of. rewrite Hg. by eexists.
Qed.

(** C5. An admitted flow has a reference, and running its stages in order, each
    compiled, tiled, run and assembled on the grids its producers committed,
    gives the same named outputs. *)
Theorem flow_run_correct value plan :
  compile_flow value = Ok plan -> exists outs, flow_reference value = Ok outs /\ run_flow value = Ok outs.
Proof. apply flow_compiled_runs. Qed.

Lemma flow_run_correct_witness : exists plan, compile_flow flow_example = Ok plan /\ exists outs, flow_reference flow_example = Ok outs /\ run_flow flow_example = Ok outs.
Proof.
  assert (H : exists plan, compile_flow flow_example = Ok plan) by (vm_compute; eexists; reflexivity).
  destruct H as [plan H]. exists plan. split; [exact H|]. apply (flow_run_correct _ _ H).
Defined.

(** ** The tile search *)

Lemma lex_lt_trans a b c : lex_lt a b = true -> lex_lt b c = true -> lex_lt a c = true.
Proof.
  revert b c. induction a as [|x a IH]; intros [|y b] [|z c]; cbn; try done.
  destruct (Z.eqb_spec x y), (Z.eqb_spec y z), (Z.eqb_spec x z); subst; try lia; rewrite ?Z.ltb_lt; try lia. apply IH.
Qed.
Lemma lex_lt_irrefl a : lex_lt a a = false.
Proof. induction a as [|x a IH]; cbn; [done|]. by rewrite Z.eqb_refl. Qed.

Definition total (l : list (string * Z)) : Z := foldr Z.add 0 (map snd l).
Lemma total_count reason l : total (count_reason reason l) = total l + 1.
Proof.
  unfold total. induction l as [|[r n] l IH]; cbn; [done|]. destruct (String.eqb r reason); cbn; [lia|]. rewrite IH. lia.
Qed.
Lemma total_sort l : total (sort_keys l) = total l.
Proof.
  assert (Hins : forall x l, total (insert_key x l) = x.2 + total l).
  { unfold total. intros x l0. induction l0 as [|y l0 IH]; cbn; [done|]. destruct (_ : bool); cbn in *; [done|]. rewrite IH. lia. }
  unfold sort_keys. induction l as [|x l IH]; [done|]. cbn [foldr]. rewrite Hins, IH. done.
Qed.

(** A tile that the grid compiler admits, with its score. *)
Definition admitted (d : dict) (tile : Z * Z) (score : tile_score) : Prop :=
  exists c, compile_grid (with_tile d tile) = Ok c /\ score_of c tile = Ok score.

Record search_ok (d : dict) (seen : list (Z * Z)) (st : tile_search) : Prop := {
  sr_best : forall score tile, ts_best st = Some (score, tile) -> tile ∈ seen /\ admitted d tile score;
  sr_least : forall tile score, tile ∈ seen -> admitted d tile score ->
    exists score' tile', ts_best st = Some (score', tile') /\ lex_lt score score' = false;
  sr_count : ts_admitted st = Z.of_nat (length (List.filter (fun t => match compile_grid (with_tile d t) with Ok _ => true | Err _ => false end) seen));
  sr_total : ts_admitted st + total (ts_rejected st) = Z.of_nat (length seen);
}.

Lemma try_tile_ok d seen st tile st' : search_ok d seen st -> try_tile d st tile = Ok st' -> search_ok d (seen ++ [tile]) st'.
Proof.
  intros [Hb Hl Hc Ht] H. unfold try_tile in H. destruct (compile_grid (with_tile d tile)) as [c|e] eqn:E.
  - destruct (score_of c tile) as [score|] eqn:Hs; [|discriminate H]. cbn [bind] in H. apply Ok_inj in H as <-.
    assert (Hadm : admitted d tile score) by (by exists c).
    assert (Huniq : forall s, admitted d tile s -> s = score).
    { intros s (c' & Hc' & Hs'). rewrite E in Hc'. apply Ok_inj in Hc' as <-. rewrite Hs in Hs'. by apply Ok_inj in Hs' as <-. }
    split; cbn [ts_best ts_admitted ts_rejected].
    + intros s t H. rewrite elem_of_app, list_elem_of_singleton. destruct (ts_best st) as [[s0 t0]|] eqn:Hbest.
      * destruct (lex_lt score s0); injection H as <- <-; [by auto|]. destruct (Hb _ _ eq_refl). by auto.
      * injection H as <- <-. by auto.
    + intros t s Hin Hs'. rewrite elem_of_app, list_elem_of_singleton in Hin. destruct (ts_best st) as [[s0 t0]|] eqn:Hbest.
      * destruct (lex_lt score s0) eqn:Hlt; (eexists _, _; split; [reflexivity|]); destruct Hin as [Hin| ->].
        -- destruct (Hl _ _ Hin Hs') as (? & ? & [= <- <-] & Hn). apply not_true_iff_false. intros Hlt'. apply not_true_iff_false in Hn. apply Hn. by eapply lex_lt_trans.
        -- rewrite (Huniq _ Hs'). apply lex_lt_irrefl.
        -- destruct (Hl _ _ Hin Hs') as (? & ? & [= <- <-] & Hn). done.
        -- by rewrite (Huniq _ Hs').
      * eexists _, _. split; [reflexivity|]. destruct Hin as [Hin| ->]; [|rewrite (Huniq _ Hs'); apply lex_lt_irrefl].
        destruct (Hl _ _ Hin Hs') as (? & ? & ? & _). done.
    + rewrite List.filter_app, length_app. cbn [List.filter]. rewrite E. cbn [length]. lia.
    + rewrite length_app. cbn [length]. lia.
  - assert (H' : exists r, st' = TileSearch (ts_best st) (ts_admitted st) (count_reason r (ts_rejected st))).
    { destruct e; try discriminate H. apply Ok_inj in H as <-. by eexists. }
    destruct H' as [r ->]. split; cbn [ts_best ts_admitted ts_rejected].
    + intros s t Hst. destruct (Hb _ _ Hst). rewrite elem_of_app. by auto.
    + intros t s Hin Hs. rewrite elem_of_app, list_elem_of_singleton in Hin. destruct Hin as [Hin| ->]; [by eapply Hl|].
      destruct Hs as (c & Hc' & _). by rewrite E in Hc'.
    + rewrite List.filter_app, length_app. cbn [List.filter]. rewrite E. cbn [length]. lia.
    + rewrite length_app, total_count. cbn [length]. lia.
Qed.

Lemma search_tiles_ok d l seen st st' : search_ok d seen st -> foldM (try_tile d) st l = Ok st' -> search_ok d (seen ++ l) st'.
Proof.
  revert seen st. induction l as [|t l IH]; intros seen st Hok H; cbn [foldM] in H; [apply Ok_inj in H as <-; by rewrite app_nil_r|].
  destruct (try_tile d st t) as [st1|] eqn:E; [|discriminate H]. cbn [bind] in H. change (t :: l) with ([t] ++ l). rewrite (assoc_L (++)).
  eapply IH; [by eapply try_tile_ok|exact H].
Qed.

(** What the loop of [plan_tiles] ends with. *)
Lemma plan_tiles_search value plan :
  plan_tiles value = Ok plan -> exists d st, value = VDict d /\ foldM (try_tile d) (TileSearch None 0 []) candidates = Ok st /\ search_ok d candidates st /\
    ts_best st = Some (tq_score plan, tq_tile plan) /\ tq_admitted plan = ts_admitted st /\ tq_rejected plan = sort_keys (ts_rejected st).
Proof.
  intros H. unfold plan_tiles in H. destruct value as [| | | | | |d]; try discriminate H.
  destruct (integer_pair _ _ _ _) as [req|]; [|discriminate H]. cbn [bind] in H. destruct (source _); [|discriminate H]. cbn [bind] in H.
  destruct (foldM _ _ candidates) as [st|] eqn:E; [|discriminate H]. cbn [bind] in H. exists d, st. split; [done|]. split; [done|].
  apply (search_tiles_ok d candidates []) in E; [|split; by try intros ? ? ?%elem_of_nil]. split; [done|].
  destruct (ts_best st) as [[score tile]|]; [|discriminate H]. by apply Ok_inj in H as <-.
Qed.

(** C7. The tile plan is one of the 256 uniform tiles, the grid compiler admits
    it with the score of the plan, no admitted tile scores less, and the counts
    of admitted tiles and of rejections are exact. *)
Theorem plan_tiles_correct value plan :
  plan_tiles value = Ok plan -> exists d, value = VDict d /\
    tq_tile plan ∈ candidates /\ admitted d (tq_tile plan) (tq_score plan) /\
    (forall tile score, tile ∈ candidates -> admitted d tile score -> lex_lt score (tq_score plan) = false) /\
    tq_admitted plan = Z.of_nat (length (List.filter (fun t => match compile_grid (with_tile d t) with Ok _ => true | Err _ => false end) candidates)) /\
    tq_admitted plan + total (tq_rejected plan) = 256.
Proof.
  intros (d & st & -> & _ & [Hb Hl Hc Ht] & Hbest & -> & ->)%plan_tiles_search. exists d. destruct (Hb _ _ Hbest) as [Hin Hadm].
  split_and!; [done|done|done| |done|by rewrite total_sort]. intros t s Ht' Hs. destruct (Hl _ _ Ht' Hs) as (? & ? & Heq & ?). rewrite Hbest in Heq. by injection Heq as <- <-.
Qed.

Lemma plan_tiles_correct_witness : exists plan, plan_tiles tiles_example = Ok plan /\ tq_tile plan = (16, 15) /\ tq_admitted plan + total (tq_rejected plan) = 256.
Proof.
  assert (H : exists plan, plan_tiles tiles_example = Ok plan /\ tq_tile plan = (16, 15)) by (vm_compute; eexists; split; reflexivity).
  destruct H as (plan & H & Ht). exists plan. split; [exact H|]. split; [exact Ht|].
  destruct (plan_tiles_correct _ _ H) as (d & _ & _ & _ & _ & _ & Hsum). exact Hsum.
Defined.
