(* ===== verification/FlowPlan.v ===== *)
(** * Tile plans of flows ([raveil/mf01_flow_plan.py])

    [plan_flow_tiles] runs the tile search on every stage of a flow, in the order of
    the flow and on zero words for the links, writes the tile of each proposal
    into the stage's source and compiles the flow it gets. [flow_plan_preserves]:
    that flow has the outputs of the one given and needs no more sessions. *)

From S2P Require Import Prelude PyValue Json MapSyntax AffineFold Project Grid GridFacts GridRun GridWords Array ArrayFacts ArrayRun Flow FlowRun.

(** ** The plan *)

(** A row of [stages]: [selected] is the tile with its sessions and words. *)
Record tile_row := TileRow { tw_name : string; tw_requested : Z * Z; tw_admitted : Z; tw_tile : Z * Z; tw_sessions : Z; tw_packed : Z }.

(** [by_name[name]['source']['tile'] = tile], on one stage of the document. *)
Definition set_stage_tile (n : string) (tile : Z * Z) (stage : pyval) : pyval :=
  match stage with
  | VDict e =>
      match dget "name" e, dget "source" e with
      | Some (VStr m), Some (VDict s) => if String.eqb m n then VDict (dset "source" (with_tile s tile) e) else stage
      | _, _ => stage
      end
  | _ => stage
  end.

(** The variables of the loop: [placeholders], the stages of [selected], [rows]. *)
Record advisor := Advisor { ad_planes : planes; ad_selected : list pyval; ad_rows : list tile_row }.

(** [grid.source(proposal['source'])]: its shape. *)
Definition proposed_shape (resolved : pyval) (tile : Z * Z) : res (Z * Z) :=
  match resolved with VDict d => let* s := source (with_tile d tile) in Ok (gs_shape s) | _ => Err TypeError end.

(** One iteration of [for name in order]. *)
Definition advise_stage (stages : list (string * flow_stage)) (st : advisor) (n : string) : res advisor :=
  let* s := from_option_err KeyError (find_flow stages n) in
  let* resolved := materialize s (ad_planes st) in
  let* proposal := plan_tiles resolved in
  let tile := tq_tile proposal in
  let* shape := proposed_shape resolved tile in
  let score := tq_score proposal in
  Ok (Advisor (<[n := Grid shape.1 shape.2 (zeros (shape.1 * shape.2))]> (ad_planes st)) (map (set_stage_tile n tile) (ad_selected st))
        (ad_rows st ++ [TileRow n (tq_requested proposal) (tq_admitted proposal) tile (at_ 0 score 0) (at_ 0 score 1)])).

Record flow_tile_plan := FlowTilePlan { fz_sessions : Z; fz_jobs : Z; fz_packed : Z; fz_rows : list tile_row; fz_source : pyval }.

(** [plan] *)
Definition plan_flow_tiles (value : pyval) : res flow_tile_plan :=
  let* f := flow_structure value in
  match value with
  | VDict d =>
      let* stages := dsub d "stages" in
      match stages with
      | VList stages =>
          let* st := foldM (advise_stage (fl_stages f)) (Advisor ∅ stages []) (fl_order f) in
          let selected := VDict (dset "stages" (VList (ad_selected st)) d) in
          let* compiled := compile_flow selected in
          Ok (FlowTilePlan (fq_sessions compiled) (fq_jobs compiled) (foldr Z.add 0 (map tw_packed (ad_rows st))) (ad_rows st) selected)
      | _ => Err TypeError
      end
  | _ => Err TypeError
  end.

(** One stage of 64 rows of 60 columns, which only two of the 256 tiles cut into
    sixteen. *)
Definition flow_plan_example : pyval :=
  VDict [("schema", VStr FLOW_SCHEMA); ("outputs", VList [VStr "only"]);
    ("stages", VList [VDict [("name", VStr "only"); ("source", match tiles_example with VDict d => with_tile d (16, 16) | v => v end)]])].

(** ** Sources that differ in their tile *)

Lemma dset_comm k v k' v' d : k <> k' -> is_Some (dget k d) -> is_Some (dget k' d) -> dset k v (dset k' v' d) = dset k' v' (dset k v d).
Proof.
  intros Hne Hk Hk'. induction d as [|[j w] d IH]; cbn in *; [by destruct Hk|].
  destruct (String.eqb_spec k' j) as [->|Hj'], (String.eqb_spec k j) as [->|Hj]; cbn; rewrite ?String.eqb_refl.
  - done.
  - by rewrite (proj2 (String.eqb_neq k j)).
  - by rewrite (proj2 (String.eqb_neq k' j)).
  - rewrite (proj2 (String.eqb_neq k j)), (proj2 (String.eqb_neq k' j)) by done. by rewrite IH.
Qed.
Lemma dset_same k v d : dget k d = Some v -> dset k v d = d.
Proof. induction d as [|[j w] d IH]; cbn; [done|]. destruct (String.eqb_spec k j) as [->|Hne]; [by intros [= ->]|]. intros H. by rewrite IH. Qed.

Definition set_tile (s : gsource) (tile : Z * Z) : gsource :=
  GSource (gs_version s) (gs_grids s) (gs_shape s) tile (gs_boundary s) (gs_extent s) (gs_fold s) (gs_views s) (gs_nodes s) (gs_result s) (gs_post s).

Lemma source_has_tile d s : source (VDict d) = Ok s -> exists v, dget "tile" d = Some v /\ integer_pair "two tile dimensions required" v 1 16 = Ok (gs_tile s).
Proof.
  unfold source. intros H. destruct (source_schema d); [|discriminate H]. cbn zeta in H. destruct (negb (keys_are d _)); [discriminate H|]. res_peel H.
  match type of H with (match ?v with _ => _ end) = Ok _ => destruct v as [| | | | |inputs|] end; try discriminate H.
  res_peel H. apply Ok_inj in H as <-. cbn [gs_tile]. unfold dsub in *.
  destruct (dget "tile" d) as [v|] eqn:Ht; [|discriminate]. exists v. split; [done|]. match goal with E : from_option_err _ (Some v) = Ok _ |- _ => apply Ok_inj in E as -> end. done.
Qed.

(** Admission reads the tile last of what it needs for nothing else. *)
Lemma source_set_tile d s s' tile : source (VDict d) = Ok s -> source (with_tile d tile) = Ok s' -> s' = set_tile s (gs_tile s').
Proof.
  intros H H'. destruct (source_has_tile _ _ H) as (v & Hv & _). unfold with_tile, source in *.
  assert (Hk : forall k, k <> "tile" -> dget k (dset "tile" (words_val [tile.1; tile.2]) d) = dget k d) by (intros; by apply dget_dset_ne).
  assert (Hs : source_schema (dset "tile" (words_val [tile.1; tile.2]) d) = source_schema d) by (unfold source_schema; by rewrite Hk).
  assert (Hkeys : forall l, keys_are (dset "tile" (words_val [tile.1; tile.2]) d) l = keys_are d l) by (intros; unfold keys_are; by rewrite keys_dset by by eexists).
  rewrite Hs in H'. destruct (source_schema d) as [version|]; [|discriminate H]. cbn zeta in *. rewrite Hk, Hkeys in H' by done.
  destruct (negb (keys_are d _)); [discriminate H|]. unfold dsub in *. rewrite !Hk in H' by done.
  destruct (if _ || _ then _ else Ok None) as [post|]; [|discriminate H]. cbn [bind] in *.
  destruct (from_option_err KeyError (dget "inputs" d)) as [[| | | | |inputs|]|]; try discriminate H. cbn [bind] in *. destruct (negb (bool_decide _)); [discriminate H|].
  destruct (traverse _ inputs) as [grids|]; [|discriminate H]. cbn [bind] in *. destruct (negb (negb (version =? 1)) && _); [discriminate H|].
  destruct (if negb (version =? 1) then _ else _) as [shape|]; [|discriminate H]. cbn [bind] in *. destruct (integer_pair _ shape _ _) as [shape'|]; [|discriminate H]. cbn [bind] in *.
  res_peel H. res_peel H'.
  repeat match goal with
         | E : context [dget ?k (dset "tile" ?v d)] |- _ => lazymatch type of E with context [dget "tile" _] => fail | _ => rewrite (Hk k) in E by done end
         | A : ?x = Ok ?a, B : ?x = Ok ?b |- _ => rewrite A in B; apply Ok_inj in B; simplify_eq
         end.
  done.
Qed.

(** The oracle does not look at the tile. *)
Lemma grid_reference_tile d tile w w' : grid_reference (VDict d) = Ok w -> grid_reference (with_tile d tile) = Ok w' -> w' = w.
Proof.
  unfold grid_reference. intros H H'. destruct (source (VDict d)) as [s|] eqn:Hs; [|discriminate H]. destruct (source (with_tile d tile)) as [s'|] eqn:Hs'; [|discriminate H'].
  cbn [bind] in *. rewrite (source_set_tile _ _ _ _ Hs Hs') in H'. destruct (compile_source s); [|discriminate H]. destruct (compile_source (set_tile _ _)); [|discriminate H'].
  cbn [bind] in *. change (reference_source (set_tile s (gs_tile s'))) with (reference_source s) in H'. congruence.
Qed.

Lemma compile_grid_dims v c : compile_grid v = Ok c -> exists s, source v = Ok s /\ gs_shape s = (cg_rows c, cg_columns c).
Proof.
  unfold compile_grid. intros H. destruct (source v) as [s|] eqn:Hs; [|discriminate H]. cbn [bind] in H. exists s. split; [done|].
  unfold compile_source in H. destruct (gs_shape s). res_peel H. by apply Ok_inj in H as <-.
Qed.
Lemma compile_grid_places v c : compile_grid v = Ok c -> length (cg_items c) = length (cg_layout c).
Proof. unfold compile_grid, compile_source. intros H. res_peel H. apply Ok_inj in H as <-. cbn [cg_items cg_layout]. by rewrite !length_map. Qed.

(** ** The stages of the selected flow *)

(** [set_stage_tile] on an admitted stage. *)
Definition retile (tile : Z * Z) (s : flow_stage) : flow_stage := FlowStage (dset "tile" (words_val [tile.1; tile.2]) (fw_source s)) (fw_inputs s) (fw_deps s).
Definition retile_stage (n : string) (tile : Z * Z) (ns : string * flow_stage) : string * flow_stage := (ns.1, if String.eqb ns.1 n then retile tile ns.2 else ns.2).
Definition retile_stages (n : string) (tile : Z * Z) : list (string * flow_stage) -> list (string * flow_stage) := map (retile_stage n tile).
Definition retile_rows (rows : list tile_row) (stages : list (string * flow_stage)) : list (string * flow_stage) :=
  foldl (fun st r => retile_stages (tw_name r) (tw_tile r) st) stages rows.

Lemma retile_names n tile stages : map fst (retile_stages n tile stages) = map fst stages.
Proof. unfold retile_stages. by rewrite map_map. Qed.

Lemma flow_entry_retile n tile stages v stages' :
  flow_entry stages v = Ok stages' -> flow_entry (retile_stages n tile stages) (set_stage_tile n tile v) = Ok (retile_stages n tile stages').
Proof.
  intros H. unfold flow_entry in H. destruct v as [| | | | | |e]; try discriminate H. destruct (negb (keys_are e _)) eqn:Hk; [discriminate H|]. unfold dsub in H.
  destruct (dget "name" e) as [vn|] eqn:Hn; [|discriminate H]. cbn [from_option_err bind] in H. destruct vn as [| | | |m0| |]; try discriminate H.
  destruct (name (VStr m0)) as [m|] eqn:Hm; [|discriminate H]. cbn [bind] in H. apply name_Ok in Hm as Hm'. injection Hm' as ->.
  destruct (dget "source" e) as [vs|] eqn:Hs; [|discriminate H]. cbn [from_option_err bind] in H. destruct (bool_decide (m ∈ map fst stages)) eqn:Hd; [discriminate H|].
  cbn zeta in H. destruct vs as [| | | | | |s]; try discriminate H. destruct (dget "inputs" s) as [[| | | | |ins|]|] eqn:Hi; try discriminate H.
  destruct (negb (bool_decide _)) eqn:Hl; [discriminate H|]. destruct (traverse _ ins) as [deps|] eqn:Hdeps; [|discriminate H]. cbn [bind] in H. apply Ok_inj in H as <-.
  cbn [set_stage_tile]. rewrite Hn, Hs. unfold retile_stages. rewrite map_app. cbn [map retile_stage fst snd]. fold (retile_stages n tile stages).
  destruct (String.eqb m n) eqn:Hmn; unfold flow_entry, dsub.
  - unfold keys_are in *. rewrite keys_dset by by eexists. rewrite Hk, dget_dset_ne, Hn by done. cbn [from_option_err bind]. rewrite Hm. cbn [bind].
    rewrite dget_dset_eq. cbn [from_option_err bind]. rewrite retile_names, Hd. unfold with_tile. rewrite dget_dset_ne, Hi, Hl by done. rewrite Hdeps. cbn [bind]. unfold retile_stage. cbn [fst snd]. by rewrite Hmn.
  - rewrite Hk, Hn. cbn [from_option_err bind]. rewrite Hm. cbn [bind]. rewrite Hs. cbn [from_option_err bind]. rewrite retile_names, Hd. cbn zeta. rewrite Hi, Hl, Hdeps. cbn [bind]. unfold retile_stage. cbn [fst snd]. by rewrite Hmn.
Qed.

Lemma flow_entries_retile n tile l stages stages' :
  foldM flow_entry stages l = Ok stages' -> foldM flow_entry (retile_stages n tile stages) (map (set_stage_tile n tile) l) = Ok (retile_stages n tile stages').
Proof.
  revert stages. induction l as [|v l IH]; intros stages H; cbn [foldM map] in *; [by apply Ok_inj in H as <-|].
  destruct (flow_entry stages v) as [st|] eqn:E; [|discriminate H]. cbn [bind] in H. rewrite (flow_entry_retile _ _ _ _ _ E). cbn [bind]. by apply IH.
Qed.

Lemma retile_deps n tile stages m : flow_deps (retile_stages n tile stages) m = flow_deps stages m.
Proof.
  unfold flow_deps, find_flow, retile_stages. induction stages as [|[k s] l IH]; [done|]. cbn. destruct (String.eqb k m); [|exact IH]. cbn. by destruct (String.eqb k n).
Qed.

Lemma flow_order_ext fuel deps deps' pending order : (forall n, deps n = deps' n) -> flow_order fuel deps pending order = flow_order fuel deps' pending order.
Proof.
  intros Hd. revert pending order. induction fuel as [|fuel IH]; intros pending order; [done|]. cbn [flow_order]. destruct pending as [|p l]; [done|].
  rewrite (List.filter_ext (fun n => forallb (fun d => negb (bool_decide (d ∈ p :: l))) (deps n)) (fun n => forallb (fun d => negb (bool_decide (d ∈ p :: l))) (deps' n))) by (intros; by rewrite Hd).
  destruct (sort_names _); [done|]. apply IH.
Qed.

(** Admission of the document with one tile set. *)
Lemma flow_structure_retile n tile d l f :
  dget "stages" d = Some (VList l) -> flow_structure (VDict d) = Ok f ->
  flow_structure (VDict (dset "stages" (VList (map (set_stage_tile n tile) l)) d)) = Ok (FlowProgram (retile_stages n tile (fl_stages f)) (fl_order f) (fl_outputs f)).
Proof.
  intros Hl H. unfold flow_structure in *. unfold keys_are in *. rewrite keys_dset by by eexists. destruct (negb _); [discriminate H|]. unfold dsub in *.
  rewrite dget_dset_ne by done. rewrite Hl in H. rewrite dget_dset_eq. rewrite dget_dset_ne by done.
  destruct (dget "schema" d) as [schema|]; [|discriminate H]. cbn [from_option_err bind] in *. destruct (dget "outputs" d) as [outputs|]; [|discriminate H]. cbn [from_option_err bind] in *.
  destruct outputs as [| | | | |ol|]; try discriminate H. rewrite length_map. destruct (_ || _); [discriminate H|].
  destruct (foldM flow_entry [] l) as [stages|] eqn:Hst; [|discriminate H]. cbn [bind] in H. pose proof (flow_entries_retile n tile _ _ _ Hst) as Hst'.
  change (retile_stages n tile []) with (@nil (string * flow_stage)) in Hst'. rewrite Hst'. cbn [bind].
  rewrite retile_names. destruct (mapM _ ol) as [outs|]; [|discriminate H]. destruct (negb _); [discriminate H|].
  assert (existsb (fun ns : string * flow_stage => existsb (fun n => negb (bool_decide (n ∈ map fst stages))) (fw_deps ns.2)) (retile_stages n tile stages) =
          existsb (fun ns : string * flow_stage => existsb (fun n => negb (bool_decide (n ∈ map fst stages))) (fw_deps ns.2)) stages) as ->.
  { generalize (map fst stages) as names. clear. intros names. unfold retile_stages. induction stages as [|[m s] st IH]; [done|]. cbn [map existsb retile_stage fst snd]. rewrite IH. by destruct (String.eqb m n). }
  destruct (existsb _ stages); [discriminate H|]. unfold retile_stages at 1. rewrite length_map. rewrite (flow_order_ext _ _ (flow_deps stages)) by (intros; apply retile_deps).
  destruct (flow_order _ _ _ _) as [order|]; [|discriminate H]. cbn [bind] in *. by apply Ok_inj in H as <-.
Qed.

Lemma find_retile n tile stages m : find_flow (retile_stages n tile stages) m = (fun s => if String.eqb m n then retile tile s else s) <$> find_flow stages m.
Proof.
  unfold find_flow, retile_stages. induction stages as [|[k s] l IH]; [done|]. cbn. destruct (String.eqb_spec k m) as [->|]; [done|]. exact IH.
Qed.

Lemma find_retile_rows rows stages m s r :
  NoDup (map tw_name rows) -> r ∈ rows -> tw_name r = m -> find_flow stages m = Some s -> find_flow (retile_rows rows stages) m = Some (retile (tw_tile r) s).
Proof.
  intros Hnd Hr Hm Hs. revert stages Hs. unfold retile_rows. induction rows as [|q rows IH]; intros stages Hs; [by apply elem_of_nil in Hr|].
  cbn [foldl map] in *. apply NoDup_cons in Hnd as [Hq Hnd]. apply elem_of_cons in Hr as [->|Hr].
  - assert (Hf : find_flow (retile_stages (tw_name q) (tw_tile q) stages) m = Some (retile (tw_tile q) s)) by (rewrite find_retile, Hs, Hm, String.eqb_refl; done).
    clear IH Hs. revert Hf. generalize (retile_stages (tw_name q) (tw_tile q) stages) (retile (tw_tile q) s). clear -Hq Hm.
    induction rows as [|p rows IH]; intros st s Hs; [done|]. cbn [foldl]. cbn [map] in Hq. apply not_elem_of_cons in Hq as [Hp Hq]. apply IH; [done|].
    rewrite find_retile, Hs. cbn. by rewrite (proj2 (String.eqb_neq m (tw_name p))) by congruence.
  - apply IH; [done|done|]. rewrite find_retile, Hs. cbn. rewrite (proj2 (String.eqb_neq m (tw_name q))); [done|]. intros Heq. apply Hq. rewrite <- Heq, <- Hm. apply list_elem_of_fmap. by exists r.
Qed.

(** ** The loop *)

Lemma dset_dset k v v' d : dset k v (dset k v' d) = dset k v d.
Proof. induction d as [|[j w] d IH]; cbn; [by rewrite String.eqb_refl|]. destruct (String.eqb_spec k j) as [->|Hne]; cbn; [by rewrite String.eqb_refl|]. by rewrite (proj2 (String.eqb_neq k j)), IH. Qed.

Lemma advise_rows stages order st st' d f :
  foldM (advise_stage stages) st order = Ok st' -> flow_structure (VDict (dset "stages" (VList (ad_selected st)) d)) = Ok f ->
  exists rows, ad_rows st' = ad_rows st ++ rows /\ map tw_name rows = order /\
    flow_structure (VDict (dset "stages" (VList (ad_selected st')) d)) = Ok (FlowProgram (retile_rows rows (fl_stages f)) (fl_order f) (fl_outputs f)).
Proof.
  revert st f. induction order as [|n order IH]; intros st f H Hf; cbn [foldM] in H.
  - apply Ok_inj in H as <-. exists []. rewrite app_nil_r. split_and!; [done|done|]. destruct f. exact Hf.
  - destruct (advise_stage stages st n) as [st1|] eqn:E; [|discriminate H]. cbn [bind] in H. unfold advise_stage in E.
    destruct (find_flow stages n) as [s|]; [|discriminate E]. cbn [from_option_err bind] in E. destruct (materialize _ _) as [resolved|]; [|discriminate E]. cbn [bind] in E.
    destruct (plan_tiles resolved) as [proposal|]; [|discriminate E]. cbn [bind] in E. cbn zeta in E. destruct (proposed_shape _ _) as [shape|]; [|discriminate E]. cbn [bind] in E. apply Ok_inj in E as <-.
    set (row := TileRow _ _ _ _ _ _) in H. destruct (IH _ (FlowProgram (retile_stages n (tq_tile proposal) (fl_stages f)) (fl_order f) (fl_outputs f)) H) as (rows & Hrows & Hn & Hs).
    + cbn [ad_selected]. pose proof (flow_structure_retile n (tq_tile proposal) _ (ad_selected st) f (dget_dset_eq _ _ _) Hf) as Hr. by rewrite dset_dset in Hr.
    + exists (row :: rows). cbn [ad_rows] in Hrows. rewrite Hrows, <- app_assoc. split_and!; [done| |exact Hs]. cbn [map]. by rewrite Hn.
Qed.

Lemma flow_order_NoDup deps fuel pending order out :
  flow_order fuel deps pending order = Ok out -> NoDup order -> (forall n, n ∈ order -> n ∉ pending) -> NoDup out.
Proof.
  revert pending order. induction fuel as [|fuel IH]; intros pending order H Hnd Hdis; (destruct pending as [|p0 pending']; cbn [flow_order] in H; [by apply Ok_inj in H as <-|]); [discriminate H|].
  destruct (sort_names _) as [|m rest] eqn:Hready; [discriminate H|].
  assert (Hm : m ∈ p0 :: pending').
  { assert (Hin : m ∈ m :: rest) by left. rewrite <- Hready in Hin. apply elem_of_sort_names, list_elem_of_In, filter_In in Hin as [Hin _]. by apply list_elem_of_In. }
  apply (IH _ _ H).
  - apply NoDup_app. split_and!; [done| |apply NoDup_singleton]. intros x Hx ->%list_elem_of_singleton. by eapply Hdis.
  - intros n [Hn| ->%list_elem_of_singleton]%elem_of_app Hin; apply list_elem_of_In, filter_In in Hin as [Hin Hne].
    + apply (Hdis n Hn). by apply list_elem_of_In.
    + by rewrite String.eqb_refl in Hne.
Qed.

(** ** The tile of a stage *)

Lemma tries_scored d l st st' tile c : foldM (try_tile d) st l = Ok st' -> tile ∈ l -> compile_grid (with_tile d tile) = Ok c -> exists score, score_of c tile = Ok score.
Proof.
  revert st. induction l as [|t l IH]; intros st H Hin Hc; [by apply elem_of_nil in Hin|]. cbn [foldM] in H. destruct (try_tile d st t) as [st1|] eqn:E; [|discriminate H]. cbn [bind] in H.
  apply elem_of_cons in Hin as [->|Hin]; [|by eapply IH]. unfold try_tile in E. rewrite Hc in E. destruct (score_of c t) as [score|]; [by eexists|discriminate E].
Qed.

Lemma score_sessions c tile score : score_of c tile = Ok score -> exists l, score = Z.of_nat (length (cg_layout c)) :: l.
Proof. unfold score_of. intros H. res_peel H. apply Ok_inj in H as <-. by eexists. Qed.

Lemma in_candidates tile : 1 <= tile.1 <= 16 -> 1 <= tile.2 <= 16 -> tile ∈ candidates.
Proof.
  intros H1 H2. destruct tile as [r c]. unfold candidates. apply elem_of_concat_map. exists r. split; [apply elem_of_zrange; cbn in H1; lia|].
  apply list_elem_of_fmap. exists c. split; [done|]. apply elem_of_zrange. cbn in H2. lia.
Qed.

Lemma own_tile d s : source (VDict d) = Ok s -> with_tile d (gs_tile s) = VDict d /\ gs_tile s ∈ candidates.
Proof.
  intros H. destruct (source_has_tile _ _ H) as (v & Hv & Hp). split.
  - unfold with_tile. f_equal. apply dset_same. rewrite Hv. destruct v as [| | | | |[|x [|y [|]]]|]; try discriminate Hp. cbn [integer_pair] in Hp. unfold Grid.integer, int_in in Hp.
    destruct x as [| |a| | | |]; try discriminate Hp. destruct (bool_decide _); [|discriminate Hp]. cbn [from_option_err bind] in Hp.
    destruct y as [| |b| | | |]; try discriminate Hp. destruct (bool_decide _); [|discriminate Hp]. apply Ok_inj in Hp. by rewrite <- Hp.
  - pose proof (so_tile _ (source_Ok _ _ H)) as [? ?]. apply in_candidates; lia.
Qed.

(** The tile of the proposal is admitted, at no more sessions than the source's own. *)
Lemma proposal_sessions d plan :
  plan_tiles (VDict d) = Ok plan -> exists c, compile_grid (with_tile d (tq_tile plan)) = Ok c /\ at_ 0 (tq_score plan) 0 = Z.of_nat (length (cg_layout c)) /\
    forall c0, compile_grid (VDict d) = Ok c0 -> Z.of_nat (length (cg_layout c)) <= Z.of_nat (length (cg_layout c0)).
Proof.
  intros H. destruct (plan_tiles_search _ _ H) as (d' & st & [= <-] & Hst & [Hb Hl _ _] & Hbest & _). destruct (Hb _ _ Hbest) as [_ (c & Hc & Hs)].
  destruct (score_sessions _ _ _ Hs) as [l Hscore]. exists c. split; [done|]. rewrite Hscore. split; [done|]. intros c0 Hc0.
  pose proof Hc0 as Hsrc. unfold compile_grid in Hsrc. destruct (source (VDict d)) as [s|] eqn:Es; [|discriminate Hsrc]. destruct (own_tile _ _ Es) as [Hown Hin].
  rewrite <- Hown in Hc0. destruct (tries_scored _ _ _ _ _ _ Hst Hin Hc0) as [score0 Hs0]. destruct (score_sessions _ _ _ Hs0) as [l0 Hscore0].
  destruct (Hl _ _ Hin (ex_intro _ c0 (conj Hc0 Hs0))) as (score' & tile' & Hbest' & Hlt). rewrite Hbest in Hbest'. injection Hbest' as <- <-. rewrite Hscore, Hscore0 in Hlt. cbn [lex_lt] in Hlt.
  destruct (Z.eqb_spec (Z.of_nat (length (cg_layout c0))) (Z.of_nat (length (cg_layout c)))) as [->|]; [done|]. lia.
Qed.

(** ** Both flows *)

Lemma materialize_retile tile s P v : is_Some (dget "tile" (fw_source s)) -> dget "inputs" (fw_source s) = Some (VList (fw_inputs s)) ->
  materialize s P = Ok v -> exists d, v = VDict d /\ materialize (retile tile s) P = Ok (with_tile d tile).
Proof.
  intros Ht Hi H. unfold materialize in *. cbn [retile fw_inputs fw_source]. destruct (traverse _ _) as [ins|]; [|discriminate H]. cbn [bind] in *. apply Ok_inj in H as <-.
  eexists. split; [done|]. unfold with_tile. do 2 f_equal. apply dset_comm; [done|by eexists|done].
Qed.

(** A materialized source keeps the tile of its stage. *)
Lemma materialized_tile s P d : materialize s P = Ok (VDict d) -> dget "tile" d = dget "tile" (fw_source s).
Proof. unfold materialize. intros H. destruct (traverse _ _); [|discriminate H]. cbn [bind] in H. apply Ok_inj in H. injection H as <-. by apply dget_dset_ne. Qed.

Section both.
Context (stages stages' : list (string * flow_stage))
  (Hinputs : forall n s, find_flow stages n = Some s -> dget "inputs" (fw_source s) = Some (VList (fw_inputs s))).

Definition same_row (r r' : flow_row) : Prop := fr_name r = fr_name r' /\ fr_shape r = fr_shape r'.

(** Stage by stage, the two flows are planned on the same planes. *)
Lemma plans_agree order ad ad' s s' t t' :
  foldM (advise_stage stages) ad order = Ok ad' ->
  (forall n st, n ∈ order -> find_flow stages n = Some st -> exists r, r ∈ ad_rows ad' /\ tw_name r = n /\ find_flow stages' n = Some (retile (tw_tile r) st)) ->
  NoDup (map tw_name (ad_rows ad')) ->
  foldM (plan_flow_stage stages) s order = Ok s' -> fp_planes s = ad_planes ad ->
  foldM (plan_flow_stage stages') t order = Ok t' -> fp_planes t = ad_planes ad ->
  exists rows rows', fp_rows s' = fp_rows s ++ rows /\ fp_rows t' = fp_rows t ++ rows' /\ Forall2 same_row rows rows' /\ map fr_name rows = order /\
    fp_sessions t' - fp_sessions t <= fp_sessions s' - fp_sessions s.
Proof.
  intros Had Hst Hnd Hs Hps Ht Hpt. revert ad s t Had Hst Hs Hps Ht Hpt. induction order as [|n order IH]; intros ad s t Had Hst Hs Hps Ht Hpt; cbn [foldM] in *.
  - apply Ok_inj in Hs as <-, Ht as <-. exists [], []. rewrite !app_nil_r. split_and!; [done|done|constructor|done|lia].
  - destruct (advise_stage stages ad n) as [ad1|] eqn:Ea; [|discriminate Had]. destruct (plan_flow_stage stages s n) as [s1|] eqn:Es; [|discriminate Hs].
    destruct (plan_flow_stage stages' t n) as [t1|] eqn:Et; [|discriminate Ht]. cbn [bind] in *.
    assert (Hkeep : forall l a a', foldM (advise_stage stages) a l = Ok a' -> forall r, r ∈ ad_rows a -> r ∈ ad_rows a').
    { clear. induction l as [|m l IH]; intros a a' H r Hr; cbn [foldM] in H; [by apply Ok_inj in H as <-|]. destruct (advise_stage stages a m) as [a1|] eqn:E; [|discriminate H]. cbn [bind] in H.
      apply (IH _ _ H). unfold advise_stage in E. res_peel E. apply Ok_inj in E as <-. cbn [ad_rows]. apply elem_of_app. by left. }
    unfold advise_stage in Ea. unfold plan_flow_stage in Es, Et. destruct (find_flow stages n) as [st|] eqn:Hf; [|discriminate Ea]. destruct (Hst n st ltac:(left) Hf) as (r & Hr & Hrn & Hf'). rewrite Hf' in Et.
    cbn [from_option_err bind] in *. rewrite Hps in Es. rewrite Hpt in Et. destruct (materialize st (ad_planes ad)) as [v|] eqn:Hm; [|discriminate Ea]. cbn [bind] in *.
    destruct (compile_grid v) as [c|] eqn:Hc; [|discriminate Es]. cbn [bind] in Es. destruct (compile_grid_dims _ _ Hc) as (src & Hsrc & Hshape).
    assert (exists d, v = VDict d) as [d ->] by (unfold source in Hsrc; destruct v; try discriminate Hsrc; by eexists).
    destruct (source_has_tile _ _ Hsrc) as (tv & Htv & _). rewrite (materialized_tile _ _ _ Hm) in Htv.
    destruct (materialize_retile (tw_tile r) st (ad_planes ad) _ ltac:(by eexists) (Hinputs _ _ Hf) Hm) as (d' & [= <-] & Hm'). rewrite Hm' in Et. cbn [bind] in Et.
    destruct (plan_tiles (VDict d)) as [proposal|] eqn:Hp; [|discriminate Ea]. cbn [bind] in Ea. cbn zeta in *. destruct (proposed_shape _ _) as [shape|] eqn:Hps2; [|discriminate Ea]. cbn [bind] in Ea.
    apply Ok_inj in Ea as Ea'. assert (Htile : tw_tile r = tq_tile proposal).
    { assert (Hin : TileRow n (tq_requested proposal) (tq_admitted proposal) (tq_tile proposal) (at_ 0 (tq_score proposal) 0) (at_ 0 (tq_score proposal) 1) ∈ ad_rows ad').
      { apply (Hkeep _ _ _ Had). rewrite <- Ea'. cbn [ad_rows]. apply elem_of_app. right. by apply list_elem_of_singleton. }
      clear -Hin Hr Hrn Hnd. apply list_elem_of_lookup in Hin as [i Hi], Hr as [j Hj].
      assert (i = j) as ->; [|rewrite Hi in Hj; by injection Hj as <-]. apply (NoDup_lookup _ i j n Hnd); rewrite list_lookup_fmap; [by rewrite Hi|by rewrite Hj; cbn; rewrite Hrn]. }
    rewrite Htile in *. destruct (proposal_sessions _ _ Hp) as (c' & Hc' & _ & Hle). rewrite Hc' in Et. cbn [bind] in Et. destruct (compile_grid_dims _ _ Hc') as (src' & Hsrc' & Hshape').
    unfold proposed_shape in Hps2. rewrite Hsrc' in Hps2. cbn [bind] in Hps2. apply Ok_inj in Hps2 as <-. specialize (Hle _ Hc).
    assert (Heq : (cg_rows c', cg_columns c') = (cg_rows c, cg_columns c)) by (rewrite <- Hshape, <- Hshape', (source_set_tile _ _ _ _ Hsrc Hsrc'); done).
    destruct (count_jobs (cg_items c)) as [j|]; [|discriminate Es]. destruct (count_jobs (cg_items c')) as [j'|]; [|discriminate Et]. cbn [bind] in *.
    destruct (_ || _) in Es; [discriminate Es|]. destruct (_ || _) in Et; [discriminate Et|]. apply Ok_inj in Es as <-, Et as <-.
    assert (Hpl : <[n:=Grid (gs_shape src').1 (gs_shape src').2 (zeros ((gs_shape src').1 * (gs_shape src').2))]> (ad_planes ad) = ad_planes ad1) by (rewrite <- Ea'; done).
    edestruct (IH ad1) as (rows & rows' & H1 & H2 & H3 & H4 & H5); [exact Had| |exact Hs| |exact Ht| |].
    + intros m st' Hmo. apply Hst. by right.
    + cbn [fp_planes]. by rewrite <- Hpl, Hshape', Heq.
    + cbn [fp_planes]. by rewrite <- Hpl, Hshape'.
    + cbn [fp_rows fp_sessions] in *. rewrite <- app_assoc in H1, H2. eexists _, _. split_and!; [exact H1|exact H2| | |].
      * constructor; [by split|done].
      * cbn. by rewrite H4.
      * rewrite (compile_grid_places _ _ Hc), (compile_grid_places _ _ Hc') in *. lia.
Qed.

(** And evaluated to the same words. *)
Lemma references_agree rows rows' P Q Q' :
  (forall n st, n ∈ map fr_name rows -> find_flow stages n = Some st -> exists tile, find_flow stages' n = Some (retile tile st)) ->
  Forall2 same_row rows rows' -> foldM (flow_stage_output grid_reference stages) P rows = Ok Q -> foldM (flow_stage_output grid_reference stages') P rows' = Ok Q' -> Q' = Q.
Proof.
  intros Hst Hrows. revert P Hst. induction Hrows as [|r r' rows rows' [Hn Hsh] _ IH]; intros P Hst H H'; cbn [foldM] in *; [congruence|].
  destruct (flow_stage_output grid_reference stages P r) as [P1|] eqn:E; [|discriminate H]. destruct (flow_stage_output grid_reference stages' P r') as [P1'|] eqn:E'; [|discriminate H']. cbn [bind] in *.
  assert (P1' = P1) as ->; [|eapply IH; [|exact H|exact H']; intros m st Hm; apply Hst; by right].
  unfold flow_stage_output in E, E'. rewrite <- Hn, <- Hsh in E'. destruct (find_flow stages (fr_name r)) as [st|] eqn:Hf; [|discriminate E].
  destruct (Hst (fr_name r) st ltac:(left) Hf) as [tile Hf']. rewrite Hf' in E'. cbn [from_option_err bind] in *. destruct (materialize st P) as [v|] eqn:Hm; [|discriminate E]. cbn [bind] in E.
  destruct (grid_reference v) as [w|] eqn:Hw; [|discriminate E]. cbn [bind] in E. assert (exists d s, v = VDict d /\ source (VDict d) = Ok s) as (d & s & -> & Hs).
  { unfold grid_reference in Hw. destruct (source v) as [s|] eqn:Hs; [|discriminate Hw]. destruct v; try discriminate Hs. by eexists _, _. }
  destruct (source_has_tile _ _ Hs) as (tv & Htv & _). rewrite (materialized_tile _ _ _ Hm) in Htv.
  destruct (materialize_retile tile st P _ ltac:(by eexists) (Hinputs _ _ Hf) Hm) as (d' & [= <-] & Hm'). rewrite Hm' in E'. cbn [bind] in E'.
  destruct (grid_reference (with_tile d tile)) as [w'|] eqn:Hw'; [|discriminate E']. cbn [bind] in E'. rewrite (grid_reference_tile _ _ _ _ Hw Hw') in E'. congruence.
Qed.
End both.

Lemma flow_structure_NoDup value f : flow_structure value = Ok f -> NoDup (fl_order f).
Proof. intros (sl & ol & _ & _ & Ho)%flow_structure_Ok. eapply flow_order_NoDup; [exact Ho|constructor|by intros ? ?%elem_of_nil]. Qed.

(** C6. Tile advice never changes a result. The flow that the plan selects
    compiles, to the sessions of the report; and when the flow that was given
    compiles itself, the selected one has the same reference, runs to it, and
    needs no more sessions. *)
Theorem flow_plan_preserves value r :
  plan_flow_tiles value = Ok r ->
  exists plan, compile_flow (fz_source r) = Ok plan /\ fq_sessions plan = fz_sessions r /\
    forall plan0, compile_flow value = Ok plan0 ->
      fz_sessions r <= fq_sessions plan0 /\
      exists outs, flow_reference value = Ok outs /\ flow_reference (fz_source r) = Ok outs /\ run_flow (fz_source r) = Ok outs.
Proof.
  intros H. unfold plan_flow_tiles in H. destruct (flow_structure value) as [f|] eqn:Hf; [|discriminate H]. cbn [bind] in H. destruct value as [| | | | | |d]; try discriminate H.
  unfold dsub in H. destruct (dget "stages" d) as [[| | | | |l|]|] eqn:Hl; try discriminate H. cbn [from_option_err bind] in H.
  destruct (foldM _ _ (fl_order f)) as [ad|] eqn:Had; [|discriminate H]. cbn [bind] in H. cbn zeta in H. destruct (compile_flow _) as [plan|] eqn:Hplan; [|discriminate H]. cbn [bind] in H. apply Ok_inj in H as <-.
  cbn [fz_source fz_sessions]. exists plan. split; [done|]. split; [done|]. intros plan0 Hplan0.
  destruct (flow_compiled_runs _ _ Hplan0) as (outs & Hr0 & _). destruct (flow_compiled_runs _ _ Hplan) as (outs' & Hr1 & Hrun1). pose proof Hr1 as Hsame.
  assert (Hf0 : flow_structure (VDict (dset "stages" (VList (ad_selected (Advisor ∅ l []))) d)) = Ok f) by (cbn [ad_selected]; by rewrite dset_same).
  destruct (advise_rows _ _ _ _ _ _ Had Hf0) as (rows & Hrows & Hnames & Hsel). cbn [ad_rows app] in Hrows. pose proof (flow_structure_NoDup _ _ Hf) as Hnd.
  assert (Hnd' : NoDup (map tw_name (ad_rows ad))) by (by rewrite Hrows, Hnames). pose proof (flow_structure_inputs _ _ Hf) as Hinputs.
  assert (Hst : forall n st, n ∈ fl_order f -> find_flow (fl_stages f) n = Some st ->
    exists r, r ∈ ad_rows ad /\ tw_name r = n /\ find_flow (retile_rows rows (fl_stages f)) n = Some (retile (tw_tile r) st)).
  { intros n st Hn Hfind. rewrite <- Hnames in Hn. apply list_elem_of_fmap in Hn as (row & -> & Hin). exists row. rewrite Hrows. split_and!; [done|done|]. apply find_retile_rows; [by rewrite <- Hrows|done..]. }
  unfold compile_flow in Hplan, Hplan0. unfold flow_reference in Hr0, Hr1. rewrite Hsel in Hplan, Hr1. rewrite Hf in Hplan0, Hr0. cbn [bind] in *. rewrite Hplan in Hr1. rewrite Hplan0 in Hr0. cbn [bind] in *.
  unfold compile_flow_program in Hplan, Hplan0. cbn [fl_stages fl_order fl_outputs] in Hplan. destruct (foldM _ _ (fl_order f)) as [t'|] eqn:Ht in Hplan; [|discriminate Hplan]. destruct (foldM _ _ (fl_order f)) as [s'|] eqn:Hs in Hplan0; [|discriminate Hplan0].
  cbn [bind] in *. apply Ok_inj in Hplan as <-, Hplan0 as <-.
  destruct (plans_agree _ _ Hinputs _ _ _ _ _ _ _ Had Hst Hnd' Hs eq_refl Ht eq_refl) as (rs & rt & H1 & H2 & H3 & H4 & H5). cbn [fp_rows fp_sessions app] in *. split; [cbn [fq_sessions]; lia|].
  exists outs. split; [unfold flow_reference; rewrite Hf; cbn [bind]; unfold compile_flow_program; rewrite Hs; exact Hr0|].
  assert (outs' = outs) as ->; [|by split]. unfold flow_outputs in Hr0, Hr1. cbn [fq_rows fq_outputs fl_stages] in *.
  destruct (foldM _ _ (fp_rows s')) as [Q|] eqn:HQ; [|discriminate Hr0]. destruct (foldM _ _ (fp_rows t')) as [Q'|] eqn:HQ'; [|discriminate Hr1]. cbn [bind] in *.
  rewrite H1 in HQ. rewrite H2 in HQ'. assert (Q' = Q) as ->; [|congruence]. eapply (references_agree _ _ Hinputs); [|exact H3|exact HQ|exact HQ'].
  intros n st Hn Hfind. rewrite H4 in Hn. destruct (Hst n st Hn Hfind) as (row & _ & _ & ?). by eexists.
Qed.

Lemma flow_plan_preserves_witness :
  exists r plan0, plan_flow_tiles flow_plan_example = Ok r /\ map tw_tile (fz_rows r) = [(16, 15)] /\ compile_flow flow_plan_example = Ok plan0 /\ fz_sessions r <= fq_sessions plan0.
Proof.
  assert (H : exists r, plan_flow_tiles flow_plan_example = Ok r /\ map tw_tile (fz_rows r) = [(16, 15)]) by (vm_compute; eexists; split; reflexivity).
  assert (H0 : exists plan0, compile_flow flow_plan_example = Ok plan0) by (vm_compute; eexists; reflexivity).
  destruct H as (r & H & Ht), H0 as (plan0 & H0). exists r, plan0. split; [exact H|]. split; [exact Ht|]. split; [exact H0|].
  destruct (flow_plan_preserves _ _ H) as (plan & _ & _ & Hp). exact (proj1 (Hp _ H0)).
Defined.
