(* ===== verification/Fusion.v ===== *)
(** * Fused array plans ([raveil/array_fusion.py])

    The second version of array plans. A stage that the grid compiler admits as
    a whole, at no more sessions and work than its scalar passes, becomes one
    pass over its source document ([fuse_stage]); consecutive scalar passes with
    one visible result are joined into blocks ([make_block], [coalesce]). The
    plan is made on a copy of the program whose literal words are zero, so that
    it cannot depend on them. A source document of a stage is kept as it was
    read, since a fused pass hands it to the grid compiler; [stages] has the
    same sources with their types. *)

From S2P Require Import Prelude PyValue Json MapSyntax AffineFold Project Grid GridRun Array Flow.

Definition MAX_SCALAR_EVALUATIONS : Z := 1048576.

(** ** Source documents *)

Abbreviation documents := (list (string * dict)).

(** [s['source']] of the stages, by name. *)
Definition stage_doc (v : pyval) : option (string * dict) :=
  match v with
  | VDict e => match dget "name" e, dget "source" e with Some (VStr n), Some (VDict s) => Some (n, s) | _, _ => None end
  | _ => None
  end.
Definition stage_docs (value : pyval) : documents :=
  match value with
  | VDict d => match dget "stages" d with Some (VList l) => omap stage_doc l | _ => [] end
  | _ => []
  end.
Definition find_doc (docs : documents) (n : string) : option dict := snd <$> List.find (fun ns => String.eqb ns.1 n) docs.

(** [structural]: literal words are zero. *)
Definition zero_input (item : pyval) : pyval :=
  match item with
  | VDict d => match dget "from" d, dget "words" d with
               | None, Some (VList l) => VDict (dset "words" (words_val (zeros (Z.of_nat (length l)))) d)
               | _, _ => item
               end
  | _ => item
  end.
Definition zero_doc (d : dict) : dict :=
  match dget "inputs" d with Some (VList l) => dset "inputs" (VList (map zero_input l)) d | _ => d end.
Definition zero_docs (docs : documents) : documents := map (fun nd => (nd.1, zero_doc nd.2)) docs.
Definition zero_grid (g : grid) : grid := Grid (gr_rows g) (gr_columns g) (zeros (Z.of_nat (length (gr_words g)))).
Definition zero_stage (s : array_stage) : array_stage :=
  ArrayStage (map (fun i : array_input => match i with inl n => inl n | inr g => inr (zero_grid g) end) (ar_inputs s))
    (ar_shape s) (ar_boundary s) (ar_extent s) (ar_fold s) (ar_views s) (ar_nodes s) (ar_result s) (ar_post s).
Definition zero_stages (stages : list (string * array_stage)) : list (string * array_stage) := map (fun ns => (ns.1, zero_stage ns.2)) stages.

(** ** Passes *)

(** [_cost] *)
Record fcost := FCost { fc_sessions : Z; fc_jobs : Z; fc_work_words : Z; fc_packed_input_words : Z; fc_bound_input_words : Z }.
#[export] Instance fcost_eq_dec : EqDecision fcost.
Proof. solve_decision. Defined.

(** An input of a block: a plane, or the words a load gathers. *)
Inductive operand_spec := SPlane (producer : string) | SGather (gather : string * string * Z) (args : list string).
#[export] Instance operand_spec_eq_dec : EqDecision operand_spec.
Proof. solve_decision. Defined.
#[export] Instance node_eq_dec : EqDecision node.
Proof. solve_decision. Defined.

Inductive fused_op :=
  | FPass (o : pass_op) (gather : option (string * string * Z))
  | FStage (stage : string) (producers : names_map) (tile : Z * Z) (cost : fcost)
  | FBlock (inputs : list operand_spec) (nodes : list node) (result : string) (scalar_passes : Z) (cost : fcost).
Record fused_step := FusedStep { fs_id : string; fs_shape : Z * Z; fs_op : fused_op; fs_args : list string; fs_release : list string }.

Definition is_stage (s : fused_step) : bool := match fs_op s with FStage _ _ _ _ => true | _ => false end.

(** ** Binding *)

Definition plane_doc (g : grid) : pyval := grid_doc (gr_rows g) (gr_columns g) (gr_words g).

(** One iteration of [for item in source['inputs']]. *)
Definition fused_input (producers : names_map) (p : planes) (item : pyval) : res pyval :=
  match item with
  | VDict e =>
      match dget "from" e with
      | Some (VStr from) => let* r := name_of producers from in let* g := plane_of p r in Ok (plane_doc g)
      | Some _ => Err KeyError
      | None => Ok item
      end
  | _ => Ok item
  end.

(** [bind] of a fused stage. *)
Definition bind_stage (docs : documents) (stage : string) (producers : names_map) (tile : Z * Z) (p : planes) : res pyval :=
  let* d := from_option_err StopIteration (find_doc docs stage) in
  let* inputs := dsub d "inputs" in
  match inputs with
  | VList l =>
      let* inputs := traverse (fused_input producers p) l in
      Ok (VDict (dset "tile" (words_val [tile.1; tile.2]) (dset "inputs" (VList inputs) (dset "schema" (VStr "raveil.mf01-grid/v5") d))))
  | _ => Err TypeError
  end.

(** The grid source of a block over its operands. *)
Definition block_doc (shape : Z * Z) (operands : list grid) (nodes : list node) (result : string) : pyval :=
  VDict [("schema", VStr "raveil.mf01-grid/v5"); ("inputs", VList (map plane_doc operands));
    ("shape", words_val [shape.1; shape.2]); ("tile", words_val [16; 16]); ("boundary", VStr "zero");
    ("kernel", VDict [("extent", VInt 1); ("fold", VStr "sum");
       ("views", VDict (map (fun i => ("v" +:+ pretty i, view_doc i (0, 0) (0, 0) (1, 0) (0, 1))) (zseq (Z.of_nat (length operands)))));
       ("nodes", VList (map node_val nodes)); ("result", VStr result)])].

(** A scalar pass in the form of the first version. *)
Definition scalar_pass (s : fused_step) (o : pass_op) (gather : option (string * string * Z)) : array_step :=
  ArrayStep (fs_id s) (fs_shape s) o (fs_args s) gather [].

Section binding.
Context (stages : list (string * array_stage)) (docs : documents) (p : planes).

(** One iteration of [for spec in step['inputs']]. *)
Definition spec_grid (shape : Z * Z) (spec : operand_spec) : res grid :=
  match spec with
  | SPlane n => plane_of p n
  | SGather gather args => let* l := operands_of stages (ArrayStep "" shape PLoad args (Some gather) []) p in py_index l 0
  end.

(** [_bind_block] *)
Definition bind_block (shape : Z * Z) (inputs : list operand_spec) (nodes : list node) (result : string) : res pyval :=
  let* operands := traverse (spec_grid shape) inputs in Ok (block_doc shape operands nodes result).

(** [bind] *)
Definition bind_step (s : fused_step) : res pyval :=
  match fs_op s with
  | FPass o gather => bind_pass stages (scalar_pass s o gather) p
  | FStage stage producers tile _ => bind_stage docs stage producers tile p
  | FBlock inputs nodes result _ _ => bind_block (fs_shape s) inputs nodes result
  end.
End binding.

(** ** Costs *)

Definition sum_ints (v : pyval) : res Z :=
  match v with VList l => foldM (fun n v => let* z := as_int v in Ok (n + z)) 0 l | _ => Err TypeError end.

(** A job's shape and the number of words it packs. *)
Definition job_cost (job : pyval) : res (Z * Z) :=
  match job with
  | VDict j =>
      let* region := dsub j "region" in
      match region with
      | VDict r =>
          let* shape := region_shape region in
          let* lengths := dsub r "lengths" in
          let* packed := sum_ints lengths in
          Ok (shape.1 * shape.2, packed)
      | _ => Err TypeError
      end
  | _ => Err TypeError
  end.

(** [sum(len(i['words']) for i in bound['inputs'])] *)
Definition input_words (v : pyval) : res Z :=
  match v with
  | VDict d => let* words := dsub d "words" in match words with VList l => Ok (Z.of_nat (length l)) | _ => Err TypeError end
  | _ => Err TypeError
  end.
Definition bound_words (bound : pyval) : res Z :=
  match bound with
  | VDict d =>
      let* inputs := dsub d "inputs" in
      match inputs with VList l => foldM (fun n v => let* w := input_words v in Ok (n + w)) 0 l | _ => Err TypeError end
  | _ => Err TypeError
  end.

(** [_cost] *)
Definition cost_of (c : compiled_grid) (bound : pyval) : res fcost :=
  let* jobs := traverse (fun item : string * pyval => dag_jobs item.2) (cg_items c) in
  let* costs := traverse job_cost (concat jobs) in
  let* words := bound_words bound in
  Ok (FCost (Z.of_nat (length (cg_layout c))) (Z.of_nat (length (concat jobs))) (foldr Z.add 0 (map fst costs)) (foldr Z.add 0 (map snd costs)) words).

(** ** Whole stages *)

(** [producers] *)
Definition stage_producers (results : names_map) (s : array_stage) : res names_map :=
  foldM (fun m from => let* r := name_of results from in Ok (<[from := r]> m)) ∅ (links_of (ar_inputs s)).

(** [sorted(set(l))] *)
Definition sorted_set (l : list string) : list string := sort_names (remove_dups l).

(** [_fused]: the pass, or nothing when the grid compiler does not admit the stage. *)
Definition fuse_stage (docs : documents) (sname : string) (s : array_stage) (results : names_map) (p : planes)
    : res (option (names_map * (Z * Z) * fcost)) :=
  if (2 <? Z.of_nat (length (ar_inputs s))) || (15 <? Z.of_nat (length (ar_nodes s))) ||
     match ar_post s with Some (nodes, _) => 15 <? Z.of_nat (length nodes) | None => false end
  then Ok None else
  let* producers := stage_producers results s in
  let* bound := bind_stage docs sname producers (16, 16) p in
  match compile_grid bound with
  | Ok c => let* cost := cost_of c bound in Ok (Some (producers, (16, 16), cost))
  | Err (ValueError _) =>
      match (let* t := plan_tiles bound in
             let* selected := bind_stage docs sname producers (tq_tile t) p in
             let* c := compile_grid selected in Ok (tq_tile t, selected, c)) with
      | Ok (tile, selected, c) => let* cost := cost_of c selected in Ok (Some (producers, tile, cost))
      | Err (ValueError _) => Ok None
      | Err e => Err e
      end
  | Err e => Err e
  end.

(** [count]: the scalar passes of a stage. *)
Definition scalar_count (s : array_stage) : Z :=
  ar_extent s * Z.of_nat (length (ar_nodes s)) + ar_extent s - 1 + match ar_post s with Some (nodes, _) => Z.of_nat (length nodes) | None => 0 end.
Definition area (shape : Z * Z) : Z := shape.1 * shape.2.

(** [emit] of the second version has no budget. *)
Definition emit_step (steps : list fused_step) (shape : Z * Z) (o : fused_op) (args : list string) : list fused_step * string :=
  let id := pass_id (Z.of_nat (length steps)) in (steps ++ [FusedStep id shape o args []], id).
Definition emit_scalar (steps : list fused_step) (shape : Z * Z) (o : pass_op) (args : list string) (gather : option (string * string * Z))
    : res (list fused_step * string) := Ok (emit_step steps shape (FPass o gather) args).

(** [_scalar_stage] *)
Definition _scalar_stage (sname : string) (s : array_stage) (results : names_map) (steps : list fused_step) : res (list fused_step * string) :=
  scalar_stage emit_scalar results sname s steps.

Record choice := Choice { ch_stage : string; ch_fused : bool; ch_scalar_passes : Z; ch_scalar_sessions : Z }.
Record fuser := Fuser { fu_steps : list fused_step; fu_results : names_map; fu_placeholders : planes; fu_choices : list choice }.

(** [(sessions, work_words, 1) <= (scalar_sessions, count * rows * columns, count)] *)
Definition cheaper (cost : fcost) (sessions work count : Z) : bool :=
  (fc_sessions cost <? sessions) ||
  ((fc_sessions cost =? sessions) && ((fc_work_words cost <? work) || ((fc_work_words cost =? work) && (1 <=? count)))).

(** One iteration of [for name in order]. *)
Definition plan_stage (stages : list (string * array_stage)) (docs : documents) (st : fuser) (sname : string) : res fuser :=
  let* s := from_option_err KeyError (find_stage stages sname) in
  let count := scalar_count s in
  let sessions := count * tiles16 (ar_shape s) in
  let* candidate := fuse_stage docs sname s (fu_results st) (fu_placeholders st) in
  let* ' (steps, result, fused) :=
    match candidate with
    | Some (producers, tile, cost) =>
        if cheaper cost sessions (count * area (ar_shape s)) count then
          Ok (emit_step (fu_steps st) (ar_shape s) (FStage sname producers tile cost) (sorted_set (map snd (map_to_list producers))), true)
        else let* r := _scalar_stage sname s (fu_results st) (fu_steps st) in Ok (r, false)
    | None => let* r := _scalar_stage sname s (fu_results st) (fu_steps st) in Ok (r, false)
    end in
  Ok (Fuser steps (<[sname := result]> (fu_results st))
        (<[result := Grid (ar_shape s).1 (ar_shape s).2 (zeros (area (ar_shape s)))]> (fu_placeholders st))
        (fu_choices st ++ [Choice sname fused count sessions])).

(** ** Blocks *)

(** [_block]'s variables. *)
Record blocker := Blocker { bk_inputs : list operand_spec; bk_prefix : list node; bk_nodes : list node; bk_refs : names_map; bk_args : list string }.

Definition position {A} `{EqDecision A} (x : A) (l : list A) : Z := match list_find (x =.) l with Some (i, _) => Z.of_nat i | None => -1 end.
Definition include {A} `{EqDecision A} (l : list A) (x : A) : list A := if decide (x ∈ l) then l else l ++ [x].

Section block.
Context (renamed : names_map).

(** [slot] *)
Definition slot (b : blocker) (spec : operand_spec) : res (blocker * Z) :=
  let inputs := include (bk_inputs b) spec in
  raise_if (2 <? length inputs)%nat with "block needs more than two inputs" in
  Ok (Blocker inputs (bk_prefix b) (bk_nodes b) (bk_refs b) (bk_args b), position spec inputs).

(** [args.update(l)] *)
Definition add_args (b : blocker) (l : list string) : blocker :=
  Blocker (bk_inputs b) (bk_prefix b) (bk_nodes b) (bk_refs b) (foldl include (bk_args b) l).

Definition view_of (index : Z) : string := "v" +:+ pretty index.

(** [read] *)
Definition read (st : blocker * list string) (ref : string) : res (blocker * list string) :=
  let '(b, l) := st in
  match bk_refs b !! ref with
  | Some known => Ok (b, l ++ [known])
  | None =>
      let* producer := name_of renamed ref in
      let* ' (b, index) := slot (add_args b [producer]) (SPlane producer) in
      let identity := "e" +:+ pretty index in
      let node := NLoad identity (view_of index) in
      Ok (Blocker (bk_inputs b) (include (bk_prefix b) node) (bk_nodes b) (bk_refs b) (bk_args b), l ++ [identity])
  end.

(** [nodes.append(node); refs[raw['id']] = identity] *)
Definition add_node (b : blocker) (ref : string) (n : node) : blocker :=
  Blocker (bk_inputs b) (bk_prefix b) (bk_nodes b ++ [n]) (<[ref := node_id n]> (bk_refs b)) (bk_args b).

(** One iteration of [for i, raw in enumerate(segment)]. *)
Definition block_node (b : blocker) (iraw : Z * fused_step) : res blocker :=
  let '(i, raw) := iraw in
  let identity := "n" +:+ pretty i in
  match fs_op raw with
  | FPass PLoad (Some gather) =>
      let* producers := traverse (name_of renamed) (fs_args raw) in
      let* ' (b, index) := slot (add_args b producers) (SGather gather producers) in
      Ok (add_node b (fs_id raw) (NLoad identity (view_of index)))
  | FPass PLoad None =>
      let* a := py_index (fs_args raw) 0 in
      match bk_refs b !! a with
      | Some r => Ok (add_node b (fs_id raw) (NImm identity AddImm r 0))
      | None =>
          let* producer := name_of renamed a in
          let* ' (b, index) := slot (add_args b [producer]) (SPlane producer) in
          Ok (add_node b (fs_id raw) (NLoad identity (view_of index)))
      end
  | FPass (POp o) _ =>
      let* ' (b, args) := foldM read (b, []) (fs_args raw) in
      Ok (add_node b (fs_id raw) (NOp identity o args))
  | FPass (PImm o imm) _ =>
      let* ' (b, args) := foldM read (b, []) (fs_args raw) in
      let* a := py_index args 0 in
      Ok (add_node b (fs_id raw) (NImm identity o a imm))
  | _ => Err KeyError
  end.
End block.

(** [_block]; the identity is given by the caller. *)
Definition make_block (stages : list (string * array_stage)) (segment : list fused_step) (output : string) (renamed : names_map) (p : planes)
    : res fused_step :=
  let* b := foldM (block_node renamed) (Blocker [] [] [] ∅ []) (enumerate segment) in
  let* first := py_index segment 0 in
  let* result := name_of (bk_refs b) output in
  let nodes := bk_prefix b ++ bk_nodes b in
  let* source := bind_block stages p (fs_shape first) (bk_inputs b) nodes result in
  let* c := compile_grid source in
  let* cost := cost_of c source in
  Ok (FusedStep "" (fs_shape first) (FBlock (bk_inputs b) nodes result (Z.of_nat (length segment)) cost) (sort_names (bk_args b)) []).

(** ** Joining consecutive passes *)

Definition steps_uses (steps : list fused_step) : list (string * list string) := map (fun s => (fs_id s, fs_args s)) steps.

(** [_coalesce]'s variables: the number of passes read, [renamed], [planes] and
    [combined]. *)
Record coalescer := Coalescer { co_index : Z; co_renamed : names_map; co_planes : planes; co_combined : list fused_step }.

Section coalesce.
Context (stages : list (string * array_stage)) (last : gmap string Z) (results : list string).

(** [for limit in range(index + 2, min(len(original), index + 15) + 1)], of the
    lengths [limit - index]. *)
Fixpoint best_block (index : Z) (first : fused_step) (rest : list fused_step) (renamed : names_map) (p : planes) (lens : list nat)
    (chosen : option (fused_step * nat * string)) : res (option (fused_step * nat * string)) :=
  match lens with
  | [] => Ok chosen
  | n :: lens =>
      let segment := take n rest in
      let limit := index + Z.of_nat n in
      if existsb (fun s => is_stage s || negb (bool_decide (fs_shape s = fs_shape first))) segment ||
         existsb (fun s => bool_decide (fs_id s ∈ results)) (take (length segment - 1) segment)
      then Ok chosen
      else
        let* uses := traverse (fun s => let* l := from_option_err KeyError (last !! fs_id s) in Ok (fs_id s, limit <=? l)) segment in
        let visible := map fst (List.filter snd uses) in
        if (1 <? length visible)%nat then best_block index first rest renamed p lens chosen
        else
          let result := match visible with n :: _ => n | [] => default "" (fs_id <$> list.last segment) end in
          match make_block stages segment result renamed p with
          | Ok candidate => best_block index first rest renamed p lens (Some (candidate, n, result))
          | Err (ValueError _) => best_block index first rest renamed p lens chosen
          | Err e => Err e
          end
  end.

(** A pass that is not joined to the next. *)
Definition rename_step (renamed : names_map) (s : fused_step) : res fused_step :=
  let* args := traverse (name_of renamed) (fs_args s) in
  let* o := match fs_op s with
            | FStage stage producers tile cost =>
                let* l := traverse (fun nr : string * string => let* r := name_of renamed nr.2 in Ok (nr.1, r)) (map_to_list producers) in
                Ok (FStage stage (list_to_map l) tile cost)
            | o => Ok o
            end in
  Ok (FusedStep (fs_id s) (fs_shape s) o args (fs_release s)).

Definition with_id (id : string) (s : fused_step) : fused_step := FusedStep id (fs_shape s) (fs_op s) (fs_args s) (fs_release s).

(** The end of an iteration of [while index < len(original)]. *)
Definition add_combined (st : coalescer) (chosen : fused_step) (n : nat) (output : string) : coalescer :=
  let id := pass_id (Z.of_nat (length (co_combined st))) in
  let '(rows, columns) := fs_shape chosen in
  Coalescer (co_index st + Z.of_nat n) (<[output := id]> (co_renamed st))
    (<[id := Grid rows columns (zeros (rows * columns))]> (co_planes st)) (co_combined st ++ [with_id id chosen]).

(** [while index < len(original)]; an iteration takes at least one pass. *)
Fixpoint coalesce (fuel : nat) (st : coalescer) (rest : list fused_step) : res coalescer :=
  match rest with
  | [] => Ok st
  | first :: _ =>
      match fuel with
      | O => Err OutOfFuel
      | S fuel =>
          raise_if MAX_PASSES <=? Z.of_nat (length (co_combined st)) with "array exceeds pass/session/work budget" in
          let* chosen :=
            if is_stage first then Ok None
            else best_block (co_index st) first rest (co_renamed st) (co_planes st) (seq 2 (Nat.min (length rest) 15 - 1)) None in
          match chosen with
          | Some (block, n, output) => coalesce fuel (add_combined st block n output) (drop n rest)
          | None => let* s := rename_step (co_renamed st) first in coalesce fuel (add_combined st s 1 (fs_id first)) (drop 1 rest)
          end
      end
  end.
End coalesce.

(** [_coalesce] *)
Definition _coalesce (stages : list (string * array_stage)) (original : list fused_step) (results : names_map) : res (list fused_step * names_map) :=
  let refs := map snd (map_to_list results) in
  let last := last_uses (steps_uses original) refs in
  let* st := coalesce stages last refs (length original) (Coalescer 0 ∅ ∅ []) original in
  let* l := traverse (fun nr : string * string => let* r := name_of (co_renamed st) nr.2 in Ok (nr.1, r)) (map_to_list results) in
  Ok (co_combined st, list_to_map l).

(** ** Planning *)

Record fused_planner := FusedPlanner {
  fn_planes : planes; fn_sizes : list (string * Z); fn_peak : Z; fn_sessions : Z; fn_jobs : Z; fn_work : Z; fn_packed : Z; fn_steps : list fused_step }.

Definition with_releases (release : list string) (s : fused_step) : fused_step := FusedStep (fs_id s) (fs_shape s) (fs_op s) (fs_args s) release.

(** The cost a fused pass was admitted with. *)
Definition recorded_cost (o : fused_op) : option fcost :=
  match o with FPass _ _ => None | FStage _ _ _ cost => Some cost | FBlock _ _ _ _ cost => Some cost end.

(** One iteration of [for i, step in enumerate(steps)]. *)
Definition plan_fused (stages : list (string * array_stage)) (docs : documents) (literals : Z) (last : gmap string Z) (st : fused_planner) (ix : Z * fused_step)
    : res fused_planner :=
  let '(i, s) := ix in
  let* source := bind_step stages docs (fn_planes st) s in
  let* c := compile_grid source in
  let* cost := cost_of c source in
  raise_if negb (match recorded_cost (fs_op s) with Some cost' => bool_decide (cost' = cost) | None => true end) with "fused structural cost differs" in
  let sessions := fn_sessions st + fc_sessions cost in
  let jobs := fn_jobs st + fc_jobs cost in
  let work := fn_work st + fc_work_words cost in
  let packed := fn_packed st + fc_packed_input_words cost in
  raise_if (MAX_SESSIONS <? sessions) || (MAX_WORK <? work) with "array exceeds pass/session/work budget" in
  let size := area (fs_shape s) in
  let peak := Z.max (fn_peak st) (literals + foldr Z.add 0 (map snd (fn_sizes st)) + fc_bound_input_words cost +
                                  fc_packed_input_words cost + fc_work_words cost + size) in
  raise_if MAX_PLANES <? peak with "array exceeds logical plane-word budget" in
  let planes := <[fs_id s := Grid (fs_shape s).1 (fs_shape s).2 (zeros size)]> (fn_planes st) in
  let sizes := fn_sizes st ++ [(fs_id s, size)] in
  let* release := releases last i (map fst sizes) in
  let* planes := drop_planes planes release in
  Ok (FusedPlanner planes (List.filter (fun nz => negb (bool_decide (nz.1 ∈ release))) sizes) peak sessions jobs work packed
        (fn_steps st ++ [with_releases release s])).

(** The result of [compile]. *)
Record fused_plan := FusedPlan {
  fp_order : list string; fp_source_nodes : Z; fp_passes : list fused_step; fp_outputs : list (string * string); fp_total_sessions : Z;
  fp_total_jobs : Z; fp_work_words : Z; fp_peak : Z; fp_packed_words : Z; fp_scalar_evaluations : Z; fp_stages : list choice }.

Definition scalar_evaluations (stages : list (string * array_stage)) : Z :=
  foldr Z.add 0 (map (fun ns => area (ar_shape ns.2) * scalar_count ns.2) stages).

(** [compile] of an admitted program and its source documents. *)
Definition compile_fused_program (p : program) (docs : documents) : res fused_plan :=
  let evaluations := scalar_evaluations (pr_stages p) in
  raise_if MAX_SCALAR_EVALUATIONS <? evaluations with "array exceeds scalar-evaluation budget" in
  let structural := zero_docs docs in
  let* st := foldM (plan_stage (pr_stages p) structural) (Fuser [] ∅ ∅ []) (pr_order p) in
  let* ' (steps, results) := _coalesce (zero_stages (pr_stages p)) (fu_steps st) (fu_results st) in
  raise_if MAX_PASSES <? Z.of_nat (length steps) with "array exceeds pass/session/work budget" in
  let* outputs := traverse (fun n => let* r := name_of results n in Ok (n, r)) (pr_outputs p) in
  let last := last_uses (steps_uses steps) (map snd outputs) in
  let* pl := foldM (plan_fused (zero_stages (pr_stages p)) structural (pr_literals p) last)
               (FusedPlanner ∅ [] (pr_literals p) 0 0 0 0 []) (enumerate steps) in
  Ok (FusedPlan (pr_order p) (pr_total p) (fn_steps pl) outputs (fn_sessions pl) (fn_jobs pl) (fn_work pl) (fn_peak pl) (fn_packed pl)
        evaluations (fu_choices st)).

(** [compile] *)
Definition compile_fused (value : pyval) : res fused_plan := let* p := structure value in compile_fused_program p (stage_docs value).

(** ** Running a fused plan ([raveil/project_array.py]) *)

(** [commit] *)
Definition commit_step (p : planes) (s : fused_step) (output : grid) : res planes := drop_planes (<[fs_id s := output]> p) (fs_release s).

Definition run_step (stages : list (string * array_stage)) (docs : documents) (p : planes) (s : fused_step) : res planes :=
  let* source := bind_step stages docs p s in
  let* output := run_bound source in
  commit_step p s output.

Definition run_fused_program (p : program) (docs : documents) (plan : fused_plan) : res (list (string * grid)) :=
  let* planes := foldM (run_step (pr_stages p) docs) ∅ (fp_passes plan) in
  let* outputs := traverse (fun o : string * string => let* g := plane_of planes o.2 in Ok (o.1, g)) (fp_outputs plan) in
  let* expected := reference_program p in
  raise_if negb (bool_decide (outputs = expected)) with "whole-array oracle mismatch" in
  Ok outputs.

Definition run_fused (value : pyval) : res (list (string * grid)) :=
  let* p := structure value in
  let* plan := compile_fused_program p (stage_docs value) in
  run_fused_program p (stage_docs value) plan.

(** ** Both versions *)

Definition is_v2 (value : pyval) : bool := match value with VDict d => is_str (default VNone (dget "schema" d)) ARRAY_SCHEMA_V2 | _ => false end.

(** [array_program.compile] *)
Definition compile_versioned (value : pyval) : res (array_plan + fused_plan) :=
  if is_v2 value then let* p := compile_fused value in Ok (inr p) else let* p := compile_array value in Ok (inl p).
Definition run_versioned (value : pyval) : res (list (string * grid)) := if is_v2 value then run_fused value else run_array value.

(** ** A concrete program: a stage with three inputs, which is not fused, and one that is *)

Definition fusion_example : pyval :=
  VDict [("schema", VStr ARRAY_SCHEMA_V2); ("outputs", VList [VStr "b"]);
    ("stages", VList [
      VDict [("name", VStr "a"); ("source", VDict [
        ("inputs", VList [grid_doc 2 2 [1; 2; 3; 4]; grid_doc 2 2 [5; 6; 7; 8]; grid_doc 2 2 [9; 0; 1; 2]]); ("shape", words_val [2; 2]); ("boundary", VStr "zero");
        ("kernel", VDict [("extent", VInt 1); ("fold", VStr "sum");
          ("views", VDict [("x", view_doc 0 (0, 0) (0, 0) (1, 0) (0, 1)); ("y", view_doc 1 (0, 1) (0, 0) (1, 0) (0, 1)); ("z", view_doc 2 (0, 0) (0, 0) (1, 0) (0, 1))]);
          ("nodes", VList (map node_val [NLoad "p" "x"; NLoad "q" "y"; NOp "s" Mul ["p"; "q"]; NLoad "r" "z"; NOp "t" Add ["s"; "r"]])); ("result", VStr "t")]);
        ("post", VDict [("nodes", VList (map node_val [NLoad "u" "reduced"; NImm "v" GeImm "u" 1])); ("result", VStr "v")])])];
      VDict [("name", VStr "b"); ("source", VDict [
        ("inputs", VList [VDict [("from", VStr "a")]]); ("shape", words_val [2; 2]); ("boundary", VStr "wrap");
        ("kernel", VDict [("extent", VInt 2); ("fold", VStr "sum");
          ("views", VDict [("x", view_doc 0 (0, 0) (0, 1) (1, 0) (0, 1))]);
          ("nodes", VList (map node_val [NLoad "p" "x"])); ("result", VStr "p")])])]])].

(** Stage [a] is seven scalar passes, which are joined into two blocks; stage [b]
    is fused. *)
Example fusion_example_passes :
  (let* p := compile_fused fusion_example in
   Ok (map (fun s => (fs_id s, fs_args s, match fs_op s with FBlock _ _ _ n _ => n | _ => 0 end)) (fp_passes p), map ch_fused (fp_stages p),
       fp_total_sessions p, foldr Z.add 0 (map ch_scalar_sessions (fp_stages p)))) =
  Ok ([("p000", [], 3); ("p001", ["p000"], 4); ("p002", ["p001"], 0)], [false; true], 3, 10).
Proof. vm_compute. reflexivity. Qed.
Example fusion_example_reference : array_reference fusion_example = Ok [("b", Grid 2 2 [1; 1; 2; 2])].
Proof. vm_compute. reflexivity. Qed.
