(* ===== verification/FusionFacts.v ===== *)
(** * Fused passes: the grid source of a stage

    [stage_reference]: when the grid compiler admits the source document of a
    stage with planes for its links, the grid oracle computes the words of the
    array reference for the stage. *)

From S2P Require Import Prelude PyValue Json JsonFacts MapSyntax AffineFold AffineFoldFacts Project Numeric NumericFacts.
From S2P Require Import Grid GridFacts GridRun GridWords Array ArrayPass ArrayFacts ArrayRun Flow FlowRun Fusion.

(** ** The two readers of a map agree *)

Lemma array_op_source o a s : array_op o = Some a -> source_op o = Some s ->
  match a, s with ALoad, SLoad => True | AOp x, SOp y => x = y | AImm x, SImm y => x = y | _, _ => False end.
Proof.
  unfold array_op, source_op. intros H1 H2.
  repeat match type of H1 with context [String.eqb o ?k] => destruct (String.eqb_spec o k) as [->|]; [injection H1 as <-; injection H2 as <-; done|] end. done.
Qed.

Lemma known_source_arg names seen v a b : known_name names v = Some a -> source_arg seen v = Ok b -> b = a.
Proof. intros [-> _]%known_name_Some H. unfold source_arg in H. by res_inv. Qed.
Lemma known_source_args names seen l la lb : mapM (known_name names) l = Some la -> traverse (source_arg seen) l = Ok lb -> lb = la.
Proof.
  intros Ha%mapM_Some. revert lb. induction Ha as [|v a l la Hva _ IH]; intros lb H; cbn [traverse] in H; [by apply Ok_inj in H as <-|].
  res_peel H. apply Ok_inj in H as <-. f_equal; [by eapply known_source_arg|by apply IH].
Qed.

Lemma array_node_check views seen seen' v n n' : array_node views seen v = Ok n -> check_node seen' v = Ok n' -> n' = n.
Proof.
  intros H H'. unfold array_node in H. unfold check_node in H'. destruct v as [| | | | | |d]; try discriminate H.
  destruct (dget "op" d) as [[| | | |o| |]|]; try discriminate H. destruct (array_op o) as [a|] eqn:Ea; [|discriminate H].
  destruct (source_op o) as [s|] eqn:Es; [|discriminate H']. pose proof (array_op_source _ _ _ Ea Es) as Has.
  destruct (negb (keys_are d _)); [discriminate H|]. destruct (keys_are d _); [|discriminate H'].
  unfold dsub in H. destruct (dget "id" d) as [[| | | |id| |]|]; try discriminate H. cbn [from_option_err bind] in H.
  destruct (_ || _); [discriminate H|]. destruct (_ || _) in H'; [discriminate H'|].
  destruct a as [|x|x], s as [|y|y]; try done; subst.
  - destruct (default (VList []) (dget "args" d)) as [| | | | |args|]; try discriminate H'. destruct (negb _); [discriminate H'|]. res_peel H'.
    destruct (dget "view" d) as [view|]; [|discriminate H]. cbn [from_option_err bind] in H. destruct (known_name views view) as [w|] eqn:Hv; [|discriminate H].
    apply known_name_Some in Hv as [-> _]. destruct (String.eqb w ""); [discriminate H'|]. congruence.
  - destruct (dget "args" d) as [[| | | | |args|]|]; try discriminate H. cbn [from_option_err bind default from_option Datatypes.id] in H, H'. destruct (negb (_ =? _)%nat); [discriminate H|].
    res_peel H'. destruct (mapM _ args) as [l|] eqn:El; [|discriminate H].
    apply Ok_inj in H as <-. apply Ok_inj in H' as <-. f_equal. by eapply known_source_args.
  - destruct (dget "args" d) as [[| | | | |args|]|]; try discriminate H. cbn [from_option_err bind default from_option Datatypes.id] in H, H'. destruct (negb (_ =? _)%nat); [discriminate H|].
    res_peel H'. destruct (mapM _ args) as [[|b l]|] eqn:El; try discriminate H.
    pose proof (known_source_args _ _ _ _ _ El E) as ->. destruct (dget "imm" d) as [imm|]; [|discriminate H]. cbn [from_option_err bind] in H.
    res_peel H. apply Ok_inj in H as <-. unfold Grid.integer, int_in in E0. destruct imm as [|b0|z| | | |]; try discriminate E0; try discriminate H'.
    destruct (bool_decide _) in E0; [|discriminate E0]. apply Ok_inj in E0 as <-. res_peel H'. apply Ok_inj in H' as <-. cbn in E1. by apply Ok_inj in E1 as ->.
Qed.

Lemma array_nodes_source nodes result views ns r ns' : array_nodes nodes result views = Ok (ns, r) -> source_nodes nodes = Ok ns' -> ns' = ns /\ result = VStr r.
Proof.
  intros H H'. unfold array_nodes in H. unfold source_nodes, check_nodes in H'. destruct nodes as [| | | | |l|]; try discriminate H.
  destruct (negb _); [discriminate H|]. destruct (foldM _ [] l) as [ns0|] eqn:E; [|discriminate H]. cbn [bind] in H.
  destruct (known_name _ result) as [r0|] eqn:Hr; [|discriminate H]. apply known_name_Some in Hr as [-> _]. apply Ok_inj in H. injection H as <- <-. split; [|done].
  enough (Hgen : forall l st ns ns',
    foldM (fun (st : list node) value => let* n := array_node views (map node_id st) value in Ok (st ++ [n])) st l = Ok ns ->
    foldM (fun (st : list node) value => let* n := check_node (map node_id st) value in Ok (st ++ [n])) st l = Ok ns' -> ns' = ns) by exact (Hgen _ _ _ _ E H').
  clear. induction l as [|v l IH]; intros st ns ns' E H'; cbn [foldM] in *; [congruence|].
  destruct (array_node _ _ v) as [n|] eqn:Hn; [|discriminate E]. destruct (check_node _ v) as [n'|] eqn:Hn'; [|discriminate H']. cbn [bind] in *.
  pose proof (array_node_check _ _ _ _ _ _ Hn Hn') as ->. by eapply IH.
Qed.

(** ** Views *)

Lemma array_view_grid k k' kv a b : array_view k kv = Ok a -> grid_view true k' kv = Ok b -> b = a.
Proof.
  intros H H'. unfold array_view in H. unfold grid_view in H'. destruct kv as [n v]. cbn [fst snd] in *. destruct (long_name n); [discriminate H|].
  destruct v as [| | | | | |d]; try discriminate H. unfold fields in H. destruct (negb (keys_are d _)); [discriminate H|]. cbn [bind] in H.
  destruct (_ || _); [discriminate H'|]. cbn zeta in *.
  assert (Hint : forall v lo hi hi' x y, Grid.integer v lo hi = Ok x -> Grid.integer v lo hi' = Ok y -> x = y).
  { intros v lo hi hi' x y. unfold Grid.integer, int_in. destruct v; try done. repeat case_bool_decide; cbn; congruence. }
  assert (Hpair : forall m m' v lo hi x y, integer_pair m v lo hi = Ok x -> integer_pair m' v lo hi = Ok y -> x = y).
  { intros m m' v lo hi x y. destruct v as [| | | | |[|p [|q [|]]]|]; try done. cbn. destruct (Grid.integer p lo hi); [|done]. cbn. destruct (Grid.integer q lo hi); cbn; congruence. }
  res_peel H. res_peel H'. apply Ok_inj in H as <-. apply Ok_inj in H' as <-.
  repeat match goal with H : bind (dsub _ _) _ = Ok _ |- _ => res_peel H end.
  repeat match goal with H1 : dsub d ?k = Ok _, H2 : dsub d ?k = Ok _ |- _ => rewrite H1 in H2; apply Ok_inj in H2; subst end.
  cbn [bind] in *. repeat match goal with H : Ok _ = Ok _ |- _ => apply Ok_inj in H; subst end.
  f_equal. f_equal; eauto.
Qed.

(** ** The source of a fused stage *)

Definition fused_doc (d : dict) (ins : list pyval) (tile : Z * Z) : pyval :=
  VDict (dset "tile" (words_val [tile.1; tile.2]) (dset "inputs" (VList ins) (dset "schema" (VStr "raveil.mf01-grid/v5") d))).

Lemma fused_doc_get d ins tile k : dget k (dset "tile" (words_val [tile.1; tile.2]) (dset "inputs" (VList ins) (dset "schema" (VStr "raveil.mf01-grid/v5") d))) =
  if String.eqb k "tile" then Some (words_val [tile.1; tile.2]) else if String.eqb k "inputs" then Some (VList ins)
  else if String.eqb k "schema" then Some (VStr "raveil.mf01-grid/v5") else dget k d.
Proof.
  destruct (String.eqb_spec k "tile") as [->|]; [apply dget_dset_eq|]. rewrite dget_dset_ne by done.
  destruct (String.eqb_spec k "inputs") as [->|]; [apply dget_dset_eq|]. rewrite dget_dset_ne by done.
  destruct (String.eqb_spec k "schema") as [->|]; [apply dget_dset_eq|]. by rewrite dget_dset_ne.
Qed.

(** The fields of an admitted stage and of the grid source made from it. *)
Record same_stage (s : array_stage) (gs : gsource) : Prop := {
  sg_version : gs_version gs = 5;
  sg_shape : gs_shape gs = ar_shape s;
  sg_boundary : gs_boundary gs = ar_boundary s;
  sg_extent : gs_extent gs = ar_extent s;
  sg_fold : gs_fold gs = ar_fold s;
  sg_views : gs_views gs = ar_views s;
  sg_nodes : array_nodes (gs_nodes gs) (gs_result gs) (map fst (ar_views s)) = Ok (ar_nodes s, ar_result s);
  sg_post : match gs_post gs, ar_post s with
            | None, None => True
            | Some (n, r), Some p => array_nodes n r ["reduced"] = Ok p
            | _, _ => False
            end;
}.

Lemma array_fold_grid v f : array_fold v = Ok f -> (if is_str v "sum" then FSum else FMax) = f.
Proof. unfold array_fold. destruct (is_str v "sum"); [by intros [= <-]|]. destruct (is_str v "max"); [by intros [= <-]|done]. Qed.

Lemma traverse_agree {A B} (f g : A -> res B) l x y : (forall a u v, f a = Ok u -> g a = Ok v -> v = u) -> traverse f l = Ok x -> traverse g l = Ok y -> y = x.
Proof.
  intros H. revert x y. induction l as [|a l IH]; intros x y Hx Hy; cbn [traverse] in *; [congruence|].
  res_peel Hx. res_peel Hy. apply Ok_inj in Hx as <-. apply Ok_inj in Hy as <-. f_equal; [by eapply H|by apply IH].
Qed.

Lemma stage_source d s ins tile gs :
  array_source (VDict d) = Ok s -> source (fused_doc d ins tile) = Ok gs -> same_stage s gs /\ traverse read_grid ins = Ok (gs_grids gs).
Proof.
  intros H H'. unfold array_source in H. cbn zeta in H. unfold fields in H. destruct (negb (keys_are d _)); [discriminate H|]. cbn [bind] in H.
  unfold source, fused_doc in H'. unfold source_schema in H'. rewrite !fused_doc_get in H'.
  change (String.eqb "schema" "tile") with false in H'. change (String.eqb "schema" "inputs") with false in H'. change (String.eqb "schema" "schema") with true in H'.
  cbn iota in H'. change (Z.succ <$> index_of "raveil.mf01-grid/v5" grid_schemas) with (Some 5) in H'. cbn zeta iota in H'.
  destruct (negb (keys_are _ _)); [discriminate H'|]. unfold dsub in H, H'. rewrite !fused_doc_get in H'.
  change (negb (5 =? 1)) with true in H'. change ((5 =? 3) || (bool_decide (4 <= 5) && is_Some_b (dget "post" d))) with (is_Some_b (dget "post" d)) in H'.
  cbn [String.eqb Ascii.eqb Bool.eqb from_option_err bind] in H'. cbv iota in H'.
  res_peel H. destruct a as [| | | | |inputs|]; try discriminate H. destruct (negb (bool_decide _)); [discriminate H|]. res_peel H.
  match type of H with (match ?v with _ => _ end) = Ok _ => destruct v as [| | | | | |vs] end; try discriminate H.
  destruct (negb (bool_decide _)) in H; [discriminate H|]. res_peel H. apply Ok_inj in H as <-.
  res_peel H'. apply Ok_inj in H' as <-. apply Ok_inj in E3 as <-. split; [|exact E19].
  destruct a4 as [| | | | | |k]; try discriminate E6. destruct (negb _) in E6; [discriminate E6|]. apply Ok_inj in E6 as <-.
  unfold grid_kernel in E25. destruct (negb (keys_are k _)); [discriminate E25|]. unfold dsub in E25. rewrite E7, E9, E11, E13, E14 in E25. cbn [bind] in E25.
  rewrite E8 in E25. cbn [bind] in E25. destruct (negb (_ || _)); [discriminate E25|]. destruct (negb (bool_decide _)) in E25; [discriminate E25|].
  destruct (traverse (grid_view true _) vs) as [views|] eqn:Ev; [|discriminate E25]. cbn [bind] in E25. apply Ok_inj in E25. injection E25 as <- <- <- <- <-.
  assert (views = a10) as -> by (eapply traverse_agree; [|exact E12|exact Ev]; intros; by eapply array_view_grid).
  constructor; cbn [gs_version gs_shape gs_boundary gs_extent gs_fold gs_views gs_nodes gs_result gs_post ar_shape ar_boundary ar_extent ar_fold ar_views ar_nodes ar_result ar_post]; try done.
  - destruct a as [| | | | |[|x [|y [|]]]|]; try discriminate E1. cbn in E1, E21. destruct (Grid.integer x 1 64); [|discriminate E1]. cbn in E1, E21.
    destruct (Grid.integer y 1 64); [|discriminate E1]. congruence.
  - by apply array_fold_grid.
  - change ((5 =? 3) || _) with (is_Some_b (dget "post" d)) in E17. destruct (is_Some_b (dget "post" d)); [|apply Ok_inj in E16 as <-; by apply Ok_inj in E17 as <-].
    destruct (from_option_err KeyError (dget "post" d)) as [[| | | | | |pd]|]; try discriminate E16; try discriminate E17. cbn [bind] in E16, E17. unfold grid_post, dsub in E17.
    destruct (negb (keys_are pd _)); [discriminate E16|]. cbn [bind] in E16, E17. res_peel E16. cbn [bind] in E17.
    apply Ok_inj in E16 as <-. apply Ok_inj in E17 as <-. done.
Qed.

(** The oracle of the source is the reference of the stage. *)
Lemma stage_reference d s ins inputs tile words :
  array_source (VDict d) = Ok s -> traverse read_grid ins = Ok inputs -> Forall grid_ok inputs ->
  grid_reference (fused_doc d ins tile) = Ok words ->
  traverse (array_cell s inputs) (coordinates (ar_shape s).1 (ar_shape s).2) = Ok words.
Proof.
  intros Hs Hins Hg H. unfold grid_reference in H. destruct (source _) as [gs|] eqn:Hgs; [|discriminate H]. cbn [bind] in H.
  destruct (compile_source gs) as [c|]; [|discriminate H]. cbn [bind] in H.
  destruct (stage_source _ _ _ _ _ Hs Hgs) as [[Hv Hsh Hb He Hf Hvs Hn Hp] Hins']. rewrite Hins in Hins'. apply Ok_inj in Hins'.
  unfold reference_source in H. rewrite Hv in H. change (typed_nodes 5 ?views) with source_nodes in H.
  destruct (source_nodes (gs_nodes gs)) as [ns|] eqn:Hns; [|discriminate H]. cbn [bind] in H. destruct (array_nodes_source _ _ _ _ _ _ Hn Hns) as [-> Hr].
  rewrite Hr in H. cbn [bind result_name] in H.
  assert (Hload : forall rc k v, grid_load gs rc.1 rc.2 k v = array_load s inputs rc.1 rc.2 k v).
  { intros rc k v. unfold grid_load, array_load, stage_view. rewrite Hvs, <- Hins', Hb. destruct (from_option_err KeyError _) as [w|]; [|done]. cbn [bind].
    destruct (py_index inputs (gv_input w)) as [g|] eqn:Hi; [|done]. cbn [bind]. pose proof (py_index_Forall _ _ _ _ Hg Hi) as Hgok.
    by destruct (sample_ok g (view_at w rc.1 rc.2 k).1 (view_at w rc.1 rc.2 k).2 (ar_boundary s) Hgok) as (x & -> & -> & _). }
  assert (Hacc : forall rc, foldM (fun acc k => let* v := eval_nodes (grid_load gs rc.1 rc.2 k) (ar_nodes s) (ar_result s) in Ok (fold_step (gs_fold gs) acc v)) 0 (zseq (gs_extent gs)) =
    foldM (fun acc k => let* v := eval_nodes (array_load s inputs rc.1 rc.2 k) (ar_nodes s) (ar_result s) in Ok (fold_step (ar_fold s) acc v)) 0 (zseq (ar_extent s))).
  { intros rc. rewrite He, Hf. apply foldM_ext. intros acc k. by rewrite (eval_nodes_ext_in _ (array_load s inputs rc.1 rc.2 k)) by (intros; apply Hload). }
  destruct (gs_post gs) as [[pn pr]|], (ar_post s) as [[qn qr]|] eqn:Hq; try done.
  - destruct (source_nodes pn) as [pns|] eqn:Hpn; [|discriminate H]. destruct (array_nodes_source _ _ _ _ _ _ Hp Hpn) as [-> ->]. cbn [bind result_name] in H.
    rewrite Hsh in H. rewrite <- H. apply traverse_ext. intros rc _. unfold array_cell, grid_cell. by rewrite Hq, Hacc.
  - cbn [bind] in H. rewrite Hsh in H. rewrite <- H. apply traverse_ext. intros rc _. unfold array_cell, grid_cell. by rewrite Hq, Hacc.
Qed.

(** ** The source documents of an admitted program *)

(** Every stage has a document without floats that its types were read from. *)
Definition docs_of (stages : list (string * array_stage)) (docs : documents) : Prop :=
  forall n s, find_stage stages n = Some s -> exists d, find_doc docs n = Some d /\ array_source (VDict d) = Ok s /\ json_ok (VDict d) = true.

Definition entry_doc (ns : string * array_stage) (nd : string * dict) : Prop := ns.1 = nd.1 /\ array_source (VDict nd.2) = Ok ns.2.

Lemma stage_entry_doc stages v stages' :
  array_stage_entry stages v = Ok stages' -> exists ns nd, stages' = stages ++ [ns] /\ stage_doc v = Some nd /\ entry_doc ns nd.
Proof.
  intros H. unfold array_stage_entry in H. res_peel H. unfold fields in E. destruct v as [| | | | | |e]; try discriminate E. destruct (negb _); [discriminate E|].
  apply Ok_inj in E as <-. destruct a0 as [| | | |n| |]; try discriminate H. res_peel H. apply Ok_inj in H as <-. apply name_Ok in E as [= <-].
  destruct a0 as [| | | | | |d]; try discriminate E3. exists (n, a1), (n, d). split; [done|]. unfold dsub in E0, E2. unfold stage_doc.
  destruct (dget "name" e) as [x|]; [|discriminate E0]. apply Ok_inj in E0 as ->. destruct (dget "source" e) as [y|]; [|discriminate E2]. apply Ok_inj in E2 as ->. done.
Qed.

Lemma stage_entries_docs l stages stages' :
  foldM array_stage_entry stages l = Ok stages' -> exists new, stages' = stages ++ new /\ Forall2 entry_doc new (omap stage_doc l).
Proof.
  revert stages. induction l as [|v l IH]; intros stages H; cbn [foldM] in H.
  - apply Ok_inj in H as <-. exists []. by rewrite app_nil_r.
  - destruct (array_stage_entry stages v) as [st|] eqn:E; [|discriminate H]. cbn [bind] in H. destruct (stage_entry_doc _ _ _ E) as (ns & nd & -> & Hd & Hnd).
    destruct (IH _ H) as (new & -> & Hnew). exists (ns :: new). rewrite <- app_assoc. split; [done|].
    change (omap stage_doc (v :: l)) with (match stage_doc v with Some y => y :: omap stage_doc l | None => omap stage_doc l end). rewrite Hd. by constructor.
Qed.

Lemma json_ok_get d k v : json_ok (VDict d) = true -> dget k d = Some v -> json_ok v = true.
Proof. cbn. intros [_ H]%andb_true_iff Hk%dget_elem. rewrite forallb_forall in H. apply (H (k, v)). by apply list_elem_of_In. Qed.
Lemma json_ok_item l v : json_ok (VList l) = true -> v ∈ l -> json_ok v = true.
Proof. cbn. rewrite forallb_forall. intros H Hv. apply H. by apply list_elem_of_In. Qed.

Lemma stage_docs_ok value p : structure value = Ok p -> json_ok value = true -> docs_of (pr_stages p) (stage_docs value).
Proof.
  intros H Hok. unfold structure in H. destruct (fields value _ _) as [d|] eqn:Hf; [|discriminate H]. unfold fields in Hf.
  destruct value as [| | | | | |d']; try discriminate Hf. destruct (negb _); [discriminate Hf|]. apply Ok_inj in Hf as ->. cbn [bind] in H. res_peel H.
  destruct a0 as [| | | | |sl|]; try discriminate H. destruct a1 as [| | | | |ol|]; try discriminate H.
  destruct (_ || _); [discriminate H|]. destruct (foldM array_stage_entry [] sl) as [stages|] eqn:Hst; [|discriminate H]. cbn [bind] in H. cbn zeta in H.
  destruct (MAX_NODES <? _); [discriminate H|]. destruct (mapM _ ol) as [outs|]; [|discriminate H].
  destruct (negb (bool_decide (NoDup outs))); [discriminate H|]. destruct (existsb _ stages); [discriminate H|].
  destruct (stage_order _ _ _ _) as [order|]; [|discriminate H]. cbn [bind] in H. apply Ok_inj in H as <-. cbn [pr_stages].
  apply stage_entries_docs in Hst as (new & -> & Hnew). cbn [app]. unfold dsub in E0. unfold docs_of, stage_docs.
  destruct (dget "stages" d) as [x|] eqn:Hs; [|discriminate E0]. apply Ok_inj in E0 as ->. pose proof (json_ok_get _ _ _ Hok Hs) as Hsl.
  assert (Hjson : Forall (fun nd : string * dict => json_ok (VDict nd.2) = true) (omap stage_doc sl)).
  { apply Forall_forall. intros [n e] (v & Hv & Hd)%list_elem_of_omap. pose proof (json_ok_item _ _ Hsl Hv) as Hvok. unfold stage_doc in Hd. destruct v as [| | | | | |e']; try discriminate Hd.
    destruct (dget "name" e') as [[| | | |m| |]|]; try discriminate Hd. destruct (dget "source" e') as [[| | | | | |s']|] eqn:Hsrc; try discriminate Hd.
    injection Hd as <- <-. cbn [snd]. by eapply json_ok_get. }
  clear -Hnew Hjson. intros n s. unfold find_stage, find_doc. induction Hnew as [|[m s'] [m' d] new ds [Hm Hd] _ IH]; [done|].
  apply Forall_cons in Hjson as [Hj Hjson]. cbn [fst snd] in *. subst m'. cbn [List.find fst]. destruct (String.eqb m n); [|by apply IH].
  cbn. intros [= <-]. by exists d.
Qed.

(** ** Zero literals *)

Lemma dget_canon d k v : json_ok (VDict d) = true -> dget k (sort_keys (map (fun kv => (kv.1, canon kv.2)) d)) = Some v -> exists w, dget k d = Some w /\ v = canon w.
Proof.
  cbn. intros [Hnd%bool_decide_eq_true _]%andb_true_iff Hk%dget_elem. rewrite sort_keys_perm in Hk. apply list_elem_of_fmap in Hk as ([k' w] & [= -> ->] & Hin).
  exists w. split; [by apply elem_dget|done].
Qed.

Lemma int_in_canon lo hi w z : int_in lo hi (canon w) = Some z -> w = VInt z.
Proof. destruct w; cbn; try done. case_bool_decide; [|done]. by intros [= ->]. Qed.

Lemma read_grid_dims v g : json_ok v = true -> read_grid v = Ok g ->
  exists d, v = VDict d /\ dget "rows" d = Some (VInt (gr_rows g)) /\ dget "columns" d = Some (VInt (gr_columns g)).
Proof.
  intros Hok H. unfold read_grid in H. destruct (encoded v) as [text|] eqn:Ht; [|discriminate H]. cbn [bind] in H. unfold read_input in H.
  destruct (131072 <? _); [discriminate H|]. unfold composition_json in H. rewrite (decoded_text _ _ _ Hok Ht) in H. cbn [bind] in H.
  destruct v as [| | | | | |d]; try discriminate H. exists d. split; [done|]. cbn [canon bind] in H.
  destruct (_ || _); [discriminate H|]. unfold dsub in H. set (e := sort_keys _) in H.
  destruct (dget "rows" e) as [r|] eqn:Hr; [|discriminate H]. destruct (dget "columns" e) as [c|] eqn:Hc; [|discriminate H]. destruct (dget "words" e) as [ws|]; [|discriminate H].
  cbn [from_option_err bind] in H. destruct (int_in 1 MAX_DIMENSION r) as [rows|] eqn:Er; [|discriminate H]. destruct (int_in 1 MAX_DIMENSION c) as [columns|] eqn:Ec; [|discriminate H].
  destruct ws as [| | | | |l|]; try discriminate H. destruct (negb _); [discriminate H|]. destruct (mapM _ l); [|discriminate H]. apply Ok_inj in H as <-. cbn [gr_rows gr_columns].
  destruct (dget_canon _ _ _ Hok Hr) as (w & Hw & ->). destruct (dget_canon _ _ _ Hok Hc) as (w' & Hw' & ->).
  apply int_in_canon in Er as ->. by apply int_in_canon in Ec as ->.
Qed.

Lemma json_ok_dset d k v : json_ok (VDict d) = true -> json_ok v = true -> is_Some (dget k d) -> json_ok (VDict (dset k v d)) = true.
Proof.
  cbn. intros [Hnd Hall]%andb_true_iff Hv Hk. apply andb_true_iff. rewrite keys_dset by done. split; [done|]. clear Hnd Hk.
  induction d as [|[k' v'] d IH]; cbn in *; [by rewrite Hv|]. apply andb_true_iff in Hall as [H1 H2]. destruct (String.eqb k k'); cbn; [by rewrite Hv|]. by rewrite H1, IH.
Qed.

Lemma json_ok_words l : json_ok (words_val l) = true.
Proof. unfold words_val. cbn. by induction l. Qed.

(** The literal with zero words has the dimensions of the literal. *)
Lemma zero_input_dims item g g0 : json_ok item = true -> read_grid item = Ok g -> read_grid (zero_input item) = Ok g0 -> same_dims g0 g.
Proof.
  intros Hok H H0. destruct (read_grid_dims _ _ Hok H) as (d & -> & Hr & Hc). unfold zero_input in H0.
  destruct (dget "from" d); [rewrite H in H0; by apply Ok_inj in H0 as ->|].
  destruct (dget "words" d) as [[| | | | |l|]|] eqn:Hw; try (rewrite H in H0; by apply Ok_inj in H0 as ->).
  destruct (read_grid_dims _ _ (json_ok_dset d "words" _ Hok (json_ok_words _) ltac:(rewrite Hw; by eexists)) H0) as (d' & [= <-] & Hr' & Hc').
  rewrite dget_dset_ne in Hr', Hc' by done. rewrite Hr in Hr'. rewrite Hc in Hc'. split; congruence.
Qed.

(** ** Admission on zero words is admission *)

Lemma keys_dset_like k v v' d d' : keys d = keys d' -> keys (dset k v d) = keys (dset k v' d').
Proof.
  unfold keys. revert d'. induction d as [|[k1 v1] d IH]; intros [|[k2 v2] d']; intros H; try discriminate H; [done|]. cbn in H. injection H as -> H. cbn.
  destruct (String.eqb k k2); cbn; [by rewrite H|]. by rewrite (IH _ H).
Qed.

Lemma fused_doc_replaced d ins0 ins tile :
  is_Some (dget "inputs" d) ->
  inputs_replaced (dset "tile" (words_val [tile.1; tile.2]) (dset "inputs" (VList ins0) (dset "schema" (VStr "raveil.mf01-grid/v5") (zero_doc d))))
    (dset "tile" (words_val [tile.1; tile.2]) (dset "inputs" (VList ins) (dset "schema" (VStr "raveil.mf01-grid/v5") d))) ins0 ins.
Proof.
  intros Hin. assert (Hk : keys (zero_doc d) = keys d).
  { unfold zero_doc. destruct (dget "inputs" d) as [[| | | | |l|]|] eqn:E; try done. apply keys_dset. by rewrite E. }
  split_and!; [by rewrite fused_doc_get..| |].
  - intros k Hne. rewrite !fused_doc_get. destruct (String.eqb k "tile"); [done|]. rewrite (proj2 (String.eqb_neq k "inputs")) by done.
    destruct (String.eqb k "schema"); [done|]. unfold zero_doc. destruct (dget "inputs" d) as [[| | | | |l|]|]; try done. by rewrite dget_dset_ne.
  - intros l. unfold keys_are. erewrite keys_dset_like; [done|]. apply keys_dset_like, keys_dset_like. by symmetry.
Qed.

(** A link of a fused stage is read from a plane, a literal as it is. *)
Lemma admit_input_raw item i : admit_input item = Ok i ->
  match i with
  | inl n => exists e, item = VDict e /\ dget "from" e = Some (VStr n)
  | inr g => read_grid item = Ok g /\ (forall e, item = VDict e -> dget "from" e = None)
  end.
Proof.
  intros H. unfold admit_input in H. cbn zeta in H.
  assert (Hlit : (let* raw := encoded item in let* g := read_input raw in Ok (inr g)) = Ok i -> match i with inl n => False | inr g => read_grid item = Ok g end).
  { intros Hl. unfold read_grid. destruct (encoded item) as [raw|]; [|discriminate Hl]. cbn [bind] in *. destruct (read_input raw); [|discriminate Hl]. cbn [bind] in Hl. by apply Ok_inj in Hl as <-. }
  destruct item as [| | | | | |e]; try (apply Hlit in H; destruct i; [done|]; split; [done|]; intros; discriminate).
  destruct (dget "from" e) as [from|] eqn:Hf; cbn [is_Some_b] in H.
  - unfold fields in H. destruct (negb _); [discriminate H|]. cbn [bind] in H. unfold dsub in H. rewrite Hf in H. cbn [from_option_err bind] in H.
    destruct from as [| | | |n| |]; try discriminate H. destruct (name (VStr n)) as [n'|] eqn:Hn; [|discriminate H]. apply name_Ok in Hn as [= <-]. apply Ok_inj in H as <-. by exists e.
  - apply Hlit in H. destruct i; [done|]. split; [done|]. by intros e' [= <-].
Qed.

(** Compiling is enough for a run: the result is what the oracle says. *)
Lemma run_bound_ok source c :
  compile_grid source = Ok c -> exists words, grid_reference source = Ok words /\ run_bound source = Ok (Grid (cg_rows c) (cg_columns c) words).
Proof.
  intros H. destruct (grid_run_agree _ _ H) as (words & Href & Hrun). exists words. split; [done|].
  unfold run_bound. rewrite H. cbn [bind]. rewrite Hrun. cbn [bind]. rewrite Href. cbn [bind]. by rewrite bool_decide_true.
Qed.

Lemma find_zero_doc docs n : find_doc (zero_docs docs) n = zero_doc <$> find_doc docs n.
Proof. unfold find_doc, zero_docs. induction docs as [|[m d] docs IH]; [done|]. cbn. by destruct (String.eqb m n). Qed.

Section stage.
Context (s : array_stage) (producers : names_map) (V P0 P : planes).
Context (Hag : planes_agree V P0 P) (HV : forall x g, V !! x = Some g -> grid_ok g).

Definition same_reading (v v' : pyval) : Prop := forall g, read_grid v = Ok g -> exists g', read_grid v' = Ok g' /\ same_dims g g'.

Lemma plane_reading g0 g : grid_ok g0 -> grid_ok g -> same_dims g0 g -> same_reading (plane_doc g0) (plane_doc g).
Proof. intros H0 H Hd g' Hg'. unfold read_grid, plane_doc in *. rewrite read_grid_doc in Hg' by done. apply Ok_inj in Hg' as <-. exists g. by rewrite read_grid_doc. Qed.

Lemma fused_inputs_ok raw ai inputs ins0 :
  traverse admit_input raw = Ok ai -> Forall (fun v => json_ok v = true) raw ->
  Forall2 (fun (i : array_input) g => match i with inl from => exists r, producers !! from = Some r /\ V !! r = Some g | inr g' => g = g' end) ai inputs ->
  traverse (fused_input producers P0) (map zero_input raw) = Ok ins0 ->
  exists ins, traverse (fused_input producers P) raw = Ok ins /\ Forall2 same_reading ins0 ins /\ traverse read_grid ins = Ok inputs.
Proof.
  intros Hai Hok Hl. revert raw ins0 Hai Hok. induction Hl as [|i g ai inputs Hig _ IH]; intros raw ins0 Hai Hok H0.
  - apply traverse_length in Hai. destruct raw; [|discriminate Hai]. cbn in H0. apply Ok_inj in H0 as <-. exists []. split_and!; [done|constructor|done].
  - destruct raw as [|item raw]; [discriminate Hai|]. cbn [traverse map] in Hai, H0 |- *. apply Forall_cons in Hok as [Hj Hok].
    destruct (admit_input item) as [i'|] eqn:Hi; [|discriminate Hai]. cbn [bind] in Hai. destruct (traverse admit_input raw) as [ai'|] eqn:Hai'; [|discriminate Hai].
    cbn [bind] in Hai. apply Ok_inj in Hai. injection Hai as -> ->.
    destruct (fused_input producers P0 (zero_input item)) as [v0|] eqn:Hv0; [|discriminate H0]. cbn [bind] in H0.
    destruct (traverse (fused_input producers P0) (map zero_input raw)) as [ins0'|] eqn:H0'; [|discriminate H0]. cbn [bind] in H0. apply Ok_inj in H0 as <-.
    destruct (IH raw ins0' Hai' Hok H0') as (ins & -> & Hins & Hread). apply admit_input_raw in Hi.
    assert (Hv : exists v, fused_input producers P item = Ok v /\ same_reading v0 v /\ read_grid v = Ok g).
    { destruct i as [from|g'].
      - destruct Hi as (e & -> & Hf). destruct Hig as (r & Hr & Hvr). cbn [zero_input] in Hv0. rewrite Hf in Hv0. cbn [fused_input] in Hv0 |- *. rewrite Hf in Hv0 |- *.
        unfold name_of in Hv0 |- *. rewrite Hr in Hv0 |- *. cbn [from_option_err bind] in Hv0 |- *. destruct (plane_of P0 r) as [g0|] eqn:Ep; [|discriminate Hv0].
        cbn [bind] in Hv0. apply Ok_inj in Hv0 as <-. destruct (plane_agree _ _ _ _ _ Hag Ep) as (g1 & -> & Hg1 & Hd & Hg0). assert (g1 = g) as -> by congruence.
        exists (plane_doc g). split; [done|]. pose proof (HV _ _ Hvr). split; [by apply plane_reading|]. unfold read_grid, plane_doc. by apply read_grid_doc.
      - destruct Hi as [Hg Hfrom]. subst g. assert (fused_input producers P item = Ok item) as ->.
        { destruct item as [| | | | | |e]; try done. cbn. by rewrite (Hfrom e eq_refl). }
        exists item. split; [done|]. split; [|done]. intros g0 Hg0. exists g'. split; [done|].
        assert (v0 = zero_input item) as ->; [|by eapply zero_input_dims].
        unfold zero_input in Hv0 |- *. destruct item as [| | | | | |e]; try (cbn in Hv0; by apply Ok_inj in Hv0). pose proof (Hfrom e eq_refl) as He. rewrite He in Hv0 |- *.
        destruct (dget "words" e) as [[| | | | |l|]|]; cbn in Hv0; try (rewrite He in Hv0; by apply Ok_inj in Hv0). rewrite dget_dset_ne, He in Hv0 by done. by apply Ok_inj in Hv0. }
    destruct Hv as (v & -> & Hsr & Hg). cbn [bind]. exists (v :: ins). split; [done|]. split; [by constructor|]. cbn [traverse]. rewrite Hg. cbn [bind]. by rewrite Hread.
Qed.
End stage.

(** A fused stage that the planner admits on zero words runs to the stage's words. *)
Lemma bind_stage_ok docs n d s producers tile V P0 P source0 c0 inputs :
  find_doc docs n = Some d -> array_source (VDict d) = Ok s -> json_ok (VDict d) = true ->
  planes_agree V P0 P -> (forall x g, V !! x = Some g -> grid_ok g) -> linked s producers inputs V -> Forall grid_ok inputs ->
  bind_stage (zero_docs docs) n producers tile P0 = Ok source0 -> compile_grid source0 = Ok c0 ->
  exists source words, bind_stage docs n producers tile P = Ok source /\ run_bound source = Ok (Grid (ar_shape s).1 (ar_shape s).2 words) /\
    traverse (array_cell s inputs) (coordinates (ar_shape s).1 (ar_shape s).2) = Ok words.
Proof.
  intros Hd Hs Hj Hag HV Hl Hg H0 Hc0. unfold bind_stage in H0. rewrite find_zero_doc, Hd in H0. cbn [fmap option_fmap option_map from_option_err bind] in H0.
  assert (Hraw : exists raw, dget "inputs" d = Some (VList raw) /\ traverse admit_input raw = Ok (ar_inputs s)).
  { clear -Hs. unfold array_source in Hs. cbn zeta in Hs. destruct (fields _ _ _) as [d'|]; [|discriminate Hs]. cbn [bind] in Hs. unfold dsub at 1 in Hs.
    destruct (dget "inputs" d) as [[| | | | |raw|]|]; try discriminate Hs. exists raw. split; [done|]. cbn [from_option_err bind] in Hs. destruct (negb _); [discriminate Hs|]. res_peel Hs.
    match type of Hs with (match ?v with _ => _ end) = Ok _ => destruct v end; try discriminate Hs. destruct (negb _); [discriminate Hs|]. res_peel Hs. by apply Ok_inj in Hs as <-. }
  destruct Hraw as (raw & Hraw & Hai). unfold zero_doc at 1, dsub in H0. rewrite Hraw, dget_dset_eq in H0. cbn [from_option_err bind] in H0.
  destruct (traverse _ (map zero_input raw)) as [ins0|] eqn:Hins0; [|discriminate H0]. cbn [bind] in H0. apply Ok_inj in H0 as <-.
  assert (Hjraw : Forall (fun v => json_ok v = true) raw).
  { apply Forall_forall. intros v Hv. eapply json_ok_item; [|exact Hv]. by eapply json_ok_get. }
  destruct (fused_inputs_ok _ _ _ _ Hag HV _ _ _ _ Hai Hjraw Hl Hins0) as (ins & Hins & Hsr & Hread).
  destruct (compile_replaced _ _ _ _ _ (fused_doc_replaced d ins0 ins tile ltac:(by rewrite Hraw)) Hsr Hc0) as (c & Hc & _).
  destruct (run_bound_ok _ _ Hc) as (words & Href & Hrun). change (VDict _) with (fused_doc d ins tile) in Href, Hrun, Hc.
  exists (fused_doc d ins tile), words. unfold bind_stage, dsub. rewrite Hd. cbn [from_option_err bind]. rewrite Hraw. cbn [from_option_err bind]. rewrite Hins. cbn [bind]. split; [done|].
  split; [|by eapply stage_reference]. rewrite Hrun. unfold compile_grid in Hc. destruct (source (fused_doc d ins tile)) as [gs|] eqn:Hgs; [|discriminate Hc]. cbn [bind] in Hc.
  destruct (compile_source_tiles _ c (source_Ok _ _ Hgs) Hc) as (-> & -> & _). destruct (stage_source _ _ _ _ _ Hs Hgs) as [Hst _]. by rewrite (sg_shape _ _ Hst).
Qed.
