(* ===== verification/FusionBlock.v ===== *)
(** * Fused passes: blocks

    The map of a block computes, cell by cell, the values of the scalar passes it
    joins: [binv] is what holds of the block under construction, and
    [block_nodes_ok] that every pass added to it keeps it. *)

From S2P Require Import Prelude PyValue Json MapSyntax AffineFold AffineFoldFacts Project Numeric NumericFacts.
From S2P Require Import Grid GridFacts GridRun GridWords Array ArrayPass ArrayFacts ArrayRun Flow Fusion FusionFacts.

(** ** Cells *)

Definition at_cell (g : grid) (rc : Z * Z) (w : Z) : Prop := py_index (gr_words g) (rc.1 * gr_columns g + rc.2) = Ok w.

Lemma at_cell_ok shape g rc : grid_ok g -> dims shape g -> rc ∈ cells shape -> exists w, at_cell g rc w /\ is_word w.
Proof.
  intros [Hr Hc Hl Hw] [H1 H2] Hrc. destruct rc as [r c]. apply elem_of_coordinates in Hrc as [? ?]. unfold at_cell. cbn [fst snd].
  apply py_index_word_ok; [done|]. rewrite Hl, H1, H2. nia.
Qed.

Lemma at_cell_fun g rc w w' : at_cell g rc w -> at_cell g rc w' -> w = w'.
Proof. unfold at_cell. congruence. Qed.

(** A list of words in the order of the cells. *)
Lemma cells_words shape (f : Z * Z -> res Z) g rc :
  traverse f (coordinates shape.1 shape.2) = Ok (gr_words g) -> dims shape g -> rc ∈ cells shape -> exists w, f rc = Ok w /\ at_cell g rc w.
Proof.
  intros Ht [_ H2] Hrc. destruct rc as [r c]. apply elem_of_coordinates in Hrc as [Hr Hc]. apply traverse_Ok in Ht.
  destruct (Forall2_lookup_l _ _ _ _ _ Ht (lookup_coordinates _ _ r c Hr Hc)) as (w & Hw & Hf). exists w. split; [done|].
  assert (0 <= r * shape.2 + c) by nia. unfold at_cell, py_index. cbn [fst snd]. rewrite H2, Hw. apply lookup_lt_Some in Hw. rewrite bool_decide_true by lia. done.
Qed.

Lemma words_cells shape g : grid_ok g -> dims shape g -> traverse (fun rc => py_index (gr_words g) (rc.1 * gr_columns g + rc.2)) (coordinates shape.1 shape.2) = Ok (gr_words g).
Proof.
  intros [Hr Hc Hl Hw] [H1 H2]. apply traverse_Ok. apply Forall2_same_length_lookup_2; [rewrite length_coordinates; nia|].
  intros i [r c] w Hi Hwi. pose proof (list_elem_of_lookup_2 _ _ _ Hi) as [Hrr Hcc]%elem_of_coordinates.
  pose proof (lookup_coordinates _ _ r c Hrr Hcc) as Hj. pose proof (NoDup_lookup _ _ _ _ (NoDup_coordinates _ _) Hi Hj) as ->.
  assert (0 <= r * shape.2 + c) by nia. unfold py_index. cbn [fst snd]. rewrite H2, Hwi. apply lookup_lt_Some in Hwi. by rewrite bool_decide_true by lia.
Qed.

(** ** Evaluation *)

Lemma eval_fold_ext load load' ns e :
  (forall i v, NLoad i v ∈ ns -> load v = load' v) -> foldM (eval_node load) e ns = foldM (eval_node load') e ns.
Proof.
  revert e. induction ns as [|n ns IH]; intros e H; [done|]. cbn [foldM].
  assert (eval_node load e n = eval_node load' e n) as ->.
  { unfold eval_node. destruct n as [i v| |]; cbn; [|done|done]. rewrite (H i v); [done|left]. }
  destruct (eval_node load' e n); [|done]. cbn. apply IH. intros i v Hi. apply (H i v). by right.
Qed.

Lemma eval_word_mono load (e e' : env) n w : e ⊆ e' -> eval_word load e n = Ok w -> eval_word load e' n = Ok w.
Proof.
  intros He. assert (Hget : forall x w, env_get e x = Ok w -> env_get e' x = Ok w).
  { intros x v. unfold env_get. destruct (e !! x) as [y|] eqn:E; [|done]. by rewrite (lookup_weaken _ _ _ _ E He). }
  destruct n as [i v|i o args|i o a imm]; cbn [eval_word]; [done| |].
  - intros H. destruct (traverse (env_get e) args) as [ws|] eqn:Hws; [|discriminate H]. assert (traverse (env_get e') args = Ok ws) as ->; [|done].
    apply traverse_Ok in Hws. apply traverse_Ok. eapply Forall2_impl; [exact Hws|]. intros; by apply Hget.
  - destruct (env_get e a) as [x|] eqn:Hx; [|done]. by rewrite (Hget _ _ Hx).
Qed.

(** A name that the nodes do not define may be defined before them. *)
Lemma eval_insert load ns (e e' : env) x w :
  foldM (eval_node load) e ns = Ok e' -> e !! x = None -> x ∉ map node_id ns ->
  foldM (eval_node load) (<[x := w]> e) ns = Ok (<[x := w]> e') /\ e' !! x = None.
Proof.
  revert e. induction ns as [|n ns IH]; intros e H Hx Hn; cbn [foldM] in *; [by apply Ok_inj in H as <-|].
  cbn [map] in Hn. apply not_elem_of_cons in Hn as [Hne Hn]. unfold eval_node at 1 in H. unfold eval_node at 1.
  destruct (eval_word load e n) as [v|] eqn:Hv; [|discriminate H]. cbn [bind] in H.
  rewrite (eval_word_mono _ _ _ _ _ (insert_subseteq e x w Hx) Hv). cbn [bind]. rewrite insert_insert_ne by congruence.
  apply IH; [done|by rewrite lookup_insert_ne|done].
Qed.

(** ** The block under construction *)

Section block.
Context (stages : list (string * array_stage)) (renamed : names_map) (V V' : planes) (shape : Z * Z) (Hshape : shape_ok shape).
(** [V] has the values of the scalar passes, [V'] those of the passes already
    combined; a renamed pass keeps its value. *)
Definition renaming : Prop := forall ref id, renamed !! ref = Some id -> exists g, V !! ref = Some g /\ V' !! id = Some g.
Context (Hren : renaming).

(** The load of a block's view: a word of an operand at the cell. *)
Definition block_load (ops : list grid) (rc : Z * Z) (view : string) : res Z :=
  let word i := let* g := py_index ops i in py_index (gr_words g) (rc.1 * gr_columns g + rc.2) in
  if String.eqb view "v0" then word 0 else if String.eqb view "v1" then word 1 else Err KeyError.

Definition block_eval (b : blocker) (ops : list grid) (rc : Z * Z) : res env := foldM (eval_node (block_load ops rc)) ∅ (bk_prefix b ++ bk_nodes b).

(** The name has the grid's word at every cell. *)
Definition held (b : blocker) (ops : list grid) (name : string) (g : grid) : Prop :=
  forall rc E, rc ∈ cells shape -> block_eval b ops rc = Ok E -> exists w, at_cell g rc w /\ E !! name = Some w.

Definition input_name (i : Z) : string := "e" +:+ pretty i.
Definition pass_name (i : Z) : string := "n" +:+ pretty i.

Record binv (b : blocker) (k : Z) (ops : list grid) : Prop := {
  bi_size : 0 <= k;
  bi_inputs : traverse (spec_grid stages V' shape) (bk_inputs b) = Ok ops;
  bi_two : (length (bk_inputs b) <= 2)%nat;
  bi_grids : Forall (fun g => grid_ok g /\ dims shape g) ops;
  bi_prefix : forall n, n ∈ bk_prefix b -> exists i, n = NLoad (input_name i) (view_of i) /\ 0 <= i < Z.of_nat (length ops);
  bi_loads : forall id v, NLoad id v ∈ bk_nodes b -> exists i, v = view_of i /\ 0 <= i < Z.of_nat (length ops);
  bi_ids : map node_id (bk_nodes b) = map pass_name (zseq k);
  bi_eval : forall rc, rc ∈ cells shape -> exists E, block_eval b ops rc = Ok E;
  bi_refs : forall ref name, bk_refs b !! ref = Some name -> name ∈ map node_id (bk_nodes b) /\ exists g, V !! ref = Some g /\ held b ops name g;
  bi_held : forall i g, NLoad (input_name i) (view_of i) ∈ bk_prefix b -> ops !! Z.to_nat i = Some g -> held b ops (input_name i) g;
}.

Lemma view_of_two i : 0 <= i < 2 -> view_of i = "v0" /\ i = 0 \/ view_of i = "v1" /\ i = 1.
Proof. intros Hi. assert (i = 0 \/ i = 1) as [-> | ->] by lia; [left|right]; done. Qed.

Lemma block_load_at ops rc i g : 0 <= i < 2 -> ops !! Z.to_nat i = Some g -> block_load ops rc (view_of i) = py_index (gr_words g) (rc.1 * gr_columns g + rc.2).
Proof.
  intros Hi Hg. unfold block_load. assert (Hp : py_index ops i = Ok g).
  { unfold py_index. rewrite Hg. apply lookup_lt_Some in Hg. by rewrite bool_decide_true by lia. }
  destruct (view_of_two i Hi) as [[-> ->]|[-> ->]]; cbn [String.eqb Ascii.eqb Bool.eqb]; by rewrite Hp.
Qed.

Lemma block_load_more ops more rc i : 0 <= i < Z.of_nat (length ops) -> (length ops <= 2)%nat -> block_load (ops ++ more) rc (view_of i) = block_load ops rc (view_of i).
Proof.
  intros Hi Hl. destruct (ops !! Z.to_nat i) as [g|] eqn:Hg; [|apply lookup_ge_None in Hg; lia].
  rewrite !(block_load_at _ rc i g); [done|lia|done|lia|by apply lookup_app_l_Some].
Qed.

Lemma binv_ops b k ops : binv b k ops -> (length ops = length (bk_inputs b))%nat.
Proof. intros H. exact (traverse_length _ _ _ (bi_inputs _ _ _ H)). Qed.

Lemma block_eval_more b k ops more rc : binv b k ops -> block_eval b (ops ++ more) rc = block_eval b ops rc.
Proof.
  intros H. pose proof (bi_two _ _ _ H) as H2. pose proof (binv_ops _ _ _ H) as Hl. unfold block_eval. apply eval_fold_ext. intros i v [Hin|Hin]%elem_of_app.
  - destruct (bi_prefix _ _ _ H _ Hin) as (j & [= _ ->] & Hj). apply block_load_more; lia.
  - destruct (bi_loads _ _ _ H _ _ Hin) as (j & -> & Hj). apply block_load_more; lia.
Qed.

(** ** Slots *)

Lemma position_include {A} `{EqDecision A} (l : list A) x :
  exists i, position x (include l x) = Z.of_nat i /\ include l x !! i = Some x /\ (include l x = l \/ include l x = l ++ [x]).
Proof.
  assert (Hin : x ∈ include l x) by (unfold include; case_decide; [done|]; apply elem_of_app; right; left).
  unfold position. destruct (list_find (x =.) (include l x)) as [[i y]|] eqn:E.
  - apply list_find_Some in E as (Hi & <- & _). exists i. split_and!; [done|done|]. unfold include. case_decide; auto.
  - apply list_find_None in E. rewrite Forall_forall in E. by destruct (E x Hin).
Qed.

(** The block with more inputs. *)
Lemma slot_ok b k ops spec b' i g :
  binv b k ops -> slot b spec = Ok (b', i) -> spec_grid stages V' shape spec = Ok g -> grid_ok g -> dims shape g ->
  exists ops', binv b' k ops' /\ ops' !! Z.to_nat i = Some g /\ 0 <= i < Z.of_nat (length ops') /\
    (bk_prefix b', bk_nodes b', bk_refs b') = (bk_prefix b, bk_nodes b, bk_refs b) /\
    (forall rc, block_eval b' ops' rc = block_eval b ops rc) /\ (forall j h, ops !! j = Some h -> ops' !! j = Some h).
Proof.
  intros Hb H Hspec Hg Hd. unfold slot in H. cbn zeta in H. destruct (2 <? _)%nat eqn:H2; [discriminate H|]. apply Nat.ltb_ge in H2. apply Ok_inj in H. injection H as <- <-.
  destruct (position_include (bk_inputs b) spec) as (j & -> & Hj & Hcase). rewrite Nat2Z.id. pose proof (binv_ops _ _ _ Hb) as Hl.
  assert (exists more, traverse (spec_grid stages V' shape) (include (bk_inputs b) spec) = Ok (ops ++ more) /\ Forall (fun g => grid_ok g /\ dims shape g) more) as (more & Ht & Hmore).
  { destruct Hcase as [-> | ->]; [exists []; rewrite app_nil_r; split; [apply Hb|constructor]|]. exists [g]. rewrite traverse_app, (bi_inputs _ _ _ Hb). cbn [bind traverse]. rewrite Hspec. split; [done|]. by apply Forall_singleton. }
  assert (Hat : (ops ++ more) !! j = Some g).
  { apply traverse_Ok in Ht. destruct (Forall2_lookup_l _ _ _ _ _ Ht Hj) as (g' & Hg' & Hs). cbn beta in Hs. rewrite Hspec in Hs. by apply Ok_inj in Hs as ->. }
  exists (ops ++ more). cbn [bk_inputs bk_prefix bk_nodes bk_refs].
  assert (Hev : forall rc, block_eval (Blocker (include (bk_inputs b) spec) (bk_prefix b) (bk_nodes b) (bk_refs b) (bk_args b)) (ops ++ more) rc = block_eval b ops rc).
  { intros rc. unfold block_eval at 1. cbn [bk_prefix bk_nodes]. apply (block_eval_more b k ops more rc Hb). }
  assert (Hheld : forall name h, held b ops name h -> held (Blocker (include (bk_inputs b) spec) (bk_prefix b) (bk_nodes b) (bk_refs b) (bk_args b)) (ops ++ more) name h).
  { intros name h Hh rc E Hrc HE. rewrite Hev in HE. by apply Hh. }
  split_and!; [|done|lia|apply lookup_lt_Some in Hat; lia|done|exact Hev|intros; by apply lookup_app_l_Some].
  destruct Hb as [B0 B1 B2 B3 B4 B5 B6 B7 B8 B9]. split; cbn [bk_inputs bk_prefix bk_nodes bk_refs]; try done.
  - by apply Forall_app.
  - intros n Hn. destruct (B4 n Hn) as (x & -> & ?). exists x. rewrite length_app. split; [done|lia].
  - intros id v Hn. destruct (B5 id v Hn) as (x & -> & ?). exists x. rewrite length_app. split; [done|lia].
  - intros rc Hrc. rewrite Hev. by apply B7.
  - intros ref name Hr. destruct (B8 ref name Hr) as (? & h & ? & Hh). split; [done|]. exists h. split; [done|by apply Hheld].
  - intros x h Hin Hx. apply Hheld. apply B9; [done|]. destruct (B4 _ Hin) as (y & [= Hxy _] & Hy). assert (x = y) as -> by (by apply (inj pretty)).
    rewrite lookup_app_l in Hx by lia. done.
Qed.

(** ** Reads *)

Lemma binv_args b l k ops : binv b k ops -> binv (add_args b l) k ops.
Proof. by intros [B0 B1 B2 B3 B4 B5 B6 B7 B8 B9]; split. Qed.

(** The block with more inputs and reads of them; what it computed it still does. *)
Definition ext (b : blocker) (ops : list grid) (b' : blocker) (ops' : list grid) : Prop :=
  bk_nodes b' = bk_nodes b /\ bk_refs b' = bk_refs b /\
  forall rc E, rc ∈ cells shape -> block_eval b ops rc = Ok E -> exists E', block_eval b' ops' rc = Ok E' /\ E ⊆ E'.

Lemma ext_refl b ops : ext b ops b ops.
Proof. split_and!; [done|done|]. intros rc E _ HE. by exists E. Qed.
Lemma ext_trans b ops b1 ops1 b2 ops2 : ext b ops b1 ops1 -> ext b1 ops1 b2 ops2 -> ext b ops b2 ops2.
Proof.
  intros (H1 & H2 & H3) (H4 & H5 & H6). split_and!; [congruence|congruence|]. intros rc E Hrc HE. destruct (H3 _ _ Hrc HE) as (E1 & HE1 & ?).
  destruct (H6 _ _ Hrc HE1) as (E2 & HE2 & ?). exists E2. split; [done|by etrans].
Qed.

Lemma held_ext b k ops b' ops' name g : binv b k ops -> ext b ops b' ops' -> held b ops name g -> held b' ops' name g.
Proof.
  intros Hb (_ & _ & Hext) Hh rc E' Hrc HE'. destruct (bi_eval _ _ _ Hb rc Hrc) as [E HE]. destruct (Hext _ _ Hrc HE) as (E1 & HE1 & Hsub).
  rewrite HE' in HE1. apply Ok_inj in HE1 as <-. destruct (Hh rc E Hrc HE) as (w & Hw & Hn). exists w. split; [done|by eapply lookup_weaken].
Qed.

Lemma slot_ext b k ops b' ops' : binv b k ops -> (bk_prefix b', bk_nodes b', bk_refs b') = (bk_prefix b, bk_nodes b, bk_refs b) ->
  (forall rc, block_eval b' ops' rc = block_eval b ops rc) -> ext b ops b' ops'.
Proof. intros Hb [= _ Hn Hr] Hev. split_and!; [done|done|]. intros rc E _ HE. exists E. by rewrite Hev. Qed.

Lemma input_not_pass i k : input_name i ∉ map pass_name (zseq k).
Proof. intros (j & H & _)%list_elem_of_fmap. discriminate H. Qed.

Lemma input_name_inj i j : input_name i = input_name j -> i = j.
Proof. intros [= H]. by apply (inj pretty). Qed.

Lemma prefix_fresh b k ops i : binv b k ops -> NLoad (input_name i) (view_of i) ∉ bk_prefix b -> input_name i ∉ map node_id (bk_prefix b ++ bk_nodes b).
Proof.
  intros Hb Hn. rewrite map_app, (bi_ids _ _ _ Hb), elem_of_app. intros [(n & Hi & Hin)%list_elem_of_fmap|Hi]; [|by eapply input_not_pass].
  destruct (bi_prefix _ _ _ Hb _ Hin) as (j & -> & _). cbn in Hi. apply input_name_inj in Hi as ->. done.
Qed.

Lemma prefix_ok b k ops i g :
  binv b k ops -> ops !! Z.to_nat i = Some g -> 0 <= i < Z.of_nat (length ops) ->
  let b' := Blocker (bk_inputs b) (include (bk_prefix b) (NLoad (input_name i) (view_of i))) (bk_nodes b) (bk_refs b) (bk_args b) in
  binv b' k ops /\ ext b ops b' ops /\ held b' ops (input_name i) g.
Proof.
  intros Hb Hg Hi. cbn zeta. pose proof (binv_ops _ _ _ Hb) as Hl. pose proof (bi_two _ _ _ Hb) as H2. set (n := NLoad (input_name i) (view_of i)). unfold include. case_decide as Hin.
  - assert (ext b ops (Blocker (bk_inputs b) (bk_prefix b) (bk_nodes b) (bk_refs b) (bk_args b)) ops) as Hext.
    { split_and!; [done|done|]. intros rc E _ HE. by exists E. }
    split_and!; [by destruct Hb; split|done|]. eapply held_ext; [exact Hb|exact Hext|]. by eapply bi_held.
  - pose proof (prefix_fresh _ _ _ i Hb Hin) as Hfresh. set (b' := Blocker _ _ _ _ _).
    pose proof (bi_grids _ _ _ Hb) as Hgs. rewrite Forall_lookup in Hgs. destruct (Hgs _ _ Hg) as [Hgok Hgd].
    assert (Hstep : forall rc E, rc ∈ cells shape -> block_eval b ops rc = Ok E ->
      exists w, at_cell g rc w /\ block_eval b' ops rc = Ok (<[input_name i := w]> E) /\ E !! input_name i = None).
    { intros rc E Hrc HE. destruct (at_cell_ok shape g rc Hgok Hgd Hrc) as (w & Hw & Hword). exists w. split; [done|].
      unfold block_eval in *. cbn [bk_prefix bk_nodes b']. rewrite foldM_app in HE. destruct (foldM _ ∅ (bk_prefix b)) as [Ep|] eqn:Hp; [|discriminate HE]. cbn [bind] in HE.
      rewrite map_app in Hfresh. rewrite !not_elem_of_app in Hfresh. destruct Hfresh as [Hf1 Hf2].
      destruct (eval_insert _ _ _ _ _ w Hp (lookup_empty _) Hf1) as [_ HpN]. destruct (eval_insert _ _ _ _ _ w HE HpN Hf2) as [HE' HN]. split; [|done].
      rewrite foldM_app, foldM_app, Hp. cbn [bind foldM]. unfold eval_node at 1, n. cbn [eval_word]. rewrite (block_load_at _ _ _ g) by (lia || done). unfold at_cell in Hw. rewrite Hw. cbn [bind node_id].
      by rewrite u32_id. }
    assert (Hext : ext b ops b' ops).
    { split_and!; [done|done|]. intros rc E Hrc HE. destruct (Hstep _ _ Hrc HE) as (w & _ & HE' & HN). exists (<[input_name i := w]> E). split; [done|by apply insert_subseteq]. }
    assert (Hheld : held b' ops (input_name i) g).
    { intros rc E' Hrc HE'. destruct (bi_eval _ _ _ Hb rc Hrc) as [E HE]. destruct (Hstep _ _ Hrc HE) as (w & Hw & HE'' & _). rewrite HE' in HE''. apply Ok_inj in HE'' as ->.
      exists w. split; [done|apply lookup_insert_eq]. }
    split_and!; [|done|done]. pose proof (fun name h => held_ext b k ops b' ops name h Hb Hext) as Hmono. destruct Hb as [B0 B1 B2 B3 B4 B5 B6 B7 B8 B9].
    split; cbn [b' bk_inputs bk_prefix bk_nodes bk_refs]; try done.
    + intros m [Hm|Hm%list_elem_of_singleton]%elem_of_app; [by apply B4|]. by exists i.
    + intros rc Hrc. destruct (B7 rc Hrc) as [E HE]. destruct (Hstep _ _ Hrc HE) as (w & _ & HE' & _). eauto.
    + intros ref name Hr. destruct (B8 ref name Hr) as (? & h & ? & Hh). split; [done|]. exists h. split; [done|by apply Hmono].
    + intros j h [Hj|Hj%list_elem_of_singleton]%elem_of_app Hx; [by apply Hmono, B9|]. unfold n in Hj. assert (j = i) as -> by (apply input_name_inj; congruence).
      assert (h = g) as -> by congruence. done.
Qed.

(** Reading an argument. *)
Lemma read_ok b k ops l ref b' l' g :
  binv b k ops -> read renamed (b, l) ref = Ok (b', l') -> V !! ref = Some g -> grid_ok g -> dims shape g ->
  exists ops' name, binv b' k ops' /\ ext b ops b' ops' /\ l' = l ++ [name] /\ held b' ops' name g.
Proof.
  intros Hb H Hv Hg Hd. unfold read in H. destruct (bk_refs b !! ref) as [name|] eqn:Hr.
  - apply Ok_inj in H. injection H as <- <-. destruct (bi_refs _ _ _ Hb _ _ Hr) as (_ & h & Hh & Hheld). assert (h = g) as -> by congruence.
    exists ops, name. split_and!; [done|apply ext_refl|done|done].
  - destruct (name_of renamed ref) as [producer|] eqn:Hp; [|discriminate H]. cbn [bind] in H. unfold name_of in Hp.
    destruct (renamed !! ref) as [id|] eqn:Hid; [|discriminate Hp]. apply Ok_inj in Hp as ->. destruct (Hren _ _ Hid) as (h & Hh & Hh'). assert (h = g) as -> by congruence.
    destruct (slot _ _) as [[b1 i]|] eqn:Hs; [|discriminate H]. cbn [bind] in H. cbn zeta in H. apply Ok_inj in H. injection H as <- <-.
    destruct (slot_ok _ k ops _ _ _ g (binv_args b [producer] k ops Hb) Hs) as (ops1 & Hb1 & Hat & Hi & Hsame & Hev & _); [cbn; unfold plane_of; by rewrite Hh'|done|done|].
    destruct (prefix_ok _ _ _ _ _ Hb1 Hat Hi) as (Hb2 & Hext & Hheld). exists ops1, (input_name i). split_and!; [done| |done|done].
    eapply ext_trans; [|exact Hext]. apply (slot_ext b k); [done|exact Hsame|exact Hev].
Qed.

Lemma reads_ok refs gs b k ops l b' l' :
  binv b k ops -> foldM (read renamed) (b, l) refs = Ok (b', l') -> Forall2 (fun r g => V !! r = Some g /\ grid_ok g /\ dims shape g) refs gs ->
  exists ops' names, binv b' k ops' /\ ext b ops b' ops' /\ l' = l ++ names /\ Forall2 (held b' ops') names gs.
Proof.
  intros Hb H Hrefs. revert b ops l Hb H. induction Hrefs as [|r g refs gs (Hv & Hg & Hd) _ IH]; intros b ops l Hb H; cbn [foldM] in H.
  - apply Ok_inj in H. injection H as <- <-. exists ops, []. rewrite app_nil_r. split_and!; [done|apply ext_refl|done|constructor].
  - destruct (read renamed (b, l) r) as [[b1 l1]|] eqn:Hr; [|discriminate H]. cbn [bind] in H. destruct (read_ok _ _ _ _ _ _ _ _ Hb Hr Hv Hg Hd) as (ops1 & name & Hb1 & Hext1 & -> & Hheld).
    destruct (IH _ _ _ Hb1 H) as (ops' & names & Hb' & Hext & -> & Hnames). exists ops', (name :: names). split_and!; [done|exact (ext_trans _ _ _ _ _ _ Hext1 Hext)|by rewrite <- app_assoc|].
    constructor; [exact (held_ext _ _ _ _ _ _ _ Hb1 Hext Hheld)|done].
Qed.

(** ** Nodes *)

Lemma add_node_ok b k ops ref n g :
  binv b k ops -> node_id n = pass_name k -> (forall id v, n = NLoad id v -> exists i, v = view_of i /\ 0 <= i < Z.of_nat (length ops)) ->
  V !! ref = Some g ->
  (forall rc E, rc ∈ cells shape -> block_eval b ops rc = Ok E -> exists x, eval_word (block_load ops rc) E n = Ok x /\ at_cell g rc (u32 x)) ->
  binv (add_node b ref n) (k + 1) ops.
Proof.
  intros Hb Hid Hload Hv Hn. pose proof (bi_size _ _ _ Hb) as Hk.
  assert (Hfresh : pass_name k ∉ map pass_name (zseq k)).
  { intros (j & [= Hj] & Hin%elem_of_zseq)%list_elem_of_fmap. assert (k = j) by (by apply (inj pretty)). lia. }
  assert (Hstep : forall rc E, rc ∈ cells shape -> block_eval b ops rc = Ok E ->
    exists w, at_cell g rc w /\ block_eval (add_node b ref n) ops rc = Ok (<[pass_name k := w]> E)).
  { intros rc E Hrc HE. destruct (Hn rc E Hrc HE) as (x & Hx & Hw). exists (u32 x). split; [done|]. unfold block_eval in *. cbn [add_node bk_prefix bk_nodes].
    rewrite app_assoc, foldM_app, HE. cbn [bind foldM]. unfold eval_node. rewrite Hx. cbn [bind]. by rewrite Hid. }
  assert (Hheld : forall name h, name <> pass_name k -> held b ops name h -> held (add_node b ref n) ops name h).
  { intros name h Hne Hh rc E' Hrc HE'. destruct (bi_eval _ _ _ Hb rc Hrc) as [E HE]. destruct (Hstep _ _ Hrc HE) as (w & _ & HE''). rewrite HE' in HE''. apply Ok_inj in HE'' as ->.
    rewrite lookup_insert_ne by done. by apply Hh. }
  assert (Hnew : held (add_node b ref n) ops (pass_name k) g).
  { intros rc E' Hrc HE'. destruct (bi_eval _ _ _ Hb rc Hrc) as [E HE]. destruct (Hstep _ _ Hrc HE) as (w & Hw & HE''). rewrite HE' in HE''. apply Ok_inj in HE'' as ->.
    exists w. split; [done|apply lookup_insert_eq]. }
  destruct Hb as [B0 B1 B2 B3 B4 B5 B6 B7 B8 B9]. split; cbn [add_node bk_inputs bk_prefix bk_nodes bk_refs]; try done.
  - lia.
  - intros id v [Hin|Hin%list_elem_of_singleton]%elem_of_app; [by eapply B5|]. by eapply Hload.
  - rewrite map_app, B6, zseq_succ, map_app by done. cbn [map]. by rewrite Hid.
  - intros rc Hrc. destruct (B7 rc Hrc) as [E HE]. destruct (Hstep _ _ Hrc HE) as (w & _ & HE'). eauto.
  - intros r name Hr. rewrite map_app, elem_of_app. cbn [map]. destruct (decide (r = ref)) as [->|Hne].
    + rewrite lookup_insert_eq in Hr. injection Hr as <-. rewrite Hid. split; [right; left|]. by exists g.
    + rewrite lookup_insert_ne in Hr by done. destruct (B8 _ _ Hr) as (Hin & h & Hh & Hhe). split; [by left|]. exists h. split; [done|]. apply Hheld; [|done].
      intros ->. rewrite B6 in Hin. done.
  - intros i h Hin Hx. apply Hheld; [discriminate|by apply B9].
Qed.

Lemma held_words b ops names gs rc E :
  Forall2 (held b ops) names gs -> rc ∈ cells shape -> block_eval b ops rc = Ok E -> exists ws, traverse (env_get E) names = Ok ws /\ cell_words gs rc = Ok ws.
Proof.
  intros Hh Hrc HE. induction Hh as [|name g names gs Hng _ IH]; [by exists []|]. destruct (Hng rc E Hrc HE) as (w & Hw & Hn). destruct IH as (ws & Hws & Hcw).
  exists (w :: ws). unfold cell_words in *. cbn [traverse]. unfold env_get at 1. rewrite Hn, Hws. unfold at_cell in Hw. rewrite Hw, Hcw. done.
Qed.

(** A pass over renamed arguments has the same operands. *)
Lemma renamed_planes args args' ops : traverse (name_of renamed) args = Ok args' -> traverse (plane_of V) args = Ok ops -> traverse (plane_of V') args' = Ok ops.
Proof.
  intros Hargs%traverse_Ok. revert ops. induction Hargs as [|a a' args args' Ha _ IH]; intros ops H; cbn [traverse] in *; [done|].
  unfold name_of in Ha. destruct (renamed !! a) as [id|] eqn:Hid; [|discriminate Ha]. apply Ok_inj in Ha as <-. destruct (Hren _ _ Hid) as (g & Hg & Hg').
  unfold plane_of at 1 in H. rewrite Hg in H. unfold plane_of at 1. rewrite Hg'. cbn [from_option_err bind] in *.
  destruct (traverse (plane_of V) args) as [l|]; [|discriminate H]. apply Ok_inj in H as <-. by rewrite (IH l eq_refl).
Qed.

Lemma operands_renamed id id' sh o o' args args' gather rel rel' ops :
  traverse (name_of renamed) args = Ok args' -> operands_of stages (ArrayStep id sh o args gather rel) V = Ok ops ->
  operands_of stages (ArrayStep id' sh o' args' gather rel') V' = Ok ops.
Proof.
  intros Hargs H. unfold operands_of in *. cbn [st_gather st_args st_shape] in *. destruct gather as [[[sname view] k]|]; [|by eapply renamed_planes].
  destruct (find_stage stages sname) as [s|]; [|discriminate H]. cbn [from_option_err bind] in *. destruct (stage_view s view) as [v|]; [|discriminate H]. cbn [bind] in *.
  destruct (py_index (ar_inputs s) (gv_input v)) as [[n|g]|]; [|exact H|discriminate H]. cbn [bind] in *.
  destruct (py_index args 0) as [a|] eqn:Ha; [|discriminate H]. cbn [bind] in H. destruct (plane_of V a) as [g|] eqn:Hg; [|discriminate H]. cbn [bind] in H.
  apply traverse_Ok in Hargs. destruct Hargs as [|a0 a' args args' Ha' _]; [discriminate Ha|]. apply Ok_inj in Ha as ->.
  change (py_index (a' :: args') 0) with (@Ok string a'). cbn [bind]. unfold name_of in Ha'. destruct (renamed !! a) as [x|] eqn:Hx; [|discriminate Ha']. apply Ok_inj in Ha' as <-.
  destruct (Hren _ _ Hx) as (h & Hh & Hh'). unfold plane_of in *. rewrite Hh in Hg. apply Ok_inj in Hg as ->. by rewrite Hh'.
Qed.

(** ** Passes *)

(** What is known of a scalar pass of the segment. *)
Definition pass_known (raw : fused_step) : Prop :=
  fs_shape raw = shape /\ exists o gather g, fs_op raw = FPass o gather /\ (gather = None \/ o = PLoad) /\ V !! fs_id raw = Some g /\ step_ok stages V (scalar_pass raw o gather) g.

Lemma step_words o operands g rc :
  pass_cells shape o operands = Ok (gr_words g) -> dims shape g -> rc ∈ cells shape ->
  exists ws w, cell_words operands rc = Ok ws /\ pass_word o ws = Ok w /\ at_cell g rc w.
Proof.
  intros H Hd Hrc. destruct (cells_words shape _ g rc H Hd Hrc) as (w & Hw & Hg). destruct (cell_words operands rc) as [ws|]; [|discriminate Hw]. by exists ws, w.
Qed.

(** A load of an operand that has the pass's words. *)
Lemma add_load b k ops ref i g0 g :
  binv b k ops -> ops !! Z.to_nat i = Some g0 -> 0 <= i < Z.of_nat (length ops) -> V !! ref = Some g ->
  (forall rc w, rc ∈ cells shape -> at_cell g0 rc w -> at_cell g rc w) -> binv (add_node b ref (NLoad (pass_name k) (view_of i))) (k + 1) ops.
Proof.
  intros Hb Hi Hr Hv Hw. pose proof (binv_ops _ _ _ Hb). pose proof (bi_two _ _ _ Hb). pose proof (bi_grids _ _ _ Hb) as Hgs. rewrite Forall_lookup in Hgs. destruct (Hgs _ _ Hi) as [Hg Hd].
  apply (add_node_ok b k ops ref _ g); [done|done| |done|].
  - intros id v [= <- <-]. by exists i.
  - intros rc E Hrc HE. cbn [eval_word]. rewrite (block_load_at ops rc i g0) by (lia || done). destruct (at_cell_ok shape g0 rc Hg Hd Hrc) as (w & Hc & Hword).
    exists w. split; [exact Hc|]. rewrite u32_id by done. by apply Hw.
Qed.

Lemma Forall2_operands args operands :
  traverse (plane_of V) args = Ok operands -> Forall grid_ok operands -> Forall (dims shape) operands ->
  Forall2 (fun r g => V !! r = Some g /\ grid_ok g /\ dims shape g) args operands.
Proof.
  intros H%traverse_Ok. induction H as [|r g args operands Hr _ IH]; intros Hg Hd; [constructor|]. apply Forall_cons in Hg as [? ?]. apply Forall_cons in Hd as [? ?].
  constructor; [|by apply IH]. unfold plane_of in Hr. destruct (V !! r); [|discriminate Hr]. by apply Ok_inj in Hr as ->.
Qed.

Lemma block_node_ok b k ops raw b' : binv b k ops -> pass_known raw -> block_node renamed b (k, raw) = Ok b' -> exists ops', binv b' (k + 1) ops'.
Proof.
  intros Hb (Hsh & o & gather & g & Hop & Hga & Hv & operands & Hops & Hgok & Hdims & Har & _ & Hcells & Hd & Hg) H. unfold scalar_pass in *. cbn [st_shape st_op] in *. rewrite Hsh in Hops, Hdims, Hcells, Hd. unfold block_node in H. rewrite Hop in H. cbn zeta in H.
  assert (Hplain : gather = None -> Forall2 (fun r g => V !! r = Some g /\ grid_ok g /\ dims shape g) (fs_args raw) operands).
  { intros ->. by apply Forall2_operands. }
  assert (Hload : o = PLoad -> exists g0, operands = [g0] /\ grid_ok g0 /\ dims shape g0 /\
    forall rc w, rc ∈ cells shape -> at_cell g0 rc w -> at_cell g rc w).
  { intros ->. destruct operands as [|g0 [|]]; try discriminate Har. apply Forall_cons in Hgok as [? _]. apply Forall_cons in Hdims as [? _]. exists g0. split_and!; [done|done|done|].
    intros rc w Hrc Hw. destruct (step_words _ _ _ _ Hcells Hd Hrc) as (ws & w' & Hws & Hw' & Hat). unfold cell_words in Hws. cbn [traverse] in Hws. unfold at_cell in Hw. rewrite Hw in Hws.
    apply Ok_inj in Hws as <-. by apply Ok_inj in Hw' as <-. }
  destruct o as [|o|o imm].
  - destruct (Hload eq_refl) as (g0 & -> & Hg0 & Hd0 & Hw). clear Hload. destruct gather as [gather|].
    + destruct (traverse (name_of renamed) (fs_args raw)) as [producers|] eqn:Hp; [|discriminate H]. cbn [bind] in H.
      destruct (slot _ _) as [[b1 i]|] eqn:Hs; [|discriminate H]. cbn [bind] in H. apply Ok_inj in H as <-.
      destruct (slot_ok _ k ops _ _ _ g0 (binv_args b producers k ops Hb) Hs) as (ops1 & Hb1 & Hat & Hi & _); [|done|done|].
      { cbn [spec_grid]. rewrite (operands_renamed _ "" _ _ PLoad _ _ _ _ [] _ Hp Hops). done. }
      exists ops1. by apply (add_load _ _ _ _ _ g0 g).
    + specialize (Hplain eq_refl). apply Forall2_cons_inv_r in Hplain as (a & l & (Ha & _) & Hl & Hargs). apply Forall2_nil_inv_r in Hl as ->. rewrite Hargs in H.
      change (py_index [a] 0) with (@Ok string a) in H. cbn [bind] in H. destruct (bk_refs b !! a) as [r|] eqn:Hr.
      * apply Ok_inj in H as <-. exists ops. apply (add_node_ok b k ops _ _ g); [done|done|done|done|]. intros rc E Hrc HE.
        destruct (bi_refs _ _ _ Hb _ _ Hr) as (_ & h & Hh & Hheld). assert (h = g0) as -> by congruence. destruct (Hheld rc E Hrc HE) as (w & Hc & Hn).
        exists (w + 0). cbn [eval_word]. unfold env_get. rewrite Hn. split; [done|]. rewrite Z.add_0_r.
        destruct (at_cell_ok _ g0 rc Hg0 Hd0 Hrc) as (w' & Hc' & Hword). rewrite (at_cell_fun _ _ _ _ Hc Hc') in *. rewrite u32_id by done. by apply Hw.
      * destruct (name_of renamed a) as [producer|] eqn:Hp; [|discriminate H]. cbn [bind] in H. unfold name_of in Hp. destruct (renamed !! a) as [id|] eqn:Hid; [|discriminate Hp]. apply Ok_inj in Hp as ->.
        destruct (Hren _ _ Hid) as (h & Hh & Hh'). assert (h = g0) as -> by congruence. destruct (slot _ _) as [[b1 i]|] eqn:Hs; [|discriminate H]. cbn [bind] in H. apply Ok_inj in H as <-.
        destruct (slot_ok _ k ops _ _ _ g0 (binv_args b [producer] k ops Hb) Hs) as (ops1 & Hb1 & Hat & Hi & _); [cbn; unfold plane_of; by rewrite Hh'|done|done|].
        exists ops1. by apply (add_load _ _ _ _ _ g0 g).
  - destruct Hga as [-> | ?]; [|done].
    destruct (foldM _ _ (fs_args raw)) as [[b1 names]|] eqn:Hr; [|discriminate H]. cbn [bind] in H. apply Ok_inj in H as <-.
    destruct (reads_ok _ _ _ _ _ _ _ _ Hb Hr (Hplain eq_refl)) as (ops1 & names' & Hb1 & _ & -> & Hnames). cbn [app]. exists ops1.
    apply (add_node_ok b1 k ops1 _ _ g); [done|done|done|done|]. intros rc E Hrc HE. destruct (held_words _ _ _ _ _ _ Hnames Hrc HE) as (ws & Hws & Hcw).
    destruct (step_words _ _ _ _ Hcells Hd Hrc) as (ws' & w & Hws' & Hw & Hat). rewrite Hcw in Hws'. apply Ok_inj in Hws' as <-. cbn [pass_word] in Hw.
    destruct (alu o ws) as [x|] eqn:Hx; [|discriminate Hw]. apply Ok_inj in Hw as <-. exists x. cbn [eval_word]. rewrite Hws. by split.
  - destruct Hga as [-> | ?]; [|done].
    destruct (foldM _ _ (fs_args raw)) as [[b1 names]|] eqn:Hr; [|discriminate H]. cbn [bind] in H.
    destruct (reads_ok _ _ _ _ _ _ _ _ Hb Hr (Hplain eq_refl)) as (ops1 & names' & Hb1 & _ & -> & Hnames). cbn [app] in H.
    destruct operands as [|g0 [|]]; try discriminate Har. apply Forall2_cons_inv_r in Hnames as (a & l & Ha & Hl & ->). apply Forall2_nil_inv_r in Hl as ->.
    change (py_index [a] 0) with (@Ok string a) in H. cbn [bind] in H. apply Ok_inj in H as <-. exists ops1.
    apply (add_node_ok b1 k ops1 _ _ g); [done|done|done|done|]. intros rc E Hrc HE.
    destruct (step_words _ _ _ _ Hcells Hd Hrc) as (ws' & w & Hws' & Hw & Hat). destruct (Ha rc E Hrc HE) as (w0 & Hc & Hn).
    unfold cell_words in Hws'. cbn [traverse] in Hws'. unfold at_cell in Hc. rewrite Hc in Hws'. apply Ok_inj in Hws' as <-. cbn [pass_word] in Hw.
    change (py_index [w0] 0) with (@Ok Z w0) in Hw. cbn [bind] in Hw. apply Ok_inj in Hw as <-. exists (alu_imm o w0 imm). cbn [eval_word]. unfold env_get. rewrite Hn. by split.
Qed.

Lemma binv_start : binv (Blocker [] [] [] ∅ []) 0 [].
Proof.
  split; cbn; try done; try lia.
  - by intros n ?%elem_of_nil.
  - by intros id v ?%elem_of_nil.
  - intros rc _. by exists ∅.
Qed.

Lemma block_nodes_ok segment b :
  Forall pass_known segment -> foldM (block_node renamed) (Blocker [] [] [] ∅ []) (enumerate segment) = Ok b -> exists ops, binv b (Z.of_nat (length segment)) ops.
Proof.
  intros Hall H. refine (foldM_enumerate_inv (fun k b => exists ops, binv b k ops) _ segment _ _ _ _ H).
  - exists []. apply binv_start.
  - intros i raw st st' _ Hraw (ops & Hst) Hstep. rewrite Forall_lookup in Hall. exact (block_node_ok st i ops raw st' Hst (Hall _ _ Hraw) Hstep).
Qed.
End block.

(** ** The finished block *)

(** A block over the values [V'] has value [g]. *)
Definition block_value (stages : list (string * array_stage)) (V' : planes) (shape : Z * Z) (inputs : list operand_spec) (nodes : list node) (result : string) (g : grid) : Prop :=
  shape_ok shape /\ dims shape g /\ grid_ok g /\
  exists ops, traverse (spec_grid stages V' shape) inputs = Ok ops /\ Forall (fun g => grid_ok g /\ dims shape g) ops /\
    (forall id v, NLoad id v ∈ nodes -> exists i, v = view_of i /\ 0 <= i < Z.of_nat (length ops)) /\
    forall rc, rc ∈ cells shape -> exists w, at_cell g rc w /\ eval_nodes (block_load ops rc) nodes result = Ok w.

Lemma make_block_ok stages zstages renamed V V' shape segment output p s g :
  shape_ok shape -> renaming renamed V V' -> Forall (pass_known stages V shape) segment -> segment <> [] ->
  make_block zstages segment output renamed p = Ok s -> V !! output = Some g -> dims shape g -> grid_ok g ->
  fs_shape s = shape /\ exists inputs nodes result n cost, fs_op s = FBlock inputs nodes result n cost /\ block_value stages V' shape inputs nodes result g.
Proof.
  intros Hsh Hren Hseg Hne H Hv Hd Hg. unfold make_block in H. destruct (foldM _ _ (enumerate segment)) as [b|] eqn:Hb; [|discriminate H]. cbn [bind] in H.
  destruct (py_index segment 0) as [first|] eqn:Hfirst; [|discriminate H]. cbn [bind] in H. destruct (name_of (bk_refs b) output) as [result|] eqn:Hr; [|discriminate H]. cbn [bind] in H.
  cbn zeta in H. res_peel H. apply Ok_inj in H as <-. cbn [fs_shape fs_op].
  assert (fs_shape first = shape) as -> by (pose proof (py_index_Forall _ _ _ _ Hseg Hfirst) as [? _]; done). split; [done|].
  exists (bk_inputs b), (bk_prefix b ++ bk_nodes b), result, (Z.of_nat (length segment)), a1. split; [done|].
  destruct (block_nodes_ok stages renamed V V' shape Hren segment b Hseg Hb) as (ops & Hinv). split_and!; [done|done|done|]. exists ops. split_and!; [apply Hinv|apply Hinv| |].
  - intros id v [Hin|Hin]%elem_of_app; [|exact (bi_loads _ _ _ _ _ _ _ Hinv id v Hin)]. destruct (bi_prefix _ _ _ _ _ _ _ Hinv _ Hin) as (i & [= _ ->] & Hi). by exists i.
  - intros rc Hrc. unfold name_of in Hr. destruct (bk_refs b !! output) as [name|] eqn:Hname; [|discriminate Hr]. apply Ok_inj in Hr as ->.
    destruct (bi_refs _ _ _ _ _ _ _ Hinv _ _ Hname) as (_ & h & Hh & Hheld). assert (h = g) as -> by congruence.
    destruct (bi_eval _ _ _ _ _ _ _ Hinv rc Hrc) as [e HE]. destruct (Hheld rc e Hrc HE) as (w & Hw & Hn). exists w. split; [done|].
    unfold eval_nodes. unfold block_eval in HE. rewrite HE. cbn [bind]. unfold env_get. by rewrite Hn.
Qed.

(** ** The grid source of a block *)

Definition block_source (shape : Z * Z) (operands : list grid) (nodes : list node) (result : string) : gsource :=
  GSource 5 operands shape (16, 16) BZero 1 FSum (map (fun i => ("v" +:+ pretty i, id_view i)) (pass_ids (length operands)))
    (VList (map node_val nodes)) (VStr result) None.

Lemma block_doc_source shape operands nodes result gs : Forall grid_ok operands -> source (block_doc shape operands nodes result) = Ok gs -> gs = block_source shape operands nodes result.
Proof.
  intros Hg H. unfold source, block_doc in H. change (source_schema _) with (Some 5) in H. cbn zeta in H. cbn iota in H.
  change (negb (keys_are _ _)) with false in H. cbn iota in H. unfold dsub in H. cbn [dget String.eqb Ascii.eqb Bool.eqb] in H.
  change (negb (5 =? 1)) with true in H. change (if _ || _ then _ else _) with (@Ok (option (pyval * pyval)) None) in H. cbn [from_option_err bind] in H.
  rewrite length_map in H. destruct (bool_decide (1 <= Z.of_nat (length operands) <= 2)) eqn:Hlen; [|discriminate H]. apply bool_decide_eq_true in Hlen. cbn [negb] in H.
  change (traverse (fun g => let* raw := encoded g in read_input raw)) with (traverse read_grid) in H. unfold plane_doc in H. rewrite traverse_read_grids in H by done. cbn [bind negb andb] in H.
  destruct shape as [rows columns]. unfold words_val in H. cbn [map integer_pair fst snd] in H. unfold Grid.integer, int_in in H.
  destruct (bool_decide (1 <= rows <= 64)); [|discriminate H]. destruct (bool_decide (1 <= columns <= 64)); [|discriminate H]. cbn [from_option_err bind fst snd] in H.
  change (bool_decide (1 <= 16 <= 16)) with true in H. cbn [from_option_err bind fst snd] in H. destruct (16 <? _); [discriminate H|].
  change (boundary_of (VStr "zero")) with (@Ok boundary BZero) in H. cbn [bind] in H. unfold block_source, pass_ids.
  revert H. generalize (VList (map node_val nodes)) (VStr result). intros N R H.
  assert (length operands = 1 \/ length operands = 2)%nat as [Hl|Hl] by lia; rewrite Hl in H |- *; by apply Ok_inj in H.
Qed.

Lemma block_source_load shape operands nodes result rc i :
  Forall (fun g => grid_ok g /\ dims shape g) operands -> (length operands <= 2)%nat -> 0 <= i < Z.of_nat (length operands) -> rc ∈ cells shape ->
  grid_load (block_source shape operands nodes result) rc.1 rc.2 0 (view_of i) = block_load operands rc (view_of i).
Proof.
  intros Hg Hl Hi Hrc. destruct (operands !! Z.to_nat i) as [g|] eqn:E; [|apply lookup_ge_None in E; lia].
  rewrite (block_load_at operands rc i g) by (lia || done). rewrite Forall_lookup in Hg. destruct (Hg _ _ E) as [Hgok Hd].
  destruct rc as [r c]. apply elem_of_coordinates in Hrc as [Hr Hc]. change (grid_load (block_source shape operands nodes result)) with (grid_load (pass_source shape PLoad operands)).
  unfold view_of. apply pass_load; [done|done|lia|done|done|done|done].
Qed.

(** A block over its values computes them. *)
Lemma block_reference shape operands nodes result g words :
  Forall (fun g => grid_ok g /\ dims shape g) operands -> dims shape g -> grid_ok g ->
  (forall id v, NLoad id v ∈ nodes -> exists i, v = view_of i /\ 0 <= i < Z.of_nat (length operands)) ->
  (forall rc, rc ∈ cells shape -> exists w, at_cell g rc w /\ eval_nodes (block_load operands rc) nodes result = Ok w) ->
  grid_reference (block_doc shape operands nodes result) = Ok words -> words = gr_words g.
Proof.
  intros Hg Hd Hgok Hloads Hev H. unfold grid_reference in H. destruct (source _) as [gs|] eqn:Hgs; [|discriminate H]. cbn [bind] in H.
  pose proof (source_Ok _ _ Hgs) as Hsok. apply block_doc_source in Hgs as ->; [|by eapply Forall_impl; [exact Hg|]; intros ? []].
  destruct (compile_source _); [|discriminate H]. cbn [bind] in H. unfold reference_source in H. cbn [block_source gs_version gs_nodes gs_result gs_post gs_shape gs_views] in H.
  change (typed_nodes 5) with (fun (views : list string) => source_nodes) in H. cbn beta in H. destruct (source_nodes _) as [ns|] eqn:Hns; [|discriminate H]. apply source_nodes_val in Hns as ->.
  cbn [bind result_name] in H. apply Ok_inj. rewrite <- H, <- (words_cells shape g Hgok Hd). apply traverse_ext. intros rc Hrc.
  assert (Hl : (length operands <= 2)%nat) by (pose proof (so_count _ Hsok) as Hso; cbn in Hso; lia).
  destruct (Hev rc Hrc) as (w & Hw & He). unfold at_cell in Hw. rewrite Hw. unfold grid_cell. cbn [block_source gs_extent gs_fold]. change (zseq 1) with [0]. cbn [foldM].
  rewrite (eval_nodes_ext_in _ (block_load operands rc)).
  - rewrite He. cbn [bind fold_step]. pose proof (eval_nodes_is_word _ _ _ _ He). by rewrite Z.add_0_l, u32_id.
  - intros id v Hin. destruct (Hloads _ _ Hin) as (i & -> & Hi). by apply block_source_load.
Qed.

(** ** Admission on zero words is admission *)

Section admission.
Context (stages stages0 : list (string * array_stage)) (Hlike : stages_like stages stages0) (V P0 P : planes) (Hag : planes_agree V P0 P).
Context (shape : Z * Z) (Hshape : shape_ok shape).

Lemma spec_agree spec g0 g :
  spec_grid stages0 P0 shape spec = Ok g0 -> spec_grid stages V shape spec = Ok g -> spec_grid stages P shape spec = Ok g /\ same_dims g0 g /\ grid_ok g0.
Proof.
  intros H0 H. destruct spec as [n|gather args]; cbn [spec_grid] in *.
  - destruct (plane_agree _ _ _ _ _ Hag H0) as (g' & Hg' & Hv & Hd & Hok). unfold plane_of in H. rewrite Hv in H. apply Ok_inj in H as ->. done.
  - destruct (operands_of stages0 _ P0) as [ops0|] eqn:E0; [|discriminate H0]. destruct (operands_of stages _ V) as [ops|] eqn:E; [|discriminate H]. cbn [bind] in *.
    destruct (operands_like _ _ _ _ _ (ArrayStep "" shape PLoad args (Some gather) []) _ _ Hlike Hag Hshape E0 E) as (-> & Hsd & Hg0). cbn [bind]. split; [done|].
    destruct (py_index_Forall2 _ _ _ _ _ Hsd H0) as (g' & Hg' & Hd). rewrite H in Hg'. apply Ok_inj in Hg' as ->. split; [done|]. by eapply py_index_Forall.
Qed.

Lemma specs_agree inputs ops0 ops :
  traverse (spec_grid stages0 P0 shape) inputs = Ok ops0 -> traverse (spec_grid stages V shape) inputs = Ok ops ->
  traverse (spec_grid stages P shape) inputs = Ok ops /\ Forall2 (fun g0 g => same_dims g0 g /\ grid_ok g0) ops0 ops.
Proof.
  revert ops0 ops. induction inputs as [|spec l IH]; intros ops0 ops H0 H; cbn [traverse] in *; [by apply Ok_inj in H0 as <-; apply Ok_inj in H as <-|].
  destruct (spec_grid stages0 P0 shape spec) as [g0|] eqn:E0; [|discriminate H0]. destruct (spec_grid stages V shape spec) as [g|] eqn:E; [|discriminate H]. cbn [bind] in *.
  destruct (traverse _ l) as [l0|] in H0, IH; [|discriminate H0]. destruct (traverse (spec_grid stages V shape) l) as [l1|]; [|discriminate H]. cbn [bind] in *.
  apply Ok_inj in H0 as <-. apply Ok_inj in H as <-. destruct (spec_agree _ _ _ E0 E) as (-> & ?). destruct (IH _ _ eq_refl eq_refl) as (-> & ?). split; [done|by constructor].
Qed.

Lemma bind_block_ok inputs nodes result g source0 c0 :
  block_value stages V shape inputs nodes result g -> bind_block stages0 P0 shape inputs nodes result = Ok source0 -> compile_grid source0 = Ok c0 ->
  exists source, bind_block stages P shape inputs nodes result = Ok source /\ run_bound source = Ok g.
Proof.
  intros (_ & Hd & Hg & ops & Hops & Hall & Hloads & Hev) H0 Hc0. unfold bind_block in H0. destruct (traverse _ inputs) as [ops0|] eqn:E0 in H0; [|discriminate H0].
  cbn [bind] in H0. apply Ok_inj in H0 as <-. destruct (specs_agree _ _ _ E0 Hops) as (Hp & Hsd). exists (block_doc shape ops nodes result). unfold bind_block. rewrite Hp. split; [done|].
  assert (Hgok : Forall grid_ok ops) by (eapply Forall_impl; [exact Hall|]; by intros ? []).
  pose (D ops := match block_doc shape ops nodes result with VDict d => d | _ => [] end).
  destruct (compile_replaced (D ops0) (D ops) (map plane_doc ops0) (map plane_doc ops) c0) as (c & Hc & _); [| |exact Hc0|].
  - pose proof (Forall2_length _ _ _ Hsd) as Hl. split_and!; [done|done|intros k Hk|intros l].
    + unfold D, block_doc. rewrite <- Hl. cbn [dget]. destruct (String.eqb_spec k "schema"); [done|]. destruct (String.eqb_spec k "inputs"); [done|]. done.
    + unfold D, block_doc, keys_are. done.
  - rewrite Forall2_fmap_l, Forall2_fmap_r. clear -Hgok Hsd. induction Hsd as [|g0 g l0 l [Hd Hg0] _ IH]; [constructor|]. apply Forall_cons in Hgok as [Hg Hgok].
    constructor; [|by apply IH]. by apply plane_reading.
  - change (VDict (D ops)) with (block_doc shape ops nodes result) in Hc. destruct (run_bound_ok _ _ Hc) as (words & Href & Hrun).
    pose proof (block_reference _ _ _ _ _ _ Hall Hd Hg Hloads Hev Href) as ->. rewrite Hrun. unfold compile_grid in Hc. destruct (source _) as [gs|] eqn:Hgs; [|discriminate Hc]. cbn [bind] in Hc.
    destruct (compile_source_tiles _ c (source_Ok _ _ Hgs) Hc) as (-> & -> & _). apply block_doc_source in Hgs as ->; [|done]. cbn [block_source gs_shape].
    destruct g as [r cl ws], Hd as [Hd1 Hd2]. cbn in *. by rewrite <- Hd1, <- Hd2.
Qed.
End admission.
