(* ===== verification/FusionRun.v ===== *)
(** * Fused array plans: main theorems

    [fused_run_correct]: running a fused plan gives the reference of the program.
    The values of the scalar passes come from [ArrayRun], that of a fused stage
    from [FusionFacts], that of a block from [FusionBlock]; joining renames
    passes and keeps their values. *)

From S2P Require Import Prelude PyValue Json MapSyntax AffineFold AffineFoldFacts Project Numeric NumericFacts.
From S2P Require Import Grid GridFacts GridRun GridWords Array ArrayPass ArrayFacts ArrayRun Flow Fusion FusionFacts FusionBlock.

(** ** The values of the passes *)

Section run.
Context (stages : list (string * array_stage)) (docs : documents).
Context (Hstages : forall n s, (n, s) ∈ stages -> stage_ok s) (Hdocs : docs_of stages docs).

Definition fstep_ok (V : planes) (s : fused_step) (g : grid) : Prop :=
  match fs_op s with
  | FPass o gather => (gather = None \/ o = PLoad) /\ step_ok stages V (scalar_pass s o gather) g
  | FStage n producers _ _ =>
      exists st inputs words, find_stage stages n = Some st /\ linked st producers inputs V /\ Forall grid_ok inputs /\
        traverse (array_cell st inputs) (coordinates (ar_shape st).1 (ar_shape st).2) = Ok words /\
        fs_shape s = ar_shape st /\ g = Grid (ar_shape st).1 (ar_shape st).2 words /\ grid_ok g
  | FBlock inputs nodes result _ _ => block_value stages V (fs_shape s) inputs nodes result g
  end.

Lemma fstep_shape V s g : fstep_ok V s g -> shape_ok (fs_shape s) /\ dims (fs_shape s) g /\ grid_ok g.
Proof.
  unfold fstep_ok. destruct (fs_op s) as [o gather|n producers tile cost|inputs nodes result n cost].
  - by intros (_ & ops & _ & _ & _ & _ & ? & _ & ? & ?).
  - intros (st & inputs & words & Hf & _ & _ & _ & -> & -> & Hg). split_and!; [|done|done]. by apply sk_shape, (Hstages n), find_stage_in.
  - by intros (? & ? & ? & _).
Qed.

(** The passes before blocks are made. *)
Definition is_block (s : fused_step) : bool := match fs_op s with FBlock _ _ _ _ _ => true | _ => false end.
Definition ostep_ok (V : planes) (s : fused_step) (g : grid) : Prop := fstep_ok V s g /\ is_block s = false.

#[refine] Instance scalar_emitter : PassEmitter stages emit_scalar := {
  holds steps V := valued fs_id ostep_ok steps V;
}.
Proof.
  intros e V shape o args gather g e' ref Hv He Hga Hs. unfold emit_scalar, emit_step in He. apply Ok_inj in He. injection He as <- <-.
  apply (valued_add fs_id ostep_ok e V (FusedStep (pass_id (Z.of_nat (length e))) shape (FPass o gather) args []) g); [done|by split|done].
Defined.

(** ** Whole stages *)

Lemma stage_producers_ok results s m n : stage_producers results s = Ok m -> n ∈ links_of (ar_inputs s) -> m !! n = results !! n /\ is_Some (m !! n).
Proof.
  unfold stage_producers. revert m. induction (links_of (ar_inputs s)) as [|x l IH] using rev_ind; intros m H Hn; [by apply elem_of_nil in Hn|].
  rewrite foldM_app in H. destruct (foldM _ ∅ l) as [m0|] eqn:E; [|discriminate H]. cbn [bind foldM] in H. unfold name_of in H.
  destruct (results !! x) as [r|] eqn:Hr; [|discriminate H]. cbn [from_option_err bind] in H. apply Ok_inj in H as <-.
  destruct (decide (n = x)) as [->|Hne]; [rewrite lookup_insert_eq; split; [done|by eexists]|]. rewrite lookup_insert_ne by done. apply IH; [done|].
  apply elem_of_app in Hn as [Hn|Hn%list_elem_of_singleton]; done.
Qed.

Lemma linked_producers results s m inputs V : stage_producers results s = Ok m -> linked s results inputs V -> linked s m inputs V.
Proof.
  intros Hm H. unfold linked in *. assert (Hall : forall n, inl n ∈ ar_inputs s -> m !! n = results !! n).
  { intros n Hn. eapply stage_producers_ok; [exact Hm|]. apply list_elem_of_omap. by exists (inl n). }
  revert Hall. clear Hm. induction H as [|i g l l' Hi _ IH]; intros Hall; constructor; [|apply IH; intros; apply Hall; by right].
  destruct i as [n|g']; [|done]. rewrite Hall by left. exact Hi.
Qed.

(** One stage, fused or not, has the words of the reference. *)
Lemma plan_stage_ok zdocs st n st' V outputs seen :
  plan_stage stages zdocs st n = Ok st' -> valued fs_id ostep_ok (fu_steps st) V -> stage_results V (fu_results st) outputs seen ->
  n ∉ seen -> (exists s, find_stage stages n = Some s /\ forall d, d ∈ stage_deps s -> d ∈ seen) ->
  exists V' outputs', valued fs_id ostep_ok (fu_steps st') V' /\ reference_stage stages outputs n = Ok outputs' /\
    stage_results V' (fu_results st') outputs' (seen ++ [n]).
Proof.
  intros H Hv Hres Hn (s & Hf & Hd). destruct (stage_step stages Hstages n s V _ outputs seen Hf Hres Hd) as (inputs & words & Hi & Hig & Hl & Hw & Hgok & Hrs).
  unfold plan_stage in H. rewrite Hf in H. cbn [from_option_err bind] in H. cbn zeta in H.
  destruct (fuse_stage _ _ _ _ _) as [candidate|] eqn:Hc; [|discriminate H]. cbn [bind] in H.
  match type of H with (let* r := ?m in _) = _ => destruct m as [[[steps result] fused]|] eqn:Hm; [|discriminate H] end. cbn [bind] in H. apply Ok_inj in H as <-. cbn [fu_steps fu_results].
  assert (Hscalar : (let* r := _scalar_stage n s (fu_results st) (fu_steps st) in Ok (r, false)) = Ok (steps, result, fused) ->
    exists V', valued fs_id ostep_ok steps V' /\ V ⊆ V' /\ V' !! result = Some (Grid (ar_shape s).1 (ar_shape s).2 words)).
  { intros Hr. destruct (_scalar_stage _ _ _ _) as [[steps' result']|] eqn:Hs; [|discriminate Hr]. cbn [bind] in Hr. apply Ok_inj in Hr. injection Hr as <- <- <-.
    destruct (scalar_stage_ok stages emit_scalar (PassEmitter0 := scalar_emitter) n s Hf (Hstages _ _ (find_stage_in _ _ _ Hf)) _ inputs Hig _ V _ _ Hv Hl Hs) as (V' & words' & [Hv' Hsub] & Hr & Hw').
    rewrite Hw in Hw'. apply Ok_inj in Hw' as <-. by exists V'. }
  assert (Hstep : exists V', valued fs_id ostep_ok steps V' /\ V ⊆ V' /\ V' !! result = Some (Grid (ar_shape s).1 (ar_shape s).2 words)).
  { destruct candidate as [[[producers tile] cost]|]; [|by apply Hscalar]. destruct (cheaper _ _ _ _); [|by apply Hscalar]. clear Hscalar.
    unfold emit_step in Hm. cbn zeta in Hm. apply Ok_inj in Hm. injection Hm as <- <- <-.
    assert (Hp : stage_producers (fu_results st) s = Ok producers).
    { clear -Hc. unfold fuse_stage in Hc. destruct (_ || _ || _); [discriminate Hc|]. destruct (stage_producers _ _) as [m|]; [|discriminate Hc]. cbn [bind] in Hc.
      destruct (bind_stage _ _ _ _ _) as [bound|]; [|discriminate Hc]. cbn [bind] in Hc. destruct (compile_grid bound) as [c|[]]; try discriminate Hc.
      - res_peel Hc. by apply Ok_inj in Hc as [= -> _ _].
      - match type of Hc with (match ?m with _ => _ end) = _ => destruct m as [[[t x] y]|[]]; try discriminate Hc end. res_peel Hc. by apply Ok_inj in Hc as [= -> _ _]. }
    set (stp := FusedStep _ _ _ _ _). destruct (valued_add fs_id ostep_ok (fu_steps st) V stp (Grid (ar_shape s).1 (ar_shape s).2 words) Hv) as [Hv' Hsub]; [|done|].
    - split; [|done]. exists s, inputs, words. split_and!; try done. by eapply linked_producers.
    - exists (<[fs_id stp := Grid (ar_shape s).1 (ar_shape s).2 words]> V). split_and!; [done|done|]. apply lookup_insert_eq. }
  destruct Hstep as (V' & Hv' & Hsub & Hr). eexists V', _. split_and!; [done|exact Hrs|]. by eapply stage_results_add.
Qed.

Lemma plan_stages_ok zdocs l st st' V outputs seen :
  foldM (plan_stage stages zdocs) st l = Ok st' -> valued fs_id ostep_ok (fu_steps st) V -> stage_results V (fu_results st) outputs seen -> ordered stages seen l ->
  exists V' outputs', foldM (reference_stage stages) outputs l = Ok outputs' /\ valued fs_id ostep_ok (fu_steps st') V' /\ stage_results V' (fu_results st') outputs' (seen ++ l).
Proof.
  revert st V outputs seen. induction l as [|n l IH]; intros st V outputs seen H Hv Hres Hord; cbn [foldM] in H.
  - apply Ok_inj in H as <-. exists V, outputs. by rewrite app_nil_r.
  - destruct (plan_stage stages zdocs st n) as [st1|] eqn:E; [|discriminate H]. cbn [bind] in H. destruct Hord as (Hn & Hs & Hord).
    destruct (plan_stage_ok _ _ _ _ _ _ _ E Hv Hres Hn Hs) as (V1 & outputs1 & Hv1 & Hr1 & Hres1). destruct (IH _ _ _ _ H Hv1 Hres1 Hord) as (V' & outputs' & Ho & Hv' & Hres').
    exists V', outputs'. cbn [foldM]. rewrite Hr1. cbn [bind]. split_and!; [done|done|]. by rewrite <- app_assoc in Hres'.
Qed.

(** ** Values of earlier passes stay *)

Lemma operands_mono V V' s ops : V ⊆ V' -> operands_of stages s V = Ok ops -> operands_of stages s V' = Ok ops.
Proof.
  intros Hsub H. assert (Hp : forall n g, plane_of V n = Ok g -> plane_of V' n = Ok g).
  { intros n g. unfold plane_of. destruct (V !! n) eqn:E; [|done]. by rewrite (lookup_weaken _ _ _ _ E Hsub). }
  unfold operands_of in *. destruct (st_gather s) as [[[sname view] k]|].
  - destruct (find_stage stages sname) as [st|]; [|done]. cbn [from_option_err bind] in *. destruct (stage_view st view); [|done]. cbn [bind] in *.
    destruct (py_index (ar_inputs st) _) as [[n|g]|]; [|done|done]. cbn [bind] in *. destruct (py_index (st_args s) 0); [|done]. cbn [bind] in *.
    destruct (plane_of V _) as [g|] eqn:E; [|done]. by rewrite (Hp _ _ E).
  - apply traverse_Ok in H. apply traverse_Ok. eapply Forall2_impl; [exact H|]. intros; by apply Hp.
Qed.

Lemma ostep_mono V V' s g : V ⊆ V' -> ostep_ok V s g -> ostep_ok V' s g.
Proof.
  intros Hsub [H Hb]. split; [|done]. unfold fstep_ok in *. destruct (fs_op s) as [o gather|n producers tile cost|] eqn:Hop.
  - destruct H as (? & ops & Hops & ?). split; [done|]. exists ops. split; [by eapply operands_mono|done].
  - destruct H as (st & inputs & words & ? & Hl & ?). exists st, inputs, words. split; [done|]. split; [|done]. by eapply linked_mono.
  - unfold is_block in Hb; by rewrite Hop in Hb.
Qed.

Lemma valued_steps steps V : valued fs_id ostep_ok steps V -> Forall (fun s => exists g, V !! fs_id s = Some g /\ ostep_ok V s g) steps.
Proof.
  induction 1 as [|steps V s g Hv IH Hs Hid]; [constructor|].
  assert (Hsub : V ⊆ <[fs_id s := g]> V) by (apply insert_subseteq; rewrite Hid; by eapply valued_fresh).
  apply Forall_app. split.
  - eapply Forall_impl; [exact IH|]. intros t (h & Ht & Hok). exists h. split; [by eapply lookup_weaken|by eapply ostep_mono].
  - apply Forall_singleton. exists g. split; [apply lookup_insert_eq|by eapply ostep_mono].
Qed.

(** ** Joining *)

Section coalesce.
Context (V : planes) (zstages : list (string * array_stage)) (last : gmap string Z) (outs : list string).

Definition known (s : fused_step) : Prop := exists g, V !! fs_id s = Some g /\ ostep_ok V s g.

(** The combined passes have values [V'], and a renamed pass keeps its value. *)
Definition combined_ok (st : coalescer) : Prop :=
  exists V', valued fs_id fstep_ok (co_combined st) V' /\ renaming (co_renamed st) V V'.

Lemma best_block_Ok index first rest renamed p lens chosen s n out :
  best_block zstages last outs index first rest renamed p lens chosen = Ok (Some (s, n, out)) ->
  chosen = Some (s, n, out) \/
  (n ∈ lens /\ Forall (fun t => is_stage t = false /\ fs_shape t = fs_shape first) (take n rest) /\
   make_block zstages (take n rest) out renamed p = Ok s /\ (take n rest <> [] -> out ∈ map fs_id (take n rest))).
Proof.
  revert chosen. induction lens as [|m lens IH]; intros chosen H; cbn [best_block] in H; [left; by apply Ok_inj in H|].
  destruct (_ || _) eqn:Hcut; [left; by apply Ok_inj in H|]. apply orb_false_iff in Hcut as [Hcut _].
  destruct (traverse _ (take m rest)) as [uses|] eqn:Huses; [|discriminate H]. cbn [bind] in H. cbn zeta in H.
  assert (Hweak : forall c, best_block zstages last outs index first rest renamed p lens c = Ok (Some (s, n, out)) -> c = chosen ->
    chosen = Some (s, n, out) \/ (n ∈ m :: lens /\ Forall (fun t => is_stage t = false /\ fs_shape t = fs_shape first) (take n rest) /\
     make_block zstages (take n rest) out renamed p = Ok s /\ (take n rest <> [] -> out ∈ map fs_id (take n rest)))).
  { intros c Hc ->. destruct (IH _ Hc) as [?|(? & ?)]; [by left|]. right. split; [by right|done]. }
  destruct (1 <? _)%nat eqn:Hvis; [by eapply Hweak|]. set (result := match map fst (List.filter snd uses) with n :: _ => n | [] => default "" (fs_id <$> list.last (take m rest)) end) in H.
  destruct (make_block zstages (take m rest) result renamed p) as [block|[]] eqn:Hmk; try discriminate H; [|by eapply Hweak].
  destruct (IH _ H) as [Heq|(? & ?)]; [|right; split; [by right|done]]. injection Heq as Hb Hn Ho. rewrite <- Hb, <- Hn, <- Ho. clear Hb Hn Ho. right. split; [left|]. split_and!; [|done|].
  - apply Forall_forall. intros t Ht. destruct (is_stage t) eqn:Hst.
    + exfalso. apply not_true_iff_false in Hcut. apply Hcut, existsb_exists. exists t. split; [by apply list_elem_of_In|]. by rewrite Hst.
    + split; [done|]. destruct (decide (fs_shape t = fs_shape first)) as [|Hne]; [done|]. exfalso. apply not_true_iff_false in Hcut. apply Hcut, existsb_exists. exists t.
      split; [by apply list_elem_of_In|]. rewrite Hst. by rewrite bool_decide_false.
  - intros Hne. unfold result. destruct (map fst (List.filter snd uses)) as [|v l] eqn:Hv.
    + destruct (list.last (take m rest)) as [t|] eqn:Hlast; [|by apply last_None in Hlast]. cbn. apply list_elem_of_fmap. exists t. split; [done|]. by apply last_Some_elem_of.
    + assert (Hin : v ∈ map fst (List.filter snd uses)) by (rewrite Hv; left). apply list_elem_of_fmap in Hin as ([v' b] & -> & Hin). apply list_elem_of_In, filter_In in Hin as [Hin _].
      apply list_elem_of_In, list_elem_of_lookup in Hin as [i Hi]. apply traverse_Ok in Huses. destruct (Forall2_lookup_r _ _ _ _ _ Huses Hi) as (t & Ht & Hu).
      cbn beta in Hu. res_peel Hu. apply Ok_inj in Hu as [= <- _]. cbn. apply list_elem_of_fmap. exists t. split; [done|]. by eapply list_elem_of_lookup_2.
Qed.

Lemma renaming_add renamed V' out g id : renaming renamed V V' -> V' !! id = None -> V !! out = Some g -> renaming (<[out := id]> renamed) V (<[id := g]> V').
Proof.
  intros Hren Hid Hg ref x Hx. destruct (decide (ref = out)) as [->|Hne].
  - rewrite lookup_insert_eq in Hx. injection Hx as <-. exists g. split; [done|apply lookup_insert_eq].
  - rewrite lookup_insert_ne in Hx by done. destruct (Hren _ _ Hx) as (h & Hh & Hh'). exists h. split; [done|]. rewrite lookup_insert_ne; [done|congruence].
Qed.

Lemma add_combined_ok st s n out g V' :
  valued fs_id fstep_ok (co_combined st) V' -> renaming (co_renamed st) V V' -> fstep_ok V' s g -> V !! out = Some g -> combined_ok (add_combined st s n out).
Proof.
  intros Hv Hren Hs Hg. unfold add_combined. destruct (fs_shape s) as [rows columns]. set (id := pass_id _).
  exists (<[id := g]> V'). cbn [co_combined co_renamed]. split.
  - apply (valued_snoc fs_id fstep_ok (co_combined st) V' (with_id id s) g); [done| |done]. exact Hs.
  - apply renaming_add; [done|by eapply valued_fresh|done].
Qed.

Lemma traverse_map_values renamed (m : names_map) l k v :
  traverse (fun nr : string * string => let* r := name_of renamed nr.2 in Ok (nr.1, r)) (map_to_list m) = Ok l -> m !! k = Some v ->
  exists v', renamed !! v = Some v' /\ (list_to_map l : names_map) !! k = Some v'.
Proof.
  intros Ht%traverse_Ok Hk. apply elem_of_map_to_list in Hk as Hin. apply list_elem_of_lookup in Hin as [i Hi].
  destruct (Forall2_lookup_l _ _ _ _ _ Ht Hi) as ([k' v'] & Hl & Hv). cbn in Hv. unfold name_of in Hv. destruct (renamed !! v) as [w|]; [|discriminate Hv]. apply Ok_inj in Hv as [= <- <-].
  exists w. split; [done|]. apply elem_of_list_to_map_1; [|by eapply list_elem_of_lookup_2].
  assert (l.*1 = (map_to_list m).*1) as ->; [|apply NoDup_fst_map_to_list]. clear -Ht. induction Ht as [|[a b] y l l' Hab _ IH]; [done|]. cbn [fmap list_fmap]. rewrite IH. f_equal.
  cbn in Hab. res_peel Hab. by apply Ok_inj in Hab as <-.
Qed.

Lemma rename_step_ok renamed V' s s' g : renaming renamed V V' -> ostep_ok V s g -> rename_step renamed s = Ok s' -> fstep_ok V' s' g.
Proof.
  intros Hren [Hs Hb] H. unfold rename_step in H. destruct (traverse (name_of renamed) (fs_args s)) as [args|] eqn:Hargs; [|discriminate H]. cbn [bind] in H.
  unfold fstep_ok in Hs. destruct (fs_op s) as [o gather|n producers tile cost|] eqn:Hop; [| |unfold is_block in Hb; by rewrite Hop in Hb].
  - cbn [bind] in H. apply Ok_inj in H as <-. destruct Hs as (Hga & ops & Hops & Hrest). split; [done|]. exists ops. split; [|exact Hrest].
    by eapply (operands_renamed stages renamed V V' Hren).
  - destruct (traverse _ (map_to_list producers)) as [l|] eqn:Hl; [|discriminate H]. cbn [bind] in H. apply Ok_inj in H as <-. unfold fstep_ok. cbn [fs_op fs_shape].
    destruct Hs as (st & inputs & words & Hf & Hlink & Hrest). exists st, inputs, words. split; [done|]. split; [|exact Hrest].
    unfold linked in *. eapply Forall2_impl; [exact Hlink|]. intros [from|g'] h; [|done]. intros (r & Hr & Hvr).
    destruct (traverse_map_values _ _ _ _ _ Hl Hr) as (r' & Hr' & Hm). destruct (Hren _ _ Hr') as (h' & Hh & Hh'). exists r'. split; [done|]. congruence.
Qed.

Lemma coalesce_ok fuel st rest st' : coalesce zstages last outs fuel st rest = Ok st' -> Forall known rest -> combined_ok st -> combined_ok st'.
Proof.
  revert st rest. induction fuel as [|fuel IH]; intros st rest H Hrest (V' & Hv & Hren); (destruct rest as [|first rest]; cbn [coalesce] in H; [apply Ok_inj in H as <-; by exists V'|]); [discriminate H|].
  destruct (MAX_PASSES <=? _); [discriminate H|].
  match type of H with bind ?m _ = _ => destruct m as [chosen|] eqn:Hc; [|discriminate H] end. cbn [bind] in H.
  destruct chosen as [[[block n] output]|].
  - destruct (is_stage first) eqn:Hfirst; [discriminate Hc|]. destruct (best_block_Ok _ _ _ _ _ _ _ _ _ _ Hc) as [|(Hn & Hall & Hmk & Hout)]; [discriminate|].
    assert (Hne : take n (first :: rest) <> []) by (apply elem_of_seq in Hn; destruct n; [lia|done]). specialize (Hout Hne).
    apply (IH _ _ H); [by apply Forall_drop|]. pose proof (Forall_take known n _ Hrest) as Hseg. apply list_elem_of_fmap in Hout as (t & -> & Ht).
    assert (Hpk : Forall (pass_known stages V (fs_shape first)) (take n (first :: rest))).
    { rewrite Forall_forall in Hall, Hseg. apply Forall_forall. intros u Hu. destruct (Hall u Hu) as [Hst Hsh]. destruct (Hseg u Hu) as (h & Hh & Hok & Hnb). split; [done|].
      unfold fstep_ok in Hok. unfold is_stage in Hst. unfold is_block in Hnb. destruct (fs_op u) as [o gather| |]; try done. exists o, gather, h. by destruct Hok. }
    rewrite Forall_forall in Hseg, Hall. destruct (Hseg t Ht) as (g & Hg & Hok & _). destruct (fstep_shape _ _ _ Hok) as (Hsh & Hd & Hgok). destruct (Hall t Ht) as [_ Hst]. rewrite Hst in Hsh, Hd.
    destruct (make_block_ok stages zstages _ V V' (fs_shape first) _ _ _ _ _ Hsh Hren Hpk Hne Hmk Hg Hd Hgok) as (Hbs & inputs & nodes & result & m & cost & Hop & Hval).
    eapply add_combined_ok; [done|done| |done]. unfold fstep_ok. by rewrite Hop, Hbs.
  - clear Hc. destruct (rename_step _ first) as [s|] eqn:Hr; [|discriminate H]. cbn [bind] in H. apply Forall_cons in Hrest as [(g & Hg & Hok) Hrest].
    apply (IH _ _ H); [exact Hrest|]. eapply add_combined_ok; [done|done|by eapply rename_step_ok|done].
Qed.
End coalesce.

(** ** The run follows the plan *)

Lemma find_zero_stage l n : find_stage (zero_stages l) n = zero_stage <$> find_stage l n.
Proof. unfold find_stage, zero_stages. induction l as [|[m s] l IH]; [done|]. cbn. by destruct (String.eqb m n). Qed.

Lemma zero_stages_like : stages_like stages (zero_stages stages).
Proof.
  intros n s Hf. exists (zero_stage s). rewrite find_zero_stage, Hf. split; [done|]. split; [|done|done]. cbn [zero_stage ar_inputs]. apply Forall2_fmap_l, Forall_Forall2_diag.
  eapply Forall_impl; [apply (sk_inputs _ (Hstages _ _ (find_stage_in _ _ _ Hf)))|]. intros [m|g] Hg; [done|]. destruct Hg as [Hr Hc Hl Hw]. split; [done|]. split; cbn; try done.
  - unfold zeros. rewrite length_replicate. lia.
  - apply Forall_replicate. split; [done|]. change MASK with 4294967295. lia.
Qed.

Lemma valued_grids steps V : valued fs_id fstep_ok steps V -> forall x g, V !! x = Some g -> grid_ok g.
Proof.
  induction 1 as [|steps V s h Hv IH Hs Hid]; intros x g Hx; [by rewrite lookup_empty in Hx|].
  destruct (decide (x = fs_id s)) as [->|Hne]; [|rewrite lookup_insert_ne in Hx by done; by eapply IH].
  rewrite lookup_insert_eq in Hx. injection Hx as <-. by apply (fstep_shape _ _ _ Hs).
Qed.

(** A pass that compiles on zero words runs to its value. *)
Lemma step_run V P0 P s g source0 c0 :
  planes_agree V P0 P -> (forall x g, V !! x = Some g -> grid_ok g) -> fstep_ok V s g ->
  bind_step (zero_stages stages) (zero_docs docs) P0 s = Ok source0 -> compile_grid source0 = Ok c0 ->
  exists source, bind_step stages docs P s = Ok source /\ run_bound source = Ok g.
Proof.
  intros Hag HV Hs H0 Hc0. pose proof (fstep_shape _ _ _ Hs) as (Hsh & _). unfold fstep_ok in Hs. unfold bind_step in *.
  destruct (fs_op s) as [o gather|n producers tile cost|inputs nodes result n cost].
  - destruct Hs as [_ Hs]. by eapply bind_pass_run; [apply zero_stages_like|exact Hag|exact Hs|exact H0|exact Hc0].
  - destruct Hs as (st & inputs & words & Hf & Hl & Hin & Hw & _ & -> & _). destruct (Hdocs _ _ Hf) as (d & Hd & Hsrc & Hj).
    destruct (bind_stage_ok docs n d st producers tile V P0 P source0 c0 inputs Hd Hsrc Hj Hag HV Hl Hin H0 Hc0) as (source & words' & Hb & Hr & Hw').
    rewrite Hw in Hw'. apply Ok_inj in Hw' as <-. by exists source.
  - by eapply bind_block_ok; [apply zero_stages_like|exact Hag|exact Hsh|exact Hs|exact H0|exact Hc0].
Qed.

Section planning.
Context (literals : Z) (last : gmap string Z) (outs : list string) (len : Z) (Hlast : forall o, o ∈ outs -> last !! o = Some len).

Lemma plan_fused_ok i s pn pn' V P g :
  plan_fused (zero_stages stages) (zero_docs docs) literals last pn (i, s) = Ok pn' -> i < len ->
  planes_agree V (fn_planes pn) P -> (forall x g, V !! x = Some g -> grid_ok g) -> fstep_ok V s g -> V !! fs_id s = None ->
  (forall o, o ∈ outs -> is_Some (V !! o) -> is_Some (P !! o)) ->
  exists release P', fn_steps pn' = fn_steps pn ++ [with_releases release s] /\ run_step stages docs P (with_releases release s) = Ok P' /\
    planes_agree (<[fs_id s := g]> V) (fn_planes pn') P' /\ forall o, o ∈ outs -> is_Some (<[fs_id s := g]> V !! o) -> is_Some (P' !! o).
Proof.
  intros H Hi Hag HV Hs Hfresh Hout. unfold plan_fused in H. destruct (bind_step _ _ _ s) as [source0|] eqn:Hb; [|discriminate H]. cbn [bind] in H.
  destruct (compile_grid source0) as [c0|] eqn:Hc; [|discriminate H]. cbn [bind] in H. destruct (cost_of c0 source0) as [cost|]; [|discriminate H]. cbn [bind] in H.
  destruct (negb _); [discriminate H|]. cbn zeta in H. destruct (_ || _); [discriminate H|]. destruct (MAX_PLANES <? _); [discriminate H|].
  destruct (releases last i _) as [release|] eqn:Hrel; [|discriminate H]. cbn [bind] in H. destruct (drop_planes _ release) as [P0'|] eqn:Hdrop; [|discriminate H]. cbn [bind] in H.
  apply Ok_inj in H as <-. cbn [fn_steps fn_planes]. destruct (fstep_shape _ _ _ Hs) as (Hsh & [Hd1 Hd2] & Hgok). destruct (step_run _ _ _ _ _ _ _ Hag HV Hs Hb Hc) as (source & Hsrc & Hrun).
  destruct (release_ok_step last outs len Hlast _ _ _ _ _ _ _ _ _ g Hrel Hi Hdrop Hag Hfresh ltac:(by split) ltac:(by apply zero_plane_ok) Hout) as (P' & HP' & HagP & Hout').
  exists release, P'. split; [done|]. split; [|by split]. unfold run_step. change (bind_step stages docs P (with_releases release s)) with (bind_step stages docs P s). rewrite Hsrc. cbn [bind]. by rewrite Hrun.
Qed.

Lemma plans_fused_ok steps V pn :
  valued fs_id fstep_ok steps V -> Z.of_nat (length steps) <= len ->
  foldM (plan_fused (zero_stages stages) (zero_docs docs) literals last) (FusedPlanner ∅ [] literals 0 0 0 0 []) (enumerate steps) = Ok pn ->
  exists P, foldM (run_step stages docs) ∅ (fn_steps pn) = Ok P /\ planes_agree V (fn_planes pn) P /\
    forall o, o ∈ outs -> is_Some (V !! o) -> is_Some (P !! o).
Proof.
  intros Hv. revert pn. induction Hv as [|steps V s g Hv IH Hs Hid]; intros pn Hl H.
  - cbn in H. apply Ok_inj in H as <-. exists ∅. split_and!; [done| |done]. intros x. left. by rewrite !lookup_empty.
  - rewrite length_app in Hl. cbn in Hl. rewrite enumerate_snoc, foldM_app in H.
    destruct (foldM _ _ (enumerate steps)) as [pn1|] eqn:E1; [|discriminate H]. cbn [bind foldM] in H.
    destruct (plan_fused _ _ _ _ pn1 _) as [pn2|] eqn:E2; [|discriminate H]. cbn [bind] in H. apply Ok_inj in H as ->.
    destruct (IH pn1 ltac:(lia) eq_refl) as (P & Hrun & Hag & Hout).
    destruct (plan_fused_ok _ _ _ _ _ _ _ E2 ltac:(lia) Hag (valued_grids _ _ Hv) Hs ltac:(rewrite Hid; by eapply valued_fresh) Hout) as (release & P' & Hsteps & Hrp & Hag' & Hout').
    exists P'. split_and!; [|done|done]. rewrite Hsteps, foldM_app, Hrun. cbn [bind foldM]. by rewrite Hrp.
Qed.
End planning.
End run.

(** ** Fused plans are correct *)

Lemma coalesced_ok stages zstages V original results steps results' :
  (forall n s, (n, s) ∈ stages -> stage_ok s) -> valued fs_id (ostep_ok stages) original V -> _coalesce zstages original results = Ok (steps, results') ->
  exists V', valued fs_id (fstep_ok stages) steps V' /\
    forall n r, results !! n = Some r -> exists r', results' !! n = Some r' /\ V' !! r' = V !! r.
Proof.
  intros Hst Hv H. unfold _coalesce in H. cbn zeta in H. destruct (coalesce _ _ _ _ _ _) as [st|] eqn:Hc; [|discriminate H]. cbn [bind] in H.
  destruct (traverse _ (map_to_list results)) as [l|] eqn:Hl; [|discriminate H]. cbn [bind] in H. apply Ok_inj in H as [= <- <-].
  destruct (coalesce_ok stages Hst V zstages _ _ _ _ _ _ Hc) as (V' & Hv' & Hren).
  - eapply Forall_impl; [by eapply valued_steps|]. intros s Hs. exact Hs.
  - exists ∅. split; [constructor|]. intros r x Hr. cbn in Hr. by rewrite lookup_empty in Hr.
  - exists V'. split; [done|]. intros n r Hr. destruct (traverse_map_values _ _ _ _ _ Hl Hr) as (r' & Hr' & Hm). exists r'. split; [done|].
    destruct (Hren _ _ Hr') as (g & Hg & Hg'). congruence.
Qed.

(** C2. A fused plan computes the program. When a program of the second version
    compiles, its reference has a result, and running the plan (whole stages as
    single grid sources, blocks of joined passes, and the passes left, each bound
    to the planes of the run, tiled, run, assembled and compared with its own
    oracle, planes released when the plan says) returns it, although the plan was
    made on zero literals. *)
Theorem fused_run_correct value plan :
  compile_versioned value = Ok (inr plan) -> json_ok value = true ->
  exists outs, array_reference value = Ok outs /\ run_versioned value = Ok outs.
Proof.
  unfold compile_versioned, run_versioned. intros H Hok. destruct (is_v2 value); [|by res_peel H].
  destruct (compile_fused value) as [plan'|] eqn:Hc; [|discriminate H]. apply Ok_inj in H as [= ->]. unfold compile_fused, run_fused, array_reference in *.
  destruct (structure value) as [p|] eqn:Hst; [|discriminate Hc]. cbn [bind] in *. rewrite Hc. cbn [bind].
  pose proof (stage_docs_ok _ _ Hst Hok) as Hdocs. apply structure_ok in Hst as [Hstages Hnd Hord Hall Houts]. unfold compile_fused_program in Hc.
  cbn zeta in Hc. destruct (MAX_SCALAR_EVALUATIONS <? _); [discriminate Hc|].
  destruct (foldM _ _ (pr_order p)) as [st|] eqn:Hs; [|discriminate Hc]. cbn [bind] in Hc.
  destruct (plan_stages_ok (pr_stages p) Hstages _ _ _ _ ∅ ∅ [] Hs ltac:(constructor) ltac:(by intros ? ?%elem_of_nil) Hord) as (V & outputs & Href & Hv & Hres).
  destruct (_coalesce _ _ _) as [[steps results]|] eqn:Hco; [|discriminate Hc]. cbn [bind] in Hc. destruct (coalesced_ok _ _ _ _ _ _ _ Hstages Hv Hco) as (V' & Hv' & Hren).
  destruct (MAX_PASSES <? _); [discriminate Hc|]. destruct (traverse _ (pr_outputs p)) as [outs|] eqn:Ho; [|discriminate Hc]. cbn [bind] in Hc.
  destruct (foldM _ _ (enumerate steps)) as [pl|] eqn:Hpl; [|discriminate Hc]. cbn [bind] in Hc. apply Ok_inj in Hc as <-.
  destruct (plans_fused_ok _ _ Hstages Hdocs _ _ (map snd outs) (Z.of_nat (length steps)) ltac:(intros o Hin; rewrite last_uses_output by done; unfold steps_uses; by rewrite length_map) _ _ _ Hv' ltac:(lia) Hpl) as (P & Hrun & Hag & Hout).
  unfold run_fused_program, reference_program. cbn [fp_passes fp_outputs]. rewrite Href, Hrun. cbn [bind].
  destruct (publish_ok V' (fn_planes pl) P results outputs (pr_outputs p) outs Hag Ho) as (l & Hl1 & Hl2).
  { intros n Hn. destruct (Hres n) as (r & g & Hr & Hg & ? & _); [by apply Hall, Houts|]. destruct (Hren _ _ Hr) as (r' & Hr' & Hv2). exists r', g. split_and!; [done|congruence|done]. }
  { intros o Hin. apply Hout. apply list_elem_of_fmap. by exists o. }
  rewrite Hl1, Hl2. cbn [bind]. exists l. by rewrite bool_decide_true.
Qed.

Lemma fused_run_correct_witness :
  json_ok fusion_example = true /\ exists plan, compile_versioned fusion_example = Ok (inr plan) /\ length (fp_passes plan) = 3%nat /\
    run_versioned fusion_example = Ok [("b", Grid 2 2 [1; 1; 2; 2])].
Proof.
  split; [reflexivity|]. destruct (compile_versioned fusion_example) as [[plan|plan]|] eqn:E; [vm_compute in E; discriminate E| |vm_compute in E; discriminate E].
  exists plan. split; [reflexivity|]. destruct (fused_run_correct _ _ E) as (outs & Hr & Ho); [reflexivity|].
  rewrite fusion_example_reference in Hr. injection Hr as <-. split; [|exact Ho]. vm_compute in E. injection E as <-. reflexivity.
Defined.
