(* ===== verification/FusionCost.v ===== *)
(** * Fused array plans: what they cost

    [fused_sessions_bound]: a fused plan never needs more sessions than the
    scalar passes it stands for, nor than the plan the first version makes of
    the same program. [coalesce_fuel]: the loop that joins passes ends within
    as many iterations as there are passes. *)

From S2P Require Import Prelude PyValue Json MapSyntax AffineFold Project.
From S2P Require Import Grid GridFacts GridRun GridWords Array ArrayPass ArrayFacts ArrayRun Flow Fusion FusionRun.

(** ** Sessions of a grid source *)

Lemma zstep_length n step : 1 <= step -> 0 <= n -> Z.of_nat (length (zstep n step)) = (n + step - 1) / step.
Proof. intros Hs Hn. unfold zstep. rewrite length_map, length_zseq, Z2Nat.id; [done|]. apply Z.div_pos; lia. Qed.

Lemma tile_origins_length rows columns tr tc : 1 <= tr -> 1 <= tc -> 0 <= rows -> 0 <= columns ->
  Z.of_nat (length (tile_origins rows columns tr tc)) = (rows + tr - 1) / tr * ((columns + tc - 1) / tc).
Proof.
  intros Htr Htc Hr Hc. unfold tile_origins. rewrite <- (zstep_length rows tr), <- (zstep_length columns tc) by done.
  induction (zstep rows tr) as [|r l IH]; [done|]. cbn [map concat]. rewrite length_app, length_map. cbn [length]. lia.
Qed.

Lemma source_shape d s r c tr tc :
  source (VDict d) = Ok s -> source_schema d = Some 5 -> dget "shape" d = Some (words_val [r; c]) -> dget "tile" d = Some (words_val [tr; tc]) ->
  gs_shape s = (r, c) /\ gs_tile s = (tr, tc).
Proof.
  intros H Hv Hs Ht. unfold source in H. rewrite Hv in H. cbn zeta in H. destruct (negb (keys_are d _)); [discriminate H|].
  change (negb (5 =? 1)) with true in H. cbn iota in H. unfold dsub in H. rewrite Hs, Ht in H. cbn [from_option_err bind] in H.
  res_peel H. match type of H with (match ?v with _ => _ end) = Ok _ => destruct v as [| | | | |inputs|] end; try discriminate H.
  res_peel H. apply Ok_inj in H as <-. cbn [gs_shape gs_tile].
  repeat match goal with E : integer_pair _ (words_val [_; _]) _ _ = Ok _ |- _ => unfold words_val in E; cbn [map integer_pair] in E; unfold Grid.integer, int_in in E end.
  repeat match goal with E : context [bool_decide ?P] |- _ => destruct (bool_decide P); [|discriminate E]; cbn [from_option_err bind] in E end.
  repeat match goal with E : Ok _ = Ok _ |- _ => apply Ok_inj in E end. by subst.
Qed.

(** A source in tiles of sixteen by sixteen has one session for each. *)
Lemma sessions16 d c rows columns :
  compile_grid (VDict d) = Ok c -> source_schema d = Some 5 -> dget "shape" d = Some (words_val [rows; columns]) -> dget "tile" d = Some (words_val [16; 16]) ->
  Z.of_nat (length (cg_layout c)) = tiles16 (rows, columns).
Proof.
  intros H Hv Hs Ht. unfold compile_grid in H. destruct (source (VDict d)) as [s|] eqn:E; [|discriminate H]. cbn [bind] in H.
  destruct (source_shape _ _ _ _ _ _ E Hv Hs Ht) as [Hshape Htile]. pose proof (so_shape _ (source_Ok _ _ E)) as Hb. rewrite Hshape in Hb. cbn [fst snd] in Hb.
  destruct (compile_source_tiles _ _ (source_Ok _ _ E) H) as (_ & _ & ? & ? & ? & _ & _ & _ & _ & Hl). apply Forall2_length in Hl.
  rewrite Hshape, Htile in Hl. cbn [fst snd] in Hl. rewrite <- Hl, tile_origins_length by lia. unfold tiles16. cbn [fst snd]. do 2 f_equal; f_equal; lia.
Qed.

Lemma cost_sessions c bound cost : cost_of c bound = Ok cost -> fc_sessions cost = Z.of_nat (length (cg_layout c)).
Proof. unfold cost_of. intros H. res_peel H. by apply Ok_inj in H as <-. Qed.

Lemma block_sessions stages p shape inputs nodes result doc c cost :
  bind_block stages p shape inputs nodes result = Ok doc -> compile_grid doc = Ok c -> cost_of c doc = Ok cost -> fc_sessions cost = tiles16 shape.
Proof.
  unfold bind_block. intros H Hc ->%cost_sessions. res_peel H. apply Ok_inj in H as <-. destruct shape as [rows columns].
  by eapply sessions16; [exact Hc|..].
Qed.

Lemma pass_sessions stages p s doc c cost :
  bind_pass stages s p = Ok doc -> compile_grid doc = Ok c -> cost_of c doc = Ok cost -> fc_sessions cost = tiles16 (st_shape s).
Proof.
  unfold bind_pass. intros H Hc ->%cost_sessions. res_peel H. apply Ok_inj in H as <-. destruct (st_shape s) as [rows columns].
  by eapply sessions16; [exact Hc|..].
Qed.

(** ** The passes of a stage

    A measure that every pass raises by the same amount is raised by
    [scalar_count] times that amount. *)

Section measure.
Context {E : Type} (emit : E -> Z * Z -> pass_op -> list string -> option (string * string * Z) -> res (E * string)) (m : E -> Z) (cost : Z * Z -> Z).
Context (Hemit : forall e shape o args gather e' r, emit e shape o args gather = Ok (e', r) -> m e' = m e + cost shape).
Context (results : names_map) (sname : string) (s : array_stage).

Lemma emit_nodes_measure index l e refs e' refs' :
  foldM (emit_node emit results sname s index) (e, refs) l = Ok (e', refs') -> m e' = m e + Z.of_nat (length l) * cost (ar_shape s).
Proof.
  revert e refs. induction l as [|n l IH]; intros e refs H; cbn [foldM] in H; [apply Ok_inj in H as [= <- _]; cbn; lia|].
  destruct (emit_node _ _ _ _ _ _ n) as [[e1 refs1]|] eqn:Hn; [|discriminate H]. cbn [bind] in H. rewrite (IH _ _ H).
  assert (m e1 = m e + cost (ar_shape s)) as ->; [|cbn [length]; lia]. unfold emit_node in Hn.
  match type of Hn with bind ?x _ = _ => destruct x as [[e2 ref]|] eqn:Hx; [|discriminate Hn] end. cbn [bind] in Hn. apply Ok_inj in Hn as [= <- _].
  destruct n; res_peel Hx; by eapply Hemit.
Qed.

Lemma emit_posts_measure acc l e refs e' refs' :
  foldM (emit_post emit (ar_shape s) acc) (e, refs) l = Ok (e', refs') -> m e' = m e + Z.of_nat (length l) * cost (ar_shape s).
Proof.
  revert e refs. induction l as [|n l IH]; intros e refs H; cbn [foldM] in H; [apply Ok_inj in H as [= <- _]; cbn; lia|].
  destruct (emit_post _ _ _ _ n) as [[e1 refs1]|] eqn:Hn; [|discriminate H]. cbn [bind] in H. rewrite (IH _ _ H).
  assert (m e1 = m e + cost (ar_shape s)) as ->; [|cbn [length]; lia]. unfold emit_post in Hn.
  match type of Hn with bind ?x _ = _ => destruct x as [args|]; [|discriminate Hn] end. cbn [bind] in Hn.
  destruct (emit e _ _ _ _) as [[e2 ref]|] eqn:Hx; [|discriminate Hn]. cbn [bind] in Hn. apply Ok_inj in Hn as [= <- _]. by eapply Hemit.
Qed.

Lemma emit_index_measure e acc i e' acc' :
  emit_index emit results sname s (e, acc) i = Ok (e', acc') ->
  is_Some acc' /\ m e' = m e + (Z.of_nat (length (ar_nodes s)) + match acc with Some _ => 1 | None => 0 end) * cost (ar_shape s).
Proof.
  unfold emit_index. intros H. destruct (foldM _ _ (ar_nodes s)) as [[e1 refs]|] eqn:Hn; [|discriminate H]. cbn [bind] in H.
  apply emit_nodes_measure in Hn. destruct (name_of refs _) as [term|]; [|discriminate H]. cbn [bind] in H. destruct acc as [a|].
  - destruct (emit e1 _ _ _ _) as [[e2 r]|] eqn:He; [|discriminate H]. cbn [bind] in H. apply Ok_inj in H as [= <- <-]. apply Hemit in He. split; [by eexists|lia].
  - apply Ok_inj in H as [= <- <-]. split; [by eexists|lia].
Qed.

Lemma emit_indices_measure l e acc e' acc' :
  foldM (emit_index emit results sname s) (e, acc) l = Ok (e', acc') -> is_Some acc' ->
  m e' = m e + (Z.of_nat (length l) * (Z.of_nat (length (ar_nodes s)) + 1) - match acc with Some _ => 0 | None => 1 end) * cost (ar_shape s).
Proof.
  revert e acc. induction l as [|i l IH]; intros e acc H Hacc; cbn [foldM] in H.
  - apply Ok_inj in H. injection H as <- <-. destruct Hacc as [a ->]. cbn. lia.
  - destruct (emit_index _ _ _ _ _ i) as [[e1 acc1]|] eqn:Hi; [|discriminate H]. cbn [bind] in H. apply emit_index_measure in Hi as [[a ->] Hm].
    rewrite (IH _ _ H Hacc), Hm. cbn [length]. destruct acc; lia.
Qed.

Lemma scalar_stage_measure e e' r : scalar_stage emit results sname s e = Ok (e', r) -> m e' = m e + scalar_count s * cost (ar_shape s).
Proof.
  unfold scalar_stage, scalar_count. intros H. destruct (foldM _ _ (zseq (ar_extent s))) as [[e1 acc]|] eqn:Hi; [|discriminate H]. cbn [bind] in H.
  destruct acc as [acc|]; [|discriminate H]. cbn [from_option_err bind] in H. assert (0 < ar_extent s) as Hpos.
  { destruct (Z.leb_spec (ar_extent s) 0) as [Hle|]; [|done]. exfalso. unfold zseq in Hi. rewrite seqZ_nil in Hi by done. cbn in Hi. by apply Ok_inj in Hi. }
  apply emit_indices_measure in Hi; [|by eexists]. rewrite length_zseq, Z2Nat.id in Hi by lia.
  destruct (ar_post s) as [[nodes result]|].
  - destruct (foldM _ _ nodes) as [[e2 refs]|] eqn:Hp; [|discriminate H]. cbn [bind] in H. apply emit_posts_measure in Hp.
    destruct (name_of refs result); [|discriminate H]. cbn [bind] in H. apply Ok_inj in H as [= <- _]. nia.
  - apply Ok_inj in H as [= <- _]. nia.
Qed.
End measure.

(** ** Planning the stages *)

(** The sessions a pass of a fused plan is counted with. *)
Definition weight (s : fused_step) : Z := match recorded_cost (fs_op s) with Some cost => fc_sessions cost | None => tiles16 (fs_shape s) end.
Definition total {A} (f : A -> Z) (l : list A) : Z := foldr Z.add 0 (map f l).

Lemma total_app {A} (f : A -> Z) l l' : total f (l ++ l') = total f l + total f l'.
Proof. unfold total. induction l as [|x l IH]; cbn [app map foldr]; lia. Qed.
Lemma total_split {A} (f : A -> Z) n l : total f l = total f (take n l) + total f (drop n l).
Proof. by rewrite <- total_app, take_drop. Qed.

(** The sessions of the scalar passes of the stages of a program. *)
Definition scalar_sessions (stages : list (string * array_stage)) (order : list string) : Z :=
  total (fun n => match find_stage stages n with Some s => scalar_count s * tiles16 (ar_shape s) | None => 0 end) order.

Lemma emit_sessions e shape o args gather e' r : emit e shape o args gather = Ok (e', r) -> em_sessions e' = em_sessions e + tiles16 shape.
Proof. unfold emit. cbn zeta. intros H. destruct (_ || _); [discriminate H|]. by apply Ok_inj in H as [= <- _]. Qed.
Lemma emit_weight l shape o args gather l' r : emit_scalar l shape o args gather = Ok (l', r) -> total weight l' = total weight l + tiles16 shape.
Proof. intros [= <- _]%Ok_inj. rewrite total_app. cbn. lia. Qed.

Lemma emit_order_sessions stages l e results e' results' :
  foldM (emit_stage stages) (e, results) l = Ok (e', results') -> em_sessions e' = em_sessions e + scalar_sessions stages l.
Proof.
  revert e results. induction l as [|n l IH]; intros e results H; cbn [foldM] in H; [apply Ok_inj in H as [= <- _]; cbn; lia|].
  destruct (emit_stage _ _ n) as [[e1 results1]|] eqn:Hn; [|discriminate H]. cbn [bind] in H. rewrite (IH _ _ H). unfold scalar_sessions, total. cbn [map foldr].
  unfold emit_stage in Hn. destruct (find_stage stages n) as [s|]; [|discriminate Hn]. cbn [from_option_err bind] in Hn.
  destruct (scalar_stage _ _ _ _ _) as [[e2 acc]|] eqn:Hs; [|discriminate Hn]. cbn [bind] in Hn. apply Ok_inj in Hn as [= <- _].
  apply (scalar_stage_measure emit em_sessions tiles16 emit_sessions) in Hs. lia.
Qed.

Lemma cheaper_sessions cost sessions work count : cheaper cost sessions work count = true -> fc_sessions cost <= sessions.
Proof. unfold cheaper. intros H. apply orb_true_iff in H as [H|[H _]%andb_true_iff]; bool_prop; lia. Qed.

Lemma plan_stage_sessions stages docs st n st' :
  plan_stage stages docs st n = Ok st' ->
  exists s, find_stage stages n = Some s /\ total ch_scalar_sessions (fu_choices st') = total ch_scalar_sessions (fu_choices st) + scalar_count s * tiles16 (ar_shape s) /\
    total weight (fu_steps st') <= total weight (fu_steps st) + scalar_count s * tiles16 (ar_shape s).
Proof.
  unfold plan_stage. intros H. destruct (find_stage stages n) as [s|]; [|discriminate H]. cbn [from_option_err bind] in H. cbn zeta in H. exists s. split; [done|].
  destruct (fuse_stage _ _ _ _ _) as [candidate|]; [|discriminate H]. cbn [bind] in H.
  match type of H with (let* r := ?m in _) = _ => destruct m as [[[steps result] fused]|] eqn:Hm; [|discriminate H] end. cbn [bind] in H. apply Ok_inj in H as <-.
  cbn [fu_steps fu_choices]. rewrite total_app. split; [cbn; lia|].
  assert (Hscalar : (let* r := _scalar_stage n s (fu_results st) (fu_steps st) in Ok (r, false)) = Ok (steps, result, fused) ->
    total weight steps <= total weight (fu_steps st) + scalar_count s * tiles16 (ar_shape s)).
  { clear. intros H. destruct (_scalar_stage _ _ _ _) as [[steps' result']|] eqn:Hs; [|discriminate H]. cbn [bind] in H. apply Ok_inj in H. injection H as <- _ _.
    apply (scalar_stage_measure emit_scalar (total weight) tiles16 emit_weight) in Hs. lia. }
  destruct candidate as [[[producers tile] cost]|]; [|by apply Hscalar]. destruct (cheaper _ _ _ _) eqn:Hch; [|by apply Hscalar].
  apply cheaper_sessions in Hch. apply Ok_inj in Hm. injection Hm as <- _ _. rewrite total_app. cbn. lia.
Qed.

Lemma plan_stages_sessions stages docs l st st' :
  foldM (plan_stage stages docs) st l = Ok st' ->
  total ch_scalar_sessions (fu_choices st') = total ch_scalar_sessions (fu_choices st) + scalar_sessions stages l /\
  total weight (fu_steps st') <= total weight (fu_steps st) + scalar_sessions stages l.
Proof.
  revert st. induction l as [|n l IH]; intros st H; cbn [foldM] in H; [apply Ok_inj in H as <-; cbn; lia|].
  destruct (plan_stage _ _ _ n) as [st1|] eqn:Hn; [|discriminate H]. cbn [bind] in H. destruct (IH _ H) as [H1 H2].
  destruct (plan_stage_sessions _ _ _ _ _ Hn) as (s & Hf & H3 & H4). unfold scalar_sessions, total in *. cbn [map foldr]. rewrite Hf. lia.
Qed.

(** ** Joining passes *)

Lemma block_nodes_scalar renamed l b b' : foldM (block_node renamed) b l = Ok b' -> Forall (fun s => recorded_cost (fs_op s) = None) (map snd l).
Proof.
  revert b. induction l as [|[i s] l IH]; intros b H; [constructor|]. cbn [foldM] in H. destruct (block_node _ b _) as [b1|] eqn:Hb; [|discriminate H]. cbn [bind] in H.
  constructor; [|by eapply IH]. unfold block_node in Hb. cbn [snd]. by destruct (fs_op s).
Qed.

Lemma make_block_sessions stages segment output renamed p s shape :
  make_block stages segment output renamed p = Ok s -> Forall (fun t => fs_shape t = shape) segment -> weight s <= total weight segment.
Proof.
  unfold make_block. intros H Hsh. destruct (foldM _ _ (enumerate segment)) as [b|] eqn:Hb; [|discriminate H]. cbn [bind] in H. apply block_nodes_scalar in Hb.
  unfold enumerate in Hb. rewrite (snd_zip (zseq _) segment) in Hb by (rewrite length_zseq; lia). destruct segment as [|first segment]; [discriminate H|]. change (py_index (first :: segment) 0) with (Ok first) in H. cbn [bind] in H.
  destruct (name_of _ output) as [result|]; [|discriminate H]. cbn [bind] in H. cbn zeta in H.
  destruct (bind_block _ _ _ _ _ _) as [doc|] eqn:Hd; [|discriminate H]. cbn [bind] in H. destruct (compile_grid doc) as [c|] eqn:Hc; [|discriminate H]. cbn [bind] in H.
  destruct (cost_of c doc) as [cost|] eqn:Hcost; [|discriminate H]. cbn [bind] in H. apply Ok_inj in H as <-. pose proof (block_sessions _ _ _ _ _ _ _ _ _ Hd Hc Hcost) as Hs.
  assert (0 <= tiles16 (fs_shape first)) as Hpos by (rewrite <- Hs, (cost_sessions _ _ _ Hcost); lia).
  apply Forall_cons in Hsh as [<- Hsh]. assert (Hw : forall l, Forall (fun t => fs_shape t = fs_shape first) l -> Forall (fun t => recorded_cost (fs_op t) = None) l -> 0 <= total weight l).
  { clear -Hpos. induction l as [|t l IH]; intros H1 H2; [done|]. apply Forall_cons in H1 as [H1 H1'], H2 as [H2 H2']. specialize (IH H1' H2').
    unfold total in *. cbn [map foldr]. unfold weight at 1. rewrite H2, H1. lia. }
  cbn [map] in Hb. apply Forall_cons in Hb as [Hf Hb]. specialize (Hw _ Hsh Hb). unfold total in *. cbn [map foldr]. unfold weight at 1 2. cbn [fs_op recorded_cost]. rewrite Hf. lia.
Qed.

Lemma rename_weight renamed s s' : rename_step renamed s = Ok s' -> weight s' = weight s.
Proof.
  unfold rename_step. intros H. destruct (traverse _ (fs_args s)) as [args|]; [|discriminate H]. cbn [bind] in H. unfold weight.
  destruct (fs_op s) as [o gather|n producers tile cost|inputs nodes result n cost]; [by apply Ok_inj in H as <-| |by apply Ok_inj in H as <-].
  destruct (traverse _ (map_to_list producers)) as [l|]; [|discriminate H]. by apply Ok_inj in H as <-.
Qed.

Lemma add_combined_weight st s n output : total weight (co_combined (add_combined st s n output)) = total weight (co_combined st) + weight s.
Proof. unfold add_combined. destruct (fs_shape s) as [rows columns]. cbn [co_combined]. rewrite total_app. unfold total at 2. cbn [map foldr]. change (weight (with_id _ s)) with (weight s). lia. Qed.

Lemma coalesce_sessions stages last outs fuel st rest st' :
  coalesce stages last outs fuel st rest = Ok st' -> total weight (co_combined st') <= total weight (co_combined st) + total weight rest.
Proof.
  revert st rest. induction fuel as [|fuel IH]; intros st [|first rest] H; cbn [coalesce] in H; [by apply Ok_inj in H as <-; cbn; lia|discriminate H|by apply Ok_inj in H as <-; cbn; lia|].
  destruct (MAX_PASSES <=? _); [discriminate H|]. match type of H with bind ?m _ = _ => destruct m as [chosen|] eqn:Hc; [|discriminate H] end. cbn [bind] in H.
  destruct chosen as [[[block n] output]|].
  - destruct (is_stage first); [discriminate Hc|]. destruct (best_block_Ok _ _ _ _ _ _ _ _ _ _ _ _ _ Hc) as [|(_ & Hall & Hmk & _)]; [discriminate|].
    specialize (IH _ _ H). rewrite add_combined_weight in IH. rewrite (total_split weight n (first :: rest)). pose proof (make_block_sessions _ _ _ _ _ _ (fs_shape first) Hmk) as Hs.
    specialize (Hs ltac:(eapply Forall_impl; [exact Hall|by intros t [_ ?]])).  lia.
  - destruct (rename_step _ first) as [s|] eqn:Hr; [|discriminate H]. cbn [bind] in H. specialize (IH _ _ H). rewrite add_combined_weight, (rename_weight _ _ _ Hr) in IH.
    change (drop 1 (first :: rest)) with rest in IH. unfold total in *. cbn [map foldr]. lia.
Qed.

(** An iteration takes at least one pass: more fuel than passes changes nothing. *)
Lemma coalesce_fuel stages last outs fuel fuel' st rest :
  (length rest <= fuel)%nat -> (length rest <= fuel')%nat -> coalesce stages last outs fuel st rest = coalesce stages last outs fuel' st rest.
Proof.
  revert fuel' st rest. induction fuel as [|fuel IH]; intros fuel' st [|first rest] Hf Hf'; cbn [length] in *; [by destruct fuel'|lia|by destruct fuel'|].
  destruct fuel' as [|fuel']; [lia|]. cbn [coalesce]. destruct (MAX_PASSES <=? _); [done|].
  match goal with |- bind ?m _ = _ => destruct m as [chosen|] eqn:Hc; [|done] end. cbn [bind]. destruct chosen as [[[block n] output]|].
  - destruct (is_stage first); [discriminate Hc|]. destruct (best_block_Ok _ _ _ _ _ _ _ _ _ _ _ _ _ Hc) as [|(Hn & _)]; [discriminate|]. apply elem_of_seq in Hn.
    apply IH; rewrite length_drop; cbn [length]; lia.
  - destruct (rename_step _ first); [|done]. cbn [bind]. change (drop 1 (first :: rest)) with rest. apply IH; lia.
Qed.

(** ** The plan *)

Lemma plan_fused_sessions stages docs literals last pn i s pn' :
  plan_fused stages docs literals last pn (i, s) = Ok pn' -> fn_sessions pn' = fn_sessions pn + weight s.
Proof.
  unfold plan_fused. intros H. destruct (bind_step _ _ _ s) as [source|] eqn:Hb; [|discriminate H]. cbn [bind] in H. destruct (compile_grid source) as [c|] eqn:Hc; [|discriminate H]. cbn [bind] in H.
  destruct (cost_of c source) as [cost|] eqn:Hcost; [|discriminate H]. cbn [bind] in H.
  assert (fc_sessions cost = weight s) as Hw.
  { unfold weight, bind_step in *. destruct (fs_op s) as [o gather|n producers tile cost'|inputs nodes result n cost']; cbn [recorded_cost] in *.
    - by rewrite (pass_sessions _ _ _ _ _ _ Hb Hc Hcost).
    - destruct (decide (cost' = cost)) as [->|]; [done|]. by rewrite bool_decide_false in H.
    - destruct (decide (cost' = cost)) as [->|]; [done|]. by rewrite bool_decide_false in H. }
  destruct (negb _); [discriminate H|]. cbn zeta in H. destruct (_ || _); [discriminate H|]. destruct (MAX_PLANES <? _); [discriminate H|].
  destruct (releases last i _); [|discriminate H]. cbn [bind] in H. destruct (drop_planes _ _); [|discriminate H]. cbn [bind] in H. apply Ok_inj in H as <-. cbn [fn_sessions]. lia.
Qed.

Lemma plans_fused_sessions stages docs literals last l pn pn' :
  foldM (plan_fused stages docs literals last) pn l = Ok pn' -> fn_sessions pn' = fn_sessions pn + total weight (map snd l).
Proof.
  revert pn. induction l as [|[i s] l IH]; intros pn H; cbn [foldM] in H; [apply Ok_inj in H as <-; cbn; lia|].
  destruct (plan_fused _ _ _ _ pn _) as [pn1|] eqn:Hp; [|discriminate H]. cbn [bind] in H. rewrite (IH _ H), (plan_fused_sessions _ _ _ _ _ _ _ _ Hp). unfold total. cbn [map foldr snd]. lia.
Qed.

Lemma fused_program_sessions p docs plan : compile_fused_program p docs = Ok plan ->
  total ch_scalar_sessions (fp_stages plan) = scalar_sessions (pr_stages p) (pr_order p) /\ fp_total_sessions plan <= scalar_sessions (pr_stages p) (pr_order p).
Proof.
  unfold compile_fused_program. cbn zeta. intros H. destruct (MAX_SCALAR_EVALUATIONS <? _); [discriminate H|].
  destruct (foldM _ _ (pr_order p)) as [st|] eqn:Hs; [|discriminate H]. cbn [bind] in H. apply plan_stages_sessions in Hs as [H1 H2].
  destruct (_coalesce _ _ _) as [[steps results]|] eqn:Hco; [|discriminate H]. cbn [bind] in H. unfold _coalesce in Hco. cbn zeta in Hco.
  destruct (coalesce _ _ _ _ _ _) as [co|] eqn:Hc; [|discriminate Hco]. cbn [bind] in Hco. destruct (traverse _ (map_to_list _)); [|discriminate Hco]. cbn [bind] in Hco.
  apply Ok_inj in Hco. injection Hco as <- _. apply coalesce_sessions in Hc. destruct (MAX_PASSES <? _); [discriminate H|]. destruct (traverse _ (pr_outputs p)); [|discriminate H]. cbn [bind] in H.
  destruct (foldM _ _ (enumerate _)) as [pl|] eqn:Hpl; [|discriminate H]. cbn [bind] in H. apply Ok_inj in H as <-. cbn [fp_stages fp_total_sessions].
  apply plans_fused_sessions in Hpl. unfold enumerate in Hpl. rewrite (snd_zip (zseq _) (co_combined co)) in Hpl by (rewrite length_zseq; lia).
  cbn [fn_sessions co_combined fu_choices fu_steps] in *. change (total weight []) with 0 in *. change (total ch_scalar_sessions []) with 0 in *. lia.
Qed.

Lemma program_sessions p plan : compile_program p = Ok plan -> ap_sessions plan = scalar_sessions (pr_stages p) (pr_order p).
Proof.
  unfold compile_program. intros H. destruct (foldM _ _ (pr_order p)) as [[e results]|] eqn:He; [|discriminate H]. cbn [bind] in H. apply emit_order_sessions in He.
  res_peel H. apply Ok_inj in H as <-. cbn [ap_sessions em_sessions] in *. lia.
Qed.

(** C4. Fusing never costs sessions. The sessions of a fused plan are at most
    those of the scalar passes its report compares it with, and at most those of
    the plan that the first version makes of the same program, when it makes one. *)
Theorem fused_sessions_bound value plan :
  compile_versioned value = Ok (inr plan) ->
  fp_total_sessions plan <= foldr Z.add 0 (map ch_scalar_sessions (fp_stages plan)) /\
  forall p plan1, structure value = Ok p -> compile_program p = Ok plan1 -> fp_total_sessions plan <= ap_sessions plan1.
Proof.
  unfold compile_versioned. intros H. destruct (is_v2 value); [|by res_peel H]. destruct (compile_fused value) as [plan'|] eqn:Hc; [|discriminate H]. apply Ok_inj in H as [= ->].
  unfold compile_fused in Hc. destruct (structure value) as [p|]; [|discriminate Hc]. cbn [bind] in Hc. apply fused_program_sessions in Hc as [H1 H2].
  unfold total in H1. rewrite H1. split; [done|]. intros ? plan1 [= <-]%Ok_inj Hp. by rewrite (program_sessions _ _ Hp).
Qed.

Definition both_sessions (value : pyval) : res (Z * Z) :=
  let* p := structure value in let* plan1 := compile_program p in let* plan := compile_fused_program p (stage_docs value) in Ok (fp_total_sessions plan, ap_sessions plan1).
Example fusion_example_sessions : both_sessions fusion_example = Ok (3, 10).
Proof. vm_compute. reflexivity. Qed.

Lemma fused_sessions_bound_witness :
  exists plan p plan1, compile_versioned fusion_example = Ok (inr plan) /\ structure fusion_example = Ok p /\ compile_program p = Ok plan1 /\
    fp_total_sessions plan <= ap_sessions plan1.
Proof.
  pose proof fusion_example_sessions as H. unfold both_sessions in H.
  destruct (compile_versioned fusion_example) as [[plan|plan]|] eqn:E; [vm_compute in E; discriminate E| |vm_compute in E; discriminate E].
  destruct (structure fusion_example) as [p|] eqn:Es; [|discriminate H]. cbn [bind] in H. destruct (compile_program p) as [plan1|] eqn:Ep; [|discriminate H].
  exists plan, p, plan1. split_and!; [done..|]. by apply (proj2 (fused_sessions_bound _ _ E) p plan1).
Defined.
