(* ===== verification/Workspace.v ===== *)
(** * Confined workspaces ([raveil/workspace.py])

    A workspace maps virtual POSIX paths into one host directory. [disk] is what
    the operating system shows of that directory: the kind of every path below
    the root, by its components. Calls of the operating system that can fail or
    write less than asked are fields of [os]; what they do when they succeed is
    the effect on [disk]. [WorkspaceError] is a [ValueError]. File contents are
    bytes, and texts are lists of code points. *)

From S2P Require Import Prelude PyValue Evidence Array.

Definition MAX_PATH_BYTES : Z := 4096.
Definition MAX_FILE_BYTES : Z := 64 * 1024.
Definition MAX_TEXT_READ_BYTES : Z := 16 * 1024 * 1024.
Definition MAX_DIRECTORY_ENTRIES : Z := 256.

(** ** The host directory *)

Inductive entry := EDir | EFile (data : list Z) | ELink | EOther.
#[export] Instance entry_eq_dec : EqDecision entry.
Proof. solve_decision. Defined.

Abbreviation parts := (list string).
Abbreviation tree := (gmap (list string) entry).

(** The root's kind and identity ([st_dev], [st_ino]), and the paths below it. *)
Record disk := Disk { dk_root : option (entry * (Z * Z)); dk_tree : tree }.

Definition lstat (d : disk) (p : parts) : option entry :=
  match p with [] => fst <$> dk_root d | _ => dk_tree d !! p end.

(** Failures the operating system may report, by path, with their texts
    ([os_open] includes [fstat], [os_remove] is [rmdir] and [unlink]); what [os.access] says; and how
    much [os.write] takes at an offset. *)
Record os := Os {
  os_lstat : parts -> option string;
  os_scandir : parts -> option string;
  os_open : parts -> option string;
  os_read : parts -> option string;
  os_mkdir : parts -> option string;
  os_write : parts -> nat -> Z + string;
  os_close : parts -> option string;
  os_remove : parts -> option string;
  os_readable : parts -> bool;
  os_writable : parts -> bool;
}.

(** ** Text *)

(** The length of a path in UTF-8; its characters are below U+0100. *)
Definition utf8_length (s : string) : Z :=
  foldr (fun c n => (if code c <? 128 then 1 else 2) + n) 0 (String.list_ascii_of_string s).

(** [text.encode("utf-8")] *)
Definition encode_point (c : Z) : res (list Z) :=
  if (c <? 0) || (1114111 <? c) || ((55296 <=? c) && (c <=? 57343)) then fail "surrogates not allowed"
  else if c <? 128 then Ok [c]
  else if c <? 2048 then Ok [192 + c / 64; 128 + c mod 64]
  else if c <? 65536 then Ok [224 + c / 4096; 128 + (c / 64) mod 64; 128 + c mod 64]
  else Ok [240 + c / 262144; 128 + (c / 4096) mod 64; 128 + (c / 64) mod 64; 128 + c mod 64].
Definition utf8_encode (text : list Z) : res (list Z) := let* l := traverse encode_point text in Ok (concat l).

Definition continuation (b : Z) : bool := (128 <=? b) && (b <? 192).
(** [data.decode("utf-8")]: no overlong forms, no surrogates, nothing above U+10FFFF. *)
Fixpoint utf8_decode (data : list Z) : option (list Z) :=
  match data with
  | [] => Some []
  | b :: data1 =>
      if b <? 128 then cons b <$> utf8_decode data1 else
      match data1 with
      | [] => None
      | b1 :: data2 =>
          if negb (continuation b1) then None else
          if (194 <=? b) && (b <? 224) then cons ((b - 192) * 64 + (b1 - 128)) <$> utf8_decode data2 else
          match data2 with
          | [] => None
          | b2 :: data3 =>
              if negb (continuation b2) then None else
              let c := (b - 224) * 4096 + (b1 - 128) * 64 + (b2 - 128) in
              if (224 <=? b) && (b <? 240) && (2048 <=? c) && negb ((55296 <=? c) && (c <=? 57343))
              then cons c <$> utf8_decode data3 else
              match data3 with
              | [] => None
              | b3 :: data4 =>
                  let c := (b - 240) * 262144 + (b1 - 128) * 4096 + (b2 - 128) * 64 + (b3 - 128) in
                  if (240 <=? b) && (b <? 245) && continuation b3 && (65536 <=? c) && (c <=? 1114111)
                  then cons c <$> utf8_decode data4 else None
              end
          end
      end
  end.

(** ** Paths *)

Record workspace := NativeWorkspace { ws_identity : Z * Z; ws_cwd : parts }.

(** [__init__], on what [lstat] of the given directory shows. *)
Definition native_workspace (d : disk) : res workspace :=
  match dk_root d with
  | None => fail "workspace is unavailable: No such file or directory"
  | Some (ELink, _) => fail "workspace root must not be a symlink"
  | Some (EDir, identity) => Ok (NativeWorkspace identity [])
  | Some _ => fail "workspace root must be an existing directory"
  end.

(** [_check_root] *)
Definition check_root (ws : workspace) (d : disk) : res unit :=
  match dk_root d with
  | None => fail "workspace root is no longer available"
  | Some (k, identity) => raise_if negb (bool_decide (k = EDir)) || negb (bool_decide (identity = ws_identity ws)) with "workspace root was replaced" in Ok tt
  end.

(** [_check_text_path] *)
Definition check_text_path (path : string) : res unit :=
  raise_if String.eqb path "" with "path must not be empty" in
  raise_if bool_decide (Ascii.zero ∈ String.list_ascii_of_string path) with "path contains NUL" in
  raise_if MAX_PATH_BYTES <? utf8_length path with "path exceeds 4096 bytes" in
  Ok tt.

(** One component of [_parts]. *)
Definition add_component (ps : parts) (component : string) : res parts :=
  if String.eqb component "" || String.eqb component "." then Ok ps else
  raise_if String.eqb component ".." with "parent traversal '..' is not allowed" in
  raise_if existsb (fun c => code c =? 47) (String.list_ascii_of_string component) with "invalid path component" in
  Ok (ps ++ [component]).

(** [_parts] *)
Definition parts_of (ws : workspace) (path : string) : res parts :=
  let* _ := check_text_path path in
  let parsed := path_of path in
  foldM add_component (if path_absolute parsed then [] else ws_cwd ws) (pt_parts parsed).

(** [_virtual] *)
Definition virtual (ps : parts) : string := match ps with [] => "/" | _ => "/" +:+ String.concat "/" ps end.

(** The loop of [_walk_existing]: [current] is walked, [rest] is not. *)
Fixpoint walk (o : os) (d : disk) (whole current rest : parts) : res parts :=
  match rest with
  | [] => Ok current
  | component :: rest =>
      let current := current ++ [component] in
      match os_lstat o current, lstat d current with
      | Some text, _ => fail ("path is unavailable: " +:+ text)
      | None, None => fail ("path does not exist: " +:+ virtual whole)
      | None, Some item =>
          raise_if bool_decide (item = ELink) with "symlinks are not allowed in workspace paths" in
          raise_if negb (bool_decide (rest = [])) && negb (bool_decide (item = EDir)) with "path component is not a directory" in
          walk o d whole current rest
      end
  end.

(** [_walk_existing]; host paths are named by their components below the root. *)
Definition walk_existing (o : os) (ws : workspace) (d : disk) (ps : parts) : res parts :=
  let* _ := check_root ws d in walk o d ps [] ps.

Definition is_dir (d : disk) (p : parts) : bool := bool_decide (lstat d p = Some EDir).
Definition lexists (d : disk) (p : parts) : bool := is_Some_b (lstat d p).

(** [parts[:-1]] *)
Definition parent (ps : parts) : parts := take (length ps - 1) ps.

(** [_new_leaf] *)
Definition new_leaf (o : os) (ws : workspace) (d : disk) (path : string) : res parts :=
  let* ps := parts_of ws path in
  raise_if bool_decide (ps = []) with "workspace root cannot be created or replaced" in
  let* up := walk_existing o ws d (parent ps) in
  raise_if negb (is_dir d up) with "parent is not a directory" in
  raise_if lexists d ps with ("path already exists: " +:+ virtual ps) in
  Ok ps.

(** ** Reading *)

Definition pwd (ws : workspace) (d : disk) : res string := let* _ := check_root ws d in Ok (virtual (ws_cwd ws)).
Definition normalize (ws : workspace) (path : string) : res string := let* ps := parts_of ws path in Ok (virtual ps).
Definition existing_host_path (o : os) (ws : workspace) (d : disk) (path : string) : res (string * parts) :=
  let* ps := parts_of ws path in let* host := walk_existing o ws d ps in Ok (virtual ps, host).

Definition cd (o : os) (ws : workspace) (d : disk) (path : option string) : res (workspace * string) :=
  let* ps := parts_of ws (match path with Some p => if String.eqb p "" then "/" else p | None => "/" end) in
  let* target := walk_existing o ws d ps in
  raise_if negb (is_dir d target) with "cd target is not a directory" in
  let ws := NativeWorkspace (ws_identity ws) ps in
  let* v := pwd ws d in Ok (ws, v).

(** [os.scandir]: the names one component below a directory. *)
Definition scandir (d : disk) (p : parts) : list string :=
  omap (fun q : parts => if bool_decide (length q = S (length p) /\ take (length p) q = p) then last q else None) (map fst (map_to_list (dk_tree d))).

Definition ls (o : os) (ws : workspace) (d : disk) (path : option string) : res (list string) :=
  let* ps := parts_of ws (match path with Some p => if String.eqb p "" then "." else p | None => "." end) in
  let* target := walk_existing o ws d ps in
  raise_if negb (is_dir d target) with "ls target is not a directory" in
  match os_scandir o target with
  | Some text => fail ("directory is unavailable: " +:+ text)
  | None =>
      let names := scandir d target in
      raise_if MAX_DIRECTORY_ENTRIES <? Z.of_nat (length names) with "directory exceeds 256 entries" in
      Ok (sort_names names)
  end.

(** [prefix.rsplit("/", 1)], when the prefix has a slash. *)
Fixpoint rsplit_slash (s : string) : option (string * string) :=
  match s with
  | "" => None
  | String c r =>
      match rsplit_slash r with
      | Some (a, b) => Some (String c a, b)
      | None => if code c =? 47 then Some ("", r) else None
      end
  end.

(** [s.rstrip("/")] *)
Fixpoint rstrip_slash (s : string) : string :=
  match s with
  | "" => ""
  | String c r => let r := rstrip_slash r in if (code c =? 47) && String.eqb r "" then "" else String c r
  end.
Definition ends_slash (s : string) : bool := negb (String.eqb s "") && negb (String.eqb (rstrip_slash s) s).

(** One name of [complete_paths]: its candidate, or nothing. *)
Definition candidate (o : os) (d : disk) (absolute directories_only : bool) (parent_text leaf : string) (up : parts) (n : string) : option string :=
  if negb (String.prefix leaf n) then None else
  match os_lstat o (up ++ [n]), lstat d (up ++ [n]) with
  | None, Some item =>
      if bool_decide (item = ELink) then None else
      let is_directory := bool_decide (item = EDir) in
      if directories_only && negb is_directory then None else
      let text := if absolute then virtual (up ++ [n])
                  else (if String.eqb parent_text "." then "" else rstrip_slash parent_text +:+ "/") +:+ n in
      Some (text +:+ if is_directory then "/" else "")
  | _, _ => None
  end.

(** [complete_paths]; an error of the directory gives no candidate. *)
Definition complete_paths (o : os) (ws : workspace) (d : disk) (prefix : string) (directories_only : bool) : list string :=
  if bool_decide (Ascii.zero ∈ String.list_ascii_of_string prefix) then [] else
  let absolute := String.prefix "/" prefix in
  let '(parent_text, leaf) :=
    if ends_slash prefix then (prefix, "")
    else match rsplit_slash prefix with
         | Some (a, b) => (if String.eqb a "" then "/" else a, b)
         | None => (".", prefix)
         end in
  match (let* up := parts_of ws parent_text in
         let* host := walk_existing o ws d up in
         if negb (is_dir d host) then Ok (up, []) else
         let* names := ls o ws d (Some (virtual up)) in Ok (up, names)) with
  | Ok (up, names) => omap (candidate o d absolute directories_only parent_text leaf up) names
  | Err _ => []
  end.

(** [finally: os.close(descriptor)] of a read: its error replaces the result. *)
Definition close_read {A} (o : os) (p : parts) (r : res A) : res A :=
  match os_close o p with Some text => fail ("file is unavailable: " +:+ text) | None => r end.

(** [read_text]: the loop over [os.read] gives at most [maximum + 1] bytes. *)
Definition read_text (o : os) (ws : workspace) (d : disk) (path : string) (maximum : Z) : res (list Z) :=
  raise_if negb ((0 <? maximum) && (maximum <=? MAX_TEXT_READ_BYTES)) with "text read maximum must be an integer in 1..16777216" in
  let* ps := parts_of ws path in
  let* target := walk_existing o ws d ps in
  match lstat d target with
  | Some (EFile content) =>
      match os_open o target with
      | Some text => fail ("file is unavailable: " +:+ text)
      | None =>
          let* data :=
            close_read o target
              (raise_if maximum <? Z.of_nat (length content) with ("file exceeds " +:+ pretty maximum +:+ " bytes") in
               match os_read o target with
               | Some text => fail ("file is unavailable: " +:+ text)
               | None => Ok (take (Z.to_nat (maximum + 1)) content)
               end) in
          raise_if maximum <? Z.of_nat (length data) with ("file exceeds " +:+ pretty maximum +:+ " bytes") in
          match utf8_decode data with
          | None => fail "file is not valid UTF-8 text"
          | Some text => raise_if bool_decide (0 ∈ text) with "file appears to be binary" in Ok text
          end
      end
  | _ => fail "cat accepts regular files only"
  end.

Record workspace_stat := WorkspaceStat { st_path : string; st_kind : string; st_size : Z; st_readable : bool; st_writable : bool }.

(** [stat] *)
Definition stat (o : os) (ws : workspace) (d : disk) (path : string) : res workspace_stat :=
  let* ps := parts_of ws path in
  let* target := walk_existing o ws d ps in
  let* ' (kind, size) :=
    match lstat d target with
    | Some (EFile content) => Ok ("file", Z.of_nat (length content))
    | Some EDir => Ok ("directory", 0)
    | _ => fail "stat accepts regular files and directories only"
    end in
  Ok (WorkspaceStat (virtual ps) kind size (os_readable o target) (os_writable o target)).

(** ** Changing the directory: the disk after the call, and its result *)

Definition put_entry (d : disk) (p : parts) (e : entry) : disk := Disk (dk_root d) (<[p := e]> (dk_tree d)).
Definition drop_entry (d : disk) (p : parts) : disk := Disk (dk_root d) (delete p (dk_tree d)).

(** [os.mkdir] and [os.open] with [O_CREAT | O_EXCL]: the errors of the kernel
    first, then those of the device. *)
Definition creation_error (d : disk) (p : parts) (fault : option string) : option string :=
  if lexists d p then Some "File exists"
  else match lstat d (parent p) with
       | Some EDir => fault
       | Some _ => Some "Not a directory"
       | None => Some "No such file or directory"
       end.

(** [while view: written = os.write(descriptor, view); ...]: how much is written,
    and the error that stopped it. [limit] bounds the calls; each writes a byte. *)
Inductive write_error := NoProgress | WriteFailed (text : string) | WriteFuel.
Fixpoint write_loop (limit : nat) (o : os) (p : parts) (size written : nat) : nat * option write_error :=
  if bool_decide (size <= written)%nat then (size, None) else
  match limit with
  | O => (written, Some WriteFuel)
  | S limit =>
      match os_write o p written with
      | inr text => (written, Some (WriteFailed text))
      | inl n => if n <=? 0 then (written, Some NoProgress) else write_loop limit o p size (written + Z.to_nat n)
      end
  end.

(** [finally: os.close(descriptor)]: an error of the close replaces what stopped
    the writes. *)
Definition close_file (o : os) (p : parts) (e : option write_error) : option write_error :=
  match e, os_close o p with
  | Some WriteFuel, _ | _, None => e
  | _, Some text => Some (WriteFailed text)
  end.

(** A new file: opened, written, closed, and left with what was written. *)
Inductive create_error := OpenFailed (text : string) | WriteStopped (e : write_error).
Definition create_file (o : os) (d : disk) (p : parts) (data : list Z) : disk * option create_error :=
  match creation_error d p (os_open o p) with
  | Some text => (d, Some (OpenFailed text))
  | None => let '(n, e) := write_loop (length data) o p (length data) 0 in (put_entry d p (EFile (take n data)), WriteStopped <$> close_file o p e)
  end.

(** [mkdir] *)
Definition mkdir (o : os) (ws : workspace) (d : disk) (path : string) (mode : Z) : disk * res string :=
  if negb ((0 <=? mode) && (mode <=? 511)) then (d, fail "mkdir mode is invalid") else
  match new_leaf o ws d path with
  | Err e => (d, Err e)
  | Ok ps =>
      match creation_error d ps (os_mkdir o ps) with
      | Some text => (d, fail ("mkdir failed: " +:+ text))
      | None => (put_entry d ps EDir, Ok (virtual ps))
      end
  end.

(** [target.unlink()], errors ignored. *)
Definition unlink (o : os) (d : disk) (p : parts) : disk := match os_remove o p with Some _ => d | None => drop_entry d p end.

(** [write_bytes]: a write that makes no progress removes the file; a write that
    the device refuses, or a failing close, does not. *)
Definition write_bytes (o : os) (ws : workspace) (d : disk) (path : string) (data : list Z) (maximum : Z) : disk * res string :=
  if maximum <? 0 then (d, fail "invalid bounded byte write") else
  if maximum <? Z.of_nat (length data) then (d, fail ("content exceeds " +:+ pretty maximum +:+ " bytes")) else
  match new_leaf o ws d path with
  | Err e => (d, Err e)
  | Ok ps =>
      match create_file o d ps data with
      | (d', None) => (d', Ok (virtual ps))
      | (d', Some (OpenFailed text)) | (d', Some (WriteStopped (WriteFailed text))) => (d', fail ("write failed: " +:+ text))
      | (d', Some (WriteStopped NoProgress)) => (unlink o d' ps, fail "write made no progress")
      | (d', Some (WriteStopped WriteFuel)) => (d', Err OutOfFuel)
      end
  end.

(** [write_text] *)
Definition write_text (o : os) (ws : workspace) (d : disk) (path : string) (text : list Z) : disk * res string :=
  match utf8_encode text with
  | Err e => (d, Err e)
  | Ok data =>
      if MAX_FILE_BYTES <? Z.of_nat (length data) then (d, fail "content exceeds 65536 bytes")
      else write_bytes o ws d path data MAX_FILE_BYTES
  end.

(** ** Publication *)

(** The order of [sorted(entries, key=(len(parts), path))]. *)
Definition publish_before (a b : nat * string) : bool :=
  (fst a <? fst b)%nat || ((fst a =? fst b)%nat && String.leb (snd a) (snd b)).
Fixpoint insert_publish {A} (x : (nat * string) * A) (l : list ((nat * string) * A)) : list ((nat * string) * A) :=
  match l with
  | [] => [x]
  | y :: l => if publish_before (fst x) (fst y) then x :: y :: l else y :: insert_publish x l
  end.

(** [while existing_prefix in planned_directories: ...] *)
Fixpoint existing_prefix (fuel : nat) (planned : list parts) (p : parts) : parts :=
  match fuel with
  | O => p
  | S fuel => if bool_decide (p ∈ planned) then existing_prefix fuel planned (parent p) else p
  end.

(** One target of the preflight loop. *)
Definition prepare_entry (o : os) (ws : workspace) (d : disk) (maximum : Z) (planned : list parts) (prepared : list (parts * option (list Z)))
    (item : (nat * string) * option (list Z)) : res (list (parts * option (list Z))) :=
  let '((_, path), data) := item in
  raise_if match data with Some b => maximum <? Z.of_nat (length b) | None => false end with "publication exceeds byte bound" in
  let* ps := parts_of ws path in
  raise_if bool_decide (ps = []) with "workspace root cannot be created or replaced" in
  let* up := walk_existing o ws d (existing_prefix (length ps) planned (parent ps)) in
  raise_if negb (is_dir d up) with "publication parent is not a directory" in
  raise_if lexists d ps with ("path already exists: " +:+ virtual ps) in
  Ok (prepared ++ [(ps, data)]).

(** The creations, with the targets created so far. *)
Fixpoint create_all (o : os) (d : disk) (created : list parts) (prepared : list (parts * option (list Z))) : disk * list parts * option (res unit) :=
  match prepared with
  | [] => (d, created, None)
  | (p, None) :: rest =>
      match creation_error d p (os_mkdir o p) with
      | Some text => (d, created, Some (fail ("publication failed: " +:+ text)))
      | None => create_all o (put_entry d p EDir) (created ++ [p]) rest
      end
  | (p, Some data) :: rest =>
      match create_file o d p data with
      | (d', None) => create_all o d' (created ++ [p]) rest
      | (d', Some (OpenFailed text)) | (d', Some (WriteStopped (WriteFailed text))) => (d', created, Some (fail ("publication failed: " +:+ text)))
      | (d', Some (WriteStopped NoProgress)) => (d', created, Some (fail "publication made no progress"))
      | (d', Some (WriteStopped WriteFuel)) => (d', created, Some (Err OutOfFuel))
      end
  end.

(** [target.rmdir() if target.is_dir() else target.unlink()], errors ignored: a
    directory with entries stays, and so does what the system refuses to remove. *)
Definition remove_target (o : os) (d : disk) (p : parts) : disk :=
  if is_dir d p && negb (bool_decide (scandir d p = [])) then d else unlink o d p.

(** [publish_many] *)
Definition publish_many (o : os) (ws : workspace) (d : disk) (entries : list (string * option (list Z))) (maximum : Z) : disk * res unit :=
  match entries with
  | [] => (d, Ok tt)
  | _ =>
      match (let* planned := traverse (fun e => parts_of ws (fst e)) (List.filter (fun e => negb (is_Some_b (snd e))) entries) in
             let* keyed := traverse (fun e => let* ps := parts_of ws (fst e) in Ok ((length ps, fst e), snd e)) entries in
             foldM (prepare_entry o ws d maximum planned) [] (foldr insert_publish [] keyed)) with
      | Err e => (d, Err e)
      | Ok prepared =>
          match create_all o d [] prepared with
          | (d', _, None) => (d', Ok tt)
          | (d', created, Some e) => (foldl (remove_target o) d' (rev created), e)
          end
      end
  end.

(** ** An example *)

Definition quiet_os : os :=
  Os (fun _ => None) (fun _ => None) (fun _ => None) (fun _ => None) (fun _ => None) (fun _ _ => inl 1000000) (fun _ => None) (fun _ => None) (fun _ => true) (fun _ => true).
Definition example_disk : disk :=
  Disk (Some (EDir, (1, 2))) (<[["docs"] := EDir]> (<[["docs"; "a.txt"] := EFile [104; 105]]> (<[["out"] := ELink]> ∅))).
Definition example_workspace : workspace := NativeWorkspace (1, 2) [].

Example workspace_reads :
  (read_text quiet_os example_workspace example_disk "docs//./a.txt" MAX_FILE_BYTES, normalize example_workspace "docs/a.txt/",
   ls quiet_os example_workspace example_disk None, complete_paths quiet_os example_workspace example_disk "d" false,
   read_text quiet_os example_workspace example_disk "out/x" MAX_FILE_BYTES, parts_of example_workspace "../x") =
  (Ok [104; 105], Ok "/docs/a.txt", Ok ["docs"; "out"], ["docs/"], fail "symlinks are not allowed in workspace paths",
   fail "parent traversal '..' is not allowed").
Proof. vm_compute. reflexivity. Qed.

Example workspace_publishes :
  (let '(d, r) := publish_many quiet_os example_workspace example_disk [("new/b", Some [1; 2]); ("new", None)] 16 in
   (lstat d ["new"], lstat d ["new"; "b"], r)) = (Some EDir, Some (EFile [1; 2]), Ok tt).
Proof. vm_compute. reflexivity. Qed.
