(* ===== verification/WorkspaceFacts.v ===== *)
(** * Workspaces: containment, no overwriting, publication

    Walks never leave the root or pass a symbolic link; every call keeps the
    directory a tree and leaves existing entries alone; creations stop only where
    the system stops them, and undoing them leaves only what the system keeps;
    texts are decoded as they were encoded. *)

From S2P Require Import Prelude PyValue Evidence Workspace.

(** ** UTF-8 *)

Lemma encode_point_decode c l rest : encode_point c = Ok l -> utf8_decode (l ++ rest) = cons c <$> utf8_decode rest.
Proof.
  unfold encode_point. destruct (_ || _) eqn:Hv; [discriminate|]. rewrite !orb_false_iff, andb_false_iff in Hv. destruct Hv as [[H1 H2] H3].
  assert (Hs : ~ (55296 <= c <= 57343)) by lia. assert (Hr : 0 <= c <= 1114111) by lia. clear H1 H2 H3.
  assert (Hk : forall x, continuation (128 + x mod 64) = true) by (intros x; unfold continuation; apply andb_true_iff; dlia).
  destruct (Z.ltb_spec c 128); [|destruct (Z.ltb_spec c 2048); [|destruct (Z.ltb_spec c 65536)]]; intros [= <-]; cbn [app utf8_decode].
  - by rewrite (proj2 (Z.ltb_lt _ _)) by lia.
  - rewrite (proj2 (Z.ltb_ge _ _)) by dlia. rewrite Hk. cbn [negb].
    replace ((194 <=? 192 + c / 64) && (192 + c / 64 <? 224)) with true by (symmetry; apply andb_true_iff; dlia).
    do 2 f_equal. dlia.
  - rewrite (proj2 (Z.ltb_ge _ _)) by dlia. rewrite !Hk. cbn [negb].
    replace ((194 <=? 224 + c / 4096) && (224 + c / 4096 <? 224)) with false by (symmetry; apply andb_false_iff; right; dlia).
    replace ((224 + c / 4096 - 224) * 4096 + (128 + (c / 64) mod 64 - 128) * 64 + (128 + c mod 64 - 128)) with c by dlia.
    replace ((224 <=? 224 + c / 4096) && (224 + c / 4096 <? 240) && (2048 <=? c) && negb ((55296 <=? c) && (c <=? 57343))) with true; [done|].
    symmetry. rewrite !andb_true_iff, negb_true_iff, andb_false_iff. split_and!; dlia.
  - rewrite (proj2 (Z.ltb_ge _ _)) by dlia. rewrite !Hk. cbn [negb].
    replace ((194 <=? 240 + c / 262144) && (240 + c / 262144 <? 224)) with false by (symmetry; apply andb_false_iff; right; dlia).
    replace ((224 <=? 240 + c / 262144) && (240 + c / 262144 <? 240)) with false by (symmetry; apply andb_false_iff; right; dlia). cbn [andb].
    replace ((240 + c / 262144 - 240) * 262144 + (128 + (c / 4096) mod 64 - 128) * 4096 + (128 + (c / 64) mod 64 - 128) * 64 + (128 + c mod 64 - 128)) with c by dlia.
    replace ((240 <=? 240 + c / 262144) && (240 + c / 262144 <? 245) && true && (65536 <=? c) && (c <=? 1114111)) with true; [done|].
    symmetry. rewrite !andb_true_iff. split_and!; dlia.
Qed.

Lemma utf8_roundtrip text data : utf8_encode text = Ok data -> utf8_decode data = Some text.
Proof.
  unfold utf8_encode. destruct (traverse encode_point text) as [l|] eqn:E; [|discriminate]. intros [= <-]. apply traverse_Ok in E.
  induction E as [|c e text l He _ IH]; [done|]. cbn [concat]. rewrite (encode_point_decode _ _ _ He), IH. done.
Qed.

(** ** Components *)

Definition component_ok (c : string) : Prop :=
  c <> "" /\ c <> "." /\ c <> ".." /\ existsb (fun a => code a =? 47) (String.list_ascii_of_string c) = false /\ Ascii.zero ∉ String.list_ascii_of_string c.

Lemma string_app_nil_r s : s +:+ "" = s.
Proof. induction s as [|c s IH]; [done|]. change (String c s +:+ "") with (String c (s +:+ "")). by rewrite IH. Qed.
Lemma list_ascii_app s t : String.list_ascii_of_string (s +:+ t) = String.list_ascii_of_string s ++ String.list_ascii_of_string t.
Proof. induction s as [|c s IH]; [done|]. change (String c s +:+ t) with (String c (s +:+ t)). cbn. by rewrite IH. Qed.
Lemma string_app_assoc (s t u : string) : (s +:+ t) +:+ u = s +:+ (t +:+ u).
Proof. induction s as [|c s IH]; [done|]. change (String c s +:+ t) with (String c (s +:+ t)). change (String c (s +:+ t) +:+ u) with (String c ((s +:+ t) +:+ u)). by rewrite IH. Qed.

(** Splitting text without slashes, and at a slash. *)
Lemma split_slash_text cur s rest : existsb (fun a => code a =? 47) (String.list_ascii_of_string s) = false ->
  split_slash cur (s +:+ rest) = split_slash (cur +:+ s) rest.
Proof.
  revert cur. induction s as [|c s IH]; intros cur H; [by rewrite string_app_nil_r|].
  cbn in H. apply orb_false_iff in H as [Hc H]. change (String c s +:+ rest) with (String c (s +:+ rest)). cbn [split_slash]. rewrite Hc, IH by done.
  rewrite string_app_assoc. done.
Qed.
Lemma split_slash_concat ps cur : Forall component_ok ps -> ps <> [] -> split_slash cur (String.concat "/" ps) = (cur +:+ hd "" ps) :: tl ps.
Proof.
  revert cur. induction ps as [|p ps IH]; intros cur H Hne; [done|]. apply Forall_cons in H as [(_ & _ & _ & Hp & _) H]. cbn [hd tl].
  destruct ps as [|q ps].
  - cbn [String.concat]. rewrite <- (string_app_nil_r p) at 1. rewrite split_slash_text by done. done.
  - change (String.concat "/" (p :: q :: ps)) with (p +:+ ("/" +:+ String.concat "/" (q :: ps))). rewrite split_slash_text by done.
    change ("/" +:+ ?x) with (String (Ascii.ascii_of_nat 47) x). cbn [split_slash].
    change (code (Ascii.ascii_of_nat 47) =? 47) with true. cbn iota. by rewrite IH.
Qed.

Lemma split_slash_chars cur s p a : p ∈ split_slash cur s -> a ∈ String.list_ascii_of_string p ->
  a ∈ String.list_ascii_of_string cur \/ a ∈ String.list_ascii_of_string s.
Proof.
  revert cur. induction s as [|c s IH]; intros cur Hp Ha; cbn [split_slash] in Hp.
  - apply list_elem_of_singleton in Hp as ->. by left.
  - cbn. rewrite elem_of_cons. destruct (code c =? 47).
    + apply elem_of_cons in Hp as [->|Hp]; [by left|]. destruct (IH _ Hp Ha) as [?%elem_of_nil|]; [done|auto].
    + destruct (IH _ Hp Ha) as [H|]; [|auto]. rewrite list_ascii_app in H. cbn in H. rewrite elem_of_app, list_elem_of_singleton in H. tauto.
Qed.

Definition workspace_ok (ws : workspace) : Prop := Forall component_ok (ws_cwd ws).

Lemma check_text_Ok path : check_text_path path = Ok tt ->
  path <> "" /\ (Ascii.zero ∉ String.list_ascii_of_string path) /\ utf8_length path <= MAX_PATH_BYTES.
Proof.
  unfold check_text_path. destruct (String.eqb_spec path ""); [done|]. case_bool_decide; [done|]. destruct (Z.ltb_spec MAX_PATH_BYTES (utf8_length path)); [done|]. done.
Qed.

Lemma add_component_ok ps c ps' :
  Forall component_ok ps -> (Ascii.zero ∉ String.list_ascii_of_string c) -> add_component ps c = Ok ps' -> Forall component_ok ps'.
Proof.
  intros Hps Hc H. unfold add_component in H. destruct (_ || _) eqn:E; [by apply Ok_inj in H as <-|]. apply orb_false_iff in E as [E1%String.eqb_neq E2%String.eqb_neq].
  destruct (String.eqb_spec c ".."); [done|]. destruct (existsb _ _) eqn:E3; [done|]. apply Ok_inj in H as <-.
  apply Forall_app. split; [done|]. constructor; [|done]. by split_and!.
Qed.

(** Parsed paths have names for components: nothing leaves the root. *)
Lemma parts_of_ok ws path ps : workspace_ok ws -> parts_of ws path = Ok ps -> Forall component_ok ps.
Proof.
  intros Hws H. unfold parts_of in H. destruct (check_text_path path) as [[]|] eqn:Hc; [|discriminate H]. cbn [bind] in H. apply check_text_Ok in Hc as (_ & Hz & _).
  apply (foldM_inv (Forall component_ok) add_component) in H; [done|destruct (path_absolute _); [constructor|done]|].
  intros s x s' Hx Hs Hstep. eapply add_component_ok; [exact Hs| |exact Hstep]. unfold path_of in Hx. cbn [pt_parts] in Hx.
  apply list_elem_of_In, filter_In in Hx as [Hx _]. apply list_elem_of_In in Hx. intros Ha. destruct (split_slash_chars _ _ _ _ Hx Ha) as [?%elem_of_nil|]; done.
Qed.

Lemma add_components ps qs : Forall component_ok qs -> foldM add_component ps qs = Ok (ps ++ qs).
Proof.
  revert ps. induction qs as [|q qs IH]; intros ps H; [by rewrite app_nil_r|]. apply Forall_cons in H as [(H1 & H2 & H3 & H4 & _) H].
  cbn [foldM]. unfold add_component at 1. rewrite (proj2 (String.eqb_neq _ _) H1), (proj2 (String.eqb_neq _ _) H2), (proj2 (String.eqb_neq _ _) H3), H4. cbn [orb bind].
  rewrite IH by done. by rewrite <- (assoc_L (++)).
Qed.

Lemma component_first c : component_ok c -> exists a r, c = String a r /\ (code a =? 47) = false.
Proof. intros (H1 & _ & _ & H & _). destruct c as [|a r]; [done|]. exists a, r. split; [done|]. cbn in H. by apply orb_false_iff in H as [? _]. Qed.

Lemma path_of_virtual ps : Forall component_ok ps -> path_of (virtual ps) = Path "/" ps.
Proof.
  intros H. destruct ps as [|p ps]; [reflexivity|]. unfold virtual, path_of.
  pose proof (Forall_inv H) as Hp. destruct (component_first _ Hp) as (a & r & -> & Ha).
  change ("/" +:+ ?x) with (String (Ascii.ascii_of_nat 47) x). set (t := String.concat "/" (String a r :: ps)).
  assert (Hpre : String.prefix "//" (String (Ascii.ascii_of_nat 47) t) = false).
  { assert (Ht : exists u, t = String a u) by (subst t; destruct ps; cbn [String.concat]; eexists; reflexivity). destruct Ht as [u ->].
    change (String.prefix "//" _) with (if Ascii.ascii_dec (Ascii.ascii_of_nat 47) a then String.prefix "" u else false).
    destruct (Ascii.ascii_dec _ a) as [<-|]; [by cbn in Ha|done]. }
  rewrite Hpre. assert (Hslash : String.prefix "/" (String (Ascii.ascii_of_nat 47) t) = true).
  { change (String.prefix "" t = true). by destruct t. }
  rewrite Hslash. cbn [andb]. f_equal.
  cbn [split_slash]. change (code (Ascii.ascii_of_nat 47) =? 47) with true. cbn iota. subst t. rewrite split_slash_concat by done. cbn [hd tl List.filter].
  change ("" +:+ ?x) with x. clear Hp Hpre Ha.
  assert (Hall : forall qs, Forall component_ok qs -> List.filter (fun p => negb (String.eqb p "") && negb (String.eqb p ".")) qs = qs).
  { intros qs Hq. apply List.forallb_filter_id, forallb_forall. intros x Hx%list_elem_of_In. rewrite Forall_forall in Hq. destruct (Hq x Hx) as (H1 & H2 & _).
    by rewrite (proj2 (String.eqb_neq _ _) H1), (proj2 (String.eqb_neq _ _) H2). }
  apply (Hall _ H).
Qed.

Lemma virtual_no_nul ps : Forall component_ok ps -> Ascii.zero ∉ String.list_ascii_of_string (virtual ps).
Proof.
  intros H. destruct ps as [|p ps]; [cbn; by intros [[=]|?%elem_of_nil]%elem_of_cons|]. unfold virtual. rewrite list_ascii_app, elem_of_app.
  intros [[[=]|?%elem_of_nil]%elem_of_cons|Hin]; [done|]. revert p H Hin. induction ps as [|q ps IH]; intros p H Hin.
  - apply Forall_inv in H as (_ & _ & _ & _ & Hz). done.
  - change (String.concat "/" (p :: q :: ps)) with (p +:+ ("/" +:+ String.concat "/" (q :: ps))) in Hin. rewrite !list_ascii_app, !elem_of_app in Hin.
    apply Forall_cons in H as [(_ & _ & _ & _ & Hz) H]. destruct Hin as [?|[[[=]|?%elem_of_nil]%elem_of_cons|Hin]]; [done|done|by apply (IH q)].
Qed.

(** The virtual path of parsed components parses to them, from any directory. *)
Lemma parts_of_virtual ws ps : Forall component_ok ps -> utf8_length (virtual ps) <= MAX_PATH_BYTES -> parts_of ws (virtual ps) = Ok ps.
Proof.
  intros H Hl. unfold parts_of, check_text_path. rewrite (path_of_virtual _ H), (bool_decide_false _ (virtual_no_nul _ H)).
  destruct (String.eqb_spec (virtual ps) "") as [E|_]; [by destruct ps|]. rewrite (proj2 (Z.ltb_ge _ _)) by done. cbn [bind pt_parts]. by apply (add_components [] ps).
Qed.

(** ** Walks *)

Lemma walk_Ok o d whole current rest q :
  walk o d whole current rest = Ok q -> q = current ++ rest /\
  (forall k, (0 < k < length rest)%nat -> lstat d (current ++ take k rest) = Some EDir) /\ (rest <> [] -> exists e, lstat d (current ++ rest) = Some e /\ e <> ELink).
Proof.
  revert current. induction rest as [|c rest IH]; intros current H; cbn [walk] in H; [apply Ok_inj in H as <-; rewrite app_nil_r; split_and!; [done|cbn; lia|done]|].
  destruct (os_lstat o _); [discriminate H|]. destruct (lstat d (current ++ [c])) as [item|] eqn:E; [|discriminate H].
  case_bool_decide as Hlink; [discriminate H|]. destruct (_ && _) eqn:Hd; [discriminate H|]. apply IH in H as (-> & Hk & Hlast). rewrite <- (assoc_L (++)) in *.
  split_and!; [done|..].
  - intros [|k] Hlt; [lia|]. cbn [take]. change (c :: take k rest) with ([c] ++ take k rest). rewrite (assoc_L (++)). destruct k as [|k].
    + rewrite take_0, app_nil_r, E. destruct rest; [cbn in Hlt; lia|]. rewrite bool_decide_false in Hd by done. cbn [negb andb] in Hd. apply negb_false_iff, bool_decide_eq_true in Hd. by subst.
    + apply Hk. cbn in Hlt. lia.
  - intros _. destruct rest as [|c2 rest]; [exists item; split; [exact E|done]|]. change (c :: c2 :: rest) with ([c] ++ c2 :: rest). by apply Hlast.
Qed.

Lemma check_root_Ok ws d : check_root ws d = Ok tt -> dk_root d = Some (EDir, ws_identity ws).
Proof.
  unfold check_root. destruct (dk_root d) as [[k i]|]; [|done]. destruct (_ || _) eqn:E; [done|]. apply orb_false_iff in E as [E1 E2].
  rewrite !negb_false_iff in *. apply bool_decide_eq_true in E1, E2. by subst.
Qed.

(** A walked path: directories all the way, and no symbolic link. *)
Lemma walk_existing_Ok o ws d ps q : walk_existing o ws d ps = Ok q ->
  q = ps /\ dk_root d = Some (EDir, ws_identity ws) /\ (forall k, (k < length ps)%nat -> lstat d (take k ps) = Some EDir) /\ exists e, lstat d ps = Some e /\ e <> ELink.
Proof.
  unfold walk_existing. intros H. destruct (check_root ws d) as [[]|] eqn:Hr; [|discriminate H]. cbn [bind] in H. apply check_root_Ok in Hr.
  apply walk_Ok in H as (-> & Hk & Hl). cbn [app] in *. split_and!; [done|done|..].
  - intros [|k] Hlt; [rewrite take_0; unfold lstat; by rewrite Hr|]. apply Hk. lia.
  - destruct ps as [|p ps]; [exists EDir; unfold lstat; by rewrite Hr|]. by apply Hl.
Qed.

(** ** The directory stays a tree, and entries stay *)

(** Every path below the root lies in a directory. *)
Definition disk_ok (d : disk) : Prop :=
  dk_tree d !! [] = None /\ forall p, is_Some (dk_tree d !! p) -> lstat d (parent p) = Some EDir.
(** What was there is still there. *)
Definition extends (d d' : disk) : Prop := dk_root d' = dk_root d /\ forall p e, lstat d p = Some e -> lstat d' p = Some e.

#[export] Instance extends_preorder : PreOrder extends.
Proof. split; [by intros d|]. intros a b c [H1 H2] [H3 H4]. split; [congruence|auto]. Qed.

Lemma parent_snoc p c : parent (p ++ [c]) = p.
Proof. unfold parent. rewrite length_app. cbn [length]. by rewrite Nat.add_sub, take_app_length. Qed.
Lemma parent_ne p : p <> [] -> parent p <> p.
Proof. intros H E. apply (f_equal length) in E. unfold parent in E. rewrite length_take in E. destruct p; [done|cbn in E; lia]. Qed.

Lemma lstat_put d p e q : p <> [] -> lstat (put_entry d p e) q = if bool_decide (q = p) then Some e else lstat d q.
Proof.
  intros Hp. case_bool_decide as Hq; [subst; destruct p; [done|apply lookup_insert_eq]|].
  destruct q; [done|]. cbn. by rewrite lookup_insert_ne.
Qed.
Lemma put_extends d p e : p <> [] -> lstat d p = None -> extends d (put_entry d p e).
Proof. intros Hp Hn. split; [done|]. intros q x Hq. rewrite lstat_put by done. case_bool_decide; [subst; congruence|done]. Qed.
Lemma put_ok d p e : p <> [] -> disk_ok d -> lstat d p = None -> lstat d (parent p) = Some EDir -> disk_ok (put_entry d p e).
Proof.
  intros Hp [H0 H] Hn Hup. split; [cbn; by rewrite lookup_insert_ne|]. intros q Hq. rewrite lstat_put by done.
  assert (Hold : lstat d (parent q) = Some EDir).
  { cbn in Hq. destruct (decide (q = p)) as [->|Hne]; [done|]. rewrite lookup_insert_ne in Hq by done. by apply H. }
  case_bool_decide as E; [rewrite E in Hold; congruence|done].
Qed.

Lemma creation_None d p fault : creation_error d p fault = None -> lstat d p = None /\ lstat d (parent p) = Some EDir /\ fault = None.
Proof.
  unfold creation_error, lexists. destruct (lstat d p); [done|]. cbn. by destruct (lstat d (parent p)) as [[]|].
Qed.

Lemma new_leaf_Ok o ws d path ps : new_leaf o ws d path = Ok ps -> ps <> [] /\ lstat d ps = None /\ lstat d (parent ps) = Some EDir.
Proof.
  unfold new_leaf. intros H. destruct (parts_of ws path) as [p|]; [|discriminate H]. cbn [bind] in H. case_bool_decide as Hp; [discriminate H|].
  destruct (walk_existing o ws d (parent p)) as [up|] eqn:Hw; [|discriminate H]. cbn [bind] in H. destruct (is_dir d up) eqn:Hd; [|discriminate H]. cbn [negb] in H.
  unfold lexists in H. destruct (lstat d p) eqn:E; [discriminate H|]. apply Ok_inj in H as <-. apply walk_existing_Ok in Hw as (-> & _). apply bool_decide_eq_true in Hd. done.
Qed.

(** A file cannot be written as asked: some write takes no bytes, or the close fails. *)
Definition stalled (o : os) (p : parts) : Prop :=
  is_Some (os_close o p) \/ exists w, match os_write o p w with inl n => n <= 0 | inr _ => True end.

(** Every write gives at most as many calls as bytes: the loop's bound is enough. *)
Lemma write_loop_cases limit o p size written n e : (size <= limit + written)%nat -> write_loop limit o p size written = (n, e) ->
  match e with
  | None => (size <= n)%nat
  | Some e => e <> WriteFuel /\ exists w, match os_write o p w with inl n => n <= 0 | inr _ => True end
  end.
Proof.
  revert written. induction limit as [|limit IH]; intros w Hl H; cbn in H; case_bool_decide; try (injection H as <- <-; lia); try lia.
  destruct (os_write o p w) as [k|t] eqn:Hw; [|injection H as <- <-; split; [done|]; exists w; by rewrite Hw].
  destruct (Z.leb_spec k 0); [injection H as <- <-; split; [done|]; exists w; by rewrite Hw|]. apply IH in H; [done|lia].
Qed.
Lemma close_file_None o p e : close_file o p e = None -> e = None.
Proof. unfold close_file. by destruct e as [[]|], (os_close o p). Qed.
Lemma close_file_stalled o p e : close_file o p e <> None -> (forall x, e = Some x -> exists w, match os_write o p w with inl n => n <= 0 | inr _ => True end) -> stalled o p.
Proof.
  intros H He. unfold close_file in H. destruct e as [x|]; [right; by apply (He x)|]. destruct (os_close o p) eqn:E; [left; by rewrite E|done].
Qed.

(** Creating a file: nothing else changes, and what stops it is the system's. *)
Lemma create_file_cases o d p data d' e : create_file o d p data = (d', e) ->
  (d' = d /\ exists t, e = Some (OpenFailed t)) \/
  (lstat d p = None /\ lstat d (parent p) = Some EDir /\ exists n, d' = put_entry d p (EFile (take n data)) /\ (e = None -> take n data = data) /\
    (e <> None -> stalled o p) /\ e <> Some (WriteStopped WriteFuel) /\ forall t, e <> Some (OpenFailed t)).
Proof.
  unfold create_file. destruct (creation_error d p (os_open o p)) eqn:E; [intros [= <- <-]; left; by eauto|]. apply creation_None in E as (H1 & H2 & _).
  destruct (write_loop _ _ _ _ _) as [n we] eqn:Hw. apply write_loop_cases in Hw; [|lia]. intros [= <- <-]. right. split_and!; [done|done|]. exists n. split_and!.
  - done.
  - intros Hn%fmap_None%close_file_None. rewrite Hn in Hw. by apply take_ge.
  - intros Hn. eapply close_file_stalled; [by intros Hc; rewrite Hc in Hn|]. intros x ->. apply Hw.
  - destruct we as [[|t|]|]; cbn; [destruct (os_close o p)..|by destruct Hw|destruct (os_close o p)]; done.
  - intros t. by destruct (close_file o p we).
Qed.

(** ** Every call *)

Inductive call :=
  | Mkdir (path : string) (mode : Z)
  | WriteText (path : string) (text : list Z)
  | WriteBytes (path : string) (data : list Z) (maximum : Z)
  | PublishMany (entries : list (string * option (list Z))) (maximum : Z).

(** The disk after a call, whatever its result. *)
Definition after (o : os) (ws : workspace) (d : disk) (c : call) : disk :=
  match c with
  | Mkdir path mode => (mkdir o ws d path mode).1
  | WriteText path text => (write_text o ws d path text).1
  | WriteBytes path data maximum => (write_bytes o ws d path data maximum).1
  | PublishMany entries maximum => (publish_many o ws d entries maximum).1
  end.

Definition kept (d d' : disk) : Prop := extends d d' /\ (disk_ok d -> disk_ok d').

Lemma kept_refl d : kept d d.
Proof. by split. Qed.
Lemma kept_put d p e : p <> [] -> lstat d p = None -> lstat d (parent p) = Some EDir -> kept d (put_entry d p e).
Proof. intros. split; [by apply put_extends|intros; by apply put_ok]. Qed.
Lemma disk_eq d d' : dk_root d' = dk_root d -> dk_tree d' = dk_tree d -> d' = d.
Proof. destruct d, d'. cbn. by intros -> ->. Qed.
Lemma drop_put d p e : p <> [] -> lstat d p = None -> drop_entry (put_entry d p e) p = d.
Proof. intros Hp Hn. apply disk_eq; [done|]. cbn. apply delete_insert_id. by destruct p. Qed.

Lemma kept_mkdir o ws d path mode : kept d (mkdir o ws d path mode).1.
Proof.
  unfold mkdir. destruct (negb _); [apply kept_refl|]. destruct (new_leaf o ws d path) as [ps|] eqn:E; [|apply kept_refl].
  destruct (creation_error _ _ _); [apply kept_refl|]. apply new_leaf_Ok in E as (? & ? & ?). by apply kept_put.
Qed.
Lemma kept_write_bytes o ws d path data maximum : kept d (write_bytes o ws d path data maximum).1.
Proof.
  unfold write_bytes. destruct (maximum <? 0); [apply kept_refl|]. destruct (maximum <? _); [apply kept_refl|].
  destruct (new_leaf o ws d path) as [ps|] eqn:E; [|apply kept_refl]. apply new_leaf_Ok in E as (Hne & Hn & Hup).
  destruct (create_file o d ps data) as [d' e] eqn:Hc. apply create_file_cases in Hc as [(-> & t & ->)|(_ & _ & n & -> & _)]; [apply kept_refl|].
  destruct e as [[t|[|t|]]|]; cbn [fst]; try (by apply kept_put). unfold unlink. destruct (os_remove o ps); [by apply kept_put|]. rewrite drop_put by done. apply kept_refl.
Qed.
Lemma kept_write_text o ws d path text : kept d (write_text o ws d path text).1.
Proof.
  unfold write_text. destruct (utf8_encode text); [|apply kept_refl]. destruct (_ <? _); [apply kept_refl|]. apply kept_write_bytes.
Qed.

(** *** Publication *)

Lemma elem_of_scandir d p c : c ∈ scandir d p <-> is_Some (dk_tree d !! (p ++ [c])).
Proof.
  unfold scandir. rewrite list_elem_of_omap. split.
  - intros (q & Hq & H). case_bool_decide as Hl; [|done]. destruct Hl as [Hlen Htake]. apply list_elem_of_fmap in Hq as ([q' e] & -> & Hq%elem_of_map_to_list). cbn in *.
    apply last_Some in H as [l ->]. rewrite length_app in Hlen. cbn in Hlen. rewrite take_app_le, take_ge in Htake by lia. subst l. by exists e.
  - intros [e He]. exists (p ++ [c]). split; [apply list_elem_of_fmap; exists (p ++ [c], e); split; [done|by apply elem_of_map_to_list]|].
    rewrite bool_decide_true; [by rewrite last_snoc|]. rewrite length_app, take_app_length. cbn. split; [lia|done].
Qed.

(** The entry a target stands for. *)
Definition target_entry (data : option (list Z)) : entry := match data with Some b => EFile b | None => EDir end.

(** *** Undoing a publication *)

Lemma unlink_lstat o d p q : p <> [] -> lstat (unlink o d p) q = lstat d q \/ q = p /\ lstat (unlink o d p) q = None.
Proof.
  intros Hp. unfold unlink. destruct (os_remove o p); [by left|]. destruct q as [|c q]; [by left|]. cbn. destruct (decide (c :: q = p)) as [->|Hne].
  - right. by rewrite lookup_delete_eq.
  - left. by rewrite lookup_delete_ne.
Qed.
Lemma remove_lstat o d p q : p <> [] -> lstat (remove_target o d p) q = lstat d q \/ q = p /\ lstat (remove_target o d p) q = None.
Proof. intros Hp. unfold remove_target. destruct (_ && _); [by left|by apply unlink_lstat]. Qed.

(** A target stays when the system refuses to remove it, or it is a directory
    with an entry. *)
Lemma remove_stays o d p : p <> [] -> is_Some (lstat (remove_target o d p) p) ->
  remove_target o d p = d /\ (is_Some (os_remove o p) \/ exists c, is_Some (lstat d (p ++ [c]))).
Proof.
  intros Hp H. unfold remove_target in *. destruct (is_dir d p && negb (bool_decide (scandir d p = []))) eqn:E.
  - split; [done|right]. apply andb_true_iff in E as [_ E]. apply negb_true_iff, bool_decide_eq_false in E. destruct (scandir d p) as [|c l] eqn:Es; [done|].
    exists c. assert (Hc : c ∈ scandir d p) by (rewrite Es; left). apply elem_of_scandir in Hc. by destruct p.
  - unfold unlink in *. destruct (os_remove o p) eqn:Er; [split; [done|left; by eexists]|]. exfalso. destruct p; [done|]. cbn in H. rewrite lookup_delete_eq in H. by destruct H.
Qed.

Lemma remove_extends o d d1 p : p <> [] -> lstat d p = None -> extends d d1 -> extends d (remove_target o d1 p).
Proof.
  intros Hp Hn [Hr Hx]. split; [unfold remove_target, unlink; destruct (_ && _); [done|by destruct (os_remove o p)]|].
  intros q e Hq. destruct (remove_lstat o d1 p q Hp) as [-> | [-> _]]; [by apply Hx|congruence].
Qed.
Lemma remove_ok o d p : p <> [] -> disk_ok d -> disk_ok (remove_target o d p).
Proof.
  intros Hp [H0 Hd]. unfold remove_target. destruct (_ && _) eqn:E; [done|]. unfold unlink. destruct (os_remove o p); [done|]. split; [cbn; by rewrite lookup_delete_ne|]. intros q Hq. cbn in Hq.
  destruct (decide (q = p)) as [->|Hne]; [rewrite lookup_delete_eq in Hq; by destruct Hq|]. rewrite lookup_delete_ne in Hq by done. pose proof (Hd _ Hq) as Hup.
  destruct (parent q) as [|c r] eqn:Ep; [exact Hup|]. cbn in Hup |- *. destruct (decide (c :: r = p)) as [Hcr|]; [|by rewrite lookup_delete_ne].
  exfalso. rewrite <- Hcr in *. unfold is_dir in E. change (dk_tree d !! (c :: r)) with (lstat d (c :: r)) in Hup. rewrite Hup, bool_decide_true in E by done. cbn [andb] in E. apply negb_false_iff, bool_decide_eq_true in E.
  assert (Hq' : exists l x, q = l ++ [x]). { destruct q as [|y q]; [done|]. exists (removelast (y :: q)), (List.last (y :: q) ""). by apply app_removelast_last. }
  destruct Hq' as (l & x & ->). rewrite parent_snoc in Ep. subst l. assert (Hs : x ∈ scandir d (c :: r)) by (by apply elem_of_scandir). rewrite E in Hs. by apply elem_of_nil in Hs.
Qed.

(** What a failed publication cannot take back. *)
Definition fault (o : os) (p : parts) : Prop := is_Some (os_remove o p) \/ stalled o p.

(** The entries of [d'] that are not in [d] are among the targets, and each is kept
    by a fault at an entry at or below it that is new as well. *)
Definition leftovers (o : os) (target : parts -> Prop) (d d' : disk) : Prop :=
  forall q, lstat d q = None -> is_Some (lstat d' q) ->
    target q /\ exists q', q `prefix_of` q' /\ lstat d q' = None /\ is_Some (lstat d' q') /\ fault o q'.

Lemma leftovers_refl o T d : leftovers o T d d.
Proof. intros q Hq [x Hx]. congruence. Qed.
Lemma leftovers_mono o (T T' : parts -> Prop) d d' : (forall q, T q -> T' q) -> leftovers o T d d' -> leftovers o T' d d'.
Proof. intros HT H q Hq Hs. destruct (H q Hq Hs) as [? ?]. split; [by apply HT|done]. Qed.
(** Without faults nothing is left. *)
Lemma leftovers_none o (T : parts -> Prop) d d' : kept d d' -> disk_ok d -> leftovers o T d d' -> (forall q, T q -> ~ fault o q) -> d' = d.
Proof.
  intros [[Hr Hx] Hk] Hd H Hf. specialize (Hk Hd). apply disk_eq; [done|]. apply map_eq. intros q. destruct q as [|c q]; [by rewrite (proj1 Hd), (proj1 Hk)|].
  change (lstat d' (c :: q) = lstat d (c :: q)). destruct (lstat d (c :: q)) as [x|] eqn:E; [by apply Hx|]. destruct (lstat d' (c :: q)) as [y|] eqn:E'; [exfalso|done].
  destruct (H (c :: q) E) as (_ & q' & _ & Hq' & Hs & Hfault); [by eexists|]. destruct (H q' Hq' Hs) as [HT _]. by eapply Hf.
Qed.

(** Removing a target that was created before the leftovers. *)
Lemma leftovers_remove o T d p e d' :
  p <> [] -> disk_ok d -> lstat d p = None -> leftovers o T (put_entry d p e) d' -> leftovers o (fun q => q = p \/ T q) d (remove_target o d' p).
Proof.
  intros Hp [_ Hd] Hn H.
  assert (Hback : forall q, is_Some (lstat (remove_target o d' p) q) -> is_Some (lstat d' q)).
  { intros q Hq. destruct (remove_lstat o d' p q Hp) as [E|[_ E]]; rewrite E in Hq; [done|by destruct Hq]. }
  assert (Hnew : forall q, q <> p -> lstat d q = None -> is_Some (lstat d' q) ->
    T q /\ exists q', q `prefix_of` q' /\ lstat d q' = None /\ is_Some (lstat (remove_target o d' p) q') /\ fault o q').
  { intros q Hne Hq Hs. destruct (H q) as (Hl & q' & Hpre & Hq' & Hs' & Hf); [rewrite lstat_put by done; by rewrite bool_decide_false|done|].
    rewrite lstat_put in Hq' by done. case_bool_decide as Heq; [discriminate Hq'|]. split; [done|]. exists q'. split_and!; [done|done| |done].
    destruct (remove_lstat o d' p q' Hp) as [-> |[-> _]]; [done|congruence]. }
  intros q Hq Hs. destruct (decide (q = p)) as [->|Hne].
  - split; [by left|]. pose proof (remove_stays o d' p Hp Hs) as [E [Hr|[c Hc]]].
    + exists p. split_and!; [done|done|done|by left].
    + destruct (Hnew (p ++ [c])) as (_ & q' & Hpre & Hr); [|apply eq_None_not_Some; intros Hsome|done|].
      * intros E'. apply (f_equal length) in E'. rewrite length_app in E'. cbn in E'. lia.
      * assert (Hc' : is_Some (dk_tree d !! (p ++ [c]))) by (by destruct p). apply Hd in Hc'. rewrite parent_snoc in Hc'. congruence.
      * exists q'. split; [|done]. etransitivity; [|exact Hpre]. by exists [c].
  - apply Hback in Hs. destruct (Hnew q Hne Hq Hs) as [Hl Hr]. split; [by right|done].
Qed.
