(* ===== verification/WorkspaceRun.v ===== *)
(** * Workspaces: the properties of their calls

    Confinement of resolved paths, entries that are kept, publication with its
    all-or-nothing rule and the exception to it, and the round trip of texts. *)

From S2P Require Import Prelude PyValue Evidence Workspace WorkspaceFacts.

(** ** Creations *)

(** The creations of a publication: what was there stays, and what is new is a target. *)
Lemma create_all_kept o prepared d created d' created' e :
  Forall (fun pd => pd.1 <> []) prepared -> create_all o d created prepared = (d', created', e) ->
  kept d d' /\ (exists made, created' = created ++ made /\ Forall (fun p => p <> [] /\ lstat d p = None) made) /\ e <> Some (Ok tt) /\
  (e = None -> Forall (fun pd => lstat d' pd.1 = Some (target_entry pd.2)) prepared) /\
  (forall q, lstat d q = None -> is_Some (lstat d' q) -> q ∈ map fst prepared).
Proof.
  revert d created. induction prepared as [|[p data] rest IH]; intros d created Hne H; cbn [create_all] in H.
  - injection H as <- <- <-. split_and!; [apply kept_refl|exists []; by rewrite app_nil_r|done|done|]. intros q Hq [x Hx]. congruence.
  - apply Forall_cons in Hne as [Hp Hne]. cbn [fst] in Hp.
    set (goal := kept d d' /\ _). assert (Hnew : forall d1 x, (forall q, lstat d1 q = None -> is_Some (lstat d' q) -> q ∈ map fst rest) -> d1 = put_entry d p x ->
      forall q, lstat d q = None -> is_Some (lstat d' q) -> q ∈ map fst ((p, data) :: rest)).
    { intros d1 x Hd1 -> q Hq Hs. cbn. apply elem_of_cons. destruct (decide (q = p)) as [->|Hqp]; [by left|right]. apply Hd1; [|done]. rewrite lstat_put by done. by rewrite bool_decide_false. }
    assert (Hgo : lstat d p = None -> lstat d (parent p) = Some EDir -> create_all o (put_entry d p (target_entry data)) (created ++ [p]) rest = (d', created', e) -> goal).
    { intros H1 H2 Hc. destruct (kept_put d p (target_entry data) Hp H1 H2) as [Hx Hok]. destruct (IH _ _ Hne Hc) as ((Hx' & Hok') & (made & -> & Hm) & He & Hf & Hq).
      split_and!; [split; [by transitivity (put_entry d p (target_entry data))|auto]| |done| |by eapply Hnew].
      - exists (p :: made). rewrite <- (assoc_L (++)). split; [done|]. constructor; [done|].
        eapply Forall_impl; [exact Hm|]. intros q [Hqn Hn]. split; [done|]. rewrite lstat_put in Hn by done. by case_bool_decide.
      - intros He'. constructor; [|by apply Hf]. apply Hx'. rewrite lstat_put by done. by rewrite bool_decide_true. }
    assert (Hstop : forall d1 t, kept d d1 -> (forall q, lstat d q = None -> is_Some (lstat d1 q) -> q = p) -> (d', created', e) = (d1, created, Some t) -> t <> Ok tt -> goal).
    { intros d1 t Hk Hq [= -> -> ->] Ht. split_and!; [done|exists []; by rewrite app_nil_r|congruence|done|]. intros q Hn Hs. rewrite (Hq q Hn Hs). left. }
    assert (Hsame : forall q, lstat d q = None -> is_Some (lstat d q) -> q = p) by (intros q Hq [x Hx]; congruence).
    destruct data as [b|].
    + destruct (create_file o d p b) as [d1 e1] eqn:Hf.
      assert (Hd1 : kept d d1 /\ forall q, lstat d q = None -> is_Some (lstat d1 q) -> q = p).
      { apply create_file_cases in Hf as [(-> & _)|(H1 & H2 & n & -> & _)]; [by split; [apply kept_refl|]|]. split; [by apply kept_put|].
        intros q Hq [x Hx]. rewrite lstat_put in Hx by done. case_bool_decide; [done|congruence]. }
      destruct Hd1 as [Hd1 Hq1]. destruct e1 as [[t|[|t|]]|]; try (eapply Hstop; [exact Hd1|exact Hq1|by rewrite <- H|done]).
      apply create_file_cases in Hf as [(_ & t & [=])|(H1 & H2 & n & -> & Hb & _)]. rewrite Hb in H by done. by apply Hgo.
    + destruct (creation_error d p (os_mkdir o p)) eqn:Hc; [eapply Hstop; [apply kept_refl|exact Hsame|by rewrite <- H|done]|]. apply creation_None in Hc as (H1 & H2 & _). by apply Hgo.
Qed.

(** The creations, and the removal of what they made in reverse order. *)
Lemma create_all_undone o prepared d created d' created' e :
  Forall (fun pd => pd.1 <> []) prepared -> disk_ok d -> create_all o d created prepared = (d', created', e) ->
  exists made, created' = created ++ made /\ leftovers o (fun q => q ∈ map fst prepared) d (foldl (remove_target o) d' (rev made)).
Proof.
  revert d created. induction prepared as [|[p data] rest IH]; intros d created Hne Hd H; cbn [create_all] in H.
  - injection H as <- <- <-. exists []. rewrite app_nil_r. split; [done|]. apply leftovers_refl.
  - apply Forall_cons in Hne as [Hp Hne]. cbn [fst] in Hp. set (T := fun q => q ∈ map fst ((p, data) :: rest)).
    assert (Hstop : forall d1 t, leftovers o T d d1 -> (d', created', e) = (d1, created, Some t) -> exists made, created' = created ++ made /\ leftovers o T d (foldl (remove_target o) d' (rev made))).
    { intros d1 t Hl [= -> -> ->]. exists []. by rewrite app_nil_r. }
    assert (Hgo : lstat d p = None -> lstat d (parent p) = Some EDir -> create_all o (put_entry d p (target_entry data)) (created ++ [p]) rest = (d', created', e) ->
      exists made, created' = created ++ made /\ leftovers o T d (foldl (remove_target o) d' (rev made))).
    { intros H1 H2 Hc. destruct (kept_put d p (target_entry data) Hp H1 H2) as [_ Hok]. destruct (IH _ _ Hne (Hok Hd) Hc) as (made & -> & Hl).
      exists (p :: made). rewrite <- (assoc_L (++)). cbn [rev]. rewrite foldl_app. split; [done|]. cbn [foldl].
      apply (leftovers_mono _ (fun q => q = p \/ q ∈ map fst rest)); [intros q [-> |Hq]; [left|by right]|]. by eapply leftovers_remove. }
    destruct data as [b|].
    + destruct (create_file o d p b) as [d1 e1] eqn:Hf.
      assert (Hd1 : e1 <> None -> leftovers o T d d1).
      { intros He. apply create_file_cases in Hf as [(-> & _)|(H1 & H2 & n & -> & _ & Hs & _)]; [apply leftovers_refl|]. intros q Hq [x Hx]. rewrite lstat_put in Hx by done.
        case_bool_decide as Heq; [subst q|congruence]. split; [left|]. exists p. split_and!; [done|done| |right; by apply Hs]. rewrite lstat_put by done. rewrite bool_decide_true by done. by eexists. }
      destruct e1 as [[t|[|t|]]|]; try (eapply Hstop; [by apply Hd1|by rewrite <- H]).
      apply create_file_cases in Hf as [(_ & t & [=])|(H1 & H2 & n & -> & Hb & _)]. rewrite Hb in H by done. by apply Hgo.
    + destruct (creation_error d p (os_mkdir o p)) eqn:Hc; [eapply Hstop; [apply leftovers_refl|by rewrite <- H]|]. apply creation_None in Hc as (H1 & H2 & _). by apply Hgo.
Qed.

(** *** What the preflight prepares *)

Lemma insert_publish_perm {A} (x : (nat * string) * A) l : insert_publish x l ≡ₚ x :: l.
Proof. induction l as [|y l IH]; [done|]. cbn. destruct (publish_before _ _); [done|]. rewrite IH. apply Permutation_swap. Qed.
Lemma sort_publish_perm {A} (l : list ((nat * string) * A)) : foldr insert_publish [] l ≡ₚ l.
Proof. induction l as [|x l IH]; [done|]. cbn. by rewrite insert_publish_perm, IH. Qed.

Lemma prepare_Ok o ws d maximum planned items acc out : foldM (prepare_entry o ws d maximum planned) acc items = Ok out ->
  exists new, out = acc ++ new /\ Forall2 (fun it pd => parts_of ws it.1.2 = Ok pd.1 /\ pd.2 = it.2 /\ pd.1 <> [] /\ lstat d pd.1 = None) items new.
Proof.
  revert acc. induction items as [|[[n path] data] items IH]; intros acc H; cbn [foldM] in H; [apply Ok_inj in H as <-; exists []; by rewrite app_nil_r|].
  destruct (prepare_entry _ _ _ _ _ acc _) as [acc'|] eqn:E; [|discriminate H]. cbn [bind] in H. apply IH in H as (new & -> & Hf).
  unfold prepare_entry in E. destruct (match data with Some _ => _ | None => _ end); [discriminate E|]. destruct (parts_of ws path) as [ps|] eqn:Hp; [|discriminate E]. cbn [bind] in E.
  case_bool_decide as Hne; [discriminate E|]. destruct (walk_existing _ _ _ _) as [up|]; [|discriminate E]. cbn [bind] in E. destruct (negb _); [discriminate E|].
  unfold lexists in E. destruct (lstat d ps) eqn:Hl; [discriminate E|]. apply Ok_inj in E as <-. exists ((ps, data) :: new). rewrite <- (assoc_L (++)). split; [done|]. by constructor.
Qed.

(** A target of an entry set. *)
Definition is_target (ws : workspace) (entries : list (string * option (list Z))) (q : parts) : Prop :=
  exists path data, (path, data) ∈ entries /\ parts_of ws path = Ok q.

(** The targets of a publication, one for every entry; none is there yet. *)
Lemma publish_prepared o ws d entries maximum prepared planned keyed :
  traverse (fun e : string * option (list Z) => let* ps := parts_of ws e.1 in Ok ((length ps, e.1), e.2)) entries = Ok keyed ->
  foldM (prepare_entry o ws d maximum planned) [] (foldr insert_publish [] keyed) = Ok prepared ->
  Forall (fun pd => pd.1 <> []) prepared /\ Forall (fun pd => lstat d pd.1 = None /\ is_target ws entries pd.1) prepared /\
  forall path data, (path, data) ∈ entries -> exists ps, parts_of ws path = Ok ps /\ (ps, data) ∈ prepared.
Proof.
  intros Hk Hp. apply prepare_Ok in Hp as (new & -> & Hf). cbn [app]. apply traverse_Ok in Hk.
  split_and!.
  - rewrite Forall_forall. intros pd Hin. apply list_elem_of_lookup in Hin as [k Hin]. by destruct (Forall2_lookup_r _ _ _ _ _ Hf Hin) as (it & _ & _ & _ & ? & _).
  - rewrite Forall_forall. intros pd Hin. apply list_elem_of_lookup in Hin as [k Hin]. destruct (Forall2_lookup_r _ _ _ _ _ Hf Hin) as (it & Hit & Hpp & _ & _ & Hn).
    split; [done|]. apply list_elem_of_lookup_2 in Hit. rewrite sort_publish_perm in Hit. apply list_elem_of_lookup in Hit as [i Hit].
    destruct (Forall2_lookup_r _ _ _ _ _ Hk Hit) as ([path data] & Hin' & E). cbn [fst snd] in E. destruct (parts_of ws path) as [ps|] eqn:Hps; [|discriminate E]. cbn [bind] in E. apply Ok_inj in E as <-.
    cbn [fst snd] in Hpp. exists path, data. split; [by eapply list_elem_of_lookup_2|done].
  - intros path data Hin. apply list_elem_of_lookup in Hin as [k Hin].
    destruct (Forall2_lookup_l _ _ _ _ _ Hk Hin) as (it & Hit & E). cbn [fst snd] in E. destruct (parts_of ws path) as [ps|] eqn:Hps; [|discriminate E]. cbn [bind] in E. apply Ok_inj in E as <-.
    exists ps. split; [done|]. assert (Hs : (length ps, path, data) ∈ foldr insert_publish [] keyed) by (rewrite sort_publish_perm; by eapply list_elem_of_lookup_2).
    apply list_elem_of_lookup in Hs as [j Hj]. destruct (Forall2_lookup_l _ _ _ _ _ Hf Hj) as ([q x] & Hq & Hq1 & Hq2 & _). cbn in Hq1, Hq2. rewrite Hps in Hq1. apply Ok_inj in Hq1 as <-. subst x.
    by eapply list_elem_of_lookup_2.
Qed.

(** A publication stops before its first creation, or creates what was prepared and
    undoes it when that fails. *)
Lemma publish_steps o ws d entries maximum :
  (exists r, publish_many o ws d entries maximum = (d, r) /\ (r = Ok tt -> entries = [])) \/
  exists prepared d' created e, create_all o d [] prepared = (d', created, e) /\ Forall (fun pd => pd.1 <> []) prepared /\
    Forall (fun pd => lstat d pd.1 = None /\ is_target ws entries pd.1) prepared /\
    (forall path data, (path, data) ∈ entries -> exists ps, parts_of ws path = Ok ps /\ (ps, data) ∈ prepared) /\
    publish_many o ws d entries maximum = match e with None => (d', Ok tt) | Some r => (foldl (remove_target o) d' (rev created), r) end.
Proof.
  destruct entries as [|e0 entries']; [left; by exists (Ok tt)|]. unfold publish_many. set (entries := e0 :: entries').
  destruct (traverse _ (List.filter _ entries)) as [planned|]; [|left; by eexists]. cbn [bind].
  destruct (traverse _ entries) as [keyed|] eqn:Hk; [|left; by eexists]. cbn [bind]. destruct (foldM _ _ _) as [prepared|] eqn:Hp; [|left; by eexists].
  right. destruct (publish_prepared _ _ _ _ _ _ _ _ Hk Hp) as (Hne & Ht & Hall). destruct (create_all o d [] prepared) as [[d' created] e] eqn:Hc.
  exists prepared, d', created, e. split_and!; try done.
Qed.

Lemma kept_publish o ws d entries maximum : kept d (publish_many o ws d entries maximum).1.
Proof.
  destruct (publish_steps o ws d entries maximum) as [(r & -> & _)|(prepared & d' & created & e & Hc & Hne & _ & _ & ->)]; [apply kept_refl|].
  apply create_all_kept in Hc as ([Hx Hok] & (made & -> & Hm) & _); [|done]. cbn [app] in *. destruct e; [|by split]. cbn [fst].
  assert (Hgen : forall l d1, Forall (fun p => p <> [] /\ lstat d p = None) l -> extends d d1 -> extends d (foldl (remove_target o) d1 l) /\ (disk_ok d1 -> disk_ok (foldl (remove_target o) d1 l))).
  { induction l as [|p l IH]; intros d1 Hl Hd1; [done|]. apply Forall_cons in Hl as [[Hp1 Hp2] Hl]. cbn [foldl]. destruct (IH (remove_target o d1 p) Hl) as [H1 H2]; [by apply remove_extends|].
    split; [done|]. intros H. by apply H2, remove_ok. }
  destruct (Hgen (rev made) d') as [H1 H2]; [apply List.Forall_rev; exact Hm|done|]. split; [done|auto].
Qed.

(** A publication returns with every entry, or raises and leaves only what a fault
    keeps. *)
Lemma publish_cases o ws d entries maximum d' r :
  disk_ok d -> publish_many o ws d entries maximum = (d', r) ->
  extends d d' /\
  ((r = Ok tt /\ (forall path data, (path, data) ∈ entries -> exists ps, parts_of ws path = Ok ps /\ lstat d' ps = Some (target_entry data)) /\
    (forall q, lstat d q = None -> is_Some (lstat d' q) -> is_target ws entries q)) \/
   (exists e, r = Err e) /\ leftovers o (is_target ws entries) d d' /\ ((forall q, is_target ws entries q -> ~ fault o q) -> d' = d)).
Proof.
  intros Hd H. pose proof (kept_publish o ws d entries maximum) as Hkept. rewrite H in Hkept. cbn [fst] in Hkept. split; [by apply Hkept|].
  destruct (publish_steps o ws d entries maximum) as [(r' & E & Hr)|(prepared & d1 & created & e & Hc & Hne & Ht & Hall & E)]; rewrite H in E.
  - injection E as -> ->. destruct r' as [[]|e]; [left; rewrite Hr by done; split_and!; [done|by intros ? ? ?%elem_of_nil|intros q Hq [x Hx]; congruence]|].
    right. split_and!; [by eexists|apply leftovers_refl|done].
  - pose proof (create_all_kept _ _ _ _ _ _ _ Hne Hc) as (_ & _ & Herr & Hdone & Hnew). assert (Htarget : forall q, q ∈ map fst prepared -> is_target ws entries q).
    { intros q (pd & -> & Hin)%list_elem_of_fmap. rewrite Forall_forall in Ht. by apply Ht. }
    apply create_all_undone in Hc as (made & Hm & Hl); [|done..]. cbn [app] in Hm. subst created. destruct e as [[[]|e]|]; [done| |]; injection E as -> ->.
    + right. assert (Hleft : leftovers o (is_target ws entries) d (foldl (remove_target o) d1 (rev made))) by (by eapply leftovers_mono; [exact Htarget|exact Hl]).
      split_and!; [by eexists|done|]. intros Hf. by apply (leftovers_none o (is_target ws entries)).
    + left. split_and!; [done| |by intros q Hq Hs; apply Htarget, Hnew].
      intros path data Hin. destruct (Hall _ _ Hin) as (ps & Hps & Hin'). exists ps. split; [done|]. specialize (Hdone eq_refl). rewrite Forall_forall in Hdone. apply (Hdone _ Hin').
Qed.

Lemma kept_after o ws d c : kept d (after o ws d c).
Proof. destruct c; [apply kept_mkdir|apply kept_write_text|apply kept_write_bytes|apply kept_publish]. Qed.

(** ** The properties *)

(** C11. Whatever the operating system reports, every sequence of calls keeps the
    directory a tree below the same root and neither removes nor changes an entry
    that was there: existing files, directories and links are never overwritten. *)
Theorem calls_keep_entries o ws d calls :
  disk_ok d -> disk_ok (foldl (after o ws) d calls) /\ extends d (foldl (after o ws) d calls).
Proof.
  revert d. induction calls as [|c calls IH]; intros d Hd; [done|]. cbn [foldl]. destruct (kept_after o ws d c) as [Hx Hok].
  destruct (IH _ (Hok Hd)) as [H1 H2]. split; [done|]. by transitivity (after o ws d c).
Qed.

(** C10. A publication is all or nothing as far as the operating system lets it be.
    Nothing that was there changes. Either it returns, every entry of the set is
    there with its contents and nothing else is new; or it raises, and an entry that
    is new is a target of the set, kept there by a fault at or below it: a target
    that the system does not remove, whose writes take no bytes, or whose close
    fails. Without faults at its targets a publication that raises leaves the disk
    as it was. *)
Theorem publish_all_or_nothing o ws d entries maximum d' r :
  disk_ok d -> publish_many o ws d entries maximum = (d', r) ->
  extends d d' /\
  ((r = Ok tt /\ (forall path data, (path, data) ∈ entries -> exists ps, parts_of ws path = Ok ps /\ lstat d' ps = Some (target_entry data)) /\
    (forall q, lstat d q = None -> is_Some (lstat d' q) -> is_target ws entries q)) \/
   (exists e, r = Err e) /\ leftovers o (is_target ws entries) d d' /\ ((forall q, is_target ws entries q -> ~ fault o q) -> d' = d)).
Proof. apply publish_cases. Qed.

(** *** A device that becomes full *)

(** At [p] the device takes [room] bytes, in whatever pieces, and refuses the next. *)
Definition full_at (o : os) (p : parts) (room : nat) (text : string) : Prop :=
  (forall w, (w < room)%nat -> exists n, os_write o p w = inl n /\ 0 < n <= Z.of_nat (room - w)) /\ os_write o p room = inr text.

Lemma write_loop_full o p room text size limit written :
  full_at o p room text -> (written <= room < size)%nat -> (size <= limit + written)%nat -> write_loop limit o p size written = (room, Some (WriteFailed text)).
Proof.
  intros [Hw Hr]. revert written. induction limit as [|limit IH]; intros w Hl Hs; [lia|]. cbn. rewrite bool_decide_false by lia.
  destruct (decide (w = room)) as [->|Hne]; [by rewrite Hr|]. destruct (Hw w) as (n & -> & Hn); [lia|]. rewrite (proj2 (Z.leb_gt _ _)) by lia. apply IH; lia.
Qed.

(** No call creates a path that is there. *)
Lemma existing_refused ws o d path ps x : parts_of ws path = Ok ps -> lstat d ps = Some x ->
  (forall data maximum, exists e, write_bytes o ws d path data maximum = (d, Err e)) /\
  (forall entries maximum, path ∈ map fst entries -> exists e, publish_many o ws d entries maximum = (d, Err e)).
Proof.
  intros Hp Hx. split.
  - intros data maximum. unfold write_bytes. destruct (maximum <? 0); [by eexists|]. destruct (maximum <? _); [by eexists|].
    destruct (new_leaf o ws d path) as [q|e] eqn:E; [exfalso|by eexists]. pose proof (new_leaf_Ok _ _ _ _ _ E) as (_ & Hn & _). unfold new_leaf in E. rewrite Hp in E. cbn [bind] in E.
    destruct (bool_decide (ps = [])); [discriminate E|]. destruct (walk_existing _ _ _ _); [|discriminate E]. cbn [bind] in E. destruct (negb _); [discriminate E|]. destruct (lexists d ps); [discriminate E|]. apply Ok_inj in E as <-. congruence.
  - intros entries maximum ([path' data] & -> & Hin)%list_elem_of_fmap. cbn [fst] in *.
    destruct (publish_steps o ws d entries maximum) as [(r & -> & Hr)|(prepared & d' & created & e & _ & _ & Ht & Hall & _)].
    + destruct r as [[]|e]; [rewrite (Hr eq_refl) in Hin; by apply elem_of_nil in Hin|by exists e].
    + exfalso. destruct (Hall _ _ Hin) as (q & Hq & Hin'). rewrite Hp in Hq. apply Ok_inj in Hq as <-. rewrite Forall_forall in Ht. destruct (Ht _ Hin') as [Hn _]. cbn in Hn. congruence.
Qed.

(** C14. When the device becomes full inside a new file, both a single write and a
    publication of the file raise and leave the part that was written; and from then
    on every write to the path and every publication that names it raises and
    changes nothing, whatever the system does. *)
Theorem full_device_leaves_partial o ws d path ps data maximum room text :
  new_leaf o ws d path = Ok ps -> os_open o ps = None -> os_close o ps = None -> full_at o ps room text ->
  (room < length data)%nat -> Z.of_nat (length data) <= maximum ->
  let left := put_entry d ps (EFile (take room data)) in
  write_bytes o ws d path data maximum = (left, fail ("write failed: " +:+ text)) /\
  publish_many o ws d [(path, Some data)] maximum = (left, fail ("publication failed: " +:+ text)) /\
  forall o', (forall data' maximum', exists e, write_bytes o' ws left path data' maximum' = (left, Err e)) /\
    (forall entries maximum', path ∈ map fst entries -> exists e, publish_many o' ws left entries maximum' = (left, Err e)).
Proof.
  intros Hl Ho Hc Hfull Hroom Hmax left. pose proof (new_leaf_Ok _ _ _ _ _ Hl) as (Hne & Hn & Hup).
  assert (Hfile : create_file o d ps data = (left, Some (WriteStopped (WriteFailed text)))).
  { unfold create_file, creation_error, lexists. rewrite Hn, Hup, Ho. cbn. rewrite (write_loop_full o ps room text) by (done || lia). unfold close_file. by rewrite Hc. }
  pose proof Hl as Hleaf. unfold new_leaf in Hleaf. destruct (parts_of ws path) as [q|] eqn:Hp; [|discriminate Hleaf]. cbn [bind] in Hleaf. destruct (bool_decide (q = [])) eqn:Hq; [discriminate Hleaf|].
  destruct (walk_existing o ws d (parent q)) as [up|] eqn:Hw; [|discriminate Hleaf]. cbn [bind] in Hleaf. destruct (negb (is_dir d up)) eqn:Hd; [discriminate Hleaf|].
  destruct (lexists d q) eqn:Hx; [discriminate Hleaf|]. apply Ok_inj in Hleaf as ->. split_and!.
  - unfold write_bytes. rewrite (proj2 (Z.ltb_ge _ _)) by lia. rewrite (proj2 (Z.ltb_ge _ _)) by done. by rewrite Hl, Hfile.
  - unfold publish_many. cbn [List.filter is_Some_b snd fst negb traverse bind]. rewrite Hp. cbn [bind foldr insert_publish foldM prepare_entry]. rewrite (proj2 (Z.ltb_ge _ _)) by done.
    rewrite Hp. cbn [bind]. rewrite Hq. replace (existing_prefix (length ps) [] (parent ps)) with (parent ps) by (by destruct (length ps)). rewrite Hw. cbn [bind]. rewrite Hd, Hx. cbn [bind app create_all]. by rewrite Hfile.
  - intros o'. eapply existing_refused; [exact Hp|]. unfold left. rewrite lstat_put by done. by rewrite bool_decide_true.
Qed.

(** The device is full after one byte. *)
Definition full_os : os :=
  Os (fun _ => None) (fun _ => None) (fun _ => None) (fun _ => None) (fun _ => None) (fun _ w => if (w =? 0)%nat then inl 1 else inr "No space left on device")
    (fun _ => None) (fun _ => None) (fun _ => true) (fun _ => true).
(** The directory that the publication made is removed, the partial file is not. *)
Example full_device_publication :
  let '(d, r) := publish_many full_os example_workspace example_disk [("new", None); ("note", Some [1; 2; 3])] 16 in
  (lstat d ["new"], lstat d ["note"], r) = (None, Some (EFile [1]), fail "publication failed: No space left on device").
Proof. vm_compute. reflexivity. Qed.

(** C12. A path that a workspace resolves names components below the root: no [..],
    no slash, every proper prefix a directory, no symbolic link on the way; its
    virtual form, when short enough to be a path, resolves to the same place from
    any directory of the workspace. *)
Theorem resolved_paths_confined o ws d path v host :
  workspace_ok ws -> existing_host_path o ws d path = Ok (v, host) ->
  Forall component_ok host /\ v = virtual host /\ dk_root d = Some (EDir, ws_identity ws) /\
  (forall k, (k < length host)%nat -> lstat d (take k host) = Some EDir) /\ (exists e, lstat d host = Some e /\ e <> ELink) /\
  (utf8_length v <= MAX_PATH_BYTES -> existing_host_path o ws d v = Ok (v, host)).
Proof.
  intros Hws H. unfold existing_host_path in H. destruct (parts_of ws path) as [ps|] eqn:Hp; [|discriminate H]. cbn [bind] in H.
  destruct (walk_existing o ws d ps) as [q|] eqn:Hw; [|discriminate H]. cbn [bind] in H. apply Ok_inj in H. injection H as <- <-.
  pose proof (parts_of_ok _ _ _ Hws Hp) as Hok. pose proof (walk_existing_Ok _ _ _ _ _ Hw) as (-> & Hr & Hd & He). split_and!; try done.
  intros Hl. unfold existing_host_path. rewrite (parts_of_virtual _ _ Hok Hl). cbn [bind]. by rewrite Hw.
Qed.

(** *** Reading what was written *)

Lemma walk_snoc o d d' whole whole' current rest q c e :
  walk o d whole current rest = Ok q -> extends d d' -> lstat d' q = Some EDir -> os_lstat o (q ++ [c]) = None -> lstat d' (q ++ [c]) = Some e -> e <> ELink ->
  walk o d' whole' current (rest ++ [c]) = Ok (q ++ [c]).
Proof.
  intros H [_ Hx] Hq Ho He Hne. revert current H. induction rest as [|x rest IH]; intros current H; cbn [walk app] in *.
  - apply Ok_inj in H as <-. rewrite Ho, He, bool_decide_false by done. cbn. done.
  - destruct (os_lstat o (current ++ [x])); [discriminate H|]. destruct (lstat d (current ++ [x])) as [item|] eqn:E; [|discriminate H]. rewrite (Hx _ _ E).
    destruct (bool_decide (item = ELink)); [discriminate H|]. destruct (_ && _) eqn:Hd; [discriminate H|].
    assert (Hdir : bool_decide (item = EDir) = true).
    { destruct rest as [|y rest]; [|by rewrite bool_decide_false, andb_true_l, negb_false_iff in Hd].
      cbn in H. apply Ok_inj in H as <-. rewrite (Hx _ _ E) in Hq. injection Hq as ->. by rewrite bool_decide_true. }
    rewrite Hdir, andb_false_r. by apply IH.
Qed.

(** C13. A text that [write_text] wrote is read back from the virtual path it
    returned, if the path is short enough to be one and the system reports no
    failure at the file; a text with a NUL is written all the same, and [read_text]
    refuses it as binary. *)
Theorem write_read o ws d path text d' v :
  workspace_ok ws -> (forall ps, parts_of ws path = Ok ps -> os_lstat o ps = None /\ os_read o ps = None) -> write_text o ws d path text = (d', Ok v) ->
  utf8_length v <= MAX_PATH_BYTES ->
  read_text o ws d' v MAX_FILE_BYTES = if bool_decide (0 ∈ text) then fail "file appears to be binary" else Ok text.
Proof.
  intros Hws Hl H Hv. unfold write_text in H. destruct (utf8_encode text) as [data|] eqn:Henc; [|discriminate H]. destruct (Z.ltb_spec MAX_FILE_BYTES (Z.of_nat (length data))) as [|Hlen]; [discriminate H|].
  unfold write_bytes in H. change (MAX_FILE_BYTES <? 0) with false in H. rewrite (proj2 (Z.ltb_ge _ _)) in H by done.
  destruct (new_leaf o ws d path) as [ps|] eqn:Hleaf; [|discriminate H]. destruct (create_file o d ps data) as [d1 e] eqn:Hc.
  destruct e as [[t|[|t|]]|]; try discriminate H. injection H as <- <-. pose proof Hc as Hc'. apply create_file_cases in Hc as [(_ & t & [=])|(H1 & H2 & n & -> & Hn & _)].
  rewrite Hn in * by done. clear Hn. assert (Hopen : os_open o ps = None /\ os_close o ps = None).
  { unfold create_file in Hc'. destruct (creation_error d ps (os_open o ps)) eqn:E; [discriminate Hc'|]. apply creation_None in E as (_ & _ & ?). split; [done|].
    destruct (write_loop _ _ _ _ _) as [m we]. unfold close_file in Hc'. by destruct we as [[]|], (os_close o ps). }
  destruct Hopen as [Hopen Hclose].
  unfold new_leaf in Hleaf. destruct (parts_of ws path) as [ps'|] eqn:Hp; [|discriminate Hleaf]. cbn [bind] in Hleaf. case_bool_decide as Hne; [discriminate Hleaf|].
  destruct (walk_existing o ws d (parent ps')) as [up|] eqn:Hw; [|discriminate Hleaf]. cbn [bind] in Hleaf. destruct (negb (is_dir d up)); [discriminate Hleaf|]. destruct (lexists d ps'); [discriminate Hleaf|]. apply Ok_inj in Hleaf as ->.
  pose proof (parts_of_ok _ _ _ Hws Hp) as Hok. set (d1 := put_entry d ps (EFile data)). pose proof (put_extends d ps (EFile data) Hne H1) as Hx.
  assert (Hfile : lstat d1 ps = Some (EFile data)) by (subst d1; rewrite lstat_put by done; by rewrite bool_decide_true).
  assert (Hwalk : walk_existing o ws d1 ps = Ok ps).
  { pose proof (walk_existing_Ok _ _ _ _ _ Hw) as (-> & _). unfold walk_existing in *. assert (Hroot : check_root ws d1 = check_root ws d) by done. rewrite Hroot. destruct (check_root ws d) as [[]|]; [|discriminate Hw]. cbn [bind] in *.
    assert (Hps : exists l c, ps = l ++ [c]). { destruct ps as [|y q]; [done|]. exists (removelast (y :: q)), (List.last (y :: q) ""). by apply app_removelast_last. }
    destruct Hps as (l & c & ->). rewrite parent_snoc in *. destruct Hx as [Hx1 Hx2]. by eapply walk_snoc; [exact Hw|split|apply Hx2|apply (Hl _ eq_refl)|exact Hfile|]. }
  unfold read_text. change (negb _) with false. rewrite (parts_of_virtual _ _ Hok Hv). cbn [bind]. rewrite Hwalk. cbn [bind]. rewrite Hfile, Hopen. unfold close_read. rewrite Hclose, (proj2 (Hl _ eq_refl)).
  rewrite (proj2 (Z.ltb_ge _ _)) by done. cbn [bind]. rewrite take_ge by lia. rewrite (proj2 (Z.ltb_ge _ _)) by done. by rewrite (utf8_roundtrip _ _ Henc).
Qed.

(** ** Witnesses *)

Lemma example_disk_ok : disk_ok example_disk.
Proof.
  split; [by vm_compute|]. intros p Hp. unfold example_disk in *. cbn [dk_tree] in Hp.
  destruct (decide (p = ["docs"])) as [->|]; [done|]. destruct (decide (p = ["docs"; "a.txt"])) as [->|]; [done|]. destruct (decide (p = ["out"])) as [->|]; [done|].
  rewrite !lookup_insert_ne, lookup_empty in Hp by done. by destruct Hp.
Qed.

Lemma calls_keep_entries_witness :
  disk_ok (foldl (after full_os example_workspace) example_disk [Mkdir "new" 511; WriteBytes "new/x" [1; 2] 8]) /\
  extends example_disk (foldl (after full_os example_workspace) example_disk [Mkdir "new" 511; WriteBytes "new/x" [1; 2] 8]).
Proof. apply calls_keep_entries. apply example_disk_ok. Defined.

Lemma publish_all_or_nothing_witness :
  exists d' r, publish_many full_os example_workspace example_disk [("new", None); ("note", Some [1; 2; 3])] 16 = (d', r) /\
    extends example_disk d' /\ leftovers full_os (is_target example_workspace [("new", None); ("note", Some [1; 2; 3])]) example_disk d'.
Proof.
  destruct (publish_many full_os example_workspace example_disk [("new", None); ("note", Some [1; 2; 3])] 16) as [d' r] eqn:E. exists d', r. split; [reflexivity|].
  assert (Hr : r <> Ok tt) by (change r with (d', r).2; rewrite <- E; vm_compute; discriminate).
  destruct (publish_all_or_nothing full_os example_workspace example_disk _ 16 d' r example_disk_ok E) as (Hx & [(Ho & _)|(_ & Hl & _)]).
  - destruct (Hr Ho).
  - split; [exact Hx|exact Hl].
Defined.

Lemma full_device_leaves_partial_witness :
  write_bytes full_os example_workspace example_disk "note" [1; 2; 3] 16 =
    (put_entry example_disk ["note"] (EFile [1]), fail "write failed: No space left on device").
Proof.
  apply (full_device_leaves_partial full_os example_workspace example_disk "note" ["note"] [1; 2; 3] 16 1 "No space left on device").
  - vm_compute. reflexivity.
  - reflexivity.
  - reflexivity.
  - split; [|reflexivity]. intros w Hw. assert (w = 0%nat) as -> by lia. exists 1. split; [reflexivity|lia].
  - cbn. lia.
  - cbn. lia.
Defined.

Lemma resolved_paths_confined_witness : Forall component_ok ["docs"; "a.txt"] /\ existing_host_path quiet_os example_workspace example_disk "/docs/a.txt" = Ok ("/docs/a.txt", ["docs"; "a.txt"]).
Proof.
  destruct (resolved_paths_confined quiet_os example_workspace example_disk "docs//./a.txt" "/docs/a.txt" ["docs"; "a.txt"]) as (H1 & _ & _ & _ & _ & H2);
    [constructor|vm_compute; reflexivity|]. split; [exact H1|]. apply H2. by vm_compute.
Defined.

Lemma write_read_witness :
  exists d', write_text quiet_os example_workspace example_disk "docs/b.txt" [233; 8364; 128512] = (d', Ok "/docs/b.txt") /\
    read_text quiet_os example_workspace d' "/docs/b.txt" MAX_FILE_BYTES = Ok [233; 8364; 128512].
Proof.
  destruct (write_text quiet_os example_workspace example_disk "docs/b.txt" [233; 8364; 128512]) as [d' r] eqn:E. exists d'.
  assert (Hr : r = Ok "/docs/b.txt") by (change r with (d', r).2; rewrite <- E; vm_compute; reflexivity). subst r. split; [reflexivity|].
  apply (write_read quiet_os example_workspace example_disk "docs/b.txt" [233; 8364; 128512] d' "/docs/b.txt"); [constructor|done|exact E|by vm_compute].
Defined.
