(* ===== verification/StaticRegion.v ===== *)
(** * The static stencil region ([raveil/static_region.py])

    One graph descriptor, of a five-point stencil over 18 rows of 18 words, is
    admitted to the static RTL region. [compile_static_stencil_descriptor] builds
    it, [validate_static_stencil_descriptor] recomputes every field and the
    invariants of its graph without the builder, and [static_stencil_oracle] is
    its meaning. [StaticRegionContractError] is a [ValueError]. Descriptors come
    from JSON without floats, as [fold_evidence.loads] reads them. *)

From S2P Require Import Prelude PyValue Evidence.

Definition REGION_SCHEMA : string := "raveil.static-region/v1".
Definition COMPILER_IDENTITY : string := "raveil.static-stencil-compiler/v1".
Definition ORACLE_IDENTITY : string := "raveil.static-stencil-oracle/v1".
Definition TARGET_SIGNATURE : string := "raveil.chisel.static-stencil-region/v1".

(** ** The descriptor *)

Definition effect_doc (ekind object affine : string) : pyval :=
  VDict [("kind", VStr ekind); ("object", VStr object); ("affine", VStr affine)].
Definition load_doc (id affine : string) : pyval :=
  VDict [("id", VStr id); ("op", VStr "LOAD_U32"); ("effect", effect_doc "READ" "A" affine)].
Definition add_doc (id : string) : pyval := VDict [("id", VStr id); ("op", VStr "ADD_U32")].
Definition store_doc (id affine : string) : pyval :=
  VDict [("id", VStr id); ("op", VStr "STORE_U32"); ("effect", effect_doc "WRITE" "B" affine)].
Definition edge_doc (e : string * string * Z) : pyval :=
  VDict [("producer", VStr e.1.1); ("consumer", VStr e.1.2); ("input", VInt e.2)].
Definition cycle_doc (c : Z * list string) : pyval := VDict [("cycle", VInt c.1); ("nodes", VList (map VStr c.2))].

Definition stencil_nodes : list pyval :=
  [load_doc "load_center" "18*y+x"; load_doc "load_north" "18*(y-1)+x"; load_doc "load_south" "18*(y+1)+x";
   load_doc "load_west" "18*y+x-1"; load_doc "load_east" "18*y+x+1";
   add_doc "add_0"; add_doc "add_1"; add_doc "add_2"; add_doc "add_3";
   store_doc "store_output" "16*(y-1)+(x-1)"].
Definition expected_edges : list (string * string * Z) :=
  [("load_center", "add_0", 0); ("load_north", "add_0", 1); ("add_0", "add_1", 0); ("load_south", "add_1", 1);
   ("add_1", "add_2", 0); ("load_west", "add_2", 1); ("add_2", "add_3", 0); ("load_east", "add_3", 1);
   ("add_3", "store_output", 0)].
Definition schedule_cycles : list (Z * list string) :=
  [(0, ["load_center"]); (1, ["load_north"; "add_0"]); (2, ["load_south"; "add_1"]); (3, ["load_west"; "add_2"]);
   (4, ["load_east"; "add_3"]); (5, ["store_output"])].
Definition expected_schedule : pyval := VList (map cycle_doc schedule_cycles).
Definition expected_workload : pyval :=
  VDict [("name", VStr "five-point-stencil-u32"); ("input_shape", words_val [18; 18]); ("output_shape", words_val [16; 16]);
    ("iteration", VDict [("y", words_val [1; 16]); ("x", words_val [1; 16]); ("order", VStr "row-major")]);
    ("arithmetic", VStr "uint32-modulo-2^32")].
Definition object_A : dict :=
  [("id", VStr "A"); ("effect", VStr "READ"); ("element_type", VStr "uint32"); ("elements", VInt 324); ("bytes", VInt 1296);
   ("binding", VStr "read-only"); ("requires_disjoint_from", VList [VStr "B"])].
Definition object_B : dict :=
  [("id", VStr "B"); ("effect", VStr "WRITE"); ("element_type", VStr "uint32"); ("elements", VInt 256); ("bytes", VInt 1024);
   ("binding", VStr "exclusive-private-output"); ("publication", VStr "host-after-independent-validation");
   ("requires_disjoint_from", VList [VStr "A"])].
Definition expected_resources : pyval :=
  VDict [("integer_adders", VInt 1); ("scratchpad_read_ports", VInt 1); ("scratchpad_write_ports", VInt 1); ("runtime_ready_slots", VInt 0)].
Definition expected_bounds : pyval :=
  VDict [("max_nodes", VInt 64); ("max_edges", VInt 128); ("active_invocations", VInt 1); ("installed_templates", VInt 1);
    ("cycles_per_output", VInt 6); ("outputs_per_invocation", VInt 256); ("max_cycles", VInt 8192)].
Definition expected_fallback : pyval :=
  VDict [("isa", VStr "RV64IM"); ("restart", VStr "from-beginning"); ("unknown_alias", VStr "reject-before-start")].
Definition required_exclusions : list string :=
  ["branch"; "indirect-address"; "atomics"; "volatile"; "mmio"; "coherent-shared-write"; "runtime-token-issue";
   "register-rename"; "reorder-buffer"; "general-lsu"; "commit-frontier"; "issue-mode-switching"; "precise-mid-region-restart"].

Definition compile_static_stencil_descriptor : dict :=
  [("schema", VStr REGION_SCHEMA); ("compiler_identity", VStr COMPILER_IDENTITY); ("oracle_identity", VStr ORACLE_IDENTITY);
   ("target_signature", VStr TARGET_SIGNATURE); ("workload", expected_workload);
   ("objects", VList [VDict object_A; VDict object_B]); ("nodes", VList stencil_nodes);
   ("edges", VList (map edge_doc expected_edges)); ("schedule", expected_schedule); ("resources", expected_resources);
   ("bounds", expected_bounds); ("fallback", expected_fallback); ("excluded", VList (map VStr required_exclusions))].

(** ** Values as keys *)

(** [d.get(k)] *)
Definition attr (d : dict) (k : string) : pyval := default VNone (dget k d).

(** A value used as a set member or dictionary key. *)
Definition hashed (v : pyval) : res pyval := match v with VList _ | VDict _ => Err TypeError | _ => Ok v end.

(** [d[k] = x], for keys of any hashable type. *)
Fixpoint put {A} (k : pyval) (x : A) (l : list (pyval * A)) : list (pyval * A) :=
  match l with
  | [] => [(k, x)]
  | (k', y) :: l => if py_eqb k k' then (k', x) :: l else (k', y) :: put k x l
  end.
Definition find_key {A} (k : pyval) (l : list (pyval * A)) : option A := snd <$> List.find (fun kx => py_eqb k kx.1) l.

(** [v in {s1, ..., sn}] *)
Definition in_names (names : list string) (v : pyval) : res bool :=
  let* v := hashed v in Ok match v with VStr s => bool_decide (s ∈ names) | _ => false end.

(** An operand of [<] against an integer. *)
Definition comparable (v : pyval) : res Z :=
  match v with VInt z => Ok z | VBool b => Ok (if b then 1 else 0) | _ => Err TypeError end.

(** [set(l)], by first occurrences. *)
Fixpoint distinct (l : list pyval) : list pyval :=
  match l with [] => [] | x :: l => x :: List.filter (fun y => negb (py_eqb y x)) (distinct l) end.

(** ** Objects *)

Definition object_entry (by_object : list (pyval * dict)) (item : pyval) : res (list (pyval * dict)) :=
  match item with VDict d => let* id := hashed (attr d "id") in Ok (put id d by_object) | _ => Ok by_object end.

Definition validate_objects (objects : pyval) : res unit :=
  match objects with
  | VList items =>
      raise_if negb (length items =? 2)%nat with "exactly two objects are required" in
      let* by_object := foldM object_entry [] items in
      match forallb (fun kd : pyval * dict => is_str kd.1 "A" || is_str kd.1 "B") by_object, find_key (VStr "A") by_object, find_key (VStr "B") by_object with
      | true, Some a, Some b =>
          let eqs d k v := py_eqb (attr d k) v in
          raise_if negb (eqs a "effect" (VStr "READ")) || negb (eqs a "element_type" (VStr "uint32")) || negb (eqs a "elements" (VInt 324)) ||
                   negb (eqs a "bytes" (VInt 1296)) || negb (eqs a "binding" (VStr "read-only"))
          with "A must be the bounded read object" in
          raise_if negb (eqs b "effect" (VStr "WRITE")) || negb (eqs b "element_type" (VStr "uint32")) || negb (eqs b "elements" (VInt 256)) ||
                   negb (eqs b "bytes" (VInt 1024)) || negb (eqs b "publication" (VStr "host-after-independent-validation"))
          with "B must be the bounded write object" in
          raise_if negb (eqs a "requires_disjoint_from" (VList [VStr "B"])) with "A must require disjoint B" in
          raise_if negb (eqs b "requires_disjoint_from" (VList [VStr "A"])) with "B must require disjoint A" in
          raise_if negb (eqs b "binding" (VStr "exclusive-private-output")) with "B must remain a private output" in
          raise_if negb (keys_are a ["id"; "effect"; "element_type"; "elements"; "bytes"; "binding"; "requires_disjoint_from"])
          with "A object fields changed" in
          raise_if negb (keys_are b ["id"; "effect"; "element_type"; "elements"; "bytes"; "binding"; "publication"; "requires_disjoint_from"])
          with "B object fields changed" in
          Ok tt
      | _, _, _ => fail "object identities must be A and B"
      end
  | _ => fail "exactly two objects are required"
  end.

(** ** Nodes and edges *)

Definition region_node (by_node : list (string * dict)) (node : pyval) : res (list (string * dict)) :=
  match node with
  | VDict d =>
      match attr d "id" with
      | VStr id =>
          raise_if bool_decide (id ∈ map fst by_node) with "duplicate node identity" in
          let* allowed := in_names ["LOAD_U32"; "ADD_U32"; "STORE_U32"] (attr d "op") in
          raise_if negb allowed with "unsupported operation" in
          let* effect := in_names ["LOAD_U32"; "STORE_U32"] (attr d "op") in
          raise_if negb (keys_are d (if effect then ["id"; "op"; "effect"] else ["id"; "op"])) with "node fields changed" in
          Ok (by_node ++ [(id, d)])
      | _ => fail "node identity is missing"
      end
  | _ => fail "node identity is missing"
  end.

(** The two dictionaries, the set of consumed inputs and the edges read. *)
Record region_graph := RegionGraph {
  rg_indegree : list (string * Z); rg_successors : string -> list string; rg_edges : list (string * string * Z);
}.

Definition add_degree (k : string) (z : Z) (l : list (string * Z)) : list (string * Z) :=
  map (fun kz => if String.eqb kz.1 k then (kz.1, kz.2 + z) else kz) l.
Definition degree (l : list (string * Z)) (k : string) : Z := default 0 (snd <$> List.find (fun kz => String.eqb kz.1 k) l).

Definition region_edge (names : list string) (g : region_graph) (edge : pyval) : res region_graph :=
  match edge with
  | VDict d =>
      raise_if negb (keys_are d ["producer"; "consumer"; "input"]) with "edge fields changed" in
      let* producer := in_names names (attr d "producer") in
      raise_if negb producer with "edge endpoint is missing" in
      let* consumer := in_names names (attr d "consumer") in
      raise_if negb consumer with "edge endpoint is missing" in
      let* input := hashed (attr d "input") in
      match attr d "producer", attr d "consumer", comparable input with
      | VStr p, VStr c, Ok ix =>
          raise_if negb ((ix =? 0) || (ix =? 1)) || bool_decide ((c, ix) ∈ map (fun e => (e.1.2, e.2)) (rg_edges g))
          with "consumer input is invalid or multiply produced" in
          Ok (RegionGraph (add_degree c 1 (rg_indegree g)) (fun n => rg_successors g n ++ if String.eqb n p then [c] else [])
                (rg_edges g ++ [(p, c, ix)]))
      | _, _, _ => fail "consumer input is invalid or multiply produced"
      end
  | _ => fail "edge must be an object"
  end.

(** ** Kahn's algorithm *)

(** One [for successor in successors[current]] iteration. *)
Definition release_successor (st : list (string * Z) * list string) (s : string) : list (string * Z) * list string :=
  let indegree := add_degree s (-1) st.1 in
  (indegree, if degree indegree s =? 0 then st.2 ++ [s] else st.2).

(** [while queue: ...], giving [visited]. *)
Fixpoint drain (fuel : nat) (successors : string -> list string) (indegree : list (string * Z)) (queue : list string) (visited : Z) : res Z :=
  match queue with
  | [] => Ok visited
  | current :: queue =>
      match fuel with
      | O => Err OutOfFuel
      | S fuel => let '(indegree, queue) := foldl release_successor (indegree, queue) (successors current) in
                  drain fuel successors indegree queue (visited + 1)
      end
  end.
Definition visited_nodes (g : region_graph) : res Z :=
  drain (length (rg_indegree g)) (rg_successors g) (rg_indegree g)
    (map fst (List.filter (fun kz => kz.2 =? 0) (rg_indegree g))) 0.

(** ** Effects *)

Definition with_op (o : string) (nodes : list (string * dict)) : list dict :=
  map snd (List.filter (fun n : string * dict => is_str (attr n.2 "op") o) nodes).

(** [node.get("effect", {}).get("object") != object] *)
Definition other_object (object : string) (node : dict) : res bool :=
  match default (VDict []) (dget "effect" node) with
  | VDict e => Ok (negb (is_str (attr e "object") object))
  | _ => Err AttributeError
  end.
(** [any(...)] *)
Fixpoint any_res {A} (f : A -> res bool) (l : list A) : res bool :=
  match l with [] => Ok false | x :: l => let* b := f x in if b : bool then Ok true else any_res f l end.

Definition expected_affine : list (string * string) :=
  [("load_center", "18*y+x"); ("load_north", "18*(y-1)+x"); ("load_south", "18*(y+1)+x"); ("load_west", "18*y+x-1");
   ("load_east", "18*y+x+1"); ("store_output", "16*(y-1)+(x-1)")].
Definition expected_effect (id affine : string) : pyval :=
  let store := String.eqb id "store_output" in
  effect_doc (if store then "WRITE" else "READ") (if store then "B" else "A") affine.

Definition find_node (by_node : list (string * dict)) (id : string) : res dict :=
  from_option_err KeyError (snd <$> List.find (fun n => String.eqb n.1 id) by_node).

Definition check_effect (by_node : list (string * dict)) (na : string * string) : res unit :=
  let* node := find_node by_node na.1 in
  raise_if negb (py_eqb (attr node "effect") (expected_effect na.1 na.2)) with "operation effect contract changed" in Ok tt.

Definition validate_effects (by_node : list (string * dict)) : res unit :=
  let loads := with_op "LOAD_U32" by_node in
  let stores := with_op "STORE_U32" by_node in
  let adds := with_op "ADD_U32" by_node in
  raise_if negb (length loads =? 5)%nat || negb (length adds =? 4)%nat || negb (length stores =? 1)%nat
  with "operation counts do not match the contract" in
  let* other := any_res (other_object "A") loads in
  raise_if other with "all loads must read A" in
  let* store := py_index stores 0 in
  let* other := other_object "B" store in
  raise_if other with "the store must write B" in
  let* _ := traverse (check_effect by_node) expected_affine in
  Ok tt.

(** ** The schedule *)

(** [item["cycle"]] and [item.get("nodes", [])] of one cycle. *)
Definition cycle_entry (item : pyval) : res (pyval * list string) :=
  match item with
  | VDict d =>
      let* cycle := dsub d "cycle" in
      match default (VList []) (dget "nodes" d) with
      | VList l => let* names := traverse (fun v => match v with VStr s => Ok s | _ => Err TypeError end) l in Ok (cycle, names)
      | _ => Err TypeError
      end
  | _ => Err AttributeError
  end.

(** [node_cycle[name]]: the last cycle listed. *)
Definition node_cycle (items : list (pyval * list string)) (name : string) : res Z :=
  let* v := from_option_err KeyError (fst <$> List.find (fun it => bool_decide (name ∈ it.2)) (rev items)) in comparable v.

Definition check_dependency (items : list (pyval * list string)) (e : string * string * Z) : res unit :=
  let* p := node_cycle items e.1.1 in
  let* c := node_cycle items e.1.2 in
  raise_if c <? p with "schedule violates a dependency" in Ok tt.

Definition check_ports (by_node : list (string * dict)) (it : pyval * list string) : res unit :=
  let* nodes := traverse (find_node by_node) it.2 in
  let ops o := (1 <? length (List.filter (fun n => is_str (attr n "op") o) nodes))%nat in
  raise_if ops "LOAD_U32" with "schedule exceeds the read-port bound" in
  raise_if ops "ADD_U32" with "schedule exceeds the adder bound" in
  raise_if ops "STORE_U32" with "schedule exceeds the write-port bound" in Ok tt.

Definition validate_schedule (by_node : list (string * dict)) (edges : list (string * string * Z)) (schedule : pyval) : res unit :=
  raise_if negb (py_eqb schedule expected_schedule) with "schedule must have six fixed cycles" in
  match schedule with
  | VList l =>
      let* items := traverse cycle_entry l in
      let scheduled := concat (map snd items) in
      raise_if negb (bool_decide (NoDup scheduled)) || negb (forallb (fun n => bool_decide (n ∈ map fst by_node)) scheduled) ||
               negb (forallb (fun n => bool_decide (n ∈ scheduled)) (map fst by_node))
      with "every node must be scheduled exactly once" in
      let* _ := traverse (check_dependency items) edges in
      let* _ := traverse (check_ports by_node) items in
      Ok tt
  | _ => Err TypeError
  end.

(** ** Exclusions and the whole validator *)

Definition validate_excluded (excluded : pyval) : res unit :=
  match excluded with
  | VList items =>
      let* items := traverse hashed items in
      raise_if negb (forallb (fun v => existsb (is_str v) required_exclusions) items) ||
               negb (forallb (fun s => existsb (fun v => is_str v s) items) required_exclusions) ||
               negb (length items =? length (distinct items))%nat
      with "an ADR-0039 exclusion is missing" in Ok tt
  | _ => fail "exclusions must be a list"
  end.

Definition region_keys : list string :=
  ["schema"; "compiler_identity"; "oracle_identity"; "target_signature"; "workload"; "objects"; "nodes"; "edges"; "schedule";
   "resources"; "bounds"; "fallback"; "excluded"].

(** Nodes, edges and their bounds, up to the effects. *)
Definition validate_graph (nodes edges bounds : pyval) : res (list (string * dict) * list (string * string * Z)) :=
  match nodes, edges, bounds with
  | VList nodes, VList edges, VDict bounds =>
      let* max_nodes := comparable (default (VInt (-1)) (dget "max_nodes" bounds)) in
      raise_if (max_nodes <? Z.of_nat (length nodes)) || negb (length nodes =? 10)%nat with "node bound or exact graph shape failed" in
      let* max_edges := comparable (default (VInt (-1)) (dget "max_edges" bounds)) in
      raise_if (max_edges <? Z.of_nat (length edges)) || negb (length edges =? 9)%nat with "edge bound or exact graph shape failed" in
      let* by_node := foldM region_node [] nodes in
      let names := map fst by_node in
      let* g := foldM (region_edge names) (RegionGraph (map (fun n => (n, 0)) names) (fun _ => []) []) edges in
      raise_if negb (forallb (fun e => bool_decide (e ∈ expected_edges)) (rg_edges g)) ||
               negb (forallb (fun e => bool_decide (e ∈ rg_edges g)) expected_edges)
      with "dependency graph changed" in
      let* visited := visited_nodes g in
      raise_if negb (visited =? Z.of_nat (length by_node)) with "graph must be acyclic" in
      Ok (by_node, rg_edges g)
  | _, _, _ => fail "nodes, edges, and bounds are required"
  end.

(** Resources, bounds and the fallback. *)
Definition validate_limits (d : dict) : res unit :=
  let eqs k v := py_eqb (attr d k) v in
  raise_if negb (eqs "resources" expected_resources) with "resource contract changed" in
  raise_if negb (eqs "bounds" expected_bounds) with "bounds changed" in
  raise_if negb (eqs "fallback" expected_fallback) with "fallback contract changed" in
  Ok tt.

(** [validate_static_stencil_descriptor] *)
Definition validate_static_stencil_descriptor (d : dict) : res unit :=
  let eqs k v := py_eqb (attr d k) v in
  raise_if negb (keys_are d region_keys) with "descriptor fields changed" in
  raise_if negb (eqs "schema" (VStr REGION_SCHEMA)) with "unsupported schema" in
  raise_if negb (eqs "target_signature" (VStr TARGET_SIGNATURE)) with "unsupported target" in
  raise_if negb (eqs "compiler_identity" (VStr COMPILER_IDENTITY)) with "unsupported compiler" in
  raise_if negb (eqs "oracle_identity" (VStr ORACLE_IDENTITY)) with "unsupported oracle" in
  raise_if negb (eqs "workload" expected_workload) with "workload is outside the accepted stencil" in
  let* _ := validate_objects (attr d "objects") in
  let* ' (by_node, edges) := validate_graph (attr d "nodes") (attr d "edges") (attr d "bounds") in
  let* _ := validate_effects by_node in
  let* _ := validate_schedule by_node edges (attr d "schedule") in
  let* _ := validate_limits d in
  validate_excluded (attr d "excluded").

(** ** The oracle *)

Definition stencil_point (words : list Z) (yx : Z * Z) : Z :=
  let center := 18 * yx.1 + yx.2 in
  u32 (at_ 0 words center + at_ 0 words (center - 18) + at_ 0 words (center + 18) + at_ 0 words (center - 1) + at_ 0 words (center + 1)).

(** [static_stencil_oracle]; every index is within the 324 words. *)
Definition static_stencil_oracle (input_words : list Z) : res (list Z) :=
  raise_if negb (length input_words =? 324)%nat with "the oracle requires exactly 324 input words" in
  let words := map u32 input_words in
  Ok (concat (map (fun y => map (fun x => stencil_point words (y, x)) (zrange 1 17)) (zrange 1 17))).

Example compiled_descriptor_valid : validate_static_stencil_descriptor compile_static_stencil_descriptor = Ok tt.
Proof. vm_compute. reflexivity. Qed.
