(* ===== verification/StaticRegionFacts.v ===== *)
(** * The static region: what its validator accepts

    [kahn_visits]: the topological traversal visits every node of an acyclic
    graph, whatever the order of nodes and edges. The rest are the lemmas on
    documents, nodes and edges from which [StaticRegionExact] is proved. *)

From S2P Require Import Prelude PyValue Evidence StaticRegion.

(** ** Kahn's algorithm *)

Section kahn.
Context (names : list string) (es : list (string * string)) (rank : string -> nat).
Context (Hnd : NoDup names) (Hends : forall e, e ∈ es -> e.1 ∈ names /\ e.2 ∈ names) (Hrank : forall e, e ∈ es -> (rank e.1 < rank e.2)%nat).

Definition consumers (n : string) : list string := map snd (List.filter (fun e => String.eqb e.1 n) es).
(** Consumers of the edges whose producer is not yet visited. *)
Definition waiting (D : list string) : list string := map snd (List.filter (fun e => negb (bool_decide (e.1 ∈ D))) es).
Definition occurrences (k : string) (l : list string) : Z := Z.of_nat (length (List.filter (fun s => String.eqb s k) l)).

Record kahn_state (D R : list string) (indegree : list (string * Z)) (queue : list string) : Prop := {
  ka_keys : map fst indegree = names;
  ka_nodup : NoDup (queue ++ D);
  ka_zero : forall k, k ∈ queue ++ D <-> k ∈ names /\ degree indegree k = 0;
  ka_degree : forall k, k ∈ names -> degree indegree k = occurrences k R;
}.

Lemma keys_add_degree k z l : map fst (add_degree k z l) = map fst l.
Proof. unfold add_degree. rewrite map_map. apply map_ext. intros [x y]. by destruct (_ : bool). Qed.

Lemma degree_add k z l x : x ∈ map fst l -> degree (add_degree k z l) x = degree l x + if String.eqb x k then z else 0.
Proof.
  unfold degree, add_degree. induction l as [|[y n] l IH]; intros Hx; [by apply elem_of_nil in Hx|]. cbn [map List.find fst snd].
  destruct (String.eqb_spec y k) as [->|Hyk]; cbn [fst].
  - destruct (String.eqb_spec k x) as [->|Hkx]; cbn; [by rewrite String.eqb_refl|].
    apply IH. cbn in Hx. apply elem_of_cons in Hx as [->|]; [done|done].
  - destruct (String.eqb_spec y x) as [->|Hyx]; cbn; [by rewrite (proj2 (String.eqb_neq x k)), Z.add_0_r|].
    apply IH. cbn in Hx. apply elem_of_cons in Hx as [->|]; [done|done].
Qed.

Lemma occurrences_perm k l l' : l ≡ₚ l' -> occurrences k l = occurrences k l'.
Proof. unfold occurrences. intros H. f_equal. induction H; cbn; repeat case_match; cbn; congruence. Qed.
Lemma occurrences_cons k s l : occurrences k (s :: l) = occurrences k l + if String.eqb k s then 1 else 0.
Proof. unfold occurrences. cbn [List.filter]. rewrite (String.eqb_sym k s). destruct (String.eqb s k); cbn [length]; lia. Qed.
Lemma occurrences_nonneg k l : 0 <= occurrences k l.
Proof. unfold occurrences. lia. Qed.
Lemma occurrences_0 k l : occurrences k l = 0 <-> k ∉ l.
Proof.
  induction l as [|s l IH]; [split; [by intros _ ?%elem_of_nil|done]|]. rewrite occurrences_cons, elem_of_cons.
  pose proof (occurrences_nonneg k l). destruct (String.eqb_spec k s); [split; [lia|tauto]|]. rewrite Z.add_0_r, IH. tauto.
Qed.

Lemma release_one_ok D s R indegree queue :
  s ∈ names -> kahn_state D (s :: R) indegree queue ->
  kahn_state D R (release_successor (indegree, queue) s).1 (release_successor (indegree, queue) s).2.
Proof.
  intros Hs [Hk Hq Hz Hd]. unfold release_successor. cbn [fst snd].
  assert (Hds : degree indegree s = occurrences s R + 1) by (rewrite Hd, occurrences_cons, String.eqb_refl by done; lia).
  assert (Hnew : forall k, k ∈ names -> degree (add_degree s (-1) indegree) k = occurrences k R).
  { intros k Hkn. rewrite degree_add by (by rewrite Hk). rewrite Hd, occurrences_cons by done. destruct (String.eqb k s); lia. }
  assert (Hns : s ∉ queue ++ D). { intros [_ H0]%Hz. pose proof (occurrences_nonneg s R). lia. }
  pose proof (Hnew s Hs) as Hs'.
  assert (Hother : forall k, k <> s -> k ∈ names -> degree (add_degree s (-1) indegree) k = degree indegree k).
  { intros k Hne Hkn. rewrite degree_add by (by rewrite Hk). rewrite (proj2 (String.eqb_neq k s)) by done. lia. }
  split; [by rewrite keys_add_degree|..|done].
  - destruct (_ =? 0); [|done]. assert (Hp : (queue ++ [s]) ++ D ≡ₚ s :: (queue ++ D)) by solve_Permutation. rewrite Hp. by constructor.
  - intros k. destruct (Z.eqb_spec (degree (add_degree s (-1) indegree) s) 0) as [E|E].
    + assert (Hp : (queue ++ [s]) ++ D ≡ₚ s :: (queue ++ D)) by solve_Permutation. rewrite Hp, elem_of_cons.
      destruct (decide (k = s)) as [->|Hne]; [tauto|]. rewrite Hz. split; [intros [?|[? ?]]; [done|]; by rewrite Hother|].
      intros [? H]. right. split; [done|]. by rewrite <- Hother.
    + rewrite Hz. destruct (decide (k = s)) as [->|Hne]; [split; [|tauto]; intros [_ H]; pose proof (occurrences_nonneg s R); lia|].
      split; intros [? H]; (split; [done|]); [by rewrite Hother|by rewrite <- Hother].
Qed.

Lemma release_all_ok D ss R indegree queue :
  (forall s, s ∈ ss -> s ∈ names) -> kahn_state D (ss ++ R) indegree queue ->
  kahn_state D R (foldl release_successor (indegree, queue) ss).1 (foldl release_successor (indegree, queue) ss).2.
Proof.
  revert indegree queue. induction ss as [|s ss IH]; intros indegree queue Hs H; [done|]. cbn [foldl].
  apply release_one_ok in H; [|apply Hs; left]. destruct (release_successor (indegree, queue) s) as [i q]. apply IH; [|done].
  intros; apply Hs; by right.
Qed.

Lemma waiting_split n D : n ∉ D -> waiting D ≡ₚ consumers n ++ waiting (n :: D).
Proof.
  intros Hn. unfold waiting, consumers. clear Hends Hrank. induction es as [|[u v] l IH]; [done|]. cbn [List.filter fst].
  destruct (String.eqb_spec u n) as [->|Hne].
  - rewrite (bool_decide_false (n ∈ D)) by done. rewrite bool_decide_true by left. cbn [negb map app snd]. by constructor.
  - destruct (decide (u ∈ D)).
    + rewrite !bool_decide_true by (done || by right). done.
    + rewrite !bool_decide_false by (done || by intros [->|?]%elem_of_cons). cbn [negb map snd]. rewrite IH. apply Permutation_middle.
Qed.

Lemma all_visited D indegree : kahn_state D (waiting D) indegree [] -> D ≡ₚ names.
Proof.
  intros [Hk Hq Hz Hd]. cbn [app] in *. apply NoDup_Permutation; [done..|]. intros k. split; [by intros [? _]%Hz|].
  remember (rank k) as r eqn:Er. revert k Er. induction r as [r IH] using lt_wf_ind. intros k Er Hkn.
  apply Hz. split; [done|]. rewrite Hd by done. apply occurrences_0. unfold waiting.
  intros ((u & v) & -> & [Hin Hu]%list_elem_of_In%filter_In)%list_elem_of_fmap. apply list_elem_of_In in Hin. cbn [fst snd] in *.
  apply negb_true_iff, bool_decide_eq_false in Hu. apply Hu. eapply IH; [|reflexivity|by apply (Hends _ Hin)]. rewrite Er. by apply (Hrank _ Hin).
Qed.

Lemma drain_ok fuel D indegree queue :
  kahn_state D (waiting D) indegree queue -> (length names <= fuel + length D)%nat ->
  drain fuel consumers indegree queue (Z.of_nat (length D)) = Ok (Z.of_nat (length names)).
Proof.
  revert D indegree queue. induction fuel as [|fuel IH]; intros D indegree queue Hst Hf.
  - destruct queue as [|q queue].
    + cbn. by rewrite (all_visited _ _ Hst).
    + exfalso. destruct Hst as [Hk Hq Hz Hd].
      assert (Hsub : q :: queue ++ D ⊆+ names) by (apply NoDup_submseteq; [done|]; by intros k [? _]%Hz).
      apply submseteq_length in Hsub. cbn in Hsub. rewrite length_app in Hsub. lia.
  - destruct queue as [|q queue]; cbn [drain].
    + by rewrite (all_visited _ _ Hst).
    + assert (Hq : q ∉ D). { destruct Hst as [_ Hq _ _]. cbn in Hq. apply NoDup_cons in Hq as [Hq _]. intros ?. apply Hq, elem_of_app. by right. }
      assert (Hst' : kahn_state (q :: D) (consumers q ++ waiting (q :: D)) indegree queue).
      { destruct Hst as [Hk Hn Hz Hd]. assert (Hp : queue ++ q :: D ≡ₚ q :: queue ++ D) by (symmetry; apply Permutation_middle).
        split; [done|by rewrite Hp|intros k; rewrite Hp; apply Hz|].
        intros k Hkn. rewrite Hd by done. apply occurrences_perm. by apply waiting_split. }
      apply release_all_ok in Hst'.
      * destruct (foldl _ _ _) as [i' q']. replace (Z.of_nat (length D) + 1) with (Z.of_nat (length (q :: D))) by (cbn; lia). apply IH; [done|cbn; lia].
      * intros s ((u & v) & -> & [Hin _]%list_elem_of_In%filter_In)%list_elem_of_fmap. apply list_elem_of_In in Hin. by apply (Hends _ Hin).
Qed.

Lemma kahn_visits indegree :
  map fst indegree = names -> (forall k, k ∈ names -> degree indegree k = occurrences k (map snd es)) ->
  drain (length names) consumers indegree (map fst (List.filter (fun kz => kz.2 =? 0) indegree)) 0 = Ok (Z.of_nat (length names)).
Proof.
  intros Hk Hd. apply (drain_ok _ []); [|cbn; lia]. rewrite <- Hk in Hnd.
  assert (Hw : waiting [] = map snd es) by (unfold waiting; f_equal; clear; induction es as [|e l IH]; [done|]; cbn; by rewrite IH).
  assert (Hget : forall k z, (k, z) ∈ indegree -> degree indegree k = z).
  { clear -Hnd. unfold degree. induction indegree as [|[k' z'] l IH]; intros k z Hin; [by apply elem_of_nil in Hin|]. cbn in *.
    apply NoDup_cons in Hnd as [Hn Hnd]. apply elem_of_cons in Hin as [[= -> ->]|Hin]; [by rewrite String.eqb_refl|].
    destruct (String.eqb_spec k' k) as [->|]; [|by apply IH]. destruct Hn. apply list_elem_of_fmap. by exists (k, z). }
  split; [done|..].
  - rewrite app_nil_r. clear -Hnd. induction indegree as [|[k z] l IH]; [constructor|]. cbn in *. apply NoDup_cons in Hnd as [Hn Hnd].
    destruct (z =? 0); [|by apply IH]. cbn. constructor; [|by apply IH]. intros ([k' z'] & -> & [Hin _]%list_elem_of_In%filter_In)%list_elem_of_fmap.
    apply Hn, list_elem_of_fmap. exists (k', z'). split; [done|]. by apply list_elem_of_In.
  - intros k. rewrite app_nil_r, list_elem_of_fmap, <- Hk. split.
    + intros ([k' z] & -> & [Hin Hz]%list_elem_of_In%filter_In). apply list_elem_of_In in Hin. cbn in *. split; [apply list_elem_of_fmap; by exists (k', z)|].
      rewrite (Hget _ _ Hin). lia.
    + intros [([k' z] & -> & Hin)%list_elem_of_fmap H0]. exists (k', z). split; [done|]. apply list_elem_of_In, filter_In. split; [by apply list_elem_of_In|].
      cbn in *. rewrite (Hget _ _ Hin) in H0. lia.
  - intros k Hkn. rewrite Hd, Hw; [done|]. done.
Qed.
End kahn.

(** ** Comparison with expected documents *)

Abbreviation py_eq := (fun a b => py_eqb a b = true).

Lemma is_str_spec v s : is_str v s = true <-> v = VStr s.
Proof. destruct v; cbn; try done. rewrite String.eqb_eq. split; congruence. Qed.
Lemma py_eqb_str v s : py_eqb v (VStr s) = true <-> v = VStr s.
Proof. destruct v as [|[]| | | | |]; cbn; try done. rewrite String.eqb_eq. split; congruence. Qed.
Lemma py_eqb_int v z : py_eqb v (VInt z) = true <-> comparable v = Ok z.
Proof. destruct v as [|b| | | | |]; cbn; try done; rewrite Z.eqb_eq; split; congruence. Qed.
Lemma py_eqb_list v m : py_eqb v (VList m) = true <-> exists l, v = VList l /\ Forall2 py_eq l m.
Proof.
  destruct v as [|[]| | | |l|]; cbn; try (split; [done|by intros (? & ? & _)]).
  transitivity (Forall2 py_eq l m); [|split; [by exists l|by intros (? & [= <-] & ?)]].
  revert l. induction m as [|y m IH]; intros [|x l]; try (split; [done|by inversion 1]).
  rewrite andb_true_iff, IH. split; [intros []; by constructor|by inversion 1].
Qed.
Lemma py_eqb_dict v y : py_eqb v (VDict y) = true <->
  exists d, v = VDict d /\ keys_are d (keys y) = true /\ Forall (fun kb => py_eqb (attr d kb.1) kb.2 = true) y.
Proof.
  destruct v as [|[]| | | | |d]; cbn; try (split; [done|by intros (? & ? & _)]). rewrite andb_true_iff.
  transitivity (keys_are d (keys y) = true /\ Forall (fun kb => py_eqb (attr d kb.1) kb.2 = true) y);
    [|split; [by intros []; exists d|by intros (? & [= <-] & ?)]].
  assert (Hin : keys_are d (keys y) = true -> forall k, k ∈ keys y -> is_Some (dget k d)).
  { intros Hk k Hky. apply dget_is_Some. by rewrite (proj1 (keys_are_spec _ _) Hk). }
  split; intros [Hk H]; (split; [done|]); specialize (Hin Hk); clear Hk; induction y as [|[k b] y IH]; cbn; try done.
  - apply andb_true_iff in H as [H1 H2]. constructor; [|apply IH; [intros; apply Hin; cbn; by right|done]].
    cbn. unfold attr. destruct (dget k d); done.
  - apply Forall_cons in H as [H1 H2]. cbn in H1. apply andb_true_iff. split; [|apply IH; [intros; apply Hin; cbn; by right|done]].
    unfold attr in H1. destruct (Hin k) as [x Hx]; [by left|]. rewrite Hx in *. done.
Qed.

(** The items of a list value are the expected ones, in some order. *)
Definition same_items (v : pyval) (expected : list pyval) : Prop :=
  exists l l', v = VList l /\ l ≡ₚ l' /\ Forall2 py_eq l' expected.

Lemma raise_if_Ok (b : bool) s {A} (k : res A) a : (raise_if b with s in k) = Ok a <-> b = false /\ k = Ok a.
Proof. destruct b; cbn; split; [done|by intros [? _]|by intros|by intros [_ ?]]. Qed.
Lemma bind_Ok {A B} (m : res A) (k : A -> res B) b : bind m k = Ok b <-> exists a, m = Ok a /\ k a = Ok b.
Proof. destruct m; cbn; [|split; [done|by intros (? & ? & _)]]. split; [by eexists|]. by intros (? & [= <-] & ?). Qed.

(** ** Objects *)

Lemma object_A_eq a : py_eqb (VDict a) (VDict object_A) = true <->
  (keys_are a ["id"; "effect"; "element_type"; "elements"; "bytes"; "binding"; "requires_disjoint_from"] = true /\ attr a "id" = VStr "A") /\
  py_eqb (attr a "effect") (VStr "READ") = true /\ py_eqb (attr a "element_type") (VStr "uint32") = true /\ py_eqb (attr a "elements") (VInt 324) = true /\
  py_eqb (attr a "bytes") (VInt 1296) = true /\ py_eqb (attr a "binding") (VStr "read-only") = true /\ py_eqb (attr a "requires_disjoint_from") (VList [VStr "B"]) = true.
Proof.
  rewrite py_eqb_dict. unfold object_A. cbn [keys map fst]. rewrite <- py_eqb_str. split.
  - intros (d & [= <-] & Hk & H). rewrite !Forall_cons in H. cbn [fst snd] in H. tauto.
  - intros H. exists a. rewrite !Forall_cons. cbn [fst snd]. rewrite Forall_nil. tauto.
Qed.
Lemma object_B_eq b : py_eqb (VDict b) (VDict object_B) = true <->
  (keys_are b ["id"; "effect"; "element_type"; "elements"; "bytes"; "binding"; "publication"; "requires_disjoint_from"] = true /\ attr b "id" = VStr "B") /\
  py_eqb (attr b "effect") (VStr "WRITE") = true /\ py_eqb (attr b "element_type") (VStr "uint32") = true /\ py_eqb (attr b "elements") (VInt 256) = true /\
  py_eqb (attr b "bytes") (VInt 1024) = true /\ py_eqb (attr b "binding") (VStr "exclusive-private-output") = true /\
  py_eqb (attr b "publication") (VStr "host-after-independent-validation") = true /\ py_eqb (attr b "requires_disjoint_from") (VList [VStr "A"]) = true.
Proof.
  rewrite py_eqb_dict. unfold object_B. cbn [keys map fst]. rewrite <- py_eqb_str. split.
  - intros (d & [= <-] & Hk & H). rewrite !Forall_cons in H. cbn [fst snd] in H. tauto.
  - intros H. exists b. rewrite !Forall_cons. cbn [fst snd]. rewrite Forall_nil. tauto.
Qed.

(** The checks on the two objects found. *)
Lemma objects_checked items by_object a b :
  length items = 2%nat -> foldM object_entry [] items = Ok by_object ->
  forallb (fun kd : pyval * dict => is_str kd.1 "A" || is_str kd.1 "B") by_object = true -> find_key (VStr "A") by_object = Some a -> find_key (VStr "B") by_object = Some b ->
  attr a "id" = VStr "A" -> attr b "id" = VStr "B" ->
  (validate_objects (VList items) = Ok tt <-> py_eqb (VDict a) (VDict object_A) = true /\ py_eqb (VDict b) (VDict object_B) = true).
Proof.
  intros Hl H Hf Ha Hb Hia Hib. unfold validate_objects. rewrite Hl, H. cbn [Nat.eqb negb bind]. rewrite Hf, Ha, Hb, object_A_eq, object_B_eq.
  rewrite !raise_if_Ok, !orb_false_iff, !negb_false_iff. tauto.
Qed.

Lemma object_entry_Ok by_object v o :
  object_entry by_object v = Ok o -> o = by_object \/ exists d, v = VDict d /\ o = put (attr d "id") d by_object.
Proof.
  assert (Hhash : forall v k, hashed v = Ok k -> k = v) by (by intros [] k [= <-]).
  destruct v as [| | | | | |d]; intros H; try (left; by apply Ok_inj in H). right. exists d. split; [done|]. unfold object_entry in H.
  destruct (hashed (attr d "id")) as [k|] eqn:E; [|discriminate H]. cbn [bind] in H. apply Ok_inj in H as <-. by apply Hhash in E as ->.
Qed.

(** Both names found in two items: each item is one of the objects. *)
Lemma two_objects x y o a b :
  foldM object_entry [] [x; y] = Ok o -> forallb (fun kd : pyval * dict => is_str kd.1 "A" || is_str kd.1 "B") o = true ->
  find_key (VStr "A") o = Some a -> find_key (VStr "B") o = Some b ->
  (x = VDict a /\ y = VDict b \/ x = VDict b /\ y = VDict a) /\ attr a "id" = VStr "A" /\ attr b "id" = VStr "B".
Proof.
  assert (Hone : forall k d, forallb (fun kd : pyval * dict => is_str kd.1 "A" || is_str kd.1 "B") [(k, d)] = true ->
    find_key (VStr "A") [(k, d)] = Some a -> find_key (VStr "B") [(k, d)] = Some b -> False).
  { intros k d Hf Ha Hb. cbn in Hf. rewrite andb_true_r in Hf. apply orb_true_iff in Hf as [->%is_str_spec| ->%is_str_spec]; done. }
  intros H Hf Ha Hb. cbn in H. destruct (object_entry [] x) as [o1|] eqn:E1; [|discriminate H]. cbn [bind] in H.
  destruct (object_entry o1 y) as [o2|] eqn:E2; [|discriminate H]. cbn [bind] in H. apply Ok_inj in H as <-.
  apply object_entry_Ok in E1 as [->|(dx & -> & ->)], E2 as [->|(dy & -> & ->)]; cbn [put] in *; [done|exfalso; by eapply Hone|exfalso; by eapply Hone|].
  destruct (py_eqb (attr dy "id") (attr dx "id")); [exfalso; by eapply Hone|].
  cbn in Hf. rewrite andb_true_r in Hf. apply andb_true_iff in Hf as [H1 H2].
  apply orb_true_iff in H1 as [H1%is_str_spec|H1%is_str_spec], H2 as [H2%is_str_spec|H2%is_str_spec];
    rewrite H1, H2 in Ha, Hb; try discriminate Ha; try discriminate Hb; injection Ha as <-; injection Hb as <-; auto.
Qed.

Lemma validate_objects_spec v : validate_objects v = Ok tt <-> same_items v [VDict object_A; VDict object_B].
Proof.
  split.
  - intros H. destruct v as [| | | | |items|]; try discriminate H.
    assert (Hl : length items = 2%nat). { cbn in H. destruct (Nat.eqb_spec (length items) 2); [done|discriminate H]. }
    destruct items as [|x [|y [|? ?]]]; try discriminate Hl. pose proof H as H0. unfold validate_objects in H0. cbn [length Nat.eqb negb] in H0.
    destruct (foldM object_entry [] [x; y]) as [o|] eqn:E; [|discriminate H0]. cbn [bind] in H0.
    destruct (forallb _ o) eqn:Hf; [|discriminate H0]. destruct (find_key (VStr "A") o) as [a|] eqn:Ha; [|discriminate H0].
    destruct (find_key (VStr "B") o) as [b|] eqn:Hb; [|discriminate H0]. clear H0. destruct (two_objects _ _ _ _ _ E Hf Ha Hb) as (Hxy & Hia & Hib).
    apply (objects_checked [x; y] o a b) in H as [HA HB]; try done.
    exists [x; y], [VDict a; VDict b]. split_and!; [done| |by repeat constructor]. destruct Hxy as [[-> ->]|[-> ->]]; [done|apply Permutation_swap].
  - intros (l & l' & -> & Hp & Hf). inversion Hf as [|x0 ? ? ? HA Hf' E1 E2]; subst. inversion Hf' as [|y0 ? ? ? HB Hf'' E1 E2]; subst. inversion Hf''; subst.
    pose proof HA as (a & -> & _)%py_eqb_dict. pose proof HB as (b & -> & _)%py_eqb_dict.
    pose proof HA as ((_ & Ha) & _)%object_A_eq. pose proof HB as ((_ & Hb) & _)%object_B_eq.
    assert (Hp' : l = [VDict a; VDict b] \/ l = [VDict b; VDict a]) by (symmetry in Hp; by apply Permutation_length_2_inv in Hp).
    destruct Hp' as [-> | ->]; (eapply objects_checked; [done|cbn; rewrite Ha, Hb; reflexivity|cbn; done|reflexivity|reflexivity|done|done|done]).
Qed.

(** ** Nodes *)

Definition node_reads (v : pyval) (n : string * dict) : Prop :=
  v = VDict n.2 /\ attr n.2 "id" = VStr n.1 /\ exists o, attr n.2 "op" = VStr o /\ o ∈ ["LOAD_U32"; "ADD_U32"; "STORE_U32"] /\
    keys_are n.2 (if String.eqb o "ADD_U32" then ["id"; "op"] else ["id"; "op"; "effect"]) = true.

Lemma in_names_true ns v : in_names ns v = Ok true <-> exists s, v = VStr s /\ s ∈ ns.
Proof.
  unfold in_names. destruct v; cbn; try (split; [done|by intros (? & ? & _)]). split.
  - intros [= H%bool_decide_eq_true]. by eexists.
  - intros (? & [= <-] & H). by rewrite bool_decide_true.
Qed.

Lemma region_node_Ok by_node v out :
  region_node by_node v = Ok out <-> exists n, node_reads v n /\ (n.1 ∉ map fst by_node) /\ out = by_node ++ [n].
Proof.
  split.
  - intros H. unfold region_node in H. destruct v as [| | | | | |d]; try discriminate H. destruct (attr d "id") as [| | | |id| |] eqn:Hid; try discriminate H.
    apply raise_if_Ok in H as [Hni%bool_decide_eq_false H]. apply bind_Ok in H as (al & Hal & H). apply raise_if_Ok in H as [->%negb_false_iff H].
    apply in_names_true in Hal as (o & Ho & Hin). apply bind_Ok in H as (ef & Hef & H). apply raise_if_Ok in H as [Hk%negb_false_iff H]. apply Ok_inj in H as <-.
    exists (id, d). split; [|done]. split_and!; [done|done|]. exists o. split_and!; [done..|].
    rewrite Ho in Hef. apply Ok_inj in Hef as <-. clear -Hk Hin. rewrite !elem_of_cons in Hin. destruct Hin as [-> |[-> |[-> |?%elem_of_nil]]]; done.
  - intros ((id & d) & (-> & Hid & o & Ho & Hin & Hk) & Hni & ->). cbn [fst snd] in *. unfold region_node. rewrite Hid, bool_decide_false, Ho by done.
    rewrite !elem_of_cons in Hin. destruct Hin as [-> |[-> |[-> |?%elem_of_nil]]]; try done;
      repeat match goal with |- context [in_names ?l (VStr ?s)] => let b := eval vm_compute in (in_names l (VStr s)) in change (in_names l (VStr s)) with b end;
      cbn [bind negb]; cbn -[keys_are] in Hk; rewrite Hk; done.
Qed.

Lemma region_nodes_Ok by_node l out : NoDup (map fst by_node) ->
  (foldM region_node by_node l = Ok out <-> exists ns, Forall2 node_reads l ns /\ NoDup (map fst (by_node ++ ns)) /\ out = by_node ++ ns).
Proof.
  revert by_node. induction l as [|v l IH]; intros by_node Hnd; cbn [foldM].
  - split; [intros <-%Ok_inj; exists []; rewrite app_nil_r; split_and!; [constructor|done|done]|].
    intros (ns & H & _ & ->). inversion H. by rewrite app_nil_r.
  - rewrite bind_Ok. split.
    + intros (mid & (n & Hn & Hni & ->)%region_node_Ok & H). apply IH in H as (ns & Hf & Hnd' & ->).
      * exists (n :: ns). rewrite <- (assoc_L (++)) in *. split_and!; [by constructor|done|done].
      * rewrite map_app. apply NoDup_app. split_and!; [done| |apply NoDup_singleton]. intros x Hx ->%list_elem_of_singleton. done.
    + intros (ns & Hf & Hnd' & ->). inversion Hf as [|? n ? ns' Hn Hf']; subst. exists (by_node ++ [n]).
      assert (Hnd1 : NoDup (map fst (by_node ++ [n]))).
      { rewrite map_app in *. cbn [map] in *. change (n.1 :: map fst ns') with ([n.1] ++ map fst ns') in Hnd'. rewrite (assoc_L (++)) in Hnd'. by apply NoDup_app in Hnd' as [? _]. }
      split; [|apply IH; [done|]; exists ns'; rewrite <- (assoc_L (++)); done]. apply region_node_Ok. exists n. split_and!; [done| |done].
      rewrite map_app in Hnd1. apply NoDup_app in Hnd1 as (_ & H & _). intros Hin. apply (H _ Hin). cbn. left.
Qed.

(** ** Edges *)

Definition edge_reads (names : list string) (v : pyval) (e : string * string * Z) : Prop :=
  exists d, v = VDict d /\ keys_are d ["producer"; "consumer"; "input"] = true /\ attr d "producer" = VStr e.1.1 /\ attr d "consumer" = VStr e.1.2 /\
    e.1.1 ∈ names /\ e.1.2 ∈ names /\ comparable (attr d "input") = Ok e.2 /\ (e.2 = 0 \/ e.2 = 1).
Definition push_edge (g : region_graph) (e : string * string * Z) : region_graph :=
  RegionGraph (add_degree e.1.2 1 (rg_indegree g)) (fun n => rg_successors g n ++ if String.eqb n e.1.1 then [e.1.2] else []) (rg_edges g ++ [e]).
Definition port (e : string * string * Z) : string * Z := (e.1.2, e.2).

Lemma region_edge_Ok names g v out :
  region_edge names g v = Ok out <-> exists e, edge_reads names v e /\ (port e ∉ map port (rg_edges g)) /\ out = push_edge g e.
Proof.
  split.
  - intros H. unfold region_edge in H. destruct v as [| | | | | |d]; try discriminate H. apply raise_if_Ok in H as [Hk%negb_false_iff H].
    apply bind_Ok in H as (b1 & H1 & H). apply raise_if_Ok in H as [->%negb_false_iff H]. apply bind_Ok in H as (b2 & H2 & H). apply raise_if_Ok in H as [->%negb_false_iff H].
    apply in_names_true in H1 as (p & Hp & Hpn), H2 as (c & Hc & Hcn). apply bind_Ok in H as (ix & Hix & H).
    assert (ix = attr d "input") as -> by (destruct (attr d "input"); by inversion Hix). rewrite Hp, Hc in H.
    destruct (comparable (attr d "input")) as [z|] eqn:Hz; [|discriminate H]. apply raise_if_Ok in H as [[H1%negb_false_iff H2%bool_decide_eq_false]%orb_false_iff H]. apply Ok_inj in H as <-.
    exists (p, c, z). split; [|done]. exists d. cbn. split_and!; [done..|]. apply orb_true_iff in H1. rewrite !Z.eqb_eq in H1. done.
  - intros ([[p c] z] & (d & -> & Hk & Hp & Hc & Hpn & Hcn & Hz & H01) & Hni & ->). cbn [fst snd] in *. unfold region_edge. rewrite Hk. cbn [negb].
    rewrite (proj2 (in_names_true names (attr d "producer"))) by (rewrite Hp; eauto). rewrite (proj2 (in_names_true names (attr d "consumer"))) by (rewrite Hc; eauto).
    cbn [bind negb]. assert (Hh : hashed (attr d "input") = Ok (attr d "input")) by (destruct (attr d "input"); done). rewrite Hh. cbn [bind]. rewrite Hp, Hc, Hz.
    rewrite bool_decide_false by done. destruct H01 as [-> | ->]; done.
Qed.

Lemma region_edges_Ok names g l out : NoDup (map port (rg_edges g)) ->
  (foldM (region_edge names) g l = Ok out <-> exists es, Forall2 (edge_reads names) l es /\ NoDup (map port (rg_edges g ++ es)) /\ out = foldl push_edge g es).
Proof.
  revert g. induction l as [|v l IH]; intros g Hnd; cbn [foldM].
  - split; [intros <-%Ok_inj; exists []; rewrite app_nil_r; split_and!; [constructor|done|done]|].
    intros (es & H & _ & ->). by inversion H.
  - rewrite bind_Ok. split.
    + intros (mid & (e & He & Hni & ->)%region_edge_Ok & H). apply IH in H as (es & Hf & Hnd' & ->).
      * exists (e :: es). cbn [push_edge rg_edges] in Hnd'. rewrite <- (assoc_L (++)) in Hnd'. split_and!; [by constructor|done|done].
      * cbn [push_edge rg_edges]. rewrite map_app. apply NoDup_app. split_and!; [done| |apply NoDup_singleton]. intros x Hx ->%list_elem_of_singleton. done.
    + intros (es & Hf & Hnd' & ->). inversion Hf as [|? e ? es' He Hf']; subst. exists (push_edge g e).
      assert (Hnd1 : NoDup (map port (rg_edges g ++ [e]))).
      { rewrite map_app in *. cbn [map] in *. change (port e :: map port es') with ([port e] ++ map port es') in Hnd'. rewrite (assoc_L (++)) in Hnd'. by apply NoDup_app in Hnd' as [? _]. }
      split; [|apply IH; [done|]; exists es'; cbn [push_edge rg_edges]; rewrite <- (assoc_L (++)); done]. apply region_edge_Ok. exists e. split_and!; [done| |done].
      rewrite map_app in Hnd1. apply NoDup_app in Hnd1 as (_ & H & _). intros Hin. apply (H _ Hin). cbn. left.
Qed.

(** The dictionaries the edge loop built. *)
Lemma pushed_edges es g : rg_edges (foldl push_edge g es) = rg_edges g ++ es.
Proof. revert g. induction es as [|e es IH]; intros g; cbn [foldl]; [by rewrite app_nil_r|]. rewrite IH. cbn. by rewrite <- (assoc_L (++)). Qed.
Lemma pushed_keys es g : map fst (rg_indegree (foldl push_edge g es)) = map fst (rg_indegree g).
Proof. revert g. induction es as [|e es IH]; intros g; cbn [foldl]; [done|]. rewrite IH. apply keys_add_degree. Qed.
Lemma pushed_degree es g k : k ∈ map fst (rg_indegree g) ->
  degree (rg_indegree (foldl push_edge g es)) k = degree (rg_indegree g) k + occurrences k (map (fun e => e.1.2) es).
Proof.
  revert g. induction es as [|e es IH]; intros g Hk; cbn [foldl map]; [change (occurrences k []) with 0; lia|]. rewrite IH by (cbn [push_edge rg_indegree]; by rewrite keys_add_degree).
  cbn [push_edge rg_indegree]. rewrite degree_add, occurrences_cons by done. destruct (String.eqb k e.1.2); lia.
Qed.
Lemma pushed_successors es g n : rg_successors (foldl push_edge g es) n = rg_successors g n ++ consumers (map fst es) n.
Proof.
  revert g. induction es as [|e es IH]; intros g; cbn [foldl map]; [by rewrite app_nil_r|]. rewrite IH. cbn [push_edge rg_successors]. rewrite <- (assoc_L (++)). f_equal.
  unfold consumers. cbn [List.filter]. rewrite (String.eqb_sym n). by destruct (String.eqb e.1.1 n).
Qed.

Lemma drain_ext f g fuel indegree queue visited : (forall n, f n = g n) -> drain fuel f indegree queue visited = drain fuel g indegree queue visited.
Proof.
  intros H. revert indegree queue visited. induction fuel as [|fuel IH]; intros indegree [|q queue] visited; cbn; try done.
  rewrite H. destruct (foldl _ _ _). apply IH.
Qed.

(** An acyclic set of edges over distinct names is traversed whole. *)
Lemma visited_ok names es rank :
  NoDup names -> (forall e, e ∈ es -> e.1.1 ∈ names /\ e.1.2 ∈ names /\ (rank e.1.1 < rank e.1.2)%nat) ->
  visited_nodes (foldl push_edge (RegionGraph (map (fun n => (n, 0)) names) (fun _ => []) []) es) = Ok (Z.of_nat (length names)).
Proof.
  intros Hnd He. set (g0 := RegionGraph (map (fun n => (n, 0)) names) (fun _ => []) []).
  assert (Hk : map fst (rg_indegree (foldl push_edge g0 es)) = names). { rewrite pushed_keys. subst g0. cbn. rewrite map_map. apply map_id. }
  assert (Hl : length (rg_indegree (foldl push_edge g0 es)) = length names). { by rewrite <- (length_map fst), Hk. }
  unfold visited_nodes. rewrite Hl. rewrite (drain_ext _ (consumers (map fst es))) by (intros n; apply pushed_successors).
  apply (kahn_visits names (map fst es) rank); try done.
  - intros e (e' & -> & Hin)%list_elem_of_fmap. destruct (He _ Hin) as (? & ? & _). done.
  - intros e (e' & -> & Hin)%list_elem_of_fmap. by apply He.
  - intros k Hkn. rewrite pushed_degree by (rewrite <- (pushed_keys es), Hk; done). rewrite map_map. subst g0. cbn [rg_indegree].
    assert (Hz : degree (map (fun n => (n, 0)) names) k = 0). { clear. unfold degree. induction names as [|n l IH]; [done|]. cbn. by destruct (String.eqb n k). }
    by rewrite Hz.
Qed.

(** ** The nodes of the region *)

Definition region_names : list string :=
  ["load_center"; "load_north"; "load_south"; "load_west"; "load_east"; "add_0"; "add_1"; "add_2"; "add_3"; "store_output"].

Lemma effect_eq v k o a : py_eqb v (effect_doc k o a) = true -> exists e, v = VDict e /\ attr e "object" = VStr o.
Proof.
  intros (e & -> & _ & H)%py_eqb_dict. exists e. split; [done|]. rewrite !Forall_cons in H. destruct H as (_ & H & _). by apply py_eqb_str in H.
Qed.

(** What the validator knows about a node when it accepts the graph. *)
Definition memory_node (d : dict) (id opname : string) (effect : pyval) : Prop :=
  attr d "id" = VStr id /\ attr d "op" = VStr opname /\ keys_are d ["id"; "op"; "effect"] = true /\ py_eqb (attr d "effect") effect = true.
Definition plain_node (d : dict) (id opname : string) : Prop :=
  attr d "id" = VStr id /\ attr d "op" = VStr opname /\ keys_are d ["id"; "op"] = true.

Lemma memory_node_eq d id opname effect :
  py_eqb (VDict d) (VDict [("id", VStr id); ("op", VStr opname); ("effect", effect)]) = true <-> memory_node d id opname effect.
Proof.
  rewrite py_eqb_dict. unfold memory_node. rewrite <- !py_eqb_str. cbn [keys map fst]. split.
  - intros (d' & [= <-] & Hk & H). rewrite !Forall_cons in H. cbn [fst snd] in H. tauto.
  - intros H. exists d. rewrite !Forall_cons, Forall_nil. cbn [fst snd]. tauto.
Qed.
Lemma plain_node_eq d id opname : py_eqb (VDict d) (VDict [("id", VStr id); ("op", VStr opname)]) = true <-> plain_node d id opname.
Proof.
  rewrite py_eqb_dict. unfold plain_node. rewrite <- !py_eqb_str. cbn [keys map fst]. split.
  - intros (d' & [= <-] & Hk & H). rewrite !Forall_cons in H. cbn [fst snd] in H. tauto.
  - intros H. exists d. rewrite !Forall_cons, Forall_nil. cbn [fst snd]. tauto.
Qed.

Definition load_affine (id : string) : string := default "" (snd <$> List.find (fun na => String.eqb na.1 id) expected_affine).
(** The node of each name. *)
Definition region_doc (id : string) (d : dict) : Prop :=
  if String.eqb id "store_output" then memory_node d id "STORE_U32" (effect_doc "WRITE" "B" (load_affine id))
  else if bool_decide (id ∈ map fst expected_affine) then memory_node d id "LOAD_U32" (effect_doc "READ" "A" (load_affine id))
  else plain_node d id "ADD_U32".
Definition nodes_ok (by_node : list (string * dict)) : Prop :=
  exists nd, by_node ≡ₚ map (fun n => (n, nd n)) region_names /\ forall n, n ∈ region_names -> region_doc n (nd n).

Lemma region_docs nd : (forall n, n ∈ region_names -> region_doc n (nd n)) <-> Forall2 py_eq (map (fun n => VDict (nd n)) region_names) stencil_nodes.
Proof.
  rewrite <- Forall_forall. unfold region_names, stencil_nodes, load_doc, add_doc, store_doc. cbn [map].
  rewrite !Forall_cons, Forall_nil, !Forall2_cons, !memory_node_eq, !plain_node_eq. split.
  - intros (?&?&?&?&?&?&?&?&?&?&_). split_and!; try done; constructor.
  - intros (?&?&?&?&?&?&?&?&?&?&_). split_and!; done.
Qed.

Lemma find_node_perm by_node n d : NoDup (map fst by_node) -> (n, d) ∈ by_node -> find_node by_node n = Ok d.
Proof.
  unfold find_node. induction by_node as [|[m d'] l IH]; intros Hnd Hin; [by apply elem_of_nil in Hin|]. cbn in *. apply NoDup_cons in Hnd as [Hn Hnd].
  apply elem_of_cons in Hin as [[= -> ->]|Hin]; [by rewrite String.eqb_refl|]. destruct (String.eqb_spec m n) as [->|]; [|by apply IH].
  destruct Hn. apply list_elem_of_fmap. by exists (n, d).
Qed.
Lemma nodes_find by_node nd n : by_node ≡ₚ map (fun n => (n, nd n)) region_names -> n ∈ region_names -> find_node by_node n = Ok (nd n).
Proof.
  intros Hp Hn. apply find_node_perm.
  - rewrite Hp, map_map. cbn [fst]. rewrite map_id. apply (bool_decide_unpack _). vm_compute. exact I.
  - rewrite Hp. apply list_elem_of_fmap. by exists n.
Qed.

Lemma with_op_perm o l l' : l ≡ₚ l' -> with_op o l ≡ₚ with_op o l'.
Proof.
  unfold with_op. intros H. apply Permutation_map. induction H; cbn; repeat case_match; eauto using Permutation.
Qed.

(** The operation of each name, and the names of each operation. *)
Definition op_of (id : string) : string :=
  if String.eqb id "store_output" then "STORE_U32" else if bool_decide (id ∈ map fst expected_affine) then "LOAD_U32" else "ADD_U32".
Definition op_names (o : string) : list string := List.filter (fun n => String.eqb (op_of n) o) region_names.
Lemma region_doc_op n d : region_doc n d -> attr d "op" = VStr (op_of n).
Proof. unfold region_doc, op_of. destruct (String.eqb n _); [by intros (_ & ? & _)|]. case_bool_decide; by intros (_ & ? & _). Qed.
Lemma with_op_docs nd o : (forall n, n ∈ region_names -> region_doc n (nd n)) -> with_op o (map (fun n => (n, nd n)) region_names) = map nd (op_names o).
Proof.
  unfold with_op, op_names. generalize region_names as l. intros l H. induction l as [|n l IH]; [done|]. cbn [map List.filter fst snd].
  rewrite (region_doc_op n) by (apply H; left). cbn [is_str].
  assert (IH' := IH (fun m Hm => H m (list_elem_of_further _ _ _ Hm))). destruct (String.eqb (op_of n) o); cbn [map snd]; by rewrite IH'.
Qed.

Lemma any_res_false {A} (f : A -> res bool) l : any_res f l = Ok false <-> forall x, x ∈ l -> f x = Ok false.
Proof.
  induction l as [|x l IH]; cbn; [split; [by intros _ ? ?%elem_of_nil|done]|]. rewrite bind_Ok. setoid_rewrite elem_of_cons. split.
  - intros ([] & Hx & H); [done|]. intros y [-> |Hy]; [done|]. by apply IH.
  - intros H. exists false. split; [apply H; by left|]. apply IH. intros; apply H; by right.
Qed.

Lemma other_object_false o d : other_object o d = Ok false <-> exists e, default (VDict []) (dget "effect" d) = VDict e /\ attr e "object" = VStr o.
Proof.
  unfold other_object. destruct (default _ _) as [| | | | | |e]; try (split; [done|by intros (? & ? & _)]).
  split; [intros [= H%negb_false_iff%is_str_spec]; by exists e|].
  intros (? & [= <-] & H). by rewrite (proj2 (is_str_spec _ _) H).
Qed.
Lemma attr_effect d e : attr d "effect" = VDict e -> default (VDict []) (dget "effect" d) = VDict e.
Proof. unfold attr. by destruct (dget "effect" d). Qed.
Lemma effect_object d k o a : py_eqb (attr d "effect") (effect_doc k o a) = true -> other_object o d = Ok false.
Proof. intros (e & He & Ho)%effect_eq. apply other_object_false. exists e. split; [by apply attr_effect|done]. Qed.

(** *** Effects *)

Lemma validate_effects_Ok by_node : validate_effects by_node = Ok tt <->
  (length (with_op "LOAD_U32" by_node) = 5%nat /\ length (with_op "ADD_U32" by_node) = 4%nat) /\
  (exists store, with_op "STORE_U32" by_node = [store] /\ other_object "B" store = Ok false) /\
  (forall d, d ∈ with_op "LOAD_U32" by_node -> other_object "A" d = Ok false) /\
  (forall na, na ∈ expected_affine -> exists d, find_node by_node na.1 = Ok d /\ py_eqb (attr d "effect") (expected_effect na.1 na.2) = true).
Proof.
  unfold validate_effects. rewrite raise_if_Ok, !orb_false_iff, !negb_false_iff, !Nat.eqb_eq, bind_Ok.
  assert (Hc : forall na, check_effect by_node na = Ok tt <-> exists d, find_node by_node na.1 = Ok d /\ py_eqb (attr d "effect") (expected_effect na.1 na.2) = true).
  { intros na. unfold check_effect. rewrite bind_Ok. setoid_rewrite raise_if_Ok. setoid_rewrite negb_false_iff. naive_solver. }
  setoid_rewrite <- Hc. rewrite <- (any_res_false (other_object "A")). split.
  - intros (((Hl & Ha) & Hs) & o1 & H1 & H). apply raise_if_Ok in H as [-> H]. apply bind_Ok in H as (st & Hst & H). apply bind_Ok in H as (o2 & H2 & H).
    apply raise_if_Ok in H as [-> H]. apply bind_Ok in H as (us & Hus & _). split; [done|].
    destruct (with_op "STORE_U32" by_node) as [|s [|? ?]]; try discriminate Hs. cbn in Hst. apply Ok_inj in Hst as <-.
    split; [by exists s|]. split; [done|]. intros na Hna. apply traverse_Ok in Hus. apply list_elem_of_lookup in Hna as [k Hk].
    destruct (Forall2_lookup_l _ _ _ _ _ Hus Hk) as ([] & _ & H). exact H.
  - intros ((Hl & Ha) & (st & Hst & Hb) & HA & Hna). rewrite Hst. split; [done|]. exists false. split; [done|]. change (py_index [st] 0) with (Ok st). cbn [bind].
    rewrite Hb. cbn [bind]. rewrite (traverse_pure _ (fun _ => tt)); [done|]. exact Hna.
Qed.
