(* ===== verification/StaticRegionExact.v ===== *)
(** * The static region: the validator is exact

    [validate_exact]: the validator accepts the compiled descriptor, up to the
    order of its objects, nodes, edges and exclusions, and nothing else. *)

From S2P Require Import Prelude PyValue Evidence StaticRegion StaticRegionFacts.

Lemma affine_names na : na ∈ expected_affine -> na.1 ∈ region_names.
Proof.
  assert (Hall : Forall (fun na => na.1 ∈ region_names) expected_affine) by (apply (bool_decide_unpack _); vm_compute; exact I).
  rewrite Forall_forall in Hall. apply Hall.
Qed.

(** ** The effects fix every operation *)

Section accepted.
Context (by_node : list (string * dict)) (nd : string -> dict).
Context (Hperm : by_node ≡ₚ map (fun n => (n, nd n)) region_names).
Context (Hread : forall n, n ∈ region_names -> node_reads (VDict (nd n)) (n, nd n)).
Context (Heffects : validate_effects by_node = Ok tt).

Lemma op_member o n : n ∈ region_names -> attr (nd n) "op" = VStr o -> nd n ∈ with_op o by_node.
Proof.
  intros Hn Ho. unfold with_op. apply list_elem_of_fmap. exists (n, nd n). split; [done|]. apply list_elem_of_In, filter_In.
  split; [apply list_elem_of_In; rewrite Hperm; apply list_elem_of_fmap; by exists n|]. by apply is_str_spec.
Qed.

(** A node of the operation of the other object would fail its effect check. *)
Lemma effect_side n opname e k o a : n ∈ region_names -> attr (nd n) "op" = VStr opname -> opname <> "ADD_U32" -> opname ∈ ["LOAD_U32"; "ADD_U32"; "STORE_U32"] ->
  attr (nd n) "effect" = VDict e -> attr e "object" = VStr o -> py_eqb (attr (nd n) "effect") (effect_doc k o a) = true ->
  opname = (if String.eqb o "A" then "LOAD_U32" else "STORE_U32").
Proof.
  intros Hn Hop Hne Hin He Hobj Heq. pose proof Heffects as (_ & (st & Hst & Hb) & HA & _)%validate_effects_Ok. pose proof (op_member _ _ Hn Hop) as Hw.
  assert (Hsame : forall o', other_object o' (nd n) = Ok false -> o' = o).
  { intros o' (e' & He' & Ho')%other_object_false. rewrite (attr_effect _ _ He) in He'. injection He' as <-. rewrite Hobj in Ho'. congruence. }
  rewrite !elem_of_cons in Hin. destruct Hin as [-> |[-> |[-> |?%elem_of_nil]]]; try done.
  - by rewrite <- (Hsame "A") by auto.
  - rewrite Hst in Hw. apply list_elem_of_singleton in Hw as <-. by rewrite <- (Hsame "B").
Qed.

Lemma memory_ok na k o a : na ∈ expected_affine -> na.1 ∈ region_names -> expected_effect na.1 na.2 = effect_doc k o a ->
  memory_node (nd na.1) na.1 (if String.eqb o "A" then "LOAD_U32" else "STORE_U32") (effect_doc k o a).
Proof.
  intros Hna Hn He. pose proof Heffects as (_ & _ & _ & Hall)%validate_effects_Ok. destruct (Hall _ Hna) as (d & Hd & Hd').
  rewrite (nodes_find _ _ _ Hperm Hn) in Hd. apply Ok_inj in Hd as <-. rewrite He in Hd'. pose proof Hd' as (e & Hattr & Hobj)%effect_eq.
  destruct (Hread _ Hn) as (_ & Hid & opname & Hop & Hin & Hk). cbn [fst snd] in *. destruct (String.eqb_spec opname "ADD_U32") as [-> |Hne].
  { assert (Hnone : dget "effect" (nd na.1) = None). { apply dget_None. rewrite (proj1 (keys_are_spec _ _) Hk "effect"). apply (bool_decide_unpack _). vm_compute. exact I. }
    unfold attr in Hattr. by rewrite Hnone in Hattr. }
  rewrite (effect_side _ _ _ _ _ _ Hn Hop Hne Hin Hattr Hobj Hd') in Hop. by split_and!.
Qed.

Lemma memory_docs n : n ∈ map fst expected_affine -> region_doc n (nd n).
Proof.
  intros (na & -> & H)%list_elem_of_fmap. pose proof (fun k o a => memory_ok na k o a H (affine_names _ H)) as Hm. unfold expected_affine in H.
  rewrite !elem_of_cons in H. destruct H as [-> |[-> |[-> |[-> |[-> |[-> |?%elem_of_nil]]]]]]; try done;
    first [exact (Hm "READ" "A" _ eq_refl)|exact (Hm "WRITE" "B" _ eq_refl)].
Qed.

(** The count of additions leaves no other operation to the other nodes. *)
Lemma plain_docs n : n ∈ ["add_0"; "add_1"; "add_2"; "add_3"] -> region_doc n (nd n).
Proof.
  intros Hn. assert (Hop : attr (nd n) "op" = VStr "ADD_U32").
  { pose proof Heffects as ((_ & Ha) & _)%validate_effects_Ok. rewrite (with_op_perm _ _ _ Hperm) in Ha. unfold with_op in Ha. rewrite length_map in Ha.
    assert (Hmem : forall n, n ∈ map fst expected_affine -> is_str (attr (nd n) "op") "ADD_U32" = false).
    { intros m Hm. pose proof (region_doc_op _ _ (memory_docs _ Hm)) as ->. clear -Hm. unfold op_of. rewrite bool_decide_true by done. by destruct (String.eqb m _). }
    rewrite <- Forall_forall in Hmem. cbn [expected_affine map fst] in Hmem. rewrite !Forall_cons in Hmem. destruct Hmem as (E1 & E2 & E3 & E4 & E5 & E6 & _).
    unfold region_names in Ha. cbn [map List.filter snd] in Ha. rewrite E1, E2, E3, E4, E5, E6 in Ha.
    apply (List.filter_length_forallb (fun x : string * dict => is_str (attr x.2 "op") "ADD_U32") (map (fun n => (n, nd n)) ["add_0"; "add_1"; "add_2"; "add_3"])) in Ha.
    rewrite forallb_forall in Ha. apply is_str_spec, (Ha (n, nd n)). apply list_elem_of_In, list_elem_of_fmap. by exists n. }
  assert (Hr : n ∈ region_names) by (clear -Hn; unfold region_names; rewrite !elem_of_cons in *; tauto).
  destruct (Hread n Hr) as (_ & Hid & o & Ho & _ & Hk). cbn [fst snd] in *. rewrite Hop in Ho. injection Ho as <-.
  assert (Hdoc : region_doc n (nd n) = plain_node (nd n) n "ADD_U32") by (clear -Hn; rewrite !elem_of_cons in Hn; destruct Hn as [-> |[-> |[-> |[-> |?%elem_of_nil]]]]; done).
  rewrite Hdoc. by split_and!.
Qed.

Lemma accepted_docs n : n ∈ region_names -> region_doc n (nd n).
Proof.
  intros Hn. destruct (decide (n ∈ map fst expected_affine)) as [|Hne]; [by apply memory_docs|]. apply plain_docs.
  unfold region_names in Hn. cbn [expected_affine map fst] in Hne. rewrite !elem_of_cons in *. tauto.
Qed.
End accepted.

(** Distinct names that are the region's: a node for each. *)
Lemma nodes_by_name (by_node : list (string * dict)) :
  map fst by_node ≡ₚ region_names -> exists nd, by_node ≡ₚ map (fun n => (n, nd n)) region_names.
Proof.
  intros Hp. symmetry in Hp. apply Permutation_map_inv in Hp as (bn & Hbn & Hp).
  assert (Hnd : NoDup (map fst by_node)). { rewrite Hp, <- Hbn. apply (bool_decide_unpack _). vm_compute. exact I. }
  exists (fun n => match find_node by_node n with Ok d => d | Err _ => [] end). rewrite Hp at 1. enough (E : bn = map (fun n => (n, match find_node by_node n with Ok d => d | Err _ => [] end)) region_names) by (by rewrite <- E).
  rewrite Hbn, map_map. rewrite <- (map_id bn) at 1. apply map_ext_in. intros [n d] Hin%list_elem_of_In. rewrite <- Hp in Hin. cbn.
  by rewrite (find_node_perm _ _ _ Hnd Hin).
Qed.

(** ** Checks that accepted nodes pass *)

Section checks.
Context (by_node : list (string * dict)) (nd : string -> dict).
Context (Hperm : by_node ≡ₚ map (fun n => (n, nd n)) region_names) (Hdocs : forall n, n ∈ region_names -> region_doc n (nd n)).

Lemma doc_effect na : na ∈ expected_affine -> py_eqb (attr (nd na.1) "effect") (expected_effect na.1 na.2) = true.
Proof.
  intros H. pose proof (Hdocs na.1 (affine_names _ H)) as Hd. unfold expected_affine in H.
  rewrite !elem_of_cons in H. destruct H as [-> |[-> |[-> |[-> |[-> |[-> |?%elem_of_nil]]]]]]; try done;
    (destruct Hd as (_ & _ & _ & He); exact He).
Qed.

Lemma effects_pass : validate_effects by_node = Ok tt.
Proof.
  assert (Hw : forall o, with_op o by_node ≡ₚ map nd (op_names o)) by (intros o; rewrite <- with_op_docs by done; by apply with_op_perm).
  apply validate_effects_Ok. split_and!.
  - by rewrite Hw.
  - by rewrite Hw.
  - exists (nd "store_output"). split; [apply Permutation_length_1_inv; symmetry; apply (Hw "STORE_U32")|].
    eapply effect_object, (doc_effect ("store_output", "16*(y-1)+(x-1)")). apply (bool_decide_unpack _). vm_compute. exact I.
  - intros d. rewrite Hw. intros (n & -> & Hn)%list_elem_of_fmap.
    assert (Hna : exists a, (n, a) ∈ expected_affine /\ expected_effect n a = effect_doc "READ" "A" a).
    { change (n ∈ ["load_center"; "load_north"; "load_south"; "load_west"; "load_east"]) in Hn.
      rewrite !elem_of_cons in Hn. destruct Hn as [-> |[-> |[-> |[-> |[-> |?%elem_of_nil]]]]]; try done;
        (eexists; split; [|reflexivity]; unfold expected_affine; rewrite !elem_of_cons; auto 8). }
    destruct Hna as (a & Hin & He). eapply effect_object. pose proof (doc_effect _ Hin) as H. cbn [fst snd] in H. by rewrite He in H.
  - intros na Hna. exists (nd na.1). split; [|by apply doc_effect]. apply nodes_find; [done|by apply affine_names].
Qed.

Lemma schedule_items schedule : py_eqb schedule expected_schedule = true ->
  exists l items, schedule = VList l /\ traverse cycle_entry l = Ok items /\ Forall2 (fun it c => comparable it.1 = Ok c.1 /\ it.2 = c.2) items schedule_cycles.
Proof.
  intros (l & -> & H)%py_eqb_list. exists l. revert l H. generalize schedule_cycles as cs. induction cs as [|[c ns] cs IH]; intros l H.
  - inversion H; subst. exists []. by split_and!.
  - inversion H as [|x ? l' ? Hx Hl]; subst. destruct (IH _ Hl) as (items & _ & Ht & Hf).
    apply py_eqb_dict in Hx as (d & -> & Hk & Hd). rewrite !Forall_cons in Hd. destruct Hd as (Hc & Hn & _). cbn [fst snd] in *.
    apply py_eqb_int in Hc. apply py_eqb_list in Hn as (nl & Hn & Hns).
    assert (Hnl : nl = map VStr ns). { clear -Hns. remember (map VStr ns) as m eqn:E. revert ns E. induction Hns as [|x y nl m Hx _ IH]; intros [|n ns]; try done. intros [= -> ->]. apply py_eqb_str in Hx as ->. cbn. by rewrite (IH ns eq_refl). }
    subst nl. exists ((attr d "cycle", ns) :: items). split_and!; [done| |by constructor].
    cbn [traverse]. rewrite Ht. unfold cycle_entry, dsub. unfold attr in *.
    destruct (dget "cycle" d) as [cv|]; [|discriminate Hc]. destruct (dget "nodes" d) as [nv|]; [|discriminate Hn]. cbn in Hn. subst nv. cbn [from_option_err bind default from_option id].
    rewrite (traverse_pure _ (fun v => match v with VStr s => s | _ => "" end)); [cbn; rewrite map_map; by rewrite map_id|].
    intros v (s & -> & _)%list_elem_of_fmap. done.
Qed.

(** The cycle of a name, on the values and on the expected numbers. *)
Lemma node_cycle_items items cs n : Forall2 (fun it c => comparable it.1 = Ok c.1 /\ it.2 = c.2) items cs ->
  node_cycle items n = node_cycle (map (fun c => (VInt c.1, c.2)) cs) n.
Proof.
  unfold node_cycle. intros H. rewrite <- map_rev. assert (Hr : Forall2 (fun it c => comparable it.1 = Ok c.1 /\ it.2 = c.2) (rev items) (rev cs)) by (induction H; cbn; [constructor|by apply Forall2_app; [|constructor]]). clear H. revert Hr. generalize (rev cs), (rev items). clear.
  intros cs items H. induction H as [|[v ns] [c ns'] items cs [Hc Hn] _ IH]; [done|]. cbn in *. subst ns'. case_bool_decide; [|done]. cbn. exact Hc.
Qed.

Lemma schedule_pass es schedule : es ≡ₚ expected_edges -> py_eqb schedule expected_schedule = true -> validate_schedule by_node es schedule = Ok tt.
Proof.
  intros Hes Hs. destruct (schedule_items _ Hs) as (l & items & -> & Ht & Hf). unfold validate_schedule. rewrite Hs, Ht. cbn [negb bind].
  assert (Hsnd : map snd items = map snd schedule_cycles). { clear -Hf. induction Hf as [|? ? ? ? [_ E]]; cbn; congruence. }
  rewrite Hsnd. assert (Hn : map fst by_node ≡ₚ region_names) by (rewrite Hperm, map_map; cbn [fst]; by rewrite map_id).
  assert (Hn' : forall n, n ∈ map fst by_node <-> n ∈ concat (map snd schedule_cycles)).
  { intros n. rewrite Hn. clear. unfold region_names, schedule_cycles. cbn [map concat snd app]. rewrite !elem_of_cons, elem_of_nil. tauto. }
  rewrite (bool_decide_true (NoDup _)) by (apply (bool_decide_unpack _); vm_compute; exact I).
  rewrite (proj2 (forallb_forall _ _)) by (intros n H%list_elem_of_In; apply bool_decide_true; by apply Hn').
  rewrite (proj2 (forallb_forall _ _)) by (intros n H%list_elem_of_In; apply bool_decide_true; by apply Hn').
  cbn [negb orb]. rewrite (traverse_pure _ (fun _ => tt)).
  - cbn [bind]. rewrite (traverse_pure _ (fun _ => tt)); [done|]. intros it Hit. unfold check_ports.
    assert (Hin : exists c, c ∈ schedule_cycles /\ it.2 = c.2). { apply list_elem_of_lookup in Hit as [k Hk]. destruct (Forall2_lookup_l _ _ _ _ _ Hf Hk) as (c & Hc & _ & E). exists c. split; [by eapply list_elem_of_lookup_2|done]. }
    destruct Hin as (c & Hc & ->). rewrite (traverse_pure _ nd).
    + cbn [bind]. assert (Hp : forall o, length (List.filter (fun n => is_str (attr n "op") o) (map nd c.2)) = length (List.filter (fun n => String.eqb (op_of n) o) c.2)).
      { intros o. assert (Hsub : forall n, n ∈ c.2 -> n ∈ region_names). { intros n Hnc. rewrite <- Hn, Hn'. apply list_elem_of_In, in_concat. exists c.2. split; [by apply in_map, list_elem_of_In|by apply list_elem_of_In]. }
        clear -Hsub Hdocs. induction c.2 as [|n l IH]; [done|]. cbn. rewrite (region_doc_op n) by (apply Hdocs, Hsub; left). cbn. specialize (IH (fun m Hm => Hsub m (list_elem_of_further _ _ _ Hm))). destruct (String.eqb _ _); cbn; by rewrite IH. }
      rewrite !Hp. clear -Hc. unfold schedule_cycles in Hc. rewrite !elem_of_cons in Hc. destruct Hc as [-> |[-> |[-> |[-> |[-> |[-> |?%elem_of_nil]]]]]]; done.
    + intros n Hnc. apply nodes_find; [done|]. rewrite <- Hn, Hn'. apply list_elem_of_In, in_concat. exists c.2. split; [by apply in_map, list_elem_of_In|by apply list_elem_of_In].
  - intros e He. rewrite Hes in He. unfold check_dependency. rewrite !(node_cycle_items _ _ _ Hf).
    clear -He. unfold expected_edges in He. rewrite !elem_of_cons in He. destruct He as [-> |[-> |[-> |[-> |[-> |[-> |[-> |[-> |[-> |?%elem_of_nil]]]]]]]]]; done.
Qed.
End checks.

(** ** Exclusions *)

Lemma distinct_id l : NoDup l -> (forall v, v ∈ l -> exists s, v = VStr s) -> distinct l = l.
Proof.
  induction l as [|x l IH]; intros Hnd Hs; [done|]. cbn. apply NoDup_cons in Hnd as [Hx Hnd]. rewrite IH; [|done|intros; apply Hs; by right]. f_equal.
  apply List.forallb_filter_id, forallb_forall. intros y Hy%list_elem_of_In. destruct (Hs x) as [s ->]; [left|]. destruct (py_eqb y (VStr s)) eqn:E; [|done].
  by apply py_eqb_str in E as ->.
Qed.
Lemma distinct_length l : (length (distinct l) <= length l)%nat.
Proof. induction l as [|x l IH]; [done|]. cbn. pose proof (List.filter_length_le (fun y => negb (py_eqb y x)) (distinct l)). lia. Qed.
Lemma distinct_NoDup l : length (distinct l) = length l -> (forall v, v ∈ l -> exists s, v = VStr s) -> NoDup l.
Proof.
  enough (H : length (distinct l) = length l -> (forall v, v ∈ l -> exists s, v = VStr s) -> distinct l = l /\ NoDup l) by naive_solver.
  induction l as [|x l IH]; intros Hl Hs; [split; [done|constructor]|]. cbn in Hl. injection Hl as Hl.
  pose proof (List.filter_length_le (fun y => negb (py_eqb y x)) (distinct l)) as Hf. pose proof (distinct_length l).
  destruct IH as [IH1 IH2]; [lia|intros; apply Hs; by right|]. rewrite IH1 in Hl, Hf. pose proof (List.filter_length_forallb _ _ Hl) as Hall.
  split; [cbn; rewrite IH1; by rewrite (List.forallb_filter_id _ _ Hall)|]. constructor; [|done]. intros Hin. rewrite forallb_forall in Hall. apply list_elem_of_In in Hin.
  specialize (Hall _ Hin). destruct (Hs x) as [s ->]; [left|]. by rewrite (proj2 (py_eqb_str _ _) eq_refl) in Hall.
Qed.

Lemma py_eq_strings l ss : Forall2 py_eq l (map VStr ss) <-> l = map VStr ss.
Proof.
  revert l. induction ss as [|s ss IH]; intros l; cbn [map].
  - split; [by inversion 1|intros ->; constructor].
  - split; [intros H; inversion H as [|x ? l' ? Hx Hl]; subst; apply py_eqb_str in Hx as ->; by rewrite (proj1 (IH _) Hl)|].
    intros ->. constructor; [by apply py_eqb_str|by apply IH].
Qed.

Lemma validate_excluded_spec v : validate_excluded v = Ok tt <-> same_items v (map VStr required_exclusions).
Proof.
  assert (Hnd : NoDup required_exclusions) by (apply (bool_decide_unpack _); vm_compute; exact I).
  split.
  - destruct v as [| | | | |items|]; try done. cbn -[required_exclusions distinct]. intros H. apply bind_Ok in H as (it & Hit & H).
    assert (it = items) as ->. { clear -Hit. apply traverse_Ok in Hit. induction Hit as [|x y l l' Hx _ IH]; [done|]. f_equal; [|done]. by destruct x; inversion Hx. }
    apply raise_if_Ok in H as [[[H1 H2]%orb_false_iff H3]%orb_false_iff _]. rewrite !negb_false_iff, ?forallb_forall in *. apply Nat.eqb_eq in H3.
    assert (Hs : forall v, v ∈ items -> exists s, v = VStr s /\ s ∈ required_exclusions).
    { intros v Hv%list_elem_of_In. apply H1, existsb_exists in Hv as (s & Hs & ->%is_str_spec). exists s. split; [done|by apply list_elem_of_In]. }
    assert (Hp : items ≡ₚ map VStr required_exclusions).
    { apply NoDup_Permutation.
      - apply distinct_NoDup; [done|]. intros v Hv. destruct (Hs v Hv) as (s & -> & _). by exists s.
      - apply NoDup_fmap_2; [by intros ? ? [= ->]|done].
      - intros v. rewrite list_elem_of_fmap. split; [by intros ?%Hs|]. intros (s & -> & Hin%list_elem_of_In). apply H2, existsb_exists in Hin as (w & Hw & ->%is_str_spec). by apply list_elem_of_In. }
    exists items, (map VStr required_exclusions). split_and!; [done|done|]. by apply py_eq_strings.
  - intros (l & l' & -> & Hp & ->%py_eq_strings). unfold validate_excluded. rewrite (traverse_pure _ (fun v => v)), map_id.
    + assert (Hl : forall v, v ∈ l <-> exists s, v = VStr s /\ s ∈ required_exclusions) by (intros v; rewrite Hp; apply list_elem_of_fmap).
      cbn [bind]. rewrite (proj2 (forallb_forall _ _)), (proj2 (forallb_forall _ _)), distinct_id, Nat.eqb_refl; [done|..].
      * rewrite Hp. apply NoDup_fmap_2; [by intros ? ? [= ->]|done].
      * intros v (s & -> & _)%Hl. by exists s.
      * intros s Hs%list_elem_of_In. apply existsb_exists. exists (VStr s). split; [apply list_elem_of_In, Hl; by exists s|]. by apply is_str_spec.
      * intros v (s & -> & Hs)%list_elem_of_In%Hl. apply existsb_exists. exists s. split; [by apply list_elem_of_In|]. by apply is_str_spec.
    + intros v Hv. rewrite Hp in Hv. by apply list_elem_of_fmap in Hv as (s & -> & _).
Qed.

(** ** The graph *)

Lemma edge_reads_eq names v e : e ∈ expected_edges -> (forall n, n ∈ region_names -> n ∈ names) -> (edge_reads names v e <-> py_eqb v (edge_doc e) = true).
Proof.
  intros He Hnames. assert (Hends : e.1.1 ∈ region_names /\ e.1.2 ∈ region_names /\ (e.2 = 0 \/ e.2 = 1)).
  { assert (Hall : Forall (fun e => e.1.1 ∈ region_names /\ e.1.2 ∈ region_names /\ (e.2 = 0 \/ e.2 = 1)) expected_edges) by (apply (bool_decide_unpack _); vm_compute; exact I).
    rewrite Forall_forall in Hall. auto. }
  unfold edge_doc. rewrite py_eqb_dict. cbn [keys map fst]. split.
  - intros (d & -> & Hk & Hp & Hc & _ & _ & Hz & _). exists d. split; [done|]. split; [done|]. rewrite !Forall_cons, Forall_nil. cbn [fst snd]. rewrite !py_eqb_str, py_eqb_int. done.
  - intros (d & -> & Hk & H). rewrite !Forall_cons in H. cbn [fst snd] in H. rewrite !py_eqb_str, py_eqb_int in H. destruct H as (Hp & Hc & Hz & _), Hends as (He1 & He2 & H01). exists d. split_and!; auto.
Qed.

Lemma nodes_are ns l : Forall2 node_reads l ns -> l = map (fun n => VDict n.2) ns.
Proof. induction 1 as [|v n l ns (-> & _) _ IH]; cbn; congruence. Qed.

Lemma region_names_perm (names : list string) : NoDup names -> length names = 10%nat -> (forall n, n ∈ region_names -> n ∈ names) -> names ≡ₚ region_names.
Proof.
  intros Hnd Hl Hin. symmetry. apply submseteq_length_Permutation; [|by rewrite Hl]. apply NoDup_submseteq; [|done].
  apply (bool_decide_unpack _). vm_compute. exact I.
Qed.

(** What an accepted graph is. *)
Lemma validate_graph_Ok nodes edges bounds by_node es :
  validate_graph nodes edges bounds = Ok (by_node, es) ->
  exists nl el, nodes = VList nl /\ edges = VList el /\ Forall2 node_reads nl by_node /\ map fst by_node ≡ₚ region_names /\
    Forall2 (edge_reads (map fst by_node)) el es /\ es ≡ₚ expected_edges.
Proof.
  intros H. unfold validate_graph in H. destruct nodes as [| | | | |nl|]; try discriminate H. destruct edges as [| | | | |el|]; try discriminate H. destruct bounds as [| | | | | |b]; try discriminate H.
  apply bind_Ok in H as (mn & _ & H). apply raise_if_Ok in H as [[_ Hnl%negb_false_iff%Nat.eqb_eq]%orb_false_iff H].
  apply bind_Ok in H as (me & _ & H). apply raise_if_Ok in H as [[_ Hel%negb_false_iff%Nat.eqb_eq]%orb_false_iff H].
  apply bind_Ok in H as (bn & Hbn & H). apply region_nodes_Ok in Hbn as (ns & Hns & Hnd & ->); [|constructor]. cbn [app] in *.
  apply bind_Ok in H as (g & Hg & H). apply region_edges_Ok in Hg as (es' & Hes & Hports & ->); [|constructor]. cbn [rg_edges app] in *.
  rewrite pushed_edges in H. cbn [rg_edges app] in H. apply raise_if_Ok in H as [[H1 H2]%orb_false_iff H]. rewrite !negb_false_iff, ?forallb_forall in *.
  apply bind_Ok in H as (vis & _ & H). apply raise_if_Ok in H as [_ H]. apply Ok_inj in H. injection H as <- <-.
  exists nl, el. assert (Hp : es' ≡ₚ expected_edges).
  { apply NoDup_Permutation; [by eapply NoDup_fmap_1|apply (bool_decide_unpack _); vm_compute; exact I|]. intros e. split; intros Hin%list_elem_of_In.
    - apply H1 in Hin. by apply bool_decide_eq_true in Hin.
    - apply H2 in Hin. by apply bool_decide_eq_true in Hin. }
  split_and!; try done. apply region_names_perm; [done|by rewrite length_map, <- (Forall2_length _ _ _ Hns)|].
  assert (Hall : forall e, e ∈ expected_edges -> e.1.1 ∈ map fst ns /\ e.1.2 ∈ map fst ns).
  { intros e He. rewrite <- Hp in He. apply list_elem_of_lookup in He as [k Hk]. destruct (Forall2_lookup_r _ _ _ _ _ Hes Hk) as (v & _ & d & _ & _ & _ & _ & ? & ? & _). done. }
  clear -Hall. rewrite <- Forall_forall in Hall. unfold expected_edges in Hall. rewrite !Forall_cons in Hall. cbn [fst snd] in Hall.
  intros n Hn. unfold region_names in Hn. rewrite !elem_of_cons, elem_of_nil in Hn.
  repeat (destruct Hn as [-> |Hn]; [tauto|]). done.
Qed.

Definition edge_rank (n : string) : nat := default 0%nat (fst <$> list_find (eq n) region_names).

(** Documents that are the region's, in any order, are such a graph. *)
Lemma validate_graph_pass nl el bounds ns es :
  Forall2 node_reads nl ns -> map fst ns ≡ₚ region_names -> Forall2 (edge_reads (map fst ns)) el es -> es ≡ₚ expected_edges ->
  py_eqb bounds expected_bounds = true -> validate_graph (VList nl) (VList el) bounds = Ok (ns, es).
Proof.
  intros Hns Hp Hes Hpe (b & -> & _ & Hb)%py_eqb_dict. rewrite !Forall_cons in Hb. cbn [fst snd] in Hb. destruct Hb as (Hmn & Hme & _).
  assert (Hdef : forall k z, py_eqb (attr b k) (VInt z) = true -> comparable (default (VInt (-1)) (dget k b)) = Ok z).
  { intros k z H%py_eqb_int. unfold attr in H. by destruct (dget k b). }
  unfold validate_graph. rewrite (Hdef _ _ Hmn), (Hdef _ _ Hme). cbn [bind].
  assert (Hln : length nl = 10%nat) by (rewrite (Forall2_length _ _ _ Hns), <- (length_map fst), Hp; done).
  assert (Hle : length el = 9%nat) by (rewrite (Forall2_length _ _ _ Hes), Hpe; done). rewrite Hln, Hle. cbn [Nat.eqb negb Z.of_nat orb]. change (64 <? _) with false. change (128 <? _) with false. cbn [orb].
  assert (Hnd : NoDup (map fst ns)) by (rewrite Hp; apply (bool_decide_unpack _); vm_compute; exact I).
  rewrite (proj2 (region_nodes_Ok [] nl ns (NoDup_nil_2 : NoDup (map fst []))) (ex_intro _ ns (conj Hns (conj Hnd eq_refl)))). cbn [bind].
  assert (Hports : NoDup (map port es)) by (rewrite Hpe; apply (bool_decide_unpack _); vm_compute; exact I).
  set (g0 := RegionGraph (map (fun n => (n, 0)) (map fst ns)) (fun _ => []) []).
  rewrite (proj2 (region_edges_Ok (map fst ns) g0 el (foldl push_edge g0 es) NoDup_nil_2) (ex_intro _ es (conj Hes (conj Hports eq_refl)))). cbn [bind].
  rewrite pushed_edges. cbn [rg_edges g0 app].
  rewrite (proj2 (forallb_forall _ _)), (proj2 (forallb_forall _ _)).
  - cbn [negb orb]. subst g0. rewrite (visited_ok _ _ edge_rank); [cbn [bind]; rewrite length_map, Z.eqb_refl; done|done|]. intros e He. rewrite Hpe in He. rewrite !Hp.
    assert (Hall : Forall (fun e : string * string * Z => e.1.1 ∈ region_names /\ e.1.2 ∈ region_names /\ (edge_rank e.1.1 < edge_rank e.1.2)%nat) expected_edges) by (apply (bool_decide_unpack _); vm_compute; exact I).
    rewrite Forall_forall in Hall. by apply Hall.
  - intros e He%list_elem_of_In. apply bool_decide_true. by rewrite Hpe.
  - intros e He%list_elem_of_In. apply bool_decide_true. by rewrite Hpe in He.
Qed.

(** ** The validator is exact *)

(** Lists whose order the validator leaves open. *)
Definition unordered : list string := ["objects"; "nodes"; "edges"; "excluded"].

(** The compiled descriptor, up to the order of these lists; [==] otherwise. *)
Definition conforms (d : dict) : Prop :=
  keys_are d region_keys = true /\
  Forall (fun kv => if bool_decide (kv.1 ∈ unordered) then match kv.2 with VList l => same_items (attr d kv.1) l | _ => False end
                    else py_eqb (attr d kv.1) kv.2 = true) compile_static_stencil_descriptor.

(** The fields of [conforms], by name. *)
Lemma conforms_fields d : conforms d <-> keys_are d region_keys = true /\
  (py_eqb (attr d "schema") (VStr REGION_SCHEMA) = true /\ py_eqb (attr d "compiler_identity") (VStr COMPILER_IDENTITY) = true /\
   py_eqb (attr d "oracle_identity") (VStr ORACLE_IDENTITY) = true /\ py_eqb (attr d "target_signature") (VStr TARGET_SIGNATURE) = true /\
   py_eqb (attr d "workload") expected_workload = true) /\
  same_items (attr d "objects") [VDict object_A; VDict object_B] /\ same_items (attr d "nodes") stencil_nodes /\
  same_items (attr d "edges") (map edge_doc expected_edges) /\
  (py_eqb (attr d "schedule") expected_schedule = true /\ py_eqb (attr d "resources") expected_resources = true /\
   py_eqb (attr d "bounds") expected_bounds = true /\ py_eqb (attr d "fallback") expected_fallback = true) /\
  same_items (attr d "excluded") (map VStr required_exclusions).
Proof.
  unfold conforms, compile_static_stencil_descriptor. rewrite !Forall_cons, Forall_nil. cbn [fst snd].
  repeat match goal with |- context [bool_decide (?k ∈ unordered)] =>
    let b := eval vm_compute in (bool_decide (k ∈ unordered)) in change (bool_decide (k ∈ unordered)) with b end. cbn iota. tauto.
Qed.

(** The nodes read off conforming documents. *)
Lemma conforming_nodes v : same_items v stencil_nodes ->
  exists nl ns, v = VList nl /\ Forall2 node_reads nl ns /\ map fst ns ≡ₚ region_names /\ nodes_ok ns.
Proof.
  intros (nl & nl' & -> & Hp & Hf). set (nd n := match list_find (eq n) region_names with Some (k, _) => match nl' !! k with Some (VDict d) => d | _ => [] end | None => [] end).
  assert (Hnl : nl' = map (fun n => VDict (nd n)) region_names).
  { clear Hp. unfold stencil_nodes in Hf. repeat match goal with H : Forall2 _ _ (_ :: _) |- _ => inversion H as [|? ? ? ? Hd]; clear H; subst; apply py_eqb_dict in Hd as (? & -> & _) | H : Forall2 _ _ [] |- _ => inversion H; clear H; subst end. reflexivity. }
  rewrite Hnl in Hf, Hp. pose proof (proj2 (region_docs nd) Hf) as Hdocs. clear Hnl Hf. clearbody nd. exists nl.
  assert (Hr : Forall2 node_reads (map (fun n => VDict (nd n)) region_names) (map (fun n => (n, nd n)) region_names)).
  { clear Hp. rewrite <- Forall_forall in Hdocs. induction Hdocs as [|n l Hn _ IH]; cbn [map]; constructor; [|exact IH]. unfold region_doc in Hn. unfold node_reads. cbn [fst snd]. split; [done|].
    destruct (String.eqb n _); [|case_bool_decide]; [destruct Hn as (? & ? & ? & _)|destruct Hn as (? & ? & ? & _)|destruct Hn as (? & ? & ?)]; (split; [done|]; eexists; split; [done|]; split; [clear; set_solver|done]). }
  symmetry in Hp. destruct (Permutation_Forall2 Hp Hr) as (ns & Hpn & Hns). exists ns. split_and!; [done|done| |].
  - rewrite <- Hpn, map_map. cbn [fst]. by rewrite map_id.
  - exists nd. by split.
Qed.

Lemma edges_docs names l es : (forall e, e ∈ es -> e ∈ expected_edges) -> (forall n, n ∈ region_names -> n ∈ names) ->
  (Forall2 (edge_reads names) l es <-> Forall2 py_eq l (map edge_doc es)).
Proof.
  intros Hes Hn. revert l. induction es as [|e es IH]; intros l; cbn [map]; [split; inversion 1; constructor|].
  assert (IH' := IH (fun x Hx => Hes x (list_elem_of_further _ _ _ Hx))). assert (He : e ∈ expected_edges) by (apply Hes; left).
  split; inversion 1; subst; (constructor; [by apply (edge_reads_eq names)|by apply IH']).
Qed.

Lemma conforming_edges v names : same_items v (map edge_doc expected_edges) -> (forall n, n ∈ region_names -> n ∈ names) ->
  exists el es, v = VList el /\ Forall2 (edge_reads names) el es /\ es ≡ₚ expected_edges.
Proof.
  intros (el & el' & -> & Hp & Hf) Hn. apply (edges_docs names el' expected_edges) in Hf; [|done|done]. symmetry in Hp.
  destruct (Permutation_Forall2 Hp Hf) as (es & Hpe & Hes). exists el, es. by split_and!.
Qed.

(** C8. The validator of the static region, which recomputes fields, graph,
    effects and schedule without the compiler, accepts exactly the compiled
    descriptor: the same members with equal values, its objects, nodes, edges and
    exclusions in any order. *)
Theorem validate_exact d : validate_static_stencil_descriptor d = Ok tt <-> conforms d.
Proof.
  rewrite conforms_fields. unfold validate_static_stencil_descriptor. rewrite !raise_if_Ok, !negb_false_iff, bind_Ok. setoid_rewrite bind_Ok. split.
  - intros (Hk & H1 & H2 & H3 & H4 & H5 & [] & Ho & [by_node es] & Hg & H). apply bind_Ok in H as ([] & He & H). apply bind_Ok in H as ([] & Hs & H).
    apply bind_Ok in H as ([] & Hlim & Hx). unfold validate_limits in Hlim. rewrite !raise_if_Ok, !negb_false_iff in Hlim. destruct Hlim as (Hr & Hb & Hf & _).
    apply validate_graph_Ok in Hg as (nl & el & Hnl & Hel & Hns & Hp & Hes & Hpe).
    assert (Hsch : py_eqb (attr d "schedule") expected_schedule = true). { unfold validate_schedule in Hs. apply raise_if_Ok in Hs as [Hs%negb_false_iff _]. exact Hs. }
    split_and!; try done; [by apply validate_objects_spec| | |by apply validate_excluded_spec].
    + destruct (nodes_by_name _ Hp) as (nd & Hnd). exists nl, (map (fun n => VDict (nd n)) region_names). split; [done|]. split.
      * rewrite (nodes_are _ _ Hns), Hnd, map_map. done.
      * apply region_docs. intros n Hn. eapply accepted_docs; [exact Hnd| |exact He|exact Hn]. intros m Hm.
        assert (Hin : (m, nd m) ∈ by_node) by (rewrite Hnd; apply list_elem_of_fmap; by exists m). apply list_elem_of_lookup in Hin as [k Hk'].
        destruct (Forall2_lookup_r _ _ _ _ _ Hns Hk') as (v & _ & Hv). destruct Hv as (-> & Hv). by split.
    + apply Forall2_flip in Hes. destruct (Permutation_Forall2 Hpe Hes) as (el' & Hpl & Hf'). exists el, el'. split_and!; [done|done|].
      apply (edges_docs (map fst by_node)); [done|intros n Hn; by rewrite Hp|]. by apply Forall2_flip.
  - intros (Hk & (H1 & H2 & H3 & H4 & H5) & Ho & Hn & Hed & (Hsch & Hr & Hb & Hf) & Hx).
    destruct (conforming_nodes _ Hn) as (nl & ns & Hnl & Hns & Hp & nd & Hnd & Hdocs).
    destruct (conforming_edges _ (map fst ns) Hed) as (el & es & Hel & Hes & Hpe); [intros n Hin; by rewrite Hp|].
    split_and!; try done. exists tt. split; [by apply validate_objects_spec|]. exists (ns, es). split; [rewrite Hnl, Hel; by apply validate_graph_pass|].
    rewrite (effects_pass _ _ Hnd Hdocs). cbn [bind]. rewrite (schedule_pass _ _ Hnd Hdocs _ _ Hpe Hsch). cbn [bind].
    unfold validate_limits. rewrite Hr, Hb, Hf. cbn [negb bind]. by apply validate_excluded_spec.
Qed.

(** An accepted descriptor that is not the compiled one: two exclusions swapped. *)
Definition reordered_descriptor : dict :=
  map (fun kv => match kv with ("excluded", VList l) => ("excluded", VList (rev l)) | _ => kv end) compile_static_stencil_descriptor.
Example reordered_accepted : validate_static_stencil_descriptor reordered_descriptor = Ok tt /\ reordered_descriptor <> compile_static_stencil_descriptor.
Proof. split; [vm_compute; reflexivity|]. intros H. discriminate H. Qed.
