(* ===== verification/Sha256.v ===== *)
(** * SHA-256 and canonical documents

    [hashlib.sha256] of the standard library on byte lists, [struct]'s
    little-endian words of a digest, and the canonical JSON text
    ([sort_keys], compact separators) that the device modules hash
    ([raveil/graph_device_dag.py] [_canonical] and [_sha256]). *)

From S2P Require Import Prelude PyValue Json FoldWire.

(** ** SHA-256 *)

(** FIPS 180-4: the constants are the first 32 fractional bits of the square and
    cube roots of the first primes. *)
Definition is_prime (n : Z) : bool := forallb (fun d => negb (n mod d =? 0)) (zrange 2 n).
Definition sha_primes : list Z := Eval vm_compute in List.filter is_prime (zrange 2 312).

(** The bits of the cube root of [n], from the highest. *)
Fixpoint cube_root (bits : nat) (n r : Z) : Z :=
  match bits with
  | O => r
  | S bits =>
      let r' := r + Z.shiftl 1 (Z.of_nat bits) in cube_root bits n (if r' * r' * r' <=? n then r' else r)
  end.

Definition sha_k : list Z := Eval vm_compute in map (fun p => u32 (cube_root 40 (Z.shiftl p 96) 0)) sha_primes.
Definition sha_init : list Z := Eval vm_compute in map (fun p => u32 (Z.sqrt (Z.shiftl p 64))) (take 8 sha_primes).

Definition rotr (x n : Z) : Z := Z.lor (Z.shiftr x n) (u32 (Z.shiftl x (32 - n))).
Definition big_sigma0 x := Z.lxor (Z.lxor (rotr x 2) (rotr x 13)) (rotr x 22).
Definition big_sigma1 x := Z.lxor (Z.lxor (rotr x 6) (rotr x 11)) (rotr x 25).
Definition sigma0 x := Z.lxor (Z.lxor (rotr x 7) (rotr x 18)) (Z.shiftr x 3).
Definition sigma1 x := Z.lxor (Z.lxor (rotr x 17) (rotr x 19)) (Z.shiftr x 10).

(** The schedule of a block, the newest word first. *)
Fixpoint sha_schedule (n : nat) (w : list Z) : list Z :=
  match n with
  | O => w
  | S n => sha_schedule n
      (u32 (sigma1 (nth 1 w 0) + nth 6 w 0 + sigma0 (nth 14 w 0) + nth 15 w 0) :: w)
  end.

Definition sha_round (st : list Z) (kw : Z * Z) : list Z :=
  match st with
  | [a; b; c; d; e; f; g; h] =>
      let ch := Z.lxor (Z.land e f) (Z.land (Z.lxor e MASK) g) in
      let maj := Z.lxor (Z.lxor (Z.land a b) (Z.land a c)) (Z.land b c) in
      let t1 := h + big_sigma1 e + ch + kw.1 + kw.2 in
      let t2 := big_sigma0 a + maj in
      [u32 (t1 + t2); a; b; c; u32 (d + t1); e; f; g]
  | _ => st
  end.

Definition sha_block (st block : list Z) : list Z :=
  zip_with (fun x y => u32 (x + y)) st
    (foldl sha_round st (zip sha_k (rev (sha_schedule 48 (rev block))))).

(** Big-endian words of a byte list. *)
Fixpoint be_words (l : list Z) : list Z :=
  match l with
  | a :: b :: c :: d :: r => ((a * 256 + b) * 256 + c) * 256 + d :: be_words r
  | _ => []
  end.
Definition be32 (w : Z) : list Z :=
  [Z.land (Z.shiftr w 24) 255; Z.land (Z.shiftr w 16) 255; Z.land (Z.shiftr w 8) 255; Z.land w 255].

Fixpoint sha_blocks (n : nat) (st ws : list Z) : list Z :=
  match n with O => st | S n => sha_blocks n (sha_block st (take 16 ws)) (drop 16 ws) end.

(** [hashlib.sha256(payload).digest()] *)
Definition sha256 (payload : list Z) : list Z :=
  let n := Z.of_nat (length payload) in
  let zeros := (55 - n) mod 64 in
  let text := payload ++ [128] ++ replicate (Z.to_nat zeros) 0 ++ be32 (Z.shiftr (8 * n) 32) ++ be32 (u32 (8 * n)) in
  concat (map be32 (sha_blocks (length text / 64) sha_init (be_words text))).

(** [_sha256]: the hexadecimal digest. *)
Definition sha256_hex (payload : list Z) : string := tohex (sha256 payload).

(** [struct.unpack("<8I", bytes.fromhex(digest))] *)
Definition digest_words (payload : list Z) : list Z :=
  map (fun i => word (sha256 payload) (4 * i)) (zseq 8).

(** ** Canonical documents *)

Fixpoint dumps_compact (v : pyval) : string :=
  match v with
  | VNone => "null"
  | VBool b => if b then "true" else "false"
  | VInt z => pretty z
  | VFloat s => s
  | VStr s => json_str s
  | VList l => "[" +:+ String.concat "," (map dumps_compact l) +:+ "]"
  | VDict d =>
      "{" +:+ String.concat ","
        (map (fun kt => json_str kt.1 +:+ ":" +:+ kt.2)
           (sort_keys (map (fun kv => (kv.1, dumps_compact kv.2)) d))) +:+ "}"
  end.

Definition ascii_bytes (s : string) : list Z := map code (String.list_ascii_of_string s).

(** [_canonical] *)
Definition canonical (v : pyval) : list Z := ascii_bytes (dumps_compact v).

(** [_word_bytes] *)
Definition word_bytes (words : list Z) : list Z := pack_words (map u32 words).

Example sha256_abc :
  sha256_hex (ascii_bytes "abc") = "ba7816bf8f01cfea414140de5dae2223b00361a396177a9cb410ff61f20015ad".
Proof. vm_compute. reflexivity. Qed.
Example sha256_two_blocks :
  sha256_hex (ascii_bytes "abcdbcdecdefdefgefghfghighijhijkijkljklmklmnlmnomnopnopq") =
  "248d6a61d20638b8e5c026930c3e6039a33ce45964ff2167f6ecedd419db06c1".
Proof. vm_compute. reflexivity. Qed.

Lemma digest_words_length p : length (digest_words p) = 8%nat.
Proof. reflexivity. Qed.
