(* ===== verification/Sha256Facts.v ===== *)
(** * Digests and canonical documents: lemmas

    A digest has 32 bytes. The readers take back what [dumps_compact] writes, the text that the device
    modules and the completion journal hash; so the canonical document of a
    value determines it, up to the order of its keys. *)

From S2P Require Import Prelude PyValue Json JsonFacts FoldWire FoldWireFacts FoldLines FoldLinesFacts Sha256.
From Stdlib Require Import Ascii.

(** ** Digests *)

Lemma length_sha_blocks n st ws : length st = 8%nat -> length (sha_blocks n st ws) = 8%nat.
Proof.
  revert st ws. induction n as [|n IH]; intros st ws H; [done|]. cbn. apply IH. unfold sha_block. rewrite length_zip_with, H.
  assert (Hr : forall l st, length st = 8%nat -> length (foldl sha_round st l) = 8%nat); [|rewrite Hr; done].
  clear. induction l as [|kw l IH]; intros st H; [done|]. cbn. apply IH. by do 9 (destruct st as [|? st]; [done|]).
Qed.
Lemma length_sha256 p : length (sha256 p) = 32%nat.
Proof.
  unfold sha256. cbn zeta. assert (H : forall l : list Z, length (concat (map be32 l)) = (4 * length l)%nat) by (induction l; cbn in *; lia).
  by rewrite H, length_sha_blocks.
Qed.

Lemma sha256_bytes p : Forall is_byte (sha256 p).
Proof.
  unfold sha256. apply Forall_concat, Forall_map, Forall_forall. intros w _.
  assert (Hl : forall x, is_byte (Z.land x 255)).
  { intros x. change 255 with (Z.ones 8). rewrite Z.land_ones by done. unfold is_byte. apply Z.mod_pos_bound. done. }
  unfold be32. repeat constructor; apply Hl.
Qed.

Lemma sha256_hex_digest p : all_hex (sha256_hex p) = true /\ String.length (sha256_hex p) = 64%nat.
Proof. unfold sha256_hex. split; [apply all_hex_tohex, sha256_bytes|]. by rewrite length_tohex, length_sha256. Qed.

(** ** The compact writer *)

#[local] Open Scope nat_scope.

Lemma compact_head v : json_ok v = true -> value_head (dumps_compact v).
Proof.
  destruct v as [| [] |z| s |s|[|x l]|[|x d]]; try done; intros _.
  exact (json_ok_head 0 (VInt z) eq_refl).
Qed.
Lemma blank_empty : blank "".
Proof. done. Qed.
Lemma empty_end b t : b = "]"%char \/ b = "}"%char -> no_number ("" +:+ String b t).
Proof. by intros [-> | ->]. Qed.

Lemma reads_compact h v : json_ok v = true -> reads_as h (dumps_compact v) v.
Proof.
  induction v as [|b|z|s|s|l IH|d IH] using pyval_rect'; intros Hok; apply (reads_writer h dumps_compact); try done.
  - intros ? [= <-] Hj. rewrite forallb_forall in Hj. assert (Hj' : Forall (fun v => json_ok v = true) l) by (apply Forall_forall; intros x Hx; by apply Hj, list_elem_of_In).
    destruct l as [|v l]; [intros [|fuel] rest Hr Hf; [lia|]; reflexivity|].
    change (dumps_compact (VList (v :: l))) with ("[" +:+ "" +:+ String.concat ("," +:+ "") (map dumps_compact (v :: l)) +:+ "" +:+ "]")%string.
    apply reads_list; [apply blank_empty|apply blank_empty|apply empty_end|apply compact_head|done| |done].
    rewrite Forall_forall in IH, Hj' |- *. intros x Hx. apply IH; auto.
  - intros ? [= <-] Hnd Hj. rewrite forallb_forall in Hj. assert (Hj' : Forall (fun kv => json_ok kv.2 = true) d) by (apply Forall_forall; intros x Hx; by apply Hj, list_elem_of_In).
    destruct d as [|kv d]; [intros [|fuel] rest Hr Hf; [lia|]; reflexivity|].
    assert (dumps_compact (VDict (kv :: d)) = "{" +:+ "" +:+ String.concat ("," +:+ "") (map (member_text dumps_compact "") (sort_keys (kv :: d))) +:+ "" +:+ "}")%string as ->
      by (rewrite <- members_rendered; reflexivity).
    apply reads_dict; [apply blank_empty|apply blank_empty|apply blank_empty|apply empty_end|apply compact_head|done|done| |done].
    rewrite Forall_forall in IH, Hj' |- *. intros x Hx. apply IH; auto.
Qed.

Lemma json_loads_compact h v : json_ok v = true -> json_loads h (dumps_compact v) = Ok (canon v).
Proof.
  intros Hok. unfold json_loads. rewrite value_head_skip by (by apply compact_head).
  pose proof (reads_compact h v Hok) as H. specialize (H (S (2 * String.length (dumps_compact v))) ""). rewrite append_nil_r in H.
  rewrite H; [reflexivity|done|lia].
Qed.

Lemma ascii_bytes_inj s t : ascii_bytes s = ascii_bytes t -> s = t.
Proof.
  unfold ascii_bytes. intros H. rewrite <- (String.string_of_list_ascii_of_string s), <- (String.string_of_list_ascii_of_string t). f_equal.
  revert H. generalize (String.list_ascii_of_string s) (String.list_ascii_of_string t). induction l as [|c l IH]; intros [|c' l'] H; try done.
  cbn [map] in H. injection H as Hc H. f_equal; [|by apply IH]. unfold code in Hc. apply Nat2Z.inj in Hc.
  rewrite <- (Ascii.ascii_nat_embedding c), <- (Ascii.ascii_nat_embedding c'). by f_equal.
Qed.

(** Values with one canonical document are equal up to the order of their keys. *)
Lemma canonical_inj v w : json_ok v = true -> json_ok w = true -> canonical v = canonical w -> canon v = canon w.
Proof.
  intros Hv Hw H. apply ascii_bytes_inj in H. apply Ok_inj. rewrite <- (json_loads_compact (Hooks true "") v), <- (json_loads_compact (Hooks true "") w) by done. by rewrite H.
Qed.
