(* ===== verification/DeviceProgram.v ===== *)
(** * Stencil programs for the graph device ([raveil/graph_device_dag.py])

    A descriptor is a DAG of loads around a grid point, arithmetic and one
    store. The compiler orders it, assigns eight value registers and encodes at
    most sixteen instruction words with a digest and a lowering trace; the
    fallback validates and interprets such a program without trusting the
    compiler; the oracle evaluates the descriptor. Documents are free of floats:
    in the model a float equals no integer. *)

From S2P Require Import Prelude PyValue Json AffineFold FoldWire Evidence Sha256.
From Stdlib Require Import Ascii.

Definition PROGRAM_MAGIC : Z := 0x52504731.
Definition MAX_IMMEDIATE : Z := Z.shiftl 1 22 - 1.
Definition PROGRAM_WORDS : Z := 32.
Definition PROGRAM_CAPACITY : Z := 16.
Definition VALUE_REGISTERS : Z := 8.

(** ** Descriptors *)

Inductive address := ASelector (s : string) | ARelative (row_delta column_delta : Z).
Inductive dbin := DAdd | DMax | DMul.
Inductive dimm := DAddImm | DGeImm.

#[export] Instance address_eq_dec : EqDecision address.
Proof. solve_decision. Defined.
#[export] Instance dbin_eq_dec : EqDecision dbin.
Proof. solve_decision. Defined.
#[export] Instance dimm_eq_dec : EqDecision dimm.
Proof. solve_decision. Defined.

Inductive dop :=
  | DLoad (a : address)
  | DBin (o : dbin) (x y : string)
  | DImm (o : dimm) (x : string) (immediate : Z)
  | DStore (x : string).

Record dnode := DNode { dn_id : string; dn_op : dop }.

#[export] Instance dop_eq_dec : EqDecision dop.
Proof. solve_decision. Defined.
#[export] Instance dnode_eq_dec : EqDecision dnode.
Proof. solve_decision. Defined.

Definition bin_name (o : dbin) : string :=
  match o with DAdd => "ADD_U32" | DMax => "MAX_U32" | DMul => "MUL_U32" end.
Definition imm_name (o : dimm) : string := match o with DAddImm => "ADD_IMM_U32" | DGeImm => "GE_IMM_U32" end.
Definition op_text (o : dop) : string :=
  match o with DLoad _ => "LOAD_U32" | DBin o _ _ => bin_name o | DImm o _ _ => imm_name o | DStore _ => "STORE_U32" end.

Definition is_store (n : dnode) : bool := match dn_op n with DStore _ => true | _ => false end.

Record affine := Affine { af_rows : Z; af_columns : Z; af_input_stride : Z; af_output_stride : Z }.

(** [dc_schema] is the number after [raveil.graph-device-dag/v]. *)
Record descriptor := Descriptor {
  dc_schema : Z; dc_graph_id : string; dc_affine : affine; dc_nodes : list dnode;
}.

Definition SELECTORS : list string := ["center"; "north"; "south"; "west"; "east"].

(** [_dependencies] *)
Definition dependencies (n : dnode) : list string :=
  match dn_op n with DLoad _ => [] | DBin _ x y => [x; y] | DImm _ x _ | DStore x => [x] end.

(** [IDENTIFIER_RE] *)
Definition identifier_char (c : ascii) : bool :=
  let n := code c in
  ((97 <=? n) && (n <=? 122)) || ((65 <=? n) && (n <=? 90)) || ((48 <=? n) && (n <=? 57)).
Definition is_identifier (s : string) : bool :=
  match s with
  | "" => false
  | String c r =>
      identifier_char c && (String.length r <=? 30)%nat &&
      forallb (fun c => identifier_char c || (code c =? 46) || (code c =? 95) || (code c =? 45))
        (String.list_ascii_of_string r)
  end.

(** [value in {...}] for a set of strings: a list or dictionary has no hash. *)
Definition in_strings (v : pyval) (set : list string) : res bool :=
  match v with
  | VList _ | VDict _ => Err TypeError
  | VStr s => Ok (bool_decide (s ∈ set))
  | _ => Ok false
  end.

Definition graph_schemas : list string :=
  ["raveil.graph-device-dag/v1"; "raveil.graph-device-dag/v2"; "raveil.graph-device-dag/v3";
   "raveil.graph-device-dag/v4"; "raveil.graph-device-dag/v5"].

(** The number of a schema in the list. *)
Definition schema_version (v : pyval) : res Z :=
  let* known := in_strings v graph_schemas in
  match v with
  | VStr s => from_option_err (ValueError "exact descriptor keys and schema are required")
                (Z.succ <$> index_of s graph_schemas)
  | _ => fail "exact descriptor keys and schema are required"
  end.

(** The affine shape and its windows. *)
Definition validate_affine (v : pyval) : res affine :=
  match v with
  | VDict d =>
      raise_if negb (keys_are d ["rows"; "columns"; "input_stride"; "output_stride"]) with "affine shape is invalid" in
      match dget "rows" d, dget "columns" d, dget "input_stride" d, dget "output_stride" d with
      | Some (VInt rows), Some (VInt columns), Some (VInt si), Some (VInt so) =>
          raise_if negb (bool_decide (1 <= rows <= 16)) || negb (bool_decide (1 <= columns <= 16)) ||
                   (si <? columns + 2) || (so <? columns) ||
                   (324 <=? (rows + 1) * si + columns) || (256 <=? (rows - 1) * so + columns - 1)
          with "affine shape escapes the bounded windows" in
          Ok (Affine rows columns si so)
      | _, _, _, _ => fail "affine shape is invalid"
      end
  | _ => fail "affine shape is invalid"
  end.

Definition validate_address (schema : Z) (d : dict) : res address :=
  if schema =? 1 then
    raise_if negb (keys_are d ["id"; "op"; "address"]) with "LOAD_U32 is invalid" in
    match dget "address" d with
    | Some (VStr s) => raise_if negb (bool_decide (s ∈ SELECTORS)) with "LOAD_U32 is invalid" in Ok (ASelector s)
    | _ => fail "LOAD_U32 is invalid"
    end
  else
    raise_if negb (keys_are d ["id"; "op"; "address"]) with "LOAD_U32 relative address is invalid" in
    match dget "address" d with
    | Some (VDict a) =>
        raise_if negb (keys_are a ["row_delta"; "column_delta"]) with "LOAD_U32 relative address is invalid" in
        match dget "row_delta" a, dget "column_delta" a with
        | Some (VInt r), Some (VInt c) =>
            raise_if negb (bool_decide (-1 <= r <= 1)) || negb (bool_decide (-1 <= c <= 1))
            with "LOAD_U32 relative address is invalid" in Ok (ARelative r c)
        | _, _ => fail "LOAD_U32 relative address is invalid"
        end
    | _ => fail "LOAD_U32 relative address is invalid"
    end.

Definition validate_imm (schema : Z) (o : dimm) (d : dict) : res dop :=
  let error {A} : res A := fail (imm_name o +:+ " requires schema " +:+
    match o with DGeImm => "v5" | DAddImm => "v4" end +:+ " and an unsigned 22-bit immediate") in
  if negb (match o with DGeImm => schema =? 5 | DAddImm => 4 <=? schema end) ||
     negb (keys_are d ["id"; "op"; "input"; "immediate"])
  then error
  else match dget "input" d, dget "immediate" d with
       | Some (VStr x), Some (VInt imm) =>
           if bool_decide (0 <= imm <= MAX_IMMEDIATE) then Ok (DImm o x imm) else error
       | _, _ => error
       end.

Definition validate_bin (o : dbin) (d : dict) : res dop :=
  let error {A} : res A := fail (bin_name o +:+ " operands are invalid") in
  if negb (keys_are d ["id"; "op"; "inputs"]) then error
  else match dget "inputs" d with
       | Some (VList [VStr x; VStr y]) => Ok (DBin o x y)
       | _ => error
       end.

Definition device_ops : list string :=
  ["LOAD_U32"; "ADD_U32"; "MAX_U32"; "MUL_U32"; "ADD_IMM_U32"; "GE_IMM_U32"; "STORE_U32"].

(** The operation of a node, [stores] stores before it. *)
Definition validate_op (schema stores : Z) (d : dict) (op : string) : res dop :=
  raise_if String.eqb op "GE_IMM_U32" && negb (schema =? 5) with "node identity or opcode is invalid" in
  raise_if String.eqb op "MUL_U32" && (schema <? 3) with "MUL_U32 requires graph schema v3" in
  if String.eqb op "LOAD_U32" then let* a := validate_address schema d in Ok (DLoad a)
  else if String.eqb op "ADD_IMM_U32" then validate_imm schema DAddImm d
  else if String.eqb op "GE_IMM_U32" then validate_imm schema DGeImm d
  else if String.eqb op "ADD_U32" then validate_bin DAdd d
  else if String.eqb op "MAX_U32" then validate_bin DMax d
  else if String.eqb op "MUL_U32" then validate_bin DMul d
  else
    match dget "input" d with
    | Some (VStr x) =>
        raise_if negb (keys_are d ["id"; "op"; "input"]) || negb (stores =? 0) with "STORE_U32 is invalid" in
        Ok (DStore x)
    | _ => fail "STORE_U32 is invalid"
    end.

Definition store_count (nodes : list dnode) : Z := Z.of_nat (length (List.filter is_store nodes)).

(** One iteration of the first loop over the nodes. *)
Definition validate_node (schema : Z) (nodes : list dnode) (v : pyval) : res (list dnode) :=
  match v with
  | VDict d =>
      match dget "id" d with
      | Some (VStr id) =>
          raise_if negb (is_identifier id) || bool_decide (id ∈ map dn_id nodes)
          with "node identity or opcode is invalid" in
          let op := default VNone (dget "op" d) in
          let* known := in_strings op device_ops in
          match op with
          | VStr op =>
              raise_if negb known with "node identity or opcode is invalid" in
              let* o := validate_op schema (store_count nodes) d op in
              Ok (nodes ++ [DNode id o])
          | _ => fail "node identity or opcode is invalid"
          end
      | _ => fail "node identity or opcode is invalid"
      end
  | _ => fail "node identity or opcode is invalid"
  end.

Definition find_node (id : string) (nodes : list dnode) : option dnode :=
  List.find (fun n => String.eqb (dn_id n) id) nodes.

(** The operands of a node are nodes and not the store. *)
Definition check_operands (nodes : list dnode) (n : dnode) : res (list unit) :=
  traverse (fun source =>
    match find_node source nodes with
    | None => fail (op_text (dn_op n) +:+ " has an undefined operand")
    | Some s => raise_if is_store s with "STORE_U32 cannot be an operand" in Ok tt
    end) (dependencies n).

(** ** The schedule *)

(** The nodes not yet scheduled, in descriptor order, with their open dependencies. *)
Abbreviation pending := (list (dnode * list string)).

(** The ready node of least position, and the rest. *)
Fixpoint take_ready (p : pending) : option (dnode * pending) :=
  match p with
  | [] => None
  | (n, []) :: p => Some (n, p)
  | (n, ds) :: p => match take_ready p with Some (r, p') => Some (r, (n, ds) :: p') | None => None end
  end.

Definition discard (id : string) (p : pending) : pending :=
  map (fun nd => (nd.1, List.filter (fun d => negb (String.eqb d id)) nd.2)) p.

(** [while pending]: each round removes a node. *)
Fixpoint schedule_loop (fuel : nat) (p : pending) (scheduled : list dnode) : res (list dnode) :=
  match p, fuel with
  | [], _ => Ok scheduled
  | _, O => Err OutOfFuel
  | _, S fuel =>
      match take_ready p with
      | None => fail "Graph dependencies contain a cycle"
      | Some (n, p) => schedule_loop fuel (discard (dn_id n) p) (scheduled ++ [n])
      end
  end.

(** [_scheduled_nodes] *)
Definition scheduled_nodes (nodes : list dnode) : res (list dnode) :=
  schedule_loop (length nodes) (map (fun n => (n, dependencies n)) nodes) [].

(** [validate_descriptor]; the descriptor with its types. *)
Definition validate_descriptor (value : dict) : res descriptor :=
  raise_if negb (keys_are value ["schema"; "graph_id"; "affine"; "nodes"])
  with "exact descriptor keys and schema are required" in
  let* schema := schema_version (default VNone (dget "schema" value)) in
  match dget "graph_id" value with
  | Some (VStr id) =>
      raise_if negb (is_identifier id) with "graph_id must be a bounded ASCII identifier" in
      let* shape := dsub value "affine" in
      let* shape := validate_affine shape in
      let* nodes := dsub value "nodes" in
      match nodes with
      | VList l =>
          raise_if negb (bool_decide (2 <= Z.of_nat (length l) <= PROGRAM_CAPACITY))
          with "node count is outside the bounded program" in
          let* nodes := foldM (validate_node schema) [] l in
          raise_if negb (store_count nodes =? 1) ||
                   negb (match last nodes with Some n => is_store n | None => false end)
          with "exactly one final STORE_U32 is required" in
          let* _ := traverse (check_operands nodes) nodes in
          let* _ := scheduled_nodes nodes in
          Ok (Descriptor schema id shape nodes)
      | _ => fail "node count is outside the bounded program"
      end
  | _ => fail "graph_id must be a bounded ASCII identifier"
  end.

(** ** Instruction words *)

Definition LOAD_U32 : Z := 1.
Definition ADD_U32 : Z := 2.
Definition STORE_U32 : Z := 3.
Definition MAX_U32 : Z := 4.
Definition MUL_U32 : Z := 5.
Definition ADD_IMM_U32 : Z := 6.
Definition GE_IMM_U32 : Z := 7.

Definition bin_code (o : dbin) : Z := match o with DAdd => ADD_U32 | DMax => MAX_U32 | DMul => MUL_U32 end.
Definition imm_code (o : dimm) : Z := match o with DAddImm => ADD_IMM_U32 | DGeImm => GE_IMM_U32 end.

Definition encode_load (destination : Z) (a : address) : res Z :=
  let head := Z.lor (Z.shiftl LOAD_U32 28) (Z.shiftl destination 25) in
  match a with
  | ASelector s =>
      let* k := from_option_err KeyError (index_of s SELECTORS) in Ok (Z.lor head (Z.shiftl k 22))
  | ARelative row column =>
      Ok (Z.lor (Z.lor head (Z.shiftl (Z.land row 0x1f) 20)) (Z.shiftl (Z.land column 0x1f) 15))
  end.

(** [_signed_five] and [_relative_load] *)
Definition signed_five (value : Z) : Z :=
  let value := Z.land value 0x1f in if Z.testbit value 4 then value - 32 else value.
Definition relative_load (word : Z) : Z * Z := (signed_five (Z.shiftr word 20), signed_five (Z.shiftr word 15)).

(** [encode_add], [encode_max] and [encode_mul] *)
Definition encode_bin (o : dbin) (destination source_a source_b : Z) : Z :=
  Z.lor (Z.lor (Z.lor (Z.shiftl (bin_code o) 28) (Z.shiftl destination 25)) (Z.shiftl source_a 22)) (Z.shiftl source_b 19).
Definition encode_store (source : Z) : Z := Z.lor (Z.shiftl STORE_U32 28) (Z.shiftl source 25).
(** [encode_add_immediate] and [encode_ge_immediate] *)
Definition encode_imm (o : dimm) (destination source immediate : Z) : Z :=
  Z.lor (Z.lor (Z.lor (Z.shiftl (imm_code o) 28) (Z.shiftl destination 25)) (Z.shiftl source 22)) immediate.

(** The word of a node with its registers. *)
Definition encode_op (o : dop) (destination : Z) (sources : list Z) : res Z :=
  match o with
  | DLoad a => encode_load destination a
  | DBin o _ _ => let* a := py_index sources 0 in let* b := py_index sources 1 in Ok (encode_bin o destination a b)
  | DImm o _ imm => let* a := py_index sources 0 in Ok (encode_imm o destination a imm)
  | DStore _ => let* a := py_index sources 0 in Ok (encode_store a)
  end.

(** [_program_version] *)
Definition program_version (d : descriptor) : Z :=
  if 2 <=? dc_schema d then dc_schema d + 1
  else if existsb (fun n => match dn_op n with DBin DMax _ _ => true | _ => false end) (dc_nodes d) then 2 else 1.

(** ** Lowering traces *)

(** [uses[id]]: the positions that read a value, once per operand. *)
Definition uses_at (nodes : list dnode) (id : string) : list Z :=
  concat (map (fun ni : Z * dnode => map (fun _ => ni.1) (List.filter (String.eqb id) (dependencies ni.2))) (enumerate nodes)).

Definition last_use (uses : list Z) : option Z :=
  match uses with [] => None | u :: us => Some (foldl Z.max u us) end.

Definition opt_int (o : option Z) : pyval := match o with Some z => VInt z | None => VNone end.

Definition address_val (a : address) : pyval :=
  match a with
  | ASelector s => VStr s
  | ARelative r c => VDict [("row_delta", VInt r); ("column_delta", VInt c)]
  end.
(** [node.get("address")], [node.get("immediate")] *)
Definition node_address_val (n : dnode) : pyval := match dn_op n with DLoad a => address_val a | _ => VNone end.
Definition node_immediate_val (n : dnode) : pyval := match dn_op n with DImm _ _ i => VInt i | _ => VNone end.

Definition trace_schema (version : Z) : string :=
  if 5 <=? version then "raveil.graph-device-lowering-trace/v2" else "raveil.graph-device-lowering-trace/v1".

(** One entry of [_lowering_trace]. *)
Definition trace_entry (version : Z) (nodes : list dnode) (count : Z) (allocations : gmap string Z)
    (iw : Z * (dnode * Z)) : res pyval :=
  let '(index, (n, w)) := iw in
  let uses := uses_at nodes (dn_id n) in
  let produces := negb (is_store n) in
  let last := if produces then last_use uses else None in
  let* sources := traverse (fun s => from_option_err KeyError (allocations !! s)) (dependencies n) in
  let* destination :=
    if produces then let* r := from_option_err KeyError (allocations !! dn_id n) in Ok (VInt r) else Ok VNone in
  Ok (VDict ([("index", VInt index); ("node_id", VStr (dn_id n)); ("op", VStr (op_text (dn_op n)));
    ("dependencies", VList (map VStr (dependencies n))); ("selector", node_address_val n);
    ("fan_out", VInt (Z.of_nat (length uses)));
    ("consumers", VList (map (fun c => VStr (dn_id (at_ n nodes c))) uses)); ("encoded_word", VInt w);
    ("source_registers", words_val sources); ("destination_register", destination);
    ("definition_index", if produces then VInt index else VNone); ("last_use_index", opt_int last);
    ("live_range", if produces then words_val [index; default (count - 1) last] else VNone);
    ("release_after_index", opt_int last)] ++
    if 5 <=? version then [("immediate", node_immediate_val n)] else [])).

Definition program_digest (instructions : list Z) : list Z := word_bytes (Z.of_nat (length instructions) :: instructions).

(** [_lowering_trace] *)
Definition lowering_trace (value : dict) (d : descriptor) (instructions : list Z) (allocations : gmap string Z) : res pyval :=
  let* nodes := scheduled_nodes (dc_nodes d) in
  let count := Z.of_nat (length instructions) in
  let* entries := traverse (trace_entry (program_version d) nodes count allocations) (enumerate (zip nodes instructions)) in
  Ok (VDict [("schema", VStr (trace_schema (program_version d))); ("graph_id", VStr (dc_graph_id d));
    ("descriptor_canonical_sha256", VStr (sha256_hex (canonical (VDict value))));
    ("program_version", VInt (program_version d)); ("instruction_count", VInt count);
    ("program_sha256", VStr (sha256_hex (program_digest instructions))); ("instructions", VList entries)]).

Definition entry_keys (version : Z) : list string :=
  ["index"; "node_id"; "op"; "dependencies"; "selector"; "fan_out"; "consumers"; "encoded_word"; "source_registers";
   "destination_register"; "definition_index"; "last_use_index"; "live_range"; "release_after_index"] ++
  (if 5 <=? version then ["immediate"] else []).

(** [d.get(k) == v] *)
Definition field_is (d : dict) (k : string) (v : pyval) : bool := py_eqb (default VNone (dget k d)) v.

(** One iteration of the loop in [validate_lowering_trace]. *)
Definition validate_trace_entry (version : Z) (nodes : list dnode) (count : Z) (allocations : gmap string Z)
    (inwe : Z * ((dnode * Z) * pyval)) : res (gmap string Z) :=
  let '(index, ((n, w), entry)) := inwe in
  match entry with
  | VDict e =>
      raise_if negb (keys_are e (entry_keys version)) with "lowering trace instruction fields are invalid" in
      raise_if (5 <=? version) && (negb (field_is e "immediate" (node_immediate_val n)) ||
               negb (same_type (default VNone (dget "immediate" e)) (node_immediate_val n)))
      with "lowering trace immediate is invalid" in
      let uses := uses_at nodes (dn_id n) in
      let* sources := traverse (fun s => from_option_err KeyError (allocations !! s)) (dependencies n) in
      raise_if negb (field_is e "index" (VInt index)) || negb (field_is e "node_id" (VStr (dn_id n))) ||
               negb (field_is e "op" (VStr (op_text (dn_op n)))) ||
               negb (field_is e "dependencies" (VList (map VStr (dependencies n)))) ||
               negb (field_is e "selector" (node_address_val n)) ||
               negb (field_is e "fan_out" (VInt (Z.of_nat (length uses)))) ||
               negb (field_is e "consumers" (VList (map (fun c => VStr (dn_id (at_ n nodes c))) uses))) ||
               negb (field_is e "encoded_word" (VInt w)) || negb (field_is e "source_registers" (words_val sources))
      with "lowering trace does not match the descriptor or words" in
      let produces := negb (is_store n) in
      let destination := Z.land (Z.shiftr w 25) 7 in
      let last := if produces then last_use uses else None in
      raise_if negb (field_is e "destination_register" (if produces then VInt destination else VNone)) ||
               negb (field_is e "definition_index" (if produces then VInt index else VNone)) ||
               negb (field_is e "last_use_index" (opt_int last)) ||
               negb (field_is e "live_range" (if produces then words_val [index; default (count - 1) last] else VNone)) ||
               negb (field_is e "release_after_index" (opt_int last))
      with "lowering trace lifetime or register is invalid" in
      let* expected := encode_op (dn_op n) destination sources in
      raise_if negb (w =? expected) with "lowering trace encoded word is invalid" in
      Ok (if produces then <[dn_id n := destination]> allocations else allocations)
  | _ => fail "lowering trace instruction fields are invalid"
  end.

(** [validate_lowering_trace] *)
Definition validate_lowering_trace (value trace : dict) (instructions : list Z) : res unit :=
  let* d := validate_descriptor value in
  let version := program_version d in
  let count := Z.of_nat (length instructions) in
  raise_if negb (keys_are trace ["schema"; "graph_id"; "descriptor_canonical_sha256"; "program_version";
                                 "instruction_count"; "program_sha256"; "instructions"]) ||
           negb (field_is trace "schema" (VStr (trace_schema version))) ||
           negb (field_is trace "graph_id" (VStr (dc_graph_id d))) ||
           negb (field_is trace "descriptor_canonical_sha256" (VStr (sha256_hex (canonical (VDict value))))) ||
           negb (field_is trace "program_version" (VInt version)) ||
           negb (field_is trace "instruction_count" (VInt count))
  with "lowering trace identity is invalid" in
  raise_if negb (field_is trace "program_sha256" (VStr (sha256_hex (program_digest instructions))))
  with "lowering trace program identity is invalid" in
  match dget "instructions" trace with
  | Some (VList entries) =>
      raise_if negb (length entries =? length (dc_nodes d))%nat with "lowering trace instruction count is invalid" in
      let* nodes := scheduled_nodes (dc_nodes d) in
      let* _ := foldM (validate_trace_entry version nodes count) ∅ (enumerate (zip (zip nodes instructions) entries)) in
      Ok tt
  | _ => fail "lowering trace instruction count is invalid"
  end.

(** ** The compiler *)

(** [remaining], [registers], [allocations], [free] and [instructions]. *)
Record dalloc := DAlloc {
  da_remaining : gmap string Z; da_registers : gmap string Z; da_allocations : gmap string Z;
  da_free : list Z; da_instructions : list Z;
}.

(** [remaining[source] -= 1], freeing the register of a value read for the last time. *)
Definition drop_use (st : dalloc) (source : string) : res dalloc :=
  let* r := from_option_err KeyError (da_remaining st !! source) in
  let remaining := <[source := r - 1]> (da_remaining st) in
  if r - 1 =? 0 then
    let* reg := from_option_err KeyError (da_registers st !! source) in
    Ok (DAlloc remaining (delete source (da_registers st)) (da_allocations st) (da_free st ++ [reg]) (da_instructions st))
  else Ok (DAlloc remaining (da_registers st) (da_allocations st) (da_free st) (da_instructions st)).

(** One iteration of the allocation loop. *)
Definition compile_node (st : dalloc) (n : dnode) : res dalloc :=
  let* sources := traverse (fun s => from_option_err KeyError (da_registers st !! s)) (dependencies n) in
  let* st := foldM drop_use st (dependencies n) in
  let free := sort (da_free st) in
  if is_store n then
    let* w := encode_op (dn_op n) 0 sources in
    Ok (DAlloc (da_remaining st) (da_registers st) (da_allocations st) free (da_instructions st ++ [w]))
  else
    match free with
    | [] => fail "Graph requires more than eight live values"
    | destination :: free =>
        let* w := encode_op (dn_op n) destination sources in
        Ok (DAlloc (da_remaining st) (<[dn_id n := destination]> (da_registers st))
              (<[dn_id n := destination]> (da_allocations st)) free (da_instructions st ++ [w]))
    end.

(** The number of reads of every value. *)
Definition initial_remaining (nodes : list dnode) : gmap string Z :=
  foldl (fun m s => <[s := default 0 (m !! s) + 1]> m) (list_to_map (map (fun n => (dn_id n, 0)) nodes))
    (concat (map dependencies nodes)).

Definition compile_nodes (nodes : list dnode) : res dalloc :=
  foldM compile_node (DAlloc (initial_remaining nodes) ∅ ∅ (zseq VALUE_REGISTERS) []) nodes.

Record program := Program {
  pg_graph_id : string; pg_affine : affine; pg_instructions : list Z; pg_sha256 : string;
  pg_trace : pyval; pg_payload : list Z; pg_transactions_per_output : Z;
}.

Definition payload_words (version : Z) (instructions : list Z) : list Z :=
  [PROGRAM_MAGIC; version; Z.of_nat (length instructions); VALUE_REGISTERS] ++ digest_words (program_digest instructions) ++
  instructions ++ replicate (Z.to_nat PROGRAM_CAPACITY - length instructions) 0 ++ [0; 0; 0; 0].

(** [compile_descriptor]; the assertion on the payload's length is an error of the model. *)
Definition compile_descriptor (value : dict) : res program :=
  let* d := validate_descriptor value in
  let* nodes := scheduled_nodes (dc_nodes d) in
  let* st := compile_nodes nodes in
  let instructions := da_instructions st in
  let payload := payload_words (program_version d) instructions in
  if negb (length payload =? Z.to_nat PROGRAM_WORDS)%nat then Err AssertionError
  else
    let* trace := lowering_trace value d instructions (da_allocations st) in
    let* _ := validate_lowering_trace value (match trace with VDict t => t | _ => [] end) instructions in
    Ok (Program (dc_graph_id d) (dc_affine d) instructions (sha256_hex (program_digest instructions)) trace payload
          (Z.of_nat (length (List.filter (fun w => Z.shiftr w 28 =? LOAD_U32) instructions)) + 1)).

(** ** The oracle *)

(** [_address] and [_node_address] *)
Definition node_address (a : address) (center stride : Z) : res Z :=
  match a with
  | ARelative r c => Ok (center + r * stride + c)
  | ASelector s =>
      let* k := from_option_err KeyError (index_of s SELECTORS) in
      let* off := py_index [0; - stride; stride; -1; 1] k in Ok (center + off)
  end.

(** [output[i] = v] *)
Definition py_set {A} (l : list A) (i : Z) (x : A) : res (list A) :=
  let n := Z.of_nat (length l) in
  if bool_decide (0 <= i < n) then Ok (set_at l i x)
  else if bool_decide (- n <= i < 0) then Ok (set_at l (n + i) x)
  else Err IndexError.

Definition value_of (values : gmap string Z) (x : string) : res Z := from_option_err KeyError (values !! x).

Definition bin_value (o : dbin) (a b : Z) : Z :=
  match o with DAdd => u32 (a + b) | DMax => Z.max a b | DMul => u32 (a * b) end.
Definition imm_value (o : dimm) (a imm : Z) : Z :=
  match o with DAddImm => u32 (a + imm) | DGeImm => if imm <=? a then 1 else 0 end.

(** One node of the oracle's inner loop: the values and the output. *)
Definition oracle_node (words : list Z) (center stride out_index : Z) (st : gmap string Z * list Z) (n : dnode)
    : res (gmap string Z * list Z) :=
  let '(values, output) := st in
  match dn_op n with
  | DLoad a =>
      let* at_ := node_address a center stride in
      let* w := py_index words at_ in Ok (<[dn_id n := w]> values, output)
  | DBin o x y =>
      let* a := value_of values x in let* b := value_of values y in
      Ok (<[dn_id n := bin_value o a b]> values, output)
  | DImm o x imm => let* a := value_of values x in Ok (<[dn_id n := imm_value o a imm]> values, output)
  | DStore x =>
      let* a := value_of values x in
      let* output := py_set output out_index a in Ok (values, output)
  end.

(** The grid loops: a function of the center and the output's index at every point. *)
Definition for_points {S} (af : affine) (f : Z -> Z -> S -> res S) (s : S) : res S :=
  foldM (fun s row =>
    foldM (fun s column =>
      f ((row + 1) * af_input_stride af + column + 1) (row * af_output_stride af + column) s)
      s (zseq (af_columns af))) s (zseq (af_rows af)).

(** [graph_oracle] *)
Definition graph_oracle (value : dict) (words : list Z) : res (list Z) :=
  let* d := validate_descriptor value in
  raise_if negb (length words =? 324)%nat with "input must contain exactly 324 words" in
  let* nodes := scheduled_nodes (dc_nodes d) in
  for_points (dc_affine d) (fun center out_index output =>
    let* ' (_, output) := foldM (oracle_node words center (af_input_stride (dc_affine d)) out_index) (∅, output) nodes in
    Ok output) (replicate 256 0).

(** ** The fallback *)

(** The integers of a list, [True] and [False] as 1 and 0. *)
Definition number (v : pyval) : option Z := match v with VInt z => Some z | VBool b => Some (if b then 1 else 0) | _ => None end.

Definition u32_val (v : pyval) : option Z :=
  match v with VInt z => if bool_decide (0 <= z <= 0xffffffff) then Some z else None | _ => None end.

(** [(word >> 25) & 7], [(word >> 22) & 7] and [(word >> 19) & 7] *)
Definition field3 (word shift : Z) : Z := Z.land (Z.shiftr word shift) 7.

Definition in_unit (z : Z) : bool := bool_decide (-1 <= z <= 1).

(** One instruction of [_validate_fallback_program]: the defined registers and the stores. *)
Definition check_instruction (version count : Z) (st : list Z * Z) (iw : Z * Z) : res (list Z * Z) :=
  let '(defined, stores) := st in
  let '(index, word) := iw in
  let final := index =? count - 1 in
  let opcode := Z.shiftr word 28 in
  let destination := field3 word 25 in
  let is_defined r := bool_decide (r ∈ defined) in
  if opcode =? LOAD_U32 then
    let '(row_delta, column_delta) := relative_load word in
    let legacy_invalid := (version <? 3) && ((4 <? field3 word 22) || negb (Z.land word (Z.shiftl 1 22 - 1) =? 0)) in
    let relative_invalid := (3 <=? version) &&
      (negb (Z.land word 0x7fff =? 0) || negb (in_unit row_delta) || negb (in_unit column_delta)) in
    raise_if final || legacy_invalid || relative_invalid with "fallback load instruction is invalid" in
    Ok (destination :: defined, stores)
  else if (opcode =? ADD_U32) || (opcode =? MAX_U32) || (opcode =? MUL_U32) then
    raise_if final || negb (Z.land word (Z.shiftl 1 19 - 1) =? 0) || negb (is_defined (field3 word 22)) ||
             negb (is_defined (field3 word 19)) || ((opcode =? MAX_U32) && negb (bool_decide (2 <= version <= 6))) ||
             ((opcode =? MUL_U32) && negb (bool_decide (4 <= version <= 6)))
    with "fallback arithmetic instruction is invalid" in
    Ok (destination :: defined, stores)
  else if (opcode =? ADD_IMM_U32) || (opcode =? GE_IMM_U32) then
    raise_if negb (if opcode =? GE_IMM_U32 then version =? 6 else bool_decide (5 <= version <= 6)) || final ||
             negb (is_defined (field3 word 22))
    with "fallback immediate instruction is invalid" in
    Ok (destination :: defined, stores)
  else if opcode =? STORE_U32 then
    raise_if negb final || negb (Z.land word (Z.shiftl 1 25 - 1) =? 0) || negb (is_defined destination)
    with "fallback store instruction is invalid" in
    Ok (defined, stores + 1)
  else fail "fallback program contains an unknown opcode".

(** [_validate_fallback_program]: the payload and the instructions. *)
Definition validate_fallback_program (program : dict) : res (list Z * list Z) :=
  match dget "payload" program, dget "instructions" program with
  | Some (VList payload), Some (VList instructions) =>
      let invalid {A} : res A := fail "fallback program payload is invalid" in
      if negb (length payload =? Z.to_nat PROGRAM_WORDS)%nat then invalid
      else
        match mapM u32_val payload with
        | None => invalid
        | Some words =>
            let word i := at_ 0 words i in
            raise_if negb (word 0 =? PROGRAM_MAGIC) || negb (bool_decide (1 <= word 1 <= 6)) || negb (word 3 =? VALUE_REGISTERS)
            with "fallback program header is invalid" in
            let count := word 2 in
            let code := take (Z.to_nat count) (drop 12 words) in
            raise_if negb (bool_decide (2 <= count <= PROGRAM_CAPACITY)) || negb (field_is program "instruction_count" (VInt count)) ||
                     negb (py_eqb (VList instructions) (words_val code)) ||
                     existsb (fun i => negb (word i =? 0)) (zrange (12 + count) PROGRAM_WORDS)
            with "fallback program count or padding is invalid" in
            raise_if negb (field_is program "program_sha256" (VStr (sha256_hex (program_digest code)))) ||
                     negb (bool_decide (take 8 (drop 4 words) = digest_words (program_digest code)))
            with "fallback program digest is invalid" in
            let* ' (_, stores) := foldM (check_instruction (word 1) count) ([], 0) (enumerate code) in
            raise_if negb (stores =? 1) with "fallback program must have one final store" in
            Ok (words, code)
        end
  | _, _ => fail "fallback program payload is invalid"
  end.

(** [program["affine"]] with integer fields *)
Definition program_affine (program : dict) : res affine :=
  let* v := dsub program "affine" in
  match v with
  | VDict d =>
      let field k := let* x := dsub d k in as_int x in
      let* rows := field "rows" in let* columns := field "columns" in
      let* input_stride := field "input_stride" in let* output_stride := field "output_stride" in
      Ok (Affine rows columns input_stride output_stride)
  | _ => Err TypeError
  end.

(** The address a load reads. *)
Definition load_address (version center stride word : Z) : res Z :=
  if 3 <=? version then
    let '(row_delta, column_delta) := relative_load word in Ok (center + row_delta * stride + column_delta)
  else
    let* off := match py_index [0; - stride; stride; -1; 1] (field3 word 22) with Ok x => Ok x | Err _ => Err KeyError end in
    Ok (center + off).

(** One instruction of the interpreter. *)
Definition fallback_step (version stride : Z) (words : list Z) (center out_index : Z) (st : list Z * list Z) (word : Z)
    : res (list Z * list Z) :=
  let '(values, output) := st in
  let opcode := Z.shiftr word 28 in
  let destination := field3 word 25 in
  let a := at_ 0 values (field3 word 22) in
  let b := at_ 0 values (field3 word 19) in
  let imm := Z.land word MAX_IMMEDIATE in
  if opcode =? LOAD_U32 then
    let* address := load_address version center stride word in
    let* w := py_index words address in Ok (set_at values destination w, output)
  else if opcode =? ADD_U32 then Ok (set_at values destination (u32 (a + b)), output)
  else if opcode =? MAX_U32 then Ok (set_at values destination (Z.max a b), output)
  else if opcode =? MUL_U32 then Ok (set_at values destination (u32 (a * b)), output)
  else if opcode =? ADD_IMM_U32 then Ok (set_at values destination (u32 (a + imm)), output)
  else if opcode =? GE_IMM_U32 then Ok (set_at values destination (if imm <=? a then 1 else 0), output)
  else if opcode =? STORE_U32 then
    let* output := py_set output out_index (at_ 0 values destination) in Ok (values, output)
  else fail "program contains an unknown opcode".

(** [software_fallback] *)
Definition software_fallback (program : dict) (words : list Z) : res (list Z) :=
  let* ' (payload, instructions) := validate_fallback_program program in
  raise_if negb (length words =? 324)%nat with "fallback input must contain exactly 324 words" in
  let* af := program_affine program in
  for_points af (fun center out_index output =>
    let* ' (_, output) := foldM (fallback_step (at_ 0 payload 1) (af_input_stride af) words center out_index)
      (replicate (Z.to_nat VALUE_REGISTERS) 0, output) instructions in
    Ok output) (replicate 256 0).

(** ** Memory transactions *)

Record transaction := Transaction { tx_write : bool; tx_address : Z; tx_data : Z }.

(** The transaction of an instruction, if it has one. *)
Definition instruction_transactions (version stride : Z) (oracle : list Z) (center out_index word : Z) : res (list transaction) :=
  let opcode := Z.shiftr word 28 in
  if opcode =? LOAD_U32 then
    let* address := load_address version center stride word in Ok [Transaction false address 0]
  else if opcode =? STORE_U32 then
    let* v := py_index oracle out_index in Ok [Transaction true (324 + out_index) v]
  else if bool_decide (opcode ∈ [ADD_U32; MAX_U32; MUL_U32; ADD_IMM_U32; GE_IMM_U32]) then Ok []
  else fail "program contains an unknown opcode".

(** [expected_transactions] *)
Definition expected_transactions (program : dict) (words : list Z) : res (list transaction) :=
  let* oracle := software_fallback program words in
  let* ' (payload, instructions) := validate_fallback_program program in
  let* af := program_affine program in
  for_points af (fun center out_index result =>
    let* l := traverse (instruction_transactions (at_ 0 payload 1) (af_input_stride af) oracle center out_index) instructions in
    Ok (result ++ concat l)) [].

(** [_require_transactions] *)
Definition same_transaction (observed planned : transaction) : bool :=
  Bool.eqb (tx_write observed) (tx_write planned) && (tx_address observed =? tx_address planned) &&
  (negb (tx_write planned) || (tx_data observed =? tx_data planned)).

Definition require_transactions (actual expected : list transaction) (strict_prefix allow_empty_prefix : bool) : res unit :=
  let n := Z.of_nat (length actual) in
  let* expected :=
    if strict_prefix then
      let minimum := if allow_empty_prefix then 0 else 1 in
      raise_if negb (bool_decide (minimum <= n < Z.of_nat (length expected)))
      with "trace is not a strict " +:+ (if allow_empty_prefix then "possibly empty" else "nonempty") +:+ " prefix" in
      Ok (take (length actual) expected)
    else
      raise_if negb (length actual =? length expected)%nat with "completed transaction count changed" in Ok expected in
  let* _ := traverse (fun iop : Z * (transaction * transaction) =>
      let '(index, (observed, planned)) := iop in
      raise_if negb (same_transaction observed planned) with "transaction mismatch at index " +:+ pretty index in Ok tt)
    (enumerate (zip actual expected)) in
  Ok tt.

(** ** Programs as documents *)

Definition affine_val (a : affine) : pyval :=
  VDict [("rows", VInt (af_rows a)); ("columns", VInt (af_columns a)); ("input_stride", VInt (af_input_stride a));
         ("output_stride", VInt (af_output_stride a))].

(** The dictionary [compile_descriptor] returns. *)
Definition program_val (p : program) : dict :=
  [("graph_id", VStr (pg_graph_id p)); ("affine", affine_val (pg_affine p));
   ("instruction_count", VInt (Z.of_nat (length (pg_instructions p)))); ("instructions", words_val (pg_instructions p));
   ("program_sha256", VStr (pg_sha256 p)); ("lowering_trace", pg_trace p); ("payload", words_val (pg_payload p));
   ("transactions_per_output", VInt (pg_transactions_per_output p))].

(** A generated C++ header names every program's payload: [_generated_header]. *)
Definition generated_header (graphs : list program) : string :=
  let q s := str1 34 +:+ s +:+ str1 34 in
  let graph p :=
    "  {" +:+ q (pg_graph_id p) +:+ ", " +:+ q (if af_rows (pg_affine p) =? 8 then "compact" else "baseline") +:+ ", {{" +:+
    String.concat ", " (map (fun w => "0x" +:+ FoldLines.format_hex 8 w +:+ "U") (pg_payload p)) +:+ "}}}," in
  String.concat (String (chr 10) "")
    (["#ifndef RAVEIL_GRAPH_DEVICE_DAG_GENERATED_H"; "#define RAVEIL_GRAPH_DEVICE_DAG_GENERATED_H";
      "#include <array>"; "#include <cstdint>"; "namespace raveil::graph_device::dag_generated {";
      "struct Graph { const char* id; const char* affine; std::array<std::uint32_t, 32> payload; };";
      "inline constexpr std::array<Graph, " +:+ pretty (Z.of_nat (length graphs)) +:+ "> kGraphs = {{"] ++
     map graph graphs ++ ["}};"; "}  // namespace raveil::graph_device::dag_generated"; "#endif"; ""]).

(** ** A concrete descriptor: [contracts/graph_device_dags/vertical-three-point.json] *)

Definition load_val (id : string) : pyval := VDict [("id", VStr id); ("op", VStr "LOAD_U32"); ("address", VStr id)].
Definition bin_val (id op x y : string) : pyval := VDict [("id", VStr id); ("op", VStr op); ("inputs", VList [VStr x; VStr y])].
Definition vertical_three_point : dict :=
  [("schema", VStr "raveil.graph-device-dag/v1"); ("graph_id", VStr "vertical-three-point");
   ("affine", affine_val (Affine 16 16 18 16));
   ("nodes", VList [load_val "center"; load_val "north"; bin_val "sum0" "ADD_U32" "center" "north"; load_val "south";
      bin_val "sum1" "ADD_U32" "sum0" "south"; VDict [("id", VStr "store"); ("op", VStr "STORE_U32"); ("input", VStr "sum1")]])].

Example vertical_compiles :
  (let* p := compile_descriptor vertical_three_point in Ok (pg_instructions p, pg_transactions_per_output p)) =
  Ok ([0x10000000; 0x12400000; 0x20080000; 0x12800000; 0x20080000; 0x30000000], 4).
Proof. vm_compute. reflexivity. Qed.
Example vertical_fallback :
  (let* p := compile_descriptor vertical_three_point in
   let* a := software_fallback (program_val p) (zseq 324) in
   let* b := graph_oracle vertical_three_point (zseq 324) in Ok (bool_decide (a = b), at_ 0 a 0)) = Ok (true, 57).
Proof. vm_compute. reflexivity. Qed.
