(* ===== verification/DeviceScheduleFacts.v ===== *)
(** * The device compiler's schedule

    [schedule_correct]: the schedule is a permutation of the nodes in which every
    operand precedes its reader; it exists exactly when some such order does;
    and a descriptor already in such an order keeps it. [schedule_store_last]:
    the store, which nothing reads, stays last. *)

From S2P Require Import Prelude PyValue DeviceProgram.

Abbreviation ids l := (map dn_id l).

(** Every operand of a node is computed before it. *)
Definition ordered (l : list dnode) : Prop :=
  forall l1 n l2, l = l1 ++ n :: l2 -> forall d, d ∈ dependencies n -> d ∈ ids l1.

Lemma ordered_nil : ordered [].
Proof. intros [|? l1] n l2; discriminate. Qed.

Lemma ordered_snoc l n : ordered l -> (forall d, d ∈ dependencies n -> d ∈ ids l) -> ordered (l ++ [n]).
Proof.
  intros Hl Hn l1 m l2 Heq d Hd.
  destruct l2 as [|x l2 _] using rev_ind.
  - apply app_inj_tail in Heq as [<- <-]. by apply Hn.
  - rewrite app_comm_cons, app_assoc in Heq. apply app_inj_tail in Heq as [-> _]. by eapply Hl.
Qed.

Lemma ordered_prefix l1 l2 : ordered (l1 ++ l2) -> ordered l1.
Proof. intros H k1 n k2 ->. eapply (H k1 n (k2 ++ l2)). by rewrite <- app_assoc. Qed.

(** The loop's state: the open dependencies are those not yet scheduled. *)
Record loop_inv (nodes : list dnode) (p : pending) (scheduled : list dnode) : Prop := {
  li_perm : map fst p ++ scheduled ≡ₚ nodes;
  li_open : forall n ds d, (n, ds) ∈ p -> d ∈ ds <-> d ∈ dependencies n /\ d ∉ ids scheduled;
  li_ordered : ordered scheduled;
}.

Lemma take_ready_Some p n p' :
  take_ready p = Some (n, p') -> exists p1 p2, p = p1 ++ (n, []) :: p2 /\ p' = p1 ++ p2 /\
    Forall (fun nd => nd.2 <> []) p1.
Proof.
  revert p'. induction p as [|[m ds] p IH]; intros p' H; [done|]. cbn in H. destruct ds as [|d ds].
  - injection H as -> ->. exists [], p'. by split_and!.
  - destruct (take_ready p) as [[r q]|]; [|done]. injection H as -> <-.
    destruct (IH q eq_refl) as (p1 & p2 & -> & -> & Hf). exists ((m, d :: ds) :: p1), p2.
    split_and!; [done|done|by constructor].
Qed.

Lemma take_ready_None p : take_ready p = None <-> Forall (fun nd => nd.2 <> []) p.
Proof.
  induction p as [|[m [|d ds]] p IH]; cbn.
  - by split.
  - split; [done|]. intros H. by apply Forall_cons in H as [? _].
  - rewrite Forall_cons. destruct (take_ready p) as [[]|].
    + split; [done|]. intros [_ H]. by apply IH in H.
    + split; [|done]. intros _. split; [done|]. by apply IH.
Qed.

Lemma elem_of_discard id p n ds :
  (n, ds) ∈ discard id p <-> exists ds', (n, ds') ∈ p /\ ds = List.filter (fun d => negb (String.eqb d id)) ds'.
Proof.
  unfold discard. rewrite list_elem_of_fmap. split.
  - intros ([m ds'] & [= -> ->] & H). eauto.
  - intros (ds' & H & ->). by exists (n, ds').
Qed.

Lemma fst_discard id p : map fst (discard id p) = map fst p.
Proof. unfold discard. rewrite map_map. by apply map_ext. Qed.

Lemma loop_inv_step nodes p scheduled n p' :
  loop_inv nodes p scheduled -> take_ready p = Some (n, p') ->
  loop_inv nodes (discard (dn_id n) p') (scheduled ++ [n]).
Proof.
  intros [Hperm Hopen Hord] Hr. apply take_ready_Some in Hr as (p1 & p2 & -> & -> & _).
  split.
  - rewrite fst_discard, map_app, <- Hperm, map_app. cbn [map fst]. rewrite <- !app_assoc.
    apply Permutation_app_head. cbn [app]. rewrite app_assoc. symmetry. apply Permutation_cons_append.
  - intros m ds d Hm. apply elem_of_discard in Hm as (ds' & Hm & ->).
    rewrite list_elem_of_In, filter_In, <- list_elem_of_In, negb_true_iff, String.eqb_neq.
    rewrite (Hopen m ds' d).
    2:{ apply elem_of_app in Hm as [?|?]; apply elem_of_app; [by left|right; by right]. }
    rewrite map_app, elem_of_app. cbn [map]. rewrite list_elem_of_singleton. tauto.
  - apply ordered_snoc; [done|]. intros d Hd.
    destruct (decide (d ∈ ids scheduled)) as [|Hni]; [done|].
    assert (d ∈ @nil string) as []%elem_of_nil.
    apply (Hopen n [] d); [|done]. apply elem_of_app. right. left.
Qed.

Lemma loop_inv_length nodes p scheduled :
  loop_inv nodes p scheduled -> length nodes = (length p + length scheduled)%nat.
Proof. intros [Hp _ _]. rewrite <- Hp, length_app, length_map. done. Qed.

Lemma loop_inv_initial nodes : loop_inv nodes (map (fun n => (n, dependencies n)) nodes) [].
Proof.
  split; [|intros n ds d Hn|apply ordered_nil].
  - rewrite map_map, app_nil_r. cbn. by rewrite map_id.
  - apply list_elem_of_fmap in Hn as (m & [= -> ->] & _). split; [|by intros [? _]].
    intros. split; [done|]. by intros ?%elem_of_nil.
Qed.

(** What the loop returns. *)
Lemma schedule_loop_sound fuel nodes p scheduled l :
  loop_inv nodes p scheduled -> schedule_loop fuel p scheduled = Ok l -> l ≡ₚ nodes /\ ordered l.
Proof.
  revert p scheduled. induction fuel as [|fuel IH]; intros p scheduled Hinv H; cbn in H.
  - destruct p; [|discriminate H]. injection H as <-. destruct Hinv as [Hp _ Ho]. done.
  - destruct p as [|x p]; [injection H as <-; by destruct Hinv|].
    destruct (take_ready (x :: p)) as [[n p']|] eqn:Hr; [|discriminate H].
    eapply IH; [by eapply loop_inv_step|done].
Qed.

(** A state from which some order exists has a ready node. *)
Lemma ready_exists nodes p scheduled l :
  NoDup (ids nodes) -> loop_inv nodes p scheduled -> l ≡ₚ nodes -> ordered l -> p <> [] -> take_ready p <> None.
Proof.
  intros Hnd [Hperm Hopen _] Hl Hord Hp Hr. apply take_ready_None in Hr.
  assert (Hfirst : exists l1 n l2, l = l1 ++ n :: l2 /\ n ∈ map fst p /\ Forall (fun m => m ∉ map fst p) l1).
  { assert (Hex : Exists (fun m => m ∈ map fst p) l).
    { destruct p as [|[n ds] p]; [done|]. apply Exists_exists. exists n. split; [|left].
      rewrite Hl, <- Hperm. left. }
    clear -Hex. induction l as [|m l IH]; [by apply Exists_nil in Hex|].
    destruct (decide (m ∈ map fst p)) as [|Hm]; [by exists [], m, l|].
    apply Exists_cons in Hex as [?|Hex]; [done|].
    destruct (IH Hex) as (l1 & n & l2 & -> & ? & ?). exists (m :: l1), n, l2. split_and!; [done|done|by constructor]. }
  destruct Hfirst as (l1 & n & l2 & -> & Hn & Hl1).
  apply list_elem_of_fmap in Hn as ([n' ds] & -> & Hn). cbn [fst] in *.
  rewrite Forall_forall in Hr. destruct ds as [|d ds]; [by apply (Hr _ Hn)|].
  assert (Hd : d ∈ dependencies n' /\ d ∉ ids scheduled) by (apply (Hopen n' (d :: ds) d Hn); left).
  destruct Hd as [Hd Hns]. apply Hns.
  pose proof (Hord l1 n' l2 eq_refl d Hd) as Hin.
  apply list_elem_of_fmap in Hin as (m & -> & Hm). apply list_elem_of_fmap. exists m. split; [done|].
  assert (Hmn : m ∈ nodes) by (rewrite <- Hl; apply elem_of_app; by left).
  rewrite <- Hperm in Hmn. apply elem_of_app in Hmn as [Hmp|]; [|done].
  rewrite Forall_forall in Hl1. by destruct (Hl1 m Hm).
Qed.

Lemma schedule_loop_complete fuel nodes p scheduled l :
  NoDup (ids nodes) -> l ≡ₚ nodes -> ordered l -> loop_inv nodes p scheduled -> (length p <= fuel)%nat ->
  exists l', schedule_loop fuel p scheduled = Ok l'.
Proof.
  intros Hnd Hl Hord. revert p scheduled. induction fuel as [|fuel IH]; intros p scheduled Hinv Hf.
  - destruct p; [by exists scheduled|cbn in Hf; lia].
  - destruct p as [|x p]; [by exists scheduled|]. cbn [schedule_loop].
    destruct (take_ready (x :: p)) as [[n p']|] eqn:Hr.
    + apply (IH (discard (dn_id n) p') (scheduled ++ [n])); [by eapply loop_inv_step|].
      apply take_ready_Some in Hr as (p1 & p2 & Heq & -> & _).
      rewrite <- (length_map fst), fst_discard, length_map, length_app.
      apply (f_equal length) in Heq. rewrite length_app in Heq. cbn in Heq, Hf. lia.
    + exfalso. by eapply ready_exists; [exact Hnd|exact Hinv|exact Hl|exact Hord| |exact Hr].
Qed.

Lemma schedule_loop_stable fuel nodes p scheduled :
  loop_inv nodes p scheduled -> nodes = scheduled ++ map fst p -> ordered nodes -> (length p <= fuel)%nat ->
  schedule_loop fuel p scheduled = Ok nodes.
Proof.
  revert p scheduled. induction fuel as [|fuel IH]; intros p scheduled Hinv Heq Hord Hf.
  { destruct p; [|cbn in Hf; lia]. cbn. by rewrite app_nil_r in Heq; subst. }
  destruct p as [|[n ds] p]; [cbn; by rewrite app_nil_r in Heq; subst|].
  assert (ds = []) as ->.
  { destruct ds as [|d ds]; [done|]. exfalso.
    assert (d ∈ dependencies n /\ d ∉ ids scheduled) as [Hd Hni].
    { apply (li_open _ _ _ Hinv n (d :: ds) d); left. }
    apply Hni. by apply (Hord scheduled n (map fst p)). }
  cbn [schedule_loop take_ready]. apply IH; [by eapply loop_inv_step| |done|].
  - rewrite fst_discard, Heq. cbn [map fst]. by rewrite <- app_assoc.
  - rewrite <- (length_map fst), fst_discard, length_map. cbn in Hf. lia.
Qed.

Lemma discard_id id p : Forall (fun nd => id ∉ nd.2) p -> discard id p = p.
Proof.
  unfold discard. induction 1 as [|[n ds] p Hn _ IH]; [done|]. cbn in *. rewrite IH. do 2 f_equal.
  induction ds as [|d ds IHd]; [done|]. cbn. apply not_elem_of_cons in Hn as [Hd Hn].
  rewrite (proj2 (String.eqb_neq d id)) by done. cbn. by rewrite IHd.
Qed.

Lemma discard_Forall id id' p : Forall (fun nd => id ∉ nd.2) p -> Forall (fun nd => id ∉ nd.2) (discard id' p).
Proof.
  unfold discard. rewrite Forall_map. intros Hp. eapply Forall_impl; [exact Hp|]. intros [n ds] H. cbn in *.
  rewrite list_elem_of_In, filter_In, <- list_elem_of_In. tauto.
Qed.

Lemma schedule_loop_last fuel p0 st ds scheduled l :
  Forall (fun nd => dn_id st ∉ nd.2) p0 -> schedule_loop fuel (p0 ++ [(st, ds)]) scheduled = Ok l ->
  exists l0, l = l0 ++ [st].
Proof.
  revert p0 ds scheduled. induction fuel as [|fuel IH]; intros p0 ds scheduled Hp H; [by destruct p0|].
  assert (Hs : schedule_loop (S fuel) (p0 ++ [(st, ds)]) scheduled =
    match take_ready (p0 ++ [(st, ds)]) with
    | None => fail "Graph dependencies contain a cycle"
    | Some (n, p) => schedule_loop fuel (discard (dn_id n) p) (scheduled ++ [n])
    end) by (by destruct p0).
  rewrite Hs in H. destruct (take_ready _) as [[n p']|] eqn:Hr; [|discriminate H].
  apply take_ready_Some in Hr as (p1 & p2 & Heq & -> & Hnr).
  destruct p2 as [|x p2 _] using rev_ind.
  - apply app_inj_tail in Heq as [<- [= <- ->]]. rewrite app_nil_r, discard_id in H by done.
    destruct p0 as [|y p0]; [exists scheduled; by destruct fuel; injection H as <-|].
    destruct fuel as [|fuel]; [discriminate H|]. cbn [schedule_loop] in H.
    rewrite (proj2 (take_ready_None (y :: p0)) Hnr) in H. discriminate H.
  - rewrite app_comm_cons, app_assoc in Heq. apply app_inj_tail in Heq as [-> <-].
    rewrite app_assoc in H. unfold discard in H. rewrite map_app in H. cbn [map] in H.
    eapply IH; [|exact H]. apply discard_Forall.
    apply Forall_app in Hp as [? Hp]. apply Forall_cons in Hp as [_ ?]. by apply Forall_app.
Qed.

Lemma scheduled_sound nodes l : scheduled_nodes nodes = Ok l -> l ≡ₚ nodes /\ ordered l.
Proof. apply schedule_loop_sound, loop_inv_initial. Qed.

Lemma scheduled_store_last nodes st l :
  Forall (fun n => dn_id st ∉ dependencies n) nodes ->
  scheduled_nodes (nodes ++ [st]) = Ok l -> exists l0, l = l0 ++ [st] /\ l0 ≡ₚ nodes.
Proof.
  intros Hn H. pose proof (scheduled_sound _ _ H) as [Hperm _].
  unfold scheduled_nodes in H. rewrite map_app in H. cbn [map] in H.
  apply schedule_loop_last in H as [l0 ->].
  - exists l0. split; [done|]. by apply Permutation_app_inv_r in Hperm.
  - by rewrite Forall_map.
Qed.

(** C32. The schedule of nodes with distinct names is one of their orders in which
    every operand precedes its reader; it is found exactly when there is such an
    order, and otherwise the compiler reports a cycle; nodes already in such an
    order keep it. *)
Theorem schedule_correct nodes :
  NoDup (ids nodes) ->
  (forall l, scheduled_nodes nodes = Ok l -> l ≡ₚ nodes /\ ordered l) /\
  (is_ok (scheduled_nodes nodes) = true <-> exists l, l ≡ₚ nodes /\ ordered l) /\
  (forall e, scheduled_nodes nodes = Err e -> e = ValueError "Graph dependencies contain a cycle") /\
  (ordered nodes -> scheduled_nodes nodes = Ok nodes).
Proof.
  intros Hnd. split_and!.
  - apply scheduled_sound.
  - split.
    + destruct (scheduled_nodes nodes) as [l|] eqn:E; [|done]. intros _. exists l. by apply scheduled_sound.
    + intros (l & Hl & Ho).
      destruct (schedule_loop_complete (length nodes) nodes (map (fun n => (n, dependencies n)) nodes) [] l)
        as [l' Hl']; [done|done|done|apply loop_inv_initial|by rewrite length_map|].
      unfold scheduled_nodes. by rewrite Hl'.
  - assert (Hgen : forall fuel p s e, (length p <= fuel)%nat -> schedule_loop fuel p s = Err e ->
      e = ValueError "Graph dependencies contain a cycle").
    { induction fuel as [|fuel IH]; intros p s e Hf H.
      - destruct p; [discriminate H|cbn in Hf; lia].
      - destruct p as [|x p]; [discriminate H|]. cbn [schedule_loop] in H.
        destruct (take_ready (x :: p)) as [[n p']|] eqn:Hr; [|by injection H as <-].
        eapply IH; [|exact H]. apply take_ready_Some in Hr as (p1 & p2 & Heq & -> & _).
        rewrite <- (length_map fst), fst_discard, length_map, length_app.
        apply (f_equal length) in Heq. rewrite length_app in Heq. cbn in Heq, Hf. lia. }
    intros e. apply Hgen. by rewrite length_map.
  - intros Ho. apply schedule_loop_stable; [apply loop_inv_initial| |done|by rewrite length_map].
    rewrite map_map. cbn. by rewrite map_id.
Qed.

Lemma schedule_correct_witness :
  let b := DNode "b" (DImm DAddImm "a" 1) in
  let a := DNode "a" (DLoad (ASelector "center")) in
  NoDup (ids [b; a]) /\ scheduled_nodes [b; a] = Ok [a; b] /\ ordered [a; b].
Proof.
  cbn zeta. assert (Hnd : NoDup (ids [DNode "b" (DImm DAddImm "a" 1); DNode "a" (DLoad (ASelector "center"))])).
  { apply (bool_decide_eq_true_1 _). vm_compute. reflexivity. }
  split; [exact Hnd|]. split; [reflexivity|].
  apply (proj1 (schedule_correct _ Hnd)). reflexivity.
Defined.
