(* ===== verification/DeviceProgramFacts.v ===== *)
(** * Facts about stencil programs

    What admission establishes of a descriptor, what every instruction word
    says, the invariant of the register allocator, the simulation of a compiled
    program by the fallback interpreter and the admission of the compiled
    document by the fallback. *)

From S2P Require Import Prelude PyValue Json AffineFold AffineFoldFacts FoldMachine FoldMachineFacts FoldWire.
From S2P Require Import FoldWireFacts Evidence Sha256 Sha256Facts DeviceProgram DeviceScheduleFacts.

(** ** What admission establishes *)

Definition affine_ok (a : affine) : Prop :=
  1 <= af_rows a <= 16 /\ 1 <= af_columns a <= 16 /\ af_columns a + 2 <= af_input_stride a /\
  af_columns a <= af_output_stride a /\ (af_rows a + 1) * af_input_stride a + af_columns a < 324 /\
  (af_rows a - 1) * af_output_stride a + af_columns a - 1 < 256.

Definition node_ok (schema : Z) (n : dnode) : Prop :=
  match dn_op n with
  | DLoad (ASelector s) => schema = 1 /\ s ∈ SELECTORS
  | DLoad (ARelative r c) => 2 <= schema /\ -1 <= r <= 1 /\ -1 <= c <= 1
  | DBin DMul _ _ => 3 <= schema
  | DBin _ _ _ => True
  | DImm DAddImm _ imm => 4 <= schema /\ 0 <= imm < 2 ^ 22
  | DImm DGeImm _ imm => schema = 5 /\ 0 <= imm < 2 ^ 22
  | DStore _ => True
  end.

Record descriptor_ok (d : descriptor) : Prop := {
  do_schema : 1 <= dc_schema d <= 5;
  do_affine : affine_ok (dc_affine d);
  do_length : 2 <= Z.of_nat (length (dc_nodes d)) <= 16;
  do_nodup : NoDup (ids (dc_nodes d));
  do_nodes : Forall (node_ok (dc_schema d)) (dc_nodes d);
  do_store : exists pre st, dc_nodes d = pre ++ [st] /\ is_store st = true /\
    Forall (fun n => is_store n = false) pre /\ Forall (fun n => dn_id st ∉ dependencies n) pre;
  do_scheduled : exists l, scheduled_nodes (dc_nodes d) = Ok l;
}.

Lemma in_strings_Ok v set b : in_strings v set = Ok b -> b = true -> exists s, v = VStr s /\ s ∈ set.
Proof.
  unfold in_strings. intros H ->. destruct v; res_inv; try discriminate. bool_prop. eauto.
Qed.

Lemma schema_version_range v s : schema_version v = Ok s -> 1 <= s <= 5.
Proof.
  unfold schema_version. intros H. res_inv.
  destruct (index_of s0 graph_schemas) as [k|] eqn:Hk; [|discriminate E1].
  apply index_of_range in Hk as [Hk _]. cbn in Hk, E1. injection E1 as <-. lia.
Qed.

Lemma validate_affine_ok v a : validate_affine v = Ok a -> affine_ok a.
Proof.
  unfold validate_affine. intros H. res_inv. bool_prop. unfold affine_ok. cbn. lia.
Qed.

Lemma validate_op_ok schema stores d op o id :
  1 <= schema <= 5 -> validate_op schema stores d op = Ok o ->
  node_ok schema (DNode id o) /\ (is_store (DNode id o) = true -> stores = 0).
Proof.
  intros Hs H. unfold validate_op in H. unfold node_ok, is_store. cbn [dn_op].
  destruct (String.eqb op "GE_IMM_U32" && negb (schema =? 5)) eqn:E1; [discriminate H|].
  destruct (String.eqb op "MUL_U32" && (schema <? 3)) eqn:E2; [discriminate H|].
  destruct (String.eqb op "LOAD_U32").
  { unfold validate_address in H. res_inv; bool_prop; (split; [|done]); [done|].
    split_and!; lia. }
  destruct (String.eqb op "ADD_IMM_U32").
  { unfold validate_imm in H. res_inv. bool_prop. split; [|done]. unfold MAX_IMMEDIATE in *.
    change (Z.shiftl 1 22) with (2 ^ 22) in *. lia. }
  destruct (String.eqb op "GE_IMM_U32").
  { unfold validate_imm in H. res_inv. bool_prop. split; [|done]. unfold MAX_IMMEDIATE in *.
    change (Z.shiftl 1 22) with (2 ^ 22) in *. lia. }
  destruct (String.eqb op "ADD_U32"); [unfold validate_bin in H; by res_inv|].
  destruct (String.eqb op "MAX_U32"); [unfold validate_bin in H; by res_inv|].
  destruct (String.eqb op "MUL_U32").
  { unfold validate_bin in H. res_inv. split; [|done]. cbn in E2. bool_prop. lia. }
  res_inv. bool_prop. done.
Qed.

(** The nodes admitted so far. *)
Definition nodes_ok (schema : Z) (nodes : list dnode) : Prop :=
  NoDup (ids nodes) /\ Forall (node_ok schema) nodes.

Lemma validate_node_ok schema nodes v nodes' :
  1 <= schema <= 5 -> nodes_ok schema nodes -> validate_node schema nodes v = Ok nodes' ->
  nodes_ok schema nodes' /\ length nodes' = S (length nodes).
Proof.
  intros Hs [Hnd Hok] H. unfold validate_node in H. res_inv. bool_prop.
  match goal with H : validate_op _ _ _ _ = Ok ?o |- _ => apply (validate_op_ok _ _ _ _ _ s) in H as [? _]; [|done] end.
  split; [split|rewrite length_app; cbn; lia].
  - rewrite map_app. cbn. apply NoDup_app. split_and!; [done| |apply NoDup_singleton].
    by intros x Hx ->%list_elem_of_singleton.
  - by apply Forall_app; split; [|constructor].
Qed.

Lemma find_node_spec id nodes n :
  NoDup (ids nodes) -> n ∈ nodes -> dn_id n = id -> find_node id nodes = Some n.
Proof.
  intros Hnd Hn <-. unfold find_node. induction nodes as [|m nodes IH]; [by apply elem_of_nil in Hn|].
  cbn in Hnd. apply NoDup_cons in Hnd as [Hm Hnd]. cbn [List.find].
  destruct (String.eqb_spec (dn_id m) (dn_id n)) as [He|Hne].
  - apply elem_of_cons in Hn as [->|Hn]; [done|]. destruct Hm. rewrite He. by apply list_elem_of_fmap_2.
  - apply IH; [done|]. by apply elem_of_cons in Hn as [->|].
Qed.

Lemma store_count_split nodes st :
  last nodes = Some st -> is_store st = true -> store_count nodes = 1 ->
  exists pre, nodes = pre ++ [st] /\ Forall (fun n => is_store n = false) pre.
Proof.
  intros Hl Hs Hc. apply last_Some in Hl as [pre ->]. exists pre. split; [done|].
  unfold store_count in Hc. rewrite List.filter_app, length_app in Hc. cbn in Hc. rewrite Hs in Hc. cbn in Hc.
  assert (Hz : List.filter is_store pre = []) by (destruct (List.filter is_store pre); [done|cbn in Hc; lia]).
  apply Forall_forall. intros n Hn. destruct (is_store n) eqn:E; [|done].
  assert (n ∈ List.filter is_store pre) as Hin by (apply list_elem_of_In, filter_In; split; [by apply list_elem_of_In|done]).
  rewrite Hz in Hin. by apply elem_of_nil in Hin.
Qed.

Lemma validate_descriptor_ok value d : validate_descriptor value = Ok d -> descriptor_ok d.
Proof.
  intros H. unfold validate_descriptor in H. res_inv. bool_prop.
  match goal with H : schema_version _ = Ok _ |- _ => apply schema_version_range in H as Hs end.
  match goal with H : foldM (validate_node _) [] ?l = Ok ?ns |- _ => rename H into Hn; rename ns into nodes; rename l into vals end.
  assert (Hnodes : nodes_ok a nodes /\ length nodes = length vals).
  { clear -Hs Hn. assert (Hgen : forall l acc out, nodes_ok a acc -> foldM (validate_node a) acc l = Ok out ->
      nodes_ok a out /\ length out = (length acc + length l)%nat).
    { induction l as [|v l IH]; intros acc out Hacc H; cbn in H; [injection H as <-; cbn; split; [done|lia]|].
      res_inv. apply validate_node_ok in E as [Hacc' Hl]; [|done|done].
      destruct (IH _ _ Hacc' H) as [? ->]. split; [done|cbn; lia]. }
    apply Hgen in Hn; [done|]. split; [apply NoDup_nil_2|constructor]. }
  destruct Hnodes as [[Hnd Hok] Hlen].
  destruct (last nodes) as [st|] eqn:Hlast; [|discriminate].
  destruct (store_count_split nodes st Hlast) as (pre & -> & Hpre); [done|done|].
  split; cbn [dc_schema dc_affine dc_nodes]; try done.
  - by eapply validate_affine_ok.
  - unfold PROGRAM_CAPACITY in *. rewrite Hlen. lia.
  - exists pre, st. split_and!; [done|done|done|]. apply Forall_forall. intros n Hin Hdep.
    match goal with H : traverse (check_operands _) _ = Ok _ |- _ => eapply (traverse_at _ _ _ n) in H as [u Hu] end.
    2:{ apply elem_of_app. by left. }
    unfold check_operands in Hu. eapply (traverse_at _ _ _ _) in Hu as [u' Hu]; [|exact Hdep].
    rewrite (find_node_spec _ _ st) in Hu; [|done|apply elem_of_app; right; left|done].
    match goal with H : is_store st = true |- _ => rewrite H in Hu; discriminate Hu end.
  - by eexists.
Qed.

(** The schedule of an admitted descriptor. *)
Lemma descriptor_schedule d l :
  descriptor_ok d -> scheduled_nodes (dc_nodes d) = Ok l ->
  exists l0 st, l = l0 ++ [st] /\ is_store st = true /\ Forall (fun n => is_store n = false) l0 /\
    Forall (node_ok (dc_schema d)) l /\ l ≡ₚ dc_nodes d /\ ordered l /\ NoDup (ids l).
Proof.
  intros Hd Hl. destruct (do_store _ Hd) as (pre & st & Heq & Hst & Hpre & Hdep).
  pose proof (scheduled_sound _ _ Hl) as [Hperm Hord]. rewrite Heq in Hl.
  apply scheduled_store_last in Hl as (l0 & -> & Hp0); [|done]. exists l0, st.
  split_and!; try done.
  - by rewrite Hp0.
  - rewrite Hperm. apply Hd.
  - rewrite Hperm. apply Hd.
Qed.

(** ** Instruction words *)

Lemma MAX_IMMEDIATE_eq : MAX_IMMEDIATE = 2 ^ 22 - 1.
Proof. reflexivity. Qed.

Lemma bin_code_range o : 0 <= bin_code o < 16.
Proof. by destruct o. Qed.
Lemma imm_code_range o : 0 <= imm_code o < 16.
Proof. by destruct o. Qed.

Lemma encode_bin_pack o d a b :
  0 <= d < 8 -> 0 <= a < 8 -> 0 <= b < 8 -> encode_bin o d a b = pack (bin_code o) d a (b * 2 ^ 19).
Proof.
  intros. unfold encode_bin. rewrite (Z.shiftl_mul_pow2 b) by done. pose proof (bin_code_range o). apply pack_lor; lia.
Qed.

Lemma encode_imm_pack o d a imm :
  0 <= d < 8 -> 0 <= a < 8 -> 0 <= imm < 2 ^ 22 -> encode_imm o d a imm = pack (imm_code o) d a imm.
Proof. intros. unfold encode_imm. pose proof (imm_code_range o). apply pack_lor; lia. Qed.

Lemma encode_store_fields r : 0 <= r < 8 ->
  Z.shiftr (encode_store r) 28 = 3 /\ field3 (encode_store r) 25 = r /\ Z.land (encode_store r) (Z.shiftl 1 25 - 1) = 0.
Proof.
  intros. assert (r ∈ zseq 8) as Hr by (apply elem_of_zseq; lia).
  assert (forallb (fun r => (Z.shiftr (encode_store r) 28 =? 3) && (field3 (encode_store r) 25 =? r) &&
    (Z.land (encode_store r) (Z.shiftl 1 25 - 1) =? 0)) (zseq 8) = true) as Hall by (vm_compute; reflexivity).
  rewrite forallb_forall in Hall. specialize (Hall r (proj1 (list_elem_of_In _ _) Hr)). bool_prop. done.
Qed.

(** What a load word says, by exhaustion of the registers and selectors. *)
Definition load_ok (d : Z) (a : address) (w : Z) : bool :=
  (Z.shiftr w 28 =? 1) && (field3 w 25 =? d) &&
  match a with
  | ASelector s => match index_of s SELECTORS with Some k => field3 w 22 =? k | None => false end &&
                   (Z.land w (Z.shiftl 1 22 - 1) =? 0) && (field3 w 22 <=? 4)
  | ARelative r c => bool_decide (relative_load w = (r, c)) && (Z.land w 0x7fff =? 0)
  end.

Lemma encode_load_ok schema d a w :
  0 <= d < 8 -> node_ok schema (DNode "" (DLoad a)) -> encode_load d a = Ok w -> load_ok d a w = true /\ 0 <= w <= 0xffffffff.
Proof.
  intros Hd Ha Hw.
  assert (Hall : forallb (fun d => forallb (fun a =>
      match encode_load d a with Ok w => load_ok d a w && (0 <=? w) && (w <=? 0xffffffff) | Err _ => false end)
      (map ASelector SELECTORS ++ concat (map (fun r => map (ARelative r) [-1; 0; 1]) [-1; 0; 1]))) (zseq 8) = true)
    by (vm_compute; reflexivity).
  rewrite forallb_forall in Hall. specialize (Hall d). rewrite forallb_forall in Hall.
  specialize (Hall ltac:(apply list_elem_of_In, elem_of_zseq; lia) a).
  assert (Hin : In a (map ASelector SELECTORS ++ concat (map (fun r => map (ARelative r) [-1; 0; 1]) [-1; 0; 1]))).
  { apply in_app_iff. destruct a as [s|r c]; cbn [node_ok dn_op] in Ha.
    - left. apply in_map, list_elem_of_In, Ha.
    - right. destruct Ha as (_ & Hr & Hc).
      assert (r = -1 \/ r = 0 \/ r = 1) as [-> | [-> | ->]] by lia;
      assert (c = -1 \/ c = 0 \/ c = 1) as [-> | [-> | ->]] by lia; cbn; tauto. }
  specialize (Hall Hin). rewrite Hw in Hall. bool_prop. done.
Qed.

Lemma pack_range op d a rest :
  0 <= op < 16 -> 0 <= d < 8 -> 0 <= a < 8 -> 0 <= rest < 2 ^ 22 -> 0 <= pack op d a rest <= 0xffffffff.
Proof. unfold pack. lia. Qed.

Lemma pack_low19 op d a b : Z.land (pack op d a (b * 2 ^ 19)) (Z.shiftl 1 19 - 1) = 0.
Proof.
  change (Z.shiftl 1 19 - 1) with (Z.ones 19). rewrite Z.land_ones by done. unfold pack.
  replace (op * 2 ^ 28 + d * 2 ^ 25 + a * 2 ^ 22 + b * 2 ^ 19) with ((op * 2 ^ 9 + d * 2 ^ 6 + a * 2 ^ 3 + b) * 2 ^ 19) by lia.
  by apply Z.mod_mul.
Qed.

(** ** Registers *)

Definition regs_ok (st : dalloc) : Prop := alloc_ok (Alloc (da_registers st) (da_free st) ∅ []).

Lemma regs_ok_initial m : regs_ok (DAlloc m ∅ ∅ (zseq VALUE_REGISTERS) []).
Proof.
  split; cbn; try (intros *; by rewrite lookup_empty).
  - apply NoDup_seqZ.
  - apply Forall_forall. intros r Hr. by apply elem_of_zseq in Hr.
Qed.

Lemma drop_use_ok st x st' :
  regs_ok st -> drop_use st x = Ok st' ->
  regs_ok st' /\ da_registers st' ⊆ da_registers st /\ da_instructions st' = da_instructions st /\
  da_allocations st' = da_allocations st.
Proof.
  intros Hok H. unfold drop_use in H. res_inv; cbn; split_and!; try done.
  - by eapply alloc_ok_release_to.
  - apply delete_subseteq.
Qed.

Lemma drop_uses_ok l st st' :
  regs_ok st -> foldM drop_use st l = Ok st' ->
  regs_ok st' /\ da_registers st' ⊆ da_registers st /\ da_instructions st' = da_instructions st /\
  da_allocations st' = da_allocations st.
Proof.
  revert st. induction l as [|x l IH]; intros st Hok H; cbn in H; res_inv; [done|].
  apply drop_use_ok in E as (Hok' & ? & ? & ?); [|done].
  destruct (IH _ Hok' H) as (? & ? & ? & ?). split_and!; [done|by etrans|congruence..].
Qed.

Lemma alloc_ok_perm live free free' u w :
  free' ≡ₚ free -> alloc_ok (Alloc live free u w) -> alloc_ok (Alloc live free' u w).
Proof.
  intros Hp [? Hb ? ? ?]. split; cbn in *; try done.
  - intros x r Hx. rewrite Hp. eauto.
  - by rewrite Hp.
  - by rewrite Hp.
Qed.

(** What one iteration of the allocator does. *)
Lemma compile_node_Ok st n st' :
  regs_ok st -> compile_node st n = Ok st' ->
  exists sources w, traverse (fun s => from_option_err KeyError (da_registers st !! s)) (dependencies n) = Ok sources /\
    da_instructions st' = da_instructions st ++ [w] /\ regs_ok st' /\
    if is_store n then encode_op (dn_op n) 0 sources = Ok w /\ da_registers st' ⊆ da_registers st /\
                       da_allocations st' = da_allocations st
    else exists dst live, 0 <= dst < 8 /\ encode_op (dn_op n) dst sources = Ok w /\ live ⊆ da_registers st /\
           (forall y, live !! y <> Some dst) /\ (forall y r, live !! y = Some r -> 0 <= r < 8) /\
           da_registers st' = <[dn_id n := dst]> live /\ da_allocations st' = <[dn_id n := dst]> (da_allocations st).
Proof.
  intros Hok H. unfold compile_node in H.
  destruct (traverse _ (dependencies n)) as [sources|] eqn:Hsrc; [|discriminate H]. cbn [bind] in H.
  destruct (foldM drop_use st (dependencies n)) as [st1|] eqn:Hd; [|discriminate H]. cbn [bind] in H.
  apply drop_uses_ok in Hd as (Hok1 & Hsub & Hins & Hall); [|done].
  exists sources. destruct (is_store n); [|destruct (sort (da_free st1)) as [|dst free] eqn:Hs; [discriminate H|]].
  - res_inv. exists a. cbn. split_and!; [done|congruence| |done|done|done].
    unfold regs_ok; cbn. eapply alloc_ok_perm; [apply sort_perm|done].
  - res_inv. exists a. cbn. unfold regs_ok in Hok1.
    destruct (alloc_ok_take _ _ _ _ (dn_id n) _ _ Hok1 Hs) as (Hdst & _ & Hn & Hnew).
    split_and!; [done|congruence|by apply (Hnew [])|]. exists dst, (da_registers st1).
    split_and!; try done; [lia|lia| |congruence]. intros y r Hy. exact (live_range _ Hok1 _ _ Hy).
Qed.

(** ** Simulation of one node *)

Section simulate.
Context (words : list Z) (Hwords : Forall is_word words) (schema version stride : Z)
  (Hversion : (3 <=? version) = (2 <=? schema)).

Lemma py_index_word i w : py_index words i = Ok w -> is_word w.
Proof.
  unfold py_index. intros H. res_inv; rewrite Forall_lookup in Hwords; eauto.
Qed.

Lemma load_address_ok d a w center :
  node_ok schema (DNode "" (DLoad a)) -> load_ok d a w = true ->
  load_address version center stride w = node_address a center stride.
Proof.
  unfold load_ok, load_address, node_ok. cbn [dn_op]. intros Ha H. rewrite Hversion.
  destruct a as [s|r c]; bool_prop.
  - destruct Ha as [-> _]. cbn [Z.leb Z.compare Pos.compare Pos.compare_cont].
    destruct (index_of s SELECTORS) as [k|] eqn:Hk; [|discriminate]. bool_prop.
    match goal with H : field3 _ _ = k |- _ => rewrite H end. cbn [node_address]. rewrite Hk. cbn [from_option_err bind].
    apply index_of_range in Hk as [Hk _]. cbn in Hk.
    destruct (py_index [0; - stride; stride; -1; 1] k) as [off|] eqn:E; [done|].
    unfold py_index in E. rewrite bool_decide_true in E by (cbn; lia).
    destruct (lookup_lt_is_Some_2 [0; - stride; stride; -1; 1] (Z.to_nat k)) as [x Hx]; [cbn; lia|].
    by rewrite Hx in E.
  - destruct Ha as [Hs _]. rewrite (proj2 (Z.leb_le 2 schema)) by lia.
    match goal with H : relative_load _ = _ |- _ => by rewrite H end.
Qed.

(** An operand's register holds its value. *)
Lemma agree_source live env vals x r :
  agree live env vals -> from_option_err KeyError (live !! x) = Ok r ->
  value_of env x = Ok (at_ 0 vals r) /\ is_word (at_ 0 vals r).
Proof.
  intros [_ H] Hr. destruct (live !! x) as [r'|] eqn:E; [|discriminate Hr]. injection Hr as ->.
  destruct (H _ _ E) as (v & Hv & Hw & Hreg). unfold value_of. rewrite Hv.
  change (at_ 0 vals r) with (reg vals r). rewrite Hreg. done.
Qed.

Lemma agree_new live env vals dst x v live' regs :
  agree regs env vals -> live ⊆ regs -> 0 <= dst < 8 -> (forall y, live !! y <> Some dst) ->
  (forall y r, live !! y = Some r -> 0 <= r < 8) -> live' = <[x := dst]> live -> is_word v ->
  agree live' (<[x := v]> env) (set_at vals dst v).
Proof. intros Ha Hsub ? ? ? -> ?. apply agree_set; try done. by eapply agree_sub. Qed.

Lemma sim_node st n st' sources w center out_index env vals output :
  regs_ok st -> compile_node st n = Ok st' -> node_ok schema n ->
  da_instructions st' = da_instructions st ++ [w] -> agree (da_registers st) env vals ->
  traverse (fun s => from_option_err KeyError (da_registers st !! s)) (dependencies n) = Ok sources ->
  match oracle_node words center stride out_index (env, output) n with
  | Ok (env', output') => exists vals',
      fallback_step version stride words center out_index (vals, output) w = Ok (vals', output') /\
      agree (da_registers st') env' vals'
  | Err e => fallback_step version stride words center out_index (vals, output) w = Err e
  end.
Proof.
  intros Hok Hc Hn Hw Hagree Hsrc.
  destruct (compile_node_Ok _ _ _ Hok Hc) as (sources' & w' & Hsrc' & Hw' & Hok' & Hstep).
  rewrite Hw in Hw'. apply app_inj_tail in Hw' as [_ <-]. rewrite Hsrc in Hsrc'. injection Hsrc' as <-.
  assert (Hreg : forall r, r ∈ sources -> 0 <= r < 8).
  { apply traverse_Ok in Hsrc. clear -Hsrc Hok. induction Hsrc as [|s r l rs Hs _ IH]; intros q Hq; [by apply elem_of_nil in Hq|].
    apply elem_of_cons in Hq as [->|]; [|auto]. destruct (da_registers st !! s) eqn:E; [|discriminate Hs].
    injection Hs as ->. exact (live_range _ Hok _ _ E). }
  unfold is_store, oracle_node, node_ok, dependencies in *. destruct n as [id [a|o x y|o x imm|x]]; cbn [dn_op dn_id] in *.
  - destruct Hstep as (dst & live & Hdst & Henc & Hsub & Hnl & Hlr & Hregs & _).
    destruct (encode_load_ok schema dst a w Hdst Hn Henc) as [Hload _].
    pose proof (load_address_ok dst a w center Hn Hload) as Haddr. rewrite <- Haddr.
    assert (Hop : Z.shiftr w 28 = 1 /\ field3 w 25 = dst) by (unfold load_ok in Hload; bool_prop; done).
    destruct Hop as [Hop Hf]. unfold fallback_step. rewrite Hop, Hf. cbn [Z.eqb LOAD_U32 Pos.eqb].
    destruct (load_address version center stride w) as [addr|]; [|done]. cbn [bind].
    destruct (py_index words addr) as [v|] eqn:Hv; [|done]. cbn [bind].
    eexists. split; [reflexivity|]. eapply agree_new; try done. by eapply py_index_word.
  - destruct Hstep as (dst & live & Hdst & Henc & Hsub & Hnl & Hlr & Hregs & _).
    cbn [traverse] in Hsrc. destruct (from_option_err KeyError (da_registers st !! x)) as [ra|] eqn:Hx; [|discriminate Hsrc].
    destruct (from_option_err KeyError (da_registers st !! y)) as [rb|] eqn:Hy; [|discriminate Hsrc].
    injection Hsrc as <-. cbn in Henc. injection Henc as <-.
    assert (Hra : 0 <= ra < 8) by (apply Hreg; left). assert (Hrb : 0 <= rb < 8) by (apply Hreg; right; left).
    destruct (agree_source _ _ _ _ _ Hagree Hx) as [-> Hwa]. destruct (agree_source _ _ _ _ _ Hagree Hy) as [-> Hwb].
    cbn [bind]. exists (set_at vals dst (bin_value o (at_ 0 vals ra) (at_ 0 vals rb))). split.
    + rewrite encode_bin_pack by done. unfold fallback_step.
      change (field3 ?w ?s) with (reg_field w s).
      pose proof (bin_code_range o).
      assert (Hrest : 0 <= rb * 2 ^ 19 < 2 ^ 22) by lia.
      rewrite pack_op by lia. rewrite pack_d by lia. rewrite pack_a by lia. rewrite pack_b by lia.
      replace (rb * 2 ^ 19 / 2 ^ 19) with rb by (symmetry; by apply Z.div_mul). by destruct o.
    + eapply agree_new; try done. destruct o; cbn [bin_value]; [apply u32_word| |apply u32_word].
      unfold is_word in *. lia.
  - destruct Hstep as (dst & live & Hdst & Henc & Hsub & Hnl & Hlr & Hregs & _).
    cbn [traverse] in Hsrc. destruct (from_option_err KeyError (da_registers st !! x)) as [ra|] eqn:Hx; [|discriminate Hsrc].
    injection Hsrc as <-. cbn in Henc. injection Henc as <-.
    assert (Hra : 0 <= ra < 8) by (apply Hreg; left).
    assert (Himm : 0 <= imm < 2 ^ 22) by (destruct o; apply Hn).
    destruct (agree_source _ _ _ _ _ Hagree Hx) as [-> Hwa].
    cbn [bind]. exists (set_at vals dst (imm_value o (at_ 0 vals ra) imm)). split.
    + rewrite encode_imm_pack by done. unfold fallback_step.
      change (field3 ?w ?s) with (reg_field w s). change MAX_IMMEDIATE with 0x3fffff.
      pose proof (imm_code_range o).
      rewrite pack_op, pack_d, pack_a, pack_rest by lia. by destruct o.
    + eapply agree_new; try done. destruct o; cbn [imm_value]; [apply u32_word|].
      unfold is_word. rewrite MASK_eq. destruct (imm <=? _); lia.
  - destruct Hstep as (Henc & Hsub & _). cbn [traverse] in Hsrc.
    destruct (from_option_err KeyError (da_registers st !! x)) as [ra|] eqn:Hx; [|discriminate Hsrc].
    injection Hsrc as <-. cbn in Henc. injection Henc as <-.
    assert (Hra : 0 <= ra < 8) by (apply Hreg; left).
    destruct (agree_source _ _ _ _ _ Hagree Hx) as [-> Hwa]. cbn [bind].
    destruct (encode_store_fields ra Hra) as (Hop & Hf & _). unfold fallback_step. rewrite Hop, Hf.
    cbn [Z.eqb LOAD_U32 ADD_U32 MAX_U32 MUL_U32 ADD_IMM_U32 GE_IMM_U32 STORE_U32 Pos.eqb].
    destruct (py_set output out_index (at_ 0 vals ra)) as [o|]; [|done]. cbn [bind].
    eexists. split; [reflexivity|]. by eapply agree_sub.
Qed.
End simulate.

(** ** Simulation of a program *)

Lemma sim_nodes words schema version stride l st st' :
  Forall is_word words -> (3 <=? version) = (2 <=? schema) ->
  regs_ok st -> foldM compile_node st l = Ok st' -> Forall (node_ok schema) l ->
  exists ws, da_instructions st' = da_instructions st ++ ws /\ length ws = length l /\
  forall center out_index env vals output, agree (da_registers st) env vals ->
    match foldM (oracle_node words center stride out_index) (env, output) l with
    | Ok (env', output') => exists vals',
        foldM (fallback_step version stride words center out_index) (vals, output) ws = Ok (vals', output')
    | Err e => foldM (fallback_step version stride words center out_index) (vals, output) ws = Err e
    end.
Proof.
  intros Hwords Hv. revert st. induction l as [|n l IH]; intros st Hok Hc Hl.
  - injection Hc as <-. exists []. rewrite app_nil_r. split_and!; [done|done|]. intros. by exists vals.
  - cbn [foldM] in Hc. res_inv. apply Forall_cons in Hl as [Hn Hl].
    destruct (compile_node_Ok _ _ _ Hok E) as (sources & w & Hsrc & Hw & Hok' & _).
    destruct (IH _ Hok' Hc Hl) as (ws & Hws & Hlen & Hsim). exists (w :: ws).
    split_and!; [by rewrite Hws, Hw, <- app_assoc|cbn; by f_equal|].
    intros center oi env vals output Hag. cbn [foldM].
    pose proof (sim_node words Hwords schema version stride Hv st n a sources w center oi env vals output Hok E Hn Hw Hag Hsrc) as Hs.
    destruct (oracle_node words center stride oi (env, output) n) as [[env' output']|e].
    + destruct Hs as (vals' & -> & Hag'). cbn [bind]. by apply Hsim.
    + by rewrite Hs.
Qed.

Definition version_ok (version : Z) (n : dnode) : Prop :=
  match dn_op n with
  | DLoad (ASelector _) => version < 3
  | DLoad (ARelative _ _) => 3 <= version
  | DBin DMax _ _ => 2 <= version <= 6
  | DBin DMul _ _ => 4 <= version <= 6
  | DImm DAddImm _ _ => 5 <= version <= 6
  | DImm DGeImm _ _ => version = 6
  | _ => True
  end.

Lemma program_version_ok d :
  descriptor_ok d -> 1 <= program_version d <= 6 /\ (3 <=? program_version d) = (2 <=? dc_schema d) /\
  Forall (version_ok (program_version d)) (dc_nodes d).
Proof.
  intros Hd. pose proof (do_schema _ Hd) as Hs. pose proof (do_nodes _ Hd) as Hn. unfold program_version.
  set (has_max := existsb _ _). destruct (Z.leb_spec 2 (dc_schema d)) as [Hs2|Hs2].
  - split; [lia|]. split; [by apply Z.leb_le; lia|]. eapply Forall_impl; [exact Hn|]. intros n. unfold node_ok, version_ok.
    destruct (dn_op n) as [[|]|[]| []|]; lia.
  - assert (dc_schema d = 1) as Hs1 by lia. split; [destruct has_max; lia|]. split; [by destruct has_max|].
    apply Forall_forall. intros n Hin. rewrite Forall_forall in Hn. specialize (Hn n Hin).
    unfold node_ok, version_ok in *. destruct (dn_op n) as [[|]|[]| []|] eqn:Hop; try lia; destruct has_max eqn:Hm; try lia.
    exfalso. apply not_true_iff_false in Hm. apply Hm, existsb_exists. exists n.
    split; [by apply list_elem_of_In|]. by rewrite Hop.
Qed.

(** One instruction passes the fallback's check. *)
Lemma check_compiled version schema count st n st' i w defined stores :
  (3 <=? version) = (2 <=? schema) -> regs_ok st -> compile_node st n = Ok st' -> node_ok schema n -> version_ok version n ->
  da_instructions st' = da_instructions st ++ [w] ->
  (forall x r, da_registers st !! x = Some r -> r ∈ defined) ->
  (i =? count - 1) = is_store n ->
  0 <= w <= 0xffffffff /\
  exists defined', check_instruction version count (defined, stores) (i, w) =
      Ok (defined', if is_store n then stores + 1 else stores) /\
    (is_store n = false -> forall x r, da_registers st' !! x = Some r -> r ∈ defined').
Proof.
  intros Hv Hok Hc Hn Hvn Hw Hdef Hi.
  destruct (compile_node_Ok _ _ _ Hok Hc) as (sources & w' & Hsrc & Hw' & Hok' & Hstep).
  rewrite Hw in Hw'. apply app_inj_tail in Hw' as [_ <-].
  assert (Hreg : forall r, r ∈ sources -> 0 <= r < 8 /\ r ∈ defined).
  { apply traverse_Ok in Hsrc. clear -Hsrc Hok Hdef. induction Hsrc as [|s r l rs Hs _ IH]; intros q Hq; [by apply elem_of_nil in Hq|].
    apply elem_of_cons in Hq as [->|]; [|auto]. destruct (da_registers st !! s) eqn:E; [|discriminate Hs].
    injection Hs as ->. split; [exact (live_range _ Hok _ _ E)|by eapply Hdef]. }
  assert (Hnew : forall dst live, live ⊆ da_registers st -> da_registers st' = <[dn_id n := dst]> live ->
    forall x r, da_registers st' !! x = Some r -> r ∈ dst :: defined).
  { intros dst live Hsub -> x r [[<- <-]|[_ Hx]]%lookup_insert_Some; [left|right].
    eapply Hdef, lookup_weaken; done. }
  unfold is_store, node_ok, version_ok, dependencies in *.
  destruct n as [id [a|o x y|o x imm|x]]; cbn [dn_op dn_id] in *; unfold check_instruction; rewrite Hi; cbn [orb negb].
  - destruct Hstep as (dst & live & Hdst & Henc & Hsub & _ & _ & Hregs & _).
    destruct (encode_load_ok schema dst a w Hdst Hn Henc) as [Hload Hr]. split; [done|].
    unfold load_ok in Hload. exists (dst :: defined). split; [|intros _; by eapply Hnew].
    bool_prop. replace (Z.shiftr w 28 =? LOAD_U32) with true by (symmetry; by apply Z.eqb_eq).
    replace (field3 w 25) with dst. rewrite Hv. destruct (relative_load w) as [rd cd] eqn:Hrel.
    destruct a as [s|r c]; bool_prop.
    + destruct Hn as [-> _]. cbn [Z.leb Z.compare Pos.compare Pos.compare_cont andb orb].
      rewrite (proj2 (Z.ltb_ge 4 (field3 w 22))) by lia.
      match goal with H : Z.land w (Z.shiftl 1 22 - 1) = 0 |- _ => rewrite H end. cbn [orb negb Z.eqb].
      by rewrite andb_false_r.
    + match goal with H : (_, _) = (_, _) |- _ => injection H as -> -> end. rewrite (proj2 (Z.ltb_ge version 3)) by lia. cbn [andb orb].
      match goal with H : Z.land w 0x7fff = 0 |- _ => rewrite H end. cbn [orb negb Z.eqb].
      unfold in_unit. destruct Hn as (_ & ? & ?). rewrite !bool_decide_true by lia. cbn [negb orb].
      by rewrite andb_false_r.
  - destruct Hstep as (dst & live & Hdst & Henc & Hsub & _ & _ & Hregs & _).
    cbn [traverse] in Hsrc. res_inv. cbn in Henc. injection Henc as <-.
    destruct (Hreg a) as [Ha Hda]; [left|]. destruct (Hreg a1) as [Hb Hdb]; [right; left|].
    pose proof (bin_code_range o) as Hcode. rewrite encode_bin_pack by done.
    assert (Hrest : 0 <= a1 * 2 ^ 19 < 2 ^ 22) by lia. split; [by apply pack_range|].
    exists (dst :: defined). split; [|intros _; by eapply Hnew].
    change (field3 ?w ?s) with (reg_field w s).
    rewrite pack_op by lia. rewrite pack_d by lia. rewrite pack_a by lia. rewrite pack_b by lia. rewrite pack_low19.
    replace (a1 * 2 ^ 19 / 2 ^ 19) with a1 by (symmetry; by apply Z.div_mul).
    rewrite (bool_decide_true (a ∈ defined)), (bool_decide_true (a1 ∈ defined)) by done.
    destruct o; cbn [bin_code LOAD_U32 ADD_U32 MAX_U32 MUL_U32 Z.eqb Pos.eqb orb negb andb]; [done| |].
    + by rewrite bool_decide_true by lia.
    + by rewrite bool_decide_true by lia.
  - destruct Hstep as (dst & live & Hdst & Henc & Hsub & _ & _ & Hregs & _).
    cbn [traverse] in Hsrc. res_inv. cbn in Henc. injection Henc as <-.
    destruct (Hreg a) as [Ha Hda]; [left|]. pose proof (imm_code_range o) as Hcode.
    assert (Himm : 0 <= imm < 2 ^ 22) by (destruct o; apply Hn).
    rewrite encode_imm_pack by done. split; [by apply pack_range|].
    exists (dst :: defined). split; [|intros _; by eapply Hnew].
    change (field3 ?w ?s) with (reg_field w s).
    rewrite pack_op by lia. rewrite pack_d by lia. rewrite pack_a by lia.
    rewrite (bool_decide_true (a ∈ defined)) by done.
    destruct o; cbn [imm_code LOAD_U32 ADD_U32 MAX_U32 MUL_U32 ADD_IMM_U32 GE_IMM_U32 Z.eqb Pos.eqb orb negb andb].
    + by rewrite bool_decide_true by lia.
    + subst version. done.
  - destruct Hstep as (Henc & _). cbn [traverse] in Hsrc. res_inv. cbn in Henc. injection Henc as <-.
    destruct (Hreg a) as [Ha Hda]; [left|]. destruct (encode_store_fields a Ha) as (Hop & Hf & Hlow).
    split.
    + assert (forallb (fun r => (0 <=? encode_store r) && (encode_store r <=? 0xffffffff)) (zseq 8) = true) as Hall by (vm_compute; reflexivity).
      rewrite forallb_forall in Hall. specialize (Hall a (proj1 (list_elem_of_In _ _) (proj2 (elem_of_zseq 8 a) Ha))). bool_prop. done.
    + exists defined. rewrite Hop, Hf, Hlow.
      cbn [Z.eqb LOAD_U32 ADD_U32 MAX_U32 MUL_U32 ADD_IMM_U32 GE_IMM_U32 STORE_U32 Pos.eqb orb negb].
      by rewrite (bool_decide_true (a ∈ defined)) by done.
Qed.

(** The compiled instructions pass the fallback's check, the store last. *)
Lemma check_prefix version schema count m l0 st :
  (3 <=? version) = (2 <=? schema) -> Forall (node_ok schema) l0 -> Forall (version_ok version) l0 ->
  Forall (fun n => is_store n = false) l0 -> Z.of_nat (length l0) < count ->
  foldM compile_node (DAlloc m ∅ ∅ (zseq VALUE_REGISTERS) []) l0 = Ok st ->
  regs_ok st /\ length (da_instructions st) = length l0 /\ Forall (fun w => 0 <= w <= 0xffffffff) (da_instructions st) /\
  exists defined, foldM (check_instruction version count) ([], 0) (enumerate (da_instructions st)) = Ok (defined, 0) /\
    forall x r, da_registers st !! x = Some r -> r ∈ defined.
Proof.
  intros Hv. revert st. induction l0 as [|n l0 IH] using rev_ind; intros st Hn Hvn Hs Hlen Hc.
  - injection Hc as <-. split_and!; [apply regs_ok_initial|done|constructor|]. exists []. split; [done|].
    cbn. intros x r. by rewrite lookup_empty.
  - apply Forall_app in Hn as [Hn [Hn1 _]%Forall_cons]. apply Forall_app in Hvn as [Hvn [Hvn1 _]%Forall_cons].
    apply Forall_app in Hs as [Hs [Hs1 _]%Forall_cons]. rewrite length_app in Hlen. cbn [length] in Hlen.
    rewrite foldM_app in Hc. cbn [foldM] in Hc. res_inv.
    destruct (IH a) as (Hok & Hli & Hr & defined & Hf & Hd); [done|done|done|lia|done|].
    destruct (compile_node_Ok _ _ _ Hok E0) as (_ & w & _ & Hw & Hok' & _).
    destruct (check_compiled version schema count a n st (Z.of_nat (length l0)) w defined 0 Hv Hok E0 Hn1 Hvn1 Hw Hd)
      as (Hwr & defined' & Hci & Hd'); [rewrite Hs1; apply Z.eqb_neq; lia|].
    rewrite Hs1 in Hci. rewrite Hw, !length_app, Hli. cbn [length]. split_and!; [done|lia|by apply Forall_app; split; [|constructor]|].
    exists defined'. split; [|by apply Hd']. rewrite enumerate_snoc, foldM_app, Hf, Hli. cbn [bind foldM]. by rewrite Hci.
Qed.

Lemma check_all version schema m l0 s st :
  (3 <=? version) = (2 <=? schema) -> Forall (node_ok schema) (l0 ++ [s]) -> Forall (version_ok version) (l0 ++ [s]) ->
  Forall (fun n => is_store n = false) l0 -> is_store s = true ->
  foldM compile_node (DAlloc m ∅ ∅ (zseq VALUE_REGISTERS) []) (l0 ++ [s]) = Ok st ->
  let code := da_instructions st in
  length code = length (l0 ++ [s]) /\ Forall (fun w => 0 <= w <= 0xffffffff) code /\
  exists defined, foldM (check_instruction version (Z.of_nat (length code))) ([], 0) (enumerate code) = Ok (defined, 1).
Proof.
  intros Hv Hn Hvn Hs Hst Hc. apply Forall_app in Hn as [Hn [Hn1 _]%Forall_cons]. apply Forall_app in Hvn as [Hvn [Hvn1 _]%Forall_cons].
  rewrite foldM_app in Hc. cbn [foldM] in Hc. res_inv.
  destruct (check_prefix version schema (Z.of_nat (length l0) + 1) m l0 a) as (Hok & Hli & Hr & defined & Hf & Hd);
    [done|done|done|done|lia|done|].
  destruct (compile_node_Ok _ _ _ Hok E0) as (_ & w & _ & Hw & _).
  cbn zeta. rewrite Hw, !length_app, Hli. cbn [length].
  replace (Z.of_nat (length l0 + 1)) with (Z.of_nat (length l0) + 1) by lia.
  destruct (check_compiled version schema (Z.of_nat (length l0) + 1) a s st (Z.of_nat (length l0)) w defined 0 Hv Hok E0 Hn1 Hvn1 Hw Hd)
    as (Hwr & defined' & Hci & _); [rewrite Hst; apply Z.eqb_eq; lia|].
  rewrite Hst in Hci. split_and!; [done|by apply Forall_app; split; [|constructor]|]. exists defined'.
  rewrite enumerate_snoc, foldM_app, Hf, Hli. cbn [bind foldM]. by rewrite Hci.
Qed.

(** ** The program document *)

Lemma py_eqb_words l : py_eqb (words_val l) (words_val l) = true.
Proof.
  unfold words_val. cbn [py_eqb]. induction l as [|x l IH]; [done|]. cbn [map]. rewrite IH, andb_true_r.
  cbn. apply Z.eqb_refl.
Qed.

Lemma word_range p i : Forall is_byte p -> 0 <= word p i <= 0xffffffff.
Proof.
  intros Hp. assert (Hb : forall k, is_byte (byte_at p k)).
  { intros k. unfold byte_at, is_byte. destruct (p !! Z.to_nat k) as [b|] eqn:E.
    - rewrite (nth_lookup_Some _ _ _ _ E). rewrite Forall_lookup in Hp. by apply (Hp _ _ E).
    - rewrite nth_lookup, E. cbn. lia. }
  change (word p i) with (word [byte_at p i; byte_at p (i + 1); byte_at p (i + 2); byte_at p (i + 3)] 0).
  pose proof (Hb i). pose proof (Hb (i + 1)). pose proof (Hb (i + 2)). pose proof (Hb (i + 3)).
  rewrite FoldWireFacts.word_bytes by done. unfold is_byte in *. lia.
Qed.

Lemma digest_range p : Forall (fun w => 0 <= w <= 0xffffffff) (digest_words p).
Proof.
  unfold digest_words. apply Forall_map, Forall_forall. intros i _. apply word_range, sha256_bytes.
Qed.

Lemma mapM_u32_val l : Forall (fun w => 0 <= w <= 0xffffffff) l -> mapM u32_val (map VInt l) = Some l.
Proof.
  intros Hl. apply mapM_Some. rewrite Forall2_fmap_l. apply Forall_Forall2_diag.
  eapply Forall_impl; [exact Hl|]. intros w Hw. cbn. case_bool_decide; [done|contradiction].
Qed.

(** The fallback accepts the document of a program with checked instructions. *)
Lemma validate_program_val id af code trace version tx defined :
  1 <= version <= 6 -> 2 <= Z.of_nat (length code) <= 16 ->
  Forall (fun w => 0 <= w <= 0xffffffff) code ->
  foldM (check_instruction version (Z.of_nat (length code))) ([], 0) (enumerate code) = Ok (defined, 1) ->
  validate_fallback_program (program_val (Program id af code (sha256_hex (program_digest code)) trace (payload_words version code) tx)) =
    Ok (payload_words version code, code).
Proof.
  intros Hv Hn Hw Hc. unfold validate_fallback_program.
  change (dget "payload" _) with (Some (words_val (payload_words version code))).
  change (dget "instructions" _) with (Some (words_val code)). unfold words_val at 1 2.
  set (digest := digest_words (program_digest code)).
  assert (Hlen : length (payload_words version code) = 32%nat).
  { unfold payload_words. rewrite !length_app, length_replicate, digest_words_length. cbn [length].
    change (Z.to_nat PROGRAM_CAPACITY) with 16%nat. lia. }
  rewrite length_map, Hlen. cbn [Z.to_nat PROGRAM_WORDS negb]. change (Pos.to_nat 32) with 32%nat.
  rewrite Nat.eqb_refl. cbn [negb]. rewrite mapM_u32_val.
  2:{ unfold payload_words. rewrite !Forall_app. split_and!; [|apply digest_range|done|apply Forall_replicate; lia|].
      - unfold PROGRAM_MAGIC, VALUE_REGISTERS. repeat apply Forall_cons_2; [lia..|apply Forall_nil_2].
      - repeat apply Forall_cons_2; [lia..|apply Forall_nil_2]. }
  assert (Hat : forall i, 12 + Z.of_nat (length code) <= i < 32 -> at_ 0 (payload_words version code) i = 0).
  { intros i Hi. unfold at_, payload_words. rewrite (app_assoc _ (digest_words _)), app_nth2; rewrite length_app, digest_words_length; cbn [length]; [|lia].
    rewrite app_nth2 by lia. change (Z.to_nat PROGRAM_CAPACITY) with 16%nat.
    destruct (decide (Z.to_nat i - 12 - length code < 16 - length code)%nat).
    - rewrite app_nth1 by (rewrite length_replicate; lia). rewrite nth_lookup, lookup_replicate_2 by lia. done.
    - rewrite app_nth2 by (rewrite length_replicate; lia). rewrite length_replicate.
      assert (Hz : forall k, nth k [0; 0; 0; 0] 0 = 0) by (intros [|[|[|[|[|k]]]]]; reflexivity). apply Hz. }
  assert (Hcode : take (Z.to_nat (Z.of_nat (length code))) (drop 12 (payload_words version code)) = code).
  { rewrite Nat2Z.id. unfold payload_words. rewrite app_assoc, drop_app_length'.
    - apply take_app_length.
    - by rewrite length_app, digest_words_length. }
  assert (Hdig : take 8 (drop 4 (payload_words version code)) = digest).
  { unfold payload_words. cbn [drop app]. rewrite drop_0. by rewrite take_app_length'. }
  change (at_ 0 (payload_words version code) 0) with PROGRAM_MAGIC.
  change (at_ 0 (payload_words version code) 1) with version.
  change (at_ 0 (payload_words version code) 2) with (Z.of_nat (length code)).
  change (at_ 0 (payload_words version code) 3) with VALUE_REGISTERS.
  rewrite !Z.eqb_refl, (bool_decide_true (1 <= version <= 6)) by done. cbn [negb orb].
  rewrite Hcode, Hdig. rewrite (bool_decide_true (2 <= _ <= _)) by (unfold PROGRAM_CAPACITY; lia).
  change (field_is _ "instruction_count" _) with (Z.of_nat (length code) =? Z.of_nat (length code)).
  change (field_is _ "program_sha256" _) with (String.eqb (sha256_hex (program_digest code)) (sha256_hex (program_digest code))).
  rewrite Z.eqb_refl, String.eqb_refl. fold (words_val code). rewrite py_eqb_words. cbn [negb orb].
  rewrite (bool_decide_true (digest = digest)) by done. cbn [negb orb].
  replace (existsb _ _) with false.
  2:{ symmetry. apply not_true_iff_false. rewrite existsb_exists. intros (i & Hi & Hne).
      apply list_elem_of_In, elem_of_zrange in Hi. unfold PROGRAM_WORDS in Hi. by rewrite Hat in Hne by lia. }
  by rewrite Hc.
Qed.
