(* ===== verification/DeviceRun.v ===== *)
(** * A compiled stencil program computes its descriptor

    The fallback interpreter ([software_fallback]), which only sees the document
    of the compiled program, against the oracle ([graph_oracle]), which only
    sees the descriptor; when the oracle has a result; the window the
    descriptor check leaves open; the memory transactions of a run. *)

From S2P Require Import Prelude PyValue Json AffineFold AffineFoldFacts FoldMachine FoldMachineFacts Sha256.
From S2P Require Import DeviceProgram DeviceScheduleFacts DeviceProgramFacts.

(** ** Loops over the points of a grid *)

Section points.
Context {S : Type} (af : affine).

(** The center and the output index at every point, in the loops' order. *)
Definition points : list (Z * Z) :=
  concat (map (fun row => map (fun column =>
    ((row + 1) * af_input_stride af + column + 1, row * af_output_stride af + column)) (zseq (af_columns af)))
    (zseq (af_rows af))).

Lemma for_points_foldM (f : Z -> Z -> S -> res S) s :
  for_points af f s = foldM (fun s p => f p.1 p.2 s) s points.
Proof.
  unfold for_points, points. generalize (zseq (af_rows af)) as rows. intros rows. revert s.
  induction rows as [|row rows IH]; intros s; [done|]. cbn [map concat foldM].
  rewrite foldM_app, foldM_map. cbn [fst snd].
  destruct (foldM _ s (zseq (af_columns af))); [apply IH|done].
Qed.

Lemma elem_of_points c o :
  (c, o) ∈ points <-> exists row column, 0 <= row < af_rows af /\ 0 <= column < af_columns af /\
    c = (row + 1) * af_input_stride af + column + 1 /\ o = row * af_output_stride af + column.
Proof.
  unfold points. rewrite list_elem_of_In, in_concat. split.
  - intros (l & (row & <- & Hr)%in_map_iff & (column & [= <- <-] & Hc)%in_map_iff).
    apply list_elem_of_In, elem_of_zseq in Hr. apply list_elem_of_In, elem_of_zseq in Hc. eauto 10.
  - intros (row & column & Hr & Hc & -> & ->). eexists. split.
    + apply in_map_iff. exists row. split; [reflexivity|]. by apply list_elem_of_In, elem_of_zseq.
    + apply in_map_iff. exists column. split; [reflexivity|]. by apply list_elem_of_In, elem_of_zseq.
Qed.

End points.

#[local] Opaque sha256 sha256_hex digest_words payload_words.

(** ** The program computes the descriptor *)

Lemma compile_descriptor_parts value p :
  compile_descriptor value = Ok p ->
  exists d l st trace, validate_descriptor value = Ok d /\ scheduled_nodes (dc_nodes d) = Ok l /\ compile_nodes l = Ok st /\
    p = Program (dc_graph_id d) (dc_affine d) (da_instructions st) (sha256_hex (program_digest (da_instructions st))) trace
          (payload_words (program_version d) (da_instructions st))
          (Z.of_nat (length (List.filter (fun w => Z.shiftr w 28 =? LOAD_U32) (da_instructions st))) + 1).
Proof. unfold compile_descriptor. intros H.
  destruct (validate_descriptor value) as [d|]; [|discriminate H]. cbn [bind] in H.
  destruct (scheduled_nodes (dc_nodes d)) as [l|] eqn:Hl; [|discriminate H]. cbn [bind] in H.
  destruct (compile_nodes l) as [st|] eqn:Hst; [|discriminate H]. cbn [bind] in H.
  destruct (negb _); [discriminate H|].
  destruct (lowering_trace _ _ _ _) as [trace|]; [|discriminate H]. cbn [bind] in H.
  destruct (validate_lowering_trace _ _ _); [|discriminate H]. apply Ok_inj in H as <-.
  exists d, l, st, trace. split_and!; [reflexivity|exact Hl|exact Hst|reflexivity].
Qed.

Lemma program_affine_val id af code digest trace payload tx :
  program_affine (program_val (Program id af code digest trace payload tx)) = Ok af.
Proof. by destruct af. Qed.

(** The fallback admits a compiled program. *)
Lemma compiled_admitted d l st trace tx :
  descriptor_ok d -> scheduled_nodes (dc_nodes d) = Ok l -> compile_nodes l = Ok st ->
  let code := da_instructions st in let version := program_version d in
  validate_fallback_program (program_val (Program (dc_graph_id d) (dc_affine d) code (sha256_hex (program_digest code)) trace
    (payload_words version code) tx)) = Ok (payload_words version code, code).
Proof.
  intros Hd Hl Hst. cbn zeta. destruct (program_version_ok d Hd) as (Hv & Hvs & Hvn).
  destruct (descriptor_schedule d l Hd Hl) as (l0 & s & -> & Hs & Hl0 & Hn & Hp & _ & _).
  assert (Hvn' : Forall (version_ok (program_version d)) (l0 ++ [s])) by (by rewrite Hp).
  destruct (check_all (program_version d) (dc_schema d) (initial_remaining (l0 ++ [s])) l0 s st)
    as (Hlen & Hw & defined & Hc); try done.
  apply (validate_program_val _ _ _ _ _ _ defined); try done.
  rewrite Hlen, Hp. apply Hd.
Qed.

Lemma compiled_fallback value p words :
  compile_descriptor value = Ok p -> Forall is_word words -> length words = 324%nat ->
  software_fallback (program_val p) words = graph_oracle value words.
Proof.
  intros Hc Hw Hlen. apply compile_descriptor_parts in Hc as (d & l & st & trace & Hd & Hl & Hst & ->).
  pose proof (validate_descriptor_ok _ _ Hd) as Hok. destruct (program_version_ok d Hok) as (_ & Hv & _).
  unfold software_fallback. rewrite (compiled_admitted d l st) by done. cbn [bind].
  rewrite Hlen, program_affine_val. cbn [Nat.eqb negb bind].
  unfold graph_oracle. rewrite Hd. cbn [bind]. rewrite Hlen, Hl. cbn [Nat.eqb negb bind].
  destruct (descriptor_schedule d l Hok Hl) as (l0 & s & -> & _ & _ & Hn & _).
  destruct (sim_nodes words (dc_schema d) (program_version d) (af_input_stride (dc_affine d)) _ _ _ Hw Hv (regs_ok_initial _) Hst Hn)
    as (ws & Hws & _ & Hsim). cbn [da_instructions app] in Hws. rewrite Hws.
  rewrite !for_points_foldM. apply foldM_ext. intros output [c o]. cbn [fst snd].
  change (at_ 0 (payload_words (program_version d) ws) 1) with (program_version d).
  specialize (Hsim c o ∅ (replicate (Z.to_nat VALUE_REGISTERS) 0) output).
  match type of Hsim with ?P -> _ => assert (Hag : P) end.
  { split; [done|]. intros x r Hx. cbn [da_registers] in Hx. by rewrite lookup_empty in Hx. }
  specialize (Hsim Hag). destruct (foldM (oracle_node _ _ _ _) _ _) as [[env' out']|e]; [|by rewrite Hsim].
  by destruct Hsim as (vals' & ->).
Qed.

(** ** When the oracle has a result *)

(** The load of the south-east neighbour. *)
Definition corner (n : dnode) : bool := match dn_op n with DLoad (ARelative r c) => (r =? 1) && (c =? 1) | _ => false end.
(** A shape at the bound of the check, and a load of that neighbour. *)
Definition window_gap (d : descriptor) : Prop :=
  (af_rows (dc_affine d) + 1) * af_input_stride (dc_affine d) + af_columns (dc_affine d) = 323 /\ exists n, n ∈ dc_nodes d /\ corner n = true.

(** At the center [c] the neighbour, if it is loaded, is in the input. *)
Definition reach (s c : Z) (n : dnode) : Prop := corner n = true -> c + s + 1 < 324.

Lemma gap_reach d c o : affine_ok (dc_affine d) -> ~ window_gap d -> (c, o) ∈ points (dc_affine d) -> Forall (reach (af_input_stride (dc_affine d)) c) (dc_nodes d).
Proof.
  intros Ha Hg (row & column & Hr & Hc & -> & ->)%elem_of_points. apply Forall_forall. intros n Hn Hcorner. unfold affine_ok in Ha. set (s := af_input_stride (dc_affine d)) in *.
  assert ((row + 1) * s <= af_rows (dc_affine d) * s) by nia.
  destruct (decide ((af_rows (dc_affine d) + 1) * s + af_columns (dc_affine d) = 323)) as [He|]; [|nia]. destruct Hg. split; [done|by exists n].
Qed.

Lemma py_index_Ok {A} (l : list A) i : 0 <= i < Z.of_nat (length l) -> exists x, py_index l i = Ok x /\ l !! Z.to_nat i = Some x.
Proof.
  intros Hi. unfold py_index. rewrite bool_decide_true by done.
  destruct (lookup_lt_is_Some_2 l (Z.to_nat i)) as [x Hx]; [lia|]. rewrite Hx. by exists x.
Qed.

(** The address of a load at a point of the grid. *)
Lemma node_address_window d a id c o :
  affine_ok (dc_affine d) -> reach (af_input_stride (dc_affine d)) c (DNode id (DLoad a)) -> node_ok (dc_schema d) (DNode id (DLoad a)) ->
  (c, o) ∈ points (dc_affine d) ->
  exists i, node_address a c (af_input_stride (dc_affine d)) = Ok i /\ 0 <= i < 324.
Proof.
  intros Ha Hw Hn (row & column & Hr & Hc & -> & ->)%elem_of_points. unfold affine_ok in Ha. unfold reach, corner in Hw. cbn [dn_op] in Hw.
  set (s := af_input_stride (dc_affine d)) in *.
  assert (0 <= row * s) by nia. assert ((row + 1) * s <= af_rows (dc_affine d) * s) by nia.
  cbn [node_ok dn_op] in Hn. destruct a as [sel|r k]; cbn [node_address].
  - destruct Hn as [Hs1 Hsel]. unfold SELECTORS in *.
    repeat (apply elem_of_cons in Hsel as [->|Hsel]; [eexists; split; [reflexivity|]; cbn; lia|]).
    by apply elem_of_nil in Hsel.
  - eexists. split; [reflexivity|]. destruct Hn as (Hs2 & Hrd & Hcd).
    assert (r = -1 \/ r = 0 \/ r = 1) as [-> | [-> | ->]] by lia; [lia..|]. destruct (Z.eqb_spec k 1) as [->|]; [specialize (Hw eq_refl)|]; lia.
Qed.

Lemma point_output d c o :
  affine_ok (dc_affine d) -> (c, o) ∈ points (dc_affine d) -> 0 <= o < 256.
Proof.
  intros Ha (row & column & Hr & Hc & -> & ->)%elem_of_points. unfold affine_ok in Ha.
  assert (row * af_output_stride (dc_affine d) <= (af_rows (dc_affine d) - 1) * af_output_stride (dc_affine d)) by nia. nia.
Qed.

(** A loop that one of its steps always stops. *)
Lemma foldM_stuck {S A} (P : S -> Prop) (f : S -> A -> res S) e s l x0 :
  x0 ∈ l -> P s -> (forall s x, x ∈ l -> P s -> f s x = Err e \/ exists s', f s x = Ok s' /\ P s') -> (forall s, P s -> f s x0 = Err e) -> foldM f s l = Err e.
Proof.
  intros Hx0 Hs Hf H0. revert s Hs. induction l as [|x l IH]; intros s Hs; [by apply elem_of_nil in Hx0|]. cbn [foldM].
  destruct (Hf s x) as [->|(s' & E & Hs')]; [left|done|done|]. rewrite E. cbn [bind]. apply elem_of_cons in Hx0 as [->|Hx0]; [rewrite H0 in E by done; discriminate E|].
  apply IH; [done| |done]. intros; apply Hf; [by right|done].
Qed.

Section oracle.
Context (words : list Z) (Hwords : Forall is_word words) (Hlength : length words = 324%nat).

(** The values of the nodes before a point in the schedule are words. *)
Definition computed (l : list dnode) (values : gmap string Z) : Prop :=
  forall x, x ∈ ids l -> exists v, values !! x = Some v /\ is_word v.

Lemma value_of_computed l values x : computed l values -> x ∈ ids l -> exists v, value_of values x = Ok v /\ is_word v.
Proof. intros H Hx. destruct (H x Hx) as (v & Hv & ?). unfold value_of. rewrite Hv. by exists v. Qed.

Lemma computed_insert l n v values : computed l values -> is_word v -> computed (l ++ [n]) (<[dn_id n := v]> values).
Proof.
  intros H Hv x Hx. destruct (decide (x = dn_id n)) as [->|Hne].
  - exists v. by rewrite lookup_insert_eq.
  - rewrite lookup_insert_ne by done. apply H. rewrite map_app in Hx. apply elem_of_app in Hx as [Hx|Hx]; [done|].
    by apply list_elem_of_singleton in Hx.
Qed.

Lemma bin_value_word o a b : is_word a -> is_word b -> is_word (bin_value o a b).
Proof. intros. destruct o; cbn [bin_value]; [apply u32_word| |apply u32_word]. unfold is_word in *. lia. Qed.
Lemma imm_value_word o a imm : is_word (imm_value o a imm).
Proof. destruct o; cbn [imm_value]; [apply u32_word|]. destruct (_ <=? _); unfold is_word; rewrite MASK_eq; lia. Qed.

Lemma oracle_node_value d c o l n values output :
  affine_ok (dc_affine d) -> reach (af_input_stride (dc_affine d)) c n -> (c, o) ∈ points (dc_affine d) -> node_ok (dc_schema d) n ->
  is_store n = false -> (forall x, x ∈ dependencies n -> x ∈ ids l) -> computed l values ->
  exists v, oracle_node words c (af_input_stride (dc_affine d)) o (values, output) n = Ok (<[dn_id n := v]> values, output) /\ is_word v.
Proof.
  intros Ha Hw Hp Hn Hs Hdep Hv. destruct n as [id [a|op x y|op x imm|x]]; [..|discriminate Hs];
    cbn [oracle_node dn_op dn_id]; unfold dependencies in Hdep; cbn [dn_op] in Hdep.
  - destruct (node_address_window d a id c o Ha Hw Hn Hp) as (i & -> & Hi). cbn [bind].
    destruct (py_index_Ok words i) as (w & -> & Hx); [lia|]. exists w. split; [done|].
    rewrite Forall_lookup in Hwords. eauto.
  - destruct (value_of_computed l values x) as (va & -> & ?); [done|apply Hdep; left|].
    destruct (value_of_computed l values y) as (vb & -> & ?); [done|apply Hdep; right; left|].
    eexists. split; [reflexivity|]. by apply bin_value_word.
  - destruct (value_of_computed l values x) as (va & -> & ?); [done|apply Hdep; left|].
    eexists. split; [reflexivity|]. apply imm_value_word.
Qed.

Lemma oracle_values d c o l output :
  affine_ok (dc_affine d) -> Forall (reach (af_input_stride (dc_affine d)) c) l -> (c, o) ∈ points (dc_affine d) -> Forall (node_ok (dc_schema d)) l ->
  Forall (fun n => is_store n = false) l -> ordered l ->
  exists values, foldM (oracle_node words c (af_input_stride (dc_affine d)) o) (∅, output) l = Ok (values, output) /\ computed l values.
Proof.
  intros Ha Hw Hp. revert Hw. induction l as [|n l IH] using rev_ind; intros Hw Hn Hs Ho.
  - exists ∅. split; [done|]. intros x Hx. by apply elem_of_nil in Hx.
  - apply Forall_app in Hw as [Hw [Hw1 _]%Forall_cons]. apply Forall_app in Hn as [Hn [Hn1 _]%Forall_cons]. apply Forall_app in Hs as [Hs [Hs1 _]%Forall_cons].
    destruct IH as (values & Hf & Hc); [done|done|done|by eapply ordered_prefix|].
    destruct (oracle_node_value d c o l n values output) as (v & Hv & Hwv); try done.
    { intros x Hx. by eapply (Ho l n []). }
    exists (<[dn_id n := v]> values). rewrite foldM_app, Hf. cbn [bind foldM]. rewrite Hv. cbn [bind].
    split; [done|]. by apply computed_insert.
Qed.

Definition output_ok (output : list Z) : Prop := length output = 256%nat /\ Forall is_word output.

Lemma oracle_point d l c o output :
  descriptor_ok d -> Forall (reach (af_input_stride (dc_affine d)) c) (dc_nodes d) -> scheduled_nodes (dc_nodes d) = Ok l -> (c, o) ∈ points (dc_affine d) -> output_ok output ->
  exists values v, foldM (oracle_node words c (af_input_stride (dc_affine d)) o) (∅, output) l = Ok (values, set_at output o v) /\
    output_ok (set_at output o v).
Proof.
  intros Hd Hw Hl Hp [Hlen Hout]. destruct (descriptor_schedule d l Hd Hl) as (l0 & s & -> & Hs & Hl0 & Hn & Hperm & Ho & _).
  apply Forall_app in Hn as [Hn [Hn1 _]%Forall_cons]. rewrite <- Hperm in Hw. apply Forall_app in Hw as [Hw _].
  destruct (oracle_values d c o l0 output) as (values & Hf & Hc); try done; [apply Hd|by eapply ordered_prefix|].
  rewrite foldM_app, Hf. cbn [bind foldM]. destruct s as [id [| | |x]]; try discriminate Hs. cbn [oracle_node dn_op].
  destruct (value_of_computed l0 values x) as (v & -> & Hv); [done|apply (Ho l0 (DNode id (DStore x)) []); [done|left]|]. cbn [bind].
  pose proof (point_output d c o (do_affine _ Hd) Hp). unfold py_set. rewrite bool_decide_true by lia. cbn [bind].
  exists values, v. split; [done|]. split; [by rewrite length_set_at|]. unfold set_at. by apply Forall_insert.
Qed.

(** Where the neighbour is outside the input, the nodes of a point end in an index error. *)
Lemma oracle_point_gap d l c o output :
  descriptor_ok d -> scheduled_nodes (dc_nodes d) = Ok l -> (c, o) ∈ points (dc_affine d) -> c + af_input_stride (dc_affine d) + 1 = 324 ->
  (exists n, n ∈ dc_nodes d /\ corner n = true) ->
  foldM (oracle_node words c (af_input_stride (dc_affine d)) o) (∅, output) l = Err IndexError.
Proof.
  intros Hd Hl Hp Hc (n & Hn & Hcorner). destruct (descriptor_schedule d l Hd Hl) as (l0 & s & -> & Hs & Hl0 & Hok & Hperm & Ho & _).
  rewrite <- Hperm in Hn. apply elem_of_app in Hn as [Hn| ->%list_elem_of_singleton]; [|by destruct s as [id []]].
  destruct (list_find_elem_of (fun n => corner n = true) l0 n Hn Hcorner) as [[i m] (Hi & Hm & Hfirst)%list_find_Some].
  pose proof (take_drop_middle l0 i m Hi) as Hsplit. apply Forall_app in Hok as [Hok _]. rewrite <- Hsplit in Hok, Hl0, Ho |- *. rewrite <- (assoc_L (++)) in Ho |- *.
  apply Forall_app in Hok as [Hok [Hokm _]%Forall_cons]. apply Forall_app in Hl0 as [Hl0 _].
  destruct (oracle_values d c o (take i l0) output) as (values & Hf & _); [apply Hd| |done..|by eapply ordered_prefix|].
  { apply Forall_forall. intros x [j Hj]%list_elem_of_lookup Hx. apply lookup_take_Some in Hj as [Hj Hji]. by destruct (Hfirst j x Hj Hji). }
  rewrite foldM_app, Hf. cbn [bind app foldM]. destruct m as [id [[|r k]| | |]]; try discriminate Hm. cbn in Hm. apply andb_true_iff in Hm as [->%Z.eqb_eq ->%Z.eqb_eq].
  cbn [oracle_node dn_op node_address bind]. replace (c + 1 * af_input_stride (dc_affine d) + 1) with 324 by lia. unfold py_index. rewrite Hlength. reflexivity.
Qed.

(** The oracle returns on every admitted descriptor without the gap. *)
Lemma oracle_total value d :
  validate_descriptor value = Ok d -> ~ window_gap d ->
  exists output, graph_oracle value words = Ok output /\ length output = 256%nat /\ Forall is_word output.
Proof.
  intros Hd Hw. pose proof (validate_descriptor_ok _ _ Hd) as Hok. destruct (do_scheduled _ Hok) as (l & Hl).
  unfold graph_oracle. rewrite Hd. cbn [bind]. rewrite Hlength, Hl. cbn [Nat.eqb negb bind]. rewrite for_points_foldM.
  apply (foldM_total output_ok).
  - split; [apply length_replicate|]. apply Forall_replicate. unfold is_word. rewrite MASK_eq. lia.
  - intros output [c o] Hp Hout. cbn [fst snd].
    destruct (oracle_point d l c o output) as (values & v & -> & Hv); try done; [eapply gap_reach; [apply Hok|done|done]|]. by exists (set_at output o v).
Qed.

(** With the gap it ends in an index error, at the last point. *)
Lemma oracle_gap value d : validate_descriptor value = Ok d -> window_gap d -> graph_oracle value words = Err IndexError.
Proof.
  intros Hd [Hb Hn]. pose proof (validate_descriptor_ok _ _ Hd) as Hok. destruct (do_scheduled _ Hok) as (l & Hl). pose proof (do_affine _ Hok) as Ha.
  unfold graph_oracle. rewrite Hd. cbn [bind]. rewrite Hlength, Hl. cbn [Nat.eqb negb bind]. rewrite for_points_foldM. unfold affine_ok in Ha.
  assert (Hlast : (af_rows (dc_affine d) * af_input_stride (dc_affine d) + af_columns (dc_affine d), (af_rows (dc_affine d) - 1) * af_output_stride (dc_affine d) + (af_columns (dc_affine d) - 1)) ∈ points (dc_affine d)).
  { apply elem_of_points. exists (af_rows (dc_affine d) - 1), (af_columns (dc_affine d) - 1). split_and!; lia. }
  apply (foldM_stuck output_ok _ _ _ _ _ Hlast).
  - split; [apply length_replicate|]. apply Forall_replicate. unfold is_word. rewrite MASK_eq. lia.
  - intros output [c o] Hp Hout. cbn [fst snd]. destruct (decide (c + af_input_stride (dc_affine d) + 1 < 324)) as [Hlt|Hge].
    + destruct (oracle_point d l c o output) as (values & v & -> & Hv); try done; [apply Forall_forall; by intros ? _ _|]. right. by exists (set_at output o v).
    + left. rewrite (oracle_point_gap d l c o output); try done. apply elem_of_points in Hp as (row & column & Hr & Hc & -> & _).
      assert ((row + 1) * af_input_stride (dc_affine d) <= af_rows (dc_affine d) * af_input_stride (dc_affine d)) by nia. lia.
  - intros output _. cbn [fst snd]. rewrite (oracle_point_gap d l _ _ output); try done. lia.
Qed.
End oracle.

(** C30. The fallback admits every program the compiler returns and, on 324
    words, computes exactly what the oracle computes from the descriptor: the
    same 256 words, or the same error. *)
Theorem device_program_correct value p words :
  compile_descriptor value = Ok p -> Forall is_word words -> length words = 324%nat ->
  software_fallback (program_val p) words = graph_oracle value words.
Proof. apply compiled_fallback. Qed.

(** ** The memory transactions of a run *)

(** The instruction word of a node, whatever its registers. *)
Definition word_of (n : dnode) (w : Z) : Prop :=
  exists dst sources, 0 <= dst < 8 /\ Forall (fun r => 0 <= r < 8) sources /\ encode_op (dn_op n) dst sources = Ok w.

Lemma compile_words l st st' :
  regs_ok st -> foldM compile_node st l = Ok st' ->
  exists ws, da_instructions st' = da_instructions st ++ ws /\ Forall2 word_of l ws.
Proof.
  revert st. induction l as [|n l IH]; intros st Hok H; cbn [foldM] in H.
  - injection H as <-. exists []. by rewrite app_nil_r.
  - destruct (compile_node st n) as [st1|] eqn:E; [|discriminate H]. cbn [bind] in H.
    destruct (compile_node_Ok _ _ _ Hok E) as (sources & w & Hsrc & Hw & Hok1 & Hstep).
    destruct (IH _ Hok1 H) as (ws & Hws & Hf). exists (w :: ws). split; [by rewrite Hws, Hw, <- app_assoc|].
    constructor; [|done]. assert (Hreg : Forall (fun r => 0 <= r < 8) sources).
    { apply traverse_Ok in Hsrc. clear -Hsrc Hok. induction Hsrc as [|s r l rs Hs _ IH]; [constructor|]. constructor; [|done].
      destruct (da_registers st !! s) eqn:Hr; [|discriminate Hs]. injection Hs as ->. exact (live_range _ Hok _ _ Hr). }
    destruct (is_store n).
    + exists 0, sources. split_and!; [lia..|done|apply Hstep].
    + destruct Hstep as (dst & _ & Hd & He & _). exists dst, sources. split_and!; [lia..|done|done].
Qed.

Lemma word_of_opcode schema n w :
  node_ok schema n -> word_of n w ->
  match dn_op n with
  | DLoad a => exists dst, load_ok dst a w = true
  | DBin o _ _ => Z.shiftr w 28 = bin_code o
  | DImm o _ _ => Z.shiftr w 28 = imm_code o
  | DStore _ => Z.shiftr w 28 = STORE_U32
  end.
Proof.
  intros Hn (dst & sources & Hd & Hs & He). unfold node_ok in Hn. destruct n as [id [a|o x y|o x imm|x]]; cbn [dn_op encode_op] in *.
  - exists dst. destruct (encode_load_ok schema dst a w Hd Hn He) as [Hl _]. exact Hl.
  - destruct (py_index sources 0) as [ra|] eqn:Hra; [|discriminate He]. cbn [bind] in He.
    destruct (py_index sources 1) as [rb|] eqn:Hrb; [|discriminate He]. cbn [bind] in He. apply Ok_inj in He as <-.
    apply (py_index_Forall _ _ _ _ Hs) in Hra. apply (py_index_Forall _ _ _ _ Hs) in Hrb. pose proof (bin_code_range o). rewrite encode_bin_pack by done.
    rewrite pack_op; [done|lia..].
  - destruct (py_index sources 0) as [ra|] eqn:Hra; [|discriminate He]. cbn [bind] in He. apply Ok_inj in He as <-.
    apply (py_index_Forall _ _ _ _ Hs) in Hra. pose proof (imm_code_range o).
    assert (Himm : 0 <= imm < 2 ^ 22) by (destruct o; apply Hn). rewrite encode_imm_pack by done.
    rewrite pack_op; [done|lia..].
  - destruct (py_index sources 0) as [ra|] eqn:Hra; [|discriminate He]. cbn [bind] in He. apply Ok_inj in He as <-.
    apply (py_index_Forall _ _ _ _ Hs) in Hra. exact (proj1 (encode_store_fields ra Hra)).
Qed.

(** A transaction within the input and output windows. *)
Definition tx_ok (t : transaction) : Prop :=
  if tx_write t then 324 <= tx_address t < 580 /\ is_word (tx_data t) else 0 <= tx_address t < 324.

Definition is_load (n : dnode) : bool := match dn_op n with DLoad _ => true | _ => false end.

Section transactions.
Context (d : descriptor) (Hok : descriptor_ok d) (version : Z)
  (Hversion : (3 <=? version) = (2 <=? dc_schema d)) (oracle : list Z) (Horacle : output_ok oracle).
Abbreviation stride := (af_input_stride (dc_affine d)).

Lemma node_transactions n w c o :
  node_ok (dc_schema d) n -> reach stride c n -> word_of n w -> (c, o) ∈ points (dc_affine d) ->
  exists l, instruction_transactions version stride oracle c o w = Ok l /\ Forall tx_ok l /\
    length l = if is_load n || is_store n then 1%nat else 0%nat.
Proof.
  intros Hn Hreach Hw Hp. pose proof (word_of_opcode _ _ _ Hn Hw) as Ho. unfold instruction_transactions, is_load, is_store.
  destruct n as [id [a|op x y|op x imm|x]]; cbn [dn_op orb] in *.
  - destruct Ho as [dst Hl]. assert (Z.shiftr w 28 = LOAD_U32) as -> by (unfold load_ok in Hl; by bool_prop).
    rewrite Z.eqb_refl, (load_address_ok (dc_schema d) version stride Hversion dst a w c Hn Hl).
    destruct (node_address_window d a id c o (do_affine _ Hok) Hreach Hn Hp) as (i & -> & Hi).
    eexists. split; [reflexivity|]. split; [|done]. constructor; [exact Hi|constructor].
  - rewrite Ho. exists []. by destruct op.
  - rewrite Ho. exists []. by destruct op.
  - rewrite Ho. cbn [Z.eqb LOAD_U32 STORE_U32 Pos.eqb]. pose proof (point_output d c o (do_affine _ Hok) Hp).
    destruct Horacle as [Hlen Hfor]. destruct (py_index_Ok oracle o) as (v & -> & Hv); [lia|].
    eexists. split; [reflexivity|]. split; [|done]. constructor; [|constructor]. cbn [tx_ok tx_write tx_address tx_data].
    rewrite Forall_lookup in Hfor. split; [lia|eauto].
Qed.

Lemma point_transactions l ws c o :
  Forall (node_ok (dc_schema d)) l -> Forall (reach stride c) l -> Forall2 word_of l ws -> (c, o) ∈ points (dc_affine d) ->
  exists ts, traverse (instruction_transactions version stride oracle c o) ws = Ok ts /\ Forall tx_ok (concat ts) /\
    length (concat ts) = length (List.filter (fun n => is_load n || is_store n) l).
Proof.
  intros Hn Hr Hw Hp. induction Hw as [|n w l ws Hnw _ IH]; [by exists []|].
  apply Forall_cons in Hn as [Hn Hl]. apply Forall_cons in Hr as [Hrn Hr]. destruct (IH Hl Hr) as (ts & Hts & Hok' & Hlen).
  destruct (node_transactions n w c o Hn Hrn Hnw Hp) as (t & Ht & Htok & Htl).
  exists (t :: ts). cbn [traverse]. rewrite Ht, Hts. cbn [bind concat]. split_and!; [done|by apply Forall_app|].
  rewrite length_app, Htl, Hlen. cbn [List.filter]. by destruct (is_load n || is_store n).
Qed.
End transactions.

Lemma loads_length schema l ws :
  Forall (node_ok schema) l -> Forall2 word_of l ws ->
  length (List.filter (fun w => Z.shiftr w 28 =? LOAD_U32) ws) = length (List.filter is_load l).
Proof.
  intros Hn Hw. induction Hw as [|n w l ws Hnw _ IH]; [done|]. apply Forall_cons in Hn as [Hn Hl].
  pose proof (word_of_opcode _ _ _ Hn Hnw) as Ho. cbn [List.filter]. unfold is_load at 1.
  replace (Z.shiftr w 28 =? LOAD_U32) with (match dn_op n with DLoad _ => true | _ => false end).
  - destruct (dn_op n); cbn [length]; by rewrite IH.
  - destruct (dn_op n) as [a|op| op|]; [|by rewrite Ho; destruct op..|by rewrite Ho].
    destruct Ho as [dst Ho]. unfold load_ok in Ho. bool_prop. symmetry. apply Z.eqb_eq. done.
Qed.

Lemma points_length af : 0 <= af_rows af -> 0 <= af_columns af -> Z.of_nat (length (points af)) = af_rows af * af_columns af.
Proof.
  intros Hr Hc. unfold points.
  assert (Hl : forall (f : Z -> Z -> Z * Z) l,
    length (concat (map (fun row => map (f row) (zseq (af_columns af))) l)) = (length l * Z.to_nat (af_columns af))%nat).
  { intros f l. induction l as [|x l IH]; [done|]. cbn [map concat length]. rewrite length_app, IH, length_map.
    unfold zseq. rewrite length_seqZ. lia. }
  rewrite Hl. unfold zseq. rewrite length_seqZ. lia.
Qed.

(** A loop that appends [per] items at every step. *)
Lemma append_loop {A B} (P : B -> Prop) (f : A -> res (list (list B))) per l acc :
  (forall x, x ∈ l -> exists ts, f x = Ok ts /\ Forall P (concat ts) /\ length (concat ts) = per) -> Forall P acc ->
  exists out, foldM (fun acc x => let* ts := f x in Ok (acc ++ concat ts)) acc l = Ok out /\ Forall P out /\
    length out = (length acc + length l * per)%nat.
Proof.
  revert acc. induction l as [|x l IH]; intros acc Hf Hacc; cbn [foldM length].
  - exists acc. split_and!; [done|done|lia].
  - destruct (Hf x) as (ts & -> & Hts & Hlen); [left|]. cbn [bind].
    destruct (IH (acc ++ concat ts)) as (out & -> & Hout & Hlo); [intros; apply Hf; by right|by apply Forall_app|].
    exists out. split_and!; [done|done|]. rewrite Hlo, length_app. lia.
Qed.

Lemma filter_or_length {A} (f g : A -> bool) l :
  (forall x, f x = true -> g x = false) ->
  length (List.filter (fun x => f x || g x) l) = (length (List.filter f l) + length (List.filter g l))%nat.
Proof.
  intros H. induction l as [|x l IH]; [done|]. cbn [List.filter]. specialize (H x).
  destruct (f x), (g x); cbn [orb length]; try (rewrite IH; lia).
Qed.

(** The planned transactions of a compiled program: as many at every point
    as the program says, every read within the input's 324 words and every
    write a word within the output's 256. *)
Theorem expected_transactions_bounds value d p words :
  validate_descriptor value = Ok d -> ~ window_gap d -> compile_descriptor value = Ok p ->
  Forall is_word words -> length words = 324%nat ->
  exists txs, expected_transactions (program_val p) words = Ok txs /\ Forall tx_ok txs /\
    Z.of_nat (length txs) = af_rows (dc_affine d) * af_columns (dc_affine d) * pg_transactions_per_output p.
Proof.
  intros Hd Hwin Hc Hw Hlen. destruct (oracle_total words Hw Hlen value d Hd Hwin) as (oracle & Ho & Hol & Hof).
  unfold expected_transactions. rewrite (compiled_fallback value p words) by done. rewrite Ho. cbn [bind].
  apply compile_descriptor_parts in Hc as (d' & l & st & trace & Hd' & Hl & Hst & ->).
  rewrite Hd in Hd'. apply Ok_inj in Hd' as <-. pose proof (validate_descriptor_ok _ _ Hd) as Hok.
  destruct (program_version_ok d Hok) as (_ & Hv & _). rewrite (compiled_admitted d l st) by done.
  cbn [bind pg_transactions_per_output]. rewrite program_affine_val. cbn [bind].
  destruct (descriptor_schedule d l Hok Hl) as (l0 & s & -> & Hs & Hl0 & Hn & Hperm & _).
  destruct (compile_words _ _ _ (regs_ok_initial _) Hst) as (ws & Hws & Hwo). cbn [da_instructions app] in Hws. rewrite Hws.
  rewrite for_points_foldM. change (at_ 0 (payload_words (program_version d) ws) 1) with (program_version d).
  set (per := length (List.filter (fun n => is_load n || is_store n) (l0 ++ [s]))).
  destruct (do_affine _ Hok) as (Hr & Hcol & _). rewrite <- points_length by lia.
  destruct (append_loop tx_ok (fun p => traverse (instruction_transactions (program_version d)
      (af_input_stride (dc_affine d)) oracle p.1 p.2) ws) per (points (dc_affine d)) []) as (out & -> & Hout & Hlo).
  { intros [c o] Hp. apply (point_transactions d); try done. rewrite Hperm. eapply gap_reach; [apply Hok|done|done]. }
  { constructor. }
  exists out. split_and!; [done|done|]. rewrite Hlo, (loads_length (dc_schema d) (l0 ++ [s])) by done.
  subst per. rewrite filter_or_length by (intros [? []]; done).
  enough (length (List.filter is_store (l0 ++ [s])) = 1%nat) as -> by (cbn [length]; lia).
  rewrite List.filter_app, length_app. cbn [List.filter]. rewrite Hs.
  assert (List.filter is_store l0 = []) as ->; [|done].
  clear -Hl0. induction Hl0 as [|n l Hn _ IH]; [done|]. cbn [List.filter]. by rewrite Hn.
Qed.

(** ** Witnesses *)

Example vertical_program : is_ok (compile_descriptor vertical_three_point) = true.
Proof. vm_compute. reflexivity. Qed.

Example vertical_descriptor :
  (let* d := validate_descriptor vertical_three_point in Ok (dc_schema d)) = Ok 1.
Proof. vm_compute. reflexivity. Qed.

Lemma zseq_words : Forall is_word (zseq 324).
Proof.
  apply Forall_forall. intros w Hw. apply elem_of_zseq in Hw. unfold is_word. rewrite MASK_eq. lia.
Qed.

Lemma device_program_correct_witness :
  exists p, compile_descriptor vertical_three_point = Ok p /\
    software_fallback (program_val p) (zseq 324) = graph_oracle vertical_three_point (zseq 324).
Proof.
  destruct (compile_descriptor vertical_three_point) as [p|e] eqn:E.
  - exists p. split; [done|]. apply (device_program_correct vertical_three_point p (zseq 324) E); [apply zseq_words|].
    vm_compute. reflexivity.
  - pose proof vertical_program as H. rewrite E in H. discriminate H.
Defined.

Lemma vertical_window d : validate_descriptor vertical_three_point = Ok d -> ~ window_gap d.
Proof.
  intros Hd (_ & n & Hn & Hc). pose proof (validate_descriptor_ok _ _ Hd) as Hok. pose proof (do_nodes _ Hok) as Hf. rewrite Forall_forall in Hf. specialize (Hf n Hn).
  pose proof vertical_descriptor as Hs. rewrite Hd in Hs. apply Ok_inj in Hs. destruct n as [id [[|r c]| | |]]; try discriminate Hc. destruct Hf as [Hf _]. lia.
Qed.

Lemma expected_transactions_bounds_witness :
  exists d p txs, compile_descriptor vertical_three_point = Ok p /\
    expected_transactions (program_val p) (zseq 324) = Ok txs /\ Forall tx_ok txs /\
    Z.of_nat (length txs) = af_rows (dc_affine d) * af_columns (dc_affine d) * pg_transactions_per_output p.
Proof.
  destruct (validate_descriptor vertical_three_point) as [d|e] eqn:Ed.
  - destruct (compile_descriptor vertical_three_point) as [p|e] eqn:E.
    + exists d, p. destruct (expected_transactions_bounds vertical_three_point d p (zseq 324) Ed) as (txs & H1 & H2 & H3).
      * by apply vertical_window.
      * exact E.
      * apply zseq_words.
      * vm_compute. reflexivity.
      * exists txs. split; [reflexivity|]. split; [exact H1|]. split; [exact H2|exact H3].
    + pose proof vertical_program as H. rewrite E in H. discriminate H.
  - pose proof vertical_descriptor as H. rewrite Ed in H. discriminate H.
Defined.

(** ** The corner the descriptor check leaves open *)

(** One load of the south-east neighbour on 15 rows of 3 columns, 20 apart: the
    neighbour of the last point is word 324. *)
Definition corner_descriptor : dict :=
  [("schema", VStr "raveil.graph-device-dag/v2"); ("graph_id", VStr "corner"); ("affine", affine_val (Affine 15 3 20 3));
   ("nodes", VList [
     VDict [("id", VStr "se"); ("op", VStr "LOAD_U32");
            ("address", VDict [("row_delta", VInt 1); ("column_delta", VInt 1)])];
     VDict [("id", VStr "store"); ("op", VStr "STORE_U32"); ("input", VStr "se")]])].

(** C33. On 324 words the oracle of an admitted descriptor, and the fallback on its
    compiled program, return 256 words, unless the shape is at the bound of the
    check and the south-east neighbour is loaded: then both fail with an index
    error, since the check bounds the other neighbours only and that one is a word
    further. *)
Theorem device_window_gap value d words :
  validate_descriptor value = Ok d -> Forall is_word words -> length words = 324%nat ->
  (window_gap d -> graph_oracle value words = Err IndexError /\
    forall p, compile_descriptor value = Ok p -> software_fallback (program_val p) words = Err IndexError) /\
  (~ window_gap d -> exists output, graph_oracle value words = Ok output /\ length output = 256%nat /\ Forall is_word output /\
    forall p, compile_descriptor value = Ok p -> software_fallback (program_val p) words = Ok output).
Proof.
  intros Hd Hw Hlen. split; intros Hg.
  - pose proof (oracle_gap words Hw Hlen value d Hd Hg) as Ho. split; [done|]. intros p Hp. by rewrite (compiled_fallback value p).
  - destruct (oracle_total words Hw Hlen value d Hd Hg) as (output & Ho & Hl & Hf). exists output. split_and!; try done. intros p Hp. by rewrite (compiled_fallback value p).
Qed.

Lemma device_window_gap_witness :
  exists p, compile_descriptor corner_descriptor = Ok p /\ graph_oracle corner_descriptor (zseq 324) = Err IndexError /\
    software_fallback (program_val p) (zseq 324) = Err IndexError.
Proof.
  assert (Hp : exists p, compile_descriptor corner_descriptor = Ok p) by (eexists; vm_compute; reflexivity). destruct Hp as [p Hp].
  assert (Hd : exists d, validate_descriptor corner_descriptor = Ok d /\ window_gap d).
  { eexists. split; [vm_compute; reflexivity|]. split; [reflexivity|]. eexists. split; [left|reflexivity]. }
  destruct Hd as (d & Hd & Hg). exists p. split; [exact Hp|].
  destruct (device_window_gap corner_descriptor d (zseq 324) Hd zseq_words) as [H _]; [vm_compute; reflexivity|]. destruct (H Hg) as [Ho Hf]. split; [exact Ho|]. apply (Hf p Hp).
Defined.
