(* ===== verification/StaticRegionOracle.v ===== *)
(** * Two oracles of the five-point stencil

    The static region's oracle against the graph device: the registered
    five-point graph ([contracts/graph_device_dags/five-point.json]) has the same
    output under the device's oracle, and so does its compiled program on the
    software fallback. *)

From S2P Require Import Prelude PyValue AffineFold DeviceProgram DeviceProgramFacts DeviceRun StaticRegion.

Definition five_point : dict :=
  let load id := VDict [("address", VStr id); ("id", VStr id); ("op", VStr "LOAD_U32")] in
  let add id a b := VDict [("id", VStr id); ("inputs", VList [VStr a; VStr b]); ("op", VStr "ADD_U32")] in
  [("affine", affine_val (Affine 16 16 18 16)); ("graph_id", VStr "five-point");
   ("nodes", VList [load "center"; load "north"; add "sum0" "center" "north"; load "south"; add "sum1" "sum0" "south"; load "west";
      add "sum2" "sum1" "west"; load "east"; add "sum3" "sum2" "east"; VDict [("id", VStr "store"); ("input", VStr "sum3"); ("op", VStr "STORE_U32")]]);
   ("schema", VStr "raveil.graph-device-dag/v1")].

(** ** Filling a list point by point *)

Lemma fill (f : Z -> Z) (l : list (Z * Z)) k out :
  map snd l = seqZ (Z.of_nat k) (Z.of_nat (length l)) -> length out = (k + length l)%nat ->
  foldM (fun o (p : Z * Z) => Ok (set_at o p.2 (f p.1))) out l = Ok (take k out ++ map (fun p => f p.1) l).
Proof.
  revert k out. induction l as [|[c o] l IH]; intros k out Hs Hl; cbn [foldM map].
  - cbn in Hl. rewrite take_ge by lia. by rewrite app_nil_r.
  - cbn [length map snd] in *. rewrite seqZ_cons in Hs by lia. injection Hs as -> Hs. cbn [bind fst]. rewrite (IH (S k)).
    + unfold set_at. rewrite Nat2Z.id. change (f c :: map (fun p => f p.1) l) with ([f c] ++ map (fun p => f p.1) l). rewrite (assoc_L (++)). f_equal. f_equal.
      rewrite (take_S_r _ _ (f c)) by (apply list_lookup_insert_eq; lia). by rewrite take_insert_ge.
    + rewrite Hs. f_equal; lia.
    + rewrite length_set_at. lia.
Qed.

(** ** One point *)

Lemma u32_add_l a b : u32 (u32 a + b) = u32 (a + b).
Proof. rewrite !u32_mod. by rewrite Zplus_mod_idemp_l. Qed.

Lemma u32_sum5 a b c d e : u32 (u32 (u32 (u32 (a + b) + c) + d) + e) = u32 (a + b + c + d + e).
Proof. rewrite u32_add_l, <- Z.add_assoc, u32_add_l, <- Z.add_assoc, u32_add_l. f_equal. lia. Qed.

Lemma py_index_at (words : list Z) i : 0 <= i < Z.of_nat (length words) -> py_index words i = Ok (at_ 0 words i).
Proof.
  intros H. destruct (py_index_Ok words i H) as (x & -> & Hx). f_equal. unfold at_. symmetry. by apply nth_lookup_Some.
Qed.

Definition five_nodes : list dnode :=
  [DNode "center" (DLoad (ASelector "center")); DNode "north" (DLoad (ASelector "north")); DNode "sum0" (DBin DAdd "center" "north");
   DNode "south" (DLoad (ASelector "south")); DNode "sum1" (DBin DAdd "sum0" "south"); DNode "west" (DLoad (ASelector "west"));
   DNode "sum2" (DBin DAdd "sum1" "west"); DNode "east" (DLoad (ASelector "east")); DNode "sum3" (DBin DAdd "sum2" "east"); DNode "store" (DStore "sum3")].

Definition five_sum (words : list Z) (c : Z) : Z :=
  u32 (at_ 0 words c + at_ 0 words (c - 18) + at_ 0 words (c + 18) + at_ 0 words (c - 1) + at_ 0 words (c + 1)).

Lemma five_point_step words c o output : length words = 324%nat -> 19 <= c <= 304 -> 0 <= o < Z.of_nat (length output) ->
  (let* ' (_, output) := foldM (oracle_node words c 18 o) (∅, output) five_nodes in Ok output) = Ok (set_at output o (five_sum words c)).
Proof.
  intros Hl Hc Ho. assert (Hget : forall sel off, node_address (ASelector sel) c 18 = Ok (c + off) -> -18 <= off <= 18 ->
    forall id values out, oracle_node words c 18 o (values, out) (DNode id (DLoad (ASelector sel))) = Ok (<[id := at_ 0 words (c + off)]> values, out)).
  { intros sel off Ha Hoff id values out. cbn [oracle_node dn_op dn_id]. rewrite Ha. cbn [bind]. by rewrite py_index_at by lia. }
  assert (Hbin : forall id x y a b values out, value_of values x = Ok a -> value_of values y = Ok b ->
    oracle_node words c 18 o (values, out) (DNode id (DBin DAdd x y)) = Ok (<[id := u32 (a + b)]> values, out)).
  { intros id x y a b values out Ha Hb. cbn [oracle_node dn_op dn_id]. by rewrite Ha, Hb. }
  unfold five_nodes. cbn [foldM].
  rewrite (Hget "center" 0) by (reflexivity || lia). cbn [bind]. rewrite (Hget "north" (-18)) by (reflexivity || lia). cbn [bind].
  erewrite Hbin by reflexivity. cbn [bind]. rewrite (Hget "south" 18) by (reflexivity || lia). cbn [bind].
  erewrite Hbin by reflexivity. cbn [bind]. rewrite (Hget "west" (-1)) by (reflexivity || lia). cbn [bind].
  erewrite Hbin by reflexivity. cbn [bind]. rewrite (Hget "east" 1) by (reflexivity || lia). cbn [bind].
  erewrite Hbin by reflexivity. cbn [bind oracle_node dn_op].
  match goal with |- context [value_of ?v "sum3"] => assert (Hv : value_of v "sum3" = Ok (five_sum words c)) end.
  { unfold value_of. rewrite lookup_insert_eq. cbn [from_option_err]. by rewrite Z.add_0_r, u32_sum5. }
  rewrite Hv. cbn [bind]. unfold py_set. rewrite bool_decide_true by lia. done.
Qed.

(** ** The oracles agree *)

Definition five_affine : affine := Affine 16 16 18 16.
Lemma five_point_parts : exists d, validate_descriptor five_point = Ok d /\ dc_affine d = five_affine /\ scheduled_nodes (dc_nodes d) = Ok five_nodes.
Proof. vm_compute. eexists. split; [reflexivity|]. split; reflexivity. Qed.

Lemma points_snd : map snd (points five_affine) = zseq 256.
Proof. vm_compute. reflexivity. Qed.
Lemma points_fst : map fst (points five_affine) = concat (map (fun y => map (fun x => 18 * y + x) (zrange 1 17)) (zrange 1 17)).
Proof. vm_compute. reflexivity. Qed.

Lemma graph_oracle_five words : length words = 324%nat -> graph_oracle five_point words = Ok (map (fun p => five_sum words p.1) (points five_affine)).
Proof.
  intros Hl. destruct five_point_parts as (d & Hd & Ha & Hn). unfold graph_oracle. rewrite Hd. cbn [bind]. rewrite Hl. cbn [Nat.eqb negb]. rewrite Hn. cbn [bind].
  rewrite for_points_foldM, Ha. pose proof (fill (five_sum words) (points five_affine) 0 (replicate 256 0)) as Hf.
  rewrite take_0 in Hf. cbn [app] in Hf. rewrite <- Hf; [|exact points_snd|reflexivity]. clear Hf.
  assert (Hp : forall p, p ∈ points five_affine -> 19 <= p.1 <= 304 /\ 0 <= p.2 < 256).
  { intros [c o] (r & k & Hr & Hk & -> & ->)%elem_of_points. cbn in *. lia. }
  assert (Hout : length (replicate 256 0) = 256%nat) by done. revert Hout Hp. generalize (replicate 256 0) as out. generalize (points five_affine) as l.
  induction l as [|[c o] l IH]; intros out Hout Hp; [done|]. cbn [foldM fst snd]. destruct (Hp (c, o)) as [Hc Ho]; [left|]. cbn [fst snd] in *.
  rewrite five_point_step by (done || lia). cbn [bind]. apply IH; [by rewrite length_set_at|]. intros p Hin. apply Hp. by right.
Qed.

Lemma static_oracle_five words : Forall is_word words -> length words = 324%nat ->
  static_stencil_oracle words = Ok (map (fun p => five_sum words p.1) (points five_affine)).
Proof.
  intros Hw Hl. unfold static_stencil_oracle. rewrite Hl. cbn [Nat.eqb negb]. f_equal.
  assert (Hid : map u32 words = words). { clear Hl. induction Hw as [|w l H _ IH]; [done|]. cbn. by rewrite u32_id, IH. }
  rewrite Hid. transitivity (map (five_sum words) (map fst (points five_affine))); [|by rewrite map_map].
  by rewrite points_fst, concat_map, map_map.
Qed.

(** C9. The static region's stencil oracle is the graph device's meaning of the
    registered five-point graph: on 324 words the device oracle, and the fallback
    running the compiled program, return the static oracle's 256 words. *)
Theorem five_point_agree words :
  Forall is_word words -> length words = 324%nat ->
  exists p out, compile_descriptor five_point = Ok p /\ static_stencil_oracle words = Ok out /\
    graph_oracle five_point words = Ok out /\ software_fallback (program_val p) words = Ok out.
Proof.
  intros Hw Hl. assert (Hc : exists p, compile_descriptor five_point = Ok p) by (vm_compute; eexists; reflexivity). destruct Hc as [p Hp].
  exists p, (map (fun q => five_sum words q.1) (points five_affine)). rewrite (compiled_fallback _ _ _ Hp Hw Hl), (graph_oracle_five _ Hl).
  split_and!; [done|by apply static_oracle_five|done|done].
Qed.

Lemma five_point_agree_witness : exists out, static_stencil_oracle (zseq 324) = Ok out /\ graph_oracle five_point (zseq 324) = Ok out.
Proof.
  destruct (five_point_agree (zseq 324) zseq_words eq_refl) as (p & out & _ & Hs & Hg & _). exists out. split; [exact Hs|exact Hg].
Defined.
