(* ===== verification/CommandGraph.v ===== *)
(** * Command graph programs ([raveil/command_graph.py], data model)

    A program of command nodes, its edges and its execution policy, as frozen
    records with strict readers and writers. A program's identity is a digest of
    its canonical document; [validate] recomputes it and checks that the nodes
    are in dependency order. *)

From S2P Require Import Prelude PyValue Evidence Workspace Sha256.

Definition PROGRAM_SCHEMA : string := "raveil.command-graph-program/v1".
Definition RESULT_SCHEMA : string := "raveil.command-graph-result/v1".
Definition POLICY_SCHEMA : string := "raveil.command-execution-policy/v1".
Definition TOOL_SCHEMA : string := "raveil.command-tool/v1".
Definition NODE_SCHEMA : string := "raveil.command-node/v1".
Definition EDGE_SCHEMA : string := "raveil.command-edge/v1".
Definition MAX_NODES : Z := 64.
Definition MAX_ARGV : Z := 32.
Definition MAX_ARG_BYTES : Z := 4096.
Definition MAX_CAPTURE_BYTES : Z := 1024 * 1024.
Definition MAX_STAGE_BYTES : Z := 16 * 1024 * 1024.
Definition MAX_PARALLEL : Z := 8.
(** [tuple(sorted(CONTROLLED_ENV.items()))] *)
Definition CONTROLLED_ENV : list (string * string) := [("LANG", "C"); ("LC_ALL", "C"); ("TZ", "UTC")].
Definition ALLOWLIST : list string :=
  ["echo"; "printf"; "pwd"; "ls"; "cat"; "stat"; "mkdir"; "grep"; "wc";
   "sort"; "uniq"; "cut"; "tr"; "head"; "tail"; "tee"; "cp"; "sha256sum"].

(** ** Fields *)

(** [_exact]; the dictionary, for the reads that follow. *)
Definition exact (data : pyval) (expected : list string) (name : string) : res dict :=
  match data with
  | VDict d => if keys_are d expected then Ok d else fail (name +:+ " fields do not match schema")
  | _ => fail (name +:+ " fields do not match schema")
  end.

Definition is_text (s : string) (maximum : Z) : bool :=
  negb (String.eqb s "") && negb (maximum <? utf8_length s) && negb (bool_decide (Ascii.zero ∈ String.list_ascii_of_string s)).
(** [_text] *)
Definition text (value : pyval) (name : string) (maximum : Z) : res string :=
  match value with
  | VStr s => if is_text s maximum then Ok s else fail ("invalid " +:+ name)
  | _ => fail ("invalid " +:+ name)
  end.
(** [_integer] *)
Definition integer (value : pyval) (name : string) (minimum maximum : Z) : res Z :=
  match value with
  | VInt z => if (minimum <=? z) && (z <=? maximum) then Ok z else fail ("invalid " +:+ name)
  | _ => fail ("invalid " +:+ name)
  end.
(** The items of a field that must be a list. *)
Definition items_of (value : pyval) (message : string) : res (list pyval) :=
  match value with VList l => Ok l | _ => fail message end.
(** A field that is [None] or a text. *)
Definition optional_text (value : pyval) (name : string) : res (option string) :=
  match value with VNone => Ok None | _ => let* s := text value name 4096 in Ok (Some s) end.
Definition optional_val (o : option string) : pyval := match o with Some s => VStr s | None => VNone end.

(** ** Tools *)

Record tool_identity := ToolIdentity {
  tl_logical_name : string; tl_locator : string; tl_version : string; tl_binary_sha256 : string; tl_adapter : string; tl_schema : string }.

Definition tool_to_dict (t : tool_identity) : pyval :=
  VDict [("schema", VStr (tl_schema t)); ("logical_name", VStr (tl_logical_name t)); ("locator", VStr (tl_locator t));
    ("version", VStr (tl_version t)); ("binary_sha256", VStr (tl_binary_sha256 t)); ("adapter", VStr (tl_adapter t))].
Definition tool_fields : list string := ["schema"; "logical_name"; "locator"; "version"; "binary_sha256"; "adapter"].

Definition tool_from_dict (data : pyval) : res tool_identity :=
  let* d := exact data tool_fields "tool" in
  let field k name maximum := let* v := dsub d k in text v name maximum in
  let* logical_name := field "logical_name" "tool" 4096 in
  let* locator := field "locator" "locator" 4096 in
  let* version := field "version" "version" 512 in
  let* binary_sha256 := field "binary_sha256" "binary hash" 64 in
  let* adapter := field "adapter" "adapter" 4096 in
  let* schema := field "schema" "schema" 4096 in
  raise_if negb (String.eqb schema TOOL_SCHEMA) || negb (String.length binary_sha256 =? 64)%nat with "invalid tool identity" in
  Ok (ToolIdentity logical_name locator version binary_sha256 adapter schema).

(** ** The execution policy *)

Record execution_policy := ExecutionPolicy {
  po_timeout_ms : Z; po_max_capture_bytes : Z; po_max_nodes : Z; po_max_parallel : Z; po_schema : string }.
Definition default_policy : execution_policy := ExecutionPolicy 10000 MAX_CAPTURE_BYTES MAX_NODES 4 POLICY_SCHEMA.

Definition policy_to_dict (p : execution_policy) : pyval :=
  VDict [("schema", VStr (po_schema p)); ("timeout_ms", VInt (po_timeout_ms p)); ("max_capture_bytes", VInt (po_max_capture_bytes p));
    ("max_nodes", VInt (po_max_nodes p)); ("max_parallel", VInt (po_max_parallel p))].
Definition policy_fields : list string := ["schema"; "timeout_ms"; "max_capture_bytes"; "max_nodes"; "max_parallel"].

Definition policy_from_dict (data : pyval) : res execution_policy :=
  let* d := exact data policy_fields "policy" in
  let field k name maximum := let* v := dsub d k in integer v name 1 maximum in
  let* timeout_ms := field "timeout_ms" "timeout" 60000 in
  let* max_capture_bytes := field "max_capture_bytes" "capture" MAX_CAPTURE_BYTES in
  let* max_nodes := field "max_nodes" "nodes" MAX_NODES in
  let* max_parallel := field "max_parallel" "parallel" MAX_PARALLEL in
  let* v := dsub d "schema" in let* schema := text v "schema" 4096 in
  raise_if negb (String.eqb schema POLICY_SCHEMA) with "invalid policy schema" in
  Ok (ExecutionPolicy timeout_ms max_capture_bytes max_nodes max_parallel schema).

(** ** Nodes *)

Record command_node := CommandNode {
  nd_id : string; nd_tool : tool_identity; nd_argv : list string; nd_path_indices : list Z; nd_declared_writes : list string;
  nd_stdin_file : option string; nd_stdout_file : option string; nd_dependencies : list string; nd_dependency_mode : string;
  nd_fanout_group : Z; nd_schema : string }.

Definition strs (l : list string) : pyval := VList (map VStr l).

Definition node_to_dict (n : command_node) : pyval :=
  VDict [("schema", VStr (nd_schema n)); ("node_id", VStr (nd_id n)); ("tool", tool_to_dict (nd_tool n));
    ("argv", strs (nd_argv n)); ("path_indices", words_val (nd_path_indices n)); ("declared_writes", strs (nd_declared_writes n));
    ("stdin_file", optional_val (nd_stdin_file n)); ("stdout_file", optional_val (nd_stdout_file n));
    ("dependencies", strs (nd_dependencies n)); ("dependency_mode", VStr (nd_dependency_mode n));
    ("fanout_group", VInt (nd_fanout_group n))].
Definition node_fields : list string :=
  ["schema"; "node_id"; "tool"; "argv"; "path_indices"; "declared_writes"; "stdin_file"; "stdout_file";
   "dependencies"; "dependency_mode"; "fanout_group"].

Definition node_from_dict (data : pyval) : res command_node :=
  let* d := exact data node_fields "node" in
  let listed k := let* v := dsub d k in items_of v "invalid node lists" in
  let* argv_items := listed "argv" in
  let* path_items := listed "path_indices" in
  let* write_items := listed "declared_writes" in
  let* dependency_items := listed "dependencies" in
  let* argv := traverse (fun v => text v "argv" 4096) argv_items in
  let* paths := traverse (fun v => integer v "path index" 0 (Z.max 0 (Z.of_nat (length argv) - 1))) path_items in
  let* deps := traverse (fun v => text v "dependency" 4096) dependency_items in
  let* v := dsub d "stdin_file" in let* stdin_file := optional_text v "stdin file" in
  let* v := dsub d "stdout_file" in let* stdout_file := optional_text v "stdout file" in
  let* writes := traverse (fun v => text v "declared write" 4096) write_items in
  let* v := dsub d "node_id" in let* node_id := text v "node id" 4096 in
  let* v := dsub d "tool" in let* tool := tool_from_dict v in
  let* v := dsub d "dependency_mode" in let* mode := text v "dependency mode" 4096 in
  let* v := dsub d "fanout_group" in let* group := integer v "fanout group" 0 MAX_NODES in
  let* v := dsub d "schema" in let* schema := text v "schema" 4096 in
  raise_if negb (String.eqb schema NODE_SCHEMA) || negb (bool_decide (mode ∈ ["always"; "success"; "stream"])) with "invalid node" in
  Ok (CommandNode node_id tool argv paths writes stdin_file stdout_file deps mode group schema).

(** ** Edges *)

Record command_edge := CommandEdge { ed_source : string; ed_target : string; ed_kind : string; ed_schema : string }.

Definition edge_to_dict (e : command_edge) : pyval :=
  VDict [("schema", VStr (ed_schema e)); ("source", VStr (ed_source e)); ("target", VStr (ed_target e)); ("kind", VStr (ed_kind e))].
Definition edge_fields : list string := ["schema"; "source"; "target"; "kind"].

Definition edge_from_dict (data : pyval) : res command_edge :=
  let* d := exact data edge_fields "edge" in
  let field k name := let* v := dsub d k in text v name 4096 in
  let* source := field "source" "source" in
  let* target := field "target" "target" in
  let* kind := field "kind" "edge kind" in
  let* schema := field "schema" "schema" in
  raise_if negb (String.eqb schema EDGE_SCHEMA) || negb (bool_decide (kind ∈ ["stream"; "success"; "sequence"])) with "invalid edge" in
  Ok (CommandEdge source target kind schema).

(** ** Programs *)

Record command_program := CommandGraphProgram {
  cg_graph_id : string; cg_source : string; cg_nodes : list command_node; cg_edges : list command_edge;
  cg_declared_inputs : list string; cg_declared_outputs : list string; cg_policy : execution_policy;
  cg_environment : list (string * string); cg_schema : string }.

(** [_identity_dict] *)
Definition identity_dict (p : command_program) : dict :=
  [("schema", VStr (cg_schema p)); ("source", VStr (cg_source p)); ("nodes", VList (map node_to_dict (cg_nodes p)));
   ("edges", VList (map edge_to_dict (cg_edges p))); ("declared_inputs", strs (cg_declared_inputs p));
   ("declared_outputs", strs (cg_declared_outputs p)); ("policy", policy_to_dict (cg_policy p));
   ("environment", VList (map (fun kv => strs [kv.1; kv.2]) (cg_environment p)))].

Definition identity (p : command_program) : string := sha256_hex (canonical (VDict (identity_dict p))).
(** [f"command-{identity[:16]}"] *)
Definition graph_name (p : command_program) : string := "command-" +:+ String.substring 0 16 (identity p).

(** One step of the loop over [prior]. *)
Definition check_prior (prior : list string) (n : command_node) : res (list string) :=
  raise_if existsb (fun dep => negb (bool_decide (dep ∈ prior))) (nd_dependencies n) with "command graph is not topological" in
  Ok (prior ++ [nd_id n]).

(** [validate] *)
Definition validate (p : command_program) : res unit :=
  raise_if negb (String.eqb (cg_schema p) PROGRAM_SCHEMA) || negb (String.eqb (cg_graph_id p) (graph_name p))
  with "command graph identity does not match" in
  raise_if bool_decide (cg_nodes p = []) || (po_max_nodes (cg_policy p) <? Z.of_nat (length (cg_nodes p)))
  with "invalid command graph node count" in
  raise_if negb (bool_decide (NoDup (map nd_id (cg_nodes p)))) with "duplicate command node" in
  let* _ := foldM check_prior [] (cg_nodes p) in
  raise_if negb (bool_decide (NoDup (cg_declared_outputs p))) with "duplicate declared output" in
  raise_if negb (bool_decide (NoDup (cg_declared_inputs p))) with "duplicate declared input" in
  Ok tt.

Definition program_to_dict (p : command_program) : pyval := VDict (("graph_id", VStr (cg_graph_id p)) :: identity_dict p).
Definition program_fields : list string :=
  ["graph_id"; "schema"; "source"; "nodes"; "edges"; "declared_inputs"; "declared_outputs"; "policy"; "environment"].

Definition environment_item (v : pyval) : res (string * string) :=
  match v with
  | VList [k; x] => let* k := text k "environment key" 4096 in let* x := text x "environment value" 4096 in Ok (k, x)
  | _ => fail "invalid environment"
  end.

Definition program_from_dict (data : pyval) : res command_program :=
  let* d := exact data program_fields "command graph" in
  let listed k := let* v := dsub d k in items_of v "invalid command graph list" in
  let* node_items := listed "nodes" in
  let* edge_items := listed "edges" in
  let* input_items := listed "declared_inputs" in
  let* output_items := listed "declared_outputs" in
  let* environment_items := listed "environment" in
  let* env := traverse environment_item environment_items in
  let* v := dsub d "graph_id" in let* graph_id := text v "graph id" 4096 in
  let* v := dsub d "source" in let* source := text v "source" 8192 in
  let* nodes := traverse node_from_dict node_items in
  let* edges := traverse edge_from_dict edge_items in
  let* inputs := traverse (fun v => text v "input" 4096) input_items in
  let* outputs := traverse (fun v => text v "output" 4096) output_items in
  let* v := dsub d "policy" in let* policy := policy_from_dict v in
  let* v := dsub d "schema" in let* schema := text v "schema" 4096 in
  let value := CommandGraphProgram graph_id source nodes edges inputs outputs policy env schema in
  let* _ := validate value in
  Ok value.
