(* ===== verification/CommandGraphFacts.v ===== *)
(** * Command graph programs: what their documents hold

    The readers accept exactly the documents the writers produce for
    well-formed values, up to the order of keys. *)

From S2P Require Import Prelude PyValue Evidence Workspace Sha256 CommandGraph.

(** ** Fields *)

Lemma exact_Ok v ks name d : exact v ks name = Ok d -> v = VDict d /\ keys_are d ks = true.
Proof. destruct v; try discriminate. cbn. destruct (keys_are d0 ks) eqn:E; [|discriminate]. by intros [= ->]. Qed.
Lemma text_Ok v name m s : text v name m = Ok s <-> v = VStr s /\ is_text s m = true.
Proof.
  split; [|by intros [-> H]; cbn; rewrite H].
  destruct v; try discriminate. cbn. destruct (is_text s0 m) eqn:E; [|discriminate]. by intros [= ->].
Qed.
Lemma integer_field_Ok v name lo hi z : integer v name lo hi = Ok z <-> v = VInt z /\ lo <= z <= hi.
Proof.
  split.
  - destruct v; try discriminate. cbn. destruct (_ && _) eqn:E; [|discriminate]. intros [= ->]. bool_prop. done.
  - intros [-> [H1 H2]]. cbn. by rewrite (proj2 (Z.leb_le _ _) H1), (proj2 (Z.leb_le _ _) H2).
Qed.
Lemma items_Ok v m l : items_of v m = Ok l <-> v = VList l.
Proof. split; [|by intros ->]. destruct v; try discriminate. by intros [= ->]. Qed.
Definition is_optional_text (o : option string) : Prop := match o with Some s => is_text s 4096 = true | None => True end.
Lemma optional_Ok v name o : optional_text v name = Ok o <-> v = optional_val o /\ is_optional_text o.
Proof.
  split.
  - intros H. destruct v; try (by apply Ok_inj in H as <-); unfold optional_text in H;
      (destruct (text _ _ _) as [s'|] eqn:E; [|discriminate H]); apply Ok_inj in H as <-; apply text_Ok in E as [E ?]; done.
  - intros [-> Ho]. destruct o as [s|]; [|done]. unfold optional_val, optional_text. by rewrite (proj2 (text_Ok (VStr s) name 4096 s)).
Qed.
Lemma dsub_Ok d k v : dsub d k = Ok v <-> dget k d = Some v.
Proof. unfold dsub. destruct (dget k d); cbn; split; congruence. Qed.

Lemma texts_Ok items name m l : traverse (fun v => text v name m) items = Ok l <-> items = map VStr l /\ Forall (fun s => is_text s m = true) l.
Proof.
  rewrite traverse_Ok. split.
  - induction 1 as [|x s items l Hx _ [-> IH]]; [done|]. apply text_Ok in Hx as [-> ?]. split; [done|by constructor].
  - intros [-> H]. induction H; constructor; [by apply text_Ok|done].
Qed.
Lemma integers_Ok items name lo hi l : traverse (fun v => integer v name lo hi) items = Ok l <-> items = map VInt l /\ Forall (fun z => lo <= z <= hi) l.
Proof.
  rewrite traverse_Ok. split.
  - induction 1 as [|x s items l Hx _ [-> IH]]; [done|]. apply integer_field_Ok in Hx as [-> ?]. split; [done|by constructor].
  - intros [-> H]. induction H; constructor; [by apply integer_field_Ok|done].
Qed.

(** ** Same documents *)

Lemma same_str s : same (VStr s) (VStr s) = true.
Proof. cbn. apply String.eqb_refl. Qed.
Lemma same_int z : same (VInt z) (VInt z) = true.
Proof. cbn. apply Z.eqb_refl. Qed.
Lemma same_list l m : Forall2 (fun x y => same x y = true) l m -> same (VList l) (VList m) = true.
Proof. induction 1 as [|x y l m Hx _ IH]; [done|]. cbn in *. by rewrite Hx, IH. Qed.
Lemma same_map {A} (f : A -> pyval) (l : list A) : (forall a, same (f a) (f a) = true) -> same (VList (map f l)) (VList (map f l)) = true.
Proof. intros H. apply same_list. induction l; constructor; auto. Qed.
Lemma same_strs l : same (strs l) (strs l) = true.
Proof. apply same_map, same_str. Qed.
Lemma same_words l : same (words_val l) (words_val l) = true.
Proof. apply same_map, same_int. Qed.
Lemma same_optional o : same (optional_val o) (optional_val o) = true.
Proof. destruct o; [apply same_str|done]. Qed.
Lemma same_dict d e : keys_are d (keys e) = true -> Forall (fun kv => exists x, dget kv.1 d = Some x /\ same x kv.2 = true) e ->
  same (VDict d) (VDict e) = true.
Proof.
  intros Hk He. cbn. rewrite Hk. cbn [andb]. clear Hk. induction He as [|[k v] e (x & Hx & Hv) _ IH]; [done|]. cbn in Hx, Hv. by rewrite Hx, Hv, IH.
Qed.
Lemma same_Forall2 {A} (f : A -> pyval) (l : list pyval) m : Forall2 (fun v a => same v (f a) = true) l m -> same (VList l) (VList (map f m)) = true.
Proof. intros H. apply same_list. induction H; cbn; constructor; auto. Qed.
Create HintDb same_doc.
#[export] Hint Resolve same_str same_int same_strs same_words same_optional : same_doc.

(** ** Well-formed records *)

Definition texts_ok (l : list string) : Prop := Forall (fun s => is_text s 4096 = true) l.

Record tool_ok (t : tool_identity) : Prop := {
  to_name : is_text (tl_logical_name t) 4096 = true; to_locator : is_text (tl_locator t) 4096 = true;
  to_version : is_text (tl_version t) 512 = true;
  to_hash : is_text (tl_binary_sha256 t) 64 = true; to_hash_length : String.length (tl_binary_sha256 t) = 64%nat;
  to_adapter : is_text (tl_adapter t) 4096 = true; to_schema : tl_schema t = TOOL_SCHEMA }.

Record policy_ok (p : execution_policy) : Prop := {
  pk_timeout : 1 <= po_timeout_ms p <= 60000; pk_capture : 1 <= po_max_capture_bytes p <= MAX_CAPTURE_BYTES;
  pk_nodes : 1 <= po_max_nodes p <= MAX_NODES; pk_parallel : 1 <= po_max_parallel p <= MAX_PARALLEL; pk_schema : po_schema p = POLICY_SCHEMA }.

Record node_ok (n : command_node) : Prop := {
  no_id : is_text (nd_id n) 4096 = true; no_tool : tool_ok (nd_tool n); no_argv : texts_ok (nd_argv n);
  no_paths : Forall (fun i => 0 <= i <= Z.max 0 (Z.of_nat (length (nd_argv n)) - 1)) (nd_path_indices n);
  no_writes : texts_ok (nd_declared_writes n); no_stdin : is_optional_text (nd_stdin_file n); no_stdout : is_optional_text (nd_stdout_file n);
  no_deps : texts_ok (nd_dependencies n); no_mode : nd_dependency_mode n ∈ ["always"; "success"; "stream"];
  no_group : 0 <= nd_fanout_group n <= MAX_NODES; no_schema : nd_schema n = NODE_SCHEMA }.

Record edge_ok (e : command_edge) : Prop := {
  eo_source : is_text (ed_source e) 4096 = true; eo_target : is_text (ed_target e) 4096 = true;
  eo_kind : ed_kind e ∈ ["stream"; "success"; "sequence"]; eo_schema : ed_schema e = EDGE_SCHEMA }.

Record program_ok (p : command_program) : Prop := {
  pg_id : is_text (cg_graph_id p) 4096 = true; pg_source : is_text (cg_source p) 8192 = true;
  pg_nodes : Forall node_ok (cg_nodes p); pg_edges : Forall edge_ok (cg_edges p);
  pg_inputs : texts_ok (cg_declared_inputs p); pg_outputs : texts_ok (cg_declared_outputs p);
  pg_policy : policy_ok (cg_policy p);
  pg_environment : Forall (fun kv => is_text kv.1 4096 = true /\ is_text kv.2 4096 = true) (cg_environment p);
  pg_schema : is_text (cg_schema p) 4096 = true }.

(** ** Reading what was written *)

Lemma exact_written d ks name : keys d = ks -> exact (VDict d) ks name = Ok d.
Proof. intros <-. unfold exact. by rewrite (proj2 (keys_are_spec d (keys d))). Qed.
Lemma text_str s name m : is_text s m = true -> text (VStr s) name m = Ok s.
Proof. intros H. by apply text_Ok. Qed.
Lemma integer_int z name lo hi : lo <= z <= hi -> integer (VInt z) name lo hi = Ok z.
Proof. intros H. by apply integer_field_Ok. Qed.
Lemma texts_strs l name m : Forall (fun s => is_text s m = true) l -> traverse (fun v => text v name m) (map VStr l) = Ok l.
Proof. intros H. by apply texts_Ok. Qed.
Lemma integers_ints l name lo hi : Forall (fun z => lo <= z <= hi) l -> traverse (fun v => integer v name lo hi) (map VInt l) = Ok l.
Proof. intros H. by apply integers_Ok. Qed.
Lemma optional_written o name : is_optional_text o -> optional_text (optional_val o) name = Ok o.
Proof. intros H. by apply optional_Ok. Qed.
Lemma traverse_written {A} (f : pyval -> res A) (g : A -> pyval) (P : A -> Prop) l :
  (forall a, P a -> f (g a) = Ok a) -> Forall P l -> traverse f (map g l) = Ok l.
Proof. intros H. induction 1 as [|a l Ha _ IH]; [done|]. cbn. by rewrite H, IH. Qed.

(** Reads the fields of a written document. *)
Ltac read_fields :=
  repeat first [rewrite text_str by done | rewrite integer_int by done | rewrite texts_strs by done | rewrite integers_ints by done
               | rewrite optional_written by done]; cbn [bind].
Ltac read_written :=
  rewrite exact_written by done; unfold dsub;
  cbn [bind dget from_option_err String.eqb Ascii.eqb Bool.eqb items_of strs words_val]; read_fields.

Lemma tool_written t : tool_ok t -> tool_from_dict (tool_to_dict t) = Ok t.
Proof.
  intros [H1 H2 H3 H4 H5 H6 H7]. destruct t as [n l v h a s]. cbn in *. subst s. unfold tool_from_dict, tool_to_dict. cbn [tl_logical_name tl_locator tl_version tl_binary_sha256 tl_adapter tl_schema].
  read_written. by rewrite String.eqb_refl, (proj2 (Nat.eqb_eq _ _) H5).
Qed.
Lemma policy_written p : policy_ok p -> policy_from_dict (policy_to_dict p) = Ok p.
Proof. intros [H1 H2 H3 H4 H5]. destruct p as [a b c d s]. cbn in *. subst s. unfold policy_from_dict, policy_to_dict. cbn [po_timeout_ms po_max_capture_bytes po_max_nodes po_max_parallel po_schema]. by read_written. Qed.
Lemma edge_written e : edge_ok e -> edge_from_dict (edge_to_dict e) = Ok e.
Proof.
  intros [H1 H2 H3 H4]. destruct e as [a b k s]. cbn in *. subst s. unfold edge_from_dict, edge_to_dict. cbn [ed_source ed_target ed_kind ed_schema].
  assert (is_text k 4096 = true) by (repeat (apply elem_of_cons in H3 as [->|H3]; [reflexivity|]); by apply elem_of_nil in H3).
  read_written. by rewrite String.eqb_refl, bool_decide_true.
Qed.
Lemma node_written n : node_ok n -> node_from_dict (node_to_dict n) = Ok n.
Proof.
  intros [H1 H2 H3 H4 H5 H6 H7 H8 H9 H10 H11]. destruct n as [id tl av pi dw si so de mode fg sc]. cbn in *. subst sc. unfold node_from_dict, node_to_dict.
  cbn [nd_id nd_tool nd_argv nd_path_indices nd_declared_writes nd_stdin_file nd_stdout_file nd_dependencies nd_dependency_mode nd_fanout_group nd_schema].
  assert (is_text mode 4096 = true) by (repeat (apply elem_of_cons in H9 as [->|H9]; [reflexivity|]); by apply elem_of_nil in H9).
  read_written. rewrite tool_written by done. cbn [bind]. read_fields. by rewrite String.eqb_refl, bool_decide_true.
Qed.
Lemma environment_written kv : is_text kv.1 4096 = true /\ is_text kv.2 4096 = true -> environment_item (strs [kv.1; kv.2]) = Ok kv.
Proof. intros [H1 H2]. cbn [strs map environment_item]. read_fields. by destruct kv. Qed.

(** A written program is read back, when it validates. *)
Theorem program_written p : program_ok p -> validate p = Ok tt -> program_from_dict (program_to_dict p) = Ok p.
Proof.
  intros [H1 H2 H3 H4 H5 H6 H7 H8 H9] Hv. destruct p as [gi so ns es di do po en sc]. cbn [cg_graph_id cg_source cg_nodes cg_edges cg_declared_inputs cg_declared_outputs cg_policy cg_environment cg_schema] in *.
  unfold program_from_dict, program_to_dict, identity_dict.
  cbn [cg_graph_id cg_source cg_nodes cg_edges cg_declared_inputs cg_declared_outputs cg_policy cg_environment cg_schema].
  rewrite exact_written by done. unfold dsub. cbn [bind dget from_option_err String.eqb Ascii.eqb Bool.eqb items_of strs].
  rewrite (traverse_written environment_item _ _ _ environment_written) by done. cbn [bind]. read_fields.
  rewrite (traverse_written node_from_dict _ _ _ node_written), (traverse_written edge_from_dict _ _ _ edge_written) by done. cbn [bind]. read_fields.
  rewrite policy_written by done. cbn [bind]. read_fields. by rewrite Hv.
Qed.

(** ** What the readers accept *)

(** Splits a reader that returned into what it read. *)
Ltac accept_step :=
  match goal with
  | H : Ok _ = Ok _ |- _ => apply Ok_inj in H; subst
  | H : bind ?m _ = Ok _ |- _ => let E := fresh "R" in destruct m eqn:E; cbn [bind] in H; [|discriminate H]
  | H : (if ?b then Err _ else _) = Ok _ |- _ => let E := fresh "G" in destruct b eqn:E; [discriminate H|]
  | H : exact _ _ _ = Ok _ |- _ => apply exact_Ok in H as [-> ?]
  | H : dsub _ _ = Ok _ |- _ => apply dsub_Ok in H
  | H : text _ _ _ = Ok _ |- _ => apply text_Ok in H as [? ?]
  | H : integer _ _ _ _ = Ok _ |- _ => apply integer_field_Ok in H as [? ?]
  | H : items_of _ _ = Ok _ |- _ => apply items_Ok in H
  | H : optional_text _ _ = Ok _ |- _ => apply optional_Ok in H as [? ?]
  | H : traverse (fun _ => text _ _ _) _ = Ok _ |- _ => apply texts_Ok in H as [? ?]
  | H : traverse (fun _ => integer _ _ _ _) _ = Ok _ |- _ => apply integers_Ok in H as [? ?]
  | H : _ || _ = false |- _ => apply orb_false_iff in H as [? ?]
  | H : negb _ = false |- _ => apply negb_false_iff in H
  | H : String.eqb _ _ = true |- _ => apply String.eqb_eq in H
  | H : bool_decide _ = true |- _ => apply bool_decide_eq_true in H
  | H : (_ =? _)%nat = true |- _ => apply Nat.eqb_eq in H
  end.
Ltac accepted := repeat accept_step; subst.
(** The document of a record just read is the one read. *)
Ltac same_fields :=
  apply same_dict; [done|]; repeat constructor; cbn [fst snd]; eexists; (split; [eassumption|eauto with same_doc]).

Lemma tool_read v t : tool_from_dict v = Ok t -> tool_ok t /\ same v (tool_to_dict t) = true.
Proof. intros H. unfold tool_from_dict in H. accepted. split; [by split|]. unfold tool_to_dict. cbn -[same]. same_fields. Qed.
Lemma policy_read v p : policy_from_dict v = Ok p -> policy_ok p /\ same v (policy_to_dict p) = true.
Proof. intros H. unfold policy_from_dict in H. accepted. split; [by split|]. unfold policy_to_dict. cbn -[same]. same_fields. Qed.
Lemma edge_read v e : edge_from_dict v = Ok e -> edge_ok e /\ same v (edge_to_dict e) = true.
Proof. intros H. unfold edge_from_dict in H. accepted. split; [by split|]. unfold edge_to_dict. cbn -[same]. same_fields. Qed.
Lemma node_read v n : node_from_dict v = Ok n -> node_ok n /\ same v (node_to_dict n) = true.
Proof.
  intros H. unfold node_from_dict in H. accepted. 
  match goal with H : tool_from_dict _ = Ok _ |- _ => apply tool_read in H as [? ?] end.
  split; [by split|]. unfold node_to_dict. cbn -[same words_val strs]. same_fields.
Qed.
Lemma environment_read v kv : environment_item v = Ok kv -> (is_text kv.1 4096 = true /\ is_text kv.2 4096 = true) /\ same v (strs [kv.1; kv.2]) = true.
Proof.
  intros H. unfold environment_item in H. destruct v as [| | | | |l|]; try discriminate H. destruct l as [|a [|b []]]; try discriminate H.
  accepted. cbn [fst snd]. split; [done|apply (same_strs [_; _])].
Qed.

(** A list read item by item. *)
Lemma traverse_read {A} (f : pyval -> res A) (g : A -> pyval) (P : A -> Prop) items l :
  (forall v a, f v = Ok a -> P a /\ same v (g a) = true) -> traverse f items = Ok l -> Forall P l /\ same (VList items) (VList (map g l)) = true.
Proof.
  intros Hf H. apply traverse_Ok in H. assert (Forall P l /\ Forall2 (fun v a => same v (g a) = true) items l) as [HP H2].
  { induction H as [|v a items l Hv _ IH]; [by split|]. destruct (Hf _ _ Hv), IH. by split; constructor. }
  split; [done|]. by apply same_Forall2.
Qed.

Lemma program_read v p : program_from_dict v = Ok p -> program_ok p /\ validate p = Ok tt /\ same v (program_to_dict p) = true.
Proof.
  intros H. unfold program_from_dict in H. accepted.
  match goal with H : validate ?p = Ok ?u |- _ => assert (Hv : validate p = Ok tt) by (by destruct u); clear H end.
  repeat match goal with
  | H : traverse node_from_dict _ = Ok _ |- _ => apply (traverse_read _ _ _ _ _ node_read) in H as [? ?]
  | H : traverse edge_from_dict _ = Ok _ |- _ => apply (traverse_read _ _ _ _ _ edge_read) in H as [? ?]
  | H : traverse environment_item _ = Ok _ |- _ => apply (traverse_read environment_item (fun kv => strs [kv.1; kv.2]) _ _ _ environment_read) in H as [? ?]
  | H : policy_from_dict _ = Ok _ |- _ => apply policy_read in H as [? ?]
  end.
  split_and!; [by split|done|]. unfold program_to_dict, identity_dict. cbn -[same strs]. same_fields.
Qed.

(** ** Readers raise [ValueError] only *)

Lemma veo_exact v ks name : value_error_only (exact v ks name).
Proof. destruct v; try exact I. cbn. by destruct (keys_are _ _). Qed.
Lemma veo_text v name m : value_error_only (text v name m).
Proof. destruct v; try exact I. cbn. by destruct (is_text _ _). Qed.
Lemma veo_integer v name lo hi : value_error_only (integer v name lo hi).
Proof. destruct v; try exact I. cbn. by destruct (_ && _). Qed.
Lemma veo_items v m : value_error_only (items_of v m).
Proof. by destruct v. Qed.
Lemma veo_optional v name : value_error_only (optional_text v name).
Proof. destruct v; try exact I; (apply veo_bind; [apply veo_text|done]). Qed.
Lemma veo_field {A} v ks name d k (f : pyval -> res A) : exact v ks name = Ok d -> bool_decide (k ∈ ks) = true ->
  (forall x, value_error_only (f x)) -> value_error_only (let* x := dsub d k in f x).
Proof.
  intros [_ Hk]%exact_Ok Hin Hf. apply bool_decide_eq_true in Hin. apply veo_bind; [|auto].
  apply veo_lookup, dget_is_Some, (proj1 (keys_are_spec d ks) Hk), Hin.
Qed.

Ltac veo_read :=
  repeat match goal with
  | |- value_error_only (exact _ _ _) => apply veo_exact
  | |- value_error_only (text _ _ _) => apply veo_text
  | |- value_error_only (integer _ _ _ _) => apply veo_integer
  | |- value_error_only (items_of _ _) => apply veo_items
  | |- value_error_only (optional_text _ _) => apply veo_optional
  | H : exact _ _ _ = Ok ?d |- value_error_only (bind (dsub ?d _) _) => apply (veo_field _ _ _ _ _ _ H); [reflexivity|intros ?]
  | |- value_error_only (bind _ _) => apply veo_bind; [|intros ? ?]
  | |- value_error_only (traverse _ _) => apply veo_traverse; intros ? ?
  | |- value_error_only (if ?b then _ else _) => destruct b
  | |- value_error_only (Ok _) => exact I
  | |- value_error_only (Err (ValueError _)) => exact I
  end; auto with value_error.

Lemma veo_tool v : value_error_only (tool_from_dict v).
Proof. unfold tool_from_dict. veo_read. Qed.
Lemma veo_policy v : value_error_only (policy_from_dict v).
Proof. unfold policy_from_dict. veo_read. Qed.
Lemma veo_edge v : value_error_only (edge_from_dict v).
Proof. unfold edge_from_dict. veo_read. Qed.
#[export] Hint Resolve veo_tool veo_policy veo_edge : value_error.
Lemma veo_node v : value_error_only (node_from_dict v).
Proof. unfold node_from_dict. veo_read. Qed.
Lemma veo_environment v : value_error_only (environment_item v).
Proof. unfold environment_item. destruct v as [| | | | |l|]; try exact I. destruct l as [|a [|b []]]; try exact I. veo_read. Qed.
Lemma veo_validate p : value_error_only (validate p).
Proof.
  unfold validate. veo_read. unfold check_prior. apply (veo_foldM (fun _ _ => True)); [done|]. intros s x l _. split; [|done]. by destruct (existsb _ _).
Qed.
#[export] Hint Resolve veo_node veo_environment veo_validate : value_error.
Lemma veo_program v : value_error_only (program_from_dict v).
Proof. unfold program_from_dict. veo_read. Qed.
