(* ===== verification/CommandShell.v ===== *)
(** * The command graph compiler ([raveil/command_graph.py])

    From a line of shell-like text to a program: the lexer ([shlex] in POSIX
    mode with the punctuation [|<>&;], as [_tokens] sets it up), the operands each
    tool may take ([_tool_paths]), the nodes and edges, and the checks of inputs
    and outputs against the workspace. [tool_host] is what the machine's tool
    directories hold and what the tools report. *)

From S2P Require Import Prelude PyValue Evidence Array Workspace Sha256 CommandGraph.

Definition contains (sub s : string) : bool := is_Some_b (String.index 0 sub s).
Definition char (n : nat) : Ascii.ascii := Ascii.ascii_of_nat n.
Definition add_char (s : string) (c : Ascii.ascii) : string := s +:+ String c "".

(** ** The lexer *)

(** The [state] of [shlex.read_token]: outside a token, inside quotes, after a
    backslash (in a word, or in quotes), in a word, in punctuation. *)
Inductive lex_state := Outside | Quoted (q : Ascii.ascii) | Escaped (back : option Ascii.ascii) | InWord | InPunct.

Definition is_whitespace (c : Ascii.ascii) : bool := bool_decide (code c ∈ [32; 9; 13; 10]).
Definition is_punctuation (c : Ascii.ascii) : bool := bool_decide (code c ∈ [124; 60; 62; 38; 59]).
Definition is_quote (c : Ascii.ascii) : bool := bool_decide (code c ∈ [39; 34]).
Definition is_escape (c : Ascii.ascii) : bool := code c =? 92.

(** [read_token]: the token, [None] at the end of the text; and the text after
    it, [None] past the end. A character pushed back is not consumed. *)
Fixpoint read_token (st : lex_state) (quoted : bool) (token input : string) : res (option string * option string) :=
  let emits := negb (String.eqb token "") || quoted in
  match input with
  | "" =>
      match st with
      | Quoted _ => fail "No closing quotation"
      | Escaped _ => fail "No escaped character"
      | _ => Ok (if emits then Some token else None, None)
      end
  | String c rest =>
      match st with
      | Outside =>
          if is_whitespace c then (if emits then Ok (Some token, Some rest) else read_token Outside quoted token rest)
          else if is_escape c then read_token (Escaped None) quoted token rest
          else if is_punctuation c then read_token InPunct quoted (String c "") rest
          else if is_quote c then read_token (Quoted c) quoted token rest
          else read_token InWord quoted (String c "") rest
      | Quoted q =>
          if bool_decide (c = q) then read_token InWord true token rest
          else if is_escape c && (code q =? 34) then read_token (Escaped (Some q)) true token rest
          else read_token (Quoted q) true (add_char token c) rest
      | Escaped back =>
          let token := match back with
                       | Some q => if negb (is_escape c) && negb (bool_decide (c = q)) then add_char token (char 92) else token
                       | None => token
                       end in
          read_token (match back with Some q => Quoted q | None => InWord end) quoted (add_char token c) rest
      | InWord =>
          if is_whitespace c then (if emits then Ok (Some token, Some rest) else read_token Outside quoted token rest)
          else if is_quote c then read_token (Quoted c) quoted token rest
          else if is_escape c then read_token (Escaped None) quoted token rest
          else if negb (is_punctuation c) then read_token InWord quoted (add_char token c) rest
          else if emits then Ok (Some token, Some input) else read_token InPunct quoted (String c "") rest
      | InPunct =>
          if is_whitespace c then (if emits then Ok (Some token, Some rest) else read_token Outside quoted token rest)
          else if is_punctuation c then read_token InPunct quoted (add_char token c) rest
          else Ok (if emits then Some token else None, Some input)
      end
  end.

(** [list(lexer)]; each token but the last consumes a character. *)
Fixpoint lex (fuel : nat) (input : string) : res (list string) :=
  match fuel with
  | O => Err OutOfFuel
  | S fuel =>
      let* ' (token, rest) := read_token Outside false "" input in
      match token, rest with
      | None, _ => Ok []
      | Some t, None => Ok [t]
      | Some t, Some rest => let* ts := lex fuel rest in Ok (t :: ts)
      end
  end.

Definition has_char (n : Z) (s : string) : bool := existsb (fun c => code c =? n) (String.list_ascii_of_string s).

(** [_tokens] *)
Definition check_token (t : string) : res unit :=
  raise_if bool_decide (t ∈ [">>"; "||"; "&"]) || existsb (fun c => has_char c t) [42; 63; 91; 93]
  with ("unsupported shell operator or expansion: " +:+ t) in Ok tt.
Definition tokens_of (source : string) : res (list string) :=
  raise_if (8192 <? utf8_length source) || has_char 0 source || has_char 96 source || has_char 36 source
  with "command source is invalid or oversized" in
  let* tokens := lex (S (String.length source)) source in
  raise_if bool_decide (tokens = []) with "command is empty" in
  let* _ := traverse check_token tokens in
  Ok tokens.

(** ** Tools *)

Definition TOOL_DIRS : list string := ["/usr/bin"; "/bin"; "/usr/local/bin"; "/opt/homebrew/bin"].

(** The bytes of an executable regular file by directory and name; and what it
    prints for an option: the lines of its first 256 bytes and its status. *)
Record tool_host := ToolHost { th_file : string -> string -> option (list Z); th_report : string -> string -> option (list string * Z) }.

Definition tool_names (name : string) : list string := if String.eqb name "sha256sum" then ["sha256sum"; "shasum"] else [name].

(** [_candidate]: the path, the name found there, and the bytes. *)
Definition tool_candidate (h : tool_host) (name : string) : res (string * string * list Z) :=
  match omap (fun dn : string * string => (fun b => (fst dn +:+ "/" +:+ snd dn, snd dn, b)) <$> th_file h (fst dn) (snd dn))
             (d ← TOOL_DIRS; n ← tool_names name; [(d, n)]) with
  | found :: _ => Ok found
  | [] => fail ("allowlisted tool is unavailable: " +:+ name)
  end.

(** Characters [str.split()] separates at. *)
Definition is_space (c : Ascii.ascii) : bool :=
  let n := code c in ((9 <=? n) && (n <=? 13)) || ((28 <=? n) && (n <=? 32)) || (n =? 133) || (n =? 160).
(** [s.split()] *)
Fixpoint words_of (word s : string) : list string :=
  let flush := if String.eqb word "" then [] else [word] in
  match s with
  | "" => flush
  | String c s => if is_space c then flush ++ words_of "" s else words_of (add_char word c) s
  end.

(** The version of the first option the tool answers. *)
Definition reported_version (h : tool_host) (path digest : string) : string :=
  match omap (fun option => match th_report h path option with
                            | Some (first :: _, 0) => Some (String.substring 0 256 (String.concat " " (words_of "" first)))
                            | _ => None
                            end) ["--version"; "-V"] with
  | version :: _ => version
  | [] => "unreported-" +:+ String.substring 0 12 digest
  end.

Definition tool_adapter (name actual : string) : string :=
  if String.eqb name "sha256sum" && String.eqb actual "shasum" then "shasum-a-256" else "direct-argv".
Definition tool_locator (actual digest : string) : string := "system://" +:+ actual +:+ "/" +:+ String.substring 0 16 digest.

(** [ToolRegistry.resolve] *)
Definition resolve (h : tool_host) (name : string) : res tool_identity :=
  raise_if negb (bool_decide (name ∈ ALLOWLIST)) with ("tool is not allowlisted: " +:+ name) in
  let* ' (path, actual, data) := tool_candidate h name in
  let digest := sha256_hex data in
  Ok (ToolIdentity name (tool_locator actual digest) (reported_version h path digest) digest (tool_adapter name actual) TOOL_SCHEMA).

(** [ToolRegistry.executable] *)
Definition executable (h : tool_host) (t : tool_identity) : res string :=
  let* ' (path, actual, data) := tool_candidate h (tl_logical_name t) in
  raise_if negb (String.eqb (tl_adapter t) (tool_adapter (tl_logical_name t) actual)) ||
           negb (String.eqb (tl_locator t) (tool_locator actual (tl_binary_sha256 t)))
  with ("tool identity mismatch: " +:+ tl_logical_name t) in
  raise_if negb (String.eqb (sha256_hex data) (tl_binary_sha256 t)) with ("stale tool identity: " +:+ tl_logical_name t) in
  Ok path.

(** ** The operands of a tool *)

Record operands := Operands { op_args : list string; op_paths : list Z; op_reads : gset string; op_writes : gset string }.

(** The local function [path]: the argument is replaced by its virtual path. *)
Definition mark (ws : workspace) (write : bool) (st : operands) (index : Z) : res operands :=
  let* arg := py_index (op_args st) index in
  let* v := normalize ws arg in
  Ok (Operands (set_at (op_args st) index v) (op_paths st ++ [index])
        (if write then op_reads st else op_reads st ∪ {[v]}) (if write then op_writes st ∪ {[v]} else op_writes st)).

Definition dash (s : string) : bool := String.prefix "-" s.
(** [while index < len(args) and p(args[index]): index += 1] *)
Fixpoint leading (p : string -> bool) (args : list string) : Z :=
  match args with [] => 0 | a :: args => if p a then 1 + leading p args else 0 end.
(** The options of [cut], two arguments each. *)
Fixpoint cut_options (args : list string) : res Z :=
  match args with
  | a :: rest =>
      if bool_decide (a ∈ ["-d"; "-f"]) then
        match rest with [] => fail "invalid cut option" | _ :: rest => let* n := cut_options rest in Ok (2 + n) end
      else Ok 0
  | [] => Ok 0
  end.
(** [str.isdigit], of the characters below U+0100. *)
Definition isdigit (s : string) : bool :=
  negb (String.eqb s "") &&
  forallb (fun c => let n := code c in ((48 <=? n) && (n <=? 57)) || bool_decide (n ∈ [178; 179; 185])) (String.list_ascii_of_string s).

Section tool_paths.
Context (ws : workspace) (name : string) (args : list string).

Definition start : operands := Operands args [] ∅ ∅.
Definition count : Z := Z.of_nat (length args).
Definition any_dash : bool := existsb dash args.
Definition none_given : bool := bool_decide (args = []).
(** [for index in range(lo, len(args)): path(index)] *)
Definition reads_from (lo : Z) : res operands := foldM (mark ws false) start (zrange lo count).
Definition writes_from (lo : Z) : res operands := foldM (mark ws true) start (zrange lo count).

Definition grep_paths : res operands :=
  let index := leading (fun a => bool_decide (a ∈ ["-E"; "-F"; "-i"; "-v"; "-c"])) args in
  raise_if count <=? index with "grep requires a pattern" in
  raise_if dash (at_ "" args index) with "unsupported grep option" in
  foldM (fun st operand => raise_if dash (at_ "" args operand) with "unsupported grep option" in mark ws false st operand)
    start (zrange (index + 1) count).
(** [wc] and [sort]: options and operands in any order. *)
Definition filter_paths (allowed : list string) : res operands :=
  foldM (fun st (ia : Z * string) =>
    if dash ia.2 then raise_if negb (bool_decide (ia.2 ∈ allowed)) with ("unsupported " +:+ name +:+ " option") in Ok st
    else mark ws false st ia.1) start (enumerate args).
Definition uniq_paths : res operands :=
  let index := leading dash args in
  raise_if negb (forallb (fun a => bool_decide (a ∈ ["-c"; "-d"; "-u"])) (take (Z.to_nat index) args)) with "unsupported uniq option" in
  raise_if 1 <? count - index with "uniq supports at most one input file" in
  reads_from index.
Definition head_paths : res operands :=
  match args with
  | a :: rest =>
      if String.eqb a "-n" then
        match rest with
        | n :: _ => if isdigit n then reads_from 2 else fail ("invalid " +:+ name +:+ " count")
        | [] => fail ("invalid " +:+ name +:+ " count")
        end
      else if dash a then fail ("unsupported " +:+ name +:+ " option") else reads_from 0
  | [] => reads_from 0
  end.
Definition cut_paths : res operands :=
  let* index := cut_options args in
  raise_if index =? 0 with "cut requires -d/-f" in
  reads_from index.

(** [_tool_paths] *)
Definition tool_paths : res operands :=
  if String.eqb name "cat" then raise_if none_given || any_dash with "cat accepts file operands only" in reads_from 0
  else if String.eqb name "grep" then grep_paths
  else if String.eqb name "wc" then filter_paths ["-l"; "-w"; "-c"]
  else if String.eqb name "sort" then filter_paths ["-r"; "-n"; "-u"]
  else if String.eqb name "uniq" then uniq_paths
  else if String.eqb name "tr" then raise_if negb (count =? 2) || any_dash with "tr requires two sets" in Ok start
  else if String.eqb name "head" || String.eqb name "tail" then head_paths
  else if String.eqb name "cut" then cut_paths
  else if String.eqb name "tee" then raise_if none_given || any_dash with "tee append/options are unsupported" in writes_from 0
  else if String.eqb name "cp" then
    raise_if negb (count =? 2) || any_dash with "cp requires source and destination" in
    let* st := mark ws false start 0 in mark ws true st 1
  else if String.eqb name "sha256sum" then raise_if none_given || any_dash with "sha256sum accepts files only" in reads_from 0
  else if String.eqb name "ls" || String.eqb name "stat" then
    raise_if (1 <? count) || any_dash with ("unsupported " +:+ name +:+ " arguments") in reads_from 0
  else if String.eqb name "mkdir" then
    raise_if negb (count =? 1) || any_dash with "mkdir requires one path" in mark ws true start 0
  else if String.eqb name "pwd" then raise_if negb none_given with "pwd accepts no arguments" in Ok start
  else if String.eqb name "echo" then raise_if any_dash with "echo options are unsupported" in Ok start
  else if String.eqb name "printf" then raise_if none_given || contains "%n" (at_ "" args 0) with "invalid printf arguments" in Ok start
  else fail "unsupported tool adapter".
End tool_paths.

(** ** The compiler *)

(** The variables [emit] shares with the loop over the tokens. *)
Record compiler := Compiler {
  cc_nodes : list command_node; cc_edges : list command_edge; cc_inputs : gset string; cc_outputs : gset string;
  cc_command : list string; cc_stdin_file : option string; cc_stdout_file : option string;
  cc_pending_operator : option string; cc_previous : list string; cc_fanout_group : Z }.
Definition initial_compiler : compiler := Compiler [] [] ∅ ∅ [] None None None [] 0.

Definition optional_set (o : option string) : gset string := match o with Some s => {[s]} | None => ∅ end.
(** [sorted(s)] *)
Definition sorted_set (s : gset string) : list string := sort_names (elements s).

(** [f"node-{n:03d}-{name}"] *)
Definition node_name (n : Z) (name : string) : string :=
  "node-" +:+ (if n <? 10 then "00" else if n <? 100 then "0" else "") +:+ pretty n +:+ "-" +:+ name.

(** The dependency mode, the dependencies and the fanout group of the next node. *)
Definition dependencies_of (st : compiler) : res (string * list string * Z) :=
  match cc_pending_operator st with
  | Some op =>
      if String.eqb op "|" then let* p := py_index (cc_previous st) (-1) in Ok ("stream", [p], cc_fanout_group st)
      else if String.eqb op "&&" then Ok ("success", cc_previous st, cc_fanout_group st)
      else if String.eqb op ";" then Ok ("always", cc_previous st, cc_fanout_group st)
      else if String.eqb op "|||" then Ok ("always", [], cc_fanout_group st + 1)
      else Ok ("always", [], cc_fanout_group st)
  | None => Ok ("always", [], cc_fanout_group st)
  end.
Definition edge_kind (mode : string) : string :=
  if String.eqb mode "stream" then "stream" else if String.eqb mode "success" then "success" else "sequence".

(** [emit] *)
Definition emit_command (h : tool_host) (ws : workspace) (st : compiler) : res compiler :=
  match cc_command st with
  | [] => fail "operator requires a command"
  | name :: args =>
      raise_if (MAX_ARGV <? Z.of_nat (length (cc_command st))) || (MAX_ARG_BYTES <? foldr Z.add 0 (map utf8_length (cc_command st)))
      with "command argv exceeds bounds" in
      raise_if has_char 47 name with "executable paths are not accepted" in
      let* tool := resolve h name in
      let* ops := tool_paths ws name args in
      let inputs := cc_inputs st ∪ op_reads ops ∪ optional_set (cc_stdin_file st) in
      let outputs := cc_outputs st ∪ op_writes ops ∪ optional_set (cc_stdout_file st) in
      let node_id := node_name (Z.of_nat (length (cc_nodes st)) + 1) name in
      let* ' (mode, dependencies, fanout_group) := dependencies_of st in
      let node := CommandNode node_id tool (op_args ops) (op_paths ops) (sorted_set (op_writes ops ∪ optional_set (cc_stdout_file st)))
                    (cc_stdin_file st) (cc_stdout_file st) dependencies mode fanout_group NODE_SCHEMA in
      Ok (Compiler (cc_nodes st ++ [node]) (cc_edges st ++ map (fun dep => CommandEdge dep node_id (edge_kind mode) EDGE_SCHEMA) dependencies)
            inputs outputs [] None None None
            (if bool_decide (cc_pending_operator st = Some "|||") then cc_previous st ++ [node_id] else [node_id]) fanout_group)
  end.

Definition operators : list string := ["|"; "&&"; ";"; "|||"].
Definition redirections : list string := ["<"; ">"].

(** The loop over the tokens. *)
Fixpoint compile_tokens (h : tool_host) (ws : workspace) (st : compiler) (tokens : list string) : res compiler :=
  match tokens with
  | [] => Ok st
  | token :: rest =>
      if bool_decide (token ∈ operators) then
        let* st := emit_command h ws st in
        compile_tokens h ws (Compiler (cc_nodes st) (cc_edges st) (cc_inputs st) (cc_outputs st) (cc_command st) (cc_stdin_file st)
          (cc_stdout_file st) (Some token) (cc_previous st) (cc_fanout_group st)) rest
      else if bool_decide (token ∈ redirections) then
        match rest with
        | [] => fail "redirection requires a path"
        | target :: rest =>
            raise_if bool_decide (target ∈ operators ++ redirections) with "redirection requires a path" in
            let* v := normalize ws target in
            if String.eqb token "<" then
              raise_if is_Some_b (cc_stdin_file st) with "duplicate input redirection" in
              compile_tokens h ws (Compiler (cc_nodes st) (cc_edges st) (cc_inputs st) (cc_outputs st) (cc_command st) (Some v)
                (cc_stdout_file st) (cc_pending_operator st) (cc_previous st) (cc_fanout_group st)) rest
            else
              raise_if is_Some_b (cc_stdout_file st) with "duplicate output redirection" in
              compile_tokens h ws (Compiler (cc_nodes st) (cc_edges st) (cc_inputs st) (cc_outputs st) (cc_command st) (cc_stdin_file st)
                (Some v) (cc_pending_operator st) (cc_previous st) (cc_fanout_group st)) rest
        end
      else
        compile_tokens h ws (Compiler (cc_nodes st) (cc_edges st) (cc_inputs st) (cc_outputs st) (cc_command st ++ [token]) (cc_stdin_file st)
          (cc_stdout_file st) (cc_pending_operator st) (cc_previous st) (cc_fanout_group st)) rest
  end.

(** One path of the loop over the inputs: an input exists as a regular file, or
    is an output of the program and does not exist. *)
Definition check_input (o : os) (ws : workspace) (d : disk) (outputs external : gset string) (path : string) : res (gset string) :=
  match existing_host_path o ws d path with
  | Err (ValueError m) => if bool_decide (path ∈ outputs) && contains "does not exist" m then Ok external else Err (ValueError m)
  | Err e => Err e
  | Ok (_, host) =>
      match lstat d host with
      | Some (EFile _) => Ok (external ∪ {[path]})
      | _ => fail "declared input must be a regular file"
      end
  end.
(** One path of the loop over the outputs, none of which exists. *)
Definition check_output (o : os) (ws : workspace) (d : disk) (path : string) : res unit :=
  match existing_host_path o ws d path with
  | Err (ValueError m) => if contains "does not exist" m then Ok tt else Err (ValueError m)
  | Err e => Err e
  | Ok _ => fail ("output already exists: " +:+ path)
  end.

(** [compile] before its last check. The sets are gone through in the order of
    [elements]; only which error comes first depends on it. *)
Definition construct (h : tool_host) (o : os) (ws : workspace) (d : disk) (policy : execution_policy) (source : string) : res command_program :=
  let* tokens := tokens_of source in
  let* st := compile_tokens h ws initial_compiler tokens in
  let* st := emit_command h ws st in
  raise_if po_max_nodes policy <? Z.of_nat (length (cc_nodes st)) with "command graph exceeds node limit" in
  let* external := foldM (check_input o ws d (cc_outputs st)) ∅ (elements (cc_inputs st)) in
  let* _ := traverse (check_output o ws d) (elements (cc_outputs st)) in
  let provisional := CommandGraphProgram "pending" source (cc_nodes st) (cc_edges st) (sorted_set external) (sorted_set (cc_outputs st))
                       policy CONTROLLED_ENV PROGRAM_SCHEMA in
  Ok (CommandGraphProgram (graph_name provisional) source (cc_nodes st) (cc_edges st) (sorted_set external) (sorted_set (cc_outputs st))
        policy CONTROLLED_ENV PROGRAM_SCHEMA).

(** [CommandGraphCompiler.compile] *)
Definition compile (h : tool_host) (o : os) (ws : workspace) (d : disk) (policy : execution_policy) (source : string) : res command_program :=
  let* value := construct h o ws d policy source in
  let* _ := validate value in
  Ok value.

(** ** Admission of a program for execution *)

(** The sets the loop of [_validate_executable] builds. *)
Record expectation := Expectation { ex_edges : gset (string * string * string); ex_reads : gset string; ex_writes : gset string }.

Definition check_node (h : tool_host) (ws : workspace) (x : expectation) (n : command_node) : res expectation :=
  let* _ := executable h (nd_tool n) in
  let* ops := tool_paths ws (tl_logical_name (nd_tool n)) (nd_argv n) in
  raise_if negb (bool_decide (op_args ops = nd_argv n)) || negb (bool_decide (op_paths ops = nd_path_indices n))
  with "command node path classification does not match" in
  let declared := op_writes ops ∪ optional_set (nd_stdout_file n) in
  raise_if negb (bool_decide (sorted_set declared = nd_declared_writes n)) with "command node writes do not match" in
  let* stdin := match nd_stdin_file n with Some f => let* v := normalize ws f in Ok (Some v) | None => Ok None end in
  Ok (Expectation (ex_edges x ∪ list_to_set (map (fun dep => (dep, nd_id n, edge_kind (nd_dependency_mode n))) (nd_dependencies n)))
        (ex_reads x ∪ op_reads ops ∪ optional_set stdin) (ex_writes x ∪ declared)).

(** [CommandComparison._validate_executable] *)
Definition validate_executable (h : tool_host) (ws : workspace) (p : command_program) : res unit :=
  raise_if negb (bool_decide (cg_environment p = CONTROLLED_ENV)) with "command graph environment is not admitted" in
  let* x := foldM (check_node h ws) (Expectation ∅ ∅ ∅) (cg_nodes p) in
  let actual := map (fun e => (ed_source e, ed_target e, ed_kind e)) (cg_edges p) in
  raise_if negb (bool_decide (NoDup actual)) || negb (bool_decide (list_to_set actual = ex_edges x))
  with "command graph edges do not match dependencies" in
  raise_if negb (bool_decide (list_to_set (cg_declared_outputs p) = ex_writes x)) with "command graph outputs do not match declared writes" in
  raise_if negb (bool_decide (list_to_set (cg_declared_inputs p) = ex_reads x ∖ ex_writes x)) with "command graph inputs do not match declared reads" in
  Ok tt.

(** [_stage_path]: the components below the stage. *)
Definition stage_path (v : string) : res parts :=
  let p := path_of v in
  raise_if negb (String.prefix "/" v) || bool_decide (".." ∈ pt_parts p) with "invalid staged virtual path" in
  Ok (pt_parts p).

(** ** Examples *)

(** Every tool is a one-byte file of [/usr/bin] that reports no version. *)
Definition plain_tools : tool_host := ToolHost (fun d n => if String.eqb d "/usr/bin" then Some [0] else None) (fun _ _ => None).
Definition compile_example (source : string) : res command_program :=
  compile plain_tools quiet_os example_workspace example_disk default_policy source.

Definition shape (r : res command_program) : res (list (string * list string * list Z * list string * string) * list string * list string) :=
  let* p := r in
  Ok (map (fun n => (nd_id n, nd_argv n, nd_path_indices n, nd_dependencies n, nd_dependency_mode n)) (cg_nodes p),
      cg_declared_inputs p, cg_declared_outputs p).

Example lexer_operators : lex 50 "cat 'a b'|grep x>>out" = Ok ["cat"; "a b"; "|"; "grep"; "x"; ">>"; "out"].
Proof. vm_compute. reflexivity. Qed.
Example lexer_quotes : lex 50 "tr a'b'c x\ y '' \'" = Ok ["tr"; "abc"; "x y"; ""; "'"] /\ lex 50 "a '" = fail "No closing quotation".
Proof. vm_compute. split; reflexivity. Qed.
Example compiled_shape :
  shape (compile_example "cat docs/a.txt | grep h > /b ; sort < b ||| cp docs//a.txt c && echo x") =
  Ok ([("node-001-cat", ["/docs/a.txt"], [0], [], "always"); ("node-002-grep", ["h"], [], ["node-001-cat"], "stream");
       ("node-003-sort", [], [], ["node-002-grep"], "always"); ("node-004-cp", ["/docs/a.txt"; "/c"], [0; 1], [], "always");
       ("node-005-echo", ["x"], [], ["node-003-sort"; "node-004-cp"], "success")], ["/docs/a.txt"], ["/b"; "/c"]).
Proof. vm_compute. reflexivity. Qed.
