(* ===== verification/CommandShellFacts.v ===== *)
(** * The command graph compiler: tokens and operands

    The lexer's fuel is enough; the operands of a tool, once replaced by virtual
    paths, are classified as before. *)

From S2P Require Import Prelude PyValue Evidence Array ArrayFacts Workspace WorkspaceFacts Sha256 CommandGraph CommandGraphFacts CommandShell.

(** ** The lexer *)

(** What is left is shorter, or as long when characters were read before. *)
Definition leaves (fresh : bool) (input : string) (r : res (option string * option string)) : Prop :=
  match r with
  | Ok (_, Some rest) => (String.length rest + (if fresh then 1 else 0) <= String.length input)%nat
  | Ok (_, None) => True
  | Err e => exists m, e = ValueError m
  end.

Lemma leaves_cons fresh c input r : leaves false input r -> leaves fresh (String c input) r.
Proof. destruct r as [[t [rest|]]|e]; cbn; [destruct fresh; lia|done|done]. Qed.

Lemma read_token_leaves st quoted token input :
  leaves (match st with Outside => negb quoted && String.eqb token "" | _ => false end) input (read_token st quoted token input).
Proof.
  revert st quoted token. induction input as [|c rest IH]; intros st quoted token.
  - destruct st; cbn; try done; by eexists.
  - assert (Hrec : forall fresh st quoted token, leaves fresh (String c rest) (read_token st quoted token rest)).
    { intros fresh st' q t. specialize (IH st' q t). apply leaves_cons. destruct (read_token st' q t rest) as [[u [r|]]|e]; cbn in *; [|done|done].
      destruct st', (negb q && (t =? "")%string); lia. }
    destruct st; cbn [read_token]; repeat (case_match; try apply Hrec); cbn; try lia.
    destruct (_ && _); lia.
Qed.

Lemma lex_returns fuel input : (String.length input < fuel)%nat -> value_error_only (lex fuel input).
Proof.
  revert input. induction fuel as [|fuel IH]; intros input Hf; [lia|]. cbn [lex].
  pose proof (read_token_leaves Outside false "" input) as Hl. cbn in Hl.
  destruct (read_token Outside false "" input) as [[t [rest|]]|e]; cbn in *; [|by destruct t|by destruct Hl as [m ->]].
  destruct t; [|done]. apply veo_bind; [|done]. apply IH. lia.
Qed.
Lemma tokens_returns source : value_error_only (tokens_of source).
Proof.
  unfold tokens_of. destruct (_ || _); [done|]. apply veo_bind; [apply lex_returns; lia|intros ts _]. destruct (bool_decide _); [done|].
  apply veo_bind; [|done]. apply veo_traverse. intros t _. unfold check_token. by destruct (_ || _).
Qed.

Definition all_chars (P : Ascii.ascii -> Prop) (s : string) : Prop := Forall P (String.list_ascii_of_string s).
Lemma all_chars_add P s c : all_chars P s -> P c -> all_chars P (add_char s c).
Proof. unfold all_chars, add_char. rewrite list_ascii_app, Forall_app. cbn. repeat constructor; done. Qed.

(** The characters of a token are characters of the text, or backslashes. *)
Lemma read_token_chars P st quoted token input t rest : P (char 92) -> all_chars P token -> all_chars P input ->
  read_token st quoted token input = Ok (t, rest) -> match t with Some t => all_chars P t | None => True end /\ match rest with Some r => all_chars P r | None => True end.
Proof.
  intros HP. revert st quoted token. induction input as [|c input IH]; intros st quoted token Ht Hi H.
  - cbn in H. destruct st; try discriminate H; apply Ok_inj in H; injection H as <- <-; by destruct (_ || _).
  - pose proof Hi as Hi'. apply Forall_cons in Hi' as [Hc Hin]. assert (Hnil : all_chars P (String c "")) by (by repeat constructor).
    assert (Hadd : all_chars P (add_char token c)) by (by apply all_chars_add).
    assert (Hadd2 : all_chars P (add_char (add_char token (char 92)) c)) by (apply all_chars_add; [by apply all_chars_add|done]).
    destruct st; cbn [read_token] in H; repeat case_match; simplify_eq; try (split; done); first [by eapply IH in H | done].
Qed.
Lemma lex_chars P fuel input ts : P (char 92) -> all_chars P input -> lex fuel input = Ok ts -> Forall (all_chars P) ts.
Proof.
  intros HP. revert input ts. induction fuel as [|fuel IH]; intros input ts Hi H; [discriminate H|]. cbn [lex] in H.
  destruct (read_token _ _ _ _) as [[t rest]|] eqn:E; [|discriminate H]. cbn [bind] in H.
  apply (read_token_chars P) in E as [Ht Hr]; [|done|constructor|done]. destruct t as [t|]; [|apply Ok_inj in H as <-; constructor].
  destruct rest as [rest|]; [|apply Ok_inj in H as <-; by repeat constructor].
  destruct (lex fuel rest) as [ts'|] eqn:E'; [|discriminate H]. apply Ok_inj in H as <-. constructor; [done|by eapply IH].
Qed.

(** ** Marking operands *)

Definition marks (ws : workspace) (st : operands) (plan : list (bool * Z)) : res operands :=
  foldM (fun st (p : bool * Z) => mark ws p.1 st p.2) st plan.
Definition marked (w : bool) (args : list string) (plan : list (bool * Z)) : gset string :=
  list_to_set (map (fun p => at_ "" args p.2) (List.filter (fun p => eqb p.1 w) plan)).
Definition plan_in (args : list string) (plan : list (bool * Z)) : Prop := NoDup (map snd plan) /\ Forall (fun p => 0 <= p.2 < Z.of_nat (length args)) plan.

Lemma py_index_in (l : list string) i : 0 <= i < Z.of_nat (length l) -> py_index l i = Ok (at_ "" l i).
Proof.
  intros Hi. apply py_index_nonneg; [lia|]. unfold at_. destruct (lookup_lt_is_Some_2 l (Z.to_nat i)) as [x Hx]; [lia|].
  by rewrite (nth_lookup_Some _ _ _ _ Hx).
Qed.

Lemma marks_Ok ws plan st st' : plan_in (op_args st) plan -> marks ws st plan = Ok st' ->
  length (op_args st') = length (op_args st) /\
  (forall i, 0 <= i -> i ∉ map snd plan -> at_ "" (op_args st') i = at_ "" (op_args st) i) /\
  (forall p, p ∈ plan -> normalize ws (at_ "" (op_args st) p.2) = Ok (at_ "" (op_args st') p.2)) /\
  op_paths st' = op_paths st ++ map snd plan /\
  op_reads st' = op_reads st ∪ marked false (op_args st') plan /\ op_writes st' = op_writes st ∪ marked true (op_args st') plan.
Proof.
  revert st. induction plan as [|[w i] plan IH]; intros st [Hnd Hin] H.
  - apply Ok_inj in H as <-. unfold marked. cbn. split_and!; [done|done|by intros p ?%elem_of_nil|by rewrite app_nil_r|by rewrite (right_id_L ∅ (∪))..].
  - cbn [marks foldM fst snd] in H. apply Forall_cons in Hin as [Hi Hin]. cbn [snd] in Hi. cbn [map snd] in Hnd. apply NoDup_cons in Hnd as [Hni Hnd].
    unfold mark at 1 in H. rewrite (py_index_in _ _ Hi) in H. cbn [bind] in H. destruct (normalize ws _) as [v|] eqn:Hv; [|discriminate H]. cbn [bind] in H.
    apply IH in H as (Hl & Hout & Hnorm & Hp & Hr & Hw); cbn [op_args op_paths op_reads op_writes] in *; [|split; [done|by rewrite length_set_at]].
    rewrite length_set_at in Hl. assert (Hvi : at_ "" (op_args st') i = v).
    { rewrite Hout; [by apply at_set_eq|lia|done]. }
    split_and!; [done| | | | |].
    + intros j Hj Hjn. cbn in Hjn. apply not_elem_of_cons in Hjn as [Hji Hjn]. rewrite Hout by done. apply at_set_ne; [lia|done|congruence].
    + intros p [->|Hp']%elem_of_cons; [cbn; by rewrite Hvi|]. rewrite <- Hnorm by done. f_equal. rewrite Forall_forall in Hin. specialize (Hin p Hp').
      symmetry. apply at_set_ne; [lia|lia|]. intros ->. apply Hni, list_elem_of_fmap. by exists p.
    + rewrite Hp. by rewrite <- (assoc_L (++)).
    + rewrite Hr. unfold marked. cbn [List.filter fst]. destruct w; cbn [eqb map list_to_set snd]; rewrite ?Hvi; first [done | by rewrite (assoc_L (∪))].
    + rewrite Hw. unfold marked. cbn [List.filter fst]. destruct w; cbn [eqb map list_to_set snd]; rewrite ?Hvi; first [done | by rewrite (assoc_L (∪))].
Qed.

Lemma set_at_id (l : list string) i : 0 <= i < Z.of_nat (length l) -> set_at l i (at_ "" l i) = l.
Proof.
  intros Hi. unfold set_at, at_. destruct (lookup_lt_is_Some_2 l (Z.to_nat i)) as [x Hx]; [lia|]. rewrite (nth_lookup_Some _ _ _ _ Hx). by apply list_insert_id.
Qed.

(** Marking virtual paths changes no argument. *)
Lemma marks_again ws plan st : plan_in (op_args st) plan -> (forall p, p ∈ plan -> normalize ws (at_ "" (op_args st) p.2) = Ok (at_ "" (op_args st) p.2)) ->
  marks ws st plan = Ok (Operands (op_args st) (op_paths st ++ map snd plan) (op_reads st ∪ marked false (op_args st) plan) (op_writes st ∪ marked true (op_args st) plan)).
Proof.
  revert st. induction plan as [|[w i] plan IH]; intros st [Hnd Hin] H.
  - unfold marked. cbn. destruct st; cbn. rewrite app_nil_r. by rewrite !(right_id_L ∅ (∪)).
  - cbn [marks foldM fst snd]. apply Forall_cons in Hin as [Hi Hin]. cbn [snd] in Hi. cbn [map snd] in Hnd. apply NoDup_cons in Hnd as [Hni Hnd].
    unfold mark at 1. rewrite (py_index_in _ _ Hi). cbn [bind]. pose proof (H (w, i) (list_elem_of_here _ _)) as Hvi. cbn [snd] in Hvi. rewrite Hvi. cbn [bind]. rewrite set_at_id by done.
    fold (marks ws). change (foldM (fun st p => mark ws p.1 st p.2) ?s plan) with (marks ws s plan). rewrite IH; cbn [op_args op_paths op_reads op_writes];
      [|by split|intros; apply H; by right].
    do 2 f_equal; [by rewrite <- (assoc_L (++))| |]; unfold marked; cbn [List.filter fst]; destruct w; cbn [eqb map list_to_set snd]; first [done | by rewrite (assoc_L (∪))].
Qed.

(** ** Virtual paths *)

Definition fits (v : string) : Prop := utf8_length v <= MAX_PATH_BYTES.

Lemma normalize_Ok ws a v : workspace_ok ws -> normalize ws a = Ok v -> exists ps, v = virtual ps /\ Forall component_ok ps.
Proof.
  intros Hws H. unfold normalize in H. destruct (parts_of ws a) as [ps|] eqn:E; [|discriminate H]. apply Ok_inj in H as <-.
  exists ps. split; [done|by eapply parts_of_ok].
Qed.
Lemma normalize_again ws a v : workspace_ok ws -> normalize ws a = Ok v -> fits v -> normalize ws v = Ok v.
Proof.
  intros Hws H Hf. destruct (normalize_Ok _ _ _ Hws H) as (ps & -> & Hps). unfold normalize. by rewrite parts_of_virtual.
Qed.
Lemma virtual_slash ps : exists r, virtual ps = String (char 47) r.
Proof. destruct ps as [|p ps]; [by exists ""|]. by exists (String.concat "/" (p :: ps)). Qed.
Lemma virtual_dash ps : dash (virtual ps) = false.
Proof. by destruct (virtual_slash ps) as [r ->]. Qed.

(** ** Operands, classified twice *)

Section again.
Context (ws : workspace) (Hws : workspace_ok ws).

Lemma reads_from_marks args lo : reads_from ws args lo = marks ws (start args) (map (pair false) (zrange lo (count args))).
Proof. unfold reads_from, marks. by rewrite foldM_map. Qed.
Lemma writes_from_marks args lo : writes_from ws args lo = marks ws (start args) (map (pair true) (zrange lo (count args))).
Proof. unfold writes_from, marks. by rewrite foldM_map. Qed.
Lemma range_plan args lo w : 0 <= lo -> plan_in args (map (pair w) (zrange lo (count args))) /\ map snd (map (pair w) (zrange lo (count args))) = zrange lo (count args).
Proof.
  intros Hlo. assert (E : map snd (map (pair w) (zrange lo (count args))) = zrange lo (count args)) by (rewrite map_map; apply map_id).
  split; [|done]. split; [rewrite E; apply NoDup_seqZ|]. apply Forall_map, Forall_forall. intros i Hi%elem_of_zrange. unfold count in Hi. cbn. lia.
Qed.

Lemma marks_same args plan ops : plan_in args plan -> marks ws (start args) plan = Ok ops -> Forall fits (map (fun p => at_ "" (op_args ops) p.2) plan) ->
  marks ws (start (op_args ops)) plan = Ok ops.
Proof.
  intros Hin H Hf. pose proof (marks_Ok ws plan (start args) ops Hin H) as (Hl & _ & Hn & Hp & Hr & Hw).
  rewrite marks_again; cbn [op_args op_paths op_reads op_writes start] in *.
  - destruct ops; cbn in *. subst. done.
  - destruct Hin. split; [done|]. by rewrite Hl.
  - intros p Hp'. rewrite Forall_map, Forall_forall in Hf. eapply normalize_again; [done|by apply Hn|by apply Hf].
Qed.

(** All operands from the [k]th on. *)
Lemma marks_suffix args plan k ops : 0 <= k -> plan_in args plan -> map snd plan = zrange k (count args) ->
  marks ws (start args) plan = Ok ops -> Forall fits (map (fun p => at_ "" (op_args ops) p.2) plan) ->
  marks ws (start (op_args ops)) plan = Ok ops /\ length (op_args ops) = length args /\
  take (Z.to_nat k) (op_args ops) = take (Z.to_nat k) args /\ Forall (fun a => dash a = false) (drop (Z.to_nat k) (op_args ops)).
Proof.
  intros Hk Hin Hplan H Hf. pose proof (marks_Ok ws plan (start args) ops Hin H) as (Hl & Hout & Hn & _). cbn [start op_args] in *.
  split_and!; [by eapply marks_same|done| |].
  - apply list_eq. intros i. destruct (decide (i < Z.to_nat k)%nat); [|by rewrite !lookup_take_ge by lia]. rewrite !lookup_take_lt by done.
    destruct (decide (i < length args)%nat) as [Hi|]; [|by rewrite !lookup_ge_None_2 by lia].
    destruct (lookup_lt_is_Some_2 args i Hi) as [x Hx]. destruct (lookup_lt_is_Some_2 (op_args ops) i) as [y Hy]; [lia|]. rewrite Hx, Hy. f_equal.
    assert (Hni : Z.of_nat i ∉ map snd plan) by (rewrite Hplan; intros Hc%elem_of_zrange; lia). specialize (Hout (Z.of_nat i) ltac:(lia) Hni).
    unfold at_ in Hout. rewrite Nat2Z.id, (nth_lookup_Some _ _ _ _ Hx), (nth_lookup_Some _ _ _ _ Hy) in Hout. done.
  - apply Forall_forall. intros a Ha. apply list_elem_of_lookup in Ha as [i Hi]. rewrite lookup_drop in Hi. pose proof (lookup_lt_Some _ _ _ Hi) as Hlt.
    assert (Hin' : Z.of_nat (Z.to_nat k + i) ∈ map snd plan) by (rewrite Hplan; apply elem_of_zrange; unfold count; lia).
    apply list_elem_of_fmap in Hin' as (p & Hpi & Hp). specialize (Hn p Hp). rewrite <- Hpi in Hn.
    replace (at_ "" (op_args ops) (Z.of_nat (Z.to_nat k + i))) with a in Hn by (unfold at_; rewrite Nat2Z.id; by rewrite (nth_lookup_Some _ _ _ _ Hi)).
    apply normalize_Ok in Hn as (ps & -> & _); [|done]. apply virtual_dash.
Qed.

Definition paths_fit (ops : operands) : Prop := Forall (fun i => fits (at_ "" (op_args ops) i)) (op_paths ops).
(** What stays of the arguments: their number, the first [k], and no operand
    from there on looks like an option. *)
Record kept_args (k : Z) (args args' : list string) : Prop := {
  ka_length : length args' = length args; ka_take : take (Z.to_nat k) args' = take (Z.to_nat k) args;
  ka_dash : Forall (fun a => dash a = false) (drop (Z.to_nat k) args') }.

Lemma marks_suffix_fit args plan k ops : 0 <= k -> plan_in args plan -> map snd plan = zrange k (count args) ->
  marks ws (start args) plan = Ok ops -> paths_fit ops -> marks ws (start (op_args ops)) plan = Ok ops /\ kept_args k args (op_args ops).
Proof.
  intros Hk Hin Hplan H Hf. assert (Hf' : Forall fits (map (fun p => at_ "" (op_args ops) p.2) plan)).
  { pose proof (marks_Ok ws plan (start args) ops Hin H) as (_ & _ & _ & Hp & _). unfold paths_fit in Hf. rewrite Hp in Hf. cbn [start op_paths app] in Hf.
    rewrite Forall_map in Hf. by rewrite Forall_map. }
  destruct (marks_suffix args plan k ops) as (H1 & H2 & H3 & H4); [done..|]. split; [done|by split].
Qed.
Lemma reads_again args k ops : 0 <= k -> reads_from ws args k = Ok ops -> paths_fit ops -> reads_from ws (op_args ops) k = Ok ops /\ kept_args k args (op_args ops).
Proof.
  intros Hk H Hf. rewrite reads_from_marks in H. destruct (range_plan args k false Hk) as [Hin Hp].
  destruct (marks_suffix_fit args _ k ops Hk Hin Hp H Hf) as [Hm Ha]. split; [|done]. rewrite reads_from_marks. unfold count in *. by rewrite (ka_length _ _ _ Ha).
Qed.
Lemma writes_again args k ops : 0 <= k -> writes_from ws args k = Ok ops -> paths_fit ops -> writes_from ws (op_args ops) k = Ok ops /\ kept_args k args (op_args ops).
Proof.
  intros Hk H Hf. rewrite writes_from_marks in H. destruct (range_plan args k true Hk) as [Hin Hp].
  destruct (marks_suffix_fit args _ k ops Hk Hin Hp H Hf) as [Hm Ha]. split; [|done]. rewrite writes_from_marks. unfold count in *. by rewrite (ka_length _ _ _ Ha).
Qed.

Lemma kept_count k args args' : kept_args k args args' -> count args' = count args.
Proof. intros []. unfold count. lia. Qed.
Lemma kept_none k args args' : kept_args k args args' -> none_given args' = none_given args.
Proof. intros [Hl _ _]. unfold none_given. apply bool_decide_ext. rewrite <- !length_zero_iff_nil. by rewrite Hl. Qed.
Lemma no_dash args : Forall (fun a => dash a = false) args -> any_dash args = false.
Proof. unfold any_dash. induction 1 as [|a args Ha _ IH]; [done|]. cbn. by rewrite Ha. Qed.
Lemma kept_any_dash args args' : kept_args 0 args args' -> any_dash args' = false.
Proof. intros [_ _ Hd]. rewrite drop_0 in Hd. by apply no_dash. Qed.

(** The leading options are before the operands. *)
Lemma leading_bounds p args : 0 <= leading p args <= Z.of_nat (length args).
Proof. induction args as [|a args IH]; cbn; [lia|]. destruct (p a); lia. Qed.
Lemma leading_stop p a args : leading p args < Z.of_nat (length args) -> p (at_ a args (leading p args)) = false.
Proof.
  induction args as [|x args IH]; cbn [leading length]; [lia|]. intros H. destruct (p x) eqn:Hx; [|done].
  pose proof (leading_bounds p args). unfold at_ in *. replace (Z.to_nat (1 + leading p args)) with (S (Z.to_nat (leading p args))) by lia. cbn. apply IH. lia.
Qed.
(** They depend on the arguments up to the first that is none. *)
Lemma leading_take p args args' n : take n args' = take n args -> (Z.to_nat (leading p args) < n)%nat -> leading p args' = leading p args.
Proof.
  revert args' n. induction args as [|a args IH]; intros args' n Ht Hn.
  - rewrite take_nil in Ht. destruct args' as [|a' args']; [done|]. destruct n; [cbn in Hn; lia|done].
  - destruct n as [|n]; [lia|]. destruct args' as [|a' args']; [done|]. cbn [take] in Ht. injection Ht as -> Ht. cbn [leading] in *.
    destruct (p a); [|done]. pose proof (leading_bounds p args). by rewrite (IH args' n) by (done || lia).
Qed.
Lemma leading_drop p args args' : take (Z.to_nat (leading p args)) args' = take (Z.to_nat (leading p args)) args ->
  Forall (fun a => p a = false) (drop (Z.to_nat (leading p args)) args') -> leading p args' = leading p args.
Proof.
  revert args'. induction args as [|a args IH]; intros args' Ht Hd.
  - cbn in Hd. destruct args' as [|a' args']; [done|]. apply Forall_cons in Hd as [Ha _]. cbn. by rewrite Ha.
  - cbn [leading] in *. destruct (p a) eqn:Ha.
    + pose proof (leading_bounds p args). replace (Z.to_nat (1 + leading p args)) with (S (Z.to_nat (leading p args))) in * by lia.
      destruct args' as [|a' args']; [done|]. cbn [take drop] in *. injection Ht as -> Ht. cbn [leading]. rewrite Ha. by rewrite IH.
    + cbn in Hd. destruct args' as [|a' args']; [done|]. apply Forall_cons in Hd as [Ha' _]. cbn. by rewrite Ha'.
Qed.

Lemma grep_marks args ops : grep_paths ws args = Ok ops <->
  let index := leading (fun a => bool_decide (a ∈ ["-E"; "-F"; "-i"; "-v"; "-c"])) args in
  index < count args /\ dash (at_ "" args index) = false /\ Forall (fun i => dash (at_ "" args i) = false) (zrange (index + 1) (count args)) /\
  reads_from ws args (index + 1) = Ok ops.
Proof.
  unfold grep_paths. cbn zeta. set (index := leading _ args). destruct (Z.leb_spec (count args) index); [split; [done|lia]|].
  destruct (dash (at_ "" args index)); [split; [done|by intros (_ & ? & _)]|].
  unfold reads_from. generalize (start args). induction (zrange (index + 1) (count args)) as [|i l IH]; intros st.
  - cbn. split; [intros [= <-]|intros (_ & _ & _ & [= <-]); done]. by split_and!.
  - cbn [foldM]. rewrite Forall_cons. destruct (dash (at_ "" args i)).
    + split; [done|]. by intros (_ & _ & [? _] & _).
    + destruct (mark ws false st i) as [st'|]; cbn [bind]; [|split; [done|by intros (_ & _ & _ & ?)]]. rewrite IH. tauto.
Qed.
Lemma grep_again args ops : grep_paths ws args = Ok ops -> paths_fit ops -> grep_paths ws (op_args ops) = Ok ops.
Proof.
  intros H Hf. apply grep_marks in H. cbn zeta in H. set (p := fun a : string => _) in H. destruct H as (Hi & Hd & _ & H). pose proof (leading_bounds p args) as Hb.
  destruct (reads_again args (leading p args + 1) ops) as [Hr Ha]; [lia|done|done|].
  assert (Hlead : leading p (op_args ops) = leading p args) by (eapply leading_take; [apply (ka_take _ _ _ Ha)|lia]).
  apply grep_marks. fold p. cbn zeta. rewrite Hlead, (kept_count _ _ _ Ha). split_and!; [done| | |done].
  - rewrite <- Hd. f_equal. unfold at_. rewrite !nth_lookup. f_equal. pose proof (ka_take _ _ _ Ha) as Ht. apply (f_equal (lookup (Z.to_nat (leading p args)))) in Ht.
    by rewrite !lookup_take_lt in Ht by lia.
  - apply Forall_forall. intros i Hir%elem_of_zrange. pose proof (ka_dash _ _ _ Ha) as Hdash. rewrite Forall_lookup in Hdash.
    unfold count in Hir. destruct (lookup_lt_is_Some_2 (op_args ops) (Z.to_nat i)) as [x Hx]; [rewrite (ka_length _ _ _ Ha); lia|].
    unfold at_. rewrite (nth_lookup_Some _ _ _ _ Hx). apply (Hdash (Z.to_nat i - Z.to_nat (leading p args + 1))%nat). rewrite lookup_drop. rewrite <- Hx. f_equal. lia.
Qed.

Lemma uniq_again args ops : uniq_paths ws args = Ok ops -> paths_fit ops -> uniq_paths ws (op_args ops) = Ok ops.
Proof.
  intros H Hf. unfold uniq_paths in *. cbn zeta in *. pose proof (leading_bounds dash args) as Hb.
  destruct (negb _) eqn:E1; [discriminate H|]. destruct (1 <? _) eqn:E2; [discriminate H|].
  destruct (reads_again args (leading dash args) ops) as [Hr Ha]; [lia|done|done|]. destruct Ha as [Hl Ht Hd].
  rewrite (leading_drop dash args (op_args ops)) by done. rewrite Ht, E1. unfold count in *. by rewrite Hl, E2.
Qed.
Lemma head_again name args ops : head_paths ws name args = Ok ops -> paths_fit ops -> head_paths ws name (op_args ops) = Ok ops.
Proof.
  intros H Hf. unfold head_paths in H. destruct args as [|a args].
  - destruct (reads_again [] 0 ops) as [Hr [Hl _ _]]; [lia|done|done|]. destruct (op_args ops) as [|? ?] eqn:E; [|done]. done.
  - destruct (String.eqb_spec a "-n") as [->|Hne].
    + destruct args as [|n args]; [discriminate H|]. destruct (isdigit n) eqn:Hn; [|discriminate H].
      destruct (reads_again _ 2 ops ltac:(lia) H Hf) as [Hr [Hl Ht _]]. change (Z.to_nat 2) with 2%nat in Ht.
      destruct (op_args ops) as [|a' [|b' l]] eqn:E; [done..|]. cbn in Ht. injection Ht as -> ->. unfold head_paths. by rewrite String.eqb_refl, Hn.
    + destruct (dash a) eqn:Hd; [discriminate H|]. destruct (reads_again _ 0 ops ltac:(lia) H Hf) as [Hr [Hl _ Hdash]]. rewrite drop_0 in Hdash.
      destruct (op_args ops) as [|a' l] eqn:E; [done|]. unfold head_paths. apply Forall_cons in Hdash as [Ha' _].
      destruct (String.eqb_spec a' "-n") as [->|]; [done|]. by rewrite Ha'.
Qed.

Lemma cut_options_bounds args n : cut_options args = Ok n -> 0 <= n <= Z.of_nat (length args).
Proof.
  revert n. assert (forall k, (length args <= k)%nat -> forall n, cut_options args = Ok n -> 0 <= n <= Z.of_nat (length args)) as H; [|by eapply H].
  intros k. revert args. induction k as [|k IH]; intros args Hk n H.
  - destruct args; [|cbn in Hk; lia]. apply Ok_inj in H as <-. done.
  - destruct args as [|a rest]; [apply Ok_inj in H as <-; done|]. cbn [cut_options] in H. destruct (bool_decide _); [|apply Ok_inj in H as <-; lia].
    destruct rest as [|b rest]; [discriminate H|]. destruct (cut_options rest) as [m|] eqn:E; [|discriminate H]. apply Ok_inj in H as <-.
    cbn [length] in *. apply IH in E; lia.
Qed.
Lemma cut_options_take args args' n : cut_options args = Ok n -> take (Z.to_nat n) args' = take (Z.to_nat n) args ->
  Forall (fun a => dash a = false) (drop (Z.to_nat n) args') -> length args' = length args -> cut_options args' = Ok n.
Proof.
  assert (forall k, (length args <= k)%nat -> forall args' n, cut_options args = Ok n -> take (Z.to_nat n) args' = take (Z.to_nat n) args ->
    Forall (fun a => dash a = false) (drop (Z.to_nat n) args') -> length args' = length args -> cut_options args' = Ok n) as H; [|by eapply H].
  assert (Hstop : forall l, Forall (fun a => dash a = false) l -> cut_options l = Ok 0).
  { intros [|a l]; [done|]. intros [Ha _]%Forall_cons. cbn. rewrite bool_decide_false; [done|]. rewrite elem_of_cons, list_elem_of_singleton. intros [->| ->]; done. }
  clear args' n. intros k. revert args. induction k as [|k IH]; intros args Hk args' n H Ht Hd Hl.
  - destruct args, args'; try done; cbn in Hk; lia.
  - destruct args as [|a rest]; [apply Ok_inj in H as <-; by apply Hstop|]. cbn [cut_options] in H. destruct (bool_decide _) eqn:Ea; [|apply Ok_inj in H as <-; by apply Hstop].
    destruct rest as [|b rest]; [discriminate H|]. destruct (cut_options rest) as [m|] eqn:E; [|discriminate H]. apply Ok_inj in H as <-.
    pose proof (cut_options_bounds _ _ E). replace (Z.to_nat (2 + m)) with (S (S (Z.to_nat m))) in * by lia.
    destruct args' as [|a' [|b' rest']]; try done. cbn [take drop] in *. injection Ht as -> -> Ht. cbn [cut_options]. rewrite Ea.
    cbn [length] in *. by rewrite (IH rest) with (n := m) by (done || lia).
Qed.
Lemma cut_again args ops : cut_paths ws args = Ok ops -> paths_fit ops -> cut_paths ws (op_args ops) = Ok ops.
Proof.
  intros H Hf. unfold cut_paths in *. destruct (cut_options args) as [n|] eqn:E; [|discriminate H]. cbn [bind] in H. destruct (n =? 0) eqn:En; [discriminate H|].
  pose proof (cut_options_bounds _ _ E). destruct (reads_again args n ops ltac:(lia) H Hf) as [Hr [Hl Ht Hd]].
  rewrite (cut_options_take args _ n) by done. cbn [bind]. by rewrite En.
Qed.

(** The operands of [wc] and [sort]. *)
Definition filter_plan (args : list string) : list (bool * Z) :=
  map (pair false) (List.filter (fun i => negb (dash (at_ "" args i))) (zseq (count args))).
Lemma filter_marks name args allowed ops : filter_paths ws name args allowed = Ok ops <->
  Forall (fun i => dash (at_ "" args i) = true -> at_ "" args i ∈ allowed) (zseq (count args)) /\ marks ws (start args) (filter_plan args) = Ok ops.
Proof.
  unfold filter_paths, filter_plan, count. rewrite (enumerate_at ""), foldM_map. generalize (start args).
  induction (zseq (Z.of_nat (length args))) as [|i l IH]; intros st; [cbn; split; [by split|tauto]|].
  cbn [foldM List.filter fst snd]. rewrite Forall_cons. destruct (dash (at_ "" args i)); cbn [negb map].
  - destruct (bool_decide _) eqn:E; cbn [negb].
    + cbn [bind]. rewrite IH. apply bool_decide_eq_true in E. tauto.
    + apply bool_decide_eq_false in E. split; [done|]. intros [[H _] _]. destruct E; by apply H.
  - cbn [marks foldM fst snd]. change (foldM (fun st p => mark ws p.1 st p.2)) with (marks ws). destruct (mark ws false st i) as [st'|]; cbn [bind].
    + rewrite IH. split; [intros [? ?]; split; [split; done|done]|tauto].
    + split; [done|by intros [_ ?]].
Qed.
Lemma filter_plan_in args : plan_in args (filter_plan args).
Proof.
  unfold filter_plan. split.
  - rewrite map_map, map_id. apply NoDup_ListNoDup, List.NoDup_filter, NoDup_ListNoDup, NoDup_seqZ.
  - apply Forall_map, Forall_forall. intros i Hi. apply list_elem_of_In, filter_In in Hi as [Hi _]. apply list_elem_of_In, elem_of_zseq in Hi. done.
Qed.
Lemma filter_again name args allowed ops : filter_paths ws name args allowed = Ok ops -> paths_fit ops -> filter_paths ws name (op_args ops) allowed = Ok ops.
Proof.
  intros [Hall H]%filter_marks Hf. pose proof (filter_plan_in args) as Hin.
  pose proof (marks_Ok ws (filter_plan args) (start args) ops Hin H) as (Hl & Hout & Hn & Hp & _). cbn [start op_args op_paths app] in *.
  assert (Hmap : map snd (filter_plan args) = List.filter (fun i => negb (dash (at_ "" args i))) (zseq (count args))) by (unfold filter_plan; by rewrite map_map, map_id).
  assert (Hdash : forall i, 0 <= i < count args -> dash (at_ "" (op_args ops) i) = dash (at_ "" args i) /\ (dash (at_ "" args i) = true -> at_ "" (op_args ops) i = at_ "" args i)).
  { intros i Hi. destruct (dash (at_ "" args i)) eqn:Hd.
    - assert (at_ "" (op_args ops) i = at_ "" args i) as E; [|by rewrite E].
      apply Hout; [lia|]. rewrite Hmap. rewrite list_elem_of_In, filter_In. intros [_ Hc]. by rewrite Hd in Hc.
    - assert (Hip : (false, i) ∈ filter_plan args).
      { unfold filter_plan. apply list_elem_of_fmap. exists i. split; [done|]. apply list_elem_of_In, filter_In. split; [by apply list_elem_of_In, elem_of_zseq|by rewrite Hd]. }
      specialize (Hn _ Hip). cbn [snd] in Hn. apply normalize_Ok in Hn as (ps & -> & _); [|done]. by rewrite virtual_dash. }
  assert (Hplan : filter_plan (op_args ops) = filter_plan args).
  { unfold filter_plan, count in *. rewrite Hl. f_equal. apply filter_ext_in. intros i Hi%list_elem_of_In%elem_of_zseq. by rewrite (proj1 (Hdash i Hi)). }
  apply filter_marks. rewrite Hplan. unfold count in *. rewrite Hl. split.
  - rewrite Forall_forall in *. intros i Hi. destruct (Hdash i) as [H1 H2]; [by apply elem_of_zseq|]. rewrite H1. intros Hd. rewrite (H2 Hd). by apply Hall.
  - apply (marks_same args); [done|done|]. unfold paths_fit in Hf. rewrite Hp, Forall_map in Hf. by rewrite Forall_map.
Qed.

Lemma none_args args : none_given args = false -> args <> [].
Proof. unfold none_given. by intros H%bool_decide_eq_false. Qed.

(** Compiled operands are admitted again, unchanged. *)
Lemma tool_paths_again name args ops : tool_paths ws name args = Ok ops -> paths_fit ops -> tool_paths ws name (op_args ops) = Ok ops.
Proof.
  intros H Hf. unfold tool_paths in *.
  assert (Hread : forall (bad : list string -> bool) m, (forall l l', kept_args 0 l l' -> bad l = false -> bad l' = false) ->
    (raise_if bad args with m in reads_from ws args 0) = Ok ops -> (raise_if bad (op_args ops) with m in reads_from ws (op_args ops) 0) = Ok ops).
  { intros bad m Hbad Hr. destruct (bad args) eqn:E; [discriminate Hr|]. destruct (reads_again args 0 ops ltac:(lia) Hr Hf) as [Hr' Ha]. by rewrite (Hbad args). }
  assert (Hcat : forall l l', kept_args 0 l l' -> none_given l || any_dash l = false -> none_given l' || any_dash l' = false).
  { intros l l' Ha [H1 _]%orb_false_iff. by rewrite (kept_none _ _ _ Ha), H1, (kept_any_dash _ _ Ha). }
  destruct (String.eqb name "cat"); [by apply (Hread (fun l => none_given l || any_dash l))|].
  destruct (String.eqb name "grep"); [by apply (grep_again args)|].
  destruct (String.eqb name "wc"); [by apply (filter_again name args)|].
  destruct (String.eqb name "sort"); [by apply (filter_again name args)|].
  destruct (String.eqb name "uniq"); [by apply (uniq_again args)|].
  destruct (String.eqb name "tr"); [destruct (_ || _) eqn:E; [discriminate H|]; apply Ok_inj in H as <-; cbn [start op_args]; by rewrite E|].
  destruct (_ || _); [by apply (head_again name args)|].
  destruct (String.eqb name "cut"); [by apply (cut_again args)|].
  destruct (String.eqb name "tee").
  { destruct (none_given args || _) eqn:E; [discriminate H|]. destruct (writes_again args 0 ops ltac:(lia) H Hf) as [Hr' Ha]. by rewrite (Hcat args). }
  destruct (String.eqb name "cp").
  { destruct (_ || _) eqn:E; [discriminate H|]. apply orb_false_iff in E as [E1 E2]. apply negb_false_iff, Z.eqb_eq in E1.
    assert (Hm : forall l, (let* st := mark ws false (start l) 0 in mark ws true st 1) = marks ws (start l) [(false, 0); (true, 1)]).
    { intros l. unfold marks. cbn [foldM fst snd]. destruct (mark ws false (start l) 0) as [st|]; [|done]. cbn [bind]. symmetry. apply bind_Ok_r. }
    rewrite Hm in *. apply (marks_suffix_fit args _ 0) in H as [H Ha]; [|lia| |by rewrite E1|done].
    - rewrite H, (kept_count _ _ _ Ha), E1, (kept_any_dash _ _ Ha). done.
    - unfold count in E1. split; [cbn; repeat constructor; set_solver|repeat constructor; cbn; lia]. }
  destruct (String.eqb name "sha256sum"); [by apply (Hread (fun l => none_given l || any_dash l))|].
  destruct (_ || _).
  { apply (Hread (fun l => (1 <? count l) || any_dash l)); [|done]. intros l l' Ha [H1 _]%orb_false_iff. by rewrite (kept_count _ _ _ Ha), H1, (kept_any_dash _ _ Ha). }
  destruct (String.eqb name "mkdir").
  { destruct (_ || _) eqn:E; [discriminate H|]. apply orb_false_iff in E as [E1 E2]. apply negb_false_iff, Z.eqb_eq in E1.
    assert (Hm : forall l, mark ws true (start l) 0 = marks ws (start l) [(true, 0)]) by (intros l; unfold marks; cbn [foldM fst snd]; symmetry; apply bind_Ok_r).
    rewrite Hm in *. apply (marks_suffix_fit args _ 0) in H as [H Ha]; [|lia| |by rewrite E1|done].
    - rewrite H, (kept_count _ _ _ Ha), E1, (kept_any_dash _ _ Ha). done.
    - unfold count in E1. split; [cbn; repeat constructor; set_solver|repeat constructor; cbn; lia]. }
  destruct (String.eqb name "pwd"); [destruct (negb _) eqn:E; [discriminate H|]; apply Ok_inj in H as <-; cbn [start op_args]; by rewrite E|].
  destruct (String.eqb name "echo"); [destruct (any_dash args) eqn:E; [discriminate H|]; apply Ok_inj in H as <-; cbn [start op_args]; by rewrite E|].
  destruct (String.eqb name "printf"); [|done]. destruct (_ || _) eqn:E; [discriminate H|]; apply Ok_inj in H as <-; cbn [start op_args]; by rewrite E.
Qed.
End again.
