(* ===== verification/CommandCompile.v ===== *)
(** * The command graph compiler: what it compiles

    [built]: the nodes the compiler makes, with what they read and write. A
    compiled program validates, its inputs are files and its outputs are new, and
    it is admitted for execution in the workspace it was compiled for. *)

From S2P Require Import Prelude PyValue Json JsonFacts Evidence Array ArrayFacts Workspace WorkspaceFacts Sha256 CommandGraph CommandGraphFacts CommandShell CommandShellFacts.

(** ** Node names *)

Definition name_digits (s : string) : Z := (span_digits 0 (String.substring 5 (String.length s - 5) s)).1.1.

Lemma node_name_digits n name : 0 < n -> name_digits (node_name n name) = n.
Proof.
  intros Hn. unfold name_digits, node_name. set (t := (if n <? 10 then "00" else if n <? 100 then "0" else "") +:+ pretty n +:+ "-" +:+ name).
  assert (E : String.substring 5 (String.length ("node-" +:+ t) - 5) ("node-" +:+ t) = t).
  { rewrite length_append. change (String.length "node-") with 5%nat. replace (5 + String.length t - 5)%nat with (String.length t) by lia.
    change ("node-" +:+ t) with (String (char 110) (String (char 111) (String (char 100) (String (char 101) (String (char 45) t))))). cbn [String.substring]. apply substring_all. }
  rewrite E. subst t. destruct n as [|p|p]; [lia| |lia]. rewrite pretty_Z_pos.
  assert (Hd : span_digits 0 (pretty_N_go (N.pos p) "" +:+ "-" +:+ name) = (Z.pos p, pretty_N_go (N.pos p) "", "-" +:+ name)) by (by apply parse_digits).
  destruct (Z.pos p <? 10); [|destruct (Z.pos p <? 100)].
  - change ("00" +:+ ?x) with (String (char 48) (String (char 48) x)). cbn [span_digits]. change (is_digit (char 48)) with true. cbn iota.
    change (10 * (10 * 0 + digit_val (char 48)) + digit_val (char 48)) with 0. by rewrite Hd.
  - change ("0" +:+ ?x) with (String (char 48) x). cbn [span_digits]. change (is_digit (char 48)) with true. cbn iota.
    change (10 * 0 + digit_val (char 48)) with 0. by rewrite Hd.
  - change ("" +:+ ?x) with x. by rewrite Hd.
Qed.
Lemma node_name_inj n m a b : 0 < n -> 0 < m -> node_name n a = node_name m b -> n = m.
Proof. intros Hn Hm H. rewrite <- (node_name_digits n a), <- (node_name_digits m b) by done. by rewrite H. Qed.

(** ** Sets as sorted lists *)

Lemma elem_of_sorted_set x s : x ∈ sorted_set s <-> x ∈ s.
Proof. unfold sorted_set. by rewrite elem_of_sort_names, elem_of_elements. Qed.
Lemma sorted_set_to_set s : list_to_set (sorted_set s) = s.
Proof. apply set_eq. intros x. by rewrite elem_of_list_to_set, elem_of_sorted_set. Qed.
Lemma NoDup_sorted_set s : NoDup (sorted_set s).
Proof.
  unfold sorted_set, sort_names. rewrite sort_keys_perm, map_map. cbn. rewrite map_id. apply NoDup_elements.
Qed.

(** ** Compiled nodes *)

Section compile.
Context (h : tool_host) (ws : workspace).

Definition no_nul (s : string) : Prop := all_chars (fun c => c <> Ascii.zero) s.
Definition ids (ns : list command_node) : list string := map nd_id ns.
Definition virtual_option (f : option string) : Prop := match f with Some v => exists t, normalize ws t = Ok v | None => True end.
Definition node_edges (n : command_node) : list command_edge :=
  map (fun dep => CommandEdge dep (nd_id n) (edge_kind (nd_dependency_mode n)) EDGE_SCHEMA) (nd_dependencies n).

(** One node, compiled from [args] after [ns]. *)
Record compiled_node (ns : list command_node) (n : command_node) (args : list string) (ops : operands) : Prop := {
  cn_tool : resolve h (tl_logical_name (nd_tool n)) = Ok (nd_tool n);
  cn_operands : tool_paths ws (tl_logical_name (nd_tool n)) args = Ok ops;
  cn_bounds : foldr Z.add 0 (map utf8_length (tl_logical_name (nd_tool n) :: args)) <= MAX_ARG_BYTES;
  cn_argv : nd_argv n = op_args ops;
  cn_paths : nd_path_indices n = op_paths ops;
  cn_writes : nd_declared_writes n = sorted_set (op_writes ops ∪ optional_set (nd_stdout_file n));
  cn_id : nd_id n = node_name (Z.of_nat (length ns) + 1) (tl_logical_name (nd_tool n));
  cn_stdin : virtual_option (nd_stdin_file n);
  cn_stdout : virtual_option (nd_stdout_file n);
  cn_deps : forall d, d ∈ nd_dependencies n -> d ∈ ids ns;
  cn_deps_nodup : NoDup (nd_dependencies n);
  cn_mode : nd_dependency_mode n ∈ ["always"; "success"; "stream"];
  cn_stream : nd_dependency_mode n = "stream" -> exists d, nd_dependencies n = [d];
  cn_group : 0 <= nd_fanout_group n <= Z.of_nat (length ns);
  cn_chars : Forall no_nul args;
  cn_schema : nd_schema n = NODE_SCHEMA }.

(** The nodes so far, what they read and what they write. *)
Inductive built : list command_node -> gset string -> gset string -> Prop :=
  | built_nil : built [] ∅ ∅
  | built_snoc ns R W n args ops : built ns R W -> compiled_node ns n args ops ->
      built (ns ++ [n]) (R ∪ op_reads ops ∪ optional_set (nd_stdin_file n)) (W ∪ op_writes ops ∪ optional_set (nd_stdout_file n)).

Lemma zrange_succ n : 0 <= n -> zrange 1 (n + 1) ++ [n + 1] = zrange 1 (n + 1 + 1).
Proof. intros Hn. unfold zrange. replace (n + 1 + 1 - 1) with (n + 1) by lia. rewrite (seqZ_app 1 n 1) by lia. replace (n + 1 - 1) with n by lia. f_equal. replace (1 + n) with (n + 1) by lia. reflexivity. Qed.
Lemma built_digits ns R W : built ns R W -> map name_digits (ids ns) = zrange 1 (Z.of_nat (length ns) + 1).
Proof.
  induction 1 as [|ns R W n args ops _ IH [_ _ _ _ _ _ Hid]]; [done|]. unfold ids in *. rewrite !map_app, IH. cbn [map].
  rewrite Hid, node_name_digits by lia. rewrite length_app. cbn [length]. rewrite zrange_succ by lia. do 2 f_equal. lia.
Qed.
Lemma built_NoDup ns R W : built ns R W -> NoDup (ids ns).
Proof. intros H. apply NoDup_ListNoDup, (List.NoDup_map_inv name_digits), NoDup_ListNoDup. erewrite built_digits by done. apply NoDup_seqZ. Qed.
Lemma built_prior ns R W : built ns R W -> foldM check_prior [] ns = Ok (ids ns).
Proof.
  induction 1 as [|ns R W n args ops _ IH Hn]; [done|]. rewrite foldM_app, IH. cbn [bind foldM]. unfold check_prior.
  replace (existsb _ (nd_dependencies n)) with false.
  - cbn [bind]. unfold ids. by rewrite map_app.
  - symmetry. apply not_true_iff_false. intros (d & Hd & Hc)%existsb_exists. apply negb_true_iff, bool_decide_eq_false in Hc. apply Hc. by apply (cn_deps _ _ _ _ Hn), list_elem_of_In.
Qed.

(** ** The state between tokens *)

Record compiler_ok (st : compiler) : Prop := {
  ck_built : built (cc_nodes st) (cc_inputs st) (cc_outputs st);
  ck_edges : cc_edges st = concat (map node_edges (cc_nodes st));
  ck_previous : forall p, p ∈ cc_previous st -> p ∈ ids (cc_nodes st);
  ck_previous_nodup : NoDup (cc_previous st);
  ck_pending : forall op, cc_pending_operator st = Some op -> op ∈ operators /\ cc_nodes st <> [] /\ cc_previous st <> [];
  ck_stdin : virtual_option (cc_stdin_file st);
  ck_stdout : virtual_option (cc_stdout_file st);
  ck_group : 0 <= cc_fanout_group st <= Z.max 0 (Z.of_nat (length (cc_nodes st)) - 1);
  ck_command : Forall no_nul (cc_command st) }.

Lemma initial_ok : compiler_ok initial_compiler.
Proof. split; cbn; try done; try constructor; by intros p ?%elem_of_nil. Qed.

Lemma resolve_name t name : resolve h name = Ok t -> tl_logical_name t = name.
Proof. intros H. unfold resolve in H. destruct (negb _); [discriminate H|]. destruct (tool_candidate h name) as [[[? ?] ?]|]; [|discriminate H]. by apply Ok_inj in H as <-. Qed.
Lemma py_index_last (l : list string) x : py_index l (-1) = Ok x -> x ∈ l.
Proof.
  unfold py_index. case_bool_decide; [lia|]. case_bool_decide; [|discriminate]. destruct (l !! _) eqn:E; [|discriminate]. cbn. intros [= <-]. by eapply list_elem_of_lookup_2.
Qed.

(** What the pending operator asks of the next node. *)
Lemma dependencies_ok st mode deps group : compiler_ok st -> dependencies_of st = Ok (mode, deps, group) ->
  (forall d, d ∈ deps -> d ∈ ids (cc_nodes st)) /\ NoDup deps /\ mode ∈ ["always"; "success"; "stream"] /\ (mode = "stream" -> exists d, deps = [d]) /\
  0 <= group <= Z.of_nat (length (cc_nodes st)).
Proof.
  intros [Hb He Hp Hpn Hop _ _ Hg _] H. unfold dependencies_of in H. destruct (cc_pending_operator st) as [op|] eqn:Eop.
  - destruct (Hop op eq_refl) as (_ & Hne & _). assert (0 < Z.of_nat (length (cc_nodes st))) by (destruct (cc_nodes st); [done|cbn; lia]).
    destruct (String.eqb op "|").
    { destruct (py_index (cc_previous st) (-1)) as [p|] eqn:E; [|discriminate H]. apply Ok_inj in H as [= <- <- <-]. apply py_index_last in E.
      split_and!; [by intros d ->%list_elem_of_singleton; apply Hp|by apply NoDup_singleton|by do 2 right; left|by exists p|lia|lia]. }
    destruct (String.eqb op "&&"); [|destruct (String.eqb op ";"); [|destruct (String.eqb op "|||")]]; apply Ok_inj in H as [= <- <- <-].
    + split_and!; [done|done|by right; left|done|lia|lia].
    + split_and!; [done|done|by left|done|lia|lia].
    + split_and!; [by intros d ?%elem_of_nil|constructor|by left|done|lia|lia].
    + split_and!; [by intros d ?%elem_of_nil|constructor|by left|done|lia|lia].
  - apply Ok_inj in H as [= <- <- <-]. split_and!; [by intros d ?%elem_of_nil|constructor|by left|done|lia|lia].
Qed.

Lemma node_edges_snoc ns n : concat (map node_edges (ns ++ [n])) = concat (map node_edges ns) ++ node_edges n.
Proof. rewrite map_app, concat_app. cbn. by rewrite app_nil_r. Qed.

Lemma emit_ok_command st st' : compiler_ok st -> emit_command h ws st = Ok st' ->
  compiler_ok st' /\ cc_nodes st' <> [] /\ cc_previous st' <> [] /\ cc_command st' = [] /\ cc_pending_operator st' = None.
Proof.
  intros Hst H. pose proof Hst as [Hb He Hp Hpn Hop Hin Hout Hg Hcmd]. unfold emit_command in H. destruct (cc_command st) as [|name args] eqn:Ecmd; [discriminate H|].
  destruct (_ || _) eqn:Ebound; [discriminate H|]. apply orb_false_iff in Ebound as [_ Ebound]. apply Z.ltb_ge in Ebound.
  destruct (has_char 47 name); [discriminate H|]. destruct (resolve h name) as [tool|] eqn:Etool; [|discriminate H]. cbn [bind] in H.
  destruct (tool_paths ws name args) as [ops|] eqn:Eops; [|discriminate H]. cbn [bind] in H.
  destruct (dependencies_of st) as [[[mode deps] group]|] eqn:Edeps; [|discriminate H]. cbn [bind] in H. apply Ok_inj in H as <-. cbn.
  pose proof (dependencies_ok _ _ _ _ Hst Edeps) as (Hd & Hdn & Hm & Hs & Hgr). pose proof (resolve_name _ _ Etool) as Hname.
  set (n := CommandNode _ _ _ _ _ _ _ _ _ _ _).
  assert (Hnode : compiled_node (cc_nodes st) n args ops).
  { apply Forall_cons in Hcmd as [_ Hcmd]. split; cbn; rewrite ?Hname; try done. }
  split_and!; [|by destruct (cc_nodes st)|by case_bool_decide; [destruct (cc_previous st)|]|done|done].
  split; cbn; [| | | | |done|done| |constructor].
  - by apply (built_snoc _ _ _ n args ops).
  - rewrite node_edges_snoc, He. done.
  - intros p Hpi. unfold ids. rewrite map_app, elem_of_app. case_bool_decide; [apply elem_of_app in Hpi as [Hpi|Hpi]|]; [left; by apply Hp|right..]; exact Hpi.
  - case_bool_decide; [|apply NoDup_singleton]. apply NoDup_app. split_and!; [done| |apply NoDup_singleton].
    intros x Hx ->%list_elem_of_singleton. apply Hp in Hx. pose proof (built_NoDup _ _ _ (built_snoc _ _ _ n args ops Hb Hnode)) as Hnd.
    unfold ids in Hnd. rewrite map_app, NoDup_app in Hnd. destruct Hnd as (_ & Hnd & _). apply (Hnd _ Hx). left.
  - done.
  - rewrite length_app. cbn. lia.
Qed.

Lemma compile_tokens_ok tokens st st' : Forall no_nul tokens -> compiler_ok st -> compile_tokens h ws st tokens = Ok st' -> compiler_ok st'.
Proof.
  intros Ht. assert (forall k tokens, (length tokens <= k)%nat -> Forall no_nul tokens -> forall st, compiler_ok st -> compile_tokens h ws st tokens = Ok st' -> compiler_ok st') as H.
  2: { by apply (H (length tokens)). }
  clear. intros k. induction k as [|k IH]; intros tokens Hk Ht st Hst H.
  - destruct tokens; [|cbn in Hk; lia]. by apply Ok_inj in H as <-.
  - destruct tokens as [|t rest]; [by apply Ok_inj in H as <-|]. cbn [compile_tokens length] in *. apply Forall_cons in Ht as [Htok Ht].
    destruct (bool_decide (t ∈ operators)) eqn:Eop; [|destruct (bool_decide (t ∈ redirections)) eqn:Ere].
    + destruct (emit_command h ws st) as [st1|] eqn:E; [|discriminate H]. cbn [bind] in H. apply emit_ok_command in E as (H1 & Hn & Hp & _ & _); [|done].
      apply IH in H; [done|lia|done|]. apply bool_decide_eq_true in Eop. destruct H1. split; cbn; try done. by intros op [= <-].
    + destruct rest as [|target rest]; [discriminate H|]. destruct (bool_decide (target ∈ _)); [discriminate H|].
      destruct (normalize ws target) as [v|] eqn:Ev; [|discriminate H]. cbn [bind] in H. apply Forall_cons in Ht as [_ Ht]. destruct Hst.
      destruct (String.eqb t "<"); (destruct (is_Some_b _); [discriminate H|]); (apply IH in H; [done|cbn in Hk; lia|done|]); split; cbn; try done; by exists target.
    + apply IH in H; [done|lia|done|]. destruct Hst. split; cbn; try done. apply Forall_app. split; [done|by repeat constructor].
Qed.

(** ** Whole programs *)

(** The parts of a constructed program. *)
Record constructed (o : os) (d : disk) (policy : execution_policy) (source : string) (p : command_program) (R W external : gset string) : Prop := {
  cp_built : built (cg_nodes p) R W;
  cp_nodes : cg_nodes p <> [];
  cp_bound : Z.of_nat (length (cg_nodes p)) <= po_max_nodes policy;
  cp_edges : cg_edges p = concat (map node_edges (cg_nodes p));
  cp_inputs : cg_declared_inputs p = sorted_set external;
  cp_outputs : cg_declared_outputs p = sorted_set W;
  cp_external : foldM (check_input o ws d W) ∅ (elements R) = Ok external;
  cp_new : traverse (check_output o ws d) (elements W) = Ok (map (fun _ => tt) (elements W));
  cp_policy : cg_policy p = policy;
  cp_source : cg_source p = source /\ is_text source 8192 = true;
  cp_environment : cg_environment p = CONTROLLED_ENV;
  cp_schema : cg_schema p = PROGRAM_SCHEMA;
  cp_id : cg_graph_id p = graph_name p }.

Lemma has_char_spec n s : 0 <= n < 256 -> has_char n s = false -> all_chars (fun c => c <> char (Z.to_nat n)) s.
Proof.
  intros Hn H. unfold all_chars. apply Forall_forall. intros c Hc ->. apply not_true_iff_false in H. apply H. apply existsb_exists.
  exists (char (Z.to_nat n)). split; [by apply list_elem_of_In|]. apply Z.eqb_eq. unfold code, char. rewrite Ascii.nat_ascii_embedding; lia.
Qed.
Lemma tokens_Ok source tokens : tokens_of source = Ok tokens -> is_text source 8192 = true /\ Forall no_nul tokens.
Proof.
  intros H. unfold tokens_of in H. destruct (_ || _) eqn:E; [discriminate H|]. rewrite !orb_false_iff in E. destruct E as [[[E1 E2] _] _].
  destruct (lex _ _) as [ts|] eqn:El; [|discriminate H]. cbn [bind] in H. destruct (bool_decide _) eqn:Ene; [discriminate H|]. destruct (traverse _ _); [|discriminate H]. apply Ok_inj in H as <-.
  apply has_char_spec in E2; [|lia]. change (char (Z.to_nat 0)) with Ascii.zero in E2. split.
  - unfold is_text. rewrite E1. cbn [negb andb]. destruct (String.eqb_spec source ""); [subst; by apply bool_decide_eq_false in Ene; injection El as <-|].
    rewrite bool_decide_false; [done|]. intros Hz. unfold all_chars in E2. rewrite Forall_forall in E2. by apply E2 in Hz.
  - by apply (lex_chars _ (S (String.length source)) source).
Qed.

Lemma construct_Ok o d policy source p : construct h o ws d policy source = Ok p -> exists R W external, constructed o d policy source p R W external.
Proof.
  intros H. unfold construct in H. destruct (tokens_of source) as [tokens|] eqn:Et; [|discriminate H]. cbn [bind] in H. apply tokens_Ok in Et as [Hs Ht].
  destruct (compile_tokens h ws _ tokens) as [st1|] eqn:E1; [|discriminate H]. cbn [bind] in H. apply compile_tokens_ok in E1; [|done|apply initial_ok].
  destruct (emit_command h ws st1) as [st|] eqn:E2; [|discriminate H]. cbn [bind] in H. apply emit_ok_command in E2 as ([Hb He _ _ _ _ _ _ _] & Hne & _); [|done].
  destruct (_ <? _) eqn:Em; [discriminate H|]. apply Z.ltb_ge in Em. destruct (foldM (check_input _ _ _ _) _ _) as [external|] eqn:Ex; [|discriminate H]. cbn [bind] in H.
  destruct (traverse (check_output _ _ _) _) as [l|] eqn:Ey; [|discriminate H]. cbn [bind] in H. apply Ok_inj in H as <-.
  exists (cc_inputs st), (cc_outputs st), external. split; cbn; try done. rewrite Ey. f_equal.
  pose proof (traverse_length _ _ _ Ey) as Hl. revert Hl. generalize (elements (cc_outputs st)). clear. induction l as [|[] l IH]; intros [|x m] Hl; try done. cbn. f_equal. apply IH. cbn in Hl. congruence.
Qed.

(** The compiler's last check never fails. *)
Lemma construct_validates o d policy source p : construct h o ws d policy source = Ok p -> validate p = Ok tt.
Proof.
  intros H. apply construct_Ok in H as (R & W & external & [Hb Hne Hbound _ Hi Ho _ _ Hp _ _ Hsc Hid]). unfold validate.
  rewrite Hsc, <- Hid, !String.eqb_refl. cbn [negb orb]. rewrite (bool_decide_false _ Hne), Hp, (proj2 (Z.ltb_ge _ _)) by done. cbn [orb].
  pose proof (built_NoDup _ _ _ Hb) as Hnd. unfold ids in Hnd. rewrite (bool_decide_true _ Hnd). cbn [negb]. rewrite (built_prior _ _ _ Hb). cbn [bind].
  rewrite Ho, Hi, !bool_decide_true by apply NoDup_sorted_set. done.
Qed.

(** ** Inputs and outputs *)

Definition exists_as_file (o : os) (d : disk) (path : string) : Prop :=
  exists v host bytes, existing_host_path o ws d path = Ok (v, host) /\ lstat d host = Some (EFile bytes).
Definition does_not_exist (o : os) (d : disk) (path : string) : Prop :=
  exists m, existing_host_path o ws d path = fail m /\ contains "does not exist" m = true.

Lemma check_input_Ok o d W X path X' : check_input o ws d W X path = Ok X' ->
  (exists_as_file o d path /\ X' = X ∪ {[path]}) \/ (path ∈ W /\ does_not_exist o d path /\ X' = X).
Proof.
  intros H. unfold check_input in H. destruct (existing_host_path o ws d path) as [[v host]|[m| | | | | | | |]] eqn:E; try discriminate H.
  - destruct (lstat d host) as [[|bytes| |]|] eqn:El; try discriminate H. apply Ok_inj in H as <-. left. split; [by exists v, host, bytes|done].
  - destruct (bool_decide _ && _) eqn:Ec; [|discriminate H]. apply andb_true_iff in Ec as [E1%bool_decide_eq_true E2]. apply Ok_inj in H as <-. right. split; [done|]. split; [by exists m|done].
Qed.
Lemma check_output_Ok o d path : check_output o ws d path = Ok tt -> does_not_exist o d path.
Proof.
  intros H. unfold check_output in H. destruct (existing_host_path o ws d path) as [[v host]|[m| | | | | | | |]] eqn:E; try discriminate H.
  destruct (contains _ m) eqn:Ec; [|discriminate H]. by exists m.
Qed.
Lemma outputs_new o d l : traverse (check_output o ws d) l = Ok (map (fun _ => tt) l) -> forall path, path ∈ l -> does_not_exist o d path.
Proof.
  induction l as [|x l IH]; intros H path Hp; [by apply elem_of_nil in Hp|]. cbn in H. destruct (check_output o ws d x) as [[]|] eqn:E; [|discriminate H]. cbn [bind] in H.
  destruct (traverse _ l) as [ys|] eqn:E2; [|discriminate H]. apply Ok_inj in H. injection H as ->.
  apply elem_of_cons in Hp as [->|Hp]; [by apply check_output_Ok|by apply IH].
Qed.
Lemma not_both o d path : does_not_exist o d path -> ~ exists_as_file o d path.
Proof. intros (m & H & _) (v & host & b & H' & _). rewrite H in H'. discriminate H'. Qed.

(** The declared inputs are the paths read and not written. *)
Lemma inputs_external o d W l X external : (forall path, path ∈ W -> does_not_exist o d path) -> foldM (check_input o ws d W) X l = Ok external ->
  external = X ∪ (list_to_set l ∖ W) /\ (forall path, path ∈ external -> path ∈ X \/ exists_as_file o d path).
Proof.
  intros HW. revert X. induction l as [|x l IH]; intros X H.
  - apply Ok_inj in H as <-. split; [|by left]. apply set_eq. intros y. rewrite elem_of_union, elem_of_difference. cbn. rewrite elem_of_empty. tauto.
  - cbn [foldM] in H. destruct (check_input o ws d W X x) as [X'|] eqn:E; [|discriminate H]. cbn [bind] in H. apply IH in H as [-> Hf].
    apply check_input_Ok in E as [[Hx ->]|(Hx & Hn & ->)].
    + assert (x ∉ W) by (intros Hw; by apply (not_both o d x (HW x Hw))). split.
      * apply set_eq. intros y. cbn [list_to_set]. rewrite !elem_of_union, !elem_of_difference, elem_of_union, !elem_of_singleton. destruct (decide (y = x)) as [->|]; tauto.
      * intros path Hp. destruct (Hf path Hp) as [[?| ->%elem_of_singleton]%elem_of_union|?]; auto.
    + split; [|done]. apply set_eq. intros y. cbn [list_to_set]. rewrite !elem_of_union, !elem_of_difference, elem_of_union, elem_of_singleton.
      destruct (decide (y = x)) as [->|]; tauto.
Qed.

Lemma constructed_sets o d policy source p R W external : constructed o d policy source p R W external ->
  external = R ∖ W /\ (forall path, path ∈ external -> exists_as_file o d path) /\ (forall path, path ∈ W -> does_not_exist o d path).
Proof.
  intros [_ _ _ _ _ _ Hx Hn _ _ _ _ _]. assert (HW : forall path, path ∈ W -> does_not_exist o d path).
  { intros path Hp. eapply outputs_new; [done|by apply elem_of_elements]. }
  apply inputs_external in Hx as [Hx Hf]; [|done]. rewrite list_to_set_elements_L, (left_id_L ∅ (∪)) in Hx.
  split_and!; [done| |done]. intros path Hp. by destruct (Hf path Hp) as [?%elem_of_empty|].
Qed.

(** ** Admission *)

Context (Hws : workspace_ok ws).

(** The paths a node names fit the workspace's bound. *)
Definition fits_option (f : option string) : Prop := match f with Some v => fits v | None => True end.
Definition node_fits (n : command_node) : Prop :=
  Forall (fun i => fits (at_ "" (nd_argv n) i)) (nd_path_indices n) /\ fits_option (nd_stdin_file n) /\ fits_option (nd_stdout_file n).

Lemma resolved_executable t : resolve h (tl_logical_name t) = Ok t -> is_ok (executable h t) = true.
Proof.
  intros H. unfold resolve in H. destruct (negb _); [discriminate H|]. unfold executable. destruct (tool_candidate h _) as [[[path actual] data]|]; [|discriminate H].
  cbn [bind] in *. apply Ok_inj in H as Ht. rewrite <- Ht. cbn [tl_adapter tl_locator tl_binary_sha256 tl_logical_name]. rewrite !String.eqb_refl. done.
Qed.

Definition edge_triple (e : command_edge) : string * string * string := (ed_source e, ed_target e, ed_kind e).

Lemma compiled_check_node ns n args ops x : compiled_node ns n args ops -> node_fits n ->
  check_node h ws x n = Ok (Expectation (ex_edges x ∪ list_to_set (map edge_triple (node_edges n)))
    (ex_reads x ∪ op_reads ops ∪ optional_set (nd_stdin_file n)) (ex_writes x ∪ (op_writes ops ∪ optional_set (nd_stdout_file n)))).
Proof.
  intros [Htool Hops _ Hargv Hpaths Hwrites _ Hin _ _ _ _ _ _ _ _] (Hf & Hfin & _). unfold check_node.
  pose proof (resolved_executable _ Htool) as He. destruct (executable h (nd_tool n)); [|discriminate He]. cbn [bind].
  rewrite Hargv. rewrite (tool_paths_again ws Hws _ _ _ Hops) by (unfold paths_fit; by rewrite <- Hargv, <- Hpaths). cbn [bind].
  rewrite !bool_decide_true by done. cbn [negb orb]. unfold node_edges. rewrite map_map.
  destruct (nd_stdin_file n) as [v|]; [|done]. destruct Hin as [t Ht]. rewrite (normalize_again ws t v) by done. done.
Qed.

Lemma built_check ns R W : built ns R W -> Forall node_fits ns ->
  foldM (check_node h ws) (Expectation ∅ ∅ ∅) ns = Ok (Expectation (list_to_set (map edge_triple (concat (map node_edges ns)))) R W).
Proof.
  induction 1 as [|ns R W n args ops _ IH Hn]; [done|]. intros [Hf [Hfn _]%Forall_cons]%Forall_app. rewrite foldM_app, IH by done. cbn [bind foldM].
  rewrite (compiled_check_node _ _ _ _ _ Hn Hfn). cbn [bind ex_edges ex_reads ex_writes]. rewrite node_edges_snoc, map_app, list_to_set_app_L. by rewrite (assoc_L (∪) W).
Qed.
Lemma built_edges_NoDup ns R W : built ns R W -> NoDup (map edge_triple (concat (map node_edges ns))) /\
  (forall e, e ∈ map edge_triple (concat (map node_edges ns)) -> e.1.2 ∈ ids ns).
Proof.
  induction 1 as [|ns R W n args ops Hb [IH1 IH2] Hn]; [split; [constructor|by intros e ?%elem_of_nil]|]. rewrite node_edges_snoc, map_app.
  assert (Hnew : forall e, e ∈ map edge_triple (node_edges n) -> e.1.2 = nd_id n).
  { unfold node_edges. rewrite map_map. by intros e (dep & -> & _)%list_elem_of_fmap. }
  pose proof (built_NoDup _ _ _ (built_snoc _ _ _ n args ops Hb Hn)) as Hnd. unfold ids in Hnd. rewrite map_app, NoDup_app in Hnd. destruct Hnd as (_ & Hnd & _). split.
  - apply NoDup_app. split_and!; [done| |].
    + intros e He1 He2. apply IH2 in He1. rewrite (Hnew e He2) in He1. apply (Hnd _ He1). left.
    + unfold node_edges. rewrite map_map. cbn. apply NoDup_fmap_2; [by intros a b [= ->]|]. apply (cn_deps_nodup _ _ _ _ Hn).
  - unfold ids in *. rewrite map_app. intros e [He|He]%elem_of_app; apply elem_of_app; [left; by apply IH2|right]. rewrite (Hnew e He). left.
Qed.

Lemma construct_executable o d policy source p : construct h o ws d policy source = Ok p -> Forall node_fits (cg_nodes p) -> validate_executable h ws p = Ok tt.
Proof.
  intros H Hf. apply construct_Ok in H as (R & W & external & Hc). destruct (constructed_sets _ _ _ _ _ _ _ _ Hc) as (-> & _ & _).
  destruct Hc as [Hb _ _ He Hi Ho _ _ _ _ Henv _ _]. unfold validate_executable. rewrite Henv, bool_decide_true by done. cbn [negb].
  rewrite (built_check _ _ _ Hb Hf). cbn [bind ex_edges ex_reads ex_writes]. cbn zeta. change (fun e => (ed_source e, ed_target e, ed_kind e)) with edge_triple.
  rewrite He. destruct (built_edges_NoDup _ _ _ Hb) as [Hnd _]. rewrite (bool_decide_true _ Hnd), Ho, Hi, !sorted_set_to_set, !bool_decide_true by done. done.
Qed.
End compile.
