(* ===== verification/CommandRun.v ===== *)
(** * The command graph compiler: main theorems

    A compiled program validates and is admitted in its workspace; its inputs
    are regular files, its outputs do not exist; and its document is read back,
    unless an argument or the version of a tool is empty. *)

From S2P Require Import Prelude PyValue Json JsonFacts Evidence FoldWire FoldWireFacts FoldLines FoldLinesFacts Array ArrayFacts Workspace WorkspaceFacts Sha256 Sha256Facts.
From S2P Require Import CommandGraph CommandGraphFacts CommandShell CommandShellFacts CommandCompile.

(** ** Texts *)

Lemma utf8_bound s : 0 <= utf8_length s <= 2 * Z.of_nat (String.length s).
Proof. unfold utf8_length. induction s as [|c s IH]; [done|]. cbn [String.list_ascii_of_string foldr String.length]. destruct (code c <? 128); lia. Qed.
Lemma utf8_app s t : utf8_length (s +:+ t) = utf8_length s + utf8_length t.
Proof. unfold utf8_length. rewrite list_ascii_app, foldr_app. induction (String.list_ascii_of_string s) as [|c l IH]; [done|]. cbn. rewrite IH. lia. Qed.
Lemma text_ok s m : s <> "" -> no_nul s -> utf8_length s <= m -> is_text s m = true.
Proof.
  intros H1 H2 H3. unfold is_text. rewrite (proj2 (String.eqb_neq _ _) H1), (proj2 (Z.ltb_ge _ _) H3), bool_decide_false; [done|].
  intros Hz. unfold no_nul, all_chars in H2. rewrite Forall_forall in H2. by apply H2 in Hz.
Qed.
Lemma text_fits s m m' : is_text s m = true -> m <= m' -> is_text s m' = true.
Proof. unfold is_text. rewrite !andb_true_iff, !negb_true_iff, !Z.ltb_ge. intros [[H1 H2] H3] Hm. split_and!; [done|lia|done]. Qed.
Lemma is_text_parts s m : is_text s m = true -> s <> "" /\ no_nul s /\ utf8_length s <= m.
Proof.
  unfold is_text. rewrite !andb_true_iff, !negb_true_iff, Z.ltb_ge, String.eqb_neq, bool_decide_eq_false. intros [[H1 H2] H3]. split_and!; [done| |done].
  apply Forall_forall. by intros c Hc ->.
Qed.
Lemma no_nul_app s t : no_nul (s +:+ t) <-> no_nul s /\ no_nul t.
Proof. unfold no_nul, all_chars. rewrite list_ascii_app. apply Forall_app. Qed.
Lemma no_nul_virtual ps : Forall component_ok ps -> no_nul (virtual ps).
Proof. intros H. apply Forall_forall. intros c Hc ->. by apply (virtual_no_nul ps). Qed.
Lemma substring_chars n m s P : all_chars P s -> all_chars P (String.substring n m s).
Proof.
  unfold all_chars. revert n m. induction s as [|c s IH]; intros n m H; [destruct n, m; constructor|]. apply Forall_cons in H as [Hc H].
  destruct n, m; cbn [String.substring]; [constructor| |by apply IH..]. cbn. constructor; [done|by apply IH].
Qed.
Lemma substring_length n m s : (String.length (String.substring n m s) <= m)%nat.
Proof. revert n m. induction s as [|c s IH]; intros [|n] [|m]; cbn; try lia; [specialize (IH 0%nat m)|specialize (IH n 0%nat)|specialize (IH n (S m))]; lia. Qed.

Lemma hex_no_nul s : all_hex s = true -> no_nul s.
Proof.
  unfold all_hex, no_nul, all_chars. induction s as [|c s IH]; [constructor|]. cbn. intros [Hc Hs]%andb_true_iff. constructor; [by intros ->|by apply IH].
Qed.
Lemma sha256_hex_text p : no_nul (sha256_hex p) /\ String.length (sha256_hex p) = 64%nat.
Proof.
  unfold sha256_hex. split; [apply hex_no_nul, all_hex_tohex, sha256_bytes|]. rewrite length_tohex, length_sha256. done.
Qed.
Lemma no_nul_pretty p : no_nul (pretty (Z.pos p)).
Proof.
  rewrite pretty_Z_pos. set (n := N.pos p). clearbody n. clear p. unfold no_nul. enough (H : forall s, no_nul s -> no_nul (pretty_N_go n s)) by (apply H; constructor).
  induction (N.lt_wf_0 n) as [n _ IH]. intros s Hs. destruct (decide (n = 0)%N) as [->|Hn]; [by rewrite pretty_N_go_0|]. rewrite pretty_N_go_step by lia.
  apply IH; [apply N.div_lt; lia|]. constructor; [|done]. destruct (digit_char_spec (n `mod` 10)) as (Hd & _ & _); [by apply N.mod_lt|]. intros E. by rewrite E in Hd.
Qed.
Lemma small_pretty n : 0 < n < 1000 -> (String.length (pretty n) <= 3)%nat.
Proof.
  intros Hn. assert (H : forallb (fun i => bool_decide (String.length (pretty i) <= 3)%nat) (zrange 1 1000) = true) by (vm_compute; reflexivity).
  rewrite forallb_forall in H. apply (bool_decide_eq_true (String.length (pretty n) <= 3)%nat), H, list_elem_of_In, elem_of_zrange. lia.
Qed.

Lemma allowed_name name : name ∈ ALLOWLIST -> name <> "" /\ no_nul name /\ utf8_length name <= 16.
Proof.
  intros H. assert (Hall : Forall (fun s => is_text s 16 = true) ALLOWLIST) by (repeat constructor). rewrite Forall_forall in Hall. by apply is_text_parts, Hall.
Qed.
Lemma node_name_text n name : 0 < n < 1000 -> name ∈ ALLOWLIST -> is_text (node_name n name) 4096 = true.
Proof.
  intros Hn H. destruct (allowed_name _ H) as (_ & Hz & Hl). unfold node_name. destruct n as [|p|p]; [lia| |lia].
  apply text_ok.
  - by destruct (Z.pos p <? 10), (Z.pos p <? 100).
  - rewrite !no_nul_app. split_and!; [by repeat constructor|destruct (_ <? _); [|destruct (_ <? _)]; by repeat constructor|apply no_nul_pretty|by repeat constructor|done].
  - rewrite !utf8_app. pose proof (small_pretty (Z.pos p) Hn). pose proof (utf8_bound (pretty (Z.pos p))). change (utf8_length "node-") with 5. change (utf8_length "-") with 1.
    assert (utf8_length (if Z.pos p <? 10 then "00" else if Z.pos p <? 100 then "0" else "") <= 2) by (destruct (_ <? _); [|destruct (_ <? _)]; vm_compute; discriminate). lia.
Qed.

(** ** Resolved tools *)

Lemma first_of {A B} (f : A -> option B) l x r : omap f l = x :: r -> exists a, a ∈ l /\ f a = Some x.
Proof. intros H. apply list_elem_of_omap. rewrite H. left. Qed.
Lemma candidate_name h name path actual data : tool_candidate h name = Ok (path, actual, data) -> actual ∈ tool_names name.
Proof.
  unfold tool_candidate. destruct (omap _ _) as [|x r] eqn:E; [discriminate|]. intros [= ->]. apply first_of in E as ([d n] & Hin & Hf). cbn in Hf.
  destruct (th_file h d n); [|discriminate Hf]. injection Hf as _ <- _. apply list_elem_of_bind in Hin as (d' & Hin & _). apply list_elem_of_bind in Hin as (n' & Hin & Hn).
  apply list_elem_of_singleton in Hin. by injection Hin as -> ->.
Qed.
Lemma resolved_tool h name t : resolve h name = Ok t -> is_text (tl_version t) 512 = true -> tool_ok t /\ name ∈ ALLOWLIST.
Proof.
  intros H Hv. unfold resolve in H. destruct (negb _) eqn:E; [discriminate H|]. apply negb_false_iff, bool_decide_eq_true in E.
  destruct (tool_candidate h name) as [[[path actual] data]|] eqn:Ec; [|discriminate H]. cbn [bind] in H. apply Ok_inj in H as <-. cbn [tl_version] in Hv. split; [|done].
  destruct (allowed_name _ E) as (Hne & Hz & Hl). destruct (sha256_hex_text data) as [Hx1 Hx2].
  assert (Ha : no_nul actual /\ utf8_length actual <= 16).
  { apply candidate_name in Ec. unfold tool_names in Ec. destruct (String.eqb name "sha256sum").
    - repeat (apply elem_of_cons in Ec as [->|Ec]; [by repeat constructor|]). by apply elem_of_nil in Ec.
    - apply list_elem_of_singleton in Ec as ->. done. }
  split; cbn [tl_logical_name tl_locator tl_version tl_binary_sha256 tl_adapter tl_schema]; try done.
  - apply text_ok; [done|done|lia].
  - unfold tool_locator. apply text_ok; [done| |].
    + rewrite !no_nul_app. split_and!; [by repeat constructor|apply Ha|by repeat constructor|by apply substring_chars].
    + rewrite !utf8_app. pose proof (utf8_bound (String.substring 0 16 (sha256_hex data))). pose proof (substring_length 0 16 (sha256_hex data)).
      change (utf8_length "system://") with 9. change (utf8_length "/") with 1. destruct Ha. lia.
  - apply text_ok; [by destruct (sha256_hex data)|done|]. 
    assert (Hu : forall s, all_hex s = true -> utf8_length s = Z.of_nat (String.length s)).
    { unfold utf8_length, all_hex. induction s as [|c s IH]; [done|]. cbn [String.list_ascii_of_string foldr String.length forallb]. intros [Hc Hs]%andb_true_iff. rewrite IH by done.
      replace (code c <? 128) with true; [lia|]. symmetry. unfold is_hex in Hc. apply Z.ltb_lt. lia. }
    rewrite Hu by apply all_hex_tohex, sha256_bytes. rewrite Hx2. lia.
  - unfold tool_adapter. by destruct (_ && _).
Qed.

(** ** Operands as marked arguments *)

Section program.
Context (h : tool_host) (ws : workspace) (Hws : workspace_ok ws).

Lemma tool_paths_marks name args ops : tool_paths ws name args = Ok ops -> exists plan, plan_in args plan /\ marks ws (start args) plan = Ok ops.
Proof.
  intros H. assert (Hreads : forall k, 0 <= k -> reads_from ws args k = Ok ops -> exists plan, plan_in args plan /\ marks ws (start args) plan = Ok ops).
  { intros k Hk Hr. rewrite reads_from_marks in Hr. eexists. split; [by apply range_plan|done]. }
  assert (Hnone : Ok (start args) = Ok ops -> exists plan, plan_in args plan /\ marks ws (start args) plan = Ok ops).
  { intros Hr. exists []. split; [split; constructor|done]. }
  assert (Hfilter : forall allowed, filter_paths ws name args allowed = Ok ops -> exists plan, plan_in args plan /\ marks ws (start args) plan = Ok ops).
  { intros allowed Hr. apply filter_marks in Hr as [_ Hr]. eexists. split; [apply filter_plan_in|done]. }
  unfold tool_paths in H.
  destruct (String.eqb name "cat"); [destruct (_ || _); [discriminate H|]; apply (Hreads 0); [lia|done]|].
  destruct (String.eqb name "grep"); [apply grep_marks in H; cbn zeta in H; set (p := fun a : string => _) in H; pose proof (leading_bounds p args); apply (Hreads (leading p args + 1)); [lia|tauto]|].
  destruct (String.eqb name "wc"); [by eapply Hfilter|].
  destruct (String.eqb name "sort"); [by eapply Hfilter|].
  destruct (String.eqb name "uniq"); [unfold uniq_paths in H; cbn zeta in H; pose proof (leading_bounds dash args); destruct (negb _); [discriminate H|]; destruct (_ <? _); [discriminate H|]; apply (Hreads (leading dash args)); [lia|done]|].
  destruct (String.eqb name "tr"); [destruct (_ || _); [discriminate H|]; by apply Hnone|].
  destruct (_ || _).
  { unfold head_paths in H. destruct args as [|a rest]; [apply (Hreads 0); [lia|done]|]. destruct (String.eqb a "-n").
    - destruct rest as [|n rest]; [discriminate H|]. destruct (isdigit n); [apply (Hreads 2); [lia|done]|discriminate H].
    - destruct (dash a); [discriminate H|]. apply (Hreads 0); [lia|done]. }
  destruct (String.eqb name "cut").
  { unfold cut_paths in H. destruct (cut_options args) as [n|] eqn:E; [|discriminate H]. cbn [bind] in H. destruct (n =? 0); [discriminate H|]. apply cut_options_bounds in E. apply (Hreads n); [lia|done]. }
  destruct (String.eqb name "tee"); [destruct (_ || _); [discriminate H|]; rewrite writes_from_marks in H; eexists; split; [by apply range_plan|done]|].
  destruct (String.eqb name "cp").
  { destruct (_ || _) eqn:E; [discriminate H|]. apply orb_false_iff in E as [E1 _]. apply negb_false_iff, Z.eqb_eq in E1. unfold count in E1.
    exists [(false, 0); (true, 1)]. split; [split; [cbn; apply NoDup_ListNoDup; repeat constructor; cbn; lia|repeat constructor; cbn; lia]|].
    unfold marks. cbn [foldM fst snd]. destruct (mark ws false (start args) 0) as [st|]; [|discriminate H]. cbn [bind] in *. rewrite H. done. }
  destruct (String.eqb name "sha256sum"); [destruct (_ || _); [discriminate H|]; apply (Hreads 0); [lia|done]|].
  destruct (_ || _); [destruct (_ || _); [discriminate H|]; apply (Hreads 0); [lia|done]|].
  destruct (String.eqb name "mkdir").
  { destruct (_ || _) eqn:E; [discriminate H|]. apply orb_false_iff in E as [E1 _]. apply negb_false_iff, Z.eqb_eq in E1. unfold count in E1.
    exists [(true, 0)]. split; [split; [apply NoDup_singleton|repeat constructor; cbn; lia]|]. unfold marks. cbn [foldM fst snd]. rewrite H. done. }
  destruct (String.eqb name "pwd"); [destruct (negb _); [discriminate H|]; by apply Hnone|].
  destruct (String.eqb name "echo"); [destruct (any_dash args); [discriminate H|]; by apply Hnone|].
  destruct (String.eqb name "printf"); [|discriminate H]. destruct (_ || _); [discriminate H|]. by apply Hnone.
Qed.

(** Arguments of a compiled command: as written, or a virtual path at one of
    the indices; what is read and written is among the latter. *)
Record operands_ok (args : list string) (ops : operands) : Prop := {
  oo_length : length (op_args ops) = length args;
  oo_range : Forall (fun i => 0 <= i < Z.of_nat (length args)) (op_paths ops);
  oo_args : forall i, 0 <= i < Z.of_nat (length args) -> at_ "" (op_args ops) i = at_ "" args i \/ i ∈ op_paths ops;
  oo_virtual : forall i, i ∈ op_paths ops -> exists t, normalize ws t = Ok (at_ "" (op_args ops) i);
  oo_sets : forall v, v ∈ op_reads ops ∪ op_writes ops -> exists i, i ∈ op_paths ops /\ v = at_ "" (op_args ops) i }.

Lemma tool_operands name args ops : tool_paths ws name args = Ok ops -> operands_ok args ops.
Proof.
  intros (plan & Hin & H)%tool_paths_marks. pose proof (marks_Ok _ _ (start args) _ Hin H) as (Hl & Hout & Hn & Hp & Hr & Hw). cbn [start op_args op_paths op_reads op_writes app] in *.
  rewrite (left_id_L ∅ (∪)) in Hr. rewrite (left_id_L ∅ (∪)) in Hw. destruct Hin as [_ Hin]. split; [done| | | |].
  - rewrite Hp, Forall_map. done.
  - intros i Hi. rewrite Hp. destruct (decide (i ∈ map snd plan)); [by right|left; apply Hout; [lia|done]].
  - intros i. rewrite Hp. intros (p & -> & Hpi)%list_elem_of_fmap. eexists. by apply Hn.
  - intros v. rewrite Hr, Hw, Hp, elem_of_union. unfold marked. rewrite !elem_of_list_to_set, !list_elem_of_fmap.
    intros [(p & -> & [Hpi _]%list_elem_of_In%filter_In)|(p & -> & [Hpi _]%list_elem_of_In%filter_In)]; apply list_elem_of_In in Hpi; exists p.2;
      (split; [apply list_elem_of_fmap; by exists p|done]).
Qed.

(** ** Documents of compiled programs *)

Lemma virtual_text t v : normalize ws t = Ok v -> fits v -> is_text v 4096 = true.
Proof.
  intros H Hf. apply normalize_Ok in H as (ps & -> & Hps); [|done]. apply text_ok; [by destruct (virtual_slash ps) as [r ->]|by apply no_nul_virtual|done].
Qed.
Lemma optional_virtual f : virtual_option ws f -> fits_option f -> is_optional_text f.
Proof. destruct f as [v|]; [|done]. intros [t Ht] Hf. by eapply virtual_text. Qed.

Lemma sum_bound (l : list string) s : s ∈ l -> utf8_length s <= foldr Z.add 0 (map utf8_length l).
Proof.
  induction l as [|x l IH]; [by intros ?%elem_of_nil|]. cbn [map foldr]. pose proof (utf8_bound x).
  assert (0 <= foldr Z.add 0 (map utf8_length l)) by (clear; induction l as [|y l IH]; cbn; [lia|pose proof (utf8_bound y); lia]).
  intros [->|Hs]%elem_of_cons; [lia|]. specialize (IH Hs). lia.
Qed.

(** Every text of a compiled node can be read back, an empty argument apart. *)
Lemma compiled_texts ns n args ops : compiled_node h ws ns n args ops -> node_fits n -> is_text (tl_version (nd_tool n)) 512 = true ->
  Z.of_nat (length ns) < MAX_NODES -> Forall (fun s => is_text s 4096 = true) (ids ns) -> "" ∉ nd_argv n ->
  node_ok n /\ (forall v, v ∈ op_reads ops ∪ op_writes ops -> is_text v 4096 = true).
Proof.
  intros [Htool Hops Hbound Hargv Hpaths Hwrites Hid Hin Hout Hdeps _ Hmode _ Hgroup Hchars Hschema] (Hf & Hfi & Hfo) Hver Hns Hids Hne.
  destruct (resolved_tool _ _ _ Htool Hver) as [Ht Hname]. pose proof (tool_operands _ _ _ Hops) as [Hl Hr Ha Hv Hs].
  assert (Hpath : forall i, i ∈ op_paths ops -> is_text (at_ "" (op_args ops) i) 4096 = true).
  { intros i Hi. destruct (Hv i Hi) as [t Hti]. eapply virtual_text; [done|]. rewrite Forall_forall, Hargv, Hpaths in Hf. by apply Hf. }
  assert (Hsets : forall v, v ∈ op_reads ops ∪ op_writes ops -> is_text v 4096 = true) by (intros v Hvs; destruct (Hs v Hvs) as (i & Hi & ->); by apply Hpath).
  assert (Hopt : is_optional_text (nd_stdout_file n)) by (by apply optional_virtual). split; [|done]. split; try done.
  - rewrite Hid. apply node_name_text; [unfold MAX_NODES in Hns; lia|done].
  - apply Forall_forall. intros a Hai. assert (a <> "") by (by intros ->). rewrite Hargv in Hai. apply list_elem_of_lookup in Hai as [k Hk].
    pose proof (lookup_lt_Some _ _ _ Hk) as Hlt. assert (Hat : at_ "" (op_args ops) (Z.of_nat k) = a) by (unfold at_; rewrite Nat2Z.id; by rewrite (nth_lookup_Some _ _ _ _ Hk)).
    destruct (Ha (Z.of_nat k)) as [E|E]; [lia| |rewrite <- Hat; by apply Hpath]. rewrite Hat in E.
    assert (Hin' : a ∈ args) by (rewrite E; apply at_elem; lia). apply text_ok; [done|by rewrite Forall_forall in Hchars; apply Hchars|].
    unfold MAX_ARG_BYTES in Hbound. etransitivity; [|exact Hbound]. apply sum_bound. by right.
  - rewrite Hpaths, Hargv, Hl. eapply Forall_impl; [exact Hr|]. cbn. lia.
  - rewrite Hwrites. apply Forall_forall. intros v Hvw. apply elem_of_sorted_set, elem_of_union in Hvw as [Hvw|Hvw]; [apply Hsets, elem_of_union; by right|].
    destruct (nd_stdout_file n) as [w|]; cbn [optional_set] in Hvw; [|by apply elem_of_empty in Hvw]. by apply elem_of_singleton in Hvw as ->.
  - by apply optional_virtual.
  - apply Forall_forall. intros d Hd. rewrite Forall_forall in Hids. by apply Hids, Hdeps.
  - unfold MAX_NODES in *. lia.
Qed.

Lemma built_texts ns R W : built h ws ns R W -> Forall node_fits ns -> Forall (fun n => is_text (tl_version (nd_tool n)) 512 = true) ns ->
  Z.of_nat (length ns) <= MAX_NODES -> Forall (fun n => "" ∉ nd_argv n) ns -> Forall node_ok ns /\ (forall v, v ∈ R ∪ W -> is_text v 4096 = true).
Proof.
  induction 1 as [|ns R W n args ops Hb IH Hn]; intros Hf Hv Hlen Hne; [split; [constructor|]; by intros v [?%elem_of_empty|?%elem_of_empty]%elem_of_union|].
  apply Forall_app in Hf as [Hf [Hfn _]%Forall_cons]. apply Forall_app in Hv as [Hv [Hvn _]%Forall_cons]. apply Forall_app in Hne as [Hne [Hnen _]%Forall_cons].
  rewrite length_app in Hlen. cbn in Hlen. destruct IH as [Hok Hsets]; [done|done|lia|done|].
  destruct (compiled_texts ns n args ops Hn Hfn Hvn) as [Hnode Hnsets]; [lia| |done|].
  { unfold ids. rewrite Forall_map. eapply Forall_impl; [exact Hok|]. by intros m []. }
  split; [apply Forall_app; split; [done|by apply Forall_singleton]|]. intros v Hvs. destruct Hnode as [_ _ _ _ _ Hin Hout _ _ _ _].
  assert (Hcases : v ∈ R ∪ W \/ v ∈ op_reads ops ∪ op_writes ops \/ v ∈ optional_set (nd_stdin_file n) \/ v ∈ optional_set (nd_stdout_file n)) by (rewrite !elem_of_union in Hvs; rewrite !elem_of_union; clear -Hvs; tauto).
  destruct Hcases as [?|[?|[Hc|Hc]]]; [by apply Hsets|by apply Hnsets| |].
  - destruct (nd_stdin_file n) as [w|]; cbn [optional_set] in Hc; [by apply elem_of_singleton in Hc as ->|by apply elem_of_empty in Hc].
  - destruct (nd_stdout_file n) as [w|]; cbn [optional_set] in Hc; [by apply elem_of_singleton in Hc as ->|by apply elem_of_empty in Hc].
Qed.

Lemma mode_kind mode : edge_kind mode ∈ ["stream"; "success"; "sequence"].
Proof. unfold edge_kind. destruct (String.eqb mode "stream"); [left|]. destruct (String.eqb mode "success"); [by right; left|by do 2 right; left]. Qed.

Lemma graph_name_text p : is_text (graph_name p) 4096 = true.
Proof.
  unfold graph_name, identity. destruct (sha256_hex_text (canonical (VDict (identity_dict p)))) as [Hz _]. set (d := sha256_hex _) in *.
  apply text_ok; [done|apply no_nul_app; split; [by repeat constructor|by apply substring_chars]|].
  rewrite utf8_app. pose proof (utf8_bound (String.substring 0 16 d)). pose proof (substring_length 0 16 d). change (utf8_length "command-") with 8. lia.
Qed.

Definition versions_ok (p : command_program) : Prop := Forall (fun n => is_text (tl_version (nd_tool n)) 512 = true) (cg_nodes p).

Lemma construct_program_ok o d policy source p : construct h o ws d policy source = Ok p -> policy_ok policy -> Forall node_fits (cg_nodes p) -> versions_ok p ->
  Forall (fun n => "" ∉ nd_argv n) (cg_nodes p) -> program_ok p.
Proof.
  intros H Hpol Hf Hv Hne. apply construct_Ok in H as (R & W & external & Hc). destruct (constructed_sets _ _ _ _ _ _ _ _ _ _ Hc) as (-> & _ & _).
  destruct Hc as [Hb _ Hbound He Hi Ho _ _ Hp [Hsrc Hs] Henv Hsc Hid].
  destruct (built_texts _ _ _ Hb Hf Hv) as [Hok Hsets]; [destruct Hpol; lia|done|]. split; try done.
  - rewrite Hid. apply graph_name_text.
  - by rewrite Hsrc.
  - rewrite He. apply Forall_forall. intros e Hein. apply list_elem_of_In, in_concat in Hein as (l & Hl & Hel). apply in_map_iff in Hl as (n & <- & Hn).
    unfold node_edges in Hel. apply in_map_iff in Hel as (dep & <- & Hdep). rewrite Forall_forall in Hok. apply list_elem_of_In in Hn. apply list_elem_of_In in Hdep. destruct (Hok n Hn) as [Hnid _ _ _ _ _ _ Hdeps _ _ _].
    unfold texts_ok in Hdeps. rewrite Forall_forall in Hdeps. split; cbn [ed_source ed_target ed_kind ed_schema]; [by apply Hdeps|done|apply mode_kind|done].
  - rewrite Hi. apply Forall_forall. intros v Hvs. apply elem_of_sorted_set, elem_of_difference in Hvs as [Hvs _]. apply Hsets, elem_of_union. by left.
  - rewrite Ho. apply Forall_forall. intros v Hvs. apply elem_of_sorted_set in Hvs. apply Hsets, elem_of_union. by right.
  - by rewrite Hp.
  - rewrite Henv. repeat constructor.
  - by rewrite Hsc.
Qed.

(** Path arguments are virtual paths. *)
Lemma built_virtual ns R W : built h ws ns R W -> forall n i, n ∈ ns -> i ∈ nd_path_indices n -> exists t, normalize ws t = Ok (at_ "" (nd_argv n) i).
Proof.
  induction 1 as [|ns R W n args ops _ IH Hn]; intros m i Hm Hi; [by apply elem_of_nil in Hm|]. apply elem_of_app in Hm as [Hm|Hm]; [by apply IH|].
  apply list_elem_of_singleton in Hm as ->. destruct Hn as [_ Hops _ Hargv Hpaths _ _ _ _ _ _ _ _ _ _ _]. rewrite Hargv. rewrite Hpaths in Hi. by apply (oo_virtual _ _ (tool_operands _ _ _ Hops)).
Qed.
(** A virtual path is staged at its components. *)
Lemma virtual_staged t v : normalize ws t = Ok v -> fits v -> exists ps, stage_path v = Ok ps /\ parts_of ws v = Ok ps /\ Forall component_ok ps.
Proof.
  intros H Hf. apply normalize_Ok in H as (ps & -> & Hps); [|done]. exists ps. split_and!; [|by apply parts_of_virtual|done].
  unfold stage_path. rewrite (path_of_virtual _ Hps). cbn [pt_parts]. rewrite bool_decide_false.
  - destruct (virtual_slash ps) as [r ->]. by destruct r.
  - intros Hd. rewrite Forall_forall in Hps. by destruct (Hps _ Hd) as (_ & _ & ? & _).
Qed.
End program.

(** What the reader asks of a node. *)
Lemma readable_node n : node_ok n -> node_fits n /\ ("" ∉ nd_argv n) /\ is_text (tl_version (nd_tool n)) 512 = true.
Proof.
  intros Hn. pose proof (no_argv _ Hn) as Ha. unfold texts_ok in Ha. rewrite Forall_forall in Ha.
  assert (Ht : forall s, is_text s 4096 = true -> fits s) by (by intros s (_ & _ & ?)%is_text_parts).
  assert (Hopt : forall f, is_optional_text f -> fits_option f) by (intros [v|]; [apply Ht|done]).
  split; [|split; [intros He; by apply Ha in He|apply (no_tool _ Hn)]]. split; [|split; apply Hopt; apply Hn].
  apply Forall_forall. intros i _. unfold at_. destruct (nd_argv n !! Z.to_nat i) as [a|] eqn:E.
  - rewrite (nth_lookup_Some _ _ _ _ E). apply Ht, Ha. by eapply list_elem_of_lookup_2.
  - rewrite nth_overflow; [|by apply lookup_ge_None]. unfold fits. by vm_compute.
Qed.

(** C20. A command line that can be compiled gives a program that passes its own
    validation and is admitted for execution with the same tools and workspace,
    when the paths it names fit the workspace's bound: the compiler and the
    admission check, which classify operands independently, agree. Every declared
    input is a regular file, no declared output exists, and every path argument
    names the same components in the executor's stage as in the workspace. *)
Theorem compiled_program_admitted h o ws d policy source p :
  workspace_ok ws -> construct h o ws d policy source = Ok p -> Forall node_fits (cg_nodes p) ->
  compile h o ws d policy source = Ok p /\ validate_executable h ws p = Ok tt /\
  (forall path, path ∈ cg_declared_inputs p -> exists_as_file ws o d path) /\
  (forall path, path ∈ cg_declared_outputs p -> does_not_exist ws o d path) /\
  (forall n i, n ∈ cg_nodes p -> i ∈ nd_path_indices n ->
    exists ps, stage_path (at_ "" (nd_argv n) i) = Ok ps /\ parts_of ws (at_ "" (nd_argv n) i) = Ok ps /\ Forall component_ok ps).
Proof.
  intros Hws H Hf. assert (Hv := construct_validates _ _ _ _ _ _ _ H). split_and!.
  - unfold compile. by rewrite H; cbn [bind]; rewrite Hv.
  - by eapply construct_executable.
  - apply construct_Ok in H as (R & W & external & Hc). destruct (constructed_sets _ _ _ _ _ _ _ _ _ _ Hc) as (_ & Hin & _).
    rewrite (cp_inputs _ _ _ _ _ _ _ _ _ _ Hc). intros path Hp%elem_of_sorted_set. by apply Hin.
  - apply construct_Ok in H as (R & W & external & Hc). destruct (constructed_sets _ _ _ _ _ _ _ _ _ _ Hc) as (_ & _ & Hout).
    rewrite (cp_outputs _ _ _ _ _ _ _ _ _ _ Hc). intros path Hp%elem_of_sorted_set. by apply Hout.
  - intros n i Hn Hi. apply construct_Ok in H as (R & W & external & Hc). pose proof (cp_built _ _ _ _ _ _ _ _ _ _ Hc) as Hb.
    destruct (built_virtual h ws _ _ _ Hb n i Hn Hi) as [t Ht]. rewrite Forall_forall in Hf. destruct (Hf n Hn) as [Hfp _]. rewrite Forall_forall in Hfp. specialize (Hfp i Hi).
    by eapply virtual_staged.
Qed.

(** C21. A compiled program written as a document is read back as the same program
    exactly when the policy is within its bounds and every command has what the
    reader asks of it: virtual paths within the bound, no empty argument, and a
    version of its tool that is a text (not empty, no NUL, at most 512 bytes). The
    compiler asks none of this: it takes an empty quoted argument, and a tool whose
    report starts with a blank line has an empty version. *)
Theorem compiled_roundtrip h o ws d policy source p :
  workspace_ok ws -> compile h o ws d policy source = Ok p ->
  program_from_dict (program_to_dict p) = Ok p <->
  policy_ok policy /\ Forall (fun n => node_fits n /\ ("" ∉ nd_argv n) /\ is_text (tl_version (nd_tool n)) 512 = true) (cg_nodes p).
Proof.
  intros Hws H. unfold compile in H. destruct (construct _ _ _ _ _ _) as [q|] eqn:E; [|discriminate H]. cbn [bind] in H.
  destruct (validate q) as [[]|] eqn:Hv; [|discriminate H]. apply Ok_inj in H as ->. split.
  - intros Hr. apply program_read in Hr as (Hok & _). split.
    + apply construct_Ok in E as (R & W & external & Hc). rewrite <- (cp_policy _ _ _ _ _ _ _ _ _ _ Hc). apply (pg_policy _ Hok).
    + eapply Forall_impl; [apply (pg_nodes _ Hok)|]. apply readable_node.
  - intros [Hpol Hn]. apply program_written; [|done]. eapply construct_program_ok; [done|exact E|done|..]; (eapply Forall_impl; [exact Hn|]); by intros n (? & ? & ?).
Qed.

(** Whatever the document, reading a program returns or raises ValueError. A
    program that is read is well-formed and validates, its own document is the
    one read up to the order of keys, and reads back as the same program. *)
Theorem program_documents v :
  value_error_only (program_from_dict v) /\
  forall p, program_from_dict v = Ok p -> program_ok p /\ validate p = Ok tt /\ same v (program_to_dict p) = true /\ program_from_dict (program_to_dict p) = Ok p.
Proof.
  split; [apply veo_program|]. intros p H. apply program_read in H as (Hok & Hv & Hs). split_and!; [done..|]. by apply program_written.
Qed.

(** ** Examples and witnesses *)

Definition example_source : string := "cat docs/a.txt | grep h > b && echo done".
Definition example_program : command_program := Eval vm_compute in
  match compile_example example_source with Ok p => p | Err _ => CommandGraphProgram "" "" [] [] [] [] default_policy [] "" end.

Example example_compiled : compile plain_tools quiet_os example_workspace example_disk default_policy example_source = Ok example_program.
Proof. vm_compute. reflexivity. Qed.

(** An operator inside quotes is compiled as the operator. *)
Example quoted_operators :
  map tokens_of ["cat docs/a.txt '|' wc"; "echo a ';' pwd"; "echo a '>' b"] = map tokens_of ["cat docs/a.txt | wc"; "echo a ; pwd"; "echo a > b"] /\
  cg_declared_outputs <$> match compile_example "echo a '>' b" with Ok p => Some p | Err _ => None end = Some ["/b"].
Proof. split; vm_compute; reflexivity. Qed.
(** An empty argument is compiled, and its document refused. *)
Example empty_argument :
  (let* p := compile_example "tr h ''" in program_from_dict (program_to_dict p)) = fail "invalid argv" /\ is_ok (compile_example "tr h ''") = true.
Proof. split; vm_compute; reflexivity. Qed.
(** So is a tool whose report starts with a blank line. *)
Definition blank_tools : tool_host := ToolHost (th_file plain_tools) (fun _ _ => Some ([""; "echo 1.0"], 0)).
Example blank_version :
  let r := compile blank_tools quiet_os example_workspace example_disk default_policy "echo x" in
  (let* p := r in program_from_dict (program_to_dict p)) = fail "invalid version" /\ is_ok r = true.
Proof. split; vm_compute; reflexivity. Qed.
(** After [|||] a command does not wait for what its sibling waits for. *)
Example fanout_waits_for_nothing :
  (let* p := compile_example "mkdir new ; cp docs/a.txt new/b ||| cp docs/a.txt new/c" in Ok (map (fun n => (nd_id n, nd_dependencies n)) (cg_nodes p))) =
  Ok [("node-001-mkdir", []); ("node-002-cp", ["node-001-mkdir"]); ("node-003-cp", [])].
Proof. vm_compute. reflexivity. Qed.
(** Neither [ls] nor [stat] compiles with a directory. *)
Example directory_operand : compile_example "ls docs" = fail "declared input must be a regular file" /\ compile_example "stat docs" = fail "declared input must be a regular file".
Proof. split; vm_compute; reflexivity. Qed.

Lemma example_workspace_ok : workspace_ok example_workspace.
Proof. constructor. Qed.
Lemma example_fits : Forall node_fits (cg_nodes example_program).
Proof. repeat constructor; vm_compute; discriminate. Qed.

Lemma compiled_program_admitted_witness : exists_as_file example_workspace quiet_os example_disk "/docs/a.txt" /\ validate_executable plain_tools example_workspace example_program = Ok tt.
Proof.
  assert (H : construct plain_tools quiet_os example_workspace example_disk default_policy example_source = Ok example_program) by (vm_compute; reflexivity).
  destruct (compiled_program_admitted _ _ _ _ _ _ _ example_workspace_ok H example_fits) as (_ & Hv & Hi & _). split; [apply Hi; left|exact Hv].
Defined.
Lemma compiled_roundtrip_witness : program_from_dict (program_to_dict example_program) = Ok example_program.
Proof.
  apply (compiled_roundtrip plain_tools quiet_os example_workspace example_disk default_policy example_source example_program example_workspace_ok example_compiled). split.
  - split; first [reflexivity | split; vm_compute; discriminate].
  - assert (Ha : Forall (fun n => "" ∉ nd_argv n) (cg_nodes example_program)) by (repeat constructor; apply (bool_decide_unpack _); vm_compute; exact I).
    assert (Hv : Forall (fun n => is_text (tl_version (nd_tool n)) 512 = true) (cg_nodes example_program)) by (repeat constructor).
    rewrite !Forall_and. exact (conj example_fits (conj Ha Hv)).
Defined.
Lemma program_documents_witness : program_from_dict (program_to_dict example_program) = Ok example_program.
Proof.
  assert (H : program_from_dict (program_to_dict example_program) = Ok example_program) by (vm_compute; reflexivity).
  exact (proj2 (proj2 (proj2 (proj2 (program_documents (program_to_dict example_program)) example_program H)))).
Defined.
