(* ===== verification/CommandExec.v ===== *)
(** * Executing command graphs ([raveil/command_graph.py])

    A program runs in a stage, a copy of the workspace: once in source order with
    batches of independent commands, once by the ready nodes of its graph. The
    stage is what the operating system shows of it, by components. Starting a
    process is a parameter: [spawn] gives what the tool prints, its status and the
    stage it leaves; [rewrite] is the rewriting of what [sha256sum], [wc] and
    [uniq -c] print, and [render] the text of an error stream. The threads of a
    pool run its commands in some order, [pick]. Durations are not modelled. *)

From S2P Require Import Prelude PyValue Evidence Array Workspace Sha256 CommandGraph CommandShell.

Definition MAX_STAGE_FILES : Z := 1024.

(** ** Outcomes *)

Record node_outcome := NodeOutcome { oc_node_id : string; oc_status : string; oc_exit_status : Z; oc_stdout_sha256 : string; oc_stderr : string }.
Record execution_outcome := ExecutionOutcome {
  xo_status : string; xo_exit_status : Z; xo_stdout : list Z; xo_stderr : string; xo_outputs : list (string * string);
  xo_nodes : list node_outcome; xo_maximum_concurrency : Z }.

#[export] Instance tool_identity_eq_dec : EqDecision tool_identity.
Proof. solve_decision. Defined.
#[export] Instance command_node_eq_dec : EqDecision command_node.
Proof. solve_decision. Defined.

(** ** The snapshot of a workspace *)

(** [s.lstrip("./")] *)
Fixpoint lstrip_dots (s : string) : string :=
  match s with
  | "" => ""
  | String c r => if (code c =? 46) || (code c =? 47) then lstrip_dots r else s
  end.
(** The manifest key of a path below the root. *)
Definition manifest_key (p : parts) : string := "/" +:+ lstrip_dots (String.concat "/" p).

Record snapshot_state := Snapshot { sn_manifest : gmap string string; sn_total : Z; sn_count : Z; sn_stage : tree }.

(** One directory entry of [_snapshot]'s walk. *)
Definition snapshot_entry (st : snapshot_state) (pe : parts * entry) : res snapshot_state :=
  let '(p, e) := pe in
  match e with
  | EDir => Ok (Snapshot (<[manifest_key p := "directory"]> (sn_manifest st)) (sn_total st) (sn_count st) (<[p := EDir]> (sn_stage st)))
  | EFile data =>
      let total := sn_total st + Z.of_nat (length data) in
      let count := sn_count st + 1 in
      raise_if (MAX_STAGE_BYTES <? total) || (MAX_STAGE_FILES <? count) with "workspace snapshot exceeds bounds" in
      Ok (Snapshot (<[manifest_key p := sha256_hex data]> (sn_manifest st)) total count (<[p := EFile data]> (sn_stage st)))
  | ELink => fail "workspace snapshot rejects symlinks"
  | EOther => fail "workspace snapshot rejects special files"
  end.
(** [_snapshot]; the order of the walk is not the operating system's. *)
Definition snapshot (t : tree) : res (gmap string string * tree) :=
  let* st := foldM snapshot_entry (Snapshot ∅ 0 0 ∅) (map_to_list t) in Ok (sn_manifest st, sn_stage st).

(** ** One command *)

Inductive process := Exited (stdout stderr : list Z) (status : Z) | TimedOut.

Record processes := Processes {
  px_spawn : string -> list string -> list Z -> string -> tree -> process * tree;
  px_rewrite : command_node -> Z -> list Z -> res (list Z);
  px_render : string -> list Z -> string }.

Definition stage_text (root : string) (p : parts) : string := String.concat "/" (root :: p).

(** The arguments passed to the tool. *)
Definition process_argv (root : string) (n : command_node) : res (list string) :=
  let* argv := foldM (fun argv i => let* a := py_index argv i in let* p := stage_path a in Ok (set_at argv i (stage_text root p))) (nd_argv n) (nd_path_indices n) in
  Ok (if String.eqb (tl_adapter (nd_tool n)) "shasum-a-256" then ["-a"; "256"] ++ argv else argv).

Definition read_staged (t : tree) (v : string) : res (list Z) :=
  let* p := stage_path v in
  match t !! p with
  | Some (EFile data) => Ok data
  | Some _ => Err (OSError "Is a directory")
  | None => Err (OSError "No such file or directory")
  end.

(** [path.mkdir(parents=True, exist_ok=True)] *)
Definition make_parents (t : tree) (p : parts) : res tree :=
  foldM (fun t n => let q := take n p in
    match t !! q with
    | None => Ok (<[q := EDir]> t)
    | Some EDir => Ok t
    | Some _ => Err (OSError "File exists")
    end) t (seq 1 (length p)).
(** The output file must be new. *)
Definition prepare_output (t : tree) (f : option string) : res tree :=
  match f with
  | None => Ok t
  | Some v =>
      let* p := stage_path v in
      raise_if is_Some_b (t !! p) with ("output collision: " +:+ v) in
      make_parents t (parent p)
  end.
(** [write_bytes] of a stage path *)
Definition write_staged (t : tree) (p : parts) (data : list Z) : res tree :=
  match t !! p with
  | Some EDir => Err (OSError "Is a directory")
  | _ => Ok (<[p := EFile data]> t)
  end.

(** [_run_node] *)
Definition run_node (h : tool_host) (x : processes) (policy : execution_policy) (root : string) (n : command_node) (t : tree) (stdin : list Z)
    : res (node_outcome * list Z * tree) :=
  let* path := executable h (nd_tool n) in
  let* argv := process_argv root n in
  let* stdin := match nd_stdin_file n with Some v => read_staged t v | None => Ok stdin end in
  let* t := prepare_output t (nd_stdout_file n) in
  let '(process, t) := px_spawn x path argv stdin root t in
  let* ' (stdout, stderr, exit_status, status) :=
    match process with
    | Exited stdout stderr exit_status =>
        raise_if (po_max_capture_bytes policy <? Z.of_nat (length stdout)) || (po_max_capture_bytes policy <? Z.of_nat (length stderr))
        with "tool output exceeds bounds" in
        Ok (stdout, stderr, exit_status, if exit_status =? 0 then "executed" else "failed")
    | TimedOut => Ok ([], ascii_bytes "timeout", 124, "timeout")
    end in
  let* stdout := px_rewrite x n exit_status stdout in
  let* ' (stdout, t) :=
    match nd_stdout_file n with
    | Some v => if String.eqb status "executed" then let* p := stage_path v in let* t := write_staged t p stdout in Ok ([], t) else Ok (stdout, t)
    | None => Ok (stdout, t)
    end in
  Ok (NodeOutcome (nd_id n) status exit_status (sha256_hex stdout) (px_render x root stderr), stdout, t).

(** ** Batches *)

Section executors.
Context (run : command_node -> tree -> list Z -> res (node_outcome * list Z * tree)).
Context (pick : list command_node -> list command_node).

Record exec_state := ExecState { es_outcomes : gmap string node_outcome; es_streams : gmap string (list Z); es_stage : tree }.

Definition skipped (n : command_node) : node_outcome := NodeOutcome (nd_id n) "skipped" 125 (sha256_hex []) "dependency failed".

(** Whether a node is skipped, by the outcomes of its dependencies. *)
Definition is_skipped (outcomes : gmap string node_outcome) (n : command_node) : res bool :=
  let* deps := traverse (fun dep => from_option_err KeyError (outcomes !! dep)) (nd_dependencies n) in
  Ok (bool_decide (nd_dependency_mode n ∈ ["success"; "stream"]) && existsb (fun o => negb (String.eqb (oc_status o) "executed")) deps).

(** The first loop of a batch: skipped nodes are recorded, the others collected. *)
Definition triage (st : gmap string node_outcome * list command_node) (n : command_node) : res (gmap string node_outcome * list command_node) :=
  let* skip := is_skipped st.1 n in
  Ok (if skip then (<[nd_id n := skipped n]> st.1, st.2) else (st.1, st.2 ++ [n])).

(** [streams.get(node.dependencies[-1], b"")], for a stream. *)
Definition stdin_of (streams : gmap string (list Z)) (n : command_node) : res (list Z) :=
  if String.eqb (nd_dependency_mode n) "stream" then
    let* dep := py_index (nd_dependencies n) (-1) in Ok (default [] (streams !! dep))
  else Ok [].

Definition run_one (st : exec_state) (n : command_node) : res exec_state :=
  let* stdin := stdin_of (es_streams st) n in
  let* ' (outcome, stdout, stage) := run n (es_stage st) stdin in
  Ok (ExecState (<[nd_id n := outcome]> (es_outcomes st)) (<[nd_id n := stdout]> (es_streams st)) stage).

(** A batch, with the number of commands given to the pool. *)
Definition run_batch (st : exec_state) (batch : list command_node) : res (exec_state * Z) :=
  let* ' (outcomes, runnable) := foldM triage (es_outcomes st, []) batch in
  let* st := foldM run_one (ExecState outcomes (es_streams st) (es_stage st)) (pick runnable) in
  Ok (st, Z.of_nat (length runnable)).

Definition independent_node (n : command_node) : bool := bool_decide (nd_dependencies n = []).
(** The commands after a node without dependencies that have none either. *)
Fixpoint leading_independent (ns : list command_node) : list command_node :=
  match ns with n :: rest => if independent_node n then n :: leading_independent rest else [] | [] => [] end.

(** The loop of [DirectCommandExecutor.execute]. *)
Fixpoint direct_loop (fuel : nat) (cap : Z) (st : exec_state) (maximum : Z) (ns : list command_node) : res (exec_state * Z) :=
  match ns with
  | [] => Ok (st, maximum)
  | n :: rest =>
      match fuel with
      | O => Err OutOfFuel
      | S fuel =>
          let batch := n :: (if independent_node n then leading_independent rest else []) in
          let* ' (st, count) := run_batch st batch in
          direct_loop fuel cap st (Z.max maximum (Z.min count cap)) (drop (length batch) ns)
      end
  end.

(** The loop of [CommandGraphExecutor.execute]. *)
Fixpoint graph_loop (fuel : nat) (cap : Z) (st : exec_state) (maximum : Z) (pending : list command_node) : res (exec_state * Z) :=
  match pending with
  | [] => Ok (st, maximum)
  | _ =>
      match fuel with
      | O => Err OutOfFuel
      | S fuel =>
          let ready := List.filter (fun n => forallb (fun dep => is_Some_b (es_outcomes st !! dep)) (nd_dependencies n)) pending in
          raise_if bool_decide (ready = []) with "command graph made no progress" in
          let* ' (st, count) := run_batch st ready in
          graph_loop fuel cap st (Z.max maximum (Z.min count cap)) (List.filter (fun n => negb (bool_decide (n ∈ ready))) pending)
      end
  end.

(** ** The verdict on an execution *)

(** [after], of the paths below the stage that are directories or files. *)
Definition stage_digests (t : tree) : gmap string string :=
  list_to_map (omap (fun pe : parts * entry => match pe.2 with
    | EDir => Some (virtual pe.1, "directory")
    | EFile data => Some (virtual pe.1, sha256_hex data)
    | _ => None
    end) (map_to_list t)).
Definition has_special (t : tree) : bool :=
  existsb (fun pe : parts * entry => match pe.2 with ELink | EOther => true | _ => false end) (map_to_list t).
(** The paths the program may change. *)
Definition allowed_paths (p : command_program) : list string := cg_declared_outputs p ++ concat (map nd_declared_writes (cg_nodes p)).

(** Whether [unexpected] is not empty. *)
Definition unexpected (p : command_program) (initial : gmap string string) (t : tree) : bool :=
  let after := stage_digests t in
  has_special t ||
  existsb (fun pd : string * string => negb (bool_decide (initial !! pd.1 = Some pd.2)) && negb (bool_decide (pd.1 ∈ allowed_paths p))) (map_to_list after) ||
  existsb (fun pd : string * string => negb (is_Some_b (after !! pd.1)) && negb (bool_decide (pd.1 ∈ allowed_paths p))) (map_to_list initial).

Definition terminal_ids (p : command_program) : list string :=
  List.filter (fun id => negb (existsb (fun e => String.eqb (ed_source e) id) (cg_edges p))) (map nd_id (cg_nodes p)).

(** [_finish] *)
Definition finish (p : command_program) (t : tree) (initial : gmap string string) (outcomes : list node_outcome) (terminal : gmap string (list Z))
    (maximum : Z) : execution_outcome :=
  let after := stage_digests t in
  let output_hashes := omap (fun path => (fun h => (path, h)) <$> after !! path) (cg_declared_outputs p) in
  let '(status, exit_status, stderr) :=
    match List.find (fun o => negb (String.eqb (oc_status o) "executed")) outcomes with
    | Some failed => (oc_status failed, oc_exit_status failed, oc_stderr failed)
    | None => ("executed", 0, "")
    end in
  let '(status, exit_status, stderr) :=
    if unexpected p initial t || negb (length output_hashes =? length (cg_declared_outputs p))%nat
    then ("invalid-mutation", 125, "undeclared or missing output mutation") else (status, exit_status, stderr) in
  ExecutionOutcome status exit_status (concat (map (fun id => default [] (terminal !! id)) (terminal_ids p))) stderr output_hashes outcomes maximum.

Definition ordered_outcomes (p : command_program) (st : exec_state) : res (list node_outcome) :=
  traverse (fun n => from_option_err KeyError (es_outcomes st !! nd_id n)) (cg_nodes p).

(** The two [execute] methods, with the stage they leave. *)
Definition direct_execute (p : command_program) (stage : tree) (initial : gmap string string) : res (execution_outcome * tree) :=
  let* ' (st, maximum) := direct_loop (length (cg_nodes p)) (po_max_parallel (cg_policy p)) (ExecState ∅ ∅ stage) 1 (cg_nodes p) in
  let* ordered := ordered_outcomes p st in
  Ok (finish p (es_stage st) initial ordered (es_streams st) (Z.max 1 maximum), es_stage st).
Definition graph_execute (p : command_program) (stage : tree) (initial : gmap string string) : res (execution_outcome * tree) :=
  let* ' (st, maximum) := graph_loop (length (cg_nodes p)) (po_max_parallel (cg_policy p)) (ExecState ∅ ∅ stage) 0 (cg_nodes p) in
  let* ordered := ordered_outcomes p st in
  Ok (finish p (es_stage st) initial ordered (es_streams st) (Z.max 1 maximum), es_stage st).
End executors.

(** ** Comparison and publication *)

(** [_differences] *)
Definition differences (direct graph : execution_outcome) : list string :=
  (if bool_decide (xo_stdout direct = xo_stdout graph) then [] else ["stdout"]) ++
  (if String.eqb (xo_stderr direct) (xo_stderr graph) then [] else ["stderr"]) ++
  (if (xo_exit_status direct =? xo_exit_status graph) && String.eqb (xo_status direct) (xo_status graph) then [] else ["status"]) ++
  (if bool_decide (xo_outputs direct = xo_outputs graph) then [] else ["outputs"]).

Record graph_result := CommandGraphResult {
  gr_graph_id : string; gr_semantic_valid : bool; gr_committed : bool; gr_direct : execution_outcome; gr_graph : execution_outcome;
  gr_differences : list string }.

(** The entries published from a stage. *)
Definition staged_entries (t : tree) (outputs : list string) : res (list (string * option (list Z))) :=
  traverse (fun v =>
    let* p := stage_path v in
    match t !! p with
    | Some EDir => Ok (v, None)
    | _ => let* data := read_staged t v in Ok (v, Some data)
    end) outputs.

Section comparison.
Context (h : tool_host) (x : processes) (direct_pick graph_pick : list command_node -> list command_node) (o : os) (ws : workspace).
(** The host paths of the two stages. *)
Context (direct_root graph_root : string).

Definition run_direct (p : command_program) : tree -> gmap string string -> res (execution_outcome * tree) :=
  direct_execute (run_node h x (cg_policy p) direct_root) direct_pick p.
Definition run_graph (p : command_program) : tree -> gmap string string -> res (execution_outcome * tree) :=
  graph_execute (run_node h x (cg_policy p) graph_root) graph_pick p.

(** [CommandComparison.execute] before publication: the result, and the graph's stage. *)
Definition compare_runs (d : disk) (p : command_program) (order : string) : res (execution_outcome * execution_outcome * tree) :=
  let* _ := validate p in
  let* _ := validate_executable h ws p in
  raise_if negb (bool_decide (order ∈ ["direct-first"; "graph-first"])) with "invalid comparison order" in
  let* ' (initial_direct, direct_stage) := snapshot (dk_tree d) in
  let* ' (initial_graph, graph_stage) := snapshot (dk_tree d) in
  if String.eqb order "direct-first" then
    let* ' (direct, _) := run_direct p direct_stage initial_direct in
    let* ' (graph, stage) := run_graph p graph_stage initial_graph in
    Ok (direct, graph, stage)
  else
    let* ' (graph, stage) := run_graph p graph_stage initial_graph in
    let* ' (direct, _) := run_direct p direct_stage initial_direct in
    Ok (direct, graph, stage).

Definition semantic_valid (direct graph : execution_outcome) : bool :=
  bool_decide (differences direct graph = []) && String.eqb (xo_status direct) "executed" && String.eqb (xo_status graph) "executed".

(** [CommandComparison.execute]: the disk after it, and its result. *)
Definition comparison_execute (d : disk) (p : command_program) (publish : bool) (order : string) : disk * res graph_result :=
  match compare_runs d p order with
  | Err e => (d, Err e)
  | Ok (direct, graph, stage) =>
      let valid := semantic_valid direct graph in
      let result committed := CommandGraphResult (cg_graph_id p) valid committed direct graph (differences direct graph) in
      if valid && publish then
        match staged_entries stage (cg_declared_outputs p) with
        | Err e => (d, Err e)
        | Ok entries =>
            match publish_many o ws d entries MAX_STAGE_BYTES with
            | (d', Ok _) => (d', Ok (result true))
            | (d', Err e) => (d', Err e)
            end
        end
      else (d, Ok (result false))
  end.

(** [CommandComparison.direct] *)
Definition comparison_direct (d : disk) (p : command_program) (publish : bool) : disk * res execution_outcome :=
  match (let* _ := validate p in
         let* _ := validate_executable h ws p in
         let* ' (initial, stage) := snapshot (dk_tree d) in
         run_direct p stage initial) with
  | Err e => (d, Err e)
  | Ok (outcome, stage) =>
      if String.eqb (xo_status outcome) "executed" && publish then
        match staged_entries stage (cg_declared_outputs p) with
        | Err e => (d, Err e)
        | Ok entries =>
            match publish_many o ws d entries MAX_STAGE_BYTES with
            | (d', Ok _) => (d', Ok outcome)
            | (d', Err e) => (d', Err e)
            end
        end
      else (d, Ok outcome)
  end.
End comparison.

(** ** An example host *)

(** [cp], [mkdir], [cat], [uniq] of distinct lines, [echo] and [pwd], as far as the
    examples use them. *)
Definition example_spawn (path : string) (argv : list string) (stdin : list Z) (root : string) (t : tree) : process * tree :=
  let staged a := (path_of (String.substring (String.length root) (String.length a) a)).(pt_parts) in
  match path, argv with
  | "/usr/bin/cp", [a; b] =>
      match t !! staged a, t !! parent (staged b) with
      | Some (EFile data), Some EDir => (Exited [] [] 0, <[staged b := EFile data]> t)
      | Some (EFile data), None => if bool_decide (parent (staged b) = []) then (Exited [] [] 0, <[staged b := EFile data]> t) else (Exited [] [1] 1, t)
      | _, _ => (Exited [] [1] 1, t)
      end
  | "/usr/bin/mkdir", [a] => (Exited [] [] 0, <[staged a := EDir]> t)
  | "/usr/bin/cat", [a] => match t !! staged a with Some (EFile data) => (Exited data [] 0, t) | _ => (Exited [] [1] 1, t) end
  | "/usr/bin/uniq", [] => (Exited stdin [] 0, t)
  | "/usr/bin/echo", words => (Exited (ascii_bytes (String.concat " " words)) [] 0, t)
  | "/usr/bin/pwd", [] => (Exited (ascii_bytes root) [] 0, t)
  | _, _ => (Exited [] [] 0, t)
  end.
Definition example_processes : processes := Processes example_spawn (fun _ _ s => Ok s) (fun _ b => if bool_decide (b = []) then "" else "error").
Definition clean_disk : disk := Disk (Some (EDir, (1, 2))) (<[["docs"] := EDir]> (<[["docs"; "a.txt"] := EFile [104; 105]]> ∅)).
(** Compiled and compared with publication; both pools run in the order [pick]. *)
Definition compare_example (pick : list command_node -> list command_node) (d : disk) (source : string) : disk * res graph_result :=
  match compile plain_tools quiet_os example_workspace d default_policy source with
  | Err e => (d, Err e)
  | Ok p => comparison_execute plain_tools example_processes pick pick quiet_os example_workspace "/tmp/x/direct" "/tmp/x/graph" d p true "direct-first"
  end.
Definition verdict (r : disk * res graph_result) : res (bool * bool * list string * string * string) :=
  let* g := r.2 in Ok (gr_semantic_valid g, gr_committed g, gr_differences g, xo_status (gr_direct g), xo_status (gr_graph g)).
