(* ===== verification/CommandExecFacts.v ===== *)
(** * Executing command graphs: schedules

    [step] runs one node, or records that it is skipped. A batch is some order of
    steps; both executors are steps in an order that respects the dependencies;
    and such orders give the same state when independent commands commute. *)

From S2P Require Import Prelude PyValue Evidence Array Workspace Sha256 CommandGraph CommandShell CommandExec.

Section schedules.
Context (run : command_node -> tree -> list Z -> res (node_outcome * list Z * tree)).

Definition step (st : exec_state) (n : command_node) : res exec_state :=
  let* skip := is_skipped (es_outcomes st) n in
  if skip then Ok (ExecState (<[nd_id n := skipped n]> (es_outcomes st)) (es_streams st) (es_stage st)) else run_one run st n.
Definition steps (st : exec_state) (l : list command_node) : res exec_state := foldM step st l.

Abbreviation done_ids st := (dom (es_outcomes st)).

(** The dependencies of a node are among [D]. *)
Definition known (D : gset string) (n : command_node) : Prop := forall dep, dep ∈ nd_dependencies n -> dep ∈ D.
(** Every node comes after its dependencies. *)
Fixpoint ordered_from (D : gset string) (l : list command_node) : Prop :=
  match l with [] => True | n :: l => known D n /\ ordered_from (D ∪ {[nd_id n]}) l end.

Lemma ordered_mono D E l : D ⊆ E -> ordered_from D l -> ordered_from E l.
Proof.
  revert D E. induction l as [|n l IH]; intros D E HDE; [done|]. intros [Hk Ho]. split; [by intros dep Hd; apply HDE, Hk|].
  eapply IH; [|exact Ho]. by apply union_mono_r.
Qed.
Lemma ordered_app D l m : ordered_from D (l ++ m) <-> ordered_from D l /\ ordered_from (D ∪ list_to_set (map nd_id l)) m.
Proof.
  revert D. induction l as [|n l IH]; intros D; cbn; [rewrite (right_id_L ∅ (∪)); tauto|]. rewrite IH, (assoc_L (∪)). tauto.
Qed.
Lemma known_ordered D l : Forall (known D) l -> ordered_from D l.
Proof.
  intros H. assert (Hg : forall E, D ⊆ E -> ordered_from E l); [|by apply Hg]. induction H as [|n l Hn _ IH]; intros E HE; [done|].
  split; [by intros dep Hd; apply HE, Hn|]. apply IH. by apply union_subseteq_l'.
Qed.

(** ** What a step reads *)

Definition agree_on (deps : list string) (st st' : exec_state) : Prop :=
  forall dep, dep ∈ deps -> es_outcomes st !! dep = es_outcomes st' !! dep /\ es_streams st !! dep = es_streams st' !! dep.

Lemma is_skipped_agree o o' n : (forall dep, dep ∈ nd_dependencies n -> o !! dep = o' !! dep) -> is_skipped o n = is_skipped o' n.
Proof. intros H. unfold is_skipped. rewrite (traverse_ext _ (fun dep => from_option_err KeyError (o' !! dep))); [done|]. intros dep Hd. by rewrite H. Qed.
Lemma stdin_agree s s' n : (forall dep, dep ∈ nd_dependencies n -> s !! dep = s' !! dep) -> stdin_of s n = stdin_of s' n.
Proof.
  intros H. unfold stdin_of. destruct (String.eqb _ _); [|done]. destruct (py_index _ _) as [dep|] eqn:E; [|done]. cbn. rewrite H; [done|].
  unfold py_index in E. case_bool_decide; [lia|]. case_bool_decide; [|discriminate E]. destruct (_ !! _) eqn:E2; [|discriminate E]. injection E as <-. by eapply list_elem_of_lookup_2.
Qed.
Lemma is_skipped_known o n : known (dom o) n -> exists b, is_skipped o n = Ok b.
Proof.
  intros H. unfold is_skipped. assert (Ht : exists l, traverse (fun dep => from_option_err KeyError (o !! dep)) (nd_dependencies n) = Ok l).
  { unfold known in H. induction (nd_dependencies n) as [|d l IH]; [by exists []|]. cbn. destruct (proj1 (elem_of_dom o d) (H d (list_elem_of_here _ _))) as [x ->]. cbn.
    destruct IH as [ys ->]; [intros; apply H; by right|]. by eexists. }
  destruct Ht as [l ->]. by eexists.
Qed.

Lemma step_dom st n st' : step st n = Ok st' -> done_ids st' = done_ids st ∪ {[nd_id n]}.
Proof.
  intros H. unfold step in H. destruct (is_skipped _ _) as [[]|]; [| |discriminate H]; cbn [bind] in H.
  - apply Ok_inj in H as <-. cbn. rewrite dom_insert_L. by rewrite (comm_L (∪)).
  - unfold run_one in H. destruct (stdin_of _ _); [|discriminate H]. cbn [bind] in H. destruct (run _ _ _) as [[[oc out] t]|]; [|discriminate H]. apply Ok_inj in H as <-.
    cbn. rewrite dom_insert_L. by rewrite (comm_L (∪)).
Qed.

(** A node that reads a stream has a dependency. *)
Definition stream_ok (n : command_node) : Prop := nd_dependency_mode n = "stream" -> nd_dependencies n <> [].
Lemma stdin_ok s n : stream_ok n -> exists b, stdin_of s n = Ok b.
Proof.
  intros H. unfold stdin_of. destruct (String.eqb_spec (nd_dependency_mode n) "stream") as [E|]; [|by eexists]. specialize (H E).
  destruct (last (nd_dependencies n)) as [d|] eqn:El; [|by apply last_None in El]. apply last_Some in El as [l ->].
  exists (default [] (s !! d)). unfold py_index. rewrite length_app. cbn [length]. rewrite bool_decide_false by lia. rewrite bool_decide_true by lia.
  replace (Z.to_nat (Z.of_nat (length l + 1) + -1)) with (length l) by lia. by rewrite list_lookup_middle.
Qed.

(** ** Exchanging two steps *)

(** Two commands that return in one order return in the other, with the same
    results and stage. *)
Definition commute (n m : command_node) : Prop := forall t sn sm r,
  (let* ' (a, x, t) := run n t sn in let* ' (b, y, t) := run m t sm in Ok (a, x, b, y, t)) = Ok r <->
  (let* ' (b, y, t) := run m t sm in let* ' (a, x, t) := run n t sn in Ok (a, x, b, y, t)) = Ok r.

Lemma step_swap st n m st' : commute n m -> stream_ok n -> stream_ok m -> nd_id n <> nd_id m -> (nd_id n ∉ nd_dependencies m) -> (nd_id m ∉ nd_dependencies n) ->
  known (done_ids st) n -> known (done_ids st) m -> (let* s := step st n in step s m) = Ok st' -> (let* s := step st m in step s n) = Ok st'.
Proof.
  intros Hc Hsn Hsm Hne Hnm Hmn Hkn Hkm.
  assert (Hs : forall a b (o : gmap string node_outcome) v, nd_id b ∉ nd_dependencies a -> is_skipped (<[nd_id b := v]> o) a = is_skipped o a).
  { intros a b o v Hb. apply is_skipped_agree. intros dep Hd. apply lookup_insert_ne. by intros <-. }
  assert (Hi : forall a b (s : gmap string (list Z)) v, nd_id b ∉ nd_dependencies a -> stdin_of (<[nd_id b := v]> s) a = stdin_of s a).
  { intros a b s v Hb. apply stdin_agree. intros dep Hd. apply lookup_insert_ne. by intros <-. }
  destruct (is_skipped_known _ _ Hkn) as [bn Hbn]. destruct (is_skipped_known _ _ Hkm) as [bm Hbm].
  unfold step. rewrite Hbn, Hbm. cbn [bind]. destruct bn, bm; cbn [bind es_outcomes].
  - rewrite !Hs, Hbn, Hbm by done. cbn. by rewrite insert_insert_ne.
  - rewrite Hs, Hbm by done. cbn [bind]. unfold run_one. cbn [es_streams es_stage es_outcomes]. destruct (stdin_of _ m); [|done]. cbn [bind].
    destruct (run m _ _) as [[[oc out] t]|]; [|done]. cbn [bind es_outcomes]. rewrite Hs, Hbn by done. cbn. by rewrite insert_insert_ne.
  - unfold run_one. cbn [es_streams es_stage es_outcomes]. rewrite Hs, Hbn by done. cbn [bind es_outcomes es_streams es_stage]. destruct (stdin_of _ n); [|done]. cbn [bind].
    destruct (run n _ _) as [[[oc out] t]|]; [|done]. cbn [bind es_outcomes]. rewrite Hs, Hbm by done. cbn. by rewrite insert_insert_ne.
  - unfold run_one. destruct (stdin_ok (es_streams st) n Hsn) as [sn En]. destruct (stdin_ok (es_streams st) m Hsm) as [sm Em]. rewrite En, Em. cbn [bind].
    specialize (Hc (es_stage st) sn sm). intros H.
    destruct (run n (es_stage st) sn) as [[[a x] t1]|e1]; [|discriminate H]. cbn [bind es_outcomes es_streams es_stage] in *. rewrite Hs, Hbm in H by done. cbn [bind] in H.
    rewrite Hi, Em in H by done. cbn [bind] in H. destruct (run m t1 sm) as [[[b y] t2]|e2]; [|discriminate H]. cbn [bind] in *. apply Ok_inj in H as <-.
    destruct (Hc (a, x, b, y, t2)) as [Hc' _]. specialize (Hc' eq_refl). destruct (run m (es_stage st) sm) as [[[b' y'] t3]|e3]; [|discriminate Hc']. cbn [bind es_outcomes es_streams es_stage] in *.
    rewrite Hs, Hbn by done. cbn [bind]. rewrite Hi, En by done. cbn [bind]. destruct (run n t3 sn) as [[[a' x'] t4]|e4]; [|discriminate Hc']. cbn [bind] in *. apply Ok_inj in Hc'. injection Hc' as -> -> -> -> ->.
    do 2 f_equal; by rewrite insert_insert_ne.
Qed.

(** ** Orders of the same nodes *)

Section program.
Context (nodes : list command_node) (Hids : NoDup (map nd_id nodes)) (Hstream : Forall stream_ok nodes).

Definition depends (n m : command_node) : Prop := n ∈ nodes /\ m ∈ nodes /\ nd_id m ∈ nd_dependencies n.
(** Neither waits for the other, directly or not. *)
Definition independent (n m : command_node) : Prop := n <> m /\ ~ tc depends n m /\ ~ tc depends m n.
Context (Hcommute : forall n m, n ∈ nodes -> m ∈ nodes -> independent n m -> commute n m).

(** The dependencies of the nodes in [D] are in [D]. *)
Definition closed (D : gset string) : Prop := forall n, n ∈ nodes -> nd_id n ∈ D -> known D n.

Lemma closed_tc D n m : closed D -> known D n -> tc depends n m -> nd_id m ∈ D.
Proof. intros HD Hk H. induction H as [n m (_ & _ & Hd)|n k m (_ & Hin & Hd) _ IH]; [by apply Hk|]. apply IH, HD; [done|by apply Hk]. Qed.
Lemma ids_inj n m : n ∈ nodes -> m ∈ nodes -> nd_id n = nd_id m -> n = m.
Proof.
  intros Hn Hm E. apply list_elem_of_lookup in Hn as [i Hi]. apply list_elem_of_lookup in Hm as [j Hj].
  assert (i = j) as ->; [|congruence]. apply (NoDup_lookup (map nd_id nodes) i j (nd_id n)); [done| |]; rewrite list_lookup_fmap; [by rewrite Hi|by rewrite Hj; cbn; rewrite E].
Qed.
Lemma closed_add D n : n ∈ nodes -> closed D -> known D n -> closed (D ∪ {[nd_id n]}).
Proof.
  intros Hn HD Hk m Hm Hin dep Hd. apply elem_of_union. left. apply elem_of_union in Hin as [Hin|E%elem_of_singleton]; [by apply (HD m)|].
  assert (m = n) as -> by (by apply ids_inj). by apply Hk.
Qed.

(** A node whose dependencies are done goes first. *)
Lemma step_first n a b st st' : n ∈ nodes -> Forall (fun m => m ∈ nodes) a -> closed (done_ids st) -> known (done_ids st) n -> (nd_id n ∉ done_ids st) ->
  NoDup (map nd_id (a ++ n :: b)) -> Forall (fun m => nd_id m ∉ done_ids st) a -> ordered_from (done_ids st) a ->
  steps st (n :: a ++ b) = Ok st' -> steps st (a ++ n :: b) = Ok st'.
Proof.
  revert st. induction a as [|x a IH]; intros st Hn Ha HD Hk Hnd Hnodup Hfresh Ho; [done|].
  apply Forall_cons in Ha as [Hx Ha]. apply Forall_cons in Hfresh as [Hxd Hfresh]. destruct Ho as [Hkx Ho]. cbn [app map] in Hnodup. apply NoDup_cons in Hnodup as [Hxn Hnodup].
  assert (Hne : nd_id x <> nd_id n) by (intros E; apply Hxn; rewrite map_app, elem_of_app; right; cbn; rewrite E; left).
  assert (Hswap : forall s', (let* s := step st n in step s x) = Ok s' -> (let* s := step st x in step s n) = Ok s').
  { intros s'. apply step_swap; [|exact (proj1 (Forall_forall _ _) Hstream n Hn)|exact (proj1 (Forall_forall _ _) Hstream x Hx)|by apply not_eq_sym|..|done|done].
    - apply Hcommute; [done|done|]. split_and!; [by intros ->| |]; intros Ht; [apply Hxd|apply Hnd]; (eapply closed_tc; [done| |exact Ht]; done).
    - intros Hc. by apply Hnd, Hkx.
    - intros Hc. by apply Hxd, Hk. }
  cbn [app]. unfold steps. cbn [foldM]. intros H.
  destruct (step st n) as [s1|] eqn:E1; [|discriminate H]. cbn [bind] in *. destruct (step s1 x) as [s2|] eqn:E2; [|discriminate H]. cbn [bind] in *.
  specialize (Hswap s2 eq_refl). destruct (step st x) as [s|] eqn:Es; [|discriminate Hswap]. cbn [bind] in *. apply step_dom in Es.
  change (steps s (a ++ n :: b) = Ok st'). apply IH; rewrite ?Es; try done.
  - by apply closed_add.
  - intros dep Hd. apply elem_of_union. left. by apply Hk.
  - rewrite not_elem_of_union, not_elem_of_singleton. by split.
  - rewrite Forall_forall in *. intros m Hm. rewrite not_elem_of_union, not_elem_of_singleton. split; [by apply Hfresh|]. intros E. apply Hxn. rewrite <- E, map_app, elem_of_app. left.
    apply list_elem_of_fmap. by exists m.
  - unfold steps. cbn [foldM]. by rewrite Hswap.
Qed.

(** Two orders that respect the dependencies give the same state, when the first one returns. *)
Lemma steps_permutation l1 l2 st st' : l1 ≡ₚ l2 -> Forall (fun m => m ∈ nodes) l1 -> NoDup (map nd_id l1) -> Forall (fun m => nd_id m ∉ done_ids st) l1 ->
  closed (done_ids st) -> ordered_from (done_ids st) l1 -> ordered_from (done_ids st) l2 -> steps st l1 = Ok st' -> steps st l2 = Ok st'.
Proof.
  revert l2 st. induction l1 as [|n l1 IH]; intros l2 st Hp Hin Hnd Hfresh HD H1 H2 Hsteps; [by apply Permutation_nil_l in Hp as <-|].
  assert (Hn2 : n ∈ l2) by (rewrite <- Hp; left). apply list_elem_of_split in Hn2 as (a & b & ->). pose proof Hp as Hp'. apply Permutation_cons_app_inv in Hp'.
  apply Forall_cons in Hin as [Hn Hin]. apply Forall_cons in Hfresh as [Hnf Hfresh]. destruct H1 as [Hk H1]. cbn [map] in Hnd. apply NoDup_cons in Hnd as [Hnn Hnd].
  apply ordered_app in H2 as [Ha Hb]. cbn [ordered_from] in Hb. destruct Hb as [_ Hb].
  apply (step_first n a b st); [done| |done|done|done| | |done|].
  4: { unfold steps in *. cbn [foldM] in *. destruct (step st n) as [s|] eqn:Es; [|done]. cbn [bind] in *. apply step_dom in Es. change (steps s (a ++ b) = Ok st'). apply IH; rewrite ?Es; try done.
    + rewrite Forall_forall in *. intros m Hm. rewrite not_elem_of_union, not_elem_of_singleton. split; [by apply Hfresh|]. intros E. apply Hnn. rewrite <- E. apply list_elem_of_fmap. by exists m.
    + by apply closed_add.
    + apply ordered_app. split; [eapply ordered_mono; [|exact Ha]; by apply union_subseteq_l|]. eapply ordered_mono; [|exact Hb]. by rewrite <- !(assoc_L (∪)), (comm_L (∪) (list_to_set _)). }
  - rewrite Forall_forall in *. intros m Hm. apply Hin. rewrite Hp'. apply elem_of_app. by left.
  - rewrite <- Hp. cbn. by constructor.
  - rewrite Forall_forall in *. intros m Hm. apply Hfresh. rewrite Hp'. apply elem_of_app. by left.
Qed.
End program.

(** ** Batches are steps *)

Lemma steps_ok_dom st l st' : steps st l = Ok st' -> done_ids st' = done_ids st ∪ list_to_set (map nd_id l).
Proof.
  revert st. induction l as [|n l IH]; intros st H; [apply Ok_inj in H as <-; cbn; by rewrite (right_id_L ∅ (∪))|]. unfold steps in H. cbn [foldM] in H.
  destruct (step st n) as [s|] eqn:E; [|discriminate H]. apply step_dom in E. rewrite (IH s H), E. cbn. by rewrite (assoc_L (∪)).
Qed.

(** The skipped nodes of a batch whose dependencies are done, and the others. *)
Definition skips (o : gmap string node_outcome) (n : command_node) : bool := match is_skipped o n with Ok b => b | Err _ => false end.
Definition record_skips (o : gmap string node_outcome) (l : list command_node) : gmap string node_outcome := foldl (fun o n => <[nd_id n := skipped n]> o) o l.

(** Outcomes of the nodes of a batch are not outcomes its nodes wait for. *)
Definition apart (l : list command_node) (n : command_node) : Prop := forall m, m ∈ l -> nd_id m ∉ nd_dependencies n.

Lemma record_skips_lookup o l dep : (forall m, m ∈ l -> nd_id m <> dep) -> record_skips o l !! dep = o !! dep.
Proof.
  revert o. induction l as [|m l IH]; intros o H; [done|]. cbn. change (foldl _ _ l) with (record_skips (<[nd_id m := skipped m]> o) l).
  rewrite IH by (intros; apply H; by right). apply lookup_insert_ne, H. left.
Qed.
Lemma triage_all o0 o acc l : (forall n, n ∈ l -> is_skipped o n = Ok (skips o0 n) /\ apart l n) ->
  foldM triage (o, acc) l = Ok (record_skips o (List.filter (skips o0) l), acc ++ List.filter (fun n => negb (skips o0 n)) l).
Proof.
  revert o acc. induction l as [|n l IH]; intros o acc H; [by rewrite app_nil_r|]. cbn [foldM List.filter]. unfold triage at 1. cbn [fst snd].
  destruct (H n (list_elem_of_here _ _)) as [Hn Ha]. rewrite Hn. cbn [bind].
  assert (Hrest : forall o', (forall m, m ∈ l -> is_skipped o' m = is_skipped o m) -> forall m, m ∈ l -> is_skipped o' m = Ok (skips o0 m) /\ apart l m).
  { intros o' Ho' m Hm. destruct (H m) as [Hm1 Hm2]; [by right|]. split; [by rewrite Ho'|]. intros k Hk. apply Hm2. by right. }
  destruct (skips o0 n); cbn [negb].
  - rewrite IH; [done|]. apply Hrest. intros m Hm. apply is_skipped_agree. intros dep Hd. apply lookup_insert_ne. destruct (H m) as [_ Hm2]; [by right|].
    intros E. apply (Hm2 n); [left|]. by rewrite E.
  - rewrite IH by (by apply Hrest). cbn. by rewrite <- (assoc_L (++)).
Qed.

Context (pick : list command_node -> list command_node) (Hpick : forall l, pick l ≡ₚ l).

Lemma steps_skipped st l : (forall n, n ∈ l -> is_skipped (es_outcomes st) n = Ok true /\ apart l n) ->
  steps st l = Ok (ExecState (record_skips (es_outcomes st) l) (es_streams st) (es_stage st)).
Proof.
  revert st. induction l as [|n l IH]; intros st H; [by destruct st|]. unfold steps. cbn [foldM]. unfold step at 1.
  destruct (H n (list_elem_of_here _ _)) as [Hn _]. rewrite Hn. cbn [bind]. change (foldM step ?s l) with (steps s l). rewrite IH; [done|]. cbn [es_outcomes].
  intros m Hm. destruct (H m) as [Hm1 Hm2]; [by right|]. split; [|intros k Hk; apply Hm2; by right]. rewrite <- Hm1. apply is_skipped_agree. intros dep Hd.
  apply lookup_insert_ne. intros E. apply (Hm2 n); [left|]. by rewrite E.
Qed.
Lemma steps_run st l : (forall n, n ∈ l -> is_skipped (es_outcomes st) n = Ok false /\ apart l n) -> steps st l = foldM (run_one run) st l.
Proof.
  revert st. induction l as [|n l IH]; intros st H; [done|]. unfold steps. cbn [foldM]. unfold step at 1. destruct (H n (list_elem_of_here _ _)) as [Hn _]. rewrite Hn. cbn [bind].
  destruct (run_one run st n) as [s|] eqn:E; [|done]. cbn [bind]. apply IH. intros m Hm. destruct (H m) as [Hm1 Hm2]; [by right|]. split; [|intros k Hk; apply Hm2; by right].
  rewrite <- Hm1. apply is_skipped_agree. intros dep Hd. unfold run_one in E. destruct (stdin_of _ _); [|discriminate E]. cbn [bind] in E. destruct (run n _ _) as [[[oc out] t]|]; [|discriminate E].
  apply Ok_inj in E as <-. cbn. apply lookup_insert_ne. intros Ed. apply (Hm2 n); [left|]. by rewrite Ed.
Qed.

Lemma run_batch_steps st batch : Forall (known (done_ids st)) batch -> Forall (fun n => nd_id n ∉ done_ids st) batch ->
  exists order count, order ≡ₚ batch /\ run_batch run pick st batch = let* st := steps st order in Ok (st, count).
Proof.
  intros Hk Hf. rewrite Forall_forall in Hk, Hf.
  assert (Hapart : forall l n, (forall m, m ∈ l -> m ∈ batch) -> n ∈ batch -> apart l n) by (intros l n Hl Hn m Hm Hc; by apply (Hf m (Hl m Hm)), (Hk n Hn)).
  assert (Hs : forall n, n ∈ batch -> is_skipped (es_outcomes st) n = Ok (skips (es_outcomes st) n)).
  { intros n Hn. unfold skips. destruct (is_skipped_known _ _ (Hk n Hn)) as [b ->]. done. }
  set (sk := List.filter (skips (es_outcomes st)) batch). set (rn := List.filter (fun n => negb (skips (es_outcomes st) n)) batch).
  assert (Hsk : forall n, n ∈ sk -> n ∈ batch /\ skips (es_outcomes st) n = true) by (intros n [Hn ?]%list_elem_of_In%filter_In; by apply list_elem_of_In in Hn).
  assert (Hrn : forall n, n ∈ rn -> n ∈ batch /\ skips (es_outcomes st) n = false) by (intros n [Hn ?%negb_true_iff]%list_elem_of_In%filter_In; by apply list_elem_of_In in Hn).
  exists (sk ++ pick rn), (Z.of_nat (length rn)). split.
  - rewrite Hpick. unfold sk, rn. clear. induction batch as [|n l IH]; [done|]. cbn. destruct (skips _ n); cbn; [by rewrite IH|]. by rewrite <- Permutation_middle, IH.
  - unfold run_batch. rewrite (triage_all (es_outcomes st)); [|intros n Hn; split; [by apply Hs|by apply Hapart]]. cbn [app bind]. fold sk rn.
    unfold steps. rewrite foldM_app. change (foldM step st sk) with (steps st sk). rewrite steps_skipped.
    + cbn [bind]. change (foldM step ?s (pick rn)) with (steps s (pick rn)). rewrite steps_run; [done|]. cbn [es_outcomes]. intros n Hn.
      assert (Hn' : n ∈ rn) by (by rewrite <- Hpick). destruct (Hrn n Hn') as [Hb Hsn]. split.
      * rewrite <- Hsn, <- Hs by done. apply is_skipped_agree. intros dep Hd. apply record_skips_lookup. intros m Hm E. apply (Hf m (proj1 (Hsk m Hm))). rewrite E. by apply (Hk n Hb).
      * apply Hapart; [|done]. intros m Hm. apply Hrn. by rewrite <- Hpick.
    + intros n Hn. destruct (Hsk n Hn) as [Hb Hsn]. split; [by rewrite Hs, Hsn|]. apply Hapart; [|done]. intros m Hm. by apply Hsk.
Qed.

(** ** The loops are steps *)

Definition state_of (r : res (exec_state * Z)) : res exec_state := let* ' (st, _) := r in Ok st.

(** Nodes not run yet, each after its dependencies. *)
Record runnable_list (st : exec_state) (l : list command_node) : Prop := {
  rl_ordered : ordered_from (done_ids st) l; rl_nodup : NoDup (map nd_id l); rl_fresh : Forall (fun n => nd_id n ∉ done_ids st) l }.

(** After a batch of nodes that are ready, the rest is runnable. *)
Lemma runnable_rest st st' batch order rest l : l ≡ₚ batch ++ rest -> order ≡ₚ batch -> runnable_list st l -> ordered_from (done_ids st ∪ list_to_set (map nd_id batch)) rest ->
  steps st order = Ok st' -> runnable_list st' rest.
Proof.
  intros Hl Ho [_ Hnd Hf] Hrest Hs. apply steps_ok_dom in Hs. assert (Hset : list_to_set (C := gset string) (map nd_id order) = list_to_set (map nd_id batch)) by (apply list_to_set_perm_L; by rewrite Ho).
  rewrite Hset in Hs. rewrite Hl in Hnd. rewrite map_app, NoDup_app in Hnd. destruct Hnd as (_ & Hdisj & Hnd). split; [by rewrite Hs|done|].
  rewrite Hs. apply Forall_forall. intros n Hn. rewrite not_elem_of_union, elem_of_list_to_set. split.
  - rewrite Forall_forall in Hf. apply Hf. rewrite Hl. apply elem_of_app. by right.
  - intros Hb. apply (Hdisj _ Hb). apply list_elem_of_fmap. by exists n.
Qed.

Definition follows (st : exec_state) (l : list command_node) (r : res (exec_state * Z)) : Prop :=
  exists order, order ≡ₚ l /\ ordered_from (done_ids st) order /\ state_of r = steps st order.

(** One batch and then the rest. *)
Lemma batch_follows st batch rest l (k : exec_state * Z -> res (exec_state * Z)) : l ≡ₚ batch ++ rest -> runnable_list st l -> Forall (known (done_ids st)) batch ->
  ordered_from (done_ids st ∪ list_to_set (map nd_id batch)) rest ->
  (forall st' count, runnable_list st' rest -> follows st' rest (k (st', count))) -> follows st l (let* x := run_batch run pick st batch in k x).
Proof.
  intros Hl Hrun Hk Hrest Hgo. destruct (run_batch_steps st batch Hk) as (order & count & Ho & ->).
  { pose proof (rl_fresh _ _ Hrun) as Hf. rewrite Forall_forall in *. intros n Hn. apply Hf. rewrite Hl. apply elem_of_app. by left. }
  assert (Hord : ordered_from (done_ids st) order) by (apply known_ordered; by rewrite Ho).
  assert (Hset : list_to_set (C := gset string) (map nd_id order) = list_to_set (map nd_id batch)) by (apply list_to_set_perm_L; by rewrite Ho).
  destruct (steps st order) as [st'|e] eqn:Es; cbn [bind].
  - destruct (Hgo st' count) as (order2 & Ho2 & Hord2 & E); [by eapply runnable_rest|]. exists (order ++ order2). split_and!; [by rewrite Ho, Ho2, Hl| |].
    + apply ordered_app. split; [done|]. by rewrite <- (steps_ok_dom _ _ _ Es).
    + rewrite E. unfold steps in *. rewrite foldM_app, Es. done.
  - exists (order ++ rest). split_and!; [by rewrite Ho, Hl| |].
    + apply ordered_app. split; [done|]. by rewrite Hset.
    + unfold steps in *. rewrite foldM_app, Es. done.
Qed.

Lemma leading_split ns : ns = leading_independent ns ++ drop (length (leading_independent ns)) ns.
Proof. induction ns as [|n ns IH]; [done|]. cbn. destruct (independent_node n); [|done]. cbn. by rewrite <- IH. Qed.
Lemma leading_no_deps ns : Forall (fun n => nd_dependencies n = []) (leading_independent ns).
Proof. induction ns as [|n ns IH]; [constructor|]. cbn. destruct (independent_node n) eqn:E; [|constructor]. apply bool_decide_eq_true in E. by constructor. Qed.

Lemma direct_loop_follows fuel cap st maximum ns : (length ns <= fuel)%nat -> runnable_list st ns -> follows st ns (direct_loop run pick fuel cap st maximum ns).
Proof.
  revert st maximum ns. induction fuel as [|fuel IH]; intros st maximum ns Hl Hrun.
  - destruct ns; [|cbn in Hl; lia]. by exists [].
  - destruct ns as [|n rest]; [by exists []|]. cbn [direct_loop]. set (batch := n :: (if independent_node n then _ else _)).
    assert (Hsplit : n :: rest = batch ++ drop (length batch) (n :: rest)).
    { subst batch. cbn. f_equal. destruct (independent_node n); [apply leading_split|done]. }
    pose proof (rl_ordered _ _ Hrun) as Ho. rewrite Hsplit in Ho. apply ordered_app in Ho as [Hob Hor].
    apply (batch_follows st batch (drop (length batch) (n :: rest)) (n :: rest)
      (fun x => let '(st, count) := x in direct_loop run pick fuel cap st (Z.max maximum (Z.min count cap)) (drop (length batch) (n :: rest)))); [by rewrite <- Hsplit|done| |done|].
    + subst batch. constructor; [by destruct Hob|]. destruct (independent_node n); [|constructor]. eapply Forall_impl; [apply leading_no_deps|]. intros m Hm dep Hd. rewrite Hm in Hd. by apply elem_of_nil in Hd.
    + intros st' count Hr. apply IH; [|done]. rewrite length_drop. subst batch. cbn in *. lia.
Qed.

Definition is_ready (st : exec_state) (n : command_node) : bool := forallb (fun dep => is_Some_b (es_outcomes st !! dep)) (nd_dependencies n).
Lemma is_ready_known st n : is_ready st n = true <-> known (done_ids st) n.
Proof.
  unfold is_ready, known. rewrite forallb_forall. setoid_rewrite elem_of_dom. setoid_rewrite list_elem_of_In.
  split; intros H dep Hd; specialize (H dep Hd); destruct (es_outcomes st !! dep); try done; by destruct H.
Qed.

(** The pending nodes that are not ready, after those that are. *)
Lemma ordered_pending D E l (ready : list command_node) : (forall n, n ∈ ready -> nd_id n ∈ E) -> D ⊆ E -> NoDup l -> ordered_from D l ->
  ordered_from E (List.filter (fun n => negb (bool_decide (n ∈ ready))) l).
Proof.
  revert D E. induction l as [|n l IH]; intros D E Hr HDE Hnd Ho; [done|]. destruct Ho as [Hk Ho]. apply NoDup_cons in Hnd as [_ Hnd]. cbn [List.filter].
  case_bool_decide as Hc; cbn [negb].
  - apply (IH (D ∪ {[nd_id n]})); [done| |done|done]. apply union_subseteq. split; [done|]. apply singleton_subseteq_l. by apply Hr.
  - split; [by intros dep Hd; apply HDE, Hk|]. apply (IH (D ∪ {[nd_id n]})); [|by apply union_mono_r|done|done]. intros m Hm. apply elem_of_union. left. by apply Hr.
Qed.
Lemma ready_split st l : NoDup l -> l ≡ₚ List.filter (is_ready st) l ++ List.filter (fun n => negb (bool_decide (n ∈ List.filter (is_ready st) l))) l.
Proof.
  intros Hnd. assert (E : forall m, (forall n, n ∈ m -> n ∈ l) -> List.filter (fun n => negb (bool_decide (n ∈ List.filter (is_ready st) l))) m = List.filter (fun n => negb (is_ready st n)) m).
  { intros m Hm. apply filter_ext_in. intros n Hn%list_elem_of_In. f_equal. apply eq_true_iff_eq. rewrite bool_decide_eq_true, list_elem_of_In, filter_In, <- list_elem_of_In.
    split; [tauto|]. intros H. split; [by apply Hm|done]. }
  rewrite (E l) by done. clear. induction l as [|n l IH]; [done|]. cbn. destruct (is_ready st n); cbn; [by rewrite <- IH|]. by rewrite <- Permutation_middle, <- IH.
Qed.

Lemma graph_loop_follows fuel cap st maximum pending : (length pending <= fuel)%nat -> runnable_list st pending -> follows st pending (graph_loop run pick fuel cap st maximum pending).
Proof.
  revert st maximum pending. induction fuel as [|fuel IH]; intros st maximum pending Hl Hrun.
  - destruct pending; [|cbn in Hl; lia]. by exists [].
  - destruct pending as [|n rest]; [by exists []|]. set (l := n :: rest) in *.
    change (graph_loop run pick (S fuel) cap st maximum l) with
      (let ready := List.filter (is_ready st) l in raise_if bool_decide (ready = []) with "command graph made no progress" in
       let* ' (st, count) := run_batch run pick st ready in
       graph_loop run pick fuel cap st (Z.max maximum (Z.min count cap)) (List.filter (fun n => negb (bool_decide (n ∈ ready))) l)). cbn zeta.
    set (ready := List.filter (is_ready st) l). pose proof Hrun as [Ho Hnd Hf]. assert (Hndl : NoDup l) by (by eapply NoDup_fmap_1).
    assert (Hn : n ∈ ready). { apply list_elem_of_In, filter_In. split; [by left|]. apply is_ready_known. by destruct Ho. }
    rewrite bool_decide_false by (intros E; rewrite E in Hn; by apply elem_of_nil in Hn).
    set (rest' := List.filter (fun n => negb (bool_decide (n ∈ ready))) l). pose proof (ready_split st l Hndl) as Hsplit. fold ready rest' in Hsplit.
    apply (batch_follows st ready rest' l (fun x => let '(st, count) := x in graph_loop run pick fuel cap st (Z.max maximum (Z.min count cap)) rest')); [done|done| | |].
    + apply Forall_forall. intros m Hm. apply list_elem_of_In, filter_In in Hm as [_ Hm]. by apply is_ready_known.
    + apply (ordered_pending (done_ids st)); [|by apply union_subseteq_l|done|done]. intros m Hm. apply elem_of_union. right. apply elem_of_list_to_set, list_elem_of_fmap. by exists m.
    + intros st' count Hr. apply IH; [|done]. apply Permutation_length in Hsplit. rewrite length_app in Hsplit.
      assert (0 < length ready)%nat by (destruct ready; [by apply elem_of_nil in Hn|cbn; lia]). lia.
Qed.
End schedules.
