(* ===== verification/CommandExecRun.v ===== *)
(** * Executing command graphs: main theorems

    The executors end and give every node the outcome its dependencies call for;
    they agree when independent commands commute and no command shows where its
    stage is; a comparison publishes the declared outputs of an agreed run or
    leaves the workspace alone; and a hidden entry of the workspace makes every
    execution an invalid mutation. *)

From S2P Require Import Prelude PyValue Evidence Array Workspace WorkspaceFacts WorkspaceRun Sha256 CommandGraph CommandGraphFacts CommandShell CommandShellFacts CommandExec CommandExecFacts.

(** ** Validated programs *)

Lemma prior_ordered ns prior prior' D : list_to_set prior = D -> foldM check_prior prior ns = Ok prior' -> ordered_from D ns.
Proof.
  revert prior D. induction ns as [|n ns IH]; intros prior D HD H; [done|]. cbn [foldM] in H. unfold check_prior at 1 in H. destruct (existsb _ _) eqn:E; [discriminate H|]. cbn [bind] in H.
  split.
  - intros dep Hd. rewrite <- HD. apply elem_of_list_to_set. apply not_true_iff_false in E. destruct (decide (dep ∈ prior)) as [|Hn]; [done|]. destruct E. apply existsb_exists.
    exists dep. split; [by apply list_elem_of_In|]. by rewrite bool_decide_false.
  - eapply IH; [|exact H]. rewrite list_to_set_app_L, HD. cbn. by rewrite (right_id_L ∅ (∪)).
Qed.
Lemma validate_Ok p : validate p = Ok tt -> NoDup (map nd_id (cg_nodes p)) /\ ordered_from ∅ (cg_nodes p).
Proof.
  intros H. unfold validate in H. destruct (_ || _); [discriminate H|]. destruct (_ || _); [discriminate H|]. destruct (negb _) eqn:E; [discriminate H|].
  destruct (foldM check_prior [] _) as [prior|] eqn:Ep; [|discriminate H]. apply negb_false_iff, bool_decide_eq_true in E. split; [done|]. by eapply prior_ordered; [|exact Ep].
Qed.

Section execution.
Context (run : command_node -> tree -> list Z -> res (node_outcome * list Z * tree)).

Definition start_state (stage : tree) : exec_state := ExecState ∅ ∅ stage.
Lemma start_runnable p stage : validate p = Ok tt -> runnable_list (start_state stage) (cg_nodes p).
Proof.
  intros [Hnd Ho]%validate_Ok. split; cbn; [by rewrite dom_empty_L|done|]. apply Forall_forall. intros n _. rewrite dom_empty_L. apply not_elem_of_empty.
Qed.

(** ** Outcomes *)

(** What a node's outcome is, by the outcomes of its dependencies. *)
Definition outcome_ok (outcomes : gmap string node_outcome) (n : command_node) : Prop :=
  exists oc, outcomes !! nd_id n = Some oc /\
    ((is_skipped outcomes n = Ok true /\ oc = skipped n) \/ (is_skipped outcomes n = Ok false /\ exists t stdin out t', run n t stdin = Ok (oc, out, t'))).

Lemma outcome_ok_mono o o' n : (forall id, id ∈ dom o -> o' !! id = o !! id) -> outcome_ok o n -> outcome_ok o' n.
Proof.
  intros H (oc & Ho & Hs). assert (Hid : o' !! nd_id n = Some oc) by (rewrite H; [done|apply elem_of_dom; by eexists]). exists oc. split; [done|].
  assert (E : is_skipped o' n = is_skipped o n); [|by rewrite E].
  assert (Hd : forall dep, dep ∈ nd_dependencies n -> dep ∈ dom o); [|apply is_skipped_agree; intros dep Hdep; by apply H, Hd].
  assert (Hok : exists b, is_skipped o n = Ok b) by (destruct Hs as [[-> _]|[-> _]]; by eexists). destruct Hok as [b Hb]. unfold is_skipped in Hb.
  destruct (traverse _ _) as [l|] eqn:Et; [|discriminate Hb]. clear -Et. revert l Et. induction (nd_dependencies n) as [|d ds IH]; intros l Et dep Hd; [by apply elem_of_nil in Hd|].
  cbn in Et. destruct (o !! d) as [x|] eqn:Ex; [|discriminate Et]. cbn in Et. destruct (traverse _ ds) as [ys|] eqn:Ey; [|discriminate Et].
  apply elem_of_cons in Hd as [->|Hd]; [apply elem_of_dom; by eexists|by eapply IH].
Qed.

Lemma step_lookup st n st' id : step run st n = Ok st' -> id <> nd_id n -> es_outcomes st' !! id = es_outcomes st !! id.
Proof.
  intros H Hne. unfold step in H. destruct (is_skipped _ _) as [[]|]; [| |discriminate H]; cbn [bind] in H.
  - apply Ok_inj in H as <-. cbn. by apply lookup_insert_ne.
  - unfold run_one in H. destruct (stdin_of _ _); [|discriminate H]. cbn [bind] in H. destruct (run _ _ _) as [[[oc out] t]|]; [|discriminate H]. apply Ok_inj in H as <-. cbn. by apply lookup_insert_ne.
Qed.
Lemma step_outcome st n st' : known (dom (es_outcomes st)) n -> (nd_id n ∉ dom (es_outcomes st)) -> step run st n = Ok st' -> outcome_ok (es_outcomes st') n.
Proof.
  intros Hk Hf H. assert (E : forall v, is_skipped (<[nd_id n := v]> (es_outcomes st)) n = is_skipped (es_outcomes st) n).
  { intros v. apply is_skipped_agree. intros dep Hd. apply lookup_insert_ne. intros <-. by apply Hf, Hk. }
  unfold step in H. destruct (is_skipped _ _) as [b|] eqn:Es; [|discriminate H]. cbn [bind] in H. destruct b.
  - apply Ok_inj in H as <-. exists (skipped n). cbn. rewrite E, lookup_insert_eq. split; [done|by left].
  - unfold run_one in H. destruct (stdin_of _ _) as [stdin|]; [|discriminate H]. cbn [bind] in H. destruct (run _ _ _) as [[[oc out] t]|] eqn:Er; [|discriminate H]. apply Ok_inj in H as <-.
    exists oc. cbn. rewrite E, lookup_insert_eq. split; [done|]. right. split; [done|]. by exists (es_stage st), stdin, out, t.
Qed.
Lemma runnable_step st n l st' : runnable_list st (n :: l) -> step run st n = Ok st' -> runnable_list st' l.
Proof.
  intros [Ho Hnd Hf] Hs. apply step_dom in Hs. destruct Ho as [_ Ho]. cbn [map] in Hnd. apply NoDup_cons in Hnd as [Hn Hnd]. apply Forall_cons in Hf as [_ Hf].
  split; [by rewrite Hs|done|]. rewrite Hs, Forall_forall in *. intros m Hm. rewrite not_elem_of_union, not_elem_of_singleton. split; [by apply Hf|]. intros E. apply Hn. rewrite <- E. apply list_elem_of_fmap. by exists m.
Qed.
Lemma steps_outcomes st l st' : runnable_list st l -> steps run st l = Ok st' ->
  (forall id, id ∈ dom (es_outcomes st) -> es_outcomes st' !! id = es_outcomes st !! id) /\ Forall (outcome_ok (es_outcomes st')) l.
Proof.
  revert st. induction l as [|n l IH]; intros st Hr H; [apply Ok_inj in H as <-; by split|]. unfold steps in H. cbn [foldM] in H. destruct (step run st n) as [s|] eqn:Es; [|discriminate H]. cbn [bind] in H.
  pose proof Hr as [Ho _ Hf]. destruct Ho as [Hk _]. apply Forall_cons in Hf as [Hfn _]. destruct (IH s (runnable_step _ _ _ _ Hr Es) H) as [Hold Hnew].
  assert (Hdom := step_dom _ _ _ _ Es). split.
  - intros id Hid. rewrite Hold by (rewrite Hdom; apply elem_of_union; by left). eapply step_lookup; [exact Es|]. by intros ->.
  - constructor; [|done]. eapply outcome_ok_mono; [exact Hold|]. by eapply step_outcome.
Qed.

(** What an execution of the nodes [l] may raise: what running one of them raises,
    or the index error of a node that reads a stream and waits for nothing. *)
Definition raised (l : list command_node) (e : exn) : Prop :=
  (exists n t stdin, n ∈ l /\ run n t stdin = Err e) \/ (e = IndexError /\ exists n, n ∈ l /\ nd_dependency_mode n = "stream" /\ nd_dependencies n = []).

Lemma stdin_error s n e : stdin_of s n = Err e -> e = IndexError /\ nd_dependency_mode n = "stream" /\ nd_dependencies n = [].
Proof.
  intros H. destruct (decide (nd_dependency_mode n = "stream")) as [Hm|Hm].
  - destruct (decide (nd_dependencies n = [])) as [Hd|Hd].
    + unfold stdin_of in H. rewrite Hm, Hd in H. by injection H as <-.
    + destruct (stdin_ok s n) as [b Hb]; [by intros _|congruence].
  - destruct (stdin_ok s n) as [b Hb]; [by intros ?|congruence].
Qed.

(** Only the nodes themselves stop the steps. *)
Lemma steps_error st l e : ordered_from (dom (es_outcomes st)) l -> steps run st l = Err e -> raised l e.
Proof.
  revert st. induction l as [|n l IH]; intros st Ho H; [discriminate H|]. destruct Ho as [Hk Ho]. unfold steps in H. cbn [foldM] in H.
  destruct (step run st n) as [s|e'] eqn:Es.
  - cbn [bind] in H. apply IH in H; [|by rewrite (step_dom _ _ _ _ Es)]. destruct H as [(m & t & stdin & Hm & Hr)|(He & m & Hm & Hs)]; [left; exists m, t, stdin|right; split; [done|]; exists m];
      (split; [by right|done]).
  - injection H as ->. unfold step in Es. destruct (is_skipped_known _ _ Hk) as [b Hb]. rewrite Hb in Es. cbn [bind] in Es. destruct b; [discriminate Es|]. unfold run_one in Es.
    destruct (stdin_of (es_streams st) n) as [stdin|e'] eqn:Ei.
    + cbn [bind] in Es. destruct (run n _ _) as [[[oc out] t]|e'] eqn:Er; [discriminate Es|]. injection Es as ->. left. exists n, (es_stage st), stdin. split; [left|done].
    + injection Es as ->. apply stdin_error in Ei as (-> & Hm & Hd). right. split; [done|]. exists n. split; [left|done].
Qed.

Lemma ordered_outcomes_Ok p st : Forall (outcome_ok (es_outcomes st)) (cg_nodes p) -> exists l, ordered_outcomes p st = Ok l /\ Forall2 (fun n oc => es_outcomes st !! nd_id n = Some oc) (cg_nodes p) l.
Proof.
  intros H. unfold ordered_outcomes. induction H as [|n ns (oc & Ho & _) _ (l & IH1 & IH2)]; [exists []; by split|]. exists (oc :: l). cbn. rewrite Ho. cbn. rewrite IH1. split; [done|by constructor].
Qed.

Context (pick : list command_node -> list command_node) (Hpick : forall l, pick l ≡ₚ l).

(** Both executors, as steps in some order of the nodes. *)
Lemma direct_steps p stage : validate p = Ok tt -> exists maximum order, order ≡ₚ cg_nodes p /\ ordered_from ∅ order /\
  direct_loop run pick (length (cg_nodes p)) (po_max_parallel (cg_policy p)) (start_state stage) 1 (cg_nodes p) = let* st := steps run (start_state stage) order in Ok (st, maximum).
Proof.
  intros Hv. destruct (direct_loop_follows run pick Hpick (length (cg_nodes p)) (po_max_parallel (cg_policy p)) (start_state stage) 1 (cg_nodes p)) as (order & Hp & Ho & E); [lia|by apply start_runnable|].
  cbn in Ho. rewrite dom_empty_L in Ho. destruct (direct_loop _ _ _ _ _ _ _) as [[st m]|e]; cbn in E; [exists m, order|exists 0, order]; (split_and!; [done|done|by rewrite <- E]).
Qed.
Lemma graph_steps p stage : validate p = Ok tt -> exists maximum order, order ≡ₚ cg_nodes p /\ ordered_from ∅ order /\
  graph_loop run pick (length (cg_nodes p)) (po_max_parallel (cg_policy p)) (start_state stage) 0 (cg_nodes p) = let* st := steps run (start_state stage) order in Ok (st, maximum).
Proof.
  intros Hv. destruct (graph_loop_follows run pick Hpick (length (cg_nodes p)) (po_max_parallel (cg_policy p)) (start_state stage) 0 (cg_nodes p)) as (order & Hp & Ho & E); [lia|by apply start_runnable|].
  cbn in Ho. rewrite dom_empty_L in Ho. destruct (graph_loop _ _ _ _ _ _ _) as [[st m]|e]; cbn in E; [exists m, order|exists 0, order]; (split_and!; [done|done|by rewrite <- E]).
Qed.

Lemma permuted_runnable p stage order : validate p = Ok tt -> order ≡ₚ cg_nodes p -> ordered_from ∅ order -> runnable_list (start_state stage) order.
Proof.
  intros Hv Hp Ho. destruct (start_runnable p stage Hv) as [_ Hnd Hf]. split; [by cbn; rewrite dom_empty_L|by rewrite Hp|by rewrite Hp].
Qed.
End execution.

(** ** The executors *)

(** What is said of an execution: it returns with an outcome for each node, as its
    dependencies' outcomes call for; or it raises what running a node raised. *)
Definition execution_ok (run : command_node -> tree -> list Z -> res (node_outcome * list Z * tree)) (p : command_program) (r : res (execution_outcome * tree)) : Prop :=
  match r with
  | Ok (out, t) => exists outcomes, Forall2 (fun n oc => outcomes !! nd_id n = Some oc) (cg_nodes p) (xo_nodes out) /\ Forall (outcome_ok run outcomes) (cg_nodes p)
  | Err e => raised run (cg_nodes p) e
  end.

Section executors.
Context (run : command_node -> tree -> list Z -> res (node_outcome * list Z * tree)) (pick : list command_node -> list command_node) (Hpick : forall l, pick l ≡ₚ l).
Context (p : command_program) (Hv : validate p = Ok tt).

Lemma raised_permutation l l' e : l ≡ₚ l' -> raised run l e -> raised run l' e.
Proof.
  intros Hp [(n & t & stdin & Hn & Hr)|(He & n & Hn & Hs)]; [left; exists n, t, stdin|right; split; [done|]; exists n]; (split; [by rewrite <- Hp|done]).
Qed.

Lemma finish_ok stage order maximum initial (low : Z) : order ≡ₚ cg_nodes p -> ordered_from ∅ order ->
  execution_ok run p (let* ' (st, maximum) := (let* st := steps run (start_state stage) order in Ok (st, maximum)) in
    let* ordered := ordered_outcomes p st in Ok (finish p (es_stage st) initial ordered (es_streams st) (Z.max low maximum), es_stage st)).
Proof.
  intros Hp Ho. destruct (steps run (start_state stage) order) as [st|e] eqn:Est; cbn [bind].
  - destruct (steps_outcomes run (start_state stage) order st) as [_ Hall]; [by eapply permuted_runnable|done|]. rewrite Hp in Hall.
    destruct (ordered_outcomes_Ok run p st Hall) as (l & -> & Hl). cbn [bind]. exists (es_outcomes st). split; [|done].
    unfold finish. destruct (match List.find _ l with Some _ => _ | None => _ end) as [[? ?] ?]. by destruct (_ || _).
  - apply (raised_permutation order); [done|]. eapply steps_error; [|exact Est]. cbn. by rewrite dom_empty_L.
Qed.
Lemma executors_ok stage initial : execution_ok run p (direct_execute run pick p stage initial) /\ execution_ok run p (graph_execute run pick p stage initial).
Proof.
  split; [destruct (direct_steps run pick Hpick p stage Hv) as (m & order & Hp & Ho & E); unfold direct_execute|destruct (graph_steps run pick Hpick p stage Hv) as (m & order & Hp & Ho & E); unfold graph_execute];
    fold (start_state stage); rewrite E; by apply finish_ok.
Qed.
End executors.

(** C22. On a validated program both executors end, whatever its commands do: the
    graph executor always has a ready node while nodes are pending, and neither runs
    out of its bound. Either an execution returns, and every node has one outcome:
    it is skipped exactly when it requires success and one of its dependencies was
    not executed, and otherwise has the outcome of a run. Or it raises, and then
    with the error of running one of its nodes, or because a node reads a stream
    and waits for nothing. *)
Theorem executors_return run pick p stage initial :
  (forall l, pick l ≡ₚ l) -> validate p = Ok tt ->
  execution_ok run p (direct_execute run pick p stage initial) /\ execution_ok run p (graph_execute run pick p stage initial).
Proof. intros Hpick Hv. by apply executors_ok. Qed.

(** ** Agreement *)

Definition without_concurrency (x : execution_outcome) : execution_outcome :=
  ExecutionOutcome (xo_status x) (xo_exit_status x) (xo_stdout x) (xo_stderr x) (xo_outputs x) (xo_nodes x) 0.

Lemma finish_concurrency p t initial outcomes terminal m m' :
  without_concurrency (finish p t initial outcomes terminal m) = without_concurrency (finish p t initial outcomes terminal m').
Proof. unfold finish. destruct (match List.find _ outcomes with Some _ => _ | None => _ end) as [[? ?] ?]. by destruct (_ || _). Qed.

Lemma steps_ext run run' st l : (forall n t stdin, n ∈ l -> run n t stdin = run' n t stdin) -> steps run st l = steps run' st l.
Proof.
  intros H. apply foldM_ext_in. intros s n Hn. unfold step. destruct (is_skipped _ n) as [[]|]; [done| |done]. cbn [bind]. unfold run_one. destruct (stdin_of _ n); [|done]. cbn [bind]. by rewrite H.
Qed.

Lemma executors_same run run' pick pick' p stage initial x t y t' :
  (forall l, pick l ≡ₚ l) -> (forall l, pick' l ≡ₚ l) -> validate p = Ok tt -> Forall stream_ok (cg_nodes p) ->
  (forall n t stdin, n ∈ cg_nodes p -> run n t stdin = run' n t stdin) ->
  (forall n m, n ∈ cg_nodes p -> m ∈ cg_nodes p -> independent (cg_nodes p) n m -> commute run' n m) ->
  direct_execute run pick p stage initial = Ok (x, t) -> graph_execute run' pick' p stage initial = Ok (y, t') -> without_concurrency x = without_concurrency y /\ t = t'.
Proof.
  intros Hp Hp' Hv Hs Hrun Hc Hd Hg. destruct (direct_steps run pick Hp p stage Hv) as (m & order & Ho & Hord & E). destruct (graph_steps run' pick' Hp' p stage Hv) as (m' & order' & Ho' & Hord' & E').
  unfold direct_execute, graph_execute in Hd, Hg. fold (start_state stage) in Hd, Hg. rewrite E, (steps_ext run run') in Hd by (intros n tt stdin Hn; apply Hrun; by rewrite <- Ho).
  rewrite E' in Hg. destruct (steps run' (start_state stage) order) as [st|] eqn:Est; [|discriminate Hd].
  assert (Heq : steps run' (start_state stage) order' = Ok st).
  { destruct (permuted_runnable p stage order Hv Ho Hord) as [H1 H2 H3].
    apply (steps_permutation run' (cg_nodes p)) with (l1 := order); [by apply validate_Ok|done|done|by rewrite Ho, Ho'| |done|done| |done|by cbn; rewrite dom_empty_L|done].
    - rewrite Ho. apply Forall_forall. done.
    - intros n _ Hin. cbn in Hin. rewrite dom_empty_L in Hin. by apply elem_of_empty in Hin. }
  rewrite Heq in Hg. cbn [bind] in Hd, Hg.
  destruct (ordered_outcomes p st) as [l|]; [|discriminate Hd]. cbn [bind] in Hd, Hg. apply Ok_inj in Hd, Hg. injection Hd as <- <-. injection Hg as <- <-. split; [apply finish_concurrency|done].
Qed.

(** C23. A comparison that runs finds no difference between its two executions when
    commands that do not wait for one another commute on the stage (if they return
    in one order they return in the other, with the same results) and no command's
    result shows the host path of its stage: standard output, errors, status,
    outputs and the outcome of every node are the same, in whatever orders the pools
    run. *)
Theorem comparison_agrees h x direct_pick graph_pick ws direct_root graph_root d p order direct graph stage :
  (forall l, direct_pick l ≡ₚ l) -> (forall l, graph_pick l ≡ₚ l) -> Forall stream_ok (cg_nodes p) ->
  (forall n t stdin, n ∈ cg_nodes p -> run_node h x (cg_policy p) direct_root n t stdin = run_node h x (cg_policy p) graph_root n t stdin) ->
  (forall n m, n ∈ cg_nodes p -> m ∈ cg_nodes p -> independent (cg_nodes p) n m -> commute (run_node h x (cg_policy p) graph_root) n m) ->
  compare_runs h x direct_pick graph_pick ws direct_root graph_root d p order = Ok (direct, graph, stage) ->
  differences direct graph = [] /\ xo_nodes direct = xo_nodes graph /\ semantic_valid direct graph = String.eqb (xo_status direct) "executed".
Proof.
  intros Hdp Hgp Hs Hblind Hc H. unfold compare_runs in H. destruct (validate p) as [[]|] eqn:Hv; [|discriminate H]. cbn [bind] in H. destruct (validate_executable _ _ _) as [[]|]; [|discriminate H]. cbn [bind] in H.
  destruct (negb _); [discriminate H|]. destruct (snapshot _) as [[initial stage0]|]; [|discriminate H]. cbn [bind] in H.
  assert (Hrun : exists t, run_direct h x direct_pick direct_root p stage0 initial = Ok (direct, t) /\ run_graph h x graph_pick graph_root p stage0 initial = Ok (graph, stage)).
  { destruct (String.eqb order _).
    - destruct (run_direct _ _ _ _ _ _ _) as [[a ta]|]; [|discriminate H]. cbn [bind] in H. destruct (run_graph _ _ _ _ _ _ _) as [[b tb]|]; [|discriminate H]. apply Ok_inj in H. injection H as <- <- <-. by exists ta.
    - destruct (run_graph _ _ _ _ _ _ _) as [[b tb]|]; [|discriminate H]. cbn [bind] in H. destruct (run_direct _ _ _ _ _ _ _) as [[a ta]|]; [|discriminate H]. apply Ok_inj in H. injection H as <- <- <-. by exists ta. }
  destruct Hrun as (t & Hd & Hg). destruct (executors_same _ _ _ _ _ _ _ _ _ _ _ Hdp Hgp Hv Hs Hblind Hc Hd Hg) as [E _].
  unfold without_concurrency in E. injection E as E1 E2 E3 E4 E5 E6. assert (Hdiff : differences direct graph = []).
  { unfold differences. rewrite E1, E2, E3, E4, E5, !bool_decide_true, !String.eqb_refl, Z.eqb_refl by done. done. }
  split_and!; [done|done|]. unfold semantic_valid. rewrite Hdiff, <- E1, bool_decide_true by done. cbn [andb]. apply andb_diag.
Qed.

(** ** Publication *)

Lemma staged_entries_Ok t outputs entries : staged_entries t outputs = Ok entries -> forall v, v ∈ outputs ->
  exists sp data, stage_path v = Ok sp /\ t !! sp = Some (target_entry data) /\ (v, data) ∈ entries.
Proof.
  unfold staged_entries. intros H%traverse_Ok v Hv. apply list_elem_of_lookup in Hv as [i Hi]. destruct (Forall2_lookup_l _ _ _ _ _ H Hi) as (e & He & E).
  apply list_elem_of_lookup_2 in He. destruct (stage_path v) as [sp|] eqn:Esp; [|discriminate E]. cbn [bind] in E. destruct (t !! sp) as [[|data| |]|] eqn:Et.
  - apply Ok_inj in E as <-. by exists sp, None.
  - unfold read_staged in E. rewrite Esp in E. cbn [bind] in E. rewrite Et in E. cbn [bind] in E. apply Ok_inj in E as <-. by exists sp, (Some data).
  - unfold read_staged in E. rewrite Esp in E. cbn [bind] in E. rewrite Et in E. discriminate E.
  - unfold read_staged in E. rewrite Esp in E. cbn [bind] in E. rewrite Et in E. discriminate E.
  - unfold read_staged in E. rewrite Esp in E. cbn [bind] in E. rewrite Et in E. discriminate E.
Qed.

(** The targets of a publication are the declared outputs. *)
Definition is_output (ws : workspace) (p : command_program) (q : parts) : Prop := exists v, v ∈ cg_declared_outputs p /\ parts_of ws v = Ok q.
Lemma staged_targets ws p t entries q : staged_entries t (cg_declared_outputs p) = Ok entries -> is_target ws entries q -> is_output ws p q.
Proof.
  unfold staged_entries. intros H%traverse_Ok (path & data & Hin & Hq). apply list_elem_of_lookup in Hin as [i Hi]. destruct (Forall2_lookup_r _ _ _ _ _ H Hi) as (v & Hv & E).
  exists v. split; [by eapply list_elem_of_lookup_2|]. assert (path = v) as ->; [|done]. destruct (stage_path v) as [sp|]; [|discriminate E]. cbn [bind] in E.
  destruct (t !! sp) as [[]|]; try (by injection E); destruct (read_staged t v); try discriminate E; by injection E.
Qed.

(** C24. A comparison changes the workspace only by publishing, and only when it was
    asked to, found no difference and both executions succeeded. Nothing that was
    there changes. Then either it returns a result that says committed, every
    declared output is in the workspace as the graph's stage holds it and nothing
    else is new; or it raises, and what is new are declared outputs kept by a fault
    of the system, nothing at all when there is none. Otherwise the workspace is as
    it was, and a result that is returned says not committed. *)
Theorem comparison_publishes_agreed h x direct_pick graph_pick o ws direct_root graph_root d p publish order d' r :
  disk_ok d -> comparison_execute h x direct_pick graph_pick o ws direct_root graph_root d p publish order = (d', r) ->
  extends d d' /\
  ((d' = d /\ forall g, r = Ok g -> gr_committed g = false) \/
   (publish = true /\ exists direct graph stage, compare_runs h x direct_pick graph_pick ws direct_root graph_root d p order = Ok (direct, graph, stage) /\
     semantic_valid direct graph = true /\
     ((exists g, r = Ok g /\ gr_committed g = true /\
        (forall v, v ∈ cg_declared_outputs p -> exists sp ps e, stage_path v = Ok sp /\ parts_of ws v = Ok ps /\ stage !! sp = Some e /\ lstat d' ps = Some e) /\
        (forall q, lstat d q = None -> is_Some (lstat d' q) -> is_output ws p q)) \/
      (exists e, r = Err e) /\ leftovers o (is_output ws p) d d' /\ ((forall q, is_output ws p q -> ~ fault o q) -> d' = d)))).
Proof.
  intros Hd H. assert (Hkeep : forall g, r = g -> d' = d -> (forall x, g = Ok x -> gr_committed x = false) -> extends d d' /\ (d' = d /\ forall g, r = Ok g -> gr_committed g = false)).
  { intros g -> -> Hg. by split_and!. }
  unfold comparison_execute in H. destruct (compare_runs _ _ _ _ _ _ _ _ _ _) as [[[direct graph] stage]|e] eqn:Ec.
  2:{ injection H as <- <-. destruct (Hkeep (Err e)) as [? ?]; [done..|]. split; [done|by left]. }
  destruct (semantic_valid direct graph && publish) eqn:Ev.
  2:{ injection H as <- <-. eassert (extends d d /\ _) as [? ?]; [eapply Hkeep; [done|done|by intros g [= <-]]|]. split; [done|by left]. }
  apply andb_true_iff in Ev as [Ev ->]. destruct (staged_entries stage _) as [entries|e] eqn:Es.
  2:{ injection H as <- <-. destruct (Hkeep (Err e)) as [? ?]; [done..|]. split; [done|by left]. }
  clear Hkeep. destruct (publish_many o ws d entries MAX_STAGE_BYTES) as [d1 r1] eqn:Ep. pose proof (fun q => staged_targets ws p stage entries q Es) as Htarget.
  pose proof (publish_cases _ _ _ _ _ _ _ Hd Ep) as (Hx & [(-> & Hall & Hnew)|((e & ->) & Hl & Hnone)]); injection H as <- <-.
  - split; [done|]. right. split; [done|]. exists direct, graph, stage. split_and!; [done|done|]. left. eexists. split_and!; [done|done| |intros q Hq Hs; by apply Htarget, Hnew].
    intros v Hv. destruct (staged_entries_Ok _ _ _ Es v Hv) as (sp & data & H1 & H2 & H3). destruct (Hall _ _ H3) as (ps & H4 & H5). by exists sp, ps, (target_entry data).
  - split; [done|]. right. split; [done|]. exists direct, graph, stage. split_and!; [done|done|]. right. split_and!; [by eexists|by eapply leftovers_mono|].
    intros Hf. apply Hnone. intros q Hq. by apply Hf, Htarget.
Qed.

(** ** Hidden entries *)

(** A key of the manifest never has a dot after its slash. *)
Lemma lstrip_no_dot s r : lstrip_dots s <> String (char 46) r.
Proof.
  induction s as [|c s IH]; [done|]. cbn [lstrip_dots]. destruct (_ || _) eqn:E; [done|]. intros [= -> _]. done.
Qed.
Lemma snapshot_keys t initial stage : snapshot t = Ok (initial, stage) -> forall k, is_Some (initial !! k) -> exists p, k = manifest_key p.
Proof.
  unfold snapshot. intros H. destruct (foldM _ _ _) as [st|] eqn:E; [|discriminate H]. cbn [bind] in H. apply Ok_inj in H. injection H as <- _.
  refine (foldM_inv (fun st => forall k, is_Some (sn_manifest st !! k) -> exists p, k = manifest_key p) _ _ _ _ _ _ E); [by intros k [? ?]|].
  intros s [p e] s' _ IH Hs k [v Hk]. unfold snapshot_entry in Hs. destruct e; try discriminate Hs.
  - apply Ok_inj in Hs as <-. cbn in Hk. destruct (decide (k = manifest_key p)) as [->|Hne]; [by eexists|]. rewrite lookup_insert_ne in Hk by done. apply IH. by eexists.
  - destruct (_ || _); [discriminate Hs|]. apply Ok_inj in Hs as <-. cbn in Hk. destruct (decide (k = manifest_key p)) as [->|Hne]; [by eexists|]. rewrite lookup_insert_ne in Hk by done. apply IH. by eexists.
Qed.
Lemma stage_digests_lookup t p e : t !! p = Some e -> e = EDir \/ (exists data, e = EFile data) ->
  is_Some (stage_digests t !! virtual p).
Proof.
  intros Hp He. unfold stage_digests. apply not_eq_None_Some. intros Hn. apply not_elem_of_list_to_map in Hn. apply Hn. apply list_elem_of_fmap.
  exists (virtual p, match e with EFile data => sha256_hex data | _ => "directory" end). split; [done|]. apply list_elem_of_omap. exists (p, e).
  split; [by apply elem_of_map_to_list|]. cbn. destruct He as [->|[data ->]]; done.
Qed.

Lemma finish_unexpected p t initial outcomes terminal m : unexpected p initial t = true -> xo_status (finish p t initial outcomes terminal m) = "invalid-mutation".
Proof. intros H. unfold finish. rewrite H. by destruct (match List.find _ outcomes with Some _ => _ | None => _ end) as [[? ?] ?]. Qed.

(** C25. In a workspace with an entry whose name at the root starts with a dot, an
    execution that leaves the entry where it was is an invalid mutation, whatever
    the program and its commands: the manifest of the snapshot drops the leading
    dot of the path, the verdict does not, and finds an entry it did not expect. *)
Theorem hidden_entry_invalid run pick p t initial stage name rest e out left :
  snapshot t = Ok (initial, stage) -> left !! (String (char 46) name :: rest) = Some e -> e = EDir \/ (exists data, e = EFile data) ->
  (virtual (String (char 46) name :: rest) ∉ allowed_paths p) ->
  direct_execute run pick p stage initial = Ok (out, left) \/ graph_execute run pick p stage initial = Ok (out, left) ->
  xo_status out = "invalid-mutation".
Proof.
  intros Hs Hl He Ha Hx. set (path := virtual _) in *.
  assert (Hu : unexpected p initial left = true).
  { destruct (stage_digests_lookup left _ e Hl He) as [dg Hdg]. fold path in Hdg. unfold unexpected. apply orb_true_iff. left. apply orb_true_iff. right.
    apply existsb_exists. exists (path, dg). split; [by apply list_elem_of_In, elem_of_map_to_list|]. cbn. rewrite (bool_decide_false (path ∈ _)), andb_true_r by done.
    rewrite bool_decide_false; [done|]. intros Hi. destruct (snapshot_keys _ _ _ Hs path) as [q Hq]; [by eexists|].
    assert (exists r, path = String (char 47) (String (char 46) r)) as [r Hr] by (unfold path; destruct rest; eexists; reflexivity).
    rewrite Hr in Hq. unfold manifest_key in Hq. change ("/" +:+ ?x) with (String (char 47) x) in Hq. injection Hq as Hq. by destruct (lstrip_no_dot (String.concat "/" q) r). }
  destruct Hx as [Hx|Hx].
  - unfold direct_execute in Hx. destruct (direct_loop _ _ _ _ _ _ _) as [[st m]|]; [|discriminate Hx]. cbn [bind] in Hx. destruct (ordered_outcomes p st); [|discriminate Hx]. cbn [bind] in Hx.
    apply Ok_inj in Hx. injection Hx as <- <-. by apply finish_unexpected.
  - unfold graph_execute in Hx. destruct (graph_loop _ _ _ _ _ _ _) as [[st m]|]; [|discriminate Hx]. cbn [bind] in Hx. destruct (ordered_outcomes p st); [|discriminate Hx]. cbn [bind] in Hx.
    apply Ok_inj in Hx. injection Hx as <- <-. by apply finish_unexpected.
Qed.

(** ** Examples and witnesses *)

Example compared_pipeline : (let r := compare_example id clean_disk "cat docs/a.txt | uniq > b" in (verdict r, lstat r.1 ["b"])) =
  (Ok (true, true, [], "executed", "executed"), Some (EFile [104; 105])).
Proof. vm_compute. reflexivity. Qed.
(** A tool that prints where it runs never agrees with itself. *)
Example stage_path_shown : verdict (compare_example id clean_disk "pwd") = Ok (false, false, ["stdout"], "executed", "executed").
Proof. vm_compute. reflexivity. Qed.
(** A hidden entry at the root of the workspace. *)
Example hidden_entry : verdict (compare_example id (put_entry clean_disk [".git"] EDir) "echo x") = Ok (false, false, [], "invalid-mutation", "invalid-mutation").
Proof. vm_compute. reflexivity. Qed.
(** A copy into a new directory, after [|||], is ready before the directory is
    made; the order of the pool decides whether it works. *)
Example fanout_races :
  let source := "mkdir new ; cp docs/a.txt new/b ||| cp docs/a.txt new/c" in
  verdict (compare_example id clean_disk source) = Ok (true, true, [], "executed", "executed") /\
  verdict (compare_example (@rev _) clean_disk source) = Ok (false, false, ["stderr"; "status"; "outputs"], "executed", "invalid-mutation").
Proof. split; vm_compute; reflexivity. Qed.

Definition fanout_program : command_program := Eval vm_compute in
  match compile plain_tools quiet_os example_workspace clean_disk default_policy "echo a > x ||| echo b > y" with
  | Ok p => p | Err _ => CommandGraphProgram "" "" [] [] [] [] default_policy [] "" end.
Lemma fanout_validates : validate fanout_program = Ok tt.
Proof. vm_compute. reflexivity. Qed.
Lemma fanout_streams : Forall stream_ok (cg_nodes fanout_program).
Proof. repeat constructor; intros [=]. Qed.

(** An [echo] into a new file of the stage's root. *)
Definition echoes (n : command_node) (file : string) : Prop :=
  executable plain_tools (nd_tool n) = Ok "/usr/bin/echo" /\ nd_path_indices n = [] /\ tl_adapter (nd_tool n) = "direct-argv" /\
  nd_stdin_file n = None /\ nd_stdout_file n = Some ("/" +:+ file) /\ stage_path ("/" +:+ file) = Ok [file] /\ (length (ascii_bytes (String.concat " " (nd_argv n))) <= 10)%nat.
Lemma echo_runs n file : echoes n file -> exists oc data, forall root t stdin,
  run_node plain_tools example_processes default_policy root n t stdin =
    match t !! [file] with Some _ => fail ("output collision: " +:+ ("/" +:+ file)) | None => Ok (oc, [], <[[file] := EFile data]> t) end.
Proof.
  intros (H1 & H2 & H3 & H4 & H5 & H6 & H7). eexists _, _. intros root t stdin. unfold run_node. rewrite H1. cbn [bind].
  unfold process_argv. rewrite H2, H3. cbn [foldM bind]. change (String.eqb "direct-argv" "shasum-a-256") with false. cbn iota. cbn [bind]. rewrite H4, H5. cbn [bind prepare_output]. rewrite H6. cbn [bind].
  destruct (t !! [file]) eqn:Et; cbn [is_Some_b]; [done|]. change (make_parents t (parent [file])) with (Ok t). cbn [bind].
  unfold example_processes, example_spawn. cbn [px_spawn px_rewrite px_render]. rewrite !(proj2 (Z.ltb_ge _ _)) by (cbn [po_max_capture_bytes default_policy]; unfold MAX_CAPTURE_BYTES; cbn [length]; lia).
  cbn [orb bind Z.eqb String.eqb]. change (String.eqb "executed" "executed") with true. cbn iota. cbn [bind]. unfold write_staged. rewrite Et. cbn [bind]. reflexivity.
Qed.
Lemma fanout_nodes : exists a b, cg_nodes fanout_program = [a; b] /\ echoes a "x" /\ echoes b "y".
Proof. eexists _, _. split; [reflexivity|]. split; (split_and!; vm_compute; first [reflexivity|lia]). Qed.
Lemma fanout_pair n m : n ∈ cg_nodes fanout_program -> m ∈ cg_nodes fanout_program ->
  (exists f, echoes n f) /\ (n <> m -> exists f g, f <> g /\ echoes n f /\ echoes m g).
Proof.
  destruct fanout_nodes as (a & b & Hnodes & Ha & Hb). rewrite Hnodes. clear Hnodes. rewrite !elem_of_cons, !elem_of_nil.
  assert (Hxy : "x" <> "y") by discriminate. assert (Hyx : "y" <> "x") by discriminate.
  intros [-> |[-> |[]]] [-> |[-> |[]]]; (split; [eexists; eassumption|]); intros Hne; try (by destruct (Hne eq_refl)); eexists _, _; (split; [|split; eassumption]); assumption.
Qed.
Lemma echoes_commute n m f g root : echoes n f -> echoes m g -> f <> g -> commute (run_node plain_tools example_processes default_policy root) n m.
Proof.
  intros (oc & data & Hn)%echo_runs (oc' & data' & Hm)%echo_runs Hfg t sn sm r. rewrite Hn, Hm.
  assert (Hne : [f] <> [g]) by congruence.
  destruct (t !! [f]) eqn:Ef, (t !! [g]) eqn:Eg; cbn [bind]; rewrite ?Hn, ?Hm, ?lookup_insert_ne by done; rewrite ?Ef, ?Eg; cbn [bind]; try done.
  by rewrite insert_insert_ne.
Qed.
Definition fanout_compared : res (execution_outcome * execution_outcome * tree) :=
  compare_runs plain_tools example_processes id (@rev _) example_workspace "/tmp/x/direct" "/tmp/x/graph" clean_disk fanout_program "direct-first".

Lemma executors_return_witness :
  let run := run_node plain_tools example_processes default_policy "/tmp/x/graph" in
  execution_ok run fanout_program (direct_execute run id fanout_program ∅ ∅) /\ execution_ok run fanout_program (graph_execute run id fanout_program ∅ ∅).
Proof. apply (executors_return _ id fanout_program ∅ ∅); [done|exact fanout_validates]. Defined.

Lemma comparison_agrees_witness : exists direct graph stage, fanout_compared = Ok (direct, graph, stage) /\ differences direct graph = [].
Proof.
  assert (H : exists direct graph stage, fanout_compared = Ok (direct, graph, stage)) by (do 3 eexists; vm_compute; reflexivity).
  destruct H as (direct & graph & stage & H). exists direct, graph, stage. split; [done|].   apply (comparison_agrees plain_tools example_processes id (@rev _) example_workspace "/tmp/x/direct" "/tmp/x/graph" clean_disk fanout_program "direct-first" direct graph stage); [done| |exact fanout_streams| | |exact H].
  - intros l. symmetry. apply Permutation_rev.
  - change (cg_policy fanout_program) with default_policy. intros n t stdin Hn. destruct (fanout_pair n n Hn Hn) as [[f (oc & data & Hr)%echo_runs] _]. rewrite !Hr. reflexivity.
  - change (cg_policy fanout_program) with default_policy. intros n m Hn Hm [Hne _]. destruct (fanout_pair n m Hn Hm) as [_ Hp]. destruct (Hp Hne) as (f & g & Hfg & Hf & Hg).
    exact (echoes_commute n m f g _ Hf Hg Hfg).
Defined.

Lemma clean_disk_ok : disk_ok clean_disk.
Proof.
  split; [by vm_compute|]. intros p Hp. unfold clean_disk in *. cbn [dk_tree] in Hp.
  destruct (decide (p = ["docs"])) as [->|]; [done|]. destruct (decide (p = ["docs"; "a.txt"])) as [->|]; [done|].
  rewrite !lookup_insert_ne, lookup_empty in Hp by done. by destruct Hp.
Qed.
(** What a result of a comparison says of its publication. *)
Definition committed (r : res graph_result) : bool := match r with Ok g => gr_committed g | Err _ => false end.
Lemma comparison_publishes_agreed_witness :
  exists d' r, comparison_execute plain_tools example_processes id id quiet_os example_workspace "/tmp/x/direct" "/tmp/x/graph" clean_disk fanout_program true "direct-first" = (d', r) /\
  committed r = true /\ exists (stage : tree) e, lstat d' ["y"] = Some e /\ stage !! ["y"] = Some e.
Proof.
  destruct (comparison_execute plain_tools example_processes id id quiet_os example_workspace "/tmp/x/direct" "/tmp/x/graph" clean_disk fanout_program true "direct-first") as [d' r] eqn:E.
  assert (Hr : committed r = true) by (change r with (d', r).2; rewrite <- E; vm_compute; reflexivity). exists d', r. split; [reflexivity|]. split; [exact Hr|].
  destruct (comparison_publishes_agreed _ _ _ _ _ _ _ _ _ _ _ _ _ _ clean_disk_ok E) as (_ & [[_ H]|(_ & direct & graph & stage & _ & _ & [(g & _ & _ & H & _)|([e ->] & _)])]).
  - destruct r as [g|e]; [|discriminate Hr]. specialize (H g eq_refl). cbn in Hr. rewrite H in Hr. discriminate Hr.
  - destruct (H "/y") as (sp & ps & e & H1 & H2 & H3 & H4); [right; left|]. assert (sp = ["y"] /\ ps = ["y"]) as [-> ->]; [|exists stage, e; split; [exact H4|exact H3]].
    split; [assert (Hs : stage_path "/y" = Ok ["y"]) by (vm_compute; reflexivity)|assert (Hs : parts_of example_workspace "/y" = Ok ["y"]) by (vm_compute; reflexivity)]; congruence.
  - discriminate Hr.
Defined.

Lemma hidden_entry_invalid_witness :
  exists initial stage out left, graph_execute (run_node plain_tools example_processes default_policy "/tmp/x/graph") id fanout_program stage initial = Ok (out, left) /\
    snapshot {[ [".git"] := EDir ]} = Ok (initial, stage) /\ xo_status out = "invalid-mutation".
Proof.
  assert (H : exists initial stage out left, graph_execute (run_node plain_tools example_processes default_policy "/tmp/x/graph") id fanout_program stage initial = Ok (out, left) /\
    snapshot {[ [".git"] := EDir ]} = Ok (initial, stage) /\ left !! [".git"] = Some EDir).
  { exists {[ "/git" := "directory" ]}, {[ [".git"] := EDir ]}. do 2 eexists. split_and!; vm_compute; reflexivity. }
  destruct H as (initial & stage & out & left & Hx & Hs & Hl). exists initial, stage, out, left. split_and!; [exact Hx|exact Hs|].
  apply (hidden_entry_invalid (run_node plain_tools example_processes default_policy "/tmp/x/graph") id fanout_program {[ [".git"] := EDir ]} initial stage "git" [] EDir out left Hs Hl); [by left| |by right].
  apply (bool_decide_unpack _). vm_compute. exact I.
Defined.
