(* ===== verification/Tiling.v ===== *)
(** * Whole grids on the graph device ([raveil/project_tiling.py], [raveil/grid_kernel.py])

    A kernel over a grid of at most 64 by 64 words is compiled once for the
    device's 16 by 16 tile; every tile gets its 18 by 18 halo as an input
    document, and the checked outputs of the tiles are assembled and compared with
    an untiled evaluation. A tile's device run is represented by the words it
    returns, which are checked against the device's oracle as [_child] does. The
    fixed 32 by 32 five-point grid of the first plan schema is here as well. *)

From S2P Require Import Prelude PyValue Json Project AffineFold FoldWire Sha256 DeviceProgram Grid.
From Stdlib Require Import Ascii.

(** ** Kernels *)

(** [except (TypeError, KeyError, IndexError)] of [project_graph.compile_graph] *)
Definition malformed_graph {A} (r : res A) : res A :=
  match r with Err (TypeError | KeyError | IndexError) => fail "malformed Graph descriptor" | r => r end.

(** [graph_device_dynamic._profile_for] *)
Definition profile_for (a : affine) : res unit :=
  let known := ((af_rows a =? 16) && (af_columns a =? 16) && (af_input_stride a =? 18) && (af_output_stride a =? 16)) ||
               ((af_rows a =? 8) && (af_columns a =? 8) && (af_input_stride a =? 10) && (af_output_stride a =? 8)) in
  raise_if negb known with "dynamic request must use the baseline or compact affine profile" in Ok tt.

(** [project_graph.compile_graph] *)
Definition compile_graph (value : dict) : res program :=
  malformed_graph (let* p := compile_descriptor value in let* _ := profile_for (pg_affine p) in Ok p).

Definition KERNEL : string := "raveil.grid-kernel/v1".
Definition device_tile : affine := Affine 16 16 18 16.
Definition kernel_descriptor (graph_id nodes : pyval) : dict :=
  [("schema", VStr "raveil.graph-device-dag/v5"); ("graph_id", graph_id); ("affine", affine_val device_tile); ("nodes", nodes)].

(** [compile_kernel] *)
Definition compile_kernel (raw : string) : res dict :=
  raise_if 16384 <? Z.of_nat (String.length raw) with "kernel exceeds 16 KiB" in
  let* value := composition_json raw in
  match value with
  | VDict d =>
      raise_if negb (keys_are d ["schema"; "graph_id"; "nodes"]) || negb (is_str (default VNone (dget "schema" d)) KERNEL)
      with "expected exact grid-kernel/v1 schema" in
      let* graph_id := dsub d "graph_id" in let* nodes := dsub d "nodes" in
      let descriptor := kernel_descriptor graph_id nodes in
      let* _ := compile_graph descriptor in Ok descriptor
  | _ => fail "expected composition object"
  end.

(** ** The untiled evaluation *)

(** [evaluate]: the memo after it, and the value; the nodes of an admitted
    descriptor have no selector addresses, and its store is no operand. *)
Fixpoint evaluate (load : Z -> Z -> res Z) (nodes : list dnode) (fuel : nat) (memo : gmap string Z) (identity : string)
    : res (gmap string Z * Z) :=
  match fuel with
  | O => Err OutOfFuel
  | S fuel =>
      match memo !! identity with
      | Some v => Ok (memo, v)
      | None =>
          let* n := from_option_err KeyError (find_node identity nodes) in
          let* ' (memo, value) :=
            match dn_op n with
            | DLoad (ARelative row_delta column_delta) => let* v := load row_delta column_delta in Ok (memo, v)
            | DLoad (ASelector _) => Err TypeError
            | DBin o x y =>
                let* ' (memo, a) := evaluate load nodes fuel memo x in
                let* ' (memo, b) := evaluate load nodes fuel memo y in
                Ok (memo, match o with DAdd => a + b | DMul => a * b | DMax => Z.max a b end)
            | DImm o x immediate =>
                let* ' (memo, a) := evaluate load nodes fuel memo x in
                Ok (memo, match o with DAddImm => a + immediate | DGeImm => if immediate <=? a then 1 else 0 end)
            | DStore x => let* _ := evaluate load nodes fuel memo x in Err KeyError
            end in
          let value := Z.land value MASK in
          Ok (<[identity := value]> memo, value)
      end
  end.

Definition store_input (nodes : list dnode) : res string :=
  match list.last nodes with Some (DNode _ (DStore x)) => Ok x | _ => Err KeyError end.

(** One output word: an operand chain visits every node at most once. *)
Definition cell_reference (g : grid) (mode : boundary) (nodes : list dnode) (x : string) (row column : Z) : res Z :=
  let* ' (_, value) := evaluate (fun dr dc => oracle_sample g (row + dr) (column + dc) mode) nodes (S (length nodes)) ∅ x in Ok value.

(** [grid_kernel.reference] *)
Definition kernel_reference (g : grid) (value : dict) (mode : boundary) : res (list Z) :=
  let* _ := compile_graph value in
  let* d := validate_descriptor value in
  let* x := store_input (dc_nodes d) in
  traverse (fun rc => cell_reference g mode (dc_nodes d) x rc.1 rc.2) (coordinates (gr_rows g) (gr_columns g)).

(** ** Tiles as documents *)

Definition GRAPH_INPUT : string := "raveil.graph-input/v1".
Definition tile_doc (words : list Z) : pyval := VDict [("schema", VStr GRAPH_INPUT); ("words", words_val words)].

(** [project_graph.input_bytes] and [struct.unpack] of what it returns: the words. *)
Definition graph_input_words (payload : string) : res (list Z) :=
  raise_if 65536 <? Z.of_nat (String.length payload) with "Graph input exceeds 64 KiB" in
  let* value := json_loads (Hooks false "duplicate Graph input field") payload in
  match value with
  | VDict d =>
      raise_if negb (keys_are d ["schema"; "words"]) || negb (is_str (default VNone (dget "schema" d)) GRAPH_INPUT)
      with "Graph input must be an exact raveil.graph-input/v1 object" in
      match dget "words" d with
      | Some (VList l) =>
          raise_if negb (length l =? 324)%nat with "Graph input needs exactly 324 uint32 words" in
          from_option_err (ValueError "Graph input words must be uint32 integers") (mapM (int_in 0 0xffffffff) l)
      | _ => fail "Graph input needs exactly 324 uint32 words"
      end
  | _ => fail "Graph input must be an exact raveil.graph-input/v1 object"
  end.

(** ** The fixed five-point grid of the first plan schema *)

Definition TILING_INPUT : string := "raveil.grid-input/v1".
Definition ORIGINS : list (Z * Z) := [(0, 0); (0, 16); (16, 0); (16, 16)].

(** [project_tiling.graph_input_words] *)
Definition fixed_words (raw : string) : res (list Z) :=
  raise_if 65536 <? Z.of_nat (String.length raw) with "grid input exceeds64 KiB" in
  let* value := composition_json raw in
  match value with
  | VDict d =>
      raise_if negb (keys_are d ["schema"; "rows"; "columns"; "words"]) ||
               negb (is_str (default VNone (dget "schema" d)) TILING_INPUT)
      with "expected exact grid input schema" in
      let* rows := dsub d "rows" in let* columns := dsub d "columns" in
      match int_in 32 32 rows, int_in 32 32 columns with
      | Some _, Some _ =>
          match dget "words" d with
          | Some (VList l) =>
              raise_if negb (length l =? 1024)%nat with "grid requires1024 uint32 words" in
              from_option_err (ValueError "grid requires1024 uint32 words") (mapM (int_in 0 0xffffffff) l)
          | _ => fail "grid requires1024 uint32 words"
          end
      | _, _ => fail "tiling requires exactly32x32"
      end
  | _ => fail "expected composition object"
  end.

Definition load_node (label : string) (row column : Z) : pyval :=
  VDict [("id", VStr label); ("op", VStr "LOAD_U32"); ("address", VDict [("row_delta", VInt row); ("column_delta", VInt column)])].
Definition sum_node (id x y : string) : pyval := VDict [("id", VStr id); ("op", VStr "ADD_U32"); ("inputs", VList [VStr x; VStr y])].

(** [project_tiling.descriptor] *)
Definition fixed_descriptor : dict :=
  [("schema", VStr "raveil.graph-device-dag/v2"); ("graph_id", VStr "tiled-five-point"); ("affine", affine_val device_tile);
   ("nodes", VList [load_node "center" 0 0; load_node "north" (-1) 0; sum_node "sum1" "center" "north"; load_node "south" 1 0;
      sum_node "sum2" "sum1" "south"; load_node "west" 0 (-1); sum_node "sum3" "sum2" "west"; load_node "east" 0 1; sum_node "sum4" "sum3" "east";
      VDict [("id", VStr "store"); ("op", VStr "STORE_U32"); ("input", VStr "sum4")]])].

(** [tile_words]: the words of the tile at [ORIGINS[slot]]. *)
Definition tile_words (words : list Z) (slot : Z) : res (list Z) :=
  let* ' (row, col) := py_index ORIGINS slot in
  let* rows := traverse (fun r => traverse (fun k =>
      if bool_decide (0 <= r < 32) && bool_decide (0 <= k < 32) then py_index words (r * 32 + k) else Ok 0)
      (zrange (col - 1) (col + 17))) (zrange (row - 1) (row + 17)) in
  Ok (concat rows).

(** [global_reference] at a cell *)
Definition global_cell (words : list Z) (rc : Z * Z) : res Z :=
  let '(row, col) := rc in
  let index := row * 32 + col in
  let add (cond : bool) (i total : Z) := if cond then let* w := py_index words i in Ok (total + w) else Ok total in
  let* total := py_index words index in
  let* total := add (negb (row =? 0)) (index - 32) total in
  let* total := add (row <? 31) (index + 32) total in
  let* total := add (negb (col =? 0)) (index - 1) total in
  let* total := add (col <? 31) (index + 1) total in
  Ok (Z.land total MASK).
Definition global_reference (words : list Z) : res (list Z) := traverse (global_cell words) (coordinates 32 32).

(** ** Plans *)

(** A plan with the documents frozen next to it; [ti_fixed] is the first schema. *)
Record tiling := Tiling {
  ti_fixed : bool; ti_grid : grid; ti_boundary : boundary; ti_descriptor : dict; ti_layout : list grid_tile; ti_tiles : list string }.

(** [_filename] *)
Definition tiling_filename (v : pyval) : res string :=
  match v with
  | VStr s =>
      let n := String.length s in
      raise_if negb (String.eqb (String.substring (n - 5) 5 s) ".json") || (n <? 5)%nat with "tiling input must be a JSON filename inside inputs/" in
      let* _ := Project.name (VStr (String.substring 0 (n - 5) s)) in Ok s
  | _ => fail "tiling input must be a JSON filename inside inputs/"
  end.

(** [_planned], without the digests that the plan repeats: the kernel with its
    file name, when there is one. *)
Definition planned (input_file : pyval) (raw : string) (kernel : option (pyval * string)) (boundary : pyval) : res tiling :=
  let* mode := boundary_of boundary in
  match kernel with
  | Some (kernel_file, kernel_raw) =>
      let* g := read_input raw in
      let* descriptor := compile_kernel kernel_raw in
      let tiles := layout (gr_rows g) (gr_columns g) in
      let* texts := traverse (fun t => let* words := halo g (tl_row t) (tl_column t) mode in encoded (tile_doc words)) tiles in
      let* _ := tiling_filename input_file in
      let* _ := tiling_filename kernel_file in
      let* _ := traverse graph_input_words texts in
      Ok (Tiling false g mode descriptor tiles texts)
  | None =>
      raise_if negb (bool_decide (mode = BZero)) with "legacy fixed grid requires zero boundary and no kernel" in
      let* words := fixed_words raw in
      let* texts := traverse (fun slot => let* words := tile_words words slot in encoded (tile_doc words)) (zseq 4) in
      let* _ := compile_graph fixed_descriptor in
      let* _ := tiling_filename input_file in
      let* _ := traverse graph_input_words texts in
      Ok (Tiling true (Grid 32 32 words) mode fixed_descriptor
            (map (fun srk : Z * (Z * Z) => GridTile srk.1 srk.2.1 srk.2.2 16 16) (enumerate ORIGINS)) texts)
  end.

(** ** Assembly *)

(** [_child]: the words of a tile's run, which must be the oracle's. *)
Definition child_values (value : dict) (tile : string) (output : list Z) : res (list Z) :=
  let* packed := graph_input_words tile in
  let* expected := graph_oracle value packed in
  raise_if negb (bool_decide (output = expected)) with "child output differs from independent oracle" in
  raise_if negb (length output =? 256)%nat with "tile output size differs" in
  Ok output.

(** One word of a tile. *)
Definition place_value (columns : Z) (t : grid_tile) (values : list Z) (result : list (option Z)) (rc : Z * Z) : res (list (option Z)) :=
  let '(r, column) := rc in
  let index := (tl_row t + r) * columns + tl_column t + column in
  let* old := py_index result index in
  raise_if is_Some_b old with "tile outputs overlap" in
  let* w := py_index values (r * 16 + column) in
  py_set result index (Some w).

(** One iteration of [for slot, entry in enumerate(children)]. *)
Definition place_child (p : tiling) (result : list (option Z)) (ct : list Z * (grid_tile * string)) : res (list (option Z)) :=
  let '(output, (t, tile)) := ct in
  let* values := child_values (ti_descriptor p) tile output in
  foldM (place_value (gr_columns (ti_grid p)) t values) result (coordinates (tl_rows t) (tl_columns t)).

(** The reference of a plan's schema. *)
Definition plan_reference (p : tiling) : res (list Z) :=
  if ti_fixed p then global_reference (gr_words (ti_grid p)) else kernel_reference (ti_grid p) (ti_descriptor p) (ti_boundary p).

(** [_assembled]: the words, of the outputs of the tiles' runs in order. *)
Definition assembled (p : tiling) (children : list (list Z)) : res (list Z) :=
  raise_if negb (length children =? length (ti_tiles p))%nat with "assembly requires all complete children" in
  let g := ti_grid p in
  let* result := foldM (place_child p) (replicate (Z.to_nat (gr_rows g * gr_columns g)) None) (zip children (zip (ti_layout p) (ti_tiles p))) in
  let* expected := plan_reference p in
  raise_if negb (bool_decide (result = map Some expected)) with "assembled output differs from full-grid reference" in
  Ok expected.
