(* ===== verification/TilingFacts.v ===== *)
(** * Whole grids on the graph device: lemmas

    The values of a kernel's nodes at a cell, which both the device's oracle and
    the untiled evaluation compute. *)

From S2P Require Import Prelude PyValue Json JsonFacts Project AffineFold FoldWire Sha256 DeviceProgram DeviceScheduleFacts DeviceProgramFacts DeviceRun StaticRegionOracle Grid GridFacts GridWords Tiling.
From Stdlib Require Import Ascii.

(** ** The values of the nodes *)

Section values.
Context (load : Z -> Z -> Z) (Hload : forall r c, is_word (load r c)).

Definition dnode_value (env : gmap string Z) (n : dnode) : Z :=
  match dn_op n with
  | DLoad (ARelative r c) => load r c
  | DLoad (ASelector _) => 0
  | DBin o x y => bin_value o (default 0 (env !! x)) (default 0 (env !! y))
  | DImm o x imm => imm_value o (default 0 (env !! x)) imm
  | DStore _ => 0
  end.
Definition denote (l : list dnode) : gmap string Z := foldl (fun env n => <[dn_id n := dnode_value env n]> env) ∅ l.

Lemma denote_snoc l n : denote (l ++ [n]) = <[dn_id n := dnode_value (denote l) n]> (denote l).
Proof. unfold denote. by rewrite foldl_app. Qed.

Lemma denote_keys l x : is_Some (denote l !! x) <-> x ∈ ids l.
Proof.
  induction l as [|n l IH] using rev_ind.
  - unfold denote. cbn. rewrite lookup_empty. split; [by intros [? [=]]|by intros ?%elem_of_nil].
  - rewrite denote_snoc, map_app, elem_of_app. cbn [map]. rewrite list_elem_of_singleton. destruct (decide (x = dn_id n)) as [->|Hne].
    + rewrite lookup_insert_eq. split; [by right|by eexists].
    + rewrite lookup_insert_ne by done. rewrite IH. naive_solver.
Qed.

Lemma denote_app l1 l2 x : NoDup (ids (l1 ++ l2)) -> x ∈ ids l1 -> denote (l1 ++ l2) !! x = denote l1 !! x.
Proof.
  intros Hnd Hx. induction l2 as [|n l2 IH] using rev_ind; [by rewrite app_nil_r|]. rewrite app_assoc in *. rewrite denote_snoc.
  rewrite map_app in Hnd. apply NoDup_app in Hnd as (Hnd & Hdis & _). rewrite lookup_insert_ne; [by apply IH|].
  intros Heq. apply (Hdis x); [rewrite map_app; apply elem_of_app; by left|]. cbn [map]. rewrite Heq. left.
Qed.

Lemma dnode_value_ext env env' n : (forall x, x ∈ dependencies n -> env !! x = env' !! x) -> dnode_value env n = dnode_value env' n.
Proof.
  intros H. unfold dnode_value. unfold dependencies in H. destruct (dn_op n) as [[]|o x y|o x imm|x]; try done.
  - rewrite (H x), (H y); [done|right; left|left].
  - rewrite (H x); [done|left].
Qed.

(** A node's value is its operation on the values of its operands. *)
Lemma denote_at l1 n l2 : NoDup (ids (l1 ++ n :: l2)) -> ordered (l1 ++ n :: l2) ->
  denote (l1 ++ n :: l2) !! dn_id n = Some (dnode_value (denote (l1 ++ n :: l2)) n).
Proof.
  intros Hnd Ho. assert (Heq : l1 ++ n :: l2 = (l1 ++ [n]) ++ l2) by (by rewrite <- app_assoc). rewrite Heq in Hnd |- *.
  rewrite denote_app; [|done|rewrite map_app; apply elem_of_app; right; left]. rewrite denote_snoc, lookup_insert_eq. f_equal. apply dnode_value_ext.
  intros x Hx. assert (x ∈ ids l1) by (eapply (Ho l1 n l2); done). rewrite <- app_assoc. cbn [app]. symmetry. apply denote_app; [by rewrite <- Heq in Hnd|done].
Qed.

Lemma dnode_value_word env n : (forall x v, env !! x = Some v -> is_word v) -> is_word (dnode_value env n).
Proof.
  intros He. assert (H0 : is_word 0) by (unfold is_word; rewrite MASK_eq; lia).
  assert (Hd : forall x, is_word (default 0 (env !! x))) by (intros x; destruct (env !! x) eqn:E; [by eapply He|done]).
  unfold dnode_value. destruct (dn_op n) as [[]|o x y|o x imm|x]; [done|apply Hload|by apply (bin_value_word (zseq 324) eq_refl)|apply (imm_value_word (zseq 324) eq_refl)|done].
Qed.
Lemma denote_word l x v : denote l !! x = Some v -> is_word v.
Proof.
  revert x v. induction l as [|n l IH] using rev_ind; intros x v; [done|]. rewrite denote_snoc. intros [[<- <-]|[_ H]]%lookup_insert_Some; [|by eapply IH].
  by apply dnode_value_word.
Qed.

(** The nodes of a kernel: loads are relative, the store is not among them. *)
Definition plain_node (n : dnode) : bool := match dn_op n with DLoad (ASelector _) | DStore _ => false | _ => true end.

(** ** The device's oracle *)

Lemma oracle_denote words center stride o out l :
  (forall r c, -1 <= r <= 1 -> -1 <= c <= 1 -> py_index words (center + r * stride + c) = Ok (load r c)) ->
  ordered l -> Forall (fun n => plain_node n = true) l ->
  Forall (fun n => match dn_op n with DLoad (ARelative r c) => -1 <= r <= 1 /\ -1 <= c <= 1 | _ => True end) l ->
  foldM (oracle_node words center stride o) (∅, out) l = Ok (denote l, out).
Proof.
  intros Hw. induction l as [|n l IH] using rev_ind; intros Ho Hp Hr; [done|]. apply Forall_app in Hp as [Hp [Hpn _]%Forall_cons]. apply Forall_app in Hr as [Hr [Hrn _]%Forall_cons].
  rewrite foldM_app, IH by (done || by eapply ordered_prefix). cbn [bind foldM]. rewrite denote_snoc.
  assert (Hdep : forall x, x ∈ dependencies n -> value_of (denote l) x = Ok (default 0 (denote l !! x))).
  { intros x Hx. assert (Hi : x ∈ ids l) by (eapply (Ho l n []); done). apply denote_keys in Hi as [v Hv]. unfold value_of. by rewrite Hv. }
  unfold oracle_node, dnode_value, plain_node, dependencies in *. destruct (dn_op n) as [[]|b x y|b x imm|x]; try discriminate Hpn.
  - cbn [node_address bind]. rewrite Hw by lia. done.
  - by rewrite (Hdep x), (Hdep y) by (left || (right; left)).
  - by rewrite (Hdep x) by left.
Qed.

(** ** The untiled evaluation *)

Section evaluate.
Context (l : list dnode) (nodes : list dnode) (st : dnode) (Hnd : NoDup (ids (l ++ [st]))) (Ho : ordered l) (Hp : Forall (fun n => plain_node n = true) l)
  (Hperm : l ++ [st] ≡ₚ nodes).

Lemma find_perm n : n ∈ l -> find_node (dn_id n) nodes = Some n.
Proof.
  intros Hn. apply find_node_spec; [by rewrite <- Hperm|by rewrite <- Hperm; apply elem_of_app; left|done].
Qed.

Lemma NoDup_kernel : NoDup (ids l).
Proof. rewrite map_app in Hnd. by apply NoDup_app in Hnd as [? _]. Qed.

(** With fuel beyond the position of a node, [evaluate] gives its value and
    keeps a memo of values. *)
Lemma evaluate_denote fuel i n memo :
  l !! i = Some n -> (i < fuel)%nat -> memo ⊆ denote l ->
  exists memo' v, evaluate (fun r c => Ok (load r c)) nodes fuel memo (dn_id n) = Ok (memo', v) /\ denote l !! dn_id n = Some v /\ memo' ⊆ denote l.
Proof.
  revert i n memo. induction fuel as [|fuel IH]; intros i n memo Hi Hf Hm; [lia|]. cbn [evaluate].
  destruct (memo !! dn_id n) as [v|] eqn:Hv; [exists memo, v; split_and!; [done|by eapply lookup_weaken|done]|].
  pose proof (list_elem_of_lookup_2 _ _ _ Hi) as Hn. rewrite find_perm by done. cbn [from_option_err bind].
  pose proof (take_drop_middle l i n Hi) as Hsplit. pose proof NoDup_kernel as Hndl.
  assert (Hval : denote l !! dn_id n = Some (dnode_value (denote l) n)).
  { rewrite <- Hsplit in Hndl, Ho |- *. by apply denote_at. }
  assert (Hdep : forall x memo, x ∈ dependencies n -> memo ⊆ denote l ->
    exists memo' v, evaluate (fun r c => Ok (load r c)) nodes fuel memo x = Ok (memo', v) /\ denote l !! x = Some v /\ memo' ⊆ denote l).
  { intros x memo1 Hx Hm1. assert (Hin : x ∈ ids (take i l)) by (eapply (Ho (take i l) n (drop (S i) l)); done).
    apply list_elem_of_fmap in Hin as (m & -> & Hin). apply list_elem_of_lookup in Hin as [j Hj]. apply lookup_take_Some in Hj as [Hj Hji].
    apply (IH j); [done|lia|done]. }
  pose proof (Forall_lookup_1 _ _ _ _ Hp Hi) as Hpn.
  assert (Hfin : forall memo1 v, memo1 ⊆ denote l -> Z.land v MASK = dnode_value (denote l) n ->
    exists memo' w, Ok (<[dn_id n := Z.land v MASK]> memo1, Z.land v MASK) = Ok (memo', w) /\ denote l !! dn_id n = Some w /\ memo' ⊆ denote l).
  { intros memo1 v Hm1 ->. eexists _, _. split_and!; [done|done|]. by apply insert_subseteq_l. }
  unfold dnode_value, plain_node, dependencies in *. destruct (dn_op n) as [[|dr dc]|b x y|b x imm|x] eqn:Hop; try discriminate Hpn.
  - cbn [bind]. apply Hfin; [done|]. by apply u32_id.
  - destruct (Hdep x memo) as (m1 & a & -> & Ha & Hm1); [left|done|]. cbn [bind].
    destruct (Hdep y m1) as (m2 & c & -> & Hc & Hm2); [right; left|done|]. cbn [bind]. rewrite Ha, Hc in *. cbn [default] in *.
    apply Hfin; [done|]. apply denote_word in Ha, Hc. destruct b; cbn [bin_value]; try done. apply u32_id. unfold is_word in *. cbn. lia.
  - destruct (Hdep x memo) as (m1 & a & -> & Ha & Hm1); [left|done|]. cbn [bind]. rewrite Ha in *. cbn [default] in *.
    apply Hfin; [done|]. destruct b; cbn [imm_value]; [done|]. unfold id. destruct (imm <=? a); reflexivity.
Qed.

Lemma evaluate_at x : x ∈ ids l ->
  exists memo, evaluate (fun r c => Ok (load r c)) nodes (S (length nodes)) ∅ x = Ok (memo, default 0 (denote l !! x)).
Proof.
  intros (n & -> & Hn)%list_elem_of_fmap. apply list_elem_of_lookup in Hn as [i Hi]. pose proof (lookup_lt_Some _ _ _ Hi).
  assert (length nodes = S (length l)) by (rewrite <- Hperm, length_app; cbn; lia).
  destruct (evaluate_denote (S (length nodes)) i n ∅) as (m & v & He & Hv & _); [done|lia|apply map_empty_subseteq|]. exists m. by rewrite He, Hv.
Qed.
End evaluate.
End values.

Lemma foldM_ext_inv {S A} (P : S -> Prop) (f g : S -> A -> res S) s l :
  P s -> (forall s x, x ∈ l -> P s -> f s x = g s x /\ forall s', g s x = Ok s' -> P s') -> foldM f s l = foldM g s l.
Proof.
  revert s. induction l as [|x l IH]; intros s Hs H; [done|]. cbn [foldM]. destruct (H s x) as [-> Hp]; [left|done|].
  destruct (g s x) as [s'|]; [|done]. cbn [bind]. apply IH; [by apply Hp|]. intros; apply H; [by right|done].
Qed.

(** ** A kernel at a cell *)

Definition sample_at (g : grid) (mode : boundary) (r c : Z) : Z := match oracle_sample g r c mode with Ok v => v | Err _ => 0 end.

Lemma sample_at_ok g mode r c : grid_ok g -> oracle_sample g r c mode = Ok (sample_at g mode r c) /\ sample g r c mode = Ok (sample_at g mode r c) /\ is_word (sample_at g mode r c).
Proof. intros Hg. destruct (sample_ok g r c mode Hg) as (w & Hs & Ho & Hw). unfold sample_at. by rewrite Ho. Qed.

Lemma evaluate_ext load load' nodes fuel memo x :
  (forall r c, load r c = load' r c) -> evaluate load nodes fuel memo x = evaluate load' nodes fuel memo x.
Proof.
  intros H. revert memo x. induction fuel as [|fuel IH]; intros memo x; [done|]. cbn [evaluate]. destruct (memo !! x); [done|].
  destruct (find_node x nodes) as [n|]; [|done]. cbn [from_option_err bind]. destruct (dn_op n) as [[]|o a b|o a imm|a]; rewrite ?H, ?IH; try done.
  by destruct (evaluate load' nodes fuel memo a) as [[m v]|]; cbn [bind]; rewrite ?IH.
Qed.

(** The schedule of an admitted kernel and the operand of its store. *)
Record kernel_ok (value : dict) (d : descriptor) (l : list dnode) (x : string) : Prop := {
  ko_value : validate_descriptor value = Ok d;
  ko_tile : dc_affine d = device_tile;
  ko_schedule : exists id, scheduled_nodes (dc_nodes d) = Ok (l ++ [DNode id (DStore x)]) /\ l ++ [DNode id (DStore x)] ≡ₚ dc_nodes d /\ NoDup (ids (l ++ [DNode id (DStore x)]));
  ko_plain : Forall (fun n => plain_node n = true) l;
  ko_near : Forall (fun n => match dn_op n with DLoad (ARelative r c) => -1 <= r <= 1 /\ -1 <= c <= 1 | _ => True end) l;
  ko_ordered : ordered l;
  ko_store : store_input (dc_nodes d) = Ok x /\ x ∈ ids l }.

Lemma admitted_kernel value d :
  validate_descriptor value = Ok d -> dc_affine d = device_tile -> 2 <= dc_schema d -> exists l x, kernel_ok value d l x.
Proof.
  intros Hd Ht Hs. pose proof (validate_descriptor_ok _ _ Hd) as Hok. destruct (do_scheduled _ Hok) as [sched Hl].
  destruct (descriptor_schedule d sched Hok Hl) as (l & [id op] & -> & Hst & Hns & Hnodes & Hperm & Ho & Hnd). destruct op as [| | |x]; try discriminate Hst.
  exists l, x. split; [done|done|by exists id|..].
  - apply Forall_app in Hnodes as [Hn _]. apply Forall_forall. intros n Hin. rewrite Forall_forall in Hn, Hns. specialize (Hn n Hin). specialize (Hns n Hin).
    unfold plain_node, is_store, node_ok in *. destruct (dn_op n) as [[]|[]|[]|]; try done. destruct Hn. lia.
  - apply Forall_app in Hnodes as [Hn _]. eapply Forall_impl; [exact Hn|]. intros n H. unfold node_ok in H. destruct (dn_op n) as [[]|[]|[]|]; tauto.
  - by eapply ordered_prefix.
  - split; [|apply (Ho l (DNode id (DStore x)) []); [done|left]].
    destruct (do_store _ Hok) as (pre & st & Heq & Hst' & Hpre & _). unfold store_input. rewrite Heq, last_snoc.
    assert (Hin : st ∈ l ++ [DNode id (DStore x)]) by (rewrite Hperm, Heq; apply elem_of_app; right; left).
    apply elem_of_app in Hin as [Hin| ->%list_elem_of_singleton]; [|done]. rewrite Forall_forall in Hns. specialize (Hns _ Hin). congruence.
Qed.

Section kernel.
Context (g : grid) (Hg : grid_ok g) (mode : boundary) (value : dict) (d : descriptor) (l : list dnode) (x : string) (Hk : kernel_ok value d l x).

(** The output of the kernel at a cell. *)
Definition kernel_cell (rc : Z * Z) : Z := default 0 (denote (fun dr dc => sample_at g mode (rc.1 + dr) (rc.2 + dc)) l !! x).

Lemma kernel_cell_word rc : is_word (kernel_cell rc).
Proof.
  unfold kernel_cell. destruct (denote _ l !! x) eqn:E; [|unfold is_word; cbn; rewrite MASK_eq; lia]. eapply denote_word, E. intros. by apply sample_at_ok.
Qed.

Lemma cell_reference_ok row column : cell_reference g mode (dc_nodes d) x row column = Ok (kernel_cell (row, column)).
Proof.
  unfold cell_reference. rewrite (evaluate_ext _ (fun dr dc => Ok (sample_at g mode (row + dr) (column + dc)))) by (intros; by apply sample_at_ok).
  destruct (ko_schedule _ _ _ _ Hk) as (id & _ & Hperm & Hnd).
  destruct (evaluate_at (fun dr dc => sample_at g mode (row + dr) (column + dc)) ltac:(intros; by apply sample_at_ok) l (dc_nodes d) (DNode id (DStore x)) Hnd
    (ko_ordered _ _ _ _ Hk) (ko_plain _ _ _ _ Hk) Hperm x) as [m ->]; [apply (ko_store _ _ _ _ Hk)|done].
Qed.

Lemma kernel_reference_ok p : compile_graph value = Ok p -> kernel_reference g value mode = Ok (map kernel_cell (coordinates (gr_rows g) (gr_columns g))).
Proof.
  intros Hp. unfold kernel_reference. rewrite Hp, (ko_value _ _ _ _ Hk). cbn [bind]. destruct (ko_store _ _ _ _ Hk) as [-> _]. cbn [bind].
  apply traverse_pure. intros [r c] _. apply cell_reference_ok.
Qed.

(** The halo of a tile, and the device on it. *)
Definition halo_words (row column : Z) : list Z := map (fun rc => sample_at g mode (row - 1 + rc.1) (column - 1 + rc.2)) (coordinates 18 18).

Lemma zrange_zseq lo n : zrange lo (lo + n) = map (Z.add lo) (zseq n).
Proof. unfold zrange, zseq. change (map ?f ?l) with (f <$> l). rewrite fmap_add_seqZ. f_equal; lia. Qed.

Lemma halo_ok row column : halo g row column mode = Ok (halo_words row column).
Proof.
  unfold halo, halo_words. replace (row + 17) with (row - 1 + 18) by lia. replace (column + 17) with (column - 1 + 18) by lia. rewrite !zrange_zseq, traverse_map.
  rewrite (traverse_ext _ (fun r => traverse (fun c => Ok (sample_at g mode (row - 1 + r) (column - 1 + c))) (zseq 18))).
  - rewrite (traverse_coordinates (fun r c => Ok (sample_at g mode (row - 1 + r) (column - 1 + c)))). by apply traverse_pure.
  - intros r _. rewrite traverse_map. apply traverse_ext. intros c _. by apply sample_at_ok.
Qed.

Lemma halo_words_ok row column : length (halo_words row column) = 324%nat /\ Forall is_word (halo_words row column).
Proof.
  unfold halo_words. split; [by rewrite length_map|]. apply Forall_map, Forall_forall. intros rc _. by apply sample_at_ok.
Qed.

Lemma halo_at row column r c : 0 <= r < 18 -> 0 <= c < 18 -> py_index (halo_words row column) (r * 18 + c) = Ok (sample_at g mode (row - 1 + r) (column - 1 + c)).
Proof.
  intros Hr Hc. unfold py_index. destruct (halo_words_ok row column) as [-> _]. rewrite bool_decide_true by lia. unfold halo_words.
  rewrite list_lookup_fmap, lookup_coordinates by done. done.
Qed.

(** The loop over the points of a tile fills the output in order. *)
Lemma points_tile : points device_tile = map (fun rc => ((rc.1 + 1) * 18 + rc.2 + 1, rc.1 * 16 + rc.2)) (coordinates 16 16).
Proof. vm_compute. reflexivity. Qed.

Lemma tile_oracle row column :
  graph_oracle value (halo_words row column) = Ok (map (fun rc => kernel_cell (row + rc.1, column + rc.2)) (coordinates 16 16)).
Proof.
  unfold graph_oracle. destruct (ko_schedule _ _ _ _ Hk) as (id & Hs & _). rewrite (ko_value _ _ _ _ Hk). cbn [bind].
  destruct (halo_words_ok row column) as [-> _]. cbn [Nat.eqb negb]. rewrite Hs. cbn [bind]. rewrite for_points_foldM, (ko_tile _ _ _ _ Hk), points_tile, foldM_map. cbn [fst snd af_input_stride device_tile].
  set (f := fun rc : Z * Z => kernel_cell (row + rc.1, column + rc.2)).
  assert (Hstep : forall out r c, 0 <= r < 16 -> 0 <= c < 16 -> length out = 256%nat ->
    (let* ' (_, output) := foldM (oracle_node (halo_words row column) ((r + 1) * 18 + c + 1) 18 (r * 16 + c)) (∅, out) (l ++ [DNode id (DStore x)]) in Ok output) =
    Ok (set_at out (r * 16 + c) (f (r, c)))).
  { intros out r c Hr Hc Hlen. rewrite foldM_app, (oracle_denote (fun dr dc => sample_at g mode (row + r + dr) (column + c + dc))); try apply Hk.
    - cbn [bind foldM oracle_node dn_op]. destruct (ko_store _ _ _ _ Hk) as [_ Hx].
      apply (denote_keys (fun dr dc => sample_at g mode (row + r + dr) (column + c + dc))) in Hx as [v Hv]. unfold value_of. rewrite Hv. cbn [from_option_err bind].
      unfold py_set. rewrite bool_decide_true by lia. cbn [bind]. subst f. unfold kernel_cell. cbn [fst snd]. by rewrite Hv.
    - intros dr dc Hdr Hdc. replace ((r + 1) * 18 + c + 1 + dr * 18 + dc) with ((r + 1 + dr) * 18 + (c + 1 + dc)) by lia. rewrite halo_at by lia. do 2 f_equal; lia. }
  rewrite (foldM_ext_inv (fun out : list Z => length out = 256%nat) _ (fun out rc => Ok (set_at out (rc.1 * 16 + rc.2) (f rc)))).
  - set (idx := fun rc : Z * Z => rc.1 * 16 + rc.2). set (f' := fun i => f (i / 16, i mod 16)).
    assert (Hf : forall rc, rc ∈ coordinates 16 16 -> f' (idx rc) = f rc).
    { intros [r c] [Hr Hc]%elem_of_coordinates. unfold f', idx. cbn [fst snd]. f_equal. f_equal; dlia. }
    rewrite (foldM_ext_in _ (fun out rc => Ok (set_at out (idx rc) (f' (idx rc))))) by (intros; by rewrite Hf).
    rewrite <- (foldM_map (fun rc => (idx rc, idx rc)) (fun out p => Ok (set_at out p.2 (f' p.1)))), (fill f' _ 0); [|vm_compute; reflexivity|done].
    cbn [take app]. f_equal.
  - done.
  - intros out [r c] [Hr Hc]%elem_of_coordinates Hlen. cbn [fst snd]. rewrite Hstep by done. split; [done|]. intros out' [= <-]. by rewrite length_set_at.
Qed.
End kernel.
