(* ===== verification/TilingRun.v ===== *)
(** * Whole grids on the graph device: theorems

    The tiles of an admitted plan cover the grid once, their documents are read
    back to their halos, the device's outputs on them are the kernel's, and the
    assembly of exactly those outputs is the untiled reference. *)

From S2P Require Import Prelude PyValue Json JsonFacts Project AffineFold FoldWire Sha256 DeviceProgram DeviceScheduleFacts DeviceProgramFacts DeviceRun StaticRegionOracle Grid GridFacts GridWords Tiling TilingFacts.
From Stdlib Require Import Ascii.

(** ** Tile documents *)

Lemma tile_doc_json words : json_ok (tile_doc words) = true.
Proof.
  unfold tile_doc. cbn [json_ok forallb]. rewrite bool_decide_true by (apply (bool_decide_unpack _); vm_compute; done).
  cbn [andb snd json_ok words_val]. rewrite andb_true_r. by induction words.
Qed.

Lemma length_tile_doc words : Forall is_word words -> (String.length (dumps 0 (tile_doc words)) <= 17 * length words + 200)%nat.
Proof.
  intros Hw. unfold tile_doc. change (dumps 0 (VDict ?d)) with ("{" +:+ newline 2 +:+
    String.concat ("," +:+ newline 2) (map (fun kt => json_str kt.1 +:+ ": " +:+ kt.2) (sort_keys (map (fun kv => (kv.1, dumps 2 kv.2)) d))) +:+ newline 0 +:+ "}").
  change (sort_keys (map (fun kv => (kv.1, dumps 2 kv.2)) [("schema", VStr GRAPH_INPUT); ("words", words_val words)]))
    with [("schema", json_str GRAPH_INPUT); ("words", dumps 2 (words_val words))].
  cbn [map fst snd]. change (String.concat ?sep [?a; ?b]) with (a +:+ sep +:+ b). rewrite !length_append, !length_newline.
  pose proof (length_words_text 2 words Hw). change (String.length (json_str "schema")) with 8%nat. change (String.length (json_str "words")) with 7%nat.
  change (String.length (json_str GRAPH_INPUT)) with 23%nat. cbn [String.length]. lia.
Qed.

Lemma tile_doc_roundtrip words : length words = 324%nat -> Forall is_word words -> exists text, encoded (tile_doc words) = Ok text /\ graph_input_words text = Ok words.
Proof.
  intros Hl Hw. pose proof (tile_doc_json words) as Hok. pose proof (encoded_ok _ Hok) as Ht. eexists. split; [exact Ht|].
  pose proof (decoded_text (Hooks false "duplicate Graph input field") _ _ Hok Ht) as Hread.
  unfold graph_input_words. rewrite (proj2 (Z.ltb_ge _ _)).
  2:{ pose proof (length_tile_doc words Hw). rewrite length_append. change (String.length (str1 10)) with 1%nat. lia. }
  rewrite Hread. assert (canon (tile_doc words) = VDict [("schema", VStr GRAPH_INPUT); ("words", words_val words)]) as ->.
  { unfold tile_doc. cbn [canon map fst snd words_val]. assert (map canon (map VInt words) = map VInt words) as ->; [|done]. by rewrite map_map. }
  cbn [bind]. change (negb (keys_are _ _)) with false. change (is_str (default VNone (dget "schema" _)) GRAPH_INPUT) with true. cbn [orb negb].
  cbn [dget String.eqb Ascii.eqb Bool.eqb words_val]. rewrite length_map, Hl. cbn [Nat.eqb negb]. by rewrite mapM_int_in_words.
Qed.

(** ** Kernels *)

Lemma malformed_graph_Ok {A} (r : res A) x : malformed_graph r = Ok x -> r = Ok x.
Proof. destruct r as [|[]]; done. Qed.

Lemma compile_graph_valid value p : compile_graph value = Ok p -> exists d, validate_descriptor value = Ok d.
Proof.
  unfold compile_graph. intros H%malformed_graph_Ok. destruct (compile_descriptor value) as [p'|] eqn:Hc; [|discriminate H].
  apply compile_descriptor_parts in Hc as (d & l & st & trace & Hd & _). by exists d.
Qed.

Lemma kernel_descriptor_shape id nodes d : validate_descriptor (kernel_descriptor id nodes) = Ok d -> dc_affine d = device_tile /\ dc_schema d = 5.
Proof.
  unfold validate_descriptor. change (negb (keys_are _ _)) with false. change (schema_version _) with (Ok 5). cbn [bind].
  cbn [dget kernel_descriptor String.eqb Ascii.eqb Bool.eqb]. destruct id as [| | | |id| |]; try discriminate. intros H. destruct (negb (is_identifier id)); [discriminate H|].
  unfold dsub in H. cbn [dget kernel_descriptor String.eqb Ascii.eqb Bool.eqb from_option_err bind] in H.
  change (validate_affine (affine_val device_tile)) with (Ok device_tile) in H. cbn [bind] in H. destruct nodes; try discriminate H. res_peel H. by apply Ok_inj in H as <-.
Qed.

Lemma compile_kernel_Ok raw value : compile_kernel raw = Ok value -> exists p d l x, compile_graph value = Ok p /\ kernel_ok value d l x.
Proof.
  unfold compile_kernel. intros H. destruct (_ <? _); [discriminate H|]. destruct (composition_json raw) as [v|]; [|discriminate H]. cbn [bind] in H.
  destruct v as [| | | | | |dd]; try discriminate H. destruct (_ || _); [discriminate H|]. res_peel H. apply Ok_inj in H as <-.
  match goal with H : compile_graph _ = Ok ?p |- _ => destruct (compile_graph_valid _ _ H) as [d Hd]; destruct (kernel_descriptor_shape _ _ _ Hd) as [Ha Hs];
    destruct (admitted_kernel _ _ Hd Ha) as (l & x & Hk); [lia|]; by exists p, d, l, x end.
Qed.

(** ** Assembly *)

Definition place_of (t : grid_tile) : tile_place := TilePlace "" (tl_row t) (tl_column t) (tl_rows t) (tl_columns t).

Lemma layout_places rows columns : map place_of (layout rows columns) = map (place_at rows columns 16 16 "") (tile_origins rows columns 16 16).
Proof.
  unfold layout, tile_origins. generalize (concat (map (fun r => map (fun c => (r, c)) (zstep columns 16)) (zstep rows 16))) as l. intros l.
  rewrite map_map. unfold enumerate. assert (Hl : length (zseq (Z.of_nat (length l))) = length l) by (rewrite length_zseq; lia).
  revert Hl. generalize (zseq (Z.of_nat (length l))) as ks. induction l as [|[r c] l IH]; intros [|k ks] Hl; try discriminate Hl; [done|].
  cbn. f_equal. apply IH. by injection Hl.
Qed.

(** Tiles of at most 16 by 16 that cover the grid once. *)
Record tiles_cover_grid (rows columns : Z) (tiles : list grid_tile) : Prop := {
  tc_place : Forall (place_ok rows columns) (map place_of tiles);
  tc_size : Forall (fun t => tl_rows t <= 16 /\ tl_columns t <= 16) tiles;
  tc_once : NoDup (concat (map tile_cells (map place_of tiles)));
  tc_all : forall a, in_grid rows columns a -> a ∈ concat (map tile_cells (map place_of tiles)) }.

Lemma layout_covers rows columns : 1 <= rows <= 64 -> 1 <= columns <= 64 -> tiles_cover_grid rows columns (layout rows columns).
Proof.
  intros Hr Hc. split.
  - rewrite layout_places. apply Forall_map, Forall_forall. intros [r c] [[Hr1 Hr2] [Hc1 Hc2]]%elem_of_tile_origins; [|lia..].
    unfold place_ok, place_at. cbn. lia.
  - apply Forall_forall. intros t Ht. assert (place_of t ∈ map (place_at rows columns 16 16 "") (tile_origins rows columns 16 16)) as Hp.
    { rewrite <- layout_places. by apply (list_elem_of_fmap_2 place_of). }
    apply list_elem_of_fmap in Hp as ([r c] & Hp & _). destruct t. cbn in *. injection Hp. intros -> -> _ _. lia.
  - rewrite layout_places, map_map. apply tiles_disjoint; lia.
  - intros [R C] [H1 H2]. rewrite layout_places, map_map. apply tiles_cover; (lia || done).
Qed.

Lemma py_index_none (values : list (option Z)) i : 0 <= i < Z.of_nat (length values) -> at_ None values i = None -> py_index values i = Ok None.
Proof.
  intros Hi Ha. unfold py_index. rewrite bool_decide_true by done. unfold at_ in Ha. rewrite nth_lookup in Ha.
  destruct (lookup_lt_is_Some_2 values (Z.to_nat i)) as [v Hv]; [lia|]. rewrite Hv in *. cbn in *. by subst.
Qed.

Section assembly.
Context (p : tiling) (d : descriptor) (l : list dnode) (x : string).
Abbreviation g := (ti_grid p).
Abbreviation mode := (ti_boundary p).
Context (Hg : grid_ok g) (Hk : kernel_ok (ti_descriptor p) d l x)
  (Hcover : tiles_cover_grid (gr_rows g) (gr_columns g) (ti_layout p))
  (Htexts : Forall2 (fun t text => graph_input_words text = Ok (halo_words g mode (tl_row t) (tl_column t))) (ti_layout p) (ti_tiles p))
  (Href : plan_reference p = Ok (map (kernel_cell g mode l x) (coordinates (gr_rows g) (gr_columns g)))).

Definition tile_output_at (t : grid_tile) : list Z := map (fun rc => kernel_cell g mode l x (tl_row t + rc.1, tl_column t + rc.2)) (coordinates 16 16).
Definition run_tile (text : string) : res (list Z) := let* words := graph_input_words text in graph_oracle (ti_descriptor p) words.

Lemma run_tile_ok t text : graph_input_words text = Ok (halo_words g mode (tl_row t) (tl_column t)) -> run_tile text = Ok (tile_output_at t).
Proof. intros H. unfold run_tile. rewrite H. cbn [bind]. by apply (tile_oracle g Hg mode _ d l x Hk). Qed.

Lemma run_tiles : traverse run_tile (ti_tiles p) = Ok (map tile_output_at (ti_layout p)).
Proof.
  clear Hcover Href. pose proof Htexts as H. clear Htexts. induction H as [|t text ts texts Ht _ IH]; [done|]. cbn [traverse map].
  rewrite (run_tile_ok t text Ht). cbn [bind]. by rewrite IH.
Qed.

Lemma child_values_Ok text output values : child_values (ti_descriptor p) text output = Ok values -> run_tile text = Ok output /\ values = output.
Proof.
  unfold child_values, run_tile. intros H. destruct (graph_input_words text) as [words|]; [|discriminate H]. cbn [bind] in *.
  destruct (graph_oracle _ words) as [expected|]; [|discriminate H]. cbn [bind] in H. destruct (negb _) eqn:E; [discriminate H|].
  destruct (negb (length output =? 256)%nat); [discriminate H|]. bool_prop. apply Ok_inj in H as <-. by subst.
Qed.

Lemma child_values_run text output : run_tile text = Ok output -> length output = 256%nat -> child_values (ti_descriptor p) text output = Ok output.
Proof.
  unfold child_values, run_tile. intros H Hl. destruct (graph_input_words text) as [words|]; [|discriminate H]. cbn [bind] in *. rewrite H. cbn [bind].
  by rewrite bool_decide_true, Hl.
Qed.

Lemma tile_output_length t : length (tile_output_at t) = 256%nat.
Proof. unfold tile_output_at. by rewrite length_map, length_coordinates. Qed.

(** The children's outputs placed one after another. *)
Lemma placed :
  foldM (place_child p) (replicate (Z.to_nat (gr_rows g * gr_columns g)) None) (zip (map tile_output_at (ti_layout p)) (zip (ti_layout p) (ti_tiles p))) =
    Ok (map Some (map (kernel_cell g mode l x) (coordinates (gr_rows g) (gr_columns g)))).
Proof.
  set (xs := zip (map tile_output_at (ti_layout p)) (zip (ti_layout p) (ti_tiles p))).
  set (place := fun ct : list Z * (grid_tile * string) => place_of ct.2.1).
  assert (Hxs : map place xs = map place_of (ti_layout p)).
  { subst xs place. clear Hcover Href. pose proof Htexts as H. clear Htexts. induction H as [|t text ts texts _ _ IH]; [done|]. cbn. f_equal. exact IH. }
  assert (Hz : zip xs (map place xs) = map (fun c => (c, place c)) xs) by (clear; induction xs as [|c xs IH]; [done|]; cbn; by rewrite IH).
  assert (Hfold : forall s, foldM (place_child p) s xs = foldM (fun s (ct : _ * tile_place) => place_child p s ct.1) s (zip xs (map place xs))).
  { intros s. by rewrite Hz, foldM_map. }
  rewrite Hfold. destruct Hg as [Hr Hc _ _]. destruct Hcover as [Hp Hs Hnd Hall].
  rewrite (write_tiles (gr_rows g) (gr_columns g) Hr Hc (kernel_cell g mode l x) xs
    (fun ct t => t = place ct /\ ct.1 = tile_output_at ct.2.1 /\ tl_rows ct.2.1 <= 16 /\ tl_columns ct.2.1 <= 16 /\ run_tile ct.2.2 = Ok ct.1)).
  - rewrite Hxs. f_equal. apply writes_cover; try done. by apply tiles_in_grid.
  - intros values [output [t text]] place' (-> & Ho & Hs1 & Hs2 & Hrun) Hok Hlen Hnone. cbn [fst snd] in *. unfold place_child.
    rewrite child_values_run by (done || by rewrite Ho, tile_output_length). cbn [bind].
    apply (write_tile (gr_rows g) (gr_columns g) Hr Hc _ (place (output, (t, text)))); try done.
    intros vs r c Hr' Hc' Hb Hn. cbn [place fst snd place_of tp_row tp_column tp_rows tp_columns] in *. unfold place_value. cbn zeta.
    rewrite (py_index_none vs) by done. cbn [bind is_Some_b]. rewrite Ho. unfold tile_output_at.
    assert (py_index (map (fun rc => kernel_cell g mode l x (tl_row t + rc.1, tl_column t + rc.2)) (coordinates 16 16)) (r * 16 + c) =
      Ok (kernel_cell g mode l x (tl_row t + r, tl_column t + c))) as ->.
    { unfold py_index. rewrite bool_decide_true by (rewrite length_map, length_coordinates; lia). rewrite list_lookup_fmap, lookup_coordinates by lia. done. }
    cbn [bind]. unfold py_set. by rewrite bool_decide_true.
  - subst xs place. rewrite Forall_forall in Hs. clear Hcover Href Hxs Hz Hfold Hp Hnd Hall.
    assert (Hin : Forall (fun t => tl_rows t <= 16 /\ tl_columns t <= 16) (ti_layout p)) by (apply Forall_forall; exact Hs). clear Hs. revert Hin. pose proof Htexts as H. clear Htexts.
    induction H as [|t text ts texts Ht _ IH]; intros Hin; [constructor|]. apply Forall_cons in Hin as [[Hs1 Hs2] Hin]. cbn. constructor; [|by apply IH].
    split_and!; try done. by apply run_tile_ok.
  - by rewrite Hxs.
  - by rewrite Hxs.
Qed.

(** The assembly of the device's outputs, and of nothing else, is the reference. *)
Lemma assembled_iff children r :
  assembled p children = Ok r <-> children = map tile_output_at (ti_layout p) /\ r = map (kernel_cell g mode l x) (coordinates (gr_rows g) (gr_columns g)).
Proof.
  pose proof (Forall2_length _ _ _ Htexts) as Hlt. split.
  - unfold assembled. intros H. destruct (negb (length children =? _)%nat) eqn:Hlen; [discriminate H|]. apply negb_false_iff, Nat.eqb_eq in Hlen. cbn zeta in H.
    destruct (foldM (place_child p) _ _) as [result|] eqn:Hf; [|discriminate H]. cbn [bind] in H. rewrite Href in H. cbn [bind] in H.
    destruct (negb _); [discriminate H|]. apply Ok_inj in H as <-. split; [|done].
    assert (Hrun : Forall2 (fun c text => run_tile text = Ok c) children (ti_tiles p)).
    { clear Htexts. revert Hf Hlt Hlen. generalize (replicate (Z.to_nat (gr_rows g * gr_columns g)) (@None Z)). generalize (ti_layout p) (ti_tiles p).
      induction children as [|c children IH]; intros ts [|text texts] s Hf Hlt Hlen; try discriminate Hlen; [constructor|]. destruct ts as [|t ts]; [discriminate Hlt|].
      cbn [zip zip_with foldM] in Hf. destruct (place_child p s (c, (t, text))) as [s'|] eqn:Hp; [|discriminate Hf]. cbn [bind] in Hf.
      constructor; [|apply (IH ts texts s'); [exact Hf|by injection Hlt|by injection Hlen]].
      unfold place_child in Hp. destruct (child_values _ _ _) as [v|] eqn:Hv; [|discriminate Hp]. by apply child_values_Ok in Hv as [? _]. }
    pose proof run_tiles as Ht. apply traverse_Ok in Ht. apply Ok_inj. clear - Hrun Ht. f_equal. revert Ht. generalize (map tile_output_at (ti_layout p)) as outs.
    induction Hrun as [|c text children texts Hc _ IH]; intros outs Ho; [by inversion Ho|]. inversion Ho as [|? o ? outs' Hoo Hos]; subst. f_equal; [congruence|by apply IH].
  - intros [-> ->]. unfold assembled. rewrite length_map, Hlt, Nat.eqb_refl. cbn [negb]. cbn zeta. rewrite placed. cbn [bind]. rewrite Href. cbn [bind].
    by rewrite bool_decide_true.
Qed.
End assembly.

(** ** The fixed five-point grid *)

Definition fixed_nodes : list dnode :=
  [DNode "center" (DLoad (ARelative 0 0)); DNode "north" (DLoad (ARelative (-1) 0)); DNode "sum1" (DBin DAdd "center" "north");
   DNode "south" (DLoad (ARelative 1 0)); DNode "sum2" (DBin DAdd "sum1" "south"); DNode "west" (DLoad (ARelative 0 (-1)));
   DNode "sum3" (DBin DAdd "sum2" "west"); DNode "east" (DLoad (ARelative 0 1)); DNode "sum4" (DBin DAdd "sum3" "east")].

Lemma fixed_kernel : exists d, kernel_ok fixed_descriptor d fixed_nodes "sum4".
Proof.
  exists (Descriptor 2 "tiled-five-point" device_tile (fixed_nodes ++ [DNode "store" (DStore "sum4")])).
  assert (Hs : scheduled_nodes (fixed_nodes ++ [DNode "store" (DStore "sum4")]) = Ok (fixed_nodes ++ [DNode "store" (DStore "sum4")])) by (vm_compute; reflexivity).
  split; [vm_compute; reflexivity|done| |by repeat constructor|by repeat constructor| |].
  - exists "store". split_and!; [done|done|]. apply (bool_decide_unpack _). vm_compute. done.
  - apply scheduled_sound in Hs as [_ Ho]. by eapply ordered_prefix.
  - split; [done|]. apply (bool_decide_unpack _). vm_compute. done.
Qed.

Lemma five_values load :
  default 0 (denote load fixed_nodes !! "sum4") = u32 (load 0 0 + load (-1) 0 + load 1 0 + load 0 (-1) + load 0 1).
Proof.
  rewrite <- u32_sum5. unfold denote, fixed_nodes. cbn [foldl dn_id dn_op dnode_value]. unfold dnode_value. cbn [dn_op].
  repeat (rewrite lookup_insert_eq || rewrite lookup_insert_ne by done). reflexivity.
Qed.

Section fixed.
Context (words : list Z) (Hl : length words = 1024%nat) (Hw : Forall is_word words).

Lemma fixed_grid_ok : grid_ok (Grid 32 32 words).
Proof. split; cbn; [lia|lia|lia|done]. Qed.

Lemma sample_zero r c : sample_at (Grid 32 32 words) BZero r c = if bool_decide (0 <= r < 32) && bool_decide (0 <= c < 32) then at_ 0 words (r * 32 + c) else 0.
Proof.
  unfold sample_at, oracle_sample. cbn [gr_rows gr_columns gr_words]. rewrite (bool_decide_true (BZero = BZero)) by done. cbn [andb].
  destruct (bool_decide (0 <= r < 32)) eqn:Er, (bool_decide (0 <= c < 32)) eqn:Ec; cbn [andb negb]; try done. bool_prop.
  by rewrite py_index_at by lia.
Qed.

Lemma global_cell_ok r c :
  0 <= r < 32 -> 0 <= c < 32 ->
  global_cell words (r, c) = Ok (kernel_cell (Grid 32 32 words) BZero fixed_nodes "sum4" (r, c)).
Proof.
  intros Hr Hc. unfold kernel_cell. rewrite five_values. cbn [fst snd]. rewrite !sample_zero, !Z.add_0_r.
  unfold global_cell. rewrite py_index_at by lia. cbn [bind].
  assert (Hadd : forall (b : bool) i (r' c' : Z) (k : Z -> res Z) total, (b = true <-> 0 <= r' < 32 /\ 0 <= c' < 32) -> i = r' * 32 + c' ->
    (let* t := if b then let* w := py_index words i in Ok (total + w) else Ok total in k t) =
    k (total + if bool_decide (0 <= r' < 32) && bool_decide (0 <= c' < 32) then at_ 0 words (r' * 32 + c') else 0)).
  { intros b i r' c' k total Hb ->. destruct b.
    - destruct Hb as [Hb _]. destruct (Hb eq_refl) as [Hr' Hc']. rewrite py_index_at by lia. by rewrite !bool_decide_true.
    - replace (bool_decide (0 <= r' < 32) && bool_decide (0 <= c' < 32)) with false; [by rewrite Z.add_0_r|]. symmetry. apply andb_false_iff.
      rewrite !bool_decide_eq_false. destruct Hb as [_ Hb]. destruct (decide (0 <= r' < 32)); [|by left]. right. intros ?. by specialize (Hb ltac:(done)). }
  rewrite (Hadd _ _ (r + -1) c), (Hadd _ _ (r + 1) c), (Hadd _ _ r (c + -1)), (Hadd _ _ r (c + 1)) by lia.
  rewrite !(bool_decide_true (0 <= r < 32)), !(bool_decide_true (0 <= c < 32)) by done. done.
Qed.

Lemma global_reference_ok :
  global_reference words = Ok (map (kernel_cell (Grid 32 32 words) BZero fixed_nodes "sum4") (coordinates 32 32)).
Proof. apply traverse_pure. intros [r c] [Hr Hc]%elem_of_coordinates. by apply global_cell_ok. Qed.
End fixed.

Lemma fixed_words_Ok raw words : fixed_words raw = Ok words -> length words = 1024%nat /\ Forall is_word words.
Proof.
  unfold fixed_words. intros H. destruct (_ <? _); [discriminate H|]. destruct (composition_json raw) as [v|]; [|discriminate H]. cbn [bind] in H.
  destruct v as [| | | | | |d]; try discriminate H. destruct (_ || _); [discriminate H|]. res_peel H.
  destruct (int_in 32 32 _); [|discriminate H]. destruct (int_in 32 32 _); [|discriminate H].
  destruct (dget "words" d) as [[| | | | |l|]|]; try discriminate H. destruct (negb _) eqn:El; [discriminate H|]. apply negb_false_iff, Nat.eqb_eq in El.
  destruct (mapM _ l) as [ws|] eqn:Hm; [|discriminate H]. cbn in H. apply Ok_inj in H as <-. apply mapM_int_in in Hm as [Hw Hlen]. by rewrite Hlen.
Qed.

(** ** Plans *)

(** The documents of tiles are read back to their halos. *)
Lemma tile_texts {A} (g : grid) mode (origin : A -> Z * Z) (make : A -> res (list Z)) tiles texts :
  grid_ok g -> (forall t, t ∈ tiles -> make t = halo g (origin t).1 (origin t).2 mode) ->
  traverse (fun t => let* words := make t in encoded (tile_doc words)) tiles = Ok texts ->
  Forall2 (fun t text => graph_input_words text = Ok (halo_words g mode (origin t).1 (origin t).2)) tiles texts.
Proof.
  intros Hg Hmake H%traverse_Ok. induction H as [|t text tiles texts H _ IH]; constructor; [|apply IH; intros; apply Hmake; by right].
  rewrite Hmake, halo_ok in H by (done || left). cbn [bind] in H. destruct (halo_words_ok g Hg mode (origin t).1 (origin t).2) as [Hlen Hw].
  destruct (tile_doc_roundtrip _ Hlen Hw) as (text' & He & Hr). rewrite He in H. apply Ok_inj in H as <-. done.
Qed.

Record plan_ok (p : tiling) (d : descriptor) (l : list dnode) (x : string) : Prop := {
  po_grid : grid_ok (ti_grid p);
  po_kernel : kernel_ok (ti_descriptor p) d l x;
  po_cover : tiles_cover_grid (gr_rows (ti_grid p)) (gr_columns (ti_grid p)) (ti_layout p);
  po_texts : Forall2 (fun t text => graph_input_words text = Ok (halo_words (ti_grid p) (ti_boundary p) (tl_row t) (tl_column t))) (ti_layout p) (ti_tiles p);
  po_reference : plan_reference p = Ok (map (kernel_cell (ti_grid p) (ti_boundary p) l x) (coordinates (gr_rows (ti_grid p)) (gr_columns (ti_grid p)))) }.

Lemma planned_ok input_file raw kernel boundary p : planned input_file raw kernel boundary = Ok p -> exists d l x, plan_ok p d l x.
Proof.
  unfold planned. intros H. destruct (boundary_of boundary) as [mode|]; [|discriminate H]. cbn [bind] in H. destruct kernel as [[kernel_file kernel_raw]|].
  - destruct (read_input raw) as [g|] eqn:Hg; [|discriminate H]. cbn [bind] in H. apply read_input_ok in Hg.
    destruct (compile_kernel kernel_raw) as [value|] eqn:Hk; [|discriminate H]. cbn [bind] in H. apply compile_kernel_Ok in Hk as (q & d & l & x & Hq & Hk).
    cbn zeta in H. destruct (traverse _ (layout _ _)) as [texts|] eqn:Ht; [|discriminate H]. cbn [bind] in H. res_peel H. apply Ok_inj in H as <-.
    exists d, l, x. split; cbn [ti_grid ti_descriptor ti_boundary ti_layout ti_tiles]; [done|done|apply layout_covers; apply Hg| |].
    + by apply (tile_texts g mode (fun t => (tl_row t, tl_column t)) (fun t => halo g (tl_row t) (tl_column t) mode)).
    + by apply (kernel_reference_ok _ Hg _ _ d l x Hk q).
  - destruct (negb _) eqn:Hm; [discriminate H|]. bool_prop. subst mode. destruct (fixed_words raw) as [words|] eqn:Hw; [|discriminate H]. cbn [bind] in H.
    apply fixed_words_Ok in Hw as [Hl Hw]. destruct (traverse _ (zseq 4)) as [texts|] eqn:Ht; [|discriminate H]. cbn [bind] in H. res_peel H. apply Ok_inj in H as <-.
    destruct fixed_kernel as [d Hk]. exists d, fixed_nodes, "sum4". pose proof (fixed_grid_ok words Hl Hw) as Hg.
    split; cbn [ti_grid ti_descriptor ti_boundary ti_layout ti_tiles gr_rows gr_columns]; [done|done|apply (layout_covers 32 32); lia| |].
    + apply (tile_texts (Grid 32 32 words) BZero (fun slot => at_ (0, 0) ORIGINS slot) (tile_words words)) in Ht; [|done|].
      * revert Ht. change (zseq 4) with [0; 1; 2; 3]. intros Ht. do 4 (inversion Ht as [|? ? ? ? ? Ht']; subst; clear Ht; rename Ht' into Ht). inversion Ht; subst.
        repeat constructor; done.
      * intros slot Hs. change (zseq 4) with [0; 1; 2; 3] in Hs. rewrite !elem_of_cons, elem_of_nil in Hs. destruct Hs as [->|[->|[->|[->|[]]]]]; reflexivity.
    + by apply global_reference_ok.
Qed.

(** C31. An admitted tiling plan, of a kernel over a grid of any shape up to 64 by 64 and any boundary or of the
    fixed five-point grid, works: every tile's document is read back and runs on the device's oracle, the untiled
    reference has a result of the grid's size, and the outputs of the tiles' runs are assembled exactly when they
    are the oracle's, to that reference. *)
Theorem tiled_run_correct input_file raw kernel boundary p :
  planned input_file raw kernel boundary = Ok p ->
  exists outputs result, traverse (run_tile p) (ti_tiles p) = Ok outputs /\ plan_reference p = Ok result /\
    Z.of_nat (length result) = gr_rows (ti_grid p) * gr_columns (ti_grid p) /\ Forall is_word result /\
    forall children r, assembled p children = Ok r <-> children = outputs /\ r = result.
Proof.
  intros (d & l & x & [Hg Hk Hc Ht Hr])%planned_ok. eexists _, _.
  split_and!; [by apply (run_tiles p d l x)|exact Hr| | |intros; by apply (assembled_iff p d l x)].
  - rewrite length_map, length_coordinates. destruct Hg. nia.
  - apply Forall_map, Forall_forall. intros rc _. by apply kernel_cell_word.
Qed.

(** A kernel over a grid of two tiles whose halos wrap around. *)
Definition text_of_doc (d : dict) : string := match encoded (VDict d) with Ok t => t | Err _ => "" end.
Definition kernel_text : string := text_of_doc
  [("schema", VStr KERNEL); ("graph_id", VStr "edge");
   ("nodes", VList [load_node "a" 0 (-1); load_node "b" 1 1; VDict [("id", VStr "m"); ("op", VStr "MUL_U32"); ("inputs", VList [VStr "a"; VStr "b"])];
      VDict [("id", VStr "t"); ("op", VStr "GE_IMM_U32"); ("input", VStr "m"); ("immediate", VInt 7)];
      VDict [("id", VStr "store"); ("op", VStr "STORE_U32"); ("input", VStr "t")]])].
Definition grid_text : string := text_of_doc
  [("schema", VStr GRID_INPUT); ("rows", VInt 2); ("columns", VInt 17); ("words", words_val (zseq 34))].
Definition planned_example : res tiling := planned (VStr "grid.json") grid_text (Some (VStr "kernel.json", kernel_text)) (VStr "wrap").

Lemma tiled_run_correct_witness :
  exists p, planned_example = Ok p /\ length (ti_tiles p) = 2%nat /\
  exists outputs result, traverse (run_tile p) (ti_tiles p) = Ok outputs /\ plan_reference p = Ok result /\
    Z.of_nat (length result) = gr_rows (ti_grid p) * gr_columns (ti_grid p) /\ Forall is_word result /\
    forall children r, assembled p children = Ok r <-> children = outputs /\ r = result.
Proof.
  assert (H : (let* p := planned_example in Ok (length (ti_tiles p))) = Ok 2%nat) by (vm_compute; reflexivity).
  destruct planned_example as [p|e] eqn:E; [|discriminate H]. apply Ok_inj in H. exists p. split; [reflexivity|]. split; [exact H|].
  exact (tiled_run_correct (VStr "grid.json") grid_text (Some (VStr "kernel.json", kernel_text)) (VStr "wrap") p E).
Defined.
