(* ===== verification/Completion.v ===== *)
(** * Completion telemetry ([raveil/completion_telemetry.py])

    The guest prints a line for every completion
    ([sonatine/src/completion_telemetry.c]); the host parses a console log
    ([parse_log]) and appends what is new to a journal of hash-chained JSON
    records ([ingest]), which it checks as a whole each time it reads it
    ([load]). Files are their bytes, one character each; a line of the journal is
    read as ASCII text. What the system does is an argument: [timestamp] says
    which spellings [datetime.fromisoformat] takes, [now] is the clock's, and
    [write] is [os.write], which takes a number of the bytes it is given. *)

From S2P Require Import Prelude PyValue Json FoldWire FoldLines Sha256 Workspace.
From Stdlib Require Import Ascii.

Definition TELEMETRY_SCHEMA : string := "raveil.completion-telemetry/v1".
Definition TELEMETRY_SOURCE : string := "sonatine-qemu".
Definition TELEMETRY_BACKEND : string := "qemu-telemetry".
Definition TELEMETRY_CLASS : string := "emulation".
Definition TELEMETRY_PLATFORM : string := "qemu-virt-rv64-v1".
Definition ZERO_HASH : string := "0000000000000000000000000000000000000000000000000000000000000000".
Definition ZERO_COOKIE : string := "00000000000000000000000000000000".
Definition MAX_LINE_BYTES : Z := 1024.
Definition MAX_LOG_BYTES : Z := 16777216.
Definition UINT64_MAX : Z := 18446744073709551615.

Definition bytes_len (s : string) : Z := Z.of_nat (String.length s).

(** ** Completions *)

Record output := CompletionOutput { co_object_id : Z; co_generation : Z; co_version : Z }.

(** [CompletionOutput.validate]; the values are integers. *)
Definition validate_output (o : output) : res unit :=
  let values := [co_object_id o; co_generation o; co_version o] in
  raise_if existsb (fun v => v <? 1) values || existsb (fun v => UINT64_MAX <? v) values with "completion output values must be positive" in
  Ok tt.

Record completion := ParsedCompletion {
  pc_job_id : Z; pc_epoch : Z; pc_sequence : Z; pc_cookie : string; pc_status : Z; pc_detail : Z; pc_ticks : Z; pc_outputs : list output; pc_line : Z }.

(** [{1: 0, 2: 1, 3: 2, 4: 3}.get(status)] *)
Definition expected_detail (status : Z) : option Z := if bool_decide (1 <= status <= 4) then Some (status - 1) else None.
Definition output_pair (o : output) : Z * Z := (co_object_id o, co_generation o).

(** One iteration of [for output in self.outputs]. *)
Definition new_output (pairs : list (Z * Z)) (o : output) : res (list (Z * Z)) :=
  let* _ := validate_output o in
  raise_if bool_decide (output_pair o ∈ pairs) with "completion outputs contain duplicates" in
  Ok (pairs ++ [output_pair o]).

Definition all_hex_digits (s : string) : bool := forallb is_hex (String.list_ascii_of_string s).

(** [ParsedCompletion.validate] *)
Definition validate_completion (c : completion) : res unit :=
  let counters := [pc_job_id c; pc_epoch c; pc_sequence c; pc_ticks c] in
  raise_if existsb (fun v => v <? 1) (counters ++ [pc_line c]) || existsb (fun v => UINT64_MAX <? v) counters
  with "completion identifiers and counters must be positive" in
  raise_if negb (bytes_len (pc_cookie c) =? 32) || String.eqb (pc_cookie c) ZERO_COOKIE || negb (all_hex_digits (pc_cookie c))
  with "completion cookie must be 16-byte lowercase hex" in
  raise_if negb (bool_decide (expected_detail (pc_status c) = Some (pc_detail c))) with "completion status/detail is invalid" in
  raise_if (4 <? length (pc_outputs c))%nat || (negb (pc_status c =? 1) && negb (bool_decide (length (pc_outputs c) = 0%nat)))
  with "completion outputs are invalid for status" in
  let* _ := foldM new_output [] (pc_outputs c) in Ok tt.

(** ** Frames *)

Definition is_line_end (c : ascii) : bool := (code c =? 10) || (code c =? 13).

(** [bytes.splitlines] *)
Fixpoint byte_lines_go (cur : string) (s : string) : list string :=
  match s with
  | "" => if String.eqb cur "" then [] else [cur]
  | String c r =>
      if is_line_end c then
        cur :: match r with
               | String d r' => if (code c =? 13) && (code d =? 10) then byte_lines_go "" r' else byte_lines_go "" r
               | "" => []
               end
      else byte_lines_go (cur +:+ String c "") r
  end.
Definition byte_lines (s : string) : list string := byte_lines_go "" s.

(** [text.split(sep)] *)
Fixpoint split_go (sep : ascii) (cur s : string) : list string :=
  match s with
  | "" => [cur]
  | String c r => if Ascii.eqb c sep then cur :: split_go sep "" r else split_go sep (cur +:+ String c "") r
  end.
Definition split (sep : ascii) (s : string) : list string := split_go sep "" s.

(** [[1-9][0-9]*] *)
Definition take_positive (s : string) : option (Z * string) :=
  match s with
  | String c _ => if (49 <=? code c) && (code c <=? 57) then let '(n, _, rest) := span_digits 0 s in Some (n, rest) else None
  | "" => None
  end.

(** [-|[0-9:,]+] *)
Definition is_outputs (s : string) : bool :=
  String.eqb s "-" ||
  (negb (String.eqb s "") && forallb (fun c => is_digit c || Ascii.eqb c ":" || Ascii.eqb c ",") (String.list_ascii_of_string s)).

(** The groups of [_FRAME]. *)
Definition frame_groups (line : string) : option (Z * Z * Z * string * Z * Z * Z * string) :=
  opt* r := strip_prefix "RAVEIL-COMPLETION-V1 job=" line in
  opt* (job, r) := take_positive r in
  opt* r := strip_prefix " epoch=" r in
  opt* (epoch, r) := take_positive r in
  opt* r := strip_prefix " sequence=" r in
  opt* (sequence, r) := take_positive r in
  opt* r := strip_prefix " cookie=" r in
  opt* (cookie, r) := take_hex 32 r in
  opt* r := strip_prefix " status=" r in
  opt* (status, r) := take_one [1; 2; 3; 4] r in
  opt* r := strip_prefix " detail=" r in
  opt* (detail, r) := take_one [0; 1; 2; 3] r in
  opt* r := strip_prefix " smoke_path_ticks=" r in
  opt* (ticks, r) := take_positive r in
  opt* r := strip_prefix " outputs=" r in
  if is_outputs r then Some (job, epoch, sequence, cookie, status, detail, ticks, r) else None.

(** [int(part)] of a part of digits; an empty one raises. *)
Definition int_text (s : string) : option Z :=
  let '(n, ds, rest) := span_digits 0 s in if String.eqb ds "" || negb (String.eqb rest "") then None else Some n.
Definition parse_output (item : string) : option output :=
  match mapM int_text (split ":" item) with Some [a; b; c] => Some (CompletionOutput a b c) | _ => None end.
Definition parse_outputs (s : string) : option (list output) := if String.eqb s "-" then Some [] else mapM parse_output (split "," s).

(** [text.removesuffix("\r")] *)
Fixpoint remove_cr (s : string) : string :=
  match s with
  | "" => ""
  | String c "" => if code c =? 13 then "" else s
  | String c r => String c (remove_cr r)
  end.

Definition TELEMETRY_PREFIX : string := "RAVEIL-COMPLETION-".
Definition at_line (message : string) (number : Z) : string := message +:+ " at line " +:+ pretty number.

(** A line that starts with the prefix. *)
Definition parse_frame (number : Z) (raw : string) : res completion :=
  raise_if existsb (fun c => 127 <? code c) (String.list_ascii_of_string raw) with at_line "non-ASCII completion telemetry" number in
  match frame_groups (remove_cr raw) with
  | None => fail (at_line "malformed completion telemetry" number)
  | Some (job, epoch, sequence, cookie, status, detail, ticks, text) =>
      match parse_outputs text with
      | None => fail (at_line "malformed completion outputs" number)
      | Some outputs =>
          let event := ParsedCompletion job epoch sequence cookie status detail ticks outputs number in
          let* _ := validate_completion event in Ok event
      end
  end.

Definition binding_of (c : completion) : Z * Z * Z * string := (pc_job_id c, pc_epoch c, pc_sequence c, pc_cookie c).

(** One iteration of [for line_number, raw in enumerate(lines, start=1)]. *)
Definition log_line (events : list completion) (iraw : Z * string) : res (list completion) :=
  let '(i, raw) := iraw in
  let number := i + 1 in
  if MAX_LINE_BYTES <? bytes_len raw then
    raise_if String.prefix TELEMETRY_PREFIX raw with at_line "oversized completion telemetry" number in Ok events
  else if negb (String.prefix TELEMETRY_PREFIX raw) then Ok events
  else
    let* event := parse_frame number raw in
    raise_if bool_decide (binding_of event ∈ map binding_of events) with at_line "duplicate completion telemetry" number in
    Ok (events ++ [event]).

(** A file as [os.fstat] and [os.read] show it. *)
Record file := File { fi_regular : bool; fi_links : Z; fi_data : string }.

Definition last_char (s : string) : option ascii := list.last (String.list_ascii_of_string s).
Definition ends_line (s : string) : bool := match last_char s with Some c => is_line_end c | None => false end.

(** [parse_qemu_log] *)
Definition parse_log (log : file) : res (string * list completion) :=
  raise_if negb (fi_regular log) || negb (fi_links log =? 1) || (MAX_LOG_BYTES <? bytes_len (fi_data log))
  with "telemetry input must be a bounded single-link regular file" in
  let lines := byte_lines (fi_data log) in
  let* events := foldM log_line [] (enumerate lines) in
  raise_if negb (String.eqb (fi_data log) "") && negb (ends_line (fi_data log)) &&
           match list.last lines with Some l => String.prefix TELEMETRY_PREFIX l | None => false end
  with "truncated completion telemetry final line" in
  raise_if bool_decide (events = []) with "no completion telemetry found" in
  Ok (sha256_hex (ascii_bytes (fi_data log)), events).

(** ** Records *)

Record telemetry := Telemetry {
  tr_sequence : Z; tr_run_id : string; tr_captured : string; tr_raw_log : string; tr_raw_line : Z; tr_event_id : string; tr_binding_id : string;
  tr_job_id : Z; tr_epoch : Z; tr_exec_sequence : Z; tr_cookie : string; tr_status : Z; tr_detail : Z; tr_ticks : Z; tr_outputs : list output;
  tr_previous : string; tr_hash : string; tr_schema : string; tr_source : string; tr_backend : string; tr_class : string; tr_platform : string }.

Definition output_doc (o : output) : pyval :=
  VDict [("object_id", VInt (co_object_id o)); ("generation", VInt (co_generation o)); ("version", VInt (co_version o))].

(** [payload] *)
Definition payload (r : telemetry) : dict :=
  [("sequence", VInt (tr_sequence r)); ("run_id", VStr (tr_run_id r)); ("captured_at_utc", VStr (tr_captured r)); ("raw_log_sha256", VStr (tr_raw_log r));
   ("raw_line", VInt (tr_raw_line r)); ("event_id", VStr (tr_event_id r)); ("binding_id", VStr (tr_binding_id r)); ("job_id", VInt (tr_job_id r));
   ("execution_epoch", VInt (tr_epoch r)); ("execution_sequence", VInt (tr_exec_sequence r)); ("cookie_sha256", VStr (tr_cookie r));
   ("observed_status", VInt (tr_status r)); ("observed_detail", VInt (tr_detail r)); ("observed_smoke_path_ticks", VInt (tr_ticks r));
   ("observed_outputs", VList (map output_doc (tr_outputs r))); ("previous_hash", VStr (tr_previous r)); ("schema", VStr (tr_schema r));
   ("source", VStr (tr_source r)); ("backend", VStr (tr_backend r)); ("evidence_class", VStr (tr_class r)); ("platform", VStr (tr_platform r))].

(** [with_hash] *)
Definition payload_hash (r : telemetry) : string := sha256_hex (canonical (VDict (payload r))).
Definition with_hash (r : telemetry) : telemetry :=
  Telemetry (tr_sequence r) (tr_run_id r) (tr_captured r) (tr_raw_log r) (tr_raw_line r) (tr_event_id r) (tr_binding_id r) (tr_job_id r) (tr_epoch r)
    (tr_exec_sequence r) (tr_cookie r) (tr_status r) (tr_detail r) (tr_ticks r) (tr_outputs r) (tr_previous r) (payload_hash r) (tr_schema r) (tr_source r)
    (tr_backend r) (tr_class r) (tr_platform r).

(** [to_dict] *)
Definition to_dict (r : telemetry) : dict := payload r ++ [("record_hash", VStr (tr_hash r))].

(** [str.isalnum] of a character below U+0100 *)
Definition is_alnum (c : ascii) : bool :=
  let n := code c in
  ((48 <=? n) && (n <=? 57)) || ((65 <=? n) && (n <=? 90)) || ((97 <=? n) && (n <=? 122)) ||
  bool_decide (n ∈ [170; 178; 179; 181; 185; 186; 188; 189; 190]) || ((192 <=? n) && negb (n =? 215) && negb (n =? 247)).

(** [_bounded_token] *)
Definition bounded_token (value : string) (limit : Z) : bool :=
  (0 <? bytes_len value) && (bytes_len value <=? limit) &&
  forallb (fun c => is_alnum c || bool_decide (code c ∈ [46; 95; 58; 45])) (String.list_ascii_of_string value).

(** [validate_backend_evidence] *)
Definition required_class (backend : string) : option string :=
  if String.eqb backend "native-c" || String.eqb backend "tvm-meta-schedule" then Some "silicon"
  else if String.eqb backend "qemu-telemetry" then Some "emulation" else None.
Definition validate_backend_evidence (backend evidence_class : string) : res unit :=
  match required_class backend with
  | Some required => raise_if negb (String.eqb evidence_class required) with backend +:+ " evidence must be classified as " +:+ required in Ok tt
  | None => Ok tt
  end.

Section journal.
Context (timestamp : string -> bool).

(** [_parse_utc]; [timestamp] is asked for the spelling that ends in [+00:00]. *)
Definition parse_utc (value : string) : res unit :=
  match last_char value with
  | Some c =>
      raise_if (40 <? bytes_len value) || negb (Ascii.eqb c "Z") with "captured_at_utc must be bounded UTC" in
      raise_if negb (timestamp (String.substring 0 (String.length value - 1) value +:+ "+00:00")) with "Invalid isoformat string" in Ok tt
  | None => fail "captured_at_utc must be bounded UTC"
  end.

Definition is_digest (s : string) : bool := (bytes_len s =? 64) && all_hex_digits s.

(** [CompletionTelemetryRecord.validate]; the fields have their types. *)
Definition validate_record (r : telemetry) : res unit :=
  let* _ := validate_backend_evidence (tr_backend r) (tr_class r) in
  raise_if negb (String.eqb (tr_schema r) TELEMETRY_SCHEMA) || negb (String.eqb (tr_source r) TELEMETRY_SOURCE) ||
           negb (String.eqb (tr_backend r) TELEMETRY_BACKEND) || negb (String.eqb (tr_class r) TELEMETRY_CLASS) ||
           negb (String.eqb (tr_platform r) TELEMETRY_PLATFORM)
  with "completion telemetry provenance is invalid" in
  raise_if (tr_sequence r <? 1) || (UINT64_MAX <? tr_sequence r) || (tr_raw_line r <? 1) || (UINT64_MAX <? tr_raw_line r) ||
           negb (bounded_token (tr_run_id r) 128)
  with "completion telemetry sequence/run is invalid" in
  let* _ := parse_utc (tr_captured r) in
  raise_if negb (forallb is_digest [tr_raw_log r; tr_event_id r; tr_binding_id r; tr_cookie r; tr_previous r; tr_hash r])
  with "completion telemetry hash is invalid" in
  let* _ := validate_completion (ParsedCompletion (tr_job_id r) (tr_epoch r) (tr_exec_sequence r) "10000000000000000000000000000000"
              (tr_status r) (tr_detail r) (tr_ticks r) (tr_outputs r) (tr_raw_line r)) in
  raise_if negb (String.eqb (payload_hash r) (tr_hash r)) with "completion telemetry record hash mismatch" in
  Ok tt.

(** ** Reading the journal *)

Definition telemetry_fields : list string := keys (payload (Telemetry 0 "" "" "" 0 "" "" 0 0 0 "" 0 0 0 [] "" "" "" "" "" "" "")) ++ ["record_hash"].

Definition get_str (d : dict) (k : string) : res string :=
  match dget k d with Some (VStr s) => Ok s | _ => fail "completion telemetry strings must be exact strings" end.
Definition get_int (d : dict) (k : string) : res Z :=
  match dget k d with Some (VInt z) => Ok z | _ => fail "completion telemetry integers must be exact integers" end.
Definition read_output (item : pyval) : res output :=
  match item with
  | VDict e =>
      raise_if negb (keys_are e ["object_id"; "generation"; "version"]) with "completion output fields are not exact" in
      let* a := get_int e "object_id" in let* b := get_int e "generation" in let* c := get_int e "version" in Ok (CompletionOutput a b c)
  | _ => fail "completion output fields are not exact"
  end.

(** [from_dict]: the fields get their types, which [validate] checks in the code,
    before the rest of [validate]; the caller has one message for all of it. *)
Definition from_dict (d : dict) : res telemetry :=
  raise_if negb (keys_are d telemetry_fields) with "completion telemetry fields are not exact" in
  let* items := match dget "observed_outputs" d with Some (VList l) => Ok l | _ => fail "observed_outputs must be a list" end in
  let* outputs := traverse read_output items in
  let* run_id := get_str d "run_id" in let* captured := get_str d "captured_at_utc" in let* raw_log := get_str d "raw_log_sha256" in
  let* event_id := get_str d "event_id" in let* binding_id := get_str d "binding_id" in let* cookie := get_str d "cookie_sha256" in
  let* previous := get_str d "previous_hash" in let* hash := get_str d "record_hash" in let* schema := get_str d "schema" in
  let* source := get_str d "source" in let* backend := get_str d "backend" in let* class := get_str d "evidence_class" in let* platform := get_str d "platform" in
  let* sequence := get_int d "sequence" in let* raw_line := get_int d "raw_line" in let* job_id := get_int d "job_id" in
  let* epoch := get_int d "execution_epoch" in let* exec_sequence := get_int d "execution_sequence" in let* status := get_int d "observed_status" in
  let* detail := get_int d "observed_detail" in let* ticks := get_int d "observed_smoke_path_ticks" in
  let r := Telemetry sequence run_id captured raw_log raw_line event_id binding_id job_id epoch exec_sequence cookie status detail ticks outputs previous hash
             schema source backend class platform in
  let* _ := validate_record r in Ok r.

(** [_strict_json] and [from_dict] of a line. *)
Definition read_record (raw : string) : res telemetry :=
  let* v := json_loads (Hooks false "duplicate JSON key: ") raw in
  match v with VDict d => from_dict d | _ => fail "telemetry journal record must be an object" end.

Definition last_hash (records : list telemetry) : string := match list.last records with Some r => tr_hash r | None => ZERO_HASH end.

(** A record that continues a chain. *)
Definition chained (records : list telemetry) (r : telemetry) : bool :=
  (tr_sequence r =? Z.of_nat (length records) + 1) && String.eqb (tr_previous r) (last_hash records) &&
  negb (bool_decide (tr_event_id r ∈ map tr_event_id records)) && negb (bool_decide (tr_binding_id r ∈ map tr_binding_id records)).

Definition bad_line (number : Z) : string := "invalid telemetry journal line " +:+ pretty number.

(** One iteration of the loop of [_load_descriptor]. *)
Definition journal_line (records : list telemetry) (iraw : Z * string) : res (list telemetry) :=
  let '(i, raw) := iraw in
  let number := i + 1 in
  raise_if String.eqb raw "" || (16384 <? bytes_len raw) with bad_line number in
  match read_record raw with
  | Ok r =>
      raise_if negb (chained records r) with at_line "telemetry journal chain/sequence failure" number in
      Ok (records ++ [r])
  | Err (ValueError _) | Err TypeError => fail (bad_line number)
  | Err e => Err e
  end.

(** [_load_descriptor] *)
Definition load_data (data : string) : res (list telemetry) :=
  raise_if negb (String.eqb data "") && negb (bool_decide (last_char data = Some (chr 10))) with "telemetry journal has a partial final record" in
  foldM journal_line [] (enumerate (byte_lines data)).

Definition check_store (f : file) : res unit :=
  raise_if negb (fi_regular f) || negb (fi_links f =? 1) with "telemetry store must be a single-link regular file" in Ok tt.

(** [load]; no file is an empty journal. *)
Definition load (j : option file) : res (list telemetry) :=
  match j with None => Ok [] | Some f => let* _ := check_store f in load_data (fi_data f) end.

(** ** Appending *)

Definition colons (l : list string) : string := String.concat ":" l.
Definition event_digest (raw_hash : string) (e : completion) : string :=
  sha256_hex (ascii_bytes (colons [raw_hash; pretty (pc_line e); pretty (pc_job_id e); pretty (pc_epoch e); pretty (pc_sequence e); pc_cookie e])).
Definition binding_digest (run_id : string) (e : completion) : res string :=
  let* data := utf8_encode (ascii_bytes (colons [run_id; pretty (pc_job_id e); pretty (pc_epoch e); pretty (pc_sequence e); pc_cookie e])) in
  Ok (sha256_hex data).

(** One iteration of [for event in events]. *)
Definition add_event (raw_hash run_id now : string) (existing additions : list telemetry) (e : completion) : res (list telemetry) :=
  let all := existing ++ additions in
  let event_id := event_digest raw_hash e in
  if bool_decide (event_id ∈ map tr_event_id all) then Ok additions
  else
    let* binding_id := binding_digest run_id e in
    raise_if bool_decide (binding_id ∈ map tr_binding_id all) with "conflicting telemetry for an existing run binding" in
    let* cookie := match fromhex (pc_cookie e) with Some b => Ok b | None => fail "non-hexadecimal number found in fromhex()" end in
    let r := with_hash (Telemetry (Z.of_nat (length existing) + Z.of_nat (length additions) + 1) run_id now raw_hash (pc_line e) event_id binding_id
               (pc_job_id e) (pc_epoch e) (pc_sequence e) (sha256_hex cookie) (pc_status e) (pc_detail e) (pc_ticks e) (pc_outputs e) (last_hash all) ""
               TELEMETRY_SCHEMA TELEMETRY_SOURCE TELEMETRY_BACKEND TELEMETRY_CLASS TELEMETRY_PLATFORM) in
    let* _ := validate_record r in
    Ok (additions ++ [r]).

Definition record_line (r : telemetry) : string := dumps_compact (VDict (to_dict r)) +:+ str1 10.
Definition record_lines (l : list telemetry) : string := String.concat "" (map record_line l).

(** A call of [ingest_qemu_log] and what the system does during it: [ca_write] is
    [os.write], [ca_sync] is [os.fsync]. *)
Record ingest_call := Call {
  ca_log : file; ca_run_id : string; ca_now : string; ca_real_parent : bool; ca_write : string -> res Z; ca_sync : res unit }.

(** [ingest_qemu_log] on an open journal: the data it has afterwards, and the result. *)
Definition append_events (c : ingest_call) (raw_hash : string) (events : list completion) (data : string) : string * res Z :=
  match (let* existing := load_data data in foldM (add_event raw_hash (ca_run_id c) (ca_now c) existing) [] events) with
  | Err e => (data, Err e)
  | Ok [] => (data, Ok 0)
  | Ok additions =>
      let text := record_lines additions in
      match ca_write c text with
      | Err e => (data, Err e)
      | Ok n =>
          (data +:+ String.substring 0 (Z.to_nat n) text,
           if n =? bytes_len text then let* _ := ca_sync c in Ok (Z.of_nat (length additions)) else Err (OSError "short telemetry journal write"))
      end
  end.

(** [ingest_qemu_log] *)
Definition ingest (j : option file) (c : ingest_call) : option file * res Z :=
  match (raise_if negb (bounded_token (ca_run_id c) 128) with "run_id is invalid" in
         let* parsed := parse_log (ca_log c) in
         raise_if negb (ca_real_parent c) with "telemetry store parent must be a real directory" in Ok parsed) with
  | Err e => (j, Err e)
  | Ok (raw_hash, events) =>
      let f := default (File true 1 "") j in
      match check_store f with
      | Err e => (Some f, Err e)
      | Ok _ => let '(data, result) := append_events c raw_hash events (fi_data f) in (Some (File true 1 data), result)
      end
  end.
End journal.

(** ** The guest's side ([completion_telemetry_emit]) *)

Definition output_text (o : output) : string := pretty (co_object_id o) +:+ ":" +:+ pretty (co_generation o) +:+ ":" +:+ pretty (co_version o).
Definition outputs_text (l : list output) : string := match l with [] => "-" | _ => String.concat "," (map output_text l) end.

(** The characters the guest sends; [cookie] has sixteen bytes, and [console_write]
    sends a carriage return before a line feed. *)
Definition frame_text (job epoch sequence : Z) (cookie : list Z) (status detail ticks : Z) (outputs : list output) : string :=
  "RAVEIL-COMPLETION-V1 job=" +:+ pretty job +:+ " epoch=" +:+ pretty epoch +:+ " sequence=" +:+ pretty sequence +:+ " cookie=" +:+ tohex cookie +:+
  " status=" +:+ pretty status +:+ " detail=" +:+ pretty detail +:+ " smoke_path_ticks=" +:+ pretty ticks +:+ " outputs=" +:+ outputs_text outputs.
Definition emitted (text : string) : string := text +:+ String (chr 13) (str1 10).

(** ** A log of two completions *)

Definition telemetry_cookie : list Z := [1; 2; 3; 4; 5; 6; 7; 8; 9; 10; 11; 12; 13; 14; 15; 16].
Definition log_example : file :=
  File true 1 (emitted "boot" +:+ emitted (frame_text 9223372036854775809 1 2 telemetry_cookie 1 0 37 [CompletionOutput 2 4 6]) +:+
               emitted (frame_text 7 1 3 telemetry_cookie 3 2 12 [])).
Definition call_example : ingest_call := Call log_example "run-1" "2026-01-02T03:04:05.000006Z" true (fun text => Ok (bytes_len text)) (Ok tt).

Example log_example_events :
  (let* ' (h, events) := parse_log log_example in Ok (map (fun e => (pc_line e, pc_job_id e, length (pc_outputs e))) events)) =
  Ok [(2, 9223372036854775809, 1%nat); (3, 7, 0%nat)].
Proof. vm_compute. reflexivity. Qed.
