(* ===== verification/CompletionFacts.v ===== *)
(** * Completion telemetry: lemmas

    Lines of bytes, the text and the size of a journal line, and what the reader
    of a journal makes of the records that [ingest] appends. *)

From S2P Require Import Prelude PyValue Json JsonFacts FoldWire FoldWireFacts FoldLines FoldLinesFacts GridWords Sha256 Sha256Facts Workspace WorkspaceFacts Completion.
From Stdlib Require Import Ascii.

(** ** Characters *)

Definition all_chars (p : ascii -> bool) (s : string) : bool := forallb p (String.list_ascii_of_string s).

Lemma all_chars_cons p c s : all_chars p (String c s) = p c && all_chars p s.
Proof. done. Qed.
Lemma all_chars_app p a b : all_chars p (a +:+ b) = all_chars p a && all_chars p b.
Proof. induction a as [|c a IH]; [done|]. rewrite append_cons, !all_chars_cons, IH. apply andb_assoc. Qed.
Lemma all_chars_concat p sep l :
  all_chars p sep = true -> Forall (fun s => all_chars p s = true) l -> all_chars p (String.concat sep l) = true.
Proof.
  intros Hs. induction 1 as [|s l Hl _ IH]; [done|]. destruct l as [|s' l]; [done|].
  change (String.concat sep (s :: s' :: l)) with (s +:+ sep +:+ String.concat sep (s' :: l)). by rewrite !all_chars_app, Hl, Hs, IH.
Qed.
Lemma all_chars_impl (p q : ascii -> bool) s : (forall c, p c = true -> q c = true) -> all_chars p s = true -> all_chars q s = true.
Proof. intros Hpq. induction s as [|c s IH]; [done|]. rewrite !all_chars_cons, !andb_true_iff. intros [Hc Hs]. auto. Qed.

Lemma ascii_forallb (p : ascii -> bool) : forallb p (map ascii_of_nat (seq 0 256)) = true -> forall c, p c = true.
Proof. intros H. apply ascii_all, Forall_forall. intros c Hc. rewrite forallb_forall in H. by apply H, list_elem_of_In. Qed.

Lemma ascii_forallb_impl (p q : ascii -> bool) : forallb (fun c => implb (p c) (q c)) (map ascii_of_nat (seq 0 256)) = true -> forall c, p c = true -> q c = true.
Proof. intros H c Hc. pose proof (ascii_forallb _ H c) as Hi. cbn beta in Hi. by rewrite Hc in Hi. Qed.

Definition printable (c : ascii) : bool := 32 <=? code c.
Definition no_end (c : ascii) : bool := negb (is_line_end c).

Lemma printable_no_end c : printable c = true -> no_end c = true.
Proof. unfold printable, no_end, is_line_end. lia. Qed.
Lemma hex_printable c : is_hex c = true -> printable c = true.
Proof. unfold is_hex, printable. lia. Qed.

Lemma json_str_printable s : all_chars printable (json_str s) = true.
Proof.
  unfold json_str. rewrite !all_chars_app. change (all_chars printable quote) with true. rewrite andb_true_r. cbn [andb].
  induction s as [|c s IH]; [done|]. cbn [json_chars]. rewrite all_chars_app, IH, andb_true_r. revert c.
  apply ascii_forallb. vm_compute. reflexivity.
Qed.
Lemma pretty_printable (z : Z) : all_chars printable (pretty z) = true.
Proof.
  assert (H : forall z, 0 <= z -> all_chars printable (pretty z) = true).
  { intros x Hx. apply (all_chars_impl is_hex); [apply hex_printable|]. by apply pretty_hex. }
  destruct z as [|p|p]; [done|by apply H|]. rewrite pretty_Z_neg. rewrite all_chars_app. cbn [andb]. exact (H (Z.pos p) (Pos2Z.is_nonneg p)).
Qed.

(** The compact writer escapes every control character. *)
Lemma compact_printable v : json_ok v = true -> all_chars printable (dumps_compact v) = true.
Proof.
  induction v as [|b|z|s|s|l IH|d IH] using pyval_rect'; cbn [json_ok]; intros Hok; try done.
  - by destruct b.
  - apply pretty_printable.
  - apply json_str_printable.
  - rewrite forallb_forall in Hok. rewrite Forall_forall in IH.
    cbn [dumps_compact]. rewrite !all_chars_app, all_chars_concat; [done|done|]. apply Forall_map, Forall_forall. intros x Hx.
    apply IH; [done|]. by apply Hok, list_elem_of_In.
  - apply andb_true_iff in Hok as [_ Hok]. rewrite forallb_forall in Hok. rewrite Forall_forall in IH.
    cbn [dumps_compact]. rewrite !all_chars_app, all_chars_concat; [done|done|]. rewrite sort_keys_perm. apply Forall_map, Forall_map, Forall_forall. intros kv Hkv.
    cbn [fst snd]. rewrite !all_chars_app, json_str_printable. change (all_chars printable ":") with true. cbn [andb].
    apply IH; [done|]. by apply Hok, list_elem_of_In.
Qed.

(** ** Lines *)

Lemma byte_lines_line cur t rest :
  all_chars no_end t = true -> byte_lines_go cur (t +:+ String (chr 10) rest) = (cur +:+ t) :: byte_lines rest.
Proof.
  revert cur. induction t as [|c t IH]; intros cur Ht.
  - cbn. rewrite append_nil_r. by destruct rest.
  - rewrite all_chars_cons in Ht. apply andb_true_iff in Ht as [Hc Ht]. rewrite append_cons. cbn [byte_lines_go].
    unfold no_end in Hc. apply negb_true_iff in Hc. rewrite Hc, IH by done. by rewrite <- append_assoc.
Qed.

(** What follows a line feed is split on its own. *)
Lemma byte_lines_app cur a b :
  byte_lines_go cur (a +:+ String (chr 10) b) = byte_lines_go cur (a +:+ str1 10) ++ byte_lines b.
Proof.
  remember (String.length a) as n eqn:Hn. revert cur a Hn. induction (lt_wf n) as [n _ IH]; intros cur a ->.
  destruct a as [|c a].
  - cbn. by destruct b.
  - rewrite !append_cons. cbn [byte_lines_go]. destruct (is_line_end c) eqn:Hc; [|by rewrite (IH (String.length a)) by (cbn; lia || done)].
    destruct a as [|d a].
    + cbn. destruct (code c =? 13); cbn; [done|]. by destruct b.
    + rewrite !append_cons. destruct ((code c =? 13) && (code d =? 10)).
      * by rewrite (IH (String.length a)) by (cbn; lia || done).
      * rewrite <- !append_cons. cbn [app]. by rewrite (IH (String.length (String d a))) by (cbn; lia || done).
Qed.

Lemma byte_lines_ended data t : data = "" \/ last_char data = Some (chr 10) -> byte_lines (data +:+ t) = byte_lines data ++ byte_lines t.
Proof.
  intros [->|H]; [done|]. unfold last_char in H. apply last_Some in H as [l Hl].
  rewrite <- (String.string_of_list_ascii_of_string data), Hl.
  assert (forall l, String.string_of_list_ascii (l ++ [chr 10]) = String.string_of_list_ascii l +:+ str1 10) as ->.
  { clear. induction l as [|c l IH]; [done|]. cbn [app String.string_of_list_ascii]. by rewrite IH. }
  rewrite <- append_assoc. apply byte_lines_app.
Qed.

Definition record_text (r : telemetry) : string := dumps_compact (VDict (to_dict r)).

Lemma record_lines_cons r l : record_lines (r :: l) = record_text r +:+ String (chr 10) (record_lines l).
Proof.
  unfold record_lines, record_line. cbn [map]. by rewrite string_concat_cons, <- append_assoc.
Qed.
Lemma record_lines_app l l' : record_lines (l ++ l') = record_lines l +:+ record_lines l'.
Proof. induction l as [|r l IH]; [done|]. cbn [app]. by rewrite !record_lines_cons, IH, <- append_assoc. Qed.

Lemma record_json r : json_ok (VDict (to_dict r)) = true.
Proof.
  cbn [json_ok]. apply andb_true_iff. split; [vm_compute; reflexivity|]. unfold to_dict, payload. cbn. rewrite andb_true_r.
  by induction (tr_outputs r).
Qed.
Lemma payload_json r : json_ok (VDict (payload r)) = true.
Proof.
  cbn [json_ok]. apply andb_true_iff. split; [vm_compute; reflexivity|]. unfold payload. cbn. rewrite andb_true_r.
  by induction (tr_outputs r).
Qed.

Lemma record_text_printable r : all_chars printable (record_text r) = true.
Proof. apply compact_printable, record_json. Qed.

Lemma byte_lines_records l : byte_lines (record_lines l) = map record_text l.
Proof.
  induction l as [|r l IH]; [done|]. rewrite record_lines_cons. unfold byte_lines at 1. rewrite byte_lines_line; [cbn [map]; by rewrite IH|].
  eapply all_chars_impl; [apply printable_no_end|]. apply record_text_printable.
Qed.

(** ** The size of a record *)

Definition Zsum (l : list Z) : Z := foldr Z.add 0 l.

(** An upper bound of the length of the compact text. *)
Fixpoint text_bound (v : pyval) : Z :=
  match v with
  | VNone => 4
  | VBool _ => 5
  | VInt z => bytes_len (pretty z)
  | VFloat s => bytes_len s
  | VStr s => 6 * bytes_len s + 2
  | VList l => 2 + Zsum (map (fun v => text_bound v + 1) l)
  | VDict d => 2 + Zsum (map (fun kv => 6 * bytes_len kv.1 + 4 + text_bound kv.2) d)
  end.

Lemma bytes_len_app a b : bytes_len (a +:+ b) = bytes_len a + bytes_len b.
Proof. unfold bytes_len. rewrite length_append. lia. Qed.
Lemma bytes_len_cons c s : bytes_len (String c s) = 1 + bytes_len s.
Proof. unfold bytes_len. cbn [String.length]. lia. Qed.
Lemma bytes_len_nonneg s : 0 <= bytes_len s.
Proof. apply Nat2Z.is_nonneg. Qed.

Lemma length_json_str s : bytes_len (json_str s) <= 6 * bytes_len s + 2.
Proof.
  unfold json_str. rewrite !bytes_len_app. change (bytes_len quote) with 1. enough (bytes_len (json_chars s) <= 6 * bytes_len s) by lia.
  induction s as [|c s IH]; [done|]. cbn [json_chars]. rewrite bytes_len_app, bytes_len_cons.
  assert (bytes_len (json_char c) <= 6) by (apply Z.leb_le; revert c; apply ascii_forallb; vm_compute; reflexivity).
  lia.
Qed.
Lemma length_concat_sum sep l : bytes_len (String.concat sep l) <= Zsum (map (fun s => bytes_len s + bytes_len sep) l).
Proof.
  induction l as [|s l IH]; [done|]. pose proof (bytes_len_nonneg sep). destruct l as [|s' l]; [cbn; lia|].
  change (String.concat sep (s :: s' :: l)) with (s +:+ sep +:+ String.concat sep (s' :: l)). rewrite !bytes_len_app.
  cbn [map Zsum foldr] in *. unfold Zsum in IH. cbn [map foldr] in IH. lia.
Qed.
Lemma Zsum_le {A} (f g : A -> Z) l : Forall (fun x => f x <= g x) l -> Zsum (map f l) <= Zsum (map g l).
Proof. unfold Zsum. induction 1 as [|x l Hx _ IH]; [done|]. cbn [map foldr]. lia. Qed.
#[local] Instance Zsum_perm : Proper ((≡ₚ) ==> eq) Zsum.
Proof. unfold Zsum. intros l l' H. induction H; cbn [foldr] in *; lia. Qed.

Lemma length_compact v : bytes_len (dumps_compact v) <= text_bound v.
Proof.
  induction v as [|b|z|s|s|l IH|d IH] using pyval_rect'; cbn [dumps_compact text_bound]; try done.
  - destruct b; done.
  - apply length_json_str.
  - rewrite !bytes_len_app. change (bytes_len "[") with 1. change (bytes_len "]") with 1.
    pose proof (length_concat_sum "," (map dumps_compact l)) as H. rewrite map_map in H. change (bytes_len ",") with 1 in H.
    enough (Zsum (map (fun v => bytes_len (dumps_compact v) + 1) l) <= Zsum (map (fun v => text_bound v + 1) l)) by lia.
    apply Zsum_le. eapply Forall_impl; [exact IH|]. intros; cbn in *; lia.
  - rewrite !bytes_len_app. change (bytes_len "{") with 1. change (bytes_len "}") with 1.
    pose proof (length_concat_sum "," (map (fun kt => json_str kt.1 +:+ ":" +:+ kt.2) (sort_keys (map (fun kv => (kv.1, dumps_compact kv.2)) d)))) as H.
    rewrite (sort_keys_perm (map _ d)) in H at 2. rewrite !map_map in H. change (bytes_len ",") with 1 in H. cbn [fst snd] in H.
    enough (Zsum (map (fun kv => bytes_len (json_str kv.1 +:+ ":" +:+ dumps_compact kv.2) + 1) d) <=
            Zsum (map (fun kv => 6 * bytes_len kv.1 + 4 + text_bound kv.2) d)) by lia.
    apply Zsum_le. eapply Forall_impl; [exact IH|]. intros kv Hkv. cbn beta in *. rewrite !bytes_len_app.
    change (bytes_len ":") with 1. pose proof (length_json_str kv.1). lia.
Qed.

(** ** A record is read back *)

Lemma read_outputs l : traverse read_output (map canon (map output_doc l)) = Ok l.
Proof. induction l as [|[a b c] l IH]; [done|]. cbn [map traverse]. rewrite IH. reflexivity. Qed.

Section journal.
Context (timestamp : string -> bool).

Lemma from_dict_canon r :
  from_dict timestamp (sort_keys (map (fun kv => (kv.1, canon kv.2)) (to_dict r))) = let* _ := validate_record timestamp r in Ok r.
Proof.
  destruct r as [seq run cap raw line ev bi job ep ex ck st de ti outs prev hash sc so ba cl pl]. pose proof (read_outputs outs) as Ho.
  cbn [to_dict payload map app canon fst snd tr_sequence tr_run_id tr_captured tr_raw_log tr_raw_line tr_event_id tr_binding_id tr_job_id tr_epoch tr_exec_sequence
    tr_cookie tr_status tr_detail tr_ticks tr_outputs tr_previous tr_hash tr_schema tr_source tr_backend tr_class tr_platform].
  revert Ho. generalize (map canon (map output_doc outs)). intros items Ho. unfold from_dict.
  lazy -[validate_record traverse read_output]. rewrite Ho. reflexivity.
Qed.

(** ** What validation establishes *)

Definition counter (z : Z) : Prop := 1 <= z <= UINT64_MAX.
Definition output_ok (o : output) : Prop := counter (co_object_id o) /\ counter (co_generation o) /\ counter (co_version o).

Lemma validate_output_ok o u : validate_output o = Ok u -> output_ok o.
Proof. unfold validate_output. cbn [existsb]. intros H. res_peel H. bool_prop. unfold output_ok, counter. lia. Qed.

Lemma check_outputs_ok pairs l pairs' : foldM new_output pairs l = Ok pairs' -> Forall output_ok l.
Proof.
  revert pairs. induction l as [|o l IH]; intros pairs H; [constructor|]. cbn [foldM] in H. res_peel H. unfold new_output in E. res_peel E.
  constructor; [by eapply validate_output_ok|by eapply IH].
Qed.

Record completion_ok (c : completion) : Prop := {
  ok_job : counter (pc_job_id c); ok_epoch : counter (pc_epoch c); ok_sequence : counter (pc_sequence c); ok_ticks : counter (pc_ticks c);
  ok_line : 1 <= pc_line c; ok_cookie : String.length (pc_cookie c) = 32%nat /\ all_hex_digits (pc_cookie c) = true;
  ok_status : 1 <= pc_status c <= 4; ok_detail : pc_detail c = pc_status c - 1; ok_count : (length (pc_outputs c) <= 4)%nat;
  ok_outputs : Forall output_ok (pc_outputs c) }.

Lemma validate_completion_ok c u : validate_completion c = Ok u -> completion_ok c.
Proof.
  unfold validate_completion. intros H. cbn zeta in H. cbn [existsb app] in H. res_peel H.
  assert (Hd : expected_detail (pc_status c) = Some (pc_detail c)) by (by bool_prop).
  unfold expected_detail in Hd. destruct (bool_decide (1 <= pc_status c <= 4)) eqn:Hs; [|discriminate Hd]. injection Hd as Hd. bool_prop.
  unfold bytes_len, counter in *.
  repeat match goal with H : (_ <? _)%nat = false |- _ => apply Nat.ltb_ge in H end.
  split; unfold counter; try lia; [split; [lia|done]|]. by eapply check_outputs_ok.
Qed.

Record record_ok (r : telemetry) : Prop := {
  ok_provenance : [tr_schema r; tr_source r; tr_backend r; tr_class r; tr_platform r] =
    [TELEMETRY_SCHEMA; TELEMETRY_SOURCE; TELEMETRY_BACKEND; TELEMETRY_CLASS; TELEMETRY_PLATFORM];
  ok_seq : counter (tr_sequence r); ok_raw_line : counter (tr_raw_line r); ok_run : (String.length (tr_run_id r) <= 128)%nat;
  ok_captured : (String.length (tr_captured r) <= 40)%nat;
  ok_digests : Forall (fun s => String.length s = 64%nat) [tr_raw_log r; tr_event_id r; tr_binding_id r; tr_cookie r; tr_previous r; tr_hash r];
  ok_completion : completion_ok (ParsedCompletion (tr_job_id r) (tr_epoch r) (tr_exec_sequence r) "10000000000000000000000000000000"
              (tr_status r) (tr_detail r) (tr_ticks r) (tr_outputs r) (tr_raw_line r));
  ok_hash : tr_hash r = payload_hash r }.

Lemma parse_utc_length s u : parse_utc timestamp s = Ok u -> (String.length s <= 40)%nat.
Proof. unfold parse_utc, bytes_len. destruct (last_char s); [|discriminate]. intros H. res_peel H. bool_prop. lia. Qed.

Lemma validate_record_ok r u : validate_record timestamp r = Ok u -> record_ok r.
Proof.
  unfold validate_record. intros H. res_peel H.
  assert (Hf : forallb is_digest [tr_raw_log r; tr_event_id r; tr_binding_id r; tr_cookie r; tr_previous r; tr_hash r] = true) by (by bool_prop).
  bool_prop. repeat match goal with H : String.eqb _ _ = true |- _ => apply String.eqb_eq in H end.
  split; try done.
  - congruence.
  - match goal with H : bounded_token _ _ = true |- _ => unfold bounded_token in H end. bool_prop. unfold bytes_len in *. lia.
  - by eapply parse_utc_length.
  - apply Forall_forall. intros s Hs. rewrite forallb_forall in Hf. apply list_elem_of_In in Hs. specialize (Hf s Hs). unfold is_digest, bytes_len in Hf. bool_prop. lia.
  - by eapply validate_completion_ok.
Qed.
End journal.

Lemma length_pretty_counter z : 0 <= z <= UINT64_MAX -> bytes_len (pretty z) <= 20.
Proof.
  intros [H0 H1]. unfold bytes_len. destruct z as [|p|p]; [cbn; lia| |lia]. rewrite pretty_Z_pos.
  pose proof (length_pretty_go (N.pos p) "" 20) as H. cbn [String.length] in H. rewrite Nat.add_0_r in H.
  apply (Nat2Z.inj_le _ 20), H. change (10 ^ N.of_nat 20)%N with 100000000000000000000%N. unfold UINT64_MAX in H1. lia.
Qed.

(** Computes the lengths of literals. *)
Ltac literal_lengths :=
  repeat match goal with
  | |- context [bytes_len (String ?c ?s)] => let v := eval vm_compute in (bytes_len (String c s)) in change (bytes_len (String c s)) with v
  end.

Lemma outputs_bound l : Forall output_ok l -> Zsum (map (fun v => text_bound v + 1) (map output_doc l)) <= 300 * Z.of_nat (length l).
Proof.
  unfold Zsum. induction 1 as [|[a b c] l (Ha & Hb & Hc) _ IH]; [done|]. unfold counter in *. cbn in Ha, Hb, Hc.
  pose proof (length_pretty_counter a). pose proof (length_pretty_counter b). pose proof (length_pretty_counter c).
  cbn -[pretty bytes_len Z.add Z.mul foldr] in *. unfold Zsum. cbn [foldr]. literal_lengths. lia.
Qed.

(** A journal line is far below the reader's limit. *)
Lemma record_size r : record_ok r -> bytes_len (record_text r) <= 16384.
Proof.
  destruct r as [seq run cap raw line ev bi job ep ex ck st de ti outs prev hash sc so ba cl pl].
  intros [Hp Hs Hl Hr Hc Hd [] _]. unfold record_text. etrans; [apply length_compact|]. cbn in * |-.
  injection Hp as -> -> -> -> ->. pose proof (outputs_bound _ ok_outputs0) as Ho.
  rewrite !Forall_cons in Hd. unfold counter in *.
  pose proof (length_pretty_counter seq). pose proof (length_pretty_counter line). pose proof (length_pretty_counter job). pose proof (length_pretty_counter ep).
  pose proof (length_pretty_counter ex). pose proof (length_pretty_counter st). pose proof (length_pretty_counter de). pose proof (length_pretty_counter ti).
  unfold UINT64_MAX in *. cbn -[pretty bytes_len Z.add Z.mul foldr] in *. unfold Zsum in *. cbn [foldr].
  unfold TELEMETRY_SCHEMA, TELEMETRY_SOURCE, TELEMETRY_BACKEND, TELEMETRY_CLASS, TELEMETRY_PLATFORM. literal_lengths.
  assert (Hlen : forall s n, (String.length s <= n)%nat -> bytes_len s <= Z.of_nat n) by (intros s n; unfold bytes_len; lia).
  pose proof (Hlen run 128%nat). pose proof (Hlen cap 40%nat).
  destruct Hd as (? & ? & ? & ? & ? & ? & _).
  pose proof (Hlen raw 64%nat). pose proof (Hlen ev 64%nat). pose proof (Hlen bi 64%nat). pose proof (Hlen ck 64%nat). pose proof (Hlen prev 64%nat). pose proof (Hlen hash 64%nat).
  lia.
Qed.

(** ** Journals *)

Section chains.
Context (timestamp : string -> bool).

Definition valid (r : telemetry) : Prop := validate_record timestamp r = Ok tt.

Lemma valid_ok r : valid r -> record_ok r.
Proof. apply validate_record_ok. Qed.

Lemma read_record_text r : valid r -> read_record timestamp (record_text r) = Ok r.
Proof.
  intros H. unfold read_record, record_text. rewrite json_loads_compact by apply record_json. cbn [bind canon]. rewrite from_dict_canon. by rewrite H.
Qed.

Lemma read_record_valid raw r : read_record timestamp raw = Ok r -> valid r.
Proof.
  unfold read_record. intros H. destruct (json_loads _ raw) as [v|]; [|discriminate H]. cbn [bind] in H. destruct v as [| | | | | |d]; try discriminate H.
  unfold from_dict in H. destruct (negb _); [discriminate H|]. res_peel H. apply Ok_inj in H as <-. unfold valid.
  match goal with H : validate_record _ ?r = Ok ?u |- _ => destruct u; exact H end.
Qed.

Lemma journal_line_record records r i : valid r -> chained records r = true -> journal_line timestamp records (i, record_text r) = Ok (records ++ [r]).
Proof.
  intros Hv Hc. unfold journal_line. cbn zeta beta iota.
  rewrite (proj2 (Z.ltb_ge _ _)) by (by apply record_size, valid_ok). rewrite read_record_text, Hc by done.
  by destruct (record_text r) eqn:E; [unfold record_text in E; cbn in E|].
Qed.

Lemma journal_line_Ok records records' iraw :
  journal_line timestamp records iraw = Ok records' -> exists r, records' = records ++ [r] /\ valid r /\ chained records r = true.
Proof.
  destruct iraw as [i raw]. unfold journal_line. cbn zeta beta iota. intros H. destruct (_ || _); [discriminate H|].
  destruct (read_record timestamp raw) as [r|e] eqn:Hr; [|by destruct e]. destruct (chained records r) eqn:Hc; [|discriminate H].
  apply Ok_inj in H as <-. exists r. split_and!; [done|by eapply read_record_valid|done].
Qed.

(** [l] continues the chain [l0]. *)
Definition continues (l0 l : list telemetry) : Prop := forall i r, l !! i = Some r -> valid r /\ chained (l0 ++ take i l) r = true.

Lemma continues_nil l0 : continues l0 [].
Proof. intros i r H. by rewrite lookup_nil in H. Qed.
Lemma continues_snoc l0 l r : continues l0 (l ++ [r]) <-> continues l0 l /\ valid r /\ chained (l0 ++ l) r = true.
Proof.
  split.
  - intros H. split.
    + intros i x Hi. pose proof (lookup_lt_Some _ _ _ Hi). specialize (H i x). rewrite lookup_app_l, take_app_le in H by lia. auto.
    + specialize (H (length l) r). rewrite list_lookup_middle in H by done. rewrite take_app_length in H. auto.
  - intros (H & Hv & Hc) i x [Hi|[Hi Hx]]%lookup_app_Some.
    + pose proof (lookup_lt_Some _ _ _ Hi). rewrite take_app_le by lia. auto.
    + destruct (i - length l)%nat eqn:Hn; [|by rewrite lookup_cons_ne_0 in Hx]. cbn in Hx. injection Hx as ->.
      assert (i = length l) as -> by lia. by rewrite take_app_length.
Qed.

Lemma loop_continues lines l : foldM (journal_line timestamp) [] (enumerate lines) = Ok l -> continues [] l /\ length l = length lines.
Proof.
  revert l. induction lines as [|raw lines IH] using rev_ind; intros l H.
  - apply Ok_inj in H as <-. split; [apply continues_nil|done].
  - rewrite enumerate_snoc, foldM_app in H. destruct (foldM _ [] (enumerate lines)) as [l1|]; [|discriminate H]. cbn [bind foldM] in H.
    destruct (journal_line _ _ _) as [l2|] eqn:Hl; [|discriminate H]. apply Ok_inj in H as <-.
    apply journal_line_Ok in Hl as (r & -> & Hv & Hc). destruct (IH l1 eq_refl) as [Hi Hn]. rewrite !length_app, Hn. split; [|done].
    by apply continues_snoc.
Qed.

Lemma load_data_ended data l : load_data timestamp data = Ok l -> data = "" \/ last_char data = Some (chr 10).
Proof.
  unfold load_data. intros H. destruct (String.eqb_spec data ""); [by left|]. right. cbn [negb andb] in H.
  destruct (negb (bool_decide _)) eqn:E; [discriminate H|]. by bool_prop.
Qed.
Lemma load_data_loop data l : load_data timestamp data = Ok l -> foldM (journal_line timestamp) [] (enumerate (byte_lines data)) = Ok l.
Proof. unfold load_data. destruct (_ && _); [discriminate|done]. Qed.

Lemma last_char_line s r l : last_char (s +:+ record_lines (l ++ [r])) = Some (chr 10).
Proof.
  rewrite record_lines_app, record_lines_cons. change (String (chr 10) (record_lines [])) with (str1 10).
  unfold last_char. rewrite !list_ascii_app. rewrite !app_assoc. apply last_snoc.
Qed.

(** The reader takes back the records that continue what it has read. *)
Lemma load_extend data l more :
  load_data timestamp data = Ok l -> continues l more -> load_data timestamp (data +:+ record_lines more) = Ok (l ++ more).
Proof.
  intros Hl Hc. pose proof (load_data_ended _ _ Hl) as He. apply load_data_loop in Hl.
  assert (Hloop : foldM (journal_line timestamp) [] (enumerate (byte_lines data ++ map record_text more)) = Ok (l ++ more)).
  { clear He. induction more as [|r more IH] using rev_ind; [by rewrite !app_nil_r|]. apply continues_snoc in Hc as (Hc & Hv & Hr).
    rewrite map_app, !app_assoc. cbn [map]. rewrite enumerate_snoc, foldM_app, IH by done. cbn [bind foldM]. by rewrite journal_line_record. }
  unfold load_data. rewrite byte_lines_ended, byte_lines_records, Hloop by done.
  destruct more as [|r more _] using rev_ind.
  - rewrite append_nil_r. destruct He as [->|He]; [done|]. rewrite He. by rewrite bool_decide_true, andb_false_r.
  - rewrite last_char_line. by rewrite bool_decide_true, andb_false_r.
Qed.

Lemma add_event_continues raw_hash run_id now l additions e additions' :
  add_event timestamp raw_hash run_id now l additions e = Ok additions' ->
  event_digest raw_hash e ∈ map tr_event_id (l ++ additions') /\
  (additions' = additions \/ exists r, additions' = additions ++ [r] /\ valid r /\ chained (l ++ additions) r = true).
Proof.
  unfold add_event. cbn zeta. intros H. destruct (bool_decide _) eqn:Hk.
  - bool_prop. apply Ok_inj in H as <-. by split; [|left].
  - res_peel H. apply Ok_inj in H as <-. bool_prop. match goal with H : validate_record _ ?r = Ok ?u |- _ => set (rec := r) in *; destruct u end.
    split; [rewrite !map_app; set_solver|]. right. exists rec. split_and!; [done|done|]. unfold chained. subst rec.
    cbn [tr_sequence tr_previous tr_event_id tr_binding_id with_hash]. rewrite String.eqb_refl, !bool_decide_false by done. rewrite length_app. cbn [negb]. rewrite !andb_true_r. apply Z.eqb_eq. lia.
Qed.

Lemma add_events_continue raw_hash run_id now l events additions more :
  continues l additions -> foldM (add_event timestamp raw_hash run_id now l) additions events = Ok more ->
  continues l more /\ (exists new, more = additions ++ new) /\ forall e, e ∈ events -> event_digest raw_hash e ∈ map tr_event_id (l ++ more).
Proof.
  revert additions. induction events as [|e events IH]; intros additions Hc H.
  - apply Ok_inj in H as <-. split_and!; [done|exists []; by rewrite app_nil_r|by intros e ?%elem_of_nil].
  - cbn [foldM] in H. destruct (add_event _ _ _ _ _ _ _) as [additions'|] eqn:Ha; [|discriminate H]. cbn [bind] in H.
    apply add_event_continues in Ha as (Hin & Hadd).
    assert (continues l additions' /\ exists new, additions' = additions ++ new) as (Hc' & new & Hnew).
    { destruct Hadd as [->|(r & -> & Hv & Hr)]; [split; [done|exists []; by rewrite app_nil_r]|]. split; [by apply continues_snoc|by eexists]. }
    destruct (IH _ Hc' H) as (H1 & (new' & ->) & H3). split_and!; [done|exists (new ++ new'); by rewrite Hnew, app_assoc|].
    intros x [->|Hx]%elem_of_cons; [|auto]. revert Hin. rewrite !map_app, !elem_of_app. tauto.
Qed.

(** Known events add nothing. *)
Lemma add_events_known raw_hash run_id now l events :
  (forall e, e ∈ events -> event_digest raw_hash e ∈ map tr_event_id l) -> foldM (add_event timestamp raw_hash run_id now l) [] events = Ok [].
Proof.
  induction events as [|e events IH]; intros H; [done|]. cbn [foldM]. unfold add_event at 1. cbn zeta. rewrite app_nil_r, bool_decide_true by (apply H; left).
  cbn [bind]. apply IH. intros; apply H; by right.
Qed.
End chains.
