(* ===== verification/CompletionLog.v ===== *)
(** * Completion telemetry: the console log

    The host's parser reads back the completions that the guest prints among
    other lines of the console. *)

From S2P Require Import Prelude PyValue Json JsonFacts FoldWire FoldWireFacts FoldLines FoldLinesFacts Sha256 Sha256Facts Workspace WorkspaceFacts Completion CompletionFacts.
From Stdlib Require Import Ascii.

(** A completion as the guest has it. *)
Record frame := Frame {
  fr_job : Z; fr_epoch : Z; fr_sequence : Z; fr_cookie : list Z; fr_status : Z; fr_detail : Z; fr_ticks : Z; fr_outputs : list output }.

Definition line_of (f : frame) : string :=
  frame_text (fr_job f) (fr_epoch f) (fr_sequence f) (fr_cookie f) (fr_status f) (fr_detail f) (fr_ticks f) (fr_outputs f).
(** The event of a frame on a line. *)
Definition event_of (number : Z) (f : frame) : completion :=
  ParsedCompletion (fr_job f) (fr_epoch f) (fr_sequence f) (tohex (fr_cookie f)) (fr_status f) (fr_detail f) (fr_ticks f) (fr_outputs f) number.

(** A line of the console: a completion, or anything else. *)
Inductive printed := Completed (f : frame) | Other (text : string).
Definition text_of (p : printed) : string := match p with Completed f => line_of f | Other s => s end.
Definition console (l : list printed) : string := String.concat "" (map (fun p => emitted (text_of p)) l).
Definition events_at (ip : Z * printed) : list completion := match ip.2 with Completed f => [event_of (ip.1 + 1) f] | Other _ => [] end.
Definition console_events (l : list printed) : list completion := concat (map events_at (enumerate l)).

Definition frame_ok (f : frame) : Prop := Forall is_byte (fr_cookie f) /\ validate_completion (event_of 1 f) = Ok tt.
Definition printed_ok (p : printed) : Prop :=
  match p with Completed f => frame_ok f | Other s => all_chars no_end s = true /\ String.prefix TELEMETRY_PREFIX s = false end.

(** ** The parts of a frame *)

Lemma span_pretty z rest : 0 <= z -> no_digit rest -> exists ds, ds <> "" /\ span_digits 0 (pretty z +:+ rest) = (z, ds, rest).
Proof.
  intros Hz Hr. destruct z as [|p|p]; [| |lia].
  - exists "0". split; [done|]. change (pretty 0 +:+ rest) with (String "0" rest). cbn [span_digits]. change (is_digit "0") with true. cbn iota.
    by rewrite span_no_digit.
  - rewrite pretty_Z_pos, parse_digits by done. eexists. split; [|reflexivity]. by destruct (pretty_go_head (N.pos p) "") as (c & r & -> & _).
Qed.

Lemma take_positive_pretty z rest : 1 <= z -> no_digit rest -> take_positive (pretty z +:+ rest) = Some (z, rest).
Proof.
  intros Hz Hr. destruct (span_pretty z rest) as (ds & _ & Hs); [lia|done|]. destruct z as [|p|p]; [lia| |lia].
  rewrite pretty_Z_pos in *. destruct (pretty_go_head (N.pos p) "") as (c & r & Hc & Hd & H0); [done|]. rewrite Hc in *. rewrite append_cons in *.
  unfold take_positive. rewrite Hs. assert ((49 <=? code c) && (code c <=? 57) = true) as ->; [|done].
  apply digit_code in Hd. lia.
Qed.

Lemma split_concat sep l : l <> [] -> Forall (fun s => all_chars (fun c => negb (Ascii.eqb c sep)) s = true) l -> split sep (String.concat (String sep "") l) = l.
Proof.
  assert (Hgo : forall t cur rest, all_chars (fun c => negb (Ascii.eqb c sep)) t = true ->
    split_go sep cur (t +:+ rest) = split_go sep (cur +:+ t) rest).
  { induction t as [|c t IH]; intros cur rest Ht; [by rewrite append_nil_r|]. rewrite all_chars_cons in Ht. apply andb_true_iff in Ht as [Hc Ht].
    rewrite append_cons. cbn [split_go]. apply negb_true_iff in Hc. rewrite Hc, IH by done. by rewrite <- append_assoc. }
  unfold split. intros Hne Hl. destruct l as [|s l]; [done|]. clear Hne. revert s Hl. induction l as [|s' l IH]; intros s Hl; apply Forall_cons in Hl as [Hs Hl].
  - cbn [String.concat]. rewrite <- (append_nil_r s) at 1. rewrite Hgo by done. done.
  - change (String.concat (String sep "") (s :: s' :: l)) with (s +:+ String sep (String.concat (String sep "") (s' :: l))).
    rewrite Hgo by done. cbn [split_go]. rewrite Ascii.eqb_refl. change ("" +:+ s) with s. by rewrite IH.
Qed.

Lemma digits_chars (p : ascii -> bool) z : (forall c, is_hex c = true -> p c = true) -> 0 <= z -> all_chars p (pretty z) = true.
Proof. intros Hp Hz. apply (all_chars_impl is_hex); [done|]. by apply pretty_hex. Qed.
Lemma cookie_chars (p : ascii -> bool) l : (forall c, is_hex c = true -> p c = true) -> Forall is_byte l -> all_chars p (tohex l) = true.
Proof. intros Hp Hl. apply (all_chars_impl is_hex); [done|]. by apply all_hex_tohex. Qed.

Lemma int_text_pretty z : 0 <= z -> int_text (pretty z) = Some z.
Proof.
  intros Hz. unfold int_text. destruct (span_pretty z "") as (ds & Hne & Hs); [done|done|]. rewrite append_nil_r in Hs. rewrite Hs.
  by destruct (String.eqb_spec ds "").
Qed.

Lemma hex_not c d : is_hex c = true -> is_hex d = false -> negb (Ascii.eqb c d) = true.
Proof. intros Hc Hd. apply negb_true_iff. destruct (Ascii.eqb_spec c d) as [->|]; [congruence|done]. Qed.

Lemma output_text_concat o : output_text o = String.concat (String ":" "") [pretty (co_object_id o); pretty (co_generation o); pretty (co_version o)].
Proof. reflexivity. Qed.

Lemma parse_output_text o : output_ok o -> parse_output (output_text o) = Some o.
Proof.
  destruct o as [a b c]. intros (Ha & Hb & Hc). unfold counter in *. cbn [co_object_id co_generation co_version] in *.
  unfold parse_output. rewrite output_text_concat, split_concat; [|done|].
  - cbn [mapM co_object_id co_generation co_version]. by rewrite !int_text_pretty by lia.
  - cbn [co_object_id co_generation co_version]. repeat constructor; apply digits_chars; try lia; intros; by apply hex_not.
Qed.

Definition output_char (c : ascii) : bool := Json.is_digit c || Ascii.eqb c ":" || Ascii.eqb c ",".

Lemma pretty_digits z : 0 <= z -> all_chars Json.is_digit (pretty z) = true.
Proof.
  intros Hz. destruct z as [|p|p]; [done| |lia]. rewrite pretty_Z_pos.
  assert (H : forall n s, all_chars Json.is_digit s = true -> all_chars Json.is_digit (pretty_N_go n s) = true); [|by apply H].
  intros n. induction (N.lt_wf_0 n) as [n _ IH]; intros s Hs. destruct (decide (n = 0)%N) as [->|Hn]; [done|]. rewrite pretty_N_go_step by lia.
  apply IH; [apply N.div_lt; lia|]. rewrite all_chars_cons, Hs, andb_true_r. destruct (digit_char_spec (n `mod` 10)) as (Hd & _); [by apply N.mod_lt|done].
Qed.

Lemma output_text_chars o : output_ok o -> all_chars (fun c => Json.is_digit c || Ascii.eqb c ":") (output_text o) = true.
Proof.
  intros (Ha & Hb & Hc). unfold counter in *. unfold output_text. rewrite !all_chars_app.
  assert (H : forall z, 0 <= z -> all_chars (fun c => Json.is_digit c || Ascii.eqb c ":") (pretty z) = true).
  { intros z Hz. eapply all_chars_impl; [|by apply pretty_digits]. intros c ->. done. }
  rewrite !H by lia. done.
Qed.

Lemma parse_outputs_text l : Forall output_ok l -> parse_outputs (outputs_text l) = Some l /\ is_outputs (outputs_text l) = true.
Proof.
  intros Hl. destruct l as [|o l]; [done|]. unfold outputs_text. set (l' := o :: l) in *.
  assert (Hc : Forall (fun s => all_chars (fun c => Json.is_digit c || Ascii.eqb c ":") s = true) (map output_text l')).
  { apply Forall_map. eapply Forall_impl; [exact Hl|]. intros; by apply output_text_chars. }
  assert (Hall : all_chars output_char (String.concat "," (map output_text l')) = true).
  { apply all_chars_concat; [done|]. eapply Forall_impl; [exact Hc|]. cbn beta. intros s. apply all_chars_impl. unfold output_char. intros c ->. done. }
  assert (Hm : mapM parse_output (map output_text l') = Some l').
  { clear Hc Hall. clearbody l'. induction Hl as [|x l'' Hx _ IH]; [done|]. cbn [map mapM]. rewrite parse_output_text by done. cbn. by rewrite IH. }
  assert (Hh : exists c r, String.concat "," (map output_text l') = String c r /\ c <> "-"%char).
  { assert (exists t, String.concat "," (map output_text l') = pretty (co_object_id o) +:+ t) as [t Ht].
    { subst l'. destruct l as [|o' l]; [by eexists|]. cbn [map String.concat]. unfold output_text at 1. rewrite <- !append_assoc. by eexists. }
    destruct (pretty_head (co_object_id o)) as (c & r & Hp & _). rewrite Hp, append_cons in Ht. exists c, (r +:+ t). split; [done|].
    intros ->. rewrite Ht, all_chars_cons in Hall. discriminate Hall. }
  destruct Hh as (c & r & Hs & Hne). unfold parse_outputs, is_outputs.
  destruct (String.eqb_spec (String.concat "," (map output_text l')) "-") as [E|_]; [rewrite E in Hs; injection Hs as <-; done|].
  split.
  - change "," with (String "," "") at 1. rewrite split_concat; [done|done|]. eapply Forall_impl; [exact Hc|]. cbn beta. intros s. apply all_chars_impl.
    apply ascii_forallb_impl. vm_compute. reflexivity.
  - cbn [orb]. rewrite Hs at 1. cbn [negb andb String.eqb]. exact Hall.
Qed.

Lemma output_text_size o : output_ok o -> bytes_len (output_text o) <= 62.
Proof.
  intros (Ha & Hb & Hc). unfold counter, output_text in *. rewrite !bytes_len_app. literal_lengths.
  pose proof (length_pretty_counter (co_object_id o)). pose proof (length_pretty_counter (co_generation o)). pose proof (length_pretty_counter (co_version o)). lia.
Qed.

(** ** A frame *)

Lemma no_digit_head c s : is_digit c = false -> no_digit (String c s).
Proof. done. Qed.

Section frame.
Variables (f : frame) (number : Z).
Hypotheses (Hf : frame_ok f) (Hn : 1 <= number).

Lemma frame_completion : completion_ok (event_of number f).
Proof. destruct Hf as [_ H]. apply validate_completion_ok in H as []. by split. Qed.

Lemma frame_validates : validate_completion (event_of number f) = Ok tt.
Proof.
  destruct Hf as [_ H]. unfold validate_completion in *. cbn [pc_job_id pc_epoch pc_sequence pc_cookie pc_status pc_detail pc_ticks pc_outputs pc_line event_of] in *.
  rewrite existsb_app in *. cbn [existsb] in *. rewrite (proj2 (Z.ltb_ge number 1)) by done. exact H.
Qed.

Lemma cookie_length : length (fr_cookie f) = 16%nat.
Proof. destruct (ok_cookie _ frame_completion) as [H _]. cbn in H. rewrite length_tohex in H. lia. Qed.

Lemma frame_groups_line :
  frame_groups (line_of f) =
    Some (fr_job f, fr_epoch f, fr_sequence f, tohex (fr_cookie f), fr_status f, fr_detail f, fr_ticks f, outputs_text (fr_outputs f)).
Proof.
  pose proof frame_completion as []. unfold counter in *. cbn [event_of pc_job_id pc_epoch pc_sequence pc_cookie pc_status pc_detail pc_ticks pc_outputs pc_line] in *.
  destruct Hf as [Hb _]. pose proof cookie_length as Hc. pose proof (parse_outputs_text _ ok_outputs) as [_ Ho].
  unfold frame_groups, line_of, frame_text.
  rewrite strip_prefix_app. cbn beta iota. rewrite take_positive_pretty by (lia || done). cbn beta iota.
  rewrite strip_prefix_app. cbn beta iota. rewrite take_positive_pretty by (lia || done). cbn beta iota.
  rewrite strip_prefix_app. cbn beta iota. rewrite take_positive_pretty by (lia || done). cbn beta iota.
  rewrite strip_prefix_app. cbn beta iota. rewrite take_hex_tohex by (done || lia). cbn beta iota.
  rewrite strip_prefix_app. cbn beta iota. rewrite take_one_digit by (rewrite ?elem_of_cons; lia). cbn beta iota.
  rewrite strip_prefix_app. cbn beta iota. rewrite take_one_digit by (rewrite ?elem_of_cons; lia). cbn beta iota.
  rewrite strip_prefix_app. cbn beta iota. rewrite take_positive_pretty by (lia || done). cbn beta iota.
  rewrite strip_prefix_app. cbn beta iota. by rewrite Ho.
Qed.

(** Its characters are printable ASCII. *)
Definition plain (c : ascii) : bool := (32 <=? code c) && (code c <=? 126).

Lemma outputs_plain : all_chars plain (outputs_text (fr_outputs f)) = true.
Proof.
  pose proof (ok_outputs _ frame_completion) as Ho. cbn in Ho. apply parse_outputs_text in Ho as [_ Ho]. unfold is_outputs in Ho.
  apply orb_true_iff in Ho as [->%String.eqb_eq|Ho]; [done|]. apply andb_true_iff in Ho as [_ Ho]. eapply all_chars_impl; [|exact Ho].
  apply ascii_forallb_impl. vm_compute. reflexivity.
Qed.

Lemma line_plain : all_chars plain (line_of f) = true.
Proof.
  pose proof frame_completion as []. unfold counter in *. cbn [event_of pc_job_id pc_epoch pc_sequence pc_cookie pc_status pc_detail pc_ticks pc_outputs pc_line] in *.
  destruct Hf as [Hb _]. assert (Hx : forall c, is_hex c = true -> plain c = true) by (apply ascii_forallb_impl; vm_compute; reflexivity).
  unfold line_of, frame_text. rewrite !all_chars_app, outputs_plain, cookie_chars, !digits_chars by (done || lia). done.
Qed.

Lemma frame_line_size : bytes_len (line_of f) <= MAX_LINE_BYTES.
Proof.
  pose proof frame_completion as []. unfold counter in *. cbn [event_of pc_job_id pc_epoch pc_sequence pc_cookie pc_status pc_detail pc_ticks pc_outputs pc_line] in *.
  assert (Ho : bytes_len (outputs_text (fr_outputs f)) <= 1 + 64 * Z.of_nat (length (fr_outputs f))).
  { unfold outputs_text. destruct (fr_outputs f) as [|o l]; [done|]. etrans; [apply length_concat_sum|]. rewrite map_map. etrans.
    - apply (Zsum_le _ (fun _ => 64)). eapply Forall_impl; [exact ok_outputs|]. intros x Hx. apply output_text_size in Hx. change (bytes_len ",") with 1. lia.
    - generalize (o :: l). induction l0 as [|x l0 IH]; [done|]. unfold Zsum in *. cbn [map foldr length]. lia. }
  unfold line_of, frame_text. rewrite !bytes_len_app. literal_lengths.
  assert (bytes_len (tohex (fr_cookie f)) = 32) as -> by (unfold bytes_len; by rewrite length_tohex, cookie_length).
  pose proof (length_pretty_counter (fr_job f)). pose proof (length_pretty_counter (fr_epoch f)). pose proof (length_pretty_counter (fr_sequence f)).
  pose proof (length_pretty_counter (fr_status f)). pose proof (length_pretty_counter (fr_detail f)). pose proof (length_pretty_counter (fr_ticks f)).
  unfold MAX_LINE_BYTES, UINT64_MAX in *. lia.
Qed.

Lemma remove_cr_plain s : all_chars plain s = true -> remove_cr s = s.
Proof.
  induction s as [|c s IH]; [done|]. rewrite all_chars_cons. intros [Hc Hs]%andb_true_iff. cbn [remove_cr]. destruct s as [|d s]; [|by rewrite IH].
  destruct (code c =? 13) eqn:E; [|done]. unfold plain in Hc. lia.
Qed.

Lemma parse_frame_line : parse_frame number (line_of f) = Ok (event_of number f).
Proof.
  unfold parse_frame. replace (existsb _ _) with false.
  - rewrite remove_cr_plain, frame_groups_line by apply line_plain.
    destruct (parse_outputs_text _ (ok_outputs _ frame_completion)) as [Ho _]. cbn [event_of pc_outputs] in Ho. rewrite Ho. cbn zeta. fold (event_of number f).
    by rewrite frame_validates.
  - symmetry. apply not_true_iff_false. intros (c & Hc & Hc')%existsb_exists. pose proof line_plain as Hp. unfold all_chars in Hp. rewrite forallb_forall in Hp.
    specialize (Hp c Hc). unfold plain in Hp. lia.
Qed.
End frame.

(** ** The console *)

Lemma byte_lines_crlf cur t rest :
  all_chars no_end t = true -> byte_lines_go cur (t +:+ String (chr 13) (String (chr 10) rest)) = (cur +:+ t) :: byte_lines rest.
Proof.
  revert cur. induction t as [|c t IH]; intros cur Ht.
  - cbn. by rewrite append_nil_r.
  - rewrite all_chars_cons in Ht. apply andb_true_iff in Ht as [Hc Ht]. rewrite append_cons. cbn [byte_lines_go].
    unfold no_end in Hc. apply negb_true_iff in Hc. rewrite Hc, IH by done. by rewrite <- append_assoc.
Qed.

Lemma console_cons p l : console (p :: l) = text_of p +:+ String (chr 13) (String (chr 10) (console l)).
Proof.
  unfold console, emitted. cbn [map]. by rewrite string_concat_cons, <- append_assoc.
Qed.

Lemma printed_no_end p : printed_ok p -> all_chars no_end (text_of p) = true.
Proof.
  destruct p as [f|s]; cbn; [|by intros []]. intros Hf. eapply all_chars_impl; [|by apply (line_plain f 1)].
  apply ascii_forallb_impl. vm_compute. reflexivity.
Qed.

Lemma console_lines l : Forall printed_ok l -> byte_lines (console l) = map text_of l.
Proof.
  induction 1 as [|p l Hp _ IH]; [done|]. rewrite console_cons. unfold byte_lines at 1. rewrite byte_lines_crlf by (by apply printed_no_end).
  cbn [map]. by rewrite IH.
Qed.

Lemma console_ends l : l <> [] -> ends_line (console l) = true.
Proof.
  destruct l as [|p l _] using rev_ind; [done|]. intros _. assert (exists s, console (l ++ [p]) = s +:+ str1 10) as [s ->].
  { clear. induction l as [|q l [s IH]]; cbn [app]; rewrite console_cons.
    - exists (text_of p +:+ str1 13). by rewrite <- append_assoc.
    - rewrite IH. exists (text_of q +:+ String (chr 13) (String (chr 10) s)). by rewrite <- append_assoc. }
  unfold ends_line, last_char. rewrite list_ascii_app. cbn [String.list_ascii_of_string str1]. by rewrite last_snoc.
Qed.

Lemma console_events_snoc l p : console_events (l ++ [p]) = console_events l ++ events_at (Z.of_nat (length l), p).
Proof. unfold console_events. rewrite enumerate_snoc, map_app, concat_app. cbn [map concat]. by rewrite app_nil_r. Qed.

Lemma log_lines l :
  Forall printed_ok l -> NoDup (map binding_of (console_events l)) -> foldM log_line [] (enumerate (map text_of l)) = Ok (console_events l).
Proof.
  induction l as [|p l IH] using rev_ind; [done|]. intros [Hl Hp]%Forall_app Hnd. apply Forall_cons in Hp as [Hp _].
  rewrite console_events_snoc, map_app in Hnd. apply NoDup_app in Hnd as (Hnd & Hnew & _).
  rewrite map_app. cbn [map]. rewrite enumerate_snoc, foldM_app, IH by done. cbn [bind foldM]. rewrite console_events_snoc, length_map.
  unfold log_line. destruct p as [f|s]; cbn [text_of events_at fst snd printed_ok] in *.
  - rewrite (proj2 (Z.ltb_ge _ _)) by (by apply (frame_line_size f 1)). change (String.prefix TELEMETRY_PREFIX (line_of f)) with true. cbn [negb].
    rewrite parse_frame_line by (done || lia). cbn [bind]. rewrite bool_decide_false; [done|].
    intros Hin. apply (Hnew _ Hin). by left.
  - destruct Hp as [_ Hp]. rewrite Hp, app_nil_r. by destruct (_ <? _).
Qed.

(** C19. A log in which the guest printed completions, each on a line of its own with a carriage return and a
    line feed, between any other lines that do not start like one, is read to exactly those completions with their
    line numbers, in order, when they are valid, their bindings differ and the log is within the size limit. *)
Theorem console_log_roundtrip l :
  Forall printed_ok l -> NoDup (map binding_of (console_events l)) -> console_events l <> [] -> bytes_len (console l) <= MAX_LOG_BYTES ->
  parse_log (File true 1 (console l)) = Ok (sha256_hex (ascii_bytes (console l)), console_events l).
Proof.
  intros Hl Hnd Hne Hsize. unfold parse_log. cbn [fi_regular fi_links fi_data negb orb Z.eqb Pos.eqb]. rewrite (proj2 (Z.ltb_ge _ _)) by done. cbn zeta.
  rewrite console_lines, log_lines by done. cbn [bind]. rewrite console_ends by (by intros ->). rewrite andb_false_r. cbn [andb].
  by rewrite bool_decide_false.
Qed.

Lemma console_log_roundtrip_witness :
  let l := [Other "boot"; Completed (Frame 7 1 2 telemetry_cookie 1 0 37 [CompletionOutput 2 4 6; CompletionOutput 3 1 18446744073709551615]);
            Other ""; Completed (Frame 7 1 3 telemetry_cookie 3 2 12 [])] in
  map pc_line (console_events l) = [2; 4] /\ parse_log (File true 1 (console l)) = Ok (sha256_hex (ascii_bytes (console l)), console_events l).
Proof.
  split; [reflexivity|]. apply console_log_roundtrip; [|apply (bool_decide_unpack _); vm_compute; exact I|discriminate|apply Z.leb_le; vm_compute; reflexivity].
  repeat constructor; vm_compute; done.
Defined.
