(* ===== verification/CompletionRun.v ===== *)
(** * Completion telemetry: theorems

    A journal only grows, a log is ingested once, a record fixes the records
    before it, a write that is cut inside a record leaves a journal that no call reads,
    and the host reads the lines that the guest prints. *)

From S2P Require Import Prelude PyValue Json JsonFacts FoldWire FoldWireFacts FoldLines FoldLinesFacts GridWords Sha256 Sha256Facts Workspace WorkspaceFacts Completion CompletionFacts.
From Stdlib Require Import Ascii.

Section runs.
Context (timestamp : string -> bool).

Definition journal_data (j : option file) : string := match j with Some f => fi_data f | None => "" end.

(** The calls of a sequence, one after another. *)
Definition ingests (j : option file) (calls : list ingest_call) : option file := foldl (fun j c => (ingest timestamp j c).1) j calls.

(** [os.write] takes all the bytes or raises. *)
Definition whole_writes (c : ingest_call) : Prop := forall text n, ca_write c text = Ok n -> n = bytes_len text.

Lemma load_store j l : load timestamp j = Ok l ->
  check_store (default (File true 1 "") j) = Ok tt /\ fi_data (default (File true 1 "") j) = journal_data j /\ load_data timestamp (journal_data j) = Ok l.
Proof.
  destruct j as [f|]; cbn; intros H; [|by split_and!]. destruct (check_store f) as [[]|] eqn:Hc; [|discriminate H]. by split_and!.
Qed.

Lemma load_file data : load timestamp (Some (File true 1 data)) = load_data timestamp data.
Proof. done. Qed.

(** What an accepted or refused call does to the bytes of a journal that loads. *)
Lemma append_cases c raw_hash events data l data' r :
  load_data timestamp data = Ok l -> append_events timestamp c raw_hash events data = (data', r) ->
  (data' = data /\ exists e, r = Err e) \/
  (exists more, continues timestamp l more /\ (forall e, e ∈ events -> event_digest raw_hash e ∈ map tr_event_id (l ++ more)) /\
     (more = [] /\ data' = data /\ r = Ok 0 \/
      exists n, ca_write c (record_lines more) = Ok n /\ data' = data +:+ String.substring 0 (Z.to_nat n) (record_lines more) /\
        r = if n =? bytes_len (record_lines more) then let* _ := ca_sync c in Ok (Z.of_nat (length more)) else Err (OSError "short telemetry journal write"))).
Proof.
  intros Hl. unfold append_events. rewrite Hl. cbn [bind]. destruct (foldM _ [] events) as [more|e] eqn:Hm; [|intros [= <- <-]; left; eauto].
  apply add_events_continue in Hm as (Hc & _ & Hin); [|apply continues_nil]. destruct more as [|r0 more].
  - intros [= <- <-]. right. exists []. split_and!; [done|done|by left].
  - cbn zeta. destruct (ca_write c _) as [n|e] eqn:Hw; intros [= <- <-]; [|left; eauto]. right. exists (r0 :: more). split_and!; [done|done|]. right. by exists n.
Qed.

(** A call either stops before the journal is read or works on its bytes. *)
Lemma ingest_cases j c l j' r :
  load timestamp j = Ok l -> ingest timestamp j c = (j', r) ->
  (j' = j /\ exists e, r = Err e) \/
  (exists raw_hash events data', parse_log (ca_log c) = Ok (raw_hash, events) /\
     append_events timestamp c raw_hash events (journal_data j) = (data', r) /\ j' = Some (File true 1 data')).
Proof.
  intros Hl. apply load_store in Hl as (Hs & Hd & Hl). unfold ingest. destruct (negb (bounded_token _ _)); [intros [= <- <-]; left; eauto|].
  destruct (parse_log (ca_log c)) as [[raw_hash events]|e]; cbn [bind]; [|intros [= <- <-]; left; eauto].
  destruct (negb (ca_real_parent c)); [intros [= <- <-]; left; eauto|]. cbn zeta. rewrite Hs, Hd.
  destruct (append_events _ _ _ _ _) as [data' r'] eqn:Ha. intros [= <- <-]. right. by exists raw_hash, events, data'.
Qed.

Lemma ingest_appends j c l :
  load timestamp j = Ok l -> whole_writes c ->
  exists more, load timestamp (ingest timestamp j c).1 = Ok (l ++ more) /\ journal_data (ingest timestamp j c).1 = journal_data j +:+ record_lines more.
Proof.
  intros Hl Hw. destruct (ingest timestamp j c) as [j' r] eqn:Hi. cbn [fst].
  assert (Hnone : exists more, load timestamp j = Ok (l ++ more) /\ journal_data j = journal_data j +:+ record_lines more).
  { exists []. by rewrite app_nil_r, append_nil_r. }
  destruct (ingest_cases _ _ _ _ _ Hl Hi) as [[-> _]|(raw_hash & events & data' & _ & Ha & ->)]; [done|].
  apply load_store in Hl as (_ & _ & Hl). rewrite load_file. cbn [journal_data fi_data].
  destruct (append_cases _ _ _ _ _ _ _ Hl Ha) as [[-> _]|(more & Hc & _ & [(_ & -> & _)|(n & Hn & -> & _)])].
  - exists []. by rewrite app_nil_r, append_nil_r.
  - exists []. by rewrite app_nil_r, append_nil_r.
  - apply Hw in Hn as ->. unfold bytes_len. rewrite Nat2Z.id, substring_all. exists more. split; [by apply load_extend|done].
Qed.

(** C15. A journal that loads still loads after any sequence of calls of [ingest_qemu_log], accepted or not,
    whose writes take all their bytes or raise (and whose [fsync] may fail): its records are the old ones followed by new ones, and its
    bytes the old ones followed by the lines of the new records. *)
Theorem journal_append_only j l calls :
  load timestamp j = Ok l -> Forall whole_writes calls ->
  exists more, load timestamp (ingests j calls) = Ok (l ++ more) /\ journal_data (ingests j calls) = journal_data j +:+ record_lines more.
Proof.
  revert j l. induction calls as [|c calls IH]; intros j l Hl Hw.
  - exists []. by rewrite app_nil_r, append_nil_r.
  - apply Forall_cons in Hw as [Hc Hw]. destruct (ingest_appends j c l Hl Hc) as (more & Hm & Hd).
    destruct (IH _ _ Hm Hw) as (more' & Hm' & Hd'). exists (more ++ more'). unfold ingests in *. cbn [foldl].
    rewrite Hm', Hd', Hd, record_lines_app. by rewrite <- app_assoc, <- append_assoc.
Qed.

(** C18. After a call that returned, the same log adds nothing, whatever the run, the clock and the system do:
    the call returns zero and leaves the journal as it is. *)
Theorem ingest_once j l c j1 n c' :
  load timestamp j = Ok l -> ingest timestamp j c = (j1, Ok n) ->
  ca_log c' = ca_log c -> bounded_token (ca_run_id c') 128 = true -> ca_real_parent c' = true -> ingest timestamp j1 c' = (j1, Ok 0).
Proof.
  intros Hl Hi Hlog Hrun Hp. destruct (ingest_cases _ _ _ _ _ Hl Hi) as [[_ [? [=]]] |(raw_hash & events & data' & Hlg & Ha & ->)].
  apply load_store in Hl as (_ & _ & Hl).
  assert (exists l1, load_data timestamp data' = Ok l1 /\ forall e, e ∈ events -> event_digest raw_hash e ∈ map tr_event_id l1) as (l1 & Hl1 & Hin).
  { destruct (append_cases _ _ _ _ _ _ _ Hl Ha) as [[_ [? [=]]] |(more & Hc & Hin & [(-> & -> & _)|(k & _ & -> & Hk)])].
    - exists l. by rewrite app_nil_r in Hin.
    - destruct (k =? bytes_len _) eqn:Hb; [|discriminate Hk]. apply Z.eqb_eq in Hb as ->. unfold bytes_len. rewrite Nat2Z.id, substring_all.
      exists (l ++ more). split; [by apply load_extend|done]. }
  unfold ingest. rewrite Hrun, Hlog, Hlg, Hp. unfold append_events. cbn -[load_data foldM record_lines]. rewrite Hl1. cbn [bind]. by rewrite add_events_known.
Qed.

(** ** A record fixes its past *)

(** Two records of two journals whose payloads are different documents with one digest. *)
Definition digest_collision (l l' : list telemetry) : Prop :=
  exists r r', r ∈ l /\ r' ∈ l' /\ canonical (VDict (payload r)) <> canonical (VDict (payload r')) /\
    sha256 (canonical (VDict (payload r))) = sha256 (canonical (VDict (payload r'))).

Lemma tohex_inj a b : Forall is_byte a -> Forall is_byte b -> tohex a = tohex b -> a = b.
Proof. intros Ha Hb H. apply (f_equal fromhex) in H. rewrite !fromhex_tohex in H by done. by injection H. Qed.

Lemma outputs_inj l l' : map canon (map output_doc l) = map canon (map output_doc l') -> l = l'.
Proof. intros H. pose proof (read_outputs l) as Hl. rewrite H, read_outputs in Hl. by injection Hl. Qed.

Lemma payload_inj r r' : canonical (VDict (payload r)) = canonical (VDict (payload r')) -> tr_hash r = tr_hash r' -> r = r'.
Proof.
  intros H Hh. apply canonical_inj in H; [|apply payload_json|apply payload_json].
  destruct r as [x1 x2 x3 x4 x5 x6 x7 x8 x9 x10 x11 x12 x13 x14 outs x16 x17 x18 x19 x20 x21 x22], r' as [y1 y2 y3 y4 y5 y6 y7 y8 y9 y10 y11 y12 y13 y14 outs' y16 y17 y18 y19 y20 y21 y22].
  cbn [canon payload map fst snd tr_sequence tr_run_id tr_captured tr_raw_log tr_raw_line tr_event_id tr_binding_id tr_job_id tr_epoch tr_exec_sequence
    tr_cookie tr_status tr_detail tr_ticks tr_outputs tr_previous tr_hash tr_schema tr_source tr_backend tr_class tr_platform] in *.
  pose proof (outputs_inj outs outs') as Ho. revert H Ho. generalize (map canon (map output_doc outs)) (map canon (map output_doc outs')). intros a b H Ho.
  lazy in H. injection H. clear H. intros. assert (outs = outs') as -> by (by apply Ho). subst. reflexivity.
Qed.

Lemma same_hash l l' i j r r' :
  continues timestamp [] l -> continues timestamp [] l' -> l !! i = Some r -> l' !! j = Some r' -> tr_hash r = tr_hash r' ->
  i = j /\ r = r' \/ digest_collision l l'.
Proof.
  intros Hc Hc' Hi Hj Hh. destruct (Hc _ _ Hi) as [Hv Hs], (Hc' _ _ Hj) as [Hv' Hs'].
  apply valid_ok, ok_hash in Hv as Hp, Hv' as Hp'.
  destruct (decide (canonical (VDict (payload r)) = canonical (VDict (payload r')))) as [He|He].
  - apply payload_inj in He as <-; [|done]. left. split; [|done]. unfold chained in Hs, Hs'. bool_prop. cbn [app] in *.
    pose proof (lookup_lt_Some _ _ _ Hi). pose proof (lookup_lt_Some _ _ _ Hj). rewrite length_take in *. lia.
  - right. exists r, r'. split_and!; [by eapply list_elem_of_lookup_2|by eapply list_elem_of_lookup_2|done|].
    apply tohex_inj; [apply sha256_bytes|apply sha256_bytes|]. change (payload_hash r = payload_hash r'). congruence.
Qed.

(** C16. A hash fixes a journal: when two journals that load hold records of one hash, the records are at one
    position and all records up to them are equal, or the journals themselves exhibit two different payloads
    with one SHA-256 digest. *)
Theorem record_hash_fixes_past d d' l l' i j r r' :
  load_data timestamp d = Ok l -> load_data timestamp d' = Ok l' -> l !! i = Some r -> l' !! j = Some r' -> tr_hash r = tr_hash r' ->
  i = j /\ take (S i) l = take (S i) l' \/ digest_collision l l'.
Proof.
  intros Hl Hl' Hi Hj Hh. apply load_data_loop, loop_continues in Hl as [Hc _], Hl' as [Hc' _].
  revert j r r' Hi Hj Hh. induction i as [|i IH]; intros j r r' Hi Hj Hh.
  all: destruct (same_hash _ _ _ _ _ _ Hc Hc' Hi Hj Hh) as [[<- <-]|]; [|by right].
  - left. split; [done|]. by rewrite !(take_S_r _ _ r).
  - pose proof (lookup_lt_Some _ _ _ Hi). pose proof (lookup_lt_Some _ _ _ Hj).
    destruct (l !! i) as [p|] eqn:Hp; [|apply lookup_ge_None in Hp; lia]. destruct (l' !! i) as [p'|] eqn:Hp'; [|apply lookup_ge_None in Hp'; lia].
    assert (tr_hash p = tr_hash p') as Hpp.
    { destruct (Hc _ _ Hi) as [_ Hs], (Hc' _ _ Hj) as [_ Hs']. unfold chained, last_hash in *. cbn [app] in *.
      rewrite (take_S_r _ _ p) in Hs by done. rewrite (take_S_r _ _ p') in Hs' by done. rewrite !last_snoc in *. bool_prop.
      repeat match goal with H : String.eqb _ _ = true |- _ => apply String.eqb_eq in H end. congruence. }
    destruct (IH _ _ _ eq_refl Hp' Hpp) as [[_ Ht]|]; [|by right]. left. split; [done|].
    by rewrite (take_S_r _ _ r), (take_S_r l' _ r), Ht.
Qed.

(** ** Writes that are cut *)

(** [os.write] takes some of the bytes, or raises. *)
Definition partial_writes (c : ingest_call) : Prop := forall text n, ca_write c text = Ok n -> 0 <= n <= bytes_len text.

Lemma substring_app_r a b n : String.substring 0 (String.length a + n) (a +:+ b) = a +:+ String.substring 0 n b.
Proof. induction a as [|c a IH]; [done|]. rewrite !append_cons. cbn. by rewrite IH. Qed.
Lemma substring_app_l a b n : (n <= String.length a)%nat -> String.substring 0 n (a +:+ b) = String.substring 0 n a.
Proof.
  revert n. induction a as [|c a IH]; intros n Hn; [destruct n; [by destruct b|cbn in Hn; lia]|]. rewrite append_cons. destruct n; [done|]. cbn in *. rewrite IH by lia. done.
Qed.
Lemma all_chars_substring p n s : all_chars p s = true -> all_chars p (String.substring 0 n s) = true.
Proof.
  revert n. induction s as [|c s IH]; intros n H; [by destruct n|]. destruct n; [done|]. cbn [String.substring]. rewrite all_chars_cons in *.
  apply andb_true_iff in H as [Hc Hs]. by rewrite Hc, IH.
Qed.
Lemma last_char_all p s c : all_chars p s = true -> last_char s = Some c -> p c = true.
Proof. unfold all_chars, last_char. intros Hp Hc. rewrite forallb_forall in Hp. apply Hp, list_elem_of_In. apply last_Some in Hc as [l ->]. set_solver. Qed.
Lemma last_char_app a b c : last_char b = Some c -> last_char (a +:+ b) = Some c.
Proof. unfold last_char. rewrite list_ascii_app. intros H. by rewrite last_app, H. Qed.
Lemma last_char_nonempty s : s <> "" -> exists c, last_char s = Some c.
Proof.
  intros H. unfold last_char. destruct (list.last _) eqn:E; [by eexists|]. apply last_None in E. destruct s; [done|discriminate E].
Qed.

(** A prefix of journal lines is whole lines, or ends inside one. *)
Lemma lines_prefix l n :
  (exists k, String.substring 0 n (record_lines l) = record_lines (take k l)) \/
  exists c, last_char (String.substring 0 n (record_lines l)) = Some c /\ printable c = true.
Proof.
  revert n. induction l as [|r l IH]; intros n; [left; exists 0%nat; by destruct n|]. rewrite record_lines_cons.
  destruct (decide (n <= String.length (record_text r))%nat) as [Hn|Hn].
  - rewrite substring_app_l by done. pose proof (all_chars_substring _ n _ (record_text_printable r)) as Hp.
    destruct (decide (String.substring 0 n (record_text r) = "")) as [->|He]; [left; by exists 0%nat|]. right.
    destruct (last_char_nonempty _ He) as [c Hc]. exists c. split; [done|]. by eapply last_char_all.
  - replace n with (String.length (record_text r) + S (n - String.length (record_text r) - 1))%nat by lia. rewrite substring_app_r. cbn [String.substring].
    destruct (IH (n - String.length (record_text r) - 1)%nat) as [[k ->]|(c & Hc & Hp)].
    + left. exists (S k). cbn [take]. by rewrite record_lines_cons.
    + right. exists c. split; [|done]. apply last_char_app. apply (last_char_app (str1 10)). done.
Qed.

Lemma continues_take l0 l k : continues timestamp l0 l -> continues timestamp l0 (take k l).
Proof.
  intros H i r Hi. apply lookup_take_Some in Hi as [Hi Hk]. destruct (H i r Hi) as [Hv Hc]. rewrite take_take, Nat.min_l by lia. done.
Qed.

Definition PARTIAL : string := "telemetry journal has a partial final record".

(** No call changes a journal that does not load. *)
Lemma ingest_refused data c e : load_data timestamp data = Err e -> exists e', ingest timestamp (Some (File true 1 data)) c = (Some (File true 1 data), Err e').
Proof.
  intros H. unfold ingest. destruct (negb (bounded_token _ _)); [by eexists|]. destruct (parse_log (ca_log c)) as [[h events]|]; [|by eexists]. cbn [bind].
  destruct (negb (ca_real_parent c)); [by eexists|]. unfold append_events. cbn -[load_data foldM]. rewrite H. by eexists.
Qed.

(** C17. After a write that the system cuts short, the journal either still loads, with some whole records
    more, or ends inside a record: then the call raised, every [load] raises, and every later call, with any
    log and any system, raises and leaves the journal as it is. *)
Theorem cut_write_blocks j l c j' r :
  load timestamp j = Ok l -> partial_writes c -> ingest timestamp j c = (j', r) ->
  (exists more, load timestamp j' = Ok (l ++ more)) \/
  (exists e, r = Err e) /\ load timestamp j' = fail PARTIAL /\ forall c', exists e, ingest timestamp j' c' = (j', Err e).
Proof.
  intros Hl Hw Hi. assert (Hsame : exists more, Ok (A := list telemetry) l = Ok (l ++ more)) by (exists []; by rewrite app_nil_r).
  destruct (ingest_cases _ _ _ _ _ Hl Hi) as [[-> _]|(raw_hash & events & data' & _ & Ha & ->)]; [left; by rewrite Hl|].
  apply load_store in Hl as (_ & _ & Hl). rewrite load_file.
  destruct (append_cases _ _ _ _ _ _ _ Hl Ha) as [[-> _]|(more & Hc & _ & [(_ & -> & _)|(n & Hn & -> & ->)])]; [left; by rewrite Hl|left; by rewrite Hl|].
  destruct (lines_prefix more (Z.to_nat n)) as [[k Hk]|(ch & Hch & Hp)].
  - left. rewrite Hk. exists (take k more). apply load_extend; [done|]. by apply continues_take.
  - right. apply (last_char_app (journal_data j)) in Hch as Hcut. assert (Hload : load_data timestamp (journal_data j +:+ String.substring 0 (Z.to_nat n) (record_lines more)) = fail PARTIAL).
    { unfold load_data. rewrite Hcut. destruct (String.eqb_spec (journal_data j +:+ String.substring 0 (Z.to_nat n) (record_lines more)) "") as [E|_]; [by rewrite E in Hcut|].
      rewrite bool_decide_false; [done|]. intros [= ->]. discriminate Hp. }
    split_and!; [|done|intros c'; by eapply ingest_refused]. destruct (n =? bytes_len (record_lines more)) eqn:Hb; [|by eexists]. exfalso.
    apply Z.eqb_eq in Hb as ->. unfold bytes_len in Hch. rewrite Nat2Z.id, substring_all in Hch.
    destruct more as [|r more _] using rev_ind; [discriminate Hch|]. pose proof (last_char_line "" r more) as H. cbn in H.
    change ("" +:+ record_lines (more ++ [r])) with (record_lines (more ++ [r])) in H. rewrite H in Hch. injection Hch as <-. discriminate Hp.
Qed.
End runs.

(** ** Concrete journals *)

Definition any_time (_ : string) : bool := true.
Definition cut_call : ingest_call := Call log_example "run-1" "2026-01-02T03:04:05.000006Z" true (fun text => Ok (Z.min 100 (bytes_len text))) (Ok tt).
Definition later_call : ingest_call := Call log_example "run-2" "2026-01-02T03:04:05.000006Z" true (fun text => Err (OSError "no space")) (Ok tt).
Definition journal_one : string := Eval vm_compute in journal_data (ingest any_time None call_example).1.
Definition loaded (r : res (list telemetry)) : list telemetry := match r with Ok l => l | Err _ => [] end.
Definition records_one : list telemetry := loaded (load_data any_time journal_one).

Lemma journal_append_only_witness :
  exists more, load any_time (ingests any_time None [call_example; later_call]) = Ok ([] ++ more) /\
    journal_data (ingests any_time None [call_example; later_call]) = "" +:+ record_lines more.
Proof.
  apply (journal_append_only any_time None []); [reflexivity|]. repeat constructor; intros text n H; [by injection H as <-|discriminate H].
Defined.

Lemma ingest_once_witness :
  ingest any_time None call_example = (Some (File true 1 journal_one), Ok 2) /\
  ingest any_time (Some (File true 1 journal_one)) later_call = (Some (File true 1 journal_one), Ok 0).
Proof.
  split; [vm_compute; reflexivity|]. apply (ingest_once any_time None [] call_example _ 2); vm_compute; reflexivity.
Defined.

Lemma record_hash_fixes_past_witness :
  length records_one = 2%nat /\
  (1%nat = 1%nat /\ take 2 records_one = take 2 records_one \/ digest_collision records_one records_one).
Proof.
  split; [vm_compute; reflexivity|].
  eapply (record_hash_fixes_past any_time journal_one journal_one records_one records_one 1 1 (List.nth 1 records_one (Telemetry 0 "" "" "" 0 "" "" 0 0 0 "" 0 0 0 [] "" "" "" "" "" "" "")));
    vm_compute; reflexivity.
Defined.

Lemma cut_write_blocks_witness :
  let j' := (ingest any_time None cut_call).1 in
  load any_time j' = fail PARTIAL /\ forall c', exists e, ingest any_time j' c' = (j', Err e).
Proof.
  destruct (cut_write_blocks any_time None [] cut_call (ingest any_time None cut_call).1 (ingest any_time None cut_call).2) as [[more H]|(_ & H1 & H2)].
  - reflexivity.
  - intros text n [= <-]. unfold bytes_len. lia.
  - by destruct (ingest any_time None cut_call).
  - vm_compute in H. discriminate H.
  - by split.
Defined.
